(* ===== verification/_CoqProject ===== *)
-Q . S2P
Prelude.v
CrcTheory.v
CrcTables.v
Crc.v
E2E.v
E2E_P01.v
E2E_P02.v
E2E_Channel.v
E2E_P04.v
E2E_P05.v
E2E_P06.v
E2E_SM.v
Os_Irq.v
Queue.v
Safety_Queue.v
StateMonad.v
WdgM.v
WdgM_Steps.v
WdgM_Theorems.v
ComStack.v
CanTp.v
CanTp_Steps.v
CanTp_Tx.v
CanTp_Rx.v
CanTp_Integrity.v
CanTp_Module.v
CanTp_Node.v
CanTp_Link.v
CanTp_Timeout.v
CanTp_Theorems.v
Com_Signal.v
Com_Packing.v
Com_Codec.v
Com_Types.v
Com.v
Com_Valid.v
Com_Inv.v
Com_Safety.v
Com_Boot.v
Com_Calls.v
Com_Delay.v
Com_Demo.v
Com_Theorems.v
Com_Transfer.v
PduR_Types.v
PduR.v
PduR_Interfaces.v
PduR_Inv.v
PduR_Safety.v
PduR_Gateway.v
PduR_Calls.v
PduR_Boot.v
PduR_Delivery.v
PduR_Demo.v
PduR_Theorems.v
Stack.v
Coroutine.v
Os_Types.v
Os.v
Os_Timers.v
Os_System.v
Os_Inv.v
Os_Update.v
Os_Dispatch.v
Os_Kernel.v
Os_Tasks.v
Os_Resources.v
Os_Timing.v
Os_Interrupts.v
Os_Machine.v
Os_Boot.v
Os_Alarms.v
Os_Clock.v
Os_Alarm_Runs.v
Os_Alarm_Boot.v
Os_Expiry.v
Os_Demo.v
Os_Theorems.v
Os_Windows.v
