(* ===== verification/Prelude.v ===== *)
(** * Verification of the kernel, the safety and the communication core of the Arctic Core classic platform

    The repository is an AUTOSAR basic-software platform in C.  This development
    verifies three groups of its modules.  The kernel of the operating system
    ([system/Os/rtos]): tasks, events, resources, counters, alarms, schedule tables,
    interrupts.  The safety-related core: the CRC and end-to-end
    protection library ([safety_security/SafeLib]), the watchdog manager with the
    watchdog interface ([safety_security/WdgM], [safety_security/WdgIf]) and the two
    queues of [datastructures].  The communication core: the signal layer
    ([communication/Com]), which packs the application's signals into I-PDUs and hands
    them to the PDU router; the PDU router ([communication/PduR]), which passes PDUs
    between the modules above and below it and is a gateway between buses; and the CAN
    transport protocol ([communication/CanTp]), which cuts what does not fit into a CAN
    frame into several.

    ** How the code is modelled

    C integers are [Z] with their wrap-around written out ([u8], [u16], [u32]);
    a byte buffer is a list of bytes, a null pointer is [None] (for the
    services of the operating system, which record the addresses they are given, a pointer is an address and 0 is null); an access outside
    a buffer, or through a null pointer the code does not test, is a fault: the
    operation returns [None].  Structs are records, enums are inductive types,
    return codes are the numbers of the headers.  Every operation is a function
    that can be run.  Objects the code changes through pointers are passed in and
    returned; the modules with static data (watchdog manager, CanTp, Com, PduR) are
    written in a state monad with faults ([StateMonad]).  The modules around them are
    classes of operations on an abstract world ([CanTp_Env], [Com_Env], [PduR_Env]), so
    that a theorem holds whatever they answer.

    ** Files

    - [Prelude]: integer widths, memory blocks, loads and stores, patches of a
      buffer; the hint databases [zbits] and [mem]; shared tactics.
    - [CrcTheory]: the algebra of CRC shift registers (linearity, injectivity, the
      byte-wise decomposition behind tables, burst detection) and [CrcSpec], the
      class that says what a CRC routine promises.
    - [CrcTables], [Crc]: [Crc/src/Crc_8.c], [Crc_16.c], [Crc_32.c], [Crc_32P4.c],
      tables and both build modes of every routine; instances of [CrcSpec].
    - [E2E]: [E2E.h], the class [CrcLib] the profiles are written against and its
      instances from [Crc]; facts shared by the profiles.
    - [E2E_P01], [E2E_P02]: profiles 1 and 2, sender, receiver with its
      synchronisation logic, status mapping.
    - [E2E_Channel]: the class [CounterProfile] of profiles with a wrapping counter,
      an unreliable channel, an ideal receiver that knows the true number of
      data sent since the last one accepted, and the refinement theorem for every
      instance; [E2E_P04], [E2E_P05], [E2E_P06]: the three profiles and
      their instances.
    - [E2E_SM]: the state machine over the statuses of a profile, refined to a
      sliding window over the history.
    - [Os_Irq]: the interrupt lock of [Os.h].
    - [Queue], [Safety_Queue]: the circular buffers, with the interrupt lock of
      [Os.h], refined to a FIFO through the class [FifoImpl].
    - [StateMonad]: state passing with faults; weakest preconditions and the
      derived judgements [preserves], [leads], [yields], [spec] and [triple] with their
      rules.
    - [ComStack]: the types of [ComStack_Types.h] the communication modules share.
    - [WdgM]: [WdgM.c] and [WdgIf.c], all operations; [WdgM_Steps]: what each of
      them changes and that it does not fault; [WdgM_Theorems]: the theorems.

    - [CanTp]: [CanTp.c], [CanTp.h], [CanTp_Types.h], all operations;
      [CanTp_Steps]: the laws of the environment, the segmentation of ISO 15765-2 as
      a function, the effect of each handler; [CanTp_Tx], [CanTp_Rx]:
      transmitting and receiving connections; [CanTp_Integrity], [CanTp_Timeout]:
      receptions, timeouts; [CanTp_Module],
      [CanTp_Node], [CanTp_Link]: from a connection to the module, an
      environment that runs, two nodes on a bus; [CanTp_Theorems].
    - [Com_Signal]: the routines of [Com_misc.c] that read and write a signal;
      [Com_Packing], [Com_Codec]: what they do to the bits of an I-PDU.
      [Com_Types], [Com]: the data and every operation of [Com.c], [Com_Com.c],
      [Com_Sched.c] and [Com_misc.c]; [Com_Valid]: configurations that fit the static
      arrays; [Com_Inv]: the invariant and one rule per access; [Com_Safety],
      [Com_Boot], [Com_Calls]: every operation, the initialisation and sequences of
      calls; [Com_Delay]: transmissions and the passing of time; [Com_Demo]: a
      configuration that runs; [Com_Theorems], [Com_Transfer]: the theorems.
    - [PduR_Types], [PduR], [PduR_Interfaces]: the data of the PDU router, every operation
      of [PduR.c], [PduR_Logic.c] and [PduR_Routing.c], and the interfaces
      [PduR_Com.c], [PduR_CanIf.c], ... of the modules around it; [PduR_Inv]: valid
      configurations, the state of the gateways, the invariant; [PduR_Safety]: one rule
      per access; [PduR_Gateway]: the gateways as an abstract machine, and what its
      histories say about the data; [PduR_Calls]: every call refines a step of it;
      [PduR_Boot]: initialisation and sequences of calls; [PduR_Delivery]: messages get
      through; [PduR_Demo], [PduR_Theorems]: a configuration that runs, the theorems.
    - [Stack]: Com and the router joined: each is an instance of the class of operations
      the other is written against.
    - [Coroutine]: code that can give the processor to another task in the middle, and
      what may be concluded when it gets it back.  [Os_Types], [Os], [Os_Timers],
      [Os_System]: the data of the kernel; tasks, events and resources ([os_task.c],
      [os_event.c], [os_resource.c]); counters, alarms and schedule tables
      ([os_counter.c], [os_alarm.c], [os_sched_table.c]); interrupts and start-up
      ([os_isr.c], [os_init.c], [Os.h]) and the machine that runs them.  [Os_Inv]: valid
      configurations and the invariant; [Os_Update], [Os_Dispatch]: changes of one
      task and the dispatcher; [Os_Kernel], [Os_Tasks], [Os_Resources], [Os_Timing],
      [Os_Interrupts]: every service; [Os_Machine], [Os_Boot]: runs of the machine and
      its start; [Os_Alarms], [Os_Clock], [Os_Alarm_Runs], [Os_Alarm_Boot],
      [Os_Expiry]: alarms as count-downs, what leaves them alone, what their expiry
      does; [Os_Demo], [Os_Theorems]: a small system, the theorems; [Os_Windows]: interrupts in
      the middle of a service.

    ** What the theorems show

    CRC: for every routine the table-driven and the bit-by-bit build compute the same
    function, which can be continued over a split message, and every burst no
    longer than the register is detected.

    E2E: what a profile 1 or 2 receiver reports about lost, repeated and corrupted
    data, from the sender's calls; memory safety; invariant of the receiver's state
    (profile 1).  For profiles 4, 5 and 6, over every sequence of
    sends and empty polls, where any earlier data may arrive at any time, so that they are lost,
    delayed, repeated or overtaken, and with a burst of corruption that lies inside or outside the
    CRC field and is no longer than the CRC, the receiver's
    verdicts are those of the ideal receiver (which knows the distance modulo the
    period of the counter); data of another sender are rejected.  The state machine computes its decision from the last [WindowSize]
    statuses; recovery after errors; [VALID] needs the configured number of good
    statuses.

    Queues: every sequence of operations is that of a bounded FIFO with a lost-data
    flag, and interrupts are left as they were; the safety queue moreover detects
    the change of any byte of its buffer or control structure.

    Watchdog manager: with a valid configuration no sequence of calls faults; the
    state [STOPPED] is final and makes every watchdog expire; an expired entity stops
    the module after exactly the configured number of cycles, whatever is called in
    between; alive supervision evaluates the indications of whole reference cycles;
    logical supervision accepts exactly the executions of the checkpoint graph.

    CanTp: a message given to [CanTp_Transmit] arrives byte for byte on another node
    over a bus that delivers frames in order, within a bounded number of rounds; whatever
    the other modules answer, the frames sent are a prefix of the segmentation of the
    message and success is reported only for all of it; a receiver that misses frames
    never reports success for a wrong message; a transmission that hears nothing more
    ends within the sum of its timeouts.  Each theorem names the lengths and addressing it needs
    (a CAN FD single frame with at most 8 bytes is lost, a finding).

    Com: writing a signal changes exactly its bits, in both byte orders and
    for every type, reading returns what was written, and signals that do not overlap
    do not affect each other; where the access window of a big-endian signal starts
    before the buffer.  With a valid configuration no sequence of calls accesses
    memory outside an array, and every exclusive area is left; two transmissions of an
    I-PDU are separated by the minimum delay, whatever triggers them; a signal
    sent on one node is what another node receives.

    PduR: with a valid configuration no sequence of calls accesses memory outside an
    array, every exclusive area is left, and each buffer in use belongs to exactly one
    routing path; the gateways between transport protocols refine a machine that keeps the
    bytes received and what each destination has fetched, so that no data is altered,
    lost or mixed up; an idle path with a free buffer delivers a whole message to all its
    destinations; a PDU from above reaches exactly the enabled destinations, in order, and
    success is reported when all accepted; when a repeated request reads outside the buffer.

    Stack: a signal sent on one node goes through Com and the router to the CAN interface
    and, indicated there, through the router and Com of another node to its application.

    Operating system: tasks call any service at any point, they are preempted by each
    other and interrupted by service routines that call services too, which may be
    interrupted in turn, between the calls of services.  In every such run from start-up, with a valid configuration:
    no assertion of the kernel fails and no context is restored that was not saved; the
    running preemptable task is the most important one; a resource a task may access is
    never in the hands of another one when the task runs, so that it gets it without
    waiting; queue, states and activations of the tasks agree and no event is lost; an
    alarm of the system counter expires after exactly the ticks it was set for, and then
    periodically, and its task is activated or gets its event in that tick.  An interrupt in the middle of
    [SetEvent] or of a refused [ActivateTask], where the code does not mask interrupts, can make
    an assertion fail later ([os_set_event_race], [os_activate_race]).

    Some theorems state behaviour that differs from a comment, a document or the
    evident intention; each says so in its comment.

    ** Bounds and hypotheses

    Loops over buffers recurse on the buffer or on a counter computed from the
    length argument, so no fuel is needed; only [IncrementCounter], whose alarms can
    increment other counters, has fuel: the number of counters and one, which is enough
    because a valid configuration has a rank for the counters that such alarms decrease
    ([valid_timers]).  Configurations are assumed to be of their
    C types ([typedP01], ...) and accepted by the code's own checks; for the watchdog
    manager, for Com, for PduR and for the operating system [valid] says what the generated arrays satisfy (for Com
    and PduR it is decided by running it).  The callers of PduR respect [call_ok] and
    [polite] of [PduR_Calls]: a received PDU fits the transmit buffer it is copied to, a
    transport protocol uses the paths that are its own, does not ask for data sent before
    and reports success of a reception it has in progress; the router is not called back
    during a call of another module.  Com and PduR may be called with up to 100 nested interrupt
    locks, so that the 8-bit counter of the lock does not overflow in its own areas; the
    shared data may be larger than needed but smaller than [2 ^ 16] bytes, the width of
    the offsets.  The application on the operating system keeps to [call_ok] of
    [Os_Machine]: what that forbids can make an assertion fail or leave the most important
    task waiting.  The round trip of CanTp runs at most [rounds] rounds, computed from
    the length of the message, the block size and STmin.  Not under [src/], hence parameters:
    the representation of a structure as bytes ([Safety_Queue]), the watchdog drivers, the
    comparison function of [Queue_Contains], the call-outs and notifications
    configured for Com (those of a transmitted I-PDU change bytes of it and not its length:
    [Com_EnvOk]).  CanIf, Det, OsekNm and the other modules the router serves are under
    [src/] but not modelled; they are classes of parameters too, as are Com and PduR for each other
    (except in [Stack]) and PduR and CanIf for CanTp, there with the laws [CanTp_Laws] of
    their specifications.

    ** Not modelled

    The version queries; checkpoint supervision across entities (not in the code
    either).  Of the operating system: several cores and spinlocks, scalability classes
    2 to 4 (applications, memory protection, synchronisation of schedule tables), interrupts within a service except in the two windows of
    [Os_Windows] (the theorems of [Os_Theorems] are about interrupts that come between the calls
    of services; most services mask them, [OsTick] and parts of the alarm and schedule table
    services do not), the ARMv7-M end of an interrupt, the
    extensions [CFG_KERNEL_EXTRA] (semaphores, sleeping, mailboxes), hooks of T1 and of
    interrupts, monitoring of stacks, shut-down, the installation of interrupts and the
    assembler of the ports (a context switch is an event of the machine); a task
    of a valid configuration has no internal resource.  The other modules of the
    platform: the rest of the communication stack, the memory and diagnostic stacks,
    drivers, board support, vendored code (lwIP) and tools.  Next in the plan: CanTp
    joined to the router as well, NvM and its queues, J1939Tp and FrTp, the Nm and LinSM
    state machines, BswM and FiM rule evaluation. *)

From Stdlib Require Export ZArith Lia Bool Btauto.
From stdpp Require Export base option list numbers.

#[global] Open Scope Z_scope.

(** ** Fixed-width unsigned integers

    A C object of type [uint8], [uint16] or [uint32] is a [Z] in range; a
    conversion to the type is written out where the source converts. *)
Definition u8 (x : Z) : Z := x mod 2 ^ 8.
Definition u16 (x : Z) : Z := x mod 2 ^ 16.
Definition u32 (x : Z) : Z := x mod 2 ^ 32.

Definition in_width (w x : Z) : Prop := 0 <= x < 2 ^ w.
Abbreviation is_u8 := (in_width 8).
Abbreviation is_u16 := (in_width 16).
Abbreviation is_u32 := (in_width 32).

(** A block of bytes: what a [uint8 *] points at. *)
Abbreviation bytes := (Forall (in_width 8)).

(** ** Memory blocks

    A pointer into a block is the list of the bytes from the pointed-at byte
    to the end of the block; [NULL_PTR] is [None].  An access past the end of
    the block is undefined behaviour in C: here it is [None], a memory fault,
    and every operation that touches memory lives in the option monad. *)
Definition load (m : list Z) (i : Z) : option Z :=
  if 0 <=? i then m !! Z.to_nat i else None.

Definition store (m : list Z) (i v : Z) : option (list Z) :=
  if (0 <=? i) && (i <? Z.of_nat (length m))
  then Some (<[Z.to_nat i := v]> m) else None.

(** [&p[i]] *)
Definition ptr_at (m : list Z) (i : Z) : list Z := drop (Z.to_nat i) m.

(** The bytes [p[i] .. p[i+n-1]]. *)
Definition segment (m : list Z) (i n : Z) : list Z :=
  take (Z.to_nat n) (drop (Z.to_nat i) m).

(** ** Bit-level facts *)

Lemma in_width_pos w x : in_width w x -> 0 <= x.
Proof. unfold in_width; lia. Qed.

Lemma in_width_0 w : 0 <= w -> in_width w 0.
Proof. intros; split; [lia | apply Z.pow_pos_nonneg; lia]. Qed.

Lemma testbit_high w x i : in_width w x -> 0 <= w <= i -> Z.testbit x i = false.
Proof.
  intros [H0 H1] [Hw Hi].
  rewrite <- (Z.mod_small x (2 ^ w)) by lia.
  apply Z.mod_pow2_bits_high; lia.
Qed.

Lemma in_width_bits w x :
  0 <= w -> 0 <= x -> (forall i, w <= i -> Z.testbit x i = false) -> in_width w x.
Proof.
  intros Hw Hx Hb; split; [done |].
  enough (E : x mod 2 ^ w = x)
    by (rewrite <- E; apply Z.mod_pos_bound, Z.pow_pos_nonneg; lia).
  apply Z.bits_inj'; intros i Hi.
  destruct (Z.lt_ge_cases i w).
  - by rewrite Z.mod_pow2_bits_low by lia.
  - rewrite Z.mod_pow2_bits_high by lia; symmetry; apply Hb; lia.
Qed.

Lemma in_width_mod w x : 0 <= w -> in_width w (x mod 2 ^ w).
Proof. intros; apply Z.mod_pos_bound, Z.pow_pos_nonneg; lia. Qed.

Lemma in_width_lxor w a b :
  0 <= w -> in_width w a -> in_width w b -> in_width w (Z.lxor a b).
Proof.
  intros Hw Ha Hb; apply in_width_bits; [done | |].
  - apply Z.lxor_nonneg; unfold in_width in *; lia.
  - intros i Hi; rewrite Z.lxor_spec, !(testbit_high w) by (done || lia); done.
Qed.

Lemma in_width_lor w a b :
  0 <= w -> in_width w a -> in_width w b -> in_width w (Z.lor a b).
Proof.
  intros Hw Ha Hb; apply in_width_bits; [done | |].
  - apply Z.lor_nonneg; unfold in_width in *; lia.
  - intros i Hi; rewrite Z.lor_spec, !(testbit_high w) by (done || lia); done.
Qed.

Lemma in_width_land_r w a b :
  0 <= w -> in_width w b -> in_width w (Z.land a b).
Proof.
  intros Hw Hb; apply in_width_bits; [done | |].
  - apply Z.land_nonneg; unfold in_width in *; lia.
  - intros i Hi; rewrite Z.land_spec, (testbit_high w b) by (done || lia); btauto.
Qed.

Lemma in_width_land_l w a b :
  0 <= w -> in_width w a -> in_width w (Z.land a b).
Proof. rewrite Z.land_comm; apply in_width_land_r. Qed.

Lemma in_width_le v w x : 0 <= v <= w -> in_width v x -> in_width w x.
Proof.
  intros Hvw [H0 H1]; split; [done |].
  pose proof (Z.pow_le_mono_r 2 v w); lia.
Qed.

(** Equality of two [w]-bit integers, bit by bit. *)
Lemma in_width_ext w a b :
  0 <= w -> in_width w a -> in_width w b ->
  (forall i, 0 <= i < w -> Z.testbit a i = Z.testbit b i) -> a = b.
Proof.
  intros Hw Ha Hb Hab; apply Z.bits_inj'; intros i Hi.
  destruct (Z.lt_ge_cases i w); [apply Hab; lia |].
  by rewrite !(testbit_high w) by (done || lia).
Qed.

Lemma testbit_mod_pow2 w x i :
  0 <= w -> 0 <= i -> Z.testbit (x mod 2 ^ w) i = (i <? w) && Z.testbit x i.
Proof.
  intros Hw Hi; destruct (Z.ltb_spec i w).
  - by rewrite Z.mod_pow2_bits_low by lia.
  - by rewrite Z.mod_pow2_bits_high by lia.
Qed.

Lemma testbit_if (b : bool) x y i :
  Z.testbit (if b then x else y) i = if b then Z.testbit x i else Z.testbit y i.
Proof. by destruct b. Qed.

Lemma testbit_1 i : 0 <= i -> Z.testbit 1 i = (i =? 0).
Proof.
  intros; destruct (Z.eqb_spec i 0) as [-> | Hne]; [done |].
  apply (testbit_high 1); unfold in_width; lia.
Qed.

(** A test of one bit through a mask, as the code writes it. *)
Lemma land_pow2_eqb x k :
  0 <= k -> (Z.land x (2 ^ k) =? 0) = negb (Z.testbit x k).
Proof.
  intros Hk; rewrite <- Z.shiftl_1_l.
  destruct (Z.testbit x k) eqn:E; cbn.
  - apply Z.eqb_neq; intros H.
    apply (f_equal (fun z => Z.testbit z k)) in H.
    rewrite Z.land_spec, Z.shiftl_spec, E, Z.sub_diag, Z.testbit_0_l in H by lia; done.
  - apply Z.eqb_eq, Z.bits_inj'; intros i Hi.
    rewrite Z.land_spec, Z.shiftl_spec, Z.testbit_0_l by lia.
    destruct (decide (i = k)) as [-> | Hne]; [by rewrite E |].
    destruct (Z.lt_ge_cases i k); [by rewrite (Z.testbit_neg_r 1), andb_false_r by lia |].
    by rewrite testbit_1, (proj2 (Z.eqb_neq _ _)), andb_false_r by lia.
Qed.

Lemma land_1_eqb x : (Z.land x 1 =? 0) = negb (Z.testbit x 0).
Proof. apply (land_pow2_eqb x 0); lia. Qed.

Create Rewrite HintDb zbits.
#[export] Hint Rewrite Z.lxor_spec Z.land_spec Z.lor_spec Z.testbit_0_l testbit_if : zbits.
#[export] Hint Rewrite Z.shiftl_spec Z.shiftr_spec Z.ones_spec_low Z.ones_spec_high
  testbit_mod_pow2 testbit_1 Z.testbit_neg_r using lia : zbits.

(** [bitwise]: reduce an equality of integers to its bits and push [testbit]
    through the operators. *)
Ltac bitwise i Hi := apply Z.bits_inj'; intros i Hi; autorewrite with zbits.

(** Every constant bit test in the goal is evaluated. *)
Ltac in_range := unfold in_width in *; lia.

(** ** Loads and stores *)

Lemma load_spec m i : 0 <= i -> load m i = m !! Z.to_nat i.
Proof. intros Hi; unfold load; by rewrite (proj2 (Z.leb_le 0 i)). Qed.

Lemma load_in m i : 0 <= i < Z.of_nat (length m) -> exists v, load m i = Some v.
Proof.
  intros Hi; rewrite load_spec by lia; apply lookup_lt_is_Some_2; lia.
Qed.

Lemma load_out m i : Z.of_nat (length m) <= i -> load m i = None.
Proof. intros Hi; rewrite load_spec by lia; apply lookup_ge_None_2; lia. Qed.

Lemma load_Some m i v : load m i = Some v -> 0 <= i < Z.of_nat (length m).
Proof.
  unfold load; destruct (Z.leb_spec 0 i); [| done].
  intros E; apply lookup_lt_Some in E; lia.
Qed.

Lemma load_byte m i v : bytes m -> load m i = Some v -> is_u8 v.
Proof.
  intros Hm; unfold load; destruct (0 <=? i); [| done].
  intros E; by eapply Forall_lookup_1.
Qed.

Lemma store_in m i v :
  0 <= i < Z.of_nat (length m) -> store m i v = Some (<[Z.to_nat i := v]> m).
Proof.
  intros Hi; unfold store.
  by rewrite (proj2 (Z.leb_le 0 i)), (proj2 (Z.ltb_lt i _)) by lia.
Qed.

Lemma store_out m i v : Z.of_nat (length m) <= i -> store m i v = None.
Proof.
  intros Hi; unfold store. by rewrite (proj2 (Z.ltb_ge i _)), andb_false_r by lia.
Qed.

Lemma load_insert_eq m i v :
  0 <= i < Z.of_nat (length m) -> load (<[Z.to_nat i := v]> m) i = Some v.
Proof. intros Hi; rewrite load_spec by lia; apply list_lookup_insert_eq; lia. Qed.

Lemma load_insert_ne m i j v :
  0 <= i -> 0 <= j -> i <> j -> load (<[Z.to_nat i := v]> m) j = load m j.
Proof. intros; rewrite !load_spec by lia; apply list_lookup_insert_ne; lia. Qed.

Lemma bytes_insert m i v : bytes m -> is_u8 v -> bytes (<[i := v]> m).
Proof. intros; by apply Forall_insert. Qed.

Lemma bytes_take n m : bytes m -> bytes (take n m).
Proof. apply Forall_take. Qed.

Lemma bytes_drop n m : bytes m -> bytes (drop n m).
Proof. apply Forall_drop. Qed.

Lemma bytes_segment m i n : bytes m -> bytes (segment m i n).
Proof. intros; by apply bytes_take, bytes_drop. Qed.

Lemma is_u8_u8 x : is_u8 (u8 x).
Proof. apply in_width_mod; lia. Qed.

Lemma length_segment m i n :
  0 <= i -> 0 <= n -> i + n <= Z.of_nat (length m) ->
  length (segment m i n) = Z.to_nat n.
Proof. intros; unfold segment; rewrite length_take, length_drop; lia. Qed.

Create HintDb mem discriminated.
#[export] Hint Resolve bytes_insert bytes_take bytes_drop bytes_segment is_u8_u8
  load_byte : mem.

(** ** Masks

    The masks the code uses on bytes, as bit tests. *)
Lemma in_width_8_le x y : 0 <= x <= y -> is_u8 y -> is_u8 x.
Proof. unfold in_width; lia. Qed.

(** All values of a byte, to prove a fact about bytes by evaluation. *)
Definition all_bytes (f : Z -> bool) : bool := forallb (fun n => f (Z.of_nat n)) (seq 0 256).

Lemma all_bytes_spec f b : all_bytes f = true -> is_u8 b -> f b = true.
Proof.
  unfold all_bytes; rewrite forallb_forall; intros H Hb.
  specialize (H (Z.to_nat b)); rewrite Z2Nat.id in H by in_range.
  apply H, in_seq; in_range.
Qed.

(** ** Overwriting

    [patch data i xs] overwrites the bytes from [i] on with [xs]. *)
Definition patch (data : list Z) (i : nat) (xs : list Z) : list Z :=
  take i data ++ xs ++ drop (i + length xs) data.

Lemma length_patch data i xs :
  (i + length xs <= length data)%nat -> length (patch data i xs) = length data.
Proof. intros; unfold patch; rewrite !length_app, length_take, length_drop; lia. Qed.

Lemma bytes_patch data i xs : bytes data -> bytes xs -> bytes (patch data i xs).
Proof. intros; repeat apply Forall_app_2; auto with mem. Qed.

Lemma lookup_patch data i xs j :
  (i + length xs <= length data)%nat ->
  patch data i xs !! j =
    if decide (i <= j < i + length xs)%nat then xs !! (j - i)%nat else data !! j.
Proof.
  intros Hlen; unfold patch; assert (Hl : length (take i data) = i) by (rewrite length_take; lia).
  destruct (decide (i <= j < i + length xs)%nat).
  - rewrite lookup_app_r, lookup_app_l by lia; by rewrite Hl.
  - destruct (decide (j < i)%nat).
    + rewrite lookup_app_l by lia; by apply lookup_take_lt.
    + rewrite lookup_app_r, lookup_app_r, lookup_drop by lia; f_equal; lia.
Qed.

Lemma load_patch_out data i xs j :
  (i + length xs <= length data)%nat -> 0 <= j ->
  ~ (Z.of_nat i <= j < Z.of_nat i + Z.of_nat (length xs)) ->
  load (patch data i xs) j = load data j.
Proof.
  intros; rewrite !load_spec, lookup_patch by lia; destruct (decide _); [lia | done].
Qed.

Lemma patch_split ys j n :
  (j + n <= length ys)%nat ->
  ys = take j ys ++ segment ys (Z.of_nat j) (Z.of_nat n) ++ drop (j + n) ys.
Proof.
  intros; unfold segment; rewrite !Nat2Z.id, <- drop_drop, take_drop; by rewrite take_drop.
Qed.

Lemma load_patch_in data i xs j :
  (Z.to_nat i + length xs <= length data)%nat -> 0 <= i <= j ->
  j < i + Z.of_nat (length xs) -> load (patch data (Z.to_nat i) xs) j = load xs (j - i).
Proof.
  intros; rewrite !load_spec, lookup_patch by lia.
  destruct (decide _); [f_equal; lia | lia].
Qed.

Lemma patch_patch data i xs ys :
  (i + length xs + length ys <= length data)%nat ->
  patch (patch data i xs) (i + length xs) ys = patch data i (xs ++ ys).
Proof.
  intros; apply list_eq; intros m.
  rewrite !lookup_patch by (rewrite ?length_patch, ?length_app; lia).
  rewrite length_app; repeat destruct (decide _); try lia; try done.
  - rewrite lookup_app_r by lia; f_equal; lia.
  - by rewrite lookup_app_l by lia.
Qed.

(** ** Blocks passed to a callee

    [n] bytes from [p[i]] on, which a callee reads. *)
Definition read_bytes (p : list Z) (i n : Z) : option (list Z) :=
  if (0 <=? i) && (0 <=? n) && (i + n <=? Z.of_nat (length p))
  then Some (segment p i n) else None.
(** The bytes a callee stores from [p[i]] on. *)
Definition write_bytes (p : list Z) (i : Z) (xs : list Z) : option (list Z) :=
  if (0 <=? i) && (i + Z.of_nat (length xs) <=? Z.of_nat (length p))
  then Some (patch p (Z.to_nat i) xs) else None.

Lemma read_bytes_in p i n :
  0 <= i -> 0 <= n -> i + n <= Z.of_nat (length p) -> read_bytes p i n = Some (segment p i n).
Proof. intros. unfold read_bytes. by rewrite !(proj2 (Z.leb_le _ _)) by lia. Qed.

Lemma read_bytes_0 p n :
  0 <= n <= Z.of_nat (length p) -> read_bytes p 0 n = Some (take (Z.to_nat n) p).
Proof. intros. by rewrite read_bytes_in by lia. Qed.

Lemma write_bytes_in p i xs :
  0 <= i -> i + Z.of_nat (length xs) <= Z.of_nat (length p) ->
  write_bytes p i xs = Some (patch p (Z.to_nat i) xs).
Proof. intros. unfold write_bytes. by rewrite !(proj2 (Z.leb_le _ _)) by lia. Qed.

Lemma write_bytes_length p i xs p' : 0 <= i -> write_bytes p i xs = Some p' -> length p' = length p.
Proof.
  intros Hi. unfold write_bytes.
  destruct (Z.leb_spec 0 i), (Z.leb_spec (i + Z.of_nat (length xs)) (Z.of_nat (length p))); try done.
  intros [= <-]. apply length_patch. lia.
Qed.

(** ** Arrays of structures *)

(** [array[i]] *)
Definition aref {A} (l : list A) (i : Z) : option A :=
  if 0 <=? i then l !! Z.to_nat i else None.

Lemma aref_lookup {A} (l : list A) i : aref l (Z.of_nat i) = l !! i.
Proof. unfold aref. rewrite (proj2 (Z.leb_le _ _)) by lia. by rewrite Nat2Z.id. Qed.

Lemma aref_Some {A} (l : list A) i a :
  aref l i = Some a <-> 0 <= i /\ l !! Z.to_nat i = Some a.
Proof. unfold aref. destruct (Z.leb_spec 0 i); split; [tauto | tauto | done | lia]. Qed.

Lemma aref_is_Some {A} (l : list A) i : 0 <= i < Z.of_nat (length l) -> is_Some (aref l i).
Proof.
  intros Hi. unfold aref. rewrite (proj2 (Z.leb_le _ _)) by lia. apply lookup_lt_is_Some. lia.
Qed.

Lemma aref_insert {A} (l : list A) i j a v : aref l i = Some a ->
  aref (<[Z.to_nat i := v]> l) j = if decide (j = i) then Some v else aref l j.
Proof.
  intros [Hi Hl]%aref_Some. unfold aref. destruct (decide (j = i)) as [->|Hj].
  - rewrite (proj2 (Z.leb_le _ _)) by done. apply list_lookup_insert_eq. by eapply lookup_lt_Some.
  - destruct (Z.leb_spec 0 j); [|done]. by rewrite list_lookup_insert_ne by lia.
Qed.

(** [R] holds of every element and its index. *)
Definition each {A} (R : nat -> A -> Prop) (l : list A) : Prop := forall i a, l !! i = Some a -> R i a.

Lemma each_insert {A} (R : nat -> A -> Prop) l i a : each R l -> R i a -> each R (<[i := a]> l).
Proof.
  intros HR Ha j b Hj. destruct (decide (i = j)) as [<-|].
  - apply list_lookup_insert_Some in Hj as [(_ & -> & _)|(? & _)]; done.
  - rewrite list_lookup_insert_ne in Hj by done. by apply HR.
Qed.

#[export] Instance each_dec {A} (R : nat -> A -> Prop) (l : list A) :
  (forall i a, Decision (R i a)) -> Decision (each R l).
Proof.
  intros HR. refine (cast_if (decide (Forall (fun x => R x.1 x.2) (imap pair l)))).
  - intros i a Hi. rewrite Forall_lookup in *. apply (f i (i, a)). by rewrite list_lookup_imap, Hi.
  - intros He. apply n. apply Forall_lookup. intros i x Hi. rewrite list_lookup_imap in Hi.
    destruct (l !! i) as [a|] eqn:E; [|done]. injection Hi as <-. by apply He.
Defined.

(** An index of an array of [n] elements. *)
Definition below (i : Z) (n : nat) : Prop := 0 <= i < Z.of_nat n.
#[export] Instance below_dec i n : Decision (below i n).
Proof. unfold below. apply _. Defined.
#[export] Instance in_width_dec w x : Decision (in_width w x).
Proof. unfold in_width. apply _. Defined.
