(* ===== verification/CrcTheory.v ===== *)
(** * Theory of the CRC shift registers

    The mathematics behind [safety_security/SafeLib/Crc]: one bit step of a
    most-significant-bit-first register ([bitstep]) and of its mirror image
    ([rbitstep]), their linearity over exclusive or, their injectivity, the
    byte-at-a-time decomposition that makes a 256-entry table possible, and
    the detection of bursts no longer than the register.  The file ends with
    [CrcSpec], the interface the routines of [Crc.v] promise to their callers. *)

From S2P Require Import Prelude.

(** ** A bit step of the register, most significant bit first *)
Section Register.
Context (w poly : Z) (Hw : 8 <= w) (Hpoly : in_width w poly).

Definition bitstep (c : Z) : Z :=
  Z.lxor (Z.shiftl c 1 mod 2 ^ w) (if Z.testbit c (w - 1) then poly else 0).

Fixpoint steps (n : nat) (c : Z) : Z :=
  match n with O => c | S n => bitstep (steps n c) end.

#[local] Strategy 1000 [bitstep steps].

Lemma bitstep_bit c i :
  0 <= i ->
  Z.testbit (bitstep c) i =
    (i <? w) && xorb (Z.testbit c (i - 1)) (Z.testbit c (w - 1) && Z.testbit poly i).
Proof using Hw Hpoly.
  intros Hi; unfold bitstep; autorewrite with zbits.
  destruct (Z.ltb_spec i w).
  - destruct (Z.testbit c (w - 1)); btauto.
  - rewrite (testbit_high w poly) by (done || lia).
    destruct (Z.testbit c (w - 1)); done.
Qed.

Lemma bitstep_range c : in_width w (bitstep c).
Proof using Hw Hpoly.
  apply in_width_lxor; [lia | apply in_width_mod; lia |].
  destruct (Z.testbit c (w - 1)); [done | apply in_width_0; lia].
Qed.

Lemma bitstep_lxor a b : bitstep (Z.lxor a b) = Z.lxor (bitstep a) (bitstep b).
Proof using Hw Hpoly.
  apply Z.bits_inj'; intros i Hi.
  rewrite Z.lxor_spec, !bitstep_bit, !Z.lxor_spec by done; btauto.
Qed.

Lemma bitstep_0 : bitstep 0 = 0.
Proof using Hw Hpoly.
  apply Z.bits_inj'; intros i Hi.
  rewrite bitstep_bit, !Z.testbit_0_l by done; btauto.
Qed.

Lemma bitstep_small c : in_width (w - 1) c -> bitstep c = Z.shiftl c 1.
Proof using Hw Hpoly.
  intros Hc; apply Z.bits_inj'; intros i Hi.
  rewrite bitstep_bit, (testbit_high (w - 1) c (w - 1)) by (done || lia).
  autorewrite with zbits. destruct (Z.ltb_spec i w); [btauto |].
  rewrite (testbit_high (w - 1)) by (done || lia); done.
Qed.

Lemma steps_range n c : in_width w c -> in_width w (steps n c).
Proof using Hw Hpoly. destruct n; [done | intros; apply bitstep_range]. Qed.

Lemma steps_lxor n a b : steps n (Z.lxor a b) = Z.lxor (steps n a) (steps n b).
Proof using Hw Hpoly.
  induction n as [| n IH]; [done |].
  cbn [steps]; rewrite IH; apply bitstep_lxor.
Qed.

Lemma steps_small n c :
  Z.of_nat n <= w -> in_width (w - Z.of_nat n) c -> steps n c = Z.shiftl c (Z.of_nat n).
Proof using Hw Hpoly.
  induction n as [| n IH]; intros Hn Hc; [by rewrite Z.shiftl_0_r |].
  cbn [steps]; rewrite IH by (lia || (eapply in_width_le; [| exact Hc]; lia)).
  rewrite bitstep_small.
  - rewrite Z.shiftl_shiftl by lia; f_equal; lia.
  - rewrite Z.shiftl_mul_pow2 by lia; destruct Hc as [Hc0 Hc1]; split; [nia |].
    replace (w - 1) with ((w - Z.of_nat (S n)) + Z.of_nat n) by lia.
    rewrite Z.pow_add_r by lia; nia.
Qed.

(** The register is reversible as soon as the polynomial has its constant
    term. *)
Context (Hodd : Z.testbit poly 0 = true).

Lemma bitstep_inj a b :
  in_width w a -> in_width w b -> bitstep a = bitstep b -> a = b.
Proof using Hw Hpoly Hodd.
  intros Ha Hb E.
  assert (Hbit : forall i, 0 <= i -> Z.testbit (bitstep a) i = Z.testbit (bitstep b) i)
    by (intros; by rewrite E).
  assert (Htop : Z.testbit a (w - 1) = Z.testbit b (w - 1)).
  { specialize (Hbit 0 ltac:(lia)); rewrite !bitstep_bit, Hodd in Hbit by lia.
    rewrite !(Z.testbit_neg_r _ (0 - 1)) in Hbit by lia.
    destruct (Z.ltb_spec 0 w); [| lia].
    by rewrite !andb_true_l, !xorb_false_l, !andb_true_r in Hbit. }
  apply (in_width_ext w); [lia | done | done |]; intros i Hi.
  destruct (decide (i = w - 1)) as [-> | Hne]; [done |].
  specialize (Hbit (i + 1) ltac:(lia)); rewrite !bitstep_bit, Htop in Hbit by lia.
  destruct (Z.ltb_spec (i + 1) w); [| lia].
  replace (i + 1 - 1) with i in Hbit by lia.
  rewrite !andb_true_l in Hbit.
  by destruct (Z.testbit a i), (Z.testbit b i), (Z.testbit b (w - 1) && _).
Qed.

Lemma steps_inj n a b :
  in_width w a -> in_width w b -> steps n a = steps n b -> a = b.
Proof using Hw Hpoly Hodd.
  intros Ha Hb; induction n as [| n IH]; [done |]; cbn [steps]; intros E.
  apply IH, bitstep_inj; [by apply steps_range | by apply steps_range | done].
Qed.

Lemma steps_add n m c : steps (n + m) c = steps n (steps m c).
Proof using Type. induction n as [| n IH]; [done |]; cbn; by rewrite IH. Qed.

(** *** A byte at a time *)
Definition upd (c b : Z) : Z := steps 8 (Z.lxor c (Z.shiftl b (w - 8))).

Lemma shift_byte_range b : is_u8 b -> in_width w (Z.shiftl b (w - 8)).
Proof using Hw.
  intros [Hb0 Hb1]; rewrite Z.shiftl_mul_pow2 by lia.
  assert (2 ^ w = 2 ^ 8 * 2 ^ (w - 8)) as E
    by (rewrite <- Z.pow_add_r by lia; f_equal; lia).
  unfold in_width; rewrite E.
  assert (0 < 2 ^ (w - 8)) by (apply Z.pow_pos_nonneg; lia); nia.
Qed.

Lemma upd_range c b : in_width w c -> is_u8 b -> in_width w (upd c b).
Proof using Hw Hpoly.
  intros Hc Hb; apply steps_range, in_width_lxor; [lia | done |].
  by apply shift_byte_range.
Qed.

Lemma fold_upd_range c xs :
  in_width w c -> bytes xs -> in_width w (foldl upd c xs).
Proof using Hw Hpoly.
  intros Hc Hxs; revert c Hc; induction Hxs as [| b xs Hb _ IH]; [done |].
  intros c Hc; apply IH; by apply upd_range.
Qed.

Lemma lxor_cancel_r a b c : Z.lxor a c = Z.lxor b c -> a = b.
Proof using Type.
  intros E; apply (f_equal (fun x => Z.lxor x c)) in E.
  by rewrite !Z.lxor_assoc, !Z.lxor_nilpotent, !Z.lxor_0_r in E.
Qed.

Lemma upd_inj_state a b x :
  in_width w a -> in_width w b -> is_u8 x -> upd a x = upd b x -> a = b.
Proof using Hw Hpoly Hodd.
  intros Ha Hb Hx E; unfold upd in E; apply (steps_inj 8) in E.
  - by apply lxor_cancel_r in E.
  - apply in_width_lxor; [lia | done | by apply shift_byte_range].
  - apply in_width_lxor; [lia | done | by apply shift_byte_range].
Qed.

Lemma fold_upd_inj_state a b xs :
  in_width w a -> in_width w b -> bytes xs -> foldl upd a xs = foldl upd b xs -> a = b.
Proof using Hw Hpoly Hodd.
  intros Ha Hb Hxs; revert a b Ha Hb.
  induction Hxs as [| x xs Hx _ IH]; [done |]; cbn; intros a b Ha Hb E.
  eapply upd_inj_state; eauto; apply IH; auto using upd_range.
Qed.

(** What the byte table holds: the register after eight steps splits into the
    shifted low part and a term that depends on its top byte only. *)
Lemma steps8_split c :
  in_width w c ->
  steps 8 c = Z.lxor (Z.shiftl c 8 mod 2 ^ w)
                     (steps 8 (Z.shiftl (Z.shiftr c (w - 8)) (w - 8))).
Proof using Hw Hpoly.
  intros Hc.
  assert (E : c = Z.lxor (c mod 2 ^ (w - 8)) (Z.shiftl (Z.shiftr c (w - 8)) (w - 8))).
  { bitwise i Hi. destruct (Z.ltb_spec i (w - 8)).
    - rewrite (Z.testbit_neg_r _ (i - _)) by lia; btauto.
    - rewrite Z.shiftr_spec by lia.
      replace (i - (w - 8) + (w - 8)) with i by lia; btauto. }
  rewrite E at 1. rewrite (steps_lxor 8); f_equal.
  rewrite steps_small; [| lia | apply in_width_mod; lia].
  bitwise i Hi. destruct (Z.lt_ge_cases i 8).
  - rewrite !(Z.testbit_neg_r _ (i - _)) by lia; btauto.
  - rewrite testbit_mod_pow2 by lia. f_equal.
    destruct (Z.ltb_spec (i - Z.of_nat 8) (w - 8)), (Z.ltb_spec i w); lia.
Qed.

(** *** Bursts

    The bytes of a burst no longer than the register, aligned at its top. *)
Fixpoint aligned (xs : list Z) : Z :=
  match xs with
  | [] => 0
  | b :: xs => Z.lxor (Z.shiftl b (w - 8)) (Z.shiftr (aligned xs) 8)
  end.

Lemma aligned_range xs : bytes xs -> in_width w (aligned xs).
Proof using Hw.
  induction 1 as [| b xs Hb _ IH]; cbn [aligned]; [apply in_width_0; lia |].
  apply in_width_lxor; [lia | by apply shift_byte_range |].
  apply in_width_bits; [lia | apply Z.shiftr_nonneg; in_range |].
  intros i Hi; rewrite Z.shiftr_spec by lia; apply (testbit_high w); [done | lia].
Qed.

Lemma aligned_low xs i :
  i < w - 8 * Z.of_nat (length xs) -> Z.testbit (aligned xs) i = false.
Proof using Hw.
  revert i; induction xs as [| b xs IH]; intros i Hi; cbn [aligned];
    [apply Z.testbit_0_l |].
  cbn [length] in Hi.
  destruct (Z.lt_ge_cases i 0); [by rewrite Z.testbit_neg_r |].
  autorewrite with zbits. rewrite IH by lia.
  by rewrite ?Z.testbit_neg_r by lia.
Qed.

Lemma fold_upd_aligned c xs :
  bytes xs -> 8 * Z.of_nat (length xs) <= w ->
  foldl upd c xs = steps (8 * length xs) (Z.lxor c (aligned xs)).
Proof using Hw Hpoly.
  intros Hxs; revert c; induction Hxs as [| b xs Hb Hxs IH]; intros c Hlen.
  { by rewrite Z.lxor_0_r. }
  cbn [length] in Hlen. cbn [foldl aligned length].
  rewrite IH by lia.
  replace (8 * S (length xs))%nat with (8 * length xs + 8)%nat by lia.
  rewrite steps_add; f_equal; unfold upd.
  rewrite <- Z.lxor_assoc, (steps_lxor 8 (Z.lxor _ _)); f_equal.
  rewrite steps_small.
  - bitwise i Hi. destruct (Z.lt_ge_cases i 8).
    + rewrite (Z.testbit_neg_r _ (i - _)) by lia. by rewrite aligned_low by lia.
    + rewrite Z.shiftr_spec by lia; f_equal; lia.
  - lia.
  - apply in_width_bits; [lia | apply Z.shiftr_nonneg, (in_width_pos w), aligned_range; done |].
    intros i Hi; rewrite Z.shiftr_spec by lia.
    apply (testbit_high w); [by apply aligned_range | lia].
Qed.

Lemma aligned_inj xs ys :
  bytes xs -> bytes ys -> length xs = length ys -> 8 * Z.of_nat (length xs) <= w ->
  aligned xs = aligned ys -> xs = ys.
Proof using Hw.
  intros Hxs; revert ys; induction Hxs as [| x xs Hx Hxs IH];
    intros [| y ys] Hys Hlen Hw8 E; try done.
  apply Forall_cons_1 in Hys as [Hy Hys]. cbn [length] in *.
  assert (Hbit : forall i, 0 <= i ->
    xorb (Z.testbit x (i - (w - 8))) (Z.testbit (aligned xs) (i + 8)) =
    xorb (Z.testbit y (i - (w - 8))) (Z.testbit (aligned ys) (i + 8))).
  { intros i Hi; apply (f_equal (fun z => Z.testbit z i)) in E.
    cbn [aligned] in E; autorewrite with zbits in E; done. }
  assert (Hhigh : forall zs j, bytes zs -> w <= j -> Z.testbit (aligned zs) j = false)
    by (intros; eapply testbit_high; [by apply aligned_range | lia]).
  assert (x = y) as <-.
  { apply (in_width_ext 8); [lia | done | done |]; intros i Hi.
    specialize (Hbit (i + (w - 8)) ltac:(lia)).
    rewrite !Hhigh, !xorb_false_r in Hbit by (done || lia).
    by replace (i + (w - 8) - (w - 8)) with i in Hbit by lia. }
  f_equal; apply IH; [done | lia | lia |].
  apply Z.bits_inj'; intros i Hi.
  destruct (Z.lt_ge_cases i 8); [by rewrite !aligned_low by lia |].
  specialize (Hbit (i - 8) ltac:(lia)).
  replace (i - 8 + 8) with i in Hbit by lia.
  by destruct (Z.testbit x _), (Z.testbit (aligned xs) i), (Z.testbit (aligned ys) i).
Qed.

(** Two different bursts that fit the register leave different remainders. *)
Lemma fold_upd_burst c xs ys :
  in_width w c -> bytes xs -> bytes ys -> length xs = length ys ->
  8 * Z.of_nat (length xs) <= w -> foldl upd c xs = foldl upd c ys -> xs = ys.
Proof using Hw Hpoly Hodd.
  intros Hc Hxs Hys Hlen Hw8 E.
  rewrite !fold_upd_aligned, <- Hlen in E by (done || lia).
  apply steps_inj in E; [| by apply in_width_lxor; [lia | | apply aligned_range] ..].
  rewrite !(Z.lxor_comm c) in E; apply lxor_cancel_r in E.
  by apply aligned_inj.
Qed.

End Register.

(** ** Mirror images

    [reflect_loop w n bit tmp refl] is the bit-reversal loop of
    [reflectResult] ([w] = 32) and [reflectInData] ([w] = 8) with [n]
    iterations left. *)
Fixpoint reflect_loop (w : Z) (n : nat) (bit tmpData reflection : Z) : Z :=
  match n with
  | O => reflection
  | S n =>
      let reflection :=
        if negb (Z.land tmpData 1 =? 0)
        then Z.lor reflection (Z.shiftl 1 (w - 1 - bit)) else reflection in
      reflect_loop w n (bit + 1) (Z.shiftr tmpData 1) reflection
  end.

Definition mirror (w x : Z) : Z := reflect_loop w (Z.to_nat w) 0 x 0.

Lemma reflect_loop_bit w n bit tmp refl i :
  0 <= i -> 0 <= bit -> bit + Z.of_nat n <= w ->
  Z.testbit (reflect_loop w n bit tmp refl) i =
    Z.testbit refl i
    || ((w - bit - Z.of_nat n <=? i) && (i <? w - bit) && Z.testbit tmp (w - 1 - bit - i)).
Proof.
  intros Hi; revert bit tmp refl; induction n as [| n IH]; intros bit tmp refl Hb Hn.
  { cbn [reflect_loop]. destruct (Z.leb_spec (w - bit - Z.of_nat 0) i),
      (Z.ltb_spec i (w - bit)); try lia; btauto. }
  cbn [reflect_loop]. rewrite IH, land_1_eqb, negb_involutive by lia.
  destruct (decide (i = w - 1 - bit)) as [-> | Hne].
  - replace (w - 1 - bit - (w - 1 - bit)) with 0 by lia.
    destruct (Z.testbit tmp 0) eqn:E.
    + rewrite Z.lor_spec, Z.shiftl_spec, Z.sub_diag by lia; cbn.
      destruct (Z.leb_spec (w - bit - Z.of_nat (S n)) (w - 1 - bit)),
        (Z.ltb_spec (w - 1 - bit) (w - bit)); try lia; btauto.
    + rewrite (Z.testbit_neg_r _ (w - 1 - (bit + 1) - _)) by lia. rewrite !andb_false_r; done.
  - assert (Hs : forall b : bool, Z.testbit (if b then Z.lor refl (Z.shiftl 1 (w - 1 - bit))
        else refl) i = Z.testbit refl i).
    { intros []; [| done]. rewrite Z.lor_spec, Z.shiftl_spec by lia.
      destruct (Z.lt_ge_cases i (w - 1 - bit)).
      - by rewrite (Z.testbit_neg_r 1), orb_false_r by lia.
      - by rewrite testbit_1, (proj2 (Z.eqb_neq _ _)), orb_false_r by lia. }
    rewrite Hs; f_equal.
    destruct (Z.lt_ge_cases i (w - 1 - bit)).
    2: destruct (Z.ltb_spec i (w - (bit + 1))), (Z.ltb_spec i (w - bit)); try lia;
         by rewrite !andb_false_r.
    rewrite Z.shiftr_spec by lia.
    replace (w - 1 - (bit + 1) - i + 1) with (w - 1 - bit - i) by lia; f_equal.
    destruct (Z.leb_spec (w - (bit + 1) - Z.of_nat n) i),
      (Z.leb_spec (w - bit - Z.of_nat (S n)) i),
      (Z.ltb_spec i (w - (bit + 1))), (Z.ltb_spec i (w - bit)); try lia; done.
Qed.

Lemma mirror_bit w x i :
  0 <= w -> 0 <= i -> Z.testbit (mirror w x) i = (i <? w) && Z.testbit x (w - 1 - i).
Proof.
  intros Hw Hi; unfold mirror; rewrite reflect_loop_bit, Z.testbit_0_l by lia.
  rewrite Z2Nat.id by lia; cbn [orb].
  replace (w - 1 - 0 - i) with (w - 1 - i) by lia.
  destruct (Z.leb_spec (w - 0 - w) i), (Z.ltb_spec i (w - 0)), (Z.ltb_spec i w);
    try lia; done.
Qed.

Lemma mirror_range w x : 0 <= w -> in_width w (mirror w x).
Proof.
  intros Hw.
  enough (E : mirror w x mod 2 ^ w = mirror w x) by (rewrite <- E; by apply in_width_mod).
  bitwise i Hi. rewrite mirror_bit by lia. btauto.
Qed.

Lemma mirror_lxor w a b : 0 <= w -> mirror w (Z.lxor a b) = Z.lxor (mirror w a) (mirror w b).
Proof. intros Hw; bitwise i Hi. rewrite !mirror_bit, Z.lxor_spec by lia. btauto. Qed.

Lemma mirror_involutive w x : 0 <= w -> in_width w x -> mirror w (mirror w x) = x.
Proof.
  intros Hw Hx; apply (in_width_ext w); [done | by apply mirror_range | done |].
  intros i Hi; rewrite !mirror_bit by lia.
  replace (w - 1 - (w - 1 - i)) with i by lia.
  by rewrite !(proj2 (Z.ltb_lt _ _)) by lia.
Qed.

Lemma mirror_inj w a b :
  0 <= w -> in_width w a -> in_width w b -> mirror w a = mirror w b -> a = b.
Proof.
  intros Hw Ha Hb E; rewrite <- (mirror_involutive w a), <- (mirror_involutive w b) by done.
  by rewrite E.
Qed.

(** ** The mirrored register, least significant bit first *)
Section Mirrored.
Context (w poly : Z) (Hw : 8 <= w) (Hpoly : in_width w poly).

Definition rbitstep (c : Z) : Z :=
  Z.lxor (Z.shiftr c 1) (if Z.testbit c 0 then mirror w poly else 0).

Fixpoint rsteps (n : nat) (c : Z) : Z :=
  match n with O => c | S n => rbitstep (rsteps n c) end.

#[local] Strategy 1000 [rbitstep rsteps bitstep steps].

Lemma rbitstep_bit c i :
  0 <= i ->
  Z.testbit (rbitstep c) i =
    xorb (Z.testbit c (i + 1)) (Z.testbit c 0 && ((i <? w) && Z.testbit poly (w - 1 - i))).
Proof using Hw.
  intros Hi; unfold rbitstep; autorewrite with zbits.
  rewrite mirror_bit by lia. by destruct (Z.testbit c 0).
Qed.

Lemma rsteps_lxor n a b : rsteps n (Z.lxor a b) = Z.lxor (rsteps n a) (rsteps n b).
Proof using Hw.
  induction n as [| n IH]; [done |]; cbn [rsteps]; rewrite IH.
  apply Z.bits_inj'; intros i Hi.
  rewrite Z.lxor_spec, !rbitstep_bit, !Z.lxor_spec by done; btauto.
Qed.

Lemma rsteps_shiftl n c : rsteps n (Z.shiftl c (Z.of_nat n)) = c.
Proof using Hw.
  revert c; induction n as [| n IH]; intros c; [by rewrite Z.shiftl_0_r |].
  cbn [rsteps]. replace (Z.of_nat (S n)) with (1 + Z.of_nat n) by lia.
  rewrite <- Z.shiftl_shiftl, IH by lia.
  apply Z.bits_inj'; intros i Hi; rewrite rbitstep_bit, !Z.shiftl_spec by lia.
  rewrite (Z.testbit_neg_r c (0 - 1)) by lia.
  replace (i + 1 - 1) with i by lia. btauto.
Qed.

(** The mirrored table step. *)
Lemma rsteps8_split c :
  rsteps 8 c = Z.lxor (Z.shiftr c 8) (rsteps 8 (Z.land c 255)).
Proof using Hw.
  assert (E : c = Z.lxor (Z.shiftl (Z.shiftr c 8) 8) (Z.land c 255)).
  { change 255 with (Z.ones 8). rewrite Z.land_ones by lia.
    bitwise i Hi. destruct (Z.ltb_spec i 8).
    - rewrite (Z.testbit_neg_r _ (i - 8)) by lia; btauto.
    - rewrite Z.shiftr_spec by lia. replace (i - 8 + 8) with i by lia; btauto. }
  rewrite E at 1. rewrite (rsteps_lxor 8); f_equal.
  exact (rsteps_shiftl 8 _).
Qed.

Lemma mirror_bitstep c :
  in_width w c -> mirror w (bitstep w poly c) = rbitstep (mirror w c).
Proof using Hw Hpoly.
  intros Hc; apply Z.bits_inj'; intros i Hi.
  rewrite mirror_bit, rbitstep_bit, !mirror_bit by lia.
  destruct (Z.ltb_spec i w).
  - rewrite bitstep_bit by (done || lia).
    rewrite (proj2 (Z.ltb_lt 0 w)), (proj2 (Z.ltb_lt (w - 1 - i) w)) by lia.
    replace (w - 1 - 0) with (w - 1) by lia.
    replace (w - 1 - (i + 1)) with (w - 1 - i - 1) by lia.
    destruct (Z.ltb_spec (i + 1) w); [btauto |].
    rewrite (Z.testbit_neg_r c (w - 1 - i - 1)) by lia; btauto.
  - destruct (Z.ltb_spec (i + 1) w); [lia | btauto].
Qed.

Lemma mirror_steps n c :
  in_width w c -> mirror w (steps w poly n c) = rsteps n (mirror w c).
Proof using Hw Hpoly.
  intros Hc; induction n as [| n IH]; [done |]; cbn [steps rsteps].
  rewrite <- IH; apply mirror_bitstep; by apply steps_range.
Qed.

Definition rupd (c b : Z) : Z := rsteps 8 (Z.lxor c b).

Lemma mirror_upd c b :
  in_width w c -> is_u8 b ->
  mirror w (upd w poly c (mirror 8 b)) = rupd (mirror w c) b.
Proof using Hw Hpoly.
  intros Hc Hb; unfold upd, rupd.
  rewrite mirror_steps, mirror_lxor; [f_equal; f_equal | lia |].
  - bitwise i Hi. rewrite mirror_bit by lia.
    destruct (Z.ltb_spec i w).
    + rewrite Z.shiftl_spec by lia.
      destruct (Z.lt_ge_cases i 8).
      * rewrite mirror_bit by lia. replace (8 - 1 - (w - 1 - i - (w - 8))) with i by lia.
        by rewrite (proj2 (Z.ltb_lt (w - 1 - i - (w - 8)) 8)) by lia.
      * rewrite Z.testbit_neg_r by lia. symmetry; apply (testbit_high 8); [done | lia].
    + symmetry; apply (testbit_high 8); [done | lia].
  - apply in_width_lxor; [lia | done |]. apply shift_byte_range; [done |].
    apply mirror_range; lia.
Qed.

Lemma mirror_bytes xs : bytes (map (mirror 8) xs).
Proof using Type. induction xs; constructor; [apply mirror_range; lia | done]. Qed.

Lemma fold_rupd_mirror c xs :
  in_width w c -> bytes xs ->
  mirror w (foldl (upd w poly) c (map (mirror 8) xs)) = foldl rupd (mirror w c) xs.
Proof using Hw Hpoly.
  intros Hc Hxs; revert c Hc; induction Hxs as [| b xs Hb _ IH]; [done |].
  intros c Hc; cbn [map foldl]. rewrite IH, mirror_upd; [done | done | done |].
  apply upd_range; [done | done | done | apply mirror_range; lia].
Qed.

Corollary fold_rupd_eq c xs :
  in_width w c -> bytes xs ->
  foldl rupd c xs = mirror w (foldl (upd w poly) (mirror w c) (map (mirror 8) xs)).
Proof using Hw Hpoly.
  intros Hc Hxs; rewrite fold_rupd_mirror by (done || apply mirror_range; lia).
  by rewrite mirror_involutive by (done || lia).
Qed.

Lemma rupd_range c b : in_width w c -> is_u8 b -> in_width w (rupd c b).
Proof using Hw Hpoly.
  intros Hc Hb; rewrite <- (mirror_involutive w c), <- mirror_upd
    by (done || lia || apply mirror_range; lia).
  apply mirror_range; lia.
Qed.

Context (Hodd : Z.testbit poly 0 = true).

Lemma fold_rupd_inj_state a b xs :
  in_width w a -> in_width w b -> bytes xs -> foldl rupd a xs = foldl rupd b xs -> a = b.
Proof using Hw Hpoly Hodd.
  intros Ha Hb Hxs E; rewrite !fold_rupd_eq in E by done.
  apply mirror_inj in E; [| lia | by apply fold_upd_range;
    [.. | apply mirror_range; lia | apply mirror_bytes] ..].
  apply fold_upd_inj_state in E; [| done.. | apply mirror_range; lia
    | apply mirror_range; lia | apply mirror_bytes].
  by apply mirror_inj in E; [| lia | |].
Qed.

Lemma map_mirror_inj xs ys :
  bytes xs -> bytes ys -> map (mirror 8) xs = map (mirror 8) ys -> xs = ys.
Proof using Type.
  intros Hxs; revert ys; induction Hxs as [| x xs Hx _ IH]; intros [| y ys] Hys E;
    try done.
  apply Forall_cons_1 in Hys as [Hy Hys]; cbn in E; injection E as E1 E2.
  f_equal; [by apply (mirror_inj 8) | by apply IH].
Qed.

Lemma fold_rupd_burst c xs ys :
  in_width w c -> bytes xs -> bytes ys -> length xs = length ys ->
  8 * Z.of_nat (length xs) <= w -> foldl rupd c xs = foldl rupd c ys -> xs = ys.
Proof using Hw Hpoly Hodd.
  intros Hc Hxs Hys Hlen Hw8 E; rewrite !fold_rupd_eq in E by done.
  apply mirror_inj in E; [| lia | by apply fold_upd_range;
    [.. | apply mirror_range; lia | apply mirror_bytes] ..].
  apply fold_upd_burst in E; [by apply map_mirror_inj | done.. | apply mirror_range; lia
    | apply mirror_bytes | apply mirror_bytes | by rewrite !length_map
    | by rewrite length_map].
Qed.
End Mirrored.

(** ** The contract of a CRC routine

    [calc data length start first] is a routine of [Crc.h]: [data] is the data
    pointer, [first] the flag [Crc_IsFirstCall].  The contract says which
    register the routine runs and what its callers may rely on. *)
Class CrcSpec (w init xorout : Z)
    (calc : option (list Z) -> Z -> Z -> bool -> option Z) := {
  cs_upd : Z -> Z -> Z;
  cs_width : 8 <= w;
  cs_init : in_width w init;
  cs_xorout : in_width w xorout;
  (** a null data pointer gives the default result *)
  cs_null : forall n s f, calc None n s f = Some 0;
  (** a block that is too short is read past its end *)
  cs_fault : forall p n s f,
    Z.of_nat (length p) < n -> bytes p -> in_width w s -> calc (Some p) n s f = None;
  cs_calc : forall p n s f,
    0 <= n <= Z.of_nat (length p) -> bytes p -> in_width w s ->
    calc (Some p) n s f =
      Some (Z.lxor (foldl cs_upd (if f then init else Z.lxor s xorout)
                          (take (Z.to_nat n) p)) xorout);
  cs_range : forall c xs, in_width w c -> bytes xs -> in_width w (foldl cs_upd c xs);
  cs_inj_state : forall a b xs,
    in_width w a -> in_width w b -> bytes xs ->
    foldl cs_upd a xs = foldl cs_upd b xs -> a = b;
  cs_burst : forall c xs ys,
    in_width w c -> bytes xs -> bytes ys -> length xs = length ys ->
    8 * Z.of_nat (length xs) <= w ->
    foldl cs_upd c xs = foldl cs_upd c ys -> xs = ys
}.

Section CrcClient.
Context {w init xorout calc} {S : CrcSpec w init xorout calc}.

(** The CRC of a message, from a given register. *)
Definition crc_from (c : Z) (xs : list Z) : Z := Z.lxor (foldl cs_upd c xs) xorout.

Lemma crc_from_range c xs : in_width w c -> bytes xs -> in_width w (crc_from c xs).
Proof using Type.
  intros; apply in_width_lxor; [pose proof cs_width; lia | by apply cs_range | apply cs_xorout].
Qed.

Lemma crc_from_unxor c xs : Z.lxor (crc_from c xs) xorout = foldl cs_upd c xs.
Proof using Type.
  unfold crc_from; by rewrite Z.lxor_assoc, Z.lxor_nilpotent, Z.lxor_0_r.
Qed.

Lemma crc_from_app c xs ys :
  crc_from c (xs ++ ys) = crc_from (foldl cs_upd c xs) ys.
Proof using Type. unfold crc_from; by rewrite foldl_app. Qed.

Lemma calc_first p n s :
  0 <= n <= Z.of_nat (length p) -> bytes p -> in_width w s ->
  calc (Some p) n s true = Some (crc_from init (take (Z.to_nat n) p)).
Proof using Type. intros; by rewrite cs_calc. Qed.

(** Continuing a calculation is calculating over the concatenation. *)
Lemma calc_next c xs p n :
  0 <= n <= Z.of_nat (length p) -> bytes p -> in_width w c -> bytes xs ->
  calc (Some p) n (crc_from c xs) false =
    Some (crc_from c (xs ++ take (Z.to_nat n) p)).
Proof using Type.
  intros; rewrite cs_calc by (done || by apply crc_from_range).
  by rewrite crc_from_unxor, crc_from_app.
Qed.

Lemma crc_from_burst c pre xs ys post :
  in_width w c -> bytes pre -> bytes xs -> bytes ys -> bytes post ->
  length xs = length ys -> 8 * Z.of_nat (length xs) <= w -> xs <> ys ->
  crc_from c (pre ++ xs ++ post) <> crc_from c (pre ++ ys ++ post).
Proof using Type.
  intros Hc Hpre Hxs Hys Hpost Hlen Hw8 Hne E; apply Hne.
  unfold crc_from in E; apply lxor_cancel_r in E; rewrite !foldl_app in E.
  apply cs_inj_state in E; [| by repeat apply cs_range ..| done].
  apply cs_burst in E; [done | by apply cs_range | done ..].
Qed.
End CrcClient.
