(* ===== verification/CrcTables.v ===== *)
(** * The CRC tables

    The five constant tables of [safety_security/SafeLib/Crc/src], entry by
    entry as the source lists them. *)

From S2P Require Import Prelude.

(** [Crc_8_Tab], Crc_8.c. *)
Definition Crc_8_Tab : list Z := [
  0x0; 0x1d; 0x3a; 0x27; 0x74; 0x69; 0x4e; 0x53;
  0xe8; 0xf5; 0xd2; 0xcf; 0x9c; 0x81; 0xa6; 0xbb;
  0xcd; 0xd0; 0xf7; 0xea; 0xb9; 0xa4; 0x83; 0x9e;
  0x25; 0x38; 0x1f; 0x2; 0x51; 0x4c; 0x6b; 0x76;
  0x87; 0x9a; 0xbd; 0xa0; 0xf3; 0xee; 0xc9; 0xd4;
  0x6f; 0x72; 0x55; 0x48; 0x1b; 0x6; 0x21; 0x3c;
  0x4a; 0x57; 0x70; 0x6d; 0x3e; 0x23; 0x4; 0x19;
  0xa2; 0xbf; 0x98; 0x85; 0xd6; 0xcb; 0xec; 0xf1;
  0x13; 0xe; 0x29; 0x34; 0x67; 0x7a; 0x5d; 0x40;
  0xfb; 0xe6; 0xc1; 0xdc; 0x8f; 0x92; 0xb5; 0xa8;
  0xde; 0xc3; 0xe4; 0xf9; 0xaa; 0xb7; 0x90; 0x8d;
  0x36; 0x2b; 0xc; 0x11; 0x42; 0x5f; 0x78; 0x65;
  0x94; 0x89; 0xae; 0xb3; 0xe0; 0xfd; 0xda; 0xc7;
  0x7c; 0x61; 0x46; 0x5b; 0x8; 0x15; 0x32; 0x2f;
  0x59; 0x44; 0x63; 0x7e; 0x2d; 0x30; 0x17; 0xa;
  0xb1; 0xac; 0x8b; 0x96; 0xc5; 0xd8; 0xff; 0xe2;
  0x26; 0x3b; 0x1c; 0x1; 0x52; 0x4f; 0x68; 0x75;
  0xce; 0xd3; 0xf4; 0xe9; 0xba; 0xa7; 0x80; 0x9d;
  0xeb; 0xf6; 0xd1; 0xcc; 0x9f; 0x82; 0xa5; 0xb8;
  0x3; 0x1e; 0x39; 0x24; 0x77; 0x6a; 0x4d; 0x50;
  0xa1; 0xbc; 0x9b; 0x86; 0xd5; 0xc8; 0xef; 0xf2;
  0x49; 0x54; 0x73; 0x6e; 0x3d; 0x20; 0x7; 0x1a;
  0x6c; 0x71; 0x56; 0x4b; 0x18; 0x5; 0x22; 0x3f;
  0x84; 0x99; 0xbe; 0xa3; 0xf0; 0xed; 0xca; 0xd7;
  0x35; 0x28; 0xf; 0x12; 0x41; 0x5c; 0x7b; 0x66;
  0xdd; 0xc0; 0xe7; 0xfa; 0xa9; 0xb4; 0x93; 0x8e;
  0xf8; 0xe5; 0xc2; 0xdf; 0x8c; 0x91; 0xb6; 0xab;
  0x10; 0xd; 0x2a; 0x37; 0x64; 0x79; 0x5e; 0x43;
  0xb2; 0xaf; 0x88; 0x95; 0xc6; 0xdb; 0xfc; 0xe1;
  0x5a; 0x47; 0x60; 0x7d; 0x2e; 0x33; 0x14; 0x9;
  0x7f; 0x62; 0x45; 0x58; 0xb; 0x16; 0x31; 0x2c;
  0x97; 0x8a; 0xad; 0xb0; 0xe3; 0xfe; 0xd9; 0xc4
].

(** [Crc_8_8H2FTab], Crc_8.c. *)
Definition Crc_8_8H2FTab : list Z := [
  0x0; 0x2f; 0x5e; 0x71; 0xbc; 0x93; 0xe2; 0xcd;
  0x57; 0x78; 0x9; 0x26; 0xeb; 0xc4; 0xb5; 0x9a;
  0xae; 0x81; 0xf0; 0xdf; 0x12; 0x3d; 0x4c; 0x63;
  0xf9; 0xd6; 0xa7; 0x88; 0x45; 0x6a; 0x1b; 0x34;
  0x73; 0x5c; 0x2d; 0x2; 0xcf; 0xe0; 0x91; 0xbe;
  0x24; 0xb; 0x7a; 0x55; 0x98; 0xb7; 0xc6; 0xe9;
  0xdd; 0xf2; 0x83; 0xac; 0x61; 0x4e; 0x3f; 0x10;
  0x8a; 0xa5; 0xd4; 0xfb; 0x36; 0x19; 0x68; 0x47;
  0xe6; 0xc9; 0xb8; 0x97; 0x5a; 0x75; 0x4; 0x2b;
  0xb1; 0x9e; 0xef; 0xc0; 0xd; 0x22; 0x53; 0x7c;
  0x48; 0x67; 0x16; 0x39; 0xf4; 0xdb; 0xaa; 0x85;
  0x1f; 0x30; 0x41; 0x6e; 0xa3; 0x8c; 0xfd; 0xd2;
  0x95; 0xba; 0xcb; 0xe4; 0x29; 0x6; 0x77; 0x58;
  0xc2; 0xed; 0x9c; 0xb3; 0x7e; 0x51; 0x20; 0xf;
  0x3b; 0x14; 0x65; 0x4a; 0x87; 0xa8; 0xd9; 0xf6;
  0x6c; 0x43; 0x32; 0x1d; 0xd0; 0xff; 0x8e; 0xa1;
  0xe3; 0xcc; 0xbd; 0x92; 0x5f; 0x70; 0x1; 0x2e;
  0xb4; 0x9b; 0xea; 0xc5; 0x8; 0x27; 0x56; 0x79;
  0x4d; 0x62; 0x13; 0x3c; 0xf1; 0xde; 0xaf; 0x80;
  0x1a; 0x35; 0x44; 0x6b; 0xa6; 0x89; 0xf8; 0xd7;
  0x90; 0xbf; 0xce; 0xe1; 0x2c; 0x3; 0x72; 0x5d;
  0xc7; 0xe8; 0x99; 0xb6; 0x7b; 0x54; 0x25; 0xa;
  0x3e; 0x11; 0x60; 0x4f; 0x82; 0xad; 0xdc; 0xf3;
  0x69; 0x46; 0x37; 0x18; 0xd5; 0xfa; 0x8b; 0xa4;
  0x5; 0x2a; 0x5b; 0x74; 0xb9; 0x96; 0xe7; 0xc8;
  0x52; 0x7d; 0xc; 0x23; 0xee; 0xc1; 0xb0; 0x9f;
  0xab; 0x84; 0xf5; 0xda; 0x17; 0x38; 0x49; 0x66;
  0xfc; 0xd3; 0xa2; 0x8d; 0x40; 0x6f; 0x1e; 0x31;
  0x76; 0x59; 0x28; 0x7; 0xca; 0xe5; 0x94; 0xbb;
  0x21; 0xe; 0x7f; 0x50; 0x9d; 0xb2; 0xc3; 0xec;
  0xd8; 0xf7; 0x86; 0xa9; 0x64; 0x4b; 0x3a; 0x15;
  0x8f; 0xa0; 0xd1; 0xfe; 0x33; 0x1c; 0x6d; 0x42
].

(** [Crc_16_Tab], Crc_16.c. *)
Definition Crc_16_Tab : list Z := [
  0x0000; 0x1021; 0x2042; 0x3063; 0x4084; 0x50a5; 0x60c6; 0x70e7;
  0x8108; 0x9129; 0xa14a; 0xb16b; 0xc18c; 0xd1ad; 0xe1ce; 0xf1ef;
  0x1231; 0x0210; 0x3273; 0x2252; 0x52b5; 0x4294; 0x72f7; 0x62d6;
  0x9339; 0x8318; 0xb37b; 0xa35a; 0xd3bd; 0xc39c; 0xf3ff; 0xe3de;
  0x2462; 0x3443; 0x0420; 0x1401; 0x64e6; 0x74c7; 0x44a4; 0x5485;
  0xa56a; 0xb54b; 0x8528; 0x9509; 0xe5ee; 0xf5cf; 0xc5ac; 0xd58d;
  0x3653; 0x2672; 0x1611; 0x0630; 0x76d7; 0x66f6; 0x5695; 0x46b4;
  0xb75b; 0xa77a; 0x9719; 0x8738; 0xf7df; 0xe7fe; 0xd79d; 0xc7bc;
  0x48c4; 0x58e5; 0x6886; 0x78a7; 0x0840; 0x1861; 0x2802; 0x3823;
  0xc9cc; 0xd9ed; 0xe98e; 0xf9af; 0x8948; 0x9969; 0xa90a; 0xb92b;
  0x5af5; 0x4ad4; 0x7ab7; 0x6a96; 0x1a71; 0x0a50; 0x3a33; 0x2a12;
  0xdbfd; 0xcbdc; 0xfbbf; 0xeb9e; 0x9b79; 0x8b58; 0xbb3b; 0xab1a;
  0x6ca6; 0x7c87; 0x4ce4; 0x5cc5; 0x2c22; 0x3c03; 0x0c60; 0x1c41;
  0xedae; 0xfd8f; 0xcdec; 0xddcd; 0xad2a; 0xbd0b; 0x8d68; 0x9d49;
  0x7e97; 0x6eb6; 0x5ed5; 0x4ef4; 0x3e13; 0x2e32; 0x1e51; 0x0e70;
  0xff9f; 0xefbe; 0xdfdd; 0xcffc; 0xbf1b; 0xaf3a; 0x9f59; 0x8f78;
  0x9188; 0x81a9; 0xb1ca; 0xa1eb; 0xd10c; 0xc12d; 0xf14e; 0xe16f;
  0x1080; 0x00a1; 0x30c2; 0x20e3; 0x5004; 0x4025; 0x7046; 0x6067;
  0x83b9; 0x9398; 0xa3fb; 0xb3da; 0xc33d; 0xd31c; 0xe37f; 0xf35e;
  0x02b1; 0x1290; 0x22f3; 0x32d2; 0x4235; 0x5214; 0x6277; 0x7256;
  0xb5ea; 0xa5cb; 0x95a8; 0x8589; 0xf56e; 0xe54f; 0xd52c; 0xc50d;
  0x34e2; 0x24c3; 0x14a0; 0x0481; 0x7466; 0x6447; 0x5424; 0x4405;
  0xa7db; 0xb7fa; 0x8799; 0x97b8; 0xe75f; 0xf77e; 0xc71d; 0xd73c;
  0x26d3; 0x36f2; 0x0691; 0x16b0; 0x6657; 0x7676; 0x4615; 0x5634;
  0xd94c; 0xc96d; 0xf90e; 0xe92f; 0x99c8; 0x89e9; 0xb98a; 0xa9ab;
  0x5844; 0x4865; 0x7806; 0x6827; 0x18c0; 0x08e1; 0x3882; 0x28a3;
  0xcb7d; 0xdb5c; 0xeb3f; 0xfb1e; 0x8bf9; 0x9bd8; 0xabbb; 0xbb9a;
  0x4a75; 0x5a54; 0x6a37; 0x7a16; 0x0af1; 0x1ad0; 0x2ab3; 0x3a92;
  0xfd2e; 0xed0f; 0xdd6c; 0xcd4d; 0xbdaa; 0xad8b; 0x9de8; 0x8dc9;
  0x7c26; 0x6c07; 0x5c64; 0x4c45; 0x3ca2; 0x2c83; 0x1ce0; 0x0cc1;
  0xef1f; 0xff3e; 0xcf5d; 0xdf7c; 0xaf9b; 0xbfba; 0x8fd9; 0x9ff8;
  0x6e17; 0x7e36; 0x4e55; 0x5e74; 0x2e93; 0x3eb2; 0x0ed1; 0x1ef0
].

(** [Crc_32_Tab], Crc_32.c. *)
Definition Crc_32_Tab : list Z := [
  0x00000000; 0x77073096; 0xEE0E612C; 0x990951BA; 0x076DC419; 0x706AF48F; 0xE963A535; 0x9E6495A3;
  0x0EDB8832; 0x79DCB8A4; 0xE0D5E91E; 0x97D2D988; 0x09B64C2B; 0x7EB17CBD; 0xE7B82D07; 0x90BF1D91;
  0x1DB71064; 0x6AB020F2; 0xF3B97148; 0x84BE41DE; 0x1ADAD47D; 0x6DDDE4EB; 0xF4D4B551; 0x83D385C7;
  0x136C9856; 0x646BA8C0; 0xFD62F97A; 0x8A65C9EC; 0x14015C4F; 0x63066CD9; 0xFA0F3D63; 0x8D080DF5;
  0x3B6E20C8; 0x4C69105E; 0xD56041E4; 0xA2677172; 0x3C03E4D1; 0x4B04D447; 0xD20D85FD; 0xA50AB56B;
  0x35B5A8FA; 0x42B2986C; 0xDBBBC9D6; 0xACBCF940; 0x32D86CE3; 0x45DF5C75; 0xDCD60DCF; 0xABD13D59;
  0x26D930AC; 0x51DE003A; 0xC8D75180; 0xBFD06116; 0x21B4F4B5; 0x56B3C423; 0xCFBA9599; 0xB8BDA50F;
  0x2802B89E; 0x5F058808; 0xC60CD9B2; 0xB10BE924; 0x2F6F7C87; 0x58684C11; 0xC1611DAB; 0xB6662D3D;
  0x76DC4190; 0x01DB7106; 0x98D220BC; 0xEFD5102A; 0x71B18589; 0x06B6B51F; 0x9FBFE4A5; 0xE8B8D433;
  0x7807C9A2; 0x0F00F934; 0x9609A88E; 0xE10E9818; 0x7F6A0DBB; 0x086D3D2D; 0x91646C97; 0xE6635C01;
  0x6B6B51F4; 0x1C6C6162; 0x856530D8; 0xF262004E; 0x6C0695ED; 0x1B01A57B; 0x8208F4C1; 0xF50FC457;
  0x65B0D9C6; 0x12B7E950; 0x8BBEB8EA; 0xFCB9887C; 0x62DD1DDF; 0x15DA2D49; 0x8CD37CF3; 0xFBD44C65;
  0x4DB26158; 0x3AB551CE; 0xA3BC0074; 0xD4BB30E2; 0x4ADFA541; 0x3DD895D7; 0xA4D1C46D; 0xD3D6F4FB;
  0x4369E96A; 0x346ED9FC; 0xAD678846; 0xDA60B8D0; 0x44042D73; 0x33031DE5; 0xAA0A4C5F; 0xDD0D7CC9;
  0x5005713C; 0x270241AA; 0xBE0B1010; 0xC90C2086; 0x5768B525; 0x206F85B3; 0xB966D409; 0xCE61E49F;
  0x5EDEF90E; 0x29D9C998; 0xB0D09822; 0xC7D7A8B4; 0x59B33D17; 0x2EB40D81; 0xB7BD5C3B; 0xC0BA6CAD;
  0xEDB88320; 0x9ABFB3B6; 0x03B6E20C; 0x74B1D29A; 0xEAD54739; 0x9DD277AF; 0x04DB2615; 0x73DC1683;
  0xE3630B12; 0x94643B84; 0x0D6D6A3E; 0x7A6A5AA8; 0xE40ECF0B; 0x9309FF9D; 0x0A00AE27; 0x7D079EB1;
  0xF00F9344; 0x8708A3D2; 0x1E01F268; 0x6906C2FE; 0xF762575D; 0x806567CB; 0x196C3671; 0x6E6B06E7;
  0xFED41B76; 0x89D32BE0; 0x10DA7A5A; 0x67DD4ACC; 0xF9B9DF6F; 0x8EBEEFF9; 0x17B7BE43; 0x60B08ED5;
  0xD6D6A3E8; 0xA1D1937E; 0x38D8C2C4; 0x4FDFF252; 0xD1BB67F1; 0xA6BC5767; 0x3FB506DD; 0x48B2364B;
  0xD80D2BDA; 0xAF0A1B4C; 0x36034AF6; 0x41047A60; 0xDF60EFC3; 0xA867DF55; 0x316E8EEF; 0x4669BE79;
  0xCB61B38C; 0xBC66831A; 0x256FD2A0; 0x5268E236; 0xCC0C7795; 0xBB0B4703; 0x220216B9; 0x5505262F;
  0xC5BA3BBE; 0xB2BD0B28; 0x2BB45A92; 0x5CB36A04; 0xC2D7FFA7; 0xB5D0CF31; 0x2CD99E8B; 0x5BDEAE1D;
  0x9B64C2B0; 0xEC63F226; 0x756AA39C; 0x026D930A; 0x9C0906A9; 0xEB0E363F; 0x72076785; 0x05005713;
  0x95BF4A82; 0xE2B87A14; 0x7BB12BAE; 0x0CB61B38; 0x92D28E9B; 0xE5D5BE0D; 0x7CDCEFB7; 0x0BDBDF21;
  0x86D3D2D4; 0xF1D4E242; 0x68DDB3F8; 0x1FDA836E; 0x81BE16CD; 0xF6B9265B; 0x6FB077E1; 0x18B74777;
  0x88085AE6; 0xFF0F6A70; 0x66063BCA; 0x11010B5C; 0x8F659EFF; 0xF862AE69; 0x616BFFD3; 0x166CCF45;
  0xA00AE278; 0xD70DD2EE; 0x4E048354; 0x3903B3C2; 0xA7672661; 0xD06016F7; 0x4969474D; 0x3E6E77DB;
  0xAED16A4A; 0xD9D65ADC; 0x40DF0B66; 0x37D83BF0; 0xA9BCAE53; 0xDEBB9EC5; 0x47B2CF7F; 0x30B5FFE9;
  0xBDBDF21C; 0xCABAC28A; 0x53B39330; 0x24B4A3A6; 0xBAD03605; 0xCDD70693; 0x54DE5729; 0x23D967BF;
  0xB3667A2E; 0xC4614AB8; 0x5D681B02; 0x2A6F2B94; 0xB40BBE37; 0xC30C8EA1; 0x5A05DF1B; 0x2D02EF8D
].

(** [Crc_32P4_Tab], Crc_32P4.c. *)
Definition Crc_32P4_Tab : list Z := [
  0x00000000; 0x30850FF5; 0x610A1FEA; 0x518F101F; 0xC2143FD4; 0xF2913021; 0xA31E203E; 0x939B2FCB;
  0x159615F7; 0x25131A02; 0x749C0A1D; 0x441905E8; 0xD7822A23; 0xE70725D6; 0xB68835C9; 0x860D3A3C;
  0x2B2C2BEE; 0x1BA9241B; 0x4A263404; 0x7AA33BF1; 0xE938143A; 0xD9BD1BCF; 0x88320BD0; 0xB8B70425;
  0x3EBA3E19; 0x0E3F31EC; 0x5FB021F3; 0x6F352E06; 0xFCAE01CD; 0xCC2B0E38; 0x9DA41E27; 0xAD2111D2;
  0x565857DC; 0x66DD5829; 0x37524836; 0x07D747C3; 0x944C6808; 0xA4C967FD; 0xF54677E2; 0xC5C37817;
  0x43CE422B; 0x734B4DDE; 0x22C45DC1; 0x12415234; 0x81DA7DFF; 0xB15F720A; 0xE0D06215; 0xD0556DE0;
  0x7D747C32; 0x4DF173C7; 0x1C7E63D8; 0x2CFB6C2D; 0xBF6043E6; 0x8FE54C13; 0xDE6A5C0C; 0xEEEF53F9;
  0x68E269C5; 0x58676630; 0x09E8762F; 0x396D79DA; 0xAAF65611; 0x9A7359E4; 0xCBFC49FB; 0xFB79460E;
  0xACB0AFB8; 0x9C35A04D; 0xCDBAB052; 0xFD3FBFA7; 0x6EA4906C; 0x5E219F99; 0x0FAE8F86; 0x3F2B8073;
  0xB926BA4F; 0x89A3B5BA; 0xD82CA5A5; 0xE8A9AA50; 0x7B32859B; 0x4BB78A6E; 0x1A389A71; 0x2ABD9584;
  0x879C8456; 0xB7198BA3; 0xE6969BBC; 0xD6139449; 0x4588BB82; 0x750DB477; 0x2482A468; 0x1407AB9D;
  0x920A91A1; 0xA28F9E54; 0xF3008E4B; 0xC38581BE; 0x501EAE75; 0x609BA180; 0x3114B19F; 0x0191BE6A;
  0xFAE8F864; 0xCA6DF791; 0x9BE2E78E; 0xAB67E87B; 0x38FCC7B0; 0x0879C845; 0x59F6D85A; 0x6973D7AF;
  0xEF7EED93; 0xDFFBE266; 0x8E74F279; 0xBEF1FD8C; 0x2D6AD247; 0x1DEFDDB2; 0x4C60CDAD; 0x7CE5C258;
  0xD1C4D38A; 0xE141DC7F; 0xB0CECC60; 0x804BC395; 0x13D0EC5E; 0x2355E3AB; 0x72DAF3B4; 0x425FFC41;
  0xC452C67D; 0xF4D7C988; 0xA558D997; 0x95DDD662; 0x0646F9A9; 0x36C3F65C; 0x674CE643; 0x57C9E9B6;
  0xC8DF352F; 0xF85A3ADA; 0xA9D52AC5; 0x99502530; 0x0ACB0AFB; 0x3A4E050E; 0x6BC11511; 0x5B441AE4;
  0xDD4920D8; 0xEDCC2F2D; 0xBC433F32; 0x8CC630C7; 0x1F5D1F0C; 0x2FD810F9; 0x7E5700E6; 0x4ED20F13;
  0xE3F31EC1; 0xD3761134; 0x82F9012B; 0xB27C0EDE; 0x21E72115; 0x11622EE0; 0x40ED3EFF; 0x7068310A;
  0xF6650B36; 0xC6E004C3; 0x976F14DC; 0xA7EA1B29; 0x347134E2; 0x04F43B17; 0x557B2B08; 0x65FE24FD;
  0x9E8762F3; 0xAE026D06; 0xFF8D7D19; 0xCF0872EC; 0x5C935D27; 0x6C1652D2; 0x3D9942CD; 0x0D1C4D38;
  0x8B117704; 0xBB9478F1; 0xEA1B68EE; 0xDA9E671B; 0x490548D0; 0x79804725; 0x280F573A; 0x188A58CF;
  0xB5AB491D; 0x852E46E8; 0xD4A156F7; 0xE4245902; 0x77BF76C9; 0x473A793C; 0x16B56923; 0x263066D6;
  0xA03D5CEA; 0x90B8531F; 0xC1374300; 0xF1B24CF5; 0x6229633E; 0x52AC6CCB; 0x03237CD4; 0x33A67321;
  0x646F9A97; 0x54EA9562; 0x0565857D; 0x35E08A88; 0xA67BA543; 0x96FEAAB6; 0xC771BAA9; 0xF7F4B55C;
  0x71F98F60; 0x417C8095; 0x10F3908A; 0x20769F7F; 0xB3EDB0B4; 0x8368BF41; 0xD2E7AF5E; 0xE262A0AB;
  0x4F43B179; 0x7FC6BE8C; 0x2E49AE93; 0x1ECCA166; 0x8D578EAD; 0xBDD28158; 0xEC5D9147; 0xDCD89EB2;
  0x5AD5A48E; 0x6A50AB7B; 0x3BDFBB64; 0x0B5AB491; 0x98C19B5A; 0xA84494AF; 0xF9CB84B0; 0xC94E8B45;
  0x3237CD4B; 0x02B2C2BE; 0x533DD2A1; 0x63B8DD54; 0xF023F29F; 0xC0A6FD6A; 0x9129ED75; 0xA1ACE280;
  0x27A1D8BC; 0x1724D749; 0x46ABC756; 0x762EC8A3; 0xE5B5E768; 0xD530E89D; 0x84BFF882; 0xB43AF777;
  0x191BE6A5; 0x299EE950; 0x7811F94F; 0x4894F6BA; 0xDB0FD971; 0xEB8AD684; 0xBA05C69B; 0x8A80C96E;
  0x0C8DF352; 0x3C08FCA7; 0x6D87ECB8; 0x5D02E34D; 0xCE99CC86; 0xFE1CC373; 0xAF93D36C; 0x9F16DC99
].

