(* ===== verification/Crc.v ===== *)
(** * The CRC library

    [safety_security/SafeLib/Crc]: the five routines of [Crc.h], each in the two
    supported configurations ([..._RUNTIME], a loop over the bits, and
    [..._TABLE], a 256-entry table), from [Crc_8.c], [Crc_16.c], [Crc_32.c] and
    [Crc_32P4.c].  The theorems show that the two configurations compute the same
    function, and discharge the contract [CrcSpec] for every routine. *)

From S2P Require Import Prelude CrcTheory CrcTables.

(** The two values of [Crc_8_Mode], [Crc_8_8H2FMode], [Crc_16_Mode],
    [Crc_32_Mode] and [Crc_32P4_Mode] the library supports. *)
Inductive Crc_Mode := CRC_RUNTIME | CRC_TABLE.

(** [for (byte = 0; byte < n; byte++) { body; p++; }]: the body sees the byte
    pointed at; reading past the block is a fault. *)
Fixpoint over_bytes (body : Z -> Z -> option Z) (n : nat) (p : list Z) (crc : Z) : option Z :=
  match n with
  | O => Some crc
  | S n =>
      match p with
      | [] => None
      | b :: p => crc ← body crc b; over_bytes body n p crc
      end
  end.

(** [for (bit = n; bit > 0; bit--)] *)
Fixpoint over_bits (body : Z -> Z) (bit : nat) (remainder : Z) : Z :=
  match bit with O => remainder | S bit => over_bits body bit (body remainder) end.

(** ** Crc_8.c *)
Definition Crc_8_Polynomial := 0x1D.
Definition Crc_8_8H2FPolynomial := 0x2F.
Definition Crc_8_StartValue := 0xFF.
Definition Crc_8_Xor := 0xFF.
Definition Crc_8_8H2FStartValue := 0xFF.
Definition Crc_8_8H2FXor := 0xFF.

(** The body of the bit loop of [calculateCRC8]. *)
Definition divide8 (poly remainder : Z) : Z :=
  if negb (Z.land remainder 0x80 =? 0)
  then Z.lxor (u8 (Z.shiftl remainder 1)) poly
  else u8 (Z.shiftl remainder 1).

Definition calculateCRC8 (message : option (list Z)) (nBytes start poly : Z) : option Z :=
  match message with
  | None => Some start
  | Some message =>
      over_bytes (fun remainder b => Some (over_bits (divide8 poly) 8 (Z.lxor remainder b)))
                 (Z.to_nat nBytes) message start
  end.

Definition Crc_CalculateCRC8 (Crc_8_Mode : Crc_Mode) (Crc_DataPtr : option (list Z))
    (Crc_Length Crc_StartValue8 : Z) (Crc_IsFirstCall : bool) : option Z :=
  match Crc_DataPtr with
  | None => Some 0
  | Some p =>
      let crc := if Crc_IsFirstCall then Crc_8_StartValue
                 else Z.lxor Crc_StartValue8 Crc_8_Xor in
      crc ← match Crc_8_Mode with
            | CRC_RUNTIME => calculateCRC8 Crc_DataPtr Crc_Length crc Crc_8_Polynomial
            | CRC_TABLE =>
                over_bytes (fun crc b => load Crc_8_Tab (Z.lxor crc b))
                           (Z.to_nat Crc_Length) p crc
            end;
      Some (Z.lxor crc Crc_8_Xor)
  end.

Definition Crc_CalculateCRC8H2F (Crc_8_8H2FMode : Crc_Mode) (Crc_DataPtr : option (list Z))
    (Crc_Length Crc_StartValue8H2F : Z) (Crc_IsFirstCall : bool) : option Z :=
  match Crc_DataPtr with
  | None => Some 0
  | Some p =>
      let crc := if Crc_IsFirstCall then Crc_8_8H2FStartValue
                 else Z.lxor Crc_StartValue8H2F Crc_8_8H2FXor in
      crc ← match Crc_8_8H2FMode with
            | CRC_RUNTIME => calculateCRC8 Crc_DataPtr Crc_Length crc Crc_8_8H2FPolynomial
            | CRC_TABLE =>
                over_bytes (fun crc b => load Crc_8_8H2FTab (Z.lxor crc b))
                           (Z.to_nat Crc_Length) p crc
            end;
      Some (Z.lxor crc Crc_8_8H2FXor)
  end.

(** ** Crc_16.c *)
Definition Crc_16_CCITTStartValue := 0xFFFF.
Definition Crc_16_CCITTPolynomial := 0x1021.
Definition Crc_16_CCITTXor := 0x0000.

Definition divide16 (remainder : Z) : Z :=
  if negb (Z.land remainder 0x8000 =? 0)
  then Z.lxor (u16 (Z.shiftl remainder 1)) Crc_16_CCITTPolynomial
  else u16 (Z.shiftl remainder 1).

Definition calculateCRC16 (message : option (list Z)) (nBytes start : Z) : option Z :=
  match message with
  | None => Some start
  | Some message =>
      over_bytes (fun remainder b =>
                    Some (over_bits divide16 8 (Z.lxor remainder (u16 (Z.shiftl b 8)))))
                 (Z.to_nat nBytes) message start
  end.

Definition Crc_CalculateCRC16 (Crc_16_Mode : Crc_Mode) (Crc_DataPtr : option (list Z))
    (Crc_Length Crc_StartValue16 : Z) (Crc_IsFirstCall : bool) : option Z :=
  match Crc_DataPtr with
  | None => Some 0
  | Some p =>
      let crc := if Crc_IsFirstCall then Crc_16_CCITTStartValue
                 else Z.lxor Crc_StartValue16 Crc_16_CCITTXor in
      crc ← match Crc_16_Mode with
            | CRC_RUNTIME => calculateCRC16 Crc_DataPtr Crc_Length crc
            | CRC_TABLE =>
                over_bytes (fun crc b =>
                  t ← load Crc_16_Tab (Z.land (Z.lxor (Z.shiftr crc 8) b) 0x00FF);
                  Some (Z.lxor (u16 (Z.shiftl crc 8)) t)) (Z.to_nat Crc_Length) p crc
            end;
      Some (Z.lxor crc Crc_16_CCITTXor)
  end.

(** ** Crc_32.c and Crc_32P4.c

    The two files hold the same text with another polynomial, [reflectResult]
    and [reflectInData] included. *)
Definition Crc_32_StartValue := 0xFFFFFFFF.
Definition Crc_32_Polynomial := 0x04C11DB7.
Definition Crc_32_Xor := 0xFFFFFFFF.
Definition Crc_32P4_StartValue := 0xFFFFFFFF.
Definition Crc_32P4_Polynomial := 0xF4ACFB13.
Definition Crc_32P4_Xor := 0xFFFFFFFF.

Definition reflectResult (data : Z) : Z := reflect_loop 32 32 0 data 0.
Definition reflectInData (data : Z) : Z := reflect_loop 8 8 0 data 0.

Definition divide32 (poly remainder : Z) : Z :=
  if negb (Z.land remainder 0x80000000 =? 0)
  then Z.lxor (u32 (Z.shiftl remainder 1)) poly
  else u32 (Z.shiftl remainder 1).

(** The two calculation loops, over the polynomial. *)
Definition calculate_reflected (poly : Z) (message : option (list Z)) (nBytes start : Z)
  : option Z :=
  let remainder := reflectResult start in
  remainder ←
    match message with
    | None => Some remainder
    | Some message =>
        over_bytes (fun remainder b =>
          Some (over_bits (divide32 poly) 8
                  (Z.lxor remainder (u32 (Z.shiftl (reflectInData b) 24)))))
          (Z.to_nat nBytes) message remainder
    end;
  Some (reflectResult remainder).

Definition calculateCRC32 := calculate_reflected Crc_32_Polynomial.
Definition calculateCRC32P4 := calculate_reflected Crc_32P4_Polynomial.

Definition Crc_CalculateCRC32 (Crc_32_Mode : Crc_Mode) (Crc_DataPtr : option (list Z))
    (Crc_Length Crc_StartValue32 : Z) (Crc_IsFirstCall : bool) : option Z :=
  match Crc_DataPtr with
  | None => Some 0
  | Some p =>
      let crc := if Crc_IsFirstCall then Crc_32_StartValue
                 else Z.lxor Crc_StartValue32 Crc_32_Xor in
      crc ← match Crc_32_Mode with
            | CRC_RUNTIME => calculateCRC32 Crc_DataPtr Crc_Length crc
            | CRC_TABLE =>
                over_bytes (fun crc b =>
                  t ← load Crc_32_Tab (Z.land (Z.lxor crc b) 0xFF);
                  Some (Z.lxor (Z.land (Z.shiftr crc 8) 0x00FFFFFF) t))
                  (Z.to_nat Crc_Length) p crc
            end;
      Some (Z.lxor crc Crc_32_Xor)
  end.

Definition Crc_CalculateCRC32P4 (Crc_32P4_Mode : Crc_Mode) (Crc_DataPtr : option (list Z))
    (Crc_Length Crc_StartValue32 : Z) (Crc_IsFirstCall : bool) : option Z :=
  match Crc_DataPtr with
  | None => Some 0
  | Some p =>
      let crc := if Crc_IsFirstCall then Crc_32P4_StartValue
                 else Z.lxor Crc_StartValue32 Crc_32P4_Xor in
      crc ← match Crc_32P4_Mode with
            | CRC_RUNTIME => calculateCRC32P4 Crc_DataPtr Crc_Length crc
            | CRC_TABLE =>
                over_bytes (fun crc b =>
                  t ← load Crc_32P4_Tab (Z.land (Z.lxor crc b) 0xFF);
                  Some (Z.lxor (Z.land (Z.shiftr crc 8) 0x00FFFFFF) t))
                  (Z.to_nat Crc_Length) p crc
            end;
      Some (Z.lxor crc Crc_32P4_Xor)
  end.

(** ** The loops as folds *)

Lemma over_bytes_fold w (body : Z -> Z -> option Z) (f : Z -> Z -> Z) :
  (forall c b, in_width w c -> is_u8 b -> body c b = Some (f c b) /\ in_width w (f c b)) ->
  forall n p c, bytes p -> in_width w c ->
  over_bytes body n p c =
    if (n <=? length p)%nat then Some (foldl f c (take n p)) else None.
Proof.
  intros Hbody n; induction n as [| n IH]; intros p c Hp Hc; [done |].
  destruct p as [| b p]; [done |]; cbn [over_bytes length take foldl Nat.leb].
  apply Forall_cons_1 in Hp as [Hb Hp]. destruct (Hbody c b Hc Hb) as [-> Hf]; cbn.
  by rewrite IH.
Qed.

Lemma over_bits_steps w poly (f : Z -> Z) n c :
  (forall c, f c = bitstep w poly c) -> over_bits f n c = steps w poly n c.
Proof.
  intros Hf; revert c; induction n as [| n IH]; intros c; [done |].
  cbn [over_bits]; rewrite IH, Hf.
  change (bitstep w poly c) with (steps w poly 1 c).
  rewrite <- steps_add; f_equal; lia.
Qed.

(** A masked test of the top bit followed by a shift is one register step. *)
Lemma divide_bitstep w poly c :
  0 < w ->
  (if negb (Z.land c (2 ^ (w - 1)) =? 0)
   then Z.lxor (Z.shiftl c 1 mod 2 ^ w) poly else Z.shiftl c 1 mod 2 ^ w)
  = bitstep w poly c.
Proof.
  intros Hw; rewrite land_pow2_eqb, negb_involutive by lia; unfold bitstep.
  destruct (Z.testbit c (w - 1)); [done |]. by rewrite Z.lxor_0_r.
Qed.

Lemma divide8_bitstep poly c : divide8 poly c = bitstep 8 poly c.
Proof. by apply (divide_bitstep 8). Qed.

Lemma divide16_bitstep c : divide16 c = bitstep 16 Crc_16_CCITTPolynomial c.
Proof. by apply (divide_bitstep 16). Qed.

Lemma divide32_bitstep poly c : divide32 poly c = bitstep 32 poly c.
Proof. by apply (divide_bitstep 32). Qed.

(** ** The tables hold the register after eight steps *)

Definition table_ok (tab : list Z) (f : Z -> Z) : bool :=
  forallb (fun i => match load tab (Z.of_nat i) with
                    | Some v => v =? f (Z.of_nat i) | None => false end) (seq 0 256).

Lemma table_ok_load tab f i :
  table_ok tab f = true -> is_u8 i -> load tab i = Some (f i).
Proof.
  intros Hok [H0 H1]; unfold table_ok in Hok.
  rewrite forallb_forall in Hok.
  specialize (Hok (Z.to_nat i)); rewrite Z2Nat.id in Hok by lia.
  destruct (load tab i) as [v |].
  - f_equal; apply Z.eqb_eq, Hok, in_seq; change (2 ^ 8) with 256 in H1; lia.
  - discriminate Hok; apply in_seq; change (2 ^ 8) with 256 in H1; lia.
Qed.

Lemma Crc_8_Tab_ok : table_ok Crc_8_Tab (steps 8 Crc_8_Polynomial 8) = true.
Proof. vm_compute; reflexivity. Qed.

Lemma Crc_8_8H2FTab_ok : table_ok Crc_8_8H2FTab (steps 8 Crc_8_8H2FPolynomial 8) = true.
Proof. vm_compute; reflexivity. Qed.

Lemma Crc_16_Tab_ok :
  table_ok Crc_16_Tab (fun i => steps 16 Crc_16_CCITTPolynomial 8 (Z.shiftl i 8)) = true.
Proof. vm_compute; reflexivity. Qed.

Lemma Crc_32_Tab_ok : table_ok Crc_32_Tab (rsteps 32 Crc_32_Polynomial 8) = true.
Proof. vm_compute; reflexivity. Qed.

Lemma Crc_32P4_Tab_ok : table_ok Crc_32P4_Tab (rsteps 32 Crc_32P4_Polynomial 8) = true.
Proof. vm_compute; reflexivity. Qed.

(** ** One byte, in every configuration *)

Strategy 1000 [bitstep steps rbitstep rsteps over_bits].

Lemma byte_runtime8 poly c b :
  over_bits (divide8 poly) 8 (Z.lxor c b) = upd 8 poly c b.
Proof.
  rewrite (over_bits_steps 8 poly) by apply divide8_bitstep.
  unfold upd; by rewrite Z.shiftl_0_r.
Qed.

Lemma byte_table8 tab poly c b :
  table_ok tab (steps 8 poly 8) = true -> is_u8 c -> is_u8 b ->
  load tab (Z.lxor c b) = Some (upd 8 poly c b).
Proof.
  intros Hok Hc Hb; rewrite (table_ok_load _ _ _ Hok) by (apply in_width_lxor; [lia | done..]).
  unfold upd; by rewrite Z.shiftl_0_r.
Qed.

Lemma byte_runtime16 c b :
  is_u8 b ->
  over_bits divide16 8 (Z.lxor c (u16 (Z.shiftl b 8))) = upd 16 Crc_16_CCITTPolynomial c b.
Proof.
  intros Hb; rewrite (over_bits_steps 16 Crc_16_CCITTPolynomial) by apply divide16_bitstep.
  unfold upd, u16; rewrite Z.mod_small; [done | by apply (shift_byte_range 16)].
Qed.

Lemma byte_table16 c b :
  is_u16 c -> is_u8 b ->
  (t ← load Crc_16_Tab (Z.land (Z.lxor (Z.shiftr c 8) b) 0x00FF);
   Some (Z.lxor (u16 (Z.shiftl c 8)) t)) = Some (upd 16 Crc_16_CCITTPolynomial c b).
Proof.
  intros Hc Hb.
  assert (Hi : is_u8 (Z.lxor (Z.shiftr c 8) b)).
  { apply in_width_lxor; [lia | | done]; rewrite Z.shiftr_div_pow2 by lia.
    unfold in_width in *; split; [apply Z.div_pos; lia | apply Z.div_lt_upper_bound; lia]. }
  change 0x00FF with (Z.ones 8); rewrite Z.land_ones, Z.mod_small by (done || lia).
  rewrite (table_ok_load _ _ _ Crc_16_Tab_ok) by done; cbn [mbind option_bind].
  unfold upd; rewrite (steps8_split 16 Crc_16_CCITTPolynomial ltac:(lia) ltac:(done) (Z.lxor c _)).
  2: { apply in_width_lxor; [lia | done | by apply (shift_byte_range 16)]. }
  f_equal; f_equal.
  - unfold u16; bitwise i Hi'. destruct (Z.ltb_spec i 16); [| done].
    destruct (Z.lt_ge_cases i 8); [by rewrite !(Z.testbit_neg_r _ (i - 8)) by lia |].
    rewrite ?Z.lxor_spec, Z.shiftl_spec by lia.
    by rewrite (Z.testbit_neg_r b), xorb_false_r by lia.
  - f_equal; f_equal; bitwise i Hi'. f_equal; f_equal; lia.
Qed.

Lemma reflectResult_mirror x : reflectResult x = mirror 32 x.
Proof. unfold reflectResult, mirror; change (Z.to_nat 32) with 32%nat; done. Qed.

Lemma reflectInData_mirror x : reflectInData x = mirror 8 x.
Proof. unfold reflectInData, mirror; change (Z.to_nat 8) with 8%nat; done. Qed.

Lemma byte_runtime32 poly c b :
  over_bits (divide32 poly) 8 (Z.lxor c (u32 (Z.shiftl (reflectInData b) 24)))
  = upd 32 poly c (mirror 8 b).
Proof.
  rewrite (over_bits_steps 32 poly) by apply divide32_bitstep.
  rewrite reflectInData_mirror.
  unfold upd, u32; rewrite Z.mod_small; [done |].
  apply (shift_byte_range 32); [lia | apply mirror_range; lia].
Qed.

Lemma byte_table32 tab poly c b :
  table_ok tab (rsteps 32 poly 8) = true -> is_u32 c -> is_u8 b ->
  (t ← load tab (Z.land (Z.lxor c b) 0xFF);
   Some (Z.lxor (Z.land (Z.shiftr c 8) 0x00FFFFFF) t)) = Some (rupd 32 poly c b).
Proof.
  intros Hok Hc Hb.
  rewrite (table_ok_load _ _ _ Hok) by (apply in_width_land_r; [lia | done]).
  cbn [mbind option_bind]; unfold rupd; rewrite (rsteps8_split 32 poly ltac:(lia) (Z.lxor c b)).
  f_equal; f_equal.
  change 0x00FFFFFF with (Z.ones 24); rewrite Z.land_ones by lia.
  bitwise i Hi. rewrite (testbit_high 8 b) by (done || lia).
  rewrite xorb_false_r; destruct (Z.ltb_spec i 24); [done |].
  by rewrite (testbit_high 32) by (done || lia).
Qed.

(** ** The routines *)

(** The closed form of a routine over a non-null block. *)
Definition crc_form (w init xorout : Z) (f : Z -> Z -> Z)
    (calc : option (list Z) -> Z -> Z -> bool -> option Z) : Prop :=
  forall p n s first, bytes p -> in_width w s ->
    calc (Some p) n s first =
      if (Z.to_nat n <=? length p)%nat
      then Some (Z.lxor (foldl f (if first then init else Z.lxor s xorout)
                               (take (Z.to_nat n) p)) xorout)
      else None.

Lemma start_range w init xorout (first : bool) s :
  0 <= w -> in_width w init -> in_width w xorout -> in_width w s ->
  in_width w (if first then init else Z.lxor s xorout).
Proof. intros; destruct first; [done | by apply in_width_lxor]. Qed.

Ltac start_typed := apply start_range; [lia | done | done | done].

Lemma Crc8_form mode :
  crc_form 8 0xFF 0xFF (upd 8 Crc_8_Polynomial) (Crc_CalculateCRC8 mode).
Proof.
  intros p n s f Hp Hs; unfold Crc_CalculateCRC8.
  destruct mode; cbn [calculateCRC8];
    rewrite (over_bytes_fold 8 _ (upd 8 Crc_8_Polynomial));
    try (done || start_typed); try by destruct (_ <=? _)%nat.
  - intros c b Hc Hb; rewrite byte_runtime8; split; [done | by apply upd_range].
  - intros c b Hc Hb; rewrite (byte_table8 _ _ _ _ Crc_8_Tab_ok) by done.
    split; [done | by apply upd_range].
Qed.

Lemma Crc8H2F_form mode :
  crc_form 8 0xFF 0xFF (upd 8 Crc_8_8H2FPolynomial) (Crc_CalculateCRC8H2F mode).
Proof.
  intros p n s f Hp Hs; unfold Crc_CalculateCRC8H2F.
  destruct mode; cbn [calculateCRC8];
    rewrite (over_bytes_fold 8 _ (upd 8 Crc_8_8H2FPolynomial));
    try (done || start_typed); try by destruct (_ <=? _)%nat.
  - intros c b Hc Hb; rewrite byte_runtime8; split; [done | by apply upd_range].
  - intros c b Hc Hb; rewrite (byte_table8 _ _ _ _ Crc_8_8H2FTab_ok) by done.
    split; [done | by apply upd_range].
Qed.

Lemma Crc16_form mode :
  crc_form 16 0xFFFF 0 (upd 16 Crc_16_CCITTPolynomial) (Crc_CalculateCRC16 mode).
Proof.
  intros p n s f Hp Hs; unfold Crc_CalculateCRC16.
  destruct mode; cbn [calculateCRC16];
    rewrite (over_bytes_fold 16 _ (upd 16 Crc_16_CCITTPolynomial));
    try (done || start_typed); try by destruct (_ <=? _)%nat.
  - intros c b Hc Hb; rewrite byte_runtime16 by done; split; [done | by apply upd_range].
  - intros c b Hc Hb; rewrite byte_table16 by done; split; [done | by apply upd_range].
Qed.

(** The reflected bit loop computes the mirrored register. *)
Lemma calculate_reflected_form poly p n s :
  in_width 32 poly -> bytes p -> is_u32 s ->
  calculate_reflected poly (Some p) n s =
    if (Z.to_nat n <=? length p)%nat
    then Some (foldl (rupd 32 poly) s (take (Z.to_nat n) p)) else None.
Proof.
  intros Hpoly Hp Hs; unfold calculate_reflected.
  rewrite reflectResult_mirror.
  rewrite (over_bytes_fold 32 _ (fun c b => upd 32 poly c (mirror 8 b))).
  - destruct (_ <=? _)%nat; [| done]; cbn [mbind option_bind]; f_equal.
    rewrite fold_rupd_eq; [| lia | done | done | by apply Forall_take].
    rewrite reflectResult_mirror; f_equal.
    generalize (mirror 32 s); induction (take (Z.to_nat n) p) as [| b xs IH]; [done |].
    intros c; apply IH.
  - intros c b Hc Hb; rewrite byte_runtime32; split; [done |].
    apply upd_range; [lia | done | done | apply mirror_range; lia].
  - done.
  - apply mirror_range; lia.
Qed.

Lemma Crc32_form mode :
  crc_form 32 0xFFFFFFFF 0xFFFFFFFF (rupd 32 Crc_32_Polynomial) (Crc_CalculateCRC32 mode).
Proof.
  intros p n s f Hp Hs; unfold Crc_CalculateCRC32, calculateCRC32.
  destruct mode; [rewrite calculate_reflected_form
                 | rewrite (over_bytes_fold 32 _ (rupd 32 Crc_32_Polynomial))];
    try (done || start_typed); try by destruct (_ <=? _)%nat.
  intros c b Hc Hb; rewrite (byte_table32 _ _ _ _ Crc_32_Tab_ok) by done.
  split; [done | by apply rupd_range].
Qed.

Lemma Crc32P4_form mode :
  crc_form 32 0xFFFFFFFF 0xFFFFFFFF (rupd 32 Crc_32P4_Polynomial) (Crc_CalculateCRC32P4 mode).
Proof.
  intros p n s f Hp Hs; unfold Crc_CalculateCRC32P4, calculateCRC32P4.
  destruct mode; [rewrite calculate_reflected_form
                 | rewrite (over_bytes_fold 32 _ (rupd 32 Crc_32P4_Polynomial))];
    try (done || start_typed); try by destruct (_ <=? _)%nat.
  intros c b Hc Hb; rewrite (byte_table32 _ _ _ _ Crc_32P4_Tab_ok) by done.
  split; [done | by apply rupd_range].
Qed.

(** ** The contract of every routine *)

Definition crc_spec_msb (w poly init xorout : Z) calc
    (Hw : 8 <= w) (Hpoly : in_width w poly) (Hodd : Z.testbit poly 0 = true)
    (Hinit : in_width w init) (Hxor : in_width w xorout)
    (Hnull : forall n s f, calc None n s f = Some 0)
    (Hform : crc_form w init xorout (upd w poly) calc) : CrcSpec w init xorout calc.
Proof.
  refine {| cs_upd := upd w poly; cs_width := Hw; cs_init := Hinit; cs_xorout := Hxor;
            cs_null := Hnull |}.
  - intros p n s f Hn Hp Hs; rewrite Hform by done.
    destruct (Nat.leb_spec (Z.to_nat n) (length p)); [lia | done].
  - intros p n s f Hn Hp Hs; rewrite Hform by done.
    destruct (Nat.leb_spec (Z.to_nat n) (length p)); [done | lia].
  - by apply fold_upd_range.
  - by apply fold_upd_inj_state.
  - by apply fold_upd_burst.
Defined.

Definition crc_spec_lsb (w poly init xorout : Z) calc
    (Hw : 8 <= w) (Hpoly : in_width w poly) (Hodd : Z.testbit poly 0 = true)
    (Hinit : in_width w init) (Hxor : in_width w xorout)
    (Hnull : forall n s f, calc None n s f = Some 0)
    (Hform : crc_form w init xorout (rupd w poly) calc) : CrcSpec w init xorout calc.
Proof.
  refine {| cs_upd := rupd w poly; cs_width := Hw; cs_init := Hinit; cs_xorout := Hxor;
            cs_null := Hnull |}.
  - intros p n s f Hn Hp Hs; rewrite Hform by done.
    destruct (Nat.leb_spec (Z.to_nat n) (length p)); [lia | done].
  - intros p n s f Hn Hp Hs; rewrite Hform by done.
    destruct (Nat.leb_spec (Z.to_nat n) (length p)); [done | lia].
  - intros c xs Hc Hxs; revert c Hc; induction Hxs as [| b xs Hb _ IH]; [done |].
    intros c Hc; apply IH; by apply rupd_range.
  - by apply fold_rupd_inj_state.
  - by apply fold_rupd_burst.
Defined.

#[export] Hint Opaque Crc_CalculateCRC8 Crc_CalculateCRC8H2F Crc_CalculateCRC16
  Crc_CalculateCRC32 Crc_CalculateCRC32P4 : typeclass_instances.

Ltac crc_side := solve [lia | done | reflexivity].

#[export] Instance Crc8_spec mode : CrcSpec 8 0xFF 0xFF (Crc_CalculateCRC8 mode).
Proof. apply (crc_spec_msb 8 Crc_8_Polynomial); [crc_side .. | apply Crc8_form]. Defined.

#[export] Instance Crc8H2F_spec mode : CrcSpec 8 0xFF 0xFF (Crc_CalculateCRC8H2F mode).
Proof. apply (crc_spec_msb 8 Crc_8_8H2FPolynomial); [crc_side .. | apply Crc8H2F_form]. Defined.

#[export] Instance Crc16_spec mode : CrcSpec 16 0xFFFF 0 (Crc_CalculateCRC16 mode).
Proof. apply (crc_spec_msb 16 Crc_16_CCITTPolynomial); [crc_side .. | apply Crc16_form]. Defined.

#[export] Instance Crc32_spec mode :
  CrcSpec 32 0xFFFFFFFF 0xFFFFFFFF (Crc_CalculateCRC32 mode).
Proof. apply (crc_spec_lsb 32 Crc_32_Polynomial); [crc_side .. | apply Crc32_form]. Defined.

#[export] Instance Crc32P4_spec mode :
  CrcSpec 32 0xFFFFFFFF 0xFFFFFFFF (Crc_CalculateCRC32P4 mode).
Proof. apply (crc_spec_lsb 32 Crc_32P4_Polynomial); [crc_side .. | apply Crc32P4_form]. Defined.

(** ** Theorems *)

(** The data pointer is null or points at a block of bytes. *)
Definition typed_ptr (p : option (list Z)) : Prop :=
  match p with Some p => bytes p | None => True end.

Lemma modes_agree w init xorout f calc1 calc2 p n s first :
  crc_form w init xorout f calc1 -> crc_form w init xorout f calc2 ->
  (forall n s f, calc1 None n s f = calc2 None n s f) ->
  typed_ptr p -> in_width w s -> calc1 p n s first = calc2 p n s first.
Proof. intros H1 H2 H0 Hp Hs; destruct p as [p |]; [by rewrite H1, H2 | done]. Qed.

(** C32. The table configuration and the bit-loop configuration of
    [Crc_CalculateCRC8] and of [Crc_CalculateCRC8H2F] return the same result,
    memory faults included, on every data pointer, length, start value and
    call flag. *)
Theorem crc8_modes_agree p n s first :
  typed_ptr p -> is_u8 s ->
  Crc_CalculateCRC8 CRC_TABLE p n s first = Crc_CalculateCRC8 CRC_RUNTIME p n s first /\
  Crc_CalculateCRC8H2F CRC_TABLE p n s first = Crc_CalculateCRC8H2F CRC_RUNTIME p n s first.
Proof.
  intros Hp Hs; split.
  - by apply (modes_agree _ _ _ _ _ _ _ _ _ _ (Crc8_form CRC_TABLE) (Crc8_form CRC_RUNTIME)).
  - by apply (modes_agree _ _ _ _ _ _ _ _ _ _ (Crc8H2F_form CRC_TABLE)
                (Crc8H2F_form CRC_RUNTIME)).
Qed.

(** The same for [Crc_CalculateCRC16]. *)
Theorem crc16_modes_agree p n s first :
  typed_ptr p -> is_u16 s ->
  Crc_CalculateCRC16 CRC_TABLE p n s first = Crc_CalculateCRC16 CRC_RUNTIME p n s first.
Proof. intros Hp Hs; eapply modes_agree; solve [apply Crc16_form | done]. Qed.

(** C31. The table configuration and the bit-loop configuration of [Crc_CalculateCRC32] and of
    [Crc_CalculateCRC32P4] return the same result on every data pointer, length, start value
    and call flag: the table walk over the
    least significant bits first equals the bit loop that reflects every input
    byte, the start value and the result. *)
Theorem crc32_modes_agree p n s first :
  typed_ptr p -> is_u32 s ->
  Crc_CalculateCRC32 CRC_TABLE p n s first = Crc_CalculateCRC32 CRC_RUNTIME p n s first /\
  Crc_CalculateCRC32P4 CRC_TABLE p n s first = Crc_CalculateCRC32P4 CRC_RUNTIME p n s first.
Proof.
  intros Hp Hs; split.
  - by apply (modes_agree _ _ _ _ _ _ _ _ _ _ (Crc32_form CRC_TABLE) (Crc32_form CRC_RUNTIME)).
  - by apply (modes_agree _ _ _ _ _ _ _ _ _ _ (Crc32P4_form CRC_TABLE)
                (Crc32P4_form CRC_RUNTIME)).
Qed.

(** Splitting a message over two calls is calculating over the whole. *)
Definition splits (w : Z) (calc : option (list Z) -> Z -> Z -> bool -> option Z) : Prop :=
  forall p q s first, bytes p -> bytes q -> in_width w s ->
    exists c,
      calc (Some p) (Z.of_nat (length p)) s first = Some c /\
      calc (Some q) (Z.of_nat (length q)) c false =
        calc (Some (p ++ q)) (Z.of_nat (length (p ++ q))) s first.

Lemma spec_splits w init xorout calc `{!CrcSpec w init xorout calc} : splits w calc.
Proof.
  intros p q s first Hp Hq Hs; pose proof cs_width.
  set (c0 := if first then init else Z.lxor s xorout).
  assert (in_width w c0)
    by (apply start_range; [lia | apply cs_init | apply cs_xorout | done]).
  exists (crc_from c0 p); split.
  - by rewrite cs_calc, Nat2Z.id, firstn_all by (done || lia).
  - rewrite calc_next, cs_calc by (done || lia || by apply Forall_app).
    by rewrite !Nat2Z.id, !firstn_all.
Qed.

(** Every CRC routine can be fed a message in pieces: a first call over one
    block and a second call, with the result as start value and
    [Crc_IsFirstCall] false, over another return the CRC of the concatenation. *)
Theorem crc_incremental mode :
  splits 8 (Crc_CalculateCRC8 mode) /\ splits 8 (Crc_CalculateCRC8H2F mode) /\
  splits 16 (Crc_CalculateCRC16 mode) /\ splits 32 (Crc_CalculateCRC32 mode) /\
  splits 32 (Crc_CalculateCRC32P4 mode).
Proof.
  split; [| split; [| split; [| split]]].
  - apply (spec_splits _ _ _ _ (CrcSpec0 := Crc8_spec mode)).
  - apply (spec_splits _ _ _ _ (CrcSpec0 := Crc8H2F_spec mode)).
  - apply (spec_splits _ _ _ _ (CrcSpec0 := Crc16_spec mode)).
  - apply (spec_splits _ _ _ _ (CrcSpec0 := Crc32_spec mode)).
  - apply (spec_splits _ _ _ _ (CrcSpec0 := Crc32P4_spec mode)).
Qed.

(** Two messages of one length that differ only inside a window of [k] bytes
    have different CRCs. *)
Definition detects_bursts (w : Z) (k : nat)
    (calc : option (list Z) -> Z -> Z -> bool -> option Z) : Prop :=
  forall pre xs ys post s first,
    bytes pre -> bytes xs -> bytes ys -> bytes post -> in_width w s ->
    length xs = length ys -> (length xs <= k)%nat -> xs <> ys ->
    exists c d,
      calc (Some (pre ++ xs ++ post)) (Z.of_nat (length (pre ++ xs ++ post))) s first = Some c /\
      calc (Some (pre ++ ys ++ post)) (Z.of_nat (length (pre ++ ys ++ post))) s first = Some d /\
      c <> d.

Lemma spec_detects w init xorout calc k `{!CrcSpec w init xorout calc} :
  8 * Z.of_nat k <= w -> detects_bursts w k calc.
Proof.
  intros Hk pre xs ys post s first Hpre Hxs Hys Hpost Hs Hlen Hle Hne; pose proof cs_width.
  set (c0 := if first then init else Z.lxor s xorout).
  assert (Hc0 : in_width w c0)
    by (apply start_range; [lia | apply cs_init | apply cs_xorout | done]).
  exists (crc_from c0 (pre ++ xs ++ post)), (crc_from c0 (pre ++ ys ++ post)).
  split; [| split; [| apply crc_from_burst; done || lia]].
  - by rewrite cs_calc, Nat2Z.id, firstn_all by (done || lia || by repeat apply Forall_app_2).
  - by rewrite cs_calc, Nat2Z.id, firstn_all by (done || lia || by repeat apply Forall_app_2).
Qed.

(** C33. Every CRC routine detects every burst error no longer than its
    register: one byte for the two 8-bit routines, two consecutive bytes for
    CRC16, four consecutive bytes for the two 32-bit routines, at any position
    of a message of any length. *)
Theorem crc_burst_detection mode :
  detects_bursts 8 1 (Crc_CalculateCRC8 mode) /\
  detects_bursts 8 1 (Crc_CalculateCRC8H2F mode) /\
  detects_bursts 16 2 (Crc_CalculateCRC16 mode) /\
  detects_bursts 32 4 (Crc_CalculateCRC32 mode) /\
  detects_bursts 32 4 (Crc_CalculateCRC32P4 mode).
Proof.
  split; [| split; [| split; [| split]]].
  - apply (spec_detects _ _ _ _ _ (CrcSpec0 := Crc8_spec mode)); lia.
  - apply (spec_detects _ _ _ _ _ (CrcSpec0 := Crc8H2F_spec mode)); lia.
  - apply (spec_detects _ _ _ _ _ (CrcSpec0 := Crc16_spec mode)); lia.
  - apply (spec_detects _ _ _ _ _ (CrcSpec0 := Crc32_spec mode)); lia.
  - apply (spec_detects _ _ _ _ _ (CrcSpec0 := Crc32P4_spec mode)); lia.
Qed.

(** ** Known answers

    The nine ASCII digits, as the AUTOSAR specification of the library gives
    them. *)
Definition digits : list Z := [0x31; 0x32; 0x33; 0x34; 0x35; 0x36; 0x37; 0x38; 0x39].

Example crc_known_answers mode :
  Crc_CalculateCRC8 mode (Some digits) 9 0 true = Some 0x4B /\
  Crc_CalculateCRC8H2F mode (Some digits) 9 0 true = Some 0xDF /\
  Crc_CalculateCRC16 mode (Some digits) 9 0 true = Some 0x29B1 /\
  Crc_CalculateCRC32 mode (Some digits) 9 0 true = Some 0xCBF43926 /\
  Crc_CalculateCRC32P4 mode (Some digits) 9 0 true = Some 0x1697D06A.
Proof. destruct mode; vm_compute; repeat split. Qed.

(** ** Witnesses *)

Lemma crc8_modes_agree_witness :
  Crc_CalculateCRC8 CRC_TABLE (Some digits) 9 0 true =
  Crc_CalculateCRC8 CRC_RUNTIME (Some digits) 9 0 true.
Proof.
  apply (crc8_modes_agree (Some digits) 9 0 true);
    repeat constructor; vm_compute; discriminate.
Defined.

Lemma crc16_modes_agree_witness :
  Crc_CalculateCRC16 CRC_TABLE (Some digits) 9 0xBEEF false =
  Crc_CalculateCRC16 CRC_RUNTIME (Some digits) 9 0xBEEF false.
Proof.
  apply (crc16_modes_agree (Some digits) 9 0xBEEF false);
    repeat constructor; vm_compute; discriminate.
Defined.

Lemma crc32_modes_agree_witness :
  Crc_CalculateCRC32P4 CRC_TABLE (Some digits) 9 0 true =
  Crc_CalculateCRC32P4 CRC_RUNTIME (Some digits) 9 0 true.
Proof.
  apply (crc32_modes_agree (Some digits) 9 0 true);
    repeat constructor; vm_compute; discriminate.
Defined.
