(* ===== verification/E2E.v ===== *)
(** * The end-to-end protection library: common parts

    [safety_security/SafeLib/E2E]: the return codes of [E2E.h], the
    profile-independent status of [E2E_SM.h], the interface to the CRC library
    the profiles are written against, and the facts the profiles share: the CRC
    over the bytes around a header field, and a wrapping sequence counter. *)

From S2P Require Import Prelude CrcTheory Crc.

(** ** E2E.h *)
Definition E2E_E_OK := 0x00.
Definition E2E_E_INPUTERR_NULL := 0x13.
Definition E2E_E_INPUTERR_WRONG := 0x17.
Definition E2E_E_INTERR := 0x19.
Definition E2E_E_WRONGSTATE := 0x1A.

(** ** The status handed to the state machine, E2E_SM.h *)
Inductive E2E_PCheckStatusType :=
| E2E_P_OK
| E2E_P_REPEATED
| E2E_P_WRONGSEQUENCE
| E2E_P_ERROR
| E2E_P_NOTAVAILABLE
| E2E_P_NONEWDATA.

#[export] Instance E2E_PCheckStatusType_eq : EqDecision E2E_PCheckStatusType.
Proof. solve_decision. Defined.

(** ** What the profiles call from the CRC library *)
Class CrcLib := {
  crc8 : option (list Z) -> Z -> Z -> bool -> option Z;
  crc8h2f : option (list Z) -> Z -> Z -> bool -> option Z;
  crc16 : option (list Z) -> Z -> Z -> bool -> option Z;
  crc32p4 : option (list Z) -> Z -> Z -> bool -> option Z;
  #[global] crc8_ok :: CrcSpec 8 0xFF 0xFF crc8;
  #[global] crc8h2f_ok :: CrcSpec 8 0xFF 0xFF crc8h2f;
  #[global] crc16_ok :: CrcSpec 16 0xFFFF 0 crc16;
  #[global] crc32p4_ok :: CrcSpec 32 0xFFFFFFFF 0xFFFFFFFF crc32p4
}.

(** The library of [Crc.v], in any configuration, keeps the promise. *)
Definition Crc_Library (m8 m8h2f m16 m32p4 : Crc_Mode) : CrcLib := {|
  crc8 := Crc_CalculateCRC8 m8;
  crc8h2f := Crc_CalculateCRC8H2F m8h2f;
  crc16 := Crc_CalculateCRC16 m16;
  crc32p4 := Crc_CalculateCRC32P4 m32p4
|}.

(** The configuration of [boards/generic/Crc_Cfg.h]: tables. *)
Definition Crc_Generic : CrcLib := Crc_Library CRC_TABLE CRC_TABLE CRC_TABLE CRC_TABLE.

(** ** The protected bytes around a header field

    A profile computes its CRC over the first [len] bytes of the data less the
    [n] bytes at [k] that hold the CRC itself. *)
Definition around (data : list Z) (k n len : Z) : list Z :=
  take (Z.to_nat k) data ++ segment data (k + n) (len - k - n).

Lemma bytes_around data k n len : bytes data -> bytes (around data k n len).
Proof. intros; apply Forall_app_2; auto with mem. Qed.

Lemma length_around data k n len :
  0 <= k -> 0 <= n -> k + n <= len -> len <= Z.of_nat (length data) ->
  length (around data k n len) = Z.to_nat (len - n).
Proof.
  intros; unfold around; rewrite length_app, length_segment, length_take by lia; lia.
Qed.

(** The CRC does not depend on the field it is stored in. *)
Lemma around_insert_field data k n len i v :
  0 <= k -> k <= i < k + n -> around (<[Z.to_nat i := v]> data) k n len = around data k n len.
Proof.
  intros Hk Hi; unfold around, segment; f_equal.
  - apply take_insert_ge; lia.
  - f_equal; apply drop_insert_lt; lia.
Qed.

(** Nor on what lies past the protected length. *)
Lemma around_insert_past data k n len i v :
  0 <= k -> 0 <= n -> k + n <= len <= i ->
  around (<[Z.to_nat i := v]> data) k n len = around data k n len.
Proof.
  intros Hk Hn Hi; unfold around, segment; f_equal.
  - apply take_insert_ge; lia.
  - rewrite drop_insert_ge by lia. apply take_insert_ge; lia.
Qed.

(** A change of one protected byte is a change of one byte of the CRC's input. *)
Lemma around_insert_covered data k n len i v :
  0 <= k -> 0 <= n -> k + n <= len -> len <= Z.of_nat (length data) ->
  0 <= i < len -> ~ (k <= i < k + n) ->
  exists j, (j < length (around data k n len))%nat /\
    around (<[Z.to_nat i := v]> data) k n len = <[j := v]> (around data k n len) /\
    around data k n len !! j = load data i.
Proof.
  intros Hk Hn Hlen Hdata Hi Hout; rewrite length_around by lia.
  rewrite load_spec by lia; unfold around.
  assert (Hlt : length (take (Z.to_nat k) data) = Z.to_nat k) by (rewrite length_take; lia).
  destruct (Z.lt_ge_cases i k).
  - exists (Z.to_nat i); split; [lia |]; split.
    + rewrite insert_app_l by (rewrite Hlt; lia).
      rewrite take_insert_lt by lia; f_equal.
      unfold segment; f_equal; apply drop_insert_lt; lia.
    + rewrite lookup_app_l by (rewrite Hlt; lia). by rewrite lookup_take_lt by lia.
  - exists (Z.to_nat (i - n)); split; [lia |].
    assert (Hge : (Z.to_nat (i - n) >= Z.to_nat k)%nat) by lia.
    assert (Heq : (Z.to_nat (i - n) - Z.to_nat k = Z.to_nat (i - (k + n)))%nat) by lia.
    split.
    + rewrite insert_app_r_alt by (rewrite Hlt; lia). rewrite Hlt, Heq.
      rewrite take_insert_ge by lia; f_equal.
      unfold segment; rewrite drop_insert_ge by lia.
      rewrite take_insert_lt by lia; f_equal; lia.
    + rewrite lookup_app_r by (rewrite Hlt; lia). rewrite Hlt, Heq.
      unfold segment; rewrite lookup_take_lt, lookup_drop by lia; f_equal; lia.
Qed.

(** One wrong byte in the input of a CRC changes the CRC. *)
Lemma crc_from_insert {w init xorout calc} {S : CrcSpec w init xorout calc} c pre xs j v :
  in_width w c -> bytes pre -> bytes xs -> is_u8 v ->
  (j < length xs)%nat -> xs !! j <> Some v ->
  crc_from c (pre ++ <[j := v]> xs) <> crc_from c (pre ++ xs).
Proof.
  intros Hc Hpre Hxs Hv Hj Hne E.
  destruct (lookup_lt_is_Some_2 xs j Hj) as [b Hb].
  assert (is_u8 b) by (by eapply Forall_lookup_1).
  assert (Hold : take j xs ++ [b] ++ drop (Datatypes.S j) xs = xs) by (by apply take_drop_middle).
  assert (Hnew : take j xs ++ [v] ++ drop (Datatypes.S j) xs = <[j := v]> xs)
    by (symmetry; by apply insert_take_drop).
  rewrite <- Hnew in E; rewrite <- Hold in E at 3.
  rewrite !(app_assoc pre) in E.
  apply crc_from_burst in E; [done | done | .. ]; auto with mem.
  - apply Forall_app_2; auto with mem.
  - cbn; pose proof cs_width; lia.
  - intros [= ->]; by rewrite Hb in Hne.
Qed.

(** The two calls of a profile around its CRC field, continuing a calculation. *)
Lemma calc_around {w init xorout calc} {S : CrcSpec w init xorout calc} c xs data k n len :
  in_width w c -> bytes xs -> bytes data ->
  0 <= k -> 0 <= n -> k + n <= len -> len <= Z.of_nat (length data) ->
  (crc ← calc (Some data) k (crc_from c xs) false;
   calc (Some (ptr_at data (k + n))) (len - k - n) crc false)
  = Some (crc_from c (xs ++ around data k n len)).
Proof.
  intros; rewrite calc_next by (done || lia); cbn [mbind option_bind].
  unfold ptr_at; rewrite calc_next; [| rewrite length_drop; lia | auto with mem | done
    | apply Forall_app_2; auto with mem].
  by rewrite <- app_assoc.
Qed.

(** ** A wrapping sequence counter

    [received - last], corrected by the period when it would be negative: every
    profile writes it so. *)
Lemma delta_mod M r l :
  0 < M -> 0 <= r < M -> 0 <= l < M ->
  (if l <=? r then r - l else M + r - l) = (r - l) mod M.
Proof.
  intros HM Hr Hl; destruct (Z.leb_spec l r).
  - by rewrite Z.mod_small by lia.
  - rewrite <- (Z.mod_add _ 1), Z.mod_small by lia; lia.
Qed.

(** The distance from a counter to the same counter [d] increments later. *)
Lemma delta_after M c d :
  0 < M -> 0 <= c < M -> 0 <= d < M -> ((c + d) mod M - c) mod M = d.
Proof.
  intros HM Hc Hd; rewrite Zminus_mod_idemp_l.
  replace (c + d - c) with d by lia; by apply Z.mod_small.
Qed.

(** A call the profiles skip because there is nothing to cover. *)
Lemma calc_guarded {w init xorout calc} {S : CrcSpec w init xorout calc} (g : bool) c xs p n :
  in_width w c -> bytes xs -> bytes p -> 0 <= n <= Z.of_nat (length p) ->
  (g = false -> n = 0) ->
  (if g then calc (Some p) n (crc_from c xs) false else Some (crc_from c xs))
  = Some (crc_from c (xs ++ take (Z.to_nat n) p)).
Proof.
  intros Hc Hxs Hp Hn Hg; destruct g; [by apply calc_next |].
  rewrite Hg by done; by rewrite take_0, app_nil_r.
Qed.

(** Bytes appended one at a time. *)
Lemma calc_byte {w init xorout calc} {S : CrcSpec w init xorout calc} c xs b :
  in_width w c -> bytes xs -> is_u8 b ->
  calc (Some [b]) 1 (crc_from c xs) false = Some (crc_from c (xs ++ [b])).
Proof. intros; rewrite calc_next; [done | cbn; lia | by constructor | done | done]. Qed.

(** ** Header fields of several bytes

    How the profiles split a 16- or 32-bit value into bytes and read it back,
    written with the masks and shifts of the source. *)
Definition byte3 (x : Z) : Z := Z.land (Z.shiftr (Z.land x 0xFF000000) 24) 0xFF.
Definition byte2 (x : Z) : Z := Z.land (Z.shiftr (Z.land x 0x00FF0000) 16) 0xFF.
Definition byte1 (x : Z) : Z := Z.land (Z.shiftr (Z.land x 0xFF00) 8) 0xFF.
Definition byte0 (x : Z) : Z := Z.land (Z.land x 0x00FF) 0xFF.

Definition word16 (hi lo : Z) : Z :=
  Z.lor (Z.lor 0 (Z.land (Z.shiftl hi 8) 0xFF00)) (Z.land lo 0x00FF).

Definition word32 (b3 b2 b1 b0 : Z) : Z :=
  Z.lor (Z.lor (Z.lor (Z.lor 0 (Z.land (Z.shiftl b3 24) 0xFF000000))
    (Z.land (Z.shiftl b2 16) 0x00FF0000)) (Z.land (Z.shiftl b1 8) 0x0000FF00))
    (Z.land b0 0x000000FF).

(** [each_bit n]: an equality of [n]-bit integers by its bits, one at a time. *)
Lemma below_cases (P : Z -> Prop) n :
  Forall P (map Z.of_nat (seq 0 n)) -> forall i, 0 <= i < Z.of_nat n -> P i.
Proof.
  rewrite Forall_forall; intros H i Hi; apply H.
  apply in_map_iff; exists (Z.to_nat i); split; [lia |].
  apply in_seq; lia.
Qed.

Ltac testbits :=
  repeat match goal with
  | |- _ => rewrite Z.lor_spec
  | |- _ => rewrite Z.land_spec
  | |- context [Z.testbit (Z.shiftr ?a ?k) ?i] => rewrite (Z.shiftr_spec a k i) by lia
  | |- context [Z.testbit (Z.shiftl ?a ?k) ?i] => rewrite (Z.shiftl_spec a k i) by lia
  | |- context [Z.testbit ?a ?i] => rewrite (Z.testbit_neg_r a i) by lia
  end;
  cbn;
  rewrite ?andb_true_r, ?andb_false_r, ?orb_false_r, ?orb_false_l.

Ltac each_bit n :=
  apply (in_width_ext (Z.of_nat n)); [lia | | |
    apply (below_cases _ n); cbn [seq map]; repeat constructor;
    cbn [Z.of_nat Pos.of_succ_nat Pos.succ]; testbits; try done].

Lemma byte3_range x : is_u8 (byte3 x).
Proof. apply in_width_land_r; (lia || done). Qed.
Lemma byte2_range x : is_u8 (byte2 x).
Proof. apply in_width_land_r; (lia || done). Qed.
Lemma byte1_range x : is_u8 (byte1 x).
Proof. apply in_width_land_r; (lia || done). Qed.
Lemma byte0_range x : is_u8 (byte0 x).
Proof. apply in_width_land_r; (lia || done). Qed.
#[export] Hint Resolve byte3_range byte2_range byte1_range byte0_range : mem.

Lemma word16_range hi lo : is_u16 (word16 hi lo).
Proof. repeat apply in_width_lor; try lia; try apply in_width_land_r; (lia || done). Qed.

Lemma word32_range a b c d : is_u32 (word32 a b c d).
Proof. repeat apply in_width_lor; try lia; try apply in_width_land_r; (lia || done). Qed.

(** Reading what was written, and the converse. *)
Lemma word16_bytes x : is_u16 x -> word16 (byte1 x) (byte0 x) = x.
Proof. intros Hx; unfold word16, byte1, byte0. each_bit 16%nat; [apply word16_range | done]. Qed.

Lemma word32_bytes x : is_u32 x -> word32 (byte3 x) (byte2 x) (byte1 x) (byte0 x) = x.
Proof.
  intros Hx; unfold word32, byte3, byte2, byte1, byte0.
  each_bit 32%nat; [apply word32_range | done].
Qed.

Lemma bytes_word16 hi lo : is_u8 hi -> is_u8 lo ->
  byte1 (word16 hi lo) = hi /\ byte0 (word16 hi lo) = lo.
Proof.
  intros; split; unfold byte1, byte0, word16; each_bit 8%nat; auto with mem.
  all: match goal with |- in_width _ _ => apply in_width_land_r; (lia || done) end.
Qed.

Lemma bytes_word32 a b c d : is_u8 a -> is_u8 b -> is_u8 c -> is_u8 d ->
  byte3 (word32 a b c d) = a /\ byte2 (word32 a b c d) = b /\
  byte1 (word32 a b c d) = c /\ byte0 (word32 a b c d) = d.
Proof.
  intros; split_and!; unfold byte3, byte2, byte1, byte0, word32; each_bit 8%nat; auto with mem.
  all: match goal with |- in_width _ _ => apply in_width_land_r; (lia || done) end.
Qed.

Ltac split_bytes H := repeat (apply Forall_cons_1 in H as [? H]); clear H.

Lemma word16_inj hi lo hi' lo' :
  bytes [hi; lo; hi'; lo'] -> word16 hi lo = word16 hi' lo' -> hi = hi' /\ lo = lo'.
Proof.
  intros Hb E; split_bytes Hb.
  destruct (bytes_word16 hi lo), (bytes_word16 hi' lo'); try done; split; congruence.
Qed.

Lemma word32_inj a b c d a' b' c' d' :
  bytes [a; b; c; d; a'; b'; c'; d'] -> word32 a b c d = word32 a' b' c' d' ->
  [a; b; c; d] = [a'; b'; c'; d'].
Proof.
  intros Hb E; split_bytes Hb.
  destruct (bytes_word32 a b c d) as (? & ? & ? & ?), (bytes_word32 a' b' c' d')
    as (? & ? & ? & ?); try done; congruence.
Qed.

(** ** Error bursts *)
Lemma lookup_around data k n len j :
  0 <= k -> 0 <= n -> k + n <= len -> len <= Z.of_nat (length data) ->
  around data k n len !! j =
    if decide (j < Z.to_nat k)%nat then data !! j
    else if decide (j < Z.to_nat (len - n))%nat then data !! (j + Z.to_nat n)%nat else None.
Proof.
  intros; unfold around, segment.
  assert (Hl : length (take (Z.to_nat k) data) = Z.to_nat k) by (rewrite length_take; lia).
  destruct (decide (j < Z.to_nat k)%nat).
  - rewrite lookup_app_l by lia; by apply lookup_take_lt.
  - rewrite lookup_app_r, Hl by lia; destruct (decide (j < Z.to_nat (len - n))%nat).
    + rewrite lookup_take_lt, lookup_drop by lia; f_equal; lia.
    + apply lookup_take_ge; lia.
Qed.

(** A burst before or after the CRC field is a burst in the input of the CRC;
    one inside the field leaves the input alone. *)
Lemma around_patch data k n len i xs :
  0 <= k -> 0 <= n -> k + n <= len -> len <= Z.of_nat (length data) ->
  Z.of_nat (i + length xs) <= k \/
    k + n <= Z.of_nat i /\ Z.of_nat (i + length xs) <= len ->
  exists j, (j + length xs <= length (around data k n len))%nat /\
    around (patch data i xs) k n len = patch (around data k n len) j xs /\
    segment (around data k n len) (Z.of_nat j) (Z.of_nat (length xs))
      = segment data (Z.of_nat i) (Z.of_nat (length xs)).
Proof.
  intros Hk Hn Hlen Hd Hwin; rewrite length_around by lia.
  exists (if decide (Z.of_nat i < k) then i else (i - Z.to_nat n)%nat).
  split; [destruct (decide _); lia |]; split.
  - apply list_eq; intros m.
    rewrite lookup_patch by (rewrite length_around by lia; destruct (decide _); lia).
    rewrite !lookup_around, !lookup_patch by (rewrite ?length_patch; lia).
    repeat destruct (decide _); try lia; try done; f_equal; lia.
  - apply list_eq; intros m; unfold segment.
    destruct (decide (m < length xs)%nat).
    + rewrite !lookup_take_lt, !lookup_drop, lookup_around by lia.
      repeat destruct (decide _); try lia; f_equal; lia.
    + by rewrite !lookup_take_ge by lia.
Qed.

Lemma around_patch_field data k n len i xs :
  0 <= k -> 0 <= n -> k + n <= len -> len <= Z.of_nat (length data) ->
  k <= Z.of_nat i -> Z.of_nat (i + length xs) <= k + n ->
  around (patch data i xs) k n len = around data k n len.
Proof.
  intros; apply list_eq; intros m.
  rewrite !lookup_around, !lookup_patch by (rewrite ?length_patch; lia).
  repeat destruct (decide _); try lia; done.
Qed.

(** A burst no longer than the register changes the CRC. *)
Lemma crc_from_patch {w init xorout calc} {S : CrcSpec w init xorout calc} c ys post j xs :
  in_width w c -> bytes ys -> bytes post -> bytes xs ->
  (j + length xs <= length ys)%nat -> 8 * Z.of_nat (length xs) <= w ->
  segment ys (Z.of_nat j) (Z.of_nat (length xs)) <> xs ->
  crc_from c (patch ys j xs ++ post) <> crc_from c (ys ++ post).
Proof.
  intros Hc Hys Hpost Hxs Hj Hw Hne E.
  rewrite (patch_split ys j (length xs)) in E at 2 by done.
  unfold patch in E; rewrite <- !app_assoc in E.
  apply crc_from_burst in E; auto with mem.
  - apply Forall_app_2; auto with mem.
  - rewrite length_segment; lia.
Qed.

(** Stores to consecutive bytes, as the profiles write their fields. *)
Lemma store2_patch data i j a b :
  j = i + 1 -> 0 <= i -> j < Z.of_nat (length data) ->
  (d ← store data i a; store d j b) = Some (patch data (Z.to_nat i) [a; b]).
Proof.
  intros -> Hi Hlen; rewrite store_in by lia; cbn [mbind option_bind].
  rewrite store_in by (rewrite length_insert; lia); f_equal.
  apply list_eq; intros m; rewrite lookup_patch by (cbn; lia).
  destruct (decide _) as [Hm | Hm]; cbn in Hm.
  - destruct (decide (m = Z.to_nat i)) as [-> |]; [| replace m with (Z.to_nat (i + 1)) by lia].
    + rewrite list_lookup_insert_ne, list_lookup_insert_eq, Nat.sub_diag by lia; done.
    + rewrite list_lookup_insert_eq by (rewrite length_insert; lia).
      by replace (Z.to_nat (i + 1) - Z.to_nat i)%nat with 1%nat by lia.
  - by rewrite !list_lookup_insert_ne by lia.
Qed.

Lemma store4_patch data i i1 i2 i3 a b c e :
  i1 = i + 1 -> i2 = i + 2 -> i3 = i + 3 -> 0 <= i -> i3 < Z.of_nat (length data) ->
  (d ← store data i a; d ← store d i1 b; d ← store d i2 c; store d i3 e)
  = Some (patch data (Z.to_nat i) [a; b; c; e]).
Proof.
  intros -> -> -> Hi Hlen.
  assert (E : (d ← store data i a; d ← store d (i + 1) b; d ← store d (i + 2) c;
               store d (i + 3) e) =
              (d ← (d ← store data i a; store d (i + 1) b);
               d ← store d (i + 2) c; store d (i + 3) e)) by (by destruct (store data i a)).
  rewrite E, store2_patch by lia; cbn [mbind option_bind].
  rewrite store2_patch by (rewrite ?length_patch; cbn; lia).
  replace (Z.to_nat (i + 2)) with (Z.to_nat i + length [a; b])%nat by (cbn; lia).
  by rewrite patch_patch by (cbn; lia).
Qed.

Lemma store1_patch data i a :
  0 <= i < Z.of_nat (length data) -> store data i a = Some (patch data (Z.to_nat i) [a]).
Proof.
  intros Hi; rewrite store_in by lia; f_equal.
  apply list_eq; intros m; rewrite lookup_patch by (cbn; lia).
  destruct (decide _) as [Hm | Hm]; cbn in Hm.
  - replace m with (Z.to_nat i) by lia. by rewrite list_lookup_insert_eq, Nat.sub_diag by lia.
  - by rewrite list_lookup_insert_ne by lia.
Qed.

(** A header written at [off], read back byte by byte. *)
Lemma load_header p off h j :
  0 <= off -> 0 <= j < Z.of_nat (length h) ->
  off + Z.of_nat (length h) <= Z.of_nat (length p) ->
  load (patch p (Z.to_nat off) h) (off + j) = load h j.
Proof. intros; rewrite load_patch_in by lia; f_equal; lia. Qed.

(** ** What profiles 5 and 6 share: a 16-bit CRC, an implicit identifier *)
Lemma land_255 b : is_u8 b -> Z.land b 0xFF = b.
Proof.
  intros Hb; change 0xFF with (Z.ones 8); rewrite Z.land_ones by lia; apply Z.mod_small; in_range.
Qed.

Lemma land_255_range b : is_u8 (Z.land b 0xFF).
Proof. apply in_width_land_r; (lia || done). Qed.
#[export] Hint Resolve land_255_range : mem.

Lemma word16_id id : is_u16 id ->
  word16 (Z.land (Z.shiftr id 8) 0xFF) (Z.land id 0xFF) = id.
Proof. intros; unfold word16; each_bit 16%nat; [apply word16_range | done]. Qed.

(** Two identifiers whose bytes agree are equal. *)
Lemma id_bytes_inj a b :
  is_u16 a -> is_u16 b -> Z.land a 0xFF = Z.land b 0xFF ->
  Z.land (Z.shiftr a 8) 0xFF = Z.land (Z.shiftr b 8) 0xFF -> a = b.
Proof. intros Ha Hb E1 E2; rewrite <- (word16_id a), <- (word16_id b) by done; congruence. Qed.

Lemma crc16_around `{CRC : CrcLib} data off len :
  bytes data -> 0 <= off -> off + 2 <= len -> len <= Z.of_nat (length data) -> len < 2 ^ 16 ->
  (if off >? 0 then
     crc ← crc16 (Some data) off 0xFFFF true;
     crc16 (Some (ptr_at data (off + 2))) (u16 (len - off - 2)) crc false
   else crc16 (Some (ptr_at data (off + 2))) (u16 (len - off - 2)) 0xFFFF true)
  = Some (crc_from (S := crc16_ok) 0xFFFF (around data off 2 len)).
Proof.
  intros Hb Ho Hlen Hroom Hmax; unfold u16; rewrite (Z.mod_small (len - off - 2)) by lia.
  unfold ptr_at, around, segment; destruct (Z.gtb_spec off 0).
  - rewrite calc_first by (done || lia); cbn [mbind option_bind].
    rewrite calc_next; [done | rewrite length_drop; lia | auto with mem | done | auto with mem].
  - assert (off = 0) as -> by lia.
    rewrite calc_first; [done | rewrite length_drop; lia | auto with mem | done].
Qed.

(** The two bytes of an implicit identifier are within the reach of the CRC: a
    wrong identifier is always noticed. *)
Lemma crc16_wrong_id `{CRC : CrcLib} xs a1 a2 b1 b2 :
  bytes xs -> bytes [a1; a2] -> bytes [b1; b2] -> [a1; a2] <> [b1; b2] ->
  crc_from (S := crc16_ok) 0xFFFF (xs ++ [a1; a2]) <> crc_from (S := crc16_ok) 0xFFFF (xs ++ [b1; b2]).
Proof.
  intros Hx Ha Hb Hne.
  pose proof (crc_from_burst (S := crc16_ok) 0xFFFF xs [a1; a2] [b1; b2] []) as H.
  rewrite !app_nil_r in H; apply H; (done || constructor).
Qed.
