(* ===== verification/E2E_P01.v ===== *)
(** * E2E profile 1

    [safety_security/SafeLib/E2E/src/E2E_P01.c] and [inc/E2E_P01.h]: a one-byte
    CRC, a four-bit counter that counts modulo 15 and a data identifier that is
    not transmitted.  A null pointer argument is [None]; every operation returns
    [None] when it accesses memory outside the block it is given, and otherwise
    its return value and the objects its pointers refer to. *)

From S2P Require Import Prelude CrcTheory Crc E2E.

(** ** E2E_P01.h *)
Inductive E2E_P01DataIDMode :=
| E2E_P01_DATAID_BOTH
| E2E_P01_DATAID_ALT
| E2E_P01_DATAID_LOW
| E2E_P01_DATAID_NIBBLE.

#[export] Instance E2E_P01DataIDMode_eq : EqDecision E2E_P01DataIDMode.
Proof. solve_decision. Defined.

Record E2E_P01ConfigType := {
  CounterOffset : Z;
  CRCOffset : Z;
  DataID : Z;
  DataIDNibbleOffset : Z;
  DataIDMode : E2E_P01DataIDMode;
  DataLength : Z;
  MaxDeltaCounterInit : Z;
  MaxNoNewOrRepeatedData : Z;
  SyncCounterInit : Z
}.

Record E2E_P01ProtectStateType := { Counter : Z }.

Inductive E2E_P01CheckStatusType :=
| E2E_P01STATUS_OK
| E2E_P01STATUS_NONEWDATA
| E2E_P01STATUS_WRONGCRC
| E2E_P01STATUS_SYNC
| E2E_P01STATUS_INITIAL
| E2E_P01STATUS_REPEATED
| E2E_P01STATUS_OKSOMELOST
| E2E_P01STATUS_WRONGSEQUENCE.

Record E2E_P01CheckStateType := {
  LastValidCounter : Z;
  MaxDeltaCounter : Z;
  WaitForFirstData : bool;
  NewDataAvailable : bool;
  LostData : Z;
  Status : E2E_P01CheckStatusType;
  SyncCounter : Z;
  NoNewOrRepeatedDataCounter : Z
}.

(** Assignments to the members of [*StatePtr]. *)
Definition set_LastValidCounter v s := Build_E2E_P01CheckStateType v s.(MaxDeltaCounter)
  s.(WaitForFirstData) s.(NewDataAvailable) s.(LostData) s.(Status) s.(SyncCounter)
  s.(NoNewOrRepeatedDataCounter).
Definition set_MaxDeltaCounter v s := Build_E2E_P01CheckStateType s.(LastValidCounter) v
  s.(WaitForFirstData) s.(NewDataAvailable) s.(LostData) s.(Status) s.(SyncCounter)
  s.(NoNewOrRepeatedDataCounter).
Definition set_WaitForFirstData v s := Build_E2E_P01CheckStateType s.(LastValidCounter)
  s.(MaxDeltaCounter) v s.(NewDataAvailable) s.(LostData) s.(Status) s.(SyncCounter)
  s.(NoNewOrRepeatedDataCounter).
Definition set_LostData v s := Build_E2E_P01CheckStateType s.(LastValidCounter)
  s.(MaxDeltaCounter) s.(WaitForFirstData) s.(NewDataAvailable) v s.(Status) s.(SyncCounter)
  s.(NoNewOrRepeatedDataCounter).
Definition set_Status v s := Build_E2E_P01CheckStateType s.(LastValidCounter)
  s.(MaxDeltaCounter) s.(WaitForFirstData) s.(NewDataAvailable) s.(LostData) v s.(SyncCounter)
  s.(NoNewOrRepeatedDataCounter).
Definition set_SyncCounter v s := Build_E2E_P01CheckStateType s.(LastValidCounter)
  s.(MaxDeltaCounter) s.(WaitForFirstData) s.(NewDataAvailable) s.(LostData) s.(Status) v
  s.(NoNewOrRepeatedDataCounter).
Definition set_NoNewOrRepeatedDataCounter v s := Build_E2E_P01CheckStateType
  s.(LastValidCounter) s.(MaxDeltaCounter) s.(WaitForFirstData) s.(NewDataAvailable)
  s.(LostData) s.(Status) s.(SyncCounter) v.

(** ** E2E_P01.c *)
Definition MAX_P01_DATA_LENGTH_IN_BITS := 240.
Definition MAX_P01_COUNTER_VALUE := 14.

Definition calculateDeltaCounterP01 (receivedCounter lastValidCounter : Z) : Z :=
  if lastValidCounter <=? receivedCounter
  then u8 (receivedCounter - lastValidCounter)
  else u8 (MAX_P01_COUNTER_VALUE + 1 + receivedCounter - lastValidCounter).

Definition is_nibble (m : E2E_P01DataIDMode) : bool :=
  bool_decide (m = E2E_P01_DATAID_NIBBLE).

Definition checkConfigP01 (ConfigPtr : option E2E_P01ConfigType) : Z :=
  match ConfigPtr with
  | None => E2E_E_INPUTERR_NULL
  | Some Config =>
      if (Config.(DataLength) >? MAX_P01_DATA_LENGTH_IN_BITS)
         || negb (Config.(DataLength) mod 8 =? 0)
         || negb (Config.(CounterOffset) mod 4 =? 0) || negb (Config.(CRCOffset) mod 8 =? 0)
      then E2E_E_INPUTERR_WRONG
      else if (Config.(CRCOffset) + 8 >? Config.(DataLength))
              || (Config.(CounterOffset) + 4 >? Config.(DataLength))
              || (Config.(CRCOffset) / 8 =? Config.(CounterOffset) / 8)
      then E2E_E_INPUTERR_WRONG
      else if negb (is_nibble Config.(DataIDMode)) && negb (Config.(DataIDNibbleOffset) =? 0)
      then E2E_E_INPUTERR_WRONG
      else if bool_decide (Config.(DataIDMode) = E2E_P01_DATAID_LOW)
              && negb (Z.shiftr Config.(DataID) 8 =? 0)
      then E2E_E_INPUTERR_WRONG
      else if is_nibble Config.(DataIDMode) && negb (Z.shiftr Config.(DataID) 12 =? 0)
      then E2E_E_INPUTERR_WRONG
      else E2E_E_OK
  end.

Section Profile1.
Context `{CRC : CrcLib}.

Definition calculateCrcP01 (Config : E2E_P01ConfigType) (Counter : Z) (Data : list Z)
  : option Z :=
  let crc := Z.lxor 0x00 Crc_8_Xor in
  let lowerByteId := u8 Config.(DataID) in
  let upperByteId := u8 (Z.shiftr Config.(DataID) 8) in
  crc ← match Config.(DataIDMode) with
        | E2E_P01_DATAID_BOTH =>
            crc ← crc8 (Some [lowerByteId]) 1 crc false;
            crc8 (Some [upperByteId]) 1 crc false
        | E2E_P01_DATAID_LOW => crc8 (Some [lowerByteId]) 1 crc false
        | E2E_P01_DATAID_NIBBLE =>
            crc ← crc8 (Some [lowerByteId]) 1 crc false;
            crc8 (Some [0]) 1 crc false
        | E2E_P01_DATAID_ALT =>
            if Counter mod 2 =? 0
            then crc8 (Some [lowerByteId]) 1 crc false
            else crc8 (Some [upperByteId]) 1 crc false
        end;
  crc ← if Config.(CRCOffset) >=? 8
        then crc8 (Some Data) (Config.(CRCOffset) / 8) crc false else Some crc;
  crc ← if Config.(CRCOffset) / 8 <? Config.(DataLength) / 8 - 1
        then crc8 (Some (ptr_at Data (Config.(CRCOffset) / 8 + 1)))
                  (Config.(DataLength) / 8 - Config.(CRCOffset) / 8 - 1) crc false
        else Some crc;
  Some (Z.lxor crc Crc_8_Xor).

(** Writing a four-bit value: the low nibble when the bit offset is a multiple
    of 8, the high nibble otherwise. *)
Definition writeCounterP01 (Config : E2E_P01ConfigType) (Counter : Z) (Data : list Z)
  : option (list Z) :=
  let i := Config.(CounterOffset) / 8 in
  b ← load Data i;
  if Config.(CounterOffset) mod 8 =? 0
  then store Data i (Z.lor (Z.land b 0xF0) (Z.land Counter 0x0F))
  else store Data i (Z.lor (Z.land b 0x0F) (Z.land (Z.shiftl Counter 4) 0xF0)).

Definition writeDataIDNibbleP01 (Config : E2E_P01ConfigType) (Data : list Z)
  : option (list Z) :=
  if is_nibble Config.(DataIDMode) then
    let i := Config.(DataIDNibbleOffset) / 8 in
    b ← load Data i;
    if Config.(DataIDNibbleOffset) mod 8 =? 0
    then store Data i (Z.lor (Z.land b 0xF0) (u8 (Z.land (Z.shiftr Config.(DataID) 8) 0x0F)))
    else store Data i (Z.lor (Z.land b 0x0F) (u8 (Z.land (Z.shiftr Config.(DataID) 4) 0xF0)))
  else Some Data.

Definition E2E_P01Protect (ConfigPtr : option E2E_P01ConfigType)
    (StatePtr : option E2E_P01ProtectStateType) (DataPtr : option (list Z))
  : option (Z * option E2E_P01ProtectStateType * option (list Z)) :=
  let returnValue := checkConfigP01 ConfigPtr in
  match ConfigPtr, StatePtr, DataPtr with
  | Some Config, Some State, Some Data =>
      if negb (returnValue =? E2E_E_OK) then Some (returnValue, StatePtr, DataPtr)
      else
        Data ← writeCounterP01 Config State.(Counter) Data;
        Data ← writeDataIDNibbleP01 Config Data;
        crc ← calculateCrcP01 Config State.(Counter) Data;
        Data ← store Data (Config.(CRCOffset) / 8) crc;
        Some (E2E_E_OK, Some {| Counter := (State.(Counter) + 1) mod 15 |}, Some Data)
  | _, _, _ =>
      Some (if negb (returnValue =? E2E_E_OK) then returnValue else E2E_E_INPUTERR_NULL,
            StatePtr, DataPtr)
  end.

Definition readCounterP01 (Config : E2E_P01ConfigType) (Data : list Z) : option Z :=
  b ← load Data (Config.(CounterOffset) / 8);
  Some (if Config.(CounterOffset) mod 8 =? 0 then Z.land b 0x0F
        else Z.land (Z.shiftr b 4) 0x0F).

Definition readDataIDNibbleOffsetP01 (Config : E2E_P01ConfigType) (Data : list Z) : option Z :=
  if is_nibble Config.(DataIDMode) then
    b ← load Data (Config.(DataIDNibbleOffset) / 8);
    Some (if Config.(DataIDNibbleOffset) mod 8 =? 0 then Z.land b 0x0F
          else Z.land (Z.shiftr b 4) 0x0F)
  else Some 0.

Definition isFirstDataSinceInitialisationP01 (Config : E2E_P01ConfigType)
    (State : E2E_P01CheckStateType) (receivedCounter : Z) : bool * E2E_P01CheckStateType :=
  if State.(WaitForFirstData) then
    (true,
     set_Status E2E_P01STATUS_INITIAL
      (set_LastValidCounter receivedCounter
        (set_MaxDeltaCounter Config.(MaxDeltaCounterInit)
          (set_WaitForFirstData false State))))
  else (false, State).

Definition isCheckOfReceivedDataNotOkP01 (Config : E2E_P01ConfigType)
    (State : E2E_P01CheckStateType)
    (receivedCounter receivedCrc calculatedCrc receivedDataIDNibble : Z)
  : bool * E2E_P01CheckStateType :=
  if negb (receivedCrc =? calculatedCrc)
     || (is_nibble Config.(DataIDMode)
         && negb (receivedDataIDNibble =? Z.shiftr Config.(DataID) 8))
  then (true, set_Status E2E_P01STATUS_WRONGCRC State)
  else isFirstDataSinceInitialisationP01 Config State receivedCounter.

Definition doChecksP01 (Config : E2E_P01ConfigType) (State : E2E_P01CheckStateType)
    (receivedCounter : Z) : E2E_P01CheckStateType :=
  let delta := calculateDeltaCounterP01 receivedCounter State.(LastValidCounter) in
  if delta =? 0 then
    let State :=
      if State.(NoNewOrRepeatedDataCounter) <? MAX_P01_COUNTER_VALUE
      then set_NoNewOrRepeatedDataCounter (State.(NoNewOrRepeatedDataCounter) + 1) State
      else State in
    set_Status E2E_P01STATUS_REPEATED State
  else if delta =? 1 then
    let State := set_MaxDeltaCounter Config.(MaxDeltaCounterInit) State in
    let State := set_LastValidCounter receivedCounter State in
    let State := set_LostData 0 State in
    if State.(NoNewOrRepeatedDataCounter) <=? Config.(MaxNoNewOrRepeatedData) then
      let State := set_NoNewOrRepeatedDataCounter 0 State in
      if State.(SyncCounter) >? 0
      then set_Status E2E_P01STATUS_SYNC (set_SyncCounter (State.(SyncCounter) - 1) State)
      else set_Status E2E_P01STATUS_OK State
    else
      set_Status E2E_P01STATUS_SYNC
        (set_SyncCounter Config.(SyncCounterInit) (set_NoNewOrRepeatedDataCounter 0 State))
  else if delta <=? State.(MaxDeltaCounter) then
    let State := set_MaxDeltaCounter Config.(MaxDeltaCounterInit) State in
    let State := set_LastValidCounter receivedCounter State in
    let State := set_LostData (delta - 1) State in
    if State.(NoNewOrRepeatedDataCounter) <=? Config.(MaxNoNewOrRepeatedData) then
      let State := set_NoNewOrRepeatedDataCounter 0 State in
      if State.(SyncCounter) >? 0
      then set_Status E2E_P01STATUS_SYNC (set_SyncCounter (State.(SyncCounter) - 1) State)
      else set_Status E2E_P01STATUS_OKSOMELOST State
    else
      set_Status E2E_P01STATUS_SYNC
        (set_SyncCounter Config.(SyncCounterInit) (set_NoNewOrRepeatedDataCounter 0 State))
  else
    let State := set_NoNewOrRepeatedDataCounter 0 State in
    let State := set_SyncCounter Config.(SyncCounterInit) State in
    let State :=
      if State.(SyncCounter) >? 0
      then set_LastValidCounter receivedCounter
             (set_MaxDeltaCounter Config.(MaxDeltaCounterInit) State)
      else State in
    set_Status E2E_P01STATUS_WRONGSEQUENCE State.

(** [if (StatePtr->MaxDeltaCounter < MAX_P01_COUNTER_VALUE) StatePtr->MaxDeltaCounter++;] *)
Definition widenP01 (State : E2E_P01CheckStateType) : E2E_P01CheckStateType :=
  if State.(MaxDeltaCounter) <? MAX_P01_COUNTER_VALUE
  then set_MaxDeltaCounter (State.(MaxDeltaCounter) + 1) State else State.

Definition E2E_P01Check (ConfigPtr : option E2E_P01ConfigType)
    (StatePtr : option E2E_P01CheckStateType) (DataPtr : option (list Z))
  : option (Z * option E2E_P01CheckStateType) :=
  let returnValue := checkConfigP01 ConfigPtr in
  match ConfigPtr, StatePtr, DataPtr with
  | Some Config, Some State, Some Data =>
      if negb (returnValue =? E2E_E_OK) then Some (returnValue, StatePtr)
      else
        let State := widenP01 State in
        if negb State.(NewDataAvailable) then
          let State :=
            if State.(NoNewOrRepeatedDataCounter) <? MAX_P01_COUNTER_VALUE
            then set_NoNewOrRepeatedDataCounter (State.(NoNewOrRepeatedDataCounter) + 1) State
            else State in
          Some (E2E_E_OK, Some (set_Status E2E_P01STATUS_NONEWDATA State))
        else
          receivedCounter ← readCounterP01 Config Data;
          if receivedCounter >? MAX_P01_COUNTER_VALUE
          then Some (E2E_E_INPUTERR_WRONG, Some State)
          else
            receivedCrc ← load Data (Config.(CRCOffset) / 8);
            receivedDataIDNibble ← readDataIDNibbleOffsetP01 Config Data;
            calculatedCrc ← calculateCrcP01 Config receivedCounter Data;
            let '(notOk, State) :=
              isCheckOfReceivedDataNotOkP01 Config State receivedCounter receivedCrc
                calculatedCrc receivedDataIDNibble in
            if (notOk : bool) then Some (E2E_E_OK, Some State)
            else Some (E2E_E_OK, Some (doChecksP01 Config State receivedCounter))
  | _, _, _ =>
      Some (if negb (returnValue =? E2E_E_OK) then returnValue else E2E_E_INPUTERR_NULL,
            StatePtr)
  end.

Definition E2E_P01ProtectInit (StatePtr : option E2E_P01ProtectStateType)
  : Z * option E2E_P01ProtectStateType :=
  match StatePtr with
  | None => (E2E_E_INPUTERR_NULL, None)
  | Some _ => (E2E_E_OK, Some {| Counter := 0 |})
  end.

Definition E2E_P01CheckInit (StatePtr : option E2E_P01CheckStateType)
  : Z * option E2E_P01CheckStateType :=
  match StatePtr with
  | None => (E2E_E_INPUTERR_NULL, None)
  | Some _ =>
      (E2E_E_OK,
       Some {| LastValidCounter := 0; MaxDeltaCounter := 0; WaitForFirstData := true;
               NewDataAvailable := false; LostData := 0; Status := E2E_P01STATUS_NONEWDATA;
               SyncCounter := 0; NoNewOrRepeatedDataCounter := 0 |})
  end.
End Profile1.

Definition doE2E_P01MapStatusToSM_TRUE (Status : E2E_P01CheckStatusType)
  : E2E_PCheckStatusType :=
  match Status with
  | E2E_P01STATUS_OK | E2E_P01STATUS_OKSOMELOST | E2E_P01STATUS_SYNC => E2E_P_OK
  | E2E_P01STATUS_REPEATED => E2E_P_REPEATED
  | E2E_P01STATUS_NONEWDATA => E2E_P_NONEWDATA
  | E2E_P01STATUS_WRONGSEQUENCE | E2E_P01STATUS_INITIAL => E2E_P_WRONGSEQUENCE
  | _ => E2E_P_ERROR
  end.

Definition doE2E_P01MapStatusToSM_FALSE (Status : E2E_P01CheckStatusType)
  : E2E_PCheckStatusType :=
  match Status with
  | E2E_P01STATUS_OK | E2E_P01STATUS_OKSOMELOST | E2E_P01STATUS_INITIAL => E2E_P_OK
  | E2E_P01STATUS_REPEATED => E2E_P_REPEATED
  | E2E_P01STATUS_NONEWDATA => E2E_P_NONEWDATA
  | E2E_P01STATUS_WRONGSEQUENCE | E2E_P01STATUS_SYNC => E2E_P_WRONGSEQUENCE
  | _ => E2E_P_ERROR
  end.

Definition E2E_P01MapStatusToSM (CheckReturn : Z) (Status : E2E_P01CheckStatusType)
    (profileBehavior : bool) : E2E_PCheckStatusType :=
  if negb (CheckReturn =? E2E_E_OK) then E2E_P_ERROR
  else if profileBehavior then doE2E_P01MapStatusToSM_TRUE Status
  else doE2E_P01MapStatusToSM_FALSE Status.

(** ** Facts about a valid configuration *)

(** The members of a configuration object, at their widths. *)
Record typedP01 (c : E2E_P01ConfigType) : Prop := {
  tp_CounterOffset : is_u16 c.(CounterOffset);
  tp_CRCOffset : is_u16 c.(CRCOffset);
  tp_DataID : is_u16 c.(DataID);
  tp_DataIDNibbleOffset : is_u16 c.(DataIDNibbleOffset);
  tp_DataLength : is_u16 c.(DataLength);
  tp_MaxDeltaCounterInit : is_u8 c.(MaxDeltaCounterInit);
  tp_MaxNoNewOrRepeatedData : is_u8 c.(MaxNoNewOrRepeatedData);
  tp_SyncCounterInit : is_u8 c.(SyncCounterInit)
}.

(** What [checkConfigP01] does not check: in nibble mode the nibble of the data
    identifier has its own place inside the data. *)
Definition nibble_placed (c : E2E_P01ConfigType) : bool :=
  negb (is_nibble c.(DataIDMode))
  || ((c.(DataIDNibbleOffset) / 8 <? c.(DataLength) / 8)
      && negb (c.(DataIDNibbleOffset) / 8 =? c.(CRCOffset) / 8)
      && negb ((c.(DataIDNibbleOffset) / 8 =? c.(CounterOffset) / 8)
               && eqb (c.(DataIDNibbleOffset) mod 8 =? 0) (c.(CounterOffset) mod 8 =? 0))).

(** The data identifier as the CRC covers it. *)
Definition id_bytes (c : E2E_P01ConfigType) (counter : Z) : list Z :=
  let lo := u8 c.(DataID) in
  let hi := u8 (Z.shiftr c.(DataID) 8) in
  match c.(DataIDMode) with
  | E2E_P01_DATAID_BOTH => [lo; hi]
  | E2E_P01_DATAID_LOW => [lo]
  | E2E_P01_DATAID_NIBBLE => [lo; 0]
  | E2E_P01_DATAID_ALT => [if counter mod 2 =? 0 then lo else hi]
  end.

(** *** Nibbles *)
Definition get_nibble (low : bool) (b : Z) : Z :=
  if low then Z.land b 0x0F else Z.land (Z.shiftr b 4) 0x0F.

Definition put_nibble (low : bool) (b v : Z) : Z :=
  if low then Z.lor (Z.land b 0xF0) (Z.land v 0x0F)
  else Z.lor (Z.land b 0x0F) (Z.land (Z.shiftl v 4) 0xF0).

Lemma put_nibble_check :
  all_bytes (fun b => all_bytes (fun v => (16 <=? v) ||
    forallb (fun low => (get_nibble low (put_nibble low b v) =? v)
      && (get_nibble (negb low) (put_nibble low b v) =? get_nibble (negb low) b)
      && (0 <=? put_nibble low b v) && (put_nibble low b v <? 256)) [true; false])) = true.
Proof. vm_compute; reflexivity. Qed.

Lemma put_nibble_spec low b v :
  is_u8 b -> 0 <= v < 16 ->
  get_nibble low (put_nibble low b v) = v /\
  get_nibble (negb low) (put_nibble low b v) = get_nibble (negb low) b /\
  is_u8 (put_nibble low b v).
Proof.
  intros Hb Hv; pose proof (all_bytes_spec _ _ put_nibble_check Hb) as H.
  assert (Hv8 : is_u8 v) by in_range.
  pose proof (all_bytes_spec _ _ H Hv8) as H'; cbv beta in H'.
  rewrite (proj2 (Z.leb_gt 16 v)), orb_false_l in H' by lia.
  cbn [forallb] in H'; rewrite !andb_true_iff, !Z.eqb_eq, Z.leb_le, Z.ltb_lt in H'.
  unfold in_width; destruct low; cbn [negb] in *; destruct_and!; repeat split; lia.
Qed.

Lemma nibble_shift id :
  is_u16 id -> Z.shiftr id 8 < 16 ->
  u8 (Z.land (Z.shiftr id 8) 0x0F) = Z.land (Z.shiftr id 8) 0x0F /\
  u8 (Z.land (Z.shiftr id 4) 0xF0) = Z.land (Z.shiftl (Z.shiftr id 8) 4) 0xF0.
Proof.
  intros Hid Hn; unfold u8; split.
  - apply Z.mod_small, (in_width_land_r 8); [lia | done].
  - rewrite Z.mod_small by (apply (in_width_land_r 8); [lia | done]).
    bitwise i Hi. destruct (Z.lt_ge_cases i 4).
    + replace (Z.testbit 240 i) with false
        by (assert (i = 0 \/ i = 1 \/ i = 2 \/ i = 3) as [-> | [-> | [-> | ->]]] by lia; done).
      by rewrite !andb_false_r.
    + rewrite Z.shiftr_spec by lia. do 2 f_equal; lia.
Qed.

Section Profile1Facts.
Context `{CRC : CrcLib}.

Record validP01 (c : E2E_P01ConfigType) : Prop := {
  vp_length : 0 <= c.(DataLength) / 8 <= 30;
  vp_crc : 0 <= c.(CRCOffset) / 8 < c.(DataLength) / 8;
  vp_counter : 0 <= c.(CounterOffset) / 8 < c.(DataLength) / 8;
  vp_apart : c.(CRCOffset) / 8 <> c.(CounterOffset) / 8;
  vp_crc8 : c.(CRCOffset) = 8 * (c.(CRCOffset) / 8);
  vp_nibble_id : is_nibble c.(DataIDMode) = true -> 0 <= Z.shiftr c.(DataID) 8 < 16
}.

Lemma checkConfigP01_valid c :
  typedP01 c -> checkConfigP01 (Some c) = E2E_E_OK -> validP01 c.
Proof using Type.
  intros [Hco Hcr Hid _ Hdl _ _ _]; unfold checkConfigP01, MAX_P01_DATA_LENGTH_IN_BITS.
  destruct (_ || _) eqn:E1; [done |].
  destruct (_ || _) eqn:E2 in |- *; [done |].
  destruct (_ && _) in |- *; [done |].
  destruct (_ && _) in |- *; [done |].
  destruct (_ && _) eqn:E3 in |- *; [done |]; intros _.
  rewrite !orb_false_iff, ?negb_false_iff in E1, E2.
  unfold in_width in *.
  assert (is_nibble (DataIDMode c) = true -> 0 <= Z.shiftr (DataID c) 8 < 16).
  { intros Hn; rewrite Hn in E3; cbn in E3.
    rewrite negb_false_iff, Z.eqb_eq, Z.shiftr_div_pow2 in E3 by lia.
    rewrite Z.shiftr_div_pow2 by lia; change (2 ^ 12) with (2 ^ 8 * 16) in E3.
    rewrite <- Z.div_div in E3 by lia.
    split; [apply Z.div_pos; lia |]. Z.div_mod_to_equations; lia. }
  split; try done; try (Z.div_mod_to_equations; lia).
Qed.

(** *** The CRC *)
Definition crcP01 (c : E2E_P01ConfigType) (counter : Z) (data : list Z) : Z :=
  foldl (@cs_upd _ _ _ _ crc8_ok) 0
    (id_bytes c counter ++ around data (c.(CRCOffset) / 8) 1 (c.(DataLength) / 8)).

Lemma id_bytes_ok c counter : bytes (id_bytes c counter).
Proof using Type.
  unfold id_bytes; destruct (DataIDMode c); [| destruct (_ =? _) | |];
    repeat apply Forall_cons_2; (apply is_u8_u8 || done || by constructor).
Qed.

Lemma calculateCrcP01_eq c counter data :
  validP01 c -> bytes data -> c.(DataLength) / 8 <= Z.of_nat (length data) ->
  calculateCrcP01 c counter data = Some (crcP01 c counter data).
Proof using Type.
  intros [Hlen Hcrc _ _ Hcrc8 _] Hdata Hroom.
  assert (H0 : in_width 8 0) by done.
  pose proof (id_bytes_ok c counter) as Hid.
  assert (Hpre : match c.(DataIDMode) with
    | E2E_P01_DATAID_BOTH =>
        crc ← crc8 (Some [u8 c.(DataID)]) 1 0xFF false;
        crc8 (Some [u8 (Z.shiftr c.(DataID) 8)]) 1 crc false
    | E2E_P01_DATAID_LOW => crc8 (Some [u8 c.(DataID)]) 1 0xFF false
    | E2E_P01_DATAID_NIBBLE =>
        crc ← crc8 (Some [u8 c.(DataID)]) 1 0xFF false; crc8 (Some [0]) 1 crc false
    | E2E_P01_DATAID_ALT =>
        if counter mod 2 =? 0 then crc8 (Some [u8 c.(DataID)]) 1 0xFF false
        else crc8 (Some [u8 (Z.shiftr c.(DataID) 8)]) 1 0xFF false
    end = Some (crc_from (S := crc8_ok) 0 (id_bytes c counter))).
  { change 0xFF with (crc_from (S := crc8_ok) 0 []); unfold id_bytes.
    destruct (DataIDMode c); [| destruct (_ =? _) | |];
      repeat (rewrite calc_byte; [cbn [mbind option_bind app] | done
        | repeat constructor; apply is_u8_u8 | first [apply is_u8_u8 | done]]); done. }
  unfold calculateCrcP01; change (Z.lxor 0 Crc_8_Xor) with 0xFF.
  rewrite Hpre; cbn [mbind option_bind].
  rewrite calc_guarded; [cbn [mbind option_bind] | done | done | done | lia
    | intros Hg; lia].
  rewrite calc_guarded; [cbn [mbind option_bind] | done | apply Forall_app_2; auto with mem
    | by apply bytes_drop | unfold ptr_at; rewrite length_drop; lia | intros Hg; lia].
  f_equal; change Crc_8_Xor with 0xFF; rewrite crc_from_unxor; unfold crcP01, around, segment.
  unfold ptr_at; by rewrite <- app_assoc.
Qed.

Lemma crcP01_range c counter data : bytes data -> is_u8 (crcP01 c counter data).
Proof using Type.
  intros; apply cs_range; [done |]; apply Forall_app_2;
    [apply id_bytes_ok | by apply bytes_around].
Qed.

(** *** What [E2E_P01Protect] leaves in the data *)
Record frameP01 (c : E2E_P01ConfigType) (counter : Z) (data frame : list Z) : Prop := {
  fr_length : length frame = length data;
  fr_bytes : bytes frame;
  fr_crc : load frame (c.(CRCOffset) / 8) = Some (crcP01 c counter frame);
  fr_counter : readCounterP01 c frame = Some counter;
  fr_nibble : readDataIDNibbleOffsetP01 c frame =
      Some (if is_nibble c.(DataIDMode) then Z.shiftr c.(DataID) 8 else 0);
  fr_other : forall i, 0 <= i -> i <> c.(CRCOffset) / 8 -> i <> c.(CounterOffset) / 8 ->
    (is_nibble c.(DataIDMode) = true -> i <> c.(DataIDNibbleOffset) / 8) ->
    load frame i = load data i
}.

Lemma readCounterP01_nibble c data :
  readCounterP01 c data =
    (get_nibble (c.(CounterOffset) mod 8 =? 0)) <$> load data (c.(CounterOffset) / 8).
Proof using Type.
  unfold readCounterP01; destruct (load _ _); cbn; [| done]; by destruct (_ =? _).
Qed.

Lemma writeCounterP01_eq c counter data b :
  load data (c.(CounterOffset) / 8) = Some b ->
  writeCounterP01 c counter data =
    Some (<[Z.to_nat (c.(CounterOffset) / 8) :=
            put_nibble (c.(CounterOffset) mod 8 =? 0) b counter]> data).
Proof using Type.
  intros Hb; pose proof (load_Some _ _ _ Hb); unfold writeCounterP01; rewrite Hb; cbn.
  destruct (_ =? _); by rewrite store_in.
Qed.

Lemma writeDataIDNibbleP01_eq c data b :
  is_u16 c.(DataID) -> Z.shiftr c.(DataID) 8 < 16 ->
  is_nibble c.(DataIDMode) = true ->
  load data (c.(DataIDNibbleOffset) / 8) = Some b ->
  writeDataIDNibbleP01 c data =
    Some (<[Z.to_nat (c.(DataIDNibbleOffset) / 8) :=
            put_nibble (c.(DataIDNibbleOffset) mod 8 =? 0) b (Z.shiftr c.(DataID) 8)]> data).
Proof using Type.
  intros Hid Hn Hm Hb; pose proof (load_Some _ _ _ Hb); unfold writeDataIDNibbleP01.
  rewrite Hm, Hb; cbn.
  destruct (nibble_shift _ Hid Hn) as [-> ->].
  destruct (_ =? _); by rewrite store_in.
Qed.

Lemma crcP01_own_field c counter data v :
  validP01 c ->
  crcP01 c counter (<[Z.to_nat (c.(CRCOffset) / 8) := v]> data) = crcP01 c counter data.
Proof using Type.
  intros [_ Hcrc _ _ _ _]; unfold crcP01; by rewrite around_insert_field by lia.
Qed.

Lemma nibble_placed_spec c :
  nibble_placed c = true -> is_nibble c.(DataIDMode) = true ->
  c.(DataIDNibbleOffset) / 8 < c.(DataLength) / 8 /\
  c.(DataIDNibbleOffset) / 8 <> c.(CRCOffset) / 8 /\
  (c.(DataIDNibbleOffset) / 8 = c.(CounterOffset) / 8 ->
   (c.(DataIDNibbleOffset) mod 8 =? 0) = negb (c.(CounterOffset) mod 8 =? 0)).
Proof using Type.
  unfold nibble_placed; intros H Hm; rewrite Hm in H; cbn [negb orb] in H.
  rewrite !andb_true_iff, !negb_true_iff, andb_false_iff in H.
  destruct H as [[H1 H2] H3]; repeat split; [lia | lia |].
  intros E; destruct H3 as [H3 | H3]; [lia |].
  by apply eqb_false_iff in H3; destruct (_ mod 8 =? 0), (_ mod 8 =? 0) in *.
Qed.

(** Writing the nibble of the data identifier: it lands where the receiver
    reads it and leaves the counter alone. *)
Lemma writeDataIDNibbleP01_spec c data counter :
  typedP01 c -> validP01 c -> nibble_placed c = true -> bytes data ->
  c.(DataLength) / 8 <= Z.of_nat (length data) ->
  readCounterP01 c data = Some counter ->
  exists data', writeDataIDNibbleP01 c data = Some data' /\
    length data' = length data /\ bytes data' /\
    readCounterP01 c data' = Some counter /\
    readDataIDNibbleOffsetP01 c data' =
      Some (if is_nibble c.(DataIDMode) then Z.shiftr c.(DataID) 8 else 0) /\
    (forall i, 0 <= i -> (is_nibble c.(DataIDMode) = true -> i <> c.(DataIDNibbleOffset) / 8) ->
      load data' i = load data i).
Proof using Type.
  intros Ht Hv Hp Hdata Hroom Hcnt.
  destruct (is_nibble c.(DataIDMode)) eqn:Hm.
  2: { exists data; unfold writeDataIDNibbleP01, readDataIDNibbleOffsetP01; by rewrite Hm. }
  destruct (nibble_placed_spec c Hp Hm) as (Hin & Hne & Hsame).
  destruct (vp_nibble_id c Hv Hm) as [Hid0 Hid1].
  assert (Hnb : 0 <= c.(DataIDNibbleOffset) / 8)
    by (apply Z.div_pos; [apply tp_DataIDNibbleOffset in Ht; in_range | lia]).
  destruct (load_in data (c.(DataIDNibbleOffset) / 8)) as [b Hb]; [lia |].
  assert (Hb8 : is_u8 b) by eauto with mem.
  destruct (put_nibble_spec (c.(DataIDNibbleOffset) mod 8 =? 0) b (Z.shiftr c.(DataID) 8))
    as (Hget & Hoth & Hput); [done | lia |].
  eexists; split; [by apply writeDataIDNibbleP01_eq; [apply tp_DataID | lia | |] |].
  split; [apply length_insert |]; split; [by apply bytes_insert |]; split; [| split].
  - rewrite readCounterP01_nibble in *.
    destruct (decide (c.(DataIDNibbleOffset) / 8 = c.(CounterOffset) / 8)) as [E | E].
    + rewrite <- E in *; rewrite load_insert_eq by lia; rewrite Hb in Hcnt; cbn in *.
      rewrite <- Hcnt; f_equal. specialize (Hsame eq_refl).
      rewrite <- (negb_involutive (c.(CounterOffset) mod 8 =? 0)), <- Hsame; done.
    + by rewrite load_insert_ne by (lia || destruct Hv; lia).
  - unfold readDataIDNibbleOffsetP01; rewrite Hm, load_insert_eq by lia; cbn; f_equal.
    by destruct (_ =? _).
  - intros i Hi Hni; apply load_insert_ne; [lia | lia |]. specialize (Hni eq_refl); lia.
Qed.

Lemma writeCounterP01_spec c counter data :
  validP01 c -> bytes data -> c.(DataLength) / 8 <= Z.of_nat (length data) ->
  0 <= counter < 16 ->
  exists data', writeCounterP01 c counter data = Some data' /\
    length data' = length data /\ bytes data' /\ readCounterP01 c data' = Some counter /\
    (forall i, 0 <= i -> i <> c.(CounterOffset) / 8 -> load data' i = load data i).
Proof using Type.
  intros [_ _ Hcb _ _ _] Hdata Hroom Hcnt.
  destruct (load_in data (c.(CounterOffset) / 8)) as [b Hb]; [lia |].
  destruct (put_nibble_spec (c.(CounterOffset) mod 8 =? 0) b counter) as (Hget & _ & Hput);
    [eauto with mem | done |].
  eexists; split; [by apply writeCounterP01_eq |].
  split; [apply length_insert |]; split; [by apply bytes_insert |]; split.
  - rewrite readCounterP01_nibble, load_insert_eq by lia; cbn; by f_equal.
  - intros i Hi Hne; apply load_insert_ne; lia.
Qed.

Lemma protectP01_frame c counter data :
  typedP01 c -> checkConfigP01 (Some c) = E2E_E_OK -> nibble_placed c = true ->
  bytes data -> c.(DataLength) / 8 <= Z.of_nat (length data) -> 0 <= counter < 16 ->
  exists frame,
    E2E_P01Protect (Some c) (Some {| Counter := counter |}) (Some data) =
      Some (E2E_E_OK, Some {| Counter := (counter + 1) mod 15 |}, Some frame) /\
    frameP01 c counter data frame.
Proof using Type.
  intros Ht Hcheck Hp Hdata Hroom Hcnt; pose proof (checkConfigP01_valid c Ht Hcheck) as Hv.
  unfold E2E_P01Protect; rewrite Hcheck; cbn [negb Z.eqb E2E_E_OK Counter].
  destruct (writeCounterP01_spec c counter data) as (d1 & -> & Hl1 & Hb1 & Hc1 & Ho1);
    [done.. |]; cbn [mbind option_bind].
  destruct (writeDataIDNibbleP01_spec c d1 counter) as (d2 & -> & Hl2 & Hb2 & Hc2 & Hn2 & Ho2);
    [done .. | lia | done |]; cbn [mbind option_bind].
  rewrite calculateCrcP01_eq by (done || lia); cbn [mbind option_bind].
  pose proof Hv as [_ Hcrc Hcb Hap _ _].
  rewrite store_in by lia; cbn [mbind option_bind].
  eexists; split; [done |]; split.
  - rewrite length_insert; lia.
  - apply bytes_insert; [done | by apply crcP01_range].
  - rewrite load_insert_eq by lia. by rewrite crcP01_own_field.
  - rewrite readCounterP01_nibble, load_insert_ne, <- readCounterP01_nibble by lia; done.
  - rewrite <- Hn2; unfold readDataIDNibbleOffsetP01.
    destruct (is_nibble (DataIDMode c)) eqn:Hm; [| done].
    destruct (nibble_placed_spec c Hp Hm) as (_ & Hne & _).
    rewrite load_insert_ne; [done | lia | | lia].
    apply Z.div_pos; [apply tp_DataIDNibbleOffset in Ht; in_range | lia].
  - intros i Hi H1 H2 H3; rewrite load_insert_ne, Ho2, Ho1 by (done || lia); done.
Qed.

(** *** What [E2E_P01Check] does with data it can read *)
Lemma checkP01_step c st data counter crc nibble :
  typedP01 c -> checkConfigP01 (Some c) = E2E_E_OK -> bytes data ->
  c.(DataLength) / 8 <= Z.of_nat (length data) -> st.(NewDataAvailable) = true ->
  readCounterP01 c data = Some counter -> load data (c.(CRCOffset) / 8) = Some crc ->
  readDataIDNibbleOffsetP01 c data = Some nibble ->
  E2E_P01Check (Some c) (Some st) (Some data) =
    if counter >? 14 then Some (E2E_E_INPUTERR_WRONG, Some (widenP01 st))
    else if negb (crc =? crcP01 c counter data)
            || (is_nibble c.(DataIDMode) && negb (nibble =? Z.shiftr c.(DataID) 8))
    then Some (E2E_E_OK, Some (set_Status E2E_P01STATUS_WRONGCRC (widenP01 st)))
    else if st.(WaitForFirstData)
    then Some (E2E_E_OK, Some (snd (isFirstDataSinceInitialisationP01 c (widenP01 st) counter)))
    else Some (E2E_E_OK, Some (doChecksP01 c (widenP01 st) counter)).
Proof using Type.
  intros Ht Hcheck Hdata Hroom Hnew Hcnt Hcrc Hnib.
  pose proof (checkConfigP01_valid c Ht Hcheck) as Hv.
  unfold E2E_P01Check; rewrite Hcheck; cbn [negb Z.eqb E2E_E_OK].
  assert (Hw : NewDataAvailable (widenP01 st) = true /\
               WaitForFirstData (widenP01 st) = WaitForFirstData st)
    by (unfold widenP01; destruct (_ <? _); done).
  destruct Hw as [-> Hw]; cbn [negb]; rewrite Hcnt; cbn [mbind option_bind].
  unfold MAX_P01_COUNTER_VALUE; destruct (_ >? _); [done |].
  rewrite Hcrc, Hnib; cbn [mbind option_bind].
  rewrite calculateCrcP01_eq by done; cbn [mbind option_bind].
  unfold isCheckOfReceivedDataNotOkP01; destruct (_ || _); [done |].
  unfold isFirstDataSinceInitialisationP01; rewrite Hw.
  by destruct (WaitForFirstData st).
Qed.
End Profile1Facts.

(** ** Theorems *)
Section Profile1Theorems.
Context `{CRC : CrcLib}.

Lemma nibble_matches c :
  is_nibble c.(DataIDMode) &&
    negb ((if is_nibble c.(DataIDMode) then Z.shiftr c.(DataID) 8 else 0) =?
          Z.shiftr c.(DataID) 8) = false.
Proof using Type. destruct (is_nibble _); cbn; [by rewrite Z.eqb_refl | done]. Qed.

(** Round trip, first reception: data protected by [E2E_P01Protect] with
    an accepted configuration is accepted by a receiver that waits for its
    first data: the receiver reports [INITIAL] and takes over the counter. *)
Theorem p01_first_reception c counter st data :
  typedP01 c -> checkConfigP01 (Some c) = E2E_E_OK -> nibble_placed c = true ->
  bytes data -> c.(DataLength) / 8 <= Z.of_nat (length data) -> 0 <= counter <= 14 ->
  st.(NewDataAvailable) = true -> st.(WaitForFirstData) = true ->
  exists frame st',
    E2E_P01Protect (Some c) (Some {| Counter := counter |}) (Some data) =
      Some (E2E_E_OK, Some {| Counter := (counter + 1) mod 15 |}, Some frame) /\
    E2E_P01Check (Some c) (Some st) (Some frame) = Some (E2E_E_OK, Some st') /\
    st'.(Status) = E2E_P01STATUS_INITIAL /\ st'.(LastValidCounter) = counter /\
    st'.(WaitForFirstData) = false /\ st'.(MaxDeltaCounter) = c.(MaxDeltaCounterInit).
Proof using Type.
  intros Ht Hcheck Hp Hdata Hroom Hcnt Hnew Hwait.
  destruct (protectP01_frame c counter data) as (frame & Hpr & [Hl Hb Hcrc Hc Hn _]);
    [done .. | lia |].
  exists frame; rewrite Hpr.
  rewrite (checkP01_step c st frame _ _ _ Ht Hcheck Hb ltac:(lia) Hnew Hc Hcrc Hn).
  rewrite Z.eqb_refl, Hwait; unfold isFirstDataSinceInitialisationP01.
  destruct (Z.gtb_spec counter 14); [lia |].
  rewrite nibble_matches.
  replace (WaitForFirstData (widenP01 st)) with true
    by (unfold widenP01; destruct (_ <? _); done).
  eexists; done.
Qed.

(** The frames of successive calls of [E2E_P01Protect]. *)
Fixpoint send_allP01 (c : E2E_P01ConfigType) (s : E2E_P01ProtectStateType)
    (payloads : list (list Z)) : option (list (list Z) * E2E_P01ProtectStateType) :=
  match payloads with
  | [] => Some ([], s)
  | p :: payloads =>
      '(_, s, p) ← E2E_P01Protect (Some c) (Some s) (Some p);
      s ← s; p ← p;
      '(frames, s) ← send_allP01 c s payloads;
      Some (p :: frames, s)
  end.

Definition payload_ok (c : E2E_P01ConfigType) (p : list Z) : Prop :=
  bytes p /\ c.(DataLength) / 8 <= Z.of_nat (length p).

Lemma send_allP01_last c counter ps p :
  typedP01 c -> checkConfigP01 (Some c) = E2E_E_OK -> nibble_placed c = true ->
  Forall (payload_ok c) ps -> payload_ok c p -> 0 <= counter <= 14 ->
  exists frames frame,
    send_allP01 c {| Counter := counter |} (ps ++ [p]) =
      Some (frames ++ [frame],
            {| Counter := (counter + Z.of_nat (length ps) + 1) mod 15 |}) /\
    frameP01 c ((counter + Z.of_nat (length ps)) mod 15) p frame.
Proof using Type.
  intros Ht Hcheck Hp Hall [Hpb Hpr]; revert counter.
  induction Hall as [| q ps [Hb Hr] _ IH]; intros counter Hcnt; cbn [send_allP01 length app].
  - destruct (protectP01_frame c counter p) as (frame & -> & Hfr); [done.. | lia |].
    cbn [mbind option_bind]; exists [], frame; split; [by rewrite Z.add_0_r |].
    by rewrite Z.add_0_r, Z.mod_small by lia.
  - destruct (protectP01_frame c counter q) as (frame & -> & _); [done.. | lia |].
    cbn [mbind option_bind].
    destruct (IH ((counter + 1) mod 15)) as (frames & last & -> & Hfr).
    { pose proof (Z.mod_pos_bound (counter + 1) 15); lia. }
    cbn [mbind option_bind]; exists (frame :: frames), last; split.
    + assert (E : ((counter + 1) mod 15 + Z.of_nat (length ps) + 1) mod 15 =
                  (counter + Z.of_nat (S (length ps)) + 1) mod 15)
        by (rewrite <- Z.add_assoc, Zplus_mod_idemp_l; f_equal; lia).
      by rewrite E.
    + rewrite Zplus_mod_idemp_l in Hfr.
      replace (counter + Z.of_nat (S (length ps))) with (counter + 1 + Z.of_nat (length ps))
        by lia; done.
Qed.

Lemma calculateDeltaCounterP01_eq r l :
  0 <= r <= 14 -> 0 <= l <= 14 -> calculateDeltaCounterP01 r l = (r - l) mod 15.
Proof using Type.
  intros Hr Hl; unfold calculateDeltaCounterP01, u8, MAX_P01_COUNTER_VALUE.
  rewrite <- (delta_mod 15) by lia; destruct (Z.leb_spec l r); apply Z.mod_small; lia.
Qed.

(** The verdict of a synchronised receiver, by the distance of the counters. *)
Lemma doChecksP01_synced c st counter d :
  calculateDeltaCounterP01 counter st.(LastValidCounter) = d -> 1 <= d ->
  st.(SyncCounter) = 0 -> st.(NoNewOrRepeatedDataCounter) <= c.(MaxNoNewOrRepeatedData) ->
  let st' := doChecksP01 c st counter in
  (d = 1 -> st'.(Status) = E2E_P01STATUS_OK /\ st'.(LostData) = 0) /\
  (1 < d <= st.(MaxDeltaCounter) ->
   st'.(Status) = E2E_P01STATUS_OKSOMELOST /\ st'.(LostData) = d - 1) /\
  (1 < d -> st.(MaxDeltaCounter) < d -> st'.(Status) = E2E_P01STATUS_WRONGSEQUENCE).
Proof using Type.
  intros Hd H1 HS HR; unfold doChecksP01; rewrite Hd; cbn.
  rewrite HS, (proj2 (Z.leb_le _ _) HR); cbn.
  destruct (Z.eqb_spec d 0), (Z.eqb_spec d 1), (Z.leb_spec d (MaxDeltaCounter st));
    cbn; try lia; split; try done; split; intros; (done || lia).
Qed.

(** C24. Lossy channel, for a configuration that [checkConfigP01] accepts and, in nibble mode,
    that gives the nibble of the data identifier a place of its own inside the data
    ([nibble_placed], which [checkConfigP01] does not check and without which the claim fails):
    the sender protects [length lost + 1] data in a row, fewer than 15, and only the last
    arrives at a receiver that is synchronised with the sender (it has had its first data, its
    [SyncCounter] is 0, and it has not seen more repetitions than [MaxNoNewOrRepeatedData]).
    Nothing lost gives [OK]; a loss within the receiver's tolerance gives [OKSOMELOST] and
    [LostData] is the number of data that were lost; a larger loss gives [WRONGSEQUENCE]. *)
Theorem p01_loss_detection c st lost p :
  typedP01 c -> checkConfigP01 (Some c) = E2E_E_OK -> nibble_placed c = true ->
  Forall (payload_ok c) lost -> payload_ok c p -> (length lost < 14)%nat ->
  st.(NewDataAvailable) = true -> st.(WaitForFirstData) = false ->
  st.(SyncCounter) = 0 -> 0 <= st.(LastValidCounter) <= 14 ->
  st.(NoNewOrRepeatedDataCounter) <= c.(MaxNoNewOrRepeatedData) ->
  exists frames frame s st',
    send_allP01 c {| Counter := (st.(LastValidCounter) + 1) mod 15 |} (lost ++ [p]) =
      Some (frames ++ [frame], s) /\
    E2E_P01Check (Some c) (Some st) (Some frame) = Some (E2E_E_OK, Some st') /\
    (lost = [] -> st'.(Status) = E2E_P01STATUS_OK /\ st'.(LostData) = 0) /\
    (lost <> [] -> Z.of_nat (length lost) < (widenP01 st).(MaxDeltaCounter) ->
     st'.(Status) = E2E_P01STATUS_OKSOMELOST /\ st'.(LostData) = Z.of_nat (length lost)) /\
    (lost <> [] -> (widenP01 st).(MaxDeltaCounter) <= Z.of_nat (length lost) ->
     st'.(Status) = E2E_P01STATUS_WRONGSEQUENCE).
Proof using Type.
  intros Ht Hcheck Hp Hlost Hpay Hn Hnew Hwait Hsync Hlast Hrep.
  set (n := Z.of_nat (length lost)).
  destruct (send_allP01_last c ((st.(LastValidCounter) + 1) mod 15) lost p)
    as (frames & frame & Hsend & [Hl Hb Hcrc Hc Hnib _]); [done .. | |].
  { pose proof (Z.mod_pos_bound (st.(LastValidCounter) + 1) 15); lia. }
  exists frames, frame; eexists; rewrite Hsend.
  rewrite Zplus_mod_idemp_l in *. fold n in Hc, Hcrc.
  set (counter := (st.(LastValidCounter) + 1 + n) mod 15) in *.
  assert (Hcnt : 0 <= counter <= 14)
    by (pose proof (Z.mod_pos_bound (st.(LastValidCounter) + 1 + n) 15); lia).
  destruct Hpay as [Hpb Hroom].
  rewrite (checkP01_step c st frame _ _ _ Ht Hcheck Hb ltac:(lia) Hnew Hc Hcrc Hnib).
  rewrite Z.eqb_refl, Hwait.
  destruct (Z.gtb_spec counter 14); [lia |].
  rewrite nibble_matches.
  eexists; split; [done |]; split; [done |].
  set (st1 := widenP01 st).
  assert (H1 : LastValidCounter st1 = LastValidCounter st /\ SyncCounter st1 = 0 /\
               NoNewOrRepeatedDataCounter st1 = NoNewOrRepeatedDataCounter st)
    by (unfold st1, widenP01; destruct (_ <? _); done).
  destruct H1 as (HL & HS & HR).
  assert (Hdelta : calculateDeltaCounterP01 counter (LastValidCounter st1) = n + 1).
  { rewrite HL, calculateDeltaCounterP01_eq by done; unfold counter.
    replace (LastValidCounter st + 1 + n) with (LastValidCounter st + (n + 1)) by lia.
    apply delta_after; lia. }
  destruct (doChecksP01_synced c st1 counter (n + 1)) as (V1 & V2 & V3);
    [done | lia | done | by rewrite HR |].
  split; [intros ->; apply V1; done |]; split; intros Hne Hle.
  - rewrite <- (Z.add_simpl_r n 1); apply V2; destruct lost; cbn in *; (done || lia).
  - apply V3; destruct lost; cbn in *; (done || lia).
Qed.

(** Changing one covered byte changes the CRC. *)
Lemma crcP01_covered c counter data i v :
  validP01 c -> bytes data -> c.(DataLength) / 8 <= Z.of_nat (length data) ->
  0 <= i < c.(DataLength) / 8 -> i <> c.(CRCOffset) / 8 -> is_u8 v -> load data i <> Some v ->
  crcP01 c counter (<[Z.to_nat i := v]> data) <> crcP01 c counter data.
Proof using Type.
  intros Hv Hb Hroom Hi Hne Hv8 Hdiff; pose proof Hv as [Hlen Hcrc _ _ _ _].
  destruct (around_insert_covered data (c.(CRCOffset) / 8) 1 (c.(DataLength) / 8) i v)
    as (j & Hj & Hins & Hold); [lia .. |].
  unfold crcP01; rewrite Hins; intros E.
  apply (crc_from_insert (S := crc8_ok) 0 (id_bytes c counter)
           (around data (c.(CRCOffset) / 8) 1 (c.(DataLength) / 8)) j v);
    [done | apply id_bytes_ok | by apply bytes_around | done | done | by rewrite Hold |].
  unfold crc_from; by rewrite E.
Qed.

Lemma id_bytes_counter c k k' :
  c.(DataIDMode) <> E2E_P01_DATAID_ALT -> id_bytes c k = id_bytes c k'.
Proof using Type. unfold id_bytes; by destruct (DataIDMode c). Qed.

Lemma readsP01_total c data :
  typedP01 c -> validP01 c -> nibble_placed c = true ->
  c.(DataLength) / 8 <= Z.of_nat (length data) ->
  (exists k, readCounterP01 c data = Some k) /\
  (exists x, load data (c.(CRCOffset) / 8) = Some x) /\
  (exists n, readDataIDNibbleOffsetP01 c data = Some n).
Proof using Type.
  intros Ht [Hlen Hcrc Hcb _ _ _] Hp Hroom; split; [| split].
  - destruct (load_in data (c.(CounterOffset) / 8)) as [b Hb]; [lia |].
    unfold readCounterP01; rewrite Hb; eexists; done.
  - apply load_in; lia.
  - unfold readDataIDNibbleOffsetP01; destruct (is_nibble (DataIDMode c)) eqn:Hm;
      [| by eexists].
    destruct (nibble_placed_spec c Hp Hm) as (Hin & _ & _).
    destruct (load_in data (c.(DataIDNibbleOffset) / 8)) as [b ->]; [| by eexists].
    split; [apply Z.div_pos; [apply tp_DataIDNibbleOffset in Ht; in_range | lia] | lia].
Qed.

(** Corruption of one byte: when any single byte of a protected frame
    changes on the way, CRC and counter bytes included, the receiver's verdict
    is an error for the state machine under both profile behaviours and its
    reference counter stays.  (With alternating data identifiers the byte of
    the counter is excepted: it selects the identifier byte.) *)
Theorem p01_corruption_detected c counter data st frame s i v :
  typedP01 c -> checkConfigP01 (Some c) = E2E_E_OK -> nibble_placed c = true ->
  bytes data -> c.(DataLength) / 8 <= Z.of_nat (length data) -> 0 <= counter <= 14 ->
  E2E_P01Protect (Some c) (Some {| Counter := counter |}) (Some data) =
    Some (E2E_E_OK, s, Some frame) ->
  st.(NewDataAvailable) = true ->
  0 <= i < c.(DataLength) / 8 -> is_u8 v -> load frame i <> Some v ->
  c.(DataIDMode) <> E2E_P01_DATAID_ALT \/ i <> c.(CounterOffset) / 8 ->
  exists ret st',
    E2E_P01Check (Some c) (Some st) (Some (<[Z.to_nat i := v]> frame)) = Some (ret, Some st') /\
    (forall b, E2E_P01MapStatusToSM ret st'.(Status) b = E2E_P_ERROR) /\
    st'.(LastValidCounter) = st.(LastValidCounter).
Proof using Type.
  intros Ht Hcheck Hp Hdata Hroom Hcnt Hpr Hnew Hi Hv8 Hdiff Halt.
  pose proof (checkConfigP01_valid c Ht Hcheck) as Hv; pose proof Hv as [_ Hcrc Hcb Hap _ _].
  destruct (protectP01_frame c counter data) as (frame' & Hpr' & [Hl Hb Hcrcv Hc _ _]);
    [done .. | lia |].
  assert (frame' = frame) as -> by congruence.
  set (bad := <[Z.to_nat i := v]> frame).
  assert (Hbad : bytes bad) by (by apply bytes_insert).
  assert (Hlbad : length bad = length frame) by apply length_insert.
  destruct (readsP01_total c bad) as ((k & Hk) & (x & Hx) & (m & Hm)); [done .. | lia |].
  rewrite (checkP01_step c st bad _ _ _ Ht Hcheck Hbad ltac:(lia) Hnew Hk Hx Hm).
  assert (HL : LastValidCounter (widenP01 st) = LastValidCounter st)
    by (unfold widenP01; destruct (_ <? _); done).
  destruct (k >? 14); [by eexists _, _ |].
  assert (crcP01 c k bad <> x) as Hwrong.
  { destruct (decide (i = c.(CRCOffset) / 8)) as [-> | Hne].
    - unfold bad in *; rewrite load_insert_eq in Hx by lia; injection Hx as <-.
      rewrite readCounterP01_nibble, load_insert_ne, <- readCounterP01_nibble in Hk by lia.
      rewrite crcP01_own_field by done; congruence.
    - unfold bad in Hx; rewrite load_insert_ne in Hx by lia.
      assert (crcP01 c k bad = crcP01 c counter bad) as ->.
      { unfold crcP01; do 2 f_equal. destruct Halt as [Halt | Halt].
        - by apply id_bytes_counter.
        - unfold bad in Hk.
          rewrite readCounterP01_nibble, load_insert_ne, <- readCounterP01_nibble in Hk by lia.
          congruence. }
      intros E; apply (crcP01_covered c counter frame i v); try done; [lia |].
      fold bad; congruence. }
  rewrite (proj2 (Z.eqb_neq x (crcP01 c k bad))) by congruence; cbn [negb orb].
  by eexists _, _; split; [done |]; split; [intros [] |].
Qed.

Lemma put_nibble_range low b v : is_u8 (put_nibble low b v).
Proof using Type.
  destruct low; cbn; apply in_width_lor; try lia; apply in_width_land_r; (lia || done).
Qed.

Lemma writesP01_total c counter data :
  typedP01 c -> validP01 c -> bytes data -> c.(DataLength) / 8 <= Z.of_nat (length data) ->
  (is_nibble c.(DataIDMode) = true ->
   c.(DataIDNibbleOffset) / 8 < Z.of_nat (length data)) ->
  exists d1 d2, writeCounterP01 c counter data = Some d1 /\
    writeDataIDNibbleP01 c d1 = Some d2 /\ bytes d2 /\ length d2 = length data.
Proof using Type.
  intros Ht [_ Hcrc Hcb _ _ Hid] Hb Hroom Hnib.
  destruct (load_in data (c.(CounterOffset) / 8)) as [b Hbv]; [lia |].
  eexists; rewrite (writeCounterP01_eq c counter data b Hbv).
  set (d1 := <[_ := _]> data).
  assert (Hb1 : bytes d1) by (apply bytes_insert, put_nibble_range; done).
  assert (Hl1 : length d1 = length data) by apply length_insert.
  destruct (is_nibble (DataIDMode c)) eqn:Hm.
  - destruct (load_in d1 (c.(DataIDNibbleOffset) / 8)) as [b1 Hb1v].
    { specialize (Hnib eq_refl); split; [| lia].
      apply Z.div_pos; [apply tp_DataIDNibbleOffset in Ht; in_range | lia]. }
    eexists; split; [done |]; split.
    + apply writeDataIDNibbleP01_eq; [by apply tp_DataID | by apply Hid | done | done].
    + split; [apply bytes_insert, put_nibble_range; done | by rewrite length_insert].
  - exists d1; unfold writeDataIDNibbleP01; by rewrite Hm.
Qed.

(** Memory safety: with any configuration object whose nibble offset, when
    it is used, points into the data, and a data block of at least
    [DataLength] bits, neither [E2E_P01Protect] nor [E2E_P01Check] accesses
    memory outside the block. *)
Theorem p01_memory_safe c s st data :
  typedP01 c -> bytes data -> c.(DataLength) / 8 <= Z.of_nat (length data) ->
  (is_nibble c.(DataIDMode) = true ->
   c.(DataIDNibbleOffset) / 8 < Z.of_nat (length data)) ->
  is_Some (E2E_P01Protect (Some c) (Some s) (Some data)) /\
  is_Some (E2E_P01Check (Some c) (Some st) (Some data)).
Proof using Type.
  intros Ht Hb Hroom Hnib; unfold E2E_P01Protect, E2E_P01Check.
  destruct (Z.eqb_spec (checkConfigP01 (Some c)) E2E_E_OK) as [Hcheck |]; cbn [negb]; [| done].
  pose proof (checkConfigP01_valid c Ht Hcheck) as Hv; pose proof Hv as [_ Hcrc Hcb _ _ _].
  split.
  - destruct (writesP01_total c s.(Counter) data) as (d1 & d2 & -> & E & Hb2 & Hl2);
      [done .. |]; cbn [mbind option_bind]; rewrite E; cbn [mbind option_bind].
    rewrite calculateCrcP01_eq by (done || lia); cbn [mbind option_bind].
    rewrite store_in by lia; by eexists.
  - destruct (negb _); [by eexists |].
    unfold readCounterP01.
    destruct (load_in data (c.(CounterOffset) / 8)) as [b ->]; [lia |]; cbn [mbind option_bind].
    destruct (_ >? _); [by eexists |].
    destruct (load_in data (c.(CRCOffset) / 8)) as [x ->]; [lia |]; cbn [mbind option_bind].
    assert (Hr : exists n, readDataIDNibbleOffsetP01 c data = Some n).
    { unfold readDataIDNibbleOffsetP01; destruct (is_nibble _) eqn:Hm; [| by eexists].
      destruct (load_in data (c.(DataIDNibbleOffset) / 8)) as [y ->]; [| by eexists].
      specialize (Hnib eq_refl); split; [| lia].
      apply Z.div_pos; [apply tp_DataIDNibbleOffset in Ht; in_range | lia]. }
    destruct Hr as [m ->]; cbn [mbind option_bind].
    rewrite calculateCrcP01_eq by done; cbn [mbind option_bind].
    destruct (isCheckOfReceivedDataNotOkP01 _ _ _ _ _ _) as [[] st']; by eexists.
Qed.

(** *** Reachable receiver states *)

(** The receiver's life: [E2E_P01CheckInit], then the communication stack sets
    [NewDataAvailable] and calls [E2E_P01Check] with whatever arrived. *)
Inductive reachableP01 (c : E2E_P01ConfigType) : E2E_P01CheckStateType -> Prop :=
| reach_init st0 st :
    E2E_P01CheckInit (Some st0) = (E2E_E_OK, Some st) -> reachableP01 c st
| reach_newdata st b :
    reachableP01 c st ->
    reachableP01 c
      {| LastValidCounter := st.(LastValidCounter); MaxDeltaCounter := st.(MaxDeltaCounter);
         WaitForFirstData := st.(WaitForFirstData); NewDataAvailable := b;
         LostData := st.(LostData); Status := st.(Status);
         SyncCounter := st.(SyncCounter);
         NoNewOrRepeatedDataCounter := st.(NoNewOrRepeatedDataCounter) |}
| reach_check st data ret st' :
    reachableP01 c st -> E2E_P01Check (Some c) (Some st) data = Some (ret, Some st') ->
    reachableP01 c st'.

Record rangesP01 (c : E2E_P01ConfigType) (st : E2E_P01CheckStateType) : Prop := {
  rg_last : 0 <= st.(LastValidCounter) <= 14;
  rg_delta : 0 <= st.(MaxDeltaCounter) <= 255;
  rg_lost : 0 <= st.(LostData) <= 13;
  rg_sync : 0 <= st.(SyncCounter) <= c.(SyncCounterInit);
  rg_repeat : 0 <= st.(NoNewOrRepeatedDataCounter) <= 14
}.

Lemma rangesP01_widen c st : rangesP01 c st -> rangesP01 c (widenP01 st).
Proof using Type.
  intros []; unfold widenP01, MAX_P01_COUNTER_VALUE.
  destruct (Z.ltb_spec (MaxDeltaCounter st) 14); split; cbn; lia.
Qed.

Lemma rangesP01_status c st v : rangesP01 c st -> rangesP01 c (set_Status v st).
Proof using Type. intros []; by split. Qed.

Lemma rangesP01_doChecks c st counter :
  typedP01 c -> rangesP01 c st -> 0 <= counter <= 14 ->
  rangesP01 c (doChecksP01 c st counter).
Proof using Type.
  intros [_ _ _ _ _ Hd _ Hs] [] Hcnt; unfold in_width in *.
  assert (Hdelta : 0 <= calculateDeltaCounterP01 counter st.(LastValidCounter) <= 14).
  { rewrite calculateDeltaCounterP01_eq by done.
    pose proof (Z.mod_pos_bound (counter - LastValidCounter st) 15); lia. }
  unfold doChecksP01, MAX_P01_COUNTER_VALUE.
  set (delta := calculateDeltaCounterP01 _ _) in *.
  destruct (Z.eqb_spec delta 0); [destruct (Z.ltb_spec (NoNewOrRepeatedDataCounter st) 14);
    split; cbn; lia |].
  destruct (Z.eqb_spec delta 1), (Z.leb_spec delta (MaxDeltaCounter st)); cbn;
    repeat match goal with |- context [if ?b then _ else _] => destruct b eqn:? end;
    split; cbn; lia.
Qed.

Lemma readCounterP01_range c data k : readCounterP01 c data = Some k -> 0 <= k.
Proof using Type.
  unfold readCounterP01; destruct (load _ _); cbn; [| done]; intros [= <-].
  destruct (_ =? _); apply Z.land_nonneg; right; lia.
Qed.

Lemma rangesP01_check c st data ret st' :
  typedP01 c -> rangesP01 c st ->
  E2E_P01Check (Some c) (Some st) data = Some (ret, Some st') -> rangesP01 c st'.
Proof using Type.
  intros Ht Hst E; unfold E2E_P01Check, MAX_P01_COUNTER_VALUE in E.
  destruct data as [data |]; [| by injection E as <- <-].
  destruct (negb _); [by injection E as <- <- |].
  pose proof (rangesP01_widen c st Hst) as Hw; set (w := widenP01 st) in *.
  destruct (negb _).
  { injection E as <- <-; apply rangesP01_status; destruct Hw.
    destruct (Z.ltb_spec (NoNewOrRepeatedDataCounter w) 14); split; cbn; lia. }
  destruct (readCounterP01 c data) as [k |] eqn:Hk; cbn in E; [| done].
  apply readCounterP01_range in Hk.
  destruct (Z.gtb_spec k 14); [by injection E as <- <- |].
  destruct (load data _) as [x |]; cbn in E; [| done].
  destruct (readDataIDNibbleOffsetP01 _ _) as [m |]; cbn in E; [| done].
  destruct (calculateCrcP01 _ _ _) as [y |]; cbn in E; [| done].
  unfold isCheckOfReceivedDataNotOkP01, isFirstDataSinceInitialisationP01 in E.
  destruct (_ || _); [injection E as <- <-; by apply rangesP01_status |].
  destruct (WaitForFirstData w); injection E as <- <-.
  - destruct Ht, Hw; unfold in_width in *; split; cbn; lia.
  - apply rangesP01_doChecks; [done | done | lia].
Qed.

(** Invariant of the receiver: in every state reachable from
    [E2E_P01CheckInit] by receptions of arbitrary data, the reference counter
    is a valid counter (0..14), the repetition counter never exceeds 14, the
    resynchronisation counter never exceeds its configured start value, and
    [LostData] is at most 13: no member can leave its [uint8]. *)
Theorem p01_receiver_invariant c st :
  typedP01 c -> reachableP01 c st -> rangesP01 c st.
Proof using Type.
  intros Ht; induction 1 as [st0 st E | st b _ IH | st data ret st' _ IH E].
  - injection E as <-; pose proof (tp_SyncCounterInit c Ht); split; cbn; in_range.
  - destruct IH; by split.
  - by eapply rangesP01_check.
Qed.
End Profile1Theorems.

(** ** A configuration [checkConfigP01] accepts although it does not work *)

Definition nibbleP01 (offset : Z) : E2E_P01ConfigType := {|
  CounterOffset := 8; CRCOffset := 0; DataID := 0x0345; DataIDNibbleOffset := offset;
  DataIDMode := E2E_P01_DATAID_NIBBLE; DataLength := 64; MaxDeltaCounterInit := 2;
  MaxNoNewOrRepeatedData := 3; SyncCounterInit := 1
|}.

Definition freshP01 : E2E_P01CheckStateType := {|
  LastValidCounter := 0; MaxDeltaCounter := 0; WaitForFirstData := true;
  NewDataAvailable := true; LostData := 0; Status := E2E_P01STATUS_NONEWDATA;
  SyncCounter := 0; NoNewOrRepeatedDataCounter := 0
|}.

(** [checkConfigP01] does not check [DataIDNibbleOffset].  It accepts an
    offset past [DataLength], with which [E2E_P01Protect] writes outside a block
    of [DataLength] bits; and it accepts the offset of the counter, with which
    the nibble overwrites every counter and the receiver takes the second of two
    correct data for a repetition of the first. *)
Theorem p01_nibble_offset_unchecked :
  (checkConfigP01 (Some (nibbleP01 64)) = E2E_E_OK /\
   forall (CRC : CrcLib) counter,
     E2E_P01Protect (Some (nibbleP01 64)) (Some {| Counter := counter |})
       (Some (repeat 0 8)) = None) /\
  (checkConfigP01 (Some (nibbleP01 8)) = E2E_E_OK /\
   exists f1 f2 s st1 st2,
     send_allP01 (CRC := Crc_Generic) (nibbleP01 8) {| Counter := 0 |}
       [repeat 0 8; repeat 0 8] = Some ([f1; f2], s) /\
     E2E_P01Check (CRC := Crc_Generic) (Some (nibbleP01 8)) (Some freshP01) (Some f1)
       = Some (E2E_E_OK, Some st1) /\
     E2E_P01Check (CRC := Crc_Generic) (Some (nibbleP01 8)) (Some st1) (Some f2)
       = Some (E2E_E_OK, Some st2) /\
     st1.(Status) = E2E_P01STATUS_INITIAL /\ st2.(Status) = E2E_P01STATUS_REPEATED).
Proof.
  split; split; [done | intros CRC counter | done |].
  - unfold E2E_P01Protect; change (checkConfigP01 (Some (nibbleP01 64))) with 0; cbn [negb Z.eqb].
    rewrite (writeCounterP01_eq (nibbleP01 64) _ _ 0) by done; cbn [mbind option_bind].
    unfold writeDataIDNibbleP01; change (is_nibble _) with true; cbv iota.
    rewrite load_out by (rewrite length_insert; vm_compute; congruence); done.
  - eexists _, _, _, _, _; split; [vm_compute; reflexivity |].
    split; [vm_compute; reflexivity |]; split; [vm_compute; reflexivity |]; done.
Qed.

(** ** Witnesses *)

(** Variant 1A of the profile, eight bytes of data. *)
Definition variant1A : E2E_P01ConfigType := {|
  CounterOffset := 8; CRCOffset := 0; DataID := 0x1234; DataIDNibbleOffset := 0;
  DataIDMode := E2E_P01_DATAID_BOTH; DataLength := 64; MaxDeltaCounterInit := 2;
  MaxNoNewOrRepeatedData := 3; SyncCounterInit := 1
|}.

Definition syncedP01 : E2E_P01CheckStateType := {|
  LastValidCounter := 13; MaxDeltaCounter := 2; WaitForFirstData := false;
  NewDataAvailable := true; LostData := 0; Status := E2E_P01STATUS_OK;
  SyncCounter := 0; NoNewOrRepeatedDataCounter := 0
|}.

Definition payload8 : list Z := [0; 0; 0x11; 0x22; 0x33; 0x44; 0x55; 0xFF].

Lemma variant1A_typed : typedP01 variant1A.
Proof. split; vm_compute; split; congruence. Qed.

Lemma payload8_bytes : bytes payload8.
Proof. repeat constructor; vm_compute; congruence. Qed.

Lemma p01_first_reception_witness :
  exists frame st',
    E2E_P01Protect (CRC := Crc_Generic) (Some variant1A) (Some {| Counter := 14 |})
      (Some payload8) = Some (E2E_E_OK, Some {| Counter := 0 |}, Some frame) /\
    E2E_P01Check (CRC := Crc_Generic) (Some variant1A) (Some freshP01) (Some frame)
      = Some (E2E_E_OK, Some st') /\
    st'.(Status) = E2E_P01STATUS_INITIAL /\ st'.(LastValidCounter) = 14 /\
    st'.(WaitForFirstData) = false /\ st'.(MaxDeltaCounter) = 2.
Proof.
  apply (p01_first_reception (CRC := Crc_Generic) variant1A 14 freshP01 payload8);
    [apply variant1A_typed | reflexivity | reflexivity | apply payload8_bytes
    | vm_compute; congruence | lia | reflexivity | reflexivity].
Defined.

Lemma p01_loss_detection_witness :
  exists frames frame s st',
    send_allP01 (CRC := Crc_Generic) variant1A {| Counter := 14 |}
      ([payload8; payload8] ++ [payload8]) = Some (frames ++ [frame], s) /\
    E2E_P01Check (CRC := Crc_Generic) (Some variant1A) (Some syncedP01) (Some frame)
      = Some (E2E_E_OK, Some st') /\
    st'.(Status) = E2E_P01STATUS_OKSOMELOST /\ st'.(LostData) = 2.
Proof.
  assert (Hp : payload_ok variant1A payload8)
    by (split; [apply payload8_bytes | vm_compute; congruence]).
  destruct (p01_loss_detection (CRC := Crc_Generic) variant1A syncedP01 [payload8; payload8]
              payload8) as (frames & frame & s & st' & H1 & H2 & _ & H3 & _);
    [apply variant1A_typed | reflexivity | reflexivity | by repeat constructor | exact Hp
    | cbn; lia | reflexivity | reflexivity | reflexivity | cbn; lia | cbn; lia |].
  exists frames, frame, s, st'; split; [exact H1 |]; split; [exact H2 |].
  apply H3; [discriminate | vm_compute; reflexivity].
Defined.

Lemma p01_corruption_detected_witness :
  exists ret st',
    E2E_P01Check (CRC := Crc_Generic) (Some variant1A) (Some syncedP01)
      (Some (<[7%nat := 0xFE]> [0x82; 0x0E; 0x11; 0x22; 0x33; 0x44; 0x55; 0xFF]))
      = Some (ret, Some st') /\
    (forall b, E2E_P01MapStatusToSM ret st'.(Status) b = E2E_P_ERROR) /\
    st'.(LastValidCounter) = 13.
Proof.
  apply (p01_corruption_detected (CRC := Crc_Generic) variant1A 14 payload8 syncedP01
           [0x82; 0x0E; 0x11; 0x22; 0x33; 0x44; 0x55; 0xFF] (Some {| Counter := 0 |}) 7 0xFE);
    [apply variant1A_typed | reflexivity | reflexivity | apply payload8_bytes
    | vm_compute; congruence | lia | vm_compute; reflexivity | reflexivity
    | vm_compute; split; congruence | vm_compute; split; congruence
    | vm_compute; congruence | left; discriminate].
Defined.

Lemma p01_memory_safe_witness :
  is_Some (E2E_P01Protect (CRC := Crc_Generic) (Some variant1A) (Some {| Counter := 3 |})
             (Some payload8)) /\
  is_Some (E2E_P01Check (CRC := Crc_Generic) (Some variant1A) (Some freshP01) (Some payload8)).
Proof.
  apply (p01_memory_safe (CRC := Crc_Generic) variant1A {| Counter := 3 |} freshP01 payload8);
    [apply variant1A_typed | apply payload8_bytes | vm_compute; congruence | discriminate].
Defined.

Lemma p01_receiver_invariant_witness : rangesP01 variant1A (set_Status E2E_P01STATUS_NONEWDATA
    {| LastValidCounter := 0; MaxDeltaCounter := 0; WaitForFirstData := true;
       NewDataAvailable := false; LostData := 0; Status := E2E_P01STATUS_NONEWDATA;
       SyncCounter := 0; NoNewOrRepeatedDataCounter := 0 |}).
Proof.
  apply (p01_receiver_invariant (CRC := Crc_Generic) variant1A); [apply variant1A_typed |].
  apply (reach_init (CRC := Crc_Generic) variant1A syncedP01); reflexivity.
Defined.
