(* ===== verification/E2E_P02.v ===== *)
(** * E2E profile 2

    [safety_security/SafeLib/E2E/src/E2E_P02.c] and [inc/E2E_P02.h]: a one-byte
    CRC in byte 0, a four-bit counter in the low nibble of byte 1 and one of
    sixteen data identifiers, selected by the counter.  Pointers, faults and
    results are as in [E2E_P01.v]. *)

From S2P Require Import Prelude CrcTheory Crc E2E.

(** ** E2E_P02.h *)
Record E2E_P02ConfigType := {
  DataLength : Z;
  DataIDList : list Z;
  MaxDeltaCounterInit : Z;
  MaxNoNewOrRepeatedData : Z;
  SyncCounterInit : Z;
  Offset : Z
}.

Record E2E_P02ProtectStateType := { Counter : Z }.

Inductive E2E_P02CheckStatusType :=
| E2E_P02STATUS_OK
| E2E_P02STATUS_NONEWDATA
| E2E_P02STATUS_WRONGCRC
| E2E_P02STATUS_SYNC
| E2E_P02STATUS_INITIAL
| E2E_P02STATUS_REPEATED
| E2E_P02STATUS_OKSOMELOST
| E2E_P02STATUS_WRONGSEQUENCE.

Record E2E_P02CheckStateType := {
  LastValidCounter : Z;
  MaxDeltaCounter : Z;
  WaitForFirstData : bool;
  NewDataAvailable : bool;
  LostData : Z;
  Status : E2E_P02CheckStatusType;
  SyncCounter : Z;
  NoNewOrRepeatedDataCounter : Z
}.

(** Assignments to the members of [*StatePtr]. *)
Definition set_LastValidCounter v s := Build_E2E_P02CheckStateType v s.(MaxDeltaCounter)
  s.(WaitForFirstData) s.(NewDataAvailable) s.(LostData) s.(Status) s.(SyncCounter)
  s.(NoNewOrRepeatedDataCounter).
Definition set_MaxDeltaCounter v s := Build_E2E_P02CheckStateType s.(LastValidCounter) v
  s.(WaitForFirstData) s.(NewDataAvailable) s.(LostData) s.(Status) s.(SyncCounter)
  s.(NoNewOrRepeatedDataCounter).
Definition set_WaitForFirstData v s := Build_E2E_P02CheckStateType s.(LastValidCounter)
  s.(MaxDeltaCounter) v s.(NewDataAvailable) s.(LostData) s.(Status) s.(SyncCounter)
  s.(NoNewOrRepeatedDataCounter).
Definition set_LostData v s := Build_E2E_P02CheckStateType s.(LastValidCounter)
  s.(MaxDeltaCounter) s.(WaitForFirstData) s.(NewDataAvailable) v s.(Status) s.(SyncCounter)
  s.(NoNewOrRepeatedDataCounter).
Definition set_Status v s := Build_E2E_P02CheckStateType s.(LastValidCounter)
  s.(MaxDeltaCounter) s.(WaitForFirstData) s.(NewDataAvailable) s.(LostData) v s.(SyncCounter)
  s.(NoNewOrRepeatedDataCounter).
Definition set_SyncCounter v s := Build_E2E_P02CheckStateType s.(LastValidCounter)
  s.(MaxDeltaCounter) s.(WaitForFirstData) s.(NewDataAvailable) s.(LostData) s.(Status) v
  s.(NoNewOrRepeatedDataCounter).
Definition set_NoNewOrRepeatedDataCounter v s := Build_E2E_P02CheckStateType
  s.(LastValidCounter) s.(MaxDeltaCounter) s.(WaitForFirstData) s.(NewDataAvailable)
  s.(LostData) s.(Status) s.(SyncCounter) v.

(** ** E2E_P02.c *)
Definition MAX_P02_COUNTER_VALUE := 15.
Definition MAX_P02_DATA_LENGTH_IN_BITS := 8 * 256.
Definition MIN_P02_DATA_LENGTH_IN_BITS := 8 * 2.

Definition calculateDeltaCounterP02 (receivedCounter lastValidCounter : Z) : Z :=
  if lastValidCounter <=? receivedCounter
  then u8 (receivedCounter - lastValidCounter)
  else u8 (MAX_P02_COUNTER_VALUE + 1 + receivedCounter - lastValidCounter).

Definition checkConfigP02 (ConfigPtr : option E2E_P02ConfigType) : Z :=
  match ConfigPtr with
  | None => E2E_E_INPUTERR_NULL
  | Some Config =>
      if negb (Config.(DataLength) mod 8 =? 0)
         || (Config.(DataLength) <? MIN_P02_DATA_LENGTH_IN_BITS)
         || (Config.(DataLength) >? MAX_P02_DATA_LENGTH_IN_BITS)
      then E2E_E_INPUTERR_WRONG
      else if Config.(Offset) >? MAX_P02_DATA_LENGTH_IN_BITS - MIN_P02_DATA_LENGTH_IN_BITS
      then E2E_E_INPUTERR_WRONG
      else E2E_E_OK
  end.

Section Profile2.
Context `{CRC : CrcLib}.

(** The two calls of [Crc_CalculateCRC8H2F] that [E2E_P02Protect] and
    [E2E_P02Check] share: over the data from byte 1 on, then the data
    identifier. *)
Definition calculateCrcP02 (Config : E2E_P02ConfigType) (Data : list Z) (dataId : Z)
  : option Z :=
  crc ← crc8h2f (Some (ptr_at Data 1)) (Config.(DataLength) / 8 - 1) 0x00 true;
  crc8h2f (Some [dataId]) 1 crc false.

Definition E2E_P02Protect (ConfigPtr : option E2E_P02ConfigType)
    (StatePtr : option E2E_P02ProtectStateType) (DataPtr : option (list Z))
  : option (Z * option E2E_P02ProtectStateType * option (list Z)) :=
  let returnValue := checkConfigP02 ConfigPtr in
  match ConfigPtr, StatePtr, DataPtr with
  | Some Config, Some State, Some Data =>
      if negb (returnValue =? E2E_E_OK) then Some (returnValue, StatePtr, DataPtr)
      else
        let NewCounter := (State.(Counter) + 1) mod (MAX_P02_COUNTER_VALUE + 1) in
        b ← load Data 1;
        Data ← store Data 1 (Z.lor (Z.land b 0xF0) (Z.land NewCounter 0x0F));
        dataId ← load Config.(DataIDList) NewCounter;
        crc ← calculateCrcP02 Config Data dataId;
        Data ← store Data 0 crc;
        Some (E2E_E_OK, Some {| Counter := NewCounter |}, Some Data)
  | _, _, _ =>
      Some (if negb (returnValue =? E2E_E_OK) then returnValue else E2E_E_INPUTERR_NULL,
            StatePtr, DataPtr)
  end.

Definition isFirstDataSinceInitialisationP02 (Config : E2E_P02ConfigType)
    (State : E2E_P02CheckStateType) (receivedCounter : Z) : bool * E2E_P02CheckStateType :=
  if State.(WaitForFirstData) then
    (true,
     set_Status E2E_P02STATUS_INITIAL
      (set_LastValidCounter receivedCounter
        (set_MaxDeltaCounter Config.(MaxDeltaCounterInit)
          (set_WaitForFirstData false State))))
  else (false, State).

Definition doChecksP02 (Config : E2E_P02ConfigType) (State : E2E_P02CheckStateType)
    (receivedCounter : Z) : E2E_P02CheckStateType :=
  let delta := calculateDeltaCounterP02 receivedCounter State.(LastValidCounter) in
  if delta =? 0 then
    let State :=
      if State.(NoNewOrRepeatedDataCounter) <? MAX_P02_COUNTER_VALUE
      then set_NoNewOrRepeatedDataCounter (State.(NoNewOrRepeatedDataCounter) + 1) State
      else State in
    set_Status E2E_P02STATUS_REPEATED State
  else if delta =? 1 then
    let State := set_MaxDeltaCounter Config.(MaxDeltaCounterInit) State in
    let State := set_LastValidCounter receivedCounter State in
    let State := set_LostData 0 State in
    if State.(NoNewOrRepeatedDataCounter) <=? Config.(MaxNoNewOrRepeatedData) then
      let State := set_NoNewOrRepeatedDataCounter 0 State in
      if State.(SyncCounter) >? 0
      then set_Status E2E_P02STATUS_SYNC (set_SyncCounter (State.(SyncCounter) - 1) State)
      else set_Status E2E_P02STATUS_OK State
    else
      set_Status E2E_P02STATUS_SYNC
        (set_SyncCounter Config.(SyncCounterInit) (set_NoNewOrRepeatedDataCounter 0 State))
  else if delta >? State.(MaxDeltaCounter) then
    let State := set_NoNewOrRepeatedDataCounter 0 State in
    let State := set_SyncCounter Config.(SyncCounterInit) State in
    let State :=
      if State.(SyncCounter) >? 0
      then set_LastValidCounter receivedCounter
             (set_MaxDeltaCounter Config.(MaxDeltaCounterInit) State)
      else State in
    set_Status E2E_P02STATUS_WRONGSEQUENCE State
  else
    let State := set_MaxDeltaCounter Config.(MaxDeltaCounterInit) State in
    let State := set_LastValidCounter receivedCounter State in
    let State := set_LostData (delta - 1) State in
    if State.(NoNewOrRepeatedDataCounter) <=? Config.(MaxNoNewOrRepeatedData) then
      let State := set_NoNewOrRepeatedDataCounter 0 State in
      if State.(SyncCounter) >? 0
      then set_Status E2E_P02STATUS_SYNC (set_SyncCounter (State.(SyncCounter) - 1) State)
      else set_Status E2E_P02STATUS_OKSOMELOST State
    else
      set_Status E2E_P02STATUS_SYNC
        (set_SyncCounter Config.(SyncCounterInit) (set_NoNewOrRepeatedDataCounter 0 State)).

(** [if (StatePtr->MaxDeltaCounter < MAX_P02_COUNTER_VALUE) StatePtr->MaxDeltaCounter++;] *)
Definition widenP02 (State : E2E_P02CheckStateType) : E2E_P02CheckStateType :=
  if State.(MaxDeltaCounter) <? MAX_P02_COUNTER_VALUE
  then set_MaxDeltaCounter (State.(MaxDeltaCounter) + 1) State else State.

Definition E2E_P02Check (ConfigPtr : option E2E_P02ConfigType)
    (StatePtr : option E2E_P02CheckStateType) (DataPtr : option (list Z))
  : option (Z * option E2E_P02CheckStateType) :=
  let returnValue := checkConfigP02 ConfigPtr in
  match ConfigPtr, StatePtr, DataPtr with
  | Some Config, Some State, Some Data =>
      if negb (returnValue =? E2E_E_OK) then Some (returnValue, StatePtr)
      else
        let State := widenP02 State in
        if negb State.(NewDataAvailable) then
          let State :=
            if State.(NoNewOrRepeatedDataCounter) <? MAX_P02_COUNTER_VALUE
            then set_NoNewOrRepeatedDataCounter (State.(NoNewOrRepeatedDataCounter) + 1) State
            else State in
          Some (E2E_E_OK, Some (set_Status E2E_P02STATUS_NONEWDATA State))
        else
          b ← load Data 1;
          let receivedCounter := Z.land b 0xF in
          dataId ← load Config.(DataIDList) receivedCounter;
          crc ← calculateCrcP02 Config Data dataId;
          receivedCrc ← load Data 0;
          if negb (crc =? receivedCrc)
          then Some (E2E_E_OK, Some (set_Status E2E_P02STATUS_WRONGCRC State))
          else
            let '(first, State) :=
              isFirstDataSinceInitialisationP02 Config State receivedCounter in
            if (first : bool) then Some (E2E_E_OK, Some State)
            else Some (E2E_E_OK, Some (doChecksP02 Config State receivedCounter))
  | _, _, _ =>
      Some (if negb (returnValue =? E2E_E_OK) then returnValue else E2E_E_INPUTERR_NULL,
            StatePtr)
  end.

Definition E2E_P02ProtectInit (StatePtr : option E2E_P02ProtectStateType)
  : Z * option E2E_P02ProtectStateType :=
  match StatePtr with
  | None => (E2E_E_INPUTERR_NULL, None)
  | Some _ => (E2E_E_OK, Some {| Counter := 0 |})
  end.

Definition E2E_P02CheckInit (StatePtr : option E2E_P02CheckStateType)
  : Z * option E2E_P02CheckStateType :=
  match StatePtr with
  | None => (E2E_E_INPUTERR_NULL, None)
  | Some _ =>
      (E2E_E_OK,
       Some {| LastValidCounter := 0; MaxDeltaCounter := 0; WaitForFirstData := true;
               NewDataAvailable := false; LostData := 0; Status := E2E_P02STATUS_NONEWDATA;
               SyncCounter := 0; NoNewOrRepeatedDataCounter := 0 |})
  end.
End Profile2.

Definition doE2E_P02MapStatusToSM_TRUE (Status : E2E_P02CheckStatusType)
  : E2E_PCheckStatusType :=
  match Status with
  | E2E_P02STATUS_OK | E2E_P02STATUS_OKSOMELOST | E2E_P02STATUS_SYNC => E2E_P_OK
  | E2E_P02STATUS_REPEATED => E2E_P_REPEATED
  | E2E_P02STATUS_NONEWDATA => E2E_P_NONEWDATA
  | E2E_P02STATUS_WRONGSEQUENCE | E2E_P02STATUS_INITIAL => E2E_P_WRONGSEQUENCE
  | _ => E2E_P_ERROR
  end.

Definition doE2E_P02MapStatusToSM_FALSE (Status : E2E_P02CheckStatusType)
  : E2E_PCheckStatusType :=
  match Status with
  | E2E_P02STATUS_OK | E2E_P02STATUS_OKSOMELOST | E2E_P02STATUS_INITIAL => E2E_P_OK
  | E2E_P02STATUS_REPEATED => E2E_P_REPEATED
  | E2E_P02STATUS_NONEWDATA => E2E_P_NONEWDATA
  | E2E_P02STATUS_WRONGSEQUENCE | E2E_P02STATUS_SYNC => E2E_P_WRONGSEQUENCE
  | _ => E2E_P_ERROR
  end.

Definition E2E_P02MapStatusToSM (CheckReturn : Z) (Status : E2E_P02CheckStatusType)
    (profileBehavior : bool) : E2E_PCheckStatusType :=
  if negb (CheckReturn =? E2E_E_OK) then E2E_P_ERROR
  else if profileBehavior then doE2E_P02MapStatusToSM_TRUE Status
  else doE2E_P02MapStatusToSM_FALSE Status.

(** ** Facts *)

Record typedP02 (c : E2E_P02ConfigType) : Prop := {
  tp_DataLength : is_u16 c.(DataLength);
  tp_DataIDList : length c.(DataIDList) = 16%nat /\ bytes c.(DataIDList);
  tp_MaxDeltaCounterInit : is_u8 c.(MaxDeltaCounterInit);
  tp_MaxNoNewOrRepeatedData : is_u8 c.(MaxNoNewOrRepeatedData);
  tp_SyncCounterInit : is_u8 c.(SyncCounterInit);
  tp_Offset : is_u16 c.(Offset)
}.

Lemma checkConfigP02_valid c :
  checkConfigP02 (Some c) = E2E_E_OK -> 2 <= c.(DataLength) / 8 <= 256.
Proof.
  unfold checkConfigP02, MIN_P02_DATA_LENGTH_IN_BITS, MAX_P02_DATA_LENGTH_IN_BITS.
  destruct (_ || _) eqn:E1; [done |]; intros _.
  rewrite !orb_false_iff in E1; Z.div_mod_to_equations; lia.
Qed.

Lemma low_nibble_put b k :
  0 <= k < 16 -> Z.land (Z.lor (Z.land b 0xF0) (Z.land k 0x0F)) 0xF = k.
Proof.
  intros Hk; rewrite Z.land_lor_distr_l, <- !Z.land_assoc.
  change (Z.land 0xF0 0xF) with 0; change (Z.land 0x0F 0xF) with (Z.ones 4).
  rewrite Z.land_0_r, Z.lor_0_l, Z.land_ones by lia; apply Z.mod_small; lia.
Qed.

Lemma low_nibble_range b : 0 <= Z.land b 0xF < 16.
Proof. change 0xF with (Z.ones 4); rewrite Z.land_ones by lia; by apply Z.mod_pos_bound. Qed.

Lemma put_low_range b k : is_u8 (Z.lor (Z.land b 0xF0) (Z.land k 0x0F)).
Proof. apply in_width_lor; try lia; apply in_width_land_r; (lia || done). Qed.

Section Profile2Facts.
Context `{CRC : CrcLib}.

Definition crcP02 (c : E2E_P02ConfigType) (data : list Z) (id : Z) : Z :=
  crc_from (S := crc8h2f_ok) 0xFF (segment data 1 (c.(DataLength) / 8 - 1) ++ [id]).

Lemma calculateCrcP02_eq c data id :
  2 <= c.(DataLength) / 8 <= Z.of_nat (length data) -> bytes data -> is_u8 id ->
  calculateCrcP02 c data id = Some (crcP02 c data id).
Proof using Type.
  intros Hlen Hb Hid; unfold calculateCrcP02, ptr_at.
  rewrite calc_first; [| rewrite length_drop; lia | by apply bytes_drop | done].
  cbn [mbind option_bind]; rewrite calc_byte; [done | done | auto with mem | done].
Qed.

Lemma crcP02_range c data id : bytes data -> is_u8 id -> is_u8 (crcP02 c data id).
Proof using Type.
  intros; apply crc_from_range; [done |]; apply Forall_app_2; auto with mem.
Qed.

Lemma crcP02_byte0 c data id v : crcP02 c (<[0%nat := v]> data) id = crcP02 c data id.
Proof using Type.
  unfold crcP02, segment; change (Z.to_nat 1) with 1%nat.
  by rewrite drop_insert_lt by lia.
Qed.

(** What [E2E_P02Protect] leaves in the data; [k] is the new counter. *)
Record frameP02 (c : E2E_P02ConfigType) (k : Z) (data frame : list Z) : Prop := {
  fr_length : length frame = length data;
  fr_bytes : bytes frame;
  fr_counter : exists b, load frame 1 = Some b /\ Z.land b 0xF = k;
  fr_crc : exists id, load c.(DataIDList) k = Some id /\
                      load frame 0 = Some (crcP02 c frame id);
  fr_other : forall i, 1 < i -> load frame i = load data i
}.

Lemma load_id c k : typedP02 c -> 0 <= k < 16 ->
  exists id, load c.(DataIDList) k = Some id /\ is_u8 id.
Proof using Type.
  intros Ht Hk; destruct (tp_DataIDList c Ht) as [Hl Hb].
  destruct (load_in c.(DataIDList) k) as [id Hid]; [lia |].
  exists id; eauto with mem.
Qed.

Lemma protectP02_frame c counter data :
  typedP02 c -> checkConfigP02 (Some c) = E2E_E_OK -> bytes data ->
  c.(DataLength) / 8 <= Z.of_nat (length data) ->
  exists frame,
    E2E_P02Protect (Some c) (Some {| Counter := counter |}) (Some data) =
      Some (E2E_E_OK, Some {| Counter := (counter + 1) mod 16 |}, Some frame) /\
    frameP02 c ((counter + 1) mod 16) data frame.
Proof using Type.
  intros Ht Hcheck Hb Hroom; pose proof (checkConfigP02_valid c Hcheck) as Hv.
  unfold E2E_P02Protect; rewrite Hcheck; cbn [negb Z.eqb E2E_E_OK Counter].
  change (MAX_P02_COUNTER_VALUE + 1) with 16; set (k := (counter + 1) mod 16).
  assert (Hk : 0 <= k < 16) by (apply Z.mod_pos_bound; lia).
  destruct (load_in data 1) as [b Hb1]; [lia |]; rewrite Hb1; cbn [mbind option_bind].
  rewrite store_in by lia; cbn [mbind option_bind].
  set (d1 := <[_ := _]> data).
  assert (Hd1 : bytes d1) by (apply bytes_insert, put_low_range; done).
  assert (Hl1 : length d1 = length data) by apply length_insert.
  destruct (load_id c k Ht Hk) as (id & Hid & Hid8); rewrite Hid; cbn [mbind option_bind].
  rewrite calculateCrcP02_eq by (done || lia); cbn [mbind option_bind].
  rewrite store_in by lia; cbn [mbind option_bind].
  eexists; split; [done |]; split.
  - rewrite length_insert; lia.
  - by apply bytes_insert; [| apply crcP02_range].
  - exists (Z.lor (Z.land b 0xF0) (Z.land k 0x0F)); split; [| by apply low_nibble_put].
    unfold d1; rewrite load_insert_ne, load_insert_eq by lia; done.
  - exists id; split; [done |]. rewrite load_insert_eq by lia.
    change (Z.to_nat 0) with 0%nat; by rewrite crcP02_byte0.
  - intros i Hi; unfold d1; rewrite !load_insert_ne by lia; done.
Qed.

Lemma checkP02_step c st data b id crc :
  checkConfigP02 (Some c) = E2E_E_OK -> bytes data ->
  c.(DataLength) / 8 <= Z.of_nat (length data) -> st.(NewDataAvailable) = true ->
  load data 1 = Some b -> load c.(DataIDList) (Z.land b 0xF) = Some id -> is_u8 id ->
  load data 0 = Some crc ->
  E2E_P02Check (Some c) (Some st) (Some data) =
    Some (E2E_E_OK, Some
      (if negb (crcP02 c data id =? crc)
       then set_Status E2E_P02STATUS_WRONGCRC (widenP02 st)
       else if st.(WaitForFirstData)
       then snd (isFirstDataSinceInitialisationP02 c (widenP02 st) (Z.land b 0xF))
       else doChecksP02 c (widenP02 st) (Z.land b 0xF))).
Proof using Type.
  intros Hcheck Hb Hroom Hnew Hb1 Hid Hid8 Hcrc; pose proof (checkConfigP02_valid c Hcheck).
  unfold E2E_P02Check; rewrite Hcheck; cbn [negb Z.eqb E2E_E_OK].
  assert (Hw : NewDataAvailable (widenP02 st) = true /\
               WaitForFirstData (widenP02 st) = WaitForFirstData st)
    by (unfold widenP02; destruct (_ <? _); done).
  destruct Hw as [-> Hw]; cbn [negb]; rewrite Hb1; cbn [mbind option_bind].
  rewrite Hid; cbn [mbind option_bind].
  rewrite calculateCrcP02_eq by (done || lia); cbn [mbind option_bind].
  rewrite Hcrc; cbn [mbind option_bind]; destruct (negb _); [done |].
  unfold isFirstDataSinceInitialisationP02; rewrite Hw.
  by destruct (WaitForFirstData st).
Qed.

Lemma calculateDeltaCounterP02_eq r l :
  0 <= r <= 15 -> 0 <= l <= 15 -> calculateDeltaCounterP02 r l = (r - l) mod 16.
Proof using Type.
  intros Hr Hl; unfold calculateDeltaCounterP02, u8, MAX_P02_COUNTER_VALUE.
  rewrite <- (delta_mod 16) by lia; destruct (Z.leb_spec l r); apply Z.mod_small; lia.
Qed.

Lemma doChecksP02_synced c st counter d :
  calculateDeltaCounterP02 counter st.(LastValidCounter) = d -> 1 <= d ->
  st.(SyncCounter) = 0 -> st.(NoNewOrRepeatedDataCounter) <= c.(MaxNoNewOrRepeatedData) ->
  let st' := doChecksP02 c st counter in
  (d = 1 -> st'.(Status) = E2E_P02STATUS_OK /\ st'.(LostData) = 0) /\
  (1 < d <= st.(MaxDeltaCounter) ->
   st'.(Status) = E2E_P02STATUS_OKSOMELOST /\ st'.(LostData) = d - 1) /\
  (1 < d -> st.(MaxDeltaCounter) < d -> st'.(Status) = E2E_P02STATUS_WRONGSEQUENCE).
Proof using Type.
  intros Hd H1 HS HR; unfold doChecksP02; rewrite Hd; cbn.
  rewrite HS, (proj2 (Z.leb_le _ _) HR); cbn.
  destruct (Z.eqb_spec d 0), (Z.eqb_spec d 1), (Z.gtb_spec d (MaxDeltaCounter st));
    cbn; try lia; split; try done; split; intros; (done || lia).
Qed.
End Profile2Facts.

(** ** Theorems *)
Section Profile2Theorems.
Context `{CRC : CrcLib}.

(** The frames of successive calls of [E2E_P02Protect]. *)
Fixpoint send_allP02 (c : E2E_P02ConfigType) (s : E2E_P02ProtectStateType)
    (payloads : list (list Z)) : option (list (list Z) * E2E_P02ProtectStateType) :=
  match payloads with
  | [] => Some ([], s)
  | p :: payloads =>
      '(_, s, p) ← E2E_P02Protect (Some c) (Some s) (Some p);
      s ← s; p ← p;
      '(frames, s) ← send_allP02 c s payloads;
      Some (p :: frames, s)
  end.

Definition payload_okP02 (c : E2E_P02ConfigType) (p : list Z) : Prop :=
  bytes p /\ c.(DataLength) / 8 <= Z.of_nat (length p).

Lemma send_allP02_last c counter ps p :
  typedP02 c -> checkConfigP02 (Some c) = E2E_E_OK ->
  Forall (payload_okP02 c) ps -> payload_okP02 c p ->
  exists frames frame s,
    send_allP02 c {| Counter := counter |} (ps ++ [p]) = Some (frames ++ [frame], s) /\
    frameP02 c ((counter + Z.of_nat (length ps) + 1) mod 16) p frame.
Proof using Type.
  intros Ht Hcheck Hall [Hpb Hpr]; revert counter.
  induction Hall as [| q ps [Hb Hr] _ IH]; intros counter; cbn [send_allP02 length app].
  - destruct (protectP02_frame c counter p) as (frame & -> & Hfr); [done.. |].
    cbn [mbind option_bind]; eexists [], frame, _; split; [done |].
    by rewrite Z.add_0_r.
  - destruct (protectP02_frame c counter q) as (frame & -> & _); [done.. |].
    cbn [mbind option_bind].
    destruct (IH ((counter + 1) mod 16)) as (frames & last & s & -> & Hfr).
    cbn [mbind option_bind]; exists (frame :: frames), last, s; split; [done |].
    rewrite <- Z.add_assoc, Zplus_mod_idemp_l in Hfr.
    replace (counter + Z.of_nat (S (length ps)) + 1)
      with (counter + 1 + (Z.of_nat (length ps) + 1)) by lia; done.
Qed.

End Profile2Theorems.

(** ** Corruption, and the unused offset *)
Section Profile2More.
Context `{CRC : CrcLib}.

Lemma crcP02_covered c data id i v :
  2 <= c.(DataLength) / 8 <= Z.of_nat (length data) -> bytes data -> is_u8 id -> is_u8 v ->
  0 < i < c.(DataLength) / 8 -> load data i <> Some v ->
  crcP02 c (<[Z.to_nat i := v]> data) id <> crcP02 c data id.
Proof using Type.
  intros Hlen Hb Hid Hv Hi Hdiff; unfold crcP02.
  set (seg := segment data 1 (c.(DataLength) / 8 - 1)).
  assert (Hl : length seg = Z.to_nat (c.(DataLength) / 8 - 1))
    by (apply length_segment; lia).
  replace (segment (<[Z.to_nat i := v]> data) 1 (c.(DataLength) / 8 - 1))
    with (<[Z.to_nat (i - 1) := v]> seg).
  2: { unfold seg, segment; rewrite drop_insert_ge, take_insert_lt by lia; f_equal; lia. }
  rewrite <- insert_app_l by lia.
  apply (crc_from_insert (S := crc8h2f_ok) 0xFF [] (seg ++ [id])); auto with mem.
  - done.
  - apply Forall_app_2; [by apply bytes_segment | by constructor].
  - rewrite length_app; lia.
  - rewrite lookup_app_l by lia; unfold seg, segment.
    rewrite lookup_take_lt, lookup_drop by lia; rewrite load_spec in Hdiff by lia.
    by replace (Z.to_nat 1 + Z.to_nat (i - 1))%nat with (Z.to_nat i) by lia.
Qed.

(** Any change of one byte of a frame protected with profile 2, in the
    CRC, the counter byte or the payload, is reported as [WRONGCRC] and the
    receiver keeps its counter.  A change of the counter byte is covered when
    the wrong counter selects the same data identifier (the check value also
    depends on the identifier, so the other case has two changes). *)
Theorem p02_corruption_detected c counter data st frame s i v :
  typedP02 c -> checkConfigP02 (Some c) = E2E_E_OK -> bytes data ->
  c.(DataLength) / 8 <= Z.of_nat (length data) ->
  E2E_P02Protect (Some c) (Some {| Counter := counter |}) (Some data) =
    Some (E2E_E_OK, s, Some frame) ->
  st.(NewDataAvailable) = true ->
  0 <= i < c.(DataLength) / 8 -> is_u8 v -> load frame i <> Some v ->
  (i = 1 -> load c.(DataIDList) (Z.land v 0xF) =
            load c.(DataIDList) ((counter + 1) mod 16)) ->
  exists st',
    E2E_P02Check (Some c) (Some st) (Some (<[Z.to_nat i := v]> frame)) =
      Some (E2E_E_OK, Some st') /\
    st'.(Status) = E2E_P02STATUS_WRONGCRC /\
    st'.(LastValidCounter) = st.(LastValidCounter).
Proof using Type.
  intros Ht Hcheck Hdata Hroom Hpr Hnew Hi Hv8 Hdiff Hsame.
  pose proof (checkConfigP02_valid c Hcheck) as Hv.
  destruct (protectP02_frame c counter data) as (frame' & Hpr' &
    [Hl Hb (b & Hb1 & Hk) (id & Hid & Hcrc) _]); [done .. |].
  assert (frame' = frame) as -> by congruence.
  set (bad := <[Z.to_nat i := v]> frame).
  assert (Hbad : bytes bad) by (by apply bytes_insert).
  assert (Hlbad : length bad = length frame) by apply length_insert.
  assert (Hid8 : is_u8 id) by (apply (load_byte _ _ _ (proj2 (tp_DataIDList c Ht)) Hid)).
  assert (exists b', load bad 1 = Some b' /\ load c.(DataIDList) (Z.land b' 0xF) = Some id)
    as (b' & Hb' & Hid').
  { destruct (decide (i = 1)) as [-> | Hne]; unfold bad.
    - exists v; rewrite load_insert_eq by lia; split; [done |]; by rewrite Hsame.
    - exists b; rewrite load_insert_ne by lia; split; [done |]; by rewrite Hk. }
  destruct (load_in bad 0) as [x Hx]; [lia |].
  rewrite (checkP02_step c st bad b' id x Hcheck Hbad ltac:(lia) Hnew Hb' Hid' Hid8 Hx).
  assert (crcP02 c bad id <> x) as Hwrong.
  { destruct (decide (i = 0)) as [-> | Hne]; unfold bad in *.
    - rewrite load_insert_eq in Hx by lia; injection Hx as <-.
      change (Z.to_nat 0) with 0%nat; rewrite crcP02_byte0; congruence.
    - rewrite load_insert_ne in Hx by lia.
      assert (x = crcP02 c frame id) as -> by congruence.
      apply crcP02_covered; (done || lia). }
  rewrite (proj2 (Z.eqb_neq _ _) Hwrong); eexists; split; [done |]; split; [done |].
  cbn; unfold widenP02; destruct (_ <? _); done.
Qed.

(** The configured [Offset] of the header is validated but has no other
    effect: two configurations that differ in it only protect and check
    alike, with the header in bytes 0 and 1. *)
Theorem p02_offset_ignored c o p s data :
  checkConfigP02 (Some c) = E2E_E_OK ->
  0 <= o <= 8 * 254 ->
  let c' := {| DataLength := c.(DataLength); DataIDList := c.(DataIDList);
               MaxDeltaCounterInit := c.(MaxDeltaCounterInit);
               MaxNoNewOrRepeatedData := c.(MaxNoNewOrRepeatedData);
               SyncCounterInit := c.(SyncCounterInit); Offset := o |} in
  E2E_P02Protect (Some c') p data = E2E_P02Protect (Some c) p data /\
  E2E_P02Check (Some c') s data = E2E_P02Check (Some c) s data.
Proof using Type.
  intros Hcheck Ho c'.
  assert (Hcheck' : checkConfigP02 (Some c') = E2E_E_OK).
  { revert Hcheck; unfold checkConfigP02; cbn [DataLength Offset c'].
    destruct (_ || _ || _); [done |].
    destruct (c.(Offset) >? _); [done | intros _].
    destruct (Z.gtb_spec o (MAX_P02_DATA_LENGTH_IN_BITS - MIN_P02_DATA_LENGTH_IN_BITS));
      [| done].
    unfold MAX_P02_DATA_LENGTH_IN_BITS, MIN_P02_DATA_LENGTH_IN_BITS in *; lia. }
  unfold E2E_P02Protect, E2E_P02Check; rewrite Hcheck, Hcheck'.
  by destruct p, s, data.
Qed.
End Profile2More.

(** ** Witnesses *)
Definition configP02 : E2E_P02ConfigType := {|
  DataLength := 64; DataIDList := [1; 2; 3; 4; 5; 6; 7; 8; 9; 10; 11; 12; 13; 14; 15; 16];
  MaxDeltaCounterInit := 3; MaxNoNewOrRepeatedData := 14; SyncCounterInit := 1; Offset := 0
|}.

Definition syncedP02 : E2E_P02CheckStateType := {|
  LastValidCounter := 14; MaxDeltaCounter := 3; WaitForFirstData := false;
  NewDataAvailable := true; LostData := 0; Status := E2E_P02STATUS_OK;
  SyncCounter := 0; NoNewOrRepeatedDataCounter := 0
|}.

Definition payloadP02 : list Z := [0; 0; 0x11; 0x22; 0x33; 0x44; 0x55; 0xFF].
Definition protectedP02 : list Z := [0xBC; 0x0F; 0x11; 0x22; 0x33; 0x44; 0x55; 0xFF].

Lemma configP02_typed : typedP02 configP02.
Proof.
  split; try (vm_compute; split; congruence).
  split; [done | repeat constructor; vm_compute; congruence].
Qed.

Lemma payloadP02_bytes : bytes payloadP02.
Proof. repeat constructor; vm_compute; congruence. Qed.


Lemma p02_corruption_detected_witness :
  exists st',
    E2E_P02Check (CRC := Crc_Generic) (Some configP02) (Some syncedP02)
      (Some (<[7%nat := 0xFE]> protectedP02)) = Some (E2E_E_OK, Some st') /\
    st'.(Status) = E2E_P02STATUS_WRONGCRC /\ st'.(LastValidCounter) = 14.
Proof.
  apply (p02_corruption_detected (CRC := Crc_Generic) configP02 14 payloadP02 syncedP02
           protectedP02 (Some {| Counter := 15 |}) 7 0xFE);
    [apply configP02_typed | reflexivity | apply payloadP02_bytes | vm_compute; congruence
    | vm_compute; reflexivity | reflexivity | vm_compute; split; congruence
    | vm_compute; split; congruence | vm_compute; congruence | discriminate].
Defined.

Lemma p02_offset_ignored_witness :
  E2E_P02Protect (CRC := Crc_Generic)
    (Some {| DataLength := 64; DataIDList := configP02.(DataIDList); MaxDeltaCounterInit := 3;
             MaxNoNewOrRepeatedData := 14; SyncCounterInit := 1; Offset := 16 |})
    (Some {| Counter := 14 |}) (Some payloadP02)
  = Some (E2E_E_OK, Some {| Counter := 15 |}, Some protectedP02).
Proof.
  destruct (p02_offset_ignored (CRC := Crc_Generic) configP02 16 (Some {| Counter := 14 |})
              None (Some payloadP02)) as [H _]; [reflexivity | lia |].
  unfold configP02 at 1 2 4 5 6 in H; cbn [DataLength DataIDList MaxDeltaCounterInit
    MaxNoNewOrRepeatedData SyncCounterInit] in H.
  etransitivity; [exact H | vm_compute; reflexivity].
Defined.
