(* ===== verification/E2E_Channel.v ===== *)
(** * Communication over an unreliable channel

    Profiles 4, 5 and 6 of the E2E library work alike: the sender puts a wrapping
    counter and a CRC into the data, the receiver checks the CRC and classifies
    the distance of the counter from the last one it accepted.  This file states
    what such a profile promises ([CounterProfile]), an abstract receiver that
    knows only which of the data sent was the last it accepted, and the
    refinement of the abstract receiver by any profile that keeps the promise,
    over a channel that loses, corrupts, delays, reorders and repeats data.  [E2E_P04.v],
    [E2E_P05.v] and [E2E_P06.v] discharge the promise. *)

From S2P Require Import Prelude CrcTheory Crc E2E.

(** The statuses the three profiles share. *)
Inductive Verdict := V_OK | V_NONEWDATA | V_ERROR | V_REPEATED | V_OKSOMELOST | V_WRONGSEQUENCE.

#[export] Instance Verdict_eq : EqDecision Verdict.
Proof. solve_decision. Defined.

(** An error burst: the bits of [mask] are inverted from byte [i] on. *)
Definition flip (frame : list Z) (i : nat) (mask : list Z) : list Z :=
  patch frame i
    (zip_with Z.lxor (segment frame (Z.of_nat i) (Z.of_nat (length mask))) mask).

(** A burst of at most [n] bytes that hits something, in the [len] bytes of the
    data, on one side of the CRC field of [n] bytes at [k] or inside it. *)
Definition burst_at (k n len : Z) (i : nat) (mask : list Z) : Prop :=
  bytes mask /\ Exists (fun b => b <> 0) mask /\ Z.of_nat (length mask) <= n /\
  (Z.of_nat (i + length mask) <= k \/
   k + n <= Z.of_nat i /\ Z.of_nat (i + length mask) <= len \/
   k <= Z.of_nat i /\ Z.of_nat (i + length mask) <= k + n).

Lemma flip_mask frame i mask :
  (i + length mask <= length frame)%nat ->
  length (zip_with Z.lxor (segment frame (Z.of_nat i) (Z.of_nat (length mask))) mask)
    = length mask.
Proof. intros; rewrite length_zip_with, length_segment by lia; lia. Qed.

Lemma zip_lxor_bytes xs ys : bytes xs -> bytes ys -> bytes (zip_with Z.lxor xs ys).
Proof.
  intros Hx; revert ys; induction Hx as [| x xs H8 _ IH]; intros [| y ys] Hy; try constructor.
  - apply Forall_cons_1 in Hy as [? _]; apply in_width_lxor; (lia || done).
  - apply IH; by apply Forall_cons_1 in Hy as [_ ?].
Qed.

Lemma zip_lxor_changes xs mask :
  length xs = length mask -> Exists (fun b => b <> 0) mask ->
  xs <> zip_with Z.lxor xs mask.
Proof.
  intros Hl Hex; revert xs Hl.
  induction Hex as [m mask Hm | m mask _ IH]; intros [| x xs] Hl; try done; cbn; intros [= Hx E].
  - apply Hm, Z.bits_inj'; intros j _; rewrite Z.testbit_0_l.
    assert (Hj : Z.testbit x j = xorb (Z.testbit x j) (Z.testbit m j))
      by (by rewrite <- Z.lxor_spec, <- Hx).
    by destruct (Z.testbit x j), (Z.testbit m j).
  - apply (IH xs); [cbn in Hl; lia | done].
Qed.

Lemma length_flip frame i mask :
  (i + length mask <= length frame)%nat -> length (flip frame i mask) = length frame.
Proof. intros; unfold flip; rewrite length_patch; rewrite ?flip_mask; lia. Qed.

Lemma bytes_flip frame i mask : bytes frame -> bytes mask -> bytes (flip frame i mask).
Proof. intros; apply bytes_patch; [done | apply zip_lxor_bytes; auto with mem]. Qed.

(** What a burst does to the check: it changes the computed CRC and leaves the
    received one, or changes the received one and leaves the computed one. *)
Lemma burst_cases {w init xorout calc} {S : CrcSpec w init xorout calc} c post data k n len i mask :
  in_width w c -> bytes data -> bytes post -> 8 * n <= w ->
  0 <= k -> 0 <= n -> k + n <= len -> len <= Z.of_nat (length data) ->
  burst_at k n len i mask ->
  let bad := flip data i mask in
  (crc_from c (around bad k n len ++ post) <> crc_from c (around data k n len ++ post) /\
   forall j, k <= j < k + n -> load bad j = load data j) \/
  (around bad k n len = around data k n len /\
   exists j, k <= j < k + n /\ load bad j <> load data j).
Proof.
  intros Hc Hd Hpost Hw Hk Hn Hlen Hroom (Hm & Hnz & Hmn & Hwin) bad.
  unfold bad, flip; set (xs := zip_with _ _ _).
  assert (Hlx : length xs = length mask) by (apply flip_mask; lia).
  assert (Hsx : segment data (Z.of_nat i) (Z.of_nat (length xs)) <> xs).
  { rewrite Hlx; apply zip_lxor_changes; [rewrite length_segment; lia | done]. }
  assert (Hx : bytes xs) by (apply zip_lxor_bytes; auto with mem).
  rewrite <- Hlx in Hwin.
  assert ((Z.of_nat (i + length xs) <= k \/
           k + n <= Z.of_nat i /\ Z.of_nat (i + length xs) <= len) \/
          (k <= Z.of_nat i /\ Z.of_nat (i + length xs) <= k + n)) as [Hside | Hin] by tauto.
  - left; split.
    + destruct (around_patch data k n len i xs) as (j & Hj & -> & Hs); [lia .. |].
      apply crc_from_patch; auto using bytes_around; [lia | by rewrite Hs].
    + intros j Hj; apply load_patch_out; lia.
  - right; split; [apply around_patch_field; (done || lia) |].
    destruct (decide (Forall (fun j => patch data i xs !! j = data !! j) (seq i (length xs))))
      as [Hall | Hex].
    + exfalso; apply Hsx, list_eq; intros m; unfold segment; rewrite !Nat2Z.id.
      destruct (decide (m < length xs)%nat); [| rewrite lookup_take_ge, lookup_ge_None_2; lia || done].
      rewrite lookup_take_lt, lookup_drop by lia; rewrite Forall_seq in Hall.
      rewrite <- (Hall (i + m)%nat), lookup_patch by lia.
      destruct (decide _); [f_equal; lia | lia].
    + apply not_Forall_Exists, Exists_exists in Hex as (j & Hj%in_seq & Hne); [| apply _].
      exists (Z.of_nat j); split; [lia |]; by rewrite !load_spec, !Nat2Z.id by lia.
Qed.

(** ** The promise *)
Class CounterProfile (Link : Type) := {
  Period : Z;
  Period_pos : 1 < Period;
  (** the configured [MaxDeltaCounter] *)
  tolerance : Link -> Z;
  (** where the CRC lies *)
  crc_at : Link -> Z;
  crc_size : Z;
  payload_fit : Link -> list Z -> Prop;
  (** the data as sent with a given counter *)
  frame_of : Link -> Z -> list Z -> Prop;
  (** the Protect function on the sender's counter: return value, next counter, data *)
  send : Link -> Z -> list Z -> option (Z * Z * list Z);
  (** the Check function on the receiver's counter: return value, status, counter *)
  receive : Link -> Z -> option (list Z) -> option (Z * Verdict * Z);
  tolerance_pos : forall l k frame, frame_of l k frame -> 0 <= tolerance l;
  send_frame : forall l k p,
    payload_fit l p -> 0 <= k < Period ->
    exists frame, send l k p = Some (E2E_E_OK, (k + 1) mod Period, frame) /\
      frame_of l k frame /\ length frame = length p;
  receive_frame : forall l k0 k frame,
    frame_of l k frame -> 0 <= k0 < Period -> 0 <= k < Period ->
    receive l k0 (Some frame) = Some (E2E_E_OK,
      (let d := (k - k0) mod Period in
       if d >? tolerance l then V_WRONGSEQUENCE
       else if d =? 0 then V_REPEATED
       else if d =? 1 then V_OK else V_OKSOMELOST), k);
  receive_burst : forall l k0 k frame i mask,
    frame_of l k frame ->
    burst_at (crc_at l) crc_size (Z.of_nat (length frame)) i mask ->
    receive l k0 (Some (flip frame i mask)) = Some (E2E_E_OK, V_ERROR, k0);
  receive_none : forall l k0, (exists p, payload_fit l p) ->
    receive l k0 None = Some (E2E_E_OK, V_NONEWDATA, k0)
}.

(** ** The channel

    It holds what was sent, intact or hit by a burst, and delivers any of it, at any time and as often as it likes: data that is never delivered
    is lost, data that is delivered after others is delayed. *)
Inductive Fate := Intact | Corrupted (i : nat) (mask : list Z).

Inductive Event :=
| Send (p : list Z) (f : Fate)   (** one transmission and what becomes of it *)
| Deliver (n : nat)              (** the [n]-th data ever sent reaches the receiver *)
| Quiet.                         (** the receiver runs without new data *)

Section Channel.
Context {Link : Type} `{CP : CounterProfile Link} (l : Link).

Record System := { snd_counter : Z; rcv_counter : Z; sent : list (list Z) }.

Definition on_the_way (frame : list Z) (f : Fate) : list Z :=
  match f with Intact => frame | Corrupted i mask => flip frame i mask end.
(** The receiver runs. *)
Definition received (s : System) (d : option (list Z)) : option (list (Z * Verdict) * System) :=
  '(ret, v, r) ← receive l s.(rcv_counter) d;
  Some ([(ret, v)], {| snd_counter := s.(snd_counter); rcv_counter := r; sent := s.(sent) |}).
Definition step (s : System) (e : Event) : option (list (Z * Verdict) * System) :=
  match e with
  | Send p f =>
      '(_, k', frame) ← send l s.(snd_counter) p;
      Some ([], {| snd_counter := k'; rcv_counter := s.(rcv_counter); sent := s.(sent) ++ [on_the_way frame f] |})
  | Deliver n => match s.(sent) !! n with Some frame => received s (Some frame) | None => Some ([], s) end
  | Quiet => received s None
  end.

Fixpoint run (s : System) (es : list Event) : option (list (Z * Verdict) * System) :=
  match es with
  | [] => Some ([], s)
  | e :: es =>
      '(out, s) ← step s e;
      '(outs, s) ← run s es;
      Some (out ++ outs, s)
  end.

(** *** The abstract receiver: which of the data was the last it accepted

    The data sent are numbered from 0, without end; [intact] tells which of them were not hit. *)
Record Ideal := { intact : list bool; accepted : Z }.

(** [d]: how much later than the last accepted one the data was sent. *)
Definition ideal_verdict (d : Z) : Verdict :=
  let d := d mod Period in
  if d >? tolerance l then V_WRONGSEQUENCE
  else if d =? 0 then V_REPEATED else if d =? 1 then V_OK else V_OKSOMELOST.

Definition ideal_step (a : Ideal) (e : Event) : list Verdict * Ideal :=
  match e with
  | Send _ f => ([], {| intact := a.(intact) ++ [match f with Intact => true | _ => false end]; accepted := a.(accepted) |})
  | Deliver n =>
      match a.(intact) !! n with
      | Some true => ([ideal_verdict (Z.of_nat n - a.(accepted))], {| intact := a.(intact); accepted := Z.of_nat n |})
      | Some false => ([V_ERROR], a)
      | None => ([], a)
      end
  | Quiet => ([V_NONEWDATA], a)
  end.

Fixpoint ideal_run (a : Ideal) (es : list Event) : list Verdict * Ideal :=
  match es with
  | [] => ([], a)
  | e :: es =>
      let '(out, a) := ideal_step a e in
      let '(outs, a) := ideal_run a es in
      (out ++ outs, a)
  end.

Definition event_ok (e : Event) : Prop :=
  match e with
  | Send p f =>
      payload_fit l p /\
      match f with
      | Corrupted i mask => burst_at (crc_at l) crc_size (Z.of_nat (length p)) i mask
      | Intact => True
      end
  | Quiet => exists p, payload_fit l p
  | Deliver _ => True
  end.

(** What is on the way as the [n]-th data, intact or not. *)
Definition carried (n : nat) (frame : list Z) (b : bool) : Prop :=
  exists data, frame_of l (Z.of_nat n mod Period) data /\
    if b then frame = data
    else exists i mask, burst_at (crc_at l) crc_size (Z.of_nat (length data)) i mask /\ frame = flip data i mask.
Record simulates (s : System) (a : Ideal) : Prop := {
  sim_rcv : s.(rcv_counter) = a.(accepted) mod Period;
  sim_snd : s.(snd_counter) = Z.of_nat (length a.(intact)) mod Period;
  sim_length : length s.(sent) = length a.(intact);
  sim_sent n frame b : s.(sent) !! n = Some frame -> a.(intact) !! n = Some b -> carried n frame b
}.

Lemma Period_bound z : 0 <= z mod Period < Period.
Proof using Type. apply Z.mod_pos_bound; pose proof Period_pos; lia. Qed.

Lemma sim_send s a frame f :
  simulates s a -> frame_of l s.(snd_counter) frame ->
  match f with Corrupted i mask => burst_at (crc_at l) crc_size (Z.of_nat (length frame)) i mask | Intact => True end ->
  simulates {| snd_counter := (s.(snd_counter) + 1) mod Period; rcv_counter := s.(rcv_counter); sent := s.(sent) ++ [on_the_way frame f] |}
            (snd (ideal_step a (Send frame f))).
Proof using Type.
  intros [Hr Hs Hl Hh] Hf Hb; split; cbn; try done.
  - rewrite Hs, length_app, Zplus_mod_idemp_l; cbn; f_equal; lia.
  - rewrite !length_app, Hl; done.
  - intros n g b [Hn | [Hn Hg]]%lookup_app_Some [Hn' | [Hn' Hb']]%lookup_app_Some;
      [by eapply Hh | apply lookup_lt_Some in Hn; lia | apply lookup_lt_Some in Hn'; lia |].
    apply list_lookup_singleton_Some in Hg as [Hg <-], Hb' as [_ <-].
    assert (n = length a.(intact)) as -> by lia; exists frame; rewrite <- Hs; split; [done |].
    destruct f as [| i mask]; [done | by exists i, mask].
Qed.

(** One event: the profile does what the abstract receiver says. *)
Lemma step_refines s a e :
  simulates s a -> event_ok e ->
  exists s', step s e = Some (map (pair E2E_E_OK) (fst (ideal_step a e)), s') /\
             simulates s' (snd (ideal_step a e)).
Proof using Type.
  intros Hsim Hok; destruct e as [p f | n |]; cbn [step].
  - destruct Hok as [Hfit Hf].
    destruct (send_frame l s.(snd_counter) p Hfit) as (frame & -> & Hfr & Hlen); [rewrite (sim_snd s a Hsim); apply Period_bound |].
    eexists; split; [done |]; apply (sim_send s a frame f Hsim Hfr); destruct f; [done | by rewrite Hlen].
  - cbn [ideal_step]; destruct (s.(sent) !! n) as [frame |] eqn:En.
    2:{ apply lookup_ge_None in En; rewrite (lookup_ge_None_2 a.(intact)) by (rewrite <- (sim_length s a Hsim); lia); by exists s. }
    destruct (lookup_lt_is_Some_2 a.(intact) n) as [b Eb]; [rewrite <- (sim_length s a Hsim); by eapply lookup_lt_Some |].
    rewrite Eb; unfold received; destruct (sim_sent s a Hsim n frame b En Eb) as (data & Hfr & Hb); destruct b.
    + subst data; rewrite (receive_frame l _ _ _ Hfr) by (rewrite ?(sim_rcv s a Hsim); apply Period_bound).
      cbn [mbind option_bind]; eexists; split.
      * cbn zeta; rewrite (sim_rcv s a Hsim); unfold ideal_verdict; rewrite <- Zminus_mod; reflexivity.
      * destruct Hsim; by split.
    + destruct Hb as (i & mask & Hm & ->); rewrite (receive_burst l _ _ _ _ _ Hfr Hm).
      cbn [mbind option_bind]; eexists; split; [done |]; destruct Hsim; by split.
  - unfold received; rewrite receive_none by done; cbn [mbind option_bind].
    eexists; split; [done |]; cbn; by destruct Hsim.
Qed.

Lemma run_refines s a es :
  simulates s a -> Forall event_ok es ->
  exists s', run s es = Some (map (pair E2E_E_OK) (fst (ideal_run a es)), s') /\
             simulates s' (snd (ideal_run a es)).
Proof using Type.
  intros Hsim Hes; revert s a Hsim.
  induction Hes as [| e es He _ IH]; intros s a Hsim; cbn [run ideal_run]; [by exists s |].
  destruct (step_refines s a e Hsim He) as (s1 & -> & Hs1); cbn [mbind option_bind].
  destruct (ideal_step a e) as [out a1]; cbn [fst snd] in *.
  destruct (IH s1 a1 Hs1) as (s2 & -> & Hs2); cbn [mbind option_bind].
  destruct (ideal_run a1 es) as [outs a2]; cbn [fst snd] in *.
  exists s2; by rewrite map_app.
Qed.

(** From the initial states of a profile: the sender at 0, the receiver at the
    counter before 0. *)
Definition start : System := {| snd_counter := 0; rcv_counter := Period - 1; sent := [] |}.
Definition ideal_start : Ideal := {| intact := []; accepted := -1 |}.

Lemma start_simulates : simulates start ideal_start.
Proof using Type.
  pose proof Period_pos; split; cbn; try done.
  symmetry; rewrite <- (Z_mod_plus_full (-1) 1); rewrite Z.mod_small; lia.
Qed.
End Channel.
