(* ===== verification/E2E_P04.v ===== *)
(** * E2E profile 4

    [safety_security/SafeLib/E2E/src/E2E_P04.c] and [inc/E2E_P04.h]: a header of
    twelve bytes at a configured offset, with the length, a sixteen-bit counter,
    the data identifier and a 32-bit CRC.  Pointers, faults and results are as
    in [E2E_P01.v]; the receiver's data pointer may be null when there is no new
    data. *)

From S2P Require Import Prelude CrcTheory Crc E2E E2E_Channel.

(** ** E2E_P04.h *)
Inductive E2E_P04CheckStatusType :=
| E2E_P04STATUS_OK
| E2E_P04STATUS_NONEWDATA
| E2E_P04STATUS_ERROR
| E2E_P04STATUS_REPEATED
| E2E_P04STATUS_OKSOMELOST
| E2E_P04STATUS_WRONGSEQUENCE.

Record E2E_P04ConfigType := {
  DataID : Z;
  Offset : Z;
  MinDataLength : Z;
  MaxDataLength : Z;
  MaxDeltaCounter : Z
}.

Record E2E_P04ProtectStateType := { Counter : Z }.

Record E2E_P04CheckStateType := { Status : E2E_P04CheckStatusType; CheckCounter : Z }.

(** ** E2E_P04.c *)
Definition MAX_P04_COUNTER_VALUE := 65535.
Definition MAX_P04_DATA_LENGTH_IN_BITS := 8 * 4096.
Definition MIN_P04_DATA_LENGTH_IN_BITS := 8 * 12.

(** The conditions on the configured lengths, the length and the offset that the
    two verification functions share. *)
Definition wrongLengthsP04 (Config : E2E_P04ConfigType) : bool :=
  (Config.(MinDataLength) <? MIN_P04_DATA_LENGTH_IN_BITS)
  || (Config.(MaxDataLength) <? MIN_P04_DATA_LENGTH_IN_BITS)
  || (Config.(MinDataLength) >? MAX_P04_DATA_LENGTH_IN_BITS)
  || (Config.(MaxDataLength) >? MAX_P04_DATA_LENGTH_IN_BITS)
  || (Config.(MinDataLength) >? Config.(MaxDataLength)).

Definition wrongLengthP04 (Config : E2E_P04ConfigType) (Length : Z) : bool :=
  (Length * 8 <? Config.(MinDataLength)) || (Length * 8 >? Config.(MaxDataLength)).

Definition wrongOffsetP04 (Config : E2E_P04ConfigType) (Length : Z) : bool :=
  negb (Config.(Offset) mod 8 =? 0)
  || (Config.(Offset) >? Length * 8 - MIN_P04_DATA_LENGTH_IN_BITS).

Definition verifyProtectInputsP04 (ConfigPtr : option E2E_P04ConfigType)
    (StatePtr : option E2E_P04ProtectStateType) (DataPtr : option (list Z)) (Length : Z) : Z :=
  match ConfigPtr, StatePtr, DataPtr with
  | Some Config, Some _, Some _ =>
      if wrongLengthsP04 Config then E2E_E_INPUTERR_WRONG
      else if wrongLengthP04 Config Length then E2E_E_INPUTERR_WRONG
      else if wrongOffsetP04 Config Length then E2E_E_INPUTERR_WRONG
      else E2E_E_OK
  | _, _, _ => E2E_E_INPUTERR_NULL
  end.

Definition computeOffsetP04 (Config : E2E_P04ConfigType) : Z := Config.(Offset) / 8.

Definition writeLengthP04 (Data : list Z) (offset Length : Z) : option (list Z) :=
  Data ← store Data offset (Z.land (Z.shiftr (Z.land Length 0xFF00) 8) 0xFF);
  store Data (offset + 1) (Z.land (Z.land Length 0x00FF) 0xFF).

Definition writeCounterP04 (Data : list Z) (offset : Z) (State : E2E_P04ProtectStateType)
  : option (list Z) :=
  Data ← store Data (offset + 2) (Z.land (Z.shiftr (Z.land State.(Counter) 0xFF00) 8) 0xFF);
  store Data (offset + 3) (Z.land (Z.land State.(Counter) 0x00FF) 0xFF).

Definition writeDataIDP04 (Data : list Z) (offset : Z) (Config : E2E_P04ConfigType)
  : option (list Z) :=
  let id := Config.(DataID) in
  Data ← store Data (offset + 4) (Z.land (Z.shiftr (Z.land id 0xFF000000) 24) 0xFF);
  Data ← store Data (offset + 5) (Z.land (Z.shiftr (Z.land id 0x00FF0000) 16) 0xFF);
  Data ← store Data (offset + 6) (Z.land (Z.shiftr (Z.land id 0x0000FF00) 8) 0xFF);
  store Data (offset + 7) (Z.land (Z.land id 0x000000FF) 0xFF).

Definition writeCRCP04 (Data : list Z) (offset crc : Z) : option (list Z) :=
  Data ← store Data (offset + 8) (Z.land (Z.shiftr (Z.land crc 0xFF000000) 24) 0xFF);
  Data ← store Data (offset + 9) (Z.land (Z.shiftr (Z.land crc 0x00FF0000) 16) 0xFF);
  Data ← store Data (offset + 10) (Z.land (Z.shiftr (Z.land crc 0x0000FF00) 8) 0xFF);
  store Data (offset + 11) (Z.land (Z.land crc 0x000000FF) 0xFF).

Definition incrementCounterP04 (State : E2E_P04ProtectStateType) : E2E_P04ProtectStateType :=
  {| Counter := (State.(Counter) + 1) mod (MAX_P04_COUNTER_VALUE + 1) |}.

(** The return value and [*NewDataAvailable]. *)
Definition verifyCheckInputsP04 (ConfigPtr : option E2E_P04ConfigType)
    (StatePtr : option E2E_P04CheckStateType) (DataPtr : option (list Z)) (Length : Z)
  : Z * bool :=
  match ConfigPtr, StatePtr with
  | Some Config, Some _ =>
      if wrongLengthsP04 Config then (E2E_E_INPUTERR_WRONG, false)
      else match DataPtr with
      | None => if Length =? 0 then (E2E_E_OK, false) else (E2E_E_INPUTERR_WRONG, false)
      | Some _ =>
          if Length =? 0 then (E2E_E_INPUTERR_WRONG, false)
          else if wrongLengthP04 Config Length then (E2E_E_INPUTERR_WRONG, false)
          else if wrongOffsetP04 Config Length then (E2E_E_INPUTERR_WRONG, false)
          else (E2E_E_OK, true)
      end
  | _, _ => (E2E_E_INPUTERR_NULL, false)
  end.

Definition readLengthP04 (Data : list Z) (offset : Z) : option Z :=
  b1 ← load Data offset;
  b0 ← load Data (offset + 1);
  Some (Z.lor (Z.lor 0 (Z.land (Z.shiftl b1 8) 0xFF00)) (Z.land b0 0x00FF)).

Definition readCounterP04 (Data : list Z) (offset : Z) : option Z :=
  b1 ← load Data (offset + 2);
  b0 ← load Data (offset + 3);
  Some (Z.lor (Z.lor 0 (Z.land (Z.shiftl b1 8) 0xFF00)) (Z.land b0 0x00FF)).

Definition readDataIDP04 (Data : list Z) (offset : Z) : option Z :=
  b3 ← load Data (offset + 4);
  b2 ← load Data (offset + 5);
  b1 ← load Data (offset + 6);
  b0 ← load Data (offset + 7);
  Some (Z.lor (Z.lor (Z.lor (Z.lor 0 (Z.land (Z.shiftl b3 24) 0xFF000000))
    (Z.land (Z.shiftl b2 16) 0x00FF0000)) (Z.land (Z.shiftl b1 8) 0x0000FF00))
    (Z.land b0 0x000000FF)).

Definition readCRCP04 (Data : list Z) (offset : Z) : option Z :=
  b3 ← load Data (offset + 8);
  b2 ← load Data (offset + 9);
  b1 ← load Data (offset + 10);
  b0 ← load Data (offset + 11);
  Some (Z.lor (Z.lor (Z.lor (Z.lor 0 (Z.land (Z.shiftl b3 24) 0xFF000000))
    (Z.land (Z.shiftl b2 16) 0x00FF0000)) (Z.land (Z.shiftl b1 8) 0x0000FF00))
    (Z.land b0 0x000000FF)).

Definition calculateDeltaCounterP04 (receivedCounter lastValidCounter : Z) : Z :=
  if receivedCounter >=? lastValidCounter
  then u16 (receivedCounter - lastValidCounter)
  else u16 (u32 (MAX_P04_COUNTER_VALUE + 1 + receivedCounter - lastValidCounter)).

Definition doChecksP04 (State : E2E_P04CheckStateType) (NewDataAvailable : bool)
    (Config : E2E_P04ConfigType)
    (receivedCRC computedCRC receivedDataID receivedLength Length receivedCounter : Z)
  : E2E_P04CheckStateType :=
  if negb NewDataAvailable
  then {| Status := E2E_P04STATUS_NONEWDATA; CheckCounter := State.(CheckCounter) |}
  else if negb (receivedCRC =? computedCRC) || negb (receivedDataID =? Config.(DataID))
          || negb (receivedLength =? Length)
  then {| Status := E2E_P04STATUS_ERROR; CheckCounter := State.(CheckCounter) |}
  else
    let deltaCounter := calculateDeltaCounterP04 receivedCounter State.(CheckCounter) in
    {| Status :=
         if deltaCounter >? Config.(MaxDeltaCounter) then E2E_P04STATUS_WRONGSEQUENCE
         else if deltaCounter =? 0 then E2E_P04STATUS_REPEATED
         else if deltaCounter =? 1 then E2E_P04STATUS_OK
         else E2E_P04STATUS_OKSOMELOST;
       CheckCounter := receivedCounter |}.

Definition E2E_P04ProtectInit (StatePtr : option E2E_P04ProtectStateType)
  : Z * option E2E_P04ProtectStateType :=
  match StatePtr with
  | None => (E2E_E_INPUTERR_NULL, None)
  | Some _ => (E2E_E_OK, Some {| Counter := 0 |})
  end.

Definition E2E_P04CheckInit (StatePtr : option E2E_P04CheckStateType)
  : Z * option E2E_P04CheckStateType :=
  match StatePtr with
  | None => (E2E_E_INPUTERR_NULL, None)
  | Some _ => (E2E_E_OK, Some {| Status := E2E_P04STATUS_ERROR; CheckCounter := 0xFFFF |})
  end.

Definition E2E_P04MapStatusToSM (CheckReturn : Z) (Status : E2E_P04CheckStatusType)
  : E2E_PCheckStatusType :=
  if CheckReturn =? E2E_E_OK then
    match Status with
    | E2E_P04STATUS_OK | E2E_P04STATUS_OKSOMELOST => E2E_P_OK
    | E2E_P04STATUS_REPEATED => E2E_P_REPEATED
    | E2E_P04STATUS_NONEWDATA => E2E_P_NONEWDATA
    | E2E_P04STATUS_WRONGSEQUENCE => E2E_P_WRONGSEQUENCE
    | _ => E2E_P_ERROR
    end
  else E2E_P_ERROR.

Section Profile4.
Context `{CRC : CrcLib}.

Definition computeCRCP04 (Data : list Z) (offset Length : Z) : option Z :=
  crc ← crc32p4 (Some Data) (offset + 8) 0xFFFFFFFF true;
  if offset + 12 <? Length
  then crc32p4 (Some (ptr_at Data (offset + 12))) (Length - offset - 12) crc false
  else Some crc.

Definition E2E_P04Protect (ConfigPtr : option E2E_P04ConfigType)
    (StatePtr : option E2E_P04ProtectStateType) (DataPtr : option (list Z)) (Length : Z)
  : option (Z * option E2E_P04ProtectStateType * option (list Z)) :=
  let returnValue := verifyProtectInputsP04 ConfigPtr StatePtr DataPtr Length in
  match ConfigPtr, StatePtr, DataPtr with
  | Some Config, Some State, Some Data =>
      if returnValue =? E2E_E_OK then
        let offset := computeOffsetP04 Config in
        Data ← writeLengthP04 Data offset Length;
        Data ← writeCounterP04 Data offset State;
        Data ← writeDataIDP04 Data offset Config;
        crc ← computeCRCP04 Data offset Length;
        Data ← writeCRCP04 Data offset crc;
        Some (returnValue, Some (incrementCounterP04 State), Some Data)
      else Some (returnValue, StatePtr, DataPtr)
  | _, _, _ => Some (returnValue, StatePtr, DataPtr)
  end.

Definition E2E_P04Check (ConfigPtr : option E2E_P04ConfigType)
    (StatePtr : option E2E_P04CheckStateType) (DataPtr : option (list Z)) (Length : Z)
  : option (Z * option E2E_P04CheckStateType) :=
  let '(returnValue, NewDataAvailable) :=
    verifyCheckInputsP04 ConfigPtr StatePtr DataPtr Length in
  match ConfigPtr, StatePtr with
  | Some Config, Some State =>
      if returnValue =? E2E_E_OK then
        match NewDataAvailable, DataPtr with
        | true, Some Data =>
            let offset := computeOffsetP04 Config in
            receivedLength ← readLengthP04 Data offset;
            receivedCounter ← readCounterP04 Data offset;
            receivedDataID ← readDataIDP04 Data offset;
            receivedCRC ← readCRCP04 Data offset;
            computedCRC ← computeCRCP04 Data offset Length;
            Some (returnValue, Some (doChecksP04 State true Config receivedCRC computedCRC
                                       receivedDataID receivedLength Length receivedCounter))
        | _, _ => Some (returnValue, Some (doChecksP04 State false Config 0 0 0 0 Length 0))
        end
      else Some (returnValue, StatePtr)
  | _, _ => Some (returnValue, StatePtr)
  end.
End Profile4.

(** ** Facts *)
Record typedP04 (c : E2E_P04ConfigType) : Prop := {
  tp_DataID : is_u32 c.(DataID);
  tp_Offset : is_u16 c.(Offset);
  tp_MinDataLength : is_u16 c.(MinDataLength);
  tp_MaxDataLength : is_u16 c.(MaxDataLength);
  tp_MaxDeltaCounter : is_u8 c.(MaxDeltaCounter)
}.

(** A configuration and a length the verification functions accept. *)
Definition validP04 (c : E2E_P04ConfigType) (len : Z) : Prop :=
  wrongLengthsP04 c = false /\ wrongLengthP04 c len = false /\ wrongOffsetP04 c len = false.

Lemma validP04_bounds c len :
  typedP04 c -> validP04 c len ->
  0 <= computeOffsetP04 c /\ computeOffsetP04 c + 12 <= len <= 4096.
Proof.
  intros [_ [Ho _] _ _ _] (H1 & H2 & H3).
  unfold wrongLengthsP04, wrongLengthP04, wrongOffsetP04, MIN_P04_DATA_LENGTH_IN_BITS,
    MAX_P04_DATA_LENGTH_IN_BITS, computeOffsetP04 in *.
  rewrite !orb_false_iff in *; Z.div_mod_to_equations; lia.
Qed.

Lemma verifyProtectInputsP04_ok c s d len :
  verifyProtectInputsP04 (Some c) (Some s) (Some d) len = E2E_E_OK <-> validP04 c len.
Proof.
  unfold verifyProtectInputsP04, validP04.
  destruct (wrongLengthsP04 c), (wrongLengthP04 c len), (wrongOffsetP04 c len);
    split; intros H; try done; try (by destruct H as (? & ? & ?)).
Qed.

Lemma calculateDeltaCounterP04_eq r l :
  is_u16 r -> is_u16 l -> calculateDeltaCounterP04 r l = (r - l) mod 65536.
Proof.
  intros Hr Hl; unfold calculateDeltaCounterP04, u16, u32, MAX_P04_COUNTER_VALUE, in_width in *.
  rewrite Z.geb_leb; pose proof (delta_mod 65536 r l) as E.
  destruct (Z.leb_spec l r); rewrite <- E by lia; [apply Z.mod_small; lia |].
  rewrite (Z.mod_small _ (2 ^ 32)) by lia; apply Z.mod_small; lia.
Qed.

(** The reads succeed in data that holds the header, and depend on their bytes only. *)
Lemma readCRCP04_ext d d' off :
  (forall j, off + 8 <= j < off + 8 + 4 -> load d j = load d' j) ->
  readCRCP04 d off = readCRCP04 d' off.
Proof. intros H; unfold readCRCP04; by rewrite !H by lia. Qed.

Lemma readCRCP04_inj d d' off x :
  bytes d -> bytes d' -> readCRCP04 d off = Some x -> readCRCP04 d' off = Some x ->
  forall j, off + 8 <= j < off + 8 + 4 -> load d j = load d' j.
Proof.
  unfold readCRCP04; intros Hd Hd' E E'.
  repeat match type of E with (load _ ?i ≫= _) = _ =>
    let L := fresh "L" in destruct (load d i) eqn:L; cbn [mbind option_bind] in E; [| done] end.
  repeat match type of E' with (load _ ?i ≫= _) = _ =>
    let L := fresh "L" in destruct (load d' i) eqn:L; cbn [mbind option_bind] in E'; [| done] end.
  injection E as <-; injection E' as E'.
  apply word32_inj in E'; [| repeat (constructor; eauto with mem)].
  injection E' as -> -> -> ->; intros j Hj.
  assert (j = off + 8 \/ j = off + 9 \/ j = off + 10 \/ j = off + 11)
    as [-> | [-> | [-> | ->]]] by lia; congruence.
Qed.

Lemma readsP04_total d off :
  0 <= off -> off + 12 <= Z.of_nat (length d) ->
  is_Some (readLengthP04 d off) /\ is_Some (readCounterP04 d off) /\
  is_Some (readDataIDP04 d off) /\ is_Some (readCRCP04 d off).
Proof.
  intros H0 Hlen; unfold readLengthP04, readCounterP04, readDataIDP04, readCRCP04.
  repeat match goal with |- context [load d ?i ≫= _] =>
    let v := fresh in let E := fresh in
    destruct (load_in d i) as [v E]; [lia |]; rewrite !E; cbn [mbind option_bind] end.
  by split_and!; eexists.
Qed.

(** The header the sender writes, without and with the CRC. *)
Definition headP04 (c : E2E_P04ConfigType) (k len : Z) : list Z :=
  [byte1 len; byte0 len; byte1 k; byte0 k;
   byte3 c.(DataID); byte2 c.(DataID); byte1 c.(DataID); byte0 c.(DataID)].

Definition crc_bytes (x : Z) : list Z := [byte3 x; byte2 x; byte1 x; byte0 x].

Lemma headP04_bytes c k len : bytes (headP04 c k len).
Proof. repeat (constructor; auto with mem). Qed.

Lemma crc_bytes_bytes x : bytes (crc_bytes x).
Proof. repeat (constructor; auto with mem). Qed.

Lemma writesP04_eq c k p off :
  0 <= off -> off + 12 <= Z.of_nat (length p) ->
  (d ← writeLengthP04 p off (Z.of_nat (length p));
   d ← writeCounterP04 d off {| Counter := k |};
   writeDataIDP04 d off c)
  = Some (patch p (Z.to_nat off) (headP04 c k (Z.of_nat (length p)))).
Proof.
  intros Ho Hl; set (len := Z.of_nat (length p)).
  unfold writeLengthP04; rewrite store2_patch by lia; cbn [mbind option_bind].
  unfold writeCounterP04; rewrite store2_patch by (rewrite ?length_patch; cbn; lia).
  cbn [mbind option_bind Counter].
  replace (Z.to_nat (off + 2)) with (Z.to_nat off + length [byte1 len; byte0 len])%nat by (cbn; lia).
  rewrite patch_patch by (cbn; lia); unfold writeDataIDP04; cbv zeta.
  rewrite store4_patch by (rewrite ?length_patch; cbn; lia).
  replace (Z.to_nat (off + 4)) with
    (Z.to_nat off + length ([byte1 len; byte0 len] ++ [byte1 k; byte0 k]))%nat by (cbn; lia).
  by rewrite patch_patch by (cbn; lia).
Qed.

(** Reading the header back. *)
Lemma readsP04_header c k len crc p off :
  0 <= off -> off + 12 <= Z.of_nat (length p) ->
  is_u16 len -> is_u16 k -> is_u32 c.(DataID) -> is_u32 crc ->
  let d := patch p (Z.to_nat off) (headP04 c k len ++ crc_bytes crc) in
  readLengthP04 d off = Some len /\ readCounterP04 d off = Some k /\
  readDataIDP04 d off = Some c.(DataID) /\ readCRCP04 d off = Some crc.
Proof.
  intros Ho Hl H1 H2 H3 H4 d.
  assert (L : forall j, 0 <= j < 12 -> load d (off + j) = load (headP04 c k len ++ crc_bytes crc) j)
    by (intros; apply load_header; cbn; lia).
  assert (L0 := L 0); rewrite Z.add_0_r in L0.
  unfold readLengthP04, readCounterP04, readDataIDP04, readCRCP04.
  rewrite L0, !L by lia; split_and!.
  - exact (f_equal Some (word16_bytes len H1)).
  - exact (f_equal Some (word16_bytes k H2)).
  - exact (f_equal Some (word32_bytes _ H3)).
  - exact (f_equal Some (word32_bytes crc H4)).
Qed.

Section Profile4Facts.
Context `{CRC : CrcLib}.

Definition crcP04 (data : list Z) (off len : Z) : Z :=
  crc_from (S := crc32p4_ok) 0xFFFFFFFF (around data (off + 8) 4 len).

Lemma computeCRCP04_eq data off len :
  bytes data -> 0 <= off -> off + 12 <= len -> len <= Z.of_nat (length data) ->
  computeCRCP04 data off len = Some (crcP04 data off len).
Proof using Type.
  intros Hb Ho Hlen Hroom; unfold computeCRCP04.
  rewrite calc_first by (done || lia); cbn [mbind option_bind]; unfold ptr_at.
  rewrite calc_guarded; [| done | auto with mem | auto with mem | rewrite length_drop; lia
    | destruct (Z.ltb_spec (off + 12) len); [done | lia]].
  unfold crcP04, around, segment; do 4 f_equal; f_equal; lia.
Qed.

Lemma crcP04_range data off len : bytes data -> is_u32 (crcP04 data off len).
Proof using Type. intros; apply crc_from_range; [done | by apply bytes_around]. Qed.

(** The data as [E2E_P04Protect] leaves it. *)
Record frameP04 (c : E2E_P04ConfigType) (k : Z) (frame : list Z) : Prop := {
  fr_typed : typedP04 c;
  fr_valid : validP04 c (Z.of_nat (length frame));
  fr_bytes : bytes frame;
  fr_length : readLengthP04 frame (computeOffsetP04 c) = Some (Z.of_nat (length frame));
  fr_counter : readCounterP04 frame (computeOffsetP04 c) = Some k;
  fr_id : readDataIDP04 frame (computeOffsetP04 c) = Some c.(DataID);
  fr_crc : readCRCP04 frame (computeOffsetP04 c) =
    Some (crcP04 frame (computeOffsetP04 c) (Z.of_nat (length frame)))
}.

Lemma protectP04_frame c k p :
  typedP04 c -> validP04 c (Z.of_nat (length p)) -> bytes p -> is_u16 k ->
  exists frame,
    E2E_P04Protect (Some c) (Some {| Counter := k |}) (Some p) (Z.of_nat (length p)) =
      Some (E2E_E_OK, Some {| Counter := (k + 1) mod 65536 |}, Some frame) /\
    frameP04 c k frame /\ length frame = length p.
Proof using Type.
  intros Ht Hv Hb Hk; pose proof (validP04_bounds c _ Ht Hv) as Hbd.
  unfold E2E_P04Protect; rewrite (proj2 (verifyProtectInputsP04_ok c _ p _) Hv).
  cbn [Z.eqb E2E_E_OK]; set (off := computeOffsetP04 c) in *.
  pose proof (writesP04_eq c k p off ltac:(lia) ltac:(lia)) as Hw.
  destruct (writeLengthP04 p off _) as [d1 |]; cbn [mbind option_bind] in *; [| done].
  destruct (writeCounterP04 d1 off _) as [d2 |]; cbn [mbind option_bind] in *; [| done].
  rewrite Hw; cbn [mbind option_bind]; set (d3 := patch p _ _); set (len := Z.of_nat _) in *.
  assert (H3 : length d3 = length p) by (apply length_patch; cbn; lia).
  assert (Hd3 : bytes d3) by (apply bytes_patch; [done | apply headP04_bytes]).
  rewrite computeCRCP04_eq by (done || lia); cbn [mbind option_bind].
  set (crc := crcP04 d3 off len).
  unfold writeCRCP04; rewrite store4_patch by lia; cbn [mbind option_bind].
  change (patch d3 _ _) with (patch d3 (Z.to_nat (off + 8)) (crc_bytes crc)).
  set (d4 := patch d3 _ _).
  assert (H4 : length d4 = length p) by (rewrite <- H3; apply length_patch; cbn; lia).
  assert (E4 : d4 = patch p (Z.to_nat off) (headP04 c k len ++ crc_bytes crc)).
  { rewrite <- patch_patch by (cbn; lia); unfold d4; f_equal; cbn; lia. }
  destruct (readsP04_header c k len crc p off) as (R1 & R2 & R3 & R4);
    [lia | lia | unfold len; in_range | done | apply Ht | by apply crcP04_range |].
  rewrite <- E4 in R1, R2, R3, R4.
  exists d4; split; [done |]; split; [| done]; split; rewrite ?H4; fold off len; try done.
  - apply bytes_patch; [done | apply crc_bytes_bytes].
  - rewrite R4; unfold crc, crcP04, d4; rewrite around_patch_field; cbn; (done || lia).
Qed.
End Profile4Facts.

(** ** The profile keeps the promise of [CounterProfile] *)
Definition verdictP04 (s : E2E_P04CheckStatusType) : Verdict :=
  match s with
  | E2E_P04STATUS_OK => V_OK
  | E2E_P04STATUS_NONEWDATA => V_NONEWDATA
  | E2E_P04STATUS_ERROR => V_ERROR
  | E2E_P04STATUS_REPEATED => V_REPEATED
  | E2E_P04STATUS_OKSOMELOST => V_OKSOMELOST
  | E2E_P04STATUS_WRONGSEQUENCE => V_WRONGSEQUENCE
  end.

Section Profile4Channel.
Context `{CRC : CrcLib}.

Definition sendP04 (c : E2E_P04ConfigType) (k : Z) (p : list Z) : option (Z * Z * list Z) :=
  '(ret, s, d) ← E2E_P04Protect (Some c) (Some {| Counter := k |}) (Some p)
                   (Z.of_nat (length p));
  s ← s; d ← d; Some (ret, s.(Counter), d).

(** The old status is not read by the check. *)
Definition receiveP04 (c : E2E_P04ConfigType) (k : Z) (d : option (list Z))
  : option (Z * Verdict * Z) :=
  '(ret, s) ← E2E_P04Check (Some c)
    (Some {| Status := E2E_P04STATUS_ERROR; CheckCounter := k |}) d
    (match d with None => 0 | Some d => Z.of_nat (length d) end);
  s ← s; Some (ret, verdictP04 s.(Status), s.(CheckCounter)).

Lemma checkP04_step c st d len rl rc rid rcrc :
  typedP04 c -> validP04 c len -> bytes d -> len <= Z.of_nat (length d) ->
  let off := computeOffsetP04 c in
  readLengthP04 d off = Some rl -> readCounterP04 d off = Some rc ->
  readDataIDP04 d off = Some rid -> readCRCP04 d off = Some rcrc ->
  E2E_P04Check (Some c) (Some st) (Some d) len =
    Some (E2E_E_OK, Some (doChecksP04 st true c rcrc (crcP04 d off len) rid rl len rc)).
Proof using Type.
  intros Ht Hv Hb Hl off H1 H2 H3 H4; pose proof (validP04_bounds c _ Ht Hv) as Hbd.
  destruct Hv as (V1 & V2 & V3); unfold E2E_P04Check, verifyCheckInputsP04.
  rewrite V1, V2, V3; destruct (Z.eqb_spec len 0); [lia |].
  cbn [Z.eqb E2E_E_OK]; fold off in Hbd |- *.
  rewrite H1; cbn [mbind option_bind]; rewrite H2; cbn [mbind option_bind].
  rewrite H3; cbn [mbind option_bind]; rewrite H4; cbn [mbind option_bind].
  by rewrite computeCRCP04_eq by (done || lia).
Qed.

Lemma receiveP04_frame c k0 k frame :
  frameP04 c k frame -> is_u16 k0 -> is_u16 k ->
  receiveP04 c k0 (Some frame) = Some (E2E_E_OK,
    (let d := (k - k0) mod 65536 in
     if d >? c.(MaxDeltaCounter) then V_WRONGSEQUENCE
     else if d =? 0 then V_REPEATED
     else if d =? 1 then V_OK else V_OKSOMELOST), k).
Proof using Type.
  intros [Ht Hv Hb R1 R2 R3 R4] Hk0 Hk; unfold receiveP04.
  rewrite (checkP04_step c _ frame _ _ _ _ _ Ht Hv Hb ltac:(lia) R1 R2 R3 R4).
  cbn [mbind option_bind]; unfold doChecksP04; rewrite !Z.eqb_refl.
  cbn [orb negb mbind option_bind Status CheckCounter]; cbv zeta.
  rewrite calculateDeltaCounterP04_eq by done.
  destruct (_ >? _); [done |]; destruct (_ =? 0); [done |]; by destruct (_ =? 1).
Qed.

Lemma receiveP04_burst c k0 k frame i mask :
  frameP04 c k frame ->
  burst_at (computeOffsetP04 c + 8) 4 (Z.of_nat (length frame)) i mask ->
  receiveP04 c k0 (Some (flip frame i mask)) = Some (E2E_E_OK, V_ERROR, k0).
Proof using Type.
  intros [Ht Hv Hb R1 R2 R3 R4] Hburst; pose proof (validP04_bounds c _ Ht Hv) as Hbd.
  pose proof Hburst as (Hm & _ & _ & Hwin).
  assert (Hl : length (flip frame i mask) = length frame) by (apply length_flip; lia).
  assert (Hbad : bytes (flip frame i mask)) by (by apply bytes_flip).
  destruct (readsP04_total (flip frame i mask) (computeOffsetP04 c))
    as ([rl Q1] & [rc Q2] & [rid Q3] & [x Q4]); [lia | lia |].
  unfold receiveP04; rewrite Hl.
  rewrite (checkP04_step c _ _ _ _ _ _ _ Ht Hv Hbad ltac:(lia) Q1 Q2 Q3 Q4).
  cbn [mbind option_bind]; unfold doChecksP04.
  rewrite (proj2 (Z.eqb_neq x _)); [done |]; unfold crcP04 in *.
  destruct (burst_cases (S := crc32p4_ok) 0xFFFFFFFF [] frame (computeOffsetP04 c + 8) 4
              (Z.of_nat (length frame)) i mask) as [[Hne Hsame] | [Hsame (j & Hj & Hne)]];
    try done; try lia.
  - rewrite !app_nil_r in Hne. rewrite (readCRCP04_ext _ frame) in Q4 by done; congruence.
  - rewrite Hsame; intros ->.
    by apply Hne, (readCRCP04_inj _ _ (computeOffsetP04 c) _ Hbad Hb Q4 R4).
Qed.

#[export, program] Instance Profile4 : CounterProfile E2E_P04ConfigType := {|
  Period := 65536;
  tolerance := MaxDeltaCounter;
  crc_at c := computeOffsetP04 c + 8;
  crc_size := 4;
  payload_fit c p := typedP04 c /\ validP04 c (Z.of_nat (length p)) /\ bytes p;
  frame_of := frameP04;
  send := sendP04;
  receive := receiveP04
|}.
Next Obligation. done. Qed.
Next Obligation. intros c k frame [Ht _ _ _ _ _ _]; apply Ht. Qed.
Next Obligation.
  intros c k p (Ht & Hv & Hb) Hk; unfold sendP04.
  by destruct (protectP04_frame c k p Ht Hv Hb Hk) as (frame & -> & Hf & Hl); exists frame.
Qed.
Next Obligation. intros; by apply receiveP04_frame. Qed.
Next Obligation. intros; by eapply receiveP04_burst. Qed.
Next Obligation.
  intros c k0 (p & Ht & (V1 & _) & _); unfold receiveP04, E2E_P04Check, verifyCheckInputsP04.
  by rewrite V1.
Qed.

(** ** Theorems *)

(** C8. Profile 4 from initialisation over an unreliable channel.  The channel keeps
    what was sent and delivers any of it at any time, in any order and as often as
    it likes, so that data is lost, delayed, overtaken and repeated, each data intact or
    hit by an error burst within at most four consecutive bytes that lie all outside
    or all inside the CRC field.  Then, for a configuration and lengths of data that the checks accept,
    every call of [E2E_P04Check] returns [E2E_E_OK] and reports the status of an
    abstract receiver that numbers the data sent and knows which one it took over last:
    ERROR for data hit by a burst, which it does not take over, and for the others,
    by the distance of the two numbers modulo the period 65536 of the counter, REPEATED
    for 0, OK for 1, OKSOMELOST up to [MaxDeltaCounter] and WRONGSEQUENCE beyond;
    NONEWDATA when there is no data. *)
Theorem p04_channel_refines c es s0 st0 :
  Forall (event_ok c) es ->
  exists ps cs s',
    E2E_P04ProtectInit (Some s0) = (E2E_E_OK, Some ps) /\
    E2E_P04CheckInit (Some st0) = (E2E_E_OK, Some cs) /\
    run c {| snd_counter := ps.(Counter); rcv_counter := cs.(CheckCounter); sent := [] |} es
      = Some (map (pair E2E_E_OK) (fst (ideal_run c ideal_start es)), s').
Proof using Type.
  intros Hes; destruct (run_refines c start _ es (start_simulates c) Hes) as (s' & Hrun & _).
  eexists _, _, s'; split; [done |]; split; [done |]; exact Hrun.
Qed.

(** Data that was protected for another identifier, or whose length is not
    the one it was protected with, is rejected: the status is [ERROR] and the
    receiver keeps its counter. *)
Theorem p04_misdirected_detected c c' k p frame s st len :
  typedP04 c -> typedP04 c' -> c'.(Offset) = c.(Offset) ->
  validP04 c (Z.of_nat (length p)) -> bytes p -> is_u16 k ->
  E2E_P04Protect (Some c) (Some {| Counter := k |}) (Some p) (Z.of_nat (length p)) =
    Some (E2E_E_OK, s, Some frame) ->
  validP04 c' len -> len <= Z.of_nat (length p) ->
  c'.(DataID) <> c.(DataID) \/ len <> Z.of_nat (length p) ->
  E2E_P04Check (Some c') (Some st) (Some frame) len =
    Some (E2E_E_OK, Some {| Status := E2E_P04STATUS_ERROR;
                            CheckCounter := st.(CheckCounter) |}).
Proof using Type.
  intros Ht Ht' Ho Hv Hb Hk Hpr Hv' Hlen Hdiff.
  destruct (protectP04_frame c k p Ht Hv Hb Hk) as (frame' & Hpr' & Hf & Hl).
  assert (frame' = frame) as -> by congruence; destruct Hf as [_ _ Hfb R1 R2 R3 R4].
  assert (E : computeOffsetP04 c' = computeOffsetP04 c) by (unfold computeOffsetP04; by rewrite Ho).
  rewrite <- E in R1, R2, R3, R4.
  rewrite (checkP04_step c' st frame len _ _ _ _ Ht' Hv' Hfb ltac:(lia) R1 R2 R3 R4).
  unfold doChecksP04; do 3 f_equal; cbn [negb].
  assert (negb (c.(DataID) =? c'.(DataID)) || negb (Z.of_nat (length frame) =? len) = true)
    as Hbad by (rewrite orb_true_iff, !negb_true_iff, !Z.eqb_neq; destruct Hdiff; [left | right]; lia).
  by rewrite <- orb_assoc, Hbad, orb_true_r.
Qed.
End Profile4Channel.

(** ** The length field is not redundant *)
Definition configP04 : E2E_P04ConfigType := {|
  DataID := 0x0A0B0C0D; Offset := 0; MinDataLength := 96; MaxDataLength := 32768;
  MaxDeltaCounter := 3
|}.

(** Room for the header, then eight bytes of payload. *)
Definition payloadP04 : list Z :=
  [0; 0; 0; 0; 0; 0; 0; 0; 0; 0; 0; 0; 1; 2; 3; 4; 9; 227; 212; 107].
Definition protectedP04 : list Z :=
  [0; 20; 0; 5; 0x0A; 0x0B; 0x0C; 0x0D; 0x86; 0xCF; 0x8E; 0xC3; 1; 2; 3; 4; 9; 227; 212; 107].

(** The check of the transmitted length against the received one in
    [doChecksP04] is needed: there is data of 20 bytes that [E2E_P04Protect]
    protects and whose first 16 bytes still carry the right CRC, so the length
    is the only check that fails on the truncated data. *)
Theorem p04_length_check_needed :
  exists s,
    E2E_P04Protect (CRC := Crc_Generic) (Some configP04) (Some {| Counter := 5 |})
      (Some payloadP04) 20 = Some (E2E_E_OK, s, Some protectedP04) /\
    readCRCP04 protectedP04 0 = computeCRCP04 (CRC := Crc_Generic) protectedP04 0 16 /\
    readDataIDP04 protectedP04 0 = Some configP04.(DataID) /\
    readLengthP04 protectedP04 0 = Some 20 /\
    forall st, E2E_P04Check (CRC := Crc_Generic) (Some configP04) (Some st)
        (Some protectedP04) 16 =
      Some (E2E_E_OK, Some {| Status := E2E_P04STATUS_ERROR;
                              CheckCounter := st.(CheckCounter) |}).
Proof.
  eexists; split; [vm_compute; reflexivity |]; split; [vm_compute; reflexivity |].
  split; [reflexivity |]; split; [reflexivity |]; intros [st k]; vm_compute; reflexivity.
Qed.

(** ** Witnesses *)
Lemma configP04_typed : typedP04 configP04.
Proof. split; vm_compute; split; congruence. Qed.

Lemma payloadP04_bytes : bytes payloadP04.
Proof. repeat constructor; vm_compute; congruence. Qed.

Lemma payloadP04_valid : validP04 configP04 20.
Proof. split; [| split]; reflexivity. Qed.

(** Two data arrive, one is delayed, one is hit by a burst; the next one arrives, is repeated, and is followed by the delayed one. *)
Definition historyP04 : list Event :=
  [Send payloadP04 Intact; Deliver 0; Quiet; Send payloadP04 Intact; Deliver 1; Send payloadP04 Intact;
   Send payloadP04 (Corrupted 13 [0; 0x80; 0x01]); Deliver 3; Send payloadP04 Intact; Deliver 4; Deliver 4;
   Deliver 2; Send payloadP04 Intact; Deliver 5].

Lemma p04_channel_refines_witness :
  exists s',
    run (CP := Profile4 (CRC := Crc_Generic)) configP04
      {| snd_counter := 0; rcv_counter := 0xFFFF; sent := [] |} historyP04 =
    Some (map (pair E2E_E_OK) [V_OK; V_NONEWDATA; V_OK; V_ERROR; V_OKSOMELOST; V_REPEATED;
                               V_WRONGSEQUENCE; V_OKSOMELOST], s').
Proof.
  assert (Hp : typedP04 configP04 /\ validP04 configP04 (Z.of_nat (length payloadP04)) /\
               bytes payloadP04)
    by (split; [apply configP04_typed |]; split; [apply payloadP04_valid | apply payloadP04_bytes]).
  destruct (p04_channel_refines (CRC := Crc_Generic) configP04 historyP04 {| Counter := 7 |}
              {| Status := E2E_P04STATUS_OK; CheckCounter := 7 |})
    as (ps & cs & s' & [= <-] & [= <-] & Hrun).
  - repeat apply Forall_cons_2; try apply Forall_nil_2; try exact (conj Hp I); try exact I.
    + exact (ex_intro _ payloadP04 Hp).
    + split; [exact Hp |]; split; [repeat constructor; vm_compute; congruence |].
      split; [right; left; discriminate |]; vm_compute; intuition congruence.
  - exists s'; exact Hrun.
Defined.

Lemma p04_misdirected_detected_witness :
  E2E_P04Check (CRC := Crc_Generic)
    (Some {| DataID := 0x0A0B0C0E; Offset := 0; MinDataLength := 96; MaxDataLength := 32768;
             MaxDeltaCounter := 3 |})
    (Some {| Status := E2E_P04STATUS_OK; CheckCounter := 4 |}) (Some protectedP04) 20 =
  Some (E2E_E_OK, Some {| Status := E2E_P04STATUS_ERROR; CheckCounter := 4 |}).
Proof.
  apply (p04_misdirected_detected (CRC := Crc_Generic) configP04 _ 5 payloadP04 protectedP04
           (Some {| Counter := 6 |}) {| Status := E2E_P04STATUS_OK; CheckCounter := 4 |} 20).
  - apply configP04_typed.
  - split; vm_compute; split; congruence.
  - reflexivity.
  - apply payloadP04_valid.
  - apply payloadP04_bytes.
  - vm_compute; split; congruence.
  - vm_compute; reflexivity.
  - split; [| split]; reflexivity.
  - vm_compute; congruence.
  - left; discriminate.
Defined.
