(* ===== verification/E2E_P05.v ===== *)
(** * E2E profile 5

    [safety_security/SafeLib/E2E/src/E2E_P05.c] and [inc/E2E_P05.h]: a header of
    three bytes at a configured offset, with a 16-bit CRC and an eight-bit
    counter; the data identifier is not transmitted but enters the CRC. *)

From S2P Require Import Prelude CrcTheory Crc E2E E2E_Channel.

(** ** E2E_P05.h *)
Inductive E2E_P05CheckStatusType :=
| E2E_P05STATUS_OK
| E2E_P05STATUS_NONEWDATA
| E2E_P05STATUS_ERROR
| E2E_P05STATUS_REPEATED
| E2E_P05STATUS_OKSOMELOST
| E2E_P05STATUS_WRONGSEQUENCE.

Record E2E_P05ConfigType := {
  Offset : Z;
  DataLength : Z;
  DataID : Z;
  MaxDeltaCounter : Z
}.

Record E2E_P05ProtectStateType := { Counter : Z }.

Record E2E_P05CheckStateType := { Status : E2E_P05CheckStatusType; CheckCounter : Z }.

(** ** E2E_P05.c *)
Definition MAX_P05_COUNTER_VALUE := 255.
Definition MAX_P05_DATA_LENGTH_IN_BITS := 8 * 4096.
Definition MIN_P05_DATA_LENGTH_IN_BITS := 8 * 3.

(** The conditions the two verification functions share. *)
Definition wrongLengthP05 (Config : E2E_P05ConfigType) (Length : Z) : bool :=
  (8 * Length <? MIN_P05_DATA_LENGTH_IN_BITS) || (8 * Length >? MAX_P05_DATA_LENGTH_IN_BITS)
  || negb (8 * Length =? Config.(DataLength)).

Definition wrongOffsetP05 (Config : E2E_P05ConfigType) (Length : Z) : bool :=
  negb (Config.(Offset) mod 8 =? 0)
  || (Config.(Offset) >? 8 * Length - MIN_P05_DATA_LENGTH_IN_BITS).

Definition verifyProtectInputsP05 (ConfigPtr : option E2E_P05ConfigType)
    (StatePtr : option E2E_P05ProtectStateType) (DataPtr : option (list Z)) (Length : Z) : Z :=
  match ConfigPtr, StatePtr, DataPtr with
  | Some Config, Some _, Some _ =>
      if wrongLengthP05 Config Length then E2E_E_INPUTERR_WRONG
      else if wrongOffsetP05 Config Length then E2E_E_INPUTERR_WRONG
      else E2E_E_OK
  | _, _, _ => E2E_E_INPUTERR_NULL
  end.

Definition computeOffsetP05 (Config : E2E_P05ConfigType) : Z := Config.(Offset) / 8.

Definition writeCounterP05 (Data : list Z) (offset : Z) (State : E2E_P05ProtectStateType)
  : option (list Z) :=
  store Data (offset + 2) (Z.land (Z.land State.(Counter) 0xFF) 0xFF).

Definition writeCRCP05 (Data : list Z) (offset crc : Z) : option (list Z) :=
  Data ← store Data offset (Z.land (Z.land crc 0x00FF) 0xFF);
  store Data (offset + 1) (Z.land (Z.shiftr (Z.land crc 0xFF00) 8) 0xFF).

Definition incrementCounterP05 (State : E2E_P05ProtectStateType) : E2E_P05ProtectStateType :=
  {| Counter := (State.(Counter) + 1) mod (MAX_P05_COUNTER_VALUE + 1) |}.

(** The return value and [*NewDataAvailable]. *)
Definition verifyCheckInputsP05 (ConfigPtr : option E2E_P05ConfigType)
    (StatePtr : option E2E_P05CheckStateType) (DataPtr : option (list Z)) (Length : Z)
  : Z * bool :=
  match ConfigPtr, StatePtr with
  | Some Config, Some _ =>
      match DataPtr with
      | None => if Length =? 0 then (E2E_E_OK, false) else (E2E_E_INPUTERR_WRONG, false)
      | Some _ =>
          if Length =? 0 then (E2E_E_INPUTERR_WRONG, false)
          else if wrongLengthP05 Config Length then (E2E_E_INPUTERR_WRONG, false)
          else if wrongOffsetP05 Config Length then (E2E_E_INPUTERR_WRONG, false)
          else (E2E_E_OK, true)
      end
  | _, _ => (E2E_E_INPUTERR_NULL, false)
  end.

Definition readCounterP05 (Data : list Z) (offset : Z) : option Z :=
  b ← load Data (offset + 2);
  Some (Z.lor 0 (Z.land b 0xFF)).

Definition readCRCP05 (Data : list Z) (offset : Z) : option Z :=
  b0 ← load Data offset;
  b1 ← load Data (offset + 1);
  Some (Z.lor (Z.lor 0 (Z.land b0 0x00FF)) (Z.land (Z.shiftl b1 8) 0xFF00)).

Definition calculateDeltaCounterP05 (receivedCounter lastValidCounter : Z) : Z :=
  if receivedCounter >=? lastValidCounter
  then u8 (receivedCounter - lastValidCounter)
  else u8 (u32 (MAX_P05_COUNTER_VALUE + 1 + receivedCounter - lastValidCounter)).

Definition doChecksP05 (State : E2E_P05CheckStateType) (NewDataAvailable : bool)
    (Config : E2E_P05ConfigType) (receivedCRC computedCRC receivedCounter : Z)
  : E2E_P05CheckStateType :=
  if negb NewDataAvailable
  then {| Status := E2E_P05STATUS_NONEWDATA; CheckCounter := State.(CheckCounter) |}
  else if negb (receivedCRC =? computedCRC)
  then {| Status := E2E_P05STATUS_ERROR; CheckCounter := State.(CheckCounter) |}
  else
    let deltaCounter := calculateDeltaCounterP05 receivedCounter State.(CheckCounter) in
    {| Status :=
         if deltaCounter >? Config.(MaxDeltaCounter) then E2E_P05STATUS_WRONGSEQUENCE
         else if deltaCounter =? 0 then E2E_P05STATUS_REPEATED
         else if deltaCounter =? 1 then E2E_P05STATUS_OK
         else E2E_P05STATUS_OKSOMELOST;
       CheckCounter := receivedCounter |}.

Definition E2E_P05ProtectInit (StatePtr : option E2E_P05ProtectStateType)
  : Z * option E2E_P05ProtectStateType :=
  match StatePtr with
  | None => (E2E_E_INPUTERR_NULL, None)
  | Some _ => (E2E_E_OK, Some {| Counter := 0 |})
  end.

Definition E2E_P05CheckInit (StatePtr : option E2E_P05CheckStateType)
  : Z * option E2E_P05CheckStateType :=
  match StatePtr with
  | None => (E2E_E_INPUTERR_NULL, None)
  | Some _ => (E2E_E_OK, Some {| Status := E2E_P05STATUS_ERROR; CheckCounter := 0xFF |})
  end.

Definition E2E_P05MapStatusToSM (CheckReturn : Z) (Status : E2E_P05CheckStatusType)
  : E2E_PCheckStatusType :=
  if CheckReturn =? E2E_E_OK then
    match Status with
    | E2E_P05STATUS_OK | E2E_P05STATUS_OKSOMELOST => E2E_P_OK
    | E2E_P05STATUS_REPEATED => E2E_P_REPEATED
    | E2E_P05STATUS_NONEWDATA => E2E_P_NONEWDATA
    | E2E_P05STATUS_WRONGSEQUENCE => E2E_P_WRONGSEQUENCE
    | _ => E2E_P_ERROR
    end
  else E2E_P_ERROR.

Section Profile5.
Context `{CRC : CrcLib}.

Definition computeCRCP05 (Data : list Z) (length offset dataId : Z) : option Z :=
  let lengthBytes := u16 (length - offset - 2) in
  crc ←
    (if offset >? 0 then
       crc ← crc16 (Some Data) offset 0xFFFF true;
       crc16 (Some (ptr_at Data (offset + 2))) lengthBytes crc false
     else crc16 (Some (ptr_at Data (offset + 2))) lengthBytes 0xFFFF true);
  crc ← crc16 (Some [Z.land dataId 0xFF]) 1 crc false;
  crc16 (Some [Z.land (Z.shiftr dataId 8) 0xFF]) 1 crc false.

Definition E2E_P05Protect (ConfigPtr : option E2E_P05ConfigType)
    (StatePtr : option E2E_P05ProtectStateType) (DataPtr : option (list Z)) (Length : Z)
  : option (Z * option E2E_P05ProtectStateType * option (list Z)) :=
  let returnValue := verifyProtectInputsP05 ConfigPtr StatePtr DataPtr Length in
  match ConfigPtr, StatePtr, DataPtr with
  | Some Config, Some State, Some Data =>
      if returnValue =? E2E_E_OK then
        let offset := computeOffsetP05 Config in
        Data ← writeCounterP05 Data offset State;
        crc ← computeCRCP05 Data Length offset Config.(DataID);
        Data ← writeCRCP05 Data offset crc;
        Some (returnValue, Some (incrementCounterP05 State), Some Data)
      else Some (returnValue, StatePtr, DataPtr)
  | _, _, _ => Some (returnValue, StatePtr, DataPtr)
  end.

Definition E2E_P05Check (ConfigPtr : option E2E_P05ConfigType)
    (StatePtr : option E2E_P05CheckStateType) (DataPtr : option (list Z)) (Length : Z)
  : option (Z * option E2E_P05CheckStateType) :=
  let '(returnValue, NewDataAvailable) :=
    verifyCheckInputsP05 ConfigPtr StatePtr DataPtr Length in
  match ConfigPtr, StatePtr with
  | Some Config, Some State =>
      if returnValue =? E2E_E_OK then
        match NewDataAvailable, DataPtr with
        | true, Some Data =>
            let offset := computeOffsetP05 Config in
            receivedCounter ← readCounterP05 Data offset;
            receivedCRC ← readCRCP05 Data offset;
            computedCRC ← computeCRCP05 Data Length offset Config.(DataID);
            Some (returnValue,
                  Some (doChecksP05 State true Config receivedCRC computedCRC receivedCounter))
        | _, _ => Some (returnValue, Some (doChecksP05 State false Config 0 0 0))
        end
      else Some (returnValue, StatePtr)
  | _, _ => Some (returnValue, StatePtr)
  end.
End Profile5.

(** ** Facts *)
Record typedP05 (c : E2E_P05ConfigType) : Prop := {
  tp_Offset : is_u16 c.(Offset);
  tp_DataLength : is_u16 c.(DataLength);
  tp_DataID : is_u16 c.(DataID);
  tp_MaxDeltaCounter : is_u8 c.(MaxDeltaCounter)
}.

(** A configuration and a length the verification functions accept. *)
Definition validP05 (c : E2E_P05ConfigType) (len : Z) : Prop :=
  wrongLengthP05 c len = false /\ wrongOffsetP05 c len = false.

Lemma validP05_bounds c len :
  typedP05 c -> validP05 c len ->
  0 <= computeOffsetP05 c /\ computeOffsetP05 c + 3 <= len <= 4096.
Proof.
  intros [[Ho _] _ _ _] (H1 & H2).
  unfold wrongLengthP05, wrongOffsetP05, MIN_P05_DATA_LENGTH_IN_BITS,
    MAX_P05_DATA_LENGTH_IN_BITS, computeOffsetP05 in *.
  rewrite !orb_false_iff in *; Z.div_mod_to_equations; lia.
Qed.

Lemma calculateDeltaCounterP05_eq r l :
  is_u8 r -> is_u8 l -> calculateDeltaCounterP05 r l = (r - l) mod 256.
Proof.
  intros Hr Hl; unfold calculateDeltaCounterP05, u8, u32, MAX_P05_COUNTER_VALUE, in_width in *.
  rewrite Z.geb_leb; pose proof (delta_mod 256 r l) as E.
  destruct (Z.leb_spec l r); rewrite <- E by lia; [apply Z.mod_small; lia |].
  rewrite (Z.mod_small _ (2 ^ 32)) by lia; apply Z.mod_small; lia.
Qed.

Lemma readCRCP05_word d off b0 b1 :
  load d off = Some b0 -> load d (off + 1) = Some b1 -> readCRCP05 d off = Some (word16 b1 b0).
Proof.
  unfold readCRCP05; intros -> ->; cbn [mbind option_bind]; f_equal.
  unfold word16; rewrite !Z.lor_0_l; apply Z.lor_comm.
Qed.

Section Profile5Facts.
Context `{CRC : CrcLib}.

Definition idP05 (c : E2E_P05ConfigType) : list Z :=
  [Z.land c.(DataID) 0xFF; Z.land (Z.shiftr c.(DataID) 8) 0xFF].

Definition crcP05 (c : E2E_P05ConfigType) (data : list Z) (off len : Z) : Z :=
  crc_from (S := crc16_ok) 0xFFFF (around data off 2 len ++ idP05 c).

Lemma idP05_bytes c : bytes (idP05 c).
Proof using Type. unfold idP05; repeat (constructor; auto with mem). Qed.

Lemma computeCRCP05_eq c data off len :
  bytes data -> 0 <= off -> off + 3 <= len -> len <= Z.of_nat (length data) -> len < 2 ^ 16 ->
  computeCRCP05 data len off c.(DataID) = Some (crcP05 c data off len).
Proof using Type.
  intros; unfold computeCRCP05; cbv zeta.
  rewrite crc16_around by (done || lia); cbn [mbind option_bind].
  rewrite calc_byte; [| done | by apply bytes_around | auto with mem].
  cbn [mbind option_bind].
  rewrite calc_byte; [| done | apply Forall_app_2; [by apply bytes_around |] | auto with mem].
  - by rewrite <- app_assoc.
  - repeat (constructor; auto with mem).
Qed.

Lemma crcP05_range c data off len : bytes data -> is_u16 (crcP05 c data off len).
Proof using Type.
  intros; apply crc_from_range; [done | apply Forall_app_2].
  - by apply bytes_around.
  - apply idP05_bytes.
Qed.

(** The data as [E2E_P05Protect] leaves it. *)
Record frameP05 (c : E2E_P05ConfigType) (k : Z) (frame : list Z) : Prop := {
  fr_typed : typedP05 c;
  fr_valid : validP05 c (Z.of_nat (length frame));
  fr_bytes : bytes frame;
  fr_counter : readCounterP05 frame (computeOffsetP05 c) = Some k;
  fr_crc : readCRCP05 frame (computeOffsetP05 c) =
    Some (crcP05 c frame (computeOffsetP05 c) (Z.of_nat (length frame)))
}.

Lemma protectP05_frame c k p :
  typedP05 c -> validP05 c (Z.of_nat (length p)) -> bytes p -> is_u8 k ->
  exists frame,
    E2E_P05Protect (Some c) (Some {| Counter := k |}) (Some p) (Z.of_nat (length p)) =
      Some (E2E_E_OK, Some {| Counter := (k + 1) mod 256 |}, Some frame) /\
    frameP05 c k frame /\ length frame = length p.
Proof using Type.
  intros Ht Hv Hb Hk; pose proof (validP05_bounds c _ Ht Hv) as Hbd; pose proof Hv as [V1 V2].
  unfold E2E_P05Protect, verifyProtectInputsP05; rewrite V1, V2.
  cbn [Z.eqb E2E_E_OK]; set (off := computeOffsetP05 c) in *; set (len := Z.of_nat _) in *.
  unfold writeCounterP05; rewrite store1_patch by lia; cbn [mbind option_bind Counter].
  rewrite !land_255 by (rewrite ?land_255; done); set (d1 := patch p _ _).
  assert (H1 : length d1 = length p) by (apply length_patch; cbn; lia).
  assert (Hd1 : bytes d1) by (apply bytes_patch; [done | by constructor]).
  rewrite computeCRCP05_eq by (done || lia); cbn [mbind option_bind].
  set (crc := crcP05 c d1 off len).
  unfold writeCRCP05; rewrite store2_patch by lia; cbn [mbind option_bind].
  change (patch d1 _ _) with (patch d1 (Z.to_nat off) [byte0 crc; byte1 crc]).
  set (d2 := patch d1 _ _).
  assert (H2 : length d2 = length p) by (rewrite <- H1; apply length_patch; cbn; lia).
  exists d2; split; [done |]; split; [| done]; split; rewrite ?H2; fold off len; try done.
  - apply bytes_patch; [done | repeat (constructor; auto with mem)].
  - unfold readCounterP05, d2; rewrite load_patch_out by (cbn; lia); unfold d1.
    rewrite load_patch_in, Z.sub_diag by (cbn; lia); change (load [k] 0) with (Some k).
    cbn [mbind option_bind]; by rewrite land_255, Z.lor_0_l.
  - rewrite (readCRCP05_word d2 off (byte0 crc) (byte1 crc)).
    + rewrite word16_bytes by (by apply crcP05_range); unfold crc, crcP05, d2.
      by rewrite around_patch_field by (cbn; lia).
    + unfold d2; rewrite load_patch_in by (cbn; lia); by rewrite Z.sub_diag.
    + unfold d2; rewrite load_patch_in by (cbn; lia); by rewrite Z.add_simpl_l.
Qed.
End Profile5Facts.

(** ** The profile keeps the promise of [CounterProfile] *)
Definition verdictP05 (s : E2E_P05CheckStatusType) : Verdict :=
  match s with
  | E2E_P05STATUS_OK => V_OK
  | E2E_P05STATUS_NONEWDATA => V_NONEWDATA
  | E2E_P05STATUS_ERROR => V_ERROR
  | E2E_P05STATUS_REPEATED => V_REPEATED
  | E2E_P05STATUS_OKSOMELOST => V_OKSOMELOST
  | E2E_P05STATUS_WRONGSEQUENCE => V_WRONGSEQUENCE
  end.

(** The CRC field determines its bytes. *)
Lemma readCRCP05_inj d d' off x :
  bytes d -> bytes d' -> readCRCP05 d off = Some x -> readCRCP05 d' off = Some x ->
  forall j, off <= j < off + 2 -> load d j = load d' j.
Proof.
  intros Hd Hd' E E'.
  destruct (load d off) as [b0 |] eqn:L0; [| unfold readCRCP05 in E; by rewrite L0 in E].
  destruct (load d (off + 1)) as [b1 |] eqn:L1;
    [| unfold readCRCP05 in E; by rewrite L0, L1 in E].
  destruct (load d' off) as [b0' |] eqn:L0'; [| unfold readCRCP05 in E'; by rewrite L0' in E'].
  destruct (load d' (off + 1)) as [b1' |] eqn:L1';
    [| unfold readCRCP05 in E'; by rewrite L0', L1' in E'].
  rewrite (readCRCP05_word _ _ _ _ L0 L1) in E; rewrite (readCRCP05_word _ _ _ _ L0' L1') in E'.
  destruct (word16_inj b1 b0 b1' b0') as [-> ->]; [repeat (constructor; eauto with mem) | congruence |].
  intros j Hj; assert (j = off \/ j = off + 1) as [-> | ->] by lia; congruence.
Qed.

Lemma readsP05_total d off :
  0 <= off -> off + 3 <= Z.of_nat (length d) ->
  is_Some (readCounterP05 d off) /\ is_Some (readCRCP05 d off).
Proof.
  intros H0 Hlen; unfold readCounterP05, readCRCP05.
  destruct (load_in d off) as [? ->]; [lia |].
  destruct (load_in d (off + 1)) as [? E1]; [lia |]; destruct (load_in d (off + 2)) as [? E2]; [lia |].
  cbn [mbind option_bind]; rewrite E1, E2; by split; eexists.
Qed.

Section Profile5Channel.
Context `{CRC : CrcLib}.

Definition sendP05 (c : E2E_P05ConfigType) (k : Z) (p : list Z) : option (Z * Z * list Z) :=
  '(ret, s, d) ← E2E_P05Protect (Some c) (Some {| Counter := k |}) (Some p)
                   (Z.of_nat (length p));
  s ← s; d ← d; Some (ret, s.(Counter), d).

(** The old status is not read by the check. *)
Definition receiveP05 (c : E2E_P05ConfigType) (k : Z) (d : option (list Z))
  : option (Z * Verdict * Z) :=
  '(ret, s) ← E2E_P05Check (Some c)
    (Some {| Status := E2E_P05STATUS_ERROR; CheckCounter := k |}) d
    (match d with None => 0 | Some d => Z.of_nat (length d) end);
  s ← s; Some (ret, verdictP05 s.(Status), s.(CheckCounter)).

Lemma checkP05_step c st d rc rcrc :
  typedP05 c -> validP05 c (Z.of_nat (length d)) -> bytes d ->
  let off := computeOffsetP05 c in
  readCounterP05 d off = Some rc -> readCRCP05 d off = Some rcrc ->
  E2E_P05Check (Some c) (Some st) (Some d) (Z.of_nat (length d)) =
    Some (E2E_E_OK,
      Some (doChecksP05 st true c rcrc (crcP05 c d off (Z.of_nat (length d))) rc)).
Proof using Type.
  intros Ht Hv Hb off H1 H2; pose proof (validP05_bounds c _ Ht Hv) as Hbd.
  destruct Hv as (V1 & V2); unfold E2E_P05Check, verifyCheckInputsP05.
  rewrite V1, V2; destruct (Z.eqb_spec (Z.of_nat (length d)) 0); [lia |].
  cbn [Z.eqb E2E_E_OK]; fold off in Hbd |- *.
  rewrite H1; cbn [mbind option_bind]; rewrite H2; cbn [mbind option_bind].
  by rewrite computeCRCP05_eq by (done || lia).
Qed.

Lemma receiveP05_frame c k0 k frame :
  frameP05 c k frame -> is_u8 k0 -> is_u8 k ->
  receiveP05 c k0 (Some frame) = Some (E2E_E_OK,
    (let d := (k - k0) mod 256 in
     if d >? c.(MaxDeltaCounter) then V_WRONGSEQUENCE
     else if d =? 0 then V_REPEATED
     else if d =? 1 then V_OK else V_OKSOMELOST), k).
Proof using Type.
  intros [Ht Hv Hb R1 R2] Hk0 Hk; unfold receiveP05.
  rewrite (checkP05_step c _ frame _ _ Ht Hv Hb R1 R2).
  cbn [mbind option_bind]; unfold doChecksP05; rewrite !Z.eqb_refl.
  cbn [negb mbind option_bind Status CheckCounter]; cbv zeta.
  rewrite calculateDeltaCounterP05_eq by done.
  destruct (_ >? _); [done |]; destruct (_ =? 0); [done |]; by destruct (_ =? 1).
Qed.

Lemma receiveP05_burst c k0 k frame i mask :
  frameP05 c k frame ->
  burst_at (computeOffsetP05 c) 2 (Z.of_nat (length frame)) i mask ->
  receiveP05 c k0 (Some (flip frame i mask)) = Some (E2E_E_OK, V_ERROR, k0).
Proof using Type.
  intros [Ht Hv Hb R1 R2] Hburst; pose proof (validP05_bounds c _ Ht Hv) as Hbd.
  pose proof Hburst as (Hm & _ & _ & Hwin).
  assert (Hl : length (flip frame i mask) = length frame) by (apply length_flip; lia).
  assert (Hbad : bytes (flip frame i mask)) by (by apply bytes_flip).
  destruct (readsP05_total (flip frame i mask) (computeOffsetP05 c))
    as ([rc Q1] & [x Q2]); [lia | lia |].
  unfold receiveP05; rewrite <- Hl in Hv.
  rewrite (checkP05_step c _ _ _ _ Ht Hv Hbad Q1 Q2), Hl.
  cbn [mbind option_bind]; unfold doChecksP05.
  rewrite (proj2 (Z.eqb_neq x _)); [done |]; unfold crcP05 in *.
  destruct (burst_cases (S := crc16_ok) 0xFFFF (idP05 c) frame (computeOffsetP05 c) 2
              (Z.of_nat (length frame)) i mask) as [[Hne Hsame] | [Hsame (j & Hj & Hne)]];
    try done; try lia; [apply idP05_bytes | |].
  - assert (readCRCP05 (flip frame i mask) (computeOffsetP05 c)
            = readCRCP05 frame (computeOffsetP05 c)) as E
      by (unfold readCRCP05; by rewrite !Hsame by lia).
    congruence.
  - rewrite Hsame; intros ->.
    by apply Hne, (readCRCP05_inj _ _ (computeOffsetP05 c) _ Hbad Hb Q2 R2).
Qed.

#[export, program] Instance Profile5 : CounterProfile E2E_P05ConfigType := {|
  Period := 256;
  tolerance := MaxDeltaCounter;
  crc_at := computeOffsetP05;
  crc_size := 2;
  payload_fit c p := typedP05 c /\ validP05 c (Z.of_nat (length p)) /\ bytes p;
  frame_of := frameP05;
  send := sendP05;
  receive := receiveP05
|}.
Next Obligation. done. Qed.
Next Obligation. intros c k frame [Ht _ _ _ _]; apply Ht. Qed.
Next Obligation.
  intros c k p (Ht & Hv & Hb) Hk; unfold sendP05.
  by destruct (protectP05_frame c k p Ht Hv Hb Hk) as (frame & -> & Hf & Hl); exists frame.
Qed.
Next Obligation. intros; by apply receiveP05_frame. Qed.
Next Obligation. intros; by eapply receiveP05_burst. Qed.
Next Obligation. done. Qed.

(** ** Theorems *)

(** C26. Profile 5 from initialisation over an unreliable channel.  The channel keeps
    what was sent and delivers any of it at any time, in any order and as often as
    it likes, so that data is lost, delayed, overtaken and repeated, each data intact or
    hit by an error burst within at most two consecutive bytes that lie all outside
    or all inside the CRC field.  Then, for a configuration and lengths of data that the checks accept,
    every call of [E2E_P05Check] returns [E2E_E_OK] and reports the status of an
    abstract receiver that numbers the data sent and knows which one it took over last:
    ERROR for data hit by a burst, which it does not take over, and for the others,
    by the distance of the two numbers modulo the period 256 of the counter, REPEATED
    for 0, OK for 1, OKSOMELOST up to [MaxDeltaCounter] and WRONGSEQUENCE beyond;
    NONEWDATA when there is no data. *)
Theorem p05_channel_refines c es s0 st0 :
  Forall (event_ok c) es ->
  exists ps cs s',
    E2E_P05ProtectInit (Some s0) = (E2E_E_OK, Some ps) /\
    E2E_P05CheckInit (Some st0) = (E2E_E_OK, Some cs) /\
    run c {| snd_counter := ps.(Counter); rcv_counter := cs.(CheckCounter); sent := [] |} es
      = Some (map (pair E2E_E_OK) (fst (ideal_run c ideal_start es)), s').
Proof using Type.
  intros Hes; destruct (run_refines c start _ es (start_simulates c) Hes) as (s' & Hrun & _).
  eexists _, _, s'; split; [done |]; split; [done |]; exact Hrun.
Qed.

(** Masquerading: the identifier is not transmitted in profile 5, yet data
    protected for one identifier is rejected under every other: the status is
    [ERROR] and the receiver keeps its counter. *)
Theorem p05_masquerade_detected c c' k p frame s st :
  typedP05 c -> typedP05 c' -> c'.(Offset) = c.(Offset) -> c'.(DataLength) = c.(DataLength) ->
  validP05 c (Z.of_nat (length p)) -> bytes p -> is_u8 k ->
  E2E_P05Protect (Some c) (Some {| Counter := k |}) (Some p) (Z.of_nat (length p)) =
    Some (E2E_E_OK, s, Some frame) ->
  c'.(DataID) <> c.(DataID) ->
  E2E_P05Check (Some c') (Some st) (Some frame) (Z.of_nat (length p)) =
    Some (E2E_E_OK, Some {| Status := E2E_P05STATUS_ERROR;
                            CheckCounter := st.(CheckCounter) |}).
Proof using Type.
  intros Ht Ht' Ho HL Hv Hb Hk Hpr Hne.
  destruct (protectP05_frame c k p Ht Hv Hb Hk) as (frame' & Hpr' & Hf & Hl).
  assert (frame' = frame) as -> by congruence; destruct Hf as [_ _ Hfb R1 R2].
  assert (E : computeOffsetP05 c' = computeOffsetP05 c) by (unfold computeOffsetP05; by rewrite Ho).
  assert (Hv' : validP05 c' (Z.of_nat (length frame)))
    by (unfold validP05, wrongLengthP05, wrongOffsetP05 in *; by rewrite Ho, HL, Hl).
  rewrite <- E in R1, R2; rewrite <- Hl.
  rewrite (checkP05_step c' st frame _ _ Ht' Hv' Hfb R1 R2); unfold doChecksP05; cbn [negb].
  rewrite (proj2 (Z.eqb_neq _ _)); [done |]; unfold crcP05.
  apply crc16_wrong_id; [by apply bytes_around | apply idP05_bytes .. |].
  intros [= E1 E2]; apply Hne; symmetry; by apply id_bytes_inj; [apply Ht | apply Ht' | |].
Qed.
End Profile5Channel.

(** ** Witnesses *)
Definition configP05 : E2E_P05ConfigType := {|
  Offset := 8; DataLength := 64; DataID := 0x1234; MaxDeltaCounter := 3
|}.

Definition payloadP05 : list Z := [0x11; 0; 0; 0; 0x22; 0x33; 0x44; 0xFF].
Definition protectedP05 : list Z := [0x11; 0xA6; 0xFE; 5; 0x22; 0x33; 0x44; 0xFF].

Lemma configP05_typed : typedP05 configP05.
Proof. split; vm_compute; split; congruence. Qed.

Lemma payloadP05_bytes : bytes payloadP05.
Proof. repeat constructor; vm_compute; congruence. Qed.

Lemma payloadP05_valid : validP05 configP05 8.
Proof. split; reflexivity. Qed.

(** Two data arrive, one is delayed, one is hit by a burst; the next one arrives, is repeated, and is followed by the delayed one. *)
Definition historyP05 : list Event :=
  [Send payloadP05 Intact; Deliver 0; Quiet; Send payloadP05 Intact; Deliver 1; Send payloadP05 Intact;
   Send payloadP05 (Corrupted 1 [0x80; 0x01]); Deliver 3; Send payloadP05 Intact; Deliver 4; Deliver 4;
   Deliver 2; Send payloadP05 Intact; Deliver 5].

Lemma p05_channel_refines_witness :
  exists s',
    run (CP := Profile5 (CRC := Crc_Generic)) configP05
      {| snd_counter := 0; rcv_counter := 0xFF; sent := [] |} historyP05 =
    Some (map (pair E2E_E_OK) [V_OK; V_NONEWDATA; V_OK; V_ERROR; V_OKSOMELOST; V_REPEATED;
                               V_WRONGSEQUENCE; V_OKSOMELOST], s').
Proof.
  assert (Hp : typedP05 configP05 /\ validP05 configP05 (Z.of_nat (length payloadP05)) /\
               bytes payloadP05)
    by (split; [apply configP05_typed |]; split; [apply payloadP05_valid | apply payloadP05_bytes]).
  destruct (p05_channel_refines (CRC := Crc_Generic) configP05 historyP05 {| Counter := 7 |}
              {| Status := E2E_P05STATUS_OK; CheckCounter := 7 |})
    as (ps & cs & s' & [= <-] & [= <-] & Hrun).
  - repeat apply Forall_cons_2; try apply Forall_nil_2; try exact (conj Hp I); try exact I.
    + exact (ex_intro _ payloadP05 Hp).
    + split; [exact Hp |]; split; [repeat constructor; vm_compute; congruence |].
      split; [left; discriminate |]; vm_compute; intuition congruence.
  - exists s'; exact Hrun.
Defined.

Lemma p05_masquerade_detected_witness :
  E2E_P05Check (CRC := Crc_Generic)
    (Some {| Offset := 8; DataLength := 64; DataID := 0x3412; MaxDeltaCounter := 3 |})
    (Some {| Status := E2E_P05STATUS_OK; CheckCounter := 4 |}) (Some protectedP05) 8 =
  Some (E2E_E_OK, Some {| Status := E2E_P05STATUS_ERROR; CheckCounter := 4 |}).
Proof.
  apply (p05_masquerade_detected (CRC := Crc_Generic) configP05 _ 5 payloadP05 protectedP05
           (Some {| Counter := 6 |}) {| Status := E2E_P05STATUS_OK; CheckCounter := 4 |}).
  - apply configP05_typed.
  - split; vm_compute; split; congruence.
  - reflexivity.
  - reflexivity.
  - apply payloadP05_valid.
  - apply payloadP05_bytes.
  - vm_compute; split; congruence.
  - vm_compute; reflexivity.
  - discriminate.
Defined.
