(* ===== verification/E2E_P06.v ===== *)
(** * E2E profile 6

    [safety_security/SafeLib/E2E/src/E2E_P06.c] and [inc/E2E_P06.h]: a header of
    five bytes at a configured offset, with a 16-bit CRC, the length and an
    eight-bit counter, every header byte with its bits in reverse order; the
    data identifier is not transmitted but enters the CRC. *)

From S2P Require Import Prelude CrcTheory Crc E2E E2E_Channel.

(** ** E2E_P06.h *)
Inductive E2E_P06CheckStatusType :=
| E2E_P06STATUS_OK
| E2E_P06STATUS_NONEWDATA
| E2E_P06STATUS_ERROR
| E2E_P06STATUS_REPEATED
| E2E_P06STATUS_OKSOMELOST
| E2E_P06STATUS_WRONGSEQUENCE.

Record E2E_P06ConfigType := {
  Offset : Z;
  MinDataLength : Z;
  MaxDataLength : Z;
  DataID : Z;
  MaxDeltaCounter : Z
}.

Record E2E_P06ProtectStateType := { Counter : Z }.

Record E2E_P06CheckStateType := { Status : E2E_P06CheckStatusType; CheckCounter : Z }.

(** ** E2E_P06.c *)
Definition MAX_P06_COUNTER_VALUE := 255.
Definition MAX_P06_DATA_LENGTH_IN_BITS := 8 * 4096.
Definition MIN_P06_DATA_LENGTH_IN_BITS := 8 * 5.

(** The conditions the two verification functions share. *)
Definition wrongLengthsP06 (Config : E2E_P06ConfigType) : bool :=
  (Config.(MinDataLength) <? MIN_P06_DATA_LENGTH_IN_BITS)
  || (Config.(MaxDataLength) <? MIN_P06_DATA_LENGTH_IN_BITS)
  || (Config.(MinDataLength) >? MAX_P06_DATA_LENGTH_IN_BITS)
  || (Config.(MaxDataLength) >? MAX_P06_DATA_LENGTH_IN_BITS)
  || (Config.(MinDataLength) >? Config.(MaxDataLength)).

Definition wrongLengthP06 (Config : E2E_P06ConfigType) (Length : Z) : bool :=
  (8 * Length <? Config.(MinDataLength)) || (8 * Length >? Config.(MaxDataLength)).

Definition wrongOffsetP06 (Config : E2E_P06ConfigType) (Length : Z) : bool :=
  negb (Config.(Offset) mod 8 =? 0)
  || (Config.(Offset) >? 8 * Length - MIN_P06_DATA_LENGTH_IN_BITS).

Definition verifyProtectInputsP06 (ConfigPtr : option E2E_P06ConfigType)
    (StatePtr : option E2E_P06ProtectStateType) (DataPtr : option (list Z)) (Length : Z) : Z :=
  match ConfigPtr, StatePtr, DataPtr with
  | Some Config, Some _, Some _ =>
      if wrongLengthsP06 Config then E2E_E_INPUTERR_WRONG
      else if wrongLengthP06 Config Length then E2E_E_INPUTERR_WRONG
      else if wrongOffsetP06 Config Length then E2E_E_INPUTERR_WRONG
      else E2E_E_OK
  | _, _, _ => E2E_E_INPUTERR_NULL
  end.

(** [result |= (value & 0x01u) << 7; ...], bit by bit; [result] is a [uint8]. *)
Definition changeBitEndiannessP06 (value : Z) : Z :=
  let result := 0 in
  let result := u8 (Z.lor result (Z.shiftl (Z.land value 0x01) 7)) in
  let result := u8 (Z.lor result (Z.shiftl (Z.land value 0x02) 5)) in
  let result := u8 (Z.lor result (Z.shiftl (Z.land value 0x04) 3)) in
  let result := u8 (Z.lor result (Z.shiftl (Z.land value 0x08) 1)) in
  let result := u8 (Z.lor result (Z.shiftr (Z.land value 0x10) 1)) in
  let result := u8 (Z.lor result (Z.shiftr (Z.land value 0x20) 3)) in
  let result := u8 (Z.lor result (Z.shiftr (Z.land value 0x40) 5)) in
  let result := u8 (Z.lor result (Z.shiftr (Z.land value 0x80) 7)) in
  result.

Definition computeOffsetP06 (Config : E2E_P06ConfigType) : Z := Config.(Offset) / 8.

Definition writeLengthP06 (Data : list Z) (offset Length : Z) : option (list Z) :=
  Data ← store Data (offset + 2)
    (changeBitEndiannessP06 (Z.land (Z.shiftr (Z.land Length 0xFF00) 8) 0xFF));
  store Data (offset + 3) (changeBitEndiannessP06 (Z.land (Z.land Length 0x00FF) 0xFF)).

Definition writeCounterP06 (Data : list Z) (offset : Z) (State : E2E_P06ProtectStateType)
  : option (list Z) :=
  store Data (offset + 4)
    (changeBitEndiannessP06 (Z.land (Z.land State.(Counter) 0xFF) 0xFF)).

Definition writeCRCP06 (Data : list Z) (offset crc : Z) : option (list Z) :=
  Data ← store Data offset
    (changeBitEndiannessP06 (Z.land (Z.shiftr (Z.land crc 0xFF00) 8) 0xFF));
  store Data (offset + 1) (changeBitEndiannessP06 (Z.land (Z.land crc 0x00FF) 0xFF)).

Definition incrementCounterP06 (State : E2E_P06ProtectStateType) : E2E_P06ProtectStateType :=
  {| Counter := (State.(Counter) + 1) mod (MAX_P06_COUNTER_VALUE + 1) |}.

(** The return value and [*NewDataAvailable]. *)
Definition verifyCheckInputsP06 (ConfigPtr : option E2E_P06ConfigType)
    (StatePtr : option E2E_P06CheckStateType) (DataPtr : option (list Z)) (Length : Z)
  : Z * bool :=
  match ConfigPtr, StatePtr with
  | Some Config, Some _ =>
      if wrongLengthsP06 Config then (E2E_E_INPUTERR_WRONG, false)
      else match DataPtr with
      | None => if Length =? 0 then (E2E_E_OK, false) else (E2E_E_INPUTERR_WRONG, false)
      | Some _ =>
          if Length =? 0 then (E2E_E_INPUTERR_WRONG, false)
          else if wrongLengthP06 Config Length then (E2E_E_INPUTERR_WRONG, false)
          else if wrongOffsetP06 Config Length then (E2E_E_INPUTERR_WRONG, false)
          else (E2E_E_OK, true)
      end
  | _, _ => (E2E_E_INPUTERR_NULL, false)
  end.

Definition readLengthP06 (Data : list Z) (offset : Z) : option Z :=
  b1 ← load Data (offset + 2);
  b0 ← load Data (offset + 3);
  Some (Z.lor (Z.lor 0 (Z.land (Z.shiftl (changeBitEndiannessP06 b1) 8) 0xFF00))
              (Z.land (changeBitEndiannessP06 b0) 0x00FF)).

Definition readCounterP06 (Data : list Z) (offset : Z) : option Z :=
  b ← load Data (offset + 4);
  Some (Z.lor 0 (Z.land (changeBitEndiannessP06 b) 0xFF)).

Definition readCRCP06 (Data : list Z) (offset : Z) : option Z :=
  b1 ← load Data offset;
  b0 ← load Data (offset + 1);
  Some (Z.lor (Z.lor 0 (Z.land (Z.shiftl (changeBitEndiannessP06 b1) 8) 0xFF00))
              (Z.land (changeBitEndiannessP06 b0) 0x00FF)).

Definition calculateDeltaCounterP06 (receivedCounter lastValidCounter : Z) : Z :=
  if receivedCounter >=? lastValidCounter
  then u8 (receivedCounter - lastValidCounter)
  else u8 (u32 (MAX_P06_COUNTER_VALUE + 1 + receivedCounter - lastValidCounter)).

Definition doChecksP06 (State : E2E_P06CheckStateType) (NewDataAvailable : bool)
    (Config : E2E_P06ConfigType)
    (receivedCRC computedCRC receivedLength Length receivedCounter : Z)
  : E2E_P06CheckStateType :=
  if negb NewDataAvailable
  then {| Status := E2E_P06STATUS_NONEWDATA; CheckCounter := State.(CheckCounter) |}
  else if negb (receivedCRC =? computedCRC) || negb (receivedLength =? Length)
  then {| Status := E2E_P06STATUS_ERROR; CheckCounter := State.(CheckCounter) |}
  else
    let deltaCounter := calculateDeltaCounterP06 receivedCounter State.(CheckCounter) in
    {| Status :=
         if deltaCounter >? Config.(MaxDeltaCounter) then E2E_P06STATUS_WRONGSEQUENCE
         else if deltaCounter =? 0 then E2E_P06STATUS_REPEATED
         else if deltaCounter =? 1 then E2E_P06STATUS_OK
         else E2E_P06STATUS_OKSOMELOST;
       CheckCounter := receivedCounter |}.

Definition E2E_P06ProtectInit (StatePtr : option E2E_P06ProtectStateType)
  : Z * option E2E_P06ProtectStateType :=
  match StatePtr with
  | None => (E2E_E_INPUTERR_NULL, None)
  | Some _ => (E2E_E_OK, Some {| Counter := 0 |})
  end.

Definition E2E_P06CheckInit (StatePtr : option E2E_P06CheckStateType)
  : Z * option E2E_P06CheckStateType :=
  match StatePtr with
  | None => (E2E_E_INPUTERR_NULL, None)
  | Some _ => (E2E_E_OK, Some {| Status := E2E_P06STATUS_ERROR; CheckCounter := 0xFF |})
  end.

Definition E2E_P06MapStatusToSM (CheckReturn : Z) (Status : E2E_P06CheckStatusType)
  : E2E_PCheckStatusType :=
  if CheckReturn =? E2E_E_OK then
    match Status with
    | E2E_P06STATUS_OK | E2E_P06STATUS_OKSOMELOST => E2E_P_OK
    | E2E_P06STATUS_REPEATED => E2E_P_REPEATED
    | E2E_P06STATUS_NONEWDATA => E2E_P_NONEWDATA
    | E2E_P06STATUS_WRONGSEQUENCE => E2E_P_WRONGSEQUENCE
    | _ => E2E_P_ERROR
    end
  else E2E_P_ERROR.

Section Profile6.
Context `{CRC : CrcLib}.

Definition computeCRCP06 (Data : list Z) (offset dataId Length : Z) : option Z :=
  let lengthBytes := u16 (Length - offset - 2) in
  crc ←
    (if offset >? 0 then
       crc ← crc16 (Some Data) offset 0xFFFF true;
       crc16 (Some (ptr_at Data (offset + 2))) lengthBytes crc false
     else crc16 (Some (ptr_at Data (offset + 2))) lengthBytes 0xFFFF true);
  crc ← crc16 (Some [Z.land (Z.shiftr dataId 8) 0xFF]) 1 crc false;
  crc16 (Some [Z.land dataId 0xFF]) 1 crc false.

Definition E2E_P06Protect (ConfigPtr : option E2E_P06ConfigType)
    (StatePtr : option E2E_P06ProtectStateType) (DataPtr : option (list Z)) (Length : Z)
  : option (Z * option E2E_P06ProtectStateType * option (list Z)) :=
  let returnValue := verifyProtectInputsP06 ConfigPtr StatePtr DataPtr Length in
  match ConfigPtr, StatePtr, DataPtr with
  | Some Config, Some State, Some Data =>
      if returnValue =? E2E_E_OK then
        let offset := computeOffsetP06 Config in
        Data ← writeLengthP06 Data offset Length;
        Data ← writeCounterP06 Data offset State;
        crc ← computeCRCP06 Data offset Config.(DataID) Length;
        Data ← writeCRCP06 Data offset crc;
        Some (returnValue, Some (incrementCounterP06 State), Some Data)
      else Some (returnValue, StatePtr, DataPtr)
  | _, _, _ => Some (returnValue, StatePtr, DataPtr)
  end.

Definition E2E_P06Check (ConfigPtr : option E2E_P06ConfigType)
    (StatePtr : option E2E_P06CheckStateType) (DataPtr : option (list Z)) (Length : Z)
  : option (Z * option E2E_P06CheckStateType) :=
  let '(returnValue, NewDataAvailable) :=
    verifyCheckInputsP06 ConfigPtr StatePtr DataPtr Length in
  match ConfigPtr, StatePtr with
  | Some Config, Some State =>
      if returnValue =? E2E_E_OK then
        match NewDataAvailable, DataPtr with
        | true, Some Data =>
            let offset := computeOffsetP06 Config in
            receivedLength ← readLengthP06 Data offset;
            receivedCounter ← readCounterP06 Data offset;
            receivedCRC ← readCRCP06 Data offset;
            computedCRC ← computeCRCP06 Data offset Config.(DataID) Length;
            Some (returnValue,
                  Some (doChecksP06 State true Config receivedCRC computedCRC
                          receivedLength Length receivedCounter))
        | _, _ => Some (returnValue, Some (doChecksP06 State false Config 0 0 0 Length 0))
        end
      else Some (returnValue, StatePtr)
  | _, _ => Some (returnValue, StatePtr)
  end.
End Profile6.

(** ** Facts *)
Record typedP06 (c : E2E_P06ConfigType) : Prop := {
  tp_Offset : is_u16 c.(Offset);
  tp_MinDataLength : is_u16 c.(MinDataLength);
  tp_MaxDataLength : is_u16 c.(MaxDataLength);
  tp_DataID : is_u16 c.(DataID);
  tp_MaxDeltaCounter : is_u8 c.(MaxDeltaCounter)
}.

(** A configuration and a length the verification functions accept. *)
Definition validP06 (c : E2E_P06ConfigType) (len : Z) : Prop :=
  wrongLengthsP06 c = false /\ wrongLengthP06 c len = false /\ wrongOffsetP06 c len = false.

Lemma validP06_bounds c len :
  typedP06 c -> validP06 c len ->
  0 <= computeOffsetP06 c /\ computeOffsetP06 c + 5 <= len <= 4096.
Proof.
  intros [[Ho _] _ _ _ _] (H1 & H2 & H3).
  unfold wrongLengthsP06, wrongLengthP06, wrongOffsetP06, MIN_P06_DATA_LENGTH_IN_BITS,
    MAX_P06_DATA_LENGTH_IN_BITS, computeOffsetP06 in *.
  rewrite !orb_false_iff in *; Z.div_mod_to_equations; lia.
Qed.

Lemma calculateDeltaCounterP06_eq r l :
  is_u8 r -> is_u8 l -> calculateDeltaCounterP06 r l = (r - l) mod 256.
Proof.
  intros Hr Hl; unfold calculateDeltaCounterP06, u8, u32, MAX_P06_COUNTER_VALUE, in_width in *.
  rewrite Z.geb_leb; pose proof (delta_mod 256 r l) as E.
  destruct (Z.leb_spec l r); rewrite <- E by lia; [apply Z.mod_small; lia |].
  rewrite (Z.mod_small _ (2 ^ 32)) by lia; apply Z.mod_small; lia.
Qed.

(** *** The bit reversal *)
Lemma changeBitEndianness_spec :
  forall b, is_u8 b ->
    is_u8 (changeBitEndiannessP06 b) /\ changeBitEndiannessP06 (changeBitEndiannessP06 b) = b.
Proof.
  intros b Hb; split; [apply in_width_mod; lia |].
  apply Z.eqb_eq.
  by apply (all_bytes_spec (fun b => changeBitEndiannessP06 (changeBitEndiannessP06 b) =? b)).
Qed.

Lemma rev_range b : is_u8 b -> is_u8 (changeBitEndiannessP06 b).
Proof. intros; by apply changeBitEndianness_spec. Qed.

Lemma rev_rev b : is_u8 b -> changeBitEndiannessP06 (changeBitEndiannessP06 b) = b.
Proof. intros; by apply changeBitEndianness_spec. Qed.
#[local] Hint Resolve rev_range : mem.

(** Reading two reversed bytes. *)
Lemma word16_rev x : is_u16 x ->
  word16 (changeBitEndiannessP06 (changeBitEndiannessP06 (byte1 x)))
         (changeBitEndiannessP06 (changeBitEndiannessP06 (byte0 x))) = x.
Proof. intros; rewrite !rev_rev by auto with mem; by apply word16_bytes. Qed.

Lemma word16_rev_inj a b a' b' :
  bytes [a; b; a'; b'] ->
  word16 (changeBitEndiannessP06 a) (changeBitEndiannessP06 b) =
  word16 (changeBitEndiannessP06 a') (changeBitEndiannessP06 b') -> a = a' /\ b = b'.
Proof.
  intros Hb E; split_bytes Hb.
  apply word16_inj in E as [E1 E2]; [| repeat (constructor; auto with mem)].
  rewrite <- (rev_rev a), <- (rev_rev b), <- (rev_rev a'), <- (rev_rev b') by done.
  by rewrite E1, E2.
Qed.

(** Conversion unfolds everything else first. *)
#[local] Strategy 1000 [changeBitEndiannessP06].

(** *** The header *)
Definition tailP06 (len k : Z) : list Z :=
  [changeBitEndiannessP06 (byte1 len); changeBitEndiannessP06 (byte0 len);
   changeBitEndiannessP06 k].

Definition crc_revP06 (crc : Z) : list Z :=
  [changeBitEndiannessP06 (byte1 crc); changeBitEndiannessP06 (byte0 crc)].

Lemma tailP06_bytes len k : is_u8 k -> bytes (tailP06 len k).
Proof. intros; repeat (constructor; auto with mem). Qed.

Lemma crc_revP06_bytes crc : bytes (crc_revP06 crc).
Proof. repeat (constructor; auto with mem). Qed.

Lemma writesP06_eq k p off :
  0 <= off -> off + 5 <= Z.of_nat (length p) -> is_u8 k ->
  (d ← writeLengthP06 p off (Z.of_nat (length p)); writeCounterP06 d off {| Counter := k |})
  = Some (patch p (Z.to_nat (off + 2)) (tailP06 (Z.of_nat (length p)) k)).
Proof.
  intros Ho Hl Hk; set (len := Z.of_nat (length p)).
  unfold writeLengthP06; rewrite store2_patch by lia; cbn [mbind option_bind].
  unfold writeCounterP06; cbn [Counter]; rewrite !(land_255 k Hk).
  rewrite store1_patch by (rewrite ?length_patch; cbn; lia).
  replace (Z.to_nat (off + 4)) with (Z.to_nat (off + 2) +
    length [changeBitEndiannessP06 (byte1 len); changeBitEndiannessP06 (byte0 len)])%nat
    by (cbn; lia).
  by rewrite patch_patch by (cbn; lia).
Qed.

Lemma readsP06_header len k crc p off :
  0 <= off -> off + 5 <= Z.of_nat (length p) -> is_u16 len -> is_u8 k -> is_u16 crc ->
  let d := patch p (Z.to_nat off) (crc_revP06 crc ++ tailP06 len k) in
  readLengthP06 d off = Some len /\ readCounterP06 d off = Some k /\
  readCRCP06 d off = Some crc.
Proof.
  intros Ho Hl H1 H2 H3 d.
  assert (L : forall j, 0 <= j < 5 -> load d (off + j) = load (crc_revP06 crc ++ tailP06 len k) j)
    by (intros; apply load_header; cbn; lia).
  assert (L0 := L 0); rewrite Z.add_0_r in L0.
  unfold readLengthP06, readCounterP06, readCRCP06; rewrite L0, !L by lia; split_and!.
  - exact (f_equal Some (word16_rev len H1)).
  - change (Some (Z.lor 0 (Z.land (changeBitEndiannessP06 (changeBitEndiannessP06 k)) 0xFF)) = Some k).
    by rewrite Z.lor_0_l, rev_rev, land_255.
  - exact (f_equal Some (word16_rev crc H3)).
Qed.

Section Profile6Facts.
Context `{CRC : CrcLib}.

Definition idP06 (c : E2E_P06ConfigType) : list Z :=
  [Z.land (Z.shiftr c.(DataID) 8) 0xFF; Z.land c.(DataID) 0xFF].

Definition crcP06 (c : E2E_P06ConfigType) (data : list Z) (off len : Z) : Z :=
  crc_from (S := crc16_ok) 0xFFFF (around data off 2 len ++ idP06 c).

Lemma idP06_bytes c : bytes (idP06 c).
Proof using Type. unfold idP06; repeat (constructor; auto with mem). Qed.

Lemma computeCRCP06_eq c data off len :
  bytes data -> 0 <= off -> off + 5 <= len -> len <= Z.of_nat (length data) -> len < 2 ^ 16 ->
  computeCRCP06 data off c.(DataID) len = Some (crcP06 c data off len).
Proof using Type.
  intros; unfold computeCRCP06; cbv zeta.
  rewrite crc16_around by (done || lia); cbn [mbind option_bind].
  rewrite calc_byte; [| done | by apply bytes_around | auto with mem].
  cbn [mbind option_bind].
  rewrite calc_byte; [| done | apply Forall_app_2; [by apply bytes_around |] | auto with mem].
  - by rewrite <- app_assoc.
  - repeat (constructor; auto with mem).
Qed.

Lemma crcP06_range c data off len : bytes data -> is_u16 (crcP06 c data off len).
Proof using Type.
  intros; apply crc_from_range; [done | apply Forall_app_2].
  - by apply bytes_around.
  - apply idP06_bytes.
Qed.

(** The data as [E2E_P06Protect] leaves it. *)
Record frameP06 (c : E2E_P06ConfigType) (k : Z) (frame : list Z) : Prop := {
  fr_typed : typedP06 c;
  fr_valid : validP06 c (Z.of_nat (length frame));
  fr_bytes : bytes frame;
  fr_length : readLengthP06 frame (computeOffsetP06 c) = Some (Z.of_nat (length frame));
  fr_counter : readCounterP06 frame (computeOffsetP06 c) = Some k;
  fr_crc : readCRCP06 frame (computeOffsetP06 c) =
    Some (crcP06 c frame (computeOffsetP06 c) (Z.of_nat (length frame)))
}.

Lemma protectP06_frame c k p :
  typedP06 c -> validP06 c (Z.of_nat (length p)) -> bytes p -> is_u8 k ->
  exists frame,
    E2E_P06Protect (Some c) (Some {| Counter := k |}) (Some p) (Z.of_nat (length p)) =
      Some (E2E_E_OK, Some {| Counter := (k + 1) mod 256 |}, Some frame) /\
    frameP06 c k frame /\ length frame = length p.
Proof using Type.
  intros Ht Hv Hb Hk; pose proof (validP06_bounds c _ Ht Hv) as Hbd.
  pose proof Hv as (V1 & V2 & V3).
  unfold E2E_P06Protect, verifyProtectInputsP06; rewrite V1, V2, V3.
  cbn [Z.eqb E2E_E_OK]; set (off := computeOffsetP06 c) in *.
  pose proof (writesP06_eq k p off ltac:(lia) ltac:(lia) Hk) as Hw.
  destruct (writeLengthP06 p off _) as [d0 |]; cbn [mbind option_bind] in *; [| done].
  rewrite Hw; cbn [mbind option_bind]; set (d1 := patch p _ _); set (len := Z.of_nat _) in *.
  assert (H1 : length d1 = length p) by (apply length_patch; cbn; lia).
  assert (Hd1 : bytes d1) by (apply bytes_patch; [done | by apply tailP06_bytes]).
  rewrite computeCRCP06_eq by (done || lia); cbn [mbind option_bind].
  set (crc := crcP06 c d1 off len).
  unfold writeCRCP06; rewrite store2_patch by lia; cbn [mbind option_bind].
  change (patch d1 _ _) with (patch d1 (Z.to_nat off) (crc_revP06 crc)).
  set (d2 := patch d1 _ _).
  assert (H2 : length d2 = length p) by (rewrite <- H1; apply length_patch; cbn; lia).
  assert (E2 : d2 = patch p (Z.to_nat off) (crc_revP06 crc ++ tailP06 len k)).
  { apply list_eq; intros m; unfold d2, d1.
    rewrite !lookup_patch by (rewrite ?length_patch; cbn; lia).
    rewrite length_app; cbn [length tailP06 crc_revP06 Nat.add].
    repeat destruct (decide _); try lia; [by rewrite lookup_app_l by (cbn; lia) | | done].
    rewrite lookup_app_r by (cbn; lia); f_equal; cbn; lia. }
  destruct (readsP06_header len k crc p off) as (R1 & R2 & R3);
    [lia | lia | unfold len; in_range | done | by apply crcP06_range |].
  rewrite <- E2 in R1, R2, R3.
  exists d2; split; [done |]; split; [| done]; split; rewrite ?H2; fold off len; try done.
  - apply bytes_patch; [done | apply crc_revP06_bytes].
  - rewrite R3; unfold crc, crcP06, d2; rewrite around_patch_field; cbn; (done || lia).
Qed.
End Profile6Facts.

(** ** The profile keeps the promise of [CounterProfile] *)
Definition verdictP06 (s : E2E_P06CheckStatusType) : Verdict :=
  match s with
  | E2E_P06STATUS_OK => V_OK
  | E2E_P06STATUS_NONEWDATA => V_NONEWDATA
  | E2E_P06STATUS_ERROR => V_ERROR
  | E2E_P06STATUS_REPEATED => V_REPEATED
  | E2E_P06STATUS_OKSOMELOST => V_OKSOMELOST
  | E2E_P06STATUS_WRONGSEQUENCE => V_WRONGSEQUENCE
  end.

(** The CRC field determines its bytes. *)
Lemma readCRCP06_inj d d' off x :
  bytes d -> bytes d' -> readCRCP06 d off = Some x -> readCRCP06 d' off = Some x ->
  forall j, off <= j < off + 2 -> load d j = load d' j.
Proof.
  unfold readCRCP06; intros Hd Hd' E E'.
  destruct (load d off) as [b1 |] eqn:L1; cbn [mbind option_bind] in E; [| done].
  destruct (load d (off + 1)) as [b0 |] eqn:L0; cbn [mbind option_bind] in E; [| done].
  destruct (load d' off) as [b1' |] eqn:L1'; cbn [mbind option_bind] in E'; [| done].
  destruct (load d' (off + 1)) as [b0' |] eqn:L0'; cbn [mbind option_bind] in E'; [| done].
  injection E as <-; injection E' as E'.
  apply word16_rev_inj in E' as [-> ->]; [| repeat (constructor; eauto with mem)].
  intros j Hj; assert (j = off \/ j = off + 1) as [-> | ->] by lia; congruence.
Qed.

Lemma readsP06_total d off :
  0 <= off -> off + 5 <= Z.of_nat (length d) ->
  is_Some (readLengthP06 d off) /\ is_Some (readCounterP06 d off) /\ is_Some (readCRCP06 d off).
Proof.
  intros H0 Hlen; unfold readLengthP06, readCounterP06, readCRCP06.
  repeat match goal with |- context [load d ?i ≫= _] =>
    let v := fresh in let E := fresh in
    destruct (load_in d i) as [v E]; [lia |]; rewrite !E; cbn [mbind option_bind] end.
  by split_and!; eexists.
Qed.

Section Profile6Channel.
Context `{CRC : CrcLib}.

Definition sendP06 (c : E2E_P06ConfigType) (k : Z) (p : list Z) : option (Z * Z * list Z) :=
  '(ret, s, d) ← E2E_P06Protect (Some c) (Some {| Counter := k |}) (Some p)
                   (Z.of_nat (length p));
  s ← s; d ← d; Some (ret, s.(Counter), d).

(** The old status is not read by the check. *)
Definition receiveP06 (c : E2E_P06ConfigType) (k : Z) (d : option (list Z))
  : option (Z * Verdict * Z) :=
  '(ret, s) ← E2E_P06Check (Some c)
    (Some {| Status := E2E_P06STATUS_ERROR; CheckCounter := k |}) d
    (match d with None => 0 | Some d => Z.of_nat (length d) end);
  s ← s; Some (ret, verdictP06 s.(Status), s.(CheckCounter)).

Lemma checkP06_step c st d len rl rc rcrc :
  typedP06 c -> validP06 c len -> bytes d -> len <= Z.of_nat (length d) ->
  let off := computeOffsetP06 c in
  readLengthP06 d off = Some rl -> readCounterP06 d off = Some rc ->
  readCRCP06 d off = Some rcrc ->
  E2E_P06Check (Some c) (Some st) (Some d) len =
    Some (E2E_E_OK,
      Some (doChecksP06 st true c rcrc (crcP06 c d off len) rl len rc)).
Proof using Type.
  intros Ht Hv Hb Hl off H1 H2 H3; pose proof (validP06_bounds c _ Ht Hv) as Hbd.
  destruct Hv as (V1 & V2 & V3); unfold E2E_P06Check, verifyCheckInputsP06.
  rewrite V1, V2, V3; destruct (Z.eqb_spec len 0); [lia |].
  cbn [Z.eqb E2E_E_OK]; fold off in Hbd |- *.
  rewrite H1; cbn [mbind option_bind]; rewrite H2; cbn [mbind option_bind].
  rewrite H3; cbn [mbind option_bind].
  by rewrite computeCRCP06_eq by (done || lia).
Qed.

Lemma receiveP06_frame c k0 k frame :
  frameP06 c k frame -> is_u8 k0 -> is_u8 k ->
  receiveP06 c k0 (Some frame) = Some (E2E_E_OK,
    (let d := (k - k0) mod 256 in
     if d >? c.(MaxDeltaCounter) then V_WRONGSEQUENCE
     else if d =? 0 then V_REPEATED
     else if d =? 1 then V_OK else V_OKSOMELOST), k).
Proof using Type.
  intros [Ht Hv Hb R0 R1 R2] Hk0 Hk; unfold receiveP06.
  rewrite (checkP06_step c _ frame _ _ _ _ Ht Hv Hb ltac:(lia) R0 R1 R2).
  cbn [mbind option_bind]; unfold doChecksP06; rewrite !Z.eqb_refl.
  cbn [negb orb mbind option_bind Status CheckCounter]; cbv zeta.
  rewrite calculateDeltaCounterP06_eq by done.
  destruct (_ >? _); [done |]; destruct (_ =? 0); [done |]; by destruct (_ =? 1).
Qed.

Lemma receiveP06_burst c k0 k frame i mask :
  frameP06 c k frame ->
  burst_at (computeOffsetP06 c) 2 (Z.of_nat (length frame)) i mask ->
  receiveP06 c k0 (Some (flip frame i mask)) = Some (E2E_E_OK, V_ERROR, k0).
Proof using Type.
  intros [Ht Hv Hb R0 R1 R2] Hburst; pose proof (validP06_bounds c _ Ht Hv) as Hbd.
  pose proof Hburst as (Hm & _ & _ & Hwin).
  assert (Hl : length (flip frame i mask) = length frame) by (apply length_flip; lia).
  assert (Hbad : bytes (flip frame i mask)) by (by apply bytes_flip).
  destruct (readsP06_total (flip frame i mask) (computeOffsetP06 c))
    as ([rl Q0] & [rc Q1] & [x Q2]); [lia | lia |].
  unfold receiveP06; rewrite Hl.
  rewrite (checkP06_step c _ _ _ _ _ _ Ht Hv Hbad ltac:(lia) Q0 Q1 Q2).
  cbn [mbind option_bind]; unfold doChecksP06.
  rewrite (proj2 (Z.eqb_neq x _)); [done |]; unfold crcP06 in *.
  destruct (burst_cases (S := crc16_ok) 0xFFFF (idP06 c) frame (computeOffsetP06 c) 2
              (Z.of_nat (length frame)) i mask) as [[Hne Hsame] | [Hsame (j & Hj & Hne)]];
    try done; try lia; [apply idP06_bytes | |].
  - assert (readCRCP06 (flip frame i mask) (computeOffsetP06 c)
            = readCRCP06 frame (computeOffsetP06 c)) as E
      by (unfold readCRCP06; by rewrite !Hsame by lia).
    congruence.
  - rewrite Hsame; intros ->.
    by apply Hne, (readCRCP06_inj _ _ (computeOffsetP06 c) _ Hbad Hb Q2 R2).
Qed.

#[export, program] Instance Profile6 : CounterProfile E2E_P06ConfigType := {|
  Period := 256;
  tolerance := MaxDeltaCounter;
  crc_at := computeOffsetP06;
  crc_size := 2;
  payload_fit c p := typedP06 c /\ validP06 c (Z.of_nat (length p)) /\ bytes p;
  frame_of := frameP06;
  send := sendP06;
  receive := receiveP06
|}.
Next Obligation. done. Qed.
Next Obligation. intros c k frame [Ht _ _ _ _ _]; apply Ht. Qed.
Next Obligation.
  intros c k p (Ht & Hv & Hb) Hk; unfold sendP06.
  by destruct (protectP06_frame c k p Ht Hv Hb Hk) as (frame & -> & Hf & Hl); exists frame.
Qed.
Next Obligation. intros; by apply receiveP06_frame. Qed.
Next Obligation. intros; by eapply receiveP06_burst. Qed.
Next Obligation.
  intros c k0 (p & Ht & (V1 & _) & _); unfold receiveP06, E2E_P06Check, verifyCheckInputsP06.
  by rewrite V1.
Qed.

(** ** Theorems *)

(** C27. Profile 6 from initialisation over an unreliable channel.  The channel keeps
    what was sent and delivers any of it at any time, in any order and as often as
    it likes, so that data is lost, delayed, overtaken and repeated, each data intact or
    hit by an error burst within at most two consecutive bytes that lie all outside
    or all inside the CRC field.  Then, for a configuration and lengths of data that the checks accept,
    every call of [E2E_P06Check] returns [E2E_E_OK] and reports the status of an
    abstract receiver that numbers the data sent and knows which one it took over last:
    ERROR for data hit by a burst, which it does not take over, and for the others,
    by the distance of the two numbers modulo the period 256 of the counter, REPEATED
    for 0, OK for 1, OKSOMELOST up to [MaxDeltaCounter] and WRONGSEQUENCE beyond;
    NONEWDATA when there is no data. *)
Theorem p06_channel_refines c es s0 st0 :
  Forall (event_ok c) es ->
  exists ps cs s',
    E2E_P06ProtectInit (Some s0) = (E2E_E_OK, Some ps) /\
    E2E_P06CheckInit (Some st0) = (E2E_E_OK, Some cs) /\
    run c {| snd_counter := ps.(Counter); rcv_counter := cs.(CheckCounter); sent := [] |} es
      = Some (map (pair E2E_E_OK) (fst (ideal_run c ideal_start es)), s').
Proof using Type.
  intros Hes; destruct (run_refines c start _ es (start_simulates c) Hes) as (s' & Hrun & _).
  eexists _, _, s'; split; [done |]; split; [done |]; exact Hrun.
Qed.

(** Data of profile 6 whose length is not the one it was protected with, or,
    at the same length, that was protected for another identifier (which is
    not transmitted), is rejected: the status is [ERROR] and the receiver
    keeps its counter. *)
Theorem p06_misdirected_detected c c' k p frame s st len :
  typedP06 c -> typedP06 c' -> c'.(Offset) = c.(Offset) ->
  validP06 c (Z.of_nat (length p)) -> bytes p -> is_u8 k ->
  E2E_P06Protect (Some c) (Some {| Counter := k |}) (Some p) (Z.of_nat (length p)) =
    Some (E2E_E_OK, s, Some frame) ->
  validP06 c' len -> len <= Z.of_nat (length p) ->
  c'.(DataID) <> c.(DataID) \/ len <> Z.of_nat (length p) ->
  E2E_P06Check (Some c') (Some st) (Some frame) len =
    Some (E2E_E_OK, Some {| Status := E2E_P06STATUS_ERROR;
                            CheckCounter := st.(CheckCounter) |}).
Proof using Type.
  intros Ht Ht' Ho Hv Hb Hk Hpr Hv' Hlen Hdiff.
  destruct (protectP06_frame c k p Ht Hv Hb Hk) as (frame' & Hpr' & Hf & Hl).
  assert (frame' = frame) as -> by congruence; destruct Hf as [_ _ Hfb R0 R1 R2].
  assert (E : computeOffsetP06 c' = computeOffsetP06 c) by (unfold computeOffsetP06; by rewrite Ho).
  rewrite <- E in R0, R1, R2.
  rewrite (checkP06_step c' st frame len _ _ _ Ht' Hv' Hfb ltac:(lia) R0 R1 R2).
  unfold doChecksP06; cbn [negb]; rewrite Hl.
  destruct (decide (len = Z.of_nat (length p))) as [-> | Hnl].
  2: { rewrite (proj2 (Z.eqb_neq (Z.of_nat (length p)) len)), orb_true_r; [done | lia]. }
  rewrite (proj2 (Z.eqb_neq _ _)); [done |]; unfold crcP06.
  apply crc16_wrong_id; [by apply bytes_around | apply idP06_bytes .. |].
  intros [= E1 E2]; destruct Hdiff as [Hne |]; [| done].
  apply Hne; symmetry; by apply id_bytes_inj; [apply Ht | apply Ht' | |].
Qed.
End Profile6Channel.

(** ** Witnesses *)
Definition configP06 : E2E_P06ConfigType := {|
  Offset := 8; MinDataLength := 48; MaxDataLength := 128; DataID := 0x1234;
  MaxDeltaCounter := 3
|}.

Definition payloadP06 : list Z := [0x11; 0; 0; 0; 0; 0; 0x44; 0xFF].
Definition protectedP06 : list Z := [0x11; 0xC0; 0x8E; 0; 0x10; 0xA0; 0x44; 0xFF].

Lemma configP06_typed : typedP06 configP06.
Proof. split; vm_compute; split; congruence. Qed.

Lemma payloadP06_bytes : bytes payloadP06.
Proof. repeat constructor; vm_compute; congruence. Qed.

Lemma payloadP06_valid : validP06 configP06 8.
Proof. split; [| split]; reflexivity. Qed.

(** Two data arrive, one is delayed, one is hit by a burst; the next one arrives, is repeated, and is followed by the delayed one. *)
Definition historyP06 : list Event :=
  [Send payloadP06 Intact; Deliver 0; Quiet; Send payloadP06 Intact; Deliver 1; Send payloadP06 Intact;
   Send payloadP06 (Corrupted 1 [0x80; 0x01]); Deliver 3; Send payloadP06 Intact; Deliver 4; Deliver 4;
   Deliver 2; Send payloadP06 Intact; Deliver 5].

Lemma p06_channel_refines_witness :
  exists s',
    run (CP := Profile6 (CRC := Crc_Generic)) configP06
      {| snd_counter := 0; rcv_counter := 0xFF; sent := [] |} historyP06 =
    Some (map (pair E2E_E_OK) [V_OK; V_NONEWDATA; V_OK; V_ERROR; V_OKSOMELOST; V_REPEATED;
                               V_WRONGSEQUENCE; V_OKSOMELOST], s').
Proof.
  assert (Hp : typedP06 configP06 /\ validP06 configP06 (Z.of_nat (length payloadP06)) /\
               bytes payloadP06)
    by (split; [apply configP06_typed |]; split; [apply payloadP06_valid | apply payloadP06_bytes]).
  destruct (p06_channel_refines (CRC := Crc_Generic) configP06 historyP06 {| Counter := 7 |}
              {| Status := E2E_P06STATUS_OK; CheckCounter := 7 |})
    as (ps & cs & s' & [= <-] & [= <-] & Hrun).
  - repeat apply Forall_cons_2; try apply Forall_nil_2; try exact (conj Hp I); try exact I.
    + exact (ex_intro _ payloadP06 Hp).
    + split; [exact Hp |]; split; [repeat constructor; vm_compute; congruence |].
      split; [left; discriminate |]; vm_compute; intuition congruence.
  - exists s'; exact Hrun.
Defined.

Lemma p06_misdirected_detected_witness :
  E2E_P06Check (CRC := Crc_Generic)
    (Some {| Offset := 8; MinDataLength := 48; MaxDataLength := 128; DataID := 0x3412;
             MaxDeltaCounter := 3 |})
    (Some {| Status := E2E_P06STATUS_OK; CheckCounter := 4 |}) (Some protectedP06) 8 =
  Some (E2E_E_OK, Some {| Status := E2E_P06STATUS_ERROR; CheckCounter := 4 |}).
Proof.
  apply (p06_misdirected_detected (CRC := Crc_Generic) configP06 _ 5 payloadP06 protectedP06
           (Some {| Counter := 6 |}) {| Status := E2E_P06STATUS_OK; CheckCounter := 4 |} 8).
  - apply configP06_typed.
  - split; vm_compute; split; congruence.
  - reflexivity.
  - apply payloadP06_valid.
  - apply payloadP06_bytes.
  - vm_compute; split; congruence.
  - vm_compute; reflexivity.
  - split; [| split]; reflexivity.
  - vm_compute; congruence.
  - left; discriminate.
Defined.
