(* ===== verification/E2E_SM.v ===== *)
(** * The E2E state machine

    [safety_security/SafeLib/E2E/src/E2E_SM.c] and [inc/E2E_SM.h]: the last
    [WindowSize] statuses of a profile, kept in a ring buffer supplied by the
    caller, decide whether the data of a communication channel may be used.  The
    theorems refine the ring buffer to the sliding window it stands for. *)

From S2P Require Import Prelude E2E.

(** ** E2E_SM.h *)
Inductive E2E_SMStateType :=
| E2E_SM_VALID
| E2E_SM_DEINIT
| E2E_SM_NODATA
| E2E_SM_INIT
| E2E_SM_INVALID.

#[export] Instance E2E_SMStateType_eq : EqDecision E2E_SMStateType.
Proof. solve_decision. Defined.

(** [(uint8)ProfileStatus] *)
Definition status_code (s : E2E_PCheckStatusType) : Z :=
  match s with
  | E2E_P_OK => 0x00
  | E2E_P_REPEATED => 0x01
  | E2E_P_WRONGSEQUENCE => 0x02
  | E2E_P_ERROR => 0x03
  | E2E_P_NOTAVAILABLE => 0x04
  | E2E_P_NONEWDATA => 0x05
  end.

Record E2E_SMConfigType := {
  WindowSize : Z;
  MinOkStateInit : Z;
  MaxErrorStateInit : Z;
  MinOkStateValid : Z;
  MaxErrorStateValid : Z;
  MinOkStateInvalid : Z;
  MaxErrorStateInvalid : Z
}.

Record E2E_SMCheckStateType := {
  ProfileStatusWindow : option (list Z);
  WindowTopIndex : Z;
  OkCount : Z;
  ErrorCount : Z;
  SMState : E2E_SMStateType
}.

Definition set_SMState (v : E2E_SMStateType) (s : E2E_SMCheckStateType) : E2E_SMCheckStateType :=
  {| ProfileStatusWindow := s.(ProfileStatusWindow); WindowTopIndex := s.(WindowTopIndex);
     OkCount := s.(OkCount); ErrorCount := s.(ErrorCount); SMState := v |}.

(** ** E2E_SM.c *)

(** [for (i = 0; i < windowSize; i++) ProfileStatusWindow[i] = E2E_P_NOTAVAILABLE;]
    with [n] iterations to go.  [windowSize] is a [uint8], so [i] does not wrap. *)
Fixpoint clear_window (window : option (list Z)) (i : Z) (n : nat) : option (option (list Z)) :=
  match n with
  | O => Some window
  | S n =>
      w ← window;
      w ← store w i (status_code E2E_P_NOTAVAILABLE);
      clear_window (Some w) (i + 1) n
  end.

Definition E2E_SMClearStatus (State : E2E_SMCheckStateType) (windowSize : Z)
  : option E2E_SMCheckStateType :=
  window ← clear_window State.(ProfileStatusWindow) 0 (Z.to_nat windowSize);
  Some {| ProfileStatusWindow := window; WindowTopIndex := 0; OkCount := 0; ErrorCount := 0;
          SMState := State.(SMState) |}.

(** [for (i = 0; i < windowSize; i++) if (window[i] == status) count++;] *)
Fixpoint count_window (w : list Z) (status : Z) (i : Z) (n : nat) (count : Z) : option Z :=
  match n with
  | O => Some count
  | S n =>
      v ← load w i;
      count_window w status (i + 1) n (if v =? status then u8 (count + 1) else count)
  end.

Definition E2E_SMAddStatus (ProfileStatus : E2E_PCheckStatusType) (State : E2E_SMCheckStateType)
    (windowSize : Z) : option E2E_SMCheckStateType :=
  w ← State.(ProfileStatusWindow);
  w ← store w State.(WindowTopIndex) (status_code ProfileStatus);
  ok ← count_window w (status_code E2E_P_OK) 0 (Z.to_nat windowSize) 0;
  err ← count_window w (status_code E2E_P_ERROR) 0 (Z.to_nat windowSize) 0;
  Some {| ProfileStatusWindow := Some w;
          WindowTopIndex :=
            if State.(WindowTopIndex) >=? windowSize - 1 then 0
            else u8 (State.(WindowTopIndex) + 1);
          OkCount := ok; ErrorCount := err; SMState := State.(SMState) |}.

Definition E2E_SMCheck_NODATA (ProfileStatus : E2E_PCheckStatusType)
    (State : E2E_SMCheckStateType) : E2E_SMCheckStateType :=
  if negb (bool_decide (ProfileStatus = E2E_P_ERROR))
     && negb (bool_decide (ProfileStatus = E2E_P_NONEWDATA))
  then set_SMState E2E_SM_INIT State
  else set_SMState E2E_SM_NODATA State.

Definition E2E_SMCheck_INIT (Config : E2E_SMConfigType) (State : E2E_SMCheckStateType)
  : E2E_SMCheckStateType :=
  if (State.(ErrorCount) <=? Config.(MaxErrorStateInit))
     && (State.(OkCount) >=? Config.(MinOkStateInit))
  then set_SMState E2E_SM_VALID State
  else if State.(ErrorCount) >? Config.(MaxErrorStateInit)
  then set_SMState E2E_SM_INVALID State
  else set_SMState E2E_SM_INIT State.

Definition E2E_SMCheck_VALID (Config : E2E_SMConfigType) (State : E2E_SMCheckStateType)
  : E2E_SMCheckStateType :=
  if (State.(ErrorCount) <=? Config.(MaxErrorStateValid))
     && (State.(OkCount) >=? Config.(MinOkStateValid))
  then set_SMState E2E_SM_VALID State
  else set_SMState E2E_SM_INVALID State.

Definition E2E_SMCheck_INVALID (Config : E2E_SMConfigType) (State : E2E_SMCheckStateType)
  : E2E_SMCheckStateType :=
  if (State.(ErrorCount) <=? Config.(MaxErrorStateInvalid))
     && (State.(OkCount) >=? Config.(MinOkStateInvalid))
  then set_SMState E2E_SM_VALID State
  else set_SMState E2E_SM_INVALID State.

(** The consistency test both functions make on the window. *)
Definition window_missing (Config : E2E_SMConfigType) (State : E2E_SMCheckStateType) : bool :=
  bool_decide (State.(ProfileStatusWindow) = None) && (Config.(WindowSize) >? 0).

Definition E2E_SMCheck (ProfileStatus : E2E_PCheckStatusType)
    (ConfigPtr : option E2E_SMConfigType) (StatePtr : option E2E_SMCheckStateType)
  : option (Z * option E2E_SMCheckStateType) :=
  match StatePtr, ConfigPtr with
  | Some State, Some Config =>
      if window_missing Config State then Some (E2E_E_INPUTERR_WRONG, StatePtr)
      else
        match State.(SMState) with
        | E2E_SM_DEINIT => Some (E2E_E_WRONGSTATE, StatePtr)
        | E2E_SM_NODATA => Some (E2E_E_OK, Some (E2E_SMCheck_NODATA ProfileStatus State))
        | E2E_SM_INIT =>
            State ← E2E_SMAddStatus ProfileStatus State Config.(WindowSize);
            Some (E2E_E_OK, Some (E2E_SMCheck_INIT Config State))
        | E2E_SM_VALID =>
            State ← E2E_SMAddStatus ProfileStatus State Config.(WindowSize);
            Some (E2E_E_OK, Some (E2E_SMCheck_VALID Config State))
        | E2E_SM_INVALID =>
            State ← E2E_SMAddStatus ProfileStatus State Config.(WindowSize);
            Some (E2E_E_OK, Some (E2E_SMCheck_INVALID Config State))
        end
  | _, _ => Some (E2E_E_INPUTERR_NULL, StatePtr)
  end.

Definition E2E_SMCheckInit (StatePtr : option E2E_SMCheckStateType)
    (ConfigPtr : option E2E_SMConfigType) : option (Z * option E2E_SMCheckStateType) :=
  match StatePtr, ConfigPtr with
  | Some State, Some Config =>
      if window_missing Config State then Some (E2E_E_INPUTERR_WRONG, StatePtr)
      else
        State ← E2E_SMClearStatus State Config.(WindowSize);
        Some (E2E_E_OK, Some (set_SMState E2E_SM_NODATA State))
  | _, _ => Some (E2E_E_INPUTERR_NULL, StatePtr)
  end.

(** ** The sliding window

    The abstract machine keeps the statuses added so far, the latest first. *)
Definition occurs (s : E2E_PCheckStatusType) (l : list E2E_PCheckStatusType) : Z :=
  Z.of_nat (length (filter (fun x => x = s) l)).

(** The last [n] statuses; those before the first are "not available". *)
Definition latest (n : nat) (hist : list E2E_PCheckStatusType) : list E2E_PCheckStatusType :=
  take n (hist ++ repeat E2E_P_NOTAVAILABLE n).

Record Ideal := { mode : E2E_SMStateType; hist : list E2E_PCheckStatusType }.

Definition within (maxErr minOk : Z) (win : list E2E_PCheckStatusType) : bool :=
  (occurs E2E_P_ERROR win <=? maxErr) && (minOk <=? occurs E2E_P_OK win).

Definition ideal_step (c : E2E_SMConfigType) (a : Ideal) (s : E2E_PCheckStatusType) : Ideal :=
  let hist' := s :: a.(hist) in
  let win := latest (Z.to_nat c.(WindowSize)) hist' in
  match a.(mode) with
  | E2E_SM_DEINIT => a
  | E2E_SM_NODATA =>
      {| mode := if decide (s = E2E_P_ERROR \/ s = E2E_P_NONEWDATA)
                 then E2E_SM_NODATA else E2E_SM_INIT;
         hist := a.(hist) |}
  | E2E_SM_INIT =>
      {| mode := if within c.(MaxErrorStateInit) c.(MinOkStateInit) win then E2E_SM_VALID
                 else if c.(MaxErrorStateInit) <? occurs E2E_P_ERROR win then E2E_SM_INVALID
                 else E2E_SM_INIT;
         hist := hist' |}
  | E2E_SM_VALID =>
      {| mode := if within c.(MaxErrorStateValid) c.(MinOkStateValid) win
                 then E2E_SM_VALID else E2E_SM_INVALID;
         hist := hist' |}
  | E2E_SM_INVALID =>
      {| mode := if within c.(MaxErrorStateInvalid) c.(MinOkStateInvalid) win
                 then E2E_SM_VALID else E2E_SM_INVALID;
         hist := hist' |}
  end.

(** ** The ring buffer *)
Definition occ (v : Z) (l : list Z) : Z := Z.of_nat (length (filter (fun x => x = v) l)).

Lemma count_window_spec w v n i c :
  0 <= i -> i + Z.of_nat n <= Z.of_nat (length w) -> 0 <= c -> c + Z.of_nat n <= 255 ->
  count_window w v i n c = Some (c + occ v (segment w i (Z.of_nat n))).
Proof.
  revert i c; induction n as [| n IH]; intros i c Hi Hlen Hc Hmax; cbn [count_window].
  - change (occ v (segment w i (Z.of_nat 0))) with 0; f_equal; lia.
  - destruct (load_in w i) as [x Hx]; [lia |]; rewrite Hx; cbn [mbind option_bind].
    assert (Hseg : segment w i (Z.of_nat (S n)) = x :: segment w (i + 1) (Z.of_nat n)).
    { unfold segment; rewrite load_spec in Hx by lia.
      replace (Z.to_nat (Z.of_nat (S n))) with (S n) by lia; rewrite Nat2Z.id.
      replace (Z.to_nat (i + 1)) with (S (Z.to_nat i)) by lia; by rewrite (drop_S _ _ _ Hx). }
    rewrite Hseg; unfold occ; rewrite filter_cons.
    destruct (Z.eqb_spec x v) as [-> | Hne].
    + rewrite decide_True by done; unfold u8; rewrite Z.mod_small by lia.
      rewrite IH by lia; unfold occ; cbn [length]; f_equal; lia.
    + rewrite decide_False by done; apply IH; lia.
Qed.

Lemma clear_window_spec n w i :
  0 <= i -> i + Z.of_nat n <= Z.of_nat (length w) ->
  clear_window (Some w) i n =
    Some (Some (patch w (Z.to_nat i) (repeat (status_code E2E_P_NOTAVAILABLE) n))).
Proof.
  revert w i; induction n as [| n IH]; intros w i Hi Hlen; cbn [clear_window repeat].
  - unfold patch; cbn; by rewrite Nat.add_0_r, take_drop.
  - cbn [mbind option_bind]; rewrite store1_patch by lia; cbn [mbind option_bind].
    rewrite IH by (rewrite ?length_patch; cbn; lia).
    replace (Z.to_nat (i + 1)) with (Z.to_nat i + length [status_code E2E_P_NOTAVAILABLE])%nat
      by (cbn; lia).
    by rewrite patch_patch by (cbn; rewrite ?repeat_length; lia).
Qed.

#[export] Instance status_code_inj : Inj (=) (=) status_code.
Proof. by intros [] []. Qed.

Lemma occ_codes s l : occ (status_code s) (map status_code l) = occurs s l.
Proof.
  unfold occ, occurs; f_equal; induction l as [| x l IH]; [done |].
  cbn [map]; rewrite !filter_cons; destruct (decide (x = s)) as [-> | Hne].
  - rewrite decide_True by done; cbn; by rewrite IH.
  - rewrite decide_False; [done |]. by intros ?%(inj status_code).
Qed.

Lemma occurs_perm s l l' : l ≡ₚ l' -> occurs s l = occurs s l'.
Proof. intros E; unfold occurs; by rewrite E. Qed.

Lemma length_latest n h : length (latest n h) = n.
Proof. unfold latest; rewrite length_take, length_app, repeat_length; lia. Qed.

(** The window moves by one: the oldest status leaves it. *)
Lemma latest_cons n h s x q :
  reverse (latest (S n) h) = x :: q -> reverse (latest (S n) (s :: h)) = q ++ [s].
Proof.
  intros E; assert (Hq : length (reverse q) = n).
  { apply (f_equal length) in E; rewrite length_reverse, length_latest in E.
    rewrite length_reverse; cbn in E; lia. }
  unfold latest in *; cbn [app take]; rewrite reverse_cons; f_equal.
  apply (f_equal reverse) in E; rewrite reverse_involutive, reverse_cons in E.
  apply (f_equal (take n)) in E; rewrite take_take, Nat.min_l in E by lia.
  rewrite (take_app_length' (reverse q)) in E by lia; by rewrite E, reverse_involutive.
Qed.

(** [StatePtr] after some additions: the ring read from its top index is the
    sliding window, oldest status first. *)
Record ring (n : nat) (w : list Z) (top : Z) (h : list E2E_PCheckStatusType) : Prop := {
  ring_room : (n <= length w)%nat;
  ring_top : 0 <= top < Z.of_nat n;
  ring_seq : drop (Z.to_nat top) (take n w) ++ take (Z.to_nat top) (take n w)
             = map status_code (reverse (latest n h))
}.

Lemma ring_counts n w top h s :
  ring n w top h -> occ (status_code s) (take n w) = occurs s (latest n h).
Proof.
  intros [_ _ Hseq]; rewrite <- occ_codes; unfold occ; f_equal.
  rewrite <- (take_drop (Z.to_nat top) (take n w)) at 1.
  rewrite list.filter_app, length_app, Nat.add_comm, <- length_app, <- list.filter_app, Hseq.
  apply Permutation_length; by rewrite reverse_Permutation.
Qed.

Lemma ring_add n w top h s :
  ring n w top h ->
  ring n (<[Z.to_nat top := status_code s]> w)
    (if top >=? Z.of_nat n - 1 then 0 else top + 1) (s :: h).
Proof.
  intros [Hroom Htop Hseq]; destruct n as [| n]; [lia |].
  set (q := take (S n) w) in *; assert (Hq : length q = S n) by (unfold q; rewrite length_take; lia).
  set (t := Z.to_nat top) in *; assert (Ht : (t <= n)%nat) by lia.
  destruct (lookup_lt_is_Some_2 q t) as [x Hx]; [lia |].
  rewrite (drop_S _ _ _ Hx) in Hseq; cbn [app] in Hseq.
  destruct (reverse (latest (S n) h)) as [| y old] eqn:E; [done |]; cbn [map] in Hseq.
  injection Hseq as _ Hseq; apply (latest_cons n h s) in E.
  assert (Hnew : take (S n) (<[t := status_code s]> w) = <[t := status_code s]> q)
    by (unfold q; by rewrite take_insert_lt by lia).
  split; rewrite ?length_insert; [done | destruct (Z.geb_spec top (Z.of_nat (S n) - 1)); lia |].
  rewrite E, map_app, <- Hseq, Hnew; cbn [map].
  assert (Htk : take (S t) (<[t := status_code s]> q) = take t q ++ [status_code s]).
  { rewrite (take_S_r _ _ (status_code s)) by (apply list_lookup_insert_eq; lia).
    by rewrite take_insert_ge by lia. }
  destruct (Z.geb_spec top (Z.of_nat (S n) - 1)).
  - assert (t = n) as Hn by lia; cbn; rewrite app_nil_r, drop_0.
    rewrite (drop_ge q) by lia; cbn; rewrite <- Htk, take_ge; [done |].
    rewrite length_insert; lia.
  - replace (Z.to_nat (top + 1)) with (S t) by lia.
    by rewrite Htk, drop_insert_lt, app_assoc by lia.
Qed.

Lemma ring_clear n w :
  (0 < n)%nat -> (n <= length w)%nat ->
  ring n (patch w 0 (repeat (status_code E2E_P_NOTAVAILABLE) n)) 0 [].
Proof.
  intros Hn Hlen; split; [rewrite length_patch; rewrite ?repeat_length; lia | lia |].
  cbn; rewrite app_nil_r, drop_0; unfold patch, latest; cbn.
  rewrite take_0, app_nil_l, take_app_length' by (by rewrite repeat_length).
  rewrite take_ge by (by rewrite repeat_length).
  assert (Hr : forall m (x : E2E_PCheckStatusType), reverse (repeat x m) = repeat x m).
  { intros m x; induction m as [| m IH]; [done |]; cbn [repeat]; rewrite reverse_cons, IH.
    by rewrite <- repeat_cons. }
  rewrite Hr; clear; induction n as [| n IH]; [done |]; cbn; by rewrite IH.
Qed.

(** ** The refinement *)
Record tracks (c : E2E_SMConfigType) (st : E2E_SMCheckStateType) (a : Ideal) : Prop := {
  tr_window : exists w, st.(ProfileStatusWindow) = Some w /\
    ring (Z.to_nat c.(WindowSize)) w st.(WindowTopIndex) a.(hist);
  tr_mode : st.(SMState) = a.(mode);
  tr_init : a.(mode) <> E2E_SM_DEINIT
}.

Section Window.
Context (c : E2E_SMConfigType) (Hsize : 1 <= c.(WindowSize) <= 255).

Lemma not_missing w st :
  st.(ProfileStatusWindow) = Some w -> window_missing c st = false.
Proof using Type. intros E; unfold window_missing; by rewrite E. Qed.

Lemma addStatus_spec s st w h :
  st.(ProfileStatusWindow) = Some w ->
  ring (Z.to_nat c.(WindowSize)) w st.(WindowTopIndex) h ->
  let win := latest (Z.to_nat c.(WindowSize)) (s :: h) in
  exists w' st', E2E_SMAddStatus s st c.(WindowSize) = Some st' /\
    st'.(ProfileStatusWindow) = Some w' /\
    ring (Z.to_nat c.(WindowSize)) w' st'.(WindowTopIndex) (s :: h) /\
    st'.(OkCount) = occurs E2E_P_OK win /\ st'.(ErrorCount) = occurs E2E_P_ERROR win.
Proof using Hsize.
  intros Hw Hring win; pose proof (ring_add _ _ _ _ s Hring) as Hring'.
  destruct Hring as [Hroom Htop _].
  unfold E2E_SMAddStatus; rewrite Hw; cbn [mbind option_bind].
  rewrite store_in by lia; cbn [mbind option_bind]; set (w' := <[_ := _]> w) in *.
  assert (Hl : length w' = length w) by apply length_insert.
  rewrite !count_window_spec by lia; cbn [mbind option_bind].
  assert (Hseg : segment w' 0 (Z.of_nat (Z.to_nat (WindowSize c))) =
                 take (Z.to_nat (WindowSize c)) w')
    by (unfold segment; change (Z.to_nat 0) with 0%nat; rewrite drop_0; f_equal; lia).
  eexists w', _; split; [done |]; split; [done |]; cbn [WindowTopIndex OkCount ErrorCount].
  rewrite !Z.add_0_l, Hseg, !(ring_counts _ _ _ _ _ Hring'); split; [| done].
  rewrite Z2Nat.id in Hring' by lia.
  destruct (_ >=? _) eqn:E; [done |]; unfold u8; rewrite Z.mod_small; [done |].
  rewrite Z.geb_leb, Z.leb_gt in E; lia.
Qed.

Lemma check_refines s st a :
  tracks c st a ->
  exists st', E2E_SMCheck s (Some c) (Some st) = Some (E2E_E_OK, Some st') /\
              tracks c st' (ideal_step c a s).
Proof using Hsize.
  intros [(w & Hw & Hring) Hmode Hdeinit]; unfold E2E_SMCheck, ideal_step.
  rewrite (not_missing w st Hw), Hmode.
  destruct (addStatus_spec s st w a.(hist) Hw Hring)
    as (w' & st' & Hadd & Hw' & Hring' & Hok & Herr).
  destruct a.(mode); try done; rewrite ?Hadd; cbn [mbind option_bind].
  - eexists; split; [done |]; unfold E2E_SMCheck_VALID, within.
    rewrite Hok, Herr, Z.geb_leb; destruct (_ && _); split; cbn; eauto.
  - eexists; split; [done |]; unfold E2E_SMCheck_NODATA.
    destruct s; split; cbn; eauto.
  - eexists; split; [done |]; unfold E2E_SMCheck_INIT, within.
    rewrite Hok, Herr, Z.geb_leb, Z.gtb_ltb.
    destruct (_ && _); [split; cbn; eauto |]; destruct (_ <? _); split; cbn; eauto.
  - eexists; split; [done |]; unfold E2E_SMCheck_INVALID, within.
    rewrite Hok, Herr, Z.geb_leb; destruct (_ && _); split; cbn; eauto.
Qed.

Lemma init_refines st w :
  st.(ProfileStatusWindow) = Some w -> c.(WindowSize) <= Z.of_nat (length w) ->
  exists st', E2E_SMCheckInit (Some st) (Some c) = Some (E2E_E_OK, Some st') /\
              tracks c st' {| mode := E2E_SM_NODATA; hist := [] |}.
Proof using Hsize.
  intros Hw Hroom; unfold E2E_SMCheckInit, E2E_SMClearStatus.
  rewrite (not_missing w st Hw), Hw, clear_window_spec by lia; cbn [mbind option_bind].
  eexists; split; [done |]; split; cbn; [| done | done].
  eexists; split; [done |]; apply ring_clear; lia.
Qed.

(** Successive calls of [E2E_SMCheck]: the return values and the states. *)
Fixpoint check_all (st : E2E_SMCheckStateType) (ss : list E2E_PCheckStatusType)
  : option (list (Z * E2E_SMStateType) * E2E_SMCheckStateType) :=
  match ss with
  | [] => Some ([], st)
  | s :: ss =>
      '(ret, st) ← E2E_SMCheck s (Some c) (Some st);
      st ← st;
      '(outs, st') ← check_all st ss;
      Some ((ret, st.(SMState)) :: outs, st')
  end.

Fixpoint ideal_all (a : Ideal) (ss : list E2E_PCheckStatusType) : list E2E_SMStateType * Ideal :=
  match ss with
  | [] => ([], a)
  | s :: ss =>
      let a := ideal_step c a s in
      let '(outs, a') := ideal_all a ss in (a.(mode) :: outs, a')
  end.

Lemma check_all_refines st a ss :
  tracks c st a ->
  exists st', check_all st ss = Some (map (pair E2E_E_OK) (fst (ideal_all a ss)), st') /\
              tracks c st' (snd (ideal_all a ss)).
Proof using Hsize.
  revert st a; induction ss as [| s ss IH]; intros st a Htr; cbn [check_all ideal_all].
  - by exists st.
  - destruct (check_refines s st a Htr) as (st1 & -> & Htr1); cbn [mbind option_bind].
    destruct (IH st1 _ Htr1) as (st2 & -> & Htr2); cbn [mbind option_bind].
    exists st2; destruct (ideal_all (ideal_step c a s) ss) as [outs a'] eqn:E; cbn [fst snd map] in *.
    by rewrite (tr_mode _ _ _ Htr1).
Qed.

Lemma ideal_all_app a ss ss' :
  snd (ideal_all a (ss ++ ss')) = snd (ideal_all (snd (ideal_all a ss)) ss').
Proof using Type.
  revert a; induction ss as [| s ss IH]; intros a; [done |]; cbn [app ideal_all].
  specialize (IH (ideal_step c a s)).
  destruct (ideal_all (ideal_step c a s) (ss ++ ss')) eqn:E1.
  destruct (ideal_all (ideal_step c a s) ss) eqn:E2; done.
Qed.

(** C25. Refinement: from [E2E_SMCheckInit] on, every sequence of profile
    statuses drives [E2E_SMCheck] through the states of the abstract machine
    whose decisions count the last [WindowSize] statuses, whatever the ring
    buffer held before; every call returns [E2E_E_OK] and stays in bounds. *)
Theorem sm_refines_window st w ss :
  st.(ProfileStatusWindow) = Some w -> c.(WindowSize) <= Z.of_nat (length w) ->
  exists st0 st',
    E2E_SMCheckInit (Some st) (Some c) = Some (E2E_E_OK, Some st0) /\
    check_all st0 ss =
      Some (map (pair E2E_E_OK)
              (fst (ideal_all {| mode := E2E_SM_NODATA; hist := [] |} ss)), st').
Proof using Hsize.
  intros Hw Hroom; destruct (init_refines st w Hw Hroom) as (st0 & Hinit & Htr).
  destruct (check_all_refines st0 _ ss Htr) as (st' & Hrun & _); by exists st0, st'.
Qed.

(** *** Recovery *)
Lemma ideal_step_hist a s :
  a.(mode) <> E2E_SM_DEINIT -> a.(mode) <> E2E_SM_NODATA ->
  (ideal_step c a s).(hist) = s :: a.(hist) /\
  (ideal_step c a s).(mode) <> E2E_SM_DEINIT /\ (ideal_step c a s).(mode) <> E2E_SM_NODATA.
Proof using Type.
  intros H1 H2; unfold ideal_step; destruct a.(mode); try done; cbn;
    (split; [done |]); destruct (within _ _ _); try done; destruct (_ <? _); done.
Qed.

Lemma occurs_repeat s s' n : occurs s (repeat s' n) = if decide (s' = s) then Z.of_nat n else 0.
Proof using Type.
  unfold occurs; induction n as [| n IH]; cbn [repeat]; [by destruct (decide _) |].
  rewrite filter_cons; destruct (decide (s' = s)); cbn [length]; lia.
Qed.

Lemma latest_oks n h : latest n (repeat E2E_P_OK n ++ h) = repeat E2E_P_OK n.
Proof using Type.
  unfold latest; rewrite <- app_assoc, take_app_length'; [done | by rewrite repeat_length].
Qed.

Lemma ideal_oks a n :
  a.(mode) <> E2E_SM_DEINIT -> a.(mode) <> E2E_SM_NODATA ->
  let a' := snd (ideal_all a (repeat E2E_P_OK n)) in
  a'.(hist) = repeat E2E_P_OK n ++ a.(hist) /\
  a'.(mode) <> E2E_SM_DEINIT /\ a'.(mode) <> E2E_SM_NODATA.
Proof using Type.
  revert a; induction n as [| n IH]; intros a H1 H2; [done |]; cbn [repeat ideal_all].
  destruct (ideal_step_hist a E2E_P_OK H1 H2) as (Hh & H1' & H2').
  destruct (IH _ H1' H2') as (Hh' & H3 & H4); rewrite Hh in Hh'.
  destruct (ideal_all (ideal_step c a E2E_P_OK) (repeat E2E_P_OK n)) as [outs a'].
  cbn [snd] in *; split; [| done]; rewrite Hh'.
  change (E2E_P_OK :: hist a) with ([E2E_P_OK] ++ hist a).
  by rewrite app_assoc, <- repeat_cons.
Qed.

Lemma ideal_recovers a :
  a.(mode) <> E2E_SM_DEINIT -> a.(mode) <> E2E_SM_NODATA ->
  0 <= c.(MaxErrorStateInit) -> 0 <= c.(MaxErrorStateValid) -> 0 <= c.(MaxErrorStateInvalid) ->
  c.(MinOkStateInit) <= c.(WindowSize) -> c.(MinOkStateValid) <= c.(WindowSize) ->
  c.(MinOkStateInvalid) <= c.(WindowSize) ->
  (snd (ideal_all a (repeat E2E_P_OK (Z.to_nat c.(WindowSize))))).(mode) = E2E_SM_VALID.
Proof using Hsize.
  intros H1 H2 He1 He2 He3 Ho1 Ho2 Ho3.
  destruct (Z.to_nat c.(WindowSize)) as [| n] eqn:En; [lia |].
  replace (repeat E2E_P_OK (S n)) with (repeat E2E_P_OK n ++ [E2E_P_OK])
    by (by rewrite <- repeat_cons).
  rewrite ideal_all_app; destruct (ideal_oks a n H1 H2) as (Hh & H1' & H2').
  set (a' := snd (ideal_all a (repeat E2E_P_OK n))) in *; cbn [ideal_all snd].
  unfold ideal_step; rewrite Hh, En, app_comm_cons.
  change (E2E_P_OK :: repeat E2E_P_OK n) with (repeat E2E_P_OK (S n)).
  assert (Hw : forall e o, 0 <= e -> o <= c.(WindowSize) ->
            within e o (repeat E2E_P_OK (S n)) = true).
  { intros e o He Ho; unfold within; rewrite !occurs_repeat.
    rewrite decide_False, decide_True by done; apply andb_true_intro; split; apply Z.leb_le; lia. }
  rewrite latest_oks, !Hw by done; by destruct a'.(mode).
Qed.

(** Recovery: whatever statuses came before, [WindowSize + 1] consecutive
    [E2E_P_OK] make the channel valid, for limits the window can meet. *)
Theorem sm_recovers st w ss :
  st.(ProfileStatusWindow) = Some w -> c.(WindowSize) <= Z.of_nat (length w) ->
  0 <= c.(MaxErrorStateInit) -> 0 <= c.(MaxErrorStateValid) -> 0 <= c.(MaxErrorStateInvalid) ->
  c.(MinOkStateInit) <= c.(WindowSize) -> c.(MinOkStateValid) <= c.(WindowSize) ->
  c.(MinOkStateInvalid) <= c.(WindowSize) ->
  exists st0 outs st',
    E2E_SMCheckInit (Some st) (Some c) = Some (E2E_E_OK, Some st0) /\
    check_all st0 (ss ++ repeat E2E_P_OK (S (Z.to_nat c.(WindowSize)))) = Some (outs, st') /\
    st'.(SMState) = E2E_SM_VALID.
Proof using Hsize.
  intros Hw Hroom He1 He2 He3 Ho1 Ho2 Ho3.
  destruct (init_refines st w Hw Hroom) as (st0 & Hinit & Htr).
  destruct (check_all_refines st0 _ (ss ++ repeat E2E_P_OK (S (Z.to_nat c.(WindowSize)))) Htr)
    as (st' & Hrun & Htr').
  eexists st0, _, st'; split; [done |]; split; [done |].
  rewrite (tr_mode _ _ _ Htr'), ideal_all_app.
  destruct (check_all_refines st0 _ ss Htr) as (st1 & _ & Htr1).
  pose proof (tr_init _ _ _ Htr1) as Hd; set (a := snd (ideal_all _ ss)) in *.
  change (repeat E2E_P_OK (S ?n)) with ([E2E_P_OK] ++ repeat E2E_P_OK n).
  rewrite ideal_all_app; cbn [ideal_all snd]; apply ideal_recovers; try done;
    destruct a as [[] h]; cbn; try done; destruct (within _ _ _); try done; destruct (_ <? _); done.
Qed.
End Window.

(** *** What "valid" means for the user of the data *)
Section Usable.
Context (c : E2E_SMConfigType) (Hsize : 1 <= c.(WindowSize) <= 255).

Lemma occurs_app s l l' : occurs s (l ++ l') = occurs s l + occurs s l'.
Proof using Type. unfold occurs; rewrite list.filter_app, length_app; lia. Qed.

Lemma occurs_none k n : occurs E2E_P_OK (take k (repeat E2E_P_NOTAVAILABLE n)) = 0.
Proof using Type.
  revert k; induction n as [| n IH]; intros [| k]; try done; cbn [repeat take].
  unfold occurs; rewrite filter_cons, decide_False by done; apply IH.
Qed.

Lemma occurs_latest n h h' : occurs E2E_P_OK (latest n h) <= occurs E2E_P_OK (take n (h ++ h')).
Proof using Type.
  unfold latest; rewrite !take_app, !occurs_app, occurs_none; unfold occurs; lia.
Qed.

(** The statuses the window has seen are the last ones received. *)
Lemma ideal_hist_suffix ss :
  let a := snd (ideal_all c {| mode := E2E_SM_NODATA; hist := [] |} ss) in
  (exists rest, reverse ss = a.(hist) ++ rest) /\
  (a.(mode) = E2E_SM_NODATA -> a.(hist) = []) /\ a.(mode) <> E2E_SM_DEINIT.
Proof using Type.
  induction ss as [| s ss ((rest & IH) & Hno & Hde)] using rev_ind; [by split; [exists [] |] |].
  rewrite ideal_all_app, reverse_app; cbn [ideal_all snd]; change (reverse [s]) with [s].
  set (b := snd (ideal_all c _ ss)) in *; cbv zeta; rewrite IH.
  destruct (decide (b.(mode) = E2E_SM_NODATA)) as [E | Hne].
  - unfold ideal_step; rewrite E; cbn; rewrite (Hno E); split; [by eexists |].
    split; [done | by destruct (decide _)].
  - destruct (ideal_step_hist c b s Hde Hne) as (-> & H1 & H2).
    split; [by exists rest | done].
Qed.

Definition weakest_ok : Z :=
  Z.min c.(MinOkStateInit) (Z.min c.(MinOkStateValid) c.(MinOkStateInvalid)).

Lemma ideal_valid_ok a s :
  (ideal_step c a s).(mode) = E2E_SM_VALID -> a.(mode) <> E2E_SM_DEINIT ->
  weakest_ok <= occurs E2E_P_OK (latest (Z.to_nat c.(WindowSize)) (ideal_step c a s).(hist)).
Proof using Type.
  unfold ideal_step, weakest_ok, within; intros H Hd.
  assert (Hok : forall e o l, (occurs E2E_P_ERROR l <=? e) && (o <=? occurs E2E_P_OK l) = true ->
            o <= occurs E2E_P_OK l) by (intros ? ? ? [_ E]%andb_true_iff; lia).
  destruct a.(mode); cbn [mode hist] in *; [| done | by destruct (decide _) | |].
  - destruct (_ && _) eqn:E; [apply Hok in E; lia | done].
  - destruct (_ && _) eqn:E; [apply Hok in E; lia | by destruct (_ <? _)].
  - destruct (_ && _) eqn:E; [apply Hok in E; lia | done].
Qed.

(** The channel is only reported valid, that is, its data usable, while the
    last [WindowSize] profile statuses contain at least the smallest of the
    three configured numbers of [E2E_P_OK]. *)
Theorem sm_valid_needs_ok st w ss st0 outs st' :
  st.(ProfileStatusWindow) = Some w -> c.(WindowSize) <= Z.of_nat (length w) ->
  E2E_SMCheckInit (Some st) (Some c) = Some (E2E_E_OK, Some st0) ->
  check_all c st0 ss = Some (outs, st') -> st'.(SMState) = E2E_SM_VALID ->
  weakest_ok <= occurs E2E_P_OK (take (Z.to_nat c.(WindowSize)) (reverse ss)).
Proof using Hsize.
  intros Hw Hroom Hinit Hrun Hvalid.
  destruct (init_refines c Hsize st w Hw Hroom) as (st0' & Hinit' & Htr).
  assert (st0' = st0) as -> by congruence.
  destruct (check_all_refines c Hsize st0 _ ss Htr) as (st1 & Hrun' & Htr').
  assert (st1 = st') as -> by congruence; rewrite (tr_mode _ _ _ Htr') in Hvalid.
  destruct (ideal_hist_suffix ss) as ((rest & Hrev) & _); rewrite Hrev.
  etransitivity; [| apply occurs_latest].
  destruct ss as [| s ss _] using rev_ind; [done |]; rewrite ideal_all_app in *.
  apply ideal_valid_ok; [done |]; apply (ideal_hist_suffix ss).
Qed.
End Usable.

(** Errors: null pointers, a missing window and a machine that was not
    initialised are reported, and the state is left alone. *)
Theorem sm_errors s cp sp c st :
  E2E_SMCheck s cp None = Some (E2E_E_INPUTERR_NULL, None) /\
  E2E_SMCheck s None sp = Some (E2E_E_INPUTERR_NULL, sp) /\
  E2E_SMCheckInit None cp = Some (E2E_E_INPUTERR_NULL, None) /\
  E2E_SMCheckInit sp None = Some (E2E_E_INPUTERR_NULL, sp) /\
  (st.(ProfileStatusWindow) = None -> 0 < c.(WindowSize) ->
   E2E_SMCheck s (Some c) (Some st) = Some (E2E_E_INPUTERR_WRONG, Some st) /\
   E2E_SMCheckInit (Some st) (Some c) = Some (E2E_E_INPUTERR_WRONG, Some st)) /\
  (is_Some st.(ProfileStatusWindow) -> st.(SMState) = E2E_SM_DEINIT ->
   E2E_SMCheck s (Some c) (Some st) = Some (E2E_E_WRONGSTATE, Some st)).
Proof.
  assert (Hmiss : st.(ProfileStatusWindow) = None -> 0 < c.(WindowSize) ->
                  window_missing c st = true).
  { intros Hw Hn; unfold window_missing; rewrite Hw, bool_decide_eq_true_2 by done.
    by rewrite Z.gtb_ltb, (proj2 (Z.ltb_lt _ _) Hn). }
  split; [by destruct cp |]; split; [by destruct sp |]; split; [by destruct cp |].
  split; [by destruct sp |]; split.
  - intros Hw Hn; unfold E2E_SMCheck, E2E_SMCheckInit; by rewrite (Hmiss Hw Hn).
  - intros [w Hw] Hd; unfold E2E_SMCheck; by rewrite (not_missing c w st Hw), Hd.
Qed.

(** A window of size 0: the comment of [E2E_SMCheck] allows it, with no
    window array, and initialisation and the first data are accepted, but the
    next call of [E2E_SMAddStatus] writes through the null pointer. *)
Theorem sm_empty_window_fault c st s s' :
  c.(WindowSize) = 0 -> st.(ProfileStatusWindow) = None ->
  s <> E2E_P_ERROR -> s <> E2E_P_NONEWDATA ->
  exists st1 st2,
    E2E_SMCheckInit (Some st) (Some c) = Some (E2E_E_OK, Some st1) /\
    E2E_SMCheck s (Some c) (Some st1) = Some (E2E_E_OK, Some st2) /\
    st2.(SMState) = E2E_SM_INIT /\
    E2E_SMCheck s' (Some c) (Some st2) = None.
Proof.
  intros Hz Hw Hs1 Hs2; unfold E2E_SMCheckInit, window_missing, E2E_SMClearStatus.
  rewrite Hz, Hw; cbn; eexists _, _; split; [done |].
  unfold E2E_SMCheck, window_missing; cbn; rewrite Hz; cbn; split; [done |].
  unfold E2E_SMCheck_NODATA; by rewrite !bool_decide_eq_false_2 by done.
Qed.

(** ** Witnesses *)
Definition configSM : E2E_SMConfigType := {|
  WindowSize := 3; MinOkStateInit := 2; MaxErrorStateInit := 1; MinOkStateValid := 1;
  MaxErrorStateValid := 1; MinOkStateInvalid := 2; MaxErrorStateInvalid := 1
|}.

Definition rawSM : E2E_SMCheckStateType := {|
  ProfileStatusWindow := Some [77; 0; 0; 3]; WindowTopIndex := 9; OkCount := 5;
  ErrorCount := 6; SMState := E2E_SM_DEINIT
|}.

Definition statusesSM : list E2E_PCheckStatusType :=
  [E2E_P_NONEWDATA; E2E_P_OK; E2E_P_OK; E2E_P_OK; E2E_P_ERROR; E2E_P_ERROR; E2E_P_OK; E2E_P_OK].

Lemma sm_refines_window_witness :
  exists st0 st',
    E2E_SMCheckInit (Some rawSM) (Some configSM) = Some (E2E_E_OK, Some st0) /\
    check_all configSM st0 statusesSM =
      Some (map (pair E2E_E_OK) [E2E_SM_NODATA; E2E_SM_INIT; E2E_SM_INIT; E2E_SM_VALID;
              E2E_SM_VALID; E2E_SM_INVALID; E2E_SM_INVALID; E2E_SM_VALID], st').
Proof.
  apply (sm_refines_window configSM ltac:(cbn; lia) rawSM [77; 0; 0; 3] statusesSM);
    [reflexivity | cbn; lia].
Defined.

Lemma sm_recovers_witness :
  exists st0 outs st',
    E2E_SMCheckInit (Some rawSM) (Some configSM) = Some (E2E_E_OK, Some st0) /\
    check_all configSM st0 ([E2E_P_ERROR; E2E_P_REPEATED; E2E_P_ERROR; E2E_P_ERROR] ++
                            repeat E2E_P_OK 4) = Some (outs, st') /\
    st'.(SMState) = E2E_SM_VALID.
Proof.
  apply (sm_recovers configSM ltac:(cbn; lia) rawSM [77; 0; 0; 3]
           [E2E_P_ERROR; E2E_P_REPEATED; E2E_P_ERROR; E2E_P_ERROR]);
    try reflexivity; cbn; lia.
Defined.

Lemma sm_valid_needs_ok_witness : 1 <= occurs E2E_P_OK (take 3 (reverse (take 5 statusesSM))).
Proof.
  eapply (sm_valid_needs_ok configSM ltac:(cbn; lia) rawSM [77; 0; 0; 3] (take 5 statusesSM));
    [reflexivity | cbn; lia | reflexivity | reflexivity | reflexivity].
Defined.

Lemma sm_empty_window_fault_witness :
  exists st1 st2,
    E2E_SMCheckInit
      (Some {| ProfileStatusWindow := None; WindowTopIndex := 0; OkCount := 0; ErrorCount := 0;
               SMState := E2E_SM_DEINIT |})
      (Some {| WindowSize := 0; MinOkStateInit := 0; MaxErrorStateInit := 0;
               MinOkStateValid := 0; MaxErrorStateValid := 0; MinOkStateInvalid := 0;
               MaxErrorStateInvalid := 0 |}) = Some (E2E_E_OK, Some st1) /\
    E2E_SMCheck E2E_P_OK
      (Some {| WindowSize := 0; MinOkStateInit := 0; MaxErrorStateInit := 0;
               MinOkStateValid := 0; MaxErrorStateValid := 0; MinOkStateInvalid := 0;
               MaxErrorStateInvalid := 0 |}) (Some st1) = Some (E2E_E_OK, Some st2) /\
    st2.(SMState) = E2E_SM_INIT /\
    E2E_SMCheck E2E_P_OK
      (Some {| WindowSize := 0; MinOkStateInit := 0; MaxErrorStateInit := 0;
               MinOkStateValid := 0; MaxErrorStateValid := 0; MinOkStateInvalid := 0;
               MaxErrorStateInvalid := 0 |}) (Some st2) = None.
Proof.
  apply sm_empty_window_fault; [reflexivity | reflexivity | discriminate | discriminate].
Defined.
