(* ===== verification/Os_Irq.v ===== *)
(** * The interrupt lock of the operating system

    [SuspendOSInterrupts] and [ResumeOSInterrupts] of [system/Os/rtos/inc/Os.h]: the
    nesting counter and whether interrupts are enabled.  The counter is a [sint8]
    that the code does not protect against overflow: [irq_ok] leaves it room. *)

From S2P Require Import Prelude.

Record Irq := { Os_IntSuspendAllCnt : Z; irq_enabled : bool }.

Definition SuspendOSInterrupts (i : Irq) : Irq :=
  {| Os_IntSuspendAllCnt := i.(Os_IntSuspendAllCnt) + 1; irq_enabled := false |}.

Definition ResumeOSInterrupts (i : Irq) : Irq :=
  if i.(Os_IntSuspendAllCnt) =? 0 then i
  else
    let cnt := i.(Os_IntSuspendAllCnt) - 1 in
    {| Os_IntSuspendAllCnt := cnt;
       irq_enabled := if cnt =? 0 then true else i.(irq_enabled) |}.

Definition irq_ok (i : Irq) : Prop :=
  0 <= i.(Os_IntSuspendAllCnt) < 127 /\ i.(irq_enabled) = (i.(Os_IntSuspendAllCnt) =? 0).

Lemma resume_suspend i : irq_ok i -> ResumeOSInterrupts (SuspendOSInterrupts i) = i.
Proof.
  destruct i as [n e]; intros [Hn He]; cbn in *; unfold ResumeOSInterrupts; cbn.
  destruct (Z.eqb_spec (n + 1) 0); [lia |]; rewrite Z.add_simpl_r; f_equal.
  rewrite He; by destruct (n =? 0).
Qed.

(** ** Nested areas *)
Section Areas.
Variable o0 : Irq.

(** The interrupt lock of the caller, [n] areas deeper. *)
Fixpoint areas (n : nat) : Irq := match n with O => o0 | S n => SuspendOSInterrupts (areas n) end.

Hypothesis Hirq : irq_ok o0.
Hypothesis Hroom : o0.(Os_IntSuspendAllCnt) <= 100.

Lemma areas_ok n : (n <= 20)%nat -> irq_ok (areas n).
Proof using Hirq Hroom.
  intros Hn. assert (Hcnt : Os_IntSuspendAllCnt (areas n) = Os_IntSuspendAllCnt o0 + Z.of_nat n).
  { clear Hn. induction n as [|n IH]; cbn [areas]; [lia|]. unfold SuspendOSInterrupts. cbn. lia. }
  destruct n as [|n]; [done|]. destruct Hirq as [Hc _]. split; [lia|]. rewrite Hcnt. cbn.
  symmetry. apply Z.eqb_neq. lia.
Qed.
End Areas.
