(* ===== verification/Queue.v ===== *)
(** * The FIFO queue

    [datastructures/Queue/src/Queue.c] and [inc/Queue.h]: a circular buffer of
    elements of a size chosen by the user, in memory supplied by the user.  The
    pointers of [Queue_t] into that memory are byte offsets from its start; the
    memory itself is part of the world the operations act on, together with the
    interrupt lock of the operating system ([system/Os/rtos/inc/Os.h]). *)

From S2P Require Import Prelude.
From S2P Require Import Os_Irq.

(** What the operations act on besides the queue: the user's buffer and the lock. *)
Record World := { mem : list Z; irq : Irq }.

Definition suspend (w : World) : World := {| mem := w.(mem); irq := SuspendOSInterrupts w.(irq) |}.
Definition resume (w : World) : World := {| mem := w.(mem); irq := ResumeOSInterrupts w.(irq) |}.
Definition set_mem (m : list Z) (w : World) : World := {| mem := m; irq := w.(irq) |}.

(** [MEMCPY(dst + i, src, n)] into a block, and the source bytes at an offset. *)
Definition memcpy (dst : list Z) (i : Z) (src : list Z) (n : Z) : option (list Z) :=
  if (0 <=? i) && (i + n <=? Z.of_nat (length dst)) && (n <=? Z.of_nat (length src))
  then Some (patch dst (Z.to_nat i) (take (Z.to_nat n) src)) else None.

(** ** Queue.h *)
Definition QUEUE_E_OK := 0.
Definition QUEUE_E_TRUE := 1.
Definition QUEUE_E_NO_INIT := 2.
Definition QUEUE_E_FULL := 130.
Definition QUEUE_E_NO_DATA := 131.
Definition QUEUE_E_LOST_DATA := 5.
Definition QUEUE_E_NO_CONTAINS := 7.
Definition QUEUE_E_ALREADY_INIT := 8.
Definition QUEUE_E_FALSE := 9.
Definition QUEUE_E_NULL := 10.

(** A comparison: two pointers and a size; [None] when it reads out of bounds. *)
Definition cmpFunc := list Z -> list Z -> Z -> option Z.

Record Queue_t := {
  max_count : Z;
  count : Z;
  bufFullFlag : bool;
  isInit : bool;
  dataSize : Z;
  head : Z;
  tail : Z;
  bufStart : Z;
  bufEnd : Z;
  compare_func : cmpFunc
}.

Definition set_bufFullFlag b q := {| max_count := q.(max_count); count := q.(count);
  bufFullFlag := b; isInit := q.(isInit); dataSize := q.(dataSize); head := q.(head);
  tail := q.(tail); bufStart := q.(bufStart); bufEnd := q.(bufEnd);
  compare_func := q.(compare_func) |}.

Definition set_head h n q := {| max_count := q.(max_count); count := n;
  bufFullFlag := q.(bufFullFlag); isInit := q.(isInit); dataSize := q.(dataSize); head := h;
  tail := q.(tail); bufStart := q.(bufStart); bufEnd := q.(bufEnd);
  compare_func := q.(compare_func) |}.

Definition set_tail t n q := {| max_count := q.(max_count); count := n;
  bufFullFlag := q.(bufFullFlag); isInit := q.(isInit); dataSize := q.(dataSize);
  head := q.(head); tail := t; bufStart := q.(bufStart); bufEnd := q.(bufEnd);
  compare_func := q.(compare_func) |}.

(** ** Queue.c

    Every operation returns its code, the world and the queue; [None] is a
    memory fault.  The buffer handed to [Queue_Init] is the block [mem]; the
    flag [buffer] says whether the pointer to it is not null. *)
Definition Queue_Init (w : World) (queue : option Queue_t) (buffer : bool) (max_count dataSize : Z)
    (cmp : option cmpFunc) : Z * World * option Queue_t :=
  let w := suspend w in
  match queue, buffer, cmp with
  | Some q, true, Some cmp =>
      if q.(isInit) then (QUEUE_E_ALREADY_INIT, resume w, queue)
      else
        (QUEUE_E_OK, resume w,
         Some {| max_count := max_count; count := 0; bufFullFlag := false; isInit := true;
                 dataSize := dataSize; head := 0; tail := 0; bufStart := 0;
                 bufEnd := max_count * dataSize; compare_func := cmp |})
  | _, _, _ => (QUEUE_E_NULL, resume w, queue)
  end.

(** [p = p + dataSize; if (p == bufEnd) p = bufStart;] *)
Definition advance (q : Queue_t) (p : Z) : Z :=
  let p := p + q.(dataSize) in
  if p =? q.(bufEnd) then q.(bufStart) else p.

Definition Queue_Add (w : World) (queue : option Queue_t) (dataPtr : option (list Z))
  : option (Z * World * option Queue_t) :=
  let w := suspend w in
  match queue, dataPtr with
  | Some q, Some data =>
      if negb q.(isInit) then Some (QUEUE_E_NO_INIT, resume w, queue)
      else if q.(count) =? q.(max_count)
      then Some (QUEUE_E_FULL, resume w, Some (set_bufFullFlag true q))
      else
        m ← memcpy w.(mem) q.(head) data q.(dataSize);
        Some (QUEUE_E_OK, resume (set_mem m w),
              Some (set_head (advance q q.(head)) (u8 (q.(count) + 1)) q))
  | _, _ => Some (QUEUE_E_NULL, resume w, queue)
  end.

(** The result also has the caller's block after the call. *)
Definition Queue_Next (w : World) (queue : option Queue_t) (dataPtr : option (list Z))
  : option (Z * World * option Queue_t * option (list Z)) :=
  let w := suspend w in
  match queue, dataPtr with
  | Some q, Some data =>
      if negb q.(isInit) then Some (QUEUE_E_NO_INIT, resume w, queue, dataPtr)
      else if q.(count) =? 0 then Some (QUEUE_E_NO_DATA, resume w, queue, dataPtr)
      else
        data ← memcpy data 0 (ptr_at w.(mem) q.(tail)) q.(dataSize);
        let q := set_tail (advance q q.(tail)) (u8 (q.(count) - 1)) q in
        if q.(bufFullFlag)
        then Some (QUEUE_E_LOST_DATA, resume w, Some (set_bufFullFlag false q), Some data)
        else Some (QUEUE_E_OK, resume w, Some q, Some data)
  | _, _ => Some (QUEUE_E_NULL, resume w, queue, dataPtr)
  end.

Definition Queue_Peek (w : World) (queue : option Queue_t) (dataPtr : option (list Z))
  : option (Z * World * option (list Z)) :=
  let w := suspend w in
  match queue, dataPtr with
  | Some q, Some data =>
      if negb q.(isInit) then Some (QUEUE_E_NO_INIT, resume w, dataPtr)
      else if q.(count) =? 0 then Some (QUEUE_E_NO_DATA, resume w, dataPtr)
      else
        data ← memcpy data 0 (ptr_at w.(mem) q.(tail)) q.(dataSize);
        Some (QUEUE_E_OK, resume w, Some data)
  | _, _ => Some (QUEUE_E_NULL, resume w, dataPtr)
  end.

(** The loop of [Queue_Contains], with [n] iterations to go. *)
Fixpoint contains_loop (q : Queue_t) (m data : list Z) (iter : Z) (n : nat) : option Z :=
  match n with
  | O => Some QUEUE_E_FALSE
  | S n =>
      r ← q.(compare_func) (ptr_at m iter) data q.(dataSize);
      if r =? 0 then Some QUEUE_E_TRUE
      else contains_loop q m data (iter + q.(dataSize)) n
  end.

Definition Queue_Contains (w : World) (queue : option Queue_t) (dataPtr : option (list Z))
  : option (Z * World) :=
  let w := suspend w in
  match queue, dataPtr with
  | Some q, Some data =>
      if negb q.(isInit) then Some (QUEUE_E_NO_INIT, resume w)
      else if q.(count) =? 0 then Some (QUEUE_E_NO_DATA, resume w)
      else
        r ← contains_loop q w.(mem) data q.(tail) (Z.to_nat q.(count));
        Some (r, resume w)
  | _, _ => Some (QUEUE_E_NULL, resume w)
  end.

(** ** The lock *)
Lemma resume_world w : irq_ok w.(irq) -> resume (suspend w) = w.
Proof. destruct w; intros; unfold resume, suspend; cbn; by rewrite resume_suspend. Qed.

(** ** Slots of the buffer *)
Lemma segment_patch_eq m a xs :
  0 <= a -> a + Z.of_nat (length xs) <= Z.of_nat (length m) ->
  segment (patch m (Z.to_nat a) xs) a (Z.of_nat (length xs)) = xs.
Proof.
  intros Ha Hl; apply list_eq; intros i; unfold segment; rewrite Nat2Z.id.
  destruct (decide (i < length xs)%nat).
  - rewrite lookup_take_lt, lookup_drop, lookup_patch by lia.
    destruct (decide _); [f_equal; lia | lia].
  - rewrite lookup_take_ge, lookup_ge_None_2 by lia; done.
Qed.

Lemma segment_patch_ne m a xs b n :
  0 <= a -> 0 <= b -> a + Z.of_nat (length xs) <= Z.of_nat (length m) ->
  b + n <= a \/ a + Z.of_nat (length xs) <= b ->
  segment (patch m (Z.to_nat a) xs) b n = segment m b n.
Proof.
  intros Ha Hb Hl Hd; apply list_eq; intros i; unfold segment.
  destruct (decide (i < Z.to_nat n)%nat).
  - rewrite !lookup_take_lt, !lookup_drop, lookup_patch by lia.
    destruct (decide _); [lia | done].
  - by rewrite !lookup_take_ge by lia.
Qed.

Lemma slots_disjoint s s' d : 0 < d -> s <> s' -> s * d + d <= s' * d \/ s' * d + d <= s * d.
Proof. intros; destruct (Z.lt_total s s') as [| [|]]; [left; nia | done | right; nia]. Qed.

Lemma slots_differ M t i j :
  0 < M -> 0 <= i < j -> j < M -> (t + i) mod M <> (t + j) mod M.
Proof.
  intros HM Hi Hj E.
  assert (Hz : ((t + j) - (t + i)) mod M = 0) by (rewrite Zminus_mod, E, Z.sub_diag; by apply Z.mod_0_l; lia).
  replace (t + j - (t + i)) with (j - i) in Hz by lia; rewrite Z.mod_small in Hz by lia; lia.
Qed.

(** [holds q m t xs lost]: the queue [q] over the memory [m] has its oldest
    element in slot [t] and contains [xs]; [lost] says that an element was
    refused since the last removal. *)
Record holds (q : Queue_t) (m : list Z) (t : Z) (xs : list (list Z)) (lost : bool) : Prop := {
  h_init : q.(isInit) = true;
  h_size : 0 < q.(dataSize);
  h_max : 1 <= q.(max_count) <= 255;
  h_start : q.(bufStart) = 0;
  h_end : q.(bufEnd) = q.(max_count) * q.(dataSize);
  h_room : q.(bufEnd) <= Z.of_nat (length m);
  h_count : q.(count) = Z.of_nat (length xs);
  h_cap : Z.of_nat (length xs) <= q.(max_count);
  h_slot : 0 <= t < q.(max_count);
  h_tail : q.(tail) = t * q.(dataSize);
  h_head : q.(head) = ((t + q.(count)) mod q.(max_count)) * q.(dataSize);
  h_lost : q.(bufFullFlag) = lost;
  h_items : forall i x, xs !! i = Some x ->
    segment m (((t + Z.of_nat i) mod q.(max_count)) * q.(dataSize)) q.(dataSize) = x
}.

Lemma advance_slot q m t xs lost s :
  holds q m t xs lost -> 0 <= s < q.(max_count) ->
  advance q (s * q.(dataSize)) = ((s + 1) mod q.(max_count)) * q.(dataSize).
Proof.
  intros [_ Hd Hm Hs He _ _ _ _ _ _ _ _] Hslot; unfold advance; rewrite Hs, He.
  destruct (Z.eqb_spec (s * dataSize q + dataSize q) (max_count q * dataSize q)) as [E | Hne].
  - assert (s + 1 = max_count q) as -> by nia; by rewrite Z.mod_same by lia.
  - rewrite Z.mod_small by nia; lia.
Qed.

Lemma slot_room q m t xs lost s :
  holds q m t xs lost -> 0 <= s < q.(max_count) ->
  0 <= s * q.(dataSize) /\ s * q.(dataSize) + q.(dataSize) <= Z.of_nat (length m).
Proof.
  intros [_ Hd Hm _ He Hr _ _ _ _ _ _ _] Hslot; rewrite He in Hr; nia.
Qed.

Lemma memcpy_in dst i src n :
  0 <= i -> 0 <= n -> i + n <= Z.of_nat (length dst) -> n <= Z.of_nat (length src) ->
  memcpy dst i src n = Some (patch dst (Z.to_nat i) (take (Z.to_nat n) src)).
Proof.
  intros; unfold memcpy.
  by rewrite (proj2 (Z.leb_le 0 i)), (proj2 (Z.leb_le (i + n) _)), (proj2 (Z.leb_le n _)) by lia.
Qed.

(** *** Adding and removing an element *)
Lemma holds_add q m t xs lost x :
  holds q m t xs lost -> Z.of_nat (length xs) < q.(max_count) ->
  q.(dataSize) <= Z.of_nat (length x) ->
  exists m', memcpy m q.(head) x q.(dataSize) = Some m' /\ length m' = length m /\
    holds (set_head (advance q q.(head)) (u8 (q.(count) + 1)) q) m' t
      (xs ++ [take (Z.to_nat q.(dataSize)) x]) lost.
Proof.
  intros H Hfull Hx; pose proof H as [Hi Hd Hm Hs He Hr Hc Hcap Hsl Ht Hh Hlost Hit].
  set (s := (t + q.(count)) mod q.(max_count)) in *.
  assert (Hslot : 0 <= s < q.(max_count)) by (apply Z.mod_pos_bound; lia).
  destruct (slot_room _ _ _ _ _ s H Hslot) as [R1 R2].
  rewrite Hh, memcpy_in by lia; set (y := take _ x).
  assert (Hy : length y = Z.to_nat q.(dataSize)) by (unfold y; rewrite length_take; lia).
  eexists; split; [done |]; split; [apply length_patch; lia |].
  split; cbn [isInit dataSize max_count bufStart bufEnd count tail head bufFullFlag set_head]; try done.
  - rewrite length_patch by lia; done.
  - rewrite length_app; unfold u8; rewrite Z.mod_small; cbn [length]; lia.
  - rewrite length_app; cbn [length]; lia.
  - rewrite (advance_slot _ _ _ _ _ _ H Hslot); unfold s, u8.
    rewrite Zplus_mod_idemp_l, (Z.mod_small (count q + 1) (2 ^ 8)) by lia; rewrite Z.add_assoc; done.
  - intros i z Hz; apply lookup_app_Some in Hz as [Hz | [Hge Hz]].
    + rewrite <- (Hit i z Hz); apply lookup_lt_Some in Hz.
      assert (0 <= (t + Z.of_nat i) mod q.(max_count) < q.(max_count)) as Hsi
        by (apply Z.mod_pos_bound; lia).
      apply segment_patch_ne; [lia | nia | lia |].
      replace (Z.of_nat (length y)) with q.(dataSize) by lia.
      destruct (slots_disjoint ((t + Z.of_nat i) mod q.(max_count)) s q.(dataSize)) as [|]; [done | | lia | lia].
      unfold s; rewrite Hc; apply slots_differ; lia.
    + apply list_lookup_singleton_Some in Hz as [Hi0 <-].
      replace (Z.of_nat i) with q.(count) by lia; fold s.
      pose proof (segment_patch_eq m (s * q.(dataSize)) y) as Hseg.
      rewrite Hy, Z2Nat.id in Hseg by lia; apply Hseg; lia.
Qed.

Lemma holds_front q m t x xs lost :
  holds q m t (x :: xs) lost ->
  segment m q.(tail) q.(dataSize) = x /\ length x = Z.to_nat q.(dataSize) /\
  take (Z.to_nat q.(dataSize)) (ptr_at m q.(tail)) = x /\
  q.(tail) + q.(dataSize) <= Z.of_nat (length m) /\ 0 <= q.(tail).
Proof.
  intros H; pose proof H as [Hi Hd Hm Hs He Hr Hc Hcap Hsl Ht Hh Hlost Hit].
  destruct (slot_room _ _ _ _ _ t H Hsl) as [R1 R2]; rewrite <- Ht in R1, R2.
  assert (Hx : segment m q.(tail) q.(dataSize) = x).
  { rewrite Ht; rewrite <- (Hit 0%nat x eq_refl), Z.add_0_r; by rewrite Z.mod_small by lia. }
  split; [done |]; split; [rewrite <- Hx; apply length_segment; lia |]; done.
Qed.

Lemma holds_next q m t x xs lost lost' :
  holds q m t (x :: xs) lost ->
  holds (set_bufFullFlag lost' (set_tail (advance q q.(tail)) (u8 (q.(count) - 1)) q)) m
    ((t + 1) mod q.(max_count)) xs lost'.
Proof.
  intros H; pose proof H as [Hi Hd Hm Hs He Hr Hc Hcap Hsl Ht Hh Hlost Hit]; cbn [length] in *.
  assert (Hu : u8 (q.(count) - 1) = Z.of_nat (length xs))
    by (unfold u8; rewrite Z.mod_small; lia).
  split; cbn [isInit dataSize max_count bufStart bufEnd count tail head bufFullFlag set_tail
    set_bufFullFlag]; try done.
  - lia.
  - apply Z.mod_pos_bound; lia.
  - rewrite Ht; by apply (advance_slot _ _ _ _ _ _ H).
  - rewrite Hh, Hu, Zplus_mod_idemp_l; do 2 f_equal; lia.
  - intros i y Hy; rewrite Zplus_mod_idemp_l, <- (Hit (S i) y Hy); do 3 f_equal; lia.
Qed.

(** ** The contract: a bounded FIFO

    The abstract queue is a list of elements and whether an element was refused
    since the last removal.  [FifoImpl] is what an implementation promises;
    [Queue.c] keeps it here, [Safety_Queue.c] in [Safety_Queue.v]. *)
Record Fifo := { items : list (list Z); refused : bool }.

(** [Next] and [Peek] are given the block the element is copied to. *)
Inductive Op := Add (x : list Z) | Next (blk : list Z) | Peek (blk : list Z).

Definition op_ok (size : Z) (o : Op) : Prop :=
  match o with Add b | Next b | Peek b => bytes b /\ size <= Z.of_nat (length b) end.

Definition fifo_step (cap size : Z) (f : Fifo) (o : Op) : Z * option (list Z) * Fifo :=
  match o with
  | Add x =>
      if Z.of_nat (length f.(items)) =? cap
      then (QUEUE_E_FULL, None, {| items := f.(items); refused := true |})
      else (QUEUE_E_OK, None,
            {| items := f.(items) ++ [take (Z.to_nat size) x]; refused := f.(refused) |})
  | Next blk =>
      match f.(items) with
      | [] => (QUEUE_E_NO_DATA, Some blk, f)
      | x :: xs => (if f.(refused) then QUEUE_E_LOST_DATA else QUEUE_E_OK, Some (patch blk 0 x),
                    {| items := xs; refused := false |})
      end
  | Peek blk =>
      match f.(items) with
      | [] => (QUEUE_E_NO_DATA, Some blk, f)
      | x :: _ => (QUEUE_E_OK, Some (patch blk 0 x), f)
      end
  end.

Fixpoint fifo_run (cap size : Z) (f : Fifo) (os : list Op) : list (Z * option (list Z)) * Fifo :=
  match os with
  | [] => ([], f)
  | o :: os =>
      let '(r, f) := fifo_step cap size f o in
      let '(rs, f) := fifo_run cap size f os in (r :: rs, f)
  end.

Class FifoImpl (S : Type) := {
  fi_step : S -> Op -> option (Z * option (list Z) * S);
  fi_rep : Z -> Z -> S -> Fifo -> Prop;
  fi_step_ok : forall cap size s f o,
    fi_rep cap size s f -> op_ok size o ->
    exists s', fi_step s o = Some (fst (fifo_step cap size f o), s') /\
               fi_rep cap size s' (snd (fifo_step cap size f o))
}.

Section Runs.
Context {S : Type} `{FI : FifoImpl S}.

Fixpoint fi_run (s : S) (os : list Op) : option (list (Z * option (list Z)) * S) :=
  match os with
  | [] => Some ([], s)
  | o :: os =>
      '(r, s) ← fi_step s o;
      '(rs, s) ← fi_run s os;
      Some (r :: rs, s)
  end.

Lemma fi_run_ok cap size s f os :
  fi_rep cap size s f -> Forall (op_ok size) os ->
  exists s', fi_run s os = Some (fst (fifo_run cap size f os), s') /\
             fi_rep cap size s' (snd (fifo_run cap size f os)).
Proof using Type.
  intros Hrep Hos; revert s f Hrep.
  induction Hos as [| o os Ho _ IH]; intros s f Hrep; cbn [fi_run fifo_run]; [by exists s |].
  destruct (fi_step_ok cap size s f o Hrep Ho) as (s1 & -> & Hrep1); cbn [mbind option_bind].
  destruct (fifo_step cap size f o) as [r f1]; cbn [fst snd] in *.
  destruct (IH s1 f1 Hrep1) as (s2 & -> & Hrep2); cbn [mbind option_bind].
  destruct (fifo_run cap size f1 os) as [rs f2]; by exists s2.
Qed.
End Runs.

(** ** [Queue.c] keeps the contract *)
Definition queue_step (s : World * Queue_t) (o : Op)
  : option (Z * option (list Z) * (World * Queue_t)) :=
  let '(w, q) := s in
  match o with
  | Add x =>
      '(r, w, q) ← Queue_Add w (Some q) (Some x);
      q ← q; Some (r, None, (w, q))
  | Next blk =>
      '(r, w, q, d) ← Queue_Next w (Some q) (Some blk);
      q ← q; Some (r, d, (w, q))
  | Peek blk =>
      '(r, w, d) ← Queue_Peek w (Some q) (Some blk);
      Some (r, d, (w, q))
  end.

(** The lock is as it was before the operations. *)
Definition queue_rep (i : Irq) (cap size : Z) (s : World * Queue_t) (f : Fifo) : Prop :=
  (snd s).(max_count) = cap /\ (snd s).(dataSize) = size /\ (fst s).(irq) = i /\ irq_ok i /\
  exists t, holds (snd s) (fst s).(mem) t f.(items) f.(refused).

Lemma resume_set_mem w m : irq_ok w.(irq) -> resume (set_mem m (suspend w)) = set_mem m w.
Proof. destruct w; intros; unfold resume, suspend, set_mem; cbn; by rewrite resume_suspend. Qed.

Lemma holds_flag q m t xs lost lost' :
  holds q m t xs lost -> holds (set_bufFullFlag lost' q) m t xs lost'.
Proof. by intros []; split. Qed.

Lemma flag_same q b : q.(bufFullFlag) = b -> set_bufFullFlag b q = q.
Proof. by destruct q; cbn; intros <-. Qed.

(** What [Next] and [Peek] copy out. *)
Lemma copy_front q m t x xs lost blk :
  holds q m t (x :: xs) lost -> q.(dataSize) <= Z.of_nat (length blk) ->
  memcpy blk 0 (ptr_at m q.(tail)) q.(dataSize) = Some (patch blk 0 x).
Proof.
  intros H Hblk; destruct (holds_front _ _ _ _ _ _ H) as (_ & _ & Hx & R1 & R2).
  pose proof (h_size _ _ _ _ _ H).
  rewrite memcpy_in by (unfold ptr_at; rewrite ?length_drop; lia); by rewrite Hx.
Qed.

Lemma queue_step_ok i cap size s f o :
  queue_rep i cap size s f -> op_ok size o ->
  exists s', queue_step s o = Some (fst (fifo_step cap size f o), s') /\
             queue_rep i cap size s' (snd (fifo_step cap size f o)).
Proof.
  destruct s as [w q], f as [xs lost]; intros (<- & <- & <- & Hirq & t & H) Ho.
  cbn [fst snd items refused] in *.
  pose proof (h_init _ _ _ _ _ H) as Hi; pose proof (h_count _ _ _ _ _ H) as Hc.
  destruct o as [x | blk | blk]; destruct Ho as [_ Ho]; cbn [queue_step fifo_step items refused].
  - unfold Queue_Add; rewrite Hi, Hc; cbn [negb items].
    destruct (Z.eqb_spec (Z.of_nat (length xs)) q.(max_count)) as [E | Hne].
    + cbn [mbind option_bind]; rewrite resume_world by done.
      eexists; split; [done |]; repeat (split; [done |]); exists t; by eapply holds_flag.
    + destruct (holds_add q _ t xs lost x H) as (m & Hm & _ & H');
        [pose proof (h_cap _ _ _ _ _ H); lia | done |].
      cbn [suspend mem]; rewrite Hm; cbn [mbind option_bind]; rewrite resume_set_mem, <- Hc by done.
      eexists; split; [done |]; repeat (split; [done |]); by exists t.
  - unfold Queue_Next; rewrite Hi; cbn [negb]; destruct xs as [| x xs].
    + rewrite Hc; cbn; rewrite resume_world by done.
      eexists; split; [done |]; repeat (split; [done |]); by exists t.
    + destruct (Z.eqb_spec q.(count) 0) as [E | _]; [cbn in Hc; lia |].
      cbn [suspend mem]; rewrite (copy_front _ _ _ _ _ _ _ H Ho); cbn [mbind option_bind].
      change (bufFullFlag (set_tail ?t ?n ?q)) with (bufFullFlag q).
      rewrite (h_lost _ _ _ _ _ H); fold (suspend w); rewrite resume_world by done.
      pose proof (holds_next _ _ _ _ _ _ false H) as H'.
      destruct lost; cbn [mbind option_bind]; eexists; (split; [done |]);
        repeat (split; [done |]); eexists; [exact H' |].
      by rewrite flag_same in H' by (cbn; apply H).
  - unfold Queue_Peek; rewrite Hi; cbn [negb]; destruct xs as [| x xs].
    + rewrite Hc; cbn; rewrite resume_world by done.
      eexists; split; [done |]; repeat (split; [done |]); by exists t.
    + destruct (Z.eqb_spec q.(count) 0) as [E | _]; [cbn in Hc; lia |].
      cbn [suspend mem]; rewrite (copy_front _ _ _ _ _ _ _ H Ho); cbn [mbind option_bind].
      fold (suspend w); rewrite resume_world by done.
      eexists; split; [done |]; repeat (split; [done |]); by exists t.
Qed.

#[export] Instance Queue_Fifo (i : Irq) : FifoImpl (World * Queue_t) := {|
  fi_step := queue_step; fi_rep := queue_rep i; fi_step_ok := queue_step_ok i
|}.

(** ** Theorems *)

(** C22. From [Queue_Init] on, any sequence of [Queue_Add], [Queue_Next] and
    [Queue_Peek] behaves as a FIFO of [max_count] elements: the codes and the
    data copied out are those of the abstract queue, the loss of an element is
    reported once by the next removal, no access leaves the buffer, and the
    interrupt lock is left as it was found. *)
Theorem queue_refines_fifo w q cap size cmp os :
  q.(isInit) = false -> 1 <= cap <= 255 -> 0 < size ->
  cap * size <= Z.of_nat (length w.(mem)) -> irq_ok w.(irq) -> Forall (op_ok size) os ->
  exists q0 w' q',
    Queue_Init w (Some q) true cap size (Some cmp) = (QUEUE_E_OK, w, Some q0) /\
    fi_run (FI := Queue_Fifo w.(irq)) (w, q0) os =
      Some (fst (fifo_run cap size {| items := []; refused := false |} os), (w', q')) /\
    w'.(irq) = w.(irq).
Proof.
  intros Hi Hcap Hsize Hroom Hirq Hos; unfold Queue_Init; rewrite Hi, resume_world by done.
  eexists; set (q0 := Build_Queue_t _ _ _ _ _ _ _ _ _ _).
  destruct (fi_run_ok (FI := Queue_Fifo w.(irq)) cap size (w, q0)
              {| items := []; refused := false |} os) as ([w' q'] & Hrun & Hrep).
  - repeat (split; [done |]); exists 0; split; cbn; try done; try lia.
  - done.
  - exists w', q'; split; [done |]; split; [done |]; apply Hrep.
Qed.

(** [Queue_Contains] answers whether the queue has an element equal to the
    given one, for a comparison that tells equal elements, as long as the
    elements lie in one piece (have not wrapped around the end of the buffer). *)
Theorem queue_contains_unwrapped w q t xs lost data :
  holds q w.(mem) t xs lost -> irq_ok w.(irq) -> xs <> [] ->
  t + Z.of_nat (length xs) <= q.(max_count) ->
  (forall p, q.(dataSize) <= Z.of_nat (length p) ->
     exists r, q.(compare_func) p data q.(dataSize) = Some r /\
       (r = 0 <-> take (Z.to_nat q.(dataSize)) p = data)) ->
  Queue_Contains w (Some q) (Some data) =
    Some (if decide (data ∈ xs) then QUEUE_E_TRUE else QUEUE_E_FALSE, w).
Proof.
  intros H Hirq Hne Hwrap Hcmp; pose proof H as [Hi Hd Hm _ He Hr Hc _ Hsl Ht _ _ Hit].
  unfold Queue_Contains; rewrite Hi, Hc; cbn [negb].
  destruct (Z.eqb_spec (Z.of_nat (length xs)) 0); [by destruct xs |].
  rewrite resume_world, Nat2Z.id by done; cbn [suspend mem].
  enough (Hloop : contains_loop q w.(mem) data q.(tail) (length xs) =
                  Some (if decide (data ∈ xs) then QUEUE_E_TRUE else QUEUE_E_FALSE))
    by (by rewrite Hloop).
  assert (Hall : forall i x, xs !! i = Some x ->
            take (Z.to_nat q.(dataSize)) (ptr_at w.(mem) (q.(tail) + Z.of_nat i * q.(dataSize))) = x).
  { intros i x Hx; rewrite <- (Hit i x Hx); apply lookup_lt_Some in Hx.
    rewrite Z.mod_small by lia; unfold segment, ptr_at; do 3 f_equal; lia. }
  assert (Hfit : q.(tail) + Z.of_nat (length xs) * q.(dataSize) <= Z.of_nat (length w.(mem)))
    by (rewrite He in Hr; nia).
  assert (Htail : 0 <= q.(tail)) by nia.
  revert Hall Hfit Htail; clear - Hcmp Hd; generalize q.(tail) as p.
  induction xs as [| x xs IH]; intros p Hall Hfit Hp; cbn [length contains_loop]; [done |].
  destruct (Hcmp (ptr_at w.(mem) p)) as (r & -> & Hr);
    [unfold ptr_at; rewrite length_drop; cbn [length] in Hfit; nia |]; cbn [mbind option_bind].
  pose proof (Hall 0%nat x eq_refl) as Hx; rewrite Z.mul_0_l, Z.add_0_r in Hx; rewrite Hx in Hr.
  destruct (Z.eqb_spec r 0) as [E | Hnz].
  - apply Hr in E as ->; rewrite decide_True; [done | by left].
  - rewrite IH.
    + do 2 f_equal; apply decide_ext; rewrite elem_of_cons; split; [by right |].
      intros [-> | ?]; [by exfalso; apply Hnz, Hr | done].
    + intros i y Hy; rewrite <- (Hall (S i) y Hy); do 2 f_equal; lia.
    + cbn [length] in Hfit; lia.
    + lia.
Qed.

(** [memcmp] of the C library, on blocks: equal or not. *)
Definition memcmp (a b : list Z) (n : Z) : option Z :=
  if (n <=? Z.of_nat (length a)) && (n <=? Z.of_nat (length b))
  then Some (if decide (take (Z.to_nat n) a = take (Z.to_nat n) b) then 0 else 1) else None.

(** Nothing stored yet. *)
Definition blank_queue : Queue_t := {|
  max_count := 0; count := 0; bufFullFlag := false; isInit := false; dataSize := 0; head := 0;
  tail := 0; bufStart := 0; bufEnd := 0; compare_func := memcmp
|}.

Definition unlocked : Irq := {| Os_IntSuspendAllCnt := 0; irq_enabled := true |}.

(** [Queue_Contains] does not follow the elements around the end of the
    buffer: after one removal and one more addition to a full queue of two, the
    search for the element just added reads past the end of a buffer of two
    bytes, and with other data behind the buffer it answers [FALSE]. *)
Theorem queue_contains_wrap_bug :
  let ops := [Add [1]; Add [2]; Next [0]; Add [3]] in
  let start m := fi_run (FI := Queue_Fifo unlocked)
    ({| mem := m; irq := unlocked |},
     {| max_count := 2; count := 0; bufFullFlag := false; isInit := true; dataSize := 1;
        head := 0; tail := 0; bufStart := 0; bufEnd := 2; compare_func := memcmp |}) ops in
  snd (fifo_run 2 1 {| items := []; refused := false |} ops)
    = {| items := [[2]; [3]]; refused := false |} /\
  (exists outs w q, start [0; 0] = Some (outs, (w, q)) /\
     Queue_Contains w (Some q) (Some [3]) = None) /\
  (exists outs w q, start [0; 0; 77] = Some (outs, (w, q)) /\
     Queue_Contains w (Some q) (Some [3]) = Some (QUEUE_E_FALSE, w)).
Proof.
  cbv zeta; split; [reflexivity |]; split; eexists _, _, _; split; reflexivity.
Qed.

(** Errors: null pointers, an uninitialised queue and a second initialisation
    are reported and change nothing. *)
Theorem queue_errors w q b cap size cmp d blk :
  irq_ok w.(irq) ->
  Queue_Init w None b cap size cmp = (QUEUE_E_NULL, w, None) /\
  Queue_Init w q false cap size cmp = (QUEUE_E_NULL, w, q) /\
  Queue_Add w None d = Some (QUEUE_E_NULL, w, None) /\
  Queue_Next w q None = Some (QUEUE_E_NULL, w, q, None) /\
  Queue_Peek w None d = Some (QUEUE_E_NULL, w, d) /\
  Queue_Contains w q None = Some (QUEUE_E_NULL, w) /\
  (forall q', q'.(isInit) = false ->
     Queue_Add w (Some q') (Some blk) = Some (QUEUE_E_NO_INIT, w, Some q') /\
     Queue_Next w (Some q') (Some blk) = Some (QUEUE_E_NO_INIT, w, Some q', Some blk) /\
     Queue_Peek w (Some q') (Some blk) = Some (QUEUE_E_NO_INIT, w, Some blk) /\
     Queue_Contains w (Some q') (Some blk) = Some (QUEUE_E_NO_INIT, w)) /\
  (forall q' f, q'.(isInit) = true ->
     Queue_Init w (Some q') true cap size (Some f) = (QUEUE_E_ALREADY_INIT, w, Some q')).
Proof.
  intros Hirq; unfold Queue_Init, Queue_Add, Queue_Next, Queue_Peek, Queue_Contains.
  rewrite !resume_world by done; split_and!.
  - done.
  - by destruct q.
  - done.
  - by destruct q.
  - done.
  - by destruct q.
  - intros q' ->; done.
  - intros q' f ->; done.
Qed.

(** ** Witnesses *)
Lemma queue_refines_fifo_witness :
  exists q0 w' q',
    Queue_Init {| mem := [9; 9; 9; 9; 9; 9; 9]; irq := unlocked |} (Some blank_queue) true 3 2
      (Some memcmp) = (QUEUE_E_OK, {| mem := [9; 9; 9; 9; 9; 9; 9]; irq := unlocked |}, Some q0) /\
    fi_run (FI := Queue_Fifo unlocked) ({| mem := [9; 9; 9; 9; 9; 9; 9]; irq := unlocked |}, q0)
      [Add [1; 2]; Add [3; 4]; Next [0; 0]; Add [5; 6]; Add [7; 8]; Add [1; 1]; Next [0; 0];
       Peek [0; 0]; Next [0; 0]] =
    Some ([(QUEUE_E_OK, None); (QUEUE_E_OK, None); (QUEUE_E_OK, Some [1; 2]); (QUEUE_E_OK, None);
           (QUEUE_E_OK, None); (QUEUE_E_FULL, None); (QUEUE_E_LOST_DATA, Some [3; 4]);
           (QUEUE_E_OK, Some [5; 6]); (QUEUE_E_OK, Some [5; 6])], (w', q')) /\
    w'.(irq) = unlocked.
Proof.
  apply (queue_refines_fifo {| mem := [9; 9; 9; 9; 9; 9; 9]; irq := unlocked |} blank_queue 3 2
           memcmp [Add [1; 2]; Add [3; 4]; Next [0; 0]; Add [5; 6]; Add [7; 8]; Add [1; 1];
                   Next [0; 0]; Peek [0; 0]; Next [0; 0]]);
    [reflexivity | lia | lia | cbn; lia | split; [cbn; lia | reflexivity] |].
  repeat constructor; vm_compute; congruence.
Defined.

Lemma queue_contains_unwrapped_witness :
  Queue_Contains {| mem := [1; 2; 3; 4; 9; 9]; irq := unlocked |}
    (Some {| max_count := 3; count := 2; bufFullFlag := false; isInit := true; dataSize := 2;
             head := 4; tail := 0; bufStart := 0; bufEnd := 6; compare_func := memcmp |})
    (Some [3; 4]) = Some (QUEUE_E_TRUE, {| mem := [1; 2; 3; 4; 9; 9]; irq := unlocked |}).
Proof.
  apply (queue_contains_unwrapped {| mem := [1; 2; 3; 4; 9; 9]; irq := unlocked |} _ 0
           [[1; 2]; [3; 4]] false [3; 4]).
  - split; try reflexivity; cbn; try lia; intros [| [| [|]]] x [= <-]; reflexivity.
  - split; [cbn; lia | reflexivity].
  - discriminate.
  - cbn; lia.
  - cbn [dataSize compare_func]; intros p Hp; unfold memcmp.
    rewrite (proj2 (Z.leb_le _ _) Hp); cbn.
    eexists; split; [reflexivity |]; by destruct (decide _).
Defined.

Lemma queue_errors_witness :
  Queue_Add {| mem := []; irq := unlocked |} (Some blank_queue) (Some [1]) =
    Some (QUEUE_E_NO_INIT, {| mem := []; irq := unlocked |}, Some blank_queue).
Proof.
  apply (queue_errors {| mem := []; irq := unlocked |} None true 0 0 None None [1]);
    [split; [cbn; lia | reflexivity] | reflexivity].
Defined.
