(* ===== verification/Safety_Queue.v ===== *)
(** * The safety queue

    [datastructures/Safety_Queue/src/Safety_Queue.c] and [inc/Safety_Queue.h]:
    the queue of [Queue.v] with one CRC over the buffer and one over the control
    structure, checked before and renewed after every access. *)

From S2P Require Import Prelude CrcTheory Crc E2E Os_Irq Queue.

Definition QUEUE_E_CRC_ERR := 6.

(** [Safety_Queue_t] has the members of [Queue_t], then the two CRCs. *)
Record Safety_Queue_t := { base : Queue_t; bufferCrc : Z; queueCrc : Z }.

Section SafetyQueue.
Context `{CRC : CrcLib}.

(** The bytes of the structure before [queueCrc], as the compiler lays it out. *)
Variable layout : Queue_t -> Z -> list Z.

Definition currBufferCrc (w : World) (q : Queue_t) : option Z :=
  crc8 (Some (ptr_at w.(mem) q.(bufStart))) (u32 (q.(dataSize) * q.(max_count))) 0 true.

(** [Crc_CalculateCRC8((void* ) queue, without_buffer_size, 0u, first)] *)
Definition currQueueCrc (q : Queue_t) (bcrc : Z) (first : bool) : option Z :=
  crc8 (Some (layout q bcrc)) (Z.of_nat (length (layout q bcrc))) 0 first.

(** The check that opens the operations: does a CRC differ? *)
Definition crcs_differ (w : World) (sq : Safety_Queue_t) : option bool :=
  b ← currBufferCrc w sq.(base);
  c ← currQueueCrc sq.(base) sq.(bufferCrc) false;
  Some (negb (sq.(bufferCrc) =? b) || negb (sq.(queueCrc) =? c)).

(** "Update CRC values": both, or the one of the structure only. *)
Definition update_crcs (w : World) (q : Queue_t) : option Safety_Queue_t :=
  b ← currBufferCrc w q;
  c ← currQueueCrc q b true;
  Some {| base := q; bufferCrc := b; queueCrc := c |}.

Definition update_queueCrc (q : Queue_t) (bcrc : Z) : option Safety_Queue_t :=
  c ← currQueueCrc q bcrc true;
  Some {| base := q; bufferCrc := bcrc; queueCrc := c |}.

(** [bufFullFlag] is not assigned; the CRC of the structure is taken with the
    flag [Crc_IsFirstCall] clear. *)
Definition Safety_Queue_Init (w : World) (queue : option Safety_Queue_t) (buffer : bool)
    (max_count dataSize : Z) (cmp : option cmpFunc) : option (Z * World * option Safety_Queue_t) :=
  let w := suspend w in
  match queue, buffer, cmp with
  | Some sq, true, Some cmp =>
      if sq.(base).(isInit) then Some (QUEUE_E_ALREADY_INIT, resume w, queue)
      else
        let q := {| max_count := max_count; count := 0; bufFullFlag := sq.(base).(bufFullFlag);
                    isInit := true; dataSize := dataSize; head := 0; tail := 0; bufStart := 0;
                    bufEnd := max_count * dataSize; compare_func := cmp |} in
        b ← currBufferCrc w q;
        c ← currQueueCrc q b false;
        Some (QUEUE_E_OK, resume w, Some {| base := q; bufferCrc := b; queueCrc := c |})
  | _, _, _ => Some (QUEUE_E_NULL, resume w, queue)
  end.

Definition Safety_Queue_Add (w : World) (queue : option Safety_Queue_t)
    (dataPtr : option (list Z)) : option (Z * World * option Safety_Queue_t) :=
  let w := suspend w in
  match queue, dataPtr with
  | Some sq, Some data =>
      let q := sq.(base) in
      if negb q.(isInit) then Some (QUEUE_E_NO_INIT, resume w, queue)
      else
        differ ← crcs_differ w sq;
        if (differ : bool) then Some (QUEUE_E_CRC_ERR, resume w, queue)
        else if q.(count) =? q.(max_count) then
          sq ← update_queueCrc (set_bufFullFlag true q) sq.(bufferCrc);
          Some (QUEUE_E_FULL, resume w, Some sq)
        else
          m ← memcpy w.(mem) q.(head) data q.(dataSize);
          let w := set_mem m w in
          sq ← update_crcs w (set_head (advance q q.(head)) (u8 (q.(count) + 1)) q);
          Some (QUEUE_E_OK, resume w, Some sq)
  | _, _ => Some (QUEUE_E_NULL, resume w, queue)
  end.

Definition Safety_Queue_Next (w : World) (queue : option Safety_Queue_t)
    (dataPtr : option (list Z))
  : option (Z * World * option Safety_Queue_t * option (list Z)) :=
  let w := suspend w in
  match queue, dataPtr with
  | Some sq, Some data =>
      let q := sq.(base) in
      if negb q.(isInit) then Some (QUEUE_E_NO_INIT, resume w, queue, dataPtr)
      else if q.(count) =? 0 then Some (QUEUE_E_NO_DATA, resume w, queue, dataPtr)
      else
        differ ← crcs_differ w sq;
        if (differ : bool) then Some (QUEUE_E_CRC_ERR, resume w, queue, dataPtr)
        else
          data ← memcpy data 0 (ptr_at w.(mem) q.(tail)) q.(dataSize);
          let q := set_tail (advance q q.(tail)) (u8 (q.(count) - 1)) q in
          if q.(bufFullFlag) then
            sq ← update_queueCrc (set_bufFullFlag false q) sq.(bufferCrc);
            Some (QUEUE_E_LOST_DATA, resume w, Some sq, Some data)
          else
            sq ← update_crcs w q;
            Some (QUEUE_E_OK, resume w, Some sq, Some data)
  | _, _ => Some (QUEUE_E_NULL, resume w, queue, dataPtr)
  end.

Definition Safety_Queue_Peek (w : World) (queue : option Safety_Queue_t)
    (dataPtr : option (list Z)) : option (Z * World * option (list Z)) :=
  let w := suspend w in
  match queue, dataPtr with
  | Some sq, Some data =>
      let q := sq.(base) in
      if negb q.(isInit) then Some (QUEUE_E_NO_INIT, resume w, dataPtr)
      else
        differ ← crcs_differ w sq;
        if (differ : bool) then Some (QUEUE_E_CRC_ERR, resume w, dataPtr)
        else if q.(count) =? 0 then Some (QUEUE_E_NO_DATA, resume w, dataPtr)
        else
          data ← memcpy data 0 (ptr_at w.(mem) q.(tail)) q.(dataSize);
          Some (QUEUE_E_OK, resume w, Some data)
  | _, _ => Some (QUEUE_E_NULL, resume w, dataPtr)
  end.

(** The loop is that of [Queue_Contains]. *)
Definition Safety_Queue_Contains (w : World) (queue : option Safety_Queue_t)
    (dataPtr : option (list Z)) : option (Z * World) :=
  let w := suspend w in
  match queue, dataPtr with
  | Some sq, Some data =>
      let q := sq.(base) in
      if negb q.(isInit) then Some (QUEUE_E_NO_INIT, resume w)
      else
        differ ← crcs_differ w sq;
        if (differ : bool) then Some (QUEUE_E_CRC_ERR, resume w)
        else if q.(count) =? 0 then Some (QUEUE_E_NO_DATA, resume w)
        else
          r ← contains_loop q w.(mem) data q.(tail) (Z.to_nat q.(count));
          Some (r, resume w)
  | _, _ => Some (QUEUE_E_NULL, resume w)
  end.

(** ** Facts *)

(** The object representation is made of bytes and the structure is small. *)
Hypothesis layout_bytes : forall q b, bytes (layout q b).

Definition crc_of (xs : list Z) : Z := crc_from (S := crc8_ok) 0xFF xs.

Lemma crc_of_range xs : bytes xs -> is_u8 (crc_of xs).
Proof using Type. by apply crc_from_range. Qed.

(** The two ways of starting the CRC of the structure agree. *)
Lemma currQueueCrc_eq q b first : currQueueCrc q b first = Some (crc_of (layout q b)).
Proof using layout_bytes.
  unfold currQueueCrc; rewrite cs_calc; [| lia | apply layout_bytes | done].
  rewrite Nat2Z.id, take_ge by done; by destruct first.
Qed.

Definition room (w : World) (q : Queue_t) : Prop :=
  q.(bufStart) = 0 /\ 0 <= q.(dataSize) /\
  0 <= q.(max_count) * q.(dataSize) <= Z.of_nat (length w.(mem)) /\
  q.(max_count) * q.(dataSize) < 2 ^ 32 /\ bytes w.(mem).

Definition buffer_of (w : World) (q : Queue_t) : list Z :=
  take (Z.to_nat (q.(max_count) * q.(dataSize))) w.(mem).

Lemma currBufferCrc_eq w q : room w q -> currBufferCrc w q = Some (crc_of (buffer_of w q)).
Proof using Type.
  intros (Hs & _ & Hr & H32 & Hb); unfold currBufferCrc, ptr_at, u32, buffer_of.
  rewrite Hs, drop_0, (Z.mul_comm (dataSize q)), Z.mod_small by lia.
  by rewrite calc_first by (done || lia).
Qed.

(** The CRCs match the memory. *)
Record sealed (w : World) (sq : Safety_Queue_t) : Prop := {
  se_room : room w sq.(base);
  se_buffer : sq.(bufferCrc) = crc_of (buffer_of w sq.(base));
  se_queue : sq.(queueCrc) = crc_of (layout sq.(base) sq.(bufferCrc))
}.

Lemma crcs_differ_eq w sq :
  room w sq.(base) ->
  crcs_differ w sq =
    Some (negb (sq.(bufferCrc) =? crc_of (buffer_of w sq.(base))) ||
          negb (sq.(queueCrc) =? crc_of (layout sq.(base) sq.(bufferCrc)))).
Proof using layout_bytes.
  intros; unfold crcs_differ; rewrite currBufferCrc_eq by done; cbn [mbind option_bind].
  by rewrite currQueueCrc_eq.
Qed.

Lemma sealed_agrees w sq : sealed w sq -> crcs_differ w sq = Some false.
Proof using layout_bytes.
  intros [Hr Hb Hq]; rewrite crcs_differ_eq by done; by rewrite <- Hb, <- Hq, !Z.eqb_refl.
Qed.

Lemma update_crcs_sealed w q :
  room w q -> exists sq, update_crcs w q = Some sq /\ sq.(base) = q /\ sealed w sq.
Proof using layout_bytes.
  intros Hr; unfold update_crcs; rewrite currBufferCrc_eq by done; cbn [mbind option_bind].
  rewrite currQueueCrc_eq; cbn [mbind option_bind]; eexists; split; [done |]; by split.
Qed.

Lemma update_queueCrc_sealed w sq q :
  sealed w sq -> q.(bufStart) = sq.(base).(bufStart) -> q.(max_count) = sq.(base).(max_count) ->
  q.(dataSize) = sq.(base).(dataSize) ->
  exists sq', update_queueCrc q sq.(bufferCrc) = Some sq' /\ sq'.(base) = q /\ sealed w sq'.
Proof using layout_bytes.
  intros [Hr Hb _] E1 E2 E3; unfold update_queueCrc; rewrite currQueueCrc_eq.
  cbn [mbind option_bind]; eexists; split; [done |]; split; [done |].
  split; cbn [base bufferCrc queueCrc]; [| | done].
  - unfold room; by rewrite E1, E2, E3.
  - rewrite Hb; unfold buffer_of; by rewrite E2, E3.
Qed.

(** *** An intact safety queue does what the queue does, and stays intact *)
Lemma safety_add_like w sq x r w' q' :
  sealed w sq -> Queue_Add w (Some sq.(base)) (Some x) = Some (r, w', Some q') ->
  sq.(base).(isInit) = true -> bytes x ->
  exists sq', Safety_Queue_Add w (Some sq) (Some x) = Some (r, w', Some sq') /\
              sq'.(base) = q' /\ (irq_ok w.(irq) -> sealed w' sq').
Proof using layout_bytes.
  intros Hse Hadd Hi Hx; pose proof Hse as [(Hs & Hd & Hr & H32 & Hb) _ _].
  unfold Queue_Add in Hadd; unfold Safety_Queue_Add.
  change (crcs_differ (suspend w) sq) with (crcs_differ w sq).
  rewrite Hi in *; cbn [negb] in *; rewrite (sealed_agrees _ _ Hse); cbn [mbind option_bind].
  destruct (_ =? _).
  - injection Hadd as <- <- <-.
    destruct (update_queueCrc_sealed w sq (set_bufFullFlag true sq.(base)) Hse)
      as (sq' & -> & Hbase & Hse'); [done .. |]; cbn [mbind option_bind].
    exists sq'; split; [done |]; split; [done |]; intros; by rewrite resume_world.
  - destruct (memcpy _ _ _ _) as [m |] eqn:Em; cbn [mbind option_bind] in *; [| done].
    injection Hadd as <- <- <-; set (q' := set_head _ _ _).
    unfold memcpy in Em; destruct (_ && _) eqn:Ec; [| done]; injection Em as <-.
    rewrite !andb_true_iff, !Z.leb_le in Ec; cbn [suspend mem] in *; set (m := patch _ _ _).
    assert (Hlm : length m = length w.(mem)) by (apply length_patch; rewrite length_take; lia).
    assert (Hroom : room (set_mem m (suspend w)) q').
    { do 2 (split; [done |]); cbn [set_mem mem]; rewrite Hlm; do 2 (split; [done |]).
      apply bytes_patch; auto with mem. }
    destruct (update_crcs_sealed _ _ Hroom) as (sq' & -> & Hbase & Hse'); cbn [mbind option_bind].
    exists sq'; split; [done |]; split; [done |]; intros Hirq; rewrite resume_set_mem by done.
    by destruct Hse'; split.
Qed.

Lemma safety_next_like w sq blk r w' q' d :
  sealed w sq -> Queue_Next w (Some sq.(base)) (Some blk) = Some (r, w', Some q', d) ->
  sq.(base).(isInit) = true ->
  exists sq', Safety_Queue_Next w (Some sq) (Some blk) = Some (r, w', Some sq', d) /\
              sq'.(base) = q' /\ (irq_ok w.(irq) -> sealed w' sq').
Proof using layout_bytes.
  intros Hse Hnext Hi; pose proof Hse as [Hr _ _].
  unfold Queue_Next in Hnext; unfold Safety_Queue_Next.
  change (crcs_differ (suspend w) sq) with (crcs_differ w sq).
  rewrite Hi in *; cbn [negb] in *; destruct (_ =? 0).
  - injection Hnext as <- <- <- <-; exists sq; split; [done |]; split; [done |].
    intros; by rewrite resume_world.
  - rewrite (sealed_agrees _ _ Hse); cbn [mbind option_bind].
    destruct (memcpy _ _ _ _) as [data |]; cbn [mbind option_bind] in *; [| done].
    change (bufFullFlag (set_tail ?t ?n ?q)) with (bufFullFlag q) in *.
    destruct (bufFullFlag _); injection Hnext as <- <- <- <-.
    + destruct (update_queueCrc_sealed w sq (set_bufFullFlag false
        (set_tail (advance (base sq) (tail (base sq))) (u8 (count (base sq) - 1)) (base sq))) Hse)
        as (sq' & -> & Hbase & Hse'); [done .. |]; cbn [mbind option_bind].
      exists sq'; split; [done |]; split; [done |]; intros; by rewrite resume_world.
    + destruct (update_crcs_sealed (suspend w) (set_tail (advance (base sq) (tail (base sq)))
        (u8 (count (base sq) - 1)) (base sq)) Hr) as (sq' & -> & Hbase & Hse').
      cbn [mbind option_bind]; exists sq'; split; [done |]; split; [done |].
      intros; rewrite resume_world by done; by destruct Hse'; split.
Qed.

Lemma safety_peek_like w sq blk :
  sealed w sq -> Safety_Queue_Peek w (Some sq) (Some blk) = Queue_Peek w (Some sq.(base)) (Some blk).
Proof using layout_bytes.
  intros Hse; unfold Safety_Queue_Peek, Queue_Peek.
  change (crcs_differ (suspend w) sq) with (crcs_differ w sq).
  by rewrite (sealed_agrees _ _ Hse).
Qed.

Lemma peek_world w q b r w' d :
  irq_ok w.(irq) -> Queue_Peek w q b = Some (r, w', d) -> w' = w.
Proof using Type.
  intros Hirq; unfold Queue_Peek; rewrite resume_world by done.
  destruct q as [q |], b as [b |]; try congruence.
  destruct (negb _); [congruence |]; destruct (_ =? 0); [congruence |].
  destruct (memcpy _ _ _ _); cbn; congruence.
Qed.

(** ** The contract of [Queue.v] *)
Definition safety_step (s : World * Safety_Queue_t) (o : Op)
  : option (Z * option (list Z) * (World * Safety_Queue_t)) :=
  let '(w, q) := s in
  match o with
  | Add x =>
      '(r, w, q) ← Safety_Queue_Add w (Some q) (Some x);
      q ← q; Some (r, None, (w, q))
  | Next blk =>
      '(r, w, q, d) ← Safety_Queue_Next w (Some q) (Some blk);
      q ← q; Some (r, d, (w, q))
  | Peek blk =>
      '(r, w, d) ← Safety_Queue_Peek w (Some q) (Some blk);
      Some (r, d, (w, q))
  end.

Definition safety_rep (i : Irq) (cap size : Z) (s : World * Safety_Queue_t) (f : Fifo) : Prop :=
  queue_rep i cap size (fst s, (snd s).(base)) f /\ sealed (fst s) (snd s).

Lemma safety_step_ok i cap size s f o :
  safety_rep i cap size s f -> op_ok size o ->
  exists s', safety_step s o = Some (fst (fifo_step cap size f o), s') /\
             safety_rep i cap size s' (snd (fifo_step cap size f o)).
Proof using layout_bytes.
  destruct s as [w sq]; intros [Hrep Hse] Ho; cbn [fst snd] in *.
  destruct (queue_step_ok i cap size _ f o Hrep Ho) as ([w' q'] & Hstep & Hrep').
  assert (Hi : sq.(base).(isInit) = true /\ irq_ok w.(irq))
    by (destruct Hrep as (_ & _ & <- & Hirq & t & H); split; [apply H | done]).
  destruct Hi as [Hi Hirq]; destruct (fifo_step cap size f o) as [[r d] f']; cbn [fst snd] in *.
  destruct o as [x | blk | blk]; cbn [queue_step safety_step] in *.
  - destruct (Queue_Add _ _ _) as [[[r1 w1] [q1 |]] |] eqn:E; cbn in Hstep; [| done ..].
    injection Hstep as <- <- <- <-.
    destruct (safety_add_like w sq x _ _ _ Hse E Hi (proj1 Ho)) as (sq' & -> & <- & Hse').
    cbn [mbind option_bind]; eexists; split; [done |]; split; [done | by apply Hse'].
  - destruct (Queue_Next _ _ _) as [[[[r1 w1] [q1 |]] d1] |] eqn:E; cbn in Hstep; [| done ..].
    injection Hstep as <- <- <- <-.
    destruct (safety_next_like w sq blk _ _ _ _ Hse E Hi) as (sq' & -> & <- & Hse').
    cbn [mbind option_bind]; eexists; split; [done |]; split; [done | by apply Hse'].
  - rewrite safety_peek_like by done.
    destruct (Queue_Peek _ _ _) as [[[r1 w1] d1] |] eqn:E; cbn in Hstep; [| done].
    injection Hstep as <- <- <- <-; cbn [mbind option_bind]; eexists; split; [done |].
    split; [done |]; cbn [fst snd].
    by rewrite (peek_world _ _ _ _ _ _ Hirq E).
Qed.

#[export] Instance Safety_Fifo (i : Irq) : FifoImpl (World * Safety_Queue_t) := {|
  fi_step := safety_step; fi_rep := safety_rep i; fi_step_ok := safety_step_ok i
|}.

(** ** Theorems *)

(** C29. The safety queue keeps the contract of the queue: from
    [Safety_Queue_Init] on, with the full flag clear in the memory of the
    structure, any sequence of [Safety_Queue_Add], [Safety_Queue_Next] and
    [Safety_Queue_Peek] behaves as a FIFO of [max_count] elements and, as long
    as nobody else writes to it, never reports a CRC error. *)
Theorem safety_queue_refines_fifo w sq cap size cmp os :
  sq.(base).(isInit) = false -> sq.(base).(bufFullFlag) = false ->
  1 <= cap <= 255 -> 0 < size -> cap * size < 2 ^ 32 ->
  cap * size <= Z.of_nat (length w.(mem)) -> bytes w.(mem) -> irq_ok w.(irq) ->
  Forall (op_ok size) os ->
  exists sq0 s',
    Safety_Queue_Init w (Some sq) true cap size (Some cmp) = Some (QUEUE_E_OK, w, Some sq0) /\
    fi_run (FI := Safety_Fifo w.(irq)) (w, sq0) os =
      Some (fst (fifo_run cap size {| items := []; refused := false |} os), s').
Proof using layout_bytes.
  intros Hi Hf Hcap Hsize H32 Hroom Hb Hirq Hos; unfold Safety_Queue_Init.
  rewrite Hi, Hf, resume_world by done; cbv zeta; set (q0 := Build_Queue_t _ _ _ _ _ _ _ _ _ _).
  assert (Hr : room w q0) by (repeat (split; [cbn; (done || lia) |]); done).
  rewrite (currBufferCrc_eq (suspend w) q0 Hr); cbn [mbind option_bind].
  rewrite currQueueCrc_eq; cbn [mbind option_bind]; eexists; set (sq0 := Build_Safety_Queue_t _ _ _).
  destruct (fi_run_ok (FI := Safety_Fifo w.(irq)) cap size (w, sq0)
              {| items := []; refused := false |} os) as (s' & Hrun & _).
  - split; [| by split]; repeat (split; [done |]); exists 0; split; cbn; try done; try lia.
  - done.
  - by exists s'.
Qed.

Lemma corrupted_refused w sq :
  sq.(base).(isInit) = true -> irq_ok w.(irq) -> crcs_differ w sq = Some true ->
  forall data,
    Safety_Queue_Add w (Some sq) (Some data) = Some (QUEUE_E_CRC_ERR, w, Some sq) /\
    (sq.(base).(count) <> 0 ->
     Safety_Queue_Next w (Some sq) (Some data) = Some (QUEUE_E_CRC_ERR, w, Some sq, Some data)) /\
    Safety_Queue_Peek w (Some sq) (Some data) = Some (QUEUE_E_CRC_ERR, w, Some data) /\
    Safety_Queue_Contains w (Some sq) (Some data) = Some (QUEUE_E_CRC_ERR, w).
Proof using Type.
  intros Hi Hirq Hd data.
  unfold Safety_Queue_Add, Safety_Queue_Next, Safety_Queue_Peek, Safety_Queue_Contains.
  change (crcs_differ (suspend w) sq) with (crcs_differ w sq).
  rewrite Hi, Hd, resume_world by done; cbn; repeat (split; [done |]); split; [| done].
  intros Hne; by rewrite (proj2 (Z.eqb_neq _ _) Hne).
Qed.

(** A change of any byte of the buffer of an intact safety queue is noticed
    by every operation that looks at the elements: it returns
    [QUEUE_E_CRC_ERR] and changes nothing. *)
Theorem safety_queue_detects_buffer w sq j v data :
  sealed w sq -> sq.(base).(isInit) = true -> irq_ok w.(irq) ->
  (j < Z.to_nat (sq.(base).(max_count) * sq.(base).(dataSize)))%nat -> is_u8 v ->
  w.(mem) !! j <> Some v ->
  let bad := set_mem (<[j := v]> w.(mem)) w in
  Safety_Queue_Add bad (Some sq) (Some data) = Some (QUEUE_E_CRC_ERR, bad, Some sq) /\
  (sq.(base).(count) <> 0 ->
   Safety_Queue_Next bad (Some sq) (Some data) =
     Some (QUEUE_E_CRC_ERR, bad, Some sq, Some data)) /\
  Safety_Queue_Peek bad (Some sq) (Some data) = Some (QUEUE_E_CRC_ERR, bad, Some data) /\
  Safety_Queue_Contains bad (Some sq) (Some data) = Some (QUEUE_E_CRC_ERR, bad).
Proof using layout_bytes.
  intros [(Hs & Hd & Hr & H32 & Hb) Hbuf Hq] Hi Hirq Hj Hv Hne bad.
  apply corrupted_refused; [done | done |]; rewrite crcs_differ_eq.
  - rewrite (proj2 (Z.eqb_neq _ _)); [done |]; rewrite Hbuf.
    unfold buffer_of, bad; cbn [set_mem mem]; rewrite take_insert_lt by lia.
    intros E; symmetry in E; revert E.
    apply (crc_from_insert (S := crc8_ok) 0xFF []); auto with mem; [done | |].
    + rewrite length_take; lia.
    + by rewrite lookup_take_lt by lia.
  - do 2 (split; [done |]); cbn [bad set_mem mem]; rewrite length_insert.
    do 2 (split; [done |]); by apply bytes_insert.
Qed.

(** So is a change of any byte of the control structure that leaves the
    queue marked as initialised and its sizes within the buffer. *)
Theorem safety_queue_detects_structure w sq bad j v data :
  sealed w sq -> irq_ok w.(irq) -> is_u8 v ->
  (j < length (layout sq.(base) sq.(bufferCrc)))%nat ->
  layout sq.(base) sq.(bufferCrc) !! j <> Some v ->
  layout bad.(base) bad.(bufferCrc) = <[j := v]> (layout sq.(base) sq.(bufferCrc)) ->
  bad.(queueCrc) = sq.(queueCrc) -> bad.(base).(isInit) = true -> room w bad.(base) ->
  Safety_Queue_Add w (Some bad) (Some data) = Some (QUEUE_E_CRC_ERR, w, Some bad) /\
  (bad.(base).(count) <> 0 ->
   Safety_Queue_Next w (Some bad) (Some data) =
     Some (QUEUE_E_CRC_ERR, w, Some bad, Some data)) /\
  Safety_Queue_Peek w (Some bad) (Some data) = Some (QUEUE_E_CRC_ERR, w, Some data) /\
  Safety_Queue_Contains w (Some bad) (Some data) = Some (QUEUE_E_CRC_ERR, w).
Proof using layout_bytes.
  intros [_ _ Hq] Hirq Hv Hj Hne Hlay Hsame Hi Hroom.
  apply corrupted_refused; [done | done |]; rewrite crcs_differ_eq by done.
  rewrite (proj2 (Z.eqb_neq bad.(queueCrc) _)), orb_true_r; [done |].
  rewrite Hsame, Hq, Hlay; intros E; symmetry in E; revert E.
  by apply (crc_from_insert (S := crc8_ok) 0xFF []); auto with mem.
Qed.
End SafetyQueue.

(** ** An initialisation that is missing *)

(** A layout with one byte per member. *)
Definition packed (q : Queue_t) (b : Z) : list Z :=
  map u8 [q.(max_count); q.(count); Z.b2z q.(bufFullFlag); Z.b2z q.(isInit); q.(dataSize);
          q.(head); q.(tail); q.(bufStart); q.(bufEnd); b].

Lemma packed_bytes q b : bytes (packed q b).
Proof. unfold packed; cbn [map]; repeat (constructor; [apply is_u8_u8 |]); constructor. Qed.

(** The structure before initialisation, with some value in the full flag. *)
Definition raw_safety (flag : bool) : Safety_Queue_t := {|
  base := set_bufFullFlag flag blank_queue; bufferCrc := 0; queueCrc := 0
|}.

Definition small_world : World := {| mem := [0; 0; 0; 0]; irq := unlocked |}.

(** [Safety_Queue_Init] does not assign [bufFullFlag]: if the memory of the
    structure has it set, the first removal reports lost data although no
    element was ever refused.  With the flag clear it does not. *)
Theorem safety_queue_flag_uninitialised flag :
  exists sq s,
    Safety_Queue_Init (CRC := Crc_Generic) packed small_world (Some (raw_safety flag)) true 2 2
      (Some memcmp) = Some (QUEUE_E_OK, small_world, Some sq) /\
    fi_run (FI := Safety_Fifo (CRC := Crc_Generic) packed packed_bytes unlocked) (small_world, sq)
      [Add [1; 2]; Next [0; 0]] =
    Some ([(QUEUE_E_OK, None);
           (if flag then QUEUE_E_LOST_DATA else QUEUE_E_OK, Some [1; 2])], s).
Proof. destruct flag; eexists _, _; split; reflexivity. Qed.

(** ** Witnesses *)
Lemma safety_queue_refines_fifo_witness :
  exists sq0 s',
    Safety_Queue_Init (CRC := Crc_Generic) packed small_world (Some (raw_safety false)) true 2 2
      (Some memcmp) = Some (QUEUE_E_OK, small_world, Some sq0) /\
    fi_run (FI := Safety_Fifo (CRC := Crc_Generic) packed packed_bytes unlocked) (small_world, sq0)
      [Add [1; 2]; Add [3; 4]; Add [5; 6]; Next [0; 0]; Add [5; 6]; Next [0; 0]; Peek [0; 0]] =
    Some ([(QUEUE_E_OK, None); (QUEUE_E_OK, None); (QUEUE_E_FULL, None);
           (QUEUE_E_LOST_DATA, Some [1; 2]); (QUEUE_E_OK, None); (QUEUE_E_OK, Some [3; 4]);
           (QUEUE_E_OK, Some [5; 6])], s').
Proof.
  apply (safety_queue_refines_fifo (CRC := Crc_Generic) packed packed_bytes small_world
           (raw_safety false) 2 2 memcmp
           [Add [1; 2]; Add [3; 4]; Add [5; 6]; Next [0; 0]; Add [5; 6]; Next [0; 0];
            Peek [0; 0]]);
    [reflexivity | reflexivity | lia | lia | lia | cbn; lia | | split; [cbn; lia | reflexivity] |];
    repeat constructor; vm_compute; congruence.
Defined.

(** A queue holding one element, with its CRCs. *)
Definition one_element : Queue_t := {|
  max_count := 2; count := 1; bufFullFlag := false; isInit := true; dataSize := 2; head := 2;
  tail := 0; bufStart := 0; bufEnd := 4; compare_func := memcmp
|}.

Definition one_world : World := {| mem := [1; 2; 0; 0]; irq := unlocked |}.

Definition one_sealed : Safety_Queue_t :=
  let b := crc_of (CRC := Crc_Generic) [1; 2; 0; 0] in
  {| base := one_element; bufferCrc := b;
     queueCrc := crc_of (CRC := Crc_Generic) (packed one_element b) |}.

Lemma one_sealed_ok : sealed (CRC := Crc_Generic) packed one_world one_sealed.
Proof.
  split; [| reflexivity | reflexivity].
  repeat (split; [cbn; (reflexivity || lia) |]); repeat constructor; vm_compute; congruence.
Qed.

Lemma safety_queue_detects_buffer_witness :
  Safety_Queue_Peek (CRC := Crc_Generic) packed (set_mem [1; 2; 0; 64] one_world)
    (Some one_sealed) (Some [0; 0]) =
  Some (QUEUE_E_CRC_ERR, set_mem [1; 2; 0; 64] one_world, Some [0; 0]).
Proof.
  apply (safety_queue_detects_buffer (CRC := Crc_Generic) packed packed_bytes one_world one_sealed
           3 64 [0; 0]);
    [apply one_sealed_ok | reflexivity | split; [cbn; lia | reflexivity] | cbn; lia
    | vm_compute; split; congruence | vm_compute; congruence].
Defined.

Lemma safety_queue_detects_structure_witness :
  Safety_Queue_Peek (CRC := Crc_Generic) packed one_world
    (Some {| base := set_tail 2 1 one_element; bufferCrc := one_sealed.(bufferCrc);
             queueCrc := one_sealed.(queueCrc) |}) (Some [0; 0]) =
  Some (QUEUE_E_CRC_ERR, one_world, Some [0; 0]).
Proof.
  apply (safety_queue_detects_structure (CRC := Crc_Generic) packed packed_bytes one_world
           one_sealed _ 6 2 [0; 0]);
    [apply one_sealed_ok | split; [cbn; lia | reflexivity] | vm_compute; split; congruence
    | cbn; lia | vm_compute; congruence | reflexivity | reflexivity | reflexivity
    | apply one_sealed_ok].
Defined.
