(* ===== verification/StateMonad.v ===== *)
(** * State passing with memory faults

    The monad in which the modules with static data are modelled: a computation
    takes the module's data and either ends with a value and the new data or
    faults ([None]: an access out of the bounds of an array, a null pointer
    followed, a union read through the wrong member).  [wp] is its weakest
    precondition: no fault, and the postcondition holds. *)

From S2P Require Import Prelude.

Definition M (S A : Type) : Type := S -> option (A * S).

Section Monad.
Context {S : Type}.

Definition ret {A} (a : A) : M S A := fun s => Some (a, s).
Definition bind {A B} (m : M S A) (f : A -> M S B) : M S B :=
  fun s => '(a, s) ← m s; f a s.
Definition get {A} (f : S -> A) : M S A := fun s => Some (f s, s).
Definition modify (f : S -> S) : M S unit := fun s => Some (tt, f s).
(** An array access or a dereferenced pointer. *)
Definition deref {A} (o : option A) : M S A := fun s => a ← o; Some (a, s).

(** [for (i = first; i < length; i++) body(i, &array[i]);] *)
Fixpoint for_each {A} (i : nat) (l : list A) (body : nat -> A -> M S unit) : M S unit :=
  match l with
  | [] => ret tt
  | a :: l => bind (body i a) (fun _ => for_each (Datatypes.S i) l body)
  end.
End Monad.

Declare Scope monad_scope.
Delimit Scope monad_scope with monad.
Notation "'let*' x := m 'in' k" := (bind m (fun x => k))
  (at level 10, x pattern, m at level 200, k at level 200) : monad_scope.

(** ** Reasoning about the monad

    [wp m Q s]: from [s], [m] does not fault and ends with [Q]. *)
Section WP.
Context {S : Type}.

Definition wp {A} (m : M S A) (Q : A -> S -> Prop) (s : S) : Prop :=
  match m s with Some (a, s') => Q a s' | None => False end.

Lemma wp_bind {A B} (m : M S A) (f : A -> M S B) Q s :
  wp m (fun a s => wp (f a) Q s) s -> wp (bind m f) Q s.
Proof. unfold wp, bind. destruct (m s) as [[a s']|]; done. Qed.

Lemma wp_mono {A} (m : M S A) (P Q : A -> S -> Prop) s :
  wp m P s -> (forall a s', P a s' -> Q a s') -> wp m Q s.
Proof. unfold wp. destruct (m s) as [[a s']|]; naive_solver. Qed.

Lemma wp_and {A} (m : M S A) (P Q : A -> S -> Prop) s :
  wp m P s -> wp m Q s -> wp m (fun a s => P a s /\ Q a s) s.
Proof. unfold wp. destruct (m s) as [[a s']|]; done. Qed.

Lemma wp_deref {A} (o : option A) a (Q : A -> S -> Prop) s :
  o = Some a -> Q a s -> wp (deref o) Q s.
Proof. intros -> H. exact H. Qed.

Lemma wp_get {A} (f : S -> A) (Q : A -> S -> Prop) s :
  Q (f s) s -> wp (get f) Q s.
Proof. done. Qed.

Lemma wp_ret {A} (a : A) (Q : A -> S -> Prop) s : Q a s -> wp (ret a) Q s.
Proof. done. Qed.

Lemma wp_modify f (Q : unit -> S -> Prop) s : Q tt (f s) -> wp (modify f) Q s.
Proof. done. Qed.

Lemma wp_if {A} (b : bool) (m n : M S A) Q s :
  (b = true -> wp m Q s) -> (b = false -> wp n Q s) -> wp (if b then m else n) Q s.
Proof. destruct b; auto. Qed.

(** A computation with a known result. *)
Lemma wp_run {A} (m : M S A) a s s' (Q : A -> S -> Prop) :
  m s = Some (a, s') -> Q a s' -> wp m Q s.
Proof. unfold wp. by intros ->. Qed.

Lemma wp_inv {A} (m : M S A) (Q : A -> S -> Prop) s :
  wp m Q s -> exists a s', m s = Some (a, s') /\ Q a s'.
Proof. unfold wp. destruct (m s) as [[a s']|]; [eauto | done]. Qed.

(** A loop keeps what each of its rounds keeps. *)
Lemma wp_for_each {A} (I : S -> Prop) (l : list A) body i s :
  I s ->
  (forall j a s, l !! j = Some a -> I s -> wp (body (i + j)%nat a) (fun _ => I) s) ->
  wp (for_each i l body) (fun _ => I) s.
Proof.
  revert i s. induction l as [|a l IH]; intros i s HI Hbody; [done|].
  cbn [for_each]. apply wp_bind. eapply wp_mono.
  - pose proof (Hbody 0%nat a s eq_refl HI) as H. by rewrite Nat.add_0_r in H.
  - intros ? s' HI'. apply IH; [done|]. intros j b s1 Hj Hs1.
    replace (Datatypes.S i + j)%nat with (i + Datatypes.S j)%nat by lia. by apply Hbody.
Qed.
End WP.

(** ** Preservation

    [preserves J m]: where [m] ends, it has kept [J]. *)
Section Preserves.
Context {S : Type}.
Implicit Types J : S -> Prop.

Definition preserves {A} J (m : M S A) : Prop := forall s a s', J s -> m s = Some (a, s') -> J s'.

Lemma preserves_bind {A B} J (m : M S A) (f : A -> M S B) :
  preserves J m -> (forall a, preserves J (f a)) -> preserves J (bind m f).
Proof.
  intros Hm Hf s b s' HJ E. unfold bind in E. destruct (m s) as [[a s1]|] eqn:E1; [|done].
  eapply Hf; [by eapply Hm|exact E].
Qed.
Lemma preserves_ret {A} J (a : A) : preserves J (ret a).
Proof. by intros s b s' HJ [= <- <-]. Qed.
Lemma preserves_get {A} J (f : S -> A) : preserves J (get f).
Proof. by intros s b s' HJ [= <- <-]. Qed.
Lemma preserves_deref {A} J (o : option A) : preserves J (deref o).
Proof. intros s b s' HJ E. unfold deref in E. destruct o; [|done]. by injection E as <- <-. Qed.
Lemma preserves_bind_deref {A B} J (o : option A) (f : A -> M S B) :
  (forall a, o = Some a -> preserves J (f a)) -> preserves J (bind (deref o) f).
Proof. intros Hf s b s' HJ E. unfold bind, deref in E. destruct o as [a|]; [|done]. by eapply Hf. Qed.
Lemma preserves_modify J f : (forall s, J s -> J (f s)) -> preserves J (modify f).
Proof. intros Hf s b s' HJ [= <- <-]. by apply Hf. Qed.
Lemma preserves_for_each {A} J i (l : list A) body :
  (forall j a, preserves J (body j a)) -> preserves J (for_each i l body).
Proof.
  intros Hb. revert i. induction l as [|a l IH]; intros i; cbn [for_each]; [apply preserves_ret|].
  apply preserves_bind; [apply Hb | intros; apply IH].
Qed.
(** The same with another assertion at the end. *)
Definition leads {A} P (m : M S A) Q : Prop := forall s a s', P s -> m s = Some (a, s') -> Q s'.
Lemma leads_bind {A B} P Q R (m : M S A) (f : A -> M S B) :
  leads P m Q -> (forall a, leads Q (f a) R) -> leads P (bind m f) R.
Proof.
  intros Hm Hf s b s' HP E. unfold bind in E. destruct (m s) as [[a s1]|] eqn:E1; [|done].
  eapply Hf; [by eapply Hm|exact E].
Qed.
Lemma leads_get {A B} P R (g : S -> A) (f : A -> M S B) :
  (forall a, leads (fun s => P s /\ g s = a) (f a) R) -> leads P (bind (get g) f) R.
Proof. intros Hf s b s' HP E. by eapply (Hf (g s)). Qed.
Lemma leads_deref {A B} P R (o : option A) (f : A -> M S B) :
  (forall a, o = Some a -> leads P (f a) R) -> leads P (bind (deref o) f) R.
Proof. intros Hf s b s' HP E. unfold bind, deref in E. destruct o as [a|]; [|done]. by eapply Hf. Qed.
Lemma leads_ret {A} P Q (a : A) : (forall s, P s -> Q s) -> leads P (ret a) Q.
Proof. intros HQ s b s' HP [= <- <-]. auto. Qed.
Lemma leads_pre {A} P P' (m : M S A) Q : (forall s, P' s -> P s) -> leads P m Q -> leads P' m Q.
Proof. intros HP Hm s a s' Hs E. eapply Hm; eauto. Qed.
Lemma leads_post {A} P (m : M S A) Q Q' : leads P m Q -> (forall s, Q s -> Q' s) -> leads P m Q'.
Proof. intros Hm HQ s a s' Hs E. eapply HQ, Hm; eauto. Qed.
Lemma leads_preserves {A} J (m : M S A) : preserves J m -> leads J m J.
Proof. done. Qed.
Lemma leads_for_each {A} (P : nat -> S -> Prop) i (l : list A) body :
  (forall j a, l !! j = Some a -> leads (P j) (body (i + j)%nat a) (P (Datatypes.S j))) ->
  leads (P 0%nat) (for_each i l body) (P (length l)).
Proof.
  revert P i. induction l as [|a l IH]; intros P i Hb; cbn [for_each length]; [by apply leads_ret|].
  eapply leads_bind; [specialize (Hb 0%nat a eq_refl); rewrite Nat.add_0_r in Hb; exact Hb|]. intros _.
  apply (IH (fun j => P (Datatypes.S j)) (Datatypes.S i)). intros j b Hj.
  replace (Datatypes.S i + j)%nat with (i + Datatypes.S j)%nat by lia. by apply Hb.
Qed.
(** With [wp]. *)
Lemma wp_preserves {A} J (m : M S A) Q s : preserves J m -> J s -> wp m Q s -> wp m (fun a s => Q a s /\ J s) s.
Proof. intros Hm HJ. unfold wp. destruct (m s) as [[a s']|] eqn:E; [|done]. intros HQ. split; [done|by eapply Hm]. Qed.

(** The same with an assertion about the value: [yields P m Q]. *)
Definition yields {A} P (m : M S A) (Q : A -> S -> Prop) : Prop :=
  forall s a s', P s -> m s = Some (a, s') -> Q a s'.
Lemma yields_bind {A B} P (R : A -> S -> Prop) (Q : B -> S -> Prop) (m : M S A) (f : A -> M S B) :
  yields P m R -> (forall a, yields (R a) (f a) Q) -> yields P (bind m f) Q.
Proof.
  intros Hm Hf s b s' HP E. unfold bind in E. destruct (m s) as [[a s1]|] eqn:E1; [|done].
  eapply Hf; [by eapply Hm|exact E].
Qed.
Lemma yields_ret {A} P (a : A) (Q : A -> S -> Prop) : (forall s, P s -> Q a s) -> yields P (ret a) Q.
Proof. intros HQ s b s' HP [= <- <-]. auto. Qed.
(** What only reads, and what it reads. *)
Lemma yields_read {A B} P (Q : B -> S -> Prop) (m : M S A) v (f : A -> M S B) :
  (forall s, P s -> m s = Some (v, s)) -> yields P (f v) Q -> yields P (bind m f) Q.
Proof. intros Hm Hf s b s' HP E. unfold bind in E. rewrite (Hm s HP) in E. by eapply Hf. Qed.
(** What keeps [P] (or leads to [R]), with a value that does not matter. *)
Lemma yields_keep {A B} P R (Q : B -> S -> Prop) (m : M S A) (f : A -> M S B) :
  leads P m R -> (forall a, yields R (f a) Q) -> yields P (bind m f) Q.
Proof. intros Hm Hf. eapply (yields_bind P (fun _ => R)); [done|]. exact Hf. Qed.
Lemma yields_wp {A} P (m : M S A) (Q R : A -> S -> Prop) s :
  yields P m Q -> P s -> wp m R s -> wp m (fun a s => Q a s /\ R a s) s.
Proof. intros Hm HP. unfold wp. destruct (m s) as [[a s']|] eqn:E; [|done]. intros HR. split; [by eapply Hm|done]. Qed.
End Preserves.

(** ** Specifications

    [spec P m Phi Q]: from every state with [P], [m] does not fault, ends with [Q], and its value
    satisfies [Phi]. *)
Section Spec.
Context {S : Type}.
Definition spec {A} (P : S -> Prop) (m : M S A) (Phi : A -> Prop) (Q : S -> Prop) : Prop :=
  forall s, P s -> wp m (fun a s => Phi a /\ Q s) s.

Lemma spec_bind {A B} (P Q1 Q : S -> Prop) (m : M S A) (k : A -> M S B) Phi Psi :
  spec P m Phi Q1 -> (forall a, Phi a -> spec Q1 (k a) Psi Q) -> spec P (bind m k) Psi Q.
Proof.
  intros Hm Hk s HP. apply wp_bind. eapply wp_mono; [by apply Hm|]. intros a s' [Ha HQ]. by apply Hk.
Qed.
(** What faults after a step that does not. *)
Lemma spec_bind_fault {A B} (P Q : S -> Prop) (m : M S A) (k : A -> M S B) Phi (fault : Prop) s :
  spec P m Phi Q -> P s -> (forall a s', Phi a -> Q s' -> k a s' = None <-> fault) -> bind m k s = None <-> fault.
Proof. intros Hm HP Hk. specialize (Hm s HP). unfold wp, bind in *. destruct (m s) as [[a s']|]; [|done]. destruct Hm. by apply Hk. Qed.
Lemma bind_fault {A B} (m : M S A) (k : A -> M S B) s : (forall a s, is_Some (k a s)) -> bind m k s = None <-> m s = None.
Proof.
  intros Hk. unfold bind. destruct (m s) as [[a s']|]; [|done]. cbn. destruct (Hk a s') as [x ->]. done.
Qed.
Lemma spec_ret {A} (P : S -> Prop) (a : A) (Phi : A -> Prop) : Phi a -> spec P (ret a) Phi P.
Proof. by intros Ha s HP. Qed.
Lemma spec_mono {A} (P P' Q Q' : S -> Prop) (m : M S A) (Phi Phi' : A -> Prop) :
  spec P m Phi Q -> (forall s, P' s -> P s) -> (forall a, Phi a -> Phi' a) -> (forall s, Q s -> Q' s) ->
  spec P' m Phi' Q'.
Proof. intros Hm HP HPhi HQ s Hs. eapply wp_mono; [by apply Hm, HP|]. intros a s' [Ha HQs]. auto. Qed.
Lemma spec_post {A} (P Q : S -> Prop) (m : M S A) (Phi Phi' : A -> Prop) :
  spec P m Phi Q -> (forall a, Phi a -> Phi' a) -> spec P m Phi' Q.
Proof. intros Hm HPhi. eapply spec_mono; eauto. Qed.
Lemma spec_any {A} (P Q : S -> Prop) (m : M S A) Phi : spec P m Phi Q -> spec P m (fun _ => True) Q.
Proof. intros Hm. by eapply spec_post. Qed.
Lemma spec_deref {A} (P : S -> Prop) (o : option A) (Phi : A -> Prop) a :
  o = Some a -> Phi a -> spec P (deref o) Phi P.
Proof. intros -> Ha s HP. done. Qed.
Lemma spec_deref_is {A} (P : S -> Prop) (o : option A) a :
  o = Some a -> spec P (deref o) (fun b => b = a) P.
Proof. by intros -> s HP. Qed.
Lemma spec_get {A} (P : S -> Prop) (f : S -> A) (Phi : A -> Prop) :
  (forall s, P s -> Phi (f s)) -> spec P (get f) Phi P.
Proof. intros Hf s HP. split; [by apply Hf | done]. Qed.
Lemma spec_modify (P Q : S -> Prop) f : (forall s, P s -> Q (f s)) -> spec P (modify f) (fun _ => True) Q.
Proof. intros Hf s HP. split; [done | by apply Hf]. Qed.
Lemma spec_for_each {A} (P : S -> Prop) i (l : list A) body :
  (forall j a, l !! j = Some a -> spec P (body (i + j)%nat a) (fun _ => True) P) ->
  spec P (for_each i l body) (fun _ => True) P.
Proof.
  intros Hb s HP. eapply wp_mono; [apply (wp_for_each P); [done|]|by auto].
  intros j a s1 Hj Hs1. eapply wp_mono; [by apply Hb|]. by intros ? ? [_ ?].
Qed.
Lemma spec_if {A} (P Q : S -> Prop) (b : bool) (m1 m2 : M S A) Phi :
  (b = true -> spec P m1 Phi Q) -> (b = false -> spec P m2 Phi Q) ->
  spec P (if b then m1 else m2) Phi Q.
Proof. destruct b; auto. Qed.
End Spec.

(** ** Triples: the same with a postcondition that relates value and state. *)
Section Triple.
Context {S : Type}.
Implicit Types P R : S -> Prop.
Definition triple {A} P (m : M S A) (Q : A -> S -> Prop) : Prop := forall s, P s -> wp m Q s.

Lemma triple_bind {A B} P (R : A -> S -> Prop) (m : M S A) (k : A -> M S B) Q :
  triple P m R -> (forall a, triple (R a) (k a) Q) -> triple P (bind m k) Q.
Proof. intros Hm Hk s HP. apply wp_bind. eapply wp_mono; [by apply Hm|]. intros a s' HR. by apply Hk. Qed.
Lemma triple_spec_bind {A B} P R (Phi : A -> Prop) (m : M S A) (k : A -> M S B) Q :
  spec P m Phi R -> (forall a, Phi a -> triple R (k a) Q) -> triple P (bind m k) Q.
Proof. intros Hm Hk s HP. apply wp_bind. eapply wp_mono; [by apply Hm|]. intros a s' [Ha HR]. by apply Hk. Qed.
Lemma triple_ret {A} P (a : A) (Q : A -> S -> Prop) : (forall s, P s -> Q a s) -> triple P (ret a) Q.
Proof. intros HQ s HP. by apply HQ. Qed.
Lemma triple_if {A} P (b : bool) (m1 m2 : M S A) Q :
  (b = true -> triple P m1 Q) -> (b = false -> triple P m2 Q) -> triple P (if b then m1 else m2) Q.
Proof. destruct b; auto. Qed.
Lemma triple_mono {A} P (m : M S A) (Q Q' : A -> S -> Prop) :
  triple P m Q -> (forall a s, Q a s -> Q' a s) -> triple P m Q'.
Proof. intros Hm HQ s HP. eapply wp_mono; [by apply Hm|]. apply HQ. Qed.
Lemma triple_spec {A} P R (Phi : A -> Prop) (m : M S A) Q :
  spec P m Phi R -> (forall a s, Phi a -> R s -> Q a s) -> triple P m Q.
Proof. intros Hm HQ s HP. eapply wp_mono; [by apply Hm|]. intros a s' []. auto. Qed.
Lemma triple_pre {A} P P' (m : M S A) Q : triple P m Q -> (forall s, P' s -> P s) -> triple P' m Q.
Proof. intros Hm HP s Hs. auto. Qed.
Lemma spec_pre {A} P P' R (m : M S A) Phi : spec P m Phi R -> (forall s, P' s -> P s) -> spec P' m Phi R.
Proof. intros Hm HP s Hs. auto. Qed.
Lemma triple_ex {A X} (P : X -> S -> Prop) (m : M S A) Q :
  (forall x, triple (P x) m Q) -> triple (fun s => exists x, P x s) m Q.
Proof. intros Hm s [x Hx]. by eapply Hm. Qed.
Lemma triple_pure {A} (phi : Prop) P (m : M S A) Q : (phi -> triple P m Q) -> triple (fun s => phi /\ P s) m Q.
Proof. intros Hm s [Hphi HP]. by apply Hm. Qed.
End Triple.
