(* ===== verification/WdgM.v ===== *)
(** * The watchdog manager

    [safety_security/WdgM/src/WdgM.c] with [inc/WdgM_ConfigTypes.h] and
    [inc/WdgM_runtimeTypes.h]: supervised entities report checkpoints; alive,
    deadline and logical supervision give each entity a local state; the local
    states give the global state, which decides the trigger conditions of the
    watchdogs.  A pointer to an array and its length are a list; an index out of
    its range is a fault ([None]).  The module's data, the clock of the operating
    system and the calls to other modules, in order, are the state of a monad.

    [safety_security/WdgIf]: [WdgIf_SetMode] and [WdgIf_SetTriggerCondition], which
    pass the calls on to the watchdog drivers.  The drivers (function pointers of
    generated configuration) and the build options are parameters; the module is
    built with [USE_RTE] and [USE_DEM]. *)

From S2P Require Import Prelude.
From S2P Require Import StateMonad.

(** ** WdgIf_Types.h, WdgM_ConfigTypes.h *)
Inductive WdgIf_ModeType := WDGIF_OFF_MODE | WDGIF_SLOW_MODE | WDGIF_FAST_MODE.

#[export] Instance WdgIf_ModeType_eq : EqDecision WdgIf_ModeType.
Proof. solve_decision. Defined.

Definition WDGM_SUBSTATE_INCORRECT := 0x00.
Definition WDGM_SUBSTATE_CORRECT := 0x01.

Record WdgM_Trigger := {
  TriggerConditionValue : Z; WatchdogMode : WdgIf_ModeType; WatchdogId : nat
}.

Record WdgM_AliveSupervision := {
  CheckpointId : Z; ExpectedAliveIndications : Z; MinMargin : Z; MaxMargin : Z;
  SupervisionReferenceCycle : Z
}.

Record WdgM_DeadlineSupervision := {
  CheckpointIdStart : Z; CheckpointIdFinish : Z; DeadlineMin : Z; DeadlineMax : Z
}.

Record WdgM_InternalTransition := { CheckpointIdSource : Z; CheckpointIdDestination : Z }.

Record WdgM_SupervisedEntity := {
  CheckpointIds : list Z;
  Transitions : list WdgM_InternalTransition;
  StartCheckpointIds : list Z;
  FinalCheckpointIds : list Z
}.

Record WdgM_SupervisedEntityConfiguration := {
  SupervisedEntityId : nat;
  CheckInternalLogic : bool;
  AliveSupervisions : list WdgM_AliveSupervision;
  DeadlineSupervisions : list WdgM_DeadlineSupervision;
  FailedAliveSupervisionReferenceCycleTol : Z;
  OSCounter : Z
}.

Record WdgM_Mode := {
  Id : nat;
  ExpiredSupervisionCycleTol : Z;
  SEConfigurations : list WdgM_SupervisedEntityConfiguration;
  Triggers : list WdgM_Trigger
}.

(** [General] and [ConfigSet]; a watchdog is its [WatchdogDeviceId]. *)
Record WdgM_ConfigType := {
  SupervisedEntities : list WdgM_SupervisedEntity;
  Watchdogs : list Z;
  DemEventSupervision : Z;
  DemEventSetMode : Z;
  initialModeId : nat;
  Modes : list WdgM_Mode
}.

(** ** WdgM_runtimeTypes.h *)
Inductive WdgM_LocalStatusType :=
| WDGM_LOCAL_STATUS_OK
| WDGM_LOCAL_STATUS_FAILED
| WDGM_LOCAL_STATUS_EXPIRED
| WDGM_LOCAL_STATUS_DEACTIVATED.

#[export] Instance WdgM_LocalStatusType_eq : EqDecision WdgM_LocalStatusType.
Proof. solve_decision. Defined.

Inductive WdgM_GlobalStatusType :=
| WDGM_GLOBAL_STATUS_OK
| WDGM_GLOBAL_STATUS_FAILED
| WDGM_GLOBAL_STATUS_EXPIRED
| WDGM_GLOBAL_STATUS_STOPPED
| WDGM_GLOBAL_STATUS_DEACTIVATED.

#[export] Instance WdgM_GlobalStatusType_eq : EqDecision WdgM_GlobalStatusType.
Proof. solve_decision. Defined.

Record WdgM_runtime_AliveSupervision := {
  AliveCounter : Z; SupervisionCycleCounter : Z; wasEvaluated : bool
}.

Record WdgM_runtime_SupervisedEntity := {
  LocalState : WdgM_LocalStatusType;
  SubstateAlive : Z;
  SubstateDeadline : Z;
  SubstateLogical : Z;
  IsInternalGraphActive : bool;
  PreviousCheckpointId_internalLogic : Z;
  FailedAliveCyclesCounter : Z
}.

(** [rt_deadline]: the [LastTickValue]s. *)
Record WdgM_runtime_SupervisedEntityConfig := {
  rt_alive : list WdgM_runtime_AliveSupervision;
  rt_deadline : list Z
}.

Record WdgM_runtime_Mode := {
  SE_Configs : list WdgM_runtime_SupervisedEntityConfig;
  ExpiredSupervisionCycleCounter : Z
}.

(** ** Calls to other modules *)
Inductive Effect :=
| Det_ReportError (module sid err : Z)
| Dem_ReportErrorStatus (event : Z)
| Rte_Switch_local (se : nat) (s : WdgM_LocalStatusType)
| Rte_Switch_global (s : WdgM_GlobalStatusType)
| WdgIf_SetMode_call (device : Z) (m : WdgIf_ModeType)
| WdgIf_SetTriggerCondition_call (device timeout : Z)
| Wdg_SetMode (driver : Z) (m : WdgIf_ModeType)
| Wdg_SetTriggerCondition (driver timeout : Z)
| Mcu_PerformReset.

(** [WdgM_instance], the two static variables, the values of the counters of the
    operating system and the calls made so far, the latest first. *)
Record WdgM_State := {
  ConfigPtr : option WdgM_ConfigType;
  SEs : list WdgM_runtime_SupervisedEntity;
  rt_Modes : list WdgM_runtime_Mode;
  isInitiated : bool;
  GlobalState : WdgM_GlobalStatusType;
  CurrentMode : option WdgM_Mode;
  ResetInitiated : bool;
  isFirstExpiredSet : bool;
  firstExpiredSEID : Z;
  firstExpiredSEIDInverse : Z;
  clock : Z -> Z;
  trace : list Effect
}.

(** ** The monad *)
Abbreviation M := (StateMonad.M WdgM_State).
#[local] Open Scope monad_scope.

(** *** Assignments *)
Definition with_SEs v s := Build_WdgM_State s.(ConfigPtr) v s.(rt_Modes) s.(isInitiated)
  s.(GlobalState) s.(CurrentMode) s.(ResetInitiated) s.(isFirstExpiredSet) s.(firstExpiredSEID)
  s.(firstExpiredSEIDInverse) s.(clock) s.(trace).
Definition with_rt_Modes v s := Build_WdgM_State s.(ConfigPtr) s.(SEs) v s.(isInitiated)
  s.(GlobalState) s.(CurrentMode) s.(ResetInitiated) s.(isFirstExpiredSet) s.(firstExpiredSEID)
  s.(firstExpiredSEIDInverse) s.(clock) s.(trace).
Definition with_ConfigPtr v s := Build_WdgM_State v s.(SEs) s.(rt_Modes) s.(isInitiated)
  s.(GlobalState) s.(CurrentMode) s.(ResetInitiated) s.(isFirstExpiredSet) s.(firstExpiredSEID)
  s.(firstExpiredSEIDInverse) s.(clock) s.(trace).
Definition with_isInitiated v s := Build_WdgM_State s.(ConfigPtr) s.(SEs) s.(rt_Modes) v
  s.(GlobalState) s.(CurrentMode) s.(ResetInitiated) s.(isFirstExpiredSet) s.(firstExpiredSEID)
  s.(firstExpiredSEIDInverse) s.(clock) s.(trace).
Definition with_GlobalState v s := Build_WdgM_State s.(ConfigPtr) s.(SEs) s.(rt_Modes)
  s.(isInitiated) v s.(CurrentMode) s.(ResetInitiated) s.(isFirstExpiredSet)
  s.(firstExpiredSEID) s.(firstExpiredSEIDInverse) s.(clock) s.(trace).
Definition with_CurrentMode v s := Build_WdgM_State s.(ConfigPtr) s.(SEs) s.(rt_Modes)
  s.(isInitiated) s.(GlobalState) v s.(ResetInitiated) s.(isFirstExpiredSet)
  s.(firstExpiredSEID) s.(firstExpiredSEIDInverse) s.(clock) s.(trace).
Definition with_ResetInitiated v s := Build_WdgM_State s.(ConfigPtr) s.(SEs) s.(rt_Modes)
  s.(isInitiated) s.(GlobalState) s.(CurrentMode) v s.(isFirstExpiredSet)
  s.(firstExpiredSEID) s.(firstExpiredSEIDInverse) s.(clock) s.(trace).
Definition with_firstExpired set id inv s := Build_WdgM_State s.(ConfigPtr) s.(SEs)
  s.(rt_Modes) s.(isInitiated) s.(GlobalState) s.(CurrentMode) s.(ResetInitiated) set id inv
  s.(clock) s.(trace).
Definition emit (e : Effect) : M unit := modify (fun s =>
  Build_WdgM_State s.(ConfigPtr) s.(SEs) s.(rt_Modes) s.(isInitiated) s.(GlobalState)
    s.(CurrentMode) s.(ResetInitiated) s.(isFirstExpiredSet) s.(firstExpiredSEID)
    s.(firstExpiredSEIDInverse) s.(clock) (e :: s.(trace))).

Definition set_LocalState v r := Build_WdgM_runtime_SupervisedEntity v r.(SubstateAlive)
  r.(SubstateDeadline) r.(SubstateLogical) r.(IsInternalGraphActive)
  r.(PreviousCheckpointId_internalLogic) r.(FailedAliveCyclesCounter).
Definition set_SubstateAlive v r := Build_WdgM_runtime_SupervisedEntity r.(LocalState) v
  r.(SubstateDeadline) r.(SubstateLogical) r.(IsInternalGraphActive)
  r.(PreviousCheckpointId_internalLogic) r.(FailedAliveCyclesCounter).
Definition set_SubstateDeadline v r := Build_WdgM_runtime_SupervisedEntity r.(LocalState)
  r.(SubstateAlive) v r.(SubstateLogical) r.(IsInternalGraphActive)
  r.(PreviousCheckpointId_internalLogic) r.(FailedAliveCyclesCounter).
Definition set_SubstateLogical v r := Build_WdgM_runtime_SupervisedEntity r.(LocalState)
  r.(SubstateAlive) r.(SubstateDeadline) v r.(IsInternalGraphActive)
  r.(PreviousCheckpointId_internalLogic) r.(FailedAliveCyclesCounter).
Definition set_Graph active prev r := Build_WdgM_runtime_SupervisedEntity r.(LocalState)
  r.(SubstateAlive) r.(SubstateDeadline) r.(SubstateLogical) active prev
  r.(FailedAliveCyclesCounter).
Definition set_FailedAliveCyclesCounter v r := Build_WdgM_runtime_SupervisedEntity
  r.(LocalState) r.(SubstateAlive) r.(SubstateDeadline) r.(SubstateLogical)
  r.(IsInternalGraphActive) r.(PreviousCheckpointId_internalLogic) v.

(** [&WdgM_instance.runtimeDataPtr->SEs[id]], read and assigned. *)
Definition get_SE (id : nat) : M WdgM_runtime_SupervisedEntity :=
  let* l := get SEs in deref (l !! id).
Definition put_SE (id : nat) (r : WdgM_runtime_SupervisedEntity) : M unit :=
  modify (fun s => with_SEs (<[id := r]> s.(SEs)) s).
Definition get_rt_Mode (id : nat) : M WdgM_runtime_Mode :=
  let* l := get rt_Modes in deref (l !! id).
Definition put_rt_Mode (id : nat) (m : WdgM_runtime_Mode) : M unit :=
  modify (fun s => with_rt_Modes (<[id := m]> s.(rt_Modes)) s).
Definition set_GlobalState (g : WdgM_GlobalStatusType) : M unit := modify (with_GlobalState g).
Definition get_CurrentMode : M WdgM_Mode := let* m := get CurrentMode in deref m.
Definition get_Config : M WdgM_ConfigType := let* c := get ConfigPtr in deref c.

(** [runtimeDataPtr->Modes[id].SE_Configs[i]] *)
Definition get_SE_Config (id i : nat) : M WdgM_runtime_SupervisedEntityConfig :=
  let* m := get_rt_Mode id in deref (m.(SE_Configs) !! i).
Definition put_SE_Config (id i : nat) (c : WdgM_runtime_SupervisedEntityConfig) : M unit :=
  let* m := get_rt_Mode id in
  put_rt_Mode id {| SE_Configs := <[i := c]> m.(SE_Configs);
                    ExpiredSupervisionCycleCounter := m.(ExpiredSupervisionCycleCounter) |}.

(** ** Return codes, service and error identifiers (WdgM.h) *)
Definition E_OK := 0.
Definition E_NOT_OK := 1.
Definition WDGM_SID_INIT := 0x00.
Definition WDGM_SID_DEINIT := 0x01.
Definition WDGM_SID_SETMODE := 0x03.
Definition WDGM_SID_GETMODE := 0x0B.
Definition WDGM_SID_CHECKPOINTREACHED := 0x0E.
Definition WDGM_SID_GETLOCALSTATUS := 0x0C.
Definition WDGM_SID_GETGLOBALSTATUS := 0x0D.
Definition WDGM_SID_PERFORMRESET := 0x0F.
Definition WDGM_SID_GETFIRSTEXPIREDSEID := 0x10.
Definition WDGM_SID_MAINFUNCTION := 0x08.
Definition WDGM_E_NO_INIT := 0x10.
Definition WDGM_E_NO_DEINIT := 0x1A.
Definition WDGM_E_PARAM_MODE := 0x12.
Definition WDGM_E_PARAM_SEID := 0x13.
Definition WDGM_E_INV_POINTER := 0x14.
Definition WDGM_E_DISABLE_NOT_ALLOWED := 0x15.
Definition WDGM_E_CPID := 0x16.
Definition WDGM_E_SEDEACTIVATED := 0x19.
Definition DEM_EVENT_ID_NULL := 0.
Definition WDGM_MODULE_ID := 13.
Definition WDGIF_MODULE_ID := 43.
Definition WDGIF_SETMODE_ID := 0x01.
Definition WDGIF_SETTRIGGERCONDITION_ID := 0x02.
Definition WDGIF_E_PARAM_DEVICE := 0x01.

(** ** The counters of the operating system

    [Os_CounterDiff] of [os_counter_i.h] and the part of [GetElapsedValue] of
    [os_counter.c] after its validations of the call's context: the elapsed
    ticks and the new value of [*val]. *)
Definition Os_CounterDiff (curr old max : Z) : Z :=
  if curr >=? old then curr - old else curr + (max - old) + 1.

Definition GetElapsedValue (max currTick val : Z) : Z * Z :=
  if val <=? max then (Os_CounterDiff currTick val max, currTick) else (0, val).

(** ** The supervision algorithms on one entity *)

(** A conversion to [sint16]. *)
Definition s16 (x : Z) : Z := (x + 2 ^ 15) mod 2 ^ 16 - 2 ^ 15.

Definition WdgM_internal_SpecAliveAlgo (aliveCP : WdgM_AliveSupervision)
    (rt : WdgM_runtime_AliveSupervision) : Z * WdgM_runtime_AliveSupervision :=
  let temp := s16 (s16 rt.(AliveCounter) - s16 aliveCP.(ExpectedAliveIndications)) in
  (if (temp <=? aliveCP.(MaxMargin)) && (temp >=? 0 - aliveCP.(MinMargin))
   then WDGM_SUBSTATE_CORRECT else WDGM_SUBSTATE_INCORRECT,
   {| AliveCounter := 0; SupervisionCycleCounter := 0; wasEvaluated := rt.(wasEvaluated) |}).

Definition set_wasEvaluated b rt := {| AliveCounter := rt.(AliveCounter);
  SupervisionCycleCounter := rt.(SupervisionCycleCounter); wasEvaluated := b |}.

Definition WdgM_internal_IsAliveHold (aliveCP : WdgM_AliveSupervision)
    (rt : WdgM_runtime_AliveSupervision) : Z * WdgM_runtime_AliveSupervision :=
  let rt := set_wasEvaluated false rt in
  if aliveCP.(SupervisionReferenceCycle) =? 1 then
    let '(r, rt) := WdgM_internal_SpecAliveAlgo aliveCP rt in (r, set_wasEvaluated true rt)
  else if rt.(SupervisionCycleCounter) =? aliveCP.(SupervisionReferenceCycle) then
    let '(r, rt) := WdgM_internal_SpecAliveAlgo aliveCP rt in (r, set_wasEvaluated true rt)
  else (WDGM_SUBSTATE_CORRECT, rt).

(** The transitions from the previous checkpoint, up to the first that leads here. *)
Definition WdgM_internal_LogicalMonitoring_GraphActive (se : WdgM_SupervisedEntity)
    (r : WdgM_runtime_SupervisedEntity) (CPId : Z) : Z * WdgM_runtime_SupervisedEntity :=
  if existsb (fun t => (t.(CheckpointIdSource) =? r.(PreviousCheckpointId_internalLogic))
                       && (t.(CheckpointIdDestination) =? CPId)) se.(Transitions)
  then
    let final := existsb (fun c => c =? CPId) se.(FinalCheckpointIds) in
    (WDGM_SUBSTATE_CORRECT,
     set_Graph (if final then false else r.(IsInternalGraphActive)) CPId r)
  else (WDGM_SUBSTATE_INCORRECT, r).

Definition WdgM_internal_LogicalMonitoring_GraphInactive (se : WdgM_SupervisedEntity)
    (r : WdgM_runtime_SupervisedEntity) (CPId : Z) : Z * WdgM_runtime_SupervisedEntity :=
  if existsb (fun c => c =? CPId) se.(StartCheckpointIds)
  then (WDGM_SUBSTATE_CORRECT, set_Graph true CPId r)
  else (WDGM_SUBSTATE_INCORRECT, r).

Definition WdgM_internal_LogicalMonitoring (se : WdgM_SupervisedEntity)
    (r : WdgM_runtime_SupervisedEntity) (CPId : Z) : Z * WdgM_runtime_SupervisedEntity :=
  if r.(IsInternalGraphActive)
  then WdgM_internal_LogicalMonitoring_GraphActive se r CPId
  else WdgM_internal_LogicalMonitoring_GraphInactive se r CPId.

(** ** Build options *)
Record BuildOptions := {
  WDGM_DEV_ERROR_DETECT : bool;
  WDGM_OFF_MODE_ENABLED : bool;
  WDGM_IMMEDIATE_RESET : bool;
  WDGM_DEM_ALIVE_SUPERVISION_REPORT : bool;
  WDGIF_DEV_ERROR_DETECT : bool;
  WDGIF_DEVICES : Z
}.

Section WdgM.
Context (opt : BuildOptions).
(** [WDGM_OSTICKSPERSECOND], and the largest value of each counter. *)
Context (WDGM_OSTICKSPERSECOND : Z) (counter_max : Z -> Z).
(** Whether a driver accepts a mode, given the calls so far. *)
Context (driver_accepts : list Effect -> Z -> WdgIf_ModeType -> bool).

(** *** Reports and calls *)
Definition WDGM_REPORT_DET_ERROR (sid err : Z) : M unit :=
  if opt.(WDGM_DEV_ERROR_DETECT) then emit (Det_ReportError WDGM_MODULE_ID sid err)
  else ret tt.

Definition WDGM_REPORT_DEM_ERROR (event : Z) : M unit :=
  if negb (event =? DEM_EVENT_ID_NULL) then emit (Dem_ReportErrorStatus event) else ret tt.

(** The services of [WdgIf.c], and the macros of [WdgIf.h] that replace them when there
    is one device ([WdgIf_NumberOfDevices] is [WDGIF_DEVICES]). *)
Definition WDGIF_REPORT (api err : Z) : M unit :=
  if opt.(WDGIF_DEV_ERROR_DETECT) then emit (Det_ReportError WDGIF_MODULE_ID api err)
  else ret tt.

Definition driver_SetMode (driver : Z) (m : WdgIf_ModeType) : M Z :=
  let* t := get trace in
  let* _ := emit (Wdg_SetMode driver m) in
  ret (if driver_accepts t driver m then E_OK else E_NOT_OK).

Definition WdgIf_SetMode (DeviceIndex : Z) (Mode : WdgIf_ModeType) : M Z :=
  let* _ := emit (WdgIf_SetMode_call DeviceIndex Mode) in
  if opt.(WDGIF_DEVICES) >? 1 then
    if opt.(WDGIF_DEVICES) >? DeviceIndex then driver_SetMode DeviceIndex Mode
    else let* _ := WDGIF_REPORT WDGIF_SETMODE_ID WDGIF_E_PARAM_DEVICE in ret E_NOT_OK
  else driver_SetMode 0 Mode.

Definition WdgIf_SetTriggerCondition (DeviceIndex Timeout : Z) : M unit :=
  let* _ := emit (WdgIf_SetTriggerCondition_call DeviceIndex Timeout) in
  if opt.(WDGIF_DEVICES) >? 1 then
    if DeviceIndex <? opt.(WDGIF_DEVICES)
    then emit (Wdg_SetTriggerCondition DeviceIndex Timeout)
    else WDGIF_REPORT WDGIF_SETTRIGGERCONDITION_ID WDGIF_E_PARAM_DEVICE
  else emit (Wdg_SetTriggerCondition 0 Timeout).

Definition WdgM_Internal_ReportLocalModeChange (r : WdgM_runtime_SupervisedEntity)
    (SEIndex : nat) : M unit :=
  emit (Rte_Switch_local SEIndex r.(LocalState)).

Definition Wdgm_internal_ReportGlobalModeChange : M unit :=
  let* g := get GlobalState in emit (Rte_Switch_global g).

(** *** Internal operations *)
Definition WdgM_internal_DeactivateAndResetSE (SEIndex : nat) : M unit :=
  let* r := get_SE SEIndex in
  let r := set_LocalState WDGM_LOCAL_STATUS_DEACTIVATED r in
  let* _ := WdgM_Internal_ReportLocalModeChange r SEIndex in
  put_SE SEIndex {| LocalState := r.(LocalState);
                    SubstateAlive := WDGM_SUBSTATE_CORRECT;
                    SubstateDeadline := WDGM_SUBSTATE_CORRECT;
                    SubstateLogical := WDGM_SUBSTATE_CORRECT;
                    IsInternalGraphActive := false;
                    PreviousCheckpointId_internalLogic := 0;
                    FailedAliveCyclesCounter := 0 |}.

Definition reset_SE_Config (c : WdgM_runtime_SupervisedEntityConfig)
  : WdgM_runtime_SupervisedEntityConfig :=
  {| rt_alive := map (fun a => {| AliveCounter := 0; SupervisionCycleCounter := 0;
                                  wasEvaluated := a.(wasEvaluated) |}) c.(rt_alive);
     rt_deadline := map (fun _ => 0) c.(rt_deadline) |}.

Definition WdgM_internal_ResetSEConfigsForMode (id : nat) : M unit :=
  let* m := get_rt_Mode id in
  put_rt_Mode id {| SE_Configs := map reset_SE_Config m.(SE_Configs);
                    ExpiredSupervisionCycleCounter := 0 |}.

Definition WdgM_internal_isAtLeastOneWdogEnabled (Mode : nat) (SID errID : Z) : M bool :=
  let* c := get_Config in
  let* newMode := deref (c.(Modes) !! Mode) in
  let WdgActive := existsb (fun t => negb (bool_decide (t.(WatchdogMode) = WDGIF_OFF_MODE)))
                     newMode.(Triggers) in
  let* _ := if WdgActive then ret tt else WDGM_REPORT_DET_ERROR SID errID in
  ret WdgActive.

(** What both trigger functions do when a driver refuses a mode. *)
Definition stop_on_error (errID : Z) : M Z :=
  let* _ := set_GlobalState WDGM_GLOBAL_STATUS_STOPPED in
  let* _ := Wdgm_internal_ReportGlobalModeChange in
  let* _ := WDGM_REPORT_DEM_ERROR errID in
  ret E_NOT_OK.

Fixpoint deactivate_triggers (c : WdgM_ConfigType) (ts : list WdgM_Trigger) (errID : Z) : M Z :=
  match ts with
  | [] => ret E_OK
  | t :: ts =>
      let* DeviceIndex := deref (c.(Watchdogs) !! t.(WatchdogId)) in
      let* potError := WdgIf_SetMode DeviceIndex WDGIF_OFF_MODE in
      if negb (potError =? E_OK) then stop_on_error errID
      else deactivate_triggers c ts errID
  end.

Definition WdgM_internal_deactivateCurrentTriggers (errID : Z) : M Z :=
  let* c := get_Config in
  let* m := get_CurrentMode in
  deactivate_triggers c m.(Triggers) errID.

Fixpoint activate_triggers (c : WdgM_ConfigType) (ts : list WdgM_Trigger) (errID : Z) : M Z :=
  match ts with
  | [] => ret E_OK
  | t :: ts =>
      let* DeviceIndex := deref (c.(Watchdogs) !! t.(WatchdogId)) in
      let* potError := WdgIf_SetMode DeviceIndex t.(WatchdogMode) in
      let* resetInitiated := get ResetInitiated in
      let* _ :=
        if (potError =? E_OK) && negb (bool_decide (t.(WatchdogMode) = WDGIF_OFF_MODE))
           && negb resetInitiated
        then WdgIf_SetTriggerCondition DeviceIndex t.(TriggerConditionValue) else ret tt in
      if negb (potError =? E_OK) then stop_on_error errID
      else activate_triggers c ts errID
  end.

Definition WdgM_internal_activateTriggers (m : WdgM_Mode) (errID : Z) : M Z :=
  let* c := get_Config in
  activate_triggers c m.(Triggers) errID.

(** The inner loop of [CheckAlives]: [result], [writeResult] and the runtime data. *)
Fixpoint check_alives (cps : list WdgM_AliveSupervision)
    (rts : list WdgM_runtime_AliveSupervision) (result : Z) (writeResult : bool)
  : option (Z * bool * list WdgM_runtime_AliveSupervision) :=
  match cps, rts with
  | [], _ => Some (result, writeResult, rts)
  | cp :: cps, rt :: rts =>
      let rt := {| AliveCounter := rt.(AliveCounter);
                   SupervisionCycleCounter := u16 (rt.(SupervisionCycleCounter) + 1);
                   wasEvaluated := rt.(wasEvaluated) |} in
      let '(tempRes, rt) := WdgM_internal_IsAliveHold cp rt in
      let writeResult := if rt.(wasEvaluated) then true else writeResult in
      let result := if tempRes =? WDGM_SUBSTATE_INCORRECT then tempRes else result in
      '(result, writeResult, rts) ← check_alives cps rts result writeResult;
      Some (result, writeResult, rt :: rts)
  | _ :: _, [] => None
  end.

Definition WdgM_internal_CheckAlives : M unit :=
  let* m := get_CurrentMode in
  for_each 0 m.(SEConfigurations) (fun i seConf =>
    let* r := get_SE seConf.(SupervisedEntityId) in
    let* rc := get_SE_Config m.(Id) i in
    let* (result, writeResult, rts) :=
      deref (check_alives seConf.(AliveSupervisions) rc.(rt_alive)
               WDGM_SUBSTATE_CORRECT false) in
    let* _ := put_SE_Config m.(Id) i {| rt_alive := rts; rt_deadline := rc.(rt_deadline) |} in
    if (writeResult : bool)
    then put_SE seConf.(SupervisedEntityId) (set_SubstateAlive result r) else ret tt).

(** *** The local state of an entity *)
Definition WdgM_internal_CalculateLocalState_FromFailedNoError
    (r : WdgM_runtime_SupervisedEntity) (seConf : WdgM_SupervisedEntityConfiguration)
  : M WdgM_runtime_SupervisedEntity :=
  if r.(FailedAliveCyclesCounter) >? 1
  then ret (set_FailedAliveCyclesCounter (r.(FailedAliveCyclesCounter) - 1) r)
  else
    let r := set_LocalState WDGM_LOCAL_STATUS_OK (set_FailedAliveCyclesCounter 0 r) in
    let* _ := WdgM_Internal_ReportLocalModeChange r seConf.(SupervisedEntityId) in
    ret r.

Definition WdgM_internal_CalculateLocalState_FromOKOneError
    (r : WdgM_runtime_SupervisedEntity) (seConf : WdgM_SupervisedEntityConfiguration)
  : M WdgM_runtime_SupervisedEntity :=
  let* r :=
    if r.(SubstateAlive) =? WDGM_SUBSTATE_INCORRECT then
      let r := set_LocalState WDGM_LOCAL_STATUS_FAILED r in
      let* _ := WdgM_Internal_ReportLocalModeChange r seConf.(SupervisedEntityId) in
      ret (set_FailedAliveCyclesCounter (u8 (r.(FailedAliveCyclesCounter) + 1)) r)
    else ret r in
  if (r.(FailedAliveCyclesCounter) >? seConf.(FailedAliveSupervisionReferenceCycleTol))
     || (r.(SubstateAlive) =? WDGM_SUBSTATE_CORRECT)
  then
    let r := set_LocalState WDGM_LOCAL_STATUS_EXPIRED r in
    let* _ := WdgM_Internal_ReportLocalModeChange r seConf.(SupervisedEntityId) in
    ret r
  else ret r.

Definition WdgM_internal_CalculateLocalState_FromFailedOneError
    (r : WdgM_runtime_SupervisedEntity) (seConf : WdgM_SupervisedEntityConfiguration)
    (rc : WdgM_runtime_SupervisedEntityConfig) : M WdgM_runtime_SupervisedEntity :=
  let r :=
    if r.(SubstateAlive) =? WDGM_SUBSTATE_INCORRECT then
      let wasEval := existsb wasEvaluated rc.(rt_alive) in
      if wasEval then set_FailedAliveCyclesCounter (u8 (r.(FailedAliveCyclesCounter) + 1)) r
      else r
    else r in
  if r.(FailedAliveCyclesCounter) >? seConf.(FailedAliveSupervisionReferenceCycleTol)
  then
    let r := set_LocalState WDGM_LOCAL_STATUS_EXPIRED r in
    let* _ := WdgM_Internal_ReportLocalModeChange r seConf.(SupervisedEntityId) in
    ret r
  else ret r.

Definition WDGM_ALLSUBSTATECORRECT := 3.
Definition WDGM_ONESUBSTATEINCORRECT := 2.

Definition WdgM_internal_CalculateLocalState (r : WdgM_runtime_SupervisedEntity)
    (seConf : WdgM_SupervisedEntityConfiguration) (rc : WdgM_runtime_SupervisedEntityConfig)
  : M WdgM_runtime_SupervisedEntity :=
  let nrOfCorrectSubstates :=
    u8 (r.(SubstateAlive) + r.(SubstateDeadline) + r.(SubstateLogical)) in
  if nrOfCorrectSubstates =? WDGM_ALLSUBSTATECORRECT then
    if bool_decide (r.(LocalState) = WDGM_LOCAL_STATUS_FAILED)
    then WdgM_internal_CalculateLocalState_FromFailedNoError r seConf
    else ret r
  else if nrOfCorrectSubstates =? WDGM_ONESUBSTATEINCORRECT then
    if bool_decide (r.(LocalState) = WDGM_LOCAL_STATUS_OK)
    then WdgM_internal_CalculateLocalState_FromOKOneError r seConf
    else if bool_decide (r.(LocalState) = WDGM_LOCAL_STATUS_FAILED)
    then WdgM_internal_CalculateLocalState_FromFailedOneError r seConf rc
    else ret r
  else
    let r := set_LocalState WDGM_LOCAL_STATUS_EXPIRED r in
    let* _ := WdgM_Internal_ReportLocalModeChange r seConf.(SupervisedEntityId) in
    ret r.

(** *** The global state *)
Definition WdgM_internal_updateFromGlobalOK (m : WdgM_Mode) (expired failed : Z) : M unit :=
  let* _ := if failed >? 0 then set_GlobalState WDGM_GLOBAL_STATUS_FAILED else ret tt in
  if expired >? 0 then
    let* rm := get_rt_Mode m.(Id) in
    if rm.(ExpiredSupervisionCycleCounter) <? m.(ExpiredSupervisionCycleTol)
    then set_GlobalState WDGM_GLOBAL_STATUS_EXPIRED
    else set_GlobalState WDGM_GLOBAL_STATUS_STOPPED
  else ret tt.

Definition WdgM_internal_updateFromGlobalFAILED (m : WdgM_Mode) (expired failed : Z) : M unit :=
  if (failed =? 0) && (expired =? 0) then set_GlobalState WDGM_GLOBAL_STATUS_OK
  else if expired >? 0 then
    let* rm := get_rt_Mode m.(Id) in
    if rm.(ExpiredSupervisionCycleCounter) <? m.(ExpiredSupervisionCycleTol)
    then set_GlobalState WDGM_GLOBAL_STATUS_EXPIRED
    else set_GlobalState WDGM_GLOBAL_STATUS_STOPPED
  else ret tt.

Definition WdgM_internal_updateFromGlobalEXPIRED (m : WdgM_Mode) (expired : Z) : M unit :=
  if expired >? 0 then
    let* rm := get_rt_Mode m.(Id) in
    if rm.(ExpiredSupervisionCycleCounter) <? m.(ExpiredSupervisionCycleTol)
    then put_rt_Mode m.(Id)
           {| SE_Configs := rm.(SE_Configs);
              ExpiredSupervisionCycleCounter := u16 (rm.(ExpiredSupervisionCycleCounter) + 1) |}
    else set_GlobalState WDGM_GLOBAL_STATUS_STOPPED
  else ret tt.

(** The loop over the entities: the local states, [expiredCounter] and
    [failedCounter]. *)
Fixpoint local_states (id i : nat) (confs : list WdgM_SupervisedEntityConfiguration)
    (expired failed : Z) : M (Z * Z) :=
  match confs with
  | [] => ret (expired, failed)
  | seConf :: confs =>
      let* rc := get_SE_Config id i in
      let* r := get_SE seConf.(SupervisedEntityId) in
      let* r := WdgM_internal_CalculateLocalState r seConf rc in
      let* _ := put_SE seConf.(SupervisedEntityId) r in
      let* expired :=
        if bool_decide (r.(LocalState) = WDGM_LOCAL_STATUS_EXPIRED) then
          let* isSet := get isFirstExpiredSet in
          let* _ :=
            if (isSet : bool) then ret tt
            else modify (with_firstExpired true (u16 (Z.of_nat i))
                           (u16 (Z.lnot (Z.of_nat i)))) in
          ret (u16 (expired + 1))
        else ret expired in
      let failed := if bool_decide (r.(LocalState) = WDGM_LOCAL_STATUS_FAILED)
                    then u16 (failed + 1) else failed in
      local_states id (S i) confs expired failed
  end.

Definition WdgM_internal_CalculateGlobalState : M unit :=
  let* m := get_CurrentMode in
  let* initalState := get GlobalState in
  let* (expired, failed) := local_states m.(Id) 0 m.(SEConfigurations) 0 0 in
  let* g := get GlobalState in
  let* _ :=
    match g with
    | WDGM_GLOBAL_STATUS_OK => WdgM_internal_updateFromGlobalOK m expired failed
    | WDGM_GLOBAL_STATUS_FAILED => WdgM_internal_updateFromGlobalFAILED m expired failed
    | WDGM_GLOBAL_STATUS_EXPIRED => WdgM_internal_updateFromGlobalEXPIRED m expired
    | WDGM_GLOBAL_STATUS_STOPPED | WDGM_GLOBAL_STATUS_DEACTIVATED => ret tt
    end in
  let* g := get GlobalState in
  if bool_decide (initalState = g) then ret tt else Wdgm_internal_ReportGlobalModeChange.

(** *** Checkpoints *)

(** The first alive supervision of the checkpoint counts it. *)
Fixpoint alive_monitoring (cps : list WdgM_AliveSupervision)
    (rts : list WdgM_runtime_AliveSupervision) (CPId : Z)
  : option (list WdgM_runtime_AliveSupervision) :=
  match cps, rts with
  | [], _ => Some rts
  | cp :: cps, rt :: rts =>
      if cp.(CheckpointId) =? CPId
      then Some ({| AliveCounter := u32 (rt.(AliveCounter) + 1);
                    SupervisionCycleCounter := rt.(SupervisionCycleCounter);
                    wasEvaluated := rt.(wasEvaluated) |} :: rts)
      else rts ← alive_monitoring cps rts CPId; Some (rt :: rts)
  | _ :: _, [] => None
  end.

(** [WdgM_internalIsDeadlineHold]: the result and the new [LastTickValue]. *)
Definition WdgM_internalIsDeadlineHold (now max : Z) (d : WdgM_DeadlineSupervision) (last : Z)
  : Z * Z :=
  let '(elapsedTicks, last) := GetElapsedValue max now last in
  (if (elapsedTicks >=? u32 (d.(DeadlineMin) * WDGM_OSTICKSPERSECOND))
      && (elapsedTicks <=? u32 (d.(DeadlineMax) * WDGM_OSTICKSPERSECOND))
   then WDGM_SUBSTATE_CORRECT else WDGM_SUBSTATE_INCORRECT, last).

Fixpoint deadline_monitoring (now max : Z) (ds : list WdgM_DeadlineSupervision)
    (lasts : list Z) (CPId : Z) : option (Z * list Z) :=
  match ds, lasts with
  | [], _ => Some (WDGM_SUBSTATE_CORRECT, lasts)
  | d :: ds, last :: lasts =>
      let last := if d.(CheckpointIdStart) =? CPId then snd (GetElapsedValue max now last)
                  else last in
      if (d.(CheckpointIdFinish) =? CPId) && negb (last =? 0) then
        let '(r, last) := WdgM_internalIsDeadlineHold now max d last in
        if r =? WDGM_SUBSTATE_INCORRECT then Some (WDGM_SUBSTATE_INCORRECT, last :: lasts)
        else
          '(r, lasts) ← deadline_monitoring now max ds lasts CPId;
          Some (r, 0 :: lasts)
      else
        '(r, lasts) ← deadline_monitoring now max ds lasts CPId;
        Some (r, last :: lasts)
  | _ :: _, [] => None
  end.

(** The configuration of the entity in the current mode and its index. *)
Fixpoint find_conf (i : nat) (confs : list WdgM_SupervisedEntityConfiguration) (SEID : nat)
  : option (nat * WdgM_SupervisedEntityConfiguration) :=
  match confs with
  | [] => None
  | c :: confs => if Nat.eqb c.(SupervisedEntityId) SEID then Some (i, c)
                  else find_conf (S i) confs SEID
  end.

Definition WdgM_CheckpointReached (SEID : nat) (CheckpointID : Z) : M Z :=
  let* init := get isInitiated in
  if negb init then
    let* _ := WDGM_REPORT_DET_ERROR WDGM_SID_CHECKPOINTREACHED WDGM_E_NO_INIT in ret E_NOT_OK
  else
  let* c := get_Config in
  if (length c.(SupervisedEntities) <=? SEID)%nat then
    let* _ := WDGM_REPORT_DET_ERROR WDGM_SID_CHECKPOINTREACHED WDGM_E_PARAM_SEID in
    ret E_NOT_OK
  else
  let* se := deref (c.(SupervisedEntities) !! SEID) in
  let* r := get_SE SEID in
  if Z.of_nat (length se.(CheckpointIds)) <=? CheckpointID then
    let* _ := WDGM_REPORT_DET_ERROR WDGM_SID_CHECKPOINTREACHED WDGM_E_CPID in ret E_NOT_OK
  else if bool_decide (r.(LocalState) = WDGM_LOCAL_STATUS_DEACTIVATED) then
    let* _ := WDGM_REPORT_DET_ERROR WDGM_SID_CHECKPOINTREACHED WDGM_E_SEDEACTIVATED in
    ret E_NOT_OK
  else
  let* m := get_CurrentMode in
  match find_conf 0 m.(SEConfigurations) SEID with
  | None =>
      let* _ := WDGM_REPORT_DET_ERROR WDGM_SID_CHECKPOINTREACHED WDGM_E_PARAM_SEID in
      ret E_NOT_OK
  | Some (i, seConf) =>
      let* rc := get_SE_Config m.(Id) i in
      let* alive := deref (alive_monitoring seConf.(AliveSupervisions) rc.(rt_alive)
                             CheckpointID) in
      let* clk := get clock in
      let* (dl, lasts) :=
        deref (deadline_monitoring (clk seConf.(OSCounter)) (counter_max seConf.(OSCounter))
                 seConf.(DeadlineSupervisions) rc.(rt_deadline) CheckpointID) in
      let* _ := put_SE_Config m.(Id) i {| rt_alive := alive; rt_deadline := lasts |} in
      let r := set_SubstateDeadline dl r in
      let r :=
        if seConf.(CheckInternalLogic) then
          let '(lg, r) := WdgM_internal_LogicalMonitoring se r CheckpointID in
          set_SubstateLogical lg r
        else r in
      let* _ := put_SE SEID r in
      ret E_OK
  end.

(** *** Modes *)

(** [for (; SEIndex < untilID; SEIndex++) DeactivateAndResetSE(SEIndex);] *)
Fixpoint deactivate_range (SEIndex n : nat) : M unit :=
  match n with
  | O => ret tt
  | S n => let* _ := WdgM_internal_DeactivateAndResetSE SEIndex in deactivate_range (S SEIndex) n
  end.

(** The loop of [WdgM_SetMode] over the entities of the new mode. *)
Fixpoint switch_entities (confs : list WdgM_SupervisedEntityConfiguration)
    (SEIndex total : nat) : M unit :=
  match confs with
  | [] => deactivate_range SEIndex (total - SEIndex)
  | c :: confs =>
      let untilID := c.(SupervisedEntityId) in
      let* _ := deactivate_range SEIndex (untilID - SEIndex) in
      let SEIndex := Nat.max SEIndex untilID in
      let* r := get_SE SEIndex in
      let* _ :=
        if bool_decide (r.(LocalState) = WDGM_LOCAL_STATUS_DEACTIVATED) then
          let r := set_LocalState WDGM_LOCAL_STATUS_OK r in
          let* _ := put_SE SEIndex r in
          WdgM_Internal_ReportLocalModeChange r SEIndex
        else ret tt in
      switch_entities confs (S SEIndex) total
  end.

Definition WdgM_SetMode (Mode : nat) : M Z :=
  let* init := get isInitiated in
  if negb init then
    let* _ := WDGM_REPORT_DET_ERROR WDGM_SID_SETMODE WDGM_E_NO_INIT in ret E_NOT_OK
  else
  let* c := get_Config in
  if (length c.(Modes) <=? Mode)%nat then
    let* _ := WDGM_REPORT_DET_ERROR WDGM_SID_SETMODE WDGM_E_PARAM_MODE in ret E_NOT_OK
  else
  let* status :=
    if opt.(WDGM_OFF_MODE_ENABLED) then ret true
    else WdgM_internal_isAtLeastOneWdogEnabled Mode WDGM_SID_SETMODE WDGM_E_DISABLE_NOT_ALLOWED in
  if (status : bool) then
    let* g := get GlobalState in
    if bool_decide (g = WDGM_GLOBAL_STATUS_OK) || bool_decide (g = WDGM_GLOBAL_STATUS_FAILED)
    then
      let* newMode := deref (c.(Modes) !! Mode) in
      let* _ := switch_entities newMode.(SEConfigurations) 0
                  (length c.(SupervisedEntities)) in
      let* cur := get_CurrentMode in
      let* _ := WdgM_internal_ResetSEConfigsForMode cur.(Id) in
      let* retVal := WdgM_internal_deactivateCurrentTriggers c.(DemEventSetMode) in
      let* retVal :=
        if retVal =? E_OK then WdgM_internal_activateTriggers newMode c.(DemEventSetMode)
        else ret retVal in
      let* _ := modify (with_CurrentMode (Some newMode)) in
      ret retVal
    else ret E_OK
  else ret E_NOT_OK.

(** *** Initialisation *)
Definition WdgM_Init (Config : option WdgM_ConfigType) : M unit :=
  match Config with
  | None => WDGM_REPORT_DET_ERROR WDGM_SID_INIT WDGM_E_INV_POINTER
  | Some c =>
      let* init := get isInitiated in
      if (init : bool) then WDGM_REPORT_DET_ERROR WDGM_SID_INIT WDGM_E_NO_DEINIT
      else
      let* _ := modify (with_ConfigPtr (Some c)) in
      let* initialMode := deref (c.(Modes) !! c.(initialModeId)) in
      let* status :=
        if opt.(WDGM_OFF_MODE_ENABLED) then ret true
        else WdgM_internal_isAtLeastOneWdogEnabled initialMode.(Id) WDGM_SID_INIT
               WDGM_E_DISABLE_NOT_ALLOWED in
      if (status : bool) then
        let* _ := deactivate_range 0 (length c.(SupervisedEntities)) in
        let* _ := for_each 0 initialMode.(SEConfigurations) (fun _ seConf =>
          let* r := get_SE seConf.(SupervisedEntityId) in
          let r := set_LocalState WDGM_LOCAL_STATUS_OK r in
          let* _ := put_SE seConf.(SupervisedEntityId) r in
          WdgM_Internal_ReportLocalModeChange r seConf.(SupervisedEntityId)) in
        let* _ := WdgM_internal_ResetSEConfigsForMode initialMode.(Id) in
        let* _ := set_GlobalState WDGM_GLOBAL_STATUS_OK in
        let* _ := Wdgm_internal_ReportGlobalModeChange in
        let* _ := modify (with_firstExpired false 0 0) in
        let* _ := modify (with_CurrentMode (Some initialMode)) in
        let* _ := modify (with_ResetInitiated false) in
        let* r := WdgM_internal_activateTriggers initialMode c.(DemEventSetMode) in
        if r =? E_OK then modify (with_isInitiated true) else ret tt
      else ret tt
  end.

Definition WdgM_DeInit : M unit :=
  let* init := get isInitiated in
  if negb init then WDGM_REPORT_DET_ERROR WDGM_SID_DEINIT WDGM_E_NO_INIT
  else
  let* g := get GlobalState in
  if bool_decide (g = WDGM_GLOBAL_STATUS_OK) then
    let* _ := set_GlobalState WDGM_GLOBAL_STATUS_DEACTIVATED in
    let* _ := Wdgm_internal_ReportGlobalModeChange in
    let* r := WdgM_internal_deactivateCurrentTriggers DEM_EVENT_ID_NULL in
    if r =? E_OK then
      let* c := get_Config in
      let* resetInitiated := get ResetInitiated in
      let* _ :=
        if (resetInitiated : bool) then ret tt
        else for_each 0 c.(Watchdogs) (fun _ device => WdgIf_SetTriggerCondition device 0) in
      modify (with_isInitiated false)
    else ret tt
  else ret tt.

(** *** Queries *)
Definition WdgM_GetMode (Mode : bool) : M (Z * option nat) :=
  let* init := get isInitiated in
  if negb init then
    let* _ := WDGM_REPORT_DET_ERROR WDGM_SID_GETMODE WDGM_E_NO_INIT in ret (E_NOT_OK, None)
  else if negb Mode then
    let* _ := WDGM_REPORT_DET_ERROR WDGM_SID_GETMODE WDGM_E_INV_POINTER in ret (E_NOT_OK, None)
  else
    let* m := get_CurrentMode in ret (E_OK, Some m.(Id)).

Definition WdgM_GetLocalStatus (SEID : nat) (Status : bool)
  : M (Z * option WdgM_LocalStatusType) :=
  let* init := get isInitiated in
  if negb init then
    let* _ := WDGM_REPORT_DET_ERROR WDGM_SID_GETLOCALSTATUS WDGM_E_NO_INIT in
    ret (E_NOT_OK, None)
  else if negb Status then
    let* _ := WDGM_REPORT_DET_ERROR WDGM_SID_GETLOCALSTATUS WDGM_E_INV_POINTER in
    ret (E_NOT_OK, None)
  else
  let* c := get_Config in
  if (length c.(SupervisedEntities) <=? SEID)%nat then
    let* _ := WDGM_REPORT_DET_ERROR WDGM_SID_GETLOCALSTATUS WDGM_E_PARAM_SEID in
    ret (E_NOT_OK, None)
  else
    let* r := get_SE SEID in ret (E_OK, Some r.(LocalState)).

Definition WdgM_GetGlobalStatus (Status : bool) : M (Z * option WdgM_GlobalStatusType) :=
  let* init := get isInitiated in
  if negb init then
    let* _ := WDGM_REPORT_DET_ERROR WDGM_SID_GETGLOBALSTATUS WDGM_E_NO_INIT in
    ret (E_NOT_OK, None)
  else if negb Status then
    let* _ := WDGM_REPORT_DET_ERROR WDGM_SID_GETGLOBALSTATUS WDGM_E_INV_POINTER in
    ret (E_NOT_OK, None)
  else
    let* g := get GlobalState in ret (E_OK, Some g).

Definition WdgM_GetFirstExpiredSEID (SEID : bool) : M (Z * option Z) :=
  if negb SEID then
    let* _ := WDGM_REPORT_DET_ERROR WDGM_SID_GETFIRSTEXPIREDSEID WDGM_E_INV_POINTER in
    ret (E_NOT_OK, None)
  else
    let* id := get firstExpiredSEID in
    let* inv := get firstExpiredSEIDInverse in
    if u16 (Z.lnot id) =? inv then ret (E_OK, Some id) else ret (E_NOT_OK, Some 0).

Definition WdgM_PerformReset : M unit :=
  let* init := get isInitiated in
  if negb init then WDGM_REPORT_DET_ERROR WDGM_SID_PERFORMRESET WDGM_E_NO_INIT
  else
  let* resetInitiated := get ResetInitiated in
  if (resetInitiated : bool) then ret tt
  else
    let* _ := modify (with_ResetInitiated true) in
    let* c := get_Config in
    for_each 0 c.(Watchdogs) (fun _ device => WdgIf_SetTriggerCondition device 0).

(** *** The main function *)
Definition set_triggers (m : WdgM_Mode) : M unit :=
  let* c := get_Config in
  for_each 0 m.(Triggers) (fun _ t =>
    if bool_decide (t.(WatchdogMode) = WDGIF_OFF_MODE) then ret tt
    else
      let* g := get GlobalState in
      let triggerValue := if bool_decide (g = WDGM_GLOBAL_STATUS_STOPPED) then 0
                          else t.(TriggerConditionValue) in
      let* resetInitiated := get ResetInitiated in
      if (resetInitiated : bool) then ret tt
      else
        let* device := deref (c.(Watchdogs) !! t.(WatchdogId)) in
        WdgIf_SetTriggerCondition device triggerValue).

Definition WdgM_MainFunction : M unit :=
  let* init := get isInitiated in
  if negb init then WDGM_REPORT_DET_ERROR WDGM_SID_MAINFUNCTION WDGM_E_NO_INIT
  else
  let* _ := WdgM_internal_CheckAlives in
  let* _ := WdgM_internal_CalculateGlobalState in
  let* g := get GlobalState in
  let* c := get_Config in
  let* _ :=
    if bool_decide (g = WDGM_GLOBAL_STATUS_STOPPED) then
      let* _ := if opt.(WDGM_DEM_ALIVE_SUPERVISION_REPORT)
                then WDGM_REPORT_DEM_ERROR c.(DemEventSupervision) else ret tt in
      if opt.(WDGM_IMMEDIATE_RESET) then emit Mcu_PerformReset else ret tt
    else ret tt in
  let* m := get_CurrentMode in
  set_triggers m.
End WdgM.
