(* ===== verification/WdgM_Steps.v ===== *)
(** * The watchdog manager, operation by operation

    What each operation of [WdgM.c] changes and leaves alone, and that none of
    them leaves the bounds of an array or follows a null pointer when the
    configuration is valid.  The theorems about the module are in [WdgM_Theorems]. *)

From Stdlib Require Import Sorted.
From S2P Require Import Prelude.
From S2P Require Import StateMonad.
From S2P Require Import WdgM.

#[local] Open Scope monad_scope.

(** ** Access to the runtime data *)
Lemma wp_get_SE id r (Q : _ -> WdgM_State -> Prop) s :
  s.(SEs) !! id = Some r -> Q r s -> wp (get_SE id) Q s.
Proof. intros H HQ. apply wp_bind, wp_get. by eapply wp_deref. Qed.

Lemma wp_put_SE id r (Q : unit -> WdgM_State -> Prop) s :
  Q tt (with_SEs (<[id := r]> s.(SEs)) s) -> wp (put_SE id r) Q s.
Proof. done. Qed.

Lemma wp_get_rt_Mode id m (Q : _ -> WdgM_State -> Prop) s :
  s.(rt_Modes) !! id = Some m -> Q m s -> wp (get_rt_Mode id) Q s.
Proof. intros H HQ. apply wp_bind, wp_get. by eapply wp_deref. Qed.

Lemma wp_get_SE_Config id i m c (Q : _ -> WdgM_State -> Prop) s :
  s.(rt_Modes) !! id = Some m -> m.(SE_Configs) !! i = Some c -> Q c s ->
  wp (get_SE_Config id i) Q s.
Proof. intros Hm Hc HQ. apply wp_bind. eapply wp_get_rt_Mode; [done|]. by eapply wp_deref. Qed.

Lemma wp_get_Config c (Q : _ -> WdgM_State -> Prop) s :
  s.(ConfigPtr) = Some c -> Q c s -> wp get_Config Q s.
Proof. intros H HQ. apply wp_bind, wp_get. by eapply wp_deref. Qed.

Lemma wp_get_CurrentMode m (Q : _ -> WdgM_State -> Prop) s :
  s.(CurrentMode) = Some m -> Q m s -> wp get_CurrentMode Q s.
Proof. intros H HQ. apply wp_bind, wp_get. by eapply wp_deref. Qed.

(** ** What the operations leave alone *)

(** The sizes of the arrays of the runtime data. *)
Definition layout (s : WdgM_State) : nat * list (list (nat * nat)) :=
  (length s.(SEs),
   map (fun m => map (fun c => (length c.(rt_alive), length c.(rt_deadline))) m.(SE_Configs))
     s.(rt_Modes)).

Definition locals (s : WdgM_State) : list WdgM_LocalStatusType := map LocalState s.(SEs).
Definition expired_cycles (s : WdgM_State) : list Z :=
  map ExpiredSupervisionCycleCounter s.(rt_Modes).

(** Configuration, mode and sizes. *)
Record frame (s s' : WdgM_State) : Prop := {
  f_config : s'.(ConfigPtr) = s.(ConfigPtr);
  f_init : s'.(isInitiated) = s.(isInitiated);
  f_mode : s'.(CurrentMode) = s.(CurrentMode);
  f_layout : layout s' = layout s
}.

(** Global and local states and the count of expired cycles. *)
Record same_status (s s' : WdgM_State) : Prop := {
  t_global : s'.(GlobalState) = s.(GlobalState);
  t_locals : locals s' = locals s;
  t_cycles : expired_cycles s' = expired_cycles s
}.

(** A call that neither restarts nor serves a watchdog. *)
Definition harmless (e : Effect) : Prop :=
  match e with
  | WdgIf_SetMode_call _ _ | Wdg_SetMode _ _ => False
  | WdgIf_SetTriggerCondition_call _ timeout | Wdg_SetTriggerCondition _ timeout => timeout = 0
  | _ => True
  end.

(** The calls between two states are harmless, and if a reset was requested
    between them every watchdog was told to expire. *)
Definition silent (s s' : WdgM_State) : Prop :=
  exists calls, s'.(trace) = calls ++ s.(trace) /\ Forall harmless calls /\
    (s'.(ResetInitiated) = s.(ResetInitiated) \/
     exists c, s.(ConfigPtr) = Some c /\
       forall d, In d c.(Watchdogs) -> In (WdgIf_SetTriggerCondition_call d 0) calls).

Record quiet (s s' : WdgM_State) : Prop := {
  q_frame : frame s s'; q_status : same_status s s'; q_silent : silent s s'
}.

#[export] Instance frame_preorder : PreOrder frame.
Proof.
  split; [intros s; by split|].
  intros s1 s2 s3 [] []. split; congruence.
Qed.

#[export] Instance same_status_preorder : PreOrder same_status.
Proof.
  split; [intros s; by split|].
  intros s1 s2 s3 [] []. split; congruence.
Qed.

Lemma silent_refl s : silent s s.
Proof. exists []. auto. Qed.

Lemma silent_trans s1 s2 s3 :
  frame s1 s2 -> silent s1 s2 -> silent s2 s3 -> silent s1 s3.
Proof.
  intros Hf (c1 & E1 & H1 & R1) (c2 & E2 & H2 & R2).
  exists (c2 ++ c1). split; [rewrite E2, E1; by rewrite app_assoc|].
  split; [by apply Forall_app_2|].
  destruct R2 as [R2|(c & Hc & Hd)].
  - destruct R1 as [R1|(c & Hc & Hd)]; [left; congruence|].
    right. exists c. split; [done|]. intros d Hin. apply in_or_app. auto.
  - right. exists c. rewrite (f_config _ _ Hf) in Hc. split; [done|].
    intros d Hin. apply in_or_app. auto.
Qed.

#[export] Instance quiet_preorder : PreOrder quiet.
Proof.
  split; [intros s; split; [reflexivity|reflexivity|apply silent_refl]|].
  intros s1 s2 s3 [F1 T1 S1] [F2 T2 S2].
  split; [by etransitivity|by etransitivity|by eapply silent_trans].
Qed.

Lemma silent_emit e s s' :
  harmless e -> s'.(trace) = e :: s.(trace) -> s'.(ResetInitiated) = s.(ResetInitiated) ->
  silent s s'.
Proof. intros He Ht Hr. exists [e]. auto. Qed.

(** *** Assignments *)
Lemma map_insert {A B} (f : A -> B) (l : list A) i y :
  map f (<[i := y]> l) = <[i := f y]> (map f l).
Proof. revert i. induction l as [|a l IH]; intros [|i]; cbn; [done..|]. f_equal. apply IH. Qed.

Lemma lookup_map {A B} (f : A -> B) (l : list A) i : map f l !! i = f <$> (l !! i).
Proof. revert i. induction l as [|a l IH]; intros [|i]; cbn; auto. Qed.

Lemma map_insert_same {A B} (f : A -> B) (l : list A) i x y :
  l !! i = Some x -> f y = f x -> map f (<[i := y]> l) = map f l.
Proof.
  intros Hi Hf. rewrite map_insert, Hf. apply list_insert_id. by rewrite lookup_map, Hi.
Qed.

Lemma frame_put_SE s id r : frame s (with_SEs (<[id := r]> s.(SEs)) s).
Proof. split; try done. unfold layout. cbn. by rewrite length_insert. Qed.

Lemma silent_put_SE s id r : silent s (with_SEs (<[id := r]> s.(SEs)) s).
Proof. exists []. auto. Qed.

Lemma quiet_put_SE s id r r' :
  s.(SEs) !! id = Some r -> r'.(LocalState) = r.(LocalState) ->
  quiet s (with_SEs (<[id := r']> s.(SEs)) s).
Proof.
  intros Hr E. split; [apply frame_put_SE| |apply silent_put_SE].
  split; try done. cbn. by eapply map_insert_same.
Qed.

Lemma put_SE_Config_eq id i c m s :
  s.(rt_Modes) !! id = Some m ->
  put_SE_Config id i c s =
  Some (tt, with_rt_Modes (<[id := {| SE_Configs := <[i := c]> m.(SE_Configs);
    ExpiredSupervisionCycleCounter := m.(ExpiredSupervisionCycleCounter) |}]> s.(rt_Modes)) s).
Proof. intros H. unfold put_SE_Config, get_rt_Mode, bind, get, deref. cbn. by rewrite H. Qed.

Lemma wp_put_SE_Config id i m c c' s :
  s.(rt_Modes) !! id = Some m -> m.(SE_Configs) !! i = Some c ->
  length c'.(rt_alive) = length c.(rt_alive) ->
  length c'.(rt_deadline) = length c.(rt_deadline) ->
  wp (put_SE_Config id i c') (fun _ s' => quiet s s' /\ s'.(SEs) = s.(SEs)) s.
Proof.
  intros Hm Hc Ha Hd. unfold wp. rewrite (put_SE_Config_eq _ _ _ _ _ Hm).
  split; [|done]. split; [split|split|exists []]; try done; try (by auto).
  - unfold layout. cbn. f_equal. eapply map_insert_same; [done|]. cbn.
    eapply map_insert_same; [done|]. cbn. by rewrite Ha, Hd.
  - cbn. by eapply map_insert_same.
Qed.

Lemma wp_emit e s : harmless e -> wp (emit e) (fun _ s' => quiet s s' /\ s'.(SEs) = s.(SEs)) s.
Proof. intros He. split; [|done]. split; [by split..|by eapply silent_emit]. Qed.

(** ** Valid configurations

    What the generated configuration and runtime data satisfy: the sizes agree,
    identifiers are indices, and the entities of a mode are in increasing
    order ([WdgM_SetMode] relies on it) and fewer than 65535 (with 65535 of them the
    loop of [WdgM_SetMode], whose [uint16] index runs up to and including their
    number, would not end). *)
Record mode_valid (c : WdgM_ConfigType) (lay : nat * list (list (nat * nat))) (m : WdgM_Mode)
    : Prop := {
  mv_sorted : StronglySorted lt (map SupervisedEntityId m.(SEConfigurations));
  mv_ids : Forall (fun e => e.(SupervisedEntityId) < length c.(SupervisedEntities))%nat
             m.(SEConfigurations);
  mv_triggers : Forall (fun t => t.(WatchdogId) < length c.(Watchdogs))%nat m.(Triggers);
  mv_layout : lay.2 !! m.(Id) =
    Some (map (fun e => (length e.(AliveSupervisions), length e.(DeadlineSupervisions)))
            m.(SEConfigurations));
  mv_size : Z.of_nat (length m.(SEConfigurations)) < 2 ^ 16 - 1
}.

Record valid (c : WdgM_ConfigType) (lay : nat * list (list (nat * nat))) : Prop := {
  v_entities : lay.1 = length c.(SupervisedEntities);
  v_initial : is_Some (c.(Modes) !! c.(initialModeId));
  v_modes i m : c.(Modes) !! i = Some m -> m.(Id) = i /\ mode_valid c lay m
}.

(** The module is initialised and in mode [m]. *)
Record ready (c : WdgM_ConfigType) (m : WdgM_Mode) (s : WdgM_State) : Prop := {
  rd_init : s.(isInitiated) = true;
  rd_config : s.(ConfigPtr) = Some c;
  rd_mode : s.(CurrentMode) = Some m;
  rd_id : c.(Modes) !! m.(Id) = Some m;
  rd_valid : valid c (layout s)
}.

Lemma ready_mode c m s : ready c m s -> mode_valid c (layout s) m.
Proof. intros []. by edestruct v_modes. Qed.

#[export] Instance ready_proper c m : Proper (frame ==> impl) (ready c m).
Proof. intros s s' [] []. split; congruence. Qed.

Lemma lookup_SE c s id :
  valid c (layout s) -> (id < length c.(SupervisedEntities))%nat ->
  exists r, s.(SEs) !! id = Some r.
Proof. intros [H _ _] Hid. cbn in H. apply lookup_lt_is_Some_2. lia. Qed.

Lemma lookup_SE_Config c m s i e :
  mode_valid c (layout s) m -> m.(SEConfigurations) !! i = Some e ->
  exists rm rc, s.(rt_Modes) !! m.(Id) = Some rm /\ rm.(SE_Configs) !! i = Some rc /\
    length rc.(rt_alive) = length e.(AliveSupervisions) /\
    length rc.(rt_deadline) = length e.(DeadlineSupervisions).
Proof.
  intros [_ _ _ H _] He. cbn in H. rewrite lookup_map in H.
  destruct (s.(rt_Modes) !! m.(Id)) as [rm|]; cbn in H; [|done].
  injection H as H. exists rm.
  assert (E := f_equal (lookup i) H).
  rewrite !lookup_map, He in E. cbn in E.
  destruct (rm.(SE_Configs) !! i) as [rc|]; cbn in E; [|done].
  injection E as Ha Hd. eauto 10.
Qed.

Lemma mode_id_lt c s m e i :
  mode_valid c (layout s) m -> m.(SEConfigurations) !! i = Some e ->
  (e.(SupervisedEntityId) < length c.(SupervisedEntities))%nat.
Proof. intros [_ H _ _ _] He. exact (Forall_lookup_1 _ _ _ _ H He). Qed.

(** ** The operations one by one *)
Ltac wp_if := match goal with |- wp (if ?b then _ else _) _ _ => destruct b eqn:? end.

Section Operations.
Context (opt : BuildOptions) (OSTICKS : Z) (counter_max : Z -> Z).
Context (driver_accepts : list Effect -> Z -> WdgIf_ModeType -> bool).

Lemma wp_det sid err s :
  wp (WDGM_REPORT_DET_ERROR opt sid err) (fun _ s' => quiet s s') s.
Proof.
  unfold WDGM_REPORT_DET_ERROR. wp_if; [|apply wp_ret; reflexivity].
  eapply wp_mono; [by apply wp_emit|]. by intros a s' [].
Qed.

Lemma wp_dem event s : wp (WDGM_REPORT_DEM_ERROR event) (fun _ s' => quiet s s') s.
Proof.
  unfold WDGM_REPORT_DEM_ERROR. wp_if; [|apply wp_ret; reflexivity].
  eapply wp_mono; [by apply wp_emit|]. by intros a s' [].
Qed.

(** An error report and an early return. *)
Lemma wp_det_ret {A} sid err (a : A) s :
  wp (let* _ := WDGM_REPORT_DET_ERROR opt sid err in ret a) (fun _ s' => quiet s s') s.
Proof. apply wp_bind. eapply wp_mono; [apply wp_det|]. by intros. Qed.

(** *** Supervision cycle *)
Lemma check_alives_total cps rts result w :
  length rts = length cps ->
  exists result' w' rts', check_alives cps rts result w = Some (result', w', rts') /\
                          length rts' = length rts.
Proof.
  revert rts result w. induction cps as [|cp cps IH]; intros [|rt rts] result w Hl;
    try discriminate Hl; [by eauto|].
  cbn -[u16 WdgM_internal_IsAliveHold]. destruct WdgM_internal_IsAliveHold as [r rt'].
  injection Hl as Hl. edestruct IH as (r' & w' & rts' & E & El); [done|].
  rewrite E. cbn. rewrite <- El. eauto.
Qed.

Lemma wp_CheckAlives c m s :
  ready c m s -> wp WdgM_internal_CheckAlives (fun _ s' => quiet s s') s.
Proof.
  intros Hr. apply wp_bind, (wp_get_CurrentMode m); [apply Hr|].
  apply (wp_for_each (quiet s)); [reflexivity|]. intros i e s1 He Hq. cbn [Nat.add].
  rewrite (q_frame _ _ Hq) in Hr. pose proof (ready_mode _ _ _ Hr) as Hm.
  destruct (lookup_SE c s1 e.(SupervisedEntityId)) as [r Hse];
    [apply Hr|by eapply mode_id_lt|].
  destruct (lookup_SE_Config _ _ _ _ _ Hm He) as (rm & rc & Hrm & Hrc & La & Ld).
  destruct (check_alives_total e.(AliveSupervisions) rc.(rt_alive)
              WDGM_SUBSTATE_CORRECT false La) as (res & w & rts & E & El).
  apply wp_bind. eapply wp_get_SE; [done|].
  apply wp_bind. eapply wp_get_SE_Config; [done..|].
  apply wp_bind. eapply wp_deref; [done|]. cbn beta iota.
  apply wp_bind. eapply wp_mono; [eapply wp_put_SE_Config; done|].
  intros ? s2 [Hq2 Hses]. wp_if; [|apply wp_ret; by etransitivity].
  cbn. etransitivity; [done|]. etransitivity; [done|].
  eapply (quiet_put_SE _ _ r); [by rewrite Hses|done].
Qed.

(** An entity's new local state is reported; an expired entity stays expired. *)
Definition recalculated (r : WdgM_runtime_SupervisedEntity) (s : WdgM_State)
    (r' : WdgM_runtime_SupervisedEntity) (s' : WdgM_State) : Prop :=
  (quiet s s' /\ s'.(SEs) = s.(SEs)) /\
  (r.(LocalState) = WDGM_LOCAL_STATUS_EXPIRED -> r'.(LocalState) = WDGM_LOCAL_STATUS_EXPIRED).

Lemma wp_report r r1 r2 i s :
  (r.(LocalState) = WDGM_LOCAL_STATUS_EXPIRED -> r1.(LocalState) = WDGM_LOCAL_STATUS_EXPIRED) ->
  wp (let* _ := WdgM_Internal_ReportLocalModeChange r2 i in ret r1) (recalculated r s) s.
Proof.
  intros H. apply wp_bind. eapply wp_mono; [by apply wp_emit|].
  intros ? s' Hs. by apply wp_ret.
Qed.

Lemma wp_keep r r1 s :
  (r.(LocalState) = WDGM_LOCAL_STATUS_EXPIRED -> r1.(LocalState) = WDGM_LOCAL_STATUS_EXPIRED) ->
  wp (ret r1) (recalculated r s) s.
Proof. intros H. apply wp_ret. split; [split; [reflexivity|done]|done]. Qed.

Lemma recalculated_trans r r1 r2 s s1 s2 :
  recalculated r s r1 s1 -> recalculated r1 s1 r2 s2 -> recalculated r s r2 s2.
Proof.
  intros [[Q1 E1] L1] [[Q2 E2] L2]. split; [split|auto]; [by etransitivity|congruence].
Qed.

Lemma wp_FromOKOneError r e s :
  r.(LocalState) = WDGM_LOCAL_STATUS_OK ->
  wp (WdgM_internal_CalculateLocalState_FromOKOneError r e) (recalculated r s) s.
Proof.
  intros Hok. apply wp_bind. eapply (wp_mono _ (recalculated r s)).
  - wp_if; [apply wp_report|apply wp_keep]; congruence.
  - intros r1 s1 H1. wp_if; (eapply wp_mono; [|intros r2 s2; apply recalculated_trans, H1]).
    + by apply wp_report.
    + by apply wp_keep.
Qed.

Lemma wp_FromFailedOneError r e rc s :
  r.(LocalState) = WDGM_LOCAL_STATUS_FAILED ->
  wp (WdgM_internal_CalculateLocalState_FromFailedOneError r e rc) (recalculated r s) s.
Proof.
  intros Hf. unfold WdgM_internal_CalculateLocalState_FromFailedOneError.
  wp_if; [apply wp_report|apply wp_keep]; congruence.
Qed.

Lemma wp_CalculateLocalState r e rc s :
  wp (WdgM_internal_CalculateLocalState r e rc) (recalculated r s) s.
Proof.
  unfold WdgM_internal_CalculateLocalState. cbv zeta.
  wp_if; [|wp_if]; [| |by apply wp_report].
  - wp_if; [|by apply wp_keep].
    unfold WdgM_internal_CalculateLocalState_FromFailedNoError.
    apply bool_decide_eq_true in Heqb0.
    wp_if; [apply wp_keep|apply wp_report]; congruence.
  - wp_if; [apply wp_FromOKOneError; by eapply bool_decide_eq_true_1|].
    wp_if; [|by apply wp_keep].
    apply wp_FromFailedOneError. by eapply bool_decide_eq_true_1.
Qed.

(** What recalculating local states leaves alone. *)
Record judged (s s' : WdgM_State) : Prop := {
  j_frame : frame s s';
  j_global : s'.(GlobalState) = s.(GlobalState);
  j_cycles : expired_cycles s' = expired_cycles s;
  j_silent : silent s s';
  j_expired id : locals s !! id = Some WDGM_LOCAL_STATUS_EXPIRED ->
                 locals s' !! id = Some WDGM_LOCAL_STATUS_EXPIRED
}.

Instance judged_preorder : PreOrder judged.
Proof using Type.
  split; [intros s; by split; try done; apply silent_refl|].
  intros s1 s2 s3 [] []. split; [by etransitivity|congruence..|by eapply silent_trans|auto].
Qed.

Lemma quiet_judged s s' : quiet s s' -> judged s s'.
Proof using Type. intros [F [] S]. split; try done. intros id. congruence. Qed.

Lemma put_SE_judged s id r r' :
  s.(SEs) !! id = Some r ->
  (r.(LocalState) = WDGM_LOCAL_STATUS_EXPIRED -> r'.(LocalState) = WDGM_LOCAL_STATUS_EXPIRED) ->
  judged s (with_SEs (<[id := r']> s.(SEs)) s).
Proof using Type.
  intros Hr HE. split; [apply frame_put_SE|done|done|apply silent_put_SE|].
  intros j. unfold locals. cbn. rewrite !lookup_map. destruct (decide (j = id)) as [->|Hne].
  - rewrite list_lookup_insert_eq by (by eapply lookup_lt_Some). rewrite Hr. cbn.
    intros [= H]. by rewrite HE.
  - by rewrite list_lookup_insert_ne.
Qed.

Lemma first_expired_judged s b x y : judged s (with_firstExpired b x y s).
Proof using Type. split; try done. exists []. auto. Qed.

(** One round of the loop of [CalculateGlobalState]. *)
Lemma wp_local_states_round c m i e s (Q : Z -> Z -> WdgM_State -> Prop) expired failed confs :
  ready c m s -> m.(SEConfigurations) !! i = Some e ->
  0 <= expired < 2 ^ 16 - 1 -> 0 <= failed ->
  (forall k failed' s', judged s s' -> 0 <= failed' -> (k = 0 \/ k = 1) ->
     (locals s !! e.(SupervisedEntityId) = Some WDGM_LOCAL_STATUS_EXPIRED -> k = 1) ->
     wp (local_states m.(Id) (S i) confs (expired + k) failed') (fun p => Q p.1 p.2) s') ->
  wp (local_states m.(Id) i (e :: confs) expired failed) (fun p => Q p.1 p.2) s.
Proof using Type.
  intros Hr He Hb Hf K. pose proof (ready_mode _ _ _ Hr) as Hm.
  destruct (lookup_SE c s e.(SupervisedEntityId)) as [r Hse];
    [apply Hr|by eapply mode_id_lt|].
  destruct (lookup_SE_Config _ _ _ _ _ Hm He) as (rm & rc & Hrm & Hrc & _ & _).
  cbn [local_states].
  apply wp_bind. eapply wp_get_SE_Config; [done..|].
  apply wp_bind. eapply wp_get_SE; [done|].
  apply wp_bind. eapply wp_mono; [apply wp_CalculateLocalState|].
  intros r' s1 [[Hq Hses] Hex]. apply wp_bind. cbn beta.
  assert (J : judged s (with_SEs (<[e.(SupervisedEntityId) := r']> s1.(SEs)) s1)).
  { transitivity s1; [by apply quiet_judged|].
    eapply (put_SE_judged _ _ r); [by rewrite Hses|done]. }
  assert (HE : locals s !! e.(SupervisedEntityId) = Some WDGM_LOCAL_STATUS_EXPIRED ->
               r'.(LocalState) = WDGM_LOCAL_STATUS_EXPIRED).
  { unfold locals. rewrite lookup_map, Hse. intros [= H]. auto. }
  apply wp_put_SE.
  revert J. generalize (with_SEs (<[e.(SupervisedEntityId) := r']> s1.(SEs)) s1). intros s2 J.
  assert (Hf' : 0 <= (if bool_decide (r'.(LocalState) = WDGM_LOCAL_STATUS_FAILED)
                      then u16 (failed + 1) else failed))
    by (case_bool_decide; [apply Z.mod_pos_bound; lia|done]).
  revert Hf'. generalize (if bool_decide (r'.(LocalState) = WDGM_LOCAL_STATUS_FAILED)
                          then u16 (failed + 1) else failed). intros failed' Hf'.
  apply wp_bind. case_bool_decide as D.
  - apply wp_bind, wp_get. apply wp_bind. eapply (wp_mono _ (fun _ s' => judged s s')).
    + wp_if; [by apply wp_ret|]. cbn. etransitivity; [done|]. apply first_expired_judged.
    + intros ? s3 J3. apply wp_ret. unfold u16. rewrite Z.mod_small by lia. apply K; auto.
  - apply wp_ret. rewrite <- (Z.add_0_r expired). apply K; auto. intros H. by destruct D; apply HE.
Qed.

Lemma wp_local_states c m confs i expired failed s :
  ready c m s ->
  (forall j e, confs !! j = Some e -> m.(SEConfigurations) !! (i + j)%nat = Some e) ->
  0 <= expired -> expired + Z.of_nat (length confs) < 2 ^ 16 -> 0 <= failed ->
  wp (local_states m.(Id) i confs expired failed) (fun p s' => (judged s s' /\ 0 <= p.2) /\
     expired <= p.1 /\
     (Exists (fun e => locals s !! e.(SupervisedEntityId) = Some WDGM_LOCAL_STATUS_EXPIRED) confs
      -> expired < p.1)) s.
Proof using Type.
  revert i expired failed s. induction confs as [|e confs IH];
    intros i expired failed s Hr Hc H0 Hb Hf.
  { apply wp_ret. split; [by split|]. split; [cbn; lia|]. by rewrite Exists_nil. }
  cbn [length] in Hb.
  apply (wp_local_states_round c m i e s (fun x y s' => (judged s s' /\ 0 <= y) /\ expired <= x /\
    (Exists (fun e => locals s !! e.(SupervisedEntityId) = Some WDGM_LOCAL_STATUS_EXPIRED)
       (e :: confs) -> expired < x))); [done| |lia|done|].
  { rewrite <- (Nat.add_0_r i). by apply Hc. }
  intros k failed' s' J Hf' Hk Hex. eapply wp_mono.
  - apply IH; [|intros j e' Hj|lia|lia|done].
    + by rewrite <- (j_frame _ _ J).
    + replace (S i + j)%nat with (i + S j)%nat by lia. by apply Hc.
  - cbn beta. intros [x y] s3 ([J3 Hy] & Hle & HEx). cbn [fst snd] in *.
    split; [split; [by transitivity s'|done]|]. split; [lia|].
    rewrite Exists_cons. intros [H|H]; [specialize (Hex H); lia|].
    enough (expired + k < x) by lia. apply HEx.
    eapply Exists_impl; [|exact H]. intros e' He'. by apply (j_expired _ _ J).
Qed.

(** *** The main function *)

(** What the global state becomes; [n] expired supervision cycles were counted. *)
Definition next_global (g : WdgM_GlobalStatusType) (expired failed n tol : Z)
  : WdgM_GlobalStatusType :=
  match g with
  | WDGM_GLOBAL_STATUS_OK | WDGM_GLOBAL_STATUS_FAILED =>
      if expired >? 0 then
        if n <? tol then WDGM_GLOBAL_STATUS_EXPIRED else WDGM_GLOBAL_STATUS_STOPPED
      else if failed >? 0 then WDGM_GLOBAL_STATUS_FAILED
      else WDGM_GLOBAL_STATUS_OK
  | WDGM_GLOBAL_STATUS_EXPIRED =>
      if (expired >? 0) && negb (n <? tol) then WDGM_GLOBAL_STATUS_STOPPED
      else WDGM_GLOBAL_STATUS_EXPIRED
  | _ => g
  end.

Definition next_cycles (g : WdgM_GlobalStatusType) (expired n tol : Z) : Z :=
  match g with
  | WDGM_GLOBAL_STATUS_EXPIRED => if (expired >? 0) && (n <? tol) then u16 (n + 1) else n
  | _ => n
  end.

(** What a supervision cycle leaves alone. *)
Record carried (s s' : WdgM_State) : Prop := {
  c_frame : frame s s';
  c_silent : silent s s';
  c_expired id : locals s !! id = Some WDGM_LOCAL_STATUS_EXPIRED ->
                 locals s' !! id = Some WDGM_LOCAL_STATUS_EXPIRED
}.

Instance carried_preorder : PreOrder carried.
Proof using Type.
  split; [intros s; by split; try done; apply silent_refl|].
  intros s1 s2 s3 [] []. split; [by etransitivity|by eapply silent_trans|auto].
Qed.

Lemma judged_carried s s' : judged s s' -> carried s s'.
Proof using Type. intros []. by split. Qed.

Lemma quiet_carried s s' : quiet s s' -> carried s s'.
Proof using Type. intros H. by apply judged_carried, quiet_judged. Qed.

Lemma global_carried g s : carried s (with_GlobalState g s).
Proof using Type. split; try done. exists []. auto. Qed.

(** The outcome of a supervision cycle in mode [m]. *)
Definition concluded (m : WdgM_Mode) (n expired failed : Z) (s s' : WdgM_State) : Prop :=
  carried s s' /\
  s'.(GlobalState) = next_global s.(GlobalState) expired failed n m.(ExpiredSupervisionCycleTol) /\
  expired_cycles s' =
    <[m.(Id) := next_cycles s.(GlobalState) expired n m.(ExpiredSupervisionCycleTol)]>
      (expired_cycles s).

Lemma concluded_global m n expired failed g s :
  expired_cycles s !! m.(Id) = Some n ->
  next_global s.(GlobalState) expired failed n m.(ExpiredSupervisionCycleTol) = g ->
  next_cycles s.(GlobalState) expired n m.(ExpiredSupervisionCycleTol) = n ->
  concluded m n expired failed s (with_GlobalState g s).
Proof using Type.
  intros Hn Hg Hc. split; [apply global_carried|]. rewrite Hg, Hc. split; [done|].
  cbn. by rewrite list_insert_id.
Qed.

Lemma concluded_refl m n expired failed s :
  expired_cycles s !! m.(Id) = Some n ->
  next_global s.(GlobalState) expired failed n m.(ExpiredSupervisionCycleTol) = s.(GlobalState) ->
  next_cycles s.(GlobalState) expired n m.(ExpiredSupervisionCycleTol) = n ->
  concluded m n expired failed s s.
Proof using Type.
  intros Hn Hg Hc. split; [reflexivity|]. rewrite Hg, Hc. by rewrite list_insert_id.
Qed.

Lemma wp_expired_cycles m n s (Q : _ -> WdgM_State -> Prop) :
  expired_cycles s !! m.(Id) = Some n ->
  (forall rm, s.(rt_Modes) !! m.(Id) = Some rm -> rm.(ExpiredSupervisionCycleCounter) = n ->
              Q rm s) ->
  wp (get_rt_Mode m.(Id)) Q s.
Proof using Type.
  unfold expired_cycles. rewrite lookup_map. destruct (s.(rt_Modes) !! m.(Id)) as [rm|] eqn:E;
    cbn; [|done]. intros [= <-] HQ. eapply wp_get_rt_Mode; [done|]. by apply HQ.
Qed.

Lemma wp_updateFromGlobalOK m n expired failed s :
  s.(GlobalState) = WDGM_GLOBAL_STATUS_OK -> expired_cycles s !! m.(Id) = Some n ->
  wp (WdgM_internal_updateFromGlobalOK m expired failed)
     (fun _ => concluded m n expired failed s) s.
Proof using Type.
  intros Hg Hn. unfold WdgM_internal_updateFromGlobalOK. apply wp_bind.
  eapply (wp_mono _ (fun _ s1 => s1 = if failed >? 0
    then with_GlobalState WDGM_GLOBAL_STATUS_FAILED s else s)); [by wp_if|].
  intros ? s1 ->. wp_if.
  - apply wp_bind, (wp_expired_cycles _ n); [by destruct (failed >? 0)|].
    intros rm _ ->. wp_if; cbn.
    all: match goal with |- concluded _ _ _ _ _ (with_GlobalState ?g _) =>
           replace (with_GlobalState g (if failed >? 0 then _ else _)) with (with_GlobalState g s)
             by (by destruct (failed >? 0)) end.
    all: apply concluded_global; [done|rewrite Hg; cbn; by repeat case_match|by rewrite Hg].
  - apply wp_ret. destruct (failed >? 0) eqn:Hf.
    + apply concluded_global; [done|rewrite Hg; cbn; by repeat case_match|by rewrite Hg].
    + apply concluded_refl; [done|rewrite Hg; cbn; by repeat case_match|by rewrite Hg].
Qed.

Lemma wp_updateFromGlobalFAILED m n expired failed s :
  0 <= expired -> 0 <= failed ->
  s.(GlobalState) = WDGM_GLOBAL_STATUS_FAILED -> expired_cycles s !! m.(Id) = Some n ->
  wp (WdgM_internal_updateFromGlobalFAILED m expired failed)
     (fun _ => concluded m n expired failed s) s.
Proof using Type.
  intros H1 H2 Hg Hn. unfold WdgM_internal_updateFromGlobalFAILED. wp_if; [|wp_if].
  - apply concluded_global; [done|rewrite Hg; cbn|by rewrite Hg].
    apply andb_prop in Heqb as [->%Z.eqb_eq ->%Z.eqb_eq]. done.
  - apply wp_bind, (wp_expired_cycles _ n); [done|]. intros rm _ ->.
    wp_if; (apply concluded_global; [done|rewrite Hg; cbn; by rewrite Heqb0, Heqb1|by rewrite Hg]).
  - apply concluded_refl; [done|rewrite Hg; cbn|by rewrite Hg].
    rewrite Heqb0. destruct (failed >? 0) eqn:Hf; [done|].
    apply andb_false_iff in Heqb as [?%Z.eqb_neq|?%Z.eqb_neq]; lia.
Qed.

Lemma wp_updateFromGlobalEXPIRED m n expired failed s :
  s.(GlobalState) = WDGM_GLOBAL_STATUS_EXPIRED -> expired_cycles s !! m.(Id) = Some n ->
  wp (WdgM_internal_updateFromGlobalEXPIRED m expired)
     (fun _ => concluded m n expired failed s) s.
Proof using Type.
  intros Hg Hn. unfold WdgM_internal_updateFromGlobalEXPIRED. wp_if.
  2: { apply concluded_refl; [done|rewrite Hg; cbn; by rewrite Heqb..]. }
  apply wp_bind, (wp_expired_cycles _ n); [done|]. intros rm Hrm Hc. rewrite Hc. wp_if.
  - unfold concluded. rewrite Hg. cbn. rewrite Heqb, Heqb0. split; [|split; [done|]].
    + split; [split| |]; try done; [|exists []; auto].
      unfold layout. cbn. f_equal. by eapply map_insert_same.
    + unfold expired_cycles. cbn. by rewrite map_insert.
  - apply concluded_global; [done|rewrite Hg; cbn; by rewrite Heqb, Heqb0..].
Qed.

Lemma wp_CalculateGlobalState c m n s :
  ready c m s -> expired_cycles s !! m.(Id) = Some n ->
  wp WdgM_internal_CalculateGlobalState (fun _ s' =>
    exists expired failed, concluded m n expired failed s s' /\ 0 <= expired /\
      (Exists (fun e => locals s !! e.(SupervisedEntityId) = Some WDGM_LOCAL_STATUS_EXPIRED)
         m.(SEConfigurations) -> 0 < expired)) s.
Proof using Type.
  intros Hr Hn. apply wp_bind, (wp_get_CurrentMode m); [apply Hr|].
  apply wp_bind, wp_get. apply wp_bind. eapply wp_mono.
  { apply (wp_local_states c); [done|done|lia| |lia].
    pose proof (mv_size _ _ _ (ready_mode _ _ _ Hr)). lia. }
  intros [expired failed] s1 ([J Hf] & He & HEx). cbn beta iota. cbn [fst snd] in *.
  assert (Hn1 : expired_cycles s1 !! m.(Id) = Some n) by (by rewrite (j_cycles _ _ J)).
  apply wp_bind, wp_get. apply wp_bind.
  eapply (wp_mono _ (fun _ => concluded m n expired failed s1)).
  { destruct (s1.(GlobalState)) eqn:Hg.
    - by apply wp_updateFromGlobalOK.
    - by apply wp_updateFromGlobalFAILED.
    - by apply wp_updateFromGlobalEXPIRED.
    - apply wp_ret, concluded_refl; [done|by rewrite Hg..].
    - apply wp_ret, concluded_refl; [done|by rewrite Hg..]. }
  intros ? s2 (C2 & G2 & N2). apply wp_bind, wp_get.
  apply (wp_mono _ (fun _ => quiet s2)).
  { case_bool_decide; [apply wp_ret; reflexivity|]. apply wp_bind, wp_get.
    eapply wp_mono; [by apply wp_emit|]. by intros ? ? []. }
  intros ? s3 Q3. exists expired, failed. split; [|done].
  split; [|split].
  - transitivity s1; [by apply judged_carried|]. transitivity s2; [done|].
    by apply quiet_carried.
  - by rewrite (t_global _ _ (q_status _ _ Q3)), G2, (j_global _ _ J).
  - by rewrite (t_cycles _ _ (q_status _ _ Q3)), N2, (j_global _ _ J), (j_cycles _ _ J).
Qed.

(** Serving the watchdogs: each enabled one is served once, with a zero timeout
    when the module has stopped, and not at all after a reset request. *)
Definition trigger_effects (device timeout : Z) : list Effect :=
  (if opt.(WDGIF_DEVICES) >? 1 then
     if device <? opt.(WDGIF_DEVICES) then [Wdg_SetTriggerCondition device timeout]
     else if opt.(WDGIF_DEV_ERROR_DETECT)
     then [Det_ReportError WDGIF_MODULE_ID WDGIF_SETTRIGGERCONDITION_ID WDGIF_E_PARAM_DEVICE]
     else []
   else [Wdg_SetTriggerCondition 0 timeout])
  ++ [WdgIf_SetTriggerCondition_call device timeout].

Definition served (c : WdgM_ConfigType) (g : WdgM_GlobalStatusType) (t : WdgM_Trigger)
  : list Effect :=
  if bool_decide (t.(WatchdogMode) = WDGIF_OFF_MODE) then [] else
  match c.(Watchdogs) !! t.(WatchdogId) with
  | Some device => trigger_effects device
      (if bool_decide (g = WDGM_GLOBAL_STATUS_STOPPED) then 0 else t.(TriggerConditionValue))
  | None => []
  end.

(** The effects of serving, or zeroing, one after the other; the latest first. *)
Fixpoint in_turn {A} (f : A -> list Effect) (l : list A) : list Effect :=
  match l with [] => [] | a :: l => in_turn f l ++ f a end.

Definition with_trace v s := Build_WdgM_State s.(ConfigPtr) s.(SEs) s.(rt_Modes)
  s.(isInitiated) s.(GlobalState) s.(CurrentMode) s.(ResetInitiated) s.(isFirstExpiredSet)
  s.(firstExpiredSEID) s.(firstExpiredSEIDInverse) s.(clock) v.

Lemma with_trace_id s : with_trace s.(trace) s = s.
Proof using Type. by destruct s. Qed.

Lemma wp_call device timeout (Q : unit -> WdgM_State -> Prop) s :
  Q tt (with_trace (trigger_effects device timeout ++ s.(trace)) s) ->
  wp (WdgIf_SetTriggerCondition opt device timeout) Q s.
Proof using Type.
  unfold trigger_effects, WdgIf_SetTriggerCondition, WDGIF_REPORT. intros H. apply wp_bind.
  by repeat match goal with |- context [if ?b then _ else _] => destruct b end.
Qed.

Lemma trigger_effects_zero device :
  Forall harmless (trigger_effects device 0) /\
  In (WdgIf_SetTriggerCondition_call device 0) (trigger_effects device 0).
Proof using Type.
  unfold trigger_effects. split; [|apply in_or_app; right; by left].
  apply Forall_app_2; [|repeat constructor].
  repeat match goal with |- context [if ?b then _ else _] => destruct b end; repeat constructor.
Qed.

Lemma wp_set_triggers c m s :
  ready c m s ->
  wp (set_triggers opt m) (fun _ s' => s' = with_trace
    (if s.(ResetInitiated) then s.(trace)
     else in_turn (served c s.(GlobalState)) m.(Triggers) ++ s.(trace)) s) s.
Proof using Type.
  intros Hr. pose proof (mv_triggers _ _ _ (ready_mode _ _ _ Hr)) as Ht.
  apply wp_bind, (wp_get_Config c); [apply Hr|]. clear Hr.
  generalize 0%nat. revert s Ht. induction (m.(Triggers)) as [|t ts IH]; intros s Ht i.
  { apply wp_ret. destruct s as [????? ? []]; done. }
  apply Forall_cons_1 in Ht as [Hd Ht]. apply lookup_lt_is_Some_2 in Hd as [d Hd].
  cbn [for_each]. apply wp_bind. cbn [in_turn]. unfold served at 2.
  case_bool_decide; [rewrite app_nil_r; apply wp_ret; by apply IH|].
  rewrite Hd. apply wp_bind, wp_get, wp_bind, wp_get.
  destruct (ResetInitiated s) eqn:HR.
  - apply wp_ret. specialize (IH s Ht (S i)). by rewrite HR in IH.
  - apply wp_bind. eapply wp_deref; [done|]. apply wp_call.
    eapply wp_mono; [by apply IH|]. intros ? s' ->. cbn. rewrite HR. cbn.
    by rewrite <- app_assoc.
Qed.

Lemma quiet_concluded m n expired failed s s1 s2 s3 :
  quiet s s1 -> concluded m n expired failed s1 s2 -> quiet s2 s3 ->
  concluded m n expired failed s s3.
Proof using Type.
  intros Q1 (C & G & N) Q3. pose proof (q_status _ _ Q1) as [T1 _ T2].
  pose proof (q_status _ _ Q3) as [T3 _ T4].
  split; [|split; congruence].
  transitivity s1; [by apply quiet_carried|]. transitivity s2; [done|by apply quiet_carried].
Qed.

Lemma quiet_expired_cycles s s' (i : nat) n :
  quiet s s' -> expired_cycles s !! i = Some n -> expired_cycles s' !! i = Some n.
Proof using Type. intros Q. by rewrite (t_cycles _ _ (q_status _ _ Q)). Qed.

(** Some entity of the mode is expired. *)
Definition has_expired (m : WdgM_Mode) (s : WdgM_State) : Prop :=
  Exists (fun e => locals s !! e.(SupervisedEntityId) = Some WDGM_LOCAL_STATUS_EXPIRED)
    m.(SEConfigurations).

(** A supervision cycle: the states are recalculated, then the watchdogs served. *)
Lemma wp_MainFunction c m n s :
  ready c m s -> expired_cycles s !! m.(Id) = Some n ->
  wp (WdgM_MainFunction opt) (fun _ s' => exists s1 expired failed,
    concluded m n expired failed s s1 /\ 0 <= expired /\ (has_expired m s -> 0 < expired) /\
    s' = with_trace (if s1.(ResetInitiated) then s1.(trace)
           else in_turn (served c s1.(GlobalState)) m.(Triggers) ++ s1.(trace)) s1) s.
Proof using Type.
  intros Hr Hn. unfold WdgM_MainFunction. apply wp_bind, wp_get. rewrite (rd_init _ _ _ Hr).
  cbn [negb]. apply wp_bind. eapply wp_mono; [by eapply wp_CheckAlives|].
  intros ? s1 Q1. pose proof Hr as Hr1. rewrite (q_frame _ _ Q1) in Hr1.
  apply wp_bind. eapply wp_mono.
  { eapply wp_CalculateGlobalState; [exact Hr1|exact (quiet_expired_cycles _ _ _ _ Q1 Hn)]. }
  intros ? s2 (expired & failed & C & He & HEx).
  pose proof Hr1 as Hr2. rewrite (c_frame _ _ (proj1 C)) in Hr2.
  apply wp_bind, wp_get. apply wp_bind. apply (wp_get_Config c); [apply Hr2|].
  apply wp_bind. eapply (wp_mono _ (fun _ => quiet s2)).
  { case_bool_decide; [|apply wp_ret; reflexivity]. apply wp_bind.
    eapply (wp_mono _ (fun _ => quiet s2)); [wp_if; [apply wp_dem|apply wp_ret; reflexivity]|].
    intros ? s3 Q3. wp_if; [|by apply wp_ret].
    eapply wp_mono; [by apply wp_emit|]. intros ? s4 [Q4 _]. by transitivity s3. }
  intros ? s3 Q3. rewrite (q_frame _ _ Q3) in Hr2.
  apply wp_bind. apply (wp_get_CurrentMode m); [apply Hr2|].
  eapply wp_mono; [by eapply wp_set_triggers|]. intros ? s' ->.
  exists s3, expired, failed. split; [exact (quiet_concluded _ _ _ _ _ _ _ _ Q1 C Q3)|]. split; [done|].
  split; [|done]. intros H. apply HEx. eapply Exists_impl; [|exact H].
  intros e. by rewrite (t_locals _ _ (q_status _ _ Q1)).
Qed.

(** *** Checkpoints *)
Lemma alive_monitoring_total cps rts cp :
  length rts = length cps ->
  exists rts', alive_monitoring cps rts cp = Some rts' /\ length rts' = length rts.
Proof using Type.
  revert rts. induction cps as [|a cps IH]; intros [|rt rts] Hl; try discriminate Hl; [by eauto|].
  injection Hl as Hl. cbn. case_match; [by eauto|].
  destruct (IH _ Hl) as (rts' & -> & El). cbn. rewrite <- El. eauto.
Qed.

Lemma deadline_monitoring_total now max ds lasts cp :
  length lasts = length ds ->
  exists r lasts', deadline_monitoring OSTICKS now max ds lasts cp = Some (r, lasts') /\
                   length lasts' = length lasts.
Proof using Type.
  revert lasts. induction ds as [|d ds IH]; intros [|last lasts] Hl; try discriminate Hl;
    [by eauto|].
  injection Hl as Hl. destruct (IH _ Hl) as (r & lasts' & E & El).
  cbn -[WdgM_internalIsDeadlineHold GetElapsedValue]. rewrite E. cbn -[WdgM_internalIsDeadlineHold GetElapsedValue].
  repeat case_match; cbn; eauto 10.
  all: do 2 eexists; split; [done|]; cbn; congruence.
Qed.

Lemma find_conf_spec i confs id j e :
  find_conf i confs id = Some (j, e) ->
  exists k, j = (i + k)%nat /\ confs !! k = Some e /\ e.(SupervisedEntityId) = id.
Proof using Type.
  revert i. induction confs as [|a confs IH]; intros i; cbn; [done|].
  destruct (Nat.eqb_spec a.(SupervisedEntityId) id) as [Ha|].
  - intros [= <- <-]. exists 0%nat. split; [lia|done].
  - intros (k & -> & Hk & He)%IH. exists (S k). split; [lia|done].
Qed.

Lemma set_SubstateLogical_local (b : bool) se (r : WdgM_runtime_SupervisedEntity) cp dl :
  LocalState (if b then let '(lg, r') := WdgM_internal_LogicalMonitoring se
                          (set_SubstateDeadline dl r) cp in set_SubstateLogical lg r'
              else set_SubstateDeadline dl r) = r.(LocalState).
Proof using Type.
  destruct b; [|done]. unfold WdgM_internal_LogicalMonitoring,
    WdgM_internal_LogicalMonitoring_GraphActive, WdgM_internal_LogicalMonitoring_GraphInactive.
  by repeat case_match; simplify_eq.
Qed.

Lemma wp_CheckpointReached c m id cp s :
  ready c m s ->
  wp (WdgM_CheckpointReached opt OSTICKS counter_max id cp) (fun _ => quiet s) s.
Proof using Type.
  intros Hr. unfold WdgM_CheckpointReached. apply wp_bind, wp_get. rewrite (rd_init _ _ _ Hr).
  cbn [negb]. apply wp_bind, (wp_get_Config c); [apply Hr|]. wp_if; [apply wp_det_ret|].
  apply Nat.leb_gt in Heqb. destruct (lookup_SE c s id) as [r Hse]; [apply Hr|done|].
  apply lookup_lt_is_Some_2 in Heqb as [se Hc].
  apply wp_bind. eapply wp_deref; [done|]. apply wp_bind. eapply wp_get_SE; [done|].
  wp_if; [apply wp_det_ret|]. wp_if; [apply wp_det_ret|].
  apply wp_bind, (wp_get_CurrentMode m); [apply Hr|].
  destruct (find_conf 0 m.(SEConfigurations) id) as [[i e]|] eqn:Hf; [|apply wp_det_ret].
  apply find_conf_spec in Hf as (k & -> & He & _). cbn [Nat.add].
  destruct (lookup_SE_Config _ _ _ _ _ (ready_mode _ _ _ Hr) He)
    as (rm & rc & Hrm & Hrc & La & Ld).
  apply wp_bind. eapply wp_get_SE_Config; [done..|].
  destruct (alive_monitoring_total _ _ cp La) as (rts & Ea & Ea').
  apply wp_bind. eapply wp_deref; [done|]. apply wp_bind, wp_get.
  edestruct deadline_monitoring_total as (dl & lasts & Ed & Ed'); [exact Ld|].
  apply wp_bind. eapply wp_deref; [exact Ed|]. cbn beta iota.
  apply wp_bind. eapply wp_mono; [eapply wp_put_SE_Config; done|].
  intros ? s1 [Q1 E1]. cbn. etransitivity; [exact Q1|].
  eapply (quiet_put_SE _ _ r); [by rewrite E1|apply set_SubstateLogical_local].
Qed.

(** *** Modes *)
Lemma wp_DeactivateAndResetSE c id s :
  valid c (layout s) -> (id < length c.(SupervisedEntities))%nat ->
  wp (WdgM_internal_DeactivateAndResetSE id) (fun _ => frame s) s.
Proof using Type.
  intros Hv Hid. destruct (lookup_SE c s id Hv Hid) as [r Hr].
  apply wp_bind. eapply wp_get_SE; [done|]. apply wp_bind.
  eapply wp_mono; [by apply wp_emit|]. intros ? s1 [[F _ _] _]. cbn.
  transitivity s1; [done|apply frame_put_SE].
Qed.

Lemma wp_deactivate_range c i n s :
  valid c (layout s) -> (i + n <= length c.(SupervisedEntities))%nat ->
  wp (deactivate_range i n) (fun _ => frame s) s.
Proof using Type.
  revert i s. induction n as [|n IH]; intros i s Hv Hn; [by apply wp_ret|].
  cbn [deactivate_range]. apply wp_bind.
  eapply wp_mono; [eapply wp_DeactivateAndResetSE; [done|lia]|].
  intros ? s1 F. eapply wp_mono; [apply IH; [|lia]; by rewrite (f_layout _ _ F)|].
  intros ? s2 F2. by transitivity s1.
Qed.

Lemma wp_set_local id r s :
  wp (let* _ := put_SE id r in WdgM_Internal_ReportLocalModeChange r id) (fun _ => frame s) s.
Proof using Type.
  apply wp_bind, wp_put_SE.
  eapply wp_mono; [by apply wp_emit|]. intros ? s1 [[F _ _] _].
  etransitivity; [apply frame_put_SE|exact F].
Qed.

Lemma wp_switch_entities c confs i s :
  valid c (layout s) ->
  StronglySorted lt (map SupervisedEntityId confs) ->
  Forall (fun e => i <= e.(SupervisedEntityId) < length c.(SupervisedEntities))%nat confs ->
  (i <= length c.(SupervisedEntities))%nat ->
  wp (switch_entities confs i (length c.(SupervisedEntities))) (fun _ => frame s) s.
Proof using Type.
  revert i s. induction confs as [|e confs IH]; intros i s Hv Hs Hf Hi.
  { apply (wp_deactivate_range c); [done|lia]. }
  apply Forall_cons_1 in Hf as [He Hf]. cbn [map] in Hs. apply StronglySorted_inv in Hs as [Hs Hlt].
  cbn [switch_entities]. cbv zeta. apply wp_bind.
  eapply wp_mono; [apply (wp_deactivate_range c); [done|lia]|]. intros ? s1 F1.
  replace (i `max` _)%nat with e.(SupervisedEntityId) by lia.
  assert (Hv1 : valid c (layout s1)) by (by rewrite (f_layout _ _ F1)).
  destruct (lookup_SE c s1 e.(SupervisedEntityId)) as [r Hr]; [done|lia|].
  apply wp_bind. eapply wp_get_SE; [done|]. apply wp_bind.
  eapply (wp_mono _ (fun _ => frame s1)).
  { case_bool_decide; [apply wp_set_local|apply wp_ret; reflexivity]. }
  intros ? s2 F2. eapply wp_mono.
  - apply IH; [by rewrite (f_layout _ _ F2)|done| |lia].
    apply Forall_forall. intros e' Hin. rewrite Forall_forall in Hf, Hlt.
    specialize (Hf e' Hin). enough (e.(SupervisedEntityId) < e'.(SupervisedEntityId))%nat by lia.
    by apply Hlt, in_map.
  - intros ? s3 F3. transitivity s1; [done|]. by transitivity s2.
Qed.

Lemma wp_stop_on_error err s : wp (stop_on_error err) (fun _ => frame s) s.
Proof using Type.
  apply wp_bind. cbn -[wp Wdgm_internal_ReportGlobalModeChange WDGM_REPORT_DEM_ERROR].
  assert (F0 : frame s (with_GlobalState WDGM_GLOBAL_STATUS_STOPPED s)) by (by split).
  apply wp_bind, wp_bind, wp_get. eapply wp_mono; [by apply wp_emit|].
  intros ? s1 [[F1 _ _] _]. apply wp_bind. eapply wp_mono; [apply wp_dem|].
  intros ? s2 [F2 _ _]. apply wp_ret. transitivity s1; [|done]. by etransitivity.
Qed.

Lemma wp_WdgIf_SetMode d md s : wp (WdgIf_SetMode opt driver_accepts d md) (fun _ => frame s) s.
Proof using Type.
  unfold WdgIf_SetMode, WDGIF_REPORT. apply wp_bind.
  by repeat match goal with |- context [if ?b then _ else _] => destruct b end.
Qed.

Lemma wp_deactivate_triggers c ts err s :
  Forall (fun t => t.(WatchdogId) < length c.(Watchdogs))%nat ts ->
  wp (deactivate_triggers opt driver_accepts c ts err) (fun _ => frame s) s.
Proof using Type.
  revert s. induction ts as [|t ts IH]; intros s Ht; [by apply wp_ret|].
  apply Forall_cons_1 in Ht as [Hd Ht]. apply lookup_lt_is_Some_2 in Hd as [d Hd].
  cbn [deactivate_triggers]. apply wp_bind. eapply wp_deref; [done|].
  apply wp_bind. eapply wp_mono; [apply wp_WdgIf_SetMode|]. intros ok s1 F1.
  eapply (wp_mono _ (fun _ => frame s1)); [wp_if; [apply wp_stop_on_error|by apply IH]|].
  intros ? s2 F2. by transitivity s1.
Qed.

Lemma wp_activate_triggers c ts err s :
  Forall (fun t => t.(WatchdogId) < length c.(Watchdogs))%nat ts ->
  wp (activate_triggers opt driver_accepts c ts err) (fun _ => frame s) s.
Proof using Type.
  revert s. induction ts as [|t ts IH]; intros s Ht; [by apply wp_ret|].
  apply Forall_cons_1 in Ht as [Hd Ht]. apply lookup_lt_is_Some_2 in Hd as [d Hd].
  cbn [activate_triggers]. apply wp_bind. eapply wp_deref; [done|].
  apply wp_bind. eapply wp_mono; [apply wp_WdgIf_SetMode|]. intros ok s1 F1.
  apply wp_bind, wp_get, wp_bind. eapply (wp_mono _ (fun _ => frame s1));
    [wp_if; [by apply wp_call|apply wp_ret; reflexivity]|].
  intros ? s2 F2.
  eapply (wp_mono _ (fun _ => frame s2)); [wp_if; [apply wp_stop_on_error|by apply IH]|].
  intros ? s3 F3. transitivity s1; [done|]. by transitivity s2.
Qed.

Lemma wp_ResetSEConfigsForMode c m s :
  mode_valid c (layout s) m ->
  wp (WdgM_internal_ResetSEConfigsForMode m.(Id)) (fun _ => frame s) s.
Proof using Type.
  intros [_ _ _ H _]. cbn in H. rewrite lookup_map in H.
  destruct (s.(rt_Modes) !! m.(Id)) as [rm|] eqn:Hm; [|done].
  apply wp_bind. eapply wp_get_rt_Mode; [done|]. cbn. split; try done.
  unfold layout. cbn. f_equal. eapply map_insert_same; [done|]. cbn.
  rewrite map_map. apply map_ext. intros rc. cbn. by rewrite !length_map.
Qed.

Lemma wp_isAtLeastOneWdogEnabled c i sid err s :
  s.(ConfigPtr) = Some c -> is_Some (c.(Modes) !! i) ->
  wp (WdgM_internal_isAtLeastOneWdogEnabled opt i sid err) (fun _ => quiet s) s.
Proof using Type.
  intros Hc [m Hm]. apply wp_bind, (wp_get_Config c); [done|].
  apply wp_bind. eapply wp_deref; [done|]. cbv zeta. apply wp_bind.
  eapply (wp_mono _ (fun _ => quiet s)); [wp_if; [apply wp_ret; reflexivity|apply wp_det]|].
  intros. by apply wp_ret.
Qed.

(** The invariant of the module for the configuration [c]. *)
Definition inv (c : WdgM_ConfigType) (s : WdgM_State) : Prop :=
  valid c (layout s) /\ (s.(isInitiated) = true -> exists m, ready c m s).

Lemma inv_frame c s s' : frame s s' -> inv c s -> inv c s'.
Proof using Type.
  intros F [Hv Hi]. split; [by rewrite (f_layout _ _ F)|].
  rewrite (f_init _ _ F). intros H. destruct (Hi H) as [m Hm]. exists m. by rewrite <- F.
Qed.

Lemma ready_inv c m s : ready c m s -> inv c s.
Proof using Type. intros H. split; [apply H|by eauto]. Qed.

Lemma wp_switch c m m' i s :
  ready c m s -> c.(Modes) !! i = Some m' ->
  wp (let* _ := switch_entities m'.(SEConfigurations) 0 (length c.(SupervisedEntities)) in
      let* cur := get_CurrentMode in
      let* _ := WdgM_internal_ResetSEConfigsForMode cur.(Id) in
      let* retVal := WdgM_internal_deactivateCurrentTriggers opt driver_accepts c.(DemEventSetMode) in
      let* retVal :=
        if retVal =? E_OK
        then WdgM_internal_activateTriggers opt driver_accepts m' c.(DemEventSetMode)
        else ret retVal in
      let* _ := modify (with_CurrentMode (Some m')) in
      ret retVal) (fun _ => ready c m') s.
Proof using Type.
  intros Hr Hm'. destruct (v_modes _ _ (rd_valid _ _ _ Hr) _ _ Hm') as [HId Hmv'].
  apply wp_bind. eapply wp_mono.
  { apply wp_switch_entities; [apply Hr|apply Hmv'| |lia].
    eapply Forall_impl; [|apply Hmv']. cbn. lia. }
  intros ? s1 F1. rewrite F1 in Hr.
  apply wp_bind, (wp_get_CurrentMode m); [apply Hr|].
  apply wp_bind. eapply wp_mono; [by eapply wp_ResetSEConfigsForMode, ready_mode|].
  intros ? s2 F2. rewrite F2 in Hr.
  apply wp_bind, wp_bind, (wp_get_Config c); [apply Hr|].
  apply wp_bind, (wp_get_CurrentMode m); [apply Hr|].
  eapply wp_mono; [apply wp_deactivate_triggers; apply (ready_mode _ _ _ Hr)|].
  intros ret1 s3 F3. rewrite F3 in Hr. apply wp_bind.
  apply (wp_mono _ (fun _ => frame s3)).
  { wp_if; [|apply wp_ret; reflexivity]. apply wp_bind, (wp_get_Config c); [apply Hr|].
    apply wp_activate_triggers, Hmv'. }
  intros ret2 s4 F4. rewrite F4 in Hr. cbn. destruct Hr. split; try done. by subst i.
Qed.

Lemma wp_SetMode c m i s :
  ready c m s ->
  wp (WdgM_SetMode opt driver_accepts i) (fun _ s' => (exists m', ready c m' s') /\
     (s.(GlobalState) <> WDGM_GLOBAL_STATUS_OK -> s.(GlobalState) <> WDGM_GLOBAL_STATUS_FAILED ->
      quiet s s')) s.
Proof using Type.
  intros Hr. assert (Q : forall s', quiet s s' -> (exists m', ready c m' s') /\
     (s.(GlobalState) <> WDGM_GLOBAL_STATUS_OK -> s.(GlobalState) <> WDGM_GLOBAL_STATUS_FAILED ->
      quiet s s')).
  { intros s' Q. split; [|done]. exists m. by rewrite <- (q_frame _ _ Q). }
  unfold WdgM_SetMode. apply wp_bind, wp_get. rewrite (rd_init _ _ _ Hr). cbn [negb].
  apply wp_bind, (wp_get_Config c); [apply Hr|].
  wp_if; [eapply wp_mono; [apply wp_det_ret|]; cbn beta; auto|].
  apply Nat.leb_gt in Heqb. apply lookup_lt_is_Some_2 in Heqb as [m' Hm'].
  apply wp_bind. eapply (wp_mono _ (fun _ => quiet s)).
  { wp_if; [apply wp_ret; reflexivity|].
    eapply wp_isAtLeastOneWdogEnabled; [apply Hr|by eauto]. }
  intros status s1 Q1. wp_if; [|apply wp_ret; auto].
  apply wp_bind, wp_get. wp_if; [|apply wp_ret; auto].
  apply wp_bind. eapply wp_deref; [done|]. rewrite (q_frame _ _ Q1) in Hr.
  eapply wp_mono; [by eapply wp_switch|]. intros ? s2 Hr2. split; [by exists m'|].
  intros H1 H2. rewrite (t_global _ _ (q_status _ _ Q1)) in Heqb0.
  apply orb_prop in Heqb0 as [H|H]; apply bool_decide_eq_true_1 in H; congruence.
Qed.

(** *** Initialisation *)

(** Everything the runtime data keeps while the module is being set up. *)
Lemma wp_activate_initial c m s :
  s.(ConfigPtr) = Some c -> mode_valid c (layout s) m ->
  wp (WdgM_internal_activateTriggers opt driver_accepts m c.(DemEventSetMode)) (fun _ => frame s) s.
Proof using Type.
  intros Hc Hm. apply wp_bind, (wp_get_Config c); [done|]. apply wp_activate_triggers, Hm.
Qed.

Lemma wp_activate_entities c m s :
  valid c (layout s) -> mode_valid c (layout s) m ->
  wp (for_each 0 m.(SEConfigurations) (fun _ seConf =>
        let* r := get_SE seConf.(SupervisedEntityId) in
        let r := set_LocalState WDGM_LOCAL_STATUS_OK r in
        let* _ := put_SE seConf.(SupervisedEntityId) r in
        WdgM_Internal_ReportLocalModeChange r seConf.(SupervisedEntityId)))
     (fun _ => frame s) s.
Proof using Type.
  intros Hv Hm. apply (wp_for_each (frame s)); [reflexivity|]. intros j e s1 He F1.
  destruct (lookup_SE c s1 e.(SupervisedEntityId)) as [r Hr];
    [by rewrite (f_layout _ _ F1)|by eapply mode_id_lt|].
  apply wp_bind. eapply wp_get_SE; [done|]. eapply wp_mono; [apply wp_set_local|].
  intros ? s2 F2. by transitivity s1.
Qed.

Lemma wp_Init_body c m s :
  valid c (layout s) -> c.(Modes) !! c.(initialModeId) = Some m -> s.(isInitiated) = false ->
  s.(ConfigPtr) = Some c ->
  wp (let* _ := deactivate_range 0 (length c.(SupervisedEntities)) in
      let* _ := for_each 0 m.(SEConfigurations) (fun _ seConf =>
        let* r := get_SE seConf.(SupervisedEntityId) in
        let r := set_LocalState WDGM_LOCAL_STATUS_OK r in
        let* _ := put_SE seConf.(SupervisedEntityId) r in
        WdgM_Internal_ReportLocalModeChange r seConf.(SupervisedEntityId)) in
      let* _ := WdgM_internal_ResetSEConfigsForMode m.(Id) in
      let* _ := set_GlobalState WDGM_GLOBAL_STATUS_OK in
      let* _ := Wdgm_internal_ReportGlobalModeChange in
      let* _ := modify (with_firstExpired false 0 0) in
      let* _ := modify (with_CurrentMode (Some m)) in
      let* _ := modify (with_ResetInitiated false) in
      let* r := WdgM_internal_activateTriggers opt driver_accepts m c.(DemEventSetMode) in
      if r =? E_OK then modify (with_isInitiated true) else ret tt) (fun _ => inv c) s.
Proof using Type.
  intros Hv Hm Hi Hc. destruct (v_modes _ _ Hv _ _ Hm) as [HId Hmv].
  apply wp_bind. eapply wp_mono; [apply (wp_deactivate_range c); [done|lia]|]. intros ? s1 F1.
  rewrite <- (f_layout _ _ F1) in Hv, Hmv.
  apply wp_bind. eapply wp_mono; [by eapply wp_activate_entities|]. intros ? s2 F2.
  rewrite <- (f_layout _ _ F2) in Hv, Hmv.
  apply wp_bind. eapply wp_mono; [by eapply wp_ResetSEConfigsForMode|]. intros ? s3 F3.
  rewrite <- (f_layout _ _ F3) in Hv, Hmv.
  apply wp_bind, wp_modify, wp_bind, wp_bind, wp_get, wp_modify.
  apply wp_bind, wp_modify, wp_bind, wp_modify, wp_bind, wp_modify, wp_bind.
  eapply wp_mono; [apply wp_activate_initial; [|exact Hmv]|].
  { cbn. by rewrite (f_config _ _ F3), (f_config _ _ F2), (f_config _ _ F1). }
  intros rv s4 F4. pose proof (f_layout _ _ F4) as L. change (layout s4 = layout s3) in L.
  rewrite <- L in Hv. wp_if; cbn.
  - apply (ready_inv c m). split; try done; cbn.
    + by rewrite (f_config _ _ F4), <- Hc, <- (f_config _ _ F1), <- (f_config _ _ F2),
        <- (f_config _ _ F3).
    + by rewrite (f_mode _ _ F4).
    + by rewrite HId.
  - split; [done|]. intros H. exfalso. rewrite (f_init _ _ F4) in H. cbn in H.
    by rewrite (f_init _ _ F3), (f_init _ _ F2), (f_init _ _ F1), Hi in H.
Qed.

Lemma wp_Init c config s :
  inv c s -> config = None \/ config = Some c ->
  wp (WdgM_Init opt driver_accepts config)
     (fun _ s' => inv c s' /\ (s.(isInitiated) = true -> quiet s s')) s.
Proof using Type.
  intros HI Hc. assert (D : forall e, wp (WDGM_REPORT_DET_ERROR opt WDGM_SID_INIT e)
    (fun _ s' => inv c s' /\ (s.(isInitiated) = true -> quiet s s')) s).
  { intros e. eapply wp_mono; [apply wp_det|]. intros ? s' Q. split; [|done].
    eapply inv_frame; [apply Q|done]. }
  destruct Hc as [->| ->]; cbn [WdgM_Init]; [apply D|].
  apply wp_bind, wp_get. wp_if; [apply D|]. apply wp_bind, wp_modify.
  destruct HI as [Hv _]. destruct (v_initial _ _ Hv) as [m Hm].
  apply wp_bind. eapply wp_deref; [done|].
  set (s0 := with_ConfigPtr (Some c) s). apply wp_bind.
  eapply (wp_mono _ (fun _ => quiet s0)).
  { wp_if; [apply wp_ret; reflexivity|].
    apply (wp_isAtLeastOneWdogEnabled c); [done|].
    destruct (v_modes _ _ Hv _ _ Hm) as [-> _]. by eauto. }
  intros status s1 Q1. pose proof (q_frame _ _ Q1) as F1.
  assert (Hv1 : valid c (layout s1)) by (by rewrite (f_layout _ _ F1)).
  assert (Hi1 : s1.(isInitiated) = false) by (by rewrite (f_init _ _ F1)).
  wp_if.
  - eapply wp_mono; [apply wp_Init_body; [done..|apply F1]|]. intros ? s2 HI2.
    split; [exact HI2|]. congruence.
  - apply wp_ret. split; [|congruence]. split; [done|]. congruence.
Qed.

Lemma wp_zero_all i l s :
  wp (for_each i l (fun _ device => WdgIf_SetTriggerCondition opt device 0))
     (fun _ s' => s' = with_trace (in_turn (fun d => trigger_effects d 0) l ++ s.(trace)) s) s.
Proof using Type.
  revert i s. induction l as [|d l IH]; intros i s; [apply wp_ret; by destruct s|].
  cbn [for_each]. apply wp_bind, wp_call. eapply wp_mono; [apply IH|].
  intros ? s' ->. cbn. by rewrite <- app_assoc.
Qed.

Lemma zero_all_effects l :
  Forall harmless (in_turn (fun d => trigger_effects d 0) l) /\
  forall d, In d l ->
    In (WdgIf_SetTriggerCondition_call d 0) (in_turn (fun d => trigger_effects d 0) l).
Proof using Type.
  induction l as [|d l [IH1 IH2]]; [done|]. destruct (trigger_effects_zero d) as [H1 H2].
  cbn. split; [by apply Forall_app_2|].
  intros d' [->|Hd]; apply in_or_app; [by right|left; by apply IH2].
Qed.

Lemma wp_PerformReset c m s :
  ready c m s -> wp (WdgM_PerformReset opt) (fun _ => quiet s) s.
Proof using Type.
  intros Hr. unfold WdgM_PerformReset. apply wp_bind, wp_get. rewrite (rd_init _ _ _ Hr).
  apply wp_bind, wp_get. wp_if; [apply wp_ret; reflexivity|].
  apply wp_bind, wp_modify, wp_bind, (wp_get_Config c); [apply Hr|].
  eapply wp_mono; [apply wp_zero_all|]. intros ? s' ->.
  split; [by split..|]. eexists. split; [done|]. split.
  - apply zero_all_effects.
  - right. exists c. split; [apply Hr|]. apply zero_all_effects.
Qed.

Lemma wp_DeInit c m s :
  ready c m s ->
  wp (WdgM_DeInit opt driver_accepts) (fun _ s' => inv c s' /\
    (s.(GlobalState) <> WDGM_GLOBAL_STATUS_OK -> quiet s s')) s.
Proof using Type.
  intros Hr. unfold WdgM_DeInit. apply wp_bind, wp_get. rewrite (rd_init _ _ _ Hr). cbn [negb].
  apply wp_bind, wp_get. wp_if.
  2: { apply wp_ret. split; [by eapply ready_inv|reflexivity]. }
  apply bool_decide_eq_true_1 in Heqb.
  cut (wp (let* _ := set_GlobalState WDGM_GLOBAL_STATUS_DEACTIVATED in
    let* _ := Wdgm_internal_ReportGlobalModeChange in
    let* r := WdgM_internal_deactivateCurrentTriggers opt driver_accepts DEM_EVENT_ID_NULL in
    if r =? E_OK then
      let* c := get_Config in
      let* resetInitiated := get ResetInitiated in
      let* _ :=
        if (resetInitiated : bool) then ret tt
        else for_each 0 c.(Watchdogs) (fun _ device => WdgIf_SetTriggerCondition opt device 0) in
      modify (with_isInitiated false)
    else ret tt) (fun _ => inv c) s).
  { intros H. eapply wp_mono; [exact H|]. intros ? s' H'. split; [exact H'|]. congruence. }
  clear Heqb. apply wp_bind, wp_modify, wp_bind, wp_bind, wp_get, wp_modify.
  assert (Hr1 : ready c m (with_GlobalState WDGM_GLOBAL_STATUS_DEACTIVATED s))
    by (destruct Hr; by split).
  apply wp_bind, wp_bind, (wp_get_Config c); [apply Hr1|].
  apply wp_bind, (wp_get_CurrentMode m); [apply Hr1|].
  eapply wp_mono; [apply wp_deactivate_triggers, (ready_mode _ _ _ Hr)|].
  intros r s1 F1. assert (Hr2 : ready c m s1).
  { rewrite <- F1. destruct Hr1. by split. }
  wp_if; [|apply wp_ret; by eapply ready_inv].
  apply wp_bind, (wp_get_Config c); [apply Hr2|]. apply wp_bind, wp_get, wp_bind.
  eapply (wp_mono _ (fun _ s' => layout s' = layout s1)).
  { wp_if; [by apply wp_ret|]. eapply wp_mono; [apply wp_zero_all|]. by intros ? ? ->. }
  intros ? s2 L2. apply wp_modify. split; [|done].
  change (valid c (layout s2)). rewrite L2. apply Hr2.
Qed.
End Operations.
