(* ===== verification/WdgM_Theorems.v ===== *)
(** * The watchdog manager: theorems

    The module under arbitrary sequences of calls: it never faults, a stopped
    module stays stopped and lets the watchdogs expire, an expired entity stops
    the module after the configured number of cycles.  Then the algorithms on one
    entity: alive supervision counts correctly over a reference cycle, logical
    supervision accepts exactly the executions of the checkpoint graph.  Last,
    behaviours that differ from what the module intends. *)

From S2P Require Import Prelude.
From S2P Require Import StateMonad.
From S2P Require Import WdgM.
From S2P Require Import WdgM_Steps.

#[local] Open Scope monad_scope.

(** ** Sequences of calls *)
Inductive Call :=
| c_Init (config : option WdgM_ConfigType)
| c_DeInit
| c_SetMode (mode : nat)
| c_GetMode (ptr : bool)
| c_CheckpointReached (se : nat) (cp : Z)
| c_GetLocalStatus (se : nat) (ptr : bool)
| c_GetGlobalStatus (ptr : bool)
| c_PerformReset
| c_GetFirstExpiredSEID (ptr : bool)
| c_MainFunction
| c_Clock (now : Z -> Z).  (** time passes *)

Definition is_main (k : Call) : bool := match k with c_MainFunction => true | _ => false end.

Definition with_clock v s := Build_WdgM_State s.(ConfigPtr) s.(SEs) s.(rt_Modes)
  s.(isInitiated) s.(GlobalState) s.(CurrentMode) s.(ResetInitiated) s.(isFirstExpiredSet)
  s.(firstExpiredSEID) s.(firstExpiredSEIDInverse) v s.(trace).

Definition ignore {A} (m : M A) : M unit := let* _ := m in ret tt.

Section Module.
Context (opt : BuildOptions) (OSTICKS : Z) (counter_max : Z -> Z).
Context (driver_accepts : list Effect -> Z -> WdgIf_ModeType -> bool).

Definition exec (k : Call) : M unit :=
  match k with
  | c_Init config => WdgM_Init opt driver_accepts config
  | c_DeInit => WdgM_DeInit opt driver_accepts
  | c_SetMode i => ignore (WdgM_SetMode opt driver_accepts i)
  | c_GetMode p => ignore (WdgM_GetMode opt p)
  | c_CheckpointReached id cp => ignore (WdgM_CheckpointReached opt OSTICKS counter_max id cp)
  | c_GetLocalStatus id p => ignore (WdgM_GetLocalStatus opt id p)
  | c_GetGlobalStatus p => ignore (WdgM_GetGlobalStatus opt p)
  | c_PerformReset => WdgM_PerformReset opt
  | c_GetFirstExpiredSEID p => ignore (WdgM_GetFirstExpiredSEID opt p)
  | c_MainFunction => WdgM_MainFunction opt
  | c_Clock now => modify (with_clock now)
  end.

Fixpoint run (l : list Call) : M unit :=
  match l with
  | [] => ret tt
  | k :: l => let* _ := exec k in run l
  end.

(** There is one configuration: the one the runtime data was generated with. *)
Definition call_ok (c : WdgM_ConfigType) (k : Call) : Prop :=
  match k with c_Init (Some c') => c' = c | _ => True end.

Lemma wp_ignore {A} (m : M A) (P : WdgM_State -> Prop) s :
  wp m (fun _ => P) s -> wp (ignore m) (fun _ => P) s.
Proof using Type. intros H. apply wp_bind. eapply wp_mono; [exact H|]. by intros. Qed.

(** A call before initialisation is refused. *)
Lemma wp_no_init (k : Call) s :
  s.(isInitiated) = false ->
  match k with c_Init _ => False | _ => True end ->
  wp (exec k) (fun _ => quiet s) s.
Proof using Type.
  intros Hi Hk. destruct k; try done; cbn [exec]; try apply wp_ignore;
    try (apply wp_bind, wp_get; rewrite Hi; cbn [negb]; first [apply wp_det_ret|apply wp_det]).
  - unfold WdgM_GetFirstExpiredSEID. wp_if; [apply wp_det_ret|].
    apply wp_bind, wp_get, wp_bind, wp_get. wp_if; apply wp_ret; reflexivity.
  - split; [by split..|]. exists []. auto.
Qed.

Lemma wp_query c m k s :
  ready c m s ->
  match k with c_GetMode _ | c_GetLocalStatus _ _ | c_GetGlobalStatus _
             | c_GetFirstExpiredSEID _ | c_Clock _ => True | _ => False end ->
  wp (exec k) (fun _ => quiet s) s.
Proof using Type.
  intros Hr Hk. destruct k; try done; cbn [exec]; try apply wp_ignore;
    try (apply wp_bind, wp_get; rewrite (rd_init _ _ _ Hr); cbn [negb]; wp_if;
         [apply wp_det_ret|]).
  - apply wp_bind, (wp_get_CurrentMode m); [apply Hr|]. apply wp_ret. reflexivity.
  - apply wp_bind, (wp_get_Config c); [apply Hr|]. wp_if; [apply wp_det_ret|].
    apply Nat.leb_gt in Heqb0. destruct (lookup_SE c s se) as [r Hse]; [apply Hr|done|].
    apply wp_bind. eapply wp_get_SE; [done|]. apply wp_ret. reflexivity.
  - apply wp_bind, wp_get. apply wp_ret. reflexivity.
  - unfold WdgM_GetFirstExpiredSEID. wp_if; [apply wp_det_ret|].
    apply wp_bind, wp_get, wp_bind, wp_get. wp_if; apply wp_ret; reflexivity.
  - split; [by split..|]. exists []. auto.
Qed.

(** In a global state other than [OK] and [FAILED], only the main function
    changes the status of the module. *)
Definition settled (s : WdgM_State) : Prop :=
  s.(isInitiated) = true /\ s.(GlobalState) <> WDGM_GLOBAL_STATUS_OK /\
  s.(GlobalState) <> WDGM_GLOBAL_STATUS_FAILED.

Lemma quiet_exec c s s' (P : Prop) : inv c s -> quiet s s' -> inv c s' /\ (P -> quiet s s').
Proof using Type. intros HI Q. split; [|done]. eapply inv_frame; [apply Q|done]. Qed.

Lemma ready_cycles c m s : ready c m s -> exists n, expired_cycles s !! m.(Id) = Some n.
Proof using Type.
  intros Hr. pose proof (mv_layout _ _ _ (ready_mode _ _ _ Hr)) as H. cbn in H.
  rewrite lookup_map in H. unfold expired_cycles. rewrite lookup_map.
  destruct (s.(rt_Modes) !! m.(Id)); [by eexists|done].
Qed.

Lemma wp_exec_main c m s :
  ready c m s -> wp (WdgM_MainFunction opt) (fun _ => inv c) s.
Proof using Type.
  intros Hr. destruct (ready_cycles _ _ _ Hr) as [n Hn].
  eapply wp_mono; [by eapply wp_MainFunction|].
  intros ? s' (s1 & x & y & (C & _) & _ & _ & ->).
  apply (ready_inv c m). rewrite (c_frame _ _ C) in Hr. destruct Hr. by split.
Qed.

Lemma wp_exec c k s :
  inv c s -> call_ok c k ->
  wp (exec k) (fun _ s' => inv c s' /\ (settled s /\ is_main k = false -> quiet s s')) s.
Proof using Type.
  intros HI Hk. pose proof HI as [Hv Hi].
  assert (QE : wp (exec k) (fun _ => quiet s) s -> wp (exec k) (fun _ s' => inv c s' /\
    (settled s /\ is_main k = false -> quiet s s')) s).
  { intros H. eapply wp_mono; [exact H|]. intros ? s'. by apply quiet_exec. }
  destruct k as [config| | | | | | | | | |].
  { eapply wp_mono; [apply wp_Init; [done|]|].
    - destruct config; cbn in Hk; subst; auto.
    - intros ? s' [HI' Q]. split; [done|]. intros [[Hs _] _]. auto. }
  all: destruct (s.(isInitiated)) eqn:E; [|by apply QE, wp_no_init].
  all: destruct (Hi eq_refl) as [m Hr].
  - eapply wp_mono; [by eapply wp_DeInit|]. intros ? s' [HI' Q]. split; [done|].
    intros [(_ & G & _) _]. auto.
  - apply wp_ignore. eapply wp_mono; [by eapply wp_SetMode|]. intros ? s' [[m' Hm'] Q].
    split; [by eapply ready_inv|]. intros [(_ & G1 & G2) _]. auto.
  - by apply QE, (wp_query c m).
  - by eapply QE, wp_ignore, wp_CheckpointReached.
  - by apply QE, (wp_query c m).
  - by apply QE, (wp_query c m).
  - by eapply QE, wp_PerformReset.
  - by apply QE, (wp_query c m).
  - eapply wp_mono; [by eapply wp_exec_main|]. intros ? s' HI'. split; [exact HI'|].
    by intros [_ ?].
  - by apply QE, (wp_query c m).
Qed.

(** A property of states that every call keeps holds after every sequence. *)
Lemma wp_calls c (P : list Call -> WdgM_State -> Prop) l :
  (forall k l s, call_ok c k -> inv c s -> P (k :: l) s ->
     wp (exec k) (fun _ => P l) s) ->
  Forall (call_ok c) l -> forall s, inv c s -> P l s ->
  wp (run l) (fun _ s' => inv c s' /\ P [] s') s.
Proof using Type.
  intros HP. induction 1 as [|k l Hk _ IH]; intros s HI HPs; [done|].
  cbn [run]. apply wp_bind. eapply wp_mono.
  - apply wp_and; [by apply wp_exec|by apply HP].
  - intros ? s' [[HI' _] HP']. by apply IH.
Qed.

Lemma wp_elim {A} (m : M A) Q s : wp m Q s -> exists a s', m s = Some (a, s') /\ Q a s'.
Proof using Type. unfold wp. destruct (m s) as [[a s']|]; [by eauto|done]. Qed.

(** C19. Memory safety of the watchdog manager: with a valid configuration, no
    sequence of calls (initialisation, de-initialisation, mode switches,
    checkpoints, queries, resets, main functions, at any times, with any
    arguments, accepted or refused by the watchdog drivers) indexes an array out
    of its bounds or follows a null pointer, and the invariant is kept. *)
Theorem wdgm_memory_safe c s calls :
  inv c s -> Forall (call_ok c) calls ->
  exists s', run calls s = Some (tt, s') /\ inv c s'.
Proof using Type.
  intros HI Hc. destruct (wp_elim (run calls) (fun _ s' => inv c s' /\ True) s)
    as ([] & s' & E & H & _); [|by eauto].
  apply (wp_calls c (fun _ _ => True)); [|done..].
  intros k l s1 Hk H1 _. eapply wp_mono; [by eapply wp_exec|done].
Qed.

(** The calls since [s] told every watchdog enabled in [m] to expire at once. *)
Definition zeroed (c : WdgM_ConfigType) (m : WdgM_Mode) (calls : list Effect) : Prop :=
  forall t d, In t m.(Triggers) -> t.(WatchdogMode) <> WDGIF_OFF_MODE ->
    c.(Watchdogs) !! t.(WatchdogId) = Some d -> In (WdgIf_SetTriggerCondition_call d 0) calls.

Lemma served_stopped c ts :
  Forall harmless (in_turn (served opt c WDGM_GLOBAL_STATUS_STOPPED) ts) /\
  (forall t d, In t ts -> t.(WatchdogMode) <> WDGIF_OFF_MODE ->
     c.(Watchdogs) !! t.(WatchdogId) = Some d ->
     In (WdgIf_SetTriggerCondition_call d 0)
        (in_turn (served opt c WDGM_GLOBAL_STATUS_STOPPED) ts)).
Proof using Type.
  split.
  - induction ts as [|t ts IH]; cbn; [done|]. apply Forall_app_2; [done|].
    unfold served. case_bool_decide; [done|].
    destruct (c.(Watchdogs) !! t.(WatchdogId)); [apply trigger_effects_zero|done].
  - intros t d Ht Hoff Hd. induction ts as [|t' ts IH]; [done|].
    cbn. apply in_or_app. destruct Ht as [->|Ht]; [right|left; by apply IH].
    unfold served. rewrite bool_decide_eq_false_2 by done. rewrite Hd.
    apply trigger_effects_zero.
Qed.

(** The stopped module [l] calls before the end of [calls]. *)
Record stopped_run c m s calls (l : list Call) (s' : WdgM_State) : Prop := {
  sr_ready : ready c m s';
  sr_global : s'.(GlobalState) = WDGM_GLOBAL_STATUS_STOPPED;
  sr_frame : frame s s';
  sr_silent : silent s s';
  sr_served : In c_MainFunction calls -> In c_MainFunction l \/ s.(ResetInitiated) = true \/
              exists new, s'.(trace) = new ++ s.(trace) /\ zeroed c m new
}.

Lemma stopped_settled s : s.(isInitiated) = true ->
  s.(GlobalState) = WDGM_GLOBAL_STATUS_STOPPED -> settled s.
Proof using Type. intros Hi Hg. unfold settled. by rewrite Hg. Qed.

Lemma stopped_run_quiet c m s calls k l s1 s2 :
  is_main k = false -> quiet s1 s2 ->
  stopped_run c m s calls (k :: l) s1 -> stopped_run c m s calls l s2.
Proof using Type.
  intros Hk [F T S] [Hr Hg Hf Hs Hz]. split.
  - by rewrite <- F.
  - by rewrite (t_global _ _ T).
  - by transitivity s1.
  - by eapply silent_trans.
  - intros [Hin|[HR|(new & E & Z)]]%Hz; [|by auto|].
    + destruct Hin as [->|Hin]; [done|by auto].
    + right; right. destruct S as (new2 & E2 & _). exists (new2 ++ new).
      split; [by rewrite E2, E, app_assoc|].
      intros t d H1 H2 H3. apply in_or_app. right. by eapply Z.
Qed.

Lemma zeroed_all c m new :
  (forall d, In d c.(Watchdogs) -> In (WdgIf_SetTriggerCondition_call d 0) new) ->
  zeroed c m new.
Proof using Type.
  intros H t d _ _ Hd. apply H. eapply list_elem_of_In, list_elem_of_lookup_2, Hd.
Qed.

Lemma stopped_run_main c m s calls l s1 :
  stopped_run c m s calls (c_MainFunction :: l) s1 ->
  wp (WdgM_MainFunction opt) (fun _ => stopped_run c m s calls l) s1.
Proof using Type.
  intros [Hr Hg Hf Hs _]. destruct (ready_cycles _ _ _ Hr) as [n Hn].
  eapply wp_mono; [by eapply wp_MainFunction|].
  intros ? s' (s2 & x & y & (C & G & _) & _ & _ & ->). rewrite Hg in G. cbn in G.
  pose proof (c_frame _ _ C) as F. pose proof Hr as Hr2. rewrite F in Hr2.
  assert (F2 : frame s s2) by (by transitivity s1).
  assert (S2 : silent s s2) by (by eapply silent_trans; [| |apply C]).
  rewrite G. destruct (served_stopped c m.(Triggers)) as [SH SZ].
  destruct S2 as (new & E & H & R). split.
  - destruct Hr2. by split.
  - done.
  - destruct F2. by split.
  - destruct (s2.(ResetInitiated)) eqn:HR.
    + exists new. split; [done|]. split; [done|]. cbn. by rewrite HR.
    + exists (in_turn (served opt c WDGM_GLOBAL_STATUS_STOPPED) m.(Triggers) ++ new).
      split; [cbn; by rewrite E, app_assoc|]. split; [by apply Forall_app_2|].
      destruct R as [R|(c' & Hc' & R)]; [left; cbn; congruence|].
      right. exists c'. split; [done|]. intros d Hd. apply in_or_app. auto.
  - intros _. destruct (s2.(ResetInitiated)) eqn:HR.
    + destruct R as [R|(c' & Hc' & R)]; [by auto|]. right; right.
      exists new. split; [done|]. apply zeroed_all.
      pose proof (rd_config _ _ _ Hr2) as Hc. rewrite (f_config _ _ F2), Hc' in Hc.
      by injection Hc as <-.
    + right; right. eexists. split; [cbn; rewrite E; apply app_assoc|].
      intros t d H1 H2 H3. apply in_or_app. left. by eapply SZ.
Qed.

(** C28. [WDGM_GLOBAL_STATUS_STOPPED] is final: from a stopped module no sequence of
    calls leads to another state; no watchdog's mode is set and none is served
    with a non-zero timeout any more; and once the main function has run, every
    watchdog enabled in the current mode has been told to expire at once (unless
    a reset had been requested, which already did so). *)
Theorem wdgm_stopped_is_final c m s calls :
  ready c m s -> s.(GlobalState) = WDGM_GLOBAL_STATUS_STOPPED -> Forall (call_ok c) calls ->
  exists s' new, run calls s = Some (tt, s') /\
    s'.(GlobalState) = WDGM_GLOBAL_STATUS_STOPPED /\ s'.(isInitiated) = true /\
    s'.(trace) = new ++ s.(trace) /\ Forall harmless new /\
    (In c_MainFunction calls -> s.(ResetInitiated) = false -> zeroed c m new).
Proof using Type.
  intros Hr Hg Hc.
  destruct (wp_elim (run calls) (fun _ s' => inv c s' /\ stopped_run c m s calls [] s') s)
    as ([] & s' & E & _ & R).
  - apply wp_calls; [|done|by eapply ready_inv|].
    + intros k l s1 Hk HI R. destruct (is_main k) eqn:Hm.
      * destruct k; try done. by apply stopped_run_main.
      * eapply wp_mono; [by apply wp_exec|]. intros ? s2 [_ Q].
        eapply stopped_run_quiet; [done| |done]. apply Q. split; [|done].
        apply stopped_settled; [apply R|apply R].
    + split; [done|done|reflexivity|apply silent_refl|auto].
  - destruct R as [Hr' Hg' _ (new & En & H & _) Hz]. exists s', new.
    split; [done|]. split; [done|]. split; [apply Hr'|]. split; [done|]. split; [done|].
    intros Hin HR. destruct (Hz Hin) as [[]|[?|(new' & En' & Z)]]; [congruence|].
    rewrite En in En'. by apply app_inv_tail in En' as ->.
Qed.

Fixpoint mains (l : list Call) : Z :=
  match l with [] => 0 | k :: l => (if is_main k then 1 else 0) + mains l end.

Lemma mains_nonneg l : 0 <= mains l.
Proof using Type. induction l as [|k l IH]; cbn; [lia|]. destruct (is_main k); lia. Qed.

(** After [done] main functions since [n] expired cycles were counted. *)
Definition countdown c m n (todo : Z) (l : list Call) (s : WdgM_State) : Prop :=
  ready c m s /\
  ((s.(GlobalState) = WDGM_GLOBAL_STATUS_EXPIRED /\ has_expired m s /\
    exists n', expired_cycles s !! m.(Id) = Some n' /\
      n <= n' <= m.(ExpiredSupervisionCycleTol) /\ n' + mains l = n + todo) \/
   (s.(GlobalState) = WDGM_GLOBAL_STATUS_STOPPED /\
    m.(ExpiredSupervisionCycleTol) - n < todo - mains l)).

Lemma countdown_quiet c m n todo k l s s' :
  is_main k = false -> quiet s s' -> countdown c m n todo (k :: l) s ->
  countdown c m n todo l s'.
Proof using Type.
  intros Hk [F [Tg Tl Tc] _] [Hr H]. cbn in H. rewrite Hk in H. cbn in H.
  split; [by rewrite <- F|]. unfold has_expired. by rewrite Tg, Tl, Tc.
Qed.

Lemma countdown_main c m n todo l s :
  0 <= n -> m.(ExpiredSupervisionCycleTol) < 2 ^ 16 ->
  countdown c m n todo (c_MainFunction :: l) s ->
  wp (WdgM_MainFunction opt) (fun _ => countdown c m n todo l) s.
Proof using Type.
  intros Hn0 Ht [Hr H]. destruct (ready_cycles _ _ _ Hr) as [n1 Hn1]. cbn [mains is_main] in H.
  eapply wp_mono; [by eapply wp_MainFunction|].
  intros ? s' (s2 & x & y & (C & G & N) & Hx & HEx & ->).
  pose proof Hr as Hr2. rewrite (c_frame _ _ C) in Hr2.
  split; [destruct Hr2; by split|].
  change (GlobalState (with_trace _ s2)) with (GlobalState s2).
  change (expired_cycles (with_trace _ s2)) with (expired_cycles s2).
  change (has_expired m (with_trace _ s2)) with (has_expired m s2).
  destruct H as [(Hg & He & n' & Hn' & Hb & E)|[Hg Hlt]]; rewrite Hg in G, N; cbn in G, N.
  - rewrite Hn1 in Hn'. injection Hn' as ->. specialize (HEx He).
    replace (x >? 0) with true in G, N by (symmetry; apply Z.gtb_lt; lia).
    cbn in G, N. destruct (Z.ltb_spec n' m.(ExpiredSupervisionCycleTol)); cbn in G, N.
    + left. split; [done|]. split.
      { eapply Exists_impl; [|exact He]. intros e. apply C. }
      exists (n' + 1). rewrite N, list_lookup_insert_eq by (by eapply lookup_lt_Some).
      unfold u16. rewrite Z.mod_small by lia. split; [done|lia].
    + right. split; [done|lia].
  - right. split; [done|lia].
Qed.

(** C21. An expired entity stops the module in time: when the global state is
    [EXPIRED], an entity of the current mode is expired and [n] expired cycles
    have been counted, then whatever else is called in between (checkpoints that
    would satisfy every supervision, mode switches, de-initialisation, ...) the
    module is stopped by exactly the [ExpiredSupervisionCycleTol - n + 1]st call
    of the main function, and not before. *)
Theorem wdgm_expired_stops c m s n calls :
  ready c m s -> s.(GlobalState) = WDGM_GLOBAL_STATUS_EXPIRED -> has_expired m s ->
  expired_cycles s !! m.(Id) = Some n ->
  0 <= n <= m.(ExpiredSupervisionCycleTol) -> m.(ExpiredSupervisionCycleTol) < 2 ^ 16 ->
  Forall (call_ok c) calls ->
  exists s', run calls s = Some (tt, s') /\
    s'.(GlobalState) = if mains calls <=? m.(ExpiredSupervisionCycleTol) - n
                       then WDGM_GLOBAL_STATUS_EXPIRED else WDGM_GLOBAL_STATUS_STOPPED.
Proof using Type.
  intros Hr Hg He Hn Hb Ht Hc.
  destruct (wp_elim (run calls) (fun _ s' => inv c s' /\ countdown c m n (mains calls) [] s') s)
    as ([] & s' & E & _ & _ & R).
  - apply wp_calls; [|done|by eapply ready_inv|].
    + intros k l s1 Hk HI R. destruct (is_main k) eqn:Hm.
      * destruct k; try done. apply countdown_main; [lia|done|done].
      * eapply wp_mono; [by apply wp_exec|]. intros ? s2 [_ Q].
        eapply countdown_quiet; [done| |done]. apply Q. split; [|done].
        destruct R as [Hr1 [[G _]|[G _]]]; (split; [apply Hr1|by rewrite G]).
    + split; [done|]. left. split; [done|]. split; [done|]. exists n. split; [done|lia].
  - exists s'. split; [done|]. cbn in R.
    destruct R as [(G & _ & n' & _ & Hb' & En)|[G Hlt]]; rewrite G.
    + by rewrite (proj2 (Z.leb_le _ _)) by lia.
    + by rewrite (proj2 (Z.leb_gt _ _)) by lia.
Qed.
End Module.

(** ** Alive supervision

    The checkpoints of an entity reported cycle by cycle: each report reaches
    [AliveMonitoring], each cycle ends with the inner loop of [CheckAlives]. *)
Fixpoint report_all (cps : list WdgM_AliveSupervision)
    (rts : list WdgM_runtime_AliveSupervision) (reports : list Z)
  : option (list WdgM_runtime_AliveSupervision) :=
  match reports with
  | [] => Some rts
  | cp :: reports => rts ← alive_monitoring cps rts cp; report_all cps rts reports
  end.

(** The verdicts: [result] and [writeResult] of each cycle. *)
Fixpoint supervise (cps : list WdgM_AliveSupervision)
    (rts : list WdgM_runtime_AliveSupervision) (cycles : list (list Z))
  : option (list (Z * bool)) :=
  match cycles with
  | [] => Some []
  | reports :: cycles =>
      rts ← report_all cps rts reports;
      '(result, writeResult, rts) ← check_alives cps rts WDGM_SUBSTATE_CORRECT false;
      verdicts ← supervise cps rts cycles;
      Some ((result, writeResult) :: verdicts)
  end.

(** *** What it should compute

    The cycles so far, the latest first, decide: a supervision is due every
    [SupervisionReferenceCycle] cycles, and then the indications of those cycles
    must lie within the margins. *)
Definition indications (cp : Z) (reports : list Z) : Z :=
  Z.of_nat (length (List.filter (fun c => cp =? c) reports)).

Definition since_check (a : WdgM_AliveSupervision) (past : list (list Z)) : list Z :=
  concat (take (Z.to_nat (Z.of_nat (length past) mod a.(SupervisionReferenceCycle))) past).

Definition due (past : list (list Z)) (a : WdgM_AliveSupervision) : bool :=
  Z.of_nat (length past) mod a.(SupervisionReferenceCycle) =? 0.

Definition within (past : list (list Z)) (a : WdgM_AliveSupervision) : bool :=
  let n := indications a.(CheckpointId)
             (concat (take (Z.to_nat a.(SupervisionReferenceCycle)) past)) in
  (a.(ExpectedAliveIndications) - a.(MinMargin) <=? n)
  && (n <=? a.(ExpectedAliveIndications) + a.(MaxMargin)).

Definition alive_verdict (cps : list WdgM_AliveSupervision) (past : list (list Z)) : Z * bool :=
  (if existsb (fun a => due past a && negb (within past a)) cps
   then WDGM_SUBSTATE_INCORRECT else WDGM_SUBSTATE_CORRECT,
   existsb (due past) cps).

Fixpoint alive_verdicts (cps : list WdgM_AliveSupervision) (past cycles : list (list Z))
  : list (Z * bool) :=
  match cycles with
  | [] => []
  | reports :: cycles =>
      alive_verdict cps (reports :: past) :: alive_verdicts cps (reports :: past) cycles
  end.

(** The counters of a supervision, and of a list of them. *)
Definition tracks (past : list (list Z)) (reports : list Z) (a : WdgM_AliveSupervision)
    (rt : WdgM_runtime_AliveSupervision) : Prop :=
  rt.(AliveCounter) = indications a.(CheckpointId) (reports ++ since_check a past) /\
  rt.(SupervisionCycleCounter) = Z.of_nat (length past) mod a.(SupervisionReferenceCycle).

Section Alive.
(** At most [B] reports per cycle, so that the counters fit. *)
Context (B : nat) (cps : list WdgM_AliveSupervision).

Definition alive_config (a : WdgM_AliveSupervision) : Prop :=
  1 <= a.(SupervisionReferenceCycle) < 2 ^ 16 /\
  0 <= a.(ExpectedAliveIndications) < 2 ^ 15 /\
  Z.of_nat B * a.(SupervisionReferenceCycle) < 2 ^ 15.

Lemma indications_app cp l1 l2 :
  indications cp (l1 ++ l2) = indications cp l1 + indications cp l2.
Proof using Type. unfold indications. rewrite List.filter_app, length_app. lia. Qed.

Lemma indications_bound cp l : 0 <= indications cp l <= Z.of_nat (length l).
Proof using Type. unfold indications. pose proof (List.filter_length_le (fun c => cp =? c) l). lia. Qed.

Lemma length_recent (past : list (list Z)) n :
  Forall (fun c => length c <= B)%nat past -> (length (concat (take n past)) <= n * B)%nat.
Proof using Type.
  intros H. revert n. induction H as [|c past Hc _ IH]; intros [|n]; cbn; try lia.
  rewrite length_app. specialize (IH n). lia.
Qed.

Lemma indications_small a past reports :
  alive_config a -> Forall (fun c => length c <= B)%nat past -> (length reports <= B)%nat ->
  0 <= indications a.(CheckpointId) (reports ++ since_check a past) < 2 ^ 15.
Proof using Type.
  intros (HR & _ & HB) Hp Hr. pose proof (indications_bound a.(CheckpointId)
    (reports ++ since_check a past)) as Hb. rewrite length_app in Hb.
  pose proof (length_recent past
    (Z.to_nat (Z.of_nat (length past) mod a.(SupervisionReferenceCycle))) Hp) as Hl.
  fold (since_check a past) in Hl.
  pose proof (Z.mod_pos_bound (Z.of_nat (length past)) a.(SupervisionReferenceCycle)) as Hm.
  nia.
Qed.

Lemma mod_succ a r : 0 < r -> (a + 1) mod r = if a mod r + 1 =? r then 0 else a mod r + 1.
Proof using Type.
  intros Hr. pose proof (Z.mod_pos_bound a r Hr) as Hb.
  rewrite <- Z.add_mod_idemp_l by lia.
  destruct (Z.eqb_spec (a mod r + 1) r) as [->|]; [by rewrite Z.mod_same by lia|].
  rewrite Z.mod_small; lia.
Qed.

Lemma since_check_cons a reports past :
  0 < a.(SupervisionReferenceCycle) ->
  since_check a (reports :: past) =
  if due (reports :: past) a then [] else reports ++ since_check a past.
Proof using Type.
  intros Hr. unfold since_check, due. cbn [length].
  rewrite Nat2Z.inj_succ, <- Z.add_1_r, mod_succ by done.
  pose proof (Z.mod_pos_bound (Z.of_nat (length past)) a.(SupervisionReferenceCycle) Hr) as Hb.
  destruct (Z.eqb_spec (Z.of_nat (length past) mod a.(SupervisionReferenceCycle) + 1)
              a.(SupervisionReferenceCycle)); [done|].
  rewrite (proj2 (Z.eqb_neq _ 0)) by lia.
  by rewrite Z2Nat.inj_add by lia; rewrite Nat.add_1_r.
Qed.

Lemma since_check_due a reports past :
  0 < a.(SupervisionReferenceCycle) -> due (reports :: past) a = true ->
  reports ++ since_check a past =
  concat (take (Z.to_nat a.(SupervisionReferenceCycle)) (reports :: past)).
Proof using Type.
  intros Hr. unfold since_check, due. cbn [length].
  rewrite Nat2Z.inj_succ, <- Z.add_1_r, mod_succ by done.
  pose proof (Z.mod_pos_bound (Z.of_nat (length past)) a.(SupervisionReferenceCycle) Hr) as Hb.
  destruct (Z.eqb_spec (Z.of_nat (length past) mod a.(SupervisionReferenceCycle) + 1)
              a.(SupervisionReferenceCycle)) as [E|E]; [|rewrite Z.eqb_eq; lia].
  intros _. rewrite <- E at 2. by rewrite Z2Nat.inj_add, Nat.add_1_r by lia.
Qed.

Lemma s16_small x : - 2 ^ 15 <= x < 2 ^ 15 -> s16 x = x.
Proof using Type. intros H. unfold s16. rewrite Z.mod_small by lia. lia. Qed.

Lemma SpecAliveAlgo_spec a n k b :
  alive_config a -> 0 <= n < 2 ^ 15 ->
  WdgM_internal_SpecAliveAlgo a
    {| AliveCounter := n; SupervisionCycleCounter := k; wasEvaluated := b |} =
  (if (a.(ExpectedAliveIndications) - a.(MinMargin) <=? n)
      && (n <=? a.(ExpectedAliveIndications) + a.(MaxMargin))
   then WDGM_SUBSTATE_CORRECT else WDGM_SUBSTATE_INCORRECT,
   {| AliveCounter := 0; SupervisionCycleCounter := 0; wasEvaluated := b |}).
Proof using Type.
  intros (_ & He & _) Hn. unfold WdgM_internal_SpecAliveAlgo. cbn [AliveCounter wasEvaluated].
  rewrite !s16_small; rewrite ?s16_small; try lia. f_equal.
  rewrite andb_comm. repeat match goal with |- context [?x <=? ?y] =>
    destruct (Z.leb_spec x y) | |- context [?x >=? ?y] => destruct (Z.geb_spec x y) end;
    cbn; try done; lia.
Qed.

(** The end of a cycle for one supervision. *)
Lemma end_of_cycle a past reports rt :
  alive_config a -> Forall (fun c => length c <= B)%nat past -> (length reports <= B)%nat ->
  tracks past reports a rt ->
  exists rt', WdgM_internal_IsAliveHold a
    {| AliveCounter := rt.(AliveCounter);
       SupervisionCycleCounter := u16 (rt.(SupervisionCycleCounter) + 1);
       wasEvaluated := rt.(wasEvaluated) |} =
    (if due (reports :: past) a && negb (within (reports :: past) a)
     then WDGM_SUBSTATE_INCORRECT else WDGM_SUBSTATE_CORRECT, rt') /\
    tracks (reports :: past) [] a rt' /\ rt'.(wasEvaluated) = due (reports :: past) a.
Proof using Type.
  intros Ha Hp Hr [Hn Hk]. pose proof (indications_small _ _ _ Ha Hp Hr) as Hb.
  pose proof Ha as (HR & _ & _). rewrite <- Hn in Hb.
  pose proof (Z.mod_pos_bound (Z.of_nat (length past)) a.(SupervisionReferenceCycle)) as Hm.
  unfold u16. rewrite Z.mod_small by lia.
  assert (D : (rt.(SupervisionCycleCounter) + 1 =? a.(SupervisionReferenceCycle))
              = due (reports :: past) a).
  { unfold due. cbn [length]. rewrite Nat2Z.inj_succ, <- Z.add_1_r, mod_succ, <- Hk by lia.
    destruct (_ =? _) eqn:E; [done|]. symmetry. apply Z.eqb_neq. lia. }
  assert (T : forall rt', rt'.(AliveCounter) = (if due (reports :: past) a then 0
      else rt.(AliveCounter)) -> rt'.(SupervisionCycleCounter) =
      (if due (reports :: past) a then 0 else rt.(SupervisionCycleCounter) + 1) ->
      tracks (reports :: past) [] a rt').
  { intros rt' H1 H2. split; [|rewrite H2; cbn [length]].
    - rewrite H1, since_check_cons by lia. by destruct (due _ _).
    - rewrite Nat2Z.inj_succ, <- Z.add_1_r, mod_succ, <- Hk, <- D by lia. by destruct (_ =? _). }
  assert (W : due (reports :: past) a = true ->
    (a.(ExpectedAliveIndications) - a.(MinMargin) <=? rt.(AliveCounter))
    && (rt.(AliveCounter) <=? a.(ExpectedAliveIndications) + a.(MaxMargin))
    = within (reports :: past) a).
  { intros Hd. unfold within. by rewrite <- since_check_due, Hn by (lia || done). }
  unfold WdgM_internal_IsAliveHold, set_wasEvaluated. cbn [AliveCounter SupervisionCycleCounter].
  destruct (Z.eqb_spec a.(SupervisionReferenceCycle) 1) as [E1|E1].
  - assert (Hd : due (reports :: past) a = true) by (unfold due; by rewrite E1, Z.mod_1_r).
    rewrite SpecAliveAlgo_spec by done. rewrite W, Hd by done. cbn.
    eexists. split; [by destruct (within _ _)|]. split; [|done]. apply T; by rewrite Hd.
  - rewrite D. destruct (due (reports :: past) a) eqn:Hd.
    + rewrite SpecAliveAlgo_spec by done. rewrite W by done. cbn.
      eexists. split; [by destruct (within _ _)|]. split; [|done]. by apply T.
    + eexists. split; [done|]. split; [|done]. by apply T.
Qed.

Lemma check_alives_spec l rts past reports result w :
  Forall alive_config l -> Forall (fun c => length c <= B)%nat past ->
  (length reports <= B)%nat -> Forall2 (tracks past reports) l rts ->
  exists rts', check_alives l rts result w =
    Some (if existsb (fun a => due (reports :: past) a && negb (within (reports :: past) a)) l
          then WDGM_SUBSTATE_INCORRECT else result,
          w || existsb (due (reports :: past)) l, rts') /\
    Forall2 (tracks (reports :: past) []) l rts'.
Proof using Type.
  intros Hl Hp Hr HF. revert result w.
  induction HF as [|a rt l rts Ha HF IH]; intros result w.
  { exists []. cbn. by rewrite orb_false_r. }
  apply Forall_cons_1 in Hl as [Hca Hl].
  destruct (end_of_cycle a past reports rt Hca Hp Hr Ha) as (rt' & E & T & W).
  cbn [check_alives existsb]. rewrite E. cbv zeta. rewrite W.
  edestruct (IH Hl) as (rts' & E' & T'). rewrite E'. cbn [mbind option_bind].
  exists (rt' :: rts'). split; [|by constructor].
  destruct (due (reports :: past) a), (within (reports :: past) a), (existsb _ l), w; done.
Qed.

Lemma indications_cons cp c l : indications cp (c :: l) = (if cp =? c then 1 else 0) + indications cp l.
Proof using Type. unfold indications. cbn. destruct (cp =? c); cbn [length]; lia. Qed.

Lemma NoDup_cons_1 {A} (x : A) l : NoDup (x :: l) -> (x ∉ l) /\ NoDup l.
Proof using Type. by inversion 1. Qed.

Lemma tracks_other past reports a rt cp :
  a.(CheckpointId) <> cp -> tracks past reports a rt -> tracks past (cp :: reports) a rt.
Proof using Type.
  intros Hne [H1 H2]. split; [|done]. rewrite H1. cbn [app].
  rewrite indications_cons. by rewrite (proj2 (Z.eqb_neq _ _) Hne).
Qed.

(** A report counts in the supervision of its checkpoint only. *)
Lemma alive_monitoring_spec l rts past reports cp :
  Forall alive_config l -> NoDup (map CheckpointId l) ->
  Forall (fun c => length c <= B)%nat past -> (length (cp :: reports) <= B)%nat ->
  Forall2 (tracks past reports) l rts ->
  exists rts', alive_monitoring l rts cp = Some rts' /\
               Forall2 (tracks past (cp :: reports)) l rts'.
Proof using Type.
  intros Hl Hnd Hp Hr HF. induction HF as [|a rt l rts Ha HF IH]; [by exists []|].
  apply Forall_cons_1 in Hl as [Hca Hl]. cbn [map] in Hnd.
  apply NoDup_cons_1 in Hnd as [Hni Hnd].
  cbn [alive_monitoring]. destruct (Z.eqb_spec a.(CheckpointId) cp) as [Heq|Hne].
  - eexists. split; [done|]. constructor.
    + destruct Ha as [H1 H2]. split; [|done]. cbn [AliveCounter].
      pose proof (indications_small a past (cp :: reports) Hca Hp Hr) as Hb.
      cbn [app] in *. rewrite indications_cons, <- H1, Heq, Z.eqb_refl in *.
      unfold u32. rewrite Z.mod_small; lia.
    + clear - HF Hni Heq. induction HF as [|b rtb l rts Hb _ IH]; [done|].
      cbn in Hni. apply not_elem_of_cons in Hni as [Hne Hni]. constructor; [|by apply IH].
      apply tracks_other; [congruence|done].
  - destruct (IH Hl Hnd) as (rts' & E & T). rewrite E. cbn.
    eexists. split; [done|]. constructor; [by apply tracks_other|done].
Qed.

Lemma report_all_spec rts past done reports :
  Forall alive_config cps -> NoDup (map CheckpointId cps) ->
  Forall (fun c => length c <= B)%nat past -> (length done + length reports <= B)%nat ->
  Forall2 (tracks past done) cps rts ->
  exists rts', report_all cps rts reports = Some rts' /\
               Forall2 (tracks past (rev reports ++ done)) cps rts'.
Proof using Type.
  intros Hl Hnd Hp. revert rts done.
  induction reports as [|cp reports IH]; intros rts done Hb HF; [by exists rts|].
  cbn [length] in Hb. destruct (alive_monitoring_spec cps rts past done cp) as (rts1 & E1 & T1);
    [done|done|done|cbn; lia|done|].
  cbn [report_all]. rewrite E1. cbn [mbind option_bind].
  destruct (IH rts1 (cp :: done)) as (rts2 & E2 & T2); [cbn; lia|done|].
  exists rts2. split; [done|]. cbn [rev]. by rewrite <- app_assoc.
Qed.

Lemma tracks_rev past reports a rt :
  tracks past (rev reports ++ []) a rt -> tracks past reports a rt.
Proof using Type.
  intros [H1 H2]. split; [|done]. rewrite H1, app_nil_r, !indications_app. f_equal.
  unfold indications. clear. induction reports as [|c l IH]; [done|].
  cbn [rev]. rewrite List.filter_app, length_app. cbn. destruct (_ =? c); cbn; lia.
Qed.

(** C37. Alive supervision over whole reference cycles: for supervisions of distinct
    checkpoints, whatever checkpoints are reported cycle by cycle, the verdicts of
    the supervision cycles are exactly those computed from the history: a
    supervision is evaluated every [SupervisionReferenceCycle] cycles, and the
    result is incorrect exactly when the indications of one evaluated supervision
    during its reference cycle lie outside
    [ExpectedAliveIndications - MinMargin .. ExpectedAliveIndications + MaxMargin]
    (fewer than 2{^15} indications per reference cycle, since the code compares in
    [sint16]). *)
Theorem wdgm_alive_supervision rts past cycles :
  Forall alive_config cps -> NoDup (map CheckpointId cps) ->
  Forall (fun c => length c <= B)%nat past ->
  Forall (fun c => length c <= B)%nat cycles ->
  Forall2 (tracks past []) cps rts ->
  supervise cps rts cycles = Some (alive_verdicts cps past cycles).
Proof using Type.
  intros Hl Hnd. revert rts past. induction cycles as [|reports cycles IH];
    intros rts past Hp Hc HF; [done|].
  apply Forall_cons_1 in Hc as [Hr Hc]. cbn [supervise alive_verdicts].
  destruct (report_all_spec rts past [] reports) as (rts1 & E1 & T1); [done..|].
  rewrite E1. cbn [mbind option_bind].
  destruct (check_alives_spec cps rts1 past reports WDGM_SUBSTATE_CORRECT false)
    as (rts2 & E2 & T2); [done..| |].
  { eapply Forall2_impl; [|exact T1]. apply tracks_rev. }
  rewrite E2. cbn [mbind option_bind]. rewrite (IH rts2 (reports :: past)); [done| |done|done].
  by constructor.
Qed.
End Alive.

(** ** Logical supervision *)

(** The substates given to the checkpoints of an entity reported one after the other. *)
Fixpoint monitor (se : WdgM_SupervisedEntity) (r : WdgM_runtime_SupervisedEntity)
    (reports : list Z) : list Z :=
  match reports with
  | [] => []
  | cp :: reports =>
      let '(v, r) := WdgM_internal_LogicalMonitoring se r cp in v :: monitor se r reports
  end.

Definition edge (se : WdgM_SupervisedEntity) (a b : Z) : Prop :=
  exists t, In t se.(Transitions) /\ t.(CheckpointIdSource) = a /\
            t.(CheckpointIdDestination) = b.

(** A path of the graph after the checkpoint [a]: it is complete at its first
    final checkpoint. *)
Inductive path (se : WdgM_SupervisedEntity) : Z -> list Z -> bool -> Prop :=
| path_open a : path se a [] false
| path_final a b : edge se a b -> In b se.(FinalCheckpointIds) -> path se a [b] true
| path_step a b l complete :
    edge se a b -> ~ In b se.(FinalCheckpointIds) -> path se b l complete ->
    path se a (b :: l) complete.

(** Complete executions from start checkpoints, the last one maybe under way. *)
Inductive executions (se : WdgM_SupervisedEntity) : list Z -> Prop :=
| no_execution : executions se []
| execution_open a l :
    In a se.(StartCheckpointIds) -> path se a l false -> executions se (a :: l)
| execution_complete a l rest :
    In a se.(StartCheckpointIds) -> path se a l true -> executions se rest ->
    executions se (a :: l ++ rest).

Section Logical.
Context (se : WdgM_SupervisedEntity).

Lemma edge_reflect a b :
  existsb (fun t => (t.(CheckpointIdSource) =? a) && (t.(CheckpointIdDestination) =? b))
    se.(Transitions) = true <-> edge se a b.
Proof using Type.
  rewrite existsb_exists. unfold edge. setoid_rewrite andb_true_iff.
  by setoid_rewrite Z.eqb_eq.
Qed.

Lemma member_reflect b l : existsb (fun c => c =? b) l = true <-> In b l.
Proof using Type.
  rewrite existsb_exists. split; [intros (x & Hx & ->%Z.eqb_eq); done|].
  intros H. exists b. by rewrite Z.eqb_refl.
Qed.

(** What the rest of the reports must be when the graph is at [a]. *)
Definition continues (a : Z) (l : list Z) : Prop :=
  path se a l false \/ exists l1 l2, l = l1 ++ l2 /\ path se a l1 true /\ executions se l2.

Lemma continues_nil a : continues a [].
Proof using Type. left. constructor. Qed.

Lemma continues_cons a b l :
  continues a (b :: l) <->
  edge se a b /\ if existsb (fun c => c =? b) se.(FinalCheckpointIds)
                 then executions se l else continues b l.
Proof using Type.
  destruct (existsb _ _) eqn:E.
  - apply member_reflect in E. split.
    + intros [H|(l1 & l2 & Hl & H & HE)]; [by inversion H; subst|].
      inversion H; subst; simplify_eq/=; done.
    + intros [He HE]. right. exists [b], l. split; [done|]. split; [by constructor|done].
  - assert (Hn : ~ In b se.(FinalCheckpointIds)) by (rewrite <- member_reflect; congruence).
    split.
    + intros [H|(l1 & l2 & Hl & H & HE)].
      * inversion H; subst. split; [done|]. by left.
      * inversion H; subst; simplify_eq/=; [done|]. split; [done|]. right. eauto.
    + intros [He [H|(l1 & l2 & -> & H & HE)]]; [left; by constructor|].
      right. exists (b :: l1), l2. split; [done|]. split; [by constructor|done].
Qed.

Lemma executions_cons a l :
  executions se (a :: l) <-> In a se.(StartCheckpointIds) /\ continues a l.
Proof using Type.
  split.
  - inversion 1; subst; (split; [done|]); [by left|]. right. eauto.
  - intros [Hs [H|(l1 & l2 & -> & H & HE)]]; [by constructor|]. by constructor.
Qed.

Lemma monitor_spec l r :
  Forall (fun v => v = WDGM_SUBSTATE_CORRECT) (monitor se r l) <->
  if r.(IsInternalGraphActive) then continues r.(PreviousCheckpointId_internalLogic) l
  else executions se l.
Proof using Type.
  revert r. induction l as [|cp l IH]; intros r.
  { cbn. destruct (IsInternalGraphActive r); split; auto using continues_nil, no_execution. }
  cbn [monitor]. unfold WdgM_internal_LogicalMonitoring,
    WdgM_internal_LogicalMonitoring_GraphActive, WdgM_internal_LogicalMonitoring_GraphInactive.
  destruct (r.(IsInternalGraphActive)) eqn:Ha.
  - rewrite continues_cons, <- edge_reflect. destruct (existsb _ se.(Transitions)).
    + rewrite Forall_cons_iff, IH. cbn.
      destruct (existsb _ se.(FinalCheckpointIds)); cbn; by intuition.
    + rewrite Forall_cons_iff. by intuition.
  - rewrite executions_cons, <- member_reflect. destruct (existsb _ se.(StartCheckpointIds)).
    + rewrite Forall_cons_iff, IH. cbn. by intuition.
    + rewrite Forall_cons_iff. by intuition.
Qed.

(** C38. Logical supervision: for an entity whose graph is not active (as
    initialisation leaves it), all reported checkpoints are judged correct exactly
    when the sequence consists of complete executions of the checkpoint graph (from
    a start checkpoint along transitions to the first final checkpoint reached),
    the last one possibly still under way. *)
Theorem wdgm_logical_supervision r l :
  r.(IsInternalGraphActive) = false ->
  (Forall (fun v => v = WDGM_SUBSTATE_CORRECT) (monitor se r l) <-> executions se l).
Proof using Type. intros H. pose proof (monitor_spec l r) as E. by rewrite H in E. Qed.
End Logical.

(** ** A small system

    Two entities, of which only entity 1 is supervised: checkpoints 0, 1, 2 in that
    order, checkpoint 0 once per cycle, checkpoint 1 between 1 and 5 ticks after
    checkpoint 0.  One watchdog, device 7. *)
Module Demo.
Definition entity : WdgM_SupervisedEntity :=
  {| CheckpointIds := [0; 1; 2];
     Transitions := [ {| CheckpointIdSource := 0; CheckpointIdDestination := 1 |};
                      {| CheckpointIdSource := 1; CheckpointIdDestination := 2 |} ];
     StartCheckpointIds := [0]; FinalCheckpointIds := [2] |}.
Definition alive : WdgM_AliveSupervision :=
  {| CheckpointId := 0; ExpectedAliveIndications := 1; MinMargin := 0; MaxMargin := 0;
     SupervisionReferenceCycle := 1 |}.
Definition deadline : WdgM_DeadlineSupervision :=
  {| CheckpointIdStart := 0; CheckpointIdFinish := 1; DeadlineMin := 1; DeadlineMax := 5 |}.
Definition supervision (tol : Z) : WdgM_SupervisedEntityConfiguration :=
  {| SupervisedEntityId := 1; CheckInternalLogic := true; AliveSupervisions := [alive];
     DeadlineSupervisions := [deadline];
     FailedAliveSupervisionReferenceCycleTol := tol; OSCounter := 0 |}.
Definition mode (tol : Z) : WdgM_Mode :=
  {| Id := 0; ExpiredSupervisionCycleTol := 2; SEConfigurations := [supervision tol];
     Triggers := [ {| TriggerConditionValue := 100; WatchdogMode := WDGIF_FAST_MODE;
                      WatchdogId := 0 |} ] |}.
Definition config (tol : Z) : WdgM_ConfigType :=
  {| SupervisedEntities := [entity; entity]; Watchdogs := [7]; DemEventSupervision := 1;
     DemEventSetMode := 2; initialModeId := 0; Modes := [mode tol] |}.

Definition fresh_SE : WdgM_runtime_SupervisedEntity :=
  {| LocalState := WDGM_LOCAL_STATUS_OK; SubstateAlive := 0; SubstateDeadline := 0;
     SubstateLogical := 0; IsInternalGraphActive := false;
     PreviousCheckpointId_internalLogic := 0; FailedAliveCyclesCounter := 0 |}.
Definition fresh_alive : WdgM_runtime_AliveSupervision :=
  {| AliveCounter := 0; SupervisionCycleCounter := 0; wasEvaluated := false |}.
(** The state the C initialisers give. *)
Definition boot : WdgM_State :=
  {| ConfigPtr := None; SEs := [fresh_SE; fresh_SE];
     rt_Modes := [ {| SE_Configs := [ {| rt_alive := [fresh_alive]; rt_deadline := [0] |} ];
                      ExpiredSupervisionCycleCounter := 0 |} ];
     isInitiated := false; GlobalState := WDGM_GLOBAL_STATUS_DEACTIVATED; CurrentMode := None;
     ResetInitiated := false; isFirstExpiredSet := false; firstExpiredSEID := 0;
     firstExpiredSEIDInverse := 0; clock := fun _ => 0; trace := [] |}.

Definition options : BuildOptions :=
  {| WDGM_DEV_ERROR_DETECT := true; WDGM_OFF_MODE_ENABLED := false;
     WDGM_IMMEDIATE_RESET := false; WDGM_DEM_ALIVE_SUPERVISION_REPORT := true;
     WDGIF_DEV_ERROR_DETECT := true; WDGIF_DEVICES := 1 |}.

Definition go (calls : list Call) : M unit :=
  run options 1 (fun _ => 1000) (fun _ _ _ => true) calls.

(** The state after the calls; all of them return. *)
Definition after (calls : list Call) (s : WdgM_State) : WdgM_State :=
  match go calls s with Some (_, s') => s' | None => s end.

Lemma valid_boot tol : valid (config tol) (layout boot).
Proof.
  split; [done|by eexists|]. intros [|i] m H; [|by destruct i]. injection H as <-.
  split; [done|]. split; [repeat constructor|repeat constructor|repeat constructor|done|done].
Qed.

Lemma ready_after tol calls :
  layout (after calls boot) = layout boot -> isInitiated (after calls boot) = true ->
  ConfigPtr (after calls boot) = Some (config tol) ->
  CurrentMode (after calls boot) = Some (mode tol) ->
  ready (config tol) (mode tol) (after calls boot).
Proof. intros L I C Mo. split; try done. rewrite L. apply valid_boot. Qed.
End Demo.

(** Every call of the module in some order, also before initialisation, with wrong
    arguments and with an expiring entity. *)
Lemma wdgm_memory_safe_witness :
  exists s', Demo.go [c_MainFunction; c_Init None; c_Init (Some (Demo.config 0));
                      c_CheckpointReached 1 0; c_CheckpointReached 9 9; c_MainFunction;
                      c_SetMode 0; c_SetMode 5; c_GetMode true; c_MainFunction; c_PerformReset;
                      c_DeInit] Demo.boot
             = Some (tt, s') /\ inv (Demo.config 0) s'.
Proof.
  apply wdgm_memory_safe.
  - split; [apply Demo.valid_boot|discriminate].
  - repeat constructor.
Defined.

Definition stopping : list Call :=
  [c_Init (Some (Demo.config 0)); c_MainFunction; c_MainFunction; c_MainFunction; c_MainFunction].

Lemma wdgm_stopped_is_final_witness :
  exists s' new, Demo.go [c_CheckpointReached 1 0; c_SetMode 0; c_DeInit; c_MainFunction]
                   (Demo.after stopping Demo.boot) = Some (tt, s') /\
    s'.(GlobalState) = WDGM_GLOBAL_STATUS_STOPPED /\ s'.(isInitiated) = true /\
    s'.(trace) = new ++ (Demo.after stopping Demo.boot).(trace) /\ Forall harmless new /\
    (In c_MainFunction [c_CheckpointReached 1 0; c_SetMode 0; c_DeInit; c_MainFunction] ->
     (Demo.after stopping Demo.boot).(ResetInitiated) = false ->
     zeroed (Demo.config 0) (Demo.mode 0) new).
Proof.
  apply wdgm_stopped_is_final.
  - apply Demo.ready_after; reflexivity.
  - reflexivity.
  - repeat constructor.
Defined.

Definition expiring : list Call := [c_Init (Some (Demo.config 0)); c_MainFunction].

Lemma wdgm_expired_stops_witness :
  exists s', Demo.go [c_MainFunction; c_CheckpointReached 1 0; c_MainFunction; c_MainFunction]
               (Demo.after expiring Demo.boot) = Some (tt, s') /\
             s'.(GlobalState) = WDGM_GLOBAL_STATUS_STOPPED.
Proof.
  apply (wdgm_expired_stops Demo.options 1 (fun _ => 1000) (fun _ _ _ => true)
           (Demo.config 0) (Demo.mode 0) (Demo.after expiring Demo.boot) 0
           [c_MainFunction; c_CheckpointReached 1 0; c_MainFunction; c_MainFunction]).
  - apply Demo.ready_after; reflexivity.
  - reflexivity.
  - apply Exists_cons_hd. reflexivity.
  - reflexivity.
  - cbn. lia.
  - cbn. lia.
  - repeat constructor.
Defined.

(** Twice per two cycles, with one indication of margin: right, then too many. *)
Lemma wdgm_alive_supervision_witness :
  let a := {| CheckpointId := 3; ExpectedAliveIndications := 2; MinMargin := 1; MaxMargin := 1;
              SupervisionReferenceCycle := 2 |} in
  supervise [a] [Demo.fresh_alive] [[3; 5]; [3]; [3; 3]; [3; 3]] =
  Some [(1, false); (1, true); (1, false); (0, true)].
Proof.
  intros a. refine (wdgm_alive_supervision 2 [a] [Demo.fresh_alive] []
    [[3; 5]; [3]; [3; 3]; [3; 3]] _ _ _ _ _).
  - repeat constructor; cbn; lia.
  - apply NoDup_singleton.
  - constructor.
  - repeat constructor.
  - repeat constructor.
Defined.

Lemma wdgm_logical_supervision_witness :
  executions Demo.entity [0; 1; 2; 0; 1] /\ ~ executions Demo.entity [0; 1; 0].
Proof.
  split.
  - apply (wdgm_logical_supervision Demo.entity Demo.fresh_SE); [reflexivity|].
    repeat constructor.
  - intros H. apply (wdgm_logical_supervision Demo.entity Demo.fresh_SE) in H; [|reflexivity].
    cbn in H. apply Forall_inv_tail, Forall_inv_tail, Forall_inv in H. discriminate.
Defined.

(** ** Behaviours the module does not intend *)

(** A violation is forgotten when another checkpoint follows in the same cycle:
    checkpoint 1 comes 90 ticks after checkpoint 0 instead of at most 5.  When the
    main function runs next, entity 1 expires.  But if checkpoint 2, which no deadline
    supervises, is reported first, [SubstateDeadline] is overwritten with its result
    and the entity stays [OK]. *)
Theorem wdgm_deadline_violation_forgotten :
  let late := [c_Init (Some (Demo.config 0)); c_Clock (fun _ => 10); c_CheckpointReached 1 0;
               c_Clock (fun _ => 100); c_CheckpointReached 1 1] in
  locals (Demo.after (late ++ [c_MainFunction]) Demo.boot) !! 1%nat
    = Some WDGM_LOCAL_STATUS_EXPIRED /\
  locals (Demo.after (late ++ [c_CheckpointReached 1 2; c_MainFunction]) Demo.boot) !! 1%nat
    = Some WDGM_LOCAL_STATUS_OK.
Proof. split; reflexivity. Qed.

(** [WdgM_GetFirstExpiredSEID] does not return an entity's identifier: when the
    one supervised entity, entity 1, expires, it reports entity 0, which is not even
    supervised; what is stored is the position of the configuration in the mode. *)
Theorem wdgm_first_expired_is_index :
  let s := Demo.after expiring Demo.boot in
  locals s = [WDGM_LOCAL_STATUS_DEACTIVATED; WDGM_LOCAL_STATUS_EXPIRED] /\
  fst <$> WdgM_GetFirstExpiredSEID Demo.options true s = Some (E_OK, Some 0).
Proof. split; vm_compute; reflexivity. Qed.

(** Alive supervision is correct and exactly one of the other two is not. *)
Definition one_violation (r : WdgM_runtime_SupervisedEntity) : Prop :=
  r.(SubstateAlive) = WDGM_SUBSTATE_CORRECT /\
  r.(SubstateDeadline) + r.(SubstateLogical) = WDGM_SUBSTATE_CORRECT.

(** A failed entity hides deadline and logical violations: one violation of either
    kind, with alive supervision correct, expires an entity that is [OK], as its
    requirement says, but leaves an entity that is [FAILED] as it is, however often
    it is repeated. *)
Theorem wdgm_failed_hides_violations r e rc s :
  one_violation r ->
  (r.(LocalState) = WDGM_LOCAL_STATUS_OK ->
   exists r' s', WdgM_internal_CalculateLocalState r e rc s = Some (r', s') /\
                 r'.(LocalState) = WDGM_LOCAL_STATUS_EXPIRED) /\
  (r.(LocalState) = WDGM_LOCAL_STATUS_FAILED ->
   r.(FailedAliveCyclesCounter) <= e.(FailedAliveSupervisionReferenceCycleTol) ->
   WdgM_internal_CalculateLocalState r e rc s = Some (r, s)).
Proof.
  intros [Ha Hv]. unfold WDGM_SUBSTATE_CORRECT in Hv. unfold WdgM_internal_CalculateLocalState.
  replace (r.(SubstateAlive) + r.(SubstateDeadline) + r.(SubstateLogical)) with 2
    by (rewrite Ha; unfold WDGM_SUBSTATE_CORRECT; lia).
  split; intros Hl.
  - unfold WdgM_internal_CalculateLocalState_FromOKOneError. rewrite Hl, Ha. cbn.
    unfold bind, ret. cbn. rewrite Ha, orb_true_r. cbn. by do 2 eexists.
  - intros Hc. unfold WdgM_internal_CalculateLocalState_FromFailedOneError. rewrite Hl, Ha. cbn.
    rewrite Z.gtb_ltb, (proj2 (Z.ltb_ge _ _)) by lia. done.
Qed.

Lemma wdgm_failed_hides_violations_witness :
  let r := {| LocalState := WDGM_LOCAL_STATUS_FAILED; SubstateAlive := 1; SubstateDeadline := 1;
              SubstateLogical := 0; IsInternalGraphActive := true;
              PreviousCheckpointId_internalLogic := 0; FailedAliveCyclesCounter := 1 |} in
  let rc := {| rt_alive := [Demo.fresh_alive]; rt_deadline := [0] |} in
  WdgM_internal_CalculateLocalState r (Demo.supervision 1) rc Demo.boot = Some (r, Demo.boot).
Proof.
  intros r rc. refine (proj2 (wdgm_failed_hides_violations r (Demo.supervision 1) rc Demo.boot
    (conj eq_refl eq_refl)) _ _); [reflexivity|]. cbn. lia.
Defined.
