(* ===== verification/ComStack.v ===== *)
(** * Types of the communication stack

    [include/ComStack_Types.h] and the return codes of [include/Std_Types.h], as far as the modules of the
    communication stack use them.  A [PduInfoType] is the block its [SduDataPtr] points at and the length;
    identifiers and lengths of PDUs are 16 bits wide. *)

From S2P Require Import Prelude.

Record PduInfoType := { SduDataPtr : list Z; SduLength : Z }.

(** The enumerators with and without [E_] are the same. *)
Inductive BufReq_ReturnType := BUFREQ_OK | BUFREQ_NOT_OK | BUFREQ_BUSY | BUFREQ_OVFL.
Abbreviation BUFREQ_E_NOT_OK := BUFREQ_NOT_OK.
Abbreviation BUFREQ_E_BUSY := BUFREQ_BUSY.
Abbreviation BUFREQ_E_OVFL := BUFREQ_OVFL.

#[export] Instance BufReq_ReturnType_eq : EqDecision BufReq_ReturnType.
Proof. solve_decision. Defined.

Definition NTFRSLT_OK := 0x00.
Definition NTFRSLT_E_NOT_OK := 0x01.
Definition NTFRSLT_E_TIMEOUT_A := 0x02.
Definition NTFRSLT_E_TIMEOUT_BS := 0x03.
Definition NTFRSLT_E_TIMEOUT_CR := 0x04.
Definition NTFRSLT_E_WRONG_SN := 0x05.
Definition NTFRSLT_E_INVALID_FS := 0x06.
Definition NTFRSLT_E_NO_BUFFER := 0x0A.
Definition E_OK := 0.
Definition E_NOT_OK := 1.

Inductive TpDataStateType := TP_DATACONF | TP_DATARETRY | TP_CONFPENDING | TP_NORETRY.
#[export] Instance TpDataStateType_eq : EqDecision TpDataStateType.
Proof. solve_decision. Defined.

Record RetryInfoType := { TpDataState : TpDataStateType; TxTpDataCnt : Z }.
