(* ===== verification/CanTp.v ===== *)
(** * CAN transport protocol

    [communication/CanTp/src/CanTp.c] with [inc/CanTp.h] and [inc/CanTp_Types.h]:
    ISO 15765-2 segmentation and reassembly of messages over CAN frames.  Every
    channel has a transmitting, a receiving and a functional connection, each with
    its runtime data; the handlers work on one connection, [CanTp_MainFunction]
    and the call-backs choose it.

    The upper layer (PduR) and the lower layer (CanIf) are the class [CanTp_Env]:
    a state and, for each call the module makes, its effect on that state and its
    answer.  They do not call back into the module during a call.  A pointer to
    frame data is the list of the bytes from it to the end of its buffer; an access
    past the end, a null pointer and a union read through the wrong member are
    faults. *)

From S2P Require Import Prelude.
From S2P Require Import StateMonad.
From S2P Require Import ComStack.

#[local] Open Scope monad_scope.

(** ** CanTp.h *)
Definition CANTP_E_PARAM_POINTER := 0x03.
Definition CANTP_E_PARAM_ADDRESS := 0x04.
Definition CANTP_E_UNINIT := 0x20.
Definition CANTP_E_INVALID_TX_ID := 0x30.
Definition CANTP_E_INVALID_RX_LENGTH := 0x80.
Definition CANTP_E_INVALID_TATYPE := 0x90.
Definition SERVICE_ID_CANTP_INIT := 0x01.
Definition SERVICE_ID_CANTP_SHUTDOWN := 0x02.
Definition SERVICE_ID_CANTP_TRANSMIT := 0x03.
Definition SERVICE_ID_CANTP_RX_INDICATION := 0x04.
Definition SERVICE_ID_CANTP_TX_CONFIRMATION := 0x05.
Definition SERVICE_ID_CANTP_MAIN_FUNCTION := 0x06.

(** ** CanTp_Types.h *)
Inductive CanTp_AddressingFormantType := CANTP_EXTENDED | CANTP_STANDARD.
Inductive CanTp_StateType := CANTP_OFF | CANTP_ON.
Inductive CanTp_TransferInstanceMode :=
  CANTP_RX_WAIT | CANTP_RX_PROCESSING | CANTP_TX_WAIT | CANTP_TX_PROCESSING.
Inductive CanTp_TaTypeType := CANTP_FUNCTIONAL | CANTP_PHYSICAL.
Inductive CanTp_DirectionType := IS015765_TRANSMIT | ISO15765_RECEIVE.

#[export] Instance CanTp_AddressingFormantType_eq : EqDecision CanTp_AddressingFormantType.
Proof. solve_decision. Defined.
#[export] Instance CanTp_StateType_eq : EqDecision CanTp_StateType.
Proof. solve_decision. Defined.
#[export] Instance CanTp_TransferInstanceMode_eq : EqDecision CanTp_TransferInstanceMode.
Proof. solve_decision. Defined.
#[export] Instance CanTp_TaTypeType_eq : EqDecision CanTp_TaTypeType.
Proof. solve_decision. Defined.
#[export] Instance CanTp_DirectionType_eq : EqDecision CanTp_DirectionType.
Proof. solve_decision. Defined.

(** The address structures hold one [uint32] each; [NULL] is [None].  Fields that
    CanTp.c does not read are left out. *)
Record CanTp_RxNSduType := {
  CanIf_FcPduId : Z;
  Rx_PduR_PduId : Z;
  CanTpAddressingFormant : CanTp_AddressingFormantType;
  CanTpBs : Z;
  CanTpNar : Z;
  CanTpNbr : Z;
  CanTpNcr : Z;
  CanTpRxChannel : nat;
  CanTpRxPaddingActivation : CanTp_StateType;
  CanTpRxTaType : CanTp_TaTypeType;
  CanTpWftMax : Z;
  CanTpSTmin : Z;
  Rx_CanTpNSa : option Z;
  Rx_CanTpNTa : option Z
}.

Record CanTp_TxNSduType := {
  CanIf_PduId : Z;
  Tx_PduR_PduId : Z;
  CanTpNPduLen : Z;
  CanTpAddressingMode : CanTp_AddressingFormantType;
  CanTpNas : Z;
  CanTpNbs : Z;
  CanTpNcs : Z;
  CanTpTxChannel : nat;
  CanTpTxPaddingActivation : CanTp_StateType;
  CanTpTxTaType : CanTp_TaTypeType;
  Tx_CanTpNSa : option Z;
  Tx_CanTpNTa : option Z
}.

Record CanTp_GeneralType := {
  main_function_period : Z;
  number_of_sdus : Z;
  number_of_pdus : Z;
  pdu_list_size : Z;
  padding : Z
}.

(** The union [configData]. *)
Inductive CanTp_ConfigData := CanTpRxNSdu (c : CanTp_RxNSduType) | CanTpTxNSdu (c : CanTp_TxNSduType).

Record CanTp_NSduType := {
  direction : CanTp_DirectionType;
  configData : CanTp_ConfigData;
  CanTpFDSupport : bool
}.

Record CanTp_RxIdType := {
  Id_CanTpAddressingMode : CanTp_AddressingFormantType;
  CanTpNSduIndex : Z;
  CanTpReferringTxIndex : Z;
  CanTpPduId : Z
}.

Record CanTp_ConfigType := {
  CanTpGeneral : CanTp_GeneralType;
  CanTpNSduList : list CanTp_NSduType;
  CanTpRxIdList : list CanTp_RxIdType
}.

(** ** Constants of CanTp.c *)
Definition ISO15765_FLOW_CONTROL_STATUS_CTS := 0.
Definition ISO15765_FLOW_CONTROL_STATUS_WAIT := 1.
Definition ISO15765_FLOW_CONTROL_STATUS_OVFLW := 2.
Definition ISO15765_TPCI_MASK := 0x30.
Definition ISO15765_TPCI_SF := 0x00.
Definition ISO15765_TPCI_FF := 0x10.
Definition ISO15765_TPCI_CF := 0x20.
Definition ISO15765_TPCI_FC := 0x30.
Definition ISO15765_TPCI_DL := 0xF.
Definition ISO15765_TPCI_DL_FD := 0xFF.
Definition ISO15765_TPCI_FS_MASK := 0x0F.
Definition CANFD_FIRST_BYTE_ZERO := 0.
Definition MAX_PAYLOAD_SF_STD_ADDR := 7.
Definition MAX_PAYLOAD_SF_EXT_ADDR := 6.
Definition MAX_PAYLOAD_FF_STD_ADDR := 6.
Definition MAX_PAYLOAD_FF_EXT_ADDR := 5.
Definition MX_PAYLOAD_FF_STD_ADDR_FD_SUPPORT := 62.
Definition MX_PAYLOAD_FF_EXT_ADDR_FD_SUPPORT := 61.
Definition MAX_PAYLOAD_CF_STD_ADDR := 7.
Definition MAX_PAYLOAD_CF_EXT_ADDR := 6.
Definition SEGMENT_NUMBER_MASK := 0x0f.
Definition MAX_SEGMENT_DATA_SIZE := 8.
Definition MAX_FD_SEGMENT_DATA_SIZE := 64.
Definition INVALID_PDU_ID := 0xFFFF.
Definition MAX_SF_DL_EXTENDADDR := 6.
Definition MAX_SF_DL_STDADDR := 7.
Definition MAX_SF_DL_STDADDR_FD_SUPPORT := 62.
Definition MAX_SF_DL_EXTENDADDR_FD_SUPPORT := 61.

(** ** Runtime data *)
Inductive ISO15765TransferStateTypes :=
| UNINITIALIZED | IDLE | SF_OR_FF_RECEIVED_WAITING_PDUR_BUFFER
| RX_WAIT_CONSECUTIVE_FRAME | RX_WAIT_SF_SDU_BUFFER | RX_WAIT_CF_SDU_BUFFER
| TX_WAIT_STMIN
| TX_WAIT_TRANSMIT | TX_WAIT_FLOW_CONTROL
| TX_WAIT_TX_CONFIRMATION.

#[export] Instance ISO15765TransferStateTypes_eq : EqDecision ISO15765TransferStateTypes.
Proof. solve_decision. Defined.

Inductive ISO15765FrameType :=
| INVALID_FRAME | SINGLE_FRAME | FIRST_FRAME | CONSECUTIVE_FRAME | FLOW_CONTROL_FRAME.

#[export] Instance ISO15765FrameType_eq : EqDecision ISO15765FrameType.
Proof. solve_decision. Defined.

Record CanIfSduType := { data : list Z; byteCount : Z }.

Record ISO15765TransferControlType := {
  nextFlowControlCount : Z;
  framesHandledCount : Z;
  stateTimeoutCount : Z;
  extendedAddress : Z;
  STmin : Z;
  BS : Z;
  NasNarPending : bool;
  NasNarTimeoutCount : Z;
  state : ISO15765TransferStateTypes
}.

Record CanTp_SimplexChannelPrivateType := {
  iso15765 : ISO15765TransferControlType;
  transferTotal : Z;
  transferCount : Z;
  sizeBuffer : Z;
  canFrameBuffer : CanIfSduType;
  mode : CanTp_TransferInstanceMode;
  CanTpWftMaxCounter : Z;
  pduId : Z;
  CanfdSupport : bool
}.

(** [SimplexChnlList[CANTP_TX_CHANNEL]], [SimplexChnlList[CANTP_RX_CHANNEL]] and
    [functionalChnl]. *)
Record CanTp_ChannelPrivateType := {
  txChnl : CanTp_SimplexChannelPrivateType;
  rxChnl : CanTp_SimplexChannelPrivateType;
  functionalChnl : CanTp_SimplexChannelPrivateType
}.

Record CanTp_RunTimeDataType := {
  initRun : bool;
  internalState : CanTp_StateType;
  runtimeDataList : list CanTp_ChannelPrivateType
}.

(** *** Assignments to the fields of the runtime data *)
Definition iso_nextFlowControlCount v (r : ISO15765TransferControlType) :=
  Build_ISO15765TransferControlType v r.(framesHandledCount) r.(stateTimeoutCount)
  r.(extendedAddress) r.(STmin) r.(BS) r.(NasNarPending) r.(NasNarTimeoutCount) r.(state).
Definition iso_framesHandledCount v (r : ISO15765TransferControlType) :=
  Build_ISO15765TransferControlType r.(nextFlowControlCount) v r.(stateTimeoutCount)
  r.(extendedAddress) r.(STmin) r.(BS) r.(NasNarPending) r.(NasNarTimeoutCount) r.(state).
Definition iso_stateTimeoutCount v (r : ISO15765TransferControlType) :=
  Build_ISO15765TransferControlType r.(nextFlowControlCount) r.(framesHandledCount) v
  r.(extendedAddress) r.(STmin) r.(BS) r.(NasNarPending) r.(NasNarTimeoutCount) r.(state).
Definition iso_extendedAddress v (r : ISO15765TransferControlType) :=
  Build_ISO15765TransferControlType r.(nextFlowControlCount) r.(framesHandledCount)
  r.(stateTimeoutCount) v r.(STmin) r.(BS) r.(NasNarPending) r.(NasNarTimeoutCount) r.(state).
Definition iso_STmin v (r : ISO15765TransferControlType) := Build_ISO15765TransferControlType
  r.(nextFlowControlCount) r.(framesHandledCount) r.(stateTimeoutCount) r.(extendedAddress) v
  r.(BS) r.(NasNarPending) r.(NasNarTimeoutCount) r.(state).
Definition iso_BS v (r : ISO15765TransferControlType) := Build_ISO15765TransferControlType
  r.(nextFlowControlCount) r.(framesHandledCount) r.(stateTimeoutCount) r.(extendedAddress)
  r.(STmin) v r.(NasNarPending) r.(NasNarTimeoutCount) r.(state).
Definition iso_NasNarPending v (r : ISO15765TransferControlType) :=
  Build_ISO15765TransferControlType r.(nextFlowControlCount) r.(framesHandledCount)
  r.(stateTimeoutCount) r.(extendedAddress) r.(STmin) r.(BS) v r.(NasNarTimeoutCount) r.(state).
Definition iso_NasNarTimeoutCount v (r : ISO15765TransferControlType) :=
  Build_ISO15765TransferControlType r.(nextFlowControlCount) r.(framesHandledCount)
  r.(stateTimeoutCount) r.(extendedAddress) r.(STmin) r.(BS) r.(NasNarPending) v r.(state).
Definition iso_state v (r : ISO15765TransferControlType) := Build_ISO15765TransferControlType
  r.(nextFlowControlCount) r.(framesHandledCount) r.(stateTimeoutCount) r.(extendedAddress)
  r.(STmin) r.(BS) r.(NasNarPending) r.(NasNarTimeoutCount) v.
Definition set_iso15765 v (r : CanTp_SimplexChannelPrivateType) :=
  Build_CanTp_SimplexChannelPrivateType v r.(transferTotal) r.(transferCount) r.(sizeBuffer)
  r.(canFrameBuffer) r.(mode) r.(CanTpWftMaxCounter) r.(pduId) r.(CanfdSupport).
Definition set_transferTotal v (r : CanTp_SimplexChannelPrivateType) :=
  Build_CanTp_SimplexChannelPrivateType r.(iso15765) v r.(transferCount) r.(sizeBuffer)
  r.(canFrameBuffer) r.(mode) r.(CanTpWftMaxCounter) r.(pduId) r.(CanfdSupport).
Definition set_transferCount v (r : CanTp_SimplexChannelPrivateType) :=
  Build_CanTp_SimplexChannelPrivateType r.(iso15765) r.(transferTotal) v r.(sizeBuffer)
  r.(canFrameBuffer) r.(mode) r.(CanTpWftMaxCounter) r.(pduId) r.(CanfdSupport).
Definition set_sizeBuffer v (r : CanTp_SimplexChannelPrivateType) :=
  Build_CanTp_SimplexChannelPrivateType r.(iso15765) r.(transferTotal) r.(transferCount) v
  r.(canFrameBuffer) r.(mode) r.(CanTpWftMaxCounter) r.(pduId) r.(CanfdSupport).
Definition set_canFrameBuffer v (r : CanTp_SimplexChannelPrivateType) :=
  Build_CanTp_SimplexChannelPrivateType r.(iso15765) r.(transferTotal) r.(transferCount)
  r.(sizeBuffer) v r.(mode) r.(CanTpWftMaxCounter) r.(pduId) r.(CanfdSupport).
Definition set_mode v (r : CanTp_SimplexChannelPrivateType) :=
  Build_CanTp_SimplexChannelPrivateType r.(iso15765) r.(transferTotal) r.(transferCount)
  r.(sizeBuffer) r.(canFrameBuffer) v r.(CanTpWftMaxCounter) r.(pduId) r.(CanfdSupport).
Definition set_CanTpWftMaxCounter v (r : CanTp_SimplexChannelPrivateType) :=
  Build_CanTp_SimplexChannelPrivateType r.(iso15765) r.(transferTotal) r.(transferCount)
  r.(sizeBuffer) r.(canFrameBuffer) r.(mode) v r.(pduId) r.(CanfdSupport).
Definition set_pduId v (r : CanTp_SimplexChannelPrivateType) :=
  Build_CanTp_SimplexChannelPrivateType r.(iso15765) r.(transferTotal) r.(transferCount)
  r.(sizeBuffer) r.(canFrameBuffer) r.(mode) r.(CanTpWftMaxCounter) v r.(CanfdSupport).
Definition set_CanfdSupport v (r : CanTp_SimplexChannelPrivateType) :=
  Build_CanTp_SimplexChannelPrivateType r.(iso15765) r.(transferTotal) r.(transferCount)
  r.(sizeBuffer) r.(canFrameBuffer) r.(mode) r.(CanTpWftMaxCounter) r.(pduId) v.

Definition set_state v r := set_iso15765 (iso_state v r.(iso15765)) r.
Definition set_stateTimeoutCount v r := set_iso15765 (iso_stateTimeoutCount v r.(iso15765)) r.
Definition set_framesHandledCount v r := set_iso15765 (iso_framesHandledCount v r.(iso15765)) r.
Definition set_nextFlowControlCount v r :=
  set_iso15765 (iso_nextFlowControlCount v r.(iso15765)) r.
Definition set_extendedAddress v r := set_iso15765 (iso_extendedAddress v r.(iso15765)) r.
Definition set_STmin v r := set_iso15765 (iso_STmin v r.(iso15765)) r.
Definition set_BS v r := set_iso15765 (iso_BS v r.(iso15765)) r.
Definition set_NasNarPending v r := set_iso15765 (iso_NasNarPending v r.(iso15765)) r.
Definition set_NasNarTimeoutCount v r := set_iso15765 (iso_NasNarTimeoutCount v r.(iso15765)) r.
Definition set_data v r :=
  set_canFrameBuffer {| data := v; byteCount := r.(canFrameBuffer).(byteCount) |} r.
Definition set_byteCount v r :=
  set_canFrameBuffer {| data := r.(canFrameBuffer).(data); byteCount := v |} r.

(** ** The modules above and below

    The answer of [PduR_CanTpCopyTxData]: its return code, the bytes it stored at
    [info->SduDataPtr], [info->SduLength] afterwards and [*availableDataPtr]. *)
Record CopyTxData_Result := {
  ctd_ret : BufReq_ReturnType; ctd_data : list Z; ctd_SduLength : Z; ctd_available : Z
}.

(** [info] is its bytes, [info->SduLength] of them; an out-pointer's old value is
    an argument and its new value part of the answer. *)
Class CanTp_Env (W : Type) := {
  PduR_CanTpStartOfReception : Z -> Z -> Z -> W -> BufReq_ReturnType * Z * W;
  PduR_CanTpCopyRxData : Z -> list Z -> Z -> W -> BufReq_ReturnType * Z * W;
  PduR_CanTpCopyTxData : Z -> Z -> Z -> W -> CopyTxData_Result * W;
  PduR_CanTpRxIndication : Z -> Z -> W -> W;
  PduR_CanTpTxConfirmation : Z -> Z -> W -> W;
  CanIf_Transmit : Z -> list Z -> W -> Z * W;
  Det_ReportError : Z -> Z -> W -> W;
  (** A byte of an automatic array before it is assigned. *)
  indeterminate : W -> nat -> Z
}.

(** A connection and the environment, what a handler works on. *)
Record ChanState (W : Type) := { chan : CanTp_SimplexChannelPrivateType; env : W }.
Arguments chan {W} _.
Arguments env {W} _.
Arguments Build_ChanState {W} _ _.

Record CanTp_State (W : Type) := {
  CanTpRunTimeData : CanTp_RunTimeDataType;
  CanTp_ConfigPtr : option CanTp_ConfigType;
  world : W
}.
Arguments CanTpRunTimeData {W} _.
Arguments CanTp_ConfigPtr {W} _.
Arguments world {W} _.
Arguments Build_CanTp_State {W} _ _ _.

Section CanTp.
Context {W : Type} `{!CanTp_Env W}.

(** [CANTP_DEV_ERROR_DETECT] *)
Variable DEV_ERROR_DETECT : bool.

Abbreviation H := (M (ChanState W)).
Abbreviation T := (M (CanTp_State W)).

Definition rt {A} (f : CanTp_SimplexChannelPrivateType -> A) : H A :=
  get (fun s => f s.(chan)).
Definition set (f : CanTp_SimplexChannelPrivateType -> CanTp_SimplexChannelPrivateType) : H unit :=
  modify (fun s => Build_ChanState (f s.(chan)) s.(env)).
Definition call {A} (f : W -> A * W) : H A :=
  fun s => let '(a, w) := f s.(env) in Some (a, Build_ChanState s.(chan) w).
Definition notify (f : W -> W) : H unit := call (fun w => (tt, f w)).

Definition DET_REPORTERROR (api err : Z) : H unit :=
  if DEV_ERROR_DETECT then notify (Det_ReportError api err) else ret tt.

(** [TIMER_DECREMENT], [COUNT_DECREMENT] *)
Definition TIMER_DECREMENT (timer : Z) : Z := if timer >? 0 then timer - 1 else timer.
Definition COUNT_DECREMENT (timer : Z) : Z := if timer >? 0 then timer - 1 else timer.

(** [for (i = first; i < first + n; i++) p[i] = v;] *)
Fixpoint fill (n : nat) (i v : Z) (p : list Z) : option (list Z) :=
  match n with
  | O => Some p
  | S n => p ← store p i v; fill n (i + 1) v p
  end.

(** ** Frames *)
Definition ConvertMsToMainCycles (cfg : CanTp_ConfigType) (ms : Z) : option Z :=
  let p := cfg.(CanTpGeneral).(main_function_period) in
  if p =? 0 then None else Some (ms / p).

Definition getFrameType (formatType : CanTp_AddressingFormantType) (p : PduInfoType)
    : option ISO15765FrameType :=
  tpci ← match formatType with
         | CANTP_STANDARD => load p.(SduDataPtr) 0
         | CANTP_EXTENDED => load p.(SduDataPtr) 1
         end;
  let t := Z.land tpci ISO15765_TPCI_MASK in
  Some (if t =? ISO15765_TPCI_SF then SINGLE_FRAME
        else if t =? ISO15765_TPCI_FF then FIRST_FRAME
        else if t =? ISO15765_TPCI_CF then CONSECUTIVE_FRAME
        else if t =? ISO15765_TPCI_FC then FLOW_CONTROL_FRAME
        else INVALID_FRAME).

Definition getPduLength (formatType : CanTp_AddressingFormantType)
    (iso15765Frame : ISO15765FrameType) (p : PduInfoType) : option Z :=
  let tpci_offset := match formatType with CANTP_STANDARD => 0 | CANTP_EXTENDED => 1 end in
  match iso15765Frame with
  | SINGLE_FRAME =>
      if p.(SduLength) >? MAX_SEGMENT_DATA_SIZE then
        b ← load p.(SduDataPtr) (tpci_offset + 1); Some (Z.land b ISO15765_TPCI_DL_FD)
      else
        b ← load p.(SduDataPtr) tpci_offset; Some (Z.land b ISO15765_TPCI_DL)
  | FIRST_FRAME =>
      lo ← load p.(SduDataPtr) (tpci_offset + 1);
      hi ← load p.(SduDataPtr) tpci_offset;
      Some (u16 (lo + Z.shiftl (Z.land hi 0xf) 8))
  | _ => Some 0
  end.

(** ** Runtime data *)
Definition initRx15765RuntimeData : H unit :=
  let* _ := set (set_state IDLE) in
  let* _ := set (set_NasNarPending false) in
  let* _ := set (set_framesHandledCount 0) in
  let* _ := set (set_nextFlowControlCount 0) in
  let* _ := set (set_transferTotal 0) in
  let* _ := set (set_transferCount 0) in
  let* _ := set (set_sizeBuffer 0) in
  let* _ := set (set_CanTpWftMaxCounter 0) in
  let* _ := set (set_mode CANTP_RX_WAIT) in
  set (set_pduId INVALID_PDU_ID).

Definition initTx15765RuntimeData : H unit :=
  let* _ := set (set_state IDLE) in
  let* _ := set (set_NasNarPending false) in
  let* _ := set (set_framesHandledCount 0) in
  let* _ := set (set_nextFlowControlCount 0) in
  let* _ := set (set_transferTotal 0) in
  let* _ := set (set_transferCount 0) in
  let* _ := set (set_sizeBuffer 0) in
  let* _ := set (set_mode CANTP_TX_WAIT) in
  set (set_pduId INVALID_PDU_ID).

(** The three assignments that end a session, which the code repeats. *)
Definition end_rx_session : H unit :=
  let* _ := set (set_state IDLE) in
  let* _ := set (set_pduId INVALID_PDU_ID) in
  set (set_mode CANTP_RX_WAIT).
Definition end_tx_session : H unit :=
  let* _ := set (set_state IDLE) in
  let* _ := set (set_pduId INVALID_PDU_ID) in
  set (set_mode CANTP_TX_WAIT).

(** A call that reports the size of the receive buffer in [rxRuntime->sizeBuffer]. *)
Definition call_sizeBuffer (f : Z -> W -> BufReq_ReturnType * Z * W) : H BufReq_ReturnType :=
  let* size := rt sizeBuffer in
  let* (r, size) := call (f size) in
  let* _ := set (set_sizeBuffer size) in
  ret r.

(** ** Reception *)

(** The segment is the [segmentSize] bytes at [segment]; the answer is the return
    code and [*bytesWrittenSuccessfully]. *)
Definition copySegmentToPduRRxBuffer (rxConfig : CanTp_RxNSduType) (segment : list Z)
    (segmentSize : Z) : H (BufReq_ReturnType * Z) :=
  let* st := rt (fun c => c.(iso15765).(state)) in
  let* r :=
    if decide (st <> RX_WAIT_CONSECUTIVE_FRAME) then
      let* total := rt transferTotal in
      call_sizeBuffer (PduR_CanTpStartOfReception rxConfig.(Rx_PduR_PduId) total)
    else
      call_sizeBuffer (PduR_CanTpCopyRxData rxConfig.(Rx_PduR_PduId) []) in
  if decide (r = BUFREQ_OK) then
    let* size := rt sizeBuffer in
    if segmentSize <=? size then
      let* bs := deref (read_bytes segment 0 segmentSize) in
      let* r := call_sizeBuffer (PduR_CanTpCopyRxData rxConfig.(Rx_PduR_PduId) bs) in
      if decide (r = BUFREQ_OK) then
        let* n := rt transferCount in
        let* _ := set (set_transferCount (u16 (n + segmentSize))) in
        ret (r, segmentSize)
      else ret (r, 0)
    else ret (BUFREQ_E_BUSY, 0)
  else ret (r, 0).

(** The loop of [copySegmentToLocalRxBuffer], [n] rounds from [i] on. *)
Fixpoint copy_local_loop (segment : list Z) (segmentSize : Z) (n : nat) (i : Z) : H unit :=
  match n with
  | O => ret tt
  | S n =>
      let* b := deref (load segment i) in
      let* d := rt (fun c => c.(canFrameBuffer).(data)) in
      let* d := deref (store d i b) in
      let* _ := set (set_data d) in
      let* _ := set (set_byteCount segmentSize) in
      copy_local_loop segment segmentSize n (i + 1)
  end.

Definition copySegmentToLocalRxBuffer (segment : list Z) (segmentSize : Z) : H bool :=
  let* fd := rt CanfdSupport in
  let maxSegSize := if fd : bool then MAX_FD_SEGMENT_DATA_SIZE else MAX_SEGMENT_DATA_SIZE in
  if segmentSize <? maxSegSize then
    let* _ := copy_local_loop segment segmentSize (Z.to_nat segmentSize) 0 in
    ret (0 <? segmentSize)
  else ret false.

(** [sduData] is the array of the caller, [len] the bytes of it in use. *)
Definition canReceivePaddingHelper (cfg : CanTp_ConfigType) (rxConfig : CanTp_RxNSduType)
    (sduData : list Z) (len : Z) : H Z :=
  let* sduData :=
    if decide (rxConfig.(CanTpRxPaddingActivation) = CANTP_ON) then
      deref (fill (Z.to_nat (MAX_SEGMENT_DATA_SIZE - u8 len)) (u8 len)
               cfg.(CanTpGeneral).(padding) sduData)
    else ret sduData in
  let* _ := set (set_NasNarTimeoutCount rxConfig.(CanTpNar)) in
  let* _ := set (set_NasNarPending true) in
  let* frame := deref (read_bytes sduData 0 MAX_SEGMENT_DATA_SIZE) in
  call (CanIf_Transmit rxConfig.(CanIf_FcPduId) frame).

(** [sduData[indexCount++] = b;] *)
Definition push_byte (d : list Z * Z) (b : Z) : option (list Z * Z) :=
  d' ← store d.1 d.2 b; Some (d', d.2 + 1).

(** With [BUFREQ_E_NOT_OK], which no caller passes, [pduInfo.SduLength] is
    indeterminate: a fault. *)
Definition sendFlowControlFrame (cfg : CanTp_ConfigType) (rxConfig : CanTp_RxNSduType)
    (flowStatus : BufReq_ReturnType) : H unit :=
  let* junk := get (fun s => indeterminate s.(env)) in
  let d := (map junk (seq 0 8), 0) in
  let extended := bool_decide (rxConfig.(CanTpAddressingFormant) = CANTP_EXTENDED) in
  let* ea := rt (fun c => c.(iso15765).(extendedAddress)) in
  let* d := if extended then deref (push_byte d ea) else ret d in
  let* (sduData, len) :=
    match flowStatus with
    | BUFREQ_OK =>
        let* d := deref (push_byte d (Z.lor ISO15765_TPCI_FC ISO15765_FLOW_CONTROL_STATUS_CTS)) in
        let* fd := rt CanfdSupport in
        let* size := rt sizeBuffer in
        let computedBs := u16 (
          (if extended then
             if fd : bool then size / MX_PAYLOAD_FF_EXT_ADDR_FD_SUPPORT
             else size / MAX_PAYLOAD_SF_EXT_ADDR
           else
             if fd : bool then size / MX_PAYLOAD_FF_STD_ADDR_FD_SUPPORT
             else size / MAX_PAYLOAD_SF_STD_ADDR) + 1) in
        let computedBs :=
          if computedBs >? rxConfig.(CanTpBs) then rxConfig.(CanTpBs) else computedBs in
        let* _ := set (set_BS rxConfig.(CanTpBs)) in
        let* bs := rt (fun c => c.(iso15765).(BS)) in
        let* d := deref (push_byte d bs) in
        let* d := deref (push_byte d (u8 rxConfig.(CanTpSTmin))) in
        let* _ := set (set_nextFlowControlCount computedBs) in
        let* _ := set (set_CanTpWftMaxCounter 0) in
        ret d
    | BUFREQ_E_NOT_OK => deref None
    | BUFREQ_E_BUSY =>
        let* d := deref (push_byte d (Z.lor ISO15765_TPCI_FC ISO15765_FLOW_CONTROL_STATUS_WAIT)) in
        let* n := rt CanTpWftMaxCounter in
        let* _ := set (set_CanTpWftMaxCounter (u16 (n + 1))) in
        ret (d.1, d.2 + 2)
    | BUFREQ_E_OVFL =>
        let* d := deref (push_byte d (Z.lor ISO15765_TPCI_FC ISO15765_FLOW_CONTROL_STATUS_OVFLW)) in
        ret (d.1, d.2 + 2)
    end in
  let* r := canReceivePaddingHelper cfg rxConfig sduData len in
  if negb (r =? E_OK) then
    let* _ := notify (PduR_CanTpRxIndication rxConfig.(Rx_PduR_PduId) NTFRSLT_E_NOT_OK) in
    end_rx_session
  else ret tt.

Definition handleConsecutiveFrame (cfg : CanTp_ConfigType) (rxConfig : CanTp_RxNSduType)
    (rxPduData : PduInfoType) : H unit :=
  let p := rxPduData.(SduDataPtr) in
  let extended := bool_decide (rxConfig.(CanTpAddressingFormant) = CANTP_EXTENDED) in
  let* (indexCount, foreign) :=
    if extended then
      let* ea := deref (load p 0) in
      let* nta := deref rxConfig.(Rx_CanTpNTa) in
      ret (1, negb (ea =? nta))
    else ret (0, false) in
  if foreign : bool then ret tt else
  let* st := rt (fun c => c.(iso15765).(state)) in
  if decide (st = RX_WAIT_CONSECUTIVE_FRAME) then
    let* b := deref (load p indexCount) in
    let segmentNumber := Z.land b SEGMENT_NUMBER_MASK in
    let indexCount := indexCount + 1 in
    let* handled := rt (fun c => c.(iso15765).(framesHandledCount)) in
    if negb (segmentNumber =? Z.land handled SEGMENT_NUMBER_MASK) then
      let* _ := notify (PduR_CanTpRxIndication rxConfig.(Rx_PduR_PduId) NTFRSLT_E_WRONG_SN) in
      end_rx_session
    else
      let currentSegmentMaxSize := u16 (rxPduData.(SduLength) - indexCount) in
      let* total := rt transferTotal in
      let* count := rt transferCount in
      let bytesLeftToCopy := u16 (total - count) in
      let currentSegmentSize :=
        if bytesLeftToCopy <? currentSegmentMaxSize then bytesLeftToCopy
        else currentSegmentMaxSize in
      let* (r, bytesCopied) :=
        copySegmentToPduRRxBuffer rxConfig (ptr_at p indexCount) currentSegmentSize in
      match r with
      | BUFREQ_E_NOT_OK =>
          let* _ := notify (PduR_CanTpRxIndication rxConfig.(Rx_PduR_PduId) NTFRSLT_E_NOT_OK) in
          end_rx_session
      | BUFREQ_E_BUSY =>
          let status := if extended then bytesLeftToCopy >? 6 else bytesLeftToCopy >? 7 in
          let* nfc := rt (fun c => c.(iso15765).(nextFlowControlCount)) in
          if (nfc =? 1) && status then
            let bytesNotCopied := u16 (currentSegmentSize - bytesCopied) in
            let* ok := copySegmentToLocalRxBuffer
                         (ptr_at p ((if extended then 2 else 1) + bytesCopied)) bytesNotCopied in
            if ok : bool then
              let* _ := set (set_framesHandledCount (u16 (handled + 1))) in
              let* _ := set (set_stateTimeoutCount (rxConfig.(CanTpNbr) + 1)) in
              let* _ := set (set_state RX_WAIT_CF_SDU_BUFFER) in
              let* _ := set (set_mode CANTP_RX_PROCESSING) in
              sendFlowControlFrame cfg rxConfig r
            else end_rx_session
          else
            let* _ := notify (PduR_CanTpRxIndication rxConfig.(Rx_PduR_PduId) NTFRSLT_E_NOT_OK) in
            end_rx_session
      | BUFREQ_OK =>
          let* total := rt transferTotal in
          let* count := rt transferCount in
          let bytesLeftToTransfer := u16 (total - count) in
          if bytesLeftToTransfer >? 0 then
            let* _ := set (set_framesHandledCount (u16 (handled + 1))) in
            let* nfc := rt (fun c => c.(iso15765).(nextFlowControlCount)) in
            let* _ := set (set_nextFlowControlCount (COUNT_DECREMENT nfc)) in
            let* bs := rt (fun c => c.(iso15765).(BS)) in
            if (COUNT_DECREMENT nfc =? 0) && (bs >? 0) then
              sendFlowControlFrame cfg rxConfig BUFREQ_OK
            else
              set (set_stateTimeoutCount (rxConfig.(CanTpNcr) + 1))
          else
            let* _ := end_rx_session in
            notify (PduR_CanTpRxIndication rxConfig.(Rx_PduR_PduId) NTFRSLT_OK)
      | BUFREQ_E_OVFL => ret tt
      end
  else ret tt.

(** ** Transmission *)

Definition canTansmitPaddingHelper (cfg : CanTp_ConfigType) (txConfig : CanTp_TxNSduType)
    (len : Z) : H Z :=
  let* len :=
    if decide (txConfig.(CanTpTxPaddingActivation) = CANTP_ON) then
      let* d := rt (fun c => c.(canFrameBuffer).(data)) in
      let* d := deref (fill (Z.to_nat (txConfig.(CanTpNPduLen) - len)) len
                         cfg.(CanTpGeneral).(padding) d) in
      let* _ := set (set_data d) in
      ret txConfig.(CanTpNPduLen)
    else ret len in
  let* _ := set (set_NasNarTimeoutCount txConfig.(CanTpNas)) in
  let* _ := set (set_NasNarPending true) in
  let* d := rt (fun c => c.(canFrameBuffer).(data)) in
  let* frame := deref (read_bytes d 0 len) in
  call (CanIf_Transmit txConfig.(CanIf_PduId) frame).

Definition sendNextTxFrame (cfg : CanTp_ConfigType) (txConfig : CanTp_TxNSduType)
    : H BufReq_ReturnType :=
  let* bc := rt (fun c => c.(canFrameBuffer).(byteCount)) in
  let offset := u8 bc in
  let* fd := rt CanfdSupport in
  let maxDataSize := if fd : bool then u8 txConfig.(CanTpNPduLen) else MAX_SEGMENT_DATA_SIZE in
  let* total := rt transferTotal in
  let* count := rt transferCount in
  let len := u16 (if total - count >? maxDataSize - offset then maxDataSize - offset
                  else total - count) in
  let* size := rt sizeBuffer in
  let* res := call (PduR_CanTpCopyTxData txConfig.(Tx_PduR_PduId) len size) in
  let* d := rt (fun c => c.(canFrameBuffer).(data)) in
  let* d := deref (write_bytes d offset res.(ctd_data)) in
  let* _ := set (set_data d) in
  let* _ := set (set_sizeBuffer res.(ctd_available)) in
  if decide (res.(ctd_ret) = BUFREQ_OK) then
    let* bc := rt (fun c => c.(canFrameBuffer).(byteCount)) in
    let* _ := set (set_byteCount (u16 (bc + res.(ctd_SduLength)))) in
    let* _ := set (set_transferCount (u16 (count + res.(ctd_SduLength)))) in
    let* _ := set (set_stateTimeoutCount (txConfig.(CanTpNas) + 1)) in
    let* _ := set (set_state TX_WAIT_TX_CONFIRMATION) in
    let* resp := canTansmitPaddingHelper cfg txConfig (u16 (res.(ctd_SduLength) + offset)) in
    ret (if resp =? E_OK then BUFREQ_OK else BUFREQ_E_NOT_OK)
  else ret res.(ctd_ret).

Definition handleNextTxFrameSent (cfg : CanTp_ConfigType) (txConfig : CanTp_TxNSduType)
    : H unit :=
  let* handled := rt (fun c => c.(iso15765).(framesHandledCount)) in
  let handled := u16 (handled + 1) in
  let* _ := set (set_framesHandledCount handled) in
  let* _ := set (set_byteCount 1) in
  let* _ :=
    if decide (txConfig.(CanTpAddressingMode) = CANTP_EXTENDED) then set (set_byteCount 2)
    else ret tt in
  let* bc := rt (fun c => c.(canFrameBuffer).(byteCount)) in
  let* d := rt (fun c => c.(canFrameBuffer).(data)) in
  let* d := deref (store d (bc - 1) (Z.land handled SEGMENT_NUMBER_MASK + ISO15765_TPCI_CF)) in
  let* _ := set (set_data d) in
  let* nfc := rt (fun c => c.(iso15765).(nextFlowControlCount)) in
  let nfc := COUNT_DECREMENT nfc in
  let* _ := set (set_nextFlowControlCount nfc) in
  let* total := rt transferTotal in
  let* count := rt transferCount in
  let* bs := rt (fun c => c.(iso15765).(BS)) in
  let* stmin := rt (fun c => c.(iso15765).(STmin)) in
  if total <=? count then
    let* _ := notify (PduR_CanTpTxConfirmation txConfig.(Tx_PduR_PduId) NTFRSLT_OK) in
    end_tx_session
  else if (nfc =? 0) && negb (bs =? 0) then
    let* _ := set (set_stateTimeoutCount (txConfig.(CanTpNbs) + 1)) in
    set (set_state TX_WAIT_FLOW_CONTROL)
  else if stmin =? 0 then
    let* resp := sendNextTxFrame cfg txConfig in
    match resp with
    | BUFREQ_OK => ret tt
    | BUFREQ_E_BUSY =>
        let* _ := set (set_stateTimeoutCount (txConfig.(CanTpNcs) + 1)) in
        set (set_state TX_WAIT_TRANSMIT)
    | _ =>
        let* _ := notify (PduR_CanTpTxConfirmation txConfig.(Tx_PduR_PduId) NTFRSLT_E_NOT_OK) in
        end_tx_session
    end
  else
    let* t :=
      if stmin <? 0x80 then
        let* c := deref (ConvertMsToMainCycles cfg stmin) in ret (u32 (c + 1))
      else if (stmin >? 0xF0) && (stmin <? 0xFA) then ret 1
      else let* c := deref (ConvertMsToMainCycles cfg 0x7F) in ret (u32 (c + 1)) in
    let* _ := set (set_stateTimeoutCount t) in
    set (set_state TX_WAIT_STMIN).

Definition handleFlowControlFrame (txConfig : CanTp_TxNSduType) (txPduData : PduInfoType)
    : H unit :=
  let p := txPduData.(SduDataPtr) in
  let* (indexCount, foreign) :=
    if decide (txConfig.(CanTpAddressingMode) = CANTP_EXTENDED) then
      let* ea := deref (load p 0) in
      let* nsa := deref txConfig.(Tx_CanTpNSa) in
      ret (1, negb (ea =? nsa))
    else ret (0, false) in
  if foreign : bool then ret tt else
  let* st := rt (fun c => c.(iso15765).(state)) in
  if decide (st = TX_WAIT_FLOW_CONTROL) then
    let* b := deref (load p indexCount) in
    let fs := Z.land b ISO15765_TPCI_FS_MASK in
    if fs =? ISO15765_FLOW_CONTROL_STATUS_CTS then
      let* bs := deref (load p (indexCount + 1)) in
      let* _ := set (set_BS bs) in
      let* _ := set (set_nextFlowControlCount bs) in
      let* stmin := deref (load p (indexCount + 2)) in
      let* _ := set (set_STmin stmin) in
      let* _ := set (set_stateTimeoutCount (txConfig.(CanTpNcs) + 1)) in
      set (set_state TX_WAIT_TRANSMIT)
    else if fs =? ISO15765_FLOW_CONTROL_STATUS_WAIT then
      let* _ := set (set_stateTimeoutCount (txConfig.(CanTpNbs) + 1)) in
      set (set_state TX_WAIT_FLOW_CONTROL)
    else if fs =? ISO15765_FLOW_CONTROL_STATUS_OVFLW then
      let* _ := notify (PduR_CanTpTxConfirmation txConfig.(Tx_PduR_PduId) NTFRSLT_E_NO_BUFFER) in
      end_tx_session
    else
      let* _ := notify (PduR_CanTpTxConfirmation txConfig.(Tx_PduR_PduId) NTFRSLT_E_INVALID_FS) in
      end_tx_session
  else ret tt.

(** ** Single and first frames *)

(** [CanTp_ConfigPtr->CanTpNSduList[id].configData.CanTpRxNSdu], and [CanTpTxNSdu]. *)
Definition rx_config (cfg : CanTp_ConfigType) (id : Z) : option CanTp_RxNSduType :=
  n ← cfg.(CanTpNSduList) !! Z.to_nat id;
  match n.(configData) with CanTpRxNSdu c => Some c | _ => None end.
Definition tx_config (cfg : CanTp_ConfigType) (id : Z) : option CanTp_TxNSduType :=
  n ← cfg.(CanTpNSduList) !! Z.to_nat id;
  match n.(configData) with CanTpTxNSdu c => Some c | _ => None end.

(** The reception that a new single or first frame interrupts is reported. *)
Definition abort_ongoing (cfg : CanTp_ConfigType) : H unit :=
  let* st := rt (fun c => c.(iso15765).(state)) in
  if decide (st <> IDLE /\ st <> RX_WAIT_CF_SDU_BUFFER /\ st <> RX_WAIT_SF_SDU_BUFFER) then
    let* id := rt pduId in
    let* ongoing := deref (rx_config cfg id) in
    notify (PduR_CanTpRxIndication ongoing.(Rx_PduR_PduId) NTFRSLT_E_NOT_OK)
  else ret tt.

Definition handleSingleFrame (cfg : CanTp_ConfigType) (rxConfig : CanTp_RxNSduType)
    (rxPduData : PduInfoType) (CanTpRxNSduId : Z) : H unit :=
  let p := rxPduData.(SduDataPtr) in
  let extended := bool_decide (rxConfig.(CanTpAddressingFormant) = CANTP_EXTENDED) in
  let* pduLength :=
    deref (getPduLength rxConfig.(CanTpAddressingFormant) SINGLE_FRAME rxPduData) in
  let* fd := rt CanfdSupport in
  let* status :=
    if extended then
      let* ea := deref (load p 0) in
      let* nta := deref rxConfig.(Rx_CanTpNTa) in
      ret (if negb (ea =? nta) || (pduLength >? MAX_SF_DL_EXTENDADDR) || (pduLength =? 0)
           then fd && (pduLength <=? MAX_SF_DL_EXTENDADDR_FD_SUPPORT) else true)
    else
      ret (if (pduLength >? MAX_SF_DL_STDADDR) || (pduLength =? 0)
           then fd && (pduLength <=? MAX_SF_DL_STDADDR_FD_SUPPORT) else true) in
  if status : bool then
    let* _ := abort_ongoing cfg in
    let* _ := initRx15765RuntimeData in
    let data := ptr_at p (if extended then if fd : bool then 3 else 2
                          else if fd : bool then 2 else 1) in
    let* _ := set (set_transferTotal pduLength) in
    let* _ := set (set_state SF_OR_FF_RECEIVED_WAITING_PDUR_BUFFER) in
    let* _ := set (set_mode CANTP_RX_PROCESSING) in
    let* _ := set (set_stateTimeoutCount (rxConfig.(CanTpNbr) + 1)) in
    let* _ := set (set_pduId CanTpRxNSduId) in
    let* (r, _) := copySegmentToPduRRxBuffer rxConfig data pduLength in
    match r with
    | BUFREQ_OK =>
        let* _ := notify (PduR_CanTpRxIndication rxConfig.(Rx_PduR_PduId) NTFRSLT_OK) in
        end_rx_session
    | BUFREQ_E_BUSY =>
        let* _ := copySegmentToLocalRxBuffer data pduLength in
        let* _ := set (set_state RX_WAIT_SF_SDU_BUFFER) in
        set (set_mode CANTP_RX_PROCESSING)
    | _ =>
        let* _ := notify (PduR_CanTpRxIndication rxConfig.(Rx_PduR_PduId) NTFRSLT_E_NOT_OK) in
        end_rx_session
    end
  else ret tt.

Definition handleFirstFrame (cfg : CanTp_ConfigType) (rxConfig : CanTp_RxNSduType)
    (rxPduData : PduInfoType) (CanTpRxNSduId : Z) : H unit :=
  let p := rxPduData.(SduDataPtr) in
  let extended := bool_decide (rxConfig.(CanTpAddressingFormant) = CANTP_EXTENDED) in
  let* foreign :=
    if extended then
      let* ea := deref (load p 0) in
      let* nta := deref rxConfig.(Rx_CanTpNTa) in
      ret (negb (ea =? nta))
    else ret false in
  if foreign : bool then ret tt else
  let* _ := abort_ongoing cfg in
  let* _ := initRx15765RuntimeData in
  let* pduLength :=
    deref (getPduLength rxConfig.(CanTpAddressingFormant) FIRST_FRAME rxPduData) in
  let* _ := set (set_transferTotal pduLength) in
  let* _ := set (set_pduId CanTpRxNSduId) in
  if DEV_ERROR_DETECT && (pduLength =? 0) then
    notify (Det_ReportError SERVICE_ID_CANTP_RX_INDICATION CANTP_E_INVALID_RX_LENGTH)
  else
  let* fd := rt CanfdSupport in
  let status :=
    if extended then
      if pduLength <=? MAX_PAYLOAD_SF_EXT_ADDR
      then fd && (pduLength <=? MAX_SF_DL_EXTENDADDR_FD_SUPPORT) else true
    else
      if pduLength <=? MAX_PAYLOAD_SF_STD_ADDR
      then fd && (pduLength <=? MAX_SF_DL_STDADDR_FD_SUPPORT) else true in
  if status : bool then
    if rxPduData.(SduLength) <? MAX_SEGMENT_DATA_SIZE then ret tt else
    let* _ := set (set_framesHandledCount 1) in
    let* _ := set (set_state SF_OR_FF_RECEIVED_WAITING_PDUR_BUFFER) in
    let* _ := set (set_mode CANTP_RX_PROCESSING) in
    let* _ := set (set_stateTimeoutCount rxConfig.(CanTpNbr)) in
    let maxSize :=
      if extended then
        if fd : bool then MX_PAYLOAD_FF_EXT_ADDR_FD_SUPPORT else MAX_PAYLOAD_FF_EXT_ADDR
      else
        if fd : bool then MX_PAYLOAD_FF_STD_ADDR_FD_SUPPORT else MAX_PAYLOAD_FF_STD_ADDR in
    let segment := ptr_at p (if extended then 3 else 2) in
    let* _ :=
      if extended then
        let* nta := deref rxConfig.(Rx_CanTpNTa) in set (set_extendedAddress (u8 nta))
      else ret tt in
    let* (r, _) := copySegmentToPduRRxBuffer rxConfig segment maxSize in
    match r with
    | BUFREQ_OK =>
        let* _ := set (set_stateTimeoutCount (rxConfig.(CanTpNcr) + 1)) in
        let* _ := set (set_state RX_WAIT_CONSECUTIVE_FRAME) in
        let* _ := set (set_mode CANTP_RX_PROCESSING) in
        sendFlowControlFrame cfg rxConfig r
    | BUFREQ_E_BUSY =>
        let* _ := copySegmentToLocalRxBuffer segment maxSize in
        let* _ := set (set_stateTimeoutCount (rxConfig.(CanTpNbr) + 1)) in
        let* _ := set (set_state RX_WAIT_CF_SDU_BUFFER) in
        let* _ := set (set_mode CANTP_RX_PROCESSING) in
        sendFlowControlFrame cfg rxConfig r
    | BUFREQ_E_OVFL =>
        let* _ := sendFlowControlFrame cfg rxConfig r in
        end_rx_session
    | BUFREQ_E_NOT_OK =>
        let* id := rt pduId in
        let* _ := notify (PduR_CanTpRxIndication id NTFRSLT_E_NOT_OK) in
        end_rx_session
    end
  else ret tt.

Definition calcRequiredProtocolFrameType (txConfig : CanTp_TxNSduType) : H ISO15765FrameType :=
  let* fd := rt CanfdSupport in
  let* total := rt transferTotal in
  let maxPayload :=
    match txConfig.(CanTpAddressingMode) with
    | CANTP_EXTENDED =>
        if fd : bool then MX_PAYLOAD_FF_EXT_ADDR_FD_SUPPORT else MAX_PAYLOAD_CF_EXT_ADDR
    | CANTP_STANDARD =>
        if fd : bool then MX_PAYLOAD_FF_STD_ADDR_FD_SUPPORT else MAX_PAYLOAD_CF_STD_ADDR
    end in
  if total <=? maxPayload then ret SINGLE_FRAME
  else if decide (txConfig.(CanTpTxTaType) = CANTP_PHYSICAL) then ret FIRST_FRAME
  else
    let* _ := DET_REPORTERROR SERVICE_ID_CANTP_TRANSMIT CANTP_E_INVALID_TATYPE in
    ret INVALID_FRAME.

(** ** The periodic state machines *)

Definition getBuffSingleFrame (rxConfig : CanTp_RxNSduType) : H unit :=
  let* t := rt (fun c => c.(iso15765).(stateTimeoutCount)) in
  let* _ := set (set_stateTimeoutCount (TIMER_DECREMENT t)) in
  let* b := rt canFrameBuffer in
  let* (r, _) := copySegmentToPduRRxBuffer rxConfig b.(data) b.(byteCount) in
  let* t := rt (fun c => c.(iso15765).(stateTimeoutCount)) in
  if decide (r = BUFREQ_OK) then
    let* _ := notify (PduR_CanTpRxIndication rxConfig.(Rx_PduR_PduId) NTFRSLT_OK) in
    end_rx_session
  else if decide ((r = BUFREQ_E_BUSY /\ t = 0) \/ r = BUFREQ_E_NOT_OK) then end_rx_session
  else ret tt.

(** The case [TX_WAIT_TRANSMIT], which [TX_WAIT_STMIN] falls through to. *)
Definition tx_wait_transmit (cfg : CanTp_ConfigType) (txConfig : CanTp_TxNSduType) : H unit :=
  let* r := sendNextTxFrame cfg txConfig in
  match r with
  | BUFREQ_OK => ret tt
  | BUFREQ_E_BUSY =>
      let* t := rt (fun c => c.(iso15765).(stateTimeoutCount)) in
      let* _ := set (set_stateTimeoutCount (TIMER_DECREMENT t)) in
      if TIMER_DECREMENT t =? 0 then
        let* _ := end_tx_session in
        notify (PduR_CanTpTxConfirmation txConfig.(Tx_PduR_PduId) NTFRSLT_E_NOT_OK)
      else ret tt
  | _ =>
      let* _ := end_tx_session in
      notify (PduR_CanTpTxConfirmation txConfig.(Tx_PduR_PduId) NTFRSLT_E_NOT_OK)
  end.

(** The cases that wait and give up with [result] when the timer runs out. *)
Definition tx_timeout (txConfig : CanTp_TxNSduType) (result : Z) : H unit :=
  let* t := rt (fun c => c.(iso15765).(stateTimeoutCount)) in
  let* _ := set (set_stateTimeoutCount (TIMER_DECREMENT t)) in
  if TIMER_DECREMENT t =? 0 then
    let* _ := end_tx_session in
    notify (PduR_CanTpTxConfirmation txConfig.(Tx_PduR_PduId) result)
  else ret tt.

Definition txSduStateMachine (cfg : CanTp_ConfigType) (txConfig : CanTp_TxNSduType) : H unit :=
  let* st := rt (fun c => c.(iso15765).(state)) in
  match st with
  | TX_WAIT_STMIN =>
      let* t := rt (fun c => c.(iso15765).(stateTimeoutCount)) in
      let* _ := set (set_stateTimeoutCount (TIMER_DECREMENT t)) in
      if negb (TIMER_DECREMENT t =? 0) then ret tt
      else
        let* _ := set (set_state TX_WAIT_TRANSMIT) in
        let* _ := set (set_stateTimeoutCount (txConfig.(CanTpNcs) + 1)) in
        tx_wait_transmit cfg txConfig
  | TX_WAIT_TRANSMIT => tx_wait_transmit cfg txConfig
  | TX_WAIT_FLOW_CONTROL => tx_timeout txConfig NTFRSLT_E_TIMEOUT_BS
  | TX_WAIT_TX_CONFIRMATION => tx_timeout txConfig NTFRSLT_E_TIMEOUT_A
  | _ => ret tt
  end.

(** A reception without a buffer ends; the upper layer hears of it if it had
    accepted the first frame. *)
Definition give_up_rx (rxConfig : CanTp_RxNSduType) : H unit :=
  let* _ := end_rx_session in
  let* _ := set (set_CanTpWftMaxCounter 0) in
  let* count := rt transferCount in
  if negb (count =? 0) then
    notify (PduR_CanTpRxIndication rxConfig.(Rx_PduR_PduId) NTFRSLT_E_NOT_OK)
  else ret tt.

Definition rxPhySduStateMachine (cfg : CanTp_ConfigType) (rxConfig : CanTp_RxNSduType) : H unit :=
  let* st := rt (fun c => c.(iso15765).(state)) in
  match st with
  | RX_WAIT_CONSECUTIVE_FRAME =>
      let* t := rt (fun c => c.(iso15765).(stateTimeoutCount)) in
      let* _ := set (set_stateTimeoutCount (TIMER_DECREMENT t)) in
      if TIMER_DECREMENT t =? 0 then
        let* _ := notify (PduR_CanTpRxIndication rxConfig.(Rx_PduR_PduId) NTFRSLT_E_TIMEOUT_CR) in
        end_rx_session
      else ret tt
  | RX_WAIT_CF_SDU_BUFFER =>
      let* t := rt (fun c => c.(iso15765).(stateTimeoutCount)) in
      let* _ := set (set_stateTimeoutCount (TIMER_DECREMENT t)) in
      let* b := rt canFrameBuffer in
      let* (r, _) := copySegmentToPduRRxBuffer rxConfig b.(data) b.(byteCount) in
      let* total := rt transferTotal in
      let* count := rt transferCount in
      let bytesRemaining := u16 (total - count) in
      match r with
      | BUFREQ_OK =>
          if bytesRemaining >? 0 then
            let* _ := sendFlowControlFrame cfg rxConfig r in
            let* _ := set (set_stateTimeoutCount rxConfig.(CanTpNcr)) in
            set (set_state RX_WAIT_CONSECUTIVE_FRAME)
          else
            let* _ := end_rx_session in
            notify (PduR_CanTpRxIndication rxConfig.(Rx_PduR_PduId) NTFRSLT_OK)
      | BUFREQ_E_BUSY =>
          let* wft := rt CanTpWftMaxCounter in
          if TIMER_DECREMENT t =? 0 then
            if wft <? rxConfig.(CanTpWftMax) then
              let* _ := sendFlowControlFrame cfg rxConfig BUFREQ_E_BUSY in
              set (set_stateTimeoutCount rxConfig.(CanTpNbr))
            else give_up_rx rxConfig
          else if wft >=? rxConfig.(CanTpWftMax) then give_up_rx rxConfig
          else ret tt
      | BUFREQ_E_NOT_OK => give_up_rx rxConfig
      | BUFREQ_E_OVFL => ret tt
      end
  | RX_WAIT_SF_SDU_BUFFER => getBuffSingleFrame rxConfig
  | _ => ret tt
  end.

Definition rxFncSduStateMachine (rxConfig : CanTp_RxNSduType) : H unit :=
  let* st := rt (fun c => c.(iso15765).(state)) in
  match st with
  | RX_WAIT_SF_SDU_BUFFER => getBuffSingleFrame rxConfig
  | _ => ret tt
  end.

(** ** The module *)

Inductive Connection := TX | RX | FNC.

Definition get_connection (k : Connection) (c : CanTp_ChannelPrivateType) :=
  match k with TX => c.(txChnl) | RX => c.(rxChnl) | FNC => c.(functionalChnl) end.
Definition put_connection (k : Connection) (r : CanTp_SimplexChannelPrivateType)
    (c : CanTp_ChannelPrivateType) : CanTp_ChannelPrivateType :=
  match k with
  | TX => Build_CanTp_ChannelPrivateType r c.(rxChnl) c.(functionalChnl)
  | RX => Build_CanTp_ChannelPrivateType c.(txChnl) r c.(functionalChnl)
  | FNC => Build_CanTp_ChannelPrivateType c.(txChnl) c.(rxChnl) r
  end.

Definition set_runtimeDataList v (s : CanTp_State W) : CanTp_State W :=
  Build_CanTp_State
    (Build_CanTp_RunTimeDataType s.(CanTpRunTimeData).(initRun)
       s.(CanTpRunTimeData).(internalState) v)
    s.(CanTp_ConfigPtr) s.(world).
Definition set_internalState v (s : CanTp_State W) : CanTp_State W :=
  Build_CanTp_State
    (Build_CanTp_RunTimeDataType s.(CanTpRunTimeData).(initRun) v
       s.(CanTpRunTimeData).(runtimeDataList))
    s.(CanTp_ConfigPtr) s.(world).
Definition set_CanTp_ConfigPtr v (s : CanTp_State W) : CanTp_State W :=
  Build_CanTp_State s.(CanTpRunTimeData) v s.(world).
Definition set_world v (s : CanTp_State W) : CanTp_State W :=
  Build_CanTp_State s.(CanTpRunTimeData) s.(CanTp_ConfigPtr) v.

(** A handler called with a pointer to connection [k] of channel [i]. *)
Definition on {A} (i : nat) (k : Connection) (h : H A) : T A := fun s =>
  c ← s.(CanTpRunTimeData).(runtimeDataList) !! i;
  '(a, r) ← h (Build_ChanState (get_connection k c) s.(world));
  Some (a, set_world r.(env)
             (set_runtimeDataList
                (<[i := put_connection k r.(chan) c]> s.(CanTpRunTimeData).(runtimeDataList)) s)).

Definition module_state : T CanTp_StateType := get (fun s => s.(CanTpRunTimeData).(internalState)).
Definition config : T CanTp_ConfigType := let* c := get CanTp_ConfigPtr in deref c.
Definition Det (api err : Z) : T unit :=
  if DEV_ERROR_DETECT then modify (fun s => set_world (Det_ReportError api err s.(world)) s)
  else ret tt.

Definition CanTp_Init (CfgPtr : option CanTp_ConfigType) : T unit :=
  if DEV_ERROR_DETECT && bool_decide (CfgPtr = None) then
    Det SERVICE_ID_CANTP_INIT CANTP_E_PARAM_POINTER
  else
  let* _ := modify (set_CanTp_ConfigPtr CfgPtr) in
  let* l := get (fun s => s.(CanTpRunTimeData).(runtimeDataList)) in
  let* _ := for_each 0 l (fun i _ =>
    let* _ := on i TX initTx15765RuntimeData in
    let* _ := on i RX initRx15765RuntimeData in
    on i FNC initRx15765RuntimeData) in
  modify (set_internalState CANTP_ON).

(** [txRuntime->canFrameBuffer.data[txRuntime->canFrameBuffer.byteCount++] = b;] *)
Definition push_frame (b : Z) : H unit :=
  let* f := rt canFrameBuffer in
  let* (d, n) := deref (push_byte (f.(data), f.(byteCount)) b) in
  let* _ := set (set_data d) in
  set (set_byteCount n).

(** The part of [CanTp_Transmit] that works on the connection. *)
Definition start_transmit (txConfig : CanTp_TxNSduType) (nsdu : Z) (fd : bool) (info : option Z) : H Z :=
  let* st := rt (fun c => c.(iso15765).(state)) in
  if decide (st = IDLE) then
    let* _ := set (set_byteCount 0) in
    let* _ := set (set_transferCount 0) in
    let* _ := set (set_framesHandledCount 0) in
    let* len := deref info in
    let* _ := set (set_transferTotal len) in
    let* _ := set (set_stateTimeoutCount (txConfig.(CanTpNcs) + 1)) in
    let* _ := set (set_mode CANTP_TX_PROCESSING) in
    let* _ := set (set_pduId nsdu) in
    let* _ := set (set_CanfdSupport fd) in
    let* frame := calcRequiredProtocolFrameType txConfig in
    let* _ :=
      if decide (txConfig.(CanTpAddressingMode) = CANTP_EXTENDED) then
        let* nta := deref txConfig.(Tx_CanTpNTa) in push_frame (u8 nta)
      else ret tt in
    let* total := rt transferTotal in
    let* r :=
      match frame with
      | SINGLE_FRAME =>
          let* _ :=
            if fd then
              let* _ := push_frame CANFD_FIRST_BYTE_ZERO in
              push_frame (Z.land ISO15765_TPCI_DL_FD (u8 total))
            else push_frame (Z.land ISO15765_TPCI_DL (u8 total)) in
          ret E_OK
      | FIRST_FRAME =>
          let* _ := push_frame (Z.lor ISO15765_TPCI_FF (u8 (Z.shiftr (Z.land total 0xf00) 8))) in
          let* _ := push_frame (u8 (Z.land total 0xff)) in
          let* _ := set (set_nextFlowControlCount 1) in
          let* _ := set (set_BS 1) in
          ret E_OK
      | _ => ret E_NOT_OK
      end in
    let* _ := set (set_state TX_WAIT_TRANSMIT) in
    ret r
  else ret E_NOT_OK.

(** [CanTpTxInfoPtr] is its [SduLength]; its data is not read. *)
Definition CanTp_Transmit (CanTpTxSduId : Z) (CanTpTxInfoPtr : option Z) : T Z :=
  let* st := module_state in
  if DEV_ERROR_DETECT && bool_decide (CanTpTxInfoPtr = None) then
    let* _ := Det SERVICE_ID_CANTP_TRANSMIT CANTP_E_PARAM_ADDRESS in ret E_NOT_OK
  else if DEV_ERROR_DETECT && bool_decide (st <> CANTP_ON) then
    let* _ := Det SERVICE_ID_CANTP_TRANSMIT CANTP_E_UNINIT in ret E_NOT_OK
  else
  let* cfg := config in
  if DEV_ERROR_DETECT && negb (CanTpTxSduId <? cfg.(CanTpGeneral).(number_of_sdus)) then
    let* _ := Det SERVICE_ID_CANTP_TRANSMIT CANTP_E_INVALID_TX_ID in ret E_NOT_OK
  else
  let* id := deref (cfg.(CanTpRxIdList) !! Z.to_nat CanTpTxSduId) in
  if negb (id.(CanTpNSduIndex) =? 0xFFFF) then
    let nsdu := id.(CanTpNSduIndex) in
    let* txConfig := deref (tx_config cfg nsdu) in
    let* n := deref (cfg.(CanTpNSduList) !! Z.to_nat nsdu) in
    on txConfig.(CanTpTxChannel) TX (start_transmit txConfig nsdu n.(CanTpFDSupport) CanTpTxInfoPtr)
  else ret E_OK.

(** The search of [CanTp_RxIndication] through [CanTpRxIdList], [n] entries from [i]
    on: the first entry the frame is for. *)
Definition rx_id_matches (cfg : CanTp_ConfigType) (e : CanTp_RxIdType) (CanTpRxPduId : Z)
    (p : PduInfoType) : option bool :=
  if negb (CanTpRxPduId =? e.(CanTpPduId)) then Some false else
  match e.(Id_CanTpAddressingMode) with
  | CANTP_STANDARD => Some true
  | CANTP_EXTENDED =>
      ft ← getFrameType CANTP_EXTENDED p;
      if decide (ft = FLOW_CONTROL_FRAME) then
        if negb (e.(CanTpReferringTxIndex) =? 0xFFFF) then
          txConfig ← tx_config cfg e.(CanTpReferringTxIndex);
          b ← load p.(SduDataPtr) 0; nsa ← txConfig.(Tx_CanTpNSa); Some (b =? nsa)
        else Some false
      else
        if negb (e.(CanTpNSduIndex) =? 0xFFFF) then
          n ← cfg.(CanTpNSduList) !! Z.to_nat e.(CanTpNSduIndex);
          if decide (n.(direction) = ISO15765_RECEIVE) then
            rxConfig ← rx_config cfg e.(CanTpNSduIndex);
            b ← load p.(SduDataPtr) 0; nta ← rxConfig.(Rx_CanTpNTa); Some (b =? nta)
          else Some false
        else Some false
  end.

Fixpoint rx_id_search (cfg : CanTp_ConfigType) (CanTpRxPduId : Z) (p : PduInfoType)
    (n : nat) (i : Z) : option Z :=
  match n with
  | O => Some INVALID_PDU_ID
  | S n =>
      e ← cfg.(CanTpRxIdList) !! Z.to_nat i;
      b ← rx_id_matches cfg e CanTpRxPduId p;
      if (b : bool) && negb (u16 i =? INVALID_PDU_ID) then Some (u16 i)
      else rx_id_search cfg CanTpRxPduId p n (i + 1)
  end.

Definition CanTp_RxIndication (CanTpRxPduId : Z) (p : PduInfoType) : T unit :=
  let* cfg := config in
  if CanTpRxPduId >=? cfg.(CanTpGeneral).(number_of_pdus) then ret tt else
  let* st := module_state in
  if decide (st <> CANTP_ON) then Det SERVICE_ID_CANTP_RX_INDICATION CANTP_E_UNINIT else
  let* TpIndex :=
    deref (rx_id_search cfg CanTpRxPduId p (Z.to_nat cfg.(CanTpGeneral).(pdu_list_size)) 0) in
  if TpIndex =? INVALID_PDU_ID then ret tt else
  let* e := deref (cfg.(CanTpRxIdList) !! Z.to_nat TpIndex) in
  let* frameType := deref (getFrameType e.(Id_CanTpAddressingMode) p) in
  if decide (frameType = FLOW_CONTROL_FRAME) then
    if negb (e.(CanTpReferringTxIndex) =? 0xFFFF) then
      let* txConfig := deref (tx_config cfg e.(CanTpReferringTxIndex)) in
      on txConfig.(CanTpTxChannel) TX (handleFlowControlFrame txConfig p)
    else ret tt
  else
    if negb (e.(CanTpNSduIndex) =? 0xFFFF) then
      let id := e.(CanTpNSduIndex) in
      let* rxConfig := deref (rx_config cfg id) in
      let* n := deref (cfg.(CanTpNSduList) !! Z.to_nat id) in
      on rxConfig.(CanTpRxChannel)
        (if decide (rxConfig.(CanTpRxTaType) = CANTP_FUNCTIONAL) then FNC else RX)
        (let* _ := set (set_CanfdSupport n.(CanTpFDSupport)) in
         match frameType with
         | SINGLE_FRAME => handleSingleFrame cfg rxConfig p id
         | FIRST_FRAME => handleFirstFrame cfg rxConfig p id
         | CONSECUTIVE_FRAME => handleConsecutiveFrame cfg rxConfig p
         | _ => ret tt
         end)
    else ret tt.

Definition CanTp_TxConfirmation (CanTpTxPduId : Z) : T unit :=
  let* st := module_state in
  if DEV_ERROR_DETECT && bool_decide (st <> CANTP_ON) then
    Det SERVICE_ID_CANTP_TX_CONFIRMATION CANTP_E_UNINIT
  else
  let* cfg := config in
  if DEV_ERROR_DETECT && negb (CanTpTxPduId <? cfg.(CanTpGeneral).(number_of_pdus)) then
    Det SERVICE_ID_CANTP_TX_CONFIRMATION CANTP_E_INVALID_TX_ID
  else
  let* e := deref (cfg.(CanTpRxIdList) !! Z.to_nat CanTpTxPduId) in
  if negb (e.(CanTpNSduIndex) =? 0xFFFF) then
    let* n := deref (cfg.(CanTpNSduList) !! Z.to_nat e.(CanTpNSduIndex)) in
    match n.(direction) with
    | IS015765_TRANSMIT =>
        let* txConfig := deref (tx_config cfg e.(CanTpNSduIndex)) in
        on txConfig.(CanTpTxChannel) TX
          (let* st := rt (fun c => c.(iso15765).(state)) in
           if decide (st = TX_WAIT_TX_CONFIRMATION) then handleNextTxFrameSent cfg txConfig
           else ret tt)
    | ISO15765_RECEIVE =>
        let* rxConfig := deref (rx_config cfg e.(CanTpNSduIndex)) in
        on rxConfig.(CanTpRxChannel) RX (set (set_NasNarPending false))
    end
  else ret tt.

Definition CanTp_Shutdown : T unit :=
  let* st := module_state in
  if DEV_ERROR_DETECT && bool_decide (st <> CANTP_ON) then
    Det SERVICE_ID_CANTP_SHUTDOWN CANTP_E_UNINIT
  else modify (set_internalState CANTP_OFF).

(** One round of the loop of [CanTp_MainFunction]. *)
Definition main_channel (i : nat) : T unit :=
  let* c := get (fun s => s.(CanTpRunTimeData).(runtimeDataList)) in
  let* c := deref (c !! i) in
  let pduTxId := c.(txChnl).(pduId) in
  let pduRxId := c.(rxChnl).(pduId) in
  let pduRxFuncId := c.(functionalChnl).(pduId) in
  let* _ :=
    if negb (pduTxId =? INVALID_PDU_ID) then
      let* cfg := config in
      let* txConfig := deref (tx_config cfg pduTxId) in
      on i TX (txSduStateMachine cfg txConfig)
    else ret tt in
  let* _ :=
    if negb (pduRxId =? INVALID_PDU_ID) then
      let* cfg := config in
      let* rxConfig := deref (rx_config cfg pduRxId) in
      on i RX (rxPhySduStateMachine cfg rxConfig)
    else ret tt in
  if negb (pduRxFuncId =? INVALID_PDU_ID) then
    let* cfg := config in
    let* rxConfig := deref (rx_config cfg pduRxFuncId) in
    on i FNC (rxFncSduStateMachine rxConfig)
  else ret tt.

Definition CanTp_MainFunction : T unit :=
  let* st := module_state in
  if decide (st <> CANTP_ON) then Det SERVICE_ID_CANTP_MAIN_FUNCTION CANTP_E_UNINIT else
  let* l := get (fun s => s.(CanTpRunTimeData).(runtimeDataList)) in
  for_each 0 l (fun i _ => main_channel i).

End CanTp.
