(* ===== verification/CanTp_Steps.v ===== *)
(** * CAN transport protocol, handler by handler

    What the modules around CanTp promise ([CanTp_Laws]), the segmentation of ISO
    15765-2 as a function on messages, and the effect of each handler of CanTp.c in
    terms of both.  The theorems about the module are in [CanTp_Theorems]. *)

From S2P Require Import Prelude.
From S2P Require Import StateMonad.
From S2P Require Import ComStack.
From S2P Require Import CanTp.

#[local] Open Scope monad_scope.

Arguments wp : simpl never.
Arguments bind : simpl never.
Arguments deref : simpl never.

(** ** What can be observed of the surrounding modules

    The bytes accepted for the message in reception, the bytes of the message in
    transmission not yet fetched, the frames accepted by CanIf, and the results
    reported to the upper layer, oldest first. *)
Record Obs := {
  o_rx : list Z;
  o_tx : list Z;
  o_bus : list (Z * list Z);
  o_rxres : list (Z * Z);
  o_txres : list (Z * Z)
}.

Definition obs_rx v o := Build_Obs v o.(o_tx) o.(o_bus) o.(o_rxres) o.(o_txres).
Definition obs_tx v o := Build_Obs o.(o_rx) v o.(o_bus) o.(o_rxres) o.(o_txres).
Definition obs_bus v o := Build_Obs o.(o_rx) o.(o_tx) v o.(o_rxres) o.(o_txres).
Definition obs_rxres v o := Build_Obs o.(o_rx) o.(o_tx) o.(o_bus) v o.(o_txres).
Definition obs_txres v o := Build_Obs o.(o_rx) o.(o_tx) o.(o_bus) o.(o_rxres) v.

(** The documented behaviour of PduR and CanIf: an accepted [StartOfReception]
    starts a new message, an accepted [CopyRxData] appends to it, an accepted
    [CopyTxData] delivers the next bytes of the message, CanIf sends what it
    accepts.  They may refuse any call. *)
Class CanTp_Laws (W : Type) `{CanTp_Env W} := {
  obs : W -> Obs;
  law_start id n size w r size' w' :
    PduR_CanTpStartOfReception id n size w = (r, size', w') ->
    (is_u16 size -> is_u16 size') /\
    obs w' = if decide (r = BUFREQ_OK) then obs_rx [] (obs w) else obs w;
  law_copy_rx id bs size w r size' w' :
    PduR_CanTpCopyRxData id bs size w = (r, size', w') ->
    (is_u16 size -> is_u16 size') /\
    obs w' = if decide (r = BUFREQ_OK) then obs_rx ((obs w).(o_rx) ++ bs) (obs w) else obs w;
  law_copy_tx id n size w res w' :
    PduR_CanTpCopyTxData id n size w = (res, w') -> 0 <= n ->
    (is_u16 size -> is_u16 res.(ctd_available)) /\
    Z.of_nat (length res.(ctd_data)) <= n /\
    if decide (res.(ctd_ret) = BUFREQ_OK) then
      n <= Z.of_nat (length (obs w).(o_tx)) /\
      res.(ctd_SduLength) = n /\ res.(ctd_data) = take (Z.to_nat n) (obs w).(o_tx) /\
      obs w' = obs_tx (drop (Z.to_nat n) (obs w).(o_tx)) (obs w)
    else obs w' = obs w;
  law_rx_indication id r w :
    obs (PduR_CanTpRxIndication id r w) = obs_rxres ((obs w).(o_rxres) ++ [(id, r)]) (obs w);
  law_tx_confirmation id r w :
    obs (PduR_CanTpTxConfirmation id r w) = obs_txres ((obs w).(o_txres) ++ [(id, r)]) (obs w);
  law_transmit id f w r w' :
    CanIf_Transmit id f w = (r, w') ->
    obs w' = if r =? E_OK then obs_bus ((obs w).(o_bus) ++ [(id, f)]) (obs w) else obs w;
  law_det api err w : obs (Det_ReportError api err w) = obs w
}.

(** ** Segmentation (ISO 15765-2)

    [L] is the length of a full frame, 8 or 64 with CAN FD; [addr] is the address
    byte of extended addressing, or nothing. *)
Definition frame_len (fd : bool) : Z := if fd then 64 else 8.

Definition single_frame (fd : bool) (addr msg : list Z) : list Z :=
  addr ++ (if fd then [0; Z.of_nat (length msg)] else [Z.of_nat (length msg)]) ++ msg.

Definition fits_single (fd : bool) (addr msg : list Z) : bool :=
  Z.of_nat (length addr) + (if fd then 2 else 1) + Z.of_nat (length msg) <=? frame_len fd.

Definition ff_size (fd : bool) (addr : list Z) : nat :=
  Z.to_nat (frame_len fd - 2 - Z.of_nat (length addr)).
Definition cf_size (fd : bool) (addr : list Z) : nat :=
  Z.to_nat (frame_len fd - 1 - Z.of_nat (length addr)).

Definition first_frame (fd : bool) (addr msg : list Z) : list Z :=
  let n := Z.of_nat (length msg) in
  addr ++ [0x10 + n / 256; n mod 256] ++ take (ff_size fd addr) msg.

(** The consecutive frames that carry [rest], numbered from [k] on. *)
Definition consecutive_frame (fd : bool) (addr : list Z) (k : Z) (rest : list Z) : list Z :=
  addr ++ [0x20 + k mod 16] ++ take (cf_size fd addr) rest.

Fixpoint consecutive_frames (fuel : nat) (fd : bool) (addr : list Z) (k : Z) (rest : list Z)
    : list (list Z) :=
  match fuel, rest with
  | S fuel, _ :: _ =>
      consecutive_frame fd addr k rest ::
      consecutive_frames fuel fd addr (k + 1) (drop (cf_size fd addr) rest)
  | _, _ => []
  end.

Definition segmentation (fd : bool) (addr msg : list Z) : list (list Z) :=
  if fits_single fd addr msg then [single_frame fd addr msg]
  else first_frame fd addr msg ::
       let rest := drop (ff_size fd addr) msg in
       consecutive_frames (length rest) fd addr 1 rest.

(** Padding of a frame to the length [n]. *)
Definition pad_to (n : Z) (v : Z) (f : list Z) : list Z :=
  f ++ replicate (Z.to_nat n - length f) v.

(** ** Rules for the monad of the handlers *)
Section Rules.
Context {W : Type}.
Implicit Types (c : CanTp_SimplexChannelPrivateType) (w : W).

Lemma wp_rt {A} (f : _ -> A) (Q : A -> ChanState W -> Prop) c w :
  Q (f c) (Build_ChanState c w) -> wp (rt f) Q (Build_ChanState c w).
Proof. done. Qed.

Lemma wp_set f (Q : unit -> ChanState W -> Prop) c w :
  Q tt (Build_ChanState (f c) w) -> wp (set f) Q (Build_ChanState c w).
Proof. done. Qed.

Lemma wp_invoke {A} (f : W -> A * W) (Q : A -> ChanState W -> Prop) c w :
  (forall a w', f w = (a, w') -> Q a (Build_ChanState c w')) ->
  wp (call f) Q (Build_ChanState c w).
Proof. unfold wp, call; cbn. destruct (f w) as [a w']; auto. Qed.

Lemma wp_notify f (Q : unit -> ChanState W -> Prop) c w :
  Q tt (Build_ChanState c (f w)) -> wp (notify f) Q (Build_ChanState c w).
Proof. done. Qed.

Lemma wp_get_env {A} (f : ChanState W -> A) (Q : A -> ChanState W -> Prop) c w :
  Q (f (Build_ChanState c w)) (Build_ChanState c w) -> wp (get f) Q (Build_ChanState c w).
Proof. done. Qed.
End Rules.

(** [steps]: run the assignments and reads at the head of a handler. *)
Ltac step1 :=
  lazymatch goal with
  | |- wp (bind _ _) _ _ => apply wp_bind
  | |- wp (rt _) _ _ => apply wp_rt
  | |- wp (set _) _ _ => apply wp_set
  | |- wp (notify _) _ _ => apply wp_notify
  | |- wp (ret _) _ _ => apply wp_ret
  | |- wp (get _) _ _ => apply wp_get_env
  | |- wp end_rx_session _ _ => unfold end_rx_session
  | |- wp end_tx_session _ _ => unfold end_tx_session
  end; cbv beta.
Ltac steps := repeat step1.

(** ** Frame buffers *)
Lemma take_patch d i xs :
  (i <= length d)%nat -> take (i + length xs) (patch d i xs) = take i d ++ xs.
Proof.
  intros. unfold patch. rewrite app_assoc, take_app_le, take_ge; [done | |];
    rewrite length_app, length_take; lia.
Qed.

Lemma take_patch_l d i j xs :
  (j <= i <= length d)%nat -> take j (patch d i xs) = take j d.
Proof.
  intros. unfold patch. rewrite take_app_le by (rewrite length_take; lia).
  by rewrite take_take, Nat.min_l by lia.
Qed.

Lemma patch_nil d i : patch d i [] = d.
Proof. unfold patch; cbn. by rewrite Nat.add_0_r, take_drop. Qed.

Lemma patch_cons d i v xs :
  (i + S (length xs) <= length d)%nat ->
  patch (<[i := v]> d) (S i) xs = patch d i (v :: xs).
Proof.
  intros. apply list_eq; intros j. rewrite !lookup_patch by (cbn; rewrite ?length_insert; lia).
  cbn [length]. destruct (decide (j = i)) as [->|Hne].
  - rewrite decide_False, decide_True, Nat.sub_diag by lia.
    by rewrite list_lookup_insert_eq by lia.
  - rewrite list_lookup_insert_ne by lia.
    destruct (decide (S i <= j < _)%nat), (decide (i <= j < _)%nat); try lia; [|done].
    by replace (j - i)%nat with (S (j - S i)) by lia.
Qed.

Lemma fill_spec n i v p :
  0 <= i -> i + Z.of_nat n <= Z.of_nat (length p) ->
  fill n i v p = Some (patch p (Z.to_nat i) (replicate n v)).
Proof.
  revert i p. induction n as [|n IH]; intros i p Hi Hn; cbn [fill replicate].
  - by rewrite patch_nil.
  - rewrite store_in by lia. cbn [mbind option_bind]. rewrite IH by (rewrite ?length_insert; lia).
    rewrite <- patch_cons by (rewrite length_replicate; lia).
    by replace (Z.to_nat (i + 1)) with (S (Z.to_nat i)) by lia.
Qed.

Lemma u16_small x : is_u16 x -> u16 x = x.
Proof. unfold u16. apply Z.mod_small. Qed.
Lemma u8_small x : is_u8 x -> u8 x = x.
Proof. unfold u8. apply Z.mod_small. Qed.

(** ** Transmission *)

(** What the configuration of a transmitting connection must satisfy. *)
Record tx_config_ok (cfg : CanTp_ConfigType) (tc : CanTp_TxNSduType) (fd : bool)
    (addr : list Z) : Prop := {
  tc_len : tc.(CanTpNPduLen) = frame_len fd;
  tc_addr : addr = match tc.(CanTpAddressingMode) with
                   | CANTP_EXTENDED => match tc.(Tx_CanTpNTa) with Some a => [u8 a] | None => [] end
                   | CANTP_STANDARD => [] end;
  tc_nta : tc.(CanTpAddressingMode) = CANTP_EXTENDED -> is_Some tc.(Tx_CanTpNTa);
  tc_nsa : tc.(CanTpAddressingMode) = CANTP_EXTENDED -> is_Some tc.(Tx_CanTpNSa);
  tc_period : 0 < cfg.(CanTpGeneral).(main_function_period);
  tc_timers : 0 <= tc.(CanTpNas) /\ 0 <= tc.(CanTpNbs) /\ 0 <= tc.(CanTpNcs)
}.

(** A frame as it goes to CanIf. *)
Definition tx_frame (cfg : CanTp_ConfigType) (tc : CanTp_TxNSduType) (f : list Z) : list Z :=
  match tc.(CanTpTxPaddingActivation) with
  | CANTP_ON => pad_to tc.(CanTpNPduLen) cfg.(CanTpGeneral).(padding) f
  | CANTP_OFF => f
  end.

Lemma frame_len_bounds fd : 8 <= frame_len fd <= 64.
Proof. destruct fd; cbn; lia. Qed.

Section Tx.
Context {W : Type} `{CanTp_Laws W}.
Variables (cfg : CanTp_ConfigType) (tc : CanTp_TxNSduType) (fd : bool) (addr : list Z).
Hypothesis Hok : tx_config_ok cfg tc fd addr.

Lemma length_addr : (length addr <= 1)%nat.
Proof using Hok.
  rewrite Hok.(tc_addr _ _ _ _). destruct (CanTpAddressingMode tc), (Tx_CanTpNTa tc); cbn; lia.
Qed.

(** The frame handed over is the first [len] bytes of the buffer, padded. *)
Lemma wp_canTansmitPaddingHelper len c (w : W) Q :
  0 <= len <= frame_len fd ->
  frame_len fd <= Z.of_nat (length c.(canFrameBuffer).(data)) ->
  (forall resp w' d,
    CanIf_Transmit tc.(CanIf_PduId)
      (tx_frame cfg tc (take (Z.to_nat len) c.(canFrameBuffer).(data))) w = (resp, w') ->
    length d = length c.(canFrameBuffer).(data) ->
    take (Z.to_nat len) d = take (Z.to_nat len) c.(canFrameBuffer).(data) ->
    Q resp (Build_ChanState
      (set_NasNarPending true (set_NasNarTimeoutCount tc.(CanTpNas) (set_data d c))) w')) ->
  wp (canTansmitPaddingHelper cfg tc len) Q (Build_ChanState c w).
Proof using Hok.
  intros Hlen Hbuf HQ. unfold canTansmitPaddingHelper, tx_frame in *.
  pose proof Hok.(tc_len _ _ _ _) as HL. rewrite HL in *.
  destruct (CanTpTxPaddingActivation tc) eqn:Hpad.
  - rewrite decide_False by done. steps.
    eapply wp_deref; [apply read_bytes_0; cbn; lia|].
    apply wp_invoke. intros resp w' Hcall. cbn in Hcall.
    destruct c as [? ? ? ? [] ? ? ? ?]. by eapply (HQ _ _ _ Hcall).
  - rewrite decide_True by done. steps.
    eapply wp_deref; [apply fill_spec; lia|]. steps.
    assert (Hd : (Z.to_nat len + length (replicate (Z.to_nat (frame_len fd - len))
        (padding (CanTpGeneral cfg))) <= length (data (canFrameBuffer c)))%nat)
      by (rewrite length_replicate; lia).
    eapply wp_deref; [apply read_bytes_0; cbn; rewrite length_patch; lia|].
    apply wp_invoke. intros resp w' Hcall. cbn in Hcall.
    eapply HQ; [| by apply length_patch | by apply take_patch_l; lia].
    rewrite <- Hcall. f_equal. unfold pad_to.
    rewrite length_take, Nat.min_l by lia.
    replace (Z.to_nat (frame_len fd)) with
      (Z.to_nat len + length (replicate (Z.to_nat (frame_len fd - len)) (padding (CanTpGeneral cfg))))%nat
      by (rewrite length_replicate; lia).
    rewrite take_patch by lia. do 2 f_equal. rewrite length_replicate. lia.
Qed.

(** The payload bytes that follow the header [hdr]. *)
Definition room (hdr : list Z) : nat := Z.to_nat (frame_len fd - Z.of_nat (length hdr)).

(** The connection is ready to send a frame with the header [hdr]; [rest] is what the
    upper layer still has of the message. *)
Record tx_ready (hdr rest : list Z) (c : CanTp_SimplexChannelPrivateType) : Prop := {
  tr_fd : c.(CanfdSupport) = fd;
  tr_buf : frame_len fd <= Z.of_nat (length c.(canFrameBuffer).(data));
  tr_hdr : take (length hdr) c.(canFrameBuffer).(data) = hdr;
  tr_count : c.(canFrameBuffer).(byteCount) = Z.of_nat (length hdr);
  tr_len : (1 <= length hdr <= 3)%nat;
  tr_total : 0 <= c.(transferCount) /\ is_u16 c.(transferTotal) /\
    c.(transferTotal) = c.(transferCount) + Z.of_nat (length rest);
  tr_size : is_u16 c.(sizeBuffer)
}.

Definition tx_sent_state (n : Z) (d : list Z) (size : Z) (c : CanTp_SimplexChannelPrivateType) :=
  set_NasNarPending true (set_NasNarTimeoutCount tc.(CanTpNas) (set_data d
    (set_state TX_WAIT_TX_CONFIRMATION (set_stateTimeoutCount (tc.(CanTpNas) + 1)
      (set_transferCount (c.(transferCount) + n)
         (set_byteCount (c.(canFrameBuffer).(byteCount) + n) (set_sizeBuffer size c))))))).

Lemma wp_sendNextTxFrame hdr rest c (w : W) Q :
  tx_ready hdr rest c -> (obs w).(o_tx) = rest ->
  let payload := take (room hdr) rest in
  (forall res w1 resp w2 d,
    PduR_CanTpCopyTxData tc.(Tx_PduR_PduId) (Z.of_nat (length payload)) c.(sizeBuffer) w = (res, w1) ->
    res.(ctd_ret) = BUFREQ_OK ->
    CanIf_Transmit tc.(CanIf_PduId) (tx_frame cfg tc (hdr ++ payload)) w1 = (resp, w2) ->
    obs w2 = (let o := obs_tx (drop (room hdr) rest) (obs w) in
              if resp =? E_OK
              then obs_bus (o.(o_bus) ++ [(tc.(CanIf_PduId), tx_frame cfg tc (hdr ++ payload))]) o
              else o) ->
    length d = length c.(canFrameBuffer).(data) ->
    take (length hdr) d = hdr -> is_u16 res.(ctd_available) ->
    Q (if resp =? E_OK then BUFREQ_OK else BUFREQ_E_NOT_OK)
      (Build_ChanState
         (tx_sent_state (Z.of_nat (length payload)) d res.(ctd_available) c) w2)) ->
  (forall res w1 d,
    PduR_CanTpCopyTxData tc.(Tx_PduR_PduId) (Z.of_nat (length payload)) c.(sizeBuffer) w = (res, w1) ->
    res.(ctd_ret) <> BUFREQ_OK -> obs w1 = obs w ->
    tx_ready hdr rest (set_sizeBuffer res.(ctd_available) (set_data d c)) ->
    Q res.(ctd_ret) (Build_ChanState (set_sizeBuffer res.(ctd_available) (set_data d c)) w1)) ->
  wp (sendNextTxFrame cfg tc) Q (Build_ChanState c w).
Proof using Hok.
  intros Hr Hrest payload HOK HNOK. unfold sendNextTxFrame.
  pose proof (frame_len_bounds fd) as HL. pose proof (tc_len _ _ _ _ Hok) as HN.
  destruct Hr as [Hfd Hbuf Hhdr Hcount Hlen (Hc & Ht & Hsum) Hsize].
  steps. rewrite Hcount, Hfd, (u8_small (Z.of_nat _)) by in_range.
  replace (if fd then u8 (CanTpNPduLen tc) else MAX_SEGMENT_DATA_SIZE) with (frame_len fd)
    by (rewrite HN; by destruct fd).
  assert (Hpl : (if transferTotal c - transferCount c >? frame_len fd - Z.of_nat (length hdr)
           then frame_len fd - Z.of_nat (length hdr) else transferTotal c - transferCount c)
           = Z.of_nat (length payload)).
  { unfold payload, room. rewrite length_take. destruct (Z.gtb_spec (transferTotal c - transferCount c)
      (frame_len fd - Z.of_nat (length hdr))); lia. }
  assert (Hpl2 : Z.of_nat (length payload) <= frame_len fd - Z.of_nat (length hdr)).
  { unfold payload, room. rewrite length_take. lia. }
  rewrite Hpl, u16_small by in_range.
  apply wp_invoke. intros res w1 Hcall.
  destruct (law_copy_tx _ _ _ _ _ _ Hcall (Nat2Z.is_nonneg _)) as (Hav & Hdl & Hlaw). specialize (Hav Hsize).
  steps. eapply wp_deref; [apply write_bytes_in; lia|]. steps.
  rewrite Nat2Z.id. set (d1 := patch _ _ _).
  assert (Hd1 : length d1 = length (data (canFrameBuffer c))) by (apply length_patch; lia).
  assert (Hh1 : take (length hdr) d1 = hdr) by (unfold d1; by rewrite take_patch_l by lia).
  destruct (decide (ctd_ret res = BUFREQ_OK)) as [Hret|Hret].
  - destruct Hlaw as (Hle & Hsl & Hdata & Hobs). rewrite Hsl. steps. cbn [canFrameBuffer byteCount
      set_data set_sizeBuffer set_canFrameBuffer data set_byteCount].
    rewrite Hrest in Hle. rewrite Hcount, (u16_small (_ + Z.of_nat (length hdr))),
      (u16_small (Z.of_nat (length hdr) + _)), (u16_small (transferCount c + _)) by in_range.
    apply wp_canTansmitPaddingHelper; [lia | cbn; lia |].
    intros resp w2 d Hsend Hd Hd'. steps. cbn in Hsend, Hd, Hd' |- *.
    assert (Hpd : payload = ctd_data res).
    { rewrite Hdata, Hrest. unfold payload. rewrite Nat2Z.id, length_take.
      destruct (Nat.le_gt_cases (room hdr) (length rest)); [by rewrite Nat.min_l by lia|].
      by rewrite !take_ge by lia. }
    assert (Hf : take (Z.to_nat (Z.of_nat (length payload) + Z.of_nat (length hdr))) d1 = hdr ++ payload).
    { replace (Z.to_nat _) with (length hdr + length (ctd_data res))%nat by (rewrite <- Hpd; lia).
      unfold d1. rewrite take_patch, Hhdr by lia. by rewrite Hpd. }
    rewrite Hf in Hsend.
    specialize (HOK res w1 resp w2 d Hcall Hret Hsend).
    destruct c as [? ? ? ? [] ? ? ? ?]. cbn in *.
    assert (Hrm : drop (room hdr) rest = drop (length payload) rest).
    { unfold payload. rewrite length_take.
      destruct (Nat.le_gt_cases (room hdr) (length rest)); [by rewrite Nat.min_l by lia|].
      by rewrite !drop_ge by lia. }
    rewrite <- Hcount. apply HOK; [| lia | | done].
    + rewrite (law_transmit _ _ _ _ _ Hsend), Hobs, Hrest, Nat2Z.id, Hrm. done.
    + apply (f_equal (take (length hdr))) in Hd'.
      rewrite !take_take, Nat.min_l in Hd' by lia. congruence.
  - steps. destruct c as [? ? ? ? [] ? ? ? ?]. apply (HNOK res w1 d1); try done.
    split; cbn in *; auto; lia.
Qed.
End Tx.
