(* ===== verification/CanTp_Tx.v ===== *)
(** * CAN transport protocol: the transmitting connection

    Whatever the flow control frames, the confirmations, the main function and the
    surrounding modules do, and in whatever order, a transmission hands the frames
    of the segmentation of its message to CanIf, in order and without omission. *)

From S2P Require Import Prelude.
From S2P Require Import StateMonad.
From S2P Require Import ComStack.
From S2P Require Import CanTp.
From S2P Require Import CanTp_Steps.

#[local] Open Scope monad_scope.

(** ** Consecutive frames *)
Lemma cf_size_pos fd addr : (length addr <= 1)%nat -> (1 <= cf_size fd addr)%nat.
Proof. intros. unfold cf_size. destruct fd; cbn; lia. Qed.

Lemma consecutive_frames_fuel f1 f2 fd addr k rest :
  (length addr <= 1)%nat -> (length rest <= f1)%nat -> (length rest <= f2)%nat ->
  consecutive_frames f1 fd addr k rest = consecutive_frames f2 fd addr k rest.
Proof.
  intros Ha. pose proof (cf_size_pos fd addr Ha) as Hm.
  revert f2 k rest. induction f1 as [|f1 IH]; intros f2 k rest H1 H2.
  - destruct rest; [by destruct f2 | cbn in H1; lia].
  - destruct rest as [|x rest]; [by destruct f2|]. destruct f2; [cbn in H2; lia|].
    cbn [consecutive_frames]. f_equal. apply IH; rewrite length_drop; cbn in *; lia.
Qed.

Definition cframes fd addr k rest := consecutive_frames (length rest) fd addr k rest.

Lemma cframes_nil fd addr k : cframes fd addr k [] = [].
Proof. done. Qed.

Lemma cframes_cons fd addr k rest :
  (length addr <= 1)%nat -> rest <> [] ->
  cframes fd addr k rest =
    consecutive_frame fd addr k rest :: cframes fd addr (k + 1) (drop (cf_size fd addr) rest).
Proof.
  intros Ha Hr. destruct rest as [|x rest]; [done|]. unfold cframes.
  cbn [length consecutive_frames]. f_equal.
  apply consecutive_frames_fuel; [done | |]; rewrite length_drop; cbn;
    pose proof (cf_size_pos fd addr Ha); lia.
Qed.

(** ** The events of a transmission *)
Inductive tx_event :=
| MainFunction
| TxConfirmation
| FlowControl (p : PduInfoType).

Section Tx.
Context {W : Type} `{CanTp_Laws W}.
Variables (cfg : CanTp_ConfigType) (tc : CanTp_TxNSduType) (fd : bool) (addr : list Z).
Hypothesis Hok : tx_config_ok cfg tc fd addr.

(** What the module does with its transmitting connection on an event: see
    [main_channel], [CanTp_TxConfirmation] and [CanTp_RxIndication]. *)
Definition tx_event_step (e : tx_event) : M (ChanState W) unit :=
  match e with
  | MainFunction =>
      let* id := rt pduId in
      if negb (id =? INVALID_PDU_ID) then txSduStateMachine cfg tc else ret tt
  | TxConfirmation =>
      let* st := rt (fun c => c.(iso15765).(state)) in
      if decide (st = TX_WAIT_TX_CONFIRMATION) then handleNextTxFrameSent cfg tc else ret tt
  | FlowControl p => handleFlowControlFrame tc p
  end.

Fixpoint tx_run (es : list tx_event) : M (ChanState W) unit :=
  match es with
  | [] => ret tt
  | e :: es => let* _ := tx_event_step e in tx_run es
  end.

(** *** The invariant *)
Variables (msg : list Z) (bus0 : list (Z * list Z)) (res0 : list (Z * Z)).

Record tx_core (c : CanTp_SimplexChannelPrivateType) (w : W) : Prop := {
  ts_fd : c.(CanfdSupport) = fd;
  ts_buf : frame_len fd <= Z.of_nat (length c.(canFrameBuffer).(data));
  ts_addr : take (length addr) c.(canFrameBuffer).(data) = addr;
  ts_size : is_u16 c.(sizeBuffer);
  ts_total : c.(transferTotal) = Z.of_nat (length msg);
  ts_msg : Z.of_nat (length msg) <= 4095;
  ts_rest : c.(transferCount) + Z.of_nat (length (obs w).(o_tx)) = Z.of_nat (length msg);
  ts_handled : 0 <= c.(iso15765).(framesHandledCount) <= c.(transferCount)
}.

(** A frame is waiting to be sent: its header is in the buffer. *)
Definition tx_pending (c : CanTp_SimplexChannelPrivateType) (w : W) (sent : list (list Z)) : Prop :=
  let rest := (obs w).(o_tx) in
  exists hdr, tx_ready fd hdr rest c /\ take (length addr) hdr = addr /\ rest <> [] /\
    sent ++ (hdr ++ take (room fd hdr) rest)
      :: cframes fd addr (c.(iso15765).(framesHandledCount) + 1) (drop (room fd hdr) rest)
    = segmentation fd addr msg.

(** A frame has been sent and is to be confirmed. *)
Definition tx_unconfirmed (c : CanTp_SimplexChannelPrivateType) (w : W) (sent : list (list Z)) : Prop :=
  let k := c.(iso15765).(framesHandledCount) + 1 in
  k <= c.(transferCount) /\
  sent ++ cframes fd addr k (obs w).(o_tx) = segmentation fd addr msg.

Definition tx_session (c : CanTp_SimplexChannelPrivateType) (w : W) (sent : list (list Z)) : Prop :=
  tx_core c w /\
  match c.(iso15765).(state) with
  | TX_WAIT_TX_CONFIRMATION => tx_unconfirmed c w sent
  | TX_WAIT_TRANSMIT | TX_WAIT_STMIN | TX_WAIT_FLOW_CONTROL => tx_pending c w sent
  | _ => False
  end.

Definition tx_over (c : CanTp_SimplexChannelPrivateType) (w : W) (sent : list (list Z)) : Prop :=
  c.(iso15765).(state) = IDLE /\ c.(pduId) = INVALID_PDU_ID /\
  exists r, (obs w).(o_txres) = res0 ++ [(tc.(Tx_PduR_PduId), r)] /\
    sent `prefix_of` segmentation fd addr msg /\
    (r = NTFRSLT_OK -> sent = segmentation fd addr msg).

Definition tx_inv (s : ChanState W) : Prop :=
  exists sent,
    (obs s.(env)).(o_bus) =
      bus0 ++ map (fun f => (tc.(CanIf_PduId), tx_frame cfg tc f)) sent /\
    ((tx_session s.(chan) s.(env) sent /\ (obs s.(env)).(o_txres) = res0) \/
     tx_over s.(chan) s.(env) sent).

(** The frames sent so far are the start of the segmentation. *)
Lemma tx_pending_prefix c w sent :
  tx_pending c w sent -> sent `prefix_of` segmentation fd addr msg.
Proof using Type. intros (hdr & _ & _ & _ & <-). by apply prefix_app_r. Qed.

Lemma tx_session_prefix c w sent :
  tx_session c w sent -> sent `prefix_of` segmentation fd addr msg.
Proof using Type.
  intros [_ Hp]. destruct (state (iso15765 c)); try done; try by eapply tx_pending_prefix.
  destruct Hp as [_ <-]. by apply prefix_app_r.
Qed.

(** Assignments that touch neither the buffer nor the counts. *)
Definition same_buffers (c c' : CanTp_SimplexChannelPrivateType) : Prop :=
  c'.(CanfdSupport) = c.(CanfdSupport) /\ c'.(canFrameBuffer) = c.(canFrameBuffer) /\
  c'.(sizeBuffer) = c.(sizeBuffer) /\ c'.(transferTotal) = c.(transferTotal) /\
  c'.(transferCount) = c.(transferCount) /\
  c'.(iso15765).(framesHandledCount) = c.(iso15765).(framesHandledCount).

Lemma tx_core_same c c' w : tx_core c w -> same_buffers c c' -> tx_core c' w.
Proof using Type. intros [] (E1 & E2 & E3 & E4 & E5 & E6). split; congruence. Qed.

Lemma tx_pending_same c c' w sent :
  tx_pending c w sent -> same_buffers c c' -> tx_pending c' w sent.
Proof using Type.
  intros (hdr & Hr & Ha & Hne & E) (E1 & E2 & E3 & E4 & E5 & E6).
  exists hdr. split; [|rewrite E6; done]. destruct Hr. split; congruence.
Qed.

Lemma tx_unconfirmed_same c c' w sent :
  tx_unconfirmed c w sent -> same_buffers c c' -> tx_unconfirmed c' w sent.
Proof using Type.
  intros Hu (E1 & E2 & E3 & E4 & E5 & E6). revert Hu. unfold tx_unconfirmed. by rewrite E5, E6.
Qed.

(** *** The steps *)
Abbreviation bus_of := (map (fun f => (tc.(CanIf_PduId), tx_frame cfg tc f))).

(** Reporting the result and leaving the session, in either order. *)
Lemma tx_inv_over c w w' sent r :
  (obs w).(o_bus) = bus0 ++ bus_of sent -> (obs w).(o_txres) = res0 ->
  sent `prefix_of` segmentation fd addr msg ->
  (r = NTFRSLT_OK -> sent = segmentation fd addr msg) ->
  w' = PduR_CanTpTxConfirmation tc.(Tx_PduR_PduId) r w ->
  tx_inv (Build_ChanState (set_mode CANTP_TX_WAIT (set_pduId INVALID_PDU_ID (set_state IDLE c))) w').
Proof using Type.
  intros Hb Hr Hp Hfull ->. exists sent. cbn. rewrite law_tx_confirmation. cbn.
  split; [done|]. right. split; [done|]. split; [done|]. exists r. by rewrite law_tx_confirmation, <- Hr.
Qed.

(** Leaves the session with an error. *)
Ltac tx_over_tac :=
  steps; eapply tx_inv_over; cycle 4;
  [reflexivity | eassumption | eassumption | eassumption | discriminate].

Definition sent_ok (w : W) (sent : list (list Z)) : Prop :=
  (obs w).(o_bus) = bus0 ++ bus_of sent /\ (obs w).(o_txres) = res0.

Lemma wp_send c w sent Q :
  tx_core c w -> tx_pending c w sent -> sent_ok w sent ->
  (forall c' w' sent', tx_session c' w' sent' -> sent_ok w' sent' ->
     Q BUFREQ_OK (Build_ChanState c' w')) ->
  (forall r c' w', r <> BUFREQ_OK -> sent_ok w' sent ->
     (r = BUFREQ_E_BUSY -> tx_core c' w' /\ tx_pending c' w' sent /\ c'.(iso15765) = c.(iso15765)) ->
     Q r (Build_ChanState c' w')) ->
  wp (sendNextTxFrame cfg tc) Q (Build_ChanState c w).
Proof using Hok.
  intros Hs (hdr & Hr & Hha & Hne & Hseg) [Hbus Hres] HOK HNOK.
  assert (Hal : (length addr <= length hdr)%nat)
    by (apply (f_equal length) in Hha; rewrite length_take in Hha; lia).
  eapply wp_sendNextTxFrame; [done | done | done | |].
  - intros res w1 resp w2 d _ _ _ Hobs Hd Hhd Hav.
    pose proof (tr_len _ _ _ _ Hr) as Hl. pose proof (frame_len_bounds fd).
    assert (Hpay : (1 <= length (take (room fd hdr) (obs w).(o_tx)))%nat).
    { rewrite length_take. destruct (o_tx (obs w)); [done|]. unfold room. cbn [length]. lia. }
    set (payload := take (room fd hdr) (o_tx (obs w))) in *.
    destruct (resp =? E_OK).
    + eapply (HOK _ _ (sent ++ [hdr ++ payload])).
      * assert (Hsum : Z.of_nat (length payload) + Z.of_nat (length (drop (room fd hdr) (o_tx (obs w))))
            = Z.of_nat (length (o_tx (obs w)))).
        { unfold payload. rewrite length_take, length_drop. lia. }
        destruct Hs, Hr. split; [split|]; rewrite ?Hobs; cbn in *; try done; try lia.
        -- apply (f_equal (take (length addr))) in Hhd.
           rewrite take_take, Nat.min_l in Hhd by done. congruence.
        -- unfold tx_unconfirmed. rewrite Hobs. cbn. split; [lia|]. by rewrite <- app_assoc.
      * unfold sent_ok. rewrite Hobs. cbn. split; [|done].
        by rewrite Hbus, map_app, app_assoc.
    + apply HNOK; [done | | done]. unfold sent_ok. rewrite Hobs. done.
  - intros res w1 d _ Hret Hobs Hr'. apply HNOK; [done| |].
    + unfold sent_ok. by rewrite Hobs.
    + intros _. pose proof Hr' as [? ? Hh' ? Hl' ? ?]. split; [|split; [|done]].
      * destruct Hs. split; rewrite ?Hobs; cbn in *; try done.
        apply (f_equal (take (length addr))) in Hh'.
        rewrite take_take, Nat.min_l in Hh' by done. congruence.
      * exists hdr. rewrite Hobs. done.
Qed.

Lemma sent_ok_inv c w sent :
  tx_session c w sent -> sent_ok w sent -> tx_inv (Build_ChanState c w).
Proof using Type. intros Hs [? ?]. exists sent. split; [done|]. by left. Qed.

(** A frame still waits to be sent, possibly after other assignments. *)
Lemma tx_waiting_inv c c' w sent :
  tx_core c w -> tx_pending c w sent -> sent_ok w sent -> same_buffers c c' ->
  c'.(iso15765).(state) = TX_WAIT_TRANSMIT \/ c'.(iso15765).(state) = TX_WAIT_STMIN \/
  c'.(iso15765).(state) = TX_WAIT_FLOW_CONTROL ->
  tx_inv (Build_ChanState c' w).
Proof using Type.
  intros Hc Hp Hs Hsame Hst. eapply sent_ok_inv; [|done]. split; [by eapply tx_core_same|].
  destruct Hst as [->|[->| ->]]; by eapply tx_pending_same.
Qed.

Lemma wp_tx_wait_transmit c w sent :
  tx_core c w -> tx_pending c w sent -> sent_ok w sent ->
  c.(iso15765).(state) = TX_WAIT_TRANSMIT ->
  wp (tx_wait_transmit cfg tc) (fun _ => tx_inv) (Build_ChanState c w).
Proof using Hok.
  intros Hs Hp Hsent Hst. unfold tx_wait_transmit. apply wp_bind.
  pose proof (tx_pending_prefix _ _ _ Hp) as Hpre.
  eapply wp_send; [done..| |].
  - intros. steps. by eapply sent_ok_inv.
  - intros r c' w' Hr Hsent' Hbusy. pose proof Hsent' as [Hb Hrs]. destruct r; [done| | |].
    + tx_over_tac.
    + destruct (Hbusy eq_refl) as (Hc' & Hp' & Hiso). steps.
      destruct (TIMER_DECREMENT _ =? 0); [tx_over_tac|].
      steps. eapply tx_waiting_inv; try done. cbn. left. congruence.
    + tx_over_tac.
Qed.

Lemma wp_tx_timeout c w sent r :
  tx_session c w sent -> sent_ok w sent -> r <> NTFRSLT_OK ->
  wp (tx_timeout tc r) (fun _ => tx_inv) (Build_ChanState c w).
Proof using Type.
  intros [Hc Hs] Hsent Hr. unfold tx_timeout. steps.
  destruct (TIMER_DECREMENT _ =? 0).
  - destruct Hsent. pose proof (tx_session_prefix _ _ _ (conj Hc Hs)).
    steps; eapply tx_inv_over; cycle 4; [reflexivity | done..].
  - steps. eapply sent_ok_inv; [|done]. split; [by eapply tx_core_same|].
    cbn. destruct (state (iso15765 c)); try done; by eapply tx_pending_same || eapply tx_unconfirmed_same.
Qed.

Lemma wp_txSduStateMachine c w sent :
  tx_session c w sent -> sent_ok w sent ->
  wp (txSduStateMachine cfg tc) (fun _ => tx_inv) (Build_ChanState c w).
Proof using Hok.
  intros Hs Hsent. pose proof Hs as [Hc Hp]. unfold txSduStateMachine. steps.
  destruct (state (iso15765 c)) eqn:Hst; try done.
  - steps. destruct (negb _).
    + steps. eapply tx_waiting_inv; try done. cbn. auto.
    + steps. eapply wp_tx_wait_transmit; try done; [by eapply tx_core_same | by eapply tx_pending_same].
  - by eapply wp_tx_wait_transmit.
  - by eapply wp_tx_timeout.
  - by eapply wp_tx_timeout.
Qed.

(** *** A confirmation *)
Lemma land_15 k : 0 <= k -> Z.land k SEGMENT_NUMBER_MASK = k mod 16.
Proof. intros. apply (Z.land_ones k 4). lia. Qed.

(** The connection with the header of the next consecutive frame in its buffer. *)
Definition next_chan (c : CanTp_SimplexChannelPrivateType) : CanTp_SimplexChannelPrivateType :=
  let k := c.(iso15765).(framesHandledCount) + 1 in
  set_data (<[length addr := k mod 16 + ISO15765_TPCI_CF]> c.(canFrameBuffer).(data))
    (set_byteCount (Z.of_nat (length addr) + 1) (set_framesHandledCount k c)).

Definition cf_header (k : Z) : list Z := addr ++ [0x20 + k mod 16].

Lemma tx_next_header c w :
  tx_core c w -> c.(iso15765).(framesHandledCount) + 1 <= c.(transferCount) ->
  c.(transferCount) < c.(transferTotal) ->
  tx_core (next_chan c) w /\
  tx_ready fd (cf_header (c.(iso15765).(framesHandledCount) + 1)) (obs w).(o_tx) (next_chan c).
Proof using Hok.
  intros Hc Hk Hlt. set (k := framesHandledCount (iso15765 c) + 1) in *.
  pose proof (length_addr _ _ _ _ Hok) as Ha.
  pose proof (frame_len_bounds fd) as HL. destruct Hc as [? ? Haddr ? ? ? ? ?].
  assert (Htk : take (length addr + 1) (<[length addr := k mod 16 + ISO15765_TPCI_CF]>
      (data (canFrameBuffer c))) = addr ++ [0x20 + k mod 16]).
  { rewrite Nat.add_1_r, (take_S_r _ _ (k mod 16 + ISO15765_TPCI_CF)).
    - rewrite take_insert_ge, Haddr by lia. do 2 f_equal. unfold ISO15765_TPCI_CF. lia.
    - apply list_lookup_insert_eq. lia. }
  unfold next_chan. fold k.
  split; [split; cbn; rewrite ?length_insert, ?take_insert_ge by lia; try done; lia|].
  unfold cf_header.
  split; cbn; rewrite ?length_insert, ?length_app; cbn [length]; try done; try lia.
  unfold in_width; lia.
Qed.

(** The frame with that header is the next of the segmentation. *)
Lemma room_cf_header k : room fd (cf_header k) = cf_size fd addr.
Proof using Type. unfold room, cf_header, cf_size. rewrite length_app. cbn [length]. f_equal. lia. Qed.

Lemma cf_header_frame k rest :
  cf_header k ++ take (room fd (cf_header k)) rest = consecutive_frame fd addr k rest.
Proof using Type. rewrite room_cf_header. unfold cf_header, consecutive_frame. by rewrite <- app_assoc. Qed.

Lemma tx_next_pending c w sent :
  tx_core c w -> tx_unconfirmed c w sent -> c.(transferCount) < c.(transferTotal) ->
  tx_core (next_chan c) w /\ tx_pending (next_chan c) w sent.
Proof using Hok.
  intros Hc [Hk Hseg] Hlt. destruct (tx_next_header c w Hc Hk Hlt) as [Hc' Hr]. split; [done|].
  assert (Hne : o_tx (obs w) <> []) by (intros E; destruct Hc; rewrite E in *; cbn in *; lia).
  exists (cf_header (framesHandledCount (iso15765 c) + 1)). split; [done|].
  split; [apply take_app_length|]. split; [done|].
  rewrite cf_header_frame, room_cf_header.
  by rewrite cframes_cons in Hseg by (apply (length_addr _ _ _ _ Hok) || done).
Qed.

(** The main cycles a separation time takes. *)
Definition stmin_cycles (stmin : Z) : Z :=
  let p := cfg.(CanTpGeneral).(main_function_period) in
  if stmin <? 0x80 then u32 (stmin / p + 1)
  else if (stmin >? 0xF0) && (stmin <? 0xFA) then 1 else u32 (0x7F / p + 1).

Lemma wp_ConvertMsToMainCycles ms (Q : Z -> ChanState W -> Prop) s :
  Q (ms / cfg.(CanTpGeneral).(main_function_period)) s ->
  wp (deref (ConvertMsToMainCycles cfg ms)) Q s.
Proof using Hok.
  intros HQ. eapply wp_deref; [|exact HQ]. unfold ConvertMsToMainCycles.
  pose proof (tc_period _ _ _ _ Hok). by rewrite (proj2 (Z.eqb_neq _ 0)) by lia.
Qed.

Definition tx_ended (c : CanTp_SimplexChannelPrivateType) : CanTp_SimplexChannelPrivateType :=
  set_mode CANTP_TX_WAIT (set_pduId INVALID_PDU_ID (set_state IDLE c)).

(** What a confirmation leads to: the end, waiting for flow control, the next frame
    at once or after the separation time. *)
Lemma wp_handleNextTxFrameSent_cases c w Q :
  tx_core c w -> c.(iso15765).(framesHandledCount) + 1 <= c.(transferCount) ->
  let nfc := COUNT_DECREMENT c.(iso15765).(nextFlowControlCount) in
  let c2 := set_nextFlowControlCount nfc (next_chan c) in
  (c.(transferTotal) <= c.(transferCount) ->
     Q tt (Build_ChanState (tx_ended c2)
             (PduR_CanTpTxConfirmation tc.(Tx_PduR_PduId) NTFRSLT_OK w))) ->
  (c.(transferCount) < c.(transferTotal) -> nfc = 0 -> c.(iso15765).(BS) <> 0 ->
     Q tt (Build_ChanState (set_state TX_WAIT_FLOW_CONTROL
                              (set_stateTimeoutCount (tc.(CanTpNbs) + 1) c2)) w)) ->
  (c.(transferCount) < c.(transferTotal) -> nfc <> 0 \/ c.(iso15765).(BS) = 0 ->
     c.(iso15765).(STmin) = 0 ->
     wp (sendNextTxFrame cfg tc) (fun resp => wp (match resp with
       | BUFREQ_OK => ret tt
       | BUFREQ_E_BUSY =>
           let* _ := set (set_stateTimeoutCount (tc.(CanTpNcs) + 1)) in set (set_state TX_WAIT_TRANSMIT)
       | _ =>
           let* _ := notify (PduR_CanTpTxConfirmation tc.(Tx_PduR_PduId) NTFRSLT_E_NOT_OK) in
           end_tx_session
       end) Q) (Build_ChanState c2 w)) ->
  (c.(transferCount) < c.(transferTotal) -> nfc <> 0 \/ c.(iso15765).(BS) = 0 ->
     c.(iso15765).(STmin) <> 0 ->
     Q tt (Build_ChanState (set_state TX_WAIT_STMIN
             (set_stateTimeoutCount (stmin_cycles c.(iso15765).(STmin)) c2)) w)) ->
  wp (handleNextTxFrameSent cfg tc) Q (Build_ChanState c w).
Proof using Hok.
  intros Hc Hk1 nfc c2 Hend Hfc Hsend Hwait. unfold handleNextTxFrameSent. steps.
  set (k := framesHandledCount (iso15765 c) + 1) in *.
  pose proof (length_addr _ _ _ _ Hok) as Hal. pose proof (frame_len_bounds fd) as HL.
  pose proof (tc_addr _ _ _ _ Hok) as Haddr.
  assert (Hk : u16 k = k).
  { apply u16_small. destruct Hc. unfold k, in_width in *. lia. }
  rewrite Hk.
  apply (wp_mono _ (fun _ s => s = Build_ChanState (set_byteCount (Z.of_nat (length addr) + 1)
    (set_framesHandledCount k c)) w)).
  { destruct (CanTpAddressingMode tc) eqn:Hm; rewrite Haddr.
    - rewrite decide_True by done. destruct (tc_nta _ _ _ _ Hok Hm) as [a ->]. done.
    - rewrite decide_False by done. done. }
  intros _ ? ->. steps. cbn [canFrameBuffer byteCount data set_byteCount set_framesHandledCount
    set_iso15765 set_canFrameBuffer].
  replace (Z.of_nat (length addr) + 1 - 1) with (Z.of_nat (length addr)) by lia.
  eapply wp_deref; [apply store_in; destruct Hc; lia|]. steps. rewrite Nat2Z.id.
  rewrite land_15 by (destruct Hc; unfold k; lia).
  change (set_nextFlowControlCount _ _) with c2.
  change (COUNT_DECREMENT _) with nfc.
  assert (Hc2 : c2.(transferTotal) = c.(transferTotal) /\ c2.(transferCount) = c.(transferCount) /\
    c2.(iso15765).(BS) = c.(iso15765).(BS) /\ c2.(iso15765).(STmin) = c.(iso15765).(STmin)) by done.
  clearbody nfc c2. destruct Hc2 as (E1 & E2 & E3 & E4). rewrite E1, E2, E3, E4.
  destruct (Z.leb_spec (transferTotal c) (transferCount c)) as [Hle|Hlt]; [by steps; apply Hend|].
  destruct (Z.eqb_spec nfc 0) as [Hn|Hn], (Z.eqb_spec (BS (iso15765 c)) 0) as [Hb|Hb]; cbn [andb negb];
    [| by steps; apply Hfc | |];
    (destruct (Z.eqb_spec (STmin (iso15765 c)) 0) as [Hz|Hz]; [apply wp_bind, Hsend; auto|]);
    (apply wp_bind, (wp_mono _ (fun t s => t = stmin_cycles (STmin (iso15765 c)) /\ s = Build_ChanState c2 w));
      [unfold stmin_cycles; destruct (_ <? _);
         [steps; by apply wp_ConvertMsToMainCycles|];
         destruct (_ && _); [done|]; steps; by apply wp_ConvertMsToMainCycles
      | intros ? ? [-> ->]; steps; apply Hwait; auto]).
Qed.

Lemma wp_handleNextTxFrameSent c w sent :
  tx_core c w -> tx_unconfirmed c w sent -> sent_ok w sent ->
  wp (handleNextTxFrameSent cfg tc) (fun _ => tx_inv) (Build_ChanState c w).
Proof using Hok.
  intros Hc Hu Hsent. pose proof Hu as [Hk Hseg]. pose proof Hsent as [Hb Hr].
  eapply wp_handleNextTxFrameSent_cases; [done | done | ..].
  - intros Hle. assert (Hnil : o_tx (obs w) = []).
    { apply length_zero_iff_nil. destruct Hc. lia. }
    rewrite Hnil, cframes_nil, app_nil_r in Hseg.
    eapply tx_inv_over; cycle 4; [reflexivity | done | done | by rewrite Hseg | done].
  - intros Hlt _ _. destruct (tx_next_pending _ _ _ Hc Hu Hlt) as [Hc' Hp'].
    eapply tx_waiting_inv; try done. cbn. auto.
  - intros Hlt _ _. destruct (tx_next_pending _ _ _ Hc Hu Hlt) as [Hc' Hp'].
    eapply wp_send; [by eapply tx_core_same | by eapply tx_pending_same | done | |].
    + intros. steps. by eapply sent_ok_inv.
    + intros r c1 w1 Hne Hsent1 Hbusy. pose proof Hsent1 as [Hb1 Hr1].
      pose proof (tx_pending_prefix _ _ _ Hp') as Hpre. destruct r; [done| | |].
      * tx_over_tac.
      * destruct (Hbusy eq_refl) as (Hc1 & Hp1 & Hiso). steps. eapply tx_waiting_inv; try done. cbn. auto.
      * tx_over_tac.
  - intros Hlt _ _. destruct (tx_next_pending _ _ _ Hc Hu Hlt) as [Hc' Hp'].
    eapply tx_waiting_inv; try done. cbn. auto.
Qed.

(** *** Flow control *)
Lemma wp_handleFlowControlFrame p c w sent :
  (4 <= length p.(SduDataPtr))%nat ->
  tx_session c w sent -> sent_ok w sent ->
  wp (handleFlowControlFrame tc p) (fun _ => tx_inv) (Build_ChanState c w).
Proof using Hok.
  intros Hp Hs Hsent. unfold handleFlowControlFrame. apply wp_bind.
  pose proof (tx_session_prefix _ _ _ Hs) as Hpre.
  assert (Hload : forall i, 0 <= i < 4 -> exists v, load (SduDataPtr p) i = Some v)
    by (intros; apply load_in; lia).
  apply (wp_mono _ (fun i s => (fst i = 0 \/ fst i = 1) /\ s = Build_ChanState c w)).
  { destruct (decide _) as [Hx|]; [|by apply wp_ret; auto].
    destruct (Hload 0) as [v Hv]; [lia|]. steps. eapply wp_deref; [done|]. steps.
    destruct (tc_nsa _ _ _ _ Hok Hx) as [a Ha]. eapply wp_deref; [done|]. apply wp_ret. cbn. auto. }
  intros [i foreign] ? [Hi ->]. cbn in Hi. destruct foreign; [steps; by eapply sent_ok_inv|].
  steps. destruct (decide _) as [Hst|]; [|steps; by eapply sent_ok_inv].
  pose proof Hs as [Hc Hph]. rewrite Hst in Hph. destruct Hsent as [Hb Hr].
  destruct (Hload i) as [b Eb]; [lia|]. steps. eapply wp_deref; [done|].
  destruct (_ =? _).
  { destruct (Hload (i + 1)) as [bs Ebs]; [lia|]. destruct (Hload (i + 2)) as [st Est]; [lia|].
    steps. eapply wp_deref; [done|]. steps. eapply wp_deref; [done|]. steps.
    eapply tx_waiting_inv; try done. cbn. auto. }
  destruct (_ =? _); [steps; eapply tx_waiting_inv; try done; cbn; auto|].
  destruct (_ =? _); tx_over_tac.
Qed.

(** *** Runs *)
Definition event_ok (e : tx_event) : Prop :=
  match e with FlowControl p => (4 <= length p.(SduDataPtr))%nat | _ => True end.

Lemma wp_tx_event_step e s :
  event_ok e -> tx_inv s -> wp (tx_event_step e) (fun _ => tx_inv) s.
Proof using Hok.
  destruct s as [c w]. intros He (sent & Hb & [[Hs Hr]|(Hidle & Hid & Hover)]); cbn in *.
  - assert (Hsent : sent_ok w sent) by done. destruct e; cbn.
    + steps. destruct (negb _); [by eapply wp_txSduStateMachine|]. steps. by eapply sent_ok_inv.
    + steps. destruct (decide _) as [Hst|]; [|steps; by eapply sent_ok_inv].
      destruct Hs as [Hc Hp]. rewrite Hst in Hp. by eapply wp_handleNextTxFrameSent.
    + by eapply wp_handleFlowControlFrame.
  - assert (Hinv : tx_inv (Build_ChanState c w)) by (exists sent; split; [done|]; by right).
    destruct e; cbn in *.
    + steps. rewrite Hid. cbn. by steps.
    + steps. rewrite Hidle. rewrite decide_False by done. by steps.
    + unfold handleFlowControlFrame. apply wp_bind.
      apply (wp_mono _ (fun _ s => s = Build_ChanState c w)).
      { destruct (decide _) as [Hx|]; [|done]. destruct (load_in (SduDataPtr p) 0) as [v Hv]; [lia|].
        steps. eapply wp_deref; [done|]. steps. destruct (tc_nsa _ _ _ _ Hok Hx) as [a Ha].
        by eapply wp_deref. }
      intros [i f] ? ->. destruct f; [by steps|]. steps. rewrite Hidle.
      rewrite decide_False by done. by steps.
Qed.

Lemma wp_tx_run es s :
  Forall event_ok es -> tx_inv s -> wp (tx_run es) (fun _ => tx_inv) s.
Proof using Hok.
  revert s. induction es as [|e es IH]; intros s Hes Hs; [done|]. cbn.
  apply Forall_cons_1 in Hes as [He Hes]. apply wp_bind.
  eapply wp_mono; [by eapply wp_tx_event_step|]. intros ? s' Hs'. by apply IH.
Qed.

(** *** The start of a transmission *)
Lemma wp_push_frame pre b c (w : W) Q :
  take (length pre) c.(canFrameBuffer).(data) = pre ->
  c.(canFrameBuffer).(byteCount) = Z.of_nat (length pre) ->
  (length pre < length c.(canFrameBuffer).(data))%nat ->
  (forall d, length d = length c.(canFrameBuffer).(data) -> take (length (pre ++ [b])) d = pre ++ [b] ->
     Q tt (Build_ChanState (set_byteCount (Z.of_nat (length (pre ++ [b]))) (set_data d c)) w)) ->
  wp (push_frame b) Q (Build_ChanState c w).
Proof using Type.
  intros Hpre Hn Hlt HQ. unfold push_frame, push_byte. steps. cbn.
  rewrite Hn, store_in by lia. eapply wp_deref; [reflexivity|]. steps. rewrite Nat2Z.id.
  specialize (HQ (<[length pre := b]> (data (canFrameBuffer c)))).
  rewrite length_app in HQ. cbn in HQ.
  replace (Z.of_nat (length pre) + 1) with (Z.of_nat (length pre + 1)) by lia. apply HQ.
  - apply length_insert.
  - rewrite Nat.add_1_r, (take_S_r _ _ b), take_insert_ge, Hpre by (done || apply list_lookup_insert_eq; lia).
    done.
Qed.

Lemma ff_length_bytes n :
  0 <= n <= 4095 ->
  Z.lor ISO15765_TPCI_FF (u8 (Z.shiftr (Z.land n 0xf00) 8)) = 0x10 + n / 256 /\
  u8 (Z.land n 0xff) = n mod 256.
Proof.
  intros Hn. split.
  - rewrite Z.shiftr_land. change (Z.shiftr 0xf00 8) with (Z.ones 4).
    rewrite Z.land_ones, Z.shiftr_div_pow2 by lia. change (2 ^ 8) with 256. change (2 ^ 4) with 16.
    assert (H16 : 0 <= n / 256 < 16) by (split; [apply Z.div_pos | apply Z.div_lt_upper_bound]; lia).
    rewrite (Z.mod_small (n / 256)), u8_small by (unfold in_width; lia).
    assert (HH := all_bytes_spec (fun b => if b <? 16 then Z.lor ISO15765_TPCI_FF b =? 16 + b else true)
      (n / 256) ltac:(by vm_compute) ltac:(unfold in_width; lia)). cbn beta in HH.
    rewrite (proj2 (Z.ltb_lt _ _)) in HH by lia. by apply Z.eqb_eq.
  - change 0xff with (Z.ones 8). rewrite Z.land_ones by lia. change (2 ^ 8) with 256.
    apply u8_small. unfold in_width. apply Z.mod_pos_bound. lia.
Qed.

Lemma sf_length_byte n : 0 <= n <= 7 -> Z.land ISO15765_TPCI_DL (u8 n) = n.
Proof.
  intros. rewrite u8_small, Z.land_comm by (unfold in_width; lia).
  change ISO15765_TPCI_DL with (Z.ones 4). rewrite (Z.land_ones n 4) by lia. apply Z.mod_small. lia.
Qed.
Lemma sf_fd_length_byte n : 0 <= n <= 62 -> Z.land ISO15765_TPCI_DL_FD (u8 n) = n.
Proof.
  intros. rewrite u8_small, Z.land_comm by (unfold in_width; lia).
  change ISO15765_TPCI_DL_FD with (Z.ones 8). rewrite (Z.land_ones n 8) by lia. apply Z.mod_small. lia.
Qed.

Lemma wp_calcRequired c (w : W) DEV Q :
  c.(CanfdSupport) = fd -> c.(transferTotal) = Z.of_nat (length msg) ->
  (fits_single fd addr msg = true -> Q SINGLE_FRAME (Build_ChanState c w)) ->
  (fits_single fd addr msg = false -> tc.(CanTpTxTaType) = CANTP_PHYSICAL ->
     Q FIRST_FRAME (Build_ChanState c w)) ->
  (tc.(CanTpTxTaType) = CANTP_FUNCTIONAL -> fits_single fd addr msg = true) ->
  wp (calcRequiredProtocolFrameType DEV tc) Q (Build_ChanState c w).
Proof using Hok.
  intros Hfd Htot HS HF Hfn. unfold calcRequiredProtocolFrameType. steps. rewrite Hfd, Htot.
  match goal with |- wp (if ?b then _ else _) _ _ =>
    assert (Hb : b = fits_single fd addr msg) end.
  { unfold fits_single. pose proof (tc_addr _ _ _ _ Hok) as Ha.
    destruct (CanTpAddressingMode tc) eqn:Hm.
    - destruct (tc_nta _ _ _ _ Hok Hm) as [a E]. rewrite E in Ha. rewrite Ha.
      apply eq_true_iff_eq. rewrite !Z.leb_le. unfold MX_PAYLOAD_FF_EXT_ADDR_FD_SUPPORT, MAX_PAYLOAD_CF_EXT_ADDR, MX_PAYLOAD_FF_STD_ADDR_FD_SUPPORT, MAX_PAYLOAD_CF_STD_ADDR.
      destruct fd; cbn [length frame_len]; lia.
    - rewrite Ha. apply eq_true_iff_eq. rewrite !Z.leb_le. unfold MX_PAYLOAD_FF_EXT_ADDR_FD_SUPPORT, MAX_PAYLOAD_CF_EXT_ADDR, MX_PAYLOAD_FF_STD_ADDR_FD_SUPPORT, MAX_PAYLOAD_CF_STD_ADDR.
      destruct fd; cbn [length frame_len]; lia. }
  rewrite Hb. destruct (fits_single fd addr msg) eqn:Hfs; [steps; auto|].
  destruct (decide _); [steps; auto|].
  destruct (CanTpTxTaType tc); [by specialize (Hfn eq_refl) | done].
Qed.
(** The header of the first frame of the message. *)
Definition first_header : list Z :=
  addr ++ (if fits_single fd addr msg then
             if fd then [0; Z.of_nat (length msg)] else [Z.of_nat (length msg)]
           else [0x10 + Z.of_nat (length msg) / 256; Z.of_nat (length msg) mod 256]).

(** The state [start_transmit] leaves, ready to send the first frame. *)
Record tx_started (c0 c : CanTp_SimplexChannelPrivateType) (w : W) (nsdu : Z) : Prop := {
  st_core : tx_core c w;
  st_ready : tx_ready fd first_header msg c;
  st_pending : tx_pending c w [];
  st_state : c.(iso15765).(state) = TX_WAIT_TRANSMIT;
  st_pduId : c.(pduId) = nsdu;
  st_timer : c.(iso15765).(stateTimeoutCount) = tc.(CanTpNcs) + 1;
  st_handled : c.(iso15765).(framesHandledCount) = 0;
  st_fc : fits_single fd addr msg = false ->
    c.(iso15765).(nextFlowControlCount) = 1 /\ c.(iso15765).(BS) = 1;
  st_stmin : c.(iso15765).(STmin) = c0.(iso15765).(STmin)
}.

(** The header in the buffer is that of the first frame of the segmentation. *)
Lemma tx_first_frame c (w : W) hdr :
  c.(CanfdSupport) = fd -> frame_len fd <= Z.of_nat (length c.(canFrameBuffer).(data)) ->
  is_u16 c.(sizeBuffer) -> c.(transferTotal) = Z.of_nat (length msg) -> c.(transferCount) = 0 ->
  c.(iso15765).(framesHandledCount) = 0 -> (obs w).(o_tx) = msg ->
  1 <= Z.of_nat (length msg) <= 4095 ->
  take (length hdr) c.(canFrameBuffer).(data) = hdr ->
  c.(canFrameBuffer).(byteCount) = Z.of_nat (length hdr) ->
  hdr = first_header ->
  tx_core c w /\ tx_ready fd hdr msg c /\ tx_pending c w [].
Proof using Hok.
  intros Hfd Hbuf Hsz Htot Hcnt Hk Htx Hmsg Hh Hbc Hhdr. unfold first_header in Hhdr.
  pose proof (length_addr _ _ _ _ Hok) as Hal. pose proof (frame_len_bounds fd) as HL.
  assert (Hha : take (length addr) hdr = addr) by (by rewrite Hhdr, take_app_length).
  assert (Hlen : (1 <= length hdr <= 3)%nat)
    by (rewrite Hhdr, length_app; destruct (fits_single _ _ _), fd; cbn; lia).
  split; [split; rewrite ?Htx; auto; try lia|].
  { pose proof (f_equal (take (length addr)) Hh) as E.
    rewrite take_take, Nat.min_l, Hha in E; [done|].
    apply (f_equal length) in Hha. rewrite length_take in Hha. lia. }
  assert (Hrd : tx_ready fd hdr msg c) by (split; auto; unfold in_width; lia).
  split; [done|]. exists hdr. rewrite Htx, Hk. split; [done|].
  split; [done|]. split; [intros ->; cbn in *; lia|].
  unfold segmentation, fits_single in *. cbn [app].
  destruct (Z.leb_spec (Z.of_nat (length addr) + (if fd then 2 else 1) + Z.of_nat (length msg))
    (frame_len fd)) as [Hle|Hgt].
  - assert (Hrm : (length msg <= room fd hdr)%nat)
      by (unfold room; rewrite Hhdr, length_app; destruct fd; cbn [length]; lia).
    rewrite take_ge, drop_ge, cframes_nil by done. unfold single_frame. by rewrite Hhdr, <- app_assoc.
  - assert (Hrm : room fd hdr = ff_size fd addr)
      by (unfold room, ff_size; rewrite Hhdr, length_app; cbn [length]; f_equal; lia).
    rewrite Hrm. unfold first_frame. cbn [app]. rewrite Hhdr, <- app_assoc. done.
Qed.

Lemma wp_start_transmit DEV nsdu c w :
  c.(iso15765).(state) = IDLE ->
  frame_len fd <= Z.of_nat (length c.(canFrameBuffer).(data)) -> is_u16 c.(sizeBuffer) ->
  (obs w).(o_tx) = msg -> 1 <= Z.of_nat (length msg) <= 4095 ->
  (tc.(CanTpTxTaType) = CANTP_FUNCTIONAL -> fits_single fd addr msg = true) ->
  wp (start_transmit DEV tc nsdu fd (Some (Z.of_nat (length msg))))
    (fun r s => r = E_OK /\ s.(env) = w /\ tx_started c s.(chan) w nsdu) (Build_ChanState c w).
Proof using Hok.
  intros Hst Hbuf Hsz Htx Hmsg Hfn. unfold start_transmit. steps. rewrite Hst.
  rewrite decide_True by done. steps. eapply wp_deref; [done|]. steps.
  pose proof (length_addr _ _ _ _ Hok) as Hal. pose proof (frame_len_bounds fd) as HL.
  set (c1 := set_CanfdSupport _ _).
  assert (Hc1 : c1.(CanfdSupport) = fd /\ c1.(transferTotal) = Z.of_nat (length msg) /\
    c1.(transferCount) = 0 /\ c1.(iso15765).(framesHandledCount) = 0 /\
    c1.(sizeBuffer) = c.(sizeBuffer) /\ c1.(canFrameBuffer).(data) = c.(canFrameBuffer).(data) /\
    c1.(canFrameBuffer).(byteCount) = 0 /\ c1.(pduId) = nsdu /\
    c1.(iso15765).(stateTimeoutCount) = tc.(CanTpNcs) + 1 /\
    c1.(iso15765).(STmin) = c.(iso15765).(STmin)) by done.
  clearbody c1. destruct c1 as [[] ? ? ? [] ? ? ? ?]. cbn in Hc1.
  destruct Hc1 as (-> & -> & -> & -> & -> & -> & -> & -> & -> & ->).
  set (c1 := Build_CanTp_SimplexChannelPrivateType _ _ _ _ _ _ _ _ _) in *.
  (* the address byte *)
  assert (Haddr : forall K (Q : Z -> ChanState W -> Prop),
    (forall d, length d = length c.(canFrameBuffer).(data) -> take (length addr) d = addr ->
       wp K Q (Build_ChanState (set_byteCount (Z.of_nat (length addr)) (set_data d c1)) w)) ->
    wp (let* _ := if decide (CanTpAddressingMode tc = CANTP_EXTENDED)
                  then let* nta := deref (Tx_CanTpNTa tc) in push_frame (u8 nta) else ret tt in K)
      Q (Build_ChanState c1 w)).
  { intros K Q HK. apply wp_bind. pose proof (tc_addr _ _ _ _ Hok) as Ha.
    destruct (CanTpAddressingMode tc) eqn:Hm.
    - destruct (tc_nta _ _ _ _ Hok Hm) as [a E]. rewrite E in *. rewrite decide_True by done.
      steps. eapply wp_deref; [done|]. apply (wp_push_frame []); [done | done | cbn; lia |].
      intros d Hd Htk. specialize (HK d Hd). rewrite Ha in HK. by apply HK.
    - rewrite decide_False by done. apply wp_ret. rewrite Ha in HK.
      specialize (HK (data (canFrameBuffer c)) eq_refl eq_refl). done. }
  apply wp_calcRequired; [done | done | | | done].
  - intros Hfs. apply Haddr. intros d Hd Hda. steps.
    change (transferTotal _) with (Z.of_nat (length msg)). unfold fits_single in Hfs. apply Z.leb_le in Hfs.
    apply (wp_mono _ (fun _ s => exists d', length d' = length d /\
      let hdr := addr ++ (if fd then [0; Z.of_nat (length msg)] else [Z.of_nat (length msg)]) in
      take (length hdr) d' = hdr /\
      s = Build_ChanState (set_byteCount (Z.of_nat (length hdr)) (set_data d' c1)) w)).
    + destruct fd; cbn in Hfs, HL.
      * steps. apply (wp_push_frame addr); [done | done | cbn in *; lia |].
        intros d1 Hd1 Ht1. rewrite sf_fd_length_byte by (cbn in *; lia).
        apply (wp_push_frame (addr ++ [0])); [done | done | rewrite length_app; cbn in *; lia |].
        intros d2 Hd2 Ht2. exists d2. cbn in *. rewrite <- app_assoc in *. split; [lia|]. done.
      * rewrite sf_length_byte by (cbn in *; lia).
        apply (wp_push_frame addr); [done | done | cbn in *; lia |].
        intros d1 Hd1 Ht1. exists d1. cbn in *. split; [lia|]. done.
    + intros _ ? (d' & Hd' & Ht' & ->). steps. split; [done|]. split; [done|]. cbn [chan].
      assert (Hfs' : fits_single fd addr msg = true) by by apply Z.leb_le.
      match goal with |- tx_started _ ?c' _ _ => assert (tx_core c' w /\ tx_ready fd first_header msg c' /\ tx_pending c' w []) as (? & ? & ?) end.
      { apply tx_first_frame; try done; [cbn; lia | by unfold first_header; rewrite Hfs' ..]. }
      split; try done. by rewrite Hfs'.
  - intros Hfs Hphy. apply Haddr. intros d Hd Hda. steps.
    destruct (ff_length_bytes (Z.of_nat (length msg))) as [E1 E2]; [lia|].
    change (transferTotal _) with (Z.of_nat (length msg)). rewrite E1, E2.
    apply (wp_push_frame addr); [done | done | cbn; lia |]. intros d1 Hd1 Ht1. cbn in Hd1. steps.
    apply (wp_push_frame (addr ++ [16 + Z.of_nat (length msg) / 256]));
      [done | done | rewrite length_app; cbn; lia |]. intros d2 Hd2 Ht2. cbn in Hd2. steps.
    split; [done|]. split; [done|]. cbn [chan]. rewrite <- app_assoc in *.
    match goal with |- tx_started _ ?c' _ _ => assert (tx_core c' w /\ tx_ready fd first_header msg c' /\ tx_pending c' w []) as (? & ? & ?) end.
    { apply tx_first_frame; try done; [cbn; lia | by unfold first_header; rewrite Hfs ..]. }
    split; done.
Qed.
End Tx.
