(* ===== verification/CanTp_Rx.v ===== *)
(** * CAN transport protocol: the receiving connection

    The effect of each handler of a reception, and what a reception may report when
    it is given the frames of a message with any of them missing. *)

From S2P Require Import Prelude.
From S2P Require Import StateMonad.
From S2P Require Import ComStack.
From S2P Require Import CanTp.
From S2P Require Import CanTp_Steps.
From S2P Require Import CanTp_Tx.

#[local] Open Scope monad_scope.

(** ** Handing bytes to the upper layer

    What [copySegmentToPduRRxBuffer] does with the upper layer; [start]: it asks for
    a new buffer instead of the space left in the present one. *)
Definition copy_to_pdur {W} `{CanTp_Env W} (start : bool) (id total size : Z) (bs : list Z)
    (w : W) : BufReq_ReturnType * Z * W :=
  let '(r, size, w) :=
    if start then PduR_CanTpStartOfReception id total size w
    else PduR_CanTpCopyRxData id [] size w in
  if decide (r = BUFREQ_OK) then
    if Z.of_nat (length bs) <=? size then PduR_CanTpCopyRxData id bs size w
    else (BUFREQ_E_BUSY, size, w)
  else (r, size, w).

Definition starts (c : CanTp_SimplexChannelPrivateType) : bool :=
  bool_decide (c.(iso15765).(state) <> RX_WAIT_CONSECUTIVE_FRAME).

Section Copy.
Context {W : Type} `{CanTp_Laws W}.

(** The bytes are appended, to nothing after a new start, when they are accepted. *)
Lemma copy_to_pdur_laws start id total size bs (w : W) r size' w' :
  copy_to_pdur start id total size bs w = (r, size', w') -> is_u16 size ->
  is_u16 size' /\
  if decide (r = BUFREQ_OK) then
    obs w' = obs_rx ((if start then [] else (obs w).(o_rx)) ++ bs) (obs w)
  else obs w' = obs w \/ (start = true /\ obs w' = obs_rx [] (obs w) /\
    exists size1 w1, PduR_CanTpStartOfReception id total size w = (BUFREQ_OK, size1, w1)).
Proof using Type.
  intros E Hs. unfold copy_to_pdur in E.
  destruct (if start then _ else _) as [[r1 size1] w1] eqn:E1.
  assert (H1 : is_u16 size1 /\ obs w1 = if decide (r1 = BUFREQ_OK)
     then obs_rx (if start then [] else (obs w).(o_rx)) (obs w) else obs w).
  { destruct start.
    - destruct (law_start _ _ _ _ _ _ _ E1) as [? ->]. auto.
    - destruct (law_copy_rx _ _ _ _ _ _ _ E1) as [? ->]. rewrite app_nil_r. auto. }
  destruct H1 as [Hs1 Ho1].
  assert (Hstart : r1 = BUFREQ_OK -> obs w1 = obs w \/ (start = true /\ obs w1 = obs_rx [] (obs w) /\
    exists size1 w1, PduR_CanTpStartOfReception id total size w = (BUFREQ_OK, size1, w1))).
  { intros ->. rewrite decide_True in Ho1 by done. destruct start; [right; eauto|left].
    rewrite Ho1. by destruct (obs w). }
  destruct (decide (r1 = BUFREQ_OK)) as [Hr|Hr].
  - specialize (Hstart Hr). destruct (_ <=? _).
    + destruct (law_copy_rx _ _ _ _ _ _ _ E) as [Hs2 Ho2]. split; [auto|].
      destruct (decide (r = BUFREQ_OK)); rewrite Ho2.
      * by rewrite Ho1.
      * done.
    + injection E as <- <- <-. split; [done|]. rewrite decide_False by done. done.
  - injection E as <- <- <-. split; [done|]. rewrite decide_False by done. by left.
Qed.

Lemma copySegmentToPduRRxBuffer_spec rc seg n c (w : W) :
  0 <= n <= Z.of_nat (length seg) ->
  let '(r, size, w') := copy_to_pdur (starts c) rc.(Rx_PduR_PduId) c.(transferTotal)
                          c.(sizeBuffer) (take (Z.to_nat n) seg) w in
  copySegmentToPduRRxBuffer rc seg n (Build_ChanState c w) =
    Some (if decide (r = BUFREQ_OK)
          then ((r, n), Build_ChanState (set_transferCount (u16 (c.(transferCount) + n))
                                           (set_sizeBuffer size c)) w')
          else ((r, 0), Build_ChanState (set_sizeBuffer size c) w')).
Proof using Type.
  intros Hn. unfold copy_to_pdur, copySegmentToPduRRxBuffer, call_sizeBuffer, starts,
    bind, rt, get, call, set, modify, deref, ret. cbn.
  rewrite length_take, Nat.min_l, Z2Nat.id by lia.
  destruct (decide (state (iso15765 c) <> RX_WAIT_CONSECUTIVE_FRAME)) as [Hst|Hst].
  - rewrite bool_decide_true by done. cbn.
    destruct (PduR_CanTpStartOfReception _ _ _ w) as [[r1 size1] w1]; cbn.
    destruct (decide (r1 = BUFREQ_OK)) as [->|Hr]; cbn; [|by rewrite decide_False].
    destruct (n <=? size1); cbn; [|done]. rewrite read_bytes_0 by lia. cbn.
    destruct (PduR_CanTpCopyRxData _ _ _ w1) as [[r2 size2] w2]; cbn.
    by destruct (decide (r2 = BUFREQ_OK)).
  - rewrite bool_decide_false by done. cbn.
    destruct (PduR_CanTpCopyRxData _ _ _ w) as [[r1 size1] w1]; cbn.
    destruct (decide (r1 = BUFREQ_OK)) as [->|Hr]; cbn; [|by rewrite decide_False].
    destruct (n <=? size1); cbn; [|done]. rewrite read_bytes_0 by lia. cbn.
    destruct (PduR_CanTpCopyRxData _ _ _ w1) as [[r2 size2] w2]; cbn.
    by destruct (decide (r2 = BUFREQ_OK)).
Qed.

Lemma wp_copySegment rc seg n c (w : W) Q :
  0 <= n <= Z.of_nat (length seg) ->
  (forall r size w',
     copy_to_pdur (starts c) rc.(Rx_PduR_PduId) c.(transferTotal) c.(sizeBuffer)
       (take (Z.to_nat n) seg) w = (r, size, w') ->
     if decide (r = BUFREQ_OK)
     then Q (r, n) (Build_ChanState (set_transferCount (u16 (c.(transferCount) + n))
                                        (set_sizeBuffer size c)) w')
     else Q (r, 0) (Build_ChanState (set_sizeBuffer size c) w')) ->
  wp (copySegmentToPduRRxBuffer rc seg n) Q (Build_ChanState c w).
Proof using Type.
  intros Hn HQ. pose proof (copySegmentToPduRRxBuffer_spec rc seg n c w Hn) as E.
  destruct (copy_to_pdur _ _ _ _ _ w) as [[r size] w']. specialize (HQ r size w' eq_refl).
  unfold wp. rewrite E. by destruct (decide (r = BUFREQ_OK)).
Qed.

(** *** The local buffer *)
Lemma wp_copySegmentToLocal seg n c (w : W) Q :
  0 <= n <= Z.of_nat (length seg) ->
  n < frame_len c.(CanfdSupport) ->
  frame_len c.(CanfdSupport) <= Z.of_nat (length c.(canFrameBuffer).(data)) ->
  (forall d bc, length d = length c.(canFrameBuffer).(data) -> take (Z.to_nat n) d = take (Z.to_nat n) seg ->
     (0 < n -> bc = n) ->
     Q (0 <? n) (Build_ChanState (set_byteCount bc (set_data d c)) w)) ->
  wp (copySegmentToLocalRxBuffer seg n) Q (Build_ChanState c w).
Proof using Type.
  intros Hn Hlt Hbuf HQ. unfold copySegmentToLocalRxBuffer. steps.
  replace (if CanfdSupport c then MAX_FD_SEGMENT_DATA_SIZE else MAX_SEGMENT_DATA_SIZE)
    with (frame_len (CanfdSupport c)) by by destruct (CanfdSupport c).
  rewrite (proj2 (Z.ltb_lt _ _)) by done. apply wp_bind.
  enough (Hloop : forall m i d bc, Z.of_nat m + i = n -> 0 <= i ->
    length d = length c.(canFrameBuffer).(data) -> take (Z.to_nat i) d = take (Z.to_nat i) seg ->
    (0 < i -> bc = n) ->
    wp (copy_local_loop seg n m i) (fun _ s => exists d bc, length d = length c.(canFrameBuffer).(data) /\
      take (Z.to_nat n) d = take (Z.to_nat n) seg /\ (0 < n -> bc = n) /\
      s = Build_ChanState (set_byteCount bc (set_data d c)) w)
      (Build_ChanState (set_byteCount bc (set_data d c)) w)).
  { specialize (Hloop (Z.to_nat n) 0 c.(canFrameBuffer).(data) c.(canFrameBuffer).(byteCount)
      ltac:(lia) ltac:(lia) eq_refl eq_refl ltac:(lia)).
    replace (set_byteCount _ (set_data _ c)) with c in Hloop by by destruct c as [? ? ? ? [] ? ? ? ?].
    eapply wp_mono; [exact Hloop|].
    intros _ s (d & bc & Hd & Ht & Hbc & ->). steps. by apply HQ. }
  intros m. induction m as [|m IH]; intros i d bc Hm Hi Hd Ht Hbc; cbn [copy_local_loop].
  - steps. replace i with n in * by lia. eauto 10.
  - destruct (load_in seg i) as [b Hb]; [lia|]. steps. eapply wp_deref; [done|]. steps. cbn.
    pose proof (frame_len_bounds (CanfdSupport c)).
    eapply wp_deref; [apply store_in; lia|]. steps.
    assert (Hd2 : length (<[Z.to_nat i := b]> d) = length d) by apply length_insert.
    assert (Ht2 : take (Z.to_nat (i + 1)) (<[Z.to_nat i := b]> d) = take (Z.to_nat (i + 1)) seg).
    { replace (Z.to_nat (i + 1)) with (S (Z.to_nat i)) by lia. rewrite load_spec in Hb by lia.
      rewrite (take_S_r _ _ b), (take_S_r seg _ b) by (done || apply list_lookup_insert_eq; lia).
      by rewrite take_insert_ge, Ht by lia. }
    revert Hd2 Ht2. generalize (<[Z.to_nat i := b]> d). intros d2 Hd2 Ht2.
    apply (IH (i + 1) d2 n); [lia | lia | congruence | done | done].
Qed.
End Copy.

(** ** Flow control *)
Record rx_config_ok (rc : CanTp_RxNSduType) (addr : list Z) : Prop := {
  rc_addr : addr = match rc.(CanTpAddressingFormant) with
                   | CANTP_EXTENDED => match rc.(Rx_CanTpNTa) with Some a => [a] | None => [] end
                   | CANTP_STANDARD => [] end;
  rc_nta : rc.(CanTpAddressingFormant) = CANTP_EXTENDED ->
    exists a, rc.(Rx_CanTpNTa) = Some a /\ is_u8 a;
  rc_bs : is_u8 rc.(CanTpBs);
  rc_timers : 0 <= rc.(CanTpNar) /\ 0 <= rc.(CanTpNbr) /\ 0 <= rc.(CanTpNcr)
}.

Lemma rx_length_addr rc addr : rx_config_ok rc addr -> (length addr <= 1)%nat.
Proof.
  intros []. rewrite rc_addr0. destruct (CanTpAddressingFormant rc), (Rx_CanTpNTa rc); cbn; lia.
Qed.

Lemma rx_extended rc addr :
  rx_config_ok rc addr ->
  bool_decide (rc.(CanTpAddressingFormant) = CANTP_EXTENDED) = negb (bool_decide (addr = [])).
Proof.
  intros []. rewrite rc_addr0. destruct (CanTpAddressingFormant rc) eqn:E; [|done].
  by destruct (rc_nta0 eq_refl) as (a & -> & _).
Qed.

Lemma rx_tpci_offset rc addr :
  rx_config_ok rc addr ->
  match rc.(CanTpAddressingFormant) with CANTP_STANDARD => 0 | CANTP_EXTENDED => 1 end
    = Z.of_nat (length addr).
Proof.
  intros []. rewrite rc_addr0. destruct (CanTpAddressingFormant rc) eqn:E; [|done].
  by destruct (rc_nta0 eq_refl) as (a & -> & _).
Qed.

(** The block size the receiver counts with. *)
Definition computed_bs (rc : CanTp_RxNSduType) (addr : list Z) (c : CanTp_SimplexChannelPrivateType) : Z :=
  let payload := if c.(CanfdSupport) then 62 - Z.of_nat (length addr)
                 else 7 - Z.of_nat (length addr) in
  Z.min (c.(sizeBuffer) / payload + 1) rc.(CanTpBs).

Definition fc_chan (rc : CanTp_RxNSduType) (addr : list Z) (st : BufReq_ReturnType)
    (c : CanTp_SimplexChannelPrivateType) : CanTp_SimplexChannelPrivateType :=
  set_NasNarPending true (set_NasNarTimeoutCount rc.(CanTpNar)
    (match st with
     | BUFREQ_OK => set_CanTpWftMaxCounter 0
         (set_nextFlowControlCount (computed_bs rc addr c) (set_BS rc.(CanTpBs) c))
     | BUFREQ_E_BUSY => set_CanTpWftMaxCounter (u16 (c.(CanTpWftMaxCounter) + 1)) c
     | _ => c
     end)).

Definition rx_ended (c : CanTp_SimplexChannelPrivateType) : CanTp_SimplexChannelPrivateType :=
  set_mode CANTP_RX_WAIT (set_pduId INVALID_PDU_ID (set_state IDLE c)).

(** The bytes of a flow control frame that mean something. *)
Definition fc_bytes (rc : CanTp_RxNSduType) (addr : list Z) (st : BufReq_ReturnType) : list Z :=
  addr ++ match st with
          | BUFREQ_OK => [0x30; rc.(CanTpBs); u8 rc.(CanTpSTmin)]
          | BUFREQ_E_BUSY => [0x31]
          | _ => [0x32]
          end.

Section FlowControl.
Context {W : Type} `{CanTp_Laws W}.
Variables (cfg : CanTp_ConfigType) (rc : CanTp_RxNSduType) (addr : list Z).
Hypothesis Hok : rx_config_ok rc addr.

Lemma wp_canReceivePaddingHelper d len c (w : W) Q :
  length d = 8%nat -> 0 <= len <= 8 ->
  (forall frame resp w', CanIf_Transmit rc.(CanIf_FcPduId) frame w = (resp, w') ->
     length frame = 8%nat -> take (Z.to_nat len) frame = take (Z.to_nat len) d ->
     Q resp (Build_ChanState (set_NasNarPending true
                                (set_NasNarTimeoutCount rc.(CanTpNar) c)) w')) ->
  wp (canReceivePaddingHelper cfg rc d len) Q (Build_ChanState c w).
Proof using Type.
  intros Hd Hlen HQ. unfold canReceivePaddingHelper. rewrite u8_small by in_range.
  apply wp_bind, (wp_mono _ (fun d' s => length d' = 8%nat /\
    take (Z.to_nat len) d' = take (Z.to_nat len) d /\ s = Build_ChanState c w)).
  - destruct (decide _); [|done]. unfold MAX_SEGMENT_DATA_SIZE.
    eapply wp_deref; [apply fill_spec; lia|].
    rewrite length_patch by (rewrite length_replicate; lia).
    split; [done|]. split; [|done]. apply take_patch_l. lia.
  - intros d' ? (Hd' & Ht & ->). steps. unfold MAX_SEGMENT_DATA_SIZE.
    eapply wp_deref; [apply read_bytes_0; lia|]. rewrite take_ge by lia.
    apply wp_invoke. intros resp w' Hcall. by eapply HQ.
Qed.

Lemma wp_push_byte pre b (d : list Z * Z) (s : ChanState W) (Q : list Z * Z -> ChanState W -> Prop) :
  length d.1 = 8%nat -> d.2 = Z.of_nat (length pre) -> (length pre < 8)%nat -> take (length pre) d.1 = pre ->
  (forall d', length d'.1 = 8%nat -> d'.2 = Z.of_nat (length (pre ++ [b])) ->
     take (length (pre ++ [b])) d'.1 = pre ++ [b] -> Q d' s) ->
  wp (deref (push_byte d b)) Q s.
Proof using Type.
  destruct d as [d n]. cbn. intros Hd -> Hlt Ht HQ. unfold push_byte. cbn.
  rewrite store_in by lia. eapply wp_deref; [reflexivity|]. rewrite Nat2Z.id. apply HQ; cbn.
  - by rewrite length_insert.
  - rewrite length_app. cbn. lia.
  - rewrite length_app. cbn [length].
    rewrite Nat.add_1_r, (take_S_r _ _ b), take_insert_ge, Ht by (done || apply list_lookup_insert_eq; lia).
    done.
Qed.

Lemma wp_sendFlowControlFrame st c (w : W) Q :
  st <> BUFREQ_E_NOT_OK -> is_u16 c.(sizeBuffer) ->
  (addr = [] \/ addr = [c.(iso15765).(extendedAddress)]) ->
  (forall frame resp w', CanIf_Transmit rc.(CanIf_FcPduId) frame w = (resp, w') ->
     length frame = 8%nat -> take (length (fc_bytes rc addr st)) frame = fc_bytes rc addr st ->
     if resp =? E_OK then Q tt (Build_ChanState (fc_chan rc addr st c) w')
     else Q tt (Build_ChanState (rx_ended (fc_chan rc addr st c))
                  (PduR_CanTpRxIndication rc.(Rx_PduR_PduId) NTFRSLT_E_NOT_OK w'))) ->
  wp (sendFlowControlFrame cfg rc st) Q (Build_ChanState c w).
Proof using Hok.
  intros Hst Hsize Haddr HQ. unfold sendFlowControlFrame. rewrite (rx_extended _ _ Hok). steps.
  set (d0 := (map _ _, 0)). pose proof (rx_length_addr _ _ Hok) as Hal.
  (* the address *)
  apply (wp_mono _ (fun d s => length d.1 = 8%nat /\ d.2 = Z.of_nat (length addr) /\
    take (length addr) d.1 = addr /\ s = Build_ChanState c w)).
  { destruct Haddr as [E|E]; rewrite E; cbn; [by apply wp_ret|].
    apply (wp_push_byte []); try done. cbn; lia. }
  intros d ? (Hd & Hn & Ht & ->).
  (* the status *)
  apply wp_bind, (wp_mono _ (fun '(d', len) s => length d' = 8%nat /\
    Z.of_nat (length (fc_bytes rc addr st)) <= len <= 8 /\
    take (length (fc_bytes rc addr st)) d' = fc_bytes rc addr st /\
    set_NasNarPending true (set_NasNarTimeoutCount rc.(CanTpNar) s.(chan)) = fc_chan rc addr st c /\
    s.(env) = w)).
  { destruct st; [|done| |]; steps.
    - apply (wp_push_byte addr); [done.. | lia | done |]. intros d1 Hd1 Hn1 Ht1. steps.
      apply (wp_push_byte (addr ++ [0x30])); [done.. | rewrite length_app; cbn; lia | done |].
      intros d2 Hd2 Hn2 Ht2. steps.
      apply (wp_push_byte ((addr ++ [0x30]) ++ [CanTpBs rc])); [done.. | rewrite !length_app; cbn; lia | done |].
      intros d3 Hd3 Hn3 Ht3. steps. destruct d3 as [d3 n3]. cbn in Hd3, Hn3, Ht3.
      unfold fc_bytes. rewrite <- !app_assoc in *. cbn [app] in *.
      split; [done|]. split; [rewrite Hn3, length_app; cbn; lia|]. split; [done|]. split; [|done].
      unfold fc_chan, computed_bs. cbn [chan]. do 4 f_equal.
      rewrite u16_small.
      2:{ destruct (negb _), (CanfdSupport c); unfold MX_PAYLOAD_FF_EXT_ADDR_FD_SUPPORT, MAX_PAYLOAD_SF_EXT_ADDR,
          MX_PAYLOAD_FF_STD_ADDR_FD_SUPPORT, MAX_PAYLOAD_SF_STD_ADDR; unfold in_width in *;
          Z.to_euclidean_division_equations; lia. }
      destruct Haddr as [-> | ->];
        [rewrite bool_decide_true by done | rewrite bool_decide_false by done];
        cbn [length negb]; unfold MX_PAYLOAD_FF_EXT_ADDR_FD_SUPPORT,
        MAX_PAYLOAD_SF_EXT_ADDR, MX_PAYLOAD_FF_STD_ADDR_FD_SUPPORT, MAX_PAYLOAD_SF_STD_ADDR;
        change (62 - Z.of_nat 0) with 62; change (7 - Z.of_nat 0) with 7;
        change (62 - Z.of_nat 1) with 61; change (7 - Z.of_nat 1) with 6;
        destruct (CanfdSupport c);
        match goal with |- (if ?x >? ?y then _ else _) = _ => destruct (Z.gtb_spec x y) end; lia.
    - apply (wp_push_byte addr); [done.. | lia | done |]. intros d1 Hd1 Hn1 Ht1. steps.
      unfold fc_bytes. split; [done|]. split; [rewrite length_app in *; cbn in *; lia|]. done.
    - apply (wp_push_byte addr); [done.. | lia | done |]. intros d1 Hd1 Hn1 Ht1. steps.
      unfold fc_bytes. split; [done|]. split; [rewrite length_app in *; cbn in *; lia|]. done. }
  intros [d' len] [c1 w1] (Hd' & Hlen & Ht' & Hc1 & Hw1). cbn in Hc1, Hw1. subst w1. apply wp_bind.
  apply wp_canReceivePaddingHelper; [done | lia |]. intros frame resp w' Hcall Hfl Hft.
  assert (Hfb : take (length (fc_bytes rc addr st)) frame = fc_bytes rc addr st).
  { rewrite <- Ht'. apply (f_equal (take (length (fc_bytes rc addr st)))) in Hft.
    rewrite !take_take, Nat.min_l in Hft by lia. by rewrite Ht' in *. }
  specialize (HQ frame resp w' Hcall Hfl Hfb). rewrite <- Hc1 in HQ.
  destruct (resp =? E_OK); cbn [negb]; steps; done.
Qed.
End FlowControl.

(** ** First frames *)

(** [p] holds the frame [f], possibly followed by padding. *)
Definition carries (fd : bool) (f : list Z) (p : PduInfoType) : Prop :=
  exists filler, p.(SduDataPtr) = f ++ filler /\
    p.(SduLength) = Z.of_nat (length p.(SduDataPtr)) /\ p.(SduLength) <= frame_len fd.

Lemma load_app_r (l1 l2 : list Z) i :
  Z.of_nat (length l1) <= i -> load (l1 ++ l2) i = load l2 (i - Z.of_nat (length l1)).
Proof. intros. rewrite !load_spec, lookup_app_r by lia. f_equal. lia. Qed.

(** The connection after a first frame, before the flow control frame. *)
Record first_state (rc : CanTp_RxNSduType) (fd : bool) (addr msg : list Z) (nsdu : Z)
    (buf : nat) (r : BufReq_ReturnType) (size : Z) (c : CanTp_SimplexChannelPrivateType) : Prop := {
  fs_fd : c.(CanfdSupport) = fd;
  fs_total : c.(transferTotal) = Z.of_nat (length msg);
  fs_handled : c.(iso15765).(framesHandledCount) = 1;
  fs_size : c.(sizeBuffer) = size;
  fs_ext : addr = [] \/ addr = [c.(iso15765).(extendedAddress)];
  fs_id : c.(pduId) = nsdu;
  fs_wft : c.(CanTpWftMaxCounter) = 0;
  fs_buf : length c.(canFrameBuffer).(data) = buf;
  fs_case : match r with
    | BUFREQ_OK =>
        c.(iso15765).(state) = RX_WAIT_CONSECUTIVE_FRAME /\
        c.(transferCount) = Z.of_nat (ff_size fd addr) /\
        c.(iso15765).(stateTimeoutCount) = rc.(CanTpNcr) + 1
    | BUFREQ_E_BUSY =>
        c.(iso15765).(state) = RX_WAIT_CF_SDU_BUFFER /\ c.(transferCount) = 0 /\
        c.(iso15765).(stateTimeoutCount) = rc.(CanTpNbr) + 1 /\
        c.(canFrameBuffer).(byteCount) = Z.of_nat (ff_size fd addr) /\
        take (ff_size fd addr) c.(canFrameBuffer).(data) = take (ff_size fd addr) msg
    | _ => c.(transferCount) = 0
    end
}.

Section Handlers.
Context {W : Type} `{CanTp_Laws W}.
Variables (DEV : bool) (cfg : CanTp_ConfigType) (rc : CanTp_RxNSduType) (fd : bool) (addr : list Z).
Hypothesis Hok : rx_config_ok rc addr.

Lemma initRx_spec c (w : W) :
  exists c', initRx15765RuntimeData (Build_ChanState c w) = Some (tt, Build_ChanState c' w) /\
    c'.(iso15765).(state) = IDLE /\ c'.(CanfdSupport) = c.(CanfdSupport) /\ c'.(transferCount) = 0 /\
    c'.(sizeBuffer) = 0 /\ c'.(CanTpWftMaxCounter) = 0 /\ c'.(canFrameBuffer) = c.(canFrameBuffer).
Proof using Type. eexists. split; [reflexivity|]. by destruct c as [[]]. Qed.

Lemma ff_parse msg filler :
  fits_single fd addr msg = false -> Z.of_nat (length msg) <= 4095 ->
  let p := first_frame fd addr msg ++ filler in
  Z.of_nat (length p) <= frame_len fd ->
  filler = [] /\ Z.of_nat (length p) = frame_len fd /\
  ptr_at p (2 + Z.of_nat (length addr)) = take (ff_size fd addr) msg /\
  length (take (ff_size fd addr) msg) = ff_size fd addr /\
  load p (Z.of_nat (length addr)) = Some (0x10 + Z.of_nat (length msg) / 256) /\
  load p (Z.of_nat (length addr) + 1) = Some (Z.of_nat (length msg) mod 256).
Proof using Hok.
  intros Hfs Hmsg p Hp. pose proof (rx_length_addr _ _ Hok) as Hal.
  pose proof (frame_len_bounds fd) as HL. unfold fits_single in Hfs. apply Z.leb_gt in Hfs.
  assert (Hff : length (take (ff_size fd addr) msg) = ff_size fd addr).
  { rewrite length_take, Nat.min_l; [done|]. unfold ff_size. destruct fd; lia. }
  assert (Hlen : Z.of_nat (length p) = frame_len fd + Z.of_nat (length filler)).
  { unfold p, first_frame. rewrite !length_app, Hff. cbn [length]. unfold ff_size. destruct fd; cbn in *; lia. }
  assert (Hnil : filler = []) by (apply length_zero_iff_nil; lia).
  split; [done|]. split; [rewrite Hlen, Hnil; cbn; lia|].
  unfold p, first_frame. rewrite Hnil, app_nil_r. split; [|split; [done|split]].
  - unfold ptr_at. replace (Z.to_nat (2 + Z.of_nat (length addr))) with (length addr + 2)%nat by lia.
    rewrite <- drop_drop, drop_app_length. done.
  - rewrite load_app_r, Z.sub_diag by lia. done.
  - rewrite load_app_r by lia.
    by replace (Z.of_nat (length addr) + 1 - Z.of_nat (length addr)) with 1 by lia.
Qed.

Lemma ff_length_decode n :
  0 <= n <= 4095 -> u16 (n mod 256 + Z.shiftl (Z.land (0x10 + n / 256) 0xf) 8) = n.
Proof using Type.
  intros Hn. change 0xf with (Z.ones 4). rewrite Z.land_ones, Z.shiftl_mul_pow2 by lia.
  change (2 ^ 4) with 16. change (2 ^ 8) with 256.
  assert (H16 : (0x10 + n / 256) mod 16 = n / 256).
  { Z.to_euclidean_division_equations. lia. }
  rewrite H16, u16_small; [|unfold in_width]; Z.to_euclidean_division_equations; lia.
Qed.

Lemma wp_abort_idle c (w : W) (Q : unit -> ChanState W -> Prop) :
  c.(iso15765).(state) = IDLE \/ c.(iso15765).(state) = RX_WAIT_CF_SDU_BUFFER \/
  c.(iso15765).(state) = RX_WAIT_SF_SDU_BUFFER ->
  Q tt (Build_ChanState c w) -> wp (abort_ongoing cfg) Q (Build_ChanState c w).
Proof using Type.
  intros Hst HQ. unfold abort_ongoing. steps. rewrite decide_False by (intros (? & ? & ?); intuition congruence). by steps.
Qed.

Lemma wp_handleFirstFrame msg p nsdu c (w : W) Q :
  carries fd (first_frame fd addr msg) p ->
  fits_single fd addr msg = false -> Z.of_nat (length msg) <= 4095 ->
  c.(iso15765).(state) = IDLE -> c.(CanfdSupport) = fd ->
  frame_len fd <= Z.of_nat (length c.(canFrameBuffer).(data)) ->
  (forall r size w1 c1,
    copy_to_pdur true rc.(Rx_PduR_PduId) (Z.of_nat (length msg)) 0 (take (ff_size fd addr) msg) w
      = (r, size, w1) -> is_u16 size ->
    first_state rc fd addr msg nsdu (length c.(canFrameBuffer).(data)) r size c1 ->
    match r with
    | BUFREQ_OK | BUFREQ_E_BUSY => wp (sendFlowControlFrame cfg rc r) Q (Build_ChanState c1 w1)
    | BUFREQ_E_OVFL =>
        wp (sendFlowControlFrame cfg rc r) (fun _ => wp end_rx_session Q) (Build_ChanState c1 w1)
    | BUFREQ_E_NOT_OK =>
        Q tt (Build_ChanState (rx_ended c1) (PduR_CanTpRxIndication nsdu NTFRSLT_E_NOT_OK w1))
    end) ->
  wp (handleFirstFrame DEV cfg rc p nsdu) Q (Build_ChanState c w).
Proof using H0 Hok.
  intros (filler & Hp & Hpl & Hple) Hfs Hmsg Hst Hfd Hbuf HQ. rewrite Hp in Hpl.
  rewrite Hpl in Hple. pose proof (rx_length_addr _ _ Hok) as Hal. pose proof (frame_len_bounds fd) as HL.
  destruct (ff_parse msg filler Hfs Hmsg Hple) as (Hnil & HpL & Hptr & Hffl & Hhi & Hlo).
  pose proof (rx_extended _ _ Hok) as Hext. pose proof (rc_addr _ _ Hok) as Haddr.
  assert (Hmsg1 : frame_len fd - 2 <= Z.of_nat (length msg)).
  { unfold fits_single in Hfs. apply Z.leb_gt in Hfs. destruct fd; cbn in *; lia. }
  unfold handleFirstFrame. rewrite Hext, Hp.
  (* the address *)
  apply wp_bind, (wp_mono _ (fun f s => f = false /\ s = Build_ChanState c w)).
  { destruct addr as [|a [|]] eqn:Ea; [done| |cbn in Hal; lia]. cbn.
    steps. eapply wp_deref; [reflexivity|]. steps.
    destruct (CanTpAddressingFormant rc) eqn:Hf; [|done].
    destruct (rc_nta _ _ Hok Hf) as (a' & E & _). rewrite E in Haddr. injection Haddr as ->.
    eapply wp_deref; [done|]. apply wp_ret. by rewrite Z.eqb_refl. }
  intros ? ? [-> ->]. steps. apply wp_abort_idle; [by left|]. steps.
  destruct (initRx_spec c w) as (c0 & Hinit & Hst0 & Hfd0 & Hc0 & Hs0 & Hw0 & Hb0).
  eapply wp_run; [exact Hinit|]. rewrite Hfd in Hfd0. steps.
  eapply wp_deref with (a := Z.of_nat (length msg)).
  { unfold getPduLength. rewrite Hp, (rx_tpci_offset _ _ Hok), Hlo. cbn [mbind option_bind].
    rewrite Hhi. cbn [mbind option_bind]. by rewrite ff_length_decode by lia. }
  steps. rewrite (proj2 (Z.eqb_neq _ 0)), andb_false_r by lia. steps.
  cbn [CanfdSupport set_pduId set_transferTotal]. rewrite Hfd0.
  match goal with |- wp (if ?b then _ else _) _ _ => replace b with true end.
  2:{ unfold MAX_PAYLOAD_SF_EXT_ADDR, MAX_PAYLOAD_SF_STD_ADDR, MAX_SF_DL_EXTENDADDR_FD_SUPPORT,
        MAX_SF_DL_STDADDR_FD_SUPPORT. unfold fits_single in Hfs. apply Z.leb_gt in Hfs.
      destruct addr as [|a [|]]; [| |cbn in Hal; lia]; cbn [length bool_decide decide] in *;
        destruct fd; cbn in *; symmetry;
        match goal with |- (if ?x <=? ?y then _ else _) = _ => destruct (Z.leb_spec x y) end; done || lia. }
  rewrite Hpl, (proj2 (Z.ltb_ge _ _)) by (unfold MAX_SEGMENT_DATA_SIZE; lia). steps.
  set (c1 := set_stateTimeoutCount _ _).
  assert (Hc1 : c1.(CanfdSupport) = fd /\ c1.(transferTotal) = Z.of_nat (length msg) /\
    c1.(iso15765).(framesHandledCount) = 1 /\ c1.(sizeBuffer) = 0 /\ c1.(pduId) = nsdu /\
    c1.(CanTpWftMaxCounter) = 0 /\ c1.(canFrameBuffer) = c.(canFrameBuffer) /\ c1.(transferCount) = 0 /\
    c1.(iso15765).(state) = SF_OR_FF_RECEIVED_WAITING_PDUR_BUFFER) by (cbn; rewrite Hb0; done).
  clearbody c1. clear c0 Hinit Hst0 Hfd0 Hc0 Hs0 Hw0 Hb0.
  (* the address of the flow control frames *)
  apply (wp_mono _ (fun _ s => exists ea, (addr = [] \/ addr = [ea]) /\
    s = Build_ChanState (set_extendedAddress ea c1) w)).
  { destruct addr as [|a [|]] eqn:Ea; [| |cbn in Hal; lia]; cbn.
    - steps. exists c1.(iso15765).(extendedAddress). split; [by left|]. by destruct c1 as [[]].
    - destruct (CanTpAddressingFormant rc) eqn:Hf; [|done].
      destruct (rc_nta _ _ Hok Hf) as (a' & E & Ha'). rewrite E in Haddr. injection Haddr as ->.
      steps. eapply wp_deref; [done|]. steps. exists a'. rewrite u8_small by done. auto. }
  intros _ ? (ea & Hea & ->). steps.
  replace (if negb (bool_decide (addr = [])) then 3 else 2) with (2 + Z.of_nat (length addr))
    by (destruct addr as [|? [|]]; [done | done | cbn in Hal; lia]).
  rewrite Hptr.
  match goal with |- wp (copySegmentToPduRRxBuffer _ _ ?n) _ _ =>
    replace n with (Z.of_nat (ff_size fd addr)) end.
  2:{ unfold ff_size. destruct addr as [|? [|]]; [| |cbn in Hal; lia]; by destruct fd. }
  destruct Hc1 as (E1 & E2 & E3 & E4 & E5 & E6 & E7 & E8 & E9).
  assert (Hffs : Z.of_nat (ff_size fd addr) < frame_len fd) by (unfold ff_size; destruct fd; cbn; lia).
  apply wp_copySegment; [rewrite Hffl; lia|]. intros r size w1 Hcopy.
  unfold starts in Hcopy. cbn in Hcopy. rewrite E9, E2, E4, Nat2Z.id, take_ge in Hcopy by (rewrite Hffl; lia).
  rewrite bool_decide_true in Hcopy by done.
  destruct (copy_to_pdur_laws _ _ _ _ _ _ _ _ _ Hcopy) as [Hsz _]; [by split|].
  specialize (HQ r size w1). cbn [set_extendedAddress set_iso15765 transferCount]. rewrite E8.
  destruct c1 as [[] ? ? ? ? ? ? ? ?]. cbn in E1, E2, E3, E4, E5, E6, E7, E8, E9. clear Haddr. subst.
  destruct r; [rewrite decide_True by done | rewrite decide_False by done ..]; cbv beta iota; steps.
  - apply HQ; [done..|]. split; try done. cbn. rewrite u16_small by (unfold in_width; lia).
    split; [done|]. split; [lia | done].
  - apply HQ; [done..|]. by split.
  - apply wp_copySegmentToLocal; [rewrite Hffl; lia | done | done |]. intros d bc Hd Htk Hbc. steps.
    rewrite Nat2Z.id, take_take, Nat.min_id in Htk.
    apply HQ; [done..|]. split; try done. cbn. split; [done|]. split; [done|]. split; [done|].
    split; [apply Hbc; unfold ff_size; destruct (CanfdSupport c); cbn; lia | done].
  - apply HQ; [done..|]. by split.
Qed.
(** ** Consecutive frames *)

(** A connection in reception. *)
Record rx_waiting (c : CanTp_SimplexChannelPrivateType) : Prop := {
  rw_state : c.(iso15765).(state) = RX_WAIT_CONSECUTIVE_FRAME;
  rw_fd : c.(CanfdSupport) = fd;
  rw_count : 0 <= c.(transferCount) <= c.(transferTotal);
  rw_total : c.(transferTotal) <= 4095;
  rw_size : is_u16 c.(sizeBuffer);
  rw_ext : addr = [] \/ addr = [c.(iso15765).(extendedAddress)];
  rw_buf : frame_len fd <= Z.of_nat (length c.(canFrameBuffer).(data))
}.

(** The bytes a connection takes from a frame with payload [pl]. *)
Definition taken (c : CanTp_SimplexChannelPrivateType) (pl : list Z) : list Z :=
  take (Z.to_nat (c.(transferTotal) - c.(transferCount))) pl.

Lemma wp_handleConsecutiveFrame sn pl p c (w : W) Q :
  p.(SduDataPtr) = addr ++ [sn] ++ pl -> p.(SduLength) = Z.of_nat (length p.(SduDataPtr)) ->
  p.(SduLength) <= frame_len fd -> pl <> [] -> rx_waiting c ->
  (Z.land sn 15 <> Z.land c.(iso15765).(framesHandledCount) 15 ->
     Q tt (Build_ChanState (rx_ended c)
             (PduR_CanTpRxIndication rc.(Rx_PduR_PduId) NTFRSLT_E_WRONG_SN w))) ->
  (forall r size w1,
     Z.land sn 15 = Z.land c.(iso15765).(framesHandledCount) 15 ->
     copy_to_pdur false rc.(Rx_PduR_PduId) c.(transferTotal) c.(sizeBuffer) (taken c pl) w
       = (r, size, w1) -> is_u16 size ->
     let n := Z.of_nat (length (taken c pl)) in
     let k := u16 (c.(iso15765).(framesHandledCount) + 1) in
     let c1 := set_sizeBuffer size c in
     match r with
     | BUFREQ_OK =>
         let c2 := set_transferCount (c.(transferCount) + n) c1 in
         if c.(transferCount) + n <? c.(transferTotal) then
           let nfc := COUNT_DECREMENT c.(iso15765).(nextFlowControlCount) in
           let c3 := set_nextFlowControlCount nfc (set_framesHandledCount k c2) in
           if (nfc =? 0) && (c.(iso15765).(BS) >? 0)
           then wp (sendFlowControlFrame cfg rc BUFREQ_OK) Q (Build_ChanState c3 w1)
           else Q tt (Build_ChanState (set_stateTimeoutCount (rc.(CanTpNcr) + 1) c3) w1)
         else Q tt (Build_ChanState (rx_ended c2)
                      (PduR_CanTpRxIndication rc.(Rx_PduR_PduId) NTFRSLT_OK w1))
     | BUFREQ_E_BUSY =>
         (forall d bc, length d = length c.(canFrameBuffer).(data) -> bc = n ->
            wp (sendFlowControlFrame cfg rc BUFREQ_E_BUSY) Q
              (Build_ChanState (set_mode CANTP_RX_PROCESSING (set_state RX_WAIT_CF_SDU_BUFFER
                 (set_stateTimeoutCount (rc.(CanTpNbr) + 1) (set_framesHandledCount k
                    (set_byteCount bc (set_data d c1)))))) w1)) /\
         Q tt (Build_ChanState (rx_ended c1)
                 (PduR_CanTpRxIndication rc.(Rx_PduR_PduId) NTFRSLT_E_NOT_OK w1))
     | BUFREQ_E_NOT_OK =>
         Q tt (Build_ChanState (rx_ended c1)
                 (PduR_CanTpRxIndication rc.(Rx_PduR_PduId) NTFRSLT_E_NOT_OK w1))
     | BUFREQ_E_OVFL => Q tt (Build_ChanState c1 w1)
     end) ->
  wp (handleConsecutiveFrame cfg rc p) Q (Build_ChanState c w).
Proof using H0 Hok.
  intros Hp Hpl HpL Hne Hw Hbad HQ. rewrite Hp in Hpl. rewrite Hpl in HpL.
  pose proof (rx_length_addr _ _ Hok) as Hal. pose proof (frame_len_bounds fd) as HL.
  destruct Hw as [Hst Hfd Hcnt Htot Hsz Hext' Hbuf].
  unfold handleConsecutiveFrame. rewrite (rx_extended _ _ Hok), Hp.
  apply wp_bind, (wp_mono _ (fun i s => i = (Z.of_nat (length addr), false) /\ s = Build_ChanState c w)).
  { pose proof (rc_addr _ _ Hok) as Haddr. destruct addr as [|a [|]] eqn:Ea; [done| |cbn in Hal; lia]. cbn.
    steps. eapply wp_deref; [reflexivity|]. steps.
    destruct (CanTpAddressingFormant rc) eqn:Hf; [|done].
    destruct (rc_nta _ _ Hok Hf) as (a' & E & _). rewrite E in Haddr. injection Haddr as ->.
    eapply wp_deref; [done|]. apply wp_ret. by rewrite Z.eqb_refl. }
  intros ? ? [-> ->]. steps. rewrite Hst, decide_True by done. steps.
  eapply wp_deref; [rewrite load_app_r, Z.sub_diag by lia; reflexivity|]. steps.
  unfold SEGMENT_NUMBER_MASK.
  destruct (Z.eqb_spec (Z.land sn 15) (Z.land c.(iso15765).(framesHandledCount) 15)) as [Hsn|Hsn]; cbn [negb].
  2:{ steps. by apply Hbad. }
  steps. specialize (HQ).
  assert (Hptr : ptr_at (addr ++ [sn] ++ pl) (Z.of_nat (length addr) + 1) = pl).
  { unfold ptr_at. replace (Z.to_nat _) with (length addr + 1)%nat by lia.
    by rewrite <- drop_drop, drop_app_length. }
  assert (Hlen : Z.of_nat (length (addr ++ [sn] ++ pl)) = Z.of_nat (length addr) + 1 + Z.of_nat (length pl)).
  { rewrite !length_app. cbn. lia. }
  assert (Hn : (if u16 (transferTotal c - transferCount c) <?
        u16 (SduLength p - (Z.of_nat (length addr) + 1))
      then u16 (transferTotal c - transferCount c)
      else u16 (SduLength p - (Z.of_nat (length addr) + 1))) = Z.of_nat (length (taken c pl))).
  { rewrite !u16_small by (unfold in_width; lia). rewrite Hpl, Hlen. unfold taken. rewrite length_take.
    destruct (Z.ltb_spec (transferTotal c - transferCount c)
      (Z.of_nat (length addr) + 1 + Z.of_nat (length pl) - (Z.of_nat (length addr) + 1))); lia. }
  rewrite Hn, Hptr.
  assert (Htk : take (length (taken c pl)) pl = taken c pl).
  { unfold taken. rewrite length_take.
    destruct (Nat.le_gt_cases (Z.to_nat (transferTotal c - transferCount c)) (length pl)).
    - by rewrite Nat.min_l by lia.
    - by rewrite !take_ge by lia. }
  assert (Htl : Z.of_nat (length (taken c pl)) <= Z.of_nat (length pl) /\
    Z.of_nat (length (taken c pl)) <= transferTotal c - transferCount c).
  { unfold taken. rewrite length_take. lia. }
  apply wp_copySegment; [lia|]. intros r size w1 Hcopy.
  unfold starts in Hcopy. rewrite Hst, bool_decide_false, Nat2Z.id, Htk in Hcopy by (intros ?; done).
  destruct (copy_to_pdur_laws _ _ _ _ _ _ _ _ _ Hcopy Hsz) as [Hsz1 _].
  specialize (HQ r size w1 Hsn Hcopy Hsz1). cbv zeta in HQ.
  destruct r; [rewrite decide_True by done | rewrite decide_False by done ..]; cbv beta iota; steps.
  - cbn [transferTotal transferCount set_transferCount set_sizeBuffer].
    rewrite (u16_small (transferCount c + _)), (u16_small (transferTotal c - _)) by (unfold in_width; lia).
    destruct (Z.ltb_spec (transferCount c + Z.of_nat (length (taken c pl))) (transferTotal c)).
    + rewrite (proj2 (Z.gtb_lt _ _)) by lia. steps.
      cbn [iso15765 nextFlowControlCount BS set_nextFlowControlCount set_framesHandledCount set_iso15765
        set_transferCount set_sizeBuffer iso_nextFlowControlCount iso_framesHandledCount].
      destruct (_ && _); [done|]. by steps.
    + replace (transferTotal c - (transferCount c + Z.of_nat (length (taken c pl))) >? 0) with false
        by (symmetry; rewrite Z.gtb_ltb; apply Z.ltb_ge; lia).
      by steps.
  - done.
  - destruct HQ as [HQ1 HQ2]. destruct (_ && _) eqn:Hfull; [|by steps].
    cbn [iso15765 nextFlowControlCount set_sizeBuffer] in Hfull.
    rewrite Z.sub_0_r, (u16_small (Z.of_nat _)) by (unfold in_width; lia).
    steps. replace ((if negb (bool_decide (addr = [])) then 2 else 1) + 0) with (Z.of_nat (length addr) + 1)
      by (destruct addr as [|? [|]]; [done | done | cbn in Hal; lia]).
    rewrite Hptr. apply wp_copySegmentToLocal; cbn [CanfdSupport canFrameBuffer set_sizeBuffer];
      rewrite ?Hfd; [lia | lia | done |]. intros d bc Hd _ Hbc.
    enough (Hpos : 0 < Z.of_nat (length (taken c pl)))
      by (rewrite (proj2 (Z.ltb_lt _ _)) by done; steps; apply HQ1; auto).
    apply andb_true_iff in Hfull as [_ Hfull]. rewrite (u16_small (_ - _)) in Hfull by (unfold in_width; lia).
    assert (6 < transferTotal c - transferCount c)
      by (destruct (negb _); apply Z.gtb_lt in Hfull; lia).
    unfold taken. rewrite length_take. destruct pl; [done|]. cbn [length]. lia.
  - done.
Qed.
(** ** Single frames *)
Record single_state (msg : list Z) (nsdu : Z) (buf : nat) (r : BufReq_ReturnType) (size : Z)
    (c : CanTp_SimplexChannelPrivateType) : Prop := {
  ss_fd : c.(CanfdSupport) = fd;
  ss_total : c.(transferTotal) = Z.of_nat (length msg);
  ss_buf : length c.(canFrameBuffer).(data) = buf;
  ss_size : c.(sizeBuffer) = size;
  ss_case : match r with
    | BUFREQ_E_BUSY =>
        c.(iso15765).(state) = RX_WAIT_SF_SDU_BUFFER /\ c.(transferCount) = 0 /\ c.(pduId) = nsdu /\
        c.(iso15765).(stateTimeoutCount) = rc.(CanTpNbr) + 1 /\
        c.(canFrameBuffer).(byteCount) = Z.of_nat (length msg) /\
        take (length msg) c.(canFrameBuffer).(data) = msg
    | _ => c.(iso15765).(state) = IDLE /\ c.(pduId) = INVALID_PDU_ID
    end
}.

Lemma sf_parse msg filler :
  fits_single fd addr msg = true -> 1 <= Z.of_nat (length msg) ->
  let p := single_frame fd addr msg ++ filler in
  Z.of_nat (length p) <= frame_len fd -> (fd = true -> 8 < Z.of_nat (length p)) ->
  getPduLength rc.(CanTpAddressingFormant) SINGLE_FRAME
    {| SduDataPtr := p; SduLength := Z.of_nat (length p) |} = Some (Z.of_nat (length msg)) /\
  ptr_at p (Z.of_nat (length addr) + if fd then 2 else 1) = msg ++ filler.
Proof using Hok.
  intros Hfs Hmsg p Hp Hfd. pose proof (rx_length_addr _ _ Hok) as Hal.
  unfold fits_single in Hfs. apply Z.leb_le in Hfs. unfold p, single_frame in *. split.
  - unfold getPduLength. cbn [SduLength SduDataPtr]. rewrite (rx_tpci_offset _ _ Hok).
    unfold MAX_SEGMENT_DATA_SIZE. destruct fd.
    + rewrite (proj2 (Z.gtb_lt _ _)) by auto. rewrite <- app_assoc, load_app_r by lia.
      replace (Z.of_nat (length addr) + 1 - Z.of_nat (length addr)) with 1 by lia.
      change (load _ 1) with (Some (Z.of_nat (length msg))). cbn [mbind option_bind].
      change ISO15765_TPCI_DL_FD with (Z.ones 8).
      rewrite Z.land_ones by lia. f_equal. apply Z.mod_small. cbn in Hfs. lia.
    + rewrite Z.gtb_ltb, (proj2 (Z.ltb_ge _ _)) by (cbn in Hp |- *; lia).
      rewrite <- app_assoc, load_app_r, Z.sub_diag by lia.
      change (load _ 0) with (Some (Z.of_nat (length msg))). cbn [mbind option_bind].
      change ISO15765_TPCI_DL with (Z.ones 4).
      rewrite Z.land_ones by lia. f_equal. apply Z.mod_small. cbn in Hfs. lia.
  - unfold ptr_at. rewrite <- app_assoc. destruct fd.
    + replace (Z.to_nat _) with (length addr + 2)%nat by lia. by rewrite <- drop_drop, drop_app_length.
    + replace (Z.to_nat _) with (length addr + 1)%nat by lia. by rewrite <- drop_drop, drop_app_length.
Qed.

Lemma wp_handleSingleFrame msg p nsdu c (w : W) Q :
  carries fd (single_frame fd addr msg) p ->
  fits_single fd addr msg = true -> 1 <= Z.of_nat (length msg) ->
  (fd = true -> 8 < p.(SduLength)) ->
  c.(iso15765).(state) = IDLE -> c.(CanfdSupport) = fd ->
  frame_len fd <= Z.of_nat (length c.(canFrameBuffer).(data)) ->
  (forall r size w1 c1,
    copy_to_pdur true rc.(Rx_PduR_PduId) (Z.of_nat (length msg)) 0 msg w = (r, size, w1) ->
    is_u16 size ->
    single_state msg nsdu (length c.(canFrameBuffer).(data)) r size c1 ->
    match r with
    | BUFREQ_E_BUSY => Q tt (Build_ChanState c1 w1)
    | _ => Q tt (Build_ChanState c1 (PduR_CanTpRxIndication rc.(Rx_PduR_PduId)
              (if decide (r = BUFREQ_OK) then NTFRSLT_OK else NTFRSLT_E_NOT_OK) w1))
    end) ->
  wp (handleSingleFrame cfg rc p nsdu) Q (Build_ChanState c w).
Proof using H0 Hok.
  intros (filler & Hp & Hpl & Hple) Hfs Hmsg Hfdlen Hst Hfd Hbuf HQ.
  pose proof (rx_length_addr _ _ Hok) as Hal. pose proof (frame_len_bounds fd) as HL.
  destruct p as [pd pl]. cbn [SduDataPtr SduLength] in *. rewrite Hp in Hpl. subst pl pd.
  destruct (sf_parse msg filler Hfs Hmsg Hple Hfdlen) as [Hlen Hptr].
  pose proof (rc_addr _ _ Hok) as Haddr.
  assert (Hmsgl : Z.of_nat (length msg) < frame_len fd).
  { unfold fits_single in Hfs. apply Z.leb_le in Hfs. destruct fd; cbn in *; lia. }
  unfold handleSingleFrame. rewrite (rx_extended _ _ Hok). cbn [SduDataPtr].
  apply wp_bind. eapply wp_deref; [exact Hlen|]. steps. rewrite Hfd.
  (* the checks of address and length *)
  apply (wp_mono _ (fun b s => b = true /\ s = Build_ChanState c w)).
  { unfold fits_single in Hfs. apply Z.leb_le in Hfs.
    unfold MAX_SF_DL_EXTENDADDR, MAX_SF_DL_STDADDR, MAX_SF_DL_EXTENDADDR_FD_SUPPORT, MAX_SF_DL_STDADDR_FD_SUPPORT.
    destruct addr as [|a [|]] eqn:Ea; [| |cbn in Hal; lia]; cbn -[Z.gtb Z.leb Z.eqb single_frame].
    - apply wp_ret. split; [|done]. destruct (_ || _) eqn:Hc; [|done].
      destruct fd; cbn in Hfs; cbn; [apply Z.leb_le; lia|].
      apply orb_true_iff in Hc as [Hc|Hc]; [apply Z.gtb_lt in Hc | apply Z.eqb_eq in Hc]; lia.
    - steps. eapply wp_deref; [reflexivity|]. steps.
      destruct (CanTpAddressingFormant rc) eqn:Hf; [|done].
      destruct (rc_nta _ _ Hok Hf) as (a' & E & _). rewrite E in Haddr. injection Haddr as ->.
      eapply wp_deref; [done|]. apply wp_ret. rewrite Z.eqb_refl. split; [|done].
      destruct (_ || _) eqn:Hc; [|done].
      destruct fd; cbn in Hfs; cbn; [apply Z.leb_le; lia|].
      apply orb_true_iff in Hc as [Hc|Hc]; [cbn in Hc; apply Z.gtb_lt in Hc | apply Z.eqb_eq in Hc]; lia. }
  intros ? ? [-> ->]. steps. apply wp_abort_idle; [by left|]. steps.
  destruct (initRx_spec c w) as (c0 & Hinit & Hst0 & Hfd0 & Hc0 & Hs0 & Hw0 & Hb0).
  eapply wp_run; [exact Hinit|]. rewrite Hfd in Hfd0. steps.
  replace (if negb (bool_decide (addr = [])) then if fd then 3 else 2 else if fd then 2 else 1)
    with (Z.of_nat (length addr) + if fd then 2 else 1)
    by (destruct addr as [|? [|]]; [by destruct fd | by destruct fd | cbn in Hal; lia]).
  rewrite Hptr. set (c1 := set_pduId _ _).
  assert (Hc1 : c1.(CanfdSupport) = fd /\ c1.(transferTotal) = Z.of_nat (length msg) /\
    c1.(sizeBuffer) = 0 /\ c1.(pduId) = nsdu /\ c1.(canFrameBuffer) = c.(canFrameBuffer) /\
    c1.(transferCount) = 0 /\ c1.(iso15765).(stateTimeoutCount) = rc.(CanTpNbr) + 1 /\
    c1.(iso15765).(state) = SF_OR_FF_RECEIVED_WAITING_PDUR_BUFFER) by (cbn; rewrite Hb0; done).
  clearbody c1. clear c0 Hinit Hst0 Hfd0 Hc0 Hs0 Hw0 Hb0.
  destruct Hc1 as (E1 & E2 & E3 & E4 & E5 & E6 & E7 & E8).
  apply wp_copySegment; [rewrite length_app; lia|]. intros r size w1 Hcopy.
  unfold starts in Hcopy. rewrite E8, E2, E3, bool_decide_true, Nat2Z.id, take_app_length in Hcopy by done.
  destruct (copy_to_pdur_laws _ _ _ _ _ _ _ _ _ Hcopy) as [Hsz _]; [by split|].
  specialize (HQ r size w1). rewrite E6.
  destruct c1 as [[] ? ? ? ? ? ? ? ?]. cbn in E1, E2, E3, E4, E5, E6, E7, E8. clear Haddr. subst.
  destruct r; [rewrite decide_True in * by done | rewrite decide_False in * by done ..]; cbv beta iota; steps.
  - apply HQ; [done..|]. by split.
  - apply HQ; [done..|]. by split.
  - apply wp_copySegmentToLocal; [rewrite length_app; lia | done | done |]. intros d bc Hd Htk Hbc. steps.
    rewrite Nat2Z.id, take_app_length in Htk. apply HQ; [done..|]. split; try done. cbn.
    rewrite Hbc by lia. done.
  - apply HQ; [done..|]. by split.
Qed.
End Handlers.
