(* ===== verification/CanTp_Integrity.v ===== *)
(** * CAN transport protocol: integrity of receptions

    A receiving connection is given the frames of one message in order, any of them
    missing, mixed with calls of the main function, while the upper layer and CanIf
    accept, refuse or delay whatever they like.  It reports success only if the
    upper layer has got exactly the message. *)

From S2P Require Import Prelude.
From S2P Require Import StateMonad.
From S2P Require Import ComStack.
From S2P Require Import CanTp.
From S2P Require Import CanTp_Steps.
From S2P Require Import CanTp_Tx.
From S2P Require Import CanTp_Rx.

#[local] Open Scope monad_scope.

(** ** Events *)
Inductive rx_event :=
| RxMain
| RxFrame (p : PduInfoType).

Definition frames_of (es : list rx_event) : list PduInfoType :=
  omap (fun e => match e with RxFrame p => Some p | RxMain => None end) es.

(** [lossy R l1 l2]: [l1] is what is left of [l2] after losses, [R] relating the
    elements that are left. *)
Inductive lossy {A B} (R : A -> B -> Prop) : list A -> list B -> Prop :=
| lossy_nil : lossy R [] []
| lossy_deliver a b la lb : R a b -> lossy R la lb -> lossy R (a :: la) (b :: lb)
| lossy_lose b la lb : lossy R la lb -> lossy R la (b :: lb).

Section Integrity.
Context {W : Type} `{CanTp_Laws W}.
Variables (DEV : bool) (cfg : CanTp_ConfigType) (rc : CanTp_RxNSduType) (fd : bool)
  (addr : list Z) (nsdu : Z).
Hypothesis Hok : rx_config_ok rc addr.

(** What the module does with a receiving connection on an event: see [main_channel]
    and [CanTp_RxIndication]. *)
Definition rx_event_step (e : rx_event) : M (ChanState W) unit :=
  match e with
  | RxMain =>
      let* id := rt pduId in
      if negb (id =? INVALID_PDU_ID) then rxPhySduStateMachine cfg rc else ret tt
  | RxFrame p =>
      let* ft := deref (getFrameType rc.(CanTpAddressingFormant) p) in
      if decide (ft = FLOW_CONTROL_FRAME) then ret tt else
      let* _ := set (set_CanfdSupport fd) in
      match ft with
      | SINGLE_FRAME => handleSingleFrame cfg rc p nsdu
      | FIRST_FRAME => handleFirstFrame DEV cfg rc p nsdu
      | CONSECUTIVE_FRAME => handleConsecutiveFrame cfg rc p
      | _ => ret tt
      end
  end.

Fixpoint rx_run (es : list rx_event) : M (ChanState W) unit :=
  match es with
  | [] => ret tt
  | e :: es => let* _ := rx_event_step e in rx_run es
  end.

(** The upper layer does not start a reception while it has bytes of another one. *)
Definition no_restart : Prop :=
  forall id n size (w : W), (obs w).(o_rx) <> [] ->
    (PduR_CanTpStartOfReception id n size w).1.1 <> BUFREQ_OK.
Hypothesis Hrestart : no_restart.

Variables (msg : list Z) (res0 : list (Z * Z)).
Hypothesis Hmsg : 1 <= Z.of_nat (length msg) <= 4095.

Abbreviation m := (cf_size fd addr).

(** No success reported so far. *)
Definition no_ok (w : W) : Prop :=
  exists new, (obs w).(o_rxres) = res0 ++ new /\ Forall (fun x => x.2 <> NTFRSLT_OK) new.

(** One success reported, and it is the last report. *)
Definition one_ok (w : W) : Prop :=
  exists new, (obs w).(o_rxres) = res0 ++ new ++ [(rc.(Rx_PduR_PduId), NTFRSLT_OK)] /\
    Forall (fun x => x.2 <> NTFRSLT_OK) new.

(** [k], [rest]: number and bytes of the frames to come; [count]: bytes taken so far.
    Nothing missed, or too much missed for the message to become complete. *)
Definition exact (k : Z) (rest : list Z) (count : Z) (handled : Z) : Prop :=
  handled = k /\ 1 <= k <= count /\ count + Z.of_nat (length rest) = Z.of_nat (length msg) /\
  drop (Z.to_nat count) msg = rest.
Definition behind (rest : list Z) (count : Z) : Prop :=
  count < Z.of_nat (length msg) /\
  (rest <> [] -> count + Z.of_nat (length rest) + Z.of_nat m <= Z.of_nat (length msg)).

Inductive rx_phase (k : Z) (rest : list Z) (c : CanTp_SimplexChannelPrivateType) (w : W) : Prop :=
| ph_idle :
    c.(iso15765).(state) = IDLE -> c.(pduId) = INVALID_PDU_ID -> no_ok w ->
    frame_len fd <= Z.of_nat (length c.(canFrameBuffer).(data)) -> rx_phase k rest c w
| ph_wait :
    rx_waiting fd addr c -> c.(transferTotal) = Z.of_nat (length msg) -> no_ok w ->
    (obs w).(o_rx) <> [] ->
    (exact k rest c.(transferCount) c.(iso15765).(framesHandledCount) /\
       (obs w).(o_rx) = take (Z.to_nat c.(transferCount)) msg) \/ behind rest c.(transferCount) ->
    rx_phase k rest c w
| ph_buf_first :
    c.(iso15765).(state) = RX_WAIT_CF_SDU_BUFFER -> rx_waiting fd addr (set_state RX_WAIT_CONSECUTIVE_FRAME c) ->
    c.(transferTotal) = Z.of_nat (length msg) -> no_ok w ->
    c.(transferCount) = 0 -> c.(canFrameBuffer).(byteCount) = Z.of_nat (ff_size fd addr) ->
    take (ff_size fd addr) c.(canFrameBuffer).(data) = take (ff_size fd addr) msg ->
    Z.of_nat (ff_size fd addr) < Z.of_nat (length msg) ->
    exact k rest (Z.of_nat (ff_size fd addr)) c.(iso15765).(framesHandledCount) \/
      behind rest (Z.of_nat (ff_size fd addr)) ->
    rx_phase k rest c w
| ph_buf_cons :
    c.(iso15765).(state) = RX_WAIT_CF_SDU_BUFFER -> is_u16 c.(sizeBuffer) ->
    (addr = [] \/ addr = [c.(iso15765).(extendedAddress)]) ->
    frame_len fd <= Z.of_nat (length c.(canFrameBuffer).(data)) ->
    0 <= c.(canFrameBuffer).(byteCount) <= Z.of_nat (length c.(canFrameBuffer).(data)) ->
    no_ok w -> (obs w).(o_rx) <> [] -> rx_phase k rest c w
| ph_single :
    c.(iso15765).(state) = RX_WAIT_SF_SDU_BUFFER -> no_ok w -> is_u16 c.(sizeBuffer) -> rest = [] ->
    frame_len fd <= Z.of_nat (length c.(canFrameBuffer).(data)) ->
    c.(canFrameBuffer).(byteCount) = Z.of_nat (length msg) ->
    take (length msg) c.(canFrameBuffer).(data) = msg ->
    (length msg <= length c.(canFrameBuffer).(data))%nat -> rx_phase k rest c w
| ph_done :
    c.(iso15765).(state) = IDLE -> c.(pduId) = INVALID_PDU_ID -> one_ok w ->
    (obs w).(o_rx) = msg -> rest = [] -> rx_phase k rest c w.

(** *** Worlds *)
Lemma no_ok_same w w' : (obs w').(o_rxres) = (obs w).(o_rxres) -> no_ok w -> no_ok w'.
Proof using Type. intros E (new & Hn & Hf). exists new. by rewrite E. Qed.

Lemma no_ok_indication id r w w' :
  no_ok w -> r <> NTFRSLT_OK -> (obs w').(o_rxres) = (obs w).(o_rxres) ->
  no_ok (PduR_CanTpRxIndication id r w').
Proof using Type.
  intros (new & Hn & Hf) Hr E. exists (new ++ [(id, r)]). rewrite law_rx_indication. cbn.
  rewrite E, Hn, <- app_assoc. split; [done|]. apply Forall_app_2; [done|]. by constructor.
Qed.

Lemma no_ok_success w : no_ok w -> one_ok (PduR_CanTpRxIndication rc.(Rx_PduR_PduId) NTFRSLT_OK w).
Proof using Type.
  intros (new & Hn & Hf). exists new. rewrite law_rx_indication. cbn. by rewrite Hn, app_assoc.
Qed.

Lemma copy_no_ok start id total size bs w r size' w' :
  copy_to_pdur start id total size bs w = (r, size', w') -> is_u16 size ->
  (obs w').(o_rxres) = (obs w).(o_rxres).
Proof using Type.
  intros E Hs. destruct (copy_to_pdur_laws _ _ _ _ _ _ _ _ _ E Hs) as [_ Ho].
  destruct (decide _); [by rewrite Ho|]. by destruct Ho as [-> | (_ & -> & _)].
Qed.

Lemma transmit_obs id f w r w' :
  CanIf_Transmit id f w = (r, w') ->
  (obs w').(o_rxres) = (obs w).(o_rxres) /\ (obs w').(o_rx) = (obs w).(o_rx).
Proof using Type. intros E. rewrite (law_transmit _ _ _ _ _ E). by destruct (r =? E_OK). Qed.

(** A lost frame, or one the connection ignores. *)
Lemma exact_lose k rest count handled :
  (1 <= m)%nat -> rest <> [] -> exact k rest count handled -> behind (drop m rest) count.
Proof using Type.
  intros Hm Hne (_ & _ & Hsum & _). assert (1 <= Z.of_nat (length rest)) by (destruct rest; [done|cbn; lia]).
  split; [lia|]. intros Hd. rewrite length_drop.
  assert (m < length rest)%nat; [|lia].
  destruct (Nat.lt_ge_cases m (length rest)); [done|]. by rewrite drop_ge in Hd.
Qed.

Lemma behind_lose rest count : behind rest count -> behind (drop m rest) count.
Proof using Type.
  intros [Hc Hb]. split; [done|]. intros Hd. rewrite length_drop.
  destruct rest as [|x rest]; [by rewrite drop_nil in Hd|]. specialize (Hb ltac:(done)). lia.
Qed.

Lemma rx_phase_lose k rest c w :
  (1 <= m)%nat -> rest <> [] -> rx_phase k rest c w -> rx_phase (k + 1) (drop m rest) c w.
Proof using Type.
  intros Hm Hne []; try by (constructor; auto).
  - apply ph_wait; auto. right. destruct H5 as [[He _]|Hb]; [by eapply exact_lose | by apply behind_lose].
  - apply ph_buf_first; auto. right. destruct H9 as [He|Hb]; [by eapply exact_lose | by apply behind_lose].
Qed.
(** *** Flow control frames *)
Lemma rx_waiting_same c c' :
  rx_waiting fd addr c -> c'.(iso15765).(state) = RX_WAIT_CONSECUTIVE_FRAME ->
  c'.(CanfdSupport) = c.(CanfdSupport) -> c'.(transferCount) = c.(transferCount) ->
  c'.(transferTotal) = c.(transferTotal) -> c'.(sizeBuffer) = c.(sizeBuffer) ->
  c'.(iso15765).(extendedAddress) = c.(iso15765).(extendedAddress) ->
  length c'.(canFrameBuffer).(data) = length c.(canFrameBuffer).(data) -> rx_waiting fd addr c'.
Proof using Type.
  intros [] E1 E2 E3 E4 E5 E6 E7. split; rewrite ?E1, ?E2, ?E3, ?E4, ?E5, ?E6, ?E7; done.
Qed.

(** [fc_chan] leaves alone what the phases depend on. *)
Lemma fc_chan_fields st c :
  let c' := fc_chan rc addr st c in
  c'.(iso15765).(state) = c.(iso15765).(state) /\ c'.(CanfdSupport) = c.(CanfdSupport) /\
  c'.(transferCount) = c.(transferCount) /\ c'.(transferTotal) = c.(transferTotal) /\
  c'.(sizeBuffer) = c.(sizeBuffer) /\ c'.(canFrameBuffer) = c.(canFrameBuffer) /\
  c'.(iso15765).(extendedAddress) = c.(iso15765).(extendedAddress) /\
  c'.(iso15765).(framesHandledCount) = c.(iso15765).(framesHandledCount) /\ c'.(pduId) = c.(pduId).
Proof using Type. by destruct st. Qed.

Lemma rx_ended_buf c : (rx_ended c).(canFrameBuffer) = c.(canFrameBuffer).
Proof using Type. done. Qed.

(** A flow control frame goes out and [K] continues, or the session ends. *)
Lemma wp_fc_phase st c w k rest (K : unit -> ChanState W -> Prop) :
  st <> BUFREQ_E_NOT_OK -> is_u16 c.(sizeBuffer) ->
  (addr = [] \/ addr = [c.(iso15765).(extendedAddress)]) ->
  frame_len fd <= Z.of_nat (length c.(canFrameBuffer).(data)) -> no_ok w ->
  (forall w', (obs w').(o_rx) = (obs w).(o_rx) -> no_ok w' ->
     K tt (Build_ChanState (fc_chan rc addr st c) w')) ->
  (forall c' w', c'.(iso15765).(state) = IDLE -> c'.(pduId) = INVALID_PDU_ID -> no_ok w' ->
     frame_len fd <= Z.of_nat (length c'.(canFrameBuffer).(data)) ->
     c' = rx_ended (fc_chan rc addr st c) -> (obs w').(o_rx) = (obs w).(o_rx) ->
     rx_phase k rest c' w' -> K tt (Build_ChanState c' w')) ->
  wp (sendFlowControlFrame cfg rc st) K (Build_ChanState c w).
Proof using Hok.
  intros Hst Hsz Hext Hbuf Hno HK Hend.
  apply (wp_sendFlowControlFrame cfg rc addr Hok); [done..|]. intros frame resp w' Hcall _ _.
  destruct (transmit_obs _ _ _ _ _ Hcall) as [E1 E2].
  destruct (fc_chan_fields st c) as (_ & _ & _ & _ & _ & Eb & _).
  destruct (resp =? E_OK).
  - apply HK; [done|]. by eapply no_ok_same.
  - apply Hend; try done.
    + by eapply no_ok_indication.
    + by rewrite rx_ended_buf, Eb.
    + rewrite law_rx_indication. done.
    + apply ph_idle; try done; [by eapply no_ok_indication|].
      by rewrite rx_ended_buf, Eb.
Qed.

(** A session that ends with an error. *)
Lemma rx_phase_ended k rest c w :
  no_ok w -> frame_len fd <= Z.of_nat (length c.(canFrameBuffer).(data)) ->
  rx_phase k rest (rx_ended c) w.
Proof using Type. intros. by apply ph_idle. Qed.

Lemma ff_size_lt : (1 <= ff_size fd addr)%nat /\ Z.of_nat (ff_size fd addr) < frame_len fd /\ (1 <= m)%nat /\
  Z.of_nat m = frame_len fd - 1 - Z.of_nat (length addr).
Proof using Hok Hmsg.
  pose proof (rx_length_addr _ _ Hok). unfold ff_size, cf_size. destruct fd; cbn; lia.
Qed.

(** *** The first frame *)
Lemma phase_first p c w :
  fits_single fd addr msg = false -> carries fd (first_frame fd addr msg) p ->
  c.(iso15765).(state) = IDLE -> c.(CanfdSupport) = fd -> no_ok w ->
  frame_len fd <= Z.of_nat (length c.(canFrameBuffer).(data)) ->
  wp (handleFirstFrame DEV cfg rc p nsdu)
    (fun _ s => rx_phase 1 (drop (ff_size fd addr) msg) s.(chan) s.(env)) (Build_ChanState c w).
Proof using Hok Hmsg H0.
  intros Hfs Hp Hst Hfd Hno Hbuf. pose proof ff_size_lt as (Hf1 & Hf2 & _).
  assert (Hlong : Z.of_nat (ff_size fd addr) < Z.of_nat (length msg)).
  { unfold fits_single in Hfs. apply Z.leb_gt in Hfs. unfold ff_size in *. destruct fd; cbn in *; lia. }
  eapply (wp_handleFirstFrame DEV cfg rc fd addr Hok msg); [done.. | lia | done | done | done |].
  intros r size w1 c1 Hcopy Hsz [Efd Etot Eh Esz Eext Eid Ewft Ebuf Ecase].
  assert (Hno1 : no_ok w1) by (eapply no_ok_same; [|exact Hno]; eapply copy_no_ok; [exact Hcopy|by split]).
  destruct (copy_to_pdur_laws _ _ _ _ _ _ _ _ _ Hcopy) as [_ Ho]; [by split|].
  assert (Hex : forall count, count = Z.of_nat (ff_size fd addr) -> exact 1 (drop (ff_size fd addr) msg) count 1).
  { intros ? ->. split; [done|]. split; [lia|]. rewrite length_drop, Nat2Z.id. split; [lia|done]. }
  assert (Hbuf1 : frame_len fd <= Z.of_nat (length (data (canFrameBuffer c1)))) by lia.
  destruct r; [rewrite decide_True in Ho by done | rewrite decide_False in Ho by done ..].
  - destruct Ecase as (Es & Ec & Et).
    eapply wp_fc_phase with (k := 1); try done; [by rewrite Esz |].
    intros w' Eo Hno'. destruct (fc_chan_fields BUFREQ_OK c1) as (F1 & F2 & F3 & F4 & F5 & F6 & F7 & F8 & F9).
    assert (Hox : o_rx (obs w') = take (ff_size fd addr) msg) by (by rewrite Eo, Ho).
    apply ph_wait; cbn [chan env]; [split| | | |]; rewrite ?F1, ?F2, ?F3, ?F4, ?F5, ?F6, ?F7, ?F8; try done; try lia.
    + by rewrite Esz.
    + intros E. rewrite E in Hox. apply (f_equal length) in Hox. rewrite length_take in Hox. cbn in Hox. lia.
    + left. rewrite Eh, Ec. split; [by apply Hex|]. by rewrite Nat2Z.id.
  - apply rx_phase_ended; [|done]. by eapply no_ok_indication.
  - destruct Ecase as (Es & Ec & Et & Ebc & Edt).
    eapply wp_fc_phase with (k := 1); try done; [by rewrite Esz |].
    intros w' Eo Hno'. destruct (fc_chan_fields BUFREQ_E_BUSY c1) as (F1 & F2 & F3 & F4 & F5 & F6 & F7 & F8 & F9).
    apply ph_buf_first; cbn [chan env]; rewrite ?F1, ?F2, ?F3, ?F4, ?F5, ?F6, ?F7, ?F8; try done.
    + split; cbn [set_state set_iso15765 iso15765 iso_state state CanfdSupport transferCount transferTotal
        sizeBuffer extendedAddress canFrameBuffer]; rewrite ?F1, ?F2, ?F3, ?F4, ?F5, ?F6, ?F7, ?F8; try done; try lia.
      by rewrite Esz.
    + left. rewrite Eh. by apply Hex.
  - eapply wp_fc_phase with (k := 1) (rest := drop (ff_size fd addr) msg); try done; [by rewrite Esz | |].
    + intros w' Eo Hno'. steps. apply rx_phase_ended; [done|].
      destruct (fc_chan_fields BUFREQ_E_OVFL c1) as (F1 & F2 & F3 & F4 & F5 & F6 & F7 & F8 & F9).
      by rewrite F6.
    + intros c' w' ? ? ? ? -> ? ?. steps. by apply rx_phase_ended.
Qed.
(** *** Consecutive frames *)
Lemma wp_cf_ignored sn pl p c w Q :
  p.(SduDataPtr) = addr ++ [sn] ++ pl -> c.(iso15765).(state) <> RX_WAIT_CONSECUTIVE_FRAME ->
  Q tt (Build_ChanState c w) -> wp (handleConsecutiveFrame cfg rc p) Q (Build_ChanState c w).
Proof using Hok Hmsg.
  intros Hp Hst HQ. unfold handleConsecutiveFrame. rewrite (rx_extended _ _ Hok), Hp.
  pose proof (rx_length_addr _ _ Hok) as Hal.
  apply wp_bind, (wp_mono _ (fun i s => i.2 = false /\ s = Build_ChanState c w)).
  { pose proof (rc_addr _ _ Hok) as Haddr. destruct addr as [|a [|]] eqn:Ea; [done| |cbn in Hal; lia]. cbn.
    steps. eapply wp_deref; [reflexivity|]. steps.
    destruct (CanTpAddressingFormant rc) eqn:Hf; [|done].
    destruct (rc_nta _ _ Hok Hf) as (a' & E & _). rewrite E in Haddr. injection Haddr as ->.
    eapply wp_deref; [done|]. apply wp_ret. by rewrite Z.eqb_refl. }
  intros [i f] ? [Hf ->]. cbn in Hf. subst f. steps. rewrite decide_False by done. by steps.
Qed.

Lemma set_CanfdSupport_id c : c.(CanfdSupport) = fd -> set_CanfdSupport fd c = c.
Proof using Type. intros <-. by destruct c. Qed.

(** The bytes taken from the next frame when nothing is missed. *)
Lemma taken_exact k rest c filler :
  exact k rest c.(transferCount) c.(iso15765).(framesHandledCount) ->
  c.(transferTotal) = Z.of_nat (length msg) ->
  (length (take m rest ++ filler) <= m)%nat ->
  taken c (take m rest ++ filler) = take m rest.
Proof using Type.
  intros (_ & _ & Hsum & _) Htot Hl. unfold taken. rewrite Htot.
  replace (Z.to_nat _) with (length rest) by lia. rewrite length_app, length_take in Hl.
  destruct (Nat.le_gt_cases m (length rest)).
  - assert (filler = []) as -> by (apply length_zero_iff_nil; lia).
    rewrite app_nil_r. apply take_ge. rewrite length_take. lia.
  - rewrite (take_ge rest m) by lia. apply take_app_length.
Qed.

Lemma exact_next k rest count handled :
  exact k rest count handled -> rest <> [] -> (1 <= m)%nat ->
  exact (k + 1) (drop m rest) (count + Z.of_nat (length (take m rest))) (k + 1).
Proof using Type.
  intros (_ & Hk & Hsum & Hd) Hne Hm. assert (1 <= length rest)%nat by (destruct rest; [done|cbn; lia]).
  rewrite length_take. split; [done|]. split; [lia|]. rewrite length_drop. split; [lia|].
  rewrite <- Hd, drop_drop, Hd.
  replace (Z.to_nat (count + _)) with (Z.to_nat count + m `min` length rest)%nat by lia.
  destruct (Nat.le_gt_cases m (length rest)); [by rewrite Nat.min_l by lia|].
  rewrite !drop_ge; [done | |]; lia.
Qed.

Lemma take_next k rest count handled :
  exact k rest count handled -> 0 <= count ->
  take (Z.to_nat count) msg ++ take m rest =
    take (Z.to_nat (count + Z.of_nat (length (take m rest)))) msg.
Proof using Type.
  intros (_ & _ & Hsum & Hd) Hc. rewrite <- Hd.
  replace (Z.to_nat (count + _)) with (Z.to_nat count + length (take m (drop (Z.to_nat count) msg)))%nat by lia.
  rewrite <- take_take_drop. f_equal. rewrite length_take.
  destruct (Nat.le_gt_cases m (length (drop (Z.to_nat count) msg))); [by rewrite Nat.min_l by lia|].
  by rewrite !take_ge by lia.
Qed.

Lemma phase_cons k rest p c w :
  rest <> [] -> carries fd (consecutive_frame fd addr k rest) p -> rx_phase k rest c w ->
  wp (let* _ := set (set_CanfdSupport fd) in handleConsecutiveFrame cfg rc p)
    (fun _ s => rx_phase (k + 1) (drop m rest) s.(chan) s.(env)) (Build_ChanState c w).
Proof using Hok Hmsg H0.
  intros Hne (filler & Hp & Hpl & Hple) Hph. pose proof ff_size_lt as (Hf1 & Hf2 & Hm & HmL).
  unfold consecutive_frame in Hp. rewrite <- !app_assoc in Hp.
  set (pl := take m rest ++ filler) in *.
  assert (Hplen : (length pl <= m)%nat).
  { rewrite Hpl, Hp, length_app in Hple. cbn in Hple. lia. }
  assert (Hrest1 : (1 <= length (take m rest))%nat).
  { rewrite length_take. destruct rest; [done|]. cbn [length]. lia. }
  assert (Hplne : pl <> []) by (unfold pl; destruct (take m rest); [cbn in Hrest1; lia | done]).
  steps. pose proof (rx_phase_lose k rest c w Hm Hne Hph) as Hlose.
  destruct Hph as [Hst Hid Hno Hbuf | Hw Htot Hno Hox Hcase | Hst Hw | Hst | Hst ? ? E | ? ? ? E]; try done.
  - eapply wp_cf_ignored; [done | cbn; congruence |]. by apply ph_idle.
  - rewrite set_CanfdSupport_id by apply Hw.
    eapply wp_handleConsecutiveFrame; [done.. | | ].
    { intros _. apply rx_phase_ended; [by eapply no_ok_indication | apply Hw]. }
    intros r size w1 Hsn Hcopy Hsz1.
    pose proof (copy_no_ok _ _ _ _ _ _ _ _ _ Hcopy (rw_size _ _ _ Hw)) as Hres.
    destruct (copy_to_pdur_laws _ _ _ _ _ _ _ _ _ Hcopy (rw_size _ _ _ Hw)) as [_ Ho].
    assert (Hno1 : no_ok w1) by by eapply no_ok_same.
    pose proof Hw as [Wst Wfd Wcnt Wtot Wsz Wext Wbuf].
    destruct r; [rewrite decide_True in Ho by done | rewrite decide_False in Ho by done ..]; cbv zeta.
    + (* accepted *)
      assert (Hox1 : o_rx (obs w1) <> []).
      { rewrite Ho. cbn. intros E. by apply app_eq_nil in E as [E _]. }
      assert (Hcase1 : (exact (k + 1) (drop m rest) (transferCount c + Z.of_nat (length (taken c pl)))
            (u16 (framesHandledCount (iso15765 c) + 1)) /\
          o_rx (obs w1) = take (Z.to_nat (transferCount c + Z.of_nat (length (taken c pl)))) msg)
        \/ behind (drop m rest) (transferCount c + Z.of_nat (length (taken c pl)))).
      { destruct Hcase as [[He Heo]|[Hb1 Hb2]].
        - left. unfold pl. rewrite (taken_exact k) by done.
          pose proof He as (-> & Hk & Hsum & _). rewrite u16_small by (unfold in_width; lia).
          split; [by eapply exact_next|]. rewrite Ho. cbn. rewrite Heo.
          unfold pl. rewrite (taken_exact k) by done. eapply take_next; [done | lia].
        - right. specialize (Hb2 Hne).
          assert (length (taken c pl) <= m)%nat by (unfold taken; rewrite length_take; lia).
          assert (1 <= length rest)%nat by (rewrite length_take in Hrest1; lia).
          split; [lia|]. intros Hd. rewrite length_drop.
          assert (m < length rest)%nat; [|lia].
          destruct (Nat.lt_ge_cases m (length rest)); [done|]. by rewrite drop_ge in Hd. }
      destruct (Z.ltb_spec (transferCount c + Z.of_nat (length (taken c pl))) (transferTotal c)) as [Hlt|Hge].
      * destruct (_ && _).
        -- eapply wp_fc_phase with (k := k + 1) (rest := drop m rest); try done.
           intros w' Eo Hno'. cbn [chan env]. apply ph_wait; cbn; try done; try (by rewrite Eo).
           split; cbn; try done; lia.
        -- apply ph_wait; cbn; try done. split; cbn; try done; lia.
      * destruct Hcase1 as [[He Heo]|[Hb1 _]]; [|lia].
        cbn [chan env]. apply ph_done; try done.
        -- by apply no_ok_success.
        -- rewrite law_rx_indication. cbn. rewrite Heo. apply take_ge. lia.
        -- destruct He as (_ & _ & Hsum & _). apply length_zero_iff_nil. lia.
    + apply rx_phase_ended; [by eapply no_ok_indication | done].
    + assert (Hox1 : o_rx (obs w1) <> []) by (by destruct Ho as [-> | (? & _)]).
      split.
      * intros d bc Hd ->. eapply wp_fc_phase with (k := k + 1) (rest := drop m rest); try done; [cbn; by rewrite Hd|].
        intros w' Eo Hno'. cbn [chan env]. apply ph_buf_cons; cbn; try done; try (by rewrite Eo); try by rewrite Hd.
        unfold taken. rewrite length_take. lia.
      * apply rx_phase_ended; [by eapply no_ok_indication | done].
    + assert (Hox1 : obs w1 = obs w) by (by destruct Ho as [-> | (? & _)]).
      apply ph_wait; cbn; rewrite ?Hox1; try done. right.
      destruct Hcase as [[He _]|Hb]; [by eapply exact_lose | by apply behind_lose].
  - rewrite set_CanfdSupport_id by apply Hw.
    eapply wp_cf_ignored; [done | congruence | done].
  - eapply wp_cf_ignored; [done | cbn; congruence |]. by apply ph_buf_cons.
Qed.
(** *** Single frames *)
Lemma phase_single p c w :
  fits_single fd addr msg = true -> carries fd (single_frame fd addr msg) p ->
  (fd = true -> 8 < p.(SduLength)) ->
  c.(iso15765).(state) = IDLE -> c.(CanfdSupport) = fd -> no_ok w ->
  frame_len fd <= Z.of_nat (length c.(canFrameBuffer).(data)) ->
  wp (handleSingleFrame cfg rc p nsdu)
    (fun _ s => rx_phase 1 [] s.(chan) s.(env)) (Build_ChanState c w).
Proof using Hok Hmsg H0.
  intros Hfs Hp Hlen Hst Hfd Hno Hbuf.
  assert (Hshort : Z.of_nat (length msg) < frame_len fd).
  { unfold fits_single in Hfs. apply Z.leb_le in Hfs. destruct fd; cbn in *; lia. }
  eapply (wp_handleSingleFrame cfg rc fd addr Hok msg); [done.. | lia | done | done | done | done |].
  intros r size w1 c1 Hcopy Hsz [Efd Etot Ebuf Esz Ecase].
  pose proof (copy_no_ok _ _ _ _ _ _ _ _ _ Hcopy ltac:(by split)) as Hres.
  destruct (copy_to_pdur_laws _ _ _ _ _ _ _ _ _ Hcopy) as [_ Ho]; [by split|].
  assert (Hbuf1 : frame_len fd <= Z.of_nat (length (data (canFrameBuffer c1)))) by lia.
  assert (Hno1 : no_ok w1) by by eapply no_ok_same.
  destruct r; [rewrite !decide_True in * by done | rewrite ?decide_False in * by done ..]; cbn [chan env].
  - destruct Ecase. apply ph_done; try done; [by apply no_ok_success|]. rewrite law_rx_indication. cbn. by rewrite Ho.
  - destruct Ecase. apply ph_idle; try done. by eapply no_ok_indication.
  - destruct Ecase as (E1 & E2 & E3 & E4 & E5 & E6). apply ph_single; try done; [by rewrite Esz | lia].
  - destruct Ecase. apply ph_idle; try done. by eapply no_ok_indication.
Qed.

(** *** The main function *)
Lemma wp_give_up_rx k rest c w :
  no_ok w -> frame_len fd <= Z.of_nat (length c.(canFrameBuffer).(data)) ->
  wp (give_up_rx rc) (fun _ s => rx_phase k rest s.(chan) s.(env)) (Build_ChanState c w).
Proof using Type.
  intros Hno Hbuf. unfold give_up_rx. steps. destruct (negb _); steps; cbn [chan env].
  - apply ph_idle; try done. by eapply no_ok_indication.
  - by apply ph_idle.
Qed.

(** The branches of [RX_WAIT_CF_SDU_BUFFER] in which the upper layer refuses: the
    session goes on as it was ([Hgo]) or ends. *)
Lemma wp_buffer_refused r t wft k rest c w :
  r <> BUFREQ_OK -> is_u16 c.(sizeBuffer) ->
  (addr = [] \/ addr = [c.(iso15765).(extendedAddress)]) -> no_ok w ->
  frame_len fd <= Z.of_nat (length c.(canFrameBuffer).(data)) ->
  (forall c' w', c'.(iso15765).(state) = c.(iso15765).(state) -> c'.(CanfdSupport) = c.(CanfdSupport) ->
     c'.(transferCount) = c.(transferCount) -> c'.(transferTotal) = c.(transferTotal) ->
     c'.(sizeBuffer) = c.(sizeBuffer) -> c'.(canFrameBuffer) = c.(canFrameBuffer) ->
     c'.(iso15765).(extendedAddress) = c.(iso15765).(extendedAddress) ->
     c'.(iso15765).(framesHandledCount) = c.(iso15765).(framesHandledCount) ->
     (obs w').(o_rx) = (obs w).(o_rx) -> no_ok w' -> rx_phase k rest c' w') ->
  wp (match r with
      | BUFREQ_OK => ret tt
      | BUFREQ_E_BUSY =>
          if t =? 0 then
            if wft <? rc.(CanTpWftMax) then
              let* _ := sendFlowControlFrame cfg rc BUFREQ_E_BUSY in
              set (set_stateTimeoutCount rc.(CanTpNbr))
            else give_up_rx rc
          else if wft >=? rc.(CanTpWftMax) then give_up_rx rc
          else ret tt
      | BUFREQ_E_NOT_OK => give_up_rx rc
      | BUFREQ_E_OVFL => ret tt
      end) (fun _ s => rx_phase k rest s.(chan) s.(env)) (Build_ChanState c w).
Proof using Hok.
  intros Hr Hsz Hext Hno Hbuf Hgo. destruct r; [done | by apply wp_give_up_rx | | steps; by apply Hgo].
  destruct (t =? 0); [destruct (wft <? _)|destruct (wft >=? _)];
    [|by apply wp_give_up_rx | by apply wp_give_up_rx | steps; by apply Hgo].
  apply wp_bind. eapply wp_fc_phase with (k := k) (rest := rest); try done.
  - intros w' Eo Hno'. steps. cbn [chan env].
    destruct (fc_chan_fields BUFREQ_E_BUSY c) as (F1 & F2 & F3 & F4 & F5 & F6 & F7 & F8 & F9).
    by apply Hgo.
  - intros c' w' ? ? ? ? _ _ _. steps. by apply ph_idle.
Qed.
(** Bytes handed over from the local buffer. *)
Lemma starts_not_waiting c :
  c.(iso15765).(state) <> RX_WAIT_CONSECUTIVE_FRAME -> starts c = true.
Proof using Type. intros. unfold starts. by apply bool_decide_true. Qed.

Lemma tick_buf_first k rest c w :
  c.(iso15765).(state) = RX_WAIT_CF_SDU_BUFFER ->
  rx_waiting fd addr (set_state RX_WAIT_CONSECUTIVE_FRAME c) ->
  c.(transferTotal) = Z.of_nat (length msg) -> no_ok w ->
  c.(transferCount) = 0 -> c.(canFrameBuffer).(byteCount) = Z.of_nat (ff_size fd addr) ->
  take (ff_size fd addr) c.(canFrameBuffer).(data) = take (ff_size fd addr) msg ->
  Z.of_nat (ff_size fd addr) < Z.of_nat (length msg) ->
  exact k rest (Z.of_nat (ff_size fd addr)) c.(iso15765).(framesHandledCount) \/
    behind rest (Z.of_nat (ff_size fd addr)) ->
  wp (rxPhySduStateMachine cfg rc) (fun _ s => rx_phase k rest s.(chan) s.(env)) (Build_ChanState c w).
Proof using Hok Hmsg H0.
  intros Hst Hw Htot Hno Hcnt Hbc Hdt Hlong Hcase. pose proof ff_size_lt as (Hf1 & Hf2 & _).
  destruct Hw as [_ Wfd _ Wtot Wsz Wext Wbuf]. cbn in Wfd, Wtot, Wsz, Wext, Wbuf.
  unfold rxPhySduStateMachine. steps. rewrite Hst. steps.
  set (t := TIMER_DECREMENT _). set (c1 := set_stateTimeoutCount t c).
  assert (Hc1 : c1.(canFrameBuffer) = c.(canFrameBuffer) /\ c1.(CanfdSupport) = c.(CanfdSupport) /\
    c1.(transferTotal) = c.(transferTotal) /\ c1.(transferCount) = c.(transferCount) /\
    c1.(sizeBuffer) = c.(sizeBuffer) /\ c1.(iso15765).(state) = c.(iso15765).(state) /\
    c1.(iso15765).(extendedAddress) = c.(iso15765).(extendedAddress) /\
    c1.(iso15765).(framesHandledCount) = c.(iso15765).(framesHandledCount)) by done.
  clearbody c1. destruct Hc1 as (G1 & G2 & G3 & G4 & G5 & G6 & G7 & G8).
  rewrite G1, Hbc.
  apply wp_copySegment; [lia|]. intros r size w1 Hcopy. rewrite starts_not_waiting in Hcopy by congruence.
  rewrite Nat2Z.id, Hdt, G3, G5, Htot in Hcopy.
  pose proof (copy_no_ok _ _ _ _ _ _ _ _ _ Hcopy Wsz) as Hres.
  destruct (copy_to_pdur_laws _ _ _ _ _ _ _ _ _ Hcopy Wsz) as [Hsz Ho].
  assert (Hno1 : no_ok w1) by by eapply no_ok_same.
  assert (Hgo : forall c' w', c'.(iso15765).(state) = c1.(iso15765).(state) ->
     c'.(CanfdSupport) = c1.(CanfdSupport) ->
     c'.(transferCount) = c1.(transferCount) -> c'.(transferTotal) = c1.(transferTotal) ->
     c'.(sizeBuffer) = size -> c'.(canFrameBuffer) = c1.(canFrameBuffer) ->
     c'.(iso15765).(extendedAddress) = c1.(iso15765).(extendedAddress) ->
     c'.(iso15765).(framesHandledCount) = c1.(iso15765).(framesHandledCount) ->
     (obs w').(o_rx) = (obs w1).(o_rx) -> no_ok w' -> rx_phase k rest c' w').
  { intros c' w' E1 E2 E3 E4 E5 E6 E7 E8 _ Hno'.
    apply ph_buf_first; rewrite ?E1, ?E2, ?E3, ?E4, ?E5, ?E6, ?E7, ?E8, ?G1, ?G2, ?G3, ?G4, ?G6, ?G7, ?G8; try done.
    split; cbn; rewrite ?E1, ?E2, ?E3, ?E4, ?E5, ?E6, ?E7, ?E8, ?G1, ?G2, ?G3, ?G4, ?G6, ?G7, ?G8; try done; lia. }
  destruct r; [rewrite !decide_True in * by done | rewrite !decide_False in * by done ..]; cbv beta iota; steps.
  - (* the first frame is taken *)
    cbn [transferTotal transferCount set_transferCount set_sizeBuffer].
    rewrite G3, G4, Hcnt, Htot, Z.add_0_l, (u16_small (Z.of_nat _)), (u16_small (_ - _)) by (unfold in_width; lia).
    rewrite (proj2 (Z.gtb_lt _ _)) by lia. steps.
    assert (Hox : o_rx (obs w1) = take (ff_size fd addr) msg) by by rewrite Ho.
    assert (Hox1 : take (ff_size fd addr) msg <> []).
    { intros E. apply (f_equal length) in E. rewrite length_take in E. cbn in E. lia. }
    assert (Hwait : forall c' w', c'.(CanfdSupport) = c1.(CanfdSupport) ->
      c'.(transferCount) = Z.of_nat (ff_size fd addr) ->
      c'.(transferTotal) = c1.(transferTotal) -> c'.(sizeBuffer) = size ->
      c'.(canFrameBuffer) = c1.(canFrameBuffer) ->
      c'.(iso15765).(extendedAddress) = c1.(iso15765).(extendedAddress) ->
      c'.(iso15765).(framesHandledCount) = c1.(iso15765).(framesHandledCount) ->
      c'.(iso15765).(state) = RX_WAIT_CONSECUTIVE_FRAME ->
      (obs w').(o_rx) = (obs w1).(o_rx) -> no_ok w' -> rx_phase k rest c' w').
    { intros c' w' E1 E2 E3 E4 E5 E6 E7 E8 E9 Hno'.
      apply ph_wait; rewrite ?E9, ?Hox; try done; [|congruence|].
      - split; rewrite ?E1, ?E2, ?E3, ?E4, ?E5, ?E6, ?G1, ?G2, ?G3, ?G7; try done; lia.
      - rewrite E7, E2, G8, Nat2Z.id. destruct Hcase; [by left | by right]. }
    eapply wp_fc_phase with (k := k) (rest := rest); try done; cbn [canFrameBuffer iso15765 set_transferCount
      set_sizeBuffer sizeBuffer]; rewrite ?G1, ?G7; try done.
    + intros w' Eo Hno'. steps. cbn [chan env].
      destruct (fc_chan_fields BUFREQ_OK (set_transferCount (Z.of_nat (ff_size fd addr)) (set_sizeBuffer size c1)))
        as (F1 & F2 & F3 & F4 & F5 & F6 & F7 & F8 & F9).
      apply Hwait; try done.
    + intros c' w' _ _ Hno' _ -> Eo _. steps. cbn [chan env].
      apply Hwait; try done.
  - eapply (wp_buffer_refused BUFREQ_E_NOT_OK t 0); try done; cbn; rewrite ?G1, ?G7; try done.
  - eapply (wp_buffer_refused BUFREQ_E_BUSY); try done; cbn; rewrite ?G1, ?G7; try done.
  - eapply (wp_buffer_refused BUFREQ_E_OVFL t 0); try done; cbn; rewrite ?G1, ?G7; try done.
Qed.

Lemma tick_buf_cons k rest c w :
  c.(iso15765).(state) = RX_WAIT_CF_SDU_BUFFER -> is_u16 c.(sizeBuffer) ->
  (addr = [] \/ addr = [c.(iso15765).(extendedAddress)]) ->
  frame_len fd <= Z.of_nat (length c.(canFrameBuffer).(data)) ->
  0 <= c.(canFrameBuffer).(byteCount) <= Z.of_nat (length c.(canFrameBuffer).(data)) ->
  no_ok w -> (obs w).(o_rx) <> [] ->
  wp (rxPhySduStateMachine cfg rc) (fun _ s => rx_phase k rest s.(chan) s.(env)) (Build_ChanState c w).
Proof using Hok Hrestart H0.
  intros Hst Hsz Hext Hbuf Hbc Hno Hox. unfold rxPhySduStateMachine. steps. rewrite Hst. steps.
  set (t := TIMER_DECREMENT _). set (c1 := set_stateTimeoutCount t c).
  assert (Hc1 : c1.(canFrameBuffer) = c.(canFrameBuffer) /\ c1.(sizeBuffer) = c.(sizeBuffer) /\
    c1.(iso15765).(state) = c.(iso15765).(state) /\
    c1.(iso15765).(extendedAddress) = c.(iso15765).(extendedAddress)) by done.
  clearbody c1. destruct Hc1 as (G1 & G5 & G6 & G7). rewrite G1.
  apply wp_copySegment; [lia|]. intros r size w1 Hcopy. rewrite starts_not_waiting in Hcopy by congruence.
  rewrite G5 in Hcopy. pose proof (copy_no_ok _ _ _ _ _ _ _ _ _ Hcopy Hsz) as Hres.
  destruct (copy_to_pdur_laws _ _ _ _ _ _ _ _ _ Hcopy Hsz) as [Hsz1 Ho].
  assert (Hno1 : no_ok w1) by by eapply no_ok_same.
  pose proof (Hrestart rc.(Rx_PduR_PduId) c1.(transferTotal) c.(sizeBuffer) w Hox) as Href.
  assert (Hr : r <> BUFREQ_OK).
  { unfold copy_to_pdur in Hcopy. destruct (PduR_CanTpStartOfReception _ _ _ w) as [[r1 s1] w0].
    cbn in Href. rewrite decide_False in Hcopy by done. congruence. }
  rewrite decide_False in Ho by done. rewrite decide_False by done. cbv beta iota.
  assert (Hobs : obs w1 = obs w).
  { destruct Ho as [E | (_ & _ & s1 & w2 & E)]; [done|]. by rewrite E in Href. }
  assert (Hgo : forall c' w', c'.(iso15765).(state) = c1.(iso15765).(state) ->
     c'.(sizeBuffer) = size -> c'.(canFrameBuffer) = c1.(canFrameBuffer) ->
     c'.(iso15765).(extendedAddress) = c1.(iso15765).(extendedAddress) ->
     (obs w').(o_rx) = (obs w1).(o_rx) -> no_ok w' -> rx_phase k rest c' w').
  { intros c' w' E1 E2 E3 E4 E5 Hno'.
    apply ph_buf_cons; rewrite ?E1, ?E2, ?E3, ?E4, ?E5, ?G1, ?G6, ?G7, ?Hobs; done. }
  steps.
  destruct r; [done| | |]; steps.
  - eapply (wp_buffer_refused BUFREQ_E_NOT_OK t 0); try done; cbn; rewrite ?G1, ?G7; try done.
    intros. apply Hgo; congruence || done.
  - eapply (wp_buffer_refused BUFREQ_E_BUSY); try done; cbn; rewrite ?G1, ?G7; try done.
    intros. apply Hgo; congruence || done.
  - eapply (wp_buffer_refused BUFREQ_E_OVFL t 0); try done; cbn; rewrite ?G1, ?G7; try done.
    intros. apply Hgo; congruence || done.
Qed.

Lemma tick_single k c w :
  c.(iso15765).(state) = RX_WAIT_SF_SDU_BUFFER -> no_ok w -> is_u16 c.(sizeBuffer) ->
  frame_len fd <= Z.of_nat (length c.(canFrameBuffer).(data)) ->
  c.(canFrameBuffer).(byteCount) = Z.of_nat (length msg) ->
  take (length msg) c.(canFrameBuffer).(data) = msg ->
  (length msg <= length c.(canFrameBuffer).(data))%nat ->
  wp (getBuffSingleFrame rc) (fun _ s => rx_phase k [] s.(chan) s.(env)) (Build_ChanState c w).
Proof using H0 Hmsg.
  intros Hst Hno Hsz Hbuf Hbc Hdt Hlen. unfold getBuffSingleFrame. steps.
  set (t := TIMER_DECREMENT _). set (c1 := set_stateTimeoutCount t c).
  assert (Hc1 : c1.(canFrameBuffer) = c.(canFrameBuffer) /\ c1.(sizeBuffer) = c.(sizeBuffer) /\
    c1.(iso15765).(state) = c.(iso15765).(state)) by done.
  clearbody c1. destruct Hc1 as (G1 & G5 & G6). rewrite G1, Hbc.
  apply wp_copySegment; [lia|]. intros r size w1 Hcopy. rewrite starts_not_waiting in Hcopy by congruence.
  rewrite G5, Nat2Z.id, Hdt in Hcopy. pose proof (copy_no_ok _ _ _ _ _ _ _ _ _ Hcopy Hsz) as Hres.
  destruct (copy_to_pdur_laws _ _ _ _ _ _ _ _ _ Hcopy Hsz) as [Hsz1 Ho].
  assert (Hno1 : no_ok w1) by by eapply no_ok_same.
  destruct (decide (r = BUFREQ_OK)) as [Hr|Hr]; cbv beta iota; steps.
  - cbn [chan env]. apply ph_done; try done; [by apply no_ok_success|].
    rewrite law_rx_indication. cbn. by rewrite Ho.
  - destruct (decide _).
    + steps. apply ph_idle; try done. cbn. by rewrite G1.
    + steps. cbn [chan env]. apply ph_single; cbn; rewrite ?G1, ?G6; done.
Qed.

Lemma phase_tick k rest c w :
  rx_phase k rest c w ->
  wp (rx_event_step RxMain) (fun _ s => rx_phase k rest s.(chan) s.(env)) (Build_ChanState c w).
Proof using Hok Hmsg Hrestart H0.
  intros Hph. cbn. steps. destruct (negb _) eqn:Hid; [|by steps].
  pose proof Hph as [Hst Hinv | Hw | Hst | Hst | Hst ? ? -> | Hst Hinv].
  - by rewrite Hinv in Hid.
  - unfold rxPhySduStateMachine. steps. rewrite (rw_state _ _ _ Hw). steps.
    destruct (_ =? 0); steps; cbn [chan env].
    + apply rx_phase_ended; [by eapply no_ok_indication | apply Hw].
    + apply ph_wait; try done. by eapply rx_waiting_same; [exact Hw | apply Hw | ..].
  - by apply tick_buf_first.
  - by apply tick_buf_cons.
  - unfold rxPhySduStateMachine. steps. rewrite Hst. by apply tick_single.
  - by rewrite Hinv in Hid.
Qed.
(** *** Types of frames *)
Lemma getFrameType_at p b :
  load p.(SduDataPtr) (Z.of_nat (length addr)) = Some b ->
  getFrameType rc.(CanTpAddressingFormant) p =
    Some (let t := Z.land b 0x30 in
          if t =? 0 then SINGLE_FRAME else if t =? 0x10 then FIRST_FRAME
          else if t =? 0x20 then CONSECUTIVE_FRAME
          else if t =? 0x30 then FLOW_CONTROL_FRAME else INVALID_FRAME).
Proof using Hok.
  intros Hb. unfold getFrameType. pose proof (rx_tpci_offset _ _ Hok) as E.
  destruct (CanTpAddressingFormant rc); rewrite <- E in Hb; by rewrite Hb.
Qed.

Lemma frame_type_byte b :
  0 <= b < 16 ->
  Z.land b 0x30 = 0 /\ Z.land (0x10 + b) 0x30 = 0x10 /\ Z.land (0x20 + b) 0x30 = 0x20.
Proof using Type.
  intros Hb. clear -Hb.
  assert (HH := all_bytes_spec (fun b => if b <? 16 then (Z.land b 0x30 =? 0) &&
    (Z.land (0x10 + b) 0x30 =? 0x10) && (Z.land (0x20 + b) 0x30 =? 0x20) else true) b
    ltac:(by vm_compute) ltac:(unfold in_width; lia)). cbn beta in HH.
  rewrite (proj2 (Z.ltb_lt _ _)) in HH by lia.
  rewrite !andb_true_iff, !Z.eqb_eq in HH. tauto.
Qed.

(** The single frame of a CAN FD message is long enough to be recognised. *)
Definition arrives (p : PduInfoType) (f : list Z) : Prop :=
  carries fd f p /\ (fd = true -> fits_single fd addr msg = true -> 8 < p.(SduLength)).

Lemma wp_cons_event k rest p c w :
  rest <> [] -> arrives p (consecutive_frame fd addr k rest) -> rx_phase k rest c w ->
  wp (rx_event_step (RxFrame p))
    (fun _ s => rx_phase (k + 1) (drop m rest) s.(chan) s.(env)) (Build_ChanState c w).
Proof using Hok Hmsg H0.
  intros Hne [Hp _] Hph. cbn. apply wp_bind.
  eapply wp_deref.
  - destruct Hp as (filler & Hp & _). eapply getFrameType_at. rewrite Hp. unfold consecutive_frame.
    rewrite <- !app_assoc, load_app_r, Z.sub_diag by lia. reflexivity.
  - destruct (frame_type_byte (k mod 16)) as (_ & _ & E); [apply Z.mod_pos_bound; lia|].
    rewrite E. cbn -[wp bind set handleConsecutiveFrame]. rewrite decide_False by done.
    by apply phase_cons.
Qed.

Lemma lossy_cons_frames l p k rest c w :
  (length addr <= 1)%nat -> (1 <= m)%nat ->
  lossy arrives (p :: l) (cframes fd addr k rest) -> rx_phase k rest c w ->
  exists k' rest', rest' <> [] /\ rx_phase k' rest' c w /\
    arrives p (consecutive_frame fd addr k' rest') /\
    lossy arrives l (cframes fd addr (k' + 1) (drop m rest')).
Proof using Type.
  intros Ha Hm. remember (length rest) as n eqn:Hn. revert k rest Hn.
  induction n as [n IH] using lt_wf_ind. intros k rest -> Hl Hph.
  assert (Hne : rest <> []) by (intros ->; rewrite cframes_nil in Hl; inversion Hl).
  rewrite cframes_cons in Hl by done. inversion Hl; subst.
  - by exists k, rest.
  - eapply IH; [|reflexivity|done|by apply rx_phase_lose].
    rewrite length_drop. destruct rest; [done|]. cbn [length]. lia.
Qed.

Lemma wp_cons_run es k rest c w :
  lossy arrives (frames_of es) (cframes fd addr k rest) -> rx_phase k rest c w ->
  wp (rx_run es) (fun _ s => exists k rest, rx_phase k rest s.(chan) s.(env)) (Build_ChanState c w).
Proof using Hok Hmsg Hrestart H0.
  pose proof (rx_length_addr _ _ Hok) as Ha. pose proof ff_size_lt as (_ & _ & Hm & _).
  revert k rest c w. induction es as [|[|p] es IH]; intros k rest c w Hl Hph; cbn [rx_run].
  - steps. eauto.
  - apply wp_bind. eapply wp_mono; [by apply phase_tick|]. intros ? [c' w'] Hph'. by eapply IH.
  - apply wp_bind. cbn in Hl.
    destruct (lossy_cons_frames _ _ _ _ _ _ Ha Hm Hl Hph) as (k' & rest' & Hne & Hph' & Hp & Hl').
    eapply wp_mono; [by apply (wp_cons_event k' rest')|]. intros ? [c' w'] Hph1. by eapply IH.
Qed.

(** *** From the start *)
Lemma wp_first_event p f fs c w :
  segmentation fd addr msg = f :: fs -> arrives p f ->
  c.(iso15765).(state) = IDLE -> no_ok w ->
  frame_len fd <= Z.of_nat (length c.(canFrameBuffer).(data)) ->
  exists k rest, fs = cframes fd addr k rest /\
  wp (rx_event_step (RxFrame p)) (fun _ s => rx_phase k rest s.(chan) s.(env)) (Build_ChanState c w).
Proof using Hok Hmsg H0.
  intros Hseg [Hp Hlen] Hst Hno Hbuf. unfold segmentation in Hseg.
  destruct (fits_single fd addr msg) eqn:Hfs.
  - injection Hseg as <- <-. exists 1, []. split; [done|]. cbn [rx_event_step]. apply wp_bind.
    unfold fits_single in Hfs. apply Z.leb_le in Hfs.
    assert (Hb : exists b, 0 <= b < 16 /\ load (SduDataPtr p) (Z.of_nat (length addr)) = Some b).
    { destruct Hp as (filler & -> & _). unfold single_frame. rewrite <- !app_assoc, load_app_r, Z.sub_diag by lia.
      destruct fd; cbn in *; [exists 0 | exists (Z.of_nat (length msg))]; (split; [lia | done]). }
    destruct Hb as (b & Hb & Hld). eapply wp_deref; [by apply getFrameType_at|].
    destruct (frame_type_byte b Hb) as (E & _). rewrite E. cbn [Z.eqb]. rewrite decide_False by done. steps.
    assert (Hfs' : fits_single fd addr msg = true) by (by apply Z.leb_le). apply phase_single; auto.
  - injection Hseg as <- <-. exists 1, (drop (ff_size fd addr) msg). split; [done|].
    cbn [rx_event_step]. apply wp_bind. eapply wp_deref.
    { destruct Hp as (filler & Hp & _). eapply getFrameType_at. rewrite Hp. unfold first_frame.
      rewrite <- !app_assoc, load_app_r, Z.sub_diag by lia. reflexivity. }
    destruct (frame_type_byte (Z.of_nat (length msg) / 256)) as (_ & E & _).
    { split; [apply Z.div_pos | apply Z.div_lt_upper_bound]; lia. }
    rewrite E. cbn [Z.eqb Pos.eqb]. rewrite decide_False by done. steps. by apply phase_first.
Qed.

Lemma wp_rx_run es c w :
  lossy arrives (frames_of es) (segmentation fd addr msg) ->
  c.(iso15765).(state) = IDLE -> c.(pduId) = INVALID_PDU_ID -> no_ok w ->
  frame_len fd <= Z.of_nat (length c.(canFrameBuffer).(data)) ->
  wp (rx_run es) (fun _ s => exists k rest, rx_phase k rest s.(chan) s.(env)) (Build_ChanState c w).
Proof using Hok Hmsg Hrestart H0.
  intros Hl Hst Hid Hno Hbuf. destruct (segmentation fd addr msg) as [|f fs] eqn:Hseg.
  { unfold segmentation in Hseg. by destruct (fits_single _ _ _). }
  induction es as [|[|p] es IH]; cbn [rx_run frames_of omap list_omap] in *.
  - steps. exists 1, []. by apply ph_idle.
  - apply wp_bind. cbn [rx_event_step]. steps. rewrite Hid. cbn. steps. by apply IH.
  - apply wp_bind. inversion Hl as [|? ? ? ? Hp Hl'|? ? ? Hl']; subst.
    + destruct (wp_first_event p f fs c w) as (k & rest & -> & Hwp); try done.
      eapply wp_mono; [done|]. intros ? [c' w'] Hph. by eapply wp_cons_run.
    + assert (Hcf : exists k rest, fs = cframes fd addr k rest).
      { unfold segmentation in Hseg. destruct (fits_single _ _ _); injection Hseg as _ <-; [by exists 1, []|].
        by eexists 1, _. }
      destruct Hcf as (k & rest & ->).
      assert (Hrun := wp_cons_run (RxFrame p :: es) k rest c w Hl' ltac:(by apply ph_idle)).
      cbn [rx_run] in Hrun. unfold wp, bind in Hrun |- *.
      by destruct (rx_event_step _ _) as [[? ?]|].
Qed.
End Integrity.
