(* ===== verification/CanTp_Module.v ===== *)
(** * CAN transport protocol: from connections to the module

    What the entry points of the module do when it is configured with one channel
    and one N-SDU: they run the handlers of that connection, so runs of a connection
    ([CanTp_Tx], [CanTp_Integrity]) are runs of the module. *)

From S2P Require Import Prelude.
From S2P Require Import StateMonad.
From S2P Require Import ComStack.
From S2P Require Import CanTp.
From S2P Require Import CanTp_Steps.
From S2P Require Import CanTp_Tx.
From S2P Require Import CanTp_Rx.
From S2P Require Import CanTp_Integrity.

#[local] Open Scope monad_scope.

(** ** Nodes with one channel and one N-SDU *)
Definition general (period pad : Z) : CanTp_GeneralType :=
  {| main_function_period := period; number_of_sdus := 1; number_of_pdus := 1;
     pdu_list_size := 1; padding := pad |}.

Definition sender_config (period pad : Z) (tc : CanTp_TxNSduType) (fd : bool) : CanTp_ConfigType :=
  {| CanTpGeneral := general period pad;
     CanTpNSduList := [{| direction := IS015765_TRANSMIT; configData := CanTpTxNSdu tc;
                          CanTpFDSupport := fd |}];
     CanTpRxIdList := [{| Id_CanTpAddressingMode := tc.(CanTpAddressingMode); CanTpNSduIndex := 0;
                          CanTpReferringTxIndex := 0; CanTpPduId := 0 |}] |}.

Definition receiver_config (period pad : Z) (rc : CanTp_RxNSduType) (fd : bool) : CanTp_ConfigType :=
  {| CanTpGeneral := general period pad;
     CanTpNSduList := [{| direction := ISO15765_RECEIVE; configData := CanTpRxNSdu rc;
                          CanTpFDSupport := fd |}];
     CanTpRxIdList := [{| Id_CanTpAddressingMode := rc.(CanTpAddressingFormant); CanTpNSduIndex := 0;
                          CanTpReferringTxIndex := 0xFFFF; CanTpPduId := 0 |}] |}.

Lemma bind_run {S A B} (m : M S A) (f : A -> M S B) s a s' :
  m s = Some (a, s') -> bind m f s = f a s'.
Proof. unfold bind. by intros ->. Qed.

Section Lift.
Context {W : Type} `{CanTp_Env W}.
Variable DEV : bool.

Definition node_state (cfg : CanTp_ConfigType) (c : CanTp_ChannelPrivateType) (w : W) : CanTp_State W :=
  Build_CanTp_State (Build_CanTp_RunTimeDataType false CANTP_ON [c]) (Some cfg) w.

(** A handler on one connection of the channel. *)
Definition lift {A} (k : Connection) (cfg : CanTp_ConfigType) (c : CanTp_ChannelPrivateType)
    (h : M (ChanState W) A) (w : W) : option (A * CanTp_State W) :=
  '(a, s) ← h (Build_ChanState (get_connection k c) w);
  Some (a, node_state cfg (put_connection k s.(chan) c) s.(env)).

(** *** The sender *)
Section Sender.
Variables (period pad : Z) (tc : CanTp_TxNSduType) (fd : bool).
Hypothesis Hch : tc.(CanTpTxChannel) = 0%nat.
Abbreviation cfg := (sender_config period pad tc fd).

Lemma sender_Transmit len c w :
  CanTp_Transmit DEV 0 (Some len) (node_state cfg c w)
  = lift TX cfg c (start_transmit DEV tc 0 fd (Some len)) w.
Proof using Hch.
  destruct tc, DEV; cbn in Hch; subst; reflexivity.
Qed.

Lemma sender_TxConfirmation c w :
  CanTp_TxConfirmation DEV 0 (node_state cfg c w) = lift TX cfg c (tx_event_step cfg tc TxConfirmation) w.
Proof using Hch.
  destruct tc, DEV; cbn in Hch; subst; reflexivity.
Qed.

Lemma sender_MainFunction c w :
  c.(rxChnl).(pduId) = INVALID_PDU_ID -> c.(functionalChnl).(pduId) = INVALID_PDU_ID ->
  (c.(txChnl).(pduId) = 0 \/ c.(txChnl).(pduId) = INVALID_PDU_ID) ->
  CanTp_MainFunction DEV (node_state cfg c w) = lift TX cfg c (tx_event_step cfg tc MainFunction) w.
Proof using Type.
  intros Hrx Hfn Htx. destruct c as [t r f]. cbn [txChnl rxChnl functionalChnl] in *.
  destruct r, f. cbn in Hrx, Hfn. subst.
  destruct Htx as [E|E]; destruct t; cbn in E; subst; [|reflexivity].
  lazy -[txSduStateMachine].
  match goal with |- context [txSduStateMachine ?a ?b ?s] =>
    destruct (txSduStateMachine a b s) as [[[] []]|] end; reflexivity.
Qed.

(** A flow control frame. *)
Lemma sender_RxIndication p c w :
  getFrameType tc.(CanTpAddressingMode) p = Some FLOW_CONTROL_FRAME ->
  (tc.(CanTpAddressingMode) = CANTP_EXTENDED ->
     exists a, load p.(SduDataPtr) 0 = Some a /\ tc.(Tx_CanTpNSa) = Some a) ->
  CanTp_RxIndication DEV 0 p (node_state cfg c w)
  = lift TX cfg c (tx_event_step cfg tc (FlowControl p)) w.
Proof using Hch.
  intros Hft Hext.
  assert (Hsearch : rx_id_search cfg 0 p 1 0 = Some 0).
  { assert (Hm : rx_id_matches cfg (Build_CanTp_RxIdType tc.(CanTpAddressingMode) 0 0 0) 0 p = Some true).
    { unfold rx_id_matches. cbn [CanTpPduId Id_CanTpAddressingMode CanTpReferringTxIndex CanTpNSduIndex Z.eqb negb].
      destruct (CanTpAddressingMode tc) eqn:Hm; [|done]. rewrite Hft. cbn [mbind option_bind].
      rewrite decide_True by done. change (tx_config _ 0) with (Some tc). cbn [mbind option_bind].
      destruct (Hext eq_refl) as (a & -> & ->). cbn [mbind option_bind]. by rewrite Z.eqb_refl. }
    change (rx_id_search cfg 0 p 1 0) with (b ← rx_id_matches cfg (Build_CanTp_RxIdType tc.(CanTpAddressingMode) 0 0 0) 0 p;
      if (b : bool) && negb (u16 0 =? INVALID_PDU_ID) then Some (u16 0) else Some INVALID_PDU_ID).
    by rewrite Hm. }
  unfold CanTp_RxIndication.
  rewrite (bind_run config _ _ cfg (node_state cfg c w)) by done.
  replace (0 >=? number_of_pdus _) with false by done.
  rewrite (bind_run module_state _ _ CANTP_ON (node_state cfg c w)) by done.
  rewrite decide_False by (intros Hn; by apply Hn).
  rewrite (bind_run (deref _) _ _ 0 (node_state cfg c w)) by (unfold deref; cbn [CanTpGeneral sender_config
    pdu_list_size general]; change (Z.to_nat 1) with 1%nat; by rewrite Hsearch).
  replace (0 =? INVALID_PDU_ID) with false by done.
  rewrite (bind_run (deref _) _ _ (Build_CanTp_RxIdType tc.(CanTpAddressingMode) 0 0 0) (node_state cfg c w))
    by done.
  rewrite (bind_run (deref _) _ _ FLOW_CONTROL_FRAME (node_state cfg c w))
    by (unfold deref; cbn [Id_CanTpAddressingMode]; by rewrite Hft).
  rewrite decide_True by done. cbn [CanTpReferringTxIndex Z.eqb negb].
  rewrite (bind_run (deref _) _ _ tc (node_state cfg c w)) by done.
  by rewrite Hch.
Qed.
End Sender.

(** *** The receiver *)
Section Receiver.
Variables (period pad : Z) (rc : CanTp_RxNSduType) (fd : bool).
Hypothesis Hch : rc.(CanTpRxChannel) = 0%nat.
Hypothesis Hphys : rc.(CanTpRxTaType) = CANTP_PHYSICAL.
Abbreviation cfg := (receiver_config period pad rc fd).

Lemma receiver_TxConfirmation c w :
  CanTp_TxConfirmation DEV 0 (node_state cfg c w) = lift RX cfg c (set (set_NasNarPending false)) w.
Proof using Hch. clear Hphys. destruct rc, DEV; cbn in Hch; subst; reflexivity. Qed.

Lemma receiver_MainFunction c w :
  c.(txChnl).(pduId) = INVALID_PDU_ID -> c.(functionalChnl).(pduId) = INVALID_PDU_ID ->
  (c.(rxChnl).(pduId) = 0 \/ c.(rxChnl).(pduId) = INVALID_PDU_ID) ->
  CanTp_MainFunction DEV (node_state cfg c w)
  = lift RX cfg c (rx_event_step DEV cfg rc fd 0 RxMain) w.
Proof using Type.
  intros Htx Hfn Hrx. destruct c as [t r f]. cbn [txChnl rxChnl functionalChnl] in *.
  destruct t, f. cbn in Htx, Hfn. subst.
  destruct Hrx as [E|E]; destruct r; cbn in E; subst; [|reflexivity].
  lazy -[rxPhySduStateMachine].
  match goal with |- context [rxPhySduStateMachine ?a ?b ?s] =>
    destruct (rxPhySduStateMachine a b s) as [[[] []]|] end; reflexivity.
Qed.

(** A frame other than flow control. *)
Lemma receiver_RxIndication p ft c w :
  getFrameType rc.(CanTpAddressingFormant) p = Some ft -> ft <> FLOW_CONTROL_FRAME ->
  (rc.(CanTpAddressingFormant) = CANTP_EXTENDED ->
     exists a, load p.(SduDataPtr) 0 = Some a /\ rc.(Rx_CanTpNTa) = Some a) ->
  CanTp_RxIndication DEV 0 p (node_state cfg c w)
  = lift RX cfg c (rx_event_step DEV cfg rc fd 0 (RxFrame p)) w.
Proof using Hch Hphys.
  intros Hft Hnfc Hext.
  assert (Hsearch : rx_id_search cfg 0 p 1 0 = Some 0).
  { assert (Hm : rx_id_matches cfg (Build_CanTp_RxIdType rc.(CanTpAddressingFormant) 0 0xFFFF 0) 0 p = Some true).
    { unfold rx_id_matches. cbn [CanTpPduId Id_CanTpAddressingMode CanTpReferringTxIndex CanTpNSduIndex Z.eqb negb].
      destruct (CanTpAddressingFormant rc) eqn:Hm; [|done]. rewrite Hft. cbn [mbind option_bind].
      rewrite decide_False by done. change (Z.to_nat 0) with 0%nat.
      cbn [mbind option_bind lookup list_lookup CanTpNSduList receiver_config direction].
      rewrite decide_True by done. change (rx_config _ 0) with (Some rc). cbn [mbind option_bind].
      destruct (Hext eq_refl) as (a & -> & ->). cbn [mbind option_bind]. by rewrite Z.eqb_refl. }
    change (rx_id_search cfg 0 p 1 0) with (b ← rx_id_matches cfg (Build_CanTp_RxIdType rc.(CanTpAddressingFormant) 0 0xFFFF 0) 0 p;
      if (b : bool) && negb (u16 0 =? INVALID_PDU_ID) then Some (u16 0) else Some INVALID_PDU_ID).
    by rewrite Hm. }
  unfold CanTp_RxIndication.
  rewrite (bind_run config _ _ cfg (node_state cfg c w)) by done.
  replace (0 >=? number_of_pdus _) with false by done.
  rewrite (bind_run module_state _ _ CANTP_ON (node_state cfg c w)) by done.
  rewrite decide_False by (intros Hn; by apply Hn).
  rewrite (bind_run (deref _) _ _ 0 (node_state cfg c w)) by (unfold deref; cbn [CanTpGeneral receiver_config
    pdu_list_size general]; change (Z.to_nat 1) with 1%nat; by rewrite Hsearch).
  replace (0 =? INVALID_PDU_ID) with false by done.
  rewrite (bind_run (deref _) _ _ (Build_CanTp_RxIdType rc.(CanTpAddressingFormant) 0 0xFFFF 0) (node_state cfg c w))
    by done.
  rewrite (bind_run (deref _) _ _ ft (node_state cfg c w))
    by (unfold deref; cbn [Id_CanTpAddressingMode]; by rewrite Hft).
  rewrite decide_False by done. cbn [CanTpNSduIndex Z.eqb negb].
  rewrite (bind_run (deref _) _ _ rc (node_state cfg c w)) by done.
  rewrite (bind_run (deref _) _ _ (Build_CanTp_NSduType ISO15765_RECEIVE (CanTpRxNSdu rc) fd) (node_state cfg c w))
    by done.
  rewrite Hch, Hphys, decide_False by done. cbn [CanTpFDSupport].
  unfold lift, rx_event_step. rewrite (bind_run (deref _) _ (Build_ChanState _ w) ft (Build_ChanState _ w))
    by (unfold deref; rewrite Hft; reflexivity).
  by rewrite decide_False.
Qed.
End Receiver.

Create HintDb keeps.

(** ** Runs of the module

    [keeps I h]: where [h] ends, it has kept [I]. *)
Definition keeps {A} (I : CanTp_SimplexChannelPrivateType -> Prop) (h : M (ChanState W) A) : Prop :=
  forall s a s', I s.(chan) -> h s = Some (a, s') -> I s'.(chan).

Lemma keeps_bind {A B} I (h : M _ A) (f : A -> M _ B) :
  keeps I h -> (forall a, keeps I (f a)) -> keeps I (bind h f).
Proof.
  intros Hh Hf s a s' HI E. unfold bind in E. destruct (h s) as [[b s1]|] eqn:E1; [|done].
  eapply Hf; [eapply Hh; [exact HI | exact E1] | exact E].
Qed.
Lemma keeps_ret {A} I (a : A) : keeps I (ret a).
Proof. intros s b s' HI [= <- <-]. done. Qed.
Lemma keeps_rt {A} I (f : _ -> A) : keeps I (rt f).
Proof. intros s b s' HI [= <- <-]. done. Qed.
Lemma keeps_deref {A} I (o : option A) : keeps I (deref o).
Proof. intros s b s' HI E. unfold deref in E. destruct o; [|done]. by injection E as <- <-. Qed.
Lemma keeps_call {A} I (f : W -> A * W) : keeps I (call f).
Proof. intros s b s' HI E. unfold call in E. destruct (f (env s)). by injection E as <- <-. Qed.
Lemma keeps_notify I (f : W -> W) : keeps I (notify f).
Proof. intros s b s' HI [= <- <-]. done. Qed.
Lemma keeps_get {A} I (f : ChanState W -> A) : keeps I (get f).
Proof. intros s b s' HI [= <- <-]. done. Qed.
Lemma keeps_set (I : _ -> Prop) f : (forall c, I c -> I (f c)) -> keeps I (set f).
Proof. intros Hf s b s' HI [= <- <-]. by apply Hf. Qed.

Definition used (c : CanTp_SimplexChannelPrivateType) : Prop := c.(pduId) = 0 \/ c.(pduId) = INVALID_PDU_ID.

(** Run through a handler, [used] being kept by each assignment. *)
Ltac keeps_used :=
  repeat first
    [ assumption
    | lazymatch goal with
      | |- keeps _ (bind _ _) => apply keeps_bind; [|intros]
      | |- keeps _ (ret _) => apply keeps_ret
      | |- keeps _ (rt _) => apply keeps_rt
      | |- keeps _ (get _) => apply keeps_get
      | |- keeps _ (deref _) => apply keeps_deref
      | |- keeps _ (call _) => apply keeps_call
      | |- keeps _ (notify _) => apply keeps_notify
      | |- keeps _ (set _) => apply keeps_set; intros; first [done | by left | by right]
      | |- keeps _ (match ?x with _ => _ end) => destruct x
      | |- keeps _ (let _ := _ in _) => cbv zeta
      | |- forall _, _ => intros
      | |- _ => solve [auto with keeps]
      end ].

Lemma keeps_tx_event cfg tc e : keeps used (tx_event_step cfg tc e).
Proof.
  destruct e; cbn [tx_event_step]; unfold txSduStateMachine, tx_wait_transmit, tx_timeout,
    handleNextTxFrameSent, handleFlowControlFrame, sendNextTxFrame, canTansmitPaddingHelper, end_tx_session.
  all: keeps_used.
Qed.

Lemma keeps_call_sizeBuffer f : keeps used (call_sizeBuffer f).
Proof. unfold call_sizeBuffer. keeps_used. Qed.
#[local] Hint Resolve keeps_call_sizeBuffer : keeps.
Lemma keeps_copySegment rc seg n : keeps used (copySegmentToPduRRxBuffer rc seg n).
Proof. unfold copySegmentToPduRRxBuffer. keeps_used. Qed.
Lemma keeps_copy_local_loop seg size n i : keeps used (copy_local_loop seg size n i).
Proof. revert i. induction n as [|n IH]; intros i; cbn [copy_local_loop]; keeps_used. Qed.
#[local] Hint Resolve keeps_copySegment keeps_copy_local_loop : keeps.
Lemma keeps_copySegmentToLocal seg n : keeps used (copySegmentToLocalRxBuffer seg n).
Proof. unfold copySegmentToLocalRxBuffer. keeps_used. Qed.
Lemma keeps_sendFlowControlFrame cfg rc st : keeps used (sendFlowControlFrame cfg rc st).
Proof. unfold sendFlowControlFrame, canReceivePaddingHelper, end_rx_session. keeps_used. Qed.
#[local] Hint Resolve keeps_copySegmentToLocal keeps_sendFlowControlFrame : keeps.

(** The handlers of a receiving connection. *)
Lemma keeps_rxPhySduStateMachine cfg rc : keeps used (rxPhySduStateMachine cfg rc).
Proof. unfold rxPhySduStateMachine, getBuffSingleFrame, give_up_rx, end_rx_session. keeps_used. Qed.
Lemma keeps_handleConsecutiveFrame cfg rc p : keeps used (handleConsecutiveFrame cfg rc p).
Proof. unfold handleConsecutiveFrame, end_rx_session. keeps_used. Qed.
Lemma keeps_handleSingleFrame cfg rc p : keeps used (handleSingleFrame cfg rc p 0).
Proof. unfold handleSingleFrame, abort_ongoing, initRx15765RuntimeData, end_rx_session. keeps_used. Qed.
Lemma keeps_handleFirstFrame cfg rc p : keeps used (handleFirstFrame DEV cfg rc p 0).
Proof.
  unfold handleFirstFrame, abort_ongoing, initRx15765RuntimeData, end_rx_session, DET_REPORTERROR. keeps_used.
Qed.
#[local] Hint Resolve keeps_rxPhySduStateMachine keeps_handleConsecutiveFrame keeps_handleSingleFrame
  keeps_handleFirstFrame : keeps.

Lemma keeps_rx_event cfg rc fd e : keeps used (rx_event_step DEV cfg rc fd 0 e).
Proof. destruct e; cbn [rx_event_step]; keeps_used. Qed.

Fixpoint run_all (calls : list (M (CanTp_State W) unit)) : M (CanTp_State W) unit :=
  match calls with
  | [] => ret tt
  | f :: calls => let* _ := f in run_all calls
  end.

Lemma lift_bind {A B} k cfg c (h : M (ChanState W) A) (f : A -> M (ChanState W) B) w :
  lift k cfg c (bind h f) w =
  ('(a, s) ← h (Build_ChanState (get_connection k c) w);
   lift k cfg (put_connection k s.(chan) c) (f a) s.(env)).
Proof.
  unfold lift, bind. destruct (h _) as [[a [c1 w1]]|]; [|done]. cbn [mbind option_bind chan env].
  replace (get_connection k (put_connection k c1 c)) with c1 by (by destruct k).
  destruct (f a _) as [[b s]|]; [|done]. cbn [mbind option_bind]. by destruct k.
Qed.

(** The calls that concern a transmission: the main function, confirmations, and flow
    control frames for this node. *)
Definition tx_call (e : tx_event) : M (CanTp_State W) unit :=
  match e with
  | MainFunction => CanTp_MainFunction DEV
  | TxConfirmation => CanTp_TxConfirmation DEV 0
  | FlowControl p => CanTp_RxIndication DEV 0 p
  end.

Definition flow_control_for (tc : CanTp_TxNSduType) (e : tx_event) : Prop :=
  match e with
  | FlowControl p =>
      (4 <= length p.(SduDataPtr))%nat /\
      getFrameType tc.(CanTpAddressingMode) p = Some FLOW_CONTROL_FRAME /\
      (tc.(CanTpAddressingMode) = CANTP_EXTENDED ->
         exists a, load p.(SduDataPtr) 0 = Some a /\ tc.(Tx_CanTpNSa) = Some a)
  | _ => True
  end.

Lemma run_sender period pad tc fd es c w :
  tc.(CanTpTxChannel) = 0%nat -> Forall (flow_control_for tc) es ->
  c.(rxChnl).(pduId) = INVALID_PDU_ID -> c.(functionalChnl).(pduId) = INVALID_PDU_ID -> used c.(txChnl) ->
  let cfg := sender_config period pad tc fd in
  run_all (map tx_call es) (node_state cfg c w) = lift TX cfg c (tx_run cfg tc es) w.
Proof.
  intros Hch Hes Hrx Hfn Hused cfg. revert c w Hrx Hfn Hused. induction es as [|e es IH]; intros c w Hrx Hfn Hused.
  { unfold lift. cbn. by destruct c. }
  apply Forall_cons_1 in Hes as [He Hes]. cbn [map run_all tx_run]. rewrite lift_bind. unfold bind.
  assert (E : tx_call e (node_state cfg c w) = lift TX cfg c (tx_event_step cfg tc e) w).
  { destruct e as [| |p]; cbn [tx_call].
    - by apply sender_MainFunction.
    - by apply sender_TxConfirmation.
    - destruct He as (_ & Hft & Hext). by apply sender_RxIndication. }
  rewrite E. unfold lift at 1. destruct (tx_event_step cfg tc e _) as [[[] s]|] eqn:Es; [|done].
  cbn [mbind option_bind]. apply (IH Hes); [done | done |].
  by eapply (keeps_tx_event cfg tc e (Build_ChanState (get_connection TX c) w)).
Qed.

(** The calls that concern a reception: the main function and frames for this node. *)
Definition rx_call (e : rx_event) : M (CanTp_State W) unit :=
  match e with
  | RxMain => CanTp_MainFunction DEV
  | RxFrame p => CanTp_RxIndication DEV 0 p
  end.

Definition data_frame_for (rc : CanTp_RxNSduType) (p : PduInfoType) : Prop :=
  (exists ft, getFrameType rc.(CanTpAddressingFormant) p = Some ft /\ ft <> FLOW_CONTROL_FRAME) /\
  (rc.(CanTpAddressingFormant) = CANTP_EXTENDED ->
     exists a, load p.(SduDataPtr) 0 = Some a /\ rc.(Rx_CanTpNTa) = Some a).

Lemma run_receiver period pad rc fd es c w :
  rc.(CanTpRxChannel) = 0%nat -> rc.(CanTpRxTaType) = CANTP_PHYSICAL ->
  Forall (data_frame_for rc) (frames_of es) ->
  c.(txChnl).(pduId) = INVALID_PDU_ID -> c.(functionalChnl).(pduId) = INVALID_PDU_ID -> used c.(rxChnl) ->
  let cfg := receiver_config period pad rc fd in
  run_all (map rx_call es) (node_state cfg c w) = lift RX cfg c (rx_run DEV cfg rc fd 0 es) w.
Proof.
  intros Hch Hphys Hes Htx Hfn Hused cfg. revert c w Htx Hfn Hused.
  induction es as [|e es IH]; intros c w Htx Hfn Hused.
  { unfold lift. cbn. by destruct c. }
  cbn [map run_all rx_run]. rewrite lift_bind. unfold bind.
  assert (E : rx_call e (node_state cfg c w) = lift RX cfg c (rx_event_step DEV cfg rc fd 0 e) w /\
    Forall (data_frame_for rc) (frames_of es)).
  { destruct e as [|p]; cbn [rx_call frames_of omap list_omap] in *.
    - split; [by apply receiver_MainFunction | done].
    - apply Forall_cons_1 in Hes as [((ft & Hft & Hne) & Hext) Hes].
      split; [by eapply receiver_RxIndication | done]. }
  destruct E as [E Hes']. rewrite E. unfold lift at 1.
  destruct (rx_event_step DEV cfg rc fd 0 e _) as [[[] s]|] eqn:Es; [|done].
  cbn [mbind option_bind]. apply (IH Hes'); [done | done |].
  by eapply (keeps_rx_event cfg rc fd e (Build_ChanState (get_connection RX c) w)).
Qed.

(** ** Initialisation *)
Definition power_on (c : CanTp_ChannelPrivateType) (w : W) : CanTp_State W :=
  Build_CanTp_State (Build_CanTp_RunTimeDataType false CANTP_OFF [c]) None w.

Definition init_conn (md : CanTp_TransferInstanceMode) (wft : Z) (c : CanTp_SimplexChannelPrivateType) :=
  set_pduId INVALID_PDU_ID (set_mode md (set_CanTpWftMaxCounter wft (set_sizeBuffer 0 (set_transferCount 0
    (set_transferTotal 0 (set_nextFlowControlCount 0 (set_framesHandledCount 0
      (set_NasNarPending false (set_state IDLE c))))))))).

Definition init_channel (c : CanTp_ChannelPrivateType) : CanTp_ChannelPrivateType :=
  Build_CanTp_ChannelPrivateType (init_conn CANTP_TX_WAIT c.(txChnl).(CanTpWftMaxCounter) c.(txChnl))
    (init_conn CANTP_RX_WAIT 0 c.(rxChnl)) (init_conn CANTP_RX_WAIT 0 c.(functionalChnl)).

Lemma init_node cfg c w :
  CanTp_Init DEV (Some cfg) (power_on c w) = Some (tt, node_state cfg (init_channel c) w).
Proof.
  unfold CanTp_Init. rewrite bool_decide_false, andb_false_r by done.
  destruct c as [[[] ? ? ? []] [[] ? ? ? []] [[] ? ? ? []]]. vm_compute. reflexivity.
Qed.

(** What a handler does to one connection of a node. *)
Lemma wp_lift {A} k cfg cc (h : M (ChanState W) A) w (Q : A -> CanTp_SimplexChannelPrivateType -> W -> Prop) :
  wp h (fun a s => Q a s.(chan) s.(env)) (Build_ChanState (get_connection k cc) w) ->
  exists a c' w', lift k cfg cc h w = Some (a, node_state cfg (put_connection k c' cc) w') /\ Q a c' w'.
Proof.
  intros Hwp. apply wp_inv in Hwp as (a & [c' w'] & Hh & HQ). exists a, c', w'.
  unfold lift. by rewrite Hh.
Qed.
End Lift.
