(* ===== verification/CanTp_Node.v ===== *)
(** * CAN transport protocol: an environment

    A concrete upper layer and CAN interface: one receive buffer, one message to
    send, the frames on the bus.  Answers other than acceptance can be scripted.
    It satisfies the laws of [CanTp_Steps], so what is proved of every environment
    holds of something that runs. *)

From S2P Require Import Prelude.
From S2P Require Import StateMonad.
From S2P Require Import ComStack.
From S2P Require Import CanTp.
From S2P Require Import CanTp_Steps.

Record Node := {
  n_capacity : Z;
  n_restarts : bool;
  n_rx : list Z;
  n_tx : list Z;
  n_bus : list (Z * list Z);
  n_rxres : list (Z * Z);
  n_txres : list (Z * Z);
  (** Answers of the receive buffer and of CanIf to come; acceptance after that. *)
  n_answers : list BufReq_ReturnType;
  n_canif : list Z
}.

Definition with_rx v n := Build_Node n.(n_capacity) n.(n_restarts) v n.(n_tx) n.(n_bus)
  n.(n_rxres) n.(n_txres) n.(n_answers) n.(n_canif).
Definition with_tx v n := Build_Node n.(n_capacity) n.(n_restarts) n.(n_rx) v n.(n_bus)
  n.(n_rxres) n.(n_txres) n.(n_answers) n.(n_canif).
Definition with_bus v n := Build_Node n.(n_capacity) n.(n_restarts) n.(n_rx) n.(n_tx) v
  n.(n_rxres) n.(n_txres) n.(n_answers) n.(n_canif).
Definition with_rxres v n := Build_Node n.(n_capacity) n.(n_restarts) n.(n_rx) n.(n_tx) n.(n_bus)
  v n.(n_txres) n.(n_answers) n.(n_canif).
Definition with_txres v n := Build_Node n.(n_capacity) n.(n_restarts) n.(n_rx) n.(n_tx) n.(n_bus)
  n.(n_rxres) v n.(n_answers) n.(n_canif).
Definition with_answers v n := Build_Node n.(n_capacity) n.(n_restarts) n.(n_rx) n.(n_tx) n.(n_bus)
  n.(n_rxres) n.(n_txres) v n.(n_canif).
Definition with_canif v n := Build_Node n.(n_capacity) n.(n_restarts) n.(n_rx) n.(n_tx) n.(n_bus)
  n.(n_rxres) n.(n_txres) n.(n_answers) v.

Definition space (n : Node) : Z := u16 (n.(n_capacity) - Z.of_nat (length n.(n_rx))).

(** The next scripted answer, or acceptance. *)
Definition answer (n : Node) : BufReq_ReturnType * Node :=
  match n.(n_answers) with
  | [] => (BUFREQ_OK, n)
  | a :: l => (a, with_answers l n)
  end.

Definition node_start (id len size : Z) (n : Node) : BufReq_ReturnType * Z * Node :=
  let '(a, n) := answer n in
  if decide (a <> BUFREQ_OK) then (a, size, n)
  else if bool_decide (n.(n_rx) = []) || n.(n_restarts) then
    if len <=? n.(n_capacity) then (BUFREQ_OK, space (with_rx [] n), with_rx [] n)
    else (BUFREQ_E_OVFL, size, n)
  else (BUFREQ_E_NOT_OK, size, n).

Definition node_copy_rx (id : Z) (bs : list Z) (size : Z) (n : Node) : BufReq_ReturnType * Z * Node :=
  let '(a, n) := answer n in
  if decide (a <> BUFREQ_OK) then (a, size, n)
  else if Z.of_nat (length (n.(n_rx) ++ bs)) <=? n.(n_capacity) then
    let n := with_rx (n.(n_rx) ++ bs) n in (BUFREQ_OK, space n, n)
  else (BUFREQ_E_NOT_OK, size, n).

Definition node_copy_tx (id len size : Z) (n : Node) : CopyTxData_Result * Node :=
  if (0 <=? len) && (len <=? Z.of_nat (length n.(n_tx))) then
    let rest := drop (Z.to_nat len) n.(n_tx) in
    ({| ctd_ret := BUFREQ_OK; ctd_data := take (Z.to_nat len) n.(n_tx); ctd_SduLength := len;
        ctd_available := u16 (Z.of_nat (length rest)) |}, with_tx rest n)
  else
    ({| ctd_ret := BUFREQ_E_NOT_OK; ctd_data := []; ctd_SduLength := len; ctd_available := size |}, n).

Definition node_transmit (id : Z) (f : list Z) (n : Node) : Z * Node :=
  match n.(n_canif) with
  | r :: l =>
      let n := with_canif l n in
      (r, if r =? E_OK then with_bus (n.(n_bus) ++ [(id, f)]) n else n)
  | [] => (E_OK, with_bus (n.(n_bus) ++ [(id, f)]) n)
  end.

#[export] Instance node_env : CanTp_Env Node := {
  PduR_CanTpStartOfReception := node_start;
  PduR_CanTpCopyRxData := node_copy_rx;
  PduR_CanTpCopyTxData := node_copy_tx;
  PduR_CanTpRxIndication id r n := with_rxres (n.(n_rxres) ++ [(id, r)]) n;
  PduR_CanTpTxConfirmation id r n := with_txres (n.(n_txres) ++ [(id, r)]) n;
  CanIf_Transmit := node_transmit;
  Det_ReportError _ _ n := n;
  indeterminate _ _ := 0
}.

Definition node_obs (n : Node) : Obs :=
  Build_Obs n.(n_rx) n.(n_tx) n.(n_bus) n.(n_rxres) n.(n_txres).

Lemma answer_obs n a n' : answer n = (a, n') -> node_obs n' = node_obs n.
Proof. unfold answer. destruct (n_answers n); intros [= <- <-]; done. Qed.

Lemma is_u16_u16 x : is_u16 (u16 x).
Proof. unfold u16. apply in_width_mod. lia. Qed.

#[export] Instance node_laws : CanTp_Laws Node.
Proof.
  refine {| obs := node_obs |}; cbn [PduR_CanTpStartOfReception PduR_CanTpCopyRxData PduR_CanTpCopyTxData
    PduR_CanTpRxIndication PduR_CanTpTxConfirmation CanIf_Transmit Det_ReportError node_env].
  - intros id n size w r size' w'. unfold node_start. destruct (answer w) as [a w1] eqn:Ea.
    pose proof (answer_obs _ _ _ Ea) as Eo. destruct (decide (a <> BUFREQ_OK)) as [Hne|_].
    { intros [= <- <- <-]. split; [done|]. by rewrite decide_False. }
    destruct (bool_decide (n_rx w1 = []) || n_restarts w1) eqn:Hb.
    + destruct (n <=? _); intros [= <- <- <-].
      * split; [intros _; apply is_u16_u16|]. by rewrite <- Eo.
      * split; [done|]. by rewrite decide_False.
    + intros [= <- <- <-]. split; [done|]. by rewrite decide_False.
  - intros id bs size w r size' w'. unfold node_copy_rx. destruct (answer w) as [a w1] eqn:Ea.
    pose proof (answer_obs _ _ _ Ea) as Eo. destruct (decide (a <> BUFREQ_OK)) as [Hne|_].
    { intros [= <- <- <-]. split; [done|]. by rewrite decide_False. }
    destruct (_ <=? _); intros [= <- <- <-].
    + split; [intros _; apply is_u16_u16|]. by rewrite <- Eo.
    + split; [done|]. by rewrite decide_False.
  - intros id n size w res w' E Hn. revert E. unfold node_copy_tx. rewrite (proj2 (Z.leb_le 0 n)) by done.
    destruct (Z.leb_spec n (Z.of_nat (length (n_tx w)))); cbn [andb]; intros [= <- <-]; cbn.
    + split; [intros _; apply is_u16_u16|]. split; [rewrite length_take; lia|].
      rewrite decide_True by done. done.
    + split; [done|]. split; [lia|]. by rewrite decide_False.
  - done.
  - done.
  - intros id f w r w'. unfold node_transmit. destruct (n_canif w) as [|a l].
    + by intros [= <- <-].
    + destruct (a =? E_OK) eqn:Ea; intros [= <- <-]; by rewrite Ea.
  - done.
Defined.

(** The same with an upper layer that never starts over a message it has bytes of. *)
Record StrictNode := { strict : Node }.

Definition strict_start (id len size : Z) (s : StrictNode) : BufReq_ReturnType * Z * StrictNode :=
  let '(a, n) := answer s.(strict) in
  if decide (a <> BUFREQ_OK) then (a, size, Build_StrictNode n)
  else if bool_decide (n.(n_rx) = []) && (len <=? n.(n_capacity))
  then (BUFREQ_OK, space n, Build_StrictNode n)
  else (BUFREQ_E_NOT_OK, size, Build_StrictNode n).

Definition on_node {A} (f : Node -> A * Node) (s : StrictNode) : A * StrictNode :=
  let '(a, n) := f s.(strict) in (a, Build_StrictNode n).

#[export] Instance strict_env : CanTp_Env StrictNode := {
  PduR_CanTpStartOfReception := strict_start;
  PduR_CanTpCopyRxData id bs size := on_node (PduR_CanTpCopyRxData id bs size);
  PduR_CanTpCopyTxData id n size := on_node (PduR_CanTpCopyTxData id n size);
  PduR_CanTpRxIndication id r s := Build_StrictNode (PduR_CanTpRxIndication id r s.(strict));
  PduR_CanTpTxConfirmation id r s := Build_StrictNode (PduR_CanTpTxConfirmation id r s.(strict));
  CanIf_Transmit id f := on_node (CanIf_Transmit id f);
  Det_ReportError api err s := Build_StrictNode (Det_ReportError api err s.(strict));
  indeterminate s := indeterminate s.(strict)
}.

#[export] Instance strict_laws : CanTp_Laws StrictNode.
Proof.
  refine {| obs s := node_obs s.(strict) |}; cbn [PduR_CanTpStartOfReception PduR_CanTpCopyRxData PduR_CanTpCopyTxData
    PduR_CanTpRxIndication PduR_CanTpTxConfirmation CanIf_Transmit Det_ReportError strict_env].
  - intros id n size w r size' w'. unfold strict_start. destruct (answer _) as [a w1] eqn:Ea.
    pose proof (answer_obs _ _ _ Ea) as Eo. destruct (decide (a <> BUFREQ_OK)) as [Hne|_].
    { intros [= <- <- <-]. split; [done|]. by rewrite decide_False. }
    destruct (bool_decide (n_rx w1 = [])) eqn:Hb; [destruct (n <=? _)|]; cbn [andb]; intros [= <- <- <-].
    + split; [intros _; apply is_u16_u16|]. rewrite <- Eo. cbn. apply bool_decide_eq_true in Hb.
      unfold node_obs. by rewrite Hb.
    + split; [done|]. by rewrite decide_False.
    + split; [done|]. by rewrite decide_False.
  - intros id bs size w r size' w'. unfold on_node.
    destruct (PduR_CanTpCopyRxData id bs size (strict w)) as [[r1 s1] w1] eqn:E. intros [= <- <- <-].
    exact (law_copy_rx (W := Node) _ _ _ _ _ _ _ E).
  - intros id n size w res w'. unfold on_node.
    destruct (PduR_CanTpCopyTxData id n size (strict w)) as [r1 w1] eqn:E. intros [= <- <-] Hn.
    exact (law_copy_tx (W := Node) _ _ _ _ _ _ E Hn).
  - done.
  - done.
  - intros id f w r w'. unfold on_node.
    destruct (CanIf_Transmit id f (strict w)) as [r1 w1] eqn:E. intros [= <- <-].
    exact (law_transmit (W := Node) _ _ _ _ _ E).
  - done.
Defined.

Lemma strict_never_restarts id n size (w : StrictNode) :
  (obs w).(o_rx) <> [] -> (PduR_CanTpStartOfReception id n size w).1.1 <> BUFREQ_OK.
Proof.
  intros Hrx. cbn. unfold strict_start. destruct (answer (strict w)) as [a w1] eqn:Ea.
  pose proof (answer_obs _ _ _ Ea) as Eo. destruct (decide (a <> BUFREQ_OK)); [done|].
  rewrite bool_decide_false; [done|]. intros E. apply Hrx. change (o_rx (node_obs (strict w)) = []). by rewrite <- Eo.
Qed.
