(* ===== verification/CanTp_Link.v ===== *)
(** * CAN transport protocol: two nodes on a bus

    A sending and a receiving instance of the module, connected by a bus that
    delivers the frames in order: the message given to [CanTp_Transmit] on one side
    arrives on the other. *)

From S2P Require Import Prelude.
From S2P Require Import StateMonad.
From S2P Require Import ComStack.
From S2P Require Import CanTp.
From S2P Require Import CanTp_Steps.
From S2P Require Import CanTp_Tx.
From S2P Require Import CanTp_Rx.
From S2P Require Import CanTp_Integrity.
From S2P Require Import CanTp_Module.
From S2P Require Import CanTp_Node.

#[local] Open Scope monad_scope.


(** ** The link *)
Record Link := { l_sender : CanTp_State Node; l_receiver : CanTp_State Node }.

Definition frame_info (f : list Z) : PduInfoType :=
  {| SduDataPtr := f; SduLength := Z.of_nat (length f) |}.

Section Link.
Variable DEV : bool.
Implicit Types w : Node.

(** Both main functions run once. *)
Definition link_main (l : Link) : option Link :=
  '(_, s) ← CanTp_MainFunction DEV l.(l_sender);
  '(_, r) ← CanTp_MainFunction DEV l.(l_receiver);
  Some {| l_sender := s; l_receiver := r |}.

(** The oldest frame of [from] reaches [to], and its sender the confirmation. *)
Definition transfer (from to : CanTp_State Node) : option (CanTp_State Node * CanTp_State Node) :=
  match from.(world).(n_bus) with
  | [] => Some (from, to)
  | (_, f) :: bus =>
      let from := set_world (with_bus bus from.(world)) from in
      '(_, to) ← CanTp_RxIndication DEV 0 (frame_info f) to;
      '(_, from) ← CanTp_TxConfirmation DEV 0 from;
      Some (from, to)
  end.

Definition link_round (l : Link) : option Link :=
  l ← link_main l;
  '(s, r) ← transfer l.(l_sender) l.(l_receiver);
  '(r, s) ← transfer r s;
  Some {| l_sender := s; l_receiver := r |}.

Fixpoint link_rounds (n : nat) (l : Link) : option Link :=
  match n with
  | O => Some l
  | S n => l ← link_round l; link_rounds n l
  end.

Lemma link_rounds_add n n' l l' :
  link_rounds n l = Some l' -> link_rounds (n + n') l = link_rounds n' l'.
Proof.
  revert l. induction n as [|n IH]; intros l; cbn; [congruence|].
  destruct (link_round l); cbn; [apply IH | done].
Qed.

Variables (period pad : Z) (tc : CanTp_TxNSduType) (rc : CanTp_RxNSduType) (fd : bool)
  (addr msg : list Z) (capacity : Z).
Abbreviation cfgS := (sender_config period pad tc fd).
Abbreviation cfgR := (receiver_config period pad rc fd).
Abbreviation m := (cf_size fd addr).
Abbreviation G := (stmin_cycles cfgS (u8 rc.(CanTpSTmin))).

(** What a working link needs: matching addresses, room for the message, timeouts
    longer than the transfer. *)
Record link_ok : Prop := {
  lk_tx : tx_config_ok cfgS tc fd addr;
  lk_rx : rx_config_ok rc addr;
  lk_mode : tc.(CanTpAddressingMode) = rc.(CanTpAddressingFormant);
  lk_nsa : tc.(CanTpAddressingMode) = CANTP_EXTENDED -> tc.(Tx_CanTpNSa) = rc.(Rx_CanTpNTa);
  lk_tx_channel : tc.(CanTpTxChannel) = 0%nat;
  lk_rx_channel : rc.(CanTpRxChannel) = 0%nat;
  lk_tx_phys : tc.(CanTpTxTaType) = CANTP_PHYSICAL;
  lk_rx_phys : rc.(CanTpRxTaType) = CANTP_PHYSICAL;
  lk_msg : 1 <= Z.of_nat (length msg) <= 4095;
  lk_capacity : Z.of_nat (length msg) <= capacity <= 65535;
  lk_fd : fd = true -> fits_single fd addr msg = true ->
    8 < Z.of_nat (length (tx_frame cfgS tc (single_frame fd addr msg)));
  lk_nas : 1 <= tc.(CanTpNas);
  lk_ncr : Z.of_nat (length (segmentation fd addr msg)) * G < rc.(CanTpNcr)
}.
Hypothesis Hlk : link_ok.

(** *** Numbers of frames *)
Definition ncf (rest : list Z) : Z := Z.of_nat (length (cframes fd addr 0 rest)).

Lemma length_cframes k rest : Z.of_nat (length (cframes fd addr k rest)) = ncf rest.
Proof using Type.
  unfold ncf, cframes. f_equal. generalize (length rest). intros fuel. generalize 0.
  revert k rest. induction fuel as [|fuel IH]; intros k rest k'; [done|].
  destruct rest; [done|]. cbn. f_equal. apply IH.
Qed.

Lemma ncf_nil : ncf [] = 0.
Proof using Type. done. Qed.

Lemma addr_short : (length addr <= 1)%nat.
Proof using Hlk. apply (rx_length_addr rc), Hlk. Qed.

Lemma ncf_cons rest : rest <> [] -> ncf rest = 1 + ncf (drop m rest).
Proof using Hlk.
  intros Hne. unfold ncf at 1. rewrite cframes_cons by (apply addr_short || done).
  cbn [length]. rewrite Nat2Z.inj_succ, length_cframes. lia.
Qed.

Lemma m_pos : 1 <= Z.of_nat m.
Proof using Hlk. pose proof (cf_size_pos fd addr addr_short). lia. Qed.

Lemma ncf_bound rest : rest <> [] -> Z.of_nat m * (ncf rest - 1) < Z.of_nat (length rest).
Proof using Hlk.
  pose proof m_pos as Hm. remember (length rest) as n eqn:Hn. revert rest Hn.
  induction n as [n IH] using lt_wf_ind. intros rest -> Hne. rewrite ncf_cons by done.
  destruct (decide (drop m rest = [])) as [E|E].
  - rewrite E, ncf_nil. destruct rest; [done|]. cbn [length]. lia.
  - assert (m < length rest)%nat.
    { destruct (Nat.lt_ge_cases m (length rest)); [done|]. by rewrite drop_ge in E. }
    specialize (IH (length (drop m rest)) ltac:(rewrite length_drop; lia) _ eq_refl E).
    rewrite length_drop in IH. lia.
Qed.

(** The receiver's block is never shorter than the sender's, except at the end of
    the message where it makes no difference. *)
Definition in_step (s r rest : Z) : Prop :=
  (rc.(CanTpBs) = 0 /\ s = 0 /\ r = 0) \/
  (0 < rc.(CanTpBs) /\ (1 <= s /\ s = r \/ rest <= s /\ rest <= r)).

Lemma computed_in_step c rest :
  c.(CanfdSupport) = fd -> rest <> [] -> Z.of_nat (length rest) <= c.(sizeBuffer) ->
  in_step rc.(CanTpBs) (computed_bs rc addr c) (ncf rest).
Proof using Hlk.
  intros Hfd Hne Hsz. pose proof (ncf_bound rest Hne) as Hb. pose proof addr_short as Ha.
  destruct (rc_bs _ _ Hlk.(lk_rx)) as [Hbs _]. unfold computed_bs, in_step. rewrite Hfd.
  set (p := if fd then _ else _).
  assert (Hp : 1 <= p <= Z.of_nat m) by (unfold p, cf_size; destruct fd; cbn; lia).
  assert (Hq : ncf rest <= sizeBuffer c / p + 1).
  { assert (ncf rest - 1 <= sizeBuffer c / p); [|lia].
    apply Z.div_le_lower_bound; nia. }
  assert (0 <= sizeBuffer c / p) by (apply Z.div_pos; lia).
  destruct (Z.eq_dec (CanTpBs rc) 0); [left; lia|]. right. split; [lia|].
  destruct (Z.le_gt_cases (CanTpBs rc) (sizeBuffer c / p + 1)); [left|right]; lia.
Qed.

Lemma G_pos : 1 <= G.
Proof using Hlk.
  pose proof (tc_period _ _ _ _ Hlk.(lk_tx)) as Hp. unfold stmin_cycles. cbn in *.
  set (s := u8 (CanTpSTmin rc)). assert (Hs : 0 <= s < 256) by (apply Z.mod_pos_bound; lia).
  assert (Hd : forall x, 0 <= x < 256 -> 1 <= u32 (x / period + 1)).
  { intros x Hx. assert (0 <= x / period <= x) by (split; [apply Z.div_pos; lia | apply Z.div_le_upper_bound; nia]).
    unfold u32. rewrite Z.mod_small; lia. }
  destruct (s <? 128); [by apply Hd|]. destruct (_ && _); [done|]. apply Hd. lia.
Qed.
(** *** The sender with a willing environment *)
Definition willing (w : Node) : Prop := w.(n_answers) = [] /\ w.(n_canif) = [].

Definition sent_node (f rest : list Z) (w : Node) : Node :=
  with_bus (w.(n_bus) ++ [(tc.(CanIf_PduId), tx_frame cfgS tc f)]) (with_tx rest w).

Lemma node_send hdr rest c w Q :
  tx_ready fd hdr rest c -> w.(n_tx) = rest -> willing w ->
  let payload := take (room fd hdr) rest in
  (forall d size, length d = length c.(canFrameBuffer).(data) -> take (length hdr) d = hdr ->
     is_u16 size ->
     Q BUFREQ_OK (Build_ChanState (tx_sent_state tc (Z.of_nat (length payload)) d size c)
                    (sent_node (hdr ++ payload) (drop (room fd hdr) rest) w))) ->
  wp (sendNextTxFrame cfgS tc) Q (Build_ChanState c w).
Proof using Hlk.
  intros Hr Htx [Ha Hc] payload HQ. eapply (wp_sendNextTxFrame _ _ _ _ Hlk.(lk_tx)); [exact Hr | done | |].
  - intros res w1 resp w2 d Hcopy _ Hsend _ Hd Hhd Hav. fold payload in Hcopy, Hsend.
    cbn in Hcopy, Hsend. unfold node_copy_tx in Hcopy.
    assert (Hpl : Z.of_nat (length payload) <= Z.of_nat (length (n_tx w)))
      by (rewrite Htx; unfold payload; rewrite length_take; lia).
    rewrite (proj2 (Z.leb_le 0 _)), (proj2 (Z.leb_le _ _)) in Hcopy by lia. cbn in Hcopy.
    injection Hcopy as <- <-. unfold node_transmit in Hsend. cbn in Hsend. rewrite Hc in Hsend.
    injection Hsend as <- <-. cbn [Z.eqb E_OK ctd_available] in *.
    assert (Hdr : drop (Z.to_nat (Z.of_nat (length payload))) (n_tx w) = drop (room fd hdr) rest).
    { rewrite Htx, Nat2Z.id. unfold payload. rewrite length_take.
      destruct (Nat.le_gt_cases (room fd hdr) (length rest)); [by rewrite Nat.min_l by lia|].
      by rewrite !drop_ge by lia. }
    rewrite Hdr in Hav |- *. specialize (HQ d _ Hd Hhd Hav). apply HQ.
  - intros res w1 d Hcopy Hne. fold payload in Hcopy. cbn in Hcopy. unfold node_copy_tx in Hcopy.
    rewrite (proj2 (Z.leb_le 0 _)), (proj2 (Z.leb_le _ _)) in Hcopy
      by (rewrite ?Htx; unfold payload; rewrite ?length_take; lia).
    cbn in Hcopy. injection Hcopy as <- <-. done.
Qed.

(** The sender has frame [k] of [rest] in its buffer, to be sent after [t] main
    cycles; or it has sent it. *)
Record sender_core (k : Z) (n : Z) (c : CanTp_SimplexChannelPrivateType) (w : Node) : Prop := {
  sc_core : tx_core fd addr msg c w;
  sc_id : c.(pduId) = 0;
  sc_handled : c.(iso15765).(framesHandledCount) = k;
  sc_stmin : c.(iso15765).(STmin) = u8 rc.(CanTpSTmin);
  sc_bs : c.(iso15765).(BS) = rc.(CanTpBs);
  sc_nfc : c.(iso15765).(nextFlowControlCount) = n;
  sc_willing : willing w;
  sc_txres : w.(n_txres) = []
}.

Definition sender_ready (k : Z) (rest : list Z) (t n : Z) c w : Prop :=
  sender_core k n c w /\ tx_ready fd (cf_header addr k) rest c /\ w.(n_tx) = rest /\ w.(n_bus) = [] /\
  (c.(iso15765).(state) = TX_WAIT_TRANSMIT /\ t = 1 \/
   c.(iso15765).(state) = TX_WAIT_STMIN /\ c.(iso15765).(stateTimeoutCount) = t /\ 1 <= t).

Definition sender_sent (k : Z) (rest : list Z) (timer n : Z) c w : Prop :=
  sender_core k n c w /\ w.(n_tx) = drop m rest /\
  w.(n_bus) = [(tc.(CanIf_PduId), tx_frame cfgS tc (consecutive_frame fd addr k rest))] /\
  k + 1 <= c.(transferCount) /\
  c.(iso15765).(state) = TX_WAIT_TX_CONFIRMATION /\ c.(iso15765).(stateTimeoutCount) = timer.

Lemma sender_send k rest t n c w c0 Q :
  sender_ready k rest t n c w -> rest <> [] ->
  same_buffers c c0 -> c0.(pduId) = c.(pduId) -> c0.(iso15765).(STmin) = c.(iso15765).(STmin) ->
  c0.(iso15765).(BS) = c.(iso15765).(BS) ->
  c0.(iso15765).(nextFlowControlCount) = c.(iso15765).(nextFlowControlCount) ->
  (forall c' w', sender_sent k rest (tc.(CanTpNas) + 1) n c' w' -> Q BUFREQ_OK (Build_ChanState c' w')) ->
  wp (sendNextTxFrame cfgS tc) Q (Build_ChanState c0 w).
Proof using Hlk.
  intros (Hs & Hr & Htx & Hbus & _) Hne Hsame E1 E2 E3 E4 HQ. destruct Hs as [Hc Hid Hh Hst Hbs Hn Hw Hres].
  pose proof m_pos as Hm.
  assert (Hr0 : tx_ready fd (cf_header addr k) rest c0)
    by (destruct Hsame as (F1 & F2 & F3 & F4 & F5 & F6); destruct Hr; split; congruence).
  assert (Hc0 : tx_core fd addr msg c0 w) by (by eapply tx_core_same).
  eapply node_send; [done..|]. intros d size Hd Hhd Hsz. rewrite cf_header_frame.
  rewrite room_cf_header in *. apply HQ.
  assert (Hlen : (1 <= length (take m rest))%nat)
    by (rewrite length_take; destruct rest; [done|]; cbn [length]; lia).
  assert (Hlen2 : Z.of_nat (length (take m rest)) + Z.of_nat (length (drop m rest)) = Z.of_nat (length rest)).
  { rewrite length_take, length_drop. lia. }
  assert (Hcf : (length addr <= length (cf_header addr k))%nat) by (unfold cf_header; rewrite length_app; lia).
  assert (Hca : take (length addr) (cf_header addr k) = addr) by (apply take_app_length).
  assert (Hhk : c0.(iso15765).(framesHandledCount) = k) by (destruct Hsame as (_ & _ & _ & _ & _ & ->); done).
  destruct Hc0 as [? ? ? ? ? ? Hrest Hk]. cbn in Hrest. rewrite Htx in Hrest.
  split; [split|]; cbn; try done; try congruence.
  - split; cbn; try done; try lia.
    apply (f_equal (take (length addr))) in Hhd.
    rewrite take_take, Nat.min_l in Hhd by done. congruence.
  - rewrite Hbus. split; [done|]. split; [done|]. split; [lia|done].
Qed.
(** The main function of the sender. *)
Lemma sender_main_send k rest n c w :
  sender_ready k rest 1 n c w -> rest <> [] ->
  wp (tx_event_step cfgS tc MainFunction)
    (fun _ s => sender_sent k rest (tc.(CanTpNas) + 1) n s.(chan) s.(env)) (Build_ChanState c w).
Proof using Hlk.
  intros Hs Hne. pose proof Hs as ([] & _ & _ & _ & Hst). cbn [tx_event_step]. steps.
  rewrite sc_id0. change (negb (0 =? INVALID_PDU_ID)) with true. cbv iota. unfold txSduStateMachine. steps.
  destruct Hst as [[Hst _]|(Hst & Ht & _)]; rewrite Hst; steps.
  - unfold tx_wait_transmit. apply wp_bind. eapply sender_send; [done..|].
    intros c' w' Hs'. by steps.
  - rewrite Ht. change (TIMER_DECREMENT 1) with 0.
    cbn [Z.eqb negb]. steps. unfold tx_wait_transmit. apply wp_bind.
    eapply sender_send; [done | done | done.. | ]. intros c' w' Hs'. by steps.
Qed.

Lemma sender_main_wait k rest t n c w :
  sender_ready k rest t n c w -> 2 <= t ->
  wp (tx_event_step cfgS tc MainFunction)
    (fun _ s => sender_ready k rest (t - 1) n s.(chan) s.(env)) (Build_ChanState c w).
Proof using Type.
  intros ([] & Hr & Htx & Hbus & Hst) Ht. cbn [tx_event_step]. steps.
  rewrite sc_id0. change (negb (0 =? INVALID_PDU_ID)) with true. cbv iota. unfold txSduStateMachine. steps.
  destruct Hst as [[_ ?]|(Hst & Htm & _)]; [lia|]. rewrite Hst. steps.
  assert (Hd : TIMER_DECREMENT t = t - 1) by (unfold TIMER_DECREMENT; rewrite (proj2 (Z.gtb_lt _ _)); lia).
  rewrite Htm, Hd, (proj2 (Z.eqb_neq (t - 1) 0)) by lia. cbn [negb]. steps.
  split; [by split; try done; eapply tx_core_same|]. split; [by destruct Hr; split|].
  split; [done|]. split; [done|]. right. cbn. split; [done|]. split; [done|lia].
Qed.

Lemma sender_main_sent k rest t n c w :
  sender_sent k rest t n c w -> 2 <= t ->
  wp (tx_event_step cfgS tc MainFunction)
    (fun _ s => sender_sent k rest (t - 1) n s.(chan) s.(env)) (Build_ChanState c w).
Proof using Type.
  intros ([] & Htx & Hbus & Hk & Hst & Htm) Ht. cbn [tx_event_step]. steps.
  rewrite sc_id0. change (negb (0 =? INVALID_PDU_ID)) with true. cbv iota. unfold txSduStateMachine. steps. rewrite Hst.
  unfold tx_timeout. steps. rewrite Htm.
  assert (Hd : TIMER_DECREMENT t = t - 1) by (unfold TIMER_DECREMENT; rewrite (proj2 (Z.gtb_lt _ _)); lia).
  rewrite Hd, (proj2 (Z.eqb_neq (t - 1) 0)) by lia. steps.
  split; [by split; try done; eapply tx_core_same|]. done.
Qed.

(** The frame is off the bus, its confirmation to come. *)
Record sender_wait (k : Z) (rest : list Z) c w : Prop := {
  sw_core : tx_core fd addr msg c w;
  sw_id : c.(pduId) = 0;
  sw_handled : c.(iso15765).(framesHandledCount) = k;
  sw_sent : k + 1 <= c.(transferCount);
  sw_state : c.(iso15765).(state) = TX_WAIT_TX_CONFIRMATION;
  sw_tx : w.(n_tx) = rest;
  sw_bus : w.(n_bus) = [];
  sw_willing : willing w;
  sw_txres : w.(n_txres) = []
}.

Definition sender_flow (k : Z) (rest : list Z) c w : Prop :=
  tx_core fd addr msg c w /\ c.(pduId) = 0 /\ c.(iso15765).(framesHandledCount) = k /\
  tx_ready fd (cf_header addr k) rest c /\ w.(n_tx) = rest /\ w.(n_bus) = [] /\
  c.(iso15765).(state) = TX_WAIT_FLOW_CONTROL /\ willing w /\ w.(n_txres) = [].

Definition sender_done c w : Prop :=
  c.(iso15765).(state) = IDLE /\ c.(pduId) = INVALID_PDU_ID /\ w.(n_bus) = [] /\
  w.(n_txres) = [(tc.(Tx_PduR_PduId), NTFRSLT_OK)].

Lemma sender_confirm k rest c w Q :
  sender_wait k rest c w ->
  let n := COUNT_DECREMENT c.(iso15765).(nextFlowControlCount) in
  (rest = [] -> forall c' w', sender_done c' w' -> Q tt (Build_ChanState c' w')) ->
  (rest <> [] -> n = 0 -> c.(iso15765).(BS) <> 0 ->
     forall c' w', sender_flow (k + 1) rest c' w' -> Q tt (Build_ChanState c' w')) ->
  (rest <> [] -> n <> 0 \/ c.(iso15765).(BS) = 0 -> c.(iso15765).(BS) = rc.(CanTpBs) ->
     c.(iso15765).(STmin) = u8 rc.(CanTpSTmin) ->
     forall c' w', (sender_sent (k + 1) rest (tc.(CanTpNas) + 1) n c' w' \/ sender_ready (k + 1) rest G n c' w') ->
       Q tt (Build_ChanState c' w')) ->
  (rest <> [] -> (n = 0 /\ c.(iso15765).(BS) <> 0) \/
     (c.(iso15765).(BS) = rc.(CanTpBs) /\ c.(iso15765).(STmin) = u8 rc.(CanTpSTmin))) ->
  wp (tx_event_step cfgS tc TxConfirmation) Q (Build_ChanState c w).
Proof using Hlk.
  intros [Hc Hid Hh Hsent Hst Htx Hbus Hw Hres] n Hend Hflow Hnext Hcase.
  cbn [tx_event_step]. steps. rewrite Hst, decide_True by done.
  pose proof (ts_rest _ _ _ _ _ Hc) as Hrest. cbn in Hrest. rewrite Htx in Hrest.
  pose proof (ts_total _ _ _ _ _ Hc) as Htot.
  assert (Hne : c.(transferCount) < c.(transferTotal) -> rest <> []) by (intros ? ->; cbn in *; lia).
  eapply (wp_handleNextTxFrameSent_cases _ _ _ _ Hlk.(lk_tx)); [exact Hc | by rewrite Hh | ..]; fold n.
  - intros Hle. assert (rest = []) as Hnil by (apply length_zero_iff_nil; lia).
    apply Hend; [done|]. split; [done|]. split; [done|]. cbn. by rewrite Hres.
  - intros Hlt Hn Hbs. destruct (tx_next_header _ _ _ _ Hlk.(lk_tx) _ _ _ Hc ltac:(by rewrite Hh) Hlt) as [Hc' Hr'].
    rewrite Hh in Hr'. cbn in Hr'. rewrite Htx in Hr'. apply Hflow; auto.
    split; [by eapply tx_core_same|]. split; [done|]. split; [cbn; by rewrite Hh|].
    split; [by destruct Hr'; split|]. done.
  - intros Hlt Hor Hz. destruct (tx_next_header _ _ _ _ Hlk.(lk_tx) _ _ _ Hc ltac:(by rewrite Hh) Hlt) as [Hc' Hr'].
    rewrite Hh in Hr'. cbn in Hr'. rewrite Htx in Hr'.
    destruct (Hcase (Hne Hlt)) as [[? ?]|[Hb Hs]]; [by destruct Hor|].
    eapply (sender_send (k + 1) rest 1 n (set_state TX_WAIT_TRANSMIT (set_nextFlowControlCount n (next_chan addr c))));
      [|by apply Hne|done..|].
    + split; [split; try done; [by eapply tx_core_same | cbn; by rewrite Hh]|].
      split; [by destruct Hr'; split|]. split; [done|]. split; [done|]. by left.
    + intros c' w' Hs'. steps. apply Hnext; auto.
  - intros Hlt Hor Hz. destruct (tx_next_header _ _ _ _ Hlk.(lk_tx) _ _ _ Hc ltac:(by rewrite Hh) Hlt) as [Hc' Hr'].
    rewrite Hh in Hr'. cbn in Hr'. rewrite Htx in Hr'.
    destruct (Hcase (Hne Hlt)) as [[? ?]|[Hb Hs]]; [by destruct Hor|].
    apply Hnext; auto. right. split; [split; try done; [by eapply tx_core_same | cbn; by rewrite Hh]|].
    split; [by destruct Hr'; split|]. split; [done|]. split; [done|]. right. cbn. rewrite Hs.
    split; [done|]. split; [done|]. apply G_pos.
Qed.

(** A clear-to-send frame. *)
Lemma sender_cts k rest c w f :
  sender_flow k rest c w -> length f = 8%nat ->
  take (length (fc_bytes rc addr BUFREQ_OK)) f = fc_bytes rc addr BUFREQ_OK ->
  wp (tx_event_step cfgS tc (FlowControl (frame_info f)))
    (fun _ s => sender_ready k rest 1 rc.(CanTpBs) s.(chan) s.(env)) (Build_ChanState c w).
Proof using Hlk.
  intros (Hc & Hid & Hh & Hr & Htx & Hbus & Hst & Hw & Hres) Hf Hfc.
  pose proof addr_short as Ha. unfold fc_bytes in Hfc. rewrite length_app in Hfc. cbn [length] in Hfc.
  assert (Hld : forall i, (i < length addr + 3)%nat ->
    load f (Z.of_nat i) = (addr ++ [48; CanTpBs rc; u8 (CanTpSTmin rc)]) !! i).
  { intros i Hi. rewrite load_spec, Nat2Z.id, <- Hfc by lia. by rewrite lookup_take_lt. }
  cbn [tx_event_step]. unfold handleFlowControlFrame, frame_info. cbn [SduDataPtr].
  apply wp_bind, (wp_mono _ (fun i s => i = (Z.of_nat (length addr), false) /\ s = Build_ChanState c w)).
  { pose proof (tc_addr _ _ _ _ Hlk.(lk_tx)) as Haddr. pose proof (rc_addr _ _ Hlk.(lk_rx)) as Hraddr.
    pose proof Hlk.(lk_mode) as Hmode. pose proof Hlk.(lk_nsa) as Hnsa.
    destruct (CanTpAddressingMode tc) eqn:Hm.
    - rewrite decide_True by done. rewrite <- Hmode in Hraddr.
      destruct (rc_nta _ _ Hlk.(lk_rx) (eq_sym Hmode)) as (a & Ea & _). rewrite Ea in Hraddr, Hnsa.
      specialize (Hld 0%nat ltac:(lia)). rewrite Hraddr in Hld. cbn [app lookup list_lookup] in Hld.
      steps. eapply wp_deref; [exact Hld|]. steps. eapply wp_deref; [by apply Hnsa|].
      apply wp_ret. rewrite Z.eqb_refl, Hraddr. done.
    - rewrite decide_False by done. rewrite Haddr. done. }
  intros ? ? [-> ->]. steps. rewrite Hst, decide_True by done. steps.
  eapply wp_deref; [rewrite Hld by lia; rewrite lookup_app_r, Nat.sub_diag by lia; reflexivity|].
  change (Z.land 48 ISO15765_TPCI_FS_MASK =? ISO15765_FLOW_CONTROL_STATUS_CTS) with true. cbv iota. steps.
  eapply wp_deref.
  { replace (Z.of_nat (length addr) + 1) with (Z.of_nat (length addr + 1)) by lia.
    rewrite Hld by lia. rewrite lookup_app_r by lia.
    replace (length addr + 1 - length addr)%nat with 1%nat by lia. reflexivity. }
  steps. eapply wp_deref.
  { replace (Z.of_nat (length addr) + 2) with (Z.of_nat (length addr + 2)) by lia.
    rewrite Hld by lia. rewrite lookup_app_r by lia.
    replace (length addr + 2 - length addr)%nat with 2%nat by lia. reflexivity. }
  steps. split; [split; try done; by eapply tx_core_same|]. split; [by destruct Hr; split|].
  split; [done|]. split; [done|]. by left.
Qed.

(** *** The receiver with a willing environment *)
Lemma copy_willing start id total size bs w :
  willing w -> (start = true -> w.(n_rx) = []) -> total <= w.(n_capacity) <= 65535 ->
  Z.of_nat (length (w.(n_rx) ++ bs)) <= w.(n_capacity) ->
  copy_to_pdur start id total size bs w =
    (BUFREQ_OK, w.(n_capacity) - Z.of_nat (length (w.(n_rx) ++ bs)), with_rx (w.(n_rx) ++ bs) w).
Proof using Type.
  intros [Ha _] Hstart Hcap Hfit.
  assert (Hsp : forall l, Z.of_nat (length l) <= n_capacity w -> space (with_rx l w) = n_capacity w - Z.of_nat (length l)).
  { intros l Hl. unfold space, u16. cbn. rewrite Z.mod_small; lia. }
  rewrite length_app in Hfit. unfold copy_to_pdur.
  assert (Hfirst : (if start then PduR_CanTpStartOfReception id total size w
                    else PduR_CanTpCopyRxData id [] size w)
    = (BUFREQ_OK, n_capacity w - Z.of_nat (length (n_rx w)), with_rx (n_rx w) w)).
  { destruct start; cbn; unfold node_start, node_copy_rx, answer; rewrite Ha; cbn -[Z.of_nat].
    - rewrite Hstart by done. rewrite bool_decide_true by done. cbn [orb].
      rewrite (proj2 (Z.leb_le _ _)) by lia. by rewrite Hsp by (cbn; lia).
    - rewrite app_nil_r, (proj2 (Z.leb_le _ _)) by lia. by rewrite Hsp by lia. }
  rewrite Hfirst, decide_True, (proj2 (Z.leb_le _ _)) by (done || lia).
  cbn. unfold node_copy_rx, answer. cbn. rewrite Ha. cbn -[Z.of_nat].
  rewrite (proj2 (Z.leb_le _ _)) by (rewrite length_app; lia).
  do 2 f_equal. apply Hsp. rewrite length_app. lia.
Qed.

Record receiver_waiting (k : Z) (rest : list Z) (r t : Z) (bus : list (Z * list Z)) c w : Prop := {
  rv_wait : rx_waiting fd addr c;
  rv_id : c.(pduId) = 0;
  rv_total : c.(transferTotal) = Z.of_nat (length msg);
  rv_exact : exact msg k rest c.(transferCount) c.(iso15765).(framesHandledCount);
  rv_rx : w.(n_rx) = take (Z.to_nat c.(transferCount)) msg;
  rv_bs : c.(iso15765).(BS) = rc.(CanTpBs);
  rv_nfc : c.(iso15765).(nextFlowControlCount) = r;
  rv_timer : c.(iso15765).(stateTimeoutCount) = t;
  rv_capacity : w.(n_capacity) = capacity;
  rv_willing : willing w;
  rv_rxres : w.(n_rxres) = [];
  rv_bus : w.(n_bus) = bus
}.

Definition receiver_done c w : Prop :=
  c.(iso15765).(state) = IDLE /\ c.(pduId) = INVALID_PDU_ID /\ w.(n_bus) = [] /\ w.(n_rx) = msg /\
  w.(n_rxres) = [(rc.(Rx_PduR_PduId), NTFRSLT_OK)].

(** A clear-to-send frame on the receiver's side of the bus. *)
Definition cts (bus : list (Z * list Z)) : Prop :=
  exists f, bus = [(rc.(CanIf_FcPduId), f)] /\ length f = 8%nat /\
    take (length (fc_bytes rc addr BUFREQ_OK)) f = fc_bytes rc addr BUFREQ_OK.

Lemma receiver_main k rest r t c w :
  receiver_waiting k rest r t [] c w -> 2 <= t ->
  wp (rx_event_step DEV cfgR rc fd 0 RxMain)
    (fun _ s => receiver_waiting k rest r (t - 1) [] s.(chan) s.(env)) (Build_ChanState c w).
Proof using Type.
  intros [] Ht. cbn [rx_event_step]. steps. rewrite rv_id0.
  change (negb (0 =? INVALID_PDU_ID)) with true. cbv iota. unfold rxPhySduStateMachine. steps.
  rewrite (rw_state _ _ _ rv_wait0). steps. rewrite rv_timer0.
  assert (Hd : TIMER_DECREMENT t = t - 1) by (unfold TIMER_DECREMENT; rewrite (proj2 (Z.gtb_lt _ _)); lia).
  rewrite Hd, (proj2 (Z.eqb_neq (t - 1) 0)) by lia. steps.
  split; try done. by eapply rx_waiting_same; [exact rv_wait0 | apply rv_wait0 | ..].
Qed.

(** The receiver answers with a clear-to-send frame. *)
Lemma receiver_sends_cts k rest t c w Q :
  receiver_waiting k rest c.(iso15765).(nextFlowControlCount) t [] c w ->
  (forall bus c' w', cts bus ->
     receiver_waiting k rest (computed_bs rc addr c) t bus c' w' -> Q tt (Build_ChanState c' w')) ->
  wp (sendFlowControlFrame cfgR rc BUFREQ_OK) Q (Build_ChanState c w).
Proof using Hlk.
  intros [] HQ. apply (wp_sendFlowControlFrame cfgR rc addr Hlk.(lk_rx)); [done | apply rv_wait0 | apply rv_wait0 |].
  intros f resp w' Hsend Hf Hfc. cbn in Hsend. unfold node_transmit in Hsend.
  rewrite (proj2 rv_willing0), rv_bus0 in Hsend. injection Hsend as <- <-.
  cbn [Z.eqb E_OK]. eapply HQ; [by exists f|]. split; try done.
  by eapply rx_waiting_same; [exact rv_wait0 | apply rv_wait0 | ..].
Qed.

(** The frames of the sender as the receiver gets them. *)
Lemma tx_frame_carries f :
  Z.of_nat (length f) <= frame_len fd -> carries fd f (frame_info (tx_frame cfgS tc f)).
Proof using Hlk.
  intros Hf. unfold tx_frame. pose proof (tc_len _ _ _ _ Hlk.(lk_tx)) as Hlen.
  destruct (CanTpTxPaddingActivation tc).
  - exists []. cbn. by rewrite app_nil_r.
  - eexists. split; [reflexivity|]. split; [done|]. cbn. unfold pad_to.
    rewrite length_app, length_replicate, Hlen. lia.
Qed.

Lemma cf_carries k rest :
  carries fd (consecutive_frame fd addr k rest) (frame_info (tx_frame cfgS tc (consecutive_frame fd addr k rest))).
Proof using Hlk.
  apply tx_frame_carries. pose proof addr_short. unfold consecutive_frame.
  rewrite !length_app, length_take. cbn [length]. unfold cf_size. destruct fd; cbn; lia.
Qed.

(** The checks of [CanTp_RxIndication] on a frame for the receiver. *)
Lemma receiver_gets f b ft c w :
  carries fd (addr ++ [b] ++ f) (frame_info (tx_frame cfgS tc (addr ++ [b] ++ f))) ->
  (let t := Z.land b 0x30 in
   if t =? 0 then SINGLE_FRAME else if t =? 0x10 then FIRST_FRAME
   else if t =? 0x20 then CONSECUTIVE_FRAME
   else if t =? 0x30 then FLOW_CONTROL_FRAME else INVALID_FRAME) = ft -> ft <> FLOW_CONTROL_FRAME ->
  CanTp_RxIndication DEV 0 (frame_info (tx_frame cfgS tc (addr ++ [b] ++ f))) (node_state cfgR c w)
  = lift RX cfgR c (rx_event_step DEV cfgR rc fd 0 (RxFrame (frame_info (tx_frame cfgS tc (addr ++ [b] ++ f))))) w.
Proof using Hlk.
  intros (filler & Hp & _) Hft Hne. cbn [SduDataPtr frame_info] in Hp. rewrite <- !app_assoc in Hp.
  assert (Hld : load (tx_frame cfgS tc (addr ++ [b] ++ f)) (Z.of_nat (length addr)) = Some b)
    by (by rewrite Hp, load_app_r, Z.sub_diag by lia).
  eapply (receiver_RxIndication DEV period pad rc fd Hlk.(lk_rx_channel) Hlk.(lk_rx_phys)).
  - erewrite getFrameType_at; [by rewrite Hft | exact Hlk.(lk_rx) | exact Hld].
  - done.
  - intros Hext. destruct (rc_nta _ _ Hlk.(lk_rx) Hext) as (a & Ea & _).
    exists a. split; [|done]. pose proof (rc_addr _ _ Hlk.(lk_rx)) as Hra. rewrite Hext, Ea in Hra.
    cbn [SduDataPtr frame_info]. by rewrite Hp, Hra.
Qed.

Lemma receiver_cf k rest r t c w :
  receiver_waiting k rest r t [] c w -> rest <> [] ->
  wp (rx_event_step DEV cfgR rc fd 0 (RxFrame (frame_info (tx_frame cfgS tc (consecutive_frame fd addr k rest)))))
    (fun _ s =>
       let rest' := drop m rest in
       (rest' = [] /\ receiver_done s.(chan) s.(env)) \/
       (rest' <> [] /\ COUNT_DECREMENT r = 0 /\ 0 < rc.(CanTpBs) /\
          exists bus r', cts bus /\ in_step rc.(CanTpBs) r' (ncf rest') /\
            receiver_waiting (k + 1) rest' r' t bus s.(chan) s.(env)) \/
       (rest' <> [] /\ (COUNT_DECREMENT r <> 0 \/ rc.(CanTpBs) = 0) /\
          receiver_waiting (k + 1) rest' (COUNT_DECREMENT r) (rc.(CanTpNcr) + 1) [] s.(chan) s.(env)))
    (Build_ChanState c w).
Proof using Hlk.
  intros Hrv Hne. pose proof Hlk.(lk_msg) as Hmsg. pose proof m_pos as Hm. pose proof (cf_carries k rest) as Hp.
  set (p := frame_info _) in *. cbn [rx_event_step]. apply wp_bind.
  eapply wp_deref.
  { destruct Hp as (filler & Hp & _). eapply getFrameType_at; [exact Hlk.(lk_rx)|]. rewrite Hp.
    unfold consecutive_frame. rewrite <- !app_assoc, load_app_r, Z.sub_diag by lia. reflexivity. }
  destruct (frame_type_byte (k mod 16)) as (_ & _ & E); [apply Z.mod_pos_bound; lia|].
  rewrite E. cbn -[wp bind set handleConsecutiveFrame]. rewrite decide_False by done. steps.
  pose proof Hrv as [Hw Hid Htot He Hrx Hbs Hnfc Htm Hcap Hwill Hres Hbus].
  rewrite set_CanfdSupport_id by apply Hw.
  destruct Hp as (filler & Hp & Hpl & Hple). unfold consecutive_frame in Hp. rewrite <- !app_assoc in Hp.
  assert (Htk : (1 <= length (take m rest))%nat)
    by (rewrite length_take; destruct rest; [done|]; cbn [length]; lia).
  eapply wp_handleConsecutiveFrame; [exact Hlk.(lk_rx) | exact Hp | done | done | | done | |].
  { intros E1. apply (f_equal length) in E1. rewrite length_app in E1. cbn in E1. lia. }
  { intros Hbad. exfalso. apply Hbad. destruct He as (-> & Hk & _).
    change 15 with (Z.ones 4). rewrite !Z.land_ones by lia. change (2 ^ 4) with 16.
    change 32 with (2 * 16). by rewrite Z.add_comm, Z.mod_add, Z.mod_mod by lia. }
  assert (Hpm : (length (take m rest ++ filler) <= m)%nat).
  { rewrite Hpl, Hp, length_app in Hple. cbn in Hple. pose proof addr_short. unfold cf_size in *. lia. }
  intros r1 size w1 _ Hcopy Hsz.
  rewrite (taken_exact fd addr msg k rest c filler He Htot Hpm) in Hcopy |- *.
  pose proof (exact_next fd addr msg _ _ _ _ He Hne ltac:(lia)) as He'.
  pose proof (take_next fd addr msg _ _ _ _ He (proj1 (rw_count _ _ _ Hw))) as Htake.
  pose proof Hw as [Wst Wfd Wcnt Wtot Wsz Wext Wbuf].
  set (n := Z.of_nat (length (take m rest))) in *. set (count := transferCount c + n) in *.
  assert (Hlast : drop m rest = [] <-> ~ count < transferTotal c).
  { destruct He' as (_ & _ & Hsum & _). rewrite Htot. split; [intros E1; rewrite E1 in Hsum; cbn in Hsum; lia|].
    intros. apply length_zero_iff_nil. lia. }
  assert (Hsum : count + Z.of_nat (length (drop m rest)) = Z.of_nat (length msg)) by apply He'.
  assert (Hlen : Z.of_nat (length (take (Z.to_nat count) msg)) = count) by (rewrite length_take; lia).
  rewrite copy_willing in Hcopy; [|done | done | rewrite Hcap; pose proof Hlk.(lk_capacity); lia |
    rewrite Hcap, Hrx, Htake, Hlen; pose proof Hlk.(lk_capacity); lia].
  injection Hcopy as <- <- <-. cbv zeta. rewrite Hcap, Hrx, Htake, Hlen in *.
  fold n. fold count.
  assert (Hk1 : u16 (framesHandledCount (iso15765 c) + 1) = k + 1)
    by (destruct He as (-> & ? & _); rewrite u16_small; unfold in_width; lia).
  destruct (Z.ltb_spec count (transferTotal c)) as [Hlt|Hge].
  - assert (Hdne : drop m rest <> []) by (intros E1; by apply Hlast in E1).
    rewrite Hnfc, Hbs, Hk1. destruct ((_ =? 0) && _) eqn:Hb.
    + apply andb_true_iff in Hb as [Hb0 Hb1]. apply Z.eqb_eq in Hb0. apply Z.gtb_lt in Hb1.
      set (c3 := set_nextFlowControlCount _ _). set (w3 := with_rx _ w).
      assert (Hrv3 : receiver_waiting (k + 1) (drop m rest) c3.(iso15765).(nextFlowControlCount) t [] c3 w3).
      { split; try done. split; cbn; try done; lia. }
      eapply receiver_sends_cts; [exact Hrv3|]. intros bus c' w' Hcts Hrv'. cbn [chan env].
      right. left. split; [done|]. split; [done|]. split; [done|].
      exists bus, (computed_bs rc addr c3). split; [done|]. split; [|done].
      apply computed_in_step; [done|done|]. cbn. pose proof Hlk.(lk_capacity). lia.
    + cbn [chan env]. right. right. split; [done|]. split.
      { apply andb_false_iff in Hb as [Hb|Hb]; [left; by apply Z.eqb_neq | right].
        destruct (rc_bs _ _ Hlk.(lk_rx)). rewrite Z.gtb_ltb in Hb. apply Z.ltb_ge in Hb. lia. }
      split; try done. split; cbn; try done; lia.
  - cbn [chan env]. left. split; [apply Hlast; lia|]. split; [done|]. split; [done|]. split; [done|].
    cbn. rewrite Hres. split; [|done]. apply take_ge. lia.
Qed.

(** *** The two nodes together *)
Abbreviation Conn := CanTp_SimplexChannelPrivateType.

(** A link with the sending connection in [P] and the receiving one in [Q], the
    other connections unused. *)
Definition linked (P Q : Conn -> Node -> Prop) (l : Link) : Prop :=
  exists cS wS cR wR,
    l = {| l_sender := node_state cfgS cS wS; l_receiver := node_state cfgR cR wR |} /\
    cS.(rxChnl).(pduId) = INVALID_PDU_ID /\ cS.(functionalChnl).(pduId) = INVALID_PDU_ID /\
    cR.(txChnl).(pduId) = INVALID_PDU_ID /\ cR.(functionalChnl).(pduId) = INVALID_PDU_ID /\
    P cS.(txChnl) wS /\ Q cR.(rxChnl) wR.

Lemma linked_mono (P Q P' Q' : Conn -> Node -> Prop) l :
  linked P Q l -> (forall c w, P c w -> P' c w) -> (forall c w, Q c w -> Q' c w) -> linked P' Q' l.
Proof using Type. intros (cS & wS & cR & wR & ? & ? & ? & ? & ? & ? & ?) HP HQ. exists cS, wS, cR, wR. auto 10. Qed.

Lemma link_main_step (P Q P' Q' : Conn -> Node -> Prop) l :
  linked P Q l -> (forall c w, P c w -> used c) -> (forall c w, Q c w -> used c) ->
  (forall c w, P c w -> wp (tx_event_step cfgS tc MainFunction) (fun _ s => P' s.(chan) s.(env)) (Build_ChanState c w)) ->
  (forall c w, Q c w -> wp (rx_event_step DEV cfgR rc fd 0 RxMain) (fun _ s => Q' s.(chan) s.(env)) (Build_ChanState c w)) ->
  exists l', link_main l = Some l' /\ linked P' Q' l'.
Proof using Type.
  intros (cS & wS & cR & wR & -> & H1 & H2 & H3 & H4 & HP & HQ) UP UQ WP WQ. unfold link_main. cbn [l_sender l_receiver].
  rewrite (sender_MainFunction DEV period pad tc fd), (receiver_MainFunction DEV period pad rc fd)
    by (done || exact (UP _ _ HP) || exact (UQ _ _ HQ)).
  destruct (wp_lift TX cfgS cS _ wS (fun _ => P') (WP _ _ HP)) as (? & c1 & w1 & -> & HP1).
  destruct (wp_lift RX cfgR cR _ wR (fun _ => Q') (WQ _ _ HQ)) as (? & c2 & w2 & -> & HQ1).
  cbn [mbind option_bind]. eexists. split; [reflexivity|]. eexists _, w1, _, w2. split; [reflexivity|].
  done.
Qed.

Lemma transfer_none (P Q : Conn -> Node -> Prop) l :
  linked P Q l -> (forall c w, P c w -> w.(n_bus) = []) ->
  transfer l.(l_sender) l.(l_receiver) = Some (l.(l_sender), l.(l_receiver)).
Proof using Type.
  intros (cS & wS & cR & wR & -> & _ & _ & _ & _ & HP & _) Hb. unfold transfer. cbn. by rewrite (Hb _ _ HP).
Qed.

Lemma transfer_back_none (P Q : Conn -> Node -> Prop) l :
  linked P Q l -> (forall c w, Q c w -> w.(n_bus) = []) ->
  transfer l.(l_receiver) l.(l_sender) = Some (l.(l_receiver), l.(l_sender)).
Proof using Type.
  intros (cS & wS & cR & wR & -> & _ & _ & _ & _ & _ & HQ) Hb. unfold transfer. cbn. by rewrite (Hb _ _ HQ).
Qed.

(** A frame of the message crosses the bus. *)
Lemma transfer_data (P Q P' Q' : Conn -> Node -> Prop) l b f :
  let p := addr ++ [b] ++ f in
  linked P Q l -> Z.of_nat (length p) <= frame_len fd ->
  (let t := Z.land b 0x30 in t = 0 \/ t = 0x10 \/ t = 0x20) ->
  (forall c w, P c w -> exists i, w.(n_bus) = [(i, tx_frame cfgS tc p)]) ->
  (forall c w, Q c w -> wp (rx_event_step DEV cfgR rc fd 0 (RxFrame (frame_info (tx_frame cfgS tc p))))
     (fun _ s => Q' s.(chan) s.(env)) (Build_ChanState c w)) ->
  (forall c w, P c w -> wp (tx_event_step cfgS tc TxConfirmation) (fun _ s => P' s.(chan) s.(env))
     (Build_ChanState c (with_bus [] w))) ->
  exists s r, transfer l.(l_sender) l.(l_receiver) = Some (s, r) /\
    linked P' Q' {| l_sender := s; l_receiver := r |}.
Proof using Hlk.
  intros p (cS & wS & cR & wR & -> & H1 & H2 & H3 & H4 & HP & HQ) Hlen Hb Hbus WQ WP.
  destruct (Hbus _ _ HP) as [i Hbus']. unfold transfer. cbn [l_sender l_receiver node_state world].
  rewrite Hbus'. fold (node_state cfgR cR wR).
  match goal with |- context [set_world ?v ?s] =>
    change (set_world v s) with (node_state cfgS cS (with_bus [] wS)) end.
  unfold p. erewrite receiver_gets; [|by apply tx_frame_carries | reflexivity | by destruct Hb as [-> | [-> | ->]]].
  fold p. destruct (wp_lift RX cfgR cR _ wR (fun _ => Q') (WQ _ _ HQ)) as (? & c2 & w2 & -> & HQ1). cbn [mbind option_bind].
  rewrite (sender_TxConfirmation DEV period pad tc fd Hlk.(lk_tx_channel)).
  destruct (wp_lift TX cfgS cS _ (with_bus [] wS) (fun _ => P') (WP _ _ HP)) as (? & c1 & w1 & -> & HP1).
  cbn [mbind option_bind]. do 2 eexists. split; [reflexivity|]. eexists _, w1, _, w2. split; [reflexivity|]. done.
Qed.

(** A clear-to-send frame goes back. *)
Lemma cts_frame f :
  take (length (fc_bytes rc addr BUFREQ_OK)) f = fc_bytes rc addr BUFREQ_OK ->
  getFrameType tc.(CanTpAddressingMode) (frame_info f) = Some FLOW_CONTROL_FRAME /\
  (tc.(CanTpAddressingMode) = CANTP_EXTENDED ->
     exists a, load (frame_info f).(SduDataPtr) 0 = Some a /\ tc.(Tx_CanTpNSa) = Some a).
Proof using Hlk.
  intros Hf. pose proof Hlk.(lk_rx) as Hok. rewrite Hlk.(lk_mode).
  assert (Hld : forall i, (i < length (fc_bytes rc addr BUFREQ_OK))%nat ->
    load f (Z.of_nat i) = fc_bytes rc addr BUFREQ_OK !! i).
  { intros i Hi. rewrite load_spec, Nat2Z.id, <- Hf by lia. by rewrite lookup_take_lt. }
  unfold fc_bytes in Hld. rewrite length_app in Hld. cbn [length] in Hld. split.
  - erewrite getFrameType_at; [| exact Hok |].
    2:{ cbn [SduDataPtr frame_info]. rewrite Hld by lia. rewrite lookup_app_r, Nat.sub_diag by lia. reflexivity. }
    reflexivity.
  - intros Hext. destruct (rc_nta _ _ Hok Hext) as (a & Ea & _). exists a.
    rewrite Hlk.(lk_nsa) by (by rewrite Hlk.(lk_mode)). split; [|done].
    pose proof (rc_addr _ _ Hok) as Hra. rewrite Hext, Ea in Hra.
    cbn [SduDataPtr frame_info]. change 0 with (Z.of_nat 0). rewrite Hld by lia. by rewrite Hra.
Qed.

Lemma transfer_cts (P Q P' Q' : Conn -> Node -> Prop) l :
  linked P Q l -> (forall c w, Q c w -> cts w.(n_bus)) ->
  (forall c w f, P c w -> length f = 8%nat ->
     take (length (fc_bytes rc addr BUFREQ_OK)) f = fc_bytes rc addr BUFREQ_OK ->
     wp (tx_event_step cfgS tc (FlowControl (frame_info f))) (fun _ s => P' s.(chan) s.(env)) (Build_ChanState c w)) ->
  (forall c w, Q c w -> Q' (set_NasNarPending false c) (with_bus [] w)) ->
  exists r s, transfer l.(l_receiver) l.(l_sender) = Some (r, s) /\
    linked P' Q' {| l_sender := s; l_receiver := r |}.
Proof using Hlk.
  intros (cS & wS & cR & wR & -> & H1 & H2 & H3 & H4 & HP & HQ) Hcts WP WQ.
  destruct (Hcts _ _ HQ) as (f & Hbus & Hf & Hfc). destruct (cts_frame f Hfc) as [Hft Hext].
  unfold transfer. cbn [l_sender l_receiver node_state world]. rewrite Hbus. fold (node_state cfgS cS wS).
  match goal with |- context [set_world ?v ?s] =>
    change (set_world v s) with (node_state cfgR cR (with_bus [] wR)) end.
  rewrite (sender_RxIndication DEV period pad tc fd Hlk.(lk_tx_channel)) by done.
  destruct (wp_lift TX cfgS cS _ wS (fun _ => P') (WP _ _ f HP Hf Hfc)) as (? & c1 & w1 & -> & HP1). cbn [mbind option_bind].
  rewrite (receiver_TxConfirmation DEV period pad rc fd Hlk.(lk_rx_channel)).
  destruct (wp_lift RX cfgR cR (set (set_NasNarPending false)) (with_bus [] wR) (fun _ => Q')) as (? & c2 & w2 & -> & HQ1).
  { apply wp_set. by apply WQ. }
  cbn [mbind option_bind]. do 2 eexists. split; [reflexivity|]. eexists _, w1, _, w2. split; [reflexivity|]. done.
Qed.

(** *** Consecutive frames

    The sender's frame [k] is due in the [t]-th round from now. *)
Definition sender_at (k : Z) (rest : list Z) (t n : Z) c w : Prop :=
  sender_ready k rest t n c w \/ (t = 1 /\ sender_sent k rest (tc.(CanTpNas) + 1) n c w).

Lemma sender_main_due k rest n c w :
  sender_at k rest 1 n c w -> rest <> [] ->
  wp (tx_event_step cfgS tc MainFunction)
    (fun _ s => exists t, sender_sent k rest t n s.(chan) s.(env)) (Build_ChanState c w).
Proof using Hlk.
  intros [Hs|[_ Hs]] Hne.
  - eapply wp_mono; [by apply sender_main_send|]. intros ? ? Hx. eexists. exact Hx.
  - pose proof Hlk.(lk_nas). eapply wp_mono; [by apply (sender_main_sent _ _ _ _ _ _ Hs); lia|].
    intros ? ? Hx. eexists. exact Hx.
Qed.

(** The sender after the confirmation of frame [k]. *)
Definition sender_next (k : Z) (rest : list Z) (n : Z) c w : Prop :=
  let rest' := drop m rest in
  (rest' = [] /\ sender_done c w) \/
  (rest' <> [] /\ COUNT_DECREMENT n = 0 /\ rc.(CanTpBs) <> 0 /\ sender_flow (k + 1) rest' c w) \/
  (rest' <> [] /\ (COUNT_DECREMENT n <> 0 \/ rc.(CanTpBs) = 0) /\
     exists t, 1 <= t <= G /\ sender_at (k + 1) rest' t (COUNT_DECREMENT n) c w).

Lemma sender_confirmed k rest t n c w :
  sender_sent k rest t n c w ->
  wp (tx_event_step cfgS tc TxConfirmation)
    (fun _ s => sender_next k rest n s.(chan) s.(env)) (Build_ChanState c (with_bus [] w)).
Proof using Hlk.
  intros ([] & Htx & Hbus & Hk & Hst & Htm).
  eapply (sender_confirm k (drop m rest)).
  - split; try done. by destruct sc_core0; split.
  - intros. by left.
  - rewrite sc_nfc0, sc_bs0. intros. right. left. auto.
  - rewrite sc_nfc0, sc_bs0. intros Hne Hor _ _ c' w' Hs. right. right. split; [done|]. split; [done|].
    pose proof G_pos. destruct Hs; [exists 1 | exists G]; (split; [lia|]); [right | left]; done.
  - rewrite sc_nfc0, sc_bs0, sc_stmin0. intros _. right. done.
Qed.

Lemma used_sender k rest t n c w : sender_at k rest t n c w -> used c.
Proof using Type. intros [([] & _)|(_ & [] & _)]; by left. Qed.

Lemma used_receiver k rest r t bus c w : receiver_waiting k rest r t bus c w -> used c.
Proof using Type. intros []. by left. Qed.

(** A round in which the sender waits for STmin. *)
Lemma round_wait k rest t n r T l :
  linked (sender_at k rest t n) (receiver_waiting k rest r T []) l -> 2 <= t -> 2 <= T ->
  exists l', link_round l = Some l' /\
    linked (sender_at k rest (t - 1) n) (receiver_waiting k rest r (T - 1) []) l'.
Proof using Hlk.
  intros Hl Ht HT.
  destruct (link_main_step _ _ (fun c w => sender_ready k rest (t - 1) n c w) (receiver_waiting k rest r (T - 1) []) l Hl)
    as (l1 & E1 & Hl1).
  - intros ? ?. apply used_sender.
  - intros ? ?. apply used_receiver.
  - intros c w [Hs|[? _]]; [|lia]. by apply sender_main_wait.
  - intros c w Hr. by apply receiver_main.
  - unfold link_round. rewrite E1. cbn [mbind option_bind].
    rewrite (transfer_none _ _ _ Hl1) by (by intros ? ? (_ & _ & _ & ? & _)). cbn [mbind option_bind].
    rewrite (transfer_back_none _ _ _ Hl1) by (by intros ? ? []). cbn [mbind option_bind].
    destruct l1. eexists. split; [reflexivity|]. eapply linked_mono; [exact Hl1 | by left | done].
Qed.

(** A round in which frame [k] crosses the bus. *)
Definition receiver_next (k : Z) (rest : list Z) (r t : Z) c w : Prop :=
  let rest' := drop m rest in
  (rest' = [] /\ receiver_done c w) \/
  (rest' <> [] /\ COUNT_DECREMENT r = 0 /\ 0 < rc.(CanTpBs) /\
     exists bus r', cts bus /\ in_step rc.(CanTpBs) r' (ncf rest') /\
       receiver_waiting (k + 1) rest' r' t bus c w) \/
  (rest' <> [] /\ (COUNT_DECREMENT r <> 0 \/ rc.(CanTpBs) = 0) /\
     receiver_waiting (k + 1) rest' (COUNT_DECREMENT r) (rc.(CanTpNcr) + 1) [] c w).

Lemma round_deliver k rest n r T l :
  linked (sender_at k rest 1 n) (receiver_waiting k rest r T []) l -> rest <> [] -> 2 <= T ->
  exists l0 s1 r1, link_main l = Some l0 /\ transfer l0.(l_sender) l0.(l_receiver) = Some (s1, r1) /\
    linked (sender_next k rest n) (receiver_next k rest r (T - 1)) {| l_sender := s1; l_receiver := r1 |}.
Proof using Hlk.
  intros Hl Hne HT.
  destruct (link_main_step _ _ (fun c w => exists t, sender_sent k rest t n c w)
    (receiver_waiting k rest r (T - 1) []) l Hl) as (l1 & E1 & Hl1).
  - intros ? ?. apply used_sender.
  - intros ? ?. apply used_receiver.
  - intros c w Hs. by apply sender_main_due.
  - intros c w Hr. by apply receiver_main.
  - destruct (transfer_data _ _ (sender_next k rest n) (receiver_next k rest r (T - 1)) l1
      (0x20 + k mod 16) (take m rest) Hl1) as (s1 & r1 & E2 & Hl2).
    + pose proof (cf_carries k rest) as (? & _ & _ & Hle). unfold frame_info, tx_frame in Hle.
      pose proof addr_short. rewrite !length_app, length_take. cbn [length]. unfold cf_size. destruct fd; cbn; lia.
    + destruct (frame_type_byte (k mod 16)) as (_ & _ & ->); [apply Z.mod_pos_bound; lia|]. auto.
    + intros c w (t & _ & _ & Hb & _). by eexists.
    + intros c w Hr. eapply wp_mono; [by apply (receiver_cf k rest r (T - 1))|]. done.
    + intros c w (t & Hs). by eapply sender_confirmed.
    + by exists l1, s1, r1.
Qed.

(** Sender and receiver agree on when a block ends. *)
Lemma in_step_next n r rest :
  in_step n r (ncf rest) -> drop m rest <> [] ->
  let n' := COUNT_DECREMENT n in let r' := COUNT_DECREMENT r in
  (n' = 0 /\ rc.(CanTpBs) <> 0 <-> r' = 0 /\ 0 < rc.(CanTpBs)) /\
  (n' <> 0 \/ rc.(CanTpBs) = 0 -> in_step n' r' (ncf (drop m rest))).
Proof using Hlk.
  intros Hin Hne. assert (rest <> []) by (intros ->; by rewrite drop_nil in Hne).
  rewrite (ncf_cons rest), (ncf_cons (drop m rest)) in Hin by done. rewrite (ncf_cons (drop m rest)) by done.
  assert (0 <= ncf (drop m (drop m rest))) by (unfold ncf; lia).
  unfold in_step, COUNT_DECREMENT in *. rewrite !Z.gtb_ltb.
  destruct (Z.ltb_spec 0 n), (Z.ltb_spec 0 r); lia.
Qed.

(** After the frame: the message is over, a block is over, or the next frame is due. *)
Lemma next_over k rest n r t l :
  linked (sender_next k rest n) (receiver_next k rest r t) l -> drop m rest = [] ->
  linked sender_done receiver_done l.
Proof using Type.
  intros Hl Hnil. eapply linked_mono; [exact Hl | |]; intros c w [[]|[[]|[]]]; done.
Qed.

Lemma next_block k rest n r t l :
  linked (sender_next k rest n) (receiver_next k rest r t) l -> drop m rest <> [] ->
  COUNT_DECREMENT n = 0 /\ rc.(CanTpBs) <> 0 -> COUNT_DECREMENT r = 0 /\ 0 < rc.(CanTpBs) ->
  exists bus r', cts bus /\ in_step rc.(CanTpBs) r' (ncf (drop m rest)) /\
    linked (sender_flow (k + 1) (drop m rest)) (receiver_waiting (k + 1) (drop m rest) r' t bus) l.
Proof using Type.
  intros (cS & wS & cR & wR & E & ? & ? & ? & ? & HP & HQ) Hne Hn Hr.
  destruct HQ as [[]|[(_ & _ & _ & bus & r' & Hcts & Hin & HQ)|(_ & ? & _)]]; [done| |lia].
  exists bus, r'. split; [done|]. split; [done|]. exists cS, wS, cR, wR.
  destruct HP as [[]|[(_ & _ & _ & HP)|(_ & ? & _)]]; [done|auto 10|lia].
Qed.

Lemma next_go k rest n r t l :
  linked (sender_next k rest n) (receiver_next k rest r t) l -> drop m rest <> [] ->
  COUNT_DECREMENT n <> 0 \/ rc.(CanTpBs) = 0 -> COUNT_DECREMENT r <> 0 \/ rc.(CanTpBs) = 0 ->
  exists t', 1 <= t' <= G /\ linked (sender_at (k + 1) (drop m rest) t' (COUNT_DECREMENT n))
    (receiver_waiting (k + 1) (drop m rest) (COUNT_DECREMENT r) (rc.(CanTpNcr) + 1) []) l.
Proof using Type.
  intros (cS & wS & cR & wR & E & ? & ? & ? & ? & HP & HQ) Hne Hn Hr.
  destruct HP as [[]|[(_ & ? & ? & _)|(_ & _ & t' & Ht & HP)]]; [done|lia|].
  exists t'. split; [done|]. exists cS, wS, cR, wR.
  destruct HQ as [[]|[(_ & ? & ? & _)|(_ & _ & HQ)]]; [done|lia|auto 10].
Qed.

Lemma round_cf k rest n r T l :
  linked (sender_at k rest 1 n) (receiver_waiting k rest r T []) l -> rest <> [] -> 2 <= T ->
  in_step n r (ncf rest) ->
  exists l', link_round l = Some l' /\
    ((drop m rest = [] /\ linked sender_done receiver_done l') \/
     (drop m rest <> [] /\ exists t n' r' T', 1 <= t <= G /\ (T' = T - 1 \/ T' = rc.(CanTpNcr) + 1) /\
        in_step n' r' (ncf (drop m rest)) /\
        linked (sender_at (k + 1) (drop m rest) t n') (receiver_waiting (k + 1) (drop m rest) r' T' []) l')).
Proof using Hlk.
  intros Hl Hne HT Hin. destruct (round_deliver _ _ _ _ _ _ Hl Hne HT) as (l0 & s1 & r1 & E1 & E2 & Hl1).
  unfold link_round. rewrite E1. cbn [mbind option_bind]. rewrite E2. cbn [mbind option_bind].
  set (l1 := {| l_sender := s1; l_receiver := r1 |}) in *.
  change (transfer r1 s1) with (transfer l1.(l_receiver) l1.(l_sender)). pose proof G_pos as HG.
  destruct (decide (drop m rest = [])) as [Hnil|Hnn].
  { pose proof (next_over _ _ _ _ _ _ Hl1 Hnil) as Hl2.
    rewrite (transfer_back_none _ _ _ Hl2) by (by intros ? ? (_ & _ & ? & _)). cbn [mbind option_bind].
    eexists. split; [reflexivity|]. by left. }
  destruct (in_step_next n r rest Hin Hnn) as [Hiff Hstep]. destruct (rc_bs _ _ Hlk.(lk_rx)) as [Hbs _].
  destruct (decide (COUNT_DECREMENT n = 0 /\ CanTpBs rc <> 0)) as [Hblock|Hblock].
  - destruct (next_block _ _ _ _ _ _ Hl1 Hnn Hblock ltac:(by apply Hiff)) as (bus & r' & Hcts & Hin' & Hl2).
    destruct (transfer_cts _ _ (sender_at (k + 1) (drop m rest) 1 (CanTpBs rc))
      (receiver_waiting (k + 1) (drop m rest) r' (T - 1) []) l1 Hl2) as (r2 & s2 & E3 & Hl3).
    + intros c w []. by subst.
    + intros c w f Hs Hf Hfc. eapply wp_mono; [by apply (sender_cts (k + 1) (drop m rest))|]. intros ? ? ?. by left.
    + intros c w []. split; try done. by eapply rx_waiting_same; [exact rv_wait0 | apply rv_wait0 | ..].
    + rewrite E3. cbn [mbind option_bind]. eexists. split; [reflexivity|]. right. split; [done|].
      exists 1, (CanTpBs rc), r', (T - 1). split; [lia|]. split; [by left|]. done.
  - destruct (next_go _ _ _ _ _ _ Hl1 Hnn ltac:(lia) ltac:(lia)) as (t & Ht & Hl2).
    rewrite (transfer_back_none _ _ _ Hl2) by (by intros ? ? []). cbn [mbind option_bind].
    eexists. split; [reflexivity|]. right. split; [done|].
    exists t, (COUNT_DECREMENT n), (COUNT_DECREMENT r), (CanTpNcr rc + 1).
    split; [done|]. split; [by right|]. split; [apply Hstep; lia | done].
Qed.

(** All the consecutive frames. *)
Lemma rounds_cf N : forall k rest t n r T l,
  linked (sender_at k rest t n) (receiver_waiting k rest r T []) l -> rest <> [] ->
  in_step n r (ncf rest) -> 1 <= t <= G -> t + (ncf rest - 1) * G < T ->
  t + (ncf rest - 1) * G <= Z.of_nat N -> ncf rest * G < rc.(CanTpNcr) ->
  exists N' l', (N' <= N)%nat /\ link_rounds N' l = Some l' /\ linked sender_done receiver_done l'.
Proof using Hlk.
  induction N as [|N IH]; intros k rest t n r T l Hl Hne Hin Ht HT HN Hcr.
  { assert (1 <= ncf rest) by (rewrite ncf_cons by done; unfold ncf; lia). nia. }
  assert (Hn1 : ncf rest = 1 + ncf (drop m rest)) by (by apply ncf_cons).
  assert (Hn0 : 0 <= ncf (drop m rest)) by (unfold ncf; lia). pose proof G_pos as HG.
  destruct (Z.eq_dec t 1) as [->|Hne1].
  - destruct (round_cf _ _ _ _ _ _ Hl Hne ltac:(nia) Hin) as (l1 & E1 & [[Hnil Hl1]|(Hnn & t & n' & r' & T' & Ht' & HT' & Hin' & Hl1)]).
    + exists 1%nat, l1. split; [lia|]. cbn [link_rounds]. by rewrite E1.
    + assert (Hn2 : 1 <= ncf (drop m rest)) by (rewrite ncf_cons by done; unfold ncf; lia).
      destruct (IH _ _ _ _ _ _ _ Hl1 Hnn Hin' Ht') as (N' & l' & HN' & E2 & Hl'); [nia|nia|nia|].
      exists (S N'), l'. split; [lia|]. cbn [link_rounds]. by rewrite E1.
  - destruct (round_wait _ _ _ _ _ _ _ Hl ltac:(lia) ltac:(nia)) as (l1 & E1 & Hl1).
    destruct (IH _ _ _ _ _ _ _ Hl1 Hne Hin) as (N' & l' & HN' & E2 & Hl'); [lia|lia|lia|lia|].
    exists (S N'), l'. split; [lia|]. cbn [link_rounds]. by rewrite E1.
Qed.

(** *** The first frame *)
Definition first_rest : list Z :=
  if fits_single fd addr msg then [] else drop (ff_size fd addr) msg.

Definition first_bytes : list Z :=
  if fits_single fd addr msg then single_frame fd addr msg else first_frame fd addr msg.

Lemma first_header_room :
  let hdr := first_header fd addr msg in
  hdr ++ take (room fd hdr) msg = first_bytes /\ drop (room fd hdr) msg = first_rest /\
  (1 <= room fd hdr)%nat.
Proof using Hlk.
  pose proof addr_short as Ha. unfold first_header, first_bytes, first_rest, fits_single.
  destruct (Z.leb_spec (Z.of_nat (length addr) + (if fd then 2 else 1) + Z.of_nat (length msg))
    (frame_len fd)) as [Hle|Hgt]; cbv zeta.
  - set (hdr := addr ++ _).
    assert (Hrm : (length msg <= room fd hdr)%nat)
      by (unfold room, hdr; rewrite length_app; destruct fd; cbn [length]; lia).
    assert (H1 : (1 <= room fd hdr)%nat) by (pose proof Hlk.(lk_msg); lia).
    rewrite take_ge, drop_ge by done. unfold hdr, single_frame. rewrite <- app_assoc.
    split; [done|]. split; [done|]. exact H1.
  - set (hdr := addr ++ _). assert (Hrm : room fd hdr = ff_size fd addr)
      by (unfold room, hdr, ff_size; rewrite length_app; cbn [length]; f_equal; lia).
    rewrite Hrm. unfold first_frame, hdr. rewrite <- app_assoc. split; [done|]. split; [done|].
    unfold ff_size. destruct fd; cbn; lia.
Qed.

(** The first byte after the address says what the frame is. *)
Lemma first_bytes_shape :
  exists b f, first_bytes = addr ++ [b] ++ f /\ Z.of_nat (length first_bytes) <= frame_len fd /\
    Z.land b 0x30 = if fits_single fd addr msg then 0 else 0x10.
Proof using Hlk.
  pose proof addr_short as Ha. pose proof Hlk.(lk_msg) as Hmsg. unfold first_bytes.
  destruct (fits_single fd addr msg) eqn:Hfs.
  - assert (Hfit := Hfs). unfold fits_single in Hfit. apply Z.leb_le in Hfit.
    exists (if fd then 0 else Z.of_nat (length msg)), (if fd then Z.of_nat (length msg) :: msg else msg).
    unfold single_frame. rewrite !length_app.
    destruct fd; cbn [length app] in *; (split; [done|]; split; [cbn in *; lia|]); [done|].
    apply frame_type_byte. cbn in *. lia.
  - exists (0x10 + Z.of_nat (length msg) / 256), (Z.of_nat (length msg) mod 256 :: take (ff_size fd addr) msg).
    split; [done|]. split.
    + unfold first_frame. rewrite !length_app, length_take. cbn [length]. unfold ff_size. destruct fd; cbn; lia.
    + apply frame_type_byte. split; [apply Z.div_pos | apply Z.div_lt_upper_bound]; lia.
Qed.

Definition sender_started c w : Prop :=
  (exists c0, tx_started tc fd addr msg c0 c w 0) /\
  w.(n_tx) = msg /\ w.(n_bus) = [] /\ w.(n_txres) = [] /\ willing w.

Definition sender_first c w : Prop :=
  tx_core fd addr msg c w /\ c.(pduId) = 0 /\ c.(iso15765).(framesHandledCount) = 0 /\
  1 <= c.(transferCount) /\ c.(iso15765).(state) = TX_WAIT_TX_CONFIRMATION /\ w.(n_tx) = first_rest /\
  w.(n_bus) = [(tc.(CanIf_PduId), tx_frame cfgS tc first_bytes)] /\ willing w /\ w.(n_txres) = [] /\
  (fits_single fd addr msg = false ->
     c.(iso15765).(nextFlowControlCount) = 1 /\ c.(iso15765).(BS) = 1).

Lemma sender_main_first c w :
  sender_started c w ->
  wp (tx_event_step cfgS tc MainFunction) (fun _ s => sender_first s.(chan) s.(env)) (Build_ChanState c w).
Proof using Hlk.
  intros ((c0 & []) & Htx & Hbus & Hres & Hw). pose proof Hlk.(lk_msg) as Hmsg.
  destruct first_header_room as (Ef & Er & Hroom).
  cbn [tx_event_step]. steps. rewrite st_pduId.
  change (negb (0 =? INVALID_PDU_ID)) with true. cbv iota. unfold txSduStateMachine. steps.
  rewrite st_state. unfold tx_wait_transmit. apply wp_bind.
  eapply node_send; [exact st_ready | done | done |]. intros d size Hd Hhd Hsz. rewrite Ef, Er. steps.
  assert (Hn : (1 <= length (take (room fd (first_header fd addr msg)) msg))%nat) by (rewrite length_take; lia).
  assert (Hsum : Z.of_nat (length (take (room fd (first_header fd addr msg)) msg)) +
    Z.of_nat (length first_rest) = Z.of_nat (length msg)) by (rewrite <- Er, length_take, length_drop; lia).
  destruct st_core. cbn in ts_rest. rewrite Htx in ts_rest.
  split; [|cbn; rewrite Hbus; repeat (split; [done || lia|]); done].
  split; cbn; try done; try lia.
  apply (f_equal (take (length addr))) in Hhd.
  assert (length addr <= length (first_header fd addr msg))%nat by (unfold first_header; rewrite length_app; lia).
  rewrite take_take, Nat.min_l in Hhd by done. rewrite Hhd. unfold first_header. apply take_app_length.
Qed.

Lemma sender_first_confirmed c w :
  sender_first c w ->
  wp (tx_event_step cfgS tc TxConfirmation)
    (fun _ s => (fits_single fd addr msg = true /\ sender_done s.(chan) s.(env)) \/
                (fits_single fd addr msg = false /\ sender_flow 1 first_rest s.(chan) s.(env)))
    (Build_ChanState c (with_bus [] w)).
Proof using Hlk.
  intros (Hc & Hid & Hh & Hcnt & Hst & Htx & Hbus & Hw & Hres & Hfc).
  assert (Hfr : first_rest = [] <-> fits_single fd addr msg = true).
  { unfold first_rest. destruct (fits_single fd addr msg) eqn:Hfs; [done|]. split; [|done]. intros E.
    apply (f_equal length) in E. rewrite length_drop in E. unfold fits_single in Hfs. apply Z.leb_gt in Hfs.
    pose proof addr_short. unfold ff_size in E. destruct fd; cbn in *; lia. }
  eapply (sender_confirm 0 first_rest).
  - split; try done. by destruct Hc; split.
  - intros E c' w' Hd. left. split; [by apply Hfr | done].
  - intros Hne _ _ c' w' Hf. right. split; [|done]. destruct (fits_single fd addr msg); [|done]. by destruct Hne; apply Hfr.
  - intros Hne Hor _ _ c' w' _. exfalso.
    destruct Hfc as [E1 E2]; [destruct (fits_single fd addr msg); [by destruct Hne; apply Hfr | done]|].
    rewrite E1, E2 in Hor. by destruct Hor as [Hor|].
  - intros Hne. left.
    destruct Hfc as [E1 E2]; [destruct (fits_single fd addr msg); [by destruct Hne; apply Hfr | done]|].
    by rewrite E1, E2.
Qed.

Definition receiver_idle c w : Prop :=
  c.(iso15765).(state) = IDLE /\ c.(pduId) = INVALID_PDU_ID /\
  frame_len fd <= Z.of_nat (length c.(canFrameBuffer).(data)) /\
  w.(n_rx) = [] /\ w.(n_capacity) = capacity /\ willing w /\ w.(n_rxres) = [] /\ w.(n_bus) = [].

Definition receiver_first c w : Prop :=
  (fits_single fd addr msg = true /\ receiver_done c w) \/
  (fits_single fd addr msg = false /\ exists bus r, cts bus /\
     in_step rc.(CanTpBs) r (ncf first_rest) /\
     receiver_waiting 1 first_rest r (rc.(CanTpNcr) + 1) bus c w).

Lemma receiver_gets_single c w :
  receiver_idle c w -> fits_single fd addr msg = true -> c.(CanfdSupport) = fd ->
  wp (handleSingleFrame cfgR rc (frame_info (tx_frame cfgS tc (single_frame fd addr msg))) 0)
    (fun _ s => receiver_done s.(chan) s.(env)) (Build_ChanState c w).
Proof using Hlk.
  intros (Hst & Hid & Hbuf & Hrx & Hcap & Hw & Hres & Hbus) Hfs Hfd.
  pose proof Hlk.(lk_msg). pose proof Hlk.(lk_capacity).
  eapply wp_handleSingleFrame; [exact Hlk.(lk_rx) | | exact Hfs | lia | | done | done | done |].
  - apply tx_frame_carries. destruct first_bytes_shape as (? & ? & _ & Hl & _).
    unfold first_bytes in Hl. by rewrite Hfs in Hl.
  - intros Hf. by apply Hlk.(lk_fd).
  - intros r size w1 c1 Hcopy _ [_ _ _ _ Hcase].
    rewrite copy_willing in Hcopy; [|done | done | lia | rewrite Hrx; cbn; lia].
    injection Hcopy as <- <- <-. destruct Hcase as [E1 E2]. cbn. rewrite Hres, Hrx.
    repeat (split; [done|]). done.
Qed.

Lemma receiver_gets_first c w :
  receiver_idle c w -> fits_single fd addr msg = false -> c.(CanfdSupport) = fd ->
  wp (handleFirstFrame DEV cfgR rc (frame_info (tx_frame cfgS tc (first_frame fd addr msg))) 0)
    (fun _ s => exists bus r, cts bus /\ in_step rc.(CanTpBs) r (ncf first_rest) /\
       receiver_waiting 1 first_rest r (rc.(CanTpNcr) + 1) bus s.(chan) s.(env)) (Build_ChanState c w).
Proof using Hlk.
  intros (Hst & Hid & Hbuf & Hrx & Hcap & Hw & Hres & Hbus) Hfs Hfd.
  pose proof Hlk.(lk_msg). pose proof Hlk.(lk_capacity). pose proof addr_short.
  assert (Hlong : 1 <= Z.of_nat (ff_size fd addr) < Z.of_nat (length msg)).
  { unfold fits_single in Hfs. apply Z.leb_gt in Hfs. unfold ff_size. destruct fd; cbn in *; lia. }
  assert (Hfr : first_rest = drop (ff_size fd addr) msg) by (unfold first_rest; by rewrite Hfs).
  assert (Hfn : Z.of_nat (length first_rest) = Z.of_nat (length msg) - Z.of_nat (ff_size fd addr))
    by (rewrite Hfr, length_drop; lia).
  eapply wp_handleFirstFrame; [exact Hlk.(lk_rx) | | exact Hfs | lia | done | done | done |].
  - apply tx_frame_carries. destruct first_bytes_shape as (? & ? & _ & Hl & _).
    unfold first_bytes in Hl. by rewrite Hfs in Hl.
  - intros r size w1 c1 Hcopy Hsz [Efd Etot Eh Esz Eext Eid Ewft Ebuf Ecase].
    assert (Hlen : Z.of_nat (length (take (ff_size fd addr) msg)) = Z.of_nat (ff_size fd addr))
      by (rewrite length_take; lia).
    rewrite copy_willing in Hcopy; [|done | done | lia | rewrite Hrx; cbn [app]; lia].
    injection Hcopy as <- <- <-. destruct Ecase as (E1 & E2 & E3). rewrite Hrx in *. cbn [app] in *.
    rewrite Hlen, Hcap in *.
    apply (wp_mono _ (fun _ s => exists bus, cts bus /\ receiver_waiting 1 first_rest
      (computed_bs rc addr c1) (rc.(CanTpNcr) + 1) bus s.(chan) s.(env))).
    2:{ intros ? s (bus & Hcts & Hrv). exists bus, (computed_bs rc addr c1). split; [done|]. split; [|done].
        apply computed_in_step; [done | intros E; rewrite E in Hfn; cbn in Hfn; lia | lia]. }
    apply (wp_sendFlowControlFrame cfgR rc addr Hlk.(lk_rx)); [done | congruence | done |].
    intros f resp w' Hsend Hf Hfc. cbn in Hsend. unfold node_transmit in Hsend. cbn in Hsend.
    rewrite (proj2 Hw), Hbus in Hsend. injection Hsend as <- <-. cbn [Z.eqb E_OK].
    eexists. split; [by exists f|]. split; try done.
    + split; cbn; try done; rewrite ?E2, ?Etot, ?Esz, ?Ebuf; try done; lia.
    + cbn. rewrite Eh, E2. split; [done|]. split; [lia|]. rewrite Hfn, Nat2Z.id. split; [lia|]. by rewrite Hfr.
    + cbn. by rewrite E2, Nat2Z.id.
Qed.

Lemma receiver_gets_message c w :
  receiver_idle c w ->
  wp (rx_event_step DEV cfgR rc fd 0 (RxFrame (frame_info (tx_frame cfgS tc first_bytes))))
    (fun _ s => receiver_first s.(chan) s.(env)) (Build_ChanState c w).
Proof using Hlk.
  intros Hidle. destruct first_bytes_shape as (b & f & Hb & Hlen & Hland). cbn [rx_event_step]. apply wp_bind.
  eapply wp_deref.
  { destruct (tx_frame_carries first_bytes Hlen) as (filler & Hp & _).
    eapply getFrameType_at; [exact Hlk.(lk_rx)|]. rewrite Hp, Hb.
    rewrite <- !app_assoc, load_app_r, Z.sub_diag by lia. reflexivity. }
  rewrite Hland. unfold receiver_first, first_bytes.
  assert (Hidle' : receiver_idle (set_CanfdSupport fd c) w) by done.
  destruct (fits_single fd addr msg) eqn:Hfs; cbn -[wp bind set handleSingleFrame handleFirstFrame];
    rewrite decide_False by done; steps.
  - eapply wp_mono; [by apply receiver_gets_single|]. by left.
  - eapply wp_mono; [by apply receiver_gets_first|]. by right.
Qed.

(** The first round. *)
Lemma round_first l :
  linked sender_started receiver_idle l ->
  exists l', link_round l = Some l' /\
    ((fits_single fd addr msg = true /\ linked sender_done receiver_done l') \/
     (fits_single fd addr msg = false /\ exists r, in_step rc.(CanTpBs) r (ncf first_rest) /\
        linked (sender_at 1 first_rest 1 rc.(CanTpBs)) (receiver_waiting 1 first_rest r (rc.(CanTpNcr) + 1) []) l')).
Proof using Hlk.
  intros Hl. destruct (link_main_step _ _ sender_first receiver_idle l Hl) as (l1 & E1 & Hl1).
  { intros c w ((? & []) & _). by left. }
  { intros c w (_ & ? & _). by right. }
  { apply sender_main_first. }
  { intros c w Hi. pose proof Hi as (_ & Hid & _). cbn [rx_event_step]. steps. rewrite Hid. by apply wp_ret. }
  destruct first_bytes_shape as (b & f & Hb & Hlen & Hland).
  destruct (transfer_data _ _
    (fun c w => (fits_single fd addr msg = true /\ sender_done c w) \/
                (fits_single fd addr msg = false /\ sender_flow 1 first_rest c w))
    receiver_first l1 b f Hl1) as (s1 & r1 & E2 & Hl2); rewrite <- ?Hb.
  { done. }
  { cbv zeta. rewrite Hland. destruct (fits_single _ _ _); auto. }
  { intros c w (_ & _ & _ & _ & _ & _ & Hbus & _). by eexists. }
  { apply receiver_gets_message. }
  { apply sender_first_confirmed. }
  unfold link_round. rewrite E1. cbn [mbind option_bind]. rewrite E2. cbn [mbind option_bind].
  set (l2 := {| l_sender := s1; l_receiver := r1 |}) in *.
  change (transfer r1 s1) with (transfer l2.(l_receiver) l2.(l_sender)).
  destruct (fits_single fd addr msg) eqn:Hfs.
  - assert (Hl3 : linked sender_done receiver_done l2).
    { eapply linked_mono; [exact Hl2 | by intros c w [[]|[]] |]. unfold receiver_first. rewrite Hfs. by intros c w [[]|[]]. }
    rewrite (transfer_back_none _ _ _ Hl3) by (by intros ? ? (_ & _ & ? & _)). eexists. split; [reflexivity|]. by left.
  - assert (Hl3 : exists bus r, cts bus /\ in_step rc.(CanTpBs) r (ncf first_rest) /\
      linked (sender_flow 1 first_rest) (receiver_waiting 1 first_rest r (rc.(CanTpNcr) + 1) bus) l2).
    { destruct Hl2 as (cS & wS & cR & wR & ? & ? & ? & ? & ? & [[]|[_ HP]] & HQ); [done|].
      unfold receiver_first in HQ. rewrite Hfs in HQ. destruct HQ as [[]|(_ & bus & r & ? & ? & ?)]; [done|].
      exists bus, r. split; [done|]. split; [done|]. by exists cS, wS, cR, wR. }
    destruct Hl3 as (bus & r & Hcts & Hin & Hl3).
    destruct (transfer_cts _ _ (sender_at 1 first_rest 1 (CanTpBs rc))
      (receiver_waiting 1 first_rest r (CanTpNcr rc + 1) []) l2 Hl3) as (r2 & s2 & E3 & Hl4).
    + intros c w []. by subst.
    + intros c w f' Hs Hf Hfc. eapply wp_mono; [by apply (sender_cts 1 first_rest)|]. intros ? ? ?. by left.
    + intros c w []. split; try done. by eapply rx_waiting_same; [exact rv_wait0 | apply rv_wait0 | ..].
    + rewrite E3. eexists. split; [reflexivity|]. right. split; [done|]. exists r. done.
Qed.

Lemma segmentation_length :
  Z.of_nat (length (segmentation fd addr msg)) = 1 + ncf first_rest.
Proof using Type.
  unfold segmentation, first_rest. destruct (fits_single fd addr msg); [done|].
  cbn [length]. rewrite Nat2Z.inj_succ. change (consecutive_frames _ _ _ 1 _) with
    (cframes fd addr 1 (drop (ff_size fd addr) msg)). rewrite length_cframes. lia.
Qed.

(** The number of rounds a transfer may take. *)
Definition rounds : Z := 1 + (Z.of_nat (length (segmentation fd addr msg)) - 1) * G.

Lemma link_transfer l :
  linked sender_started receiver_idle l ->
  exists n l', Z.of_nat n <= rounds /\ link_rounds n l = Some l' /\ linked sender_done receiver_done l'.
Proof using Hlk.
  intros Hl. pose proof Hlk.(lk_ncr) as Hncr. pose proof G_pos as HG. unfold rounds.
  pose proof segmentation_length as Hseg. rewrite Hseg in *.
  assert (Hn0 : 0 <= ncf first_rest) by (unfold ncf; lia).
  destruct (round_first l Hl) as (l1 & E1 & [[_ Hl1]|(Hfs & r & Hin & Hl1)]).
  - exists 1%nat, l1. split; [nia|]. cbn [link_rounds]. by rewrite E1.
  - assert (Hne : first_rest <> []).
    { unfold first_rest. rewrite Hfs. intros E. apply (f_equal length) in E. rewrite length_drop in E. cbn in E.
      unfold fits_single in Hfs. apply Z.leb_gt in Hfs. pose proof addr_short. unfold ff_size in E.
      destruct fd; cbn in *; lia. }
    assert (Hn1 : 1 <= ncf first_rest) by (rewrite ncf_cons by done; unfold ncf; lia).
    destruct (rounds_cf (Z.to_nat (ncf first_rest * G)) _ _ _ _ _ _ _ Hl1 Hne Hin) as (N & l' & HN & E2 & Hl2);
      [lia | nia | nia | nia |].
    exists (S N), l'. split; [nia|]. cbn [link_rounds]. by rewrite E1.
Qed.
End Link.
