(* ===== verification/CanTp_Timeout.v ===== *)
(** * CAN transport protocol: transmissions end

    Every waiting state of a transmission has a timeout, so a transmission that hears
    nothing more ends within a bounded number of main functions, whatever the upper
    layer and CanIf answer. *)

From S2P Require Import Prelude.
From S2P Require Import StateMonad.
From S2P Require Import ComStack.
From S2P Require Import CanTp.
From S2P Require Import CanTp_Steps.
From S2P Require Import CanTp_Tx.

#[local] Open Scope monad_scope.

Section Timeout.
Context {W : Type} `{CanTp_Laws W}.
Variables (cfg : CanTp_ConfigType) (tc : CanTp_TxNSduType) (fd : bool) (addr : list Z).
Hypothesis Hok : tx_config_ok cfg tc fd addr.

(** ** Partial correctness: if the handler ends, it ends in [Q] *)
Definition wlp {A} (h : M (ChanState W) A) (Q : A -> ChanState W -> Prop) (s : ChanState W) : Prop :=
  forall a s', h s = Some (a, s') -> Q a s'.

Lemma wlp_bind {A B} (h : M _ A) (f : A -> M _ B) Q s :
  wlp h (fun a s => wlp (f a) Q s) s -> wlp (bind h f) Q s.
Proof using Type.
  intros Hh b s' E. unfold bind in E. destruct (h s) as [[a s1]|] eqn:E1; [|done]. by eapply (Hh _ _ E1).
Qed.
Lemma wlp_mono {A} (h : M _ A) (P Q : A -> _ -> Prop) s :
  wlp h P s -> (forall a s', P a s' -> Q a s') -> wlp h Q s.
Proof using Type. intros Hh HPQ a s' E. auto. Qed.
Lemma wlp_of_wp {A} (h : M _ A) (P Q : A -> _ -> Prop) s :
  wp h P s -> wlp h Q s -> wp h (fun a s => P a s /\ Q a s) s.
Proof using Type. unfold wp, wlp. destruct (h s) as [[a s']|] eqn:E; [|done]. auto. Qed.
Lemma wlp_ret {A} (a : A) Q (s : ChanState W) : Q a s -> wlp (ret a) Q s.
Proof using Type. by intros HQ b s' [= <- <-]. Qed.
Lemma wlp_rt {A} (f : _ -> A) Q c w : Q (f c) (Build_ChanState c w) -> wlp (rt f) Q (Build_ChanState c w).
Proof using Type. by intros HQ b s' [= <- <-]. Qed.
Lemma wlp_set f Q c w : Q tt (Build_ChanState (f c) w) -> wlp (set f) Q (Build_ChanState c w).
Proof using Type. by intros HQ b s' [= <- <-]. Qed.
Lemma wlp_deref {A} (o : option A) Q s : (forall a, o = Some a -> Q a s) -> wlp (deref o) Q s.
Proof using Type. intros HQ b s' E. unfold deref in E. destruct o; [|done]. injection E as <- <-. by apply HQ. Qed.
Lemma wlp_call {A} (f : W -> A * W) Q c w :
  (forall a w', Q a (Build_ChanState c w')) -> wlp (call f) Q (Build_ChanState c w).
Proof using Type. intros HQ b s' E. unfold call in E. cbn in E. destruct (f w). by injection E as <- <-. Qed.
Lemma wlp_notify f Q c w : (forall w', Q tt (Build_ChanState c w')) -> wlp (notify f) Q (Build_ChanState c w).
Proof using Type. intros HQ b s' [= <- <-]. apply HQ. Qed.

Ltac wlp_steps :=
  repeat (lazymatch goal with
  | |- wlp (bind _ _) _ _ => apply wlp_bind
  | |- wlp (ret _) _ _ => apply wlp_ret
  | |- wlp (rt _) _ _ => apply wlp_rt
  | |- wlp (set _) _ _ => apply wlp_set
  | |- wlp (deref _) _ _ => apply wlp_deref; intros ? ?
  | |- wlp (call _) _ _ => apply wlp_call; intros ? ?
  | |- wlp (notify _) _ _ => apply wlp_notify; intros ?
  | |- wlp end_tx_session _ _ => unfold end_tx_session
  end; cbv beta).

(** ** Timers of a transmission *)
Definition longest : Z := tc.(CanTpNas) + tc.(CanTpNbs) + tc.(CanTpNcs) + 129.

(** The connection serves the N-SDU, with a timer in range; or it is idle. *)
Definition live (c : CanTp_SimplexChannelPrivateType) : Prop :=
  is_u8 c.(iso15765).(STmin) /\
  (c.(pduId) = 0 /\ 0 <= c.(iso15765).(stateTimeoutCount) <= longest \/ c.(iso15765).(state) = IDLE).

(** A call of [sendNextTxFrame] sends and waits for the confirmation, or does nothing
    but take note of the space. *)
Lemma wlp_sendNextTxFrame c w Q :
  (forall r c' w', c'.(pduId) = c.(pduId) -> c'.(iso15765).(STmin) = c.(iso15765).(STmin) ->
     (c'.(iso15765).(state) = TX_WAIT_TX_CONFIRMATION /\ c'.(iso15765).(stateTimeoutCount) = tc.(CanTpNas) + 1 /\
        r <> BUFREQ_E_BUSY) \/ (c'.(iso15765) = c.(iso15765) /\ r <> BUFREQ_OK) ->
     Q r (Build_ChanState c' w')) ->
  wlp (sendNextTxFrame cfg tc) Q (Build_ChanState c w).
Proof using Type.
  intros HQ. unfold sendNextTxFrame, canTansmitPaddingHelper. wlp_steps.
  destruct (decide _) as [E|E]; wlp_steps; [|apply HQ; [done|done|]; by right].
  destruct (decide (CanTpTxPaddingActivation tc = CANTP_ON)); wlp_steps;
    (apply HQ; [done|done|]; left; cbn; split; [done|]; split; [done|]; by destruct (_ =? E_OK)).
Qed.

(** The separation time in main cycles. *)
Lemma wlp_stmin stmin (Q : Z -> ChanState W -> Prop) s :
  is_u8 stmin -> (forall t, 1 <= t <= 128 -> Q t s) ->
  wlp (if stmin <? 0x80 then
         let* c := deref (ConvertMsToMainCycles cfg stmin) in ret (u32 (c + 1))
       else if (stmin >? 0xF0) && (stmin <? 0xFA) then ret 1
       else let* c := deref (ConvertMsToMainCycles cfg 0x7F) in ret (u32 (c + 1))) Q s.
Proof using Hok.
  intros Hs HQ. pose proof (tc_period _ _ _ _ Hok) as Hp.
  assert (Hc : forall ms t, 0 <= ms <= 127 -> ConvertMsToMainCycles cfg ms = Some t -> 1 <= u32 (t + 1) <= 128).
  { intros ms t Hms. unfold ConvertMsToMainCycles. destruct (_ =? 0); [done|]. intros [= <-].
    set (p := main_function_period _) in *.
    assert (0 <= ms / p <= ms) by (split; [apply Z.div_pos; lia | apply Z.div_le_upper_bound; nia]).
    unfold u32. rewrite Z.mod_small; lia. }
  unfold in_width in Hs. destruct (Z.ltb_spec stmin 0x80); [|destruct (_ && _)]; wlp_steps; apply HQ; [|lia|].
  - eapply Hc; [|done]. lia.
  - eapply Hc; [|done]. lia.
Qed.

Definition event_typed (e : tx_event) : Prop :=
  match e with FlowControl p => Forall is_u8 p.(SduDataPtr) | _ => True end.

Lemma live_idle c : is_u8 c.(iso15765).(STmin) -> c.(iso15765).(state) = IDLE -> live c.
Proof using Type. intros. split; auto. Qed.
Lemma live_timer c :
  is_u8 c.(iso15765).(STmin) -> c.(pduId) = 0 -> 0 <= c.(iso15765).(stateTimeoutCount) <= longest -> live c.
Proof using Type. intros. split; auto. Qed.

(** A bound on the main functions before the transmission ends. *)
Definition tx_cycles (c : CanTp_SimplexChannelPrivateType) : Z :=
  let t := c.(iso15765).(stateTimeoutCount) in
  match c.(iso15765).(state) with
  | TX_WAIT_STMIN => t + tc.(CanTpNcs) + tc.(CanTpNas) + 5
  | TX_WAIT_TRANSMIT => t + tc.(CanTpNas) + 3
  | TX_WAIT_FLOW_CONTROL | TX_WAIT_TX_CONFIRMATION => t + 1
  | _ => 0
  end.

Definition progress (c c' : CanTp_SimplexChannelPrivateType) : Prop :=
  live c' /\ (c'.(iso15765).(state) = IDLE \/ tx_cycles c' < tx_cycles c).

Lemma timer_step t : 0 <= t -> 0 <= TIMER_DECREMENT t <= t /\ (TIMER_DECREMENT t <> 0 -> TIMER_DECREMENT t < t).
Proof using Type. unfold TIMER_DECREMENT. rewrite Z.gtb_ltb. destruct (Z.ltb_spec 0 t); lia. Qed.

Lemma main_wait_transmit c0 c w :
  is_u8 c.(iso15765).(STmin) -> c.(pduId) = 0 -> c.(iso15765).(state) = TX_WAIT_TRANSMIT ->
  0 <= c.(iso15765).(stateTimeoutCount) <= longest -> tx_cycles c <= tx_cycles c0 ->
  wlp (tx_wait_transmit cfg tc) (fun _ s => progress c0 s.(chan)) (Build_ChanState c w).
Proof using Hok.
  intros Hs Hid Hst Ht Hle. pose proof (tc_timers _ _ _ _ Hok) as (T1 & T2 & T3).
  assert (Hcy : tx_cycles c = stateTimeoutCount (iso15765 c) + CanTpNas tc + 3) by (unfold tx_cycles; by rewrite Hst).
  unfold tx_wait_transmit. wlp_steps. apply wlp_sendNextTxFrame. intros r c' w' E1 E2 Hcase.
  assert (Hend : forall c1, c1.(iso15765).(STmin) = c'.(iso15765).(STmin) -> c1.(iso15765).(state) = IDLE -> progress c0 c1).
  { intros c1 F1 F2. split; [|by left]. apply live_idle; [by rewrite F1, E2 | done]. }
  destruct Hcase as [(F1 & F2 & F3)|(F1 & F2)]; destruct r; try done; wlp_steps; try by apply Hend.
  - cbn [chan]. split; [apply live_timer; rewrite ?E2, ?E1, ?F2; unfold longest; (done || lia)|]. right.
    unfold tx_cycles at 1. rewrite F1, F2. lia.
  - rewrite F1. destruct (timer_step _ (proj1 Ht)) as [Hd1 Hd2].
    destruct (Z.eqb_spec (TIMER_DECREMENT (stateTimeoutCount (iso15765 c))) 0); wlp_steps; [by apply Hend|].
    cbn [chan]. split; [apply live_timer; cbn; rewrite ?E1, ?F1; (done || lia)|]. right.
    unfold tx_cycles at 1. cbn. rewrite F1, Hst. lia.
Qed.

Lemma main_timeout r c w :
  is_u8 c.(iso15765).(STmin) -> c.(pduId) = 0 -> 0 <= c.(iso15765).(stateTimeoutCount) <= longest ->
  c.(iso15765).(state) = TX_WAIT_FLOW_CONTROL \/ c.(iso15765).(state) = TX_WAIT_TX_CONFIRMATION ->
  wlp (tx_timeout tc r) (fun _ s => progress c s.(chan)) (Build_ChanState c w).
Proof using Type.
  intros Hs Hid Ht Hst. destruct (timer_step _ (proj1 Ht)) as [Hd1 Hd2]. unfold tx_timeout. wlp_steps.
  destruct (Z.eqb_spec (TIMER_DECREMENT (stateTimeoutCount (iso15765 c))) 0); wlp_steps; cbn [chan].
  - split; [by apply live_idle | by left].
  - split; [by apply live_timer; cbn; try done; lia|]. right.
    unfold tx_cycles. cbn. destruct Hst as [-> | ->]; lia.
Qed.

(** The main function makes progress. *)
Lemma main_progress c w :
  live c -> 0 < tx_cycles c ->
  wlp (tx_event_step cfg tc MainFunction) (fun _ s => progress c s.(chan)) (Build_ChanState c w).
Proof using Hok.
  intros [Hs [[Hid Ht]|Hidle]] Hcy; [|unfold tx_cycles in Hcy; rewrite Hidle in Hcy; lia].
  cbn [tx_event_step]. wlp_steps. rewrite Hid. change (negb (0 =? INVALID_PDU_ID)) with true. cbv iota.
  unfold txSduStateMachine. wlp_steps. pose proof (tc_timers _ _ _ _ Hok) as (T1 & T2 & T3).
  destruct (state (iso15765 c)) eqn:Hst; try (unfold tx_cycles in Hcy; rewrite Hst in Hcy; lia); wlp_steps.
  - destruct (timer_step _ (proj1 Ht)) as [Hd1 Hd2].
    destruct (Z.eqb_spec (TIMER_DECREMENT (stateTimeoutCount (iso15765 c))) 0) as [E|E]; cbn [negb]; wlp_steps.
    + apply main_wait_transmit; cbn; try done; [unfold longest; lia|]. unfold tx_cycles. cbn. rewrite Hst. lia.
    + split; [apply live_timer; cbn; (done || lia)|]. right. unfold tx_cycles. cbn. rewrite Hst. lia.
  - apply main_wait_transmit; (done || lia).
  - apply main_timeout; auto.
  - apply main_timeout; auto.
Qed.

(** Every event keeps the connection live. *)
Lemma live_idle_event e c w :
  live c -> c.(iso15765).(state) = IDLE ->
  wlp (tx_event_step cfg tc e) (fun _ s => live s.(chan)) (Build_ChanState c w).
Proof using Type.
  intros Hc Hidle. destruct e as [| |p]; cbn [tx_event_step].
  - wlp_steps. destruct (negb _); wlp_steps; [|done]. unfold txSduStateMachine. wlp_steps. rewrite Hidle. by wlp_steps.
  - wlp_steps. rewrite Hidle, decide_False by done. by wlp_steps.
  - unfold handleFlowControlFrame. wlp_steps.
    destruct (decide _); wlp_steps; [destruct (negb _)|]; wlp_steps; try done;
      rewrite Hidle, decide_False by done; by wlp_steps.
Qed.

Lemma live_confirmation c w :
  is_u8 c.(iso15765).(STmin) -> c.(pduId) = 0 ->
  wlp (handleNextTxFrameSent cfg tc) (fun _ s => live s.(chan)) (Build_ChanState c w).
Proof using Hok.
  intros Hs Hid. pose proof (tc_timers _ _ _ _ Hok) as (T1 & T2 & T3). unfold handleNextTxFrameSent. wlp_steps.
  apply (wlp_mono _ (fun _ s => s.(chan).(iso15765).(STmin) = c.(iso15765).(STmin) /\ s.(chan).(pduId) = 0)).
  { by destruct (decide _); wlp_steps. }
  intros _ [c1 w1] [E1 E2]. cbn in E1, E2. wlp_steps. destruct (_ <=? _); wlp_steps.
  { apply live_idle; [by rewrite <- E1 in Hs | done]. }
  destruct (_ && _); wlp_steps. { apply live_timer; cbn; rewrite ?E1; unfold longest; (done || lia). }
  destruct (_ =? 0); wlp_steps.
  - apply wlp_sendNextTxFrame. intros r c' w' F1 F2 Hcase. cbn in F1, F2.
    assert (Hs' : is_u8 (STmin (iso15765 c'))) by (by rewrite F2, E1).
    destruct Hcase as [(G1 & G2 & G3)|(G1 & G2)]; destruct r; try done; wlp_steps; try (by apply live_idle).
    + apply live_timer; cbn; rewrite ?G2; unfold longest; (done || lia || congruence).
    + apply live_timer; cbn; unfold longest; (done || lia || congruence).
  - apply wlp_stmin; [by rewrite <- E1 in Hs|]. intros t Ht. wlp_steps.
    apply live_timer; cbn; rewrite ?E1; unfold longest; (done || lia).
Qed.

Lemma live_flow_control p c w :
  live c -> Forall is_u8 p.(SduDataPtr) -> c.(pduId) = 0 ->
  wlp (handleFlowControlFrame tc p) (fun _ s => live s.(chan)) (Build_ChanState c w).
Proof using Hok.
  intros Hc Hp Hid. pose proof (tc_timers _ _ _ _ Hok) as (T1 & T2 & T3). unfold handleFlowControlFrame. wlp_steps.
  apply (wlp_mono _ (fun _ s => s = Build_ChanState c w)). { by destruct (decide _); wlp_steps. }
  intros [i f] ? ->. destruct f; wlp_steps; [done|]. destruct (decide _); wlp_steps; [|done].
  destruct (_ =? ISO15765_FLOW_CONTROL_STATUS_CTS); wlp_steps.
  { apply live_timer; cbn; [by eapply load_byte | done | unfold longest; lia]. }
  destruct (_ =? ISO15765_FLOW_CONTROL_STATUS_WAIT); wlp_steps.
  { apply live_timer; cbn; [apply Hc | done | unfold longest; lia]. }
  destruct (_ =? _); wlp_steps; apply live_idle; try done; apply Hc.
Qed.

Lemma live_tx_event e c w :
  event_typed e -> live c -> wlp (tx_event_step cfg tc e) (fun _ s => live s.(chan)) (Build_ChanState c w).
Proof using Hok.
  intros He Hc. pose proof Hc as [Hs [[Hid Ht]|Hidle]]; [|by apply live_idle_event].
  destruct (Z.lt_ge_cases 0 (tx_cycles c)) as [Hpos|Hz].
  - destruct e as [| |p].
    + eapply wlp_mono; [by apply main_progress|]. by intros ? ? [? _].
    + cbn [tx_event_step]. wlp_steps. destruct (decide _); wlp_steps; [by apply live_confirmation | done].
    + by apply live_flow_control.
  - pose proof (tc_timers _ _ _ _ Hok) as (T1 & T2 & T3). unfold tx_cycles in Hz.
    destruct e as [| |p]; cbn [tx_event_step]; [| |by apply live_flow_control]; wlp_steps.
    + destruct (negb _); wlp_steps; [|done]. unfold txSduStateMachine. wlp_steps.
      destruct (state (iso15765 c)); try lia; by wlp_steps.
    + destruct (decide _); wlp_steps; [by apply live_confirmation | done].
Qed.

Lemma live_tx_run es c w :
  Forall event_typed es -> live c -> wlp (tx_run cfg tc es) (fun _ s => live s.(chan)) (Build_ChanState c w).
Proof using Hok.
  revert c w. induction es as [|e es IH]; intros c w Hes Hc; cbn [tx_run]; wlp_steps; [done|].
  apply Forall_cons_1 in Hes as [He Hes]. eapply wlp_mono; [by apply live_tx_event|].
  intros _ [c' w'] Hc'. by apply IH.
Qed.

Lemma tx_cycles_bound c : live c -> tx_cycles c <= longest + tc.(CanTpNcs) + tc.(CanTpNas) + 5.
Proof using Hok.
  pose proof (tc_timers _ _ _ _ Hok) as (T1 & T2 & T3). intros [_ [[_ Ht]|Hi]]; unfold tx_cycles.
  - destruct (state _); unfold longest in *; lia.
  - rewrite Hi. unfold longest. lia.
Qed.

(** ** Runs *)
Lemma tx_run_app es es' s :
  tx_run cfg tc (es ++ es') s = ('(_, s') ← tx_run cfg tc es s; tx_run cfg tc es' s').
Proof using Type.
  revert s. induction es as [|e es IH]; intros s; cbn [app tx_run]; [done|].
  unfold bind. destruct (tx_event_step cfg tc e s) as [[? s1]|]; [apply IH | done].
Qed.

Variables (msg : list Z) (bus0 : list (Z * list Z)) (res0 : list (Z * Z)).

Lemma session_cycles c w sent : tx_session fd addr msg c w sent -> live c -> 0 < tx_cycles c.
Proof using Hok.
  pose proof (tc_timers _ _ _ _ Hok) as (T1 & T2 & T3). intros [_ Hst] [_ [[_ Ht]|Hi]]; unfold tx_cycles.
  - destruct (state _); try done; lia.
  - by rewrite Hi in Hst.
Qed.

Lemma main_ends N c w :
  tx_inv cfg tc fd addr msg bus0 res0 (Build_ChanState c w) -> live c -> tx_cycles c <= Z.of_nat N ->
  exists n c' w' sent, (n <= N)%nat /\
    tx_run cfg tc (replicate n MainFunction) (Build_ChanState c w) = Some (tt, Build_ChanState c' w') /\
    tx_over tc fd addr msg res0 c' w' sent.
Proof using Hok.
  revert c w. induction N as [|N IH]; intros c w Hinv Hc HN.
  - destruct Hinv as (sent & _ & [[Hses _]|Hover]).
    + pose proof (session_cycles c w sent Hses Hc). lia.
    + by exists 0%nat, c, w, sent.
  - pose proof Hinv as (sent & _ & [[Hses _]|Hover]); [|exists 0%nat, c, w, sent; split; [lia|done]].
    pose proof (session_cycles c w sent Hses Hc) as Hpos.
    pose proof (wlp_of_wp _ _ _ _ (wp_tx_event_step _ _ _ _ Hok msg bus0 res0 MainFunction _ I Hinv)
      (main_progress c w Hc Hpos)) as Hwp.
    apply wp_inv in Hwp as ([] & [c1 w1] & Erun & Hinv1 & Hc1 & Hcase). cbn [chan] in *.
    assert (Hle : tx_cycles c1 <= Z.of_nat N).
    { destruct Hcase as [Hi|Hlt]; [|lia]. unfold tx_cycles. rewrite Hi. lia. }
    destruct (IH c1 w1 Hinv1 Hc1 Hle) as (n & c' & w' & sent' & Hn & Hrun & Hover).
    exists (S n), c', w', sent'. split; [lia|]. split; [|done]. cbn [replicate tx_run]. unfold bind. by rewrite Erun.
Qed.
End Timeout.
