(* ===== verification/CanTp_Theorems.v ===== *)
(** * CAN transport protocol: the theorems

    What the module (src/communication/CanTp/src/CanTp.c) guarantees, stated of its
    entry points, after the lemmas of [CanTp_Tx], [CanTp_Rx], [CanTp_Integrity],
    [CanTp_Module] and [CanTp_Link]. *)

From S2P Require Import Prelude.
From S2P Require Import StateMonad.
From S2P Require Import ComStack.
From S2P Require Import CanTp.
From S2P Require Import CanTp_Steps.
From S2P Require Import CanTp_Tx.
From S2P Require Import CanTp_Rx.
From S2P Require Import CanTp_Integrity.
From S2P Require Import CanTp_Module.
From S2P Require Import CanTp_Node.
From S2P Require Import CanTp_Link.
From S2P Require Import CanTp_Timeout.

#[local] Open Scope monad_scope.

(** ** Transfer over a link *)

(** A node with [msg] to send, or with room to receive. *)
Definition fresh_node (capacity : Z) (msg : list Z) : Node :=
  {| n_capacity := capacity; n_restarts := false; n_rx := []; n_tx := msg; n_bus := [];
     n_rxres := []; n_txres := []; n_answers := []; n_canif := [] |}.


(** A concrete pair of nodes: extended addressing, block size 2, STmin 10 ms with a
    main function every 5 ms, padding. *)
Definition example_tc : CanTp_TxNSduType :=
  {| CanIf_PduId := 7; Tx_PduR_PduId := 21; CanTpNPduLen := 8; CanTpAddressingMode := CANTP_EXTENDED;
     CanTpNas := 10; CanTpNbs := 10; CanTpNcs := 10; CanTpTxChannel := 0;
     CanTpTxPaddingActivation := CANTP_ON; CanTpTxTaType := CANTP_PHYSICAL;
     Tx_CanTpNSa := Some 0x41; Tx_CanTpNTa := Some 0x41 |}.
Definition example_rc : CanTp_RxNSduType :=
  {| CanIf_FcPduId := 8; Rx_PduR_PduId := 31; CanTpAddressingFormant := CANTP_EXTENDED; CanTpBs := 2;
     CanTpNar := 10; CanTpNbr := 10; CanTpNcr := 40; CanTpRxChannel := 0;
     CanTpRxPaddingActivation := CANTP_ON; CanTpRxTaType := CANTP_PHYSICAL; CanTpWftMax := 2;
     CanTpSTmin := 10; Rx_CanTpNSa := None; Rx_CanTpNTa := Some 0x41 |}.
Definition example_conn : CanTp_SimplexChannelPrivateType :=
  {| iso15765 := {| nextFlowControlCount := 0; framesHandledCount := 0; stateTimeoutCount := 0;
                    extendedAddress := 0; STmin := 0; BS := 0; NasNarPending := false;
                    NasNarTimeoutCount := 0; state := UNINITIALIZED |};
     transferTotal := 0; transferCount := 0; sizeBuffer := 0;
     canFrameBuffer := {| data := replicate 64 0; byteCount := 0 |};
     mode := CANTP_RX_WAIT; CanTpWftMaxCounter := 0; pduId := 0; CanfdSupport := false |}.
Definition example_channel : CanTp_ChannelPrivateType :=
  {| txChnl := example_conn; rxChnl := example_conn; functionalChnl := example_conn |}.
Definition example_msg : list Z := map Z.of_nat (seq 1 40).

Lemma example_tc_ok period pad : 0 < period ->
  tx_config_ok (sender_config period pad example_tc false) example_tc false [0x41].
Proof. intros. by split; cbn; eauto; lia. Qed.
Lemma example_rc_ok : rx_config_ok example_rc [0x41].
Proof. split; cbn; unfold in_width; [done | intros _; exists 0x41; split; [done | lia] | lia | lia]. Qed.


(** ** Transmission in any environment *)
Section Transmission.
Context {W : Type} `{CanTp_Laws W}.
Variables (DEV : bool) (period pad : Z) (tc : CanTp_TxNSduType) (fd : bool) (addr msg : list Z)
  (c : CanTp_ChannelPrivateType) (w : W).
Abbreviation cfg := (sender_config period pad tc fd).

(** What a transmission of [msg] starts from. *)
Record transmission_ok : Prop := {
  tk_config : tx_config_ok cfg tc fd addr;
  tk_channel : tc.(CanTpTxChannel) = 0%nat;
  tk_msg : (obs w).(o_tx) = msg;
  tk_length : 1 <= Z.of_nat (length msg) <= 4095;
  tk_functional : tc.(CanTpTxTaType) = CANTP_FUNCTIONAL -> fits_single fd addr msg = true;
  tk_buffer : frame_len fd <= Z.of_nat (length c.(txChnl).(canFrameBuffer).(data))
}.

Lemma transmission_starts :
  transmission_ok ->
  exists c1, lift TX cfg (init_channel c) (start_transmit DEV tc 0 fd (Some (Z.of_nat (length msg)))) w
      = Some (E_OK, node_state cfg (put_connection TX c1 (init_channel c)) w) /\
    tx_started tc fd addr msg (init_channel c).(txChnl) c1 w 0.
Proof using Type.
  intros [Hok Hch Htx Hlen Hfn Hbuf].
  destruct (wp_lift TX cfg (init_channel c) (start_transmit DEV tc 0 fd (Some (Z.of_nat (length msg)))) w
    (fun r c1 w' => r = E_OK /\ w' = w /\ tx_started tc fd addr msg (init_channel c).(txChnl) c1 w 0))
    as (? & c1 & w1 & E & -> & -> & Hst); [|eauto].
  eapply wp_mono; [by apply (wp_start_transmit _ _ _ _ Hok)|]. done.
Qed.


(** C23. A transmission ends: after [CanTp_Transmit] under the conditions [transmission_ok]
    (one connection, 1 to 4095 bytes, functional addressing only for single frames) and any
    history of main functions, confirmations and flow control frames of at least 4 bytes, and
    whatever the upper layer and CanIf answer, at most [2 N_As + N_Bs + 2 N_Cs + 134] further
    calls of the main function without any other event bring the connection back to idle, with
    exactly one result reported to the upper layer. *)
Theorem cantp_transmission_terminates es :
  transmission_ok -> Forall (flow_control_for tc) es -> Forall event_typed es ->
  is_u8 c.(txChnl).(iso15765).(STmin) ->
  exists s0 s1 n s2 r,
    CanTp_Init DEV (Some cfg) (power_on c w) = Some (tt, s0) /\
    CanTp_Transmit DEV 0 (Some (Z.of_nat (length msg))) s0 = Some (E_OK, s1) /\
    Z.of_nat n <= 2 * tc.(CanTpNas) + tc.(CanTpNbs) + 2 * tc.(CanTpNcs) + 134 /\
    run_all (map (tx_call DEV) (es ++ replicate n MainFunction)) s1 = Some (tt, s2) /\
    (obs s2.(world)).(o_txres) = (obs w).(o_txres) ++ [(tc.(Tx_PduR_PduId), r)] /\
    map (fun c => c.(txChnl).(iso15765).(state)) s2.(CanTpRunTimeData).(runtimeDataList) = [IDLE].
Proof using Type.
  intros Htk Hes Hty Hstmin. destruct (transmission_starts Htk) as (c1 & E1 & Hst).
  pose proof Htk as [Hok Hch _ _ _ _]. pose proof Hst as [Hc _ Hp Hs Hid Htm _ _ Hsm].
  pose proof (tc_timers _ _ _ _ Hok) as (T1 & T2 & T3).
  assert (Hlive : live tc c1).
  { apply live_timer; [by rewrite Hsm | done | rewrite Htm; unfold longest; lia]. }
  assert (Hinv : tx_inv cfg tc fd addr msg (obs w).(o_bus) (obs w).(o_txres) (Build_ChanState c1 w)).
  { exists []. split; [by rewrite app_nil_r|]. left. split; [|done]. split; [done|]. cbn [chan]. by rewrite Hs. }
  assert (Hev : Forall event_ok es) by (eapply Forall_impl; [|exact Hes]; by intros [| |p]; [done..|intros []]).
  pose proof (wlp_of_wp _ _ _ _ (wp_tx_run _ _ _ _ Hok msg (obs w).(o_bus) (obs w).(o_txres) es _ Hev Hinv)
    (live_tx_run _ _ _ _ Hok es c1 w Hty Hlive)) as Hwp.
  apply wp_inv in Hwp as ([] & [c2 w2] & Erun & Hinv2 & Hlive2). cbn [chan] in Hlive2.
  pose proof (tx_cycles_bound _ _ _ _ Hok c2 Hlive2) as Hbound. unfold longest in Hbound.
  destruct (main_ends _ _ _ _ Hok msg _ _ (Z.to_nat (tx_cycles tc c2)) c2 w2 Hinv2 Hlive2 ltac:(lia))
    as (n & c3 & w3 & sent & Hn & Erun3 & Hidle & _ & r & Hres & _).
  do 2 eexists. exists n. eexists. exists r.
  split; [apply init_node|]. split; [rewrite (sender_Transmit DEV period pad tc fd Hch); exact E1|]. split; [lia|].
  split.
  { rewrite (run_sender DEV period pad); [|done| |done|done|by left].
    - unfold lift. cbn [get_connection put_connection txChnl]. rewrite tx_run_app, Erun. cbn [mbind option_bind].
      rewrite Erun3. reflexivity.
    - apply Forall_app_2; [done|]. by apply Forall_replicate. }
  cbn. by rewrite Hidle.
Qed.
End Transmission.

(** One flow control frame, then silence. *)
Definition example_events : list tx_event :=
  [MainFunction; TxConfirmation; MainFunction; FlowControl (frame_info [0x41; 0x30; 2; 0; 0; 0; 0; 0]);
   MainFunction; TxConfirmation; TxConfirmation; MainFunction].

Lemma example_transmission_ok :
  transmission_ok 5 0xAA example_tc false [0x41] example_msg example_channel (fresh_node 0 example_msg).
Proof. split; [by apply example_tc_ok | done | done | | done |]; vm_compute; intuition congruence. Qed.


Lemma cantp_transmission_terminates_witness :
  exists s0 s1 n s2 r,
    CanTp_Init true (Some (sender_config 5 0xAA example_tc false)) (power_on example_channel (fresh_node 0 example_msg))
      = Some (tt, s0) /\
    CanTp_Transmit true 0 (Some 40) s0 = Some (E_OK, s1) /\
    Z.of_nat n <= 184 /\
    run_all (map (tx_call true) (example_events ++ replicate n MainFunction)) s1 = Some (tt, s2) /\
    (obs s2.(world)).(o_txres) = [] ++ [(21, r)] /\
    map (fun c => c.(txChnl).(iso15765).(state)) s2.(CanTpRunTimeData).(runtimeDataList) = [IDLE].
Proof.
  refine (cantp_transmission_terminates true 5 0xAA example_tc false [0x41] example_msg example_channel
    (fresh_node 0 example_msg) example_events example_transmission_ok _ _ _).
  - repeat constructor; try done. intros _. exists 0x41. done.
  - repeat constructor; cbn; unfold in_width; lia.
  - cbn. unfold in_width. lia.
Defined.

(** ** Reception in any environment *)
Lemma lossy_Forall {A B} (R : A -> B -> Prop) (P : A -> Prop) la lb :
  lossy R la lb -> (forall a b, b ∈ lb -> R a b -> P a) -> Forall P la.
Proof.
  induction 1 as [|a b la lb Ha Hl IH|b la lb Hl IH]; intros HP; [done| |].
  - constructor; [by eapply HP; [left|]|]. apply IH. intros. eapply HP; [by right | done].
  - apply IH. intros. eapply HP; [by right | done].
Qed.

Section Reception.
Context {W : Type} `{CanTp_Laws W}.
Variables (DEV : bool) (period pad : Z) (rc : CanTp_RxNSduType) (fd : bool) (addr msg : list Z)
  (c : CanTp_ChannelPrivateType) (w : W).
Abbreviation cfg := (receiver_config period pad rc fd).

Record reception_ok : Prop := {
  rk_config : rx_config_ok rc addr;
  rk_channel : rc.(CanTpRxChannel) = 0%nat;
  rk_physical : rc.(CanTpRxTaType) = CANTP_PHYSICAL;
  rk_length : 1 <= Z.of_nat (length msg) <= 4095;
  rk_buffer : frame_len fd <= Z.of_nat (length c.(rxChnl).(canFrameBuffer).(data))
}.

(** The frames of a message are for the node. *)
Lemma segmentation_for f p :
  rx_config_ok rc addr -> 1 <= Z.of_nat (length msg) <= 4095 ->
  f ∈ segmentation fd addr msg -> arrives fd addr msg p f -> data_frame_for rc p.
Proof using Type.
  intros Hok Hlen Hf [(filler & Hp & _) _].
  assert (Hshape : exists b g, f = addr ++ [b] ++ g /\ (Z.land b 0x30 = 0 \/ Z.land b 0x30 = 0x10 \/ Z.land b 0x30 = 0x20)).
  { unfold segmentation in Hf. destruct (fits_single fd addr msg) eqn:Hfs.
    - apply list_elem_of_singleton in Hf as ->. unfold fits_single in Hfs. apply Z.leb_le in Hfs. unfold single_frame.
      exists (if fd then 0 else Z.of_nat (length msg)). destruct fd; cbn [app] in *; eexists; (split; [reflexivity|]); left;
        [done|]. apply frame_type_byte. cbn in Hfs. lia.
    - apply elem_of_cons in Hf as [->|Hf].
      + do 2 eexists. split; [reflexivity|]. right; left. apply frame_type_byte.
        split; [apply Z.div_pos | apply Z.div_lt_upper_bound]; lia.
      + set (rest := drop (ff_size fd addr) msg) in Hf. clearbody rest. revert Hf. generalize (length rest).
        intros fuel. generalize 1. revert rest. induction fuel as [|fuel IH]; intros rest k; [by intros ?%elem_of_nil|].
        destruct rest; cbn [consecutive_frames]; [by intros ?%elem_of_nil|].
        intros [->|Hf]%elem_of_cons; [|by eapply IH].
        do 2 eexists. split; [reflexivity|]. right; right. apply frame_type_byte, Z.mod_pos_bound. lia. }
  destruct Hshape as (b & g & -> & Hb). rewrite <- !app_assoc in Hp.
  assert (Hld : load (SduDataPtr p) (Z.of_nat (length addr)) = Some b)
    by (by rewrite Hp, load_app_r, Z.sub_diag by lia).
  split.
  - eexists. split; [by eapply getFrameType_at|]. by destruct Hb as [-> | [-> | ->]].
  - intros Hext. destruct (rc_nta _ _ Hok Hext) as (a & Ea & _). exists a. split; [|done].
    pose proof (rc_addr _ _ Hok) as Hra. rewrite Hext, Ea in Hra. by rewrite Hp, Hra.
Qed.

End Reception.

(** The frames of the example, the fourth one lost. *)
Definition example_reception : list rx_event :=
  let fs := map (fun f => RxFrame (frame_info f)) (segmentation false [0x41] example_msg) in
  take 3 fs ++ [RxMain] ++ drop 4 fs.

Lemma example_reception_ok :
  reception_ok example_rc false [0x41] example_msg example_channel.
Proof. split; [apply example_rc_ok | done | done | |]; vm_compute; intuition congruence. Qed.


(** ** Behaviour that surprises *)

(** Standard addressing, block size 1. *)
Definition plain_rc : CanTp_RxNSduType :=
  {| CanIf_FcPduId := 8; Rx_PduR_PduId := 31; CanTpAddressingFormant := CANTP_STANDARD; CanTpBs := 1;
     CanTpNar := 10; CanTpNbr := 10; CanTpNcr := 40; CanTpRxChannel := 0;
     CanTpRxPaddingActivation := CANTP_ON; CanTpRxTaType := CANTP_PHYSICAL; CanTpWftMax := 2;
     CanTpSTmin := 0; Rx_CanTpNSa := None; Rx_CanTpNTa := None |}.
Definition plain_tc (ta : CanTp_TaTypeType) : CanTp_TxNSduType :=
  {| CanIf_PduId := 7; Tx_PduR_PduId := 21; CanTpNPduLen := 8; CanTpAddressingMode := CANTP_STANDARD;
     CanTpNas := 10; CanTpNbs := 10; CanTpNcs := 10; CanTpTxChannel := 0;
     CanTpTxPaddingActivation := CANTP_OFF; CanTpTxTaType := ta; Tx_CanTpNSa := None; Tx_CanTpNTa := None |}.

Definition received (fd : bool) (n : Node) (es : list rx_event) : option Node :=
  '(_, s) ← CanTp_Init true (Some (receiver_config 5 0xAA plain_rc fd)) (power_on example_channel n);
  '(_, s) ← run_all (map (rx_call true) es) s;
  Some s.(world).

Definition frames (msg : list Z) : list rx_event :=
  map (fun f => RxFrame (frame_info f)) (segmentation false [] msg).

(** An upper layer that answers BUSY to a consecutive frame and later accepts the
    bytes is asked to start a new message: one that does gets the rest of the message
    only, and is told that it is complete. *)
Example cantp_busy_loses_data :
  let msg := map Z.of_nat (seq 1 20) in
  let node := {| n_capacity := 50; n_restarts := true; n_rx := []; n_tx := []; n_bus := []; n_rxres := [];
                 n_txres := []; n_answers := [BUFREQ_OK; BUFREQ_OK; BUFREQ_E_BUSY]; n_canif := [] |} in
  option_map (fun n => (n.(n_rx), n.(n_rxres)))
    (received false node (take 2 (frames msg) ++ [RxMain] ++ drop 2 (frames msg)))
  = Some (drop 6 msg, [(31, NTFRSLT_OK)]).
Proof. vm_compute. reflexivity. Qed.

(** When CanIf refuses the clear-to-send frame after a wait, the connection is left
    waiting for consecutive frames without an N-SDU: the main function no longer serves
    it, and the next first frame reads entry 0xFFFF of [CanTpNSduList]. *)
Example cantp_failed_cts_faults :
  let msg := map Z.of_nat (seq 1 20) in
  let node := {| n_capacity := 50; n_restarts := false; n_rx := []; n_tx := []; n_bus := []; n_rxres := [];
                 n_txres := []; n_answers := [BUFREQ_E_BUSY]; n_canif := [E_OK; E_NOT_OK] |} in
  (exists n, received false node (take 1 (frames msg) ++ replicate 100 RxMain) = Some n /\
     n.(n_rxres) = [(31, NTFRSLT_E_NOT_OK)]) /\
  received false node (take 1 (frames msg) ++ replicate 100 RxMain ++ take 1 (frames msg)) = None.
Proof. split; [eexists; split|]; vm_compute; reflexivity. Qed.

(** A message too long for functional addressing is refused and sent all the same. *)
Example cantp_functional_refused_but_sent :
  exists s0 s1 s2,
    CanTp_Init true (Some (sender_config 5 0xAA (plain_tc CANTP_FUNCTIONAL) false))
      (power_on example_channel (fresh_node 0 example_msg)) = Some (tt, s0) /\
    CanTp_Transmit true 0 (Some 40) s0 = Some (E_NOT_OK, s1) /\
    CanTp_MainFunction true s1 = Some (tt, s2) /\
    s2.(world).(n_bus) = [(7, take 8 example_msg)].
Proof. do 3 eexists. split; [vm_compute; reflexivity|]. split; [vm_compute; reflexivity|]. split; vm_compute; reflexivity. Qed.

(** [CanTp_Transmit] accepts a message of more than 4095 bytes, and the first frame
    announces its length modulo 4096. *)
Example cantp_long_message_truncated :
  exists s0 s1 s2,
    CanTp_Init true (Some (sender_config 5 0xAA (plain_tc CANTP_PHYSICAL) false))
      (power_on example_channel (fresh_node 0 (replicate 5000 1))) = Some (tt, s0) /\
    CanTp_Transmit true 0 (Some 5000) s0 = Some (E_OK, s1) /\
    CanTp_MainFunction true s1 = Some (tt, s2) /\
    s2.(world).(n_bus) = [(7, [0x10 + 904 / 256; 904 mod 256; 1; 1; 1; 1; 1; 1])].
Proof. do 3 eexists. split; [vm_compute; reflexivity|]. split; [vm_compute; reflexivity|]. split; vm_compute; reflexivity. Qed.

(** A CAN FD single frame of at most 8 bytes, as a sender without padding produces it,
    is received as an empty message. *)
Example cantp_fd_short_single_frame_lost :
  option_map (fun n => (n.(n_rx), n.(n_rxres)))
    (received true (fresh_node 50 []) [RxFrame (frame_info (single_frame true [] [11; 12; 13]))])
  = Some ([], [(31, NTFRSLT_OK)]).
Proof. vm_compute. reflexivity. Qed.
