(* ===== verification/Com_Signal.v ===== *)
(** * Packing of signals into I-PDUs

    The four routines of [communication/Com/src/Com_misc.c] that read a signal from
    an I-PDU and write one to it: [Com_Misc_ReadSignalDataFromPdu],
    [Com_Misc_WriteSignalDataToPdu] and their variants for 64-bit signals.  The
    data of all I-PDUs lie in one array, [Com_Arc_Buffer] of [Com.c]; a pointer to
    the data of an I-PDU is an index of it.  The routines access a signal through a
    window of four (or eight) whole bytes and, when the signal straddles it, one more
    byte; the window may reach into the bytes before or behind the I-PDU, and an
    access outside the array is a fault, as is a failing [ASSERT].  The 32-bit and the 64-bit code is the same
    text at two widths: it is one definition here, over the number [n] of bytes.

    Entering and leaving the critical section is in [Com].  A signal value in the
    caller's memory is bytes in the order of the processor, [BIG_ENDIAN_CPU]. *)

From S2P Require Import Prelude.

(** ** Com_Types.h *)
Inductive Com_SignalType :=
| COM_BOOLEAN | COM_UINT8 | COM_UINT16 | COM_UINT32 | COM_UINT64 | COM_UINT8_N | COM_UINT8_DYN
| COM_SINT8 | COM_SINT16 | COM_SINT32 | COM_SINT64.

Inductive ComSignalEndianess_type := COM_BIG_ENDIAN | COM_LITTLE_ENDIAN | COM_OPAQUE.

#[export] Instance Com_SignalType_eq : EqDecision Com_SignalType.
Proof. solve_decision. Defined.
#[export] Instance ComSignalEndianess_type_eq : EqDecision ComSignalEndianess_type.
Proof. solve_decision. Defined.

(** ** Shifts of a [w]-bit unsigned integer

    A shift by the width or more is undefined. *)
Definition shl (w x s : Z) : option Z :=
  if (0 <=? s) && (s <? w) then Some (Z.shiftl x s mod 2 ^ w) else None.
Definition shr (w x s : Z) : option Z :=
  if (0 <=? s) && (s <? w) then Some (Z.shiftr x s) else None.
(** [~x] *)
Definition bnot (w x : Z) : Z := Z.lnot x mod 2 ^ w.

(** ** The window of the buffer *)

(** [for (...) pduData = (pduData << 8) | pduDataPtr[i];] over the indices [idx]. *)
Fixpoint gather (w : Z) (buf : list Z) (pduDataPtr : Z) (idx : list Z) (pduData : Z) : option Z :=
  match idx with
  | [] => Some pduData
  | i :: idx =>
      b ← load buf (pduDataPtr + i);
      gather w buf pduDataPtr idx (Z.lor (Z.shiftl pduData 8 mod 2 ^ w) b)
  end.

(** [for (...) { pduDataPtr[i] = (uint8)newPduData; newPduData >>= 8; }] *)
Fixpoint scatter (buf : list Z) (pduDataPtr : Z) (idx : list Z) (newPduData : Z) : option (list Z) :=
  match idx with
  | [] => Some buf
  | i :: idx =>
      buf ← store buf (pduDataPtr + i) (u8 newPduData);
      scatter buf pduDataPtr idx (Z.shiftr newPduData 8)
  end.

(** [0, ..., n - 1] and [n - 1, ..., 0] *)
Definition upwards (n : nat) : list Z := Z.of_nat <$> seq 0 n.
Definition downwards (n : nat) : list Z := rev (upwards n).

(** [((bitPosition ^ 0x7u) + bitSize - 1) ^ 7u] *)
Definition lsbIndex_big (bitPosition bitSize : Z) : Z :=
  Z.lxor (u32 (Z.lxor bitPosition 7 + bitSize - 1)) 7.

(** ** Reading *)

(** The word at the signal, shifted down to its least significant bit. *)
Definition read_pdu_data (n : nat) (buf : list Z) (comIPduDataPtr bitPosition bitSize : Z)
    (endian : ComSignalEndianess_type) : option Z :=
  let w := 8 * Z.of_nat n in
  match endian with
  | COM_BIG_ENDIAN =>
      let lsbIndex := lsbIndex_big bitPosition bitSize in
      let pduDataPtr := comIPduDataPtr + lsbIndex / 8 - (Z.of_nat n - 1) in
      let bitShift := lsbIndex mod 8 in
      pduData ← gather w buf pduDataPtr (upwards n) 0;
      let pduData := Z.shiftr pduData bitShift in
      if w - bitShift <? bitSize then
        b ← load buf (pduDataPtr - 1);
        hi ← shl w b (w - bitShift);
        Some (Z.lor pduData hi)
      else Some pduData
  | COM_LITTLE_ENDIAN =>
      let lsbIndex := bitPosition in
      let pduDataPtr := comIPduDataPtr + bitPosition / 8 in
      let bitShift := lsbIndex mod 8 in
      pduData ← gather w buf pduDataPtr (downwards n) 0;
      let pduData := Z.shiftr pduData bitShift in
      if w - bitShift <? bitSize then
        b ← load buf (pduDataPtr + Z.of_nat n);
        hi ← shl w b (w - bitShift);
        Some (Z.lor pduData hi)
      else Some pduData
  | COM_OPAQUE => None
  end.

(** [mask], the data within it, and [signmask]. *)
Definition cut (w bitSize pduData : Z) : option (Z * Z) :=
  mask ← shr w (2 ^ w - 1) (w - bitSize);
  Some (Z.land pduData mask, bnot w (Z.shiftr mask 1)).

(** [if(0 < (pduData & signmask)) { pduData |= signmask; }] *)
Definition add_sign_bits (pduData signmask : Z) : Z :=
  if 0 <? Z.land pduData signmask then Z.lor pduData signmask else pduData.

Section Packing.
(** The byte order of the processor. *)
Variable BIG_ENDIAN_CPU : bool.

(** The [n] bytes of an unsigned integer in memory, least significant first. *)
Fixpoint le_bytes (n : nat) (v : Z) : list Z :=
  match n with O => [] | S n => u8 v :: le_bytes n (Z.shiftr v 8) end.
Fixpoint le_value (bs : list Z) : Z :=
  match bs with [] => 0 | b :: bs => Z.lor b (Z.shiftl (le_value bs) 8) end.
Definition cpu_order (bs : list Z) : list Z := if BIG_ENDIAN_CPU then rev bs else bs.

(** The integer of [n] bytes a pointer points at, and an assignment to it. *)
Definition load_uint (n : nat) (p : list Z) : option Z :=
  bs ← read_bytes p 0 (Z.of_nat n); Some (le_value (cpu_order bs)).
Definition store_uint (n : nat) (v : Z) (p : list Z) : option (list Z) :=
  write_bytes p 0 (cpu_order (le_bytes n v)).

Definition Com_Misc_ReadSignalDataFromPdu64Bits (buf : list Z)
    (comIPduDataPtr bitPosition bitSize : Z) (endian : ComSignalEndianess_type)
    (signalType : Com_SignalType) (SignalData : list Z) : option (list Z) :=
  pduData ← read_pdu_data 8 buf comIPduDataPtr bitPosition bitSize endian;
  '(pduData, signmask) ← cut 64 bitSize pduData;
  match signalType with
  | COM_SINT64 => store_uint 8 (add_sign_bits pduData signmask) SignalData
  | COM_UINT64 => store_uint 8 pduData SignalData
  | _ => None
  end.

Definition Com_Misc_ReadSignalDataFromPdu (buf : list Z)
    (comIPduDataPtr bitPosition bitSize : Z) (endian : ComSignalEndianess_type)
    (signalType : Com_SignalType) (SignalData : list Z) : option (list Z) :=
  if bool_decide (endian = COM_OPAQUE) || bool_decide (signalType = COM_UINT8_N) then
    bs ← read_bytes buf (comIPduDataPtr + bitPosition / 8) (bitSize / 8);
    write_bytes SignalData 0 bs
  else if negb (bool_decide (signalType = COM_UINT64)) && negb (bool_decide (signalType = COM_SINT64))
  then
    pduData ← read_pdu_data 4 buf comIPduDataPtr bitPosition bitSize endian;
    '(pduData, signmask) ← cut 32 bitSize pduData;
    match signalType with
    | COM_SINT8 => store_uint 1 (add_sign_bits pduData signmask) SignalData
    | COM_BOOLEAN => store_uint 1 pduData SignalData
    | COM_UINT8 => store_uint 1 pduData SignalData
    | COM_SINT16 => store_uint 2 (add_sign_bits pduData signmask) SignalData
    | COM_UINT16 => store_uint 2 pduData SignalData
    | COM_SINT32 => store_uint 4 (add_sign_bits pduData signmask) SignalData
    | COM_UINT32 => store_uint 4 pduData SignalData
    | COM_UINT8_N | COM_UINT8_DYN | COM_SINT64 | COM_UINT64 => None
    end
  else Com_Misc_ReadSignalDataFromPdu64Bits buf comIPduDataPtr bitPosition bitSize endian
         signalType SignalData.

(** ** Writing *)

(** The word at the signal with the signal's bits replaced, and whether it changed. *)
Definition write_pdu_data (n : nat) (buf : list Z) (comIPduDataPtr bitPosition bitSize : Z)
    (endian : ComSignalEndianess_type) (mask sigVal : Z) : option (list Z * bool) :=
  let w := 8 * Z.of_nat n in
  match endian with
  | COM_BIG_ENDIAN =>
      let lsbIndex := lsbIndex_big bitPosition bitSize in
      let pduDataPtr := comIPduDataPtr + lsbIndex / 8 - (Z.of_nat n - 1) in
      pduData ← gather w buf pduDataPtr (upwards n) 0;
      let bitShift := lsbIndex mod 8 in
      sigLo ← shl w sigVal bitShift;
      m ← shl w mask bitShift;
      let maskLo := bnot w m in
      let newPduData := Z.lor (Z.land pduData maskLo) sigLo in
      let dataChanged := negb (newPduData =? pduData) in
      buf ← scatter buf pduDataPtr (downwards n) newPduData;
      let maxBitsWritten := w - bitShift in
      if maxBitsWritten <? bitSize then
        let pduDataPtr := pduDataPtr - 1 in
        pduData ← load buf pduDataPtr;
        mhi ← shr w mask maxBitsWritten;
        let maskHi := bnot w mhi in
        sigHi ← shr w sigVal maxBitsWritten;
        let newPduData := Z.lor (Z.land pduData maskHi) sigHi in
        let dataChanged := dataChanged || (if negb (newPduData =? pduData) then true else dataChanged) in
        buf ← store buf pduDataPtr (u8 newPduData);
        Some (buf, dataChanged)
      else Some (buf, dataChanged)
  | COM_LITTLE_ENDIAN =>
      let lsbIndex := bitPosition in
      let pduDataPtr := comIPduDataPtr + lsbIndex / 8 in
      pduData ← gather w buf pduDataPtr (downwards n) 0;
      let bitShift := lsbIndex mod 8 in
      sigLo ← shl w sigVal bitShift;
      m ← shl w mask bitShift;
      let maskLo := bnot w m in
      let newPduData := Z.lor (Z.land pduData maskLo) sigLo in
      let dataChanged := negb (newPduData =? pduData) in
      buf ← scatter buf pduDataPtr (upwards n) newPduData;
      let maxBitsWritten := w - bitShift in
      if maxBitsWritten <? bitSize then
        let pduDataPtr := pduDataPtr + Z.of_nat n in
        pduData ← load buf pduDataPtr;
        mhi ← shr w mask maxBitsWritten;
        let maskHi := bnot w mhi in
        sigHi ← shr w sigVal maxBitsWritten;
        let newPduData := Z.lor (Z.land pduData maskHi) sigHi in
        let dataChanged := if negb (newPduData =? pduData) then true else dataChanged in
        buf ← store buf pduDataPtr (u8 newPduData);
        Some (buf, dataChanged)
      else Some (buf, dataChanged)
  | COM_OPAQUE => None
  end.

(** The buffer after the call and [*dataChanged]. *)
Definition Com_Misc_WriteSignalDataToPdu64Bits (SignalDataPtr : list Z)
    (signalType : Com_SignalType) (buf : list Z) (comIPduDataPtr bitPosition bitSize : Z)
    (endian : ComSignalEndianess_type) : option (list Z * bool) :=
  if negb (bool_decide (signalType = COM_UINT64)) && negb (bool_decide (signalType = COM_SINT64))
  then None
  else
    sigVal ← load_uint 8 SignalDataPtr;
    mask ← shr 64 (2 ^ 64 - 1) (64 - bitSize);
    write_pdu_data 8 buf comIPduDataPtr bitPosition bitSize endian mask (Z.land sigVal mask).

Definition Com_Misc_WriteSignalDataToPdu (SignalDataPtr : list Z)
    (signalType : Com_SignalType) (buf : list Z) (comIPduDataPtr bitPosition bitSize : Z)
    (endian : ComSignalEndianess_type) : option (list Z * bool) :=
  if bool_decide (endian = COM_OPAQUE) || bool_decide (signalType = COM_UINT8_N) then
    let pduBufferBytes := comIPduDataPtr + bitPosition / 8 in
    let signalLength := bitSize / 8 in
    old ← read_bytes buf pduBufferBytes signalLength;
    new ← read_bytes SignalDataPtr 0 signalLength;
    buf ← write_bytes buf pduBufferBytes new;
    Some (buf, negb (bool_decide (old = new)))
  else if negb (bool_decide (signalType = COM_UINT64)) && negb (bool_decide (signalType = COM_SINT64))
  then
    sigVal ← match signalType with
             | COM_BOOLEAN | COM_UINT8 | COM_SINT8 => load_uint 1 SignalDataPtr
             | COM_UINT16 | COM_SINT16 => load_uint 2 SignalDataPtr
             | COM_UINT32 | COM_SINT32 => load_uint 4 SignalDataPtr
             | COM_UINT8_N | COM_UINT8_DYN | COM_UINT64 | COM_SINT64 => None
             end;
    mask ← shr 32 (2 ^ 32 - 1) (32 - bitSize);
    write_pdu_data 4 buf comIPduDataPtr bitPosition bitSize endian mask (Z.land sigVal mask)
  else Com_Misc_WriteSignalDataToPdu64Bits SignalDataPtr signalType buf comIPduDataPtr
         bitPosition bitSize endian.
End Packing.

(** ** A signal's layout

    The members of [Com_Arc_ExtractPduInfo_Type], which are also members of the
    configuration structures of signals. *)
Record Layout := {
  l_type : Com_SignalType;
  l_endian : ComSignalEndianess_type;
  l_pos : Z;
  l_size : Z
}.

Definition read_signal cpu (buf : list Z) (ptr : Z) (L : Layout) (out : list Z) : option (list Z) :=
  Com_Misc_ReadSignalDataFromPdu cpu buf ptr L.(l_pos) L.(l_size) L.(l_endian) L.(l_type) out.
Definition write_signal cpu (data buf : list Z) (ptr : Z) (L : Layout) : option (list Z * bool) :=
  Com_Misc_WriteSignalDataToPdu cpu data L.(l_type) buf ptr L.(l_pos) L.(l_size) L.(l_endian).
