(* ===== verification/Com_Packing.v ===== *)
(** * What reading and writing a signal does to the bits of an I-PDU

    [bit_at] is a bit of the buffer, [signal_bit] the position of the [k]-th bit of a
    signal as AUTOSAR defines it (little endian: upwards from the bit position; big
    endian: downwards through the bits of a byte, then in the next byte).  Writing
    changes exactly the bits of the signal, reading collects them. *)

From S2P Require Import Prelude.
From S2P Require Import Com_Signal.

(** ** Little-endian words *)
Lemma length_le_bytes n v : length (le_bytes n v) = n.
Proof. revert v; induction n as [|n IH]; intros v; cbn; by rewrite ?IH. Qed.

Lemma bytes_le_bytes n v : bytes (le_bytes n v).
Proof. revert v; induction n as [|n IH]; intros v; constructor; auto with mem. Qed.
#[export] Hint Resolve bytes_le_bytes : mem.

Lemma le_value_bit bs j :
  bytes bs -> 0 <= j ->
  Z.testbit (le_value bs) j =
    match bs !! Z.to_nat (j / 8) with Some b => Z.testbit b (j mod 8) | None => false end.
Proof.
  intros Hbs; revert j; induction Hbs as [|b bs Hb Hbs IH]; intros j Hj; cbn [le_value].
  - by rewrite Z.testbit_0_l.
  - rewrite Z.lor_spec, Z.shiftl_spec by lia. destruct (Z.lt_ge_cases j 8).
    + rewrite Z.div_small, Z.mod_small, (Z.testbit_neg_r _ (j - 8)), orb_false_r by lia. done.
    + rewrite (testbit_high 8 b), IH by (done || lia).
      replace (Z.to_nat (j / 8)) with (S (Z.to_nat ((j - 8) / 8))) by (Z.div_mod_to_equations; lia).
      replace (j mod 8) with ((j - 8) mod 8) by (Z.div_mod_to_equations; lia). done.
Qed.

Lemma le_value_width bs : bytes bs -> in_width (8 * Z.of_nat (length bs)) (le_value bs).
Proof.
  intros H. apply in_width_bits; [lia| |].
  - induction H; cbn; [done|]. apply Z.lor_nonneg. split; [in_range|]. by apply Z.shiftl_nonneg.
  - intros i Hi. rewrite le_value_bit by (done || lia).
    rewrite lookup_ge_None_2 by (apply Nat2Z.inj_le; rewrite Z2Nat.id; Z.div_mod_to_equations; lia). done.
Qed.

Lemma le_bytes_lookup n v i :
  (i < n)%nat -> le_bytes n v !! i = Some (u8 (Z.shiftr v (8 * Z.of_nat i))).
Proof.
  revert v i; induction n as [|n IH]; intros v i Hi; [lia|]. destruct i as [|i]; cbn.
  - by rewrite Z.shiftr_0_r.
  - rewrite IH by lia. rewrite Z.shiftr_shiftr by lia. do 3 f_equal. lia.
Qed.

Lemma le_value_le_bytes n v : le_value (le_bytes n v) = v mod 2 ^ (8 * Z.of_nat n).
Proof.
  apply Z.bits_inj'; intros j Hj.
  rewrite le_value_bit, testbit_mod_pow2 by (auto with mem || lia).
  destruct (Z.ltb_spec j (8 * Z.of_nat n)).
  - rewrite le_bytes_lookup by (apply Nat2Z.inj_lt; rewrite Z2Nat.id; Z.div_mod_to_equations; lia).
    unfold u8. rewrite testbit_mod_pow2, Z.shiftr_spec by (Z.div_mod_to_equations; lia).
    rewrite (proj2 (Z.ltb_lt _ _)) by (Z.div_mod_to_equations; lia). cbn [andb]. f_equal.
    rewrite Z2Nat.id by (Z.div_mod_to_equations; lia). Z.div_mod_to_equations; lia.
  - rewrite lookup_ge_None_2; [done|]. rewrite length_le_bytes.
    apply Nat2Z.inj_le; rewrite Z2Nat.id; Z.div_mod_to_equations; lia.
Qed.

Lemma le_bytes_le_value bs : bytes bs -> le_bytes (length bs) (le_value bs) = bs.
Proof.
  induction 1 as [|b bs Hb Hbs IH]; [done|]. cbn [length le_bytes le_value]. f_equal.
  - unfold u8. apply (in_width_ext 8); [lia | apply in_width_mod; lia | done |].
    intros i Hi. rewrite testbit_mod_pow2, Z.lor_spec, Z.shiftl_spec by lia.
    rewrite (proj2 (Z.ltb_lt _ _)), (Z.testbit_neg_r _ (i - 8)), orb_false_r by lia. done.
  - transitivity (le_bytes (length bs) (le_value bs)); [|done]. f_equal. apply Z.bits_inj'; intros i Hi.
    rewrite Z.shiftr_spec, Z.lor_spec, Z.shiftl_spec, (testbit_high 8 b) by (done || lia).
    cbn. f_equal. lia.
Qed.

Lemma load_uint_le cpu n p :
  (n <= length p)%nat -> load_uint cpu n p = Some (le_value (cpu_order cpu (take n p))).
Proof.
  intros. unfold load_uint. rewrite read_bytes_0 by lia. by rewrite Nat2Z.id.
Qed.

Lemma bytes_cpu_order cpu bs : bytes bs -> bytes (cpu_order cpu bs).
Proof. intros. destruct cpu; cbn; [by apply Forall_rev | done]. Qed.
#[export] Hint Resolve bytes_cpu_order : mem.

Lemma length_cpu_order cpu bs : length (cpu_order cpu bs) = length bs.
Proof. destruct cpu; cbn; [apply length_rev | done]. Qed.

Lemma cpu_order_involutive cpu bs : cpu_order cpu (cpu_order cpu bs) = bs.
Proof. destruct cpu; cbn; [apply rev_involutive | done]. Qed.

(** ** The bytes at a list of addresses, least significant first *)
Definition loads (buf as_ : list Z) : option (list Z) := mapM (load buf) as_.

Lemma loads_bytes buf as_ bs : bytes buf -> loads buf as_ = Some bs -> bytes bs.
Proof.
  intros Hbuf H. apply mapM_Some_1 in H. induction H; constructor; eauto with mem.
Qed.

Lemma loads_length buf as_ bs : loads buf as_ = Some bs -> length bs = length as_.
Proof. intros H%mapM_Some_1. by apply Forall2_length in H. Qed.

Lemma gather_app w buf p xs ys x :
  gather w buf p (xs ++ ys) x = y ← gather w buf p xs x; gather w buf p ys y.
Proof.
  revert x; induction xs as [|i xs IH]; intros x; cbn; [done|].
  destruct (load buf (p + i)); cbn; [apply IH | done].
Qed.

Lemma gather_rev w buf p idx bs :
  bytes buf -> loads buf (Z.add p <$> idx) = Some bs -> 8 * Z.of_nat (length idx) <= w ->
  gather w buf p (rev idx) 0 = Some (le_value bs).
Proof.
  intros Hbuf. revert bs; induction idx as [|i idx IH]; intros bs.
  - intros [= <-] _; done.
  - cbn [fmap list_fmap]. unfold loads. cbn [mapM]. intros H Hw.
    destruct (load buf (p + i)) as [b|] eqn:Eb; [|done]. cbn in H.
    destruct (mapM (load buf) (Z.add p <$> idx)) as [bs'|] eqn:Ebs; [|done]. injection H as <-.
    cbn [rev]. rewrite gather_app, (IH bs') by (done || cbn in Hw; lia). cbn. rewrite Eb. cbn.
    f_equal. rewrite Z.lor_comm. f_equal.
    pose proof (le_value_width bs' (loads_bytes _ _ _ Hbuf Ebs)) as Hv.
    assert (Hl : length bs' = length idx)
      by (erewrite (loads_length _ _ _ Ebs), length_fmap; done).
    apply Z.mod_small. rewrite Z.shiftl_mul_pow2 by lia. rewrite Hl in Hv. destruct Hv as [Hv0 Hv1].
    split; [lia|]. apply Z.lt_le_trans with (2 ^ (8 * Z.of_nat (length idx)) * 2 ^ 8); [lia|].
    rewrite <- Z.pow_add_r by lia. apply Z.pow_le_mono_r; cbn in Hw |- *; lia.
Qed.

(** Stores of bytes at a list of addresses. *)
Fixpoint puts (buf as_ bs : list Z) : option (list Z) :=
  match as_, bs with
  | a :: as_, b :: bs => buf ← store buf a b; puts buf as_ bs
  | _, _ => Some buf
  end.

Definition within (buf as_ : list Z) : Prop :=
  Forall (fun a => 0 <= a < Z.of_nat (length buf)) as_.

Lemma scatter_puts buf p idx v :
  scatter buf p idx v = puts buf (Z.add p <$> idx) (le_bytes (length idx) v).
Proof.
  revert buf v; induction idx as [|i idx IH]; intros buf v; cbn; [done|].
  destruct (store buf (p + i) (u8 v)); cbn; [apply IH | done].
Qed.

Lemma puts_app buf xs ys bs cs :
  length xs = length bs ->
  puts buf (xs ++ ys) (bs ++ cs) = buf ← puts buf xs bs; puts buf ys cs.
Proof.
  revert buf bs; induction xs as [|x xs IH]; intros buf [|b bs] Hl; try done. cbn.
  destruct (store buf x b); cbn; [apply IH; cbn in Hl; lia | done].
Qed.

Lemma loads_app buf xs ys :
  loads buf (xs ++ ys) = bs ← loads buf xs; cs ← loads buf ys; Some (bs ++ cs).
Proof.
  unfold loads. induction xs as [|x xs IH]; cbn; [by destruct (mapM (load buf) ys)|].
  destruct (load buf x) as [b|]; cbn; [|done]. rewrite IH.
  destruct (mapM (load buf) xs) as [bs|]; cbn; [|done].
  by destruct (mapM (load buf) ys).
Qed.

Lemma loads_within buf as_ : within buf as_ -> exists bs, loads buf as_ = Some bs.
Proof.
  induction 1 as [|a as_ Ha _ [bs IH]]; [by exists []|].
  destruct (load_in buf a Ha) as [b Hb]. exists (b :: bs). unfold loads in *. cbn.
  by rewrite Hb, IH.
Qed.

Lemma loads_lookup buf as_ bs j a :
  loads buf as_ = Some bs -> as_ !! j = Some a -> load buf a = bs !! j.
Proof.
  intros H%mapM_Some_1 Ha. eapply Forall2_lookup_l in H as (b & -> & ->); done.
Qed.

Lemma loads_same buf buf' as_ bs :
  loads buf as_ = Some bs -> loads buf' as_ = Some bs ->
  (forall a, 0 <= a -> a ∉ as_ -> load buf' a = load buf a) -> buf' = buf.
Proof.
  intros H H' Hout. apply list_eq; intros i.
  rewrite <- (Nat2Z.id i), <- !load_spec by lia.
  destruct (decide (Z.of_nat i ∈ as_)) as [Hin|Hnin]; [|apply Hout; [lia | done]].
  apply list_elem_of_lookup in Hin as [j Hj].
  by rewrite (loads_lookup _ _ _ _ _ H Hj), (loads_lookup _ _ _ _ _ H' Hj).
Qed.

Lemma puts_spec buf as_ bs :
  NoDup as_ -> within buf as_ -> length as_ = length bs ->
  exists buf', puts buf as_ bs = Some buf' /\ length buf' = length buf /\
    loads buf' as_ = Some bs /\
    (forall a, 0 <= a -> a ∉ as_ -> load buf' a = load buf a) /\
    (bytes buf -> bytes bs -> bytes buf').
Proof.
  intros Hnd. revert buf bs; induction Hnd as [|a as_ Ha Hnd IH]; intros buf [|b bs] Hw Hl; try done.
  - by exists buf.
  - apply Forall_cons_1 in Hw as [Ha' Hw]. cbn [puts]. rewrite store_in by done. cbn [mbind option_bind].
    set (m := <[Z.to_nat a := b]> buf). assert (Hm : length m = length buf) by apply length_insert.
    destruct (IH m bs) as (buf' & E & Hlen & Hin & Hout & Hb);
      [unfold within; by rewrite Hm | cbn in Hl; lia |].
    exists buf'. split_and!; [done | lia | | |].
    + unfold loads in *. cbn. rewrite Hout by (done || lia). unfold m at 1.
      rewrite load_insert_eq by done. cbn. by rewrite Hin.
    + intros x Hx0 Hx. apply not_elem_of_cons in Hx as [Hx1 Hx2]. rewrite Hout by done.
      apply load_insert_ne; lia || done.
    + intros Hbuf [? ?]%Forall_cons_1. apply Hb; [by apply bytes_insert | done].
Qed.

Lemma le_bytes_mod n v : le_bytes n (v mod 2 ^ (8 * Z.of_nat n)) = le_bytes n v.
Proof.
  rewrite <- le_value_le_bytes. rewrite <- (length_le_bytes n v) at 1.
  apply le_bytes_le_value; auto with mem.
Qed.

Lemma le_bytes_app n m v :
  le_bytes (n + m) v = le_bytes n v ++ le_bytes m (Z.shiftr v (8 * Z.of_nat n)).
Proof.
  revert v; induction n as [|n IH]; intros v; cbn [le_bytes Nat.add app].
  - by rewrite Z.shiftr_0_r.
  - rewrite IH, Z.shiftr_shiftr by lia. do 4 f_equal. lia.
Qed.

(** ** The bits of the buffer *)
Definition bit_at (buf : list Z) (p : Z) : bool :=
  match load buf (p / 8) with Some b => Z.testbit b (p mod 8) | None => false end.

Lemma bit_at_byte buf a b r :
  load buf a = Some b -> 0 <= r < 8 -> bit_at buf (8 * a + r) = Z.testbit b r.
Proof.
  intros Hb Hr. unfold bit_at.
  replace ((8 * a + r) / 8) with a by (Z.div_mod_to_equations; lia).
  replace ((8 * a + r) mod 8) with r by (Z.div_mod_to_equations; lia). by rewrite Hb.
Qed.

Lemma bits_ext buf buf' :
  length buf' = length buf -> bytes buf -> bytes buf' ->
  (forall p, 0 <= p -> bit_at buf' p = bit_at buf p) -> buf' = buf.
Proof.
  intros Hl Hb Hb' H. apply list_eq_same_length with (n := length buf); [done..|].
  intros i x y Hi Hx Hy. apply (in_width_ext 8);
    [lia | exact (Forall_lookup_1 _ _ _ _ Hb' Hx) | exact (Forall_lookup_1 _ _ _ _ Hb Hy) |].
  intros r Hr. specialize (H (8 * Z.of_nat i + r) ltac:(lia)).
  rewrite (bit_at_byte _ _ x), (bit_at_byte _ _ y) in H; try done.
  all: rewrite load_spec, Nat2Z.id by lia; done.
Qed.

(** A bit of the word at a list of addresses. *)
Lemma word_bit buf as_ bs i a r :
  bytes buf -> loads buf as_ = Some bs -> as_ !! i = Some a -> 0 <= r < 8 ->
  bit_at buf (8 * a + r) = Z.testbit (le_value bs) (8 * Z.of_nat i + r).
Proof.
  intros Hbuf H Ha Hr. pose proof (loads_bytes _ _ _ Hbuf H).
  rewrite le_value_bit by (done || lia).
  replace (Z.to_nat ((8 * Z.of_nat i + r) / 8)) with i by (Z.div_mod_to_equations; lia).
  replace ((8 * Z.of_nat i + r) mod 8) with r by (Z.div_mod_to_equations; lia).
  apply mapM_Some_1 in H. eapply Forall2_lookup_l in H as (b & Hb & Hload); [|done].
  rewrite Hb. by apply bit_at_byte.
Qed.

(** ** Where a signal lies

    [x ^ 7] numbers the bits of each byte from the most significant one, so that the
    bits of a big-endian signal follow one another. *)
Definition signal_bit (endian : ComSignalEndianess_type) (bitPosition bitSize k : Z) : Z :=
  match endian with
  | COM_BIG_ENDIAN => Z.lxor (Z.lxor bitPosition 7 + (bitSize - 1 - k)) 7
  | _ => bitPosition + k
  end.

(** The window the code accesses: its lowest bit, its direction, its addresses. *)
Definition lsb (endian : ComSignalEndianess_type) (bitPosition bitSize : Z) : Z :=
  match endian with COM_BIG_ENDIAN => lsbIndex_big bitPosition bitSize | _ => bitPosition end.
Definition direction (endian : ComSignalEndianess_type) : Z :=
  match endian with COM_BIG_ENDIAN => -1 | _ => 1 end.
Definition addrs (d b : Z) (m : nat) : list Z := (fun i => b + d * Z.of_nat i) <$> seq 0 m.
Definition window_bytes (n : nat) (endian : ComSignalEndianess_type) (bitPosition bitSize : Z) : nat :=
  if 8 * Z.of_nat n - lsb endian bitPosition bitSize mod 8 <? bitSize then S n else n.
Definition window (n : nat) (endian : ComSignalEndianess_type) (ptr bitPosition bitSize : Z) : list Z :=
  addrs (direction endian) (ptr + lsb endian bitPosition bitSize / 8)
    (window_bytes n endian bitPosition bitSize).

Lemma lxor_7 x : Z.lxor x 7 = 8 * (x / 8) + (7 - x mod 8).
Proof.
  assert (H : forallb (fun r => forallb (fun i =>
    Bool.eqb (Z.testbit (7 - r) i) (negb (Z.testbit r i))) [0;1;2]) [0;1;2;3;4;5;6;7] = true)
    by reflexivity.
  rewrite forallb_forall in H. specialize (H (x mod 8)).
  assert (Hr : 0 <= x mod 8 < 8) by (apply Z.mod_pos_bound; lia).
  assert (Hin : In (x mod 8) [0;1;2;3;4;5;6;7]) by (cbn; lia).
  specialize (H Hin). rewrite forallb_forall in H.
  apply Z.bits_inj'; intros i Hi. rewrite Z.lxor_spec.
  replace (8 * (x / 8) + (7 - x mod 8)) with (Z.lor (Z.shiftl (x / 8) 3) (7 - x mod 8)).
  2:{ assert (E : Z.land (Z.shiftl (x / 8) 3) (7 - x mod 8) = 0).
      { apply Z.bits_inj'; intros j Hj. rewrite Z.land_spec, Z.shiftl_spec, Z.testbit_0_l by lia.
        destruct (Z.lt_ge_cases j 3).
        - by rewrite Z.testbit_neg_r by lia.
        - rewrite (testbit_high 3 (7 - x mod 8)); [btauto | unfold in_width; lia | lia]. }
      rewrite <- Z.lxor_lor, <- Z.add_nocarry_lxor, Z.shiftl_mul_pow2 by (done || lia). lia. }
  rewrite Z.lor_spec, Z.shiftl_spec by lia. destruct (Z.lt_ge_cases i 3).
  - rewrite (Z.testbit_neg_r _ (i - 3)) by lia. cbn [orb].
    assert (Hi3 : In i [0;1;2]) by (cbn; lia). specialize (H i Hi3). apply Bool.eqb_prop in H.
    rewrite H. change 8 with (2 ^ 3). rewrite Z.mod_pow2_bits_low by lia.
    assert (Z.testbit 7 i = true) as -> by (destruct Hi3 as [<-|[<-|[<-|[]]]]; done). btauto.
  - rewrite (testbit_high 3 7), (testbit_high 3 (7 - _)) by (unfold in_width; lia).
    rewrite xorb_false_r, orb_false_r. change 8 with (2 ^ 3). rewrite Z.div_pow2_bits by lia.
    f_equal. lia.
Qed.

Lemma lsb_nonneg endian pos size : 0 <= pos -> 0 <= lsb endian pos size.
Proof.
  intros. destruct endian; try done. unfold lsb, lsbIndex_big. apply Z.lxor_nonneg.
  assert (0 <= u32 (Z.lxor pos 7 + size - 1)) by (apply Z.mod_pos_bound; lia). lia.
Qed.

Lemma signal_bit_window endian pos size k :
  is_u16 pos -> 0 <= k < size -> is_u16 size ->
  let s := lsb endian pos size in
  signal_bit endian pos size k =
    8 * (s / 8 + direction endian * ((s mod 8 + k) / 8)) + (s mod 8 + k) mod 8.
Proof.
  intros Hp Hk Hs. destruct endian; cbn [lsb direction signal_bit];
    [|Z.div_mod_to_equations; lia..].
  assert (Hx : in_width 16 (Z.lxor pos 7)) by (apply in_width_lxor; [lia | done | unfold in_width; lia]).
  unfold lsbIndex_big, u32. rewrite Z.mod_small by in_range.
  replace (Z.lxor pos 7 + size - 1) with (Z.lxor pos 7 + (size - 1)) by lia.
  set (x := Z.lxor pos 7 + (size - 1)).
  replace (Z.lxor pos 7 + (size - 1 - k)) with (x - k) by (unfold x; lia).
  rewrite !lxor_7. clearbody x. Z.div_mod_to_equations; lia.
Qed.

Lemma addrs_S d b m : addrs d b (S m) = b :: addrs d (b + d) m.
Proof.
  unfold addrs. cbn [seq fmap list_fmap]. f_equal; [lia|].
  rewrite <- (fmap_S_seq 0), <- list_fmap_compose. apply list_fmap_ext. intros; cbn. lia.
Qed.

Lemma length_addrs d b m : length (addrs d b m) = m.
Proof. unfold addrs. by rewrite length_fmap, length_seq. Qed.

Lemma lookup_addrs d b m i : (i < m)%nat -> addrs d b m !! i = Some (b + d * Z.of_nat i).
Proof. intros. unfold addrs. by rewrite list_lookup_fmap, lookup_seq_lt. Qed.

Lemma elem_of_addrs d b m a : a ∈ addrs d b m <-> exists i, a = b + d * Z.of_nat i /\ (i < m)%nat.
Proof.
  unfold addrs. rewrite list_elem_of_fmap. setoid_rewrite elem_of_seq.
  split; intros (i & -> & Hi); exists i; (split; [done | lia]).
Qed.

Lemma NoDup_addrs d b m : d <> 0 -> NoDup (addrs d b m).
Proof. intros. unfold addrs. apply NoDup_fmap_2_strong; [intros; nia | apply NoDup_seq]. Qed.

Lemma addrs_snoc d b m : addrs d b (S m) = addrs d b m ++ [b + d * Z.of_nat m].
Proof. unfold addrs. by rewrite seq_S, fmap_app. Qed.

Lemma upwards_addrs b n : Z.add b <$> upwards n = addrs 1 b n.
Proof. unfold upwards, addrs. rewrite <- list_fmap_compose. apply list_fmap_ext. intros; cbn. lia. Qed.

Lemma downwards_addrs b n : Z.add (b - (Z.of_nat n - 1)) <$> downwards n = addrs (-1) b n.
Proof.
  revert b; induction n as [|n IH]; intros b; [done|].
  rewrite addrs_S, <- IH. unfold downwards, upwards.
  rewrite seq_S, fmap_app, rev_app_distr. cbn [fmap list_fmap rev app]. f_equal; [lia|].
  apply list_fmap_ext. intros; cbn; lia.
Qed.

Lemma length_upwards n : length (upwards n) = n.
Proof. unfold upwards. by rewrite length_fmap, length_seq. Qed.
Lemma length_downwards n : length (downwards n) = n.
Proof. unfold downwards. by rewrite length_rev, length_upwards. Qed.

Lemma le_value_app bs cs :
  le_value (bs ++ cs) = Z.lor (le_value bs) (Z.shiftl (le_value cs) (8 * Z.of_nat (length bs))).
Proof.
  induction bs as [|b bs IH]; cbn [app le_value length]; [by rewrite Z.shiftl_0_r, Z.lor_0_l|].
  rewrite IH, Z.shiftl_lor, Z.lor_assoc, Z.shiftl_shiftl by lia. do 2 f_equal. lia.
Qed.

(** Both byte orders of the code as one. *)
Lemma read_pdu_data_uniform n buf ptr pos size endian :
  endian <> COM_OPAQUE ->
  let w := 8 * Z.of_nat n in
  let s := lsb endian pos size mod 8 in
  let base := ptr + lsb endian pos size / 8 in
  read_pdu_data n buf ptr pos size endian =
    (x ← match endian with
         | COM_BIG_ENDIAN => gather w buf (base - (Z.of_nat n - 1)) (upwards n) 0
         | _ => gather w buf base (downwards n) 0
         end;
     if w - s <? size then
       b ← load buf (base + direction endian * Z.of_nat n);
       hi ← shl w b (w - s);
       Some (Z.lor (Z.shiftr x s) hi)
     else Some (Z.shiftr x s)).
Proof.
  intros Hend w s base. unfold read_pdu_data. destruct endian; [| |done]; cbn [lsb direction] in *.
  - by replace (base + -1 * Z.of_nat n) with (base - (Z.of_nat n - 1) - 1) by lia.
  - by replace (base + 1 * Z.of_nat n) with (base + Z.of_nat n) by lia.
Qed.

(** Two computations that start with the same step. *)
Ltac through :=
  match goal with
  | |- mbind _ ?o = mbind _ ?o => destruct o; [cbn [mbind option_bind] | done]
  end.

Lemma write_pdu_data_uniform n buf ptr pos size endian mask v :
  endian <> COM_OPAQUE ->
  let w := 8 * Z.of_nat n in
  let s := lsb endian pos size mod 8 in
  let base := ptr + lsb endian pos size / 8 in
  write_pdu_data n buf ptr pos size endian mask v =
    (x ← match endian with
         | COM_BIG_ENDIAN => gather w buf (base - (Z.of_nat n - 1)) (upwards n) 0
         | _ => gather w buf base (downwards n) 0
         end;
     sigLo ← shl w v s;
     m ← shl w mask s;
     let y := Z.lor (Z.land x (bnot w m)) sigLo in
     buf ← match endian with
           | COM_BIG_ENDIAN => scatter buf (base - (Z.of_nat n - 1)) (downwards n) y
           | _ => scatter buf base (upwards n) y
           end;
     if w - s <? size then
       b ← load buf (base + direction endian * Z.of_nat n);
       mhi ← shr w mask (w - s);
       sigHi ← shr w v (w - s);
       let c := Z.lor (Z.land b (bnot w mhi)) sigHi in
       buf ← store buf (base + direction endian * Z.of_nat n) (u8 c);
       Some (buf, negb (y =? x) || negb (c =? b))
     else Some (buf, negb (y =? x))).
Proof.
  intros Hend w s base. unfold write_pdu_data. fold w.
  destruct endian; [| |done]; cbn [lsb direction] in *; fold s base.
  - do 4 through. destruct (w - s <? size); [|done].
    replace (base + -1 * Z.of_nat n) with (base - (Z.of_nat n - 1) - 1) by lia. do 4 through.
    do 2 f_equal. destruct (negb (Z.lor _ _ =? z2)); btauto.
  - do 4 through. destruct (w - s <? size); [|done].
    replace (base + 1 * Z.of_nat n) with (base + Z.of_nat n) by lia. do 4 through.
    do 2 f_equal. destruct (negb (Z.lor _ _ =? z2)); btauto.
Qed.

Lemma shl_in w x s : 0 <= s < w -> shl w x s = Some (Z.shiftl x s mod 2 ^ w).
Proof. intros. unfold shl. by rewrite (proj2 (Z.leb_le _ _)), (proj2 (Z.ltb_lt _ _)) by lia. Qed.
Lemma shr_in w x s : 0 <= s < w -> shr w x s = Some (Z.shiftr x s).
Proof. intros. unfold shr. by rewrite (proj2 (Z.leb_le _ _)), (proj2 (Z.ltb_lt _ _)) by lia. Qed.

Lemma eqb_halves w x y :
  0 <= w ->
  (x mod 2 ^ w =? y mod 2 ^ w) && (Z.shiftr x w =? Z.shiftr y w) = (x =? y).
Proof.
  intros Hw. destruct (Z.eqb_spec x y) as [->|Hne]; [by rewrite !Z.eqb_refl|].
  apply andb_false_iff. destruct (Z.eqb_spec (x mod 2 ^ w) (y mod 2 ^ w)) as [E|]; [right | by left].
  apply Z.eqb_neq. intros E'. apply Hne. rewrite !Z.shiftr_div_pow2 in E' by done.
  rewrite (Z.div_mod x (2 ^ w)), (Z.div_mod y (2 ^ w)), E, E' by lia. done.
Qed.

(** ** The two loops on the window *)
Section Window.
Variables (n : nat) (endian : ComSignalEndianess_type) (ptr pos size : Z) (buf : list Z).
Hypothesis Hend : endian <> COM_OPAQUE.
Hypothesis Hn : (n <= 8)%nat.
Hypothesis Hsize : 1 <= size <= 8 * Z.of_nat n.
Hypothesis Hpos : is_u16 pos.
Hypothesis Hbuf : bytes buf.
Hypothesis Hwin : within buf (window n endian ptr pos size).

#[local] Abbreviation w := (8 * Z.of_nat n).
#[local] Abbreviation s := (lsb endian pos size mod 8).
#[local] Abbreviation base := (ptr + lsb endian pos size / 8).
#[local] Abbreviation d := (direction endian).

Lemma shift_range : 0 <= s < 8.
Proof using Type. clear. apply Z.mod_pos_bound. lia. Qed.

Lemma straddle_range : (w - s <? size) = true -> 0 < s.
Proof using Hsize. clear -Hsize. intros ?%Z.ltb_lt. lia. Qed.

Definition low := addrs d base n.

Lemma window_split :
  window n endian ptr pos size =
    if w - s <? size then low ++ [base + d * Z.of_nat n] else low.
Proof using Type.
  unfold window, window_bytes. destruct (w - s <? size); [apply addrs_snoc | done].
Qed.

Lemma low_within : within buf low.
Proof using Hwin.
  unfold within in *. rewrite window_split in Hwin.
  destruct (w - s <? size); [by apply Forall_app in Hwin as [? _] | done].
Qed.

Lemma NoDup_window : NoDup (window n endian ptr pos size).
Proof using Type. clear. apply NoDup_addrs. by destruct endian. Qed.

(** The word the first loop collects, from either byte order. *)
Lemma gather_low lo :
  loads buf low = Some lo ->
  match endian with
  | COM_BIG_ENDIAN => gather w buf (base - (Z.of_nat n - 1)) (upwards n) 0
  | _ => gather w buf base (downwards n) 0
  end = Some (le_value lo).
Proof using All.
  intros H. unfold low in H. destruct endian; cbn [direction] in H.
  - rewrite <- (rev_involutive (upwards n)). apply gather_rev; [done| |].
    + fold (downwards n). by rewrite downwards_addrs.
    + rewrite length_rev, length_upwards. lia.
  - apply gather_rev; [done| |]; [by rewrite upwards_addrs | rewrite length_upwards; lia].
  - apply gather_rev; [done| |]; [by rewrite upwards_addrs | rewrite length_upwards; lia].
Qed.

Lemma scatter_low v :
  match endian with
  | COM_BIG_ENDIAN => scatter buf (base - (Z.of_nat n - 1)) (downwards n) v
  | _ => scatter buf base (upwards n) v
  end = puts buf low (le_bytes n v).
Proof using All.
  unfold low. destruct endian; rewrite scatter_puts; cbn [direction];
    rewrite ?downwards_addrs, ?upwards_addrs, ?length_upwards, ?length_downwards; done.
Qed.

Lemma lo_spec : exists lo, loads buf low = Some lo /\ bytes lo /\ length lo = n.
Proof using All.
  destruct (loads_within _ _ low_within) as [lo H]. exists lo. split_and!; [done | by eapply loads_bytes |].
  rewrite (loads_length _ _ _ H). apply length_addrs.
Qed.

(** The whole window: the word [W] of the window's bytes. *)
Lemma window_word :
  exists lo hi,
    loads buf low = Some lo /\ bytes lo /\ length lo = n /\
    loads buf (window n endian ptr pos size) = Some (if w - s <? size then lo ++ [hi] else lo) /\
    is_u8 hi /\ ((w - s <? size) = true -> load buf (base + d * Z.of_nat n) = Some hi).
Proof using All.
  destruct lo_spec as (lo & H & Hlo & Hl). rewrite window_split.
  destruct (w - s <? size) eqn:E.
  - unfold within in Hwin. rewrite window_split, E in Hwin.
    apply Forall_app in Hwin as [_ [Hhi _]%Forall_cons_1].
    destruct (load_in _ _ Hhi) as [hi Hload]. exists lo, hi. split_and!; try done.
    + rewrite loads_app, H. unfold loads. cbn. by rewrite Hload.
    + exact (load_byte _ _ _ Hbuf Hload).
  - exists lo, 0. split_and!; try done.
Qed.

Lemma read_pdu_data_bits :
  exists x bs, loads buf (window n endian ptr pos size) = Some bs /\
    read_pdu_data n buf ptr pos size endian = Some x /\
    forall k, 0 <= k < size -> Z.testbit x k = Z.testbit (le_value bs) (s + k).
Proof using All.
  destruct window_word as (lo & hi & Hlo & Hblo & Hl & Hall & Hhi & Hload).
  pose proof (gather_low lo Hlo) as Hg. pose proof shift_range as Hs.
  assert (Hv : in_width w (le_value lo)) by (rewrite <- Hl; by apply le_value_width).
  exists (if w - s <? size then Z.lor (Z.shiftr (le_value lo) s) (Z.shiftl hi (w - s) mod 2 ^ w)
          else Z.shiftr (le_value lo) s), (if w - s <? size then lo ++ [hi] else lo).
  split_and!; [done| |].
  - rewrite read_pdu_data_uniform by done. cbv zeta.
    rewrite Hg. cbn [mbind option_bind]. destruct (w - s <? size) eqn:E; [|done].
    pose proof (straddle_range E). rewrite Hload by done. cbn [mbind option_bind].
    by rewrite shl_in by lia.
  - intros k Hk. destruct (w - s <? size) eqn:E.
    + rewrite le_value_app, !Z.lor_spec, Z.shiftr_spec by lia. rewrite Z.add_comm. f_equal.
      rewrite Z.shiftl_spec, Hl by lia. cbn [le_value]. rewrite Z.shiftl_0_l, Z.lor_0_r.
      rewrite testbit_mod_pow2, Z.shiftl_spec by lia.
      rewrite (proj2 (Z.ltb_lt _ _)) by lia. cbn [andb]. f_equal. lia.
    + rewrite Z.shiftr_spec by lia. f_equal. lia.
Qed.

(** The word with the signal's bits replaced. *)
Definition splice (W v : Z) : Z := Z.lor (Z.ldiff W (Z.shiftl (Z.ones size) s)) (Z.shiftl v s).

Lemma splice_bit W v j :
  in_width size v -> 0 <= j ->
  Z.testbit (splice W v) j =
    if (s <=? j) && (j <? s + size) then Z.testbit v (j - s) else Z.testbit W j.
Proof using Hsize.
  clear -Hsize. intros Hv Hj. pose proof shift_range as Hs. unfold splice.
  rewrite Z.lor_spec, Z.ldiff_spec, !Z.shiftl_spec by lia.
  destruct (Z.leb_spec s j), (Z.ltb_spec j (s + size)); cbn [andb].
  - rewrite Z.ones_spec_low by lia. btauto.
  - rewrite Z.ones_spec_high, (testbit_high size v) by (done || lia). btauto.
  - rewrite !(Z.testbit_neg_r _ (j - s)) by lia. btauto.
  - lia.
Qed.

Lemma splice_low W v x :
  in_width size v -> (forall j, 0 <= j < w -> Z.testbit W j = Z.testbit x j) ->
  Z.lor (Z.land x (bnot w (Z.shiftl (Z.ones size) s mod 2 ^ w))) (Z.shiftl v s mod 2 ^ w) =
    splice W v mod 2 ^ w.
Proof using Hsize.
  clear -Hsize. intros Hv HW. pose proof shift_range as Hs.
  apply Z.bits_inj'; intros j Hj. unfold bnot.
  rewrite Z.lor_spec, Z.land_spec, !testbit_mod_pow2, Z.lnot_spec, splice_bit, testbit_mod_pow2
    by (done || lia).
  destruct (Z.ltb_spec j w); cbn [andb]; [|btauto].
  rewrite HW by lia. rewrite !Z.shiftl_spec by lia. destruct (Z.leb_spec s j); cbn [andb].
  - destruct (Z.ltb_spec j (s + size)).
    + rewrite Z.ones_spec_low by lia. btauto.
    + rewrite Z.ones_spec_high, (testbit_high size v) by (done || lia). btauto.
  - rewrite !(Z.testbit_neg_r _ (j - s)) by lia. btauto.
Qed.

Lemma splice_high W v hi :
  in_width size v -> is_u8 hi -> (forall j, 0 <= j -> Z.testbit W (j + w) = Z.testbit hi j) ->
  Z.lor (Z.land hi (bnot w (Z.shiftr (Z.ones size) (w - s)))) (Z.shiftr v (w - s)) =
    Z.shiftr (splice W v) w.
Proof using Hsize.
  clear -Hsize. intros Hv Hhi HW. pose proof shift_range as Hs.
  apply Z.bits_inj'; intros j Hj. unfold bnot.
  rewrite Z.lor_spec, Z.land_spec, testbit_mod_pow2, Z.lnot_spec, !Z.shiftr_spec, splice_bit
    by (done || lia).
  rewrite HW, (proj2 (Z.leb_le _ _)) by lia. replace (j + w - s) with (j + (w - s)) by lia.
  destruct (Z.ltb_spec (j + w) (s + size)); cbn [andb].
  - rewrite Z.ones_spec_low by lia. btauto.
  - rewrite Z.ones_spec_high, (testbit_high size v) by (done || lia).
    destruct (Z.ltb_spec j w); cbn [andb negb]; [btauto|].
    rewrite (testbit_high 8 hi) by (done || lia). done.
Qed.

Lemma splice_width l W v :
  in_width size v -> in_width l W -> s + size <= l -> in_width l (splice W v).
Proof using Hsize.
  clear -Hsize. intros Hv HW Hs. pose proof shift_range. apply in_width_bits; [lia| |].
  - unfold splice. apply Z.lor_nonneg. split; [apply Z.ldiff_nonneg; left; apply HW|].
    apply Z.shiftl_nonneg, Hv.
  - intros i Hi. rewrite splice_bit, (proj2 (Z.ltb_ge _ _)), andb_false_r by (done || lia).
    apply (testbit_high l); [done | lia].
Qed.

Lemma write_pdu_data_word v :
  in_width size v ->
  exists bs, loads buf (window n endian ptr pos size) = Some bs /\
    write_pdu_data n buf ptr pos size endian (Z.ones size) v =
      (buf' ← puts buf (window n endian ptr pos size) (le_bytes (length bs) (splice (le_value bs) v));
       Some (buf', negb (splice (le_value bs) v =? le_value bs))).
Proof using All.
  intros Hv. destruct window_word as (lo & hi & Hlo & Hblo & Hl & Hall & Hhi & Hload).
  pose proof shift_range as Hs.
  assert (Hv0 : in_width w (le_value lo)) by (rewrite <- Hl; by apply le_value_width).
  eexists. split; [exact Hall|].
  rewrite write_pdu_data_uniform by done. cbv zeta. rewrite (gather_low lo Hlo). cbn [mbind option_bind].
  rewrite !shl_in by lia. cbn [mbind option_bind]. rewrite window_split.
  destruct (w - s <? size) eqn:E.
  - set (W := le_value (lo ++ [hi])).
    assert (HW : W = Z.lor (le_value lo) (Z.shiftl hi w)).
    { unfold W. rewrite le_value_app, Hl. cbn. by rewrite Z.lor_0_r. }
    rewrite (splice_low W), scatter_low, le_bytes_mod by
      (try done; intros j Hj; rewrite HW, Z.lor_spec, Z.shiftl_spec, (Z.testbit_neg_r _ (j - w)) by lia; btauto).
    pose proof (straddle_range E) as Hs0. rewrite length_app, Hl, le_bytes_app. cbn [length].
    rewrite puts_app by (unfold low; rewrite length_addrs, length_le_bytes; done).
    destruct (puts_spec buf low (le_bytes n (splice W v))) as (buf1 & -> & _ & _ & Hout & _);
      [apply NoDup_addrs; by destruct endian | apply low_within
      | unfold low; by rewrite length_addrs, length_le_bytes |].
    cbn [mbind option_bind]. specialize (Hload eq_refl).
    rewrite Hout, Hload; [| by apply load_Some in Hload as [? _]
      | unfold low; rewrite elem_of_addrs; intros (i & Hi & ?); destruct endian; cbn in Hi; lia].
    cbn [mbind option_bind]. rewrite !shr_in by lia. cbn [mbind option_bind].
    rewrite (splice_high W); [|done..|].
    2:{ intros j Hj. rewrite HW, Z.lor_spec, Z.shiftl_spec, (testbit_high w (le_value lo)) by (done || lia).
        cbn [orb]. f_equal. lia. }
    cbn [le_bytes puts]. destruct (store _ _ _); [|done]. cbn [mbind option_bind].
    do 2 f_equal. rewrite <- negb_andb. f_equal. rewrite <- (eqb_halves w (splice W v) W) by lia.
    do 2 f_equal; rewrite HW.
    + symmetry. apply (in_width_ext w); [lia | apply in_width_mod; lia | done |].
      intros j Hj. rewrite testbit_mod_pow2, Z.lor_spec, Z.shiftl_spec, (Z.testbit_neg_r _ (j - w)) by lia.
      rewrite (proj2 (Z.ltb_lt _ _)) by lia. btauto.
    + rewrite Z.shiftr_lor, Z.shiftr_shiftl_l, Z.sub_diag, Z.shiftl_0_r by lia.
      by rewrite (Z.shiftr_div_pow2 (le_value lo)), Z.div_small by (done || lia).
  - apply Z.ltb_ge in E. rewrite (splice_low (le_value lo)), scatter_low, le_bytes_mod, Hl by done.
    rewrite Z.mod_small by (apply splice_width; done || lia). done.
Qed.

(** *** The bits of the window are those of the signal *)
Lemma signal_bit_in_window k :
  0 <= k < size ->
  exists i, (i < window_bytes n endian pos size)%nat /\
    8 * Z.of_nat i + (s + k) mod 8 = s + k /\
    8 * ptr + signal_bit endian pos size k = 8 * (base + d * Z.of_nat i) + (s + k) mod 8.
Proof using All.
  intros Hk. pose proof shift_range as Hs. exists (Z.to_nat ((s + k) / 8)).
  rewrite signal_bit_window by (done || in_range). cbv zeta.
  assert (Hq : 0 <= (s + k) / 8) by (apply Z.div_pos; lia).
  assert (Hqm : (s + k) / 8 < Z.of_nat (window_bytes n endian pos size)).
  { unfold window_bytes. destruct (Z.ltb_spec (w - s) size);
      apply Z.div_lt_upper_bound; lia. }
  split_and!; [lia| |].
  - rewrite Z2Nat.id by done. pose proof (Z.div_mod (s + k) 8). lia.
  - rewrite Z2Nat.id by done. ring.
Qed.

Lemma window_lookup i :
  (i < window_bytes n endian pos size)%nat ->
  window n endian ptr pos size !! i = Some (base + d * Z.of_nat i).
Proof using Type. intros. by apply lookup_addrs. Qed.

Lemma signal_word_bit buf' bs k :
  bytes buf' -> loads buf' (window n endian ptr pos size) = Some bs -> 0 <= k < size ->
  bit_at buf' (8 * ptr + signal_bit endian pos size k) = Z.testbit (le_value bs) (s + k).
Proof using All.
  intros Hb Hl Hk. destruct (signal_bit_in_window k Hk) as (i & Hi & E1 & ->).
  rewrite (word_bit _ _ _ _ _ _ Hb Hl (window_lookup i Hi)) by (apply Z.mod_pos_bound; lia).
  by rewrite E1.
Qed.

(** Reading collects the signal's bits. *)
Lemma read_pdu_data_spec :
  exists x, read_pdu_data n buf ptr pos size endian = Some x /\
    forall k, 0 <= k < size -> Z.testbit x k = bit_at buf (8 * ptr + signal_bit endian pos size k).
Proof using All.
  destruct read_pdu_data_bits as (x & bs & Hl & Hx & Hb). exists x. split; [done|].
  intros k Hk. rewrite Hb by done. symmetry. by apply signal_word_bit.
Qed.

Definition signal_set (buf' : list Z) (v : Z) : Prop :=
  length buf' = length buf /\ bytes buf' /\
  (forall k, 0 <= k < size -> bit_at buf' (8 * ptr + signal_bit endian pos size k) = Z.testbit v k) /\
  (forall p, 0 <= p -> (forall k, 0 <= k < size -> p <> 8 * ptr + signal_bit endian pos size k) ->
     bit_at buf' p = bit_at buf p).

(** A bit of the buffer outside the signal, in or out of the window. *)
Lemma splice_frame bs buf' v p :
  in_width size v -> loads buf (window n endian ptr pos size) = Some bs -> bytes buf' ->
  loads buf' (window n endian ptr pos size) = Some (le_bytes (length bs) (splice (le_value bs) v)) ->
  (forall a, 0 <= a -> a ∉ window n endian ptr pos size -> load buf' a = load buf a) ->
  0 <= p -> (forall k, 0 <= k < size -> p <> 8 * ptr + signal_bit endian pos size k) ->
  bit_at buf' p = bit_at buf p.
Proof using All.
  intros Hv Hl Hb' Hl' Hout Hp Hno. pose proof shift_range as Hs.
  destruct (decide (p / 8 ∈ window n endian ptr pos size)) as [Hin|Hnin].
  2:{ unfold bit_at. by rewrite Hout by (done || apply Z.div_pos; lia). }
  apply list_elem_of_lookup in Hin as [i Hi].
  assert (Hm : (i < window_bytes n endian pos size)%nat)
    by (apply lookup_lt_Some in Hi; unfold window in Hi; by rewrite length_addrs in Hi).
  assert (Hr : 0 <= p mod 8 < 8) by (apply Z.mod_pos_bound; lia).
  assert (Ep : p = 8 * (p / 8) + p mod 8) by (apply Z.div_mod; lia).
  rewrite Ep, (word_bit _ _ _ _ _ (p mod 8) Hb' Hl' Hi), (word_bit _ _ _ _ _ (p mod 8) Hbuf Hl Hi) by done.
  rewrite le_value_le_bytes, testbit_mod_pow2 by lia.
  assert (Hlen : length bs = window_bytes n endian pos size)
    by (rewrite (loads_length _ _ _ Hl); apply length_addrs).
  rewrite (proj2 (Z.ltb_lt _ _)) by (rewrite Hlen; lia). cbn [andb].
  rewrite splice_bit by (done || lia).
  destruct (Z.leb_spec s (8 * Z.of_nat i + p mod 8)); [|done].
  destruct (Z.ltb_spec (8 * Z.of_nat i + p mod 8) (s + size)); [|done]. exfalso.
  apply (Hno (8 * Z.of_nat i + p mod 8 - s) ltac:(lia)).
  destruct (signal_bit_in_window (8 * Z.of_nat i + p mod 8 - s) ltac:(lia)) as (i' & Hi' & E1 & ->).
  replace (s + (8 * Z.of_nat i + p mod 8 - s)) with (8 * Z.of_nat i + p mod 8) in * by lia.
  assert (Em : (8 * Z.of_nat i + p mod 8) mod 8 = p mod 8) by (Z.div_mod_to_equations; lia).
  rewrite Em in *. replace i' with i by lia. rewrite window_lookup in Hi by done. injection Hi as Hi. lia.
Qed.

(** Writing sets the signal's bits, nothing else, and tells whether one changed. *)
Lemma write_pdu_data_spec v :
  in_width size v ->
  exists buf' ch, write_pdu_data n buf ptr pos size endian (Z.ones size) v = Some (buf', ch) /\
    signal_set buf' v /\ ch = negb (bool_decide (buf' = buf)).
Proof using All.
  intros Hv. destruct (write_pdu_data_word v Hv) as (bs & Hl & ->).
  assert (Hbs : bytes bs) by by eapply loads_bytes.
  assert (Hlen : length (window n endian ptr pos size) = length bs)
    by (symmetry; by eapply loads_length).
  destruct (puts_spec buf (window n endian ptr pos size)
    (le_bytes (length bs) (splice (le_value bs) v))) as (buf' & -> & Hlb & Hl' & Hout & Hb');
    [apply NoDup_window | done | by rewrite length_le_bytes |].
  cbn [mbind option_bind]. specialize (Hb' Hbuf (bytes_le_bytes _ _)).
  exists buf'; eexists. split; [done|]. split.
  - split_and!; [done..| |].
    + intros k Hk. rewrite (signal_word_bit _ _ _ Hb' Hl') by done. pose proof shift_range.
      rewrite le_value_le_bytes, testbit_mod_pow2, splice_bit by (done || lia).
      destruct (signal_bit_in_window k Hk) as (i & Hi & E1 & _).
      assert (0 <= (s + k) mod 8 < 8) by (apply Z.mod_pos_bound; lia).
      unfold window in Hlen. rewrite length_addrs in Hlen.
      rewrite (proj2 (Z.ltb_lt (s + k) (8 * _))), (proj2 (Z.leb_le _ _)), (proj2 (Z.ltb_lt _ _)) by lia.
      cbn [andb]. f_equal. lia.
    + intros p Hp Hno. by eapply splice_frame.
  - f_equal. apply eq_true_iff_eq. rewrite bool_decide_eq_true, Z.eqb_eq. split.
    + intros E. rewrite E, le_bytes_le_value in Hl' by done.
      by eapply loads_same.
    + intros ->. rewrite Hl in Hl'. injection Hl' as Hl'.
      assert (Hm : s + size <= 8 * Z.of_nat (length bs)).
      { rewrite <- Hlen. unfold window. rewrite length_addrs. pose proof shift_range.
        unfold window_bytes. destruct (Z.ltb_spec (w - s) size); lia. }
      pose proof (splice_width _ _ v Hv (le_value_width bs Hbs) Hm) as Hw.
      rewrite <- (Z.mod_small (splice _ _) (2 ^ (8 * Z.of_nat (length bs)))) by done.
      rewrite <- le_value_le_bytes. congruence.
Qed.
End Window.
