(* ===== verification/Com_Codec.v ===== *)
(** * Signals as values: reading, writing, round trip, independence

    The theorems on [Com_Misc_ReadSignalDataFromPdu] and
    [Com_Misc_WriteSignalDataToPdu] for every signal type and byte order, from the
    bit-level facts of [Com_Packing]. *)

From S2P Require Import Prelude.
From S2P Require Import Com_Signal.
From S2P Require Import Com_Packing.

(** Copied byte by byte. *)
Definition opaque (L : Layout) : bool :=
  bool_decide (L.(l_endian) = COM_OPAQUE) || bool_decide (L.(l_type) = COM_UINT8_N).

(** The size in bytes of the value in the caller's memory and of the words the code
    computes with; signedness. *)
Definition type_bytes (t : Com_SignalType) : nat :=
  match t with
  | COM_BOOLEAN | COM_UINT8 | COM_SINT8 => 1
  | COM_UINT16 | COM_SINT16 => 2
  | COM_UINT32 | COM_SINT32 => 4
  | COM_UINT64 | COM_SINT64 => 8
  | COM_UINT8_N | COM_UINT8_DYN => 0
  end.
Definition word_bytes (t : Com_SignalType) : nat :=
  match t with COM_UINT64 | COM_SINT64 => 8 | _ => 4 end.
Definition signed (t : Com_SignalType) : bool :=
  match t with COM_SINT8 | COM_SINT16 | COM_SINT32 | COM_SINT64 => true | _ => false end.
Definition value_bytes (L : Layout) : nat :=
  if opaque L then Z.to_nat (L.(l_size) / 8) else type_bytes L.(l_type).

(** What the generated configuration must satisfy for the routines to be defined. *)
Definition layout_ok (L : Layout) : bool :=
  (0 <=? L.(l_pos)) && (L.(l_pos) <? 2 ^ 16) &&
  if opaque L then (0 <=? L.(l_size)) && (L.(l_size) <? 2 ^ 16)
  else (1 <=? L.(l_size)) && (L.(l_size) <=? 8 * Z.of_nat (word_bytes L.(l_type))) &&
       negb (bool_decide (L.(l_type) = COM_UINT8_DYN)).

(** The bytes the routines access lie in a buffer of [len] bytes. *)
Definition accessible (len ptr : Z) (L : Layout) : bool :=
  (0 <=? ptr) &&
  if opaque L then ptr + L.(l_pos) / 8 + L.(l_size) / 8 <=? len
  else forallb (fun a => (0 <=? a) && (a <? len))
         (window (word_bytes L.(l_type)) L.(l_endian) ptr L.(l_pos) L.(l_size)).

(** The bits of the signal: how many, and where. *)
Definition bit_count (L : Layout) : Z :=
  if opaque L then 8 * (L.(l_size) / 8) else L.(l_size).
Definition bit_position (L : Layout) (k : Z) : Z :=
  if opaque L then 8 * (L.(l_pos) / 8) + k
  else signal_bit L.(l_endian) L.(l_pos) L.(l_size) k.

Section Codec.
Variable cpu : bool.

(** The [k]-th bit of the value [data] in the caller's memory. *)
Definition value_bit (L : Layout) (data : list Z) (k : Z) : bool :=
  if opaque L then bit_at data k
  else Z.testbit (le_value (cpu_order cpu (take (type_bytes L.(l_type)) data))) k.

(** [buf'] is [buf] with the bits of the signal set to [f]. *)
Definition bits_set (L : Layout) (ptr : Z) (f : Z -> bool) (buf buf' : list Z) : Prop :=
  length buf' = length buf /\ bytes buf' /\
  (forall k, 0 <= k < bit_count L -> bit_at buf' (8 * ptr + bit_position L k) = f k) /\
  (forall p, 0 <= p -> (forall k, 0 <= k < bit_count L -> p <> 8 * ptr + bit_position L k) ->
     bit_at buf' p = bit_at buf p).

(** ** Facts on layouts *)
Lemma accessible_within buf ptr L :
  opaque L = false -> accessible (Z.of_nat (length buf)) ptr L = true ->
  within buf (window (word_bytes L.(l_type)) L.(l_endian) ptr L.(l_pos) L.(l_size)).
Proof.
  unfold accessible, within. intros ->. rewrite andb_true_iff, forallb_forall. intros [_ H].
  apply List.Forall_forall. intros a Ha. specialize (H a Ha). lia.
Qed.

Lemma layout_word L :
  layout_ok L = true -> opaque L = false ->
  is_u16 L.(l_pos) /\ 1 <= L.(l_size) <= 8 * Z.of_nat (word_bytes L.(l_type)) /\
  L.(l_endian) <> COM_OPAQUE /\ (word_bytes L.(l_type) <= 8)%nat /\
  L.(l_type) <> COM_UINT8_DYN /\ L.(l_type) <> COM_UINT8_N.
Proof.
  unfold layout_ok. intros H Ho. rewrite Ho in H. unfold opaque in Ho.
  apply orb_false_iff in Ho as [?%bool_decide_eq_false ?%bool_decide_eq_false].
  rewrite !andb_true_iff, negb_true_iff, bool_decide_eq_false in H.
  split_and!; try (done || unfold in_width; lia). by destruct (l_type L); cbn; lia. all: tauto.
Qed.

Lemma shr_mask w size : 1 <= size <= w -> shr w (2 ^ w - 1) (w - size) = Some (Z.ones size).
Proof.
  intros. rewrite shr_in by lia. f_equal. replace (2 ^ w - 1) with (Z.ones w) by (rewrite Z.ones_equiv; lia).
  apply Z.bits_inj'; intros i Hi. rewrite Z.shiftr_spec by lia.
  destruct (Z.lt_ge_cases i size); [by rewrite !Z.ones_spec_low by lia | by rewrite !Z.ones_spec_high by lia].
Qed.

(** ** Opaque signals *)
Lemma opaque_parts L (buf : list Z) ptr :
  layout_ok L = true -> opaque L = true -> accessible (Z.of_nat (length buf)) ptr L = true ->
  0 <= L.(l_pos) / 8 /\ 0 <= L.(l_size) / 8 /\ 0 <= ptr /\
  ptr + L.(l_pos) / 8 + L.(l_size) / 8 <= Z.of_nat (length buf).
Proof.
  unfold layout_ok, accessible. intros H Ho Ha. rewrite Ho in *.
  split_and!; [apply Z.div_pos; lia..| lia | lia].
Qed.

(** A bit of a patched buffer. *)
Lemma bit_at_patch buf i xs p :
  0 <= i -> i + Z.of_nat (length xs) <= Z.of_nat (length buf) -> 0 <= p ->
  bit_at (patch buf (Z.to_nat i) xs) p =
    if (8 * i <=? p) && (p <? 8 * (i + Z.of_nat (length xs))) then bit_at xs (p - 8 * i)
    else bit_at buf p.
Proof.
  intros Hi Hl Hp. unfold bit_at. assert (Hq : 0 <= p / 8) by (apply Z.div_pos; lia).
  replace ((p - 8 * i) / 8) with (p / 8 - i) by (Z.div_mod_to_equations; lia).
  replace ((p - 8 * i) mod 8) with (p mod 8) by (Z.div_mod_to_equations; lia).
  assert (E1 : 8 * i <= p <-> i <= p / 8) by (Z.div_mod_to_equations; lia).
  assert (E2 : p < 8 * (i + Z.of_nat (length xs)) <-> p / 8 < i + Z.of_nat (length xs))
    by (Z.div_mod_to_equations; lia).
  destruct (Z.leb_spec (8 * i) p), (Z.ltb_spec p (8 * (i + Z.of_nat (length xs)))); cbn [andb];
    [by rewrite load_patch_in by lia | by rewrite load_patch_out by lia..].
Qed.

Lemma bit_at_segment buf i n p :
  0 <= i -> 0 <= n -> i + n <= Z.of_nat (length buf) -> 0 <= p < 8 * n ->
  bit_at (segment buf i n) p = bit_at buf (8 * i + p).
Proof.
  intros. unfold bit_at, segment. assert (Hq : 0 <= p / 8 < n) by (Z.div_mod_to_equations; lia).
  replace ((8 * i + p) / 8) with (i + p / 8) by (Z.div_mod_to_equations; lia).
  replace ((8 * i + p) mod 8) with (p mod 8) by (Z.div_mod_to_equations; lia).
  rewrite !load_spec by lia. rewrite lookup_take_lt, lookup_drop by lia.
  by replace (Z.to_nat i + Z.to_nat (p / 8))%nat with (Z.to_nat (i + p / 8)) by lia.
Qed.

Lemma segment_patch_same buf i xs :
  0 <= i -> i + Z.of_nat (length xs) <= Z.of_nat (length buf) ->
  segment (patch buf (Z.to_nat i) xs) i (Z.of_nat (length xs)) = xs.
Proof.
  intros. unfold segment. rewrite Nat2Z.id. unfold patch.
  rewrite drop_app_length' by (rewrite length_take; lia). by rewrite take_app_length.
Qed.

Lemma patch_same buf i n :
  0 <= i -> 0 <= n -> i + n <= Z.of_nat (length buf) -> patch buf (Z.to_nat i) (segment buf i n) = buf.
Proof.
  intros. unfold patch. rewrite length_segment by lia.
  rewrite (patch_split buf (Z.to_nat i) (Z.to_nat n)) at 4 by lia. by rewrite !Z2Nat.id by lia.
Qed.

Lemma write_opaque L data buf ptr :
  layout_ok L = true -> opaque L = true -> accessible (Z.of_nat (length buf)) ptr L = true ->
  bytes buf -> bytes data -> (value_bytes L <= length data)%nat ->
  exists buf', write_signal cpu data buf ptr L = Some (buf', negb (bool_decide (buf' = buf))) /\
    bits_set L ptr (value_bit L data) buf buf'.
Proof.
  intros HL Ho Ha Hb Hd Hlen. destruct (opaque_parts _ _ _ HL Ho Ha) as (Hp & Hs & Hptr & Hin).
  unfold value_bytes in Hlen. rewrite Ho in Hlen.
  unfold write_signal, Com_Misc_WriteSignalDataToPdu. fold (opaque L). rewrite Ho.
  set (q := ptr + L.(l_pos) / 8) in *. set (n := L.(l_size) / 8) in *.
  rewrite (read_bytes_in buf), read_bytes_0 by lia. cbn [mbind option_bind].
  set (new := take (Z.to_nat n) data).
  assert (Hnew : length new = Z.to_nat n) by (unfold new; rewrite length_take; lia).
  rewrite write_bytes_in by lia. cbn [mbind option_bind].
  set (buf' := patch buf (Z.to_nat q) new). exists buf'. split.
  - do 3 f_equal. apply bool_decide_ext. unfold buf'. split.
    + intros E. rewrite <- E. apply patch_same; lia.
    + intros E. rewrite <- E. replace n with (Z.of_nat (length new)) by lia.
      apply segment_patch_same; lia.
  - unfold bits_set, bit_count, bit_position, value_bit. rewrite Ho. fold n. split_and!.
    + apply length_patch. lia.
    + apply bytes_patch; unfold new; auto with mem.
    + intros k Hk. unfold buf'. rewrite bit_at_patch by lia.
      rewrite (proj2 (Z.leb_le _ _)), (proj2 (Z.ltb_lt _ _)) by lia. cbn [andb].
      replace (8 * ptr + (8 * (l_pos L / 8) + k) - 8 * q) with k by lia.
      change new with (segment data 0 n). rewrite bit_at_segment by lia. f_equal; lia.
    + intros p Hp0 Hno. unfold buf'. rewrite bit_at_patch by lia.
      destruct (Z.leb_spec (8 * q) p); [|done].
      destruct (Z.ltb_spec p (8 * (q + Z.of_nat (length new)))); [|done].
      exfalso. apply (Hno (p - 8 * q)); lia.
Qed.

(** ** Integer signals

    The eight integer types of the code as one. *)
Definition stored_value (L : Layout) (data : list Z) : Z :=
  le_value (cpu_order cpu (take (type_bytes L.(l_type)) data)).

Lemma write_integer_uniform L data buf ptr :
  layout_ok L = true -> opaque L = false -> (value_bytes L <= length data)%nat ->
  write_signal cpu data buf ptr L =
    write_pdu_data (word_bytes L.(l_type)) buf ptr L.(l_pos) L.(l_size) L.(l_endian)
      (Z.ones L.(l_size)) (Z.land (stored_value L data) (Z.ones L.(l_size))).
Proof.
  intros HL Ho Hlen. destruct (layout_word L HL Ho) as (_ & Hs & _ & _ & Hd & Hn).
  unfold value_bytes in Hlen. rewrite Ho in Hlen.
  unfold write_signal, Com_Misc_WriteSignalDataToPdu. fold (opaque L). rewrite Ho.
  unfold Com_Misc_WriteSignalDataToPdu64Bits, stored_value.
  destruct (l_type L) eqn:E; try done; cbn [type_bytes word_bytes] in *; case_bool_decide; try done;
    repeat case_bool_decide; try done; cbn [negb andb];
    rewrite load_uint_le by done; cbn [mbind option_bind];
    by rewrite shr_mask by lia.
Qed.

Definition read_value (L : Layout) (x : Z) : Z :=
  let y := Z.land x (Z.ones L.(l_size)) in
  if signed L.(l_type)
  then add_sign_bits y (bnot (8 * Z.of_nat (word_bytes L.(l_type))) (Z.shiftr (Z.ones L.(l_size)) 1))
  else y.

Lemma read_integer_uniform L buf ptr out :
  layout_ok L = true -> opaque L = false ->
  read_signal cpu buf ptr L out =
    (x ← read_pdu_data (word_bytes L.(l_type)) buf ptr L.(l_pos) L.(l_size) L.(l_endian);
     store_uint cpu (type_bytes L.(l_type)) (read_value L x) out).
Proof.
  intros HL Ho. destruct (layout_word L HL Ho) as (_ & Hs & _ & _ & Hd & Hn).
  unfold read_signal, Com_Misc_ReadSignalDataFromPdu. fold (opaque L). rewrite Ho.
  unfold Com_Misc_ReadSignalDataFromPdu64Bits, read_value, cut.
  destruct (l_type L) eqn:E; try done; cbn [type_bytes word_bytes signed] in *; case_bool_decide; try done;
    repeat case_bool_decide; try done; cbn [negb andb]; through;
    rewrite shr_mask by lia; done.
Qed.

(** Sign extension from the signal's size to the word. *)
Definition extended_bit (L : Layout) (f : Z -> bool) (k : Z) : bool :=
  if k <? L.(l_size) then f k else signed L.(l_type) && f (L.(l_size) - 1).

Lemma land_positive y s w :
  1 <= s <= w -> in_width s y ->
  (0 <? Z.land y (bnot w (Z.shiftr (Z.ones s) 1))) = Z.testbit y (s - 1).
Proof.
  intros Hs Hy.
  assert (E : Z.land y (bnot w (Z.shiftr (Z.ones s) 1)) = Z.land y (2 ^ (s - 1))).
  { apply Z.bits_inj'; intros i Hi. unfold bnot. rewrite !Z.land_spec, testbit_mod_pow2 by lia.
    rewrite Z.lnot_spec, Z.shiftr_spec, Z.pow2_bits_eqb by lia.
    destruct (Z.lt_ge_cases i s); [|by rewrite (testbit_high s y) by (done || lia)].
    rewrite (proj2 (Z.ltb_lt _ _)) by lia. cbn [andb]. f_equal.
    destruct (Z.eqb_spec (s - 1) i); [by rewrite Z.ones_spec_high by lia | by rewrite Z.ones_spec_low by lia]. }
  rewrite E. pose proof (land_pow2_eqb y (s - 1) ltac:(lia)) as H.
  assert (0 <= Z.land y (2 ^ (s - 1))) by (apply Z.land_nonneg; left; apply Hy).
  destruct (Z.testbit y (s - 1)); cbn in H; lia.
Qed.

Lemma read_value_bit L x k :
  1 <= L.(l_size) <= 8 * Z.of_nat (word_bytes L.(l_type)) ->
  0 <= k < 8 * Z.of_nat (word_bytes L.(l_type)) ->
  Z.testbit (read_value L x) k = extended_bit L (Z.testbit x) k.
Proof.
  intros Hs Hk. unfold read_value, extended_bit. set (s := L.(l_size)) in *.
  set (w := 8 * Z.of_nat (word_bytes L.(l_type))) in *.
  assert (Hy : in_width s (Z.land x (Z.ones s)))
    by (rewrite Z.land_ones by lia; apply in_width_mod; lia).
  assert (Hyb : forall i, 0 <= i -> Z.testbit (Z.land x (Z.ones s)) i = (i <? s) && Z.testbit x i).
  { intros i Hi. rewrite Z.land_ones, testbit_mod_pow2 by lia. done. }
  destruct (signed _); cbn [andb].
  - unfold add_sign_bits. rewrite land_positive, Hyb by (done || lia).
    rewrite (proj2 (Z.ltb_lt (s - 1) s)) by lia. cbn [andb].
    destruct (Z.testbit x (s - 1)) eqn:E.
    + rewrite Z.lor_spec, Hyb by lia. unfold bnot.
      rewrite testbit_mod_pow2, Z.lnot_spec, Z.shiftr_spec, (proj2 (Z.ltb_lt k w)) by lia. cbn [andb].
      destruct (Z.ltb_spec k s); cbn [andb orb].
      * destruct (Z.eq_dec k (s - 1)) as [->|]; [rewrite E, Z.ones_spec_high by lia; done|].
        rewrite Z.ones_spec_low by lia. btauto.
      * by rewrite Z.ones_spec_high by lia.
    + rewrite Hyb by lia. by destruct (k <? s).
  - rewrite Hyb by lia. by destruct (k <? s).
Qed.

(** ** The two routines on every signal *)
Lemma value_bit_integer L data k :
  opaque L = false -> value_bit L data k = Z.testbit (stored_value L data) k.
Proof. unfold value_bit. by intros ->. Qed.

Lemma write_signal_spec L data buf ptr :
  layout_ok L = true -> accessible (Z.of_nat (length buf)) ptr L = true ->
  bytes buf -> bytes data -> (value_bytes L <= length data)%nat ->
  exists buf', write_signal cpu data buf ptr L = Some (buf', negb (bool_decide (buf' = buf))) /\
    bits_set L ptr (value_bit L data) buf buf'.
Proof.
  intros HL Ha Hb Hd Hlen. destruct (opaque L) eqn:Ho; [by apply write_opaque|].
  destruct (layout_word L HL Ho) as (Hpos & Hs & He & Hw & _).
  rewrite write_integer_uniform by done.
  edestruct write_pdu_data_spec as (buf' & ch & -> & Hset & ->);
    [exact He | exact Hw | exact Hs | exact Hpos | exact Hb | by apply accessible_within |
     rewrite Z.land_ones by lia; apply in_width_mod; lia |].
  exists buf'. split; [done|]. destruct Hset as (H1 & H2 & H3 & H4).
  unfold bits_set, bit_count, bit_position. rewrite Ho. split_and!; [done..| |done].
  intros k Hk. rewrite H3, value_bit_integer, Z.land_ones, testbit_mod_pow2 by (done || lia).
  by rewrite (proj2 (Z.ltb_lt _ _)) by lia.
Qed.

(** A value of the signal in the caller's memory is determined by its bits. *)
Lemma value_bit_inj L vs vs' :
  length vs = value_bytes L -> length vs' = value_bytes L -> bytes vs -> bytes vs' ->
  (forall k, 0 <= k < 8 * Z.of_nat (value_bytes L) -> value_bit L vs k = value_bit L vs' k) ->
  vs = vs'.
Proof.
  unfold value_bit, value_bytes. intros Hl Hl' Hb Hb' H. destruct (opaque L).
  - apply bits_ext; [lia | done | done |]. intros p Hp.
    destruct (Z.lt_ge_cases p (8 * Z.of_nat (Z.to_nat (l_size L / 8)))); [by apply H|].
    unfold bit_at. rewrite !load_out; [done | | ].
    all: rewrite ?Hl, ?Hl'; Z.div_mod_to_equations; lia.
  - rewrite !take_ge in H by lia.
    rewrite <- (cpu_order_involutive cpu vs), <- (cpu_order_involutive cpu vs'). f_equal.
    rewrite <- (le_bytes_le_value (cpu_order cpu vs)), <- (le_bytes_le_value (cpu_order cpu vs'))
      by auto with mem.
    rewrite !length_cpu_order, Hl, Hl'. f_equal.
    apply (in_width_ext (8 * Z.of_nat (type_bytes (l_type L)))); [lia | | | done].
    + rewrite <- Hl, <- (length_cpu_order cpu). apply le_value_width; auto with mem.
    + rewrite <- Hl', <- (length_cpu_order cpu). apply le_value_width; auto with mem.
Qed.

Definition buffer_bits (L : Layout) (buf : list Z) (ptr k : Z) : bool :=
  bit_at buf (8 * ptr + bit_position L k).

Lemma read_signal_spec L buf ptr out :
  layout_ok L = true -> accessible (Z.of_nat (length buf)) ptr L = true ->
  bytes buf -> (value_bytes L <= length out)%nat ->
  exists vs, read_signal cpu buf ptr L out = Some (patch out 0 vs) /\
    length vs = value_bytes L /\ bytes vs /\
    forall k, 0 <= k < 8 * Z.of_nat (value_bytes L) ->
      value_bit L vs k = extended_bit L (buffer_bits L buf ptr) k.
Proof.
  intros HL Ha Hb Hlen. unfold value_bytes, value_bit in *. destruct (opaque L) eqn:Ho.
  - destruct (opaque_parts _ _ _ HL Ho Ha) as (Hp & Hs & Hptr & Hin).
    unfold read_signal, Com_Misc_ReadSignalDataFromPdu. fold (opaque L). rewrite Ho.
    rewrite read_bytes_in by lia. cbn [mbind option_bind].
    rewrite write_bytes_in by (rewrite ?length_segment; lia). eexists. split; [done|].
    split_and!; [rewrite length_segment; lia | auto with mem |].
    intros k Hk. rewrite bit_at_segment by lia. unfold extended_bit, buffer_bits, bit_position.
    rewrite Ho, (proj2 (Z.ltb_lt _ _)) by (Z.div_mod_to_equations; lia). f_equal. lia.
  - destruct (layout_word L HL Ho) as (Hpos & Hs & He & Hw & _).
    rewrite read_integer_uniform by done.
    edestruct read_pdu_data_spec as (x & -> & Hx);
      [exact He | exact Hw | exact Hs | exact Hpos | exact Hb | by apply accessible_within |].
    cbn [mbind option_bind]. unfold store_uint.
    rewrite write_bytes_in by (rewrite ?length_cpu_order, ?length_le_bytes; lia).
    eexists. split; [done|].
    split_and!; [by rewrite length_cpu_order, length_le_bytes | auto with mem |].
    intros k Hk. rewrite take_ge, cpu_order_involutive by (rewrite length_cpu_order, length_le_bytes; lia).
    assert (Htw : (type_bytes (l_type L) <= word_bytes (l_type L))%nat) by (destruct (l_type L); cbn; lia).
    rewrite le_value_le_bytes, testbit_mod_pow2, (proj2 (Z.ltb_lt _ _)) by lia. cbn [andb].
    rewrite read_value_bit by lia. unfold extended_bit, buffer_bits, bit_position. rewrite Ho.
    destruct (Z.ltb_spec k (l_size L)); rewrite Hx by lia; done.
Qed.

(** Reading depends on the signal's bits only. *)
Lemma read_signal_ext L buf buf' ptr out :
  layout_ok L = true -> accessible (Z.of_nat (length buf)) ptr L = true -> length buf' = length buf ->
  bytes buf -> bytes buf' -> (value_bytes L <= length out)%nat ->
  (forall k, 0 <= k < bit_count L -> buffer_bits L buf' ptr k = buffer_bits L buf ptr k) ->
  read_signal cpu buf' ptr L out = read_signal cpu buf ptr L out.
Proof.
  intros HL Ha Hl Hb Hb' Hlen H.
  destruct (read_signal_spec L buf ptr out) as (vs & -> & Hvl & Hvb & Hv); try done.
  destruct (read_signal_spec L buf' ptr out) as (vs' & -> & Hvl' & Hvb' & Hv'); try done; [by rewrite Hl|].
  do 2 f_equal. apply (value_bit_inj L); try done. intros k Hk. rewrite Hv, Hv' by done.
  unfold extended_bit. unfold bit_count, value_bytes in *. destruct (opaque L) eqn:Ho.
  - rewrite (proj2 (Z.ltb_lt _ _)) by (Z.div_mod_to_equations; lia). apply H. lia.
  - destruct (layout_word L HL Ho) as (_ & Hs & _).
    destruct (Z.ltb_spec k (l_size L)); rewrite H by lia; done.
Qed.
End Codec.

Lemma bytes_dec l : forallb (fun b => (0 <=? b) && (b <? 256)) l = true -> bytes l.
Proof.
  rewrite forallb_forall. intros H. apply List.Forall_forall. intros b Hb. specialize (H b Hb).
  unfold in_width. lia.
Qed.

(** A value the signal can carry: sign or zero extension from the signal's size. *)
Definition representable cpu (L : Layout) (data : list Z) : bool :=
  forallb (fun k => Bool.eqb (value_bit cpu L data k) (extended_bit L (value_bit cpu L data) k))
    (Z.of_nat <$> seq 0 (8 * value_bytes L)).

(** No bit in common. *)
Definition disjoint (ptr1 : Z) (L1 : Layout) (ptr2 : Z) (L2 : Layout) : bool :=
  forallb (fun i => forallb (fun j =>
    negb (8 * ptr1 + bit_position L1 (Z.of_nat i) =? 8 * ptr2 + bit_position L2 (Z.of_nat j)))
    (seq 0 (Z.to_nat (bit_count L2)))) (seq 0 (Z.to_nat (bit_count L1))).

Lemma representable_spec cpu L data k :
  representable cpu L data = true -> 0 <= k < 8 * Z.of_nat (value_bytes L) ->
  extended_bit L (value_bit cpu L data) k = value_bit cpu L data k.
Proof.
  unfold representable. rewrite forallb_forall. intros H Hk. symmetry. apply Bool.eqb_prop, H.
  rewrite <- list_elem_of_In. apply list_elem_of_fmap. exists (Z.to_nat k). split; [lia|].
  apply elem_of_seq. lia.
Qed.

Lemma disjoint_spec ptr1 L1 ptr2 L2 i j :
  disjoint ptr1 L1 ptr2 L2 = true -> 0 <= i < bit_count L1 -> 0 <= j < bit_count L2 ->
  8 * ptr1 + bit_position L1 i <> 8 * ptr2 + bit_position L2 j.
Proof.
  unfold disjoint. rewrite forallb_forall. intros H Hi Hj.
  specialize (H (Z.to_nat i)). rewrite forallb_forall in H.
  specialize (H ltac:(apply in_seq; lia) (Z.to_nat j) ltac:(apply in_seq; lia)).
  rewrite !Z2Nat.id in H by lia. lia.
Qed.

Lemma bit_position_nonneg L k :
  layout_ok L = true -> 0 <= k < bit_count L -> 0 <= bit_position L k.
Proof.
  intros HL Hk. unfold bit_position, bit_count in *. destruct (opaque L) eqn:Ho.
  - unfold layout_ok in HL. rewrite Ho in HL. Z.div_mod_to_equations; lia.
  - destruct (layout_word L HL Ho) as (Hp & Hs & _). unfold signal_bit.
    destruct (l_endian L); [|unfold in_width in Hp; lia..].
    apply Z.lxor_nonneg. assert (0 <= Z.lxor (l_pos L) 7) by (apply Z.lxor_nonneg; in_range). lia.
Qed.

(** What a write leaves of a signal without common bits. *)
Lemma disjoint_bits L1 L2 ptr1 ptr2 f buf buf' k :
  layout_ok L2 = true -> 0 <= ptr2 -> disjoint ptr1 L1 ptr2 L2 = true ->
  bits_set L1 ptr1 f buf buf' -> 0 <= k < bit_count L2 ->
  buffer_bits L2 buf' ptr2 k = buffer_bits L2 buf ptr2 k.
Proof.
  intros HL Hptr Hd (_ & _ & _ & Hout) Hk. apply Hout.
  - pose proof (bit_position_nonneg L2 k HL Hk). lia.
  - intros i Hi E. by apply (disjoint_spec _ _ _ _ i k Hd Hi Hk).
Qed.

Lemma bits_set_commute L1 L2 ptr1 ptr2 f1 f2 buf buf1 buf2 buf12 buf21 :
  layout_ok L1 = true -> layout_ok L2 = true -> 0 <= ptr1 -> 0 <= ptr2 ->
  disjoint ptr1 L1 ptr2 L2 = true -> disjoint ptr2 L2 ptr1 L1 = true ->
  bits_set L1 ptr1 f1 buf buf1 -> bits_set L2 ptr2 f2 buf1 buf12 ->
  bits_set L2 ptr2 f2 buf buf2 -> bits_set L1 ptr1 f1 buf2 buf21 -> buf21 = buf12.
Proof.
  intros HL1 HL2 Hp1 Hp2 Hd12 Hd21 S1 S12 S2 S21.
  pose proof S1 as (Hl1 & _ & Hin1 & Hout1). pose proof S12 as (Hl12 & Hb12 & Hin12 & Hout12).
  pose proof S2 as (Hl2 & _ & Hin2 & Hout2). pose proof S21 as (Hl21 & Hb21 & Hin21 & Hout21).
  apply bits_ext; [congruence | done | done |]. intros p Hp.
  assert (Hdec : forall ptr L, (exists k, 0 <= k < bit_count L /\ p = 8 * ptr + bit_position L k) \/
                               forall k, 0 <= k < bit_count L -> p <> 8 * ptr + bit_position L k).
  { intros ptr L. destruct (List.existsb (fun k => p =? 8 * ptr + bit_position L (Z.of_nat k))
      (seq 0 (Z.to_nat (bit_count L)))) eqn:E.
    - apply existsb_exists in E as (k & Hk%in_seq & E). left. exists (Z.of_nat k). lia.
    - right. intros k Hk ->. rewrite <- not_true_iff_false in E. apply E, existsb_exists.
      exists (Z.to_nat k). rewrite in_seq, Z2Nat.id by lia. split; [lia | apply Z.eqb_refl]. }
  destruct (Hdec ptr1 L1) as [(k & Hk & ->)|Hn1]; [|destruct (Hdec ptr2 L2) as [(k & Hk & ->)|Hn2]].
  - rewrite Hin21 by done. rewrite <- Hin1 by done. symmetry. by apply (disjoint_bits L2 L1 ptr2 ptr1 f2).
  - rewrite Hin12 by done. rewrite <- Hin2 by done. by apply (disjoint_bits L1 L2 ptr1 ptr2 f1).
  - by rewrite Hout21, Hout12, Hout1, Hout2.
Qed.

Lemma accessible_ptr len ptr L : accessible len ptr L = true -> 0 <= ptr.
Proof. unfold accessible. rewrite andb_true_iff. lia. Qed.

(**  Writing a signal to an I-PDU sets exactly the bits of the signal: the [k]-th
    bit of the value is at the [k]-th bit position AUTOSAR defines for the signal's
    byte order, every other bit of the whole buffer is unchanged, and
    [*dataChanged] says whether the buffer changed. *)
Theorem com_write_signal_exact cpu L data buf ptr :
  layout_ok L = true -> accessible (Z.of_nat (length buf)) ptr L = true ->
  bytes buf -> bytes data -> (value_bytes L <= length data)%nat ->
  exists buf', write_signal cpu data buf ptr L = Some (buf', negb (bool_decide (buf' = buf))) /\
    bits_set L ptr (value_bit cpu L data) buf buf'.
Proof. apply write_signal_spec. Qed.

Definition layout_be := Build_Layout COM_SINT16 COM_BIG_ENDIAN 19 12.
Definition layout_le := Build_Layout COM_UINT64 COM_LITTLE_ENDIAN 29 40.
Definition buffer16 : list Z := replicate 16 0xA5.

Ltac byte_list := apply bytes_dec; vm_compute; reflexivity.

Lemma com_write_signal_exact_witness :
  exists buf', write_signal false [0x34; 0xFA] buffer16 4 layout_be =
      Some (buf', negb (bool_decide (buf' = buffer16))) /\
    bits_set layout_be 4 (value_bit false layout_be [0x34; 0xFA]) buffer16 buf'.
Proof.
  apply (com_write_signal_exact false layout_be [0x34; 0xFA] buffer16 4);
    [vm_compute; reflexivity | vm_compute; reflexivity | byte_list | byte_list | vm_compute; lia].
Defined.

(** C17.  Round trip: a value the signal can carry (it fits into the signal's bits, for
    a signed type by sign extension) is read back as it was written, for every
    signal type, both byte orders and both byte orders of the processor. *)
Theorem com_signal_roundtrip cpu L data buf ptr out :
  layout_ok L = true -> accessible (Z.of_nat (length buf)) ptr L = true ->
  bytes buf -> bytes data -> (value_bytes L <= length data)%nat -> (value_bytes L <= length out)%nat ->
  representable cpu L data = true ->
  exists buf' ch, write_signal cpu data buf ptr L = Some (buf', ch) /\
    read_signal cpu buf' ptr L out = Some (patch out 0 (take (value_bytes L) data)).
Proof.
  intros HL Ha Hb Hd Hlen Hout Hrep.
  destruct (write_signal_spec cpu L data buf ptr) as (buf' & -> & Hl & Hb' & Hset & _); try done.
  do 2 eexists. split; [done|].
  destruct (read_signal_spec cpu L buf' ptr out) as (vs & -> & Hvl & Hvb & Hv); try done;
    [by rewrite Hl|].
  do 2 f_equal. apply (value_bit_inj cpu L); try (done || auto with mem).
  { rewrite length_take. lia. }
  intros k Hk. rewrite Hv by done.
  assert (Htake : forall j, 0 <= j < 8 * Z.of_nat (value_bytes L) ->
    value_bit cpu L (take (value_bytes L) data) j = value_bit cpu L data j).
  { intros j Hj. unfold value_bit, value_bytes in *. destruct (opaque L).
    - change (take (Z.to_nat (l_size L / 8)) data) with (segment data 0 (l_size L / 8)).
      apply bit_at_segment; lia.
    - by rewrite take_take, Nat.min_id. }
  rewrite Htake, <- representable_spec by done. unfold extended_bit.
  unfold bit_count, value_bytes, buffer_bits in *. destruct (opaque L) eqn:Ho.
  - rewrite (proj2 (Z.ltb_lt _ _)) by (Z.div_mod_to_equations; lia). apply Hset. lia.
  - destruct (layout_word L HL Ho) as (_ & Hs & _).
    destruct (Z.ltb_spec k (l_size L)); rewrite Hset by lia; done.
Qed.

Lemma com_signal_roundtrip_witness :
  exists buf' ch, write_signal true [0xFA; 0x34] buffer16 4 layout_be = Some (buf', ch) /\
    read_signal true buf' 4 layout_be [0; 0; 9] = Some (patch [0; 0; 9] 0 [0xFA; 0x34]).
Proof.
  apply (com_signal_roundtrip true layout_be [0xFA; 0x34] buffer16 4 [0; 0; 9]);
    [vm_compute; reflexivity | vm_compute; reflexivity | byte_list | byte_list | vm_compute; lia | vm_compute; lia
    | vm_compute; reflexivity].
Defined.

(** C18.  Signals do not disturb one another: writing a signal leaves what is read from
    every signal without common bits as it was, although the code loads and stores
    whole words around the signal; two such writes commute. *)
Theorem com_signals_independent cpu L1 L2 data1 data2 buf ptr1 ptr2 out :
  layout_ok L1 = true -> layout_ok L2 = true ->
  accessible (Z.of_nat (length buf)) ptr1 L1 = true -> accessible (Z.of_nat (length buf)) ptr2 L2 = true ->
  disjoint ptr1 L1 ptr2 L2 = true -> disjoint ptr2 L2 ptr1 L1 = true ->
  bytes buf -> bytes data1 -> bytes data2 ->
  (value_bytes L1 <= length data1)%nat -> (value_bytes L2 <= length data2)%nat ->
  (value_bytes L2 <= length out)%nat ->
  exists buf1 buf2 buf12 c1 c2 c1' c2',
    write_signal cpu data1 buf ptr1 L1 = Some (buf1, c1) /\
    read_signal cpu buf1 ptr2 L2 out = read_signal cpu buf ptr2 L2 out /\
    write_signal cpu data2 buf ptr2 L2 = Some (buf2, c2) /\
    write_signal cpu data2 buf1 ptr2 L2 = Some (buf12, c2') /\
    write_signal cpu data1 buf2 ptr1 L1 = Some (buf12, c1').
Proof.
  intros HL1 HL2 Ha1 Ha2 Hd12 Hd21 Hb Hdb1 Hdb2 Hlen1 Hlen2 Hout.
  pose proof (accessible_ptr _ _ _ Ha1). pose proof (accessible_ptr _ _ _ Ha2).
  destruct (write_signal_spec cpu L1 data1 buf ptr1) as (buf1 & E1 & S1); try done.
  destruct (write_signal_spec cpu L2 data2 buf ptr2) as (buf2 & E2 & S2); try done.
  pose proof S1 as (Hl1 & Hb1 & _). pose proof S2 as (Hl2 & Hb2 & _).
  destruct (write_signal_spec cpu L2 data2 buf1 ptr2) as (buf12 & E12 & S12); try done; [by rewrite Hl1|].
  destruct (write_signal_spec cpu L1 data1 buf2 ptr1) as (buf21 & E21 & S21); try done; [by rewrite Hl2|].
  assert (buf21 = buf12) as ->
    by (eapply (bits_set_commute L1 L2 ptr1 ptr2); [done..|exact S1|exact S12|exact S2|exact S21]).
  exists buf1, buf2, buf12. do 4 eexists. split_and!; try done.
  apply read_signal_ext; try done. intros k Hk. by apply (disjoint_bits L1 L2 ptr1 ptr2 (value_bit cpu L1 data1)).
Qed.

Lemma com_signals_independent_witness :
  exists buf1 buf2 buf12 c1 c2 c1' c2',
    write_signal false [0x34; 0xFA] buffer16 4 layout_be = Some (buf1, c1) /\
    read_signal false buf1 5 layout_le (replicate 8 0) = read_signal false buffer16 5 layout_le (replicate 8 0) /\
    write_signal false [1; 2; 3; 4; 5; 0; 0; 0] buffer16 5 layout_le = Some (buf2, c2) /\
    write_signal false [1; 2; 3; 4; 5; 0; 0; 0] buf1 5 layout_le = Some (buf12, c2') /\
    write_signal false [0x34; 0xFA] buf2 4 layout_be = Some (buf12, c1').
Proof.
  apply (com_signals_independent false layout_be layout_le [0x34; 0xFA] [1; 2; 3; 4; 5; 0; 0; 0] buffer16 4 5);
    first [vm_compute; reflexivity | byte_list | vm_compute; lia].
Defined.

(** C30.  Bounds of the array: the code addresses a big-endian signal through the whole word
    that ends in the byte of its least significant bit.  For the I-PDU at the start
    of [Com_Arc_Buffer] (the first one [Com_Init] lays out) every integer signal
    whose least significant bit lies in one of the first three bytes (seven for a 64-bit
    type) makes reading and writing access memory in front of the array. *)
Theorem com_big_endian_underflow cpu L data buf out :
  layout_ok L = true -> opaque L = false -> L.(l_endian) = COM_BIG_ENDIAN ->
  lsbIndex_big L.(l_pos) L.(l_size) / 8 < Z.of_nat (word_bytes L.(l_type)) - 1 ->
  read_signal cpu buf 0 L out = None /\ write_signal cpu data buf 0 L = None.
Proof.
  intros HL Ho He Hlsb.
  assert (Hg : forall w, gather w buf (0 + lsbIndex_big (l_pos L) (l_size L) / 8 -
      (Z.of_nat (word_bytes (l_type L)) - 1)) (upwards (word_bytes (l_type L))) 0 = None).
  { intros w. destruct (word_bytes (l_type L)) as [|n]; [cbn in Hlsb|].
    - assert (0 <= lsb COM_BIG_ENDIAN (l_pos L) (l_size L)) as H0.
      { apply lsb_nonneg. unfold layout_ok in HL. lia. }
      cbn [lsb] in H0. exfalso. Z.div_mod_to_equations; lia.
    - unfold upwards. cbn [seq fmap list_fmap gather]. unfold load.
      by rewrite (proj2 (Z.leb_gt _ _)) by lia. }
  split.
  - rewrite read_integer_uniform by done. rewrite He. unfold read_pdu_data. cbv zeta. by rewrite Hg.
  - unfold write_signal, Com_Misc_WriteSignalDataToPdu. fold (opaque L). rewrite Ho.
    unfold Com_Misc_WriteSignalDataToPdu64Bits, write_pdu_data. rewrite He. cbv zeta.
    destruct (l_type L); cbn [word_bytes] in Hg; repeat (case_bool_decide; try done); cbn [negb andb];
      try done; (destruct (load_uint _ _ _); [cbn [mbind option_bind] | done]);
      (destruct (shr _ _ _); [cbn [mbind option_bind] | done]); by rewrite Hg.
Qed.

Lemma com_big_endian_underflow_witness :
  read_signal false buffer16 0 (Build_Layout COM_SINT16 COM_BIG_ENDIAN 11 12) [0; 0] = None /\
  write_signal false [0x34; 0xFA] buffer16 0 (Build_Layout COM_SINT16 COM_BIG_ENDIAN 11 12) = None.
Proof. apply com_big_endian_underflow; vm_compute; reflexivity. Defined.
