(* ===== verification/Com_Types.v ===== *)
(** * Data of the Com module

    The types of [communication/Com/inc/Com_Types.h], [Com.h], [src/Com_Internal.h] and
    [src/Com_Arc_Types.h]: the configuration, the runtime data of I-PDUs and signals,
    the static data of the module as the record [Com_State], and the modules around
    Com as the classes [Com_Cfg] and [Com_Env].  The configuration's arrays that end
    with a null pointer or an end mark are lists; the pointers in them that lead to
    configuration structures are those structures. *)

From S2P Require Import Prelude.
From S2P Require Import Os_Irq.
From S2P Require Import ComStack.
From S2P Require Import Com_Signal.

(** ** Com.h, Com_Internal.h *)
Definition COM_BUSY := 0x81.
Definition COM_SERVICE_NOT_AVAILABLE := 0x80.
Definition COM_E_PARAM := 0x01.
Definition COM_E_UNINIT := 0x02.
Definition COM_E_PARAM_POINTER := 0x03.
Definition COM_INIT_ID := 0x01.
Definition COM_DEINIT_ID := 0x02.
Definition COM_IPDUGROUPCONTROL_ID := 0x03.
Definition COM_RECEPTIONDMCONTROL_ID := 0x06.
Definition COM_SENDSIGNAL_ID := 0x0A.
Definition COM_RECEIVESIGNAL_ID := 0x0B.
Definition COM_UPDATESHADOWSIGNAL_ID := 0x0C.
Definition COM_SENDSIGNALGROUP_ID := 0x0D.
Definition COM_RECEIVESIGNALGROUP_ID := 0x0E.
Definition COM_RECEIVESHADOWSIGNAL_ID := 0x0F.
Definition COM_TRIGGERIPDUSEND_ID := 0x17.
Definition COM_MAINFUNCTIONRX_ID := 0x18.
Definition COM_MAINFUNCTIONTX_ID := 0x19.
Definition COM_MAINFUNCTIONROUTESIGNALS_ID := 0x1A.
Definition COM_CLEARIPDUGROUPVECTOR_ID := 0x1C.
Definition COM_SETIPDUGROUP_ID := 0x1D.
Definition COM_TPRXINDICATION_ID := 0x1E.
Definition COM_SENDDYNSIGNAL_ID := 0x21.
Definition COM_RECEIVEDYNSIGNAL_ID := 0x22.
Definition COM_COPYRXDATA_ID := 0x23.
Definition COM_COPYTXDATA_ID := 0x24.
Definition COM_STARTOFRECEPTION_ID := 0x25.
Definition COM_TPTXCONFIRMATION_ID := 0x26.
Definition COM_SWITCHIPDUTXMODE_ID := 0x27.
Definition COM_TXCONFIRMATION_ID := 0x40.
Definition COM_TRIGGERTRANSMIT_ID := 0x41.
Definition COM_RXINDICATION_ID := 0x42.

Inductive ComTxTriggerStatusType :=
  COM_TX_TRIGGERED | COM_TX_MIN_DELAY_NOT_FULFILLED | COM_TX_NOT_TRIGGERED.

(** ** Com_Types.h *)
Definition COM_NO_FUNCTION_CALLOUT := 0xFFFFFFFF.
Definition NO_PDU_REFERENCE := 0xFFFF.

Inductive ComTxIPduClearUpdateBitType := CONFIRMATION | TRANSMIT | TRIGGERTRANSMIT.
Inductive Com_StatusType := COM_UNINIT | COM_INIT.
Inductive Com_IPduSignalProcessingMode := COM_IMMEDIATE | COM_DEFERRED.
Inductive Com_IPduDirection := COM_RECEIVE | COM_SEND.
Inductive ComTransferPropertyType :=
| COM_PENDING | COM_TRIGGERED | COM_TRIGGERED_WITHOUT_REPETITION
| COM_TRIGGERED_ON_CHANGE_WITHOUT_REPETITION | COM_TRIGGERED_ON_CHANGE.
Inductive ComTxModeModeType := COM_DIRECT | COM_MIXED | COM_NONE | COM_PERIODIC.
Inductive ComRxDataTimeoutAction_type :=
  COM_TIMEOUT_DATA_ACTION_NONE | COM_TIMEOUT_DATA_ACTION_REPLACE.
Inductive ComGwSignalRef_type :=
| COM_SIGNAL_REFERENCE | COM_GROUP_SIGNAL_REFERENCE | COM_SIGNAL_GROUP_REFERENCE
| GATEWAY_SIGNAL_DESCRIPTION.

#[export] Instance ComTxIPduClearUpdateBitType_eq : EqDecision ComTxIPduClearUpdateBitType.
Proof. solve_decision. Defined.
#[export] Instance Com_StatusType_eq : EqDecision Com_StatusType.
Proof. solve_decision. Defined.
#[export] Instance Com_IPduSignalProcessingMode_eq : EqDecision Com_IPduSignalProcessingMode.
Proof. solve_decision. Defined.
#[export] Instance Com_IPduDirection_eq : EqDecision Com_IPduDirection.
Proof. solve_decision. Defined.
#[export] Instance ComTransferPropertyType_eq : EqDecision ComTransferPropertyType.
Proof. solve_decision. Defined.
#[export] Instance ComTxModeModeType_eq : EqDecision ComTxModeModeType.
Proof. solve_decision. Defined.
#[export] Instance ComRxDataTimeoutAction_type_eq : EqDecision ComRxDataTimeoutAction_type.
Proof. solve_decision. Defined.
#[export] Instance ComGwSignalRef_type_eq : EqDecision ComGwSignalRef_type.
Proof. solve_decision. Defined.
#[export] Instance ComTxTriggerStatusType_eq : EqDecision ComTxTriggerStatusType.
Proof. solve_decision. Defined.

(** [SignalTypeToSize(type, length)] *)
Definition SignalTypeToSize (t : Com_SignalType) (length : Z) : Z :=
  match t with
  | COM_UINT8 => 1 | COM_UINT16 => 2 | COM_UINT32 => 4 | COM_UINT64 => 8
  | COM_UINT8_N => length
  | COM_SINT8 => 1 | COM_SINT16 => 2 | COM_SINT32 => 4 | COM_SINT64 => 8
  | COM_BOOLEAN | COM_UINT8_DYN => 1
  end.

(** The members [ComBitPosition], [ComBitSize], [ComSignalEndianess] and
    [ComSignalType] of the configuration structures are a [Layout]; members that the
    module does not read are left out. *)
Record ComGroupSignal_type := {
  Grp_layout : Layout;
  Grp_ComHandleId : Z;
  Grp_ComSignalInitValue : list Z;
  ComSigGrpHandleId : Z
}.

Record ComSignal_type := {
  Sig_layout : Layout;
  ComEndBitPosition : Z;
  ComFirstTimeoutFactor : Z;
  ComHandleId : Z;
  ComNotification : Z;
  ComRxDataTimeoutAction : ComRxDataTimeoutAction_type;
  ComSignalInitValue : list Z;
  ComTimeoutFactor : Z;
  ComTimeoutNotification : Z;
  ComTransferProperty : ComTransferPropertyType;
  ComUpdateBitPosition : Z;
  ComSignalArcUseUpdateBit : bool;
  Com_Arc_IsSignalGroup : bool;
  ComGroupSignal : option (list ComGroupSignal_type);
  Com_Arc_ShadowBuffer_Mask : list Z;
  ComIPduHandleId : Z;
  ComOsekNmNetId : Z;
  ComOsekNmNodeId : Z;
  ComSigGwRoutingReq : bool
}.

Record ComTxMode_type := {
  ComTxModeMode : ComTxModeModeType;
  ComTxModeNumberOfRepetitions : Z;
  ComTxModeRepetitionPeriodFactor : Z;
  ComTxModeTimeOffsetFactor : Z;
  ComTxModeTimePeriodFactor : Z
}.

Record ComTxIPdu_type := {
  ComTxIPduMinimumDelayFactor : Z;
  ComTxIPduClearUpdateBit : ComTxIPduClearUpdateBitType;
  ComTxIPduUnusedAreasDefault : Z;
  ComTxModeTrue : ComTxMode_type;
  ComTxModeFalse : ComTxMode_type
}.

Record ComIPduCounter_type := {
  ComIPduCntrRange : Z;
  ComIPduCntrStartPos : Z;
  ComIPduCntrThrshldStep : Z;
  ComIPduCntErrNotification : Z;
  ComIPduCntrIndex : Z
}.

Record ComIPdu_type := {
  ComRxIPduCallout : Z;
  ComTxIPduCallout : Z;
  ComTriggerTransmitIPduCallout : Z;
  ArcIPduOutgoingId : Z;
  ComIPduSignalProcessing : Com_IPduSignalProcessingMode;
  ComIPduSize : Z;
  ComIPduDirection : Com_IPduDirection;
  ComIPduGroupRefs : list Z;
  ComTxIPdu : ComTxIPdu_type;
  ComIPduSignalRef : option (list ComSignal_type);
  ComIPduDynSignalRef : option ComSignal_type;
  ComIpduCounterRef : option ComIPduCounter_type;
  ComIPduGwRoutingReq : bool;
  ComIPduGwMapSigDescHandle : option (list Z)
}.

Record ComGwSrcDesc_type := {
  Src_layout : Layout;
  Src_ComUpdateBitPosition : Z;
  Src_ComSignalArcUseUpdateBit : bool;
  Src_ComIPduHandleId : Z
}.

Record ComGwDestnDesc_type := {
  Dst_layout : Layout;
  Dst_ComSignalInitValue : list Z;
  Dst_ComUpdateBitPosition : Z;
  Dst_ComSignalArcUseUpdateBit : bool;
  Dst_ComTransferProperty : ComTransferPropertyType;
  Dst_ComIPduHandleId : Z
}.

Record ComGwDestn_type := {
  ComGwDestinationSignalRef : ComGwSignalRef_type;
  ComGwDestinationSignalHandle : Z
}.

Record ComGwMapping_type := {
  ComGwSourceSignalRef : ComGwSignalRef_type;
  ComGwSourceSignalHandle : Z;
  ComGwDestinationRef : list ComGwDestn_type;
  ComGwNoOfDesitnationRoutes : Z
}.

Record Com_ConfigType := {
  ComNofIPdus : Z;
  ComNofSignals : Z;
  ComNofGroupSignals : Z;
  ComGwMappingRef : list ComGwMapping_type;
  ComIPdu : list ComIPdu_type;
  ComSignal : list ComSignal_type;
  Cfg_ComGroupSignal : list ComGroupSignal_type;
  ComGwSrcDesc : list ComGwSrcDesc_type;
  ComGwDestnDesc : list ComGwDestnDesc_type
}.

(** ** Com_Arc_Types.h *)
Record Com_Arc_Signal_type := {
  Com_Arc_ShadowBuffer : option Z;
  Com_Arc_DeadlineCounter : Z;
  ComSignalUpdated : bool;
  ComSignalUpdatedGwRouting : bool;
  ComSignalRoutingReq : bool
}.

Record Com_Arc_GroupSignal_type := { Arc_Grp_ShadowBuffer : option Z }.

Record Com_Arc_TxIPduTimer_type := {
  ComTxModeRepetitionPeriodTimer : Z;
  ComTxIPduMinimumDelayTimer : Z;
  ComTxModeTimePeriodTimer : Z;
  ComTxDMTimer : Z;
  ComTxIPduNumberOfRepetitionsLeft : Z;
  ComTxIPduNumberOfTxConfirmations : Z
}.

Record Com_Arc_IPdu_type := {
  ComIPduDataPtr : option Z;
  ComIPduDeferredDataPtr : option Z;
  Com_Arc_TxIPduTimers : Com_Arc_TxIPduTimer_type;
  Com_Arc_TxDeadlineCounter : Z;
  Com_Arc_DynSignalLength : Z;
  Com_Arc_IpduStarted : bool;
  Com_Arc_IpduRxDMControl : bool;
  Com_Arc_IpduTxMode : bool
}.

Record Com_Arc_GwSrcDesc_type := {
  Src_ComSignalUpdatedGwRouting : bool;
  Src_ComSignalRoutingReq : bool
}.

(** Com_Internal.h *)
Record Com_BufferPduStateType := { currentPosition : Z; locked : bool }.

(** *** Assignments to fields *)
Definition set_ComTxModeRepetitionPeriodTimer v (r : Com_Arc_TxIPduTimer_type) :=
  Build_Com_Arc_TxIPduTimer_type v r.(ComTxIPduMinimumDelayTimer) r.(ComTxModeTimePeriodTimer)
    r.(ComTxDMTimer) r.(ComTxIPduNumberOfRepetitionsLeft) r.(ComTxIPduNumberOfTxConfirmations).
Definition set_ComTxIPduMinimumDelayTimer v (r : Com_Arc_TxIPduTimer_type) :=
  Build_Com_Arc_TxIPduTimer_type r.(ComTxModeRepetitionPeriodTimer) v
    r.(ComTxModeTimePeriodTimer) r.(ComTxDMTimer) r.(ComTxIPduNumberOfRepetitionsLeft)
    r.(ComTxIPduNumberOfTxConfirmations).
Definition set_ComTxModeTimePeriodTimer v (r : Com_Arc_TxIPduTimer_type) :=
  Build_Com_Arc_TxIPduTimer_type r.(ComTxModeRepetitionPeriodTimer)
    r.(ComTxIPduMinimumDelayTimer) v r.(ComTxDMTimer) r.(ComTxIPduNumberOfRepetitionsLeft)
    r.(ComTxIPduNumberOfTxConfirmations).
Definition set_ComTxDMTimer v (r : Com_Arc_TxIPduTimer_type) :=
  Build_Com_Arc_TxIPduTimer_type r.(ComTxModeRepetitionPeriodTimer)
    r.(ComTxIPduMinimumDelayTimer) r.(ComTxModeTimePeriodTimer) v
    r.(ComTxIPduNumberOfRepetitionsLeft) r.(ComTxIPduNumberOfTxConfirmations).
Definition set_ComTxIPduNumberOfRepetitionsLeft v (r : Com_Arc_TxIPduTimer_type) :=
  Build_Com_Arc_TxIPduTimer_type r.(ComTxModeRepetitionPeriodTimer)
    r.(ComTxIPduMinimumDelayTimer) r.(ComTxModeTimePeriodTimer) r.(ComTxDMTimer) v
    r.(ComTxIPduNumberOfTxConfirmations).
Definition set_ComTxIPduNumberOfTxConfirmations v (r : Com_Arc_TxIPduTimer_type) :=
  Build_Com_Arc_TxIPduTimer_type r.(ComTxModeRepetitionPeriodTimer)
    r.(ComTxIPduMinimumDelayTimer) r.(ComTxModeTimePeriodTimer) r.(ComTxDMTimer)
    r.(ComTxIPduNumberOfRepetitionsLeft) v.
Definition set_ComIPduDataPtr v (r : Com_Arc_IPdu_type) :=
  Build_Com_Arc_IPdu_type v r.(ComIPduDeferredDataPtr) r.(Com_Arc_TxIPduTimers)
    r.(Com_Arc_TxDeadlineCounter) r.(Com_Arc_DynSignalLength) r.(Com_Arc_IpduStarted)
    r.(Com_Arc_IpduRxDMControl) r.(Com_Arc_IpduTxMode).
Definition set_ComIPduDeferredDataPtr v (r : Com_Arc_IPdu_type) :=
  Build_Com_Arc_IPdu_type r.(ComIPduDataPtr) v r.(Com_Arc_TxIPduTimers)
    r.(Com_Arc_TxDeadlineCounter) r.(Com_Arc_DynSignalLength) r.(Com_Arc_IpduStarted)
    r.(Com_Arc_IpduRxDMControl) r.(Com_Arc_IpduTxMode).
Definition set_Com_Arc_TxIPduTimers v (r : Com_Arc_IPdu_type) :=
  Build_Com_Arc_IPdu_type r.(ComIPduDataPtr) r.(ComIPduDeferredDataPtr) v
    r.(Com_Arc_TxDeadlineCounter) r.(Com_Arc_DynSignalLength) r.(Com_Arc_IpduStarted)
    r.(Com_Arc_IpduRxDMControl) r.(Com_Arc_IpduTxMode).
Definition set_Com_Arc_TxDeadlineCounter v (r : Com_Arc_IPdu_type) :=
  Build_Com_Arc_IPdu_type r.(ComIPduDataPtr) r.(ComIPduDeferredDataPtr)
    r.(Com_Arc_TxIPduTimers) v r.(Com_Arc_DynSignalLength) r.(Com_Arc_IpduStarted)
    r.(Com_Arc_IpduRxDMControl) r.(Com_Arc_IpduTxMode).
Definition set_Com_Arc_DynSignalLength v (r : Com_Arc_IPdu_type) :=
  Build_Com_Arc_IPdu_type r.(ComIPduDataPtr) r.(ComIPduDeferredDataPtr)
    r.(Com_Arc_TxIPduTimers) r.(Com_Arc_TxDeadlineCounter) v r.(Com_Arc_IpduStarted)
    r.(Com_Arc_IpduRxDMControl) r.(Com_Arc_IpduTxMode).
Definition set_Com_Arc_IpduStarted v (r : Com_Arc_IPdu_type) :=
  Build_Com_Arc_IPdu_type r.(ComIPduDataPtr) r.(ComIPduDeferredDataPtr)
    r.(Com_Arc_TxIPduTimers) r.(Com_Arc_TxDeadlineCounter) r.(Com_Arc_DynSignalLength) v
    r.(Com_Arc_IpduRxDMControl) r.(Com_Arc_IpduTxMode).
Definition set_Com_Arc_IpduRxDMControl v (r : Com_Arc_IPdu_type) :=
  Build_Com_Arc_IPdu_type r.(ComIPduDataPtr) r.(ComIPduDeferredDataPtr)
    r.(Com_Arc_TxIPduTimers) r.(Com_Arc_TxDeadlineCounter) r.(Com_Arc_DynSignalLength)
    r.(Com_Arc_IpduStarted) v r.(Com_Arc_IpduTxMode).
Definition set_Com_Arc_IpduTxMode v (r : Com_Arc_IPdu_type) :=
  Build_Com_Arc_IPdu_type r.(ComIPduDataPtr) r.(ComIPduDeferredDataPtr)
    r.(Com_Arc_TxIPduTimers) r.(Com_Arc_TxDeadlineCounter) r.(Com_Arc_DynSignalLength)
    r.(Com_Arc_IpduStarted) r.(Com_Arc_IpduRxDMControl) v.
Definition set_Com_Arc_ShadowBuffer v (r : Com_Arc_Signal_type) :=
  Build_Com_Arc_Signal_type v r.(Com_Arc_DeadlineCounter) r.(ComSignalUpdated)
    r.(ComSignalUpdatedGwRouting) r.(ComSignalRoutingReq).
Definition set_Com_Arc_DeadlineCounter v (r : Com_Arc_Signal_type) :=
  Build_Com_Arc_Signal_type r.(Com_Arc_ShadowBuffer) v r.(ComSignalUpdated)
    r.(ComSignalUpdatedGwRouting) r.(ComSignalRoutingReq).
Definition set_ComSignalUpdated v (r : Com_Arc_Signal_type) :=
  Build_Com_Arc_Signal_type r.(Com_Arc_ShadowBuffer) r.(Com_Arc_DeadlineCounter) v
    r.(ComSignalUpdatedGwRouting) r.(ComSignalRoutingReq).
Definition set_ComSignalUpdatedGwRouting v (r : Com_Arc_Signal_type) :=
  Build_Com_Arc_Signal_type r.(Com_Arc_ShadowBuffer) r.(Com_Arc_DeadlineCounter)
    r.(ComSignalUpdated) v r.(ComSignalRoutingReq).
Definition set_ComSignalRoutingReq v (r : Com_Arc_Signal_type) :=
  Build_Com_Arc_Signal_type r.(Com_Arc_ShadowBuffer) r.(Com_Arc_DeadlineCounter)
    r.(ComSignalUpdated) r.(ComSignalUpdatedGwRouting) v.

Definition set_timer (f : Com_Arc_TxIPduTimer_type -> Com_Arc_TxIPduTimer_type) (r : Com_Arc_IPdu_type) :=
  set_Com_Arc_TxIPduTimers (f r.(Com_Arc_TxIPduTimers)) r.

(** ** The environment *)
Class Com_Cfg := {
  COM_DEV_ERROR_DETECT : bool;
  COM_IPDU_COUNTING_ENABLE : bool;
  COM_SIG_GATEWAY_ENABLE : bool;
  COM_OSEKNM_SUPPORT : bool;
  COM_E_TOO_MANY_IPDU : Z;
  COM_INVALID_PDU_ID : Z;
  COM_OSEKNM_INVALID_NET_ID : Z;
  BIG_ENDIAN_CPU : bool;
  (** The bytes of an automatic array before it is assigned. *)
  automatic : nat -> Z
}.

(** The tables of call-outs are the generated arrays, with [None] for a null pointer.
    A call-out of a sent I-PDU is handed its data and may change them. *)
Class Com_Env (W : Type) := {
  PduR_ComTransmit : Z -> list Z -> W -> Z * W;
  Det_ReportError : Z -> Z -> W -> W;
  OsekNm_TimeoutNotification : Z -> Z -> W -> W;
  ComNotificationCallouts : list (option (W -> W));
  ComRxIPduCallouts : list (option (Z -> list Z -> W -> bool * W));
  ComTxIPduCallouts : list (option (Z -> list Z -> W -> bool * list Z * W));
  ComTriggerTransmitIPduCallouts : list (option (Z -> list Z -> W -> bool * list Z * W))
}.

(** ** The static data of the module *)
Record Com_State (W : Type) := {
  initStatus : Com_StatusType;
  ComConfig : option Com_ConfigType;
  Com_Arc_IPdu : list Com_Arc_IPdu_type;
  Com_Arc_Signal : list Com_Arc_Signal_type;
  Com_Arc_GroupSignal : list Com_Arc_GroupSignal_type;
  Com_Arc_GwSrcDescSignals : list Com_Arc_GwSrcDesc_type;
  Com_BufferPduState : list Com_BufferPduStateType;
  Com_Arc_Buffer : list Z;
  ComIPduCountRxStart : list bool;
  Com_IPdu_Counters : list Z;
  os : Irq;
  world : W
}.
Arguments initStatus {W} _.
Arguments ComConfig {W} _.
Arguments Com_Arc_IPdu {W} _.
Arguments Com_Arc_Signal {W} _.
Arguments Com_Arc_GroupSignal {W} _.
Arguments Com_Arc_GwSrcDescSignals {W} _.
Arguments Com_BufferPduState {W} _.
Arguments Com_Arc_Buffer {W} _.
Arguments ComIPduCountRxStart {W} _.
Arguments Com_IPdu_Counters {W} _.
Arguments os {W} _.
Arguments world {W} _.
Arguments Build_Com_State {W} _ _ _ _ _ _ _ _ _ _ _ _.

Definition set_initStatus {W : Type} v (r : Com_State W) :=
  Build_Com_State v r.(ComConfig) r.(Com_Arc_IPdu) r.(Com_Arc_Signal) r.(Com_Arc_GroupSignal)
    r.(Com_Arc_GwSrcDescSignals) r.(Com_BufferPduState) r.(Com_Arc_Buffer)
    r.(ComIPduCountRxStart) r.(Com_IPdu_Counters) r.(os) r.(world).
Definition set_ComConfig {W : Type} v (r : Com_State W) :=
  Build_Com_State r.(initStatus) v r.(Com_Arc_IPdu) r.(Com_Arc_Signal) r.(Com_Arc_GroupSignal)
    r.(Com_Arc_GwSrcDescSignals) r.(Com_BufferPduState) r.(Com_Arc_Buffer)
    r.(ComIPduCountRxStart) r.(Com_IPdu_Counters) r.(os) r.(world).
Definition set_Com_Arc_IPdu {W : Type} v (r : Com_State W) :=
  Build_Com_State r.(initStatus) r.(ComConfig) v r.(Com_Arc_Signal) r.(Com_Arc_GroupSignal)
    r.(Com_Arc_GwSrcDescSignals) r.(Com_BufferPduState) r.(Com_Arc_Buffer)
    r.(ComIPduCountRxStart) r.(Com_IPdu_Counters) r.(os) r.(world).
Definition set_Com_Arc_Signal {W : Type} v (r : Com_State W) :=
  Build_Com_State r.(initStatus) r.(ComConfig) r.(Com_Arc_IPdu) v r.(Com_Arc_GroupSignal)
    r.(Com_Arc_GwSrcDescSignals) r.(Com_BufferPduState) r.(Com_Arc_Buffer)
    r.(ComIPduCountRxStart) r.(Com_IPdu_Counters) r.(os) r.(world).
Definition set_Com_Arc_GroupSignal {W : Type} v (r : Com_State W) :=
  Build_Com_State r.(initStatus) r.(ComConfig) r.(Com_Arc_IPdu) r.(Com_Arc_Signal) v
    r.(Com_Arc_GwSrcDescSignals) r.(Com_BufferPduState) r.(Com_Arc_Buffer)
    r.(ComIPduCountRxStart) r.(Com_IPdu_Counters) r.(os) r.(world).
Definition set_Com_Arc_GwSrcDescSignals {W : Type} v (r : Com_State W) :=
  Build_Com_State r.(initStatus) r.(ComConfig) r.(Com_Arc_IPdu) r.(Com_Arc_Signal)
    r.(Com_Arc_GroupSignal) v r.(Com_BufferPduState) r.(Com_Arc_Buffer) r.(ComIPduCountRxStart)
    r.(Com_IPdu_Counters) r.(os) r.(world).
Definition set_Com_BufferPduState {W : Type} v (r : Com_State W) :=
  Build_Com_State r.(initStatus) r.(ComConfig) r.(Com_Arc_IPdu) r.(Com_Arc_Signal)
    r.(Com_Arc_GroupSignal) r.(Com_Arc_GwSrcDescSignals) v r.(Com_Arc_Buffer)
    r.(ComIPduCountRxStart) r.(Com_IPdu_Counters) r.(os) r.(world).
Definition set_Com_Arc_Buffer {W : Type} v (r : Com_State W) :=
  Build_Com_State r.(initStatus) r.(ComConfig) r.(Com_Arc_IPdu) r.(Com_Arc_Signal)
    r.(Com_Arc_GroupSignal) r.(Com_Arc_GwSrcDescSignals) r.(Com_BufferPduState) v
    r.(ComIPduCountRxStart) r.(Com_IPdu_Counters) r.(os) r.(world).
Definition set_ComIPduCountRxStart {W : Type} v (r : Com_State W) :=
  Build_Com_State r.(initStatus) r.(ComConfig) r.(Com_Arc_IPdu) r.(Com_Arc_Signal)
    r.(Com_Arc_GroupSignal) r.(Com_Arc_GwSrcDescSignals) r.(Com_BufferPduState)
    r.(Com_Arc_Buffer) v r.(Com_IPdu_Counters) r.(os) r.(world).
Definition set_Com_IPdu_Counters {W : Type} v (r : Com_State W) :=
  Build_Com_State r.(initStatus) r.(ComConfig) r.(Com_Arc_IPdu) r.(Com_Arc_Signal)
    r.(Com_Arc_GroupSignal) r.(Com_Arc_GwSrcDescSignals) r.(Com_BufferPduState)
    r.(Com_Arc_Buffer) r.(ComIPduCountRxStart) v r.(os) r.(world).
Definition set_os {W : Type} v (r : Com_State W) :=
  Build_Com_State r.(initStatus) r.(ComConfig) r.(Com_Arc_IPdu) r.(Com_Arc_Signal)
    r.(Com_Arc_GroupSignal) r.(Com_Arc_GwSrcDescSignals) r.(Com_BufferPduState)
    r.(Com_Arc_Buffer) r.(ComIPduCountRxStart) r.(Com_IPdu_Counters) v r.(world).
Definition set_world {W : Type} (v : W) (r : Com_State W) :=
  Build_Com_State r.(initStatus) r.(ComConfig) r.(Com_Arc_IPdu) r.(Com_Arc_Signal)
    r.(Com_Arc_GroupSignal) r.(Com_Arc_GwSrcDescSignals) r.(Com_BufferPduState)
    r.(Com_Arc_Buffer) r.(ComIPduCountRxStart) r.(Com_IPdu_Counters) r.(os) v.
