(* ===== verification/Com.v ===== *)
(** * The Com module

    [communication/Com/src/Com.c], [Com_Com.c], [Com_Sched.c] and [Com_misc.c] with
    their headers: signals and signal groups packed into I-PDUs, transmission modes,
    deadline monitoring, update bits, I-PDU counters, transport protocol buffers and
    the signal gateway.

    The static data of the module are the record [Com_State]; the data of all I-PDUs,
    their deferred copies and the shadow buffers of signal groups lie in the one array
    [Com_Arc_Buffer], and a pointer into it is an index.  [SchM_Enter_Com_EA_0] and
    [SchM_Exit_Com_EA_0] suspend and resume the interrupts ([Os_Irq]).  Loop counters
    of 8 and 16 bits do not wrap: arrays are shorter than that.

    The modules around Com and the call-outs are the class [Com_Env]: a state and
    the effect and answer of each call; they do not call Com back during a call.
    [Com_Cfg] holds what the generated [Com_Cfg.h] and the processor determine. *)

From S2P Require Import Prelude.
From S2P Require Import StateMonad.
From S2P Require Import ComStack.
From S2P Require Import Os_Irq.
From S2P Require Import Com_Signal.
From S2P Require Import Com_Types.

#[local] Open Scope monad_scope.

(** [timerDec] *)
Definition timerDec (timer : Z) : Z := if timer >? 0 then timer - 1 else timer.

Section Com.
Context {W : Type} {Cfg : Com_Cfg} {Env : Com_Env W}.

Abbreviation T := (M (Com_State W)).

Definition cfg : T Com_ConfigType := let* c := get ComConfig in deref c.
Definition GET_IPdu (id : Z) : T ComIPdu_type := let* c := cfg in deref (aref c.(ComIPdu) id).
Definition GET_Signal (id : Z) : T ComSignal_type := let* c := cfg in deref (aref c.(ComSignal) id).
Definition GET_GroupSignal (id : Z) : T ComGroupSignal_type :=
  let* c := cfg in deref (aref c.(Cfg_ComGroupSignal) id).
Definition GET_GwSrcSigDesc (id : Z) : T ComGwSrcDesc_type :=
  let* c := cfg in deref (aref c.(ComGwSrcDesc) id).
Definition GET_GwDestnSigDesc (id : Z) : T ComGwDestnDesc_type :=
  let* c := cfg in deref (aref c.(ComGwDestnDesc) id).
Definition GET_ArcIPdu (id : Z) : T Com_Arc_IPdu_type :=
  let* l := get Com_Arc_IPdu in deref (aref l id).
Definition GET_ArcSignal (id : Z) : T Com_Arc_Signal_type :=
  let* l := get Com_Arc_Signal in deref (aref l id).
Definition GET_ArcGroupSignal (id : Z) : T Com_Arc_GroupSignal_type :=
  let* l := get Com_Arc_GroupSignal in deref (aref l id).
Definition GET_ArcGwSrcSigDesc (id : Z) : T Com_Arc_GwSrcDesc_type :=
  let* l := get Com_Arc_GwSrcDescSignals in deref (aref l id).
Definition buffer_state (id : Z) : T Com_BufferPduStateType :=
  let* l := get Com_BufferPduState in deref (aref l id).

(** [(&Com_Arc_Config.ComIPdu[id])->field = ...] and the like. *)
Definition upd_ArcIPdu (id : Z) (f : Com_Arc_IPdu_type -> Com_Arc_IPdu_type) : T unit :=
  let* a := GET_ArcIPdu id in
  modify (fun s => set_Com_Arc_IPdu (<[Z.to_nat id := f a]> s.(Com_Arc_IPdu)) s).
Definition upd_ArcSignal (id : Z) (f : Com_Arc_Signal_type -> Com_Arc_Signal_type) : T unit :=
  let* a := GET_ArcSignal id in
  modify (fun s => set_Com_Arc_Signal (<[Z.to_nat id := f a]> s.(Com_Arc_Signal)) s).
Definition put_ArcGroupSignal (id : Z) (v : Com_Arc_GroupSignal_type) : T unit :=
  let* _ := GET_ArcGroupSignal id in
  modify (fun s => set_Com_Arc_GroupSignal (<[Z.to_nat id := v]> s.(Com_Arc_GroupSignal)) s).
Definition put_ArcGwSrcSigDesc (id : Z) (v : Com_Arc_GwSrcDesc_type) : T unit :=
  let* _ := GET_ArcGwSrcSigDesc id in
  modify (fun s => set_Com_Arc_GwSrcDescSignals (<[Z.to_nat id := v]> s.(Com_Arc_GwSrcDescSignals)) s).
Definition put_buffer_state (id : Z) (v : Com_BufferPduStateType) : T unit :=
  let* _ := buffer_state id in
  modify (fun s => set_Com_BufferPduState (<[Z.to_nat id := v]> s.(Com_BufferPduState)) s).

Definition SchM_Enter_Com_EA_0 : T unit := modify (fun s => set_os (SuspendOSInterrupts s.(os)) s).
Definition SchM_Exit_Com_EA_0 : T unit := modify (fun s => set_os (ResumeOSInterrupts s.(os)) s).

Definition call {A} (f : W -> A * W) : T A :=
  fun s => let '(a, w) := f s.(world) in Some (a, set_world w s).
Definition notify (f : W -> W) : T unit := call (fun w => (tt, f w)).

Definition DET_REPORTERROR (api err : Z) : T unit :=
  if COM_DEV_ERROR_DETECT then notify (Det_ReportError api err) else ret tt.

Definition Com_GetStatus : T Com_StatusType := get initStatus.

(** The checks that open the services: [COM_INIT != Com_GetStatus()], and an argument
    out of range; [err] is what the service returns then. *)
Definition if_init {A} (api : Z) (err : A) (body : T A) : T A :=
  let* s := Com_GetStatus in
  if negb (bool_decide (s = COM_INIT)) then
    let* _ := DET_REPORTERROR api COM_E_UNINIT in ret err
  else body.
Definition if_below {A} (api : Z) (id limit : Z) (err : A) (body : T A) : T A :=
  if id >=? limit then let* _ := DET_REPORTERROR api COM_E_PARAM in ret err else body.

(** [if ((n != COM_NO_FUNCTION_CALLOUT) && (ComNotificationCallouts[n] != NULL)) { ... }] *)
Definition notification (n : Z) : T unit :=
  if n =? COM_NO_FUNCTION_CALLOUT then ret tt
  else
    let* f := deref (aref ComNotificationCallouts n) in
    match f with None => ret tt | Some f => notify f end.

(** ** The buffer *)
Definition put_buffer (b : list Z) : T unit := modify (set_Com_Arc_Buffer b).

(** [memcpy(&p[i], xs, n)] with [p] a pointer into the buffer; reading from it. *)
Definition buffer_write (p : option Z) (i : Z) (xs : list Z) : T unit :=
  let* p := deref p in
  let* b := get Com_Arc_Buffer in
  let* b := deref (write_bytes b (p + i) xs) in
  put_buffer b.
Definition buffer_read (p : option Z) (i n : Z) : T (list Z) :=
  let* p := deref p in
  let* b := get Com_Arc_Buffer in
  deref (read_bytes b (p + i) n).

Definition bit_mask (bit : Z) : Z := u8 (Z.shiftl 1 (bit mod 8)).
Definition TESTBIT (source : option Z) (bit : Z) : T bool :=
  let* p := deref source in
  let* b := get Com_Arc_Buffer in
  let* v := deref (load b (p + bit / 8)) in
  ret (Z.land v (bit_mask bit) >? 0).
Definition SETBIT (dest : option Z) (bit : Z) : T unit :=
  let* p := deref dest in
  let* b := get Com_Arc_Buffer in
  let* v := deref (load b (p + bit / 8)) in
  let* b := deref (store b (p + bit / 8) (Z.lor v (bit_mask bit))) in
  put_buffer b.
Definition CLEARBIT (dest : option Z) (bit : Z) : T unit :=
  let* p := deref dest in
  let* b := get Com_Arc_Buffer in
  let* v := deref (load b (p + bit / 8)) in
  let* b := deref (store b (p + bit / 8) (Z.land v (Z.lnot (bit_mask bit)))) in
  put_buffer b.

(** [Com_Misc_ReadSignalDataFromPdu] and [Com_Misc_WriteSignalDataToPdu] with their
    critical sections. *)
Definition ReadSignalDataFromPdu (comIPduDataPtr : option Z) (L : Layout) (SignalData : list Z)
    : T (list Z) :=
  let* _ := SchM_Enter_Com_EA_0 in
  let* p := deref comIPduDataPtr in
  let* b := get Com_Arc_Buffer in
  let* out := deref (read_signal BIG_ENDIAN_CPU b p L SignalData) in
  let* _ := SchM_Exit_Com_EA_0 in
  ret out.
Definition WriteSignalDataToPdu (SignalDataPtr : list Z) (comIPduDataPtr : option Z) (L : Layout)
    : T bool :=
  let* _ := SchM_Enter_Com_EA_0 in
  let* p := deref comIPduDataPtr in
  let* b := get Com_Arc_Buffer in
  let* (b, dataChanged) := deref (write_signal BIG_ENDIAN_CPU SignalDataPtr b p L) in
  let* _ := put_buffer b in
  let* _ := SchM_Exit_Com_EA_0 in
  ret dataChanged.

(** Loops over the signals of an I-PDU: those that test [ComIPduSignalRef] for
    [NULL], and those that do not. *)
Definition signals (IPdu : ComIPdu_type) : list ComSignal_type := default [] IPdu.(ComIPduSignalRef).
Definition for_signals (IPdu : ComIPdu_type) (body : ComSignal_type -> T unit) : T unit :=
  for_each 0 (signals IPdu) (fun _ => body).
Definition for_signals_unchecked (IPdu : ComIPdu_type) (body : ComSignal_type -> T unit) : T unit :=
  let* l := deref IPdu.(ComIPduSignalRef) in for_each 0 l (fun _ => body).

(** Clear all update bits for the contained signals. *)
Definition clear_update_bits (IPdu : ComIPdu_type) (p : option Z) : T unit :=
  for_signals IPdu (fun s =>
    if s.(ComSignalArcUseUpdateBit) then CLEARBIT p s.(ComUpdateBitPosition) else ret tt).

Definition txModePtr (IPdu : ComIPdu_type) (Arc_IPdu : Com_Arc_IPdu_type) : ComTxMode_type :=
  if Arc_IPdu.(Com_Arc_IpduTxMode) then IPdu.(ComTxIPdu).(ComTxModeTrue)
  else IPdu.(ComTxIPdu).(ComTxModeFalse).

(** ** Com_misc.c: I-PDU counters *)
Definition counter (idx : Z) : T Z := let* l := get Com_IPdu_Counters in deref (aref l idx).
Definition put_counter (idx v : Z) : T unit :=
  let* _ := counter idx in
  modify (fun s => set_Com_IPdu_Counters (<[Z.to_nat idx := v]> s.(Com_IPdu_Counters)) s).
Definition rx_start (idx : Z) : T bool := let* l := get ComIPduCountRxStart in deref (aref l idx).
Definition put_rx_start (idx : Z) (v : bool) : T unit :=
  let* _ := rx_start idx in
  modify (fun s => set_ComIPduCountRxStart (<[Z.to_nat idx := v]> s.(ComIPduCountRxStart)) s).

Definition ResetInternalCounter (indx : Z) : T unit := put_counter indx 0.
Definition ReSetInternalRxStartSts (indx : Z) : T unit := put_rx_start indx false.
Definition ResetInternalCounterRxStartSts : T unit :=
  modify (fun s => set_ComIPduCountRxStart (replicate (length s.(ComIPduCountRxStart)) false)
    (set_Com_IPdu_Counters (replicate (length s.(Com_IPdu_Counters)) 0) s)).

(** [(a + 1) % cntrRng] *)
Definition next_counter (a cntrRng : Z) : option Z :=
  if cntrRng =? 0 then None else Some (u8 ((a + 1) mod cntrRng)).

(** The counter's value and its index; the I-PDU is at [sduPtr]. *)
Definition updateIPduCntr (c : ComIPduCounter_type) (sduPtr : option Z) : T (Z * Z) :=
  let bytPos := c.(ComIPduCntrStartPos) / 8 in
  let bitPos := c.(ComIPduCntrStartPos) mod 8 in
  let cntrRng := c.(ComIPduCntrRange) in
  let bitMask := u16 (Z.lnot (Z.shiftl (u32 (cntrRng - 1)) bitPos)) in
  let cntrIdx := c.(ComIPduCntrIndex) in
  let* old := counter cntrIdx in
  let* cntrVal := deref (next_counter old cntrRng) in
  let* p := deref sduPtr in
  let* b := get Com_Arc_Buffer in
  let* val := deref (load b (p + bytPos)) in
  let* b := deref (store b (p + bytPos) (u8 (Z.lor (Z.land val (u8 bitMask)) (Z.shiftl cntrVal bitPos)))) in
  let* _ := put_buffer b in
  ret (cntrVal, cntrIdx).

Definition extractIPduCntr (c : ComIPduCounter_type) (sdu : list Z) : option Z :=
  let bytPos := c.(ComIPduCntrStartPos) / 8 in
  let bitPos := c.(ComIPduCntrStartPos) mod 8 in
  let bitMask := u8 (u16 (c.(ComIPduCntrRange) - 1)) in
  val ← load sdu bytPos;
  Some (Z.land (Z.shiftr val bitPos) bitMask).

Definition Com_Misc_validateIPduCounter (c : ComIPduCounter_type) (sdu : list Z) : T bool :=
  let cntrIdx := c.(ComIPduCntrIndex) in
  let cntrRng := c.(ComIPduCntrRange) in
  let* start := rx_start cntrIdx in
  let* rxCntrVal := deref (extractIPduCntr c sdu) in
  let* result :=
    if start then
      let* expected := counter cntrIdx in
      let diff := u8 (if rxCntrVal >=? expected then rxCntrVal - expected
                      else rxCntrVal + cntrRng - expected) in
      ret (diff <=? c.(ComIPduCntrThrshldStep))
    else
      let* _ := put_rx_start cntrIdx true in
      ret true in
  let* next := deref (next_counter rxCntrVal cntrRng) in
  let* _ := put_counter cntrIdx next in
  ret result.

(** ** Com_misc.c: transport protocol buffers, confirmation status *)
Definition Com_Misc_UnlockTpBuffer (PduId : Z) : T unit :=
  put_buffer_state PduId {| currentPosition := 0; locked := false |}.
Definition isPduBufferLocked (id : Z) : T bool := let* b := buffer_state id in ret b.(locked).

Definition Com_Misc_SetTxConfirmationStatus (IPdu : ComIPdu_type) (value : bool) : T unit :=
  let* l := deref IPdu.(ComIPduSignalRef) in
  match l with
  | [] => ret tt
  | signal :: _ => upd_ArcSignal signal.(ComHandleId) (set_ComSignalUpdated value)
  end.
Definition Com_Misc_GetTxConfirmationStatus (IPdu : ComIPdu_type) : T bool :=
  let* l := deref IPdu.(ComIPduSignalRef) in
  match l with
  | [] => ret false
  | signal :: _ => let* a := GET_ArcSignal signal.(ComHandleId) in ret a.(ComSignalUpdated)
  end.

(** ** Com_misc.c: transmission *)

(** A call-out that is given the data of the I-PDU at [p]; [true] when there is none. *)
Definition tx_callout (table : list (option (Z -> list Z -> W -> bool * list Z * W))) (n PduId : Z)
    (IPdu : ComIPdu_type) (p : option Z) : T bool :=
  if n =? COM_NO_FUNCTION_CALLOUT then ret true
  else
    let* f := deref (aref table n) in
    match f with
    | None => ret true
    | Some f =>
        let* data := buffer_read p 0 IPdu.(ComIPduSize) in
        let* (ok, data) := call (f PduId data) in
        let* _ := buffer_write p 0 data in
        ret ok
    end.

Definition sdu_length (IPdu : ComIPdu_type) (Arc_IPdu : Com_Arc_IPdu_type) : Z :=
  match IPdu.(ComIPduDynSignalRef) with
  | Some dyn =>
      let sizeWithoutDynSignal := u16 (IPdu.(ComIPduSize) - dyn.(Sig_layout).(l_size) / 8) in
      u16 (sizeWithoutDynSignal + Arc_IPdu.(Com_Arc_DynSignalLength))
  | None => IPdu.(ComIPduSize)
  end.

(** What follows the I-PDU's acceptance by the PDU router. *)
Definition after_transmit (PduId : Z) (IPdu : ComIPdu_type) (p : option Z)
    (cntr : option (Z * Z)) : T unit :=
  let* _ := if bool_decide (IPdu.(ComTxIPdu).(ComTxIPduClearUpdateBit) = TRANSMIT)
            then clear_update_bits IPdu p else ret tt in
  let* _ :=
    if COM_SIG_GATEWAY_ENABLE then
      for_each 0 (default [] IPdu.(ComIPduGwMapSigDescHandle)) (fun _ h =>
        let* gwSigDesc := GET_GwDestnSigDesc h in
        if gwSigDesc.(Dst_ComSignalArcUseUpdateBit)
        then CLEARBIT p gwSigDesc.(Dst_ComUpdateBitPosition) else ret tt)
    else ret tt in
  match cntr with
  | Some (cntrVal, cntrIdx) => put_counter cntrIdx cntrVal
  | None => ret tt
  end.

Definition Com_Misc_TriggerIPDUSend (PduId : Z) : T ComTxTriggerStatusType :=
  let* IPdu := GET_IPdu PduId in
  let* Arc_IPdu := GET_ArcIPdu PduId in
  let* _ := SchM_Enter_Com_EA_0 in
  let* txTriggerStatus :=
    if Arc_IPdu.(Com_Arc_TxIPduTimers).(ComTxIPduMinimumDelayTimer) =? 0 then
      let p := Arc_IPdu.(ComIPduDataPtr) in
      let* status := tx_callout ComTxIPduCallouts IPdu.(ComTxIPduCallout) PduId IPdu p in
      if status then
        let SduLength := sdu_length IPdu Arc_IPdu in
        let* cntr :=
          match (if COM_IPDU_COUNTING_ENABLE then IPdu.(ComIpduCounterRef) else None) with
          | Some c => let* r := updateIPduCntr c p in ret (Some r)
          | None => ret None
          end in
        let* sdu := buffer_read p 0 SduLength in
        let* r := call (PduR_ComTransmit IPdu.(ArcIPduOutgoingId) sdu) in
        let* st :=
          if r =? E_OK then
            let* _ := after_transmit PduId IPdu p cntr in ret COM_TX_TRIGGERED
          else
            let* _ := Com_Misc_UnlockTpBuffer PduId in ret COM_TX_NOT_TRIGGERED in
        let* _ := upd_ArcIPdu PduId (set_timer (set_ComTxIPduMinimumDelayTimer
                    IPdu.(ComTxIPdu).(ComTxIPduMinimumDelayFactor))) in
        ret st
      else ret COM_TX_NOT_TRIGGERED
    else ret COM_TX_MIN_DELAY_NOT_FULFILLED in
  let* _ := SchM_Exit_Com_EA_0 in
  ret txTriggerStatus.

Definition triggering (dataChanged : bool) (transferProperty : ComTransferPropertyType) : bool :=
  match transferProperty with
  | COM_TRIGGERED | COM_TRIGGERED_WITHOUT_REPETITION => true
  | COM_TRIGGERED_ON_CHANGE | COM_TRIGGERED_ON_CHANGE_WITHOUT_REPETITION => dataChanged
  | COM_PENDING => false
  end.
Definition repetitions (m : ComTxMode_type) (transferProperty : ComTransferPropertyType) : Z :=
  match transferProperty with
  | COM_TRIGGERED | COM_TRIGGERED_ON_CHANGE =>
      if m.(ComTxModeNumberOfRepetitions) =? 0 then 1 else m.(ComTxModeNumberOfRepetitions)
  | COM_TRIGGERED_WITHOUT_REPETITION | COM_TRIGGERED_ON_CHANGE_WITHOUT_REPETITION => 1
  | COM_PENDING => 0
  end.

(** The repetitions left after the attempt to send now, and whether it was sent. *)
Definition trigger_now (pduHandleId : Z) (m : ComTxMode_type) (nofReps : Z) : T (Z * bool) :=
  if nofReps >? 0 then
    let* txTrigSts := Com_Misc_TriggerIPDUSend pduHandleId in
    let set_period v := upd_ArcIPdu pduHandleId (set_timer (set_ComTxModeRepetitionPeriodTimer v)) in
    match txTrigSts with
    | COM_TX_TRIGGERED =>
        let* _ := set_period m.(ComTxModeRepetitionPeriodFactor) in ret (nofReps - 1, true)
    | COM_TX_NOT_TRIGGERED =>
        let* _ := set_period m.(ComTxModeRepetitionPeriodFactor) in ret (nofReps - 1, false)
    | COM_TX_MIN_DELAY_NOT_FULFILLED =>
        let* _ := set_period 0 in ret (nofReps, false)
    end
  else ret (nofReps, false).

Definition Com_Misc_TriggerTxOnConditions (pduHandleId : Z) (dataChanged : bool)
    (transferProperty : ComTransferPropertyType) : T bool :=
  let* IPdu := GET_IPdu pduHandleId in
  let* Arc_IPdu := GET_ArcIPdu pduHandleId in
  if Arc_IPdu.(Com_Arc_IpduStarted) then
    let m := txModePtr IPdu Arc_IPdu in
    let* _ :=
      if triggering dataChanged transferProperty &&
         (bool_decide (m.(ComTxModeMode) = COM_DIRECT) || bool_decide (m.(ComTxModeMode) = COM_MIXED))
      then
        let* (nofReps, triggeredNow) := trigger_now pduHandleId m (repetitions m transferProperty) in
        let* Arc_IPdu := GET_ArcIPdu pduHandleId in
        let left := Arc_IPdu.(Com_Arc_TxIPduTimers).(ComTxIPduNumberOfRepetitionsLeft) in
        if left <=? nofReps then
          let* _ := upd_ArcIPdu pduHandleId
                      (set_timer (set_ComTxIPduNumberOfRepetitionsLeft nofReps)) in
          if 0 <? Arc_IPdu.(Com_Arc_TxDeadlineCounter) then
            let* _ := upd_ArcIPdu pduHandleId (set_timer (set_ComTxIPduNumberOfTxConfirmations
                        (u8 (nofReps + if triggeredNow then 1 else 0)))) in
            upd_ArcIPdu pduHandleId
              (set_timer (set_ComTxDMTimer Arc_IPdu.(Com_Arc_TxDeadlineCounter)))
          else ret tt
        else if triggeredNow && negb (left =? 0) then
          upd_ArcIPdu pduHandleId (set_timer (set_ComTxIPduNumberOfRepetitionsLeft (left - 1)))
        else ret tt
      else ret tt in
    ret true
  else ret false.

(** ** Com_misc.c: signal groups *)

(** The loop over the bytes of the I-PDU: byte [i] of [dst] takes the bits of the mask
    from byte [i] of [src]. *)
Fixpoint copy_masked (n : nat) (i dst src : Z) (mask : list Z) (b : list Z) (changed : bool)
    : option (list Z * bool) :=
  match n with
  | O => Some (b, changed)
  | S n =>
      m ← load mask i;
      d ← load b (dst + i);
      x ← load b (src + i);
      let data := u8 (Z.lor (Z.land (Z.lnot m) d) (Z.land m x)) in
      b ← store b (dst + i) data;
      copy_masked n (i + 1) dst src mask b (changed || negb (d =? data))
  end.

Definition Com_Misc_CopySignalGroupDataFromShadowBufferToPdu (signalGroupId : Z)
    (deferredBufferDestination : bool) : T bool :=
  let* Signal := GET_Signal signalGroupId in
  let* IPdu := GET_IPdu Signal.(ComIPduHandleId) in
  let* Arc_Signal := GET_ArcSignal Signal.(ComHandleId) in
  let* Arc_IPdu := GET_ArcIPdu Signal.(ComIPduHandleId) in
  let* pduDataPtr := deref (if deferredBufferDestination then Arc_IPdu.(ComIPduDeferredDataPtr)
                            else Arc_IPdu.(ComIPduDataPtr)) in
  let* buf := deref Arc_Signal.(Com_Arc_ShadowBuffer) in
  let* b := get Com_Arc_Buffer in
  let* (b, dataChanged) := deref (copy_masked (Z.to_nat IPdu.(ComIPduSize)) 0 pduDataPtr buf
                                    Signal.(Com_Arc_ShadowBuffer_Mask) b false) in
  let* _ := put_buffer b in
  ret dataChanged.

Definition deferred_rx (IPdu : ComIPdu_type) : bool :=
  bool_decide (IPdu.(ComIPduSignalProcessing) = COM_DEFERRED) &&
  bool_decide (IPdu.(ComIPduDirection) = COM_RECEIVE).

Definition Com_Misc_CopySignalGroupDataFromPduToShadowBuffer (signalGroupId : Z) : T unit :=
  let* Signal := GET_Signal signalGroupId in
  let* IPdu := GET_IPdu Signal.(ComIPduHandleId) in
  let* Arc_IPdu := GET_ArcIPdu Signal.(ComIPduHandleId) in
  let pduDataPtr := if deferred_rx IPdu then Arc_IPdu.(ComIPduDeferredDataPtr)
                    else Arc_IPdu.(ComIPduDataPtr) in
  let* updated := if Signal.(ComSignalArcUseUpdateBit)
                  then TESTBIT pduDataPtr Signal.(ComUpdateBitPosition) else ret true in
  if updated then
    let* Arc_Signal := GET_ArcSignal Signal.(ComHandleId) in
    let* pduDataPtr := deref pduDataPtr in
    let* buf := deref Arc_Signal.(Com_Arc_ShadowBuffer) in
    let* b := get Com_Arc_Buffer in
    let* (b, _) := deref (copy_masked (Z.to_nat IPdu.(ComIPduSize)) 0 buf pduDataPtr
                            Signal.(Com_Arc_ShadowBuffer_Mask) b false) in
    put_buffer b
  else ret tt.

Definition Com_Misc_UpdateShadowSignal (SignalId : Z) (SignalDataPtr : list Z) : T unit :=
  let* Arc_GroupSignal := GET_ArcGroupSignal SignalId in
  let* GroupSignal := GET_GroupSignal SignalId in
  let* _ := WriteSignalDataToPdu SignalDataPtr Arc_GroupSignal.(Arc_Grp_ShadowBuffer)
              GroupSignal.(Grp_layout) in
  ret tt.

(** ** Com_misc.c: reception and deadline monitoring *)
Definition process_rx_signal (IPdu : ComIPdu_type) (Arc_IPdu : Com_Arc_IPdu_type)
    (comSignal : ComSignal_type) : T unit :=
  let* _ := GET_ArcSignal comSignal.(ComHandleId) in
  let* updated := if comSignal.(ComSignalArcUseUpdateBit)
                  then TESTBIT Arc_IPdu.(ComIPduDataPtr) comSignal.(ComUpdateBitPosition)
                  else ret true in
  if updated then
    let* _ := if comSignal.(ComTimeoutFactor) >? 0
              then upd_ArcSignal comSignal.(ComHandleId)
                     (set_Com_Arc_DeadlineCounter comSignal.(ComTimeoutFactor))
              else ret tt in
    let* _ := if COM_SIG_GATEWAY_ENABLE && IPdu.(ComIPduGwRoutingReq) && comSignal.(ComSigGwRoutingReq)
              then upd_ArcSignal comSignal.(ComHandleId) (set_ComSignalUpdatedGwRouting true)
              else ret tt in
    if bool_decide (IPdu.(ComIPduSignalProcessing) = COM_IMMEDIATE)
    then notification comSignal.(ComNotification)
    else upd_ArcSignal comSignal.(ComHandleId) (set_ComSignalUpdated true)
  else ret tt.

Definition Com_Misc_RxProcessSignals (IPdu : ComIPdu_type) (Arc_IPdu : Com_Arc_IPdu_type) : T unit :=
  let* _ := for_signals_unchecked IPdu (process_rx_signal IPdu Arc_IPdu) in
  if COM_SIG_GATEWAY_ENABLE && IPdu.(ComIPduGwRoutingReq) then
    for_each 0 (default [] IPdu.(ComIPduGwMapSigDescHandle)) (fun _ srcSigDescHandle =>
      let* comGwSrcPtr := GET_GwSrcSigDesc srcSigDescHandle in
      let* updated := if comGwSrcPtr.(Src_ComSignalArcUseUpdateBit)
                      then TESTBIT Arc_IPdu.(ComIPduDataPtr) comGwSrcPtr.(Src_ComUpdateBitPosition)
                      else ret true in
      if updated then
        let* a := GET_ArcGwSrcSigDesc srcSigDescHandle in
        put_ArcGwSrcSigDesc srcSigDescHandle
          {| Src_ComSignalUpdatedGwRouting := true;
             Src_ComSignalRoutingReq := a.(Src_ComSignalRoutingReq) |}
      else ret tt)
  else ret tt.

(** [IPdu] is [GET_IPdu(id)] and [Arc_IPdu] is [GET_ArcIPdu(id)]. *)
Definition Com_Misc_TxHandleDM (id : Z) : T unit :=
  let* IPdu := GET_IPdu id in
  let* Arc_IPdu := GET_ArcIPdu id in
  let* _ := SchM_Enter_Com_EA_0 in
  let t := Arc_IPdu.(Com_Arc_TxIPduTimers) in
  let* _ :=
    match (txModePtr IPdu Arc_IPdu).(ComTxModeMode) with
    | COM_DIRECT | COM_MIXED =>
        if 0 <? t.(ComTxIPduNumberOfTxConfirmations) then
          let left := t.(ComTxIPduNumberOfTxConfirmations) - 1 in
          let* _ := upd_ArcIPdu id (set_timer (set_ComTxIPduNumberOfTxConfirmations left)) in
          if left =? 0 then upd_ArcIPdu id (set_timer (set_ComTxDMTimer 0)) else ret tt
        else upd_ArcIPdu id (set_timer (set_ComTxDMTimer 0))
    | COM_PERIODIC => upd_ArcIPdu id (set_timer (set_ComTxDMTimer 0))
    | COM_NONE => upd_ArcIPdu id (set_timer (set_ComTxDMTimer Arc_IPdu.(Com_Arc_TxDeadlineCounter)))
    end in
  SchM_Exit_Com_EA_0.

(** ** Com_Com.c: signals *)
Definition Com_SendSignal (SignalId : Z) (SignalDataPtr : list Z) : T Z :=
  if_init COM_SENDSIGNAL_ID COM_SERVICE_NOT_AVAILABLE (
  let* c := cfg in
  if_below COM_SENDSIGNAL_ID SignalId c.(ComNofSignals) COM_SERVICE_NOT_AVAILABLE (
  let* Signal := GET_Signal SignalId in
  if Signal.(ComIPduHandleId) =? NO_PDU_REFERENCE then ret COM_SERVICE_NOT_AVAILABLE
  else
    let* lk := isPduBufferLocked Signal.(ComIPduHandleId) in
    if lk then ret COM_BUSY
    else
      let* dataChanged :=
        if negb (Signal.(Sig_layout).(l_size) =? 0) then
          let* Arc_IPdu := GET_ArcIPdu Signal.(ComIPduHandleId) in
          let comIPduDataPtr := Arc_IPdu.(ComIPduDataPtr) in
          let* _ := SchM_Enter_Com_EA_0 in
          let* dataChanged := WriteSignalDataToPdu SignalDataPtr comIPduDataPtr Signal.(Sig_layout) in
          let* _ := if Signal.(ComSignalArcUseUpdateBit)
                    then SETBIT comIPduDataPtr Signal.(ComUpdateBitPosition) else ret tt in
          ret dataChanged
        else ret false in
      let* ok := Com_Misc_TriggerTxOnConditions Signal.(ComIPduHandleId) dataChanged
                   Signal.(ComTransferProperty) in
      let* _ := SchM_Exit_Com_EA_0 in
      ret (if ok then E_OK else COM_SERVICE_NOT_AVAILABLE))).

(** The buffer of the caller is the argument [SignalDataPtr] and part of the result. *)
Definition Com_ReceiveSignal (SignalId : Z) (SignalDataPtr : list Z) : T (Z * list Z) :=
  if_init COM_RECEIVESIGNAL_ID (COM_SERVICE_NOT_AVAILABLE, SignalDataPtr) (
  let* c := cfg in
  if_below COM_RECEIVESIGNAL_ID SignalId c.(ComNofSignals) (COM_SERVICE_NOT_AVAILABLE, SignalDataPtr) (
  let* Signal := GET_Signal SignalId in
  let L := Signal.(Sig_layout) in
  if Signal.(ComIPduHandleId) =? NO_PDU_REFERENCE then
    let* v := deref (read_bytes Signal.(ComSignalInitValue) 0
                       (SignalTypeToSize L.(l_type) (L.(l_size) / 8))) in
    let* out := deref (write_bytes SignalDataPtr 0 v) in
    ret (E_OK, out)
  else
    let* IPdu := GET_IPdu Signal.(ComIPduHandleId) in
    let* Arc_IPdu := GET_ArcIPdu Signal.(ComIPduHandleId) in
    let* (r, pduBuffer) :=
      if deferred_rx IPdu then ret (E_OK, Arc_IPdu.(ComIPduDeferredDataPtr))
      else
        let* lk := isPduBufferLocked Signal.(ComIPduHandleId) in
        ret (if lk then COM_BUSY else E_OK, Arc_IPdu.(ComIPduDataPtr)) in
    let* out := ReadSignalDataFromPdu pduBuffer L SignalDataPtr in
    ret (if negb Arc_IPdu.(Com_Arc_IpduStarted) && (r =? E_OK)
         then COM_SERVICE_NOT_AVAILABLE else r, out))).

(** The result: the return code, the caller's buffer and [*Length]. *)
Definition Com_ReceiveDynSignal (SignalId : Z) (SignalDataPtr : list Z) (Length : Z)
    : T (Z * list Z * Z) :=
  if_init COM_RECEIVEDYNSIGNAL_ID (COM_SERVICE_NOT_AVAILABLE, SignalDataPtr, Length) (
  let* Signal := GET_Signal SignalId in
  let* Arc_IPdu := GET_ArcIPdu Signal.(ComIPduHandleId) in
  let* IPdu := GET_IPdu Signal.(ComIPduHandleId) in
  let L := Signal.(Sig_layout) in
  if negb (bool_decide (L.(l_type) = COM_UINT8_DYN))
  then ret (COM_SERVICE_NOT_AVAILABLE, SignalDataPtr, Length)
  else
    let* _ := SchM_Enter_Com_EA_0 in
    let* (r, out, Length) :=
      if Length >=? Arc_IPdu.(Com_Arc_DynSignalLength) then
        let Length := Arc_IPdu.(Com_Arc_DynSignalLength) in
        let startFromPduByte := L.(l_pos) / 8 in
        let* (r, pduDataPtr) :=
          if deferred_rx IPdu then ret (E_OK, Arc_IPdu.(ComIPduDeferredDataPtr))
          else
            let* lk := isPduBufferLocked Signal.(ComIPduHandleId) in
            ret (if lk then COM_BUSY else E_OK, Arc_IPdu.(ComIPduDataPtr)) in
        let* v := buffer_read pduDataPtr startFromPduByte Length in
        let* out := deref (write_bytes SignalDataPtr 0 v) in
        ret (r, out, Length)
      else ret (E_NOT_OK, SignalDataPtr, Arc_IPdu.(Com_Arc_DynSignalLength)) in
    let* _ := SchM_Exit_Com_EA_0 in
    ret (if negb Arc_IPdu.(Com_Arc_IpduStarted) && (r =? E_OK)
         then COM_SERVICE_NOT_AVAILABLE else r, out, Length)).

Definition Com_SendDynSignal (SignalId : Z) (SignalDataPtr : list Z) (Length : Z) : T Z :=
  if_init COM_SENDDYNSIGNAL_ID COM_SERVICE_NOT_AVAILABLE (
  let* Signal := GET_Signal SignalId in
  let* Arc_IPdu := GET_ArcIPdu Signal.(ComIPduHandleId) in
  let* _ := GET_IPdu Signal.(ComIPduHandleId) in
  let L := Signal.(Sig_layout) in
  if negb (bool_decide (L.(l_type) = COM_UINT8_DYN)) then ret COM_SERVICE_NOT_AVAILABLE
  else
    let* lk := isPduBufferLocked Signal.(ComIPduHandleId) in
    if lk then ret COM_BUSY
    else if L.(l_size) / 8 <? Length then ret E_NOT_OK
    else
      let startFromPduByte := L.(l_pos) / 8 in
      let* _ := SchM_Enter_Com_EA_0 in
      let* new := deref (read_bytes SignalDataPtr 0 Length) in
      let* dataChanged :=
        if negb (Arc_IPdu.(Com_Arc_DynSignalLength) =? Length) then ret true
        else
          let* old := buffer_read Arc_IPdu.(ComIPduDataPtr) startFromPduByte Length in
          ret (negb (bool_decide (old = new))) in
      let* _ := buffer_write Arc_IPdu.(ComIPduDataPtr) startFromPduByte new in
      let* _ := upd_ArcIPdu Signal.(ComIPduHandleId) (set_Com_Arc_DynSignalLength Length) in
      let* _ := if Signal.(ComSignalArcUseUpdateBit)
                then SETBIT Arc_IPdu.(ComIPduDataPtr) Signal.(ComUpdateBitPosition) else ret tt in
      let* ok := Com_Misc_TriggerTxOnConditions Signal.(ComIPduHandleId) dataChanged
                   Signal.(ComTransferProperty) in
      let* _ := SchM_Exit_Com_EA_0 in
      ret (if ok then E_OK else COM_SERVICE_NOT_AVAILABLE)).

(** ** Com_Com.c: I-PDUs *)

(** [PduInfoPtr]'s data and length, which the call may replace. *)
Definition Com_TriggerTransmit (TxPduId : Z) (SduDataPtr : list Z) (SduLength : Z)
    : T (Z * list Z * Z) :=
  if_init COM_TRIGGERTRANSMIT_ID (E_NOT_OK, SduDataPtr, SduLength) (
  let* c := cfg in
  if_below COM_TRIGGERTRANSMIT_ID TxPduId c.(ComNofIPdus) (E_NOT_OK, SduDataPtr, SduLength) (
  let* IPdu := GET_IPdu TxPduId in
  let* Arc_IPdu := GET_ArcIPdu TxPduId in
  let* _ := SchM_Enter_Com_EA_0 in
  let* _ := tx_callout ComTriggerTransmitIPduCallouts IPdu.(ComTriggerTransmitIPduCallout) TxPduId
              IPdu Arc_IPdu.(ComIPduDataPtr) in
  let* data := buffer_read Arc_IPdu.(ComIPduDataPtr) 0 IPdu.(ComIPduSize) in
  let* out := deref (write_bytes SduDataPtr 0 data) in
  let* status :=
    if Arc_IPdu.(Com_Arc_IpduStarted) then
      let* _ := if bool_decide (IPdu.(ComTxIPdu).(ComTxIPduClearUpdateBit) = TRIGGERTRANSMIT)
                then clear_update_bits IPdu Arc_IPdu.(ComIPduDataPtr) else ret tt in
      ret E_OK
    else ret E_NOT_OK in
  let* _ := SchM_Exit_Com_EA_0 in
  ret (status, out, IPdu.(ComIPduSize)))).

Definition Com_TriggerIPDUSend (PduId : Z) : T unit :=
  if_init COM_TRIGGERIPDUSEND_ID tt (
  let* c := cfg in
  if_below COM_TRIGGERIPDUSEND_ID PduId c.(ComNofIPdus) tt (
  let* _ := Com_Misc_TriggerIPDUSend PduId in ret tt)).

Definition rx_callout (n RxPduId : Z) (sdu : list Z) : T bool :=
  if n =? COM_NO_FUNCTION_CALLOUT then ret true
  else
    let* f := deref (aref ComRxIPduCallouts n) in
    match f with None => ret true | Some f => call (f RxPduId sdu) end.

(** Is the counter of the received I-PDU as expected?  Otherwise the error is notified. *)
Definition counter_accepts (IPdu : ComIPdu_type) (sdu : list Z) : T bool :=
  match (if COM_IPDU_COUNTING_ENABLE then IPdu.(ComIpduCounterRef) else None) with
  | Some c =>
      let* ok := Com_Misc_validateIPduCounter c sdu in
      if ok then ret true
      else
        let* _ :=
          if c.(ComIPduCntErrNotification) =? COM_NO_FUNCTION_CALLOUT then ret tt
          else
            let* f := deref (aref ComNotificationCallouts c.(ComIPduCntErrNotification)) in
            let* f := deref f in notify f in
        ret false
  | None => ret true
  end.

(** [sdu] is the data at [PduInfoPtr->SduDataPtr]; the length is not read. *)
Definition Com_RxIndication (RxPduId : Z) (sdu : list Z) : T unit :=
  if_init COM_RXINDICATION_ID tt (
  let* c := cfg in
  if_below COM_RXINDICATION_ID RxPduId c.(ComNofIPdus) tt (
  let* IPdu := GET_IPdu RxPduId in
  let* Arc_IPdu := GET_ArcIPdu RxPduId in
  let* _ := SchM_Enter_Com_EA_0 in
  let* _ :=
    if Arc_IPdu.(Com_Arc_IpduStarted) then
      let* status := rx_callout IPdu.(ComRxIPduCallout) RxPduId sdu in
      if status then
        let* status := counter_accepts IPdu sdu in
        if status then
          let* data := deref (read_bytes sdu 0 IPdu.(ComIPduSize)) in
          let* _ := buffer_write Arc_IPdu.(ComIPduDataPtr) 0 data in
          Com_Misc_RxProcessSignals IPdu Arc_IPdu
        else ret tt
      else ret tt
    else ret tt in
  SchM_Exit_Com_EA_0)).

Definition Com_TpRxIndication (PduId Result : Z) : T unit :=
  if_init COM_TPRXINDICATION_ID tt (
  let* c := cfg in
  if_below COM_RXINDICATION_ID PduId c.(ComNofIPdus) tt (
  let* IPdu := GET_IPdu PduId in
  let* Arc_IPdu := GET_ArcIPdu PduId in
  let* _ := SchM_Enter_Com_EA_0 in
  let* _ :=
    if Arc_IPdu.(Com_Arc_IpduStarted) then
      if Result =? NTFRSLT_OK then
        let* _ := if bool_decide (IPdu.(ComIPduSignalProcessing) = COM_IMMEDIATE)
                  then Com_Misc_UnlockTpBuffer PduId else ret tt in
        Com_Misc_RxProcessSignals IPdu Arc_IPdu
      else Com_Misc_UnlockTpBuffer PduId
    else Com_Misc_UnlockTpBuffer PduId in
  SchM_Exit_Com_EA_0)).

Definition Com_TpTxConfirmation (PduId Result : Z) : T unit :=
  if_init COM_TPTXCONFIRMATION_ID tt (
  let* c := cfg in
  if_below COM_RXINDICATION_ID PduId c.(ComNofIPdus) tt (
  let* _ := SchM_Enter_Com_EA_0 in
  let* _ := Com_Misc_UnlockTpBuffer PduId in
  SchM_Exit_Com_EA_0)).

Definition Com_TxConfirmation (TxPduId : Z) : T unit :=
  if_init COM_TXCONFIRMATION_ID tt (
  let* c := cfg in
  if_below COM_RXINDICATION_ID TxPduId c.(ComNofIPdus) tt (
  let* IPdu := GET_IPdu TxPduId in
  let* Arc_IPdu := GET_ArcIPdu TxPduId in
  if bool_decide (IPdu.(ComIPduDirection) = COM_RECEIVE)
  then DET_REPORTERROR COM_TXCONFIRMATION_ID COM_INVALID_PDU_ID
  else
    let* _ := if 0 <? Arc_IPdu.(Com_Arc_TxDeadlineCounter) then Com_Misc_TxHandleDM TxPduId
              else ret tt in
    let* _ := if bool_decide (IPdu.(ComTxIPdu).(ComTxIPduClearUpdateBit) = CONFIRMATION)
              then clear_update_bits IPdu Arc_IPdu.(ComIPduDataPtr) else ret tt in
    if bool_decide (IPdu.(ComIPduSignalProcessing) = COM_IMMEDIATE)
    then for_signals_unchecked IPdu (fun signal => notification signal.(ComNotification))
    else Com_Misc_SetTxConfirmationStatus IPdu true)).

(** ** Com_Com.c: signal groups *)
Definition Com_SendSignalGroup (SignalGroupId : Z) : T Z :=
  if_init COM_SENDSIGNALGROUP_ID COM_SERVICE_NOT_AVAILABLE (
  let* Signal := GET_Signal SignalGroupId in
  if Signal.(ComIPduHandleId) =? NO_PDU_REFERENCE then ret COM_SERVICE_NOT_AVAILABLE
  else
    let* Arc_IPdu := GET_ArcIPdu Signal.(ComIPduHandleId) in
    let* IPdu := GET_IPdu Signal.(ComIPduHandleId) in
    let* lk := isPduBufferLocked Signal.(ComIPduHandleId) in
    if lk then ret COM_BUSY
    else
      let* _ := SchM_Enter_Com_EA_0 in
      let* dataChanged :=
        Com_Misc_CopySignalGroupDataFromShadowBufferToPdu SignalGroupId (deferred_rx IPdu) in
      let* _ := if Signal.(ComSignalArcUseUpdateBit)
                then SETBIT Arc_IPdu.(ComIPduDataPtr) Signal.(ComUpdateBitPosition) else ret tt in
      let* ok := Com_Misc_TriggerTxOnConditions Signal.(ComIPduHandleId) dataChanged
                   Signal.(ComTransferProperty) in
      let* _ := SchM_Exit_Com_EA_0 in
      ret (if ok then E_OK else COM_SERVICE_NOT_AVAILABLE)).

Definition Com_ReceiveSignalGroup (SignalGroupId : Z) : T Z :=
  if_init COM_RECEIVESIGNALGROUP_ID COM_SERVICE_NOT_AVAILABLE (
  let* Signal := GET_Signal SignalGroupId in
  if Signal.(ComIPduHandleId) =? NO_PDU_REFERENCE then ret COM_SERVICE_NOT_AVAILABLE
  else
    let* _ := GET_IPdu Signal.(ComIPduHandleId) in
    let* lk := isPduBufferLocked Signal.(ComIPduHandleId) in
    if lk then ret COM_BUSY
    else
      let* _ := SchM_Enter_Com_EA_0 in
      let* _ := Com_Misc_CopySignalGroupDataFromPduToShadowBuffer SignalGroupId in
      let* _ := SchM_Exit_Com_EA_0 in
      let* Arc_IPdu := GET_ArcIPdu Signal.(ComIPduHandleId) in
      ret (if Arc_IPdu.(Com_Arc_IpduStarted) then E_OK else COM_SERVICE_NOT_AVAILABLE)).

Definition Com_UpdateShadowSignal (SignalId : Z) (SignalDataPtr : list Z) : T unit :=
  if_init COM_UPDATESHADOWSIGNAL_ID tt (
  let* c := cfg in
  if_below COM_UPDATESHADOWSIGNAL_ID SignalId c.(ComNofGroupSignals) tt (
  let* Arc_GroupSignal := GET_ArcGroupSignal SignalId in
  match Arc_GroupSignal.(Arc_Grp_ShadowBuffer) with
  | Some _ => Com_Misc_UpdateShadowSignal SignalId SignalDataPtr
  | None => ret tt
  end)).

Definition Com_ReceiveShadowSignal (SignalId : Z) (SignalDataPtr : list Z) : T (list Z) :=
  if_init COM_RECEIVESHADOWSIGNAL_ID SignalDataPtr (
  let* c := cfg in
  if_below COM_RECEIVESHADOWSIGNAL_ID SignalId c.(ComNofGroupSignals) SignalDataPtr (
  let* GroupSignal := GET_GroupSignal SignalId in
  let* Arc_GroupSignal := GET_ArcGroupSignal SignalId in
  let L := GroupSignal.(Grp_layout) in
  match Arc_GroupSignal.(Arc_Grp_ShadowBuffer) with
  | None =>
      let* v := deref (read_bytes GroupSignal.(Grp_ComSignalInitValue) 0
                         (SignalTypeToSize L.(l_type) (L.(l_size) / 8))) in
      deref (write_bytes SignalDataPtr 0 v)
  | Some p => ReadSignalDataFromPdu (Some p) L SignalDataPtr
  end)).

(** ** Com_misc.c: the signal gateway *)

(** Where a gated signal goes: the buffer it is written to, its position there, and what
    follows. *)
Record GwDestination := {
  gd_iPduHandle : Z;
  gd_sigHandle : Z;
  gd_data : option Z;
  gd_bitpos : Z;
  gd_endian : ComSignalEndianess_type;
  gd_ubitPos : Z;
  gd_updateBitUsed : bool;
  gd_transferProperty : ComTransferPropertyType
}.

Definition gw_destination (d : ComGwDestn_type) : T (option GwDestination) :=
  let sigHandle := d.(ComGwDestinationSignalHandle) in
  match d.(ComGwDestinationSignalRef) with
  | COM_SIGNAL_REFERENCE =>
      let* s := GET_Signal sigHandle in
      let* a := GET_ArcIPdu s.(ComIPduHandleId) in
      ret (Some {| gd_iPduHandle := s.(ComIPduHandleId); gd_sigHandle := sigHandle;
                   gd_data := a.(ComIPduDataPtr); gd_bitpos := s.(Sig_layout).(l_pos);
                   gd_endian := s.(Sig_layout).(l_endian); gd_ubitPos := s.(ComUpdateBitPosition);
                   gd_updateBitUsed := s.(ComSignalArcUseUpdateBit);
                   gd_transferProperty := s.(ComTransferProperty) |})
  | COM_GROUP_SIGNAL_REFERENCE =>
      let* g := GET_GroupSignal sigHandle in
      let sigHandle := g.(ComSigGrpHandleId) in
      let* s := GET_Signal sigHandle in
      let* _ := GET_ArcIPdu s.(ComIPduHandleId) in
      let* arcSigDest := GET_ArcSignal sigHandle in
      ret (Some {| gd_iPduHandle := s.(ComIPduHandleId); gd_sigHandle := sigHandle;
                   gd_data := arcSigDest.(Com_Arc_ShadowBuffer);
                   gd_bitpos := g.(Grp_layout).(l_pos); gd_endian := g.(Grp_layout).(l_endian);
                   gd_ubitPos := s.(ComUpdateBitPosition);
                   gd_updateBitUsed := s.(ComSignalArcUseUpdateBit);
                   gd_transferProperty := s.(ComTransferProperty) |})
  | GATEWAY_SIGNAL_DESCRIPTION =>
      let* g := GET_GwDestnSigDesc sigHandle in
      let* a := GET_ArcIPdu g.(Dst_ComIPduHandleId) in
      ret (Some {| gd_iPduHandle := g.(Dst_ComIPduHandleId); gd_sigHandle := sigHandle;
                   gd_data := a.(ComIPduDataPtr); gd_bitpos := g.(Dst_layout).(l_pos);
                   gd_endian := g.(Dst_layout).(l_endian);
                   gd_ubitPos := g.(Dst_ComUpdateBitPosition);
                   gd_updateBitUsed := g.(Dst_ComSignalArcUseUpdateBit);
                   gd_transferProperty := g.(Dst_ComTransferProperty) |})
  | COM_SIGNAL_GROUP_REFERENCE => ret None
  end.

Definition route_to (gwSignalRef : ComGwSignalRef_type) (d : GwDestination) (SignalDataPtr : list Z)
    (ComSigType : Com_SignalType) (ComBitSize : Z) : T unit :=
  let* dataChanged := WriteSignalDataToPdu SignalDataPtr d.(gd_data)
    {| l_type := ComSigType; l_endian := d.(gd_endian); l_pos := d.(gd_bitpos); l_size := ComBitSize |} in
  let* _ := if d.(gd_updateBitUsed) then SETBIT d.(gd_data) d.(gd_ubitPos) else ret tt in
  let* _ := SchM_Enter_Com_EA_0 in
  let* dataChanged :=
    if bool_decide (gwSignalRef = COM_GROUP_SIGNAL_REFERENCE) then
      let* dataChanged := Com_Misc_CopySignalGroupDataFromShadowBufferToPdu d.(gd_sigHandle) false in
      let* a := GET_ArcIPdu d.(gd_iPduHandle) in
      let* _ := if d.(gd_updateBitUsed) then SETBIT a.(ComIPduDataPtr) d.(gd_ubitPos) else ret tt in
      ret dataChanged
    else ret dataChanged in
  let* _ := Com_Misc_TriggerTxOnConditions d.(gd_iPduHandle) dataChanged d.(gd_transferProperty) in
  SchM_Exit_Com_EA_0.

(** The loop over the destinations; it ends early at one of an erroneous kind. *)
Fixpoint route_all (n : nat) (ds : list ComGwDestn_type) (SignalDataPtr : list Z)
    (ComSigType : Com_SignalType) (ComBitSize : Z) : T unit :=
  match n with
  | O => ret tt
  | S n =>
      let* d := deref (head ds) in
      let* dest := gw_destination d in
      match dest with
      | None => ret tt
      | Some dest =>
          let* _ := route_to d.(ComGwDestinationSignalRef) dest SignalDataPtr ComSigType ComBitSize in
          route_all n (tail ds) SignalDataPtr ComSigType ComBitSize
      end
  end.

Definition Com_Misc_RouteGwDestnSignals (m : ComGwMapping_type) (SignalDataPtr : list Z)
    (ComSigType : Com_SignalType) (ComBitSize : Z) : T unit :=
  route_all (Z.to_nat m.(ComGwNoOfDesitnationRoutes)) m.(ComGwDestinationRef) SignalDataPtr
    ComSigType ComBitSize.

(** [SigDataPtr] is the caller's array. *)
Definition Com_Misc_ExtractGwSrcSigData (iPduHandle : Z) (SigDataPtr : list Z) (pduInfo : Layout)
    : T (list Z) :=
  let* arcIPduSrc := GET_ArcIPdu iPduHandle in
  let* iPdu := GET_IPdu iPduHandle in
  let pduDataPtr := if bool_decide (iPdu.(ComIPduSignalProcessing) = COM_DEFERRED)
                    then arcIPduSrc.(ComIPduDeferredDataPtr) else arcIPduSrc.(ComIPduDataPtr) in
  if negb (bool_decide (pduInfo.(l_type) = COM_UINT8_N)) &&
     negb (bool_decide (pduInfo.(l_type) = COM_UINT8_DYN))
  then ReadSignalDataFromPdu pduDataPtr pduInfo SigDataPtr
  else
    let* _ := SchM_Enter_Com_EA_0 in
    let* v := buffer_read pduDataPtr (pduInfo.(l_pos) / 8) (pduInfo.(l_size) / 8) in
    let* out := deref (write_bytes SigDataPtr 0 v) in
    let* _ := SchM_Exit_Com_EA_0 in
    ret out.

(** ** Com_Sched.c *)
Definition Com_ProcessMixedOrPeriodicTxMode (IPduId : Z) (dmTimeOut : bool) : T unit :=
  let* IPdu := GET_IPdu IPduId in
  let* Arc_IPdu := GET_ArcIPdu IPduId in
  let m := txModePtr IPdu Arc_IPdu in
  let upd f := upd_ArcIPdu IPduId (set_timer f) in
  let* _ := upd (fun t => set_ComTxModeTimePeriodTimer (timerDec t.(ComTxModeTimePeriodTimer)) t) in
  let* _ :=
    if bool_decide (m.(ComTxModeMode) = COM_MIXED) &&
       (Arc_IPdu.(Com_Arc_TxIPduTimers).(ComTxIPduNumberOfRepetitionsLeft) >? 0) then
      let* _ := upd (fun t => set_ComTxModeRepetitionPeriodTimer
                                (timerDec t.(ComTxModeRepetitionPeriodTimer)) t) in
      if negb dmTimeOut then
        let* Arc_IPdu := GET_ArcIPdu IPduId in
        let t := Arc_IPdu.(Com_Arc_TxIPduTimers) in
        if (t.(ComTxModeRepetitionPeriodTimer) =? 0) && (t.(ComTxIPduMinimumDelayTimer) =? 0) then
          let* _ := Com_TriggerIPDUSend IPduId in
          let* _ := upd (set_ComTxModeRepetitionPeriodTimer m.(ComTxModeRepetitionPeriodFactor)) in
          upd (fun t => set_ComTxIPduNumberOfRepetitionsLeft
                          (u8 (t.(ComTxIPduNumberOfRepetitionsLeft) - 1)) t)
        else ret tt
      else
        let* _ := upd (set_ComTxIPduNumberOfRepetitionsLeft 0) in
        upd (set_ComTxIPduNumberOfTxConfirmations 0)
    else ret tt in
  let* Arc_IPdu := GET_ArcIPdu IPduId in
  let t := Arc_IPdu.(Com_Arc_TxIPduTimers) in
  if (t.(ComTxModeTimePeriodTimer) =? 0) && (t.(ComTxIPduMinimumDelayTimer) =? 0) then
    let* _ := Com_TriggerIPDUSend IPduId in
    let* _ := upd (set_ComTxModeTimePeriodTimer m.(ComTxModeTimePeriodFactor)) in
    let* Arc_IPdu := GET_ArcIPdu IPduId in
    if (0 <? Arc_IPdu.(Com_Arc_TxDeadlineCounter)) &&
       (Arc_IPdu.(Com_Arc_TxIPduTimers).(ComTxDMTimer) =? 0)
    then upd (set_ComTxDMTimer Arc_IPdu.(Com_Arc_TxDeadlineCounter))
    else ret tt
  else ret tt.

Definition Com_ProcessDirectTxMode (IPduId : Z) (dmTimeOut : bool) : T unit :=
  let* IPdu := GET_IPdu IPduId in
  let* Arc_IPdu := GET_ArcIPdu IPduId in
  let m := txModePtr IPdu Arc_IPdu in
  let upd f := upd_ArcIPdu IPduId (set_timer f) in
  if Arc_IPdu.(Com_Arc_TxIPduTimers).(ComTxIPduNumberOfRepetitionsLeft) >? 0 then
    let* _ := upd (fun t => set_ComTxModeRepetitionPeriodTimer
                              (timerDec t.(ComTxModeRepetitionPeriodTimer)) t) in
    if negb dmTimeOut then
      let* Arc_IPdu := GET_ArcIPdu IPduId in
      let t := Arc_IPdu.(Com_Arc_TxIPduTimers) in
      if (t.(ComTxModeRepetitionPeriodTimer) =? 0) && (t.(ComTxIPduMinimumDelayTimer) =? 0) then
        let* _ := Com_TriggerIPDUSend IPduId in
        let* _ := upd (set_ComTxModeRepetitionPeriodTimer m.(ComTxModeRepetitionPeriodFactor)) in
        upd (fun t => set_ComTxIPduNumberOfRepetitionsLeft
                        (u8 (t.(ComTxIPduNumberOfRepetitionsLeft) - 1)) t)
      else ret tt
    else
      let* _ := upd (set_ComTxIPduNumberOfRepetitionsLeft 0) in
      upd (set_ComTxIPduNumberOfTxConfirmations 0)
  else ret tt.

(** The action at an expired reception deadline. *)
Definition rx_timeout (Arc_IPdu : Com_Arc_IPdu_type) (signal : ComSignal_type) : T unit :=
  let* _ :=
    if bool_decide (signal.(ComRxDataTimeoutAction) = COM_TIMEOUT_DATA_ACTION_REPLACE) then
      if signal.(Com_Arc_IsSignalGroup) then
        let* gs := deref signal.(ComGroupSignal) in
        let* _ := for_each 0 gs (fun _ g =>
          let* _ := WriteSignalDataToPdu g.(Grp_ComSignalInitValue) Arc_IPdu.(ComIPduDataPtr)
                      g.(Grp_layout) in ret tt) in
        upd_ArcSignal signal.(ComHandleId) (set_ComSignalUpdated true)
      else
        let* _ := upd_ArcSignal signal.(ComHandleId) (set_ComSignalUpdated true) in
        let* _ := WriteSignalDataToPdu signal.(ComSignalInitValue) Arc_IPdu.(ComIPduDataPtr)
                    signal.(Sig_layout) in
        ret tt
    else ret tt in
  let* _ := notification signal.(ComTimeoutNotification) in
  let* _ :=
    if COM_OSEKNM_SUPPORT && negb (signal.(ComOsekNmNetId) =? COM_OSEKNM_INVALID_NET_ID)
    then notify (OsekNm_TimeoutNotification signal.(ComOsekNmNetId) signal.(ComOsekNmNodeId))
    else ret tt in
  upd_ArcSignal signal.(ComHandleId) (set_Com_Arc_DeadlineCounter signal.(ComTimeoutFactor)).

(** One signal of [Com_MainFunctionRx]. *)
Definition monitor_rx_signal (Arc_IPdu : Com_Arc_IPdu_type) (signal : ComSignal_type) : T unit :=
  let* a := GET_ArcSignal signal.(ComHandleId) in
  let* _ :=
    if Arc_IPdu.(Com_Arc_IpduRxDMControl) && (signal.(ComTimeoutFactor) >? 0) &&
       negb (a.(Com_Arc_DeadlineCounter) =? 0) then
      let* _ := upd_ArcSignal signal.(ComHandleId)
                  (set_Com_Arc_DeadlineCounter (timerDec a.(Com_Arc_DeadlineCounter))) in
      if timerDec a.(Com_Arc_DeadlineCounter) =? 0 then rx_timeout Arc_IPdu signal else ret tt
    else ret tt in
  if COM_SIG_GATEWAY_ENABLE then
    upd_ArcSignal signal.(ComHandleId) (fun a =>
      set_ComSignalUpdatedGwRouting false (set_ComSignalRoutingReq a.(ComSignalUpdatedGwRouting) a))
  else ret tt.

(** The loop over the signals; the result is [pduUpdated]. *)
Fixpoint monitor_rx_signals (Arc_IPdu : Com_Arc_IPdu_type) (l : list ComSignal_type)
    (pduUpdated : bool) : T bool :=
  match l with
  | [] => ret pduUpdated
  | signal :: l =>
      let* _ := monitor_rx_signal Arc_IPdu signal in
      let* a := GET_ArcSignal signal.(ComHandleId) in
      monitor_rx_signals Arc_IPdu l (pduUpdated || a.(ComSignalUpdated))
  end.

(** The deferred notifications. *)
Definition deferred_processing (pduId : Z) (IPdu : ComIPdu_type) (Arc_IPdu : Com_Arc_IPdu_type) : T unit :=
  let* _ := Com_Misc_UnlockTpBuffer pduId in
  let* data := buffer_read Arc_IPdu.(ComIPduDataPtr) 0 IPdu.(ComIPduSize) in
  let* _ := buffer_write Arc_IPdu.(ComIPduDeferredDataPtr) 0 data in
  for_signals IPdu (fun signal =>
    let* a := GET_ArcSignal signal.(ComHandleId) in
    if a.(ComSignalUpdated) then
      let* _ := notification signal.(ComNotification) in
      upd_ArcSignal signal.(ComHandleId) (set_ComSignalUpdated false)
    else ret tt).

Definition main_rx_pdu (pduId : Z) (IPdu : ComIPdu_type) : T unit :=
  let* Arc_IPdu := GET_ArcIPdu pduId in
  if bool_decide (IPdu.(ComIPduDirection) = COM_RECEIVE) && Arc_IPdu.(Com_Arc_IpduStarted) then
    let* _ := SchM_Enter_Com_EA_0 in
    let* pduUpdated := monitor_rx_signals Arc_IPdu (signals IPdu) false in
    let* _ :=
      if pduUpdated && bool_decide (IPdu.(ComIPduSignalProcessing) = COM_DEFERRED)
      then deferred_processing pduId IPdu Arc_IPdu else ret tt in
    let* _ :=
      if COM_SIG_GATEWAY_ENABLE && IPdu.(ComIPduGwRoutingReq) then
        for_each 0 (default [] IPdu.(ComIPduGwMapSigDescHandle)) (fun _ srcSigDescHandle =>
          let* a := GET_ArcGwSrcSigDesc srcSigDescHandle in
          put_ArcGwSrcSigDesc srcSigDescHandle
            {| Src_ComSignalUpdatedGwRouting := false;
               Src_ComSignalRoutingReq := a.(Src_ComSignalUpdatedGwRouting) |})
      else ret tt in
    SchM_Exit_Com_EA_0
  else ret tt.

(** [for (uint16 i = 0; 0 == ComConfig->ComIPdu[i].Com_Arc_EOL; i++)] *)
Definition for_IPdus (body : Z -> ComIPdu_type -> T unit) : T unit :=
  let* c := cfg in
  for_each 0 c.(ComIPdu) (fun i => body (Z.of_nat i)).

Definition Com_MainFunctionRx : T unit :=
  if_init COM_MAINFUNCTIONRX_ID tt (for_IPdus main_rx_pdu).

(** The notifications of one signal at the end of [Com_MainFunctionTx]. *)
Definition tx_notifications (confirmationStatus dmTimeOut : bool) (signal : ComSignal_type) : T unit :=
  let* _ := if confirmationStatus then notification signal.(ComNotification) else ret tt in
  if dmTimeOut then
    let* _ := notification signal.(ComTimeoutNotification) in
    if COM_OSEKNM_SUPPORT && negb (signal.(ComOsekNmNetId) =? COM_OSEKNM_INVALID_NET_ID)
    then notify (OsekNm_TimeoutNotification signal.(ComOsekNmNetId) signal.(ComOsekNmNodeId))
    else ret tt
  else ret tt.

Definition main_tx_pdu (i : Z) (IPdu : ComIPdu_type) : T unit :=
  let* Arc_IPdu := GET_ArcIPdu i in
  if bool_decide (IPdu.(ComIPduDirection) = COM_SEND) && Arc_IPdu.(Com_Arc_IpduStarted) then
    let m := txModePtr IPdu Arc_IPdu in
    let t := Arc_IPdu.(Com_Arc_TxIPduTimers) in
    let* _ := SchM_Enter_Com_EA_0 in
    let* _ := upd_ArcIPdu i (set_timer (set_ComTxIPduMinimumDelayTimer
                (timerDec t.(ComTxIPduMinimumDelayTimer)))) in
    let* dmTimeOut :=
      if (0 <? Arc_IPdu.(Com_Arc_TxDeadlineCounter)) && (0 <? t.(ComTxDMTimer)) then
        let* _ := upd_ArcIPdu i (set_timer (set_ComTxDMTimer (timerDec t.(ComTxDMTimer)))) in
        ret (timerDec t.(ComTxDMTimer) =? 0)
      else ret false in
    let* _ :=
      match m.(ComTxModeMode) with
      | COM_PERIODIC | COM_MIXED => Com_ProcessMixedOrPeriodicTxMode i dmTimeOut
      | COM_DIRECT => Com_ProcessDirectTxMode i dmTimeOut
      | COM_NONE => ret tt
      end in
    let* _ := SchM_Exit_Com_EA_0 in
    let* confirmationStatus := Com_Misc_GetTxConfirmationStatus IPdu in
    let* _ := Com_Misc_SetTxConfirmationStatus IPdu false in
    for_signals IPdu (tx_notifications confirmationStatus dmTimeOut)
  else ret tt.

Definition Com_MainFunctionTx : T unit :=
  if_init COM_MAINFUNCTIONTX_ID tt (for_IPdus main_tx_pdu).

(** [for (byteCnt = 0; byteCnt < noOfBytes; byteCnt++) dst[destByteNo++] = src[srcByteNo++];] *)
Fixpoint copy_bytes (n : nat) (dst src : Z) (b : list Z) : option (list Z) :=
  match n with
  | O => Some b
  | S n => v ← load b src; b ← store b dst v; copy_bytes n (dst + 1) (src + 1) b
  end.

Definition route_group_to (comSignalSrc : ComSignal_type) (srcHandle : Z) (d : ComGwDestn_type) : T unit :=
  let sigHandle := d.(ComGwDestinationSignalHandle) in
  let* comSignalDest := GET_Signal sigHandle in
  let* arcSignalDest := GET_ArcSignal sigHandle in
  let* arcSignalSrc := GET_ArcSignal srcHandle in
  let srcByteNo := comSignalSrc.(Sig_layout).(l_pos) / 8 in
  let noOfBytes := u16 (comSignalSrc.(ComEndBitPosition) / 8 - srcByteNo + 1) in
  let destByteNo := comSignalDest.(Sig_layout).(l_pos) / 8 in
  let* _ := SchM_Enter_Com_EA_0 in
  let* src := deref arcSignalSrc.(Com_Arc_ShadowBuffer) in
  let* dst := deref arcSignalDest.(Com_Arc_ShadowBuffer) in
  let* b := get Com_Arc_Buffer in
  let* b := deref (copy_bytes (Z.to_nat noOfBytes) (dst + destByteNo) (src + srcByteNo) b) in
  let* _ := put_buffer b in
  let* _ := SchM_Exit_Com_EA_0 in
  let* _ := Com_SendSignalGroup sigHandle in
  ret tt.

(** Is the source updated, the I-PDU it is in, and its layout. *)
Definition gw_source (m : ComGwMapping_type) : T (option (bool * Z * Layout)) :=
  let sigHandle := m.(ComGwSourceSignalHandle) in
  match m.(ComGwSourceSignalRef) with
  | COM_SIGNAL_REFERENCE =>
      let* s := GET_Signal sigHandle in
      let* a := GET_ArcSignal s.(ComHandleId) in
      ret (Some (a.(ComSignalRoutingReq), s.(ComIPduHandleId), s.(Sig_layout)))
  | COM_GROUP_SIGNAL_REFERENCE =>
      let* g := GET_GroupSignal sigHandle in
      let* s := GET_Signal g.(ComSigGrpHandleId) in
      let* a := GET_ArcSignal s.(ComHandleId) in
      ret (Some (a.(ComSignalRoutingReq), s.(ComIPduHandleId), g.(Grp_layout)))
  | GATEWAY_SIGNAL_DESCRIPTION =>
      let* g := GET_GwSrcSigDesc sigHandle in
      let* a := GET_ArcGwSrcSigDesc sigHandle in
      ret (Some (a.(Src_ComSignalRoutingReq), g.(Src_ComIPduHandleId), g.(Src_layout)))
  | COM_SIGNAL_GROUP_REFERENCE => ret None
  end.

Definition route_mapping (m : ComGwMapping_type) : T unit :=
  let sigHandle := m.(ComGwSourceSignalHandle) in
  if bool_decide (m.(ComGwSourceSignalRef) = COM_SIGNAL_GROUP_REFERENCE) then
    let* comSignalSrc := GET_Signal sigHandle in
    let* a := GET_ArcSignal sigHandle in
    if a.(ComSignalRoutingReq) then
      let* _ := SchM_Enter_Com_EA_0 in
      let* _ := Com_Misc_CopySignalGroupDataFromPduToShadowBuffer sigHandle in
      let* _ := SchM_Exit_Com_EA_0 in
      for_each 0 (seq 0 (Z.to_nat m.(ComGwNoOfDesitnationRoutes))) (fun _ j =>
        let* d := deref (m.(ComGwDestinationRef) !! j) in
        route_group_to comSignalSrc sigHandle d)
    else ret tt
  else
    let* src := gw_source m in
    match src with
    | Some (true, iPduHandle, pduInfo) =>
        let* Data := Com_Misc_ExtractGwSrcSigData iPduHandle (automatic <$> seq 0 8) pduInfo in
        Com_Misc_RouteGwDestnSignals m Data pduInfo.(l_type) pduInfo.(l_size)
    | _ => ret tt
    end.

Definition Com_MainFunctionRouteSignals : T unit :=
  if_init COM_MAINFUNCTIONROUTESIGNALS_ID tt (
  if COM_SIG_GATEWAY_ENABLE then
    let* c := cfg in
    for_each 0 c.(ComGwMappingRef) (fun _ m => route_mapping m)
  else ret tt).

(** ** Com.c: initialisation *)

(** One group signal of a signal group in [Com_Init]. *)
Definition init_group_signal (shadow : Z) (GroupSignal : ComGroupSignal_type) : T unit :=
  let* _ := put_ArcGroupSignal GroupSignal.(Grp_ComHandleId) {| Arc_Grp_ShadowBuffer := Some shadow |} in
  Com_Misc_UpdateShadowSignal GroupSignal.(Grp_ComHandleId) GroupSignal.(Grp_ComSignalInitValue).

(** One signal of an I-PDU; [i] is the I-PDU, [shadow] the value of [bufferIndex]. *)
Definition init_signal (i : Z) (IPdu : ComIPdu_type) (shadow : Z) (Signal : ComSignal_type) : T unit :=
  let* Arc_IPdu := GET_ArcIPdu i in
  let p := Arc_IPdu.(ComIPduDataPtr) in
  let* _ := GET_ArcSignal Signal.(ComHandleId) in
  let* _ :=
    if Signal.(ComTimeoutFactor) >? 0 then
      if bool_decide (IPdu.(ComIPduDirection) = COM_RECEIVE)
      then upd_ArcSignal Signal.(ComHandleId)
             (set_Com_Arc_DeadlineCounter Signal.(ComFirstTimeoutFactor))
      else upd_ArcIPdu i (set_Com_Arc_TxDeadlineCounter Signal.(ComTimeoutFactor))
    else ret tt in
  let* _ := if Signal.(ComSignalArcUseUpdateBit)
            then CLEARBIT p Signal.(ComUpdateBitPosition) else ret tt in
  if Signal.(Com_Arc_IsSignalGroup) then
    let* _ := upd_ArcSignal Signal.(ComHandleId) (set_Com_Arc_ShadowBuffer (Some shadow)) in
    let* gs := deref Signal.(ComGroupSignal) in
    let* _ := for_each 0 gs (fun _ => init_group_signal shadow) in
    let* _ := Com_Misc_CopySignalGroupDataFromShadowBufferToPdu Signal.(ComHandleId) false in
    ret tt
  else
    let* _ := WriteSignalDataToPdu Signal.(ComSignalInitValue) p Signal.(Sig_layout) in
    ret tt.

(** The body of the loop after the check of the number of I-PDUs; the result is
    [bufferIndex]. *)
Definition init_IPdu (i : Z) (IPdu : ComIPdu_type) (bufferIndex : Z) : T Z :=
  let tx := IPdu.(ComTxIPdu) in
  let* _ := upd_ArcIPdu i (set_ComIPduDataPtr (Some bufferIndex)) in
  let p := Some bufferIndex in
  let bufferIndex := u16 (bufferIndex + IPdu.(ComIPduSize)) in
  let* _ := upd_ArcIPdu i (set_Com_Arc_IpduTxMode true) in
  let send := bool_decide (IPdu.(ComIPduDirection) = COM_SEND) in
  let* _ :=
    if send && (bool_decide (tx.(ComTxModeTrue).(ComTxModeMode) = COM_PERIODIC) ||
                bool_decide (tx.(ComTxModeTrue).(ComTxModeMode) = COM_MIXED))
    then upd_ArcIPdu i (set_timer (set_ComTxModeTimePeriodTimer
           (u32 (tx.(ComTxModeTrue).(ComTxModeTimeOffsetFactor) + 1))))
    else ret tt in
  let* _ :=
    if send then
      let* _ := buffer_write p 0
                  (replicate (Z.to_nat IPdu.(ComIPduSize)) tx.(ComTxIPduUnusedAreasDefault)) in
      upd_ArcIPdu i (set_timer (set_ComTxIPduMinimumDelayTimer 0))
    else ret tt in
  let* _ := for_signals IPdu (init_signal i IPdu bufferIndex) in
  let pduHasGroupSignal := existsb Com_Arc_IsSignalGroup (signals IPdu) in
  let bufferIndex := if pduHasGroupSignal then u16 (bufferIndex + IPdu.(ComIPduSize)) else bufferIndex in
  let* bufferIndex :=
    if deferred_rx IPdu then
      let* _ := upd_ArcIPdu i (set_ComIPduDeferredDataPtr (Some bufferIndex)) in
      let* data := buffer_read p 0 IPdu.(ComIPduSize) in
      let* _ := buffer_write (Some bufferIndex) 0 data in
      ret (u16 (bufferIndex + IPdu.(ComIPduSize)))
    else ret bufferIndex in
  let* _ :=
    if COM_SIG_GATEWAY_ENABLE && send then
      for_each 0 (default [] IPdu.(ComIPduGwMapSigDescHandle)) (fun _ h =>
        let* GwDestnPtr := GET_GwDestnSigDesc h in
        let* _ := WriteSignalDataToPdu GwDestnPtr.(Dst_ComSignalInitValue) p GwDestnPtr.(Dst_layout) in
        ret tt)
    else ret tt in
  ret bufferIndex.

(** The loop over the I-PDUs; the result is [failure]. *)
Fixpoint init_IPdus (i : nat) (l : list ComIPdu_type) (limit bufferIndex : Z) : T bool :=
  match l with
  | [] => ret false
  | IPdu :: l =>
      let* _ := upd_ArcIPdu (Z.of_nat i) (set_Com_Arc_DynSignalLength 0) in
      let* _ := upd_ArcIPdu (Z.of_nat i) (set_Com_Arc_IpduRxDMControl true) in
      let* _ := upd_ArcIPdu (Z.of_nat i) (set_timer (set_ComTxDMTimer 0)) in
      if Z.of_nat i >=? limit then
        let* _ := DET_REPORTERROR COM_INIT_ID COM_E_TOO_MANY_IPDU in ret true
      else
        let* bufferIndex := init_IPdu (Z.of_nat i) IPdu bufferIndex in
        init_IPdus (S i) l limit bufferIndex
  end.

Definition Com_Init (config : option Com_ConfigType) : T unit :=
  match config with
  | None => DET_REPORTERROR COM_INIT_ID COM_E_PARAM_POINTER
  | Some config =>
      let* _ := modify (set_ComConfig (Some config)) in
      let* failure := init_IPdus 0 config.(ComIPdu) config.(ComNofIPdus) 0 in
      let* _ := for_each 0 (seq 0 (Z.to_nat config.(ComNofIPdus)))
                  (fun _ i => Com_Misc_UnlockTpBuffer (Z.of_nat i)) in
      let* _ := if COM_IPDU_COUNTING_ENABLE then ResetInternalCounterRxStartSts else ret tt in
      if failure then ret tt else modify (set_initStatus COM_INIT)
  end.

Definition Com_DeInit : T unit :=
  if_init COM_DEINIT_ID tt (
  let* _ := for_IPdus (fun i _ => upd_ArcIPdu i (set_Com_Arc_IpduStarted false)) in
  modify (set_initStatus COM_UNINIT)).

(** ** Com.c: I-PDU groups *)

(** The loop over the groups of an I-PDU: is one of them in the vector? *)
Fixpoint in_groups (groupRefs ipduGroupVector : list Z) : option bool :=
  match groupRefs with
  | [] => Some false
  | h :: groupRefs =>
      v ← load ipduGroupVector (h / 8);
      if Z.land (Z.shiftr v (h mod 8)) 1 =? 1 then Some true
      else in_groups groupRefs ipduGroupVector
  end.

(** Restart the reception deadline timers of the I-PDU's signals. *)
Definition restart_rx_deadlines (IPdu : ComIPdu_type) : T unit :=
  for_signals_unchecked IPdu (fun s =>
    let* _ := GET_ArcSignal s.(ComHandleId) in
    if 0 <? s.(ComTimeoutFactor) then
      upd_ArcSignal s.(ComHandleId) (set_Com_Arc_DeadlineCounter
        (if 0 <? s.(ComFirstTimeoutFactor) then s.(ComFirstTimeoutFactor) else 0))
    else ret tt).

Definition control_tx (i : Z) (IPdu : ComIPdu_type) (started Initialize : bool) : T unit :=
  let* Arc_IPdu := GET_ArcIPdu i in
  let m := txModePtr IPdu Arc_IPdu in
  let upd f := upd_ArcIPdu i (set_timer f) in
  let* _ :=
    if started && (0 <? Arc_IPdu.(Com_Arc_TxDeadlineCounter)) then
      let* _ := upd (set_ComTxDMTimer 0) in
      if bool_decide (m.(ComTxModeMode) = COM_NONE)
      then upd (set_ComTxDMTimer Arc_IPdu.(Com_Arc_TxDeadlineCounter)) else ret tt
    else
      let* _ := upd (set_ComTxDMTimer 0) in
      upd (set_ComTxIPduNumberOfTxConfirmations 0) in
  if Initialize && started then
    let* _ := upd (set_ComTxModeRepetitionPeriodTimer 0) in
    let* _ := upd (set_ComTxIPduNumberOfRepetitionsLeft 0) in
    if bool_decide (m.(ComTxModeMode) = COM_PERIODIC) || bool_decide (m.(ComTxModeMode) = COM_MIXED)
    then upd (set_ComTxModeTimePeriodTimer (u32 (m.(ComTxModeTimeOffsetFactor) + 1)))
    else ret tt
  else ret tt.

Definition control_IPdu (ipduGroupVector : list Z) (Initialize : bool) (i : Z) (IPdu : ComIPdu_type)
    : T unit :=
  let* started := deref (in_groups IPdu.(ComIPduGroupRefs) ipduGroupVector) in
  let* Arc_IPdu := GET_ArcIPdu i in
  if negb (Bool.eqb Arc_IPdu.(Com_Arc_IpduStarted) started) || Initialize then
    let* _ := upd_ArcIPdu i (set_Com_Arc_IpduStarted started) in
    let* _ :=
      match (if COM_IPDU_COUNTING_ENABLE && Initialize && started
             then IPdu.(ComIpduCounterRef) else None) with
      | Some c =>
          if bool_decide (IPdu.(ComIPduDirection) = COM_SEND)
          then ResetInternalCounter c.(ComIPduCntrIndex)
          else ReSetInternalRxStartSts c.(ComIPduCntrIndex)
      | None => ret tt
      end in
    let* _ := SchM_Enter_Com_EA_0 in
    let* _ :=
      if bool_decide (IPdu.(ComIPduDirection) = COM_RECEIVE) then
        if started then
          if Arc_IPdu.(Com_Arc_IpduRxDMControl) then restart_rx_deadlines IPdu else ret tt
        else upd_ArcIPdu i (set_Com_Arc_IpduRxDMControl false)
      else control_tx i IPdu started Initialize in
    SchM_Exit_Com_EA_0
  else ret tt.

Definition Com_IpduGroupControl (ipduGroupVector : list Z) (Initialize : bool) : T unit :=
  if_init COM_IPDUGROUPCONTROL_ID tt (for_IPdus (control_IPdu ipduGroupVector Initialize)).

(** The caller's vector is the argument and the result. *)
Definition Com_ClearIpduGroupVector (ipduGroupVector : list Z) : T (list Z) :=
  if_init COM_CLEARIPDUGROUPVECTOR_ID ipduGroupVector
    (ret (replicate (length ipduGroupVector) 0)).

Definition Com_SetIpduGroup (ipduGroupVector : list Z) (ipduGroupId : Z) (bitval : bool) : T (list Z) :=
  if_init COM_SETIPDUGROUP_ID ipduGroupVector (
  let byteIndex := ipduGroupId / 8 in
  let bitIndex := ipduGroupId mod 8 in
  let* v := deref (load ipduGroupVector byteIndex) in
  deref (store ipduGroupVector byteIndex
           (u8 (if bitval then Z.lor v (Z.shiftl 1 bitIndex)
                else Z.land v (Z.lnot (Z.shiftl 1 bitIndex)))))).

Definition dm_control_IPdu (ipduGroupVector : list Z) (i : Z) (IPdu : ComIPdu_type) : T unit :=
  if bool_decide (IPdu.(ComIPduDirection) = COM_RECEIVE) then
    let* enabled := deref (in_groups IPdu.(ComIPduGroupRefs) ipduGroupVector) in
    let* Arc_IPdu := GET_ArcIPdu i in
    if negb (Bool.eqb Arc_IPdu.(Com_Arc_IpduRxDMControl) enabled) then
      let* _ := SchM_Enter_Com_EA_0 in
      let* _ := upd_ArcIPdu i (set_Com_Arc_IpduRxDMControl enabled) in
      let* _ := if enabled then restart_rx_deadlines IPdu else ret tt in
      SchM_Exit_Com_EA_0
    else ret tt
  else ret tt.

Definition Com_ReceptionDMControl (ipduGroupVector : list Z) : T unit :=
  if_init COM_RECEPTIONDMCONTROL_ID tt (for_IPdus (dm_control_IPdu ipduGroupVector)).

Definition Com_SwitchIpduTxMode (PduId : Z) (Mode : bool) : T unit :=
  if_init COM_SWITCHIPDUTXMODE_ID tt (
  let* c := cfg in
  if_below COM_SWITCHIPDUTXMODE_ID PduId c.(ComNofIPdus) tt (
  let* IPdu := GET_IPdu PduId in
  if negb (bool_decide (IPdu.(ComIPduDirection) = COM_SEND))
  then DET_REPORTERROR COM_SWITCHIPDUTXMODE_ID COM_E_PARAM
  else
    let* Arc_IPdu := GET_ArcIPdu PduId in
    if negb (Bool.eqb Arc_IPdu.(Com_Arc_IpduTxMode) Mode) then
      let m := if Mode then IPdu.(ComTxIPdu).(ComTxModeTrue) else IPdu.(ComTxIPdu).(ComTxModeFalse) in
      let* _ := upd_ArcIPdu PduId (set_Com_Arc_IpduTxMode Mode) in
      let* _ := upd_ArcIPdu PduId (set_timer (set_ComTxModeRepetitionPeriodTimer 0)) in
      let* _ := upd_ArcIPdu PduId (set_timer (set_ComTxIPduNumberOfRepetitionsLeft 0)) in
      if bool_decide (m.(ComTxModeMode) = COM_PERIODIC) || bool_decide (m.(ComTxModeMode) = COM_MIXED)
      then upd_ArcIPdu PduId (set_timer (set_ComTxModeTimePeriodTimer m.(ComTxModeTimePeriodFactor)))
      else ret tt
    else ret tt)).

(** ** Com.c: transport protocol *)

(** [SduLength] bytes are asked for at [PduInfoPtr->SduDataPtr]; the result: the return
    code, the caller's buffer and [*TxDataCntPtr]. *)
Definition Com_CopyTxData (PduId : Z) (SduDataPtr : list Z) (SduLength TxDataCnt : Z)
    : T (BufReq_ReturnType * list Z * Z) :=
  if_init COM_COPYTXDATA_ID (BUFREQ_NOT_OK, SduDataPtr, TxDataCnt) (
  let* IPdu := GET_IPdu PduId in
  let dirOk := bool_decide (IPdu.(ComIPduDirection) = COM_SEND) in
  let* _ := SchM_Enter_Com_EA_0 in
  let* st := buffer_state PduId in
  let sizeOk := IPdu.(ComIPduSize) >=? st.(currentPosition) + SduLength in
  let* _ := put_buffer_state PduId {| currentPosition := st.(currentPosition); locked := true |} in
  let* r :=
    if dirOk && sizeOk then
      let* Arc_IPdu := GET_ArcIPdu PduId in
      let* data := buffer_read Arc_IPdu.(ComIPduDataPtr) st.(currentPosition) SduLength in
      let* out := deref (write_bytes SduDataPtr 0 data) in
      let pos := u16 (st.(currentPosition) + SduLength) in
      let* _ := put_buffer_state PduId {| currentPosition := pos; locked := true |} in
      ret (BUFREQ_OK, out, u16 (IPdu.(ComIPduSize) - pos))
    else ret (BUFREQ_NOT_OK, SduDataPtr, TxDataCnt) in
  let* _ := SchM_Exit_Com_EA_0 in
  ret r).

Definition Com_CopyRxData (PduId : Z) (SduDataPtr : list Z) (SduLength RxBufferSize : Z)
    : T (BufReq_ReturnType * Z) :=
  if_init COM_COPYRXDATA_ID (BUFREQ_NOT_OK, RxBufferSize) (
  let* _ := SchM_Enter_Com_EA_0 in
  let* IPdu := GET_IPdu PduId in
  let* st := buffer_state PduId in
  let remainingBytes := u16 (IPdu.(ComIPduSize) - st.(currentPosition)) in
  let sizeOk := remainingBytes >=? SduLength in
  let dirOk := bool_decide (IPdu.(ComIPduDirection) = COM_RECEIVE) in
  let* r :=
    if dirOk && st.(locked) && sizeOk then
      let* Arc_IPdu := GET_ArcIPdu PduId in
      let* data := deref (read_bytes SduDataPtr 0 SduLength) in
      let* _ := buffer_write Arc_IPdu.(ComIPduDataPtr) st.(currentPosition) data in
      let pos := u16 (st.(currentPosition) + SduLength) in
      let* _ := put_buffer_state PduId {| currentPosition := pos; locked := st.(locked) |} in
      ret (BUFREQ_OK, u16 (IPdu.(ComIPduSize) - pos))
    else ret (BUFREQ_NOT_OK, RxBufferSize) in
  let* _ := SchM_Exit_Com_EA_0 in
  ret r).

Definition Com_SetDynSignalLength (ComRxPduId TpSduLength : Z) : T unit :=
  let* IPdu := GET_IPdu ComRxPduId in
  match IPdu.(ComIPduDynSignalRef) with
  | Some dynSignal =>
      let start := dynSignal.(Sig_layout).(l_pos) / 8 in
      upd_ArcIPdu ComRxPduId (set_Com_Arc_DynSignalLength
        (if TpSduLength >? start then u16 (TpSduLength - start) else 0))
  | None => ret tt
  end.

Definition Com_StartOfReception (ComRxPduId TpSduLength RxBufferSize : Z) : T (BufReq_ReturnType * Z) :=
  if_init COM_STARTOFRECEPTION_ID (BUFREQ_NOT_OK, RxBufferSize) (
  let* Arc_IPdu := GET_ArcIPdu ComRxPduId in
  let* _ := SchM_Enter_Com_EA_0 in
  let* r :=
    if Arc_IPdu.(Com_Arc_IpduStarted) then
      let* IPdu := GET_IPdu ComRxPduId in
      if bool_decide (IPdu.(ComIPduDirection) = COM_RECEIVE) then
        let* st := buffer_state ComRxPduId in
        if negb st.(locked) then
          if IPdu.(ComIPduSize) >=? TpSduLength then
            let* _ := put_buffer_state ComRxPduId
                        {| currentPosition := st.(currentPosition); locked := true |} in
            let* _ := Com_SetDynSignalLength ComRxPduId TpSduLength in
            ret (BUFREQ_OK, IPdu.(ComIPduSize))
          else ret (BUFREQ_OVFL, RxBufferSize)
        else ret (BUFREQ_BUSY, RxBufferSize)
      else ret (BUFREQ_OK, RxBufferSize)
    else ret (BUFREQ_NOT_OK, RxBufferSize) in
  let* _ := SchM_Exit_Com_EA_0 in
  ret r).
End Com.
