(* ===== verification/Com_Valid.v ===== *)
(** * Com: valid configurations

    What the generated configuration and the static arrays must satisfy: handles
    lead where they should, signals lie in their I-PDUs, tables of call-outs are long
    enough.  [valid] can be decided, so a concrete configuration is checked by running
    it.  [place] says where [Com_Init] puts each I-PDU, its shadow buffer and its deferred
    copy in [Com_Arc_Buffer]. *)

From S2P Require Import Prelude.
From S2P Require Import StateMonad.
From S2P Require Import ComStack.
From S2P Require Import Os_Irq.
From S2P Require Import Com_Signal.
From S2P Require Import Com_Packing.
From S2P Require Import Com_Codec.
From S2P Require Import Com_Types.
From S2P Require Import Com.

(** ** Decidable equality of configurations *)
#[export] Instance Com_SignalType_eq : EqDecision Com_SignalType.
Proof. solve_decision. Defined.
#[export] Instance ComSignalEndianess_type_eq : EqDecision ComSignalEndianess_type.
Proof. solve_decision. Defined.
#[export] Instance Layout_eq : EqDecision Layout.
Proof. solve_decision. Defined.
#[export] Instance ComGroupSignal_type_eq : EqDecision ComGroupSignal_type.
Proof. solve_decision. Defined.
#[export] Instance ComSignal_type_eq : EqDecision ComSignal_type.
Proof. solve_decision. Defined.

(** ** Where the data lie *)
Record Region := { r_data : Z; r_shadow : Z; r_deferred : Z }.

Definition has_group (P : ComIPdu_type) : bool := existsb Com_Arc_IsSignalGroup (signals P).

Definition after_shadow (P : ComIPdu_type) (idx : Z) : Z :=
  if has_group P then idx + P.(ComIPduSize) else idx.
Definition after_deferred (P : ComIPdu_type) (idx : Z) : Z :=
  if deferred_rx P then idx + P.(ComIPduSize) else idx.
Definition place_one (P : ComIPdu_type) (idx : Z) : Region :=
  {| r_data := idx; r_shadow := idx + P.(ComIPduSize);
     r_deferred := after_shadow P (idx + P.(ComIPduSize)) |}.
Definition place_end (P : ComIPdu_type) (idx : Z) : Z :=
  after_deferred P (after_shadow P (idx + P.(ComIPduSize))).

Fixpoint place (l : list ComIPdu_type) (idx : Z) : list Region :=
  match l with [] => [] | P :: l => place_one P idx :: place l (place_end P idx) end.
Fixpoint placed (l : list ComIPdu_type) (idx : Z) : Z :=
  match l with [] => idx | P :: l => placed l (place_end P idx) end.

Lemma place_end_le P idx : 0 <= P.(ComIPduSize) -> idx <= place_end P idx.
Proof.
  intros. unfold place_end, after_deferred, after_shadow.
  destruct (deferred_rx P), (has_group P); lia.
Qed.
Lemma placed_le l idx : Forall (fun P => 0 <= P.(ComIPduSize)) l -> idx <= placed l idx.
Proof.
  intros Hl. revert idx. induction Hl as [|P l HP _ IH]; intros idx; cbn [placed]; [lia|].
  pose proof (place_end_le P idx HP). specialize (IH (place_end P idx)). lia.
Qed.

Lemma place_lookup l idx i P :
  Forall (fun P => 0 <= P.(ComIPduSize)) l -> l !! i = Some P ->
  exists at_, place l idx !! i = Some (place_one P at_) /\ idx <= at_ /\ place_end P at_ <= placed l idx /\
    at_ = placed (take i l) idx.
Proof.
  intros Hl. revert idx i. induction Hl as [|Q l HQ Hl IH]; intros idx i Hi; [done|].
  cbn [place placed]. destruct i as [|i]; cbn in Hi.
  - injection Hi as ->. exists idx. split_and!; [done|lia| |done]. by apply placed_le.
  - destruct (IH (place_end Q idx) i Hi) as (a & Ha & Hle & Hend & Heq). exists a.
    split_and!; [done| |done|done]. pose proof (place_end_le Q idx HQ). lia.
Qed.

Lemma length_place l idx : length (place l idx) = length l.
Proof. revert idx. induction l; intros; cbn; auto. Qed.

(** ** The configuration *)
Record Sizes := {
  n_IPdus : nat; n_Signals : nat; n_GroupSignals : nat; n_GwSrc : nat; n_BufferPdus : nat;
  n_Buffer : nat; n_RxStart : nat; n_Counters : nat
}.
Definition sizes {W} (s : Com_State W) : Sizes :=
  {| n_IPdus := length s.(Com_Arc_IPdu); n_Signals := length s.(Com_Arc_Signal);
     n_GroupSignals := length s.(Com_Arc_GroupSignal); n_GwSrc := length s.(Com_Arc_GwSrcDescSignals);
     n_BufferPdus := length s.(Com_BufferPduState); n_Buffer := length s.(Com_Arc_Buffer);
     n_RxStart := length s.(ComIPduCountRxStart); n_Counters := length s.(Com_IPdu_Counters) |}.

Definition callout_in {A} (table : list A) (n : Z) : Prop :=
  n = COM_NO_FUNCTION_CALLOUT \/ below n (length table).
Definition value_ok (L : Layout) (v : list Z) : Prop := (value_bytes L <= length v)%nat /\ bytes v.

(** [l] has at least the bytes [memcpy] takes for an initial value. *)
Definition init_bytes (L : Layout) : Z := SignalTypeToSize L.(l_type) (L.(l_size) / 8).
Definition copy_ok (L : Layout) (v : list Z) : Prop := 0 <= init_bytes L <= Z.of_nat (length v) /\ bytes v.

Section Valid.
Context {W : Type} {Cfg : Com_Cfg} {Env : Com_Env W}.
Variables (c : Com_ConfigType) (z : Sizes).

Definition regions : list Region := place c.(ComIPdu) 0.
Definition pdu_at (h : Z) : option (ComIPdu_type * Region) :=
  P ← aref c.(ComIPdu) h; r ← aref regions h; Some (P, r).

Definition fits (base : Z) (L : Layout) : Prop :=
  layout_ok L = true /\ accessible (Z.of_nat z.(n_Buffer)) base L = true.
Definition bit_in (P : ComIPdu_type) (bit : Z) : Prop := 0 <= bit / 8 < P.(ComIPduSize).

Definition group_signal_ok (r : Region) (S : ComSignal_type) (g : ComGroupSignal_type) : Prop :=
  aref c.(Cfg_ComGroupSignal) g.(Grp_ComHandleId) = Some g /\
  g.(ComSigGrpHandleId) = S.(ComHandleId) /\
  fits r.(r_shadow) g.(Grp_layout) /\ fits r.(r_data) g.(Grp_layout) /\
  value_ok g.(Grp_layout) g.(Grp_ComSignalInitValue).

Definition group_ok (P : ComIPdu_type) (r : Region) (S : ComSignal_type) : Prop :=
  P.(ComIPduSize) <= Z.of_nat (length S.(Com_Arc_ShadowBuffer_Mask)) /\
  from_option (Forall (group_signal_ok r S)) False S.(ComGroupSignal).

Definition plain_signal_ok (P : ComIPdu_type) (r : Region) (S : ComSignal_type) : Prop :=
  let L := S.(Sig_layout) in
  fits r.(r_data) L /\ (deferred_rx P = true -> fits r.(r_deferred) L) /\
  value_ok L S.(ComSignalInitValue) /\ L.(l_size) <> 0.

Definition signal_ok (i : Z) (P : ComIPdu_type) (r : Region) (S : ComSignal_type) : Prop :=
  aref c.(ComSignal) S.(ComHandleId) = Some S /\ S.(ComIPduHandleId) = i /\
  (S.(ComSignalArcUseUpdateBit) = true -> bit_in P S.(ComUpdateBitPosition)) /\
  callout_in ComNotificationCallouts S.(ComNotification) /\
  callout_in ComNotificationCallouts S.(ComTimeoutNotification) /\
  (S.(Sig_layout).(l_type) = COM_UINT8_DYN -> P.(ComIPduDynSignalRef) = Some S) /\
  if S.(Com_Arc_IsSignalGroup) then group_ok P r S else plain_signal_ok P r S.

Definition dyn_ok (P : ComIPdu_type) (S : ComSignal_type) : Prop :=
  let L := S.(Sig_layout) in
  0 <= L.(l_pos) / 8 /\ 0 <= L.(l_size) / 8 /\
  L.(l_pos) / 8 + L.(l_size) / 8 = P.(ComIPduSize).

Definition counter_ok (P : ComIPdu_type) (k : ComIPduCounter_type) : Prop :=
  0 < k.(ComIPduCntrRange) /\ bit_in P k.(ComIPduCntrStartPos) /\
  below k.(ComIPduCntrIndex) z.(n_Counters) /\ below k.(ComIPduCntrIndex) z.(n_RxStart) /\
  (k.(ComIPduCntErrNotification) = COM_NO_FUNCTION_CALLOUT \/
   is_Some (aref ComNotificationCallouts k.(ComIPduCntErrNotification) ≫= id)).

Definition gw_source_desc_ok (P : ComIPdu_type) (h : Z) : Prop :=
  below h z.(n_GwSrc) /\
  from_option (fun d => d.(Src_ComSignalArcUseUpdateBit) = true -> bit_in P d.(Src_ComUpdateBitPosition))
    False (aref c.(ComGwSrcDesc) h).
Definition gw_destination_desc_ok (P : ComIPdu_type) (r : Region) (h : Z) : Prop :=
  from_option (fun d =>
    fits r.(r_data) d.(Dst_layout) /\ value_ok d.(Dst_layout) d.(Dst_ComSignalInitValue) /\
    (d.(Dst_ComSignalArcUseUpdateBit) = true -> bit_in P d.(Dst_ComUpdateBitPosition)))
    False (aref c.(ComGwDestnDesc) h).

Definition pdu_ok (i : Z) (P : ComIPdu_type) (r : Region) : Prop :=
  is_u16 P.(ComIPduSize) /\ is_u8 P.(ComTxIPdu).(ComTxIPduUnusedAreasDefault) /\
  from_option (Forall (signal_ok i P r)) False P.(ComIPduSignalRef) /\
  from_option (dyn_ok P) True P.(ComIPduDynSignalRef) /\
  from_option (counter_ok P) True P.(ComIpduCounterRef) /\
  callout_in ComRxIPduCallouts P.(ComRxIPduCallout) /\
  callout_in ComTxIPduCallouts P.(ComTxIPduCallout) /\
  callout_in ComTriggerTransmitIPduCallouts P.(ComTriggerTransmitIPduCallout) /\
  Forall (fun h => if bool_decide (P.(ComIPduDirection) = COM_SEND)
                   then gw_destination_desc_ok P r h else gw_source_desc_ok P h)
    (default [] P.(ComIPduGwMapSigDescHandle)).

(** A signal of the table is not connected, or one of its I-PDU. *)
Definition table_signal_ok (S : ComSignal_type) : Prop :=
  S.(ComIPduHandleId) = NO_PDU_REFERENCE /\ copy_ok S.(Sig_layout) S.(ComSignalInitValue) \/
  S.(ComIPduHandleId) <> NO_PDU_REFERENCE /\
  from_option (fun P => S ∈ signals P) False (aref c.(ComIPdu) S.(ComIPduHandleId)).

(** The I-PDU of a group signal. *)
Definition home (g : ComGroupSignal_type) : option Region :=
  S ← aref c.(ComSignal) g.(ComSigGrpHandleId); aref regions S.(ComIPduHandleId).
Definition table_group_signal_ok (g : ComGroupSignal_type) : Prop :=
  copy_ok g.(Grp_layout) g.(Grp_ComSignalInitValue) /\
  from_option (fun r => fits r.(r_shadow) g.(Grp_layout)) True (home g).

(** *** The gateway *)
Definition sends (h : Z) : Prop :=
  from_option (fun P => P.(ComIPduDirection) = COM_SEND) False (aref c.(ComIPdu) h).
Definition receives (h : Z) : Prop :=
  from_option (fun P => P.(ComIPduDirection) = COM_RECEIVE) False (aref c.(ComIPdu) h).

(** The signal group [h], connected to an I-PDU; the bytes from [first] to [last] of its shadow
    buffer are in the array. *)
Definition gw_group_ok (h first n : Z) : Prop :=
  from_option (fun S =>
    S.(ComHandleId) = h /\ S.(Com_Arc_IsSignalGroup) = true /\
    S.(ComIPduHandleId) <> NO_PDU_REFERENCE /\
    from_option (fun r => 0 <= r.(r_shadow) + first /\
                          r.(r_shadow) + first + n <= Z.of_nat z.(n_Buffer)) False
      (aref regions S.(ComIPduHandleId)))
    False (aref c.(ComSignal) h).

Definition gw_bytes (S : ComSignal_type) : Z :=
  u16 (S.(ComEndBitPosition) / 8 - S.(Sig_layout).(l_pos) / 8 + 1).

Definition gw_group_route_ok (src : ComSignal_type) (d : ComGwDestn_type) : Prop :=
  from_option (fun D =>
    gw_group_ok d.(ComGwDestinationSignalHandle) (D.(Sig_layout).(l_pos) / 8) (gw_bytes src) /\
    sends D.(ComIPduHandleId))
    False (aref c.(ComSignal) d.(ComGwDestinationSignalHandle)).

Definition gw_group_mapping_ok (m : ComGwMapping_type) : Prop :=
  from_option (fun S =>
    gw_group_ok m.(ComGwSourceSignalHandle) (S.(Sig_layout).(l_pos) / 8) (gw_bytes S) /\
    Forall (gw_group_route_ok S) m.(ComGwDestinationRef))
    False (aref c.(ComSignal) m.(ComGwSourceSignalHandle)).

(** A gated signal fits into the local array of 8 bytes and where it is read from. *)
Definition gw_extract_ok (h : Z) (L : Layout) : Prop :=
  receives h /\ (value_bytes L <= 8)%nat /\
  from_option (fun x => fits (if bool_decide (x.1.(ComIPduSignalProcessing) = COM_DEFERRED)
                              then x.2.(r_deferred) else x.2.(r_data)) L) False (pdu_at h).

(** The source of a mapping: [Q] holds of the I-PDU it is in and its layout. *)
Definition gw_source_ok (Q : Z -> Layout -> Prop) (m : ComGwMapping_type) : Prop :=
  let h := m.(ComGwSourceSignalHandle) in
  match m.(ComGwSourceSignalRef) with
  | COM_SIGNAL_REFERENCE =>
      from_option (fun S => below S.(ComHandleId) z.(n_Signals) /\
                            Q S.(ComIPduHandleId) S.(Sig_layout)) False (aref c.(ComSignal) h)
  | COM_GROUP_SIGNAL_REFERENCE =>
      from_option (fun g =>
        from_option (fun S => below S.(ComHandleId) z.(n_Signals) /\
                              Q S.(ComIPduHandleId) g.(Grp_layout)) False
          (aref c.(ComSignal) g.(ComSigGrpHandleId))) False (aref c.(Cfg_ComGroupSignal) h)
  | GATEWAY_SIGNAL_DESCRIPTION =>
      below h z.(n_GwSrc) /\
      from_option (fun d => Q d.(Src_ComIPduHandleId) d.(Src_layout)) False (aref c.(ComGwSrcDesc) h)
  | COM_SIGNAL_GROUP_REFERENCE => False
  end.

(** A place in I-PDU [h] where a signal of layout [L] is routed to. *)
Definition gw_place_ok (h : Z) (shadow : bool) (L : Layout) (used : bool) (ubit : Z) : Prop :=
  sends h /\ (value_bytes L <= 8)%nat /\
  from_option (fun x => fits (if shadow then x.2.(r_shadow) else x.2.(r_data)) L /\
                        (shadow = true -> has_group x.1 = true) /\
                        (used = true -> bit_in x.1 ubit)) False (pdu_at h).
Definition moved (L at_ : Layout) : Layout :=
  {| l_type := L.(l_type); l_endian := at_.(l_endian); l_pos := at_.(l_pos); l_size := L.(l_size) |}.
Definition gw_route_ok (L : Layout) (d : ComGwDestn_type) : Prop :=
  let h := d.(ComGwDestinationSignalHandle) in
  match d.(ComGwDestinationSignalRef) with
  | COM_SIGNAL_REFERENCE =>
      from_option (fun D => gw_place_ok D.(ComIPduHandleId) false (moved L D.(Sig_layout))
                              D.(ComSignalArcUseUpdateBit) D.(ComUpdateBitPosition))
        False (aref c.(ComSignal) h)
  | COM_GROUP_SIGNAL_REFERENCE =>
      from_option (fun g =>
        gw_group_ok g.(ComSigGrpHandleId) 0 0 /\
        from_option (fun D => gw_place_ok D.(ComIPduHandleId) true (moved L g.(Grp_layout))
                                D.(ComSignalArcUseUpdateBit) D.(ComUpdateBitPosition))
          False (aref c.(ComSignal) g.(ComSigGrpHandleId)))
        False (aref c.(Cfg_ComGroupSignal) h)
  | GATEWAY_SIGNAL_DESCRIPTION =>
      from_option (fun D => gw_place_ok D.(Dst_ComIPduHandleId) false (moved L D.(Dst_layout))
                              D.(Dst_ComSignalArcUseUpdateBit) D.(Dst_ComUpdateBitPosition))
        False (aref c.(ComGwDestnDesc) h)
  | COM_SIGNAL_GROUP_REFERENCE => True
  end.

Definition gw_mapping_ok (m : ComGwMapping_type) : Prop :=
  (Z.to_nat m.(ComGwNoOfDesitnationRoutes) <= length m.(ComGwDestinationRef))%nat /\
  if bool_decide (m.(ComGwSourceSignalRef) = COM_SIGNAL_GROUP_REFERENCE) then gw_group_mapping_ok m
  else gw_source_ok (fun h L => gw_extract_ok h L /\ Forall (gw_route_ok L) m.(ComGwDestinationRef)) m.

Definition valid : Prop :=
  c.(ComNofIPdus) = Z.of_nat (length c.(ComIPdu)) /\
  (length c.(ComIPdu) <= z.(n_IPdus))%nat /\ (length c.(ComIPdu) <= z.(n_BufferPdus))%nat /\
  c.(ComNofSignals) <= Z.of_nat (length c.(ComSignal)) /\
  (length c.(ComSignal) <= z.(n_Signals))%nat /\
  c.(ComNofGroupSignals) <= Z.of_nat (length c.(Cfg_ComGroupSignal)) /\
  (length c.(Cfg_ComGroupSignal) <= z.(n_GroupSignals))%nat /\
  placed c.(ComIPdu) 0 <= Z.of_nat z.(n_Buffer) /\ Z.of_nat z.(n_Buffer) < 2 ^ 16 /\
  each (fun i x => pdu_ok (Z.of_nat i) x.1 x.2) (zip c.(ComIPdu) regions) /\
  Forall table_signal_ok c.(ComSignal) /\
  Forall table_group_signal_ok c.(Cfg_ComGroupSignal) /\
  (COM_SIG_GATEWAY_ENABLE = true -> bytes (automatic <$> seq 0 8) /\
     Forall gw_mapping_ok c.(ComGwMappingRef)).

(** All of this can be decided. *)
#[export] Instance from_option_dec {A} (P : A -> Prop) (Q : Prop) (o : option A) :
  (forall a, Decision (P a)) -> Decision Q -> Decision (from_option P Q o).
Proof. destruct o; cbn; apply _. Defined.
#[export] Instance if_dec (b : bool) (P Q : Prop) :
  Decision P -> Decision Q -> Decision (if b then P else Q).
Proof. destruct b; apply _. Defined.
#[export] Instance callout_in_dec {A} (table : list A) n : Decision (callout_in table n).
Proof. unfold callout_in, below. apply _. Defined.
#[export] Instance group_signal_ok_dec r S g : Decision (group_signal_ok r S g).
Proof. unfold group_signal_ok, fits, value_ok. apply _. Defined.
#[export] Instance signal_ok_dec i P r S : Decision (signal_ok i P r S).
Proof. unfold signal_ok, group_ok, plain_signal_ok, fits, value_ok, bit_in. apply _. Defined.
#[export] Instance is_Some_bind_dec {A B} (o : option A) (f : A -> option B) : Decision (is_Some (o ≫= f)).
Proof. apply _. Defined.
#[export] Instance pdu_ok_dec i P r : Decision (pdu_ok i P r).
Proof.
  unfold pdu_ok, dyn_ok, counter_ok, gw_destination_desc_ok, gw_source_desc_ok, below, fits, value_ok, bit_in.
  apply _.
Defined.
#[export] Instance gw_group_ok_dec h i n : Decision (gw_group_ok h i n).
Proof. unfold gw_group_ok. apply _. Defined.
#[export] Instance gw_place_ok_dec h sh L u b : Decision (gw_place_ok h sh L u b).
Proof. unfold gw_place_ok, sends, fits, bit_in. apply _. Defined.
#[export] Instance gw_route_ok_dec L d : Decision (gw_route_ok L d).
Proof. unfold gw_route_ok. destruct (ComGwDestinationSignalRef d); apply _. Defined.
#[export] Instance gw_source_ok_dec Q m : (forall h L, Decision (Q h L)) -> Decision (gw_source_ok Q m).
Proof. unfold gw_source_ok, below. intros. destruct (ComGwSourceSignalRef m); apply _. Defined.
#[export] Instance gw_mapping_ok_dec m : Decision (gw_mapping_ok m).
Proof.
  unfold gw_mapping_ok, gw_group_mapping_ok, gw_group_route_ok, gw_extract_ok, sends, receives, fits. apply _.
Defined.
#[export] Instance valid_dec : Decision valid.
Proof. unfold valid, table_signal_ok, table_group_signal_ok, copy_ok, fits. apply _. Defined.
End Valid.
