(* ===== verification/Com_Inv.v ===== *)
(** * Com: the invariant and the rules of its logic

    [Inv R n]: the static data fit the configuration, as far as [R] says that [Com_Init]
    has come, inside [n] exclusive areas.  One rule per access to the data. *)

From S2P Require Import Prelude.
From S2P Require Import StateMonad.
From S2P Require Import ComStack.
From S2P Require Import Os_Irq.
From S2P Require Import Com_Signal.
From S2P Require Import Com_Packing.
From S2P Require Import Com_Codec.
From S2P Require Import Com_Types.
From S2P Require Import Com.
From S2P Require Import Com_Valid.

#[local] Open Scope monad_scope.

(** The call-outs of sent I-PDUs change bytes of the I-PDU, not its length. *)
Definition in_place {W} (table : list (option (Z -> list Z -> W -> bool * list Z * W))) : Prop :=
  forall n f id data w ok data' w', table !! n = Some (Some f) -> bytes data ->
    f id data w = (ok, data', w') -> length data' = length data /\ bytes data'.
Class Com_EnvOk (W : Type) `{!Com_Env W} : Prop := {
  tx_in_place : in_place ComTxIPduCallouts;
  trigger_in_place : in_place ComTriggerTransmitIPduCallouts
}.

(** How far the initialisation has come: the I-PDUs whose length of the dynamic signal, data
    pointer and deferred pointer are assigned, the signals whose shadow buffer is,
    the I-PDUs whose transport protocol buffer is. *)
Record Ready := {
  rd_dyn : nat -> Prop; rd_data : nat -> Prop; rd_deferred : nat -> Prop;
  rd_signal : nat -> Prop; rd_buffer : nat -> Prop
}.

(** ** The invariant *)
Section Inv.
Context {W : Type} {Cfg : Com_Cfg} {Env : Com_Env W}.
Variables (c : Com_ConfigType) (z : Sizes) (o0 : Irq).
Abbreviation T := (M (Com_State W)).
Implicit Types R : Ready.

Definition arc_ok R (i : nat) (a : Com_Arc_IPdu_type) : Prop :=
  forall P r, pdu_at c (Z.of_nat i) = Some (P, r) ->
  (rd_data R i -> a.(ComIPduDataPtr) = Some r.(r_data)) /\
  (rd_deferred R i -> deferred_rx P = true -> a.(ComIPduDeferredDataPtr) = Some r.(r_deferred)) /\
  (rd_dyn R i -> forall d, P.(ComIPduDynSignalRef) = Some d ->
     0 <= a.(Com_Arc_DynSignalLength) <= d.(Sig_layout).(l_size) / 8).

Definition sig_arc_ok R (j : nat) (a : Com_Arc_Signal_type) : Prop :=
  rd_signal R j -> forall S r, c.(ComSignal) !! j = Some S -> S.(Com_Arc_IsSignalGroup) = true ->
  aref (regions c) S.(ComIPduHandleId) = Some r -> a.(Com_Arc_ShadowBuffer) = Some r.(r_shadow).

Definition grp_arc_ok (k : nat) (a : Com_Arc_GroupSignal_type) : Prop :=
  forall p, a.(Arc_Grp_ShadowBuffer) = Some p ->
  exists g r, c.(Cfg_ComGroupSignal) !! k = Some g /\ home c g = Some r /\ p = r.(r_shadow).

Definition buffer_state_ok R (i : nat) (st : Com_BufferPduStateType) : Prop :=
  rd_buffer R i -> forall P, c.(ComIPdu) !! i = Some P -> 0 <= st.(currentPosition) <= P.(ComIPduSize).

Record Inv R (n : nat) (s : Com_State W) : Prop := {
  i_config : s.(ComConfig) = Some c;
  i_sizes : sizes s = z;
  i_bytes : bytes s.(Com_Arc_Buffer);
  i_arcs : each (arc_ok R) s.(Com_Arc_IPdu);
  i_sigs : each (sig_arc_ok R) s.(Com_Arc_Signal);
  i_grps : each grp_arc_ok s.(Com_Arc_GroupSignal);
  i_bufs : each (buffer_state_ok R) s.(Com_BufferPduState);
  i_os : s.(os) = areas o0 n
}.
End Inv.

Create HintDb com.

Section Rules.
Context {W : Type} {Cfg : Com_Cfg} {Env : Com_Env W}.
Variables (c : Com_ConfigType) (z : Sizes) (o0 : Irq).
Hypothesis Hirq : irq_ok o0.
Hypothesis Hroom : o0.(Os_IntSuspendAllCnt) <= 100.
Abbreviation T := (M (Com_State W)).
Abbreviation I := (Inv (W := W) c z o0).
Abbreviation any := (fun _ => True).
Implicit Types R : Ready.

(** ** The exclusive area *)
Lemma spec_Enter R n : spec (I R n) SchM_Enter_Com_EA_0 any (I R (S n)).
Proof using Type.
  apply spec_modify. intros s []. split; try done. cbn. by f_equal.
Qed.
Lemma spec_Exit R n : (n <= 20)%nat -> spec (I R (S n)) SchM_Exit_Com_EA_0 any (I R n).
Proof using Hirq Hroom.
  intros Hn. apply spec_modify. intros s []. split; try done. cbn.
  rewrite i_os0. by apply resume_suspend, areas_ok.
Qed.

(** ** The environment *)
Lemma inv_world R n s w : I R n s -> I R n (set_world w s).
Proof using Type. by intros []. Qed.
Lemma spec_call {A} R n (f : W -> A * W) Phi : (forall w a w', f w = (a, w') -> Phi a) ->
  spec (I R n) (call f) Phi (I R n).
Proof using Type.
  intros Hf s Hs. unfold wp, call. destruct (f (world s)) as [a w] eqn:E. split; [by eapply Hf|].
  by apply inv_world.
Qed.
Lemma spec_call_any {A} R n (f : W -> A * W) : spec (I R n) (call f) any (I R n).
Proof using Type. by apply spec_call. Qed.
Lemma spec_notify R n f : spec (I R n) (notify f) any (I R n).
Proof using Type. by apply spec_call. Qed.
Lemma spec_DET R n api err : spec (I R n) (DET_REPORTERROR api err) any (I R n).
Proof using Type. unfold DET_REPORTERROR. destruct COM_DEV_ERROR_DETECT; [apply spec_notify | by apply spec_ret]. Qed.
Lemma spec_notification R n k : callout_in ComNotificationCallouts k ->
  spec (I R n) (notification k) any (I R n).
Proof using Type.
  intros Hk. unfold notification. destruct (Z.eqb_spec k COM_NO_FUNCTION_CALLOUT); [by apply spec_ret|].
  destruct Hk as [?|Hk]; [done|]. destruct (aref_is_Some ComNotificationCallouts k Hk) as [f Hf].
  eapply spec_bind; [by apply spec_deref_is|]. intros ? ->.
  destruct f; [apply spec_notify | by apply spec_ret].
Qed.

(** ** The configuration *)
Lemma spec_cfg R n : spec (I R n) cfg (fun x => x = c) (I R n).
Proof using Type.
  unfold cfg. eapply spec_bind; [apply (spec_get _ _ (fun x => x = Some c)); by intros s []|].
  by intros ? ->; apply spec_deref_is.
Qed.
Lemma spec_cfg_array {A} R n (f : Com_ConfigType -> list A) i a : aref (f c) i = Some a ->
  spec (I R n) (let* c := cfg in deref (aref (f c) i)) (fun x => x = a) (I R n).
Proof using Type.
  intros Ha. eapply spec_bind; [apply spec_cfg|]. intros ? ->. by apply spec_deref_is.
Qed.
Lemma spec_GET_IPdu R n i P : aref c.(ComIPdu) i = Some P ->
  spec (I R n) (GET_IPdu i) (fun x => x = P) (I R n).
Proof using Type. apply spec_cfg_array. Qed.
Lemma spec_GET_Signal R n i P : aref c.(ComSignal) i = Some P ->
  spec (I R n) (GET_Signal i) (fun x => x = P) (I R n).
Proof using Type. apply spec_cfg_array. Qed.
Lemma spec_GET_GroupSignal R n i P : aref c.(Cfg_ComGroupSignal) i = Some P ->
  spec (I R n) (GET_GroupSignal i) (fun x => x = P) (I R n).
Proof using Type. apply spec_cfg_array. Qed.
Lemma spec_GET_GwSrcSigDesc R n i P : aref c.(ComGwSrcDesc) i = Some P ->
  spec (I R n) (GET_GwSrcSigDesc i) (fun x => x = P) (I R n).
Proof using Type. apply spec_cfg_array. Qed.
Lemma spec_GET_GwDestnSigDesc R n i P : aref c.(ComGwDestnDesc) i = Some P ->
  spec (I R n) (GET_GwDestnSigDesc i) (fun x => x = P) (I R n).
Proof using Type. apply spec_cfg_array. Qed.

(** ** Arrays of the static data

    An array [f] of the state, of [len] elements, whose elements satisfy [E]. *)
Lemma spec_array_get {A} R n (f : Com_State W -> list A) (E : nat -> A -> Prop) len i :
  (forall s, I R n s -> each E (f s) /\ length (f s) = len) -> below i len ->
  spec (I R n) (let* l := get f in deref (aref l i)) (E (Z.to_nat i)) (I R n).
Proof using Type.
  intros Hf Hi. eapply spec_bind; [apply (spec_get _ f (fun l => each E l /\ length l = len)); apply Hf|].
  intros l [Hl Hlen]. destruct (aref_is_Some l i) as [a Ha]; [unfold below in Hi; by rewrite Hlen|].
  eapply spec_deref; [done|]. apply aref_Some in Ha as [_ Ha]. by apply Hl.
Qed.

Lemma spec_GET_ArcIPdu R n i : below i z.(n_IPdus) ->
  spec (I R n) (GET_ArcIPdu i) (arc_ok c R (Z.to_nat i)) (I R n).
Proof using Type. apply spec_array_get. intros s []. split; [done|]. by rewrite <- i_sizes0. Qed.
Lemma spec_GET_ArcSignal R n i : below i z.(n_Signals) ->
  spec (I R n) (GET_ArcSignal i) (sig_arc_ok c R (Z.to_nat i)) (I R n).
Proof using Type. apply spec_array_get. intros s []. split; [done|]. by rewrite <- i_sizes0. Qed.
Lemma spec_GET_ArcGroupSignal R n i : below i z.(n_GroupSignals) ->
  spec (I R n) (GET_ArcGroupSignal i) (grp_arc_ok c (Z.to_nat i)) (I R n).
Proof using Type. apply spec_array_get. intros s []. split; [done|]. by rewrite <- i_sizes0. Qed.
Lemma spec_GET_ArcGwSrcSigDesc R n i : below i z.(n_GwSrc) ->
  spec (I R n) (GET_ArcGwSrcSigDesc i) any (I R n).
Proof using Type.
  intros Hi. eapply spec_any, (spec_array_get _ _ _ (fun _ _ => True)); [|done].
  intros s []. split; [done|]. by rewrite <- i_sizes0.
Qed.
Lemma spec_buffer_state R n i : below i z.(n_BufferPdus) ->
  spec (I R n) (buffer_state i) (buffer_state_ok c R (Z.to_nat i)) (I R n).
Proof using Type. apply spec_array_get. intros s []. split; [done|]. by rewrite <- i_sizes0. Qed.
Lemma spec_counter R n i : below i z.(n_Counters) -> spec (I R n) (counter i) any (I R n).
Proof using Type.
  intros Hi. eapply spec_any, (spec_array_get _ _ _ (fun _ _ => True)); [|done].
  intros s []. split; [done|]. by rewrite <- i_sizes0.
Qed.
Lemma spec_rx_start R n i : below i z.(n_RxStart) -> spec (I R n) (rx_start i) any (I R n).
Proof using Type.
  intros Hi. eapply spec_any, (spec_array_get _ _ _ (fun _ _ => True)); [|done].
  intros s []. split; [done|]. by rewrite <- i_sizes0.
Qed.

(** Assignments to their elements. *)
Ltac inv_update := intros s []; split; try done; cbn;
  [unfold sizes in *; cbn; rewrite ?length_insert; done | try (by apply each_insert)].

(** [R'] is [R] but for the I-PDU [i]. *)
Definition only_pdu (i : nat) R R' : Prop :=
  (forall j, j <> i -> rd_data R' j -> rd_data R j) /\
  (forall j, j <> i -> rd_deferred R' j -> rd_deferred R j) /\
  (forall j, j <> i -> rd_dyn R' j -> rd_dyn R j) /\
  (forall j, rd_signal R' j -> rd_signal R j) /\ (forall j, rd_buffer R' j -> rd_buffer R j).

Lemma spec_upd_ArcIPdu_to R R' n i f : below i z.(n_IPdus) -> only_pdu (Z.to_nat i) R R' ->
  (forall a, arc_ok c R (Z.to_nat i) a -> arc_ok c R' (Z.to_nat i) (f a)) ->
  spec (I R n) (upd_ArcIPdu i f) any (I R' n).
Proof using Type.
  intros Hi (H1 & H2 & H3 & H4 & H5) Hf. unfold upd_ArcIPdu. eapply spec_bind; [by apply spec_GET_ArcIPdu|].
  intros a Ha. apply spec_modify. intros s []; split; cbn; try done.
  - unfold sizes in *; cbn; rewrite ?length_insert; done.
  - intros j b Hj. destruct (decide (j = Z.to_nat i)) as [->|Hne].
    + apply list_lookup_insert_Some in Hj as [(_ & <- & _)|(? & _)]; [by apply Hf|done].
    + rewrite list_lookup_insert_ne in Hj by done. specialize (i_arcs0 j b Hj). intros P r HP.
      destruct (i_arcs0 P r HP) as (? & ? & ?). split_and!; auto.
  - intros j b Hj HR. by apply (i_sigs0 j b Hj), H4.
  - intros j b Hj HR. by apply (i_bufs0 j b Hj), H5.
Qed.
Lemma only_pdu_refl i R : only_pdu i R R.
Proof using Type. by split_and!. Qed.

(** Assignments that keep what the invariant is about. *)
Definition keeps_pointers (f : Com_Arc_IPdu_type -> Com_Arc_IPdu_type) : Prop :=
  forall a, (f a).(ComIPduDataPtr) = a.(ComIPduDataPtr) /\
    (f a).(ComIPduDeferredDataPtr) = a.(ComIPduDeferredDataPtr) /\
    (f a).(Com_Arc_DynSignalLength) = a.(Com_Arc_DynSignalLength).
Lemma spec_upd_ArcIPdu R n i f : below i z.(n_IPdus) -> keeps_pointers f ->
  spec (I R n) (upd_ArcIPdu i f) any (I R n).
Proof using Type.
  intros Hi Hf. apply spec_upd_ArcIPdu_to; [done|apply only_pdu_refl|]. intros a Ha P r HP.
  destruct (Hf a) as (-> & -> & ->). by apply Ha.
Qed.
Lemma spec_upd_ArcSignal R n i f : below i z.(n_Signals) ->
  (forall a, (f a).(Com_Arc_ShadowBuffer) = a.(Com_Arc_ShadowBuffer)) ->
  spec (I R n) (upd_ArcSignal i f) any (I R n).
Proof using Type.
  intros Hi Hf. unfold upd_ArcSignal. eapply spec_bind; [by apply spec_GET_ArcSignal|].
  intros a Ha. apply spec_modify. inv_update. apply each_insert; [done|]. unfold sig_arc_ok. by rewrite Hf.
Qed.
Lemma spec_put_ArcGroupSignal R n i v : below i z.(n_GroupSignals) -> grp_arc_ok c (Z.to_nat i) v ->
  spec (I R n) (put_ArcGroupSignal i v) any (I R n).
Proof using Type.
  intros Hi Hv. unfold put_ArcGroupSignal. eapply spec_bind; [by apply spec_GET_ArcGroupSignal|].
  intros a Ha. apply spec_modify. inv_update.
Qed.
Lemma spec_put_ArcGwSrcSigDesc R n i v : below i z.(n_GwSrc) ->
  spec (I R n) (put_ArcGwSrcSigDesc i v) any (I R n).
Proof using Type.
  intros Hi. unfold put_ArcGwSrcSigDesc. eapply spec_bind; [by apply spec_GET_ArcGwSrcSigDesc|].
  intros a Ha. apply spec_modify. intros s []; split; try done.
  unfold sizes in *; cbn; rewrite ?length_insert; done.
Qed.
Lemma spec_put_buffer_state R n i v : below i z.(n_BufferPdus) -> buffer_state_ok c R (Z.to_nat i) v ->
  spec (I R n) (put_buffer_state i v) any (I R n).
Proof using Type.
  intros Hi Hv. unfold put_buffer_state. eapply spec_bind; [by apply spec_buffer_state|].
  intros a Ha. apply spec_modify. inv_update.
Qed.
Lemma spec_put_counter R n i v : below i z.(n_Counters) -> spec (I R n) (put_counter i v) any (I R n).
Proof using Type.
  intros Hi. unfold put_counter. eapply spec_bind; [by apply spec_counter|].
  intros a Ha. apply spec_modify. intros s []; split; try done.
  unfold sizes in *; cbn; rewrite ?length_insert; done.
Qed.
Lemma spec_put_rx_start R n i v : below i z.(n_RxStart) -> spec (I R n) (put_rx_start i v) any (I R n).
Proof using Type.
  intros Hi. unfold put_rx_start. eapply spec_bind; [by apply spec_rx_start|].
  intros a Ha. apply spec_modify. intros s []; split; try done.
  unfold sizes in *; cbn; rewrite ?length_insert; done.
Qed.

(** ** The buffer *)
Definition buffer_ok (b : list Z) : Prop := bytes b /\ length b = z.(n_Buffer).
Definition in_buffer (q n : Z) : Prop := 0 <= q /\ 0 <= n /\ q + n <= Z.of_nat z.(n_Buffer).

Lemma spec_get_buffer R n : spec (I R n) (get Com_Arc_Buffer) buffer_ok (I R n).
Proof using Type. apply spec_get. intros s []. split; [done|]. by rewrite <- i_sizes0. Qed.
Lemma spec_put_buffer R n b : buffer_ok b -> spec (I R n) (put_buffer b) any (I R n).
Proof using Type.
  intros [Hb Hl]. apply spec_modify. intros s []; split; try done.
  rewrite <- i_sizes0. unfold sizes. cbn. by rewrite Hl, <- i_sizes0.
Qed.
Lemma spec_buffer_write R n q i xs : in_buffer (q + i) (Z.of_nat (length xs)) -> bytes xs ->
  spec (I R n) (buffer_write (Some q) i xs) any (I R n).
Proof using Type.
  intros (H1 & H2 & H3) Hxs. unfold buffer_write. eapply spec_bind; [by apply spec_deref_is|]. intros ? ->.
  eapply spec_bind; [apply spec_get_buffer|]. intros b [Hb Hl].
  eapply spec_bind; [apply spec_deref_is, write_bytes_in; lia|]. intros ? ->.
  apply spec_put_buffer. split; [by apply bytes_patch | rewrite length_patch; lia].
Qed.
Lemma spec_buffer_read R n q i k : in_buffer (q + i) k ->
  spec (I R n) (buffer_read (Some q) i k) (fun xs => Z.of_nat (length xs) = k /\ bytes xs) (I R n).
Proof using Type.
  intros (H1 & H2 & H3). unfold buffer_read. eapply spec_bind; [by apply spec_deref_is|]. intros ? ->.
  eapply spec_bind; [apply spec_get_buffer|]. intros b [Hb Hl].
  eapply spec_deref; [apply read_bytes_in; lia|]. rewrite length_segment by lia. split; [lia|auto with mem].
Qed.

Lemma bit_mask_byte bit : is_u8 (bit_mask bit).
Proof using Type. apply in_width_mod. lia. Qed.
Lemma spec_byte R n q bit (k : list Z -> Z -> T unit) : in_buffer (q + bit / 8) 1 ->
  (forall b v, buffer_ok b -> is_u8 v -> spec (I R n) (k b v) any (I R n)) ->
  spec (I R n) (let* p := deref (Some q) in
                let* b := get Com_Arc_Buffer in
                let* v := deref (load b (p + bit / 8)) in k b v) any (I R n).
Proof using Type.
  intros (H1 & H2 & H3) Hk. eapply spec_bind; [by apply spec_deref_is|]. intros ? ->.
  eapply spec_bind; [apply spec_get_buffer|]. intros b [Hb Hl].
  destruct (lookup_lt_is_Some_2 b (Z.to_nat (q + bit / 8))) as [v Hv]; [lia|].
  eapply spec_bind; [apply spec_deref_is; by rewrite load_spec by lia|]. intros ? ->.
  apply Hk; [done|]. eapply Forall_lookup_1; eauto.
Qed.
Lemma spec_store R n q bit b v : in_buffer (q + bit / 8) 1 -> buffer_ok b -> is_u8 v ->
  spec (I R n) (let* b := deref (store b (q + bit / 8) v) in put_buffer b) any (I R n).
Proof using Type.
  intros (H1 & H2 & H3) [Hb Hl] Hv. eapply spec_bind; [apply spec_deref_is, store_in; lia|]. intros ? ->.
  apply spec_put_buffer. split; [by apply Forall_insert | by rewrite length_insert].
Qed.
Lemma spec_SETBIT R n q bit : in_buffer (q + bit / 8) 1 -> spec (I R n) (SETBIT (Some q) bit) any (I R n).
Proof using Type.
  intros Hq. apply (spec_byte R n q bit (fun b v => let* b := deref (store b (q + bit / 8) _) in put_buffer b)); [done|].
  intros b v Hb Hv. apply spec_store; [done..|]. apply in_width_lor; [lia|done|apply bit_mask_byte].
Qed.
Lemma spec_CLEARBIT R n q bit : in_buffer (q + bit / 8) 1 -> spec (I R n) (CLEARBIT (Some q) bit) any (I R n).
Proof using Type.
  intros Hq. apply (spec_byte R n q bit (fun b v => let* b := deref (store b (q + bit / 8) _) in put_buffer b)); [done|].
  intros b v Hb Hv. apply spec_store; [done..|]. by apply in_width_land_l.
Qed.
Lemma spec_TESTBIT R n q bit : in_buffer (q + bit / 8) 1 -> spec (I R n) (TESTBIT (Some q) bit) any (I R n).
Proof using Type.
  intros (H1 & H2 & H3). unfold TESTBIT. eapply spec_bind; [by apply spec_deref_is|]. intros ? ->.
  eapply spec_bind; [apply spec_get_buffer|]. intros b [Hb Hl].
  destruct (lookup_lt_is_Some_2 b (Z.to_nat (q + bit / 8))) as [v Hv]; [lia|].
  eapply spec_bind; [apply spec_deref_is; by rewrite load_spec by lia|]. intros ? ->. by apply spec_ret.
Qed.

Lemma spec_ReadSignal R n q L out : (n <= 20)%nat -> fits z q L -> (value_bytes L <= length out)%nat ->
  spec (I R n) (ReadSignalDataFromPdu (Some q) L out)
    (fun out' => length out' = length out /\ (bytes out -> bytes out')) (I R n).
Proof using Hirq Hroom.
  intros Hn [HL Ha] Hout. unfold ReadSignalDataFromPdu. eapply spec_bind; [apply spec_Enter|]. intros _ _.
  eapply spec_bind; [by apply spec_deref_is|]. intros ? ->.
  eapply spec_bind; [apply spec_get_buffer|]. intros b [Hb Hl]. rewrite <- Hl in Ha.
  destruct (read_signal_spec BIG_ENDIAN_CPU L b q out) as (vs & E & Hvl & Hvb & _); try done.
  eapply spec_bind; [by apply spec_deref_is|]. intros ? ->.
  eapply spec_bind; [by apply spec_Exit|]. intros _ _. apply spec_ret.
  split; [rewrite length_patch; lia|]. intros. by apply bytes_patch.
Qed.
Lemma spec_WriteSignal R n q L data : (n <= 20)%nat -> fits z q L -> value_ok L data ->
  spec (I R n) (WriteSignalDataToPdu data (Some q) L) any (I R n).
Proof using Hirq Hroom.
  intros Hn [HL Ha] [Hd Hdb]. unfold WriteSignalDataToPdu. eapply spec_bind; [apply spec_Enter|]. intros _ _.
  eapply spec_bind; [by apply spec_deref_is|]. intros ? ->.
  eapply spec_bind; [apply spec_get_buffer|]. intros b [Hb Hl]. rewrite <- Hl in Ha.
  destruct (write_signal_spec BIG_ENDIAN_CPU L data b q) as (b' & E & Hl' & Hb' & _); try done.
  eapply spec_bind; [by apply spec_deref_is|]. intros ? ->.
  eapply spec_bind; [apply spec_put_buffer; split; [done|by rewrite Hl']|]. intros _ _.
  eapply spec_bind; [by apply spec_Exit|]. intros _ _. by apply spec_ret.
Qed.
End Rules.
