(* ===== verification/Com_Safety.v ===== *)
(** * Com: no operation faults

    With a valid configuration, every operation on the initialised module ends without an
    access outside an array or through a null pointer, keeps the invariant and leaves the
    interrupt lock as it was. *)

From S2P Require Import Prelude.
From S2P Require Import StateMonad.
From S2P Require Import ComStack.
From S2P Require Import Os_Irq.
From S2P Require Import Com_Signal.
From S2P Require Import Com_Packing.
From S2P Require Import Com_Codec.
From S2P Require Import Com_Types.
From S2P Require Import Com.
From S2P Require Import Com_Valid.
From S2P Require Import Com_Inv.

#[local] Open Scope monad_scope.

(** ** What a valid configuration gives *)
Section Facts.
Context {W : Type} {Cfg : Com_Cfg} {Env : Com_Env W}.
Variables (c : Com_ConfigType) (z : Sizes).

(** [P] is the I-PDU [i], and [r] is where its data lie. *)
Record is_pdu (i : Z) (P : ComIPdu_type) (r : Region) : Prop := {
  p_cfg : aref c.(ComIPdu) i = Some P;
  p_reg : aref (regions c) i = Some r;
  p_ok : pdu_ok c z i P r;
  p_arc : below i z.(n_IPdus);
  p_buf : below i z.(n_BufferPdus);
  p_data : in_buffer z r.(r_data) P.(ComIPduSize);
  p_shadow : has_group P = true -> in_buffer z r.(r_shadow) P.(ComIPduSize);
  p_deferred : deferred_rx P = true -> in_buffer z r.(r_deferred) P.(ComIPduSize)
}.

Record is_signal (i : Z) (P : ComIPdu_type) (r : Region) (S : ComSignal_type) : Prop := {
  s_in : S ∈ signals P;
  s_ok : signal_ok c z i P r S;
  s_arc : below S.(ComHandleId) z.(n_Signals)
}.

Hypothesis Hvalid : valid c z.

Lemma valid_size : Forall (fun P => 0 <= P.(ComIPduSize)) c.(ComIPdu).
Proof using Hvalid.
  destruct Hvalid as (_ & _ & _ & _ & _ & _ & _ & _ & _ & Hp & _). apply Forall_lookup. intros i P HP.
  destruct (lookup_lt_is_Some_2 (regions c) i) as [r Hr].
  { unfold regions. rewrite length_place. by eapply lookup_lt_Some. }
  destruct (Hp i (P, r)) as [[? _] _]; [|done]. by rewrite lookup_zip_with, HP, Hr.
Qed.

Lemma pdu_of i P : aref c.(ComIPdu) i = Some P -> exists r, is_pdu i P r.
Proof using Hvalid.
  intros HP. pose proof HP as [Hi HP']%aref_Some. pose proof valid_size as Hs.
  destruct Hvalid as (_ & H1 & H2 & _ & _ & _ & _ & Ht & _ & Hp & _).
  destruct (place_lookup c.(ComIPdu) 0 (Z.to_nat i) P Hs HP') as (a & Ha & H0 & Hend & _).
  assert (HPs : 0 <= P.(ComIPduSize)) by (by eapply Forall_lookup_1 in HP'; [|exact Hs]).
  assert (Hlt : (Z.to_nat i < length c.(ComIPdu))%nat) by (by eapply lookup_lt_Some).
  exists (place_one P a). unfold place_end, after_deferred, after_shadow in Hend.
  split; cbn [place_one r_data r_shadow r_deferred].
  - done.
  - by apply aref_Some.
  - rewrite <- (Z2Nat.id i) by done. apply (Hp (Z.to_nat i) (P, place_one P a)).
    unfold regions. by rewrite lookup_zip_with, HP', Ha.
  - unfold below. lia.
  - unfold below. lia.
  - unfold in_buffer. destruct (deferred_rx P), (has_group P); lia.
  - intros E. rewrite E in Hend. unfold in_buffer. destruct (deferred_rx P); lia.
  - intros E. rewrite E in Hend. unfold in_buffer, after_shadow. destruct (has_group P); lia.
Qed.

Lemma pdu_below i : 0 <= i < c.(ComNofIPdus) -> exists P r, is_pdu i P r.
Proof using Hvalid.
  intros Hi. destruct (aref_is_Some c.(ComIPdu) i) as [P HP].
  { destruct Hvalid as (E & _). lia. }
  destruct (pdu_of i P HP) as [r Hr]. eauto.
Qed.

Lemma signals_of i P r : is_pdu i P r -> exists l, P.(ComIPduSignalRef) = Some l /\ Forall (signal_ok c z i P r) l.
Proof using Type.
  intros [_ _ (_ & _ & H1 & _) _ _ _ _ _]. destruct (ComIPduSignalRef P) as [l|]; [|done]. eauto.
Qed.
Lemma signal_in i P r S : is_pdu i P r -> S ∈ signals P -> is_signal i P r S.
Proof using Hvalid.
  intros Hp HS. destruct (signals_of i P r Hp) as (l & El & Hl).
  assert (Hok : signal_ok c z i P r S).
  { unfold signals in HS. rewrite El in HS. cbn in HS. apply list_elem_of_In in HS. exact (proj1 (List.Forall_forall _ _) Hl S HS). }
  split; [done..|]. destruct Hok as (HSS & _). apply aref_Some in HSS as [? HSS].
  destruct Hvalid as (_ & _ & _ & _ & Hn & _). apply lookup_lt_Some in HSS. unfold below. lia.
Qed.

(** A signal of the table that is connected. *)
Lemma signal_of h S : aref c.(ComSignal) h = Some S -> S.(ComIPduHandleId) <> NO_PDU_REFERENCE ->
  exists P r, is_pdu S.(ComIPduHandleId) P r /\ is_signal S.(ComIPduHandleId) P r S.
Proof using Hvalid.
  intros [_ HS]%aref_Some Hno. destruct Hvalid as (_ & _ & _ & _ & _ & _ & _ & _ & _ & _ & Hts & _).
  eapply Forall_lookup_1 in Hts; [|exact HS]. destruct Hts as [[? _]|[_ Hts]]; [done|].
  destruct (aref c.(ComIPdu) S.(ComIPduHandleId)) as [P|] eqn:HP; [|done]. cbn in Hts.
  destruct (pdu_of _ _ HP) as [r Hr]. exists P, r. split; [done|]. by apply signal_in.
Qed.

Lemma signal_table h : 0 <= h < c.(ComNofSignals) -> exists S, aref c.(ComSignal) h = Some S.
Proof using Hvalid.
  intros Hh. destruct (aref_is_Some c.(ComSignal) h) as [S HS]; [|eauto].
  destruct Hvalid as (_ & _ & _ & E & _). lia.
Qed.

(** The update bit of a signal, and the pieces of a signal group, lie in the array. *)
Lemma bit_in_buffer i P r q bit : is_pdu i P r -> in_buffer z q P.(ComIPduSize) -> bit_in P bit ->
  in_buffer z (q + bit / 8) 1.
Proof using Type. intros _ (? & ? & ?) [? ?]. unfold in_buffer. lia. Qed.

Lemma signal_has_group i P r S : is_signal i P r S -> S.(Com_Arc_IsSignalGroup) = true -> has_group P = true.
Proof using Type.
  intros [HS _ _] HG. apply existsb_exists. exists S. split; [|done]. by apply list_elem_of_In.
Qed.
End Facts.

(** ** After the initialisation *)
Definition complete (c : Com_ConfigType) : Ready :=
  {| rd_dyn := fun _ => True; rd_data := fun _ => True; rd_deferred := fun _ => True;
     rd_signal := fun h => exists i P S, aref c.(ComIPdu) i = Some P /\ S ∈ signals P /\
                                         h = Z.to_nat S.(ComHandleId);
     rd_buffer := fun _ => True |}.

(** The runtime data of an I-PDU. *)
Record arc_of (P : ComIPdu_type) (r : Region) (a : Com_Arc_IPdu_type) : Prop := {
  a_data : a.(ComIPduDataPtr) = Some r.(r_data);
  a_deferred : deferred_rx P = true -> a.(ComIPduDeferredDataPtr) = Some r.(r_deferred);
  a_dyn : forall d, P.(ComIPduDynSignalRef) = Some d ->
    0 <= a.(Com_Arc_DynSignalLength) <= d.(Sig_layout).(l_size) / 8
}.

(** Steps through an operation: the rules are in the database [com], the results of
    accesses are replaced by what they are. *)
Ltac com_intro :=
  let a := fresh "a" in let Ha := fresh "Ha" in
  intros a Ha; cbv beta in Ha;
  lazymatch type of Ha with
  | True => clear Ha
  | a = _ => subst a
  | arc_of _ _ a => let H1 := fresh "Hptr" in let H2 := fresh "Hdef" in let H3 := fresh "Hdyn" in
      pose proof Ha as [H1 H2 H3]
  | _ => idtac
  end; cbv beta; try clear a.
Ltac com_leaf := solve [eauto with com].
Ltac com_compound :=
  lazymatch goal with
  | |- spec ?P (bind (bind _ _) _) _ _ => eapply (spec_bind P P _ _ _ (fun _ => True))
  | |- spec ?P (bind (if _ then _ else _) _) _ _ => eapply (spec_bind P P _ _ _ (fun _ => True))
  | |- spec ?P (bind (match _ with _ => _ end) _) _ _ => eapply (spec_bind P P _ _ _ (fun _ => True))
  end.
Ltac com_step :=
  lazymatch goal with
  | |- spec _ (let _ := _ in _) _ _ => cbv zeta
  | |- spec _ (bind (let _ := _ in _) _) _ _ => cbv zeta
  | |- spec _ (bind _ _) _ _ =>
      first [ eapply spec_bind; [com_leaf | com_intro]
            | com_compound; [|com_intro] ]
  | |- spec _ (if _ then _ else _) _ _ => apply spec_if; intros
  | |- spec _ (ret _) (fun _ => True) _ => by apply spec_ret
  | |- spec _ (match ?x with _ => _ end) _ _ => destruct x eqn:?
  | |- spec _ _ _ _ => first [com_leaf | eapply spec_any; com_leaf]
  end.
Ltac com_go := repeat com_step.

Section Operations.
Context {W : Type} {Cfg : Com_Cfg} {Env : Com_Env W} `{!Com_EnvOk W}.
Variables (c : Com_ConfigType) (z : Sizes) (o0 : Irq).
Hypothesis Hirq : irq_ok o0.
Hypothesis Hroom : o0.(Os_IntSuspendAllCnt) <= 100.
Hypothesis Hvalid : valid c z.
Abbreviation T := (M (Com_State W)).
Abbreviation I := (Inv (W := W) c z o0 (complete c)).
Abbreviation any := (fun _ => True).
Abbreviation Pdu := (is_pdu c z).
Abbreviation Signal := (is_signal c z).

Lemma complete_GET_ArcIPdu n i P r : Pdu i P r -> spec (I n) (GET_ArcIPdu i) (arc_of P r) (I n).
Proof using Type.
  intros Hp. eapply spec_post; [apply spec_GET_ArcIPdu, Hp|]. intros a Ha.
  destruct (Ha P r) as (H1 & H2 & H3).
  { pose proof (p_arc _ _ _ _ _ Hp) as []. unfold pdu_at. rewrite Z2Nat.id by done.
    rewrite (p_cfg _ _ _ _ _ Hp). cbn. by rewrite (p_reg _ _ _ _ _ Hp). }
  split; [by apply H1 | by apply H2 | by apply H3].
Qed.
Lemma complete_upd_ArcIPdu n i P r f : Pdu i P r -> keeps_pointers f ->
  spec (I n) (upd_ArcIPdu i f) any (I n).
Proof using Type. intros Hp. apply spec_upd_ArcIPdu, Hp. Qed.
Lemma complete_GET_IPdu n i P r : Pdu i P r -> spec (I n) (GET_IPdu i) (fun x => x = P) (I n).
Proof using Type. intros Hp. apply spec_GET_IPdu, Hp. Qed.
Lemma complete_buffer_state n i P r : Pdu i P r ->
  spec (I n) (buffer_state i) (fun st => 0 <= st.(currentPosition) <= P.(ComIPduSize)) (I n).
Proof using Type.
  intros Hp. eapply spec_post; [apply spec_buffer_state, Hp|]. intros st Hst; cbv beta in Hst. apply Hst; [done|].
  by apply aref_Some, Hp.
Qed.
Lemma complete_put_buffer_state n i P r v : Pdu i P r -> 0 <= v.(currentPosition) <= P.(ComIPduSize) ->
  spec (I n) (put_buffer_state i v) any (I n).
Proof using Type.
  intros Hp Hv. apply spec_put_buffer_state; [apply Hp|]. intros _ Q HQ.
  pose proof (p_cfg _ _ _ _ _ Hp) as [_ E]%aref_Some. rewrite E in HQ. by injection HQ as <-.
Qed.
Lemma spec_Unlock n i P r : Pdu i P r -> spec (I n) (Com_Misc_UnlockTpBuffer i) any (I n).
Proof using Type.
  intros Hp. eapply complete_put_buffer_state; [done|]. cbn. pose proof (p_data _ _ _ _ _ Hp) as (?&?&?). lia.
Qed.
Lemma spec_locked n i P r : Pdu i P r -> spec (I n) (isPduBufferLocked i) any (I n).
Proof using Type.
  intros Hp. unfold isPduBufferLocked. eapply spec_bind; [by eapply complete_buffer_state|]. intros. by apply spec_ret.
Qed.


Lemma spec_ret_is {A} n (a : A) : spec (I n) (ret a) (fun x => x = a) (I n).
Proof using Type. by apply spec_ret. Qed.

(** The hints: the rules with what the context knows about the I-PDU at hand. *)
#[local] Hint Resolve spec_ret_is complete_GET_ArcIPdu complete_GET_IPdu complete_buffer_state spec_Unlock spec_locked
  spec_Enter spec_cfg spec_DET spec_notify spec_call_any spec_get_buffer : com.
#[local] Hint Extern 1 (spec _ SchM_Exit_Com_EA_0 _ _) => (apply spec_Exit; [assumption|assumption|lia]) : com.
#[local] Hint Extern 1 (spec _ (upd_ArcIPdu _ _) _ _) =>
  (eapply complete_upd_ArcIPdu; [eassumption | by intros ?]) : com.

Lemma spec_for_signals n i P r body : Pdu i P r ->
  (forall S, Signal i P r S -> spec (I n) (body S) any (I n)) ->
  spec (I n) (for_signals P body) any (I n).
Proof using Hvalid.
  intros Hp Hb. apply spec_for_each. intros j S HS. apply Hb. eapply signal_in; [done..|].
  by eapply list_elem_of_lookup_2.
Qed.
Lemma spec_for_signals_unchecked n i P r body : Pdu i P r ->
  (forall S, Signal i P r S -> spec (I n) (body S) any (I n)) ->
  spec (I n) (for_signals_unchecked P body) any (I n).
Proof using Hvalid.
  intros Hp Hb. unfold for_signals_unchecked. destruct (signals_of _ _ _ _ _ Hp) as (l & El & _).
  rewrite El. eapply spec_bind; [by apply spec_deref_is|]. intros ? ->.
  replace l with (signals P) by (unfold signals; by rewrite El).
  by eapply (spec_for_signals n i P r).
Qed.

Lemma signal_bit n i P r S (f : option Z -> Z -> T unit) q : Pdu i P r -> Signal i P r S ->
  in_buffer z q P.(ComIPduSize) ->
  (forall bit, in_buffer z (q + bit / 8) 1 -> spec (I n) (f (Some q) bit) any (I n)) ->
  spec (I n) (if S.(ComSignalArcUseUpdateBit) then f (Some q) S.(ComUpdateBitPosition) else ret tt) any (I n).
Proof using Type.
  intros Hp HS Hq Hf. apply spec_if; intros E; [|by apply spec_ret]. apply Hf.
  eapply bit_in_buffer; [done..|]. by apply (s_ok _ _ _ _ _ _ HS).
Qed.

Lemma spec_clear_update_bits n i P r : Pdu i P r ->
  spec (I n) (clear_update_bits P (Some r.(r_data))) any (I n).
Proof using Hvalid.
  intros Hp. eapply spec_for_signals; [done|]. intros S HS.
  eapply (signal_bit n i P r S CLEARBIT); [done..|apply Hp|]. intros. by apply spec_CLEARBIT.
Qed.

(** ** Transmission *)
Lemma spec_tx_callout n i P r table k : Pdu i P r -> callout_in table k -> in_place table ->
  spec (I n) (tx_callout table k i P (Some r.(r_data))) any (I n).
Proof using Type.
  intros Hp Hk Ht. unfold tx_callout. destruct (Z.eqb_spec k COM_NO_FUNCTION_CALLOUT); [by apply spec_ret|].
  destruct Hk as [?|Hk]; [done|]. destruct (aref_is_Some table k Hk) as [f Hf].
  eapply spec_bind; [by apply spec_deref_is|]. intros ? ->. destruct f as [f|]; [|by apply spec_ret].
  pose proof (p_data _ _ _ _ _ Hp) as (H1 & H2 & H3).
  eapply spec_bind; [apply spec_buffer_read; unfold in_buffer; lia|]. intros data [Hlen Hb].
  apply aref_Some in Hf as [_ Hf].
  eapply (spec_bind _ _ _ _ _ (fun x => length x.2 = length data /\ bytes x.2)).
  { apply spec_call. intros w [ok data'] w' E. by eapply Ht. }
  intros [ok data'] [Hl' Hb']. cbn in *.
  eapply spec_bind; [apply spec_buffer_write; [unfold in_buffer; lia|done]|]. intros. by apply spec_ret.
Qed.

Lemma spec_updateIPduCntr n P q k : in_buffer z q P.(ComIPduSize) -> counter_ok z P k ->
  spec (I n) (updateIPduCntr k (Some q)) (fun x => x.2 = k.(ComIPduCntrIndex)) (I n).
Proof using Type.
  intros (H1 & H2 & H3) (Hr & [Hb1 Hb2] & Hi & _). unfold updateIPduCntr. cbv zeta.
  eapply spec_bind; [by apply spec_counter|]. intros old _.
  eapply spec_bind. { apply spec_deref_is. unfold next_counter. by rewrite (proj2 (Z.eqb_neq _ _)) by lia. }
  intros ? ->. eapply spec_bind; [by apply spec_deref_is|]. intros ? ->.
  eapply spec_bind; [apply spec_get_buffer|]. intros b [Hb Hl].
  destruct (load_in b (q + ComIPduCntrStartPos k / 8)) as [v Hv]; [lia|].
  eapply spec_bind; [by apply spec_deref_is|]. intros ? ->.
  eapply spec_bind; [apply spec_deref_is, store_in; lia|]. intros ? ->.
  eapply spec_bind; [apply spec_put_buffer|]; [|intros; by apply spec_ret].
  split; [apply bytes_insert; [done|apply in_width_mod; lia] | by rewrite length_insert].
Qed.

Lemma sdu_length_in i P r a : Pdu i P r -> arc_of P r a -> 0 <= sdu_length P a <= P.(ComIPduSize).
Proof using Type.
  intros Hp [_ _ Hdyn]. pose proof (p_ok _ _ _ _ _ Hp) as (Hu & _ & _ & Hd & _).
  unfold sdu_length, in_width in *. destruct (ComIPduDynSignalRef P) as [d|]; [|lia].
  specialize (Hdyn d eq_refl). destruct Hd as (? & ? & ?). unfold u16. rewrite !Z.mod_small by (rewrite ?Z.mod_small; lia). lia.
Qed.

Lemma gw_handles i P r h : Pdu i P r -> h ∈ default [] P.(ComIPduGwMapSigDescHandle) ->
  if bool_decide (P.(ComIPduDirection) = COM_SEND) then gw_destination_desc_ok c z P r h
  else gw_source_desc_ok c z P h.
Proof using Type.
  intros Hp Hh. pose proof (p_ok _ _ _ _ _ Hp) as (_ & _ & _ & _ & _ & _ & _ & _ & Hg).
  apply list_elem_of_In in Hh. exact (proj1 (List.Forall_forall _ _) Hg h Hh).
Qed.

Lemma spec_after_transmit n i P r cntr : Pdu i P r -> P.(ComIPduDirection) = COM_SEND ->
  (forall v idx, cntr = Some (v, idx) -> below idx z.(n_Counters)) ->
  spec (I n) (after_transmit i P (Some r.(r_data)) cntr) any (I n).
Proof using Hvalid.
  intros Hp Hs Hc. unfold after_transmit. com_step.
  { com_go. by eapply spec_clear_update_bits. }
  com_step.
  { com_go. apply spec_for_each. intros j h Hh. apply list_elem_of_lookup_2 in Hh.
    pose proof (gw_handles _ _ _ _ Hp Hh) as Hd. rewrite bool_decide_eq_true_2 in Hd by done.
    unfold gw_destination_desc_ok in Hd. destruct (aref _ h) as [d|] eqn:Ed; [|done].
    destruct Hd as (_ & _ & Hu). eapply spec_bind; [by apply spec_GET_GwDestnSigDesc|]. intros ? ->.
    com_go. apply spec_CLEARBIT. eapply bit_in_buffer; [done|apply Hp|by apply Hu]. }
  destruct cntr as [[v idx]|]; [|com_go]. apply spec_put_counter. by eapply Hc.
Qed.

Lemma spec_tx_send n i P r : Pdu i P r ->
  spec (I n) (tx_callout ComTxIPduCallouts P.(ComTxIPduCallout) i P (Some r.(r_data))) any (I n).
Proof using Com_EnvOk0.
  intros Hp. eapply spec_tx_callout; [done| |apply tx_in_place]. apply (p_ok _ _ _ _ _ Hp).
Qed.
Lemma spec_pdu_read n i P r k : Pdu i P r -> 0 <= k <= P.(ComIPduSize) ->
  spec (I n) (buffer_read (Some r.(r_data)) 0 k) (fun xs => Z.of_nat (length xs) = k /\ bytes xs) (I n).
Proof using Type.
  intros Hp Hk. apply spec_buffer_read. pose proof (p_data _ _ _ _ _ Hp) as (?&?&?). unfold in_buffer. lia.
Qed.
Lemma spec_read_sdu n i P r a : Pdu i P r -> arc_of P r a ->
  spec (I n) (buffer_read (Some r.(r_data)) 0 (sdu_length P a)) any (I n).
Proof using Type. intros Hp Ha. eapply spec_any, spec_pdu_read; [done|]. by eapply sdu_length_in. Qed.
Lemma spec_tx_counter n i P r : Pdu i P r ->
  spec (I n) (match (if COM_IPDU_COUNTING_ENABLE then P.(ComIpduCounterRef) else None) with
              | Some c => let* x := updateIPduCntr c (Some r.(r_data)) in ret (Some x)
              | None => ret None
              end) (fun o => forall v idx, o = Some (v, idx) -> below idx z.(n_Counters)) (I n).
Proof using Type.
  intros Hp. pose proof (p_ok _ _ _ _ _ Hp) as (_ & _ & _ & _ & Hk & _).
  destruct COM_IPDU_COUNTING_ENABLE; [|by apply spec_ret].
  destruct (ComIpduCounterRef P) as [k|]; [|by apply spec_ret]. cbn in Hk.
  eapply spec_bind; [eapply spec_updateIPduCntr; [apply Hp|done]|]. intros [v idx] E. cbn in E. subst.
  apply spec_ret. intros v' idx' [= _ <-]. apply Hk.
Qed.
#[local] Hint Resolve spec_tx_send spec_read_sdu spec_tx_counter spec_after_transmit : com.

Lemma spec_TriggerIPDUSend n i P r : (n <= 19)%nat -> Pdu i P r -> P.(ComIPduDirection) = COM_SEND ->
  spec (I n) (Com_Misc_TriggerIPDUSend i) any (I n).
Proof using All.
  intros Hn Hp Hs. unfold Com_Misc_TriggerIPDUSend. com_step. com_step. rewrite Hptr. com_go.
Qed.
#[local] Hint Extern 1 (spec _ (Com_Misc_TriggerIPDUSend _) _ _) =>
  (eapply spec_TriggerIPDUSend; [lia|eassumption..]) : com.

Lemma spec_trigger_now n i P r m k : (n <= 19)%nat -> Pdu i P r -> P.(ComIPduDirection) = COM_SEND ->
  spec (I n) (trigger_now i m k) any (I n).
Proof using All. intros Hn Hp Hs. unfold trigger_now. com_go. Qed.
#[local] Hint Extern 1 (spec _ (trigger_now _ _ _) _ _) =>
  (eapply spec_trigger_now; [lia|eassumption..]) : com.

Lemma spec_TriggerTxOnConditions n i P r ch tp : (n <= 19)%nat -> Pdu i P r -> P.(ComIPduDirection) = COM_SEND ->
  spec (I n) (Com_Misc_TriggerTxOnConditions i ch tp) any (I n).
Proof using All.
  intros Hn Hp Hs. unfold Com_Misc_TriggerTxOnConditions. com_go.
Qed.
#[local] Hint Extern 1 (spec _ (Com_Misc_TriggerTxOnConditions _ _ _) _ _) =>
  (eapply spec_TriggerTxOnConditions; [lia|eassumption..]) : com.
#[local] Hint Extern 1 (spec _ (deref (Some _)) _ _) => (apply spec_deref_is; reflexivity) : com.

(** ** Signal groups *)
Lemma copy_masked_in k i dst src mask b ch : bytes b -> 0 <= i ->
  i + Z.of_nat k <= Z.of_nat (length mask) ->
  0 <= dst -> dst + i + Z.of_nat k <= Z.of_nat (length b) ->
  0 <= src -> src + i + Z.of_nat k <= Z.of_nat (length b) ->
  exists b' ch', copy_masked k i dst src mask b ch = Some (b', ch') /\ bytes b' /\ length b' = length b.
Proof using Type.
  revert i b ch. induction k as [|k IH]; intros i b ch Hb Hi Hm Hd1 Hd2 Hs1 Hs2; cbn [copy_masked]; [eauto|].
  destruct (load_in mask i) as [m ->]; [lia|]. destruct (load_in b (dst + i)) as [d ->]; [lia|].
  destruct (load_in b (src + i)) as [x ->]; [lia|]. cbn [mbind option_bind].
  rewrite store_in by lia. cbn [mbind option_bind].
  edestruct IH as (b' & ch' & E & Hb' & Hl'); [| | | | | | |rewrite E].
  { apply bytes_insert; [done|]. apply in_width_mod. lia. }
  all: rewrite ?length_insert in *; try lia. eauto.
Qed.

Lemma spec_copy_masked R n P mask dst src : P.(ComIPduSize) <= Z.of_nat (length mask) ->
  in_buffer z dst P.(ComIPduSize) -> in_buffer z src P.(ComIPduSize) ->
  spec (Inv (W := W) c z o0 R n) (let* b := get Com_Arc_Buffer in
              let* (b, ch) := deref (copy_masked (Z.to_nat P.(ComIPduSize)) 0 dst src mask b false) in
              let* _ := put_buffer b in ret ch) any (Inv c z o0 R n).
Proof using Type.
  intros Hm (?&?&?) (?&?&?). eapply spec_bind; [apply spec_get_buffer|]. intros b [Hb Hl].
  destruct (copy_masked_in (Z.to_nat P.(ComIPduSize)) 0 dst src mask b false) as (b' & ch & E & Hb' & Hl');
    try (done || lia).
  eapply spec_bind; [by apply spec_deref_is|]. intros ? ->.
  eapply spec_bind; [apply spec_put_buffer; split; [done|lia]|]. intros. by apply spec_ret.
Qed.

(** The signal group [S] of the I-PDU and its shadow buffer. *)
Lemma spec_shadow n i P r S : Pdu i P r -> Signal i P r S -> S.(Com_Arc_IsSignalGroup) = true ->
  spec (I n) (GET_ArcSignal S.(ComHandleId)) (fun a => a.(Com_Arc_ShadowBuffer) = Some r.(r_shadow)) (I n).
Proof using Type.
  intros Hp HS HG. eapply spec_post; [apply spec_GET_ArcSignal, HS|]. intros a Ha.
  destruct (s_ok _ _ _ _ _ _ HS) as ([Hh E]%aref_Some & Hi & _).
  apply (Ha) with S; [|done..|].
  - exists i, P, S. split_and!; [apply Hp | apply HS | done].
  - rewrite Hi. apply Hp.
Qed.

Lemma group_parts i P r S : Pdu i P r -> Signal i P r S -> S.(Com_Arc_IsSignalGroup) = true ->
  P.(ComIPduSize) <= Z.of_nat (length S.(Com_Arc_ShadowBuffer_Mask)) /\
  in_buffer z r.(r_shadow) P.(ComIPduSize) /\
  exists gs, S.(ComGroupSignal) = Some gs /\ Forall (group_signal_ok c z r S) gs.
Proof using Type.
  intros Hp HS HG. pose proof (s_ok _ _ _ _ _ _ HS) as (_ & _ & _ & _ & _ & _ & Hg). rewrite HG in Hg.
  destruct Hg as [Hm Hg]. split_and!; [done| |].
  - apply (p_shadow _ _ _ _ _ Hp). by eapply signal_has_group.
  - destruct (ComGroupSignal S); [eauto|done].
Qed.

Lemma signal_handle i P r S : Signal i P r S -> S.(ComIPduHandleId) = i.
Proof using Type. intros HS. apply (s_ok _ _ _ _ _ _ HS). Qed.

Lemma spec_CopyFromShadow n h i P r S d : aref c.(ComSignal) h = Some S -> Pdu i P r -> Signal i P r S ->
  S.(Com_Arc_IsSignalGroup) = true -> (d = true -> deferred_rx P = true) ->
  spec (I n) (Com_Misc_CopySignalGroupDataFromShadowBufferToPdu h d) any (I n).
Proof using Type.
  intros Hh Hp HS HG Hd. destruct (group_parts _ _ _ _ Hp HS HG) as (Hm & Hsh & _).
  unfold Com_Misc_CopySignalGroupDataFromShadowBufferToPdu.
  eapply spec_bind; [by apply spec_GET_Signal|]. com_intro. rewrite (signal_handle _ _ _ _ HS). com_step.
  eapply spec_bind; [by eapply spec_shadow|]. intros sa ->. com_step.
  destruct d; [rewrite Hdef by auto | rewrite Hptr]; com_step; com_step;
    (apply spec_copy_masked; [done|apply Hp; auto|done]).
Qed.

Lemma spec_CopyToShadow n h i P r S : aref c.(ComSignal) h = Some S -> Pdu i P r -> Signal i P r S ->
  S.(Com_Arc_IsSignalGroup) = true ->
  spec (I n) (Com_Misc_CopySignalGroupDataFromPduToShadowBuffer h) any (I n).
Proof using Type.
  intros Hh Hp HS HG. destruct (group_parts _ _ _ _ Hp HS HG) as (Hm & Hsh & _).
  unfold Com_Misc_CopySignalGroupDataFromPduToShadowBuffer.
  eapply spec_bind; [by apply spec_GET_Signal|]. com_intro. rewrite (signal_handle _ _ _ _ HS). com_step. com_step.
  assert (exists q, (if deferred_rx P then ComIPduDeferredDataPtr a else ComIPduDataPtr a) = Some q /\
                    in_buffer z q P.(ComIPduSize)) as (q & -> & Hq).
  { destruct (deferred_rx P) eqn:E; [rewrite Hdef by done | rewrite Hptr]; eexists; (split; [done|]); by apply Hp. }
  com_step.
  { com_step; [|com_go]. apply spec_TESTBIT. eapply bit_in_buffer; [done..|].
    by apply (s_ok _ _ _ _ _ _ HS). }
  com_step; [|com_go]. eapply spec_bind; [by eapply spec_shadow|]. intros sa ->. com_step. com_step.
  destruct Hsh as (?&?&?), Hq as (?&?&?).
  eapply spec_bind; [apply spec_get_buffer|]. intros b [Hb Hl].
  destruct (copy_masked_in (Z.to_nat P.(ComIPduSize)) 0 r.(r_shadow) q S.(Com_Arc_ShadowBuffer_Mask) b false)
    as (b' & ch & E & Hb' & Hl'); try (done || lia).
  eapply spec_bind; [by apply spec_deref_is|]. intros ? ->.
  apply spec_put_buffer; split; [done|lia].
Qed.

(** ** Reception *)
Lemma spec_signal_arc n i P r S : Signal i P r S -> spec (I n) (GET_ArcSignal S.(ComHandleId)) any (I n).
Proof using Type. intros HS. eapply spec_any, spec_GET_ArcSignal, HS. Qed.
Lemma spec_signal_upd n i P r S f : Signal i P r S ->
  (forall a, (f a).(Com_Arc_ShadowBuffer) = a.(Com_Arc_ShadowBuffer)) ->
  spec (I n) (upd_ArcSignal S.(ComHandleId) f) any (I n).
Proof using Type. intros HS. apply spec_upd_ArcSignal, HS. Qed.
Lemma spec_signal_notification n i P r S : Signal i P r S ->
  spec (I n) (notification S.(ComNotification)) any (I n).
Proof using Type. intros HS. apply spec_notification, (s_ok _ _ _ _ _ _ HS). Qed.
Lemma spec_signal_timeout_notification n i P r S : Signal i P r S ->
  spec (I n) (notification S.(ComTimeoutNotification)) any (I n).
Proof using Type. intros HS. apply spec_notification, (s_ok _ _ _ _ _ _ HS). Qed.
Lemma spec_signal_test n i P r S q : Pdu i P r -> Signal i P r S -> in_buffer z q P.(ComIPduSize) ->
  spec (I n) (if S.(ComSignalArcUseUpdateBit) then TESTBIT (Some q) S.(ComUpdateBitPosition) else ret true)
    any (I n).
Proof using Type.
  intros Hp HS Hq. apply spec_if; intros E; [|by apply spec_ret]. apply spec_TESTBIT.
  eapply bit_in_buffer; [done..|]. by apply (s_ok _ _ _ _ _ _ HS).
Qed.
#[local] Hint Resolve spec_signal_arc spec_signal_notification spec_signal_timeout_notification p_data : com.
#[local] Hint Extern 1 (spec _ (upd_ArcSignal _ _) _ _) =>
  (eapply spec_signal_upd; [eassumption | by intros ?]) : com.
#[local] Hint Extern 1 (spec _ (if _ then TESTBIT (Some _) _ else ret true) _ _) =>
  (eapply spec_signal_test; [eassumption..|by eauto with com]) : com.

Lemma spec_process_rx_signal n i P r a S : Pdu i P r -> Signal i P r S -> arc_of P r a ->
  spec (I n) (process_rx_signal P a S) any (I n).
Proof using Type.
  intros Hp HS [Hptr _ _]. unfold process_rx_signal. rewrite Hptr. com_go.
Qed.

Lemma spec_RxProcessSignals n i P r a : Pdu i P r -> P.(ComIPduDirection) = COM_RECEIVE -> arc_of P r a ->
  spec (I n) (Com_Misc_RxProcessSignals P a) any (I n).
Proof using Hvalid.
  intros Hp Hd Ha. pose proof Ha as [Hptr _ _]. unfold Com_Misc_RxProcessSignals.
  eapply spec_bind. { eapply spec_for_signals_unchecked; [done|]. intros. by eapply spec_process_rx_signal. }
  com_intro. com_step; [|com_go]. apply spec_for_each. intros j h Hh. apply list_elem_of_lookup_2 in Hh.
  pose proof (gw_handles _ _ _ _ Hp Hh) as Hg. rewrite bool_decide_eq_false_2 in Hg by (by rewrite Hd).
  destruct Hg as [Hb Hg]. destruct (aref _ h) as [d|] eqn:Ed; [|done]. cbn in Hg.
  eapply spec_bind; [by apply spec_GET_GwSrcSigDesc|]. com_intro. rewrite Hptr.
  com_step.
  { com_step; [|com_go]. apply spec_TESTBIT. eapply bit_in_buffer; [done|apply Hp|auto]. }
  com_step; [|com_go]. eapply spec_bind; [by apply spec_GET_ArcGwSrcSigDesc|]. com_intro.
  by apply spec_put_ArcGwSrcSigDesc.
Qed.
#[local] Hint Resolve spec_RxProcessSignals spec_clear_update_bits : com.

Lemma spec_if_init {A} n api (err : A) body : spec (I n) body any (I n) -> spec (I n) (if_init api err body) any (I n).
Proof using Type.
  intros Hb. unfold if_init. eapply spec_bind; [by apply (spec_get _ _ (fun _ => True))|]. intros st _.
  com_go.
Qed.
Lemma spec_if_below {A} n api id limit (err : A) body : (id < limit -> spec (I n) body any (I n)) ->
  spec (I n) (if_below api id limit err body) any (I n).
Proof using Type.
  intros Hb. unfold if_below. rewrite Z.geb_leb. destruct (Z.leb_spec limit id); [com_go | by apply Hb].
Qed.

Lemma spec_TxHandleDM n i P r : (n <= 19)%nat -> Pdu i P r -> spec (I n) (Com_Misc_TxHandleDM i) any (I n).
Proof using Hirq Hroom. intros Hn Hp. unfold Com_Misc_TxHandleDM. com_go. Qed.
#[local] Hint Extern 1 (spec _ (Com_Misc_TxHandleDM _) _ _) => (eapply spec_TxHandleDM; [lia|eassumption]) : com.

Lemma pdu_sends i P r : Pdu i P r -> sends c i -> P.(ComIPduDirection) = COM_SEND.
Proof using Type. intros Hp. unfold sends. by rewrite (p_cfg _ _ _ _ _ Hp). Qed.
Lemma pdu_receives i P r : Pdu i P r -> receives c i -> P.(ComIPduDirection) = COM_RECEIVE.
Proof using Type. intros Hp. unfold receives. by rewrite (p_cfg _ _ _ _ _ Hp). Qed.

Lemma spec_signal_set n i P r S : Pdu i P r -> Signal i P r S ->
  spec (I n) (if S.(ComSignalArcUseUpdateBit) then SETBIT (Some r.(r_data)) S.(ComUpdateBitPosition) else ret tt)
    any (I n).
Proof using Type.
  intros Hp HS. eapply (signal_bit n i P r S SETBIT); [done..|apply Hp|]. intros. by apply spec_SETBIT.
Qed.
#[local] Hint Resolve spec_signal_set : com.

(** The services for signals: what the caller has to respect. *)
Definition sendable (h : Z) (data : list Z) : Prop :=
  forall S, aref c.(ComSignal) h = Some S -> S.(ComIPduHandleId) <> NO_PDU_REFERENCE ->
    sends c S.(ComIPduHandleId) /\ S.(Com_Arc_IsSignalGroup) = false /\ value_ok S.(Sig_layout) data.
Definition receivable (h : Z) (out : list Z) : Prop :=
  forall S, aref c.(ComSignal) h = Some S ->
    (S.(ComIPduHandleId) = NO_PDU_REFERENCE -> copy_ok S.(Sig_layout) out) /\
    (S.(ComIPduHandleId) <> NO_PDU_REFERENCE ->
       S.(Com_Arc_IsSignalGroup) = false /\ (value_bytes S.(Sig_layout) <= length out)%nat).

Lemma spec_SendSignal n h data : (n <= 18)%nat -> 0 <= h -> sendable h data ->
  spec (I n) (Com_SendSignal h data) any (I n).
Proof using All.
  intros Hn Hh Hs. unfold Com_SendSignal. apply spec_if_init. com_step. apply spec_if_below. intros Hlt.
  destruct (signal_table _ _ Hvalid h) as [S HS]; [lia|].
  eapply spec_bind; [by apply spec_GET_Signal|]. com_intro.
  destruct (Z.eqb_spec (ComIPduHandleId S) NO_PDU_REFERENCE) as [|Hno]; [com_go|].
  destruct (signal_of _ _ Hvalid h S HS Hno) as (P & r & Hp & HSig).
  destruct (Hs S HS Hno) as (Hsend & HG & Hv). pose proof (pdu_sends _ _ _ Hp Hsend) as Hdir.
  pose proof (s_ok _ _ _ _ _ _ HSig) as (_ & _ & _ & _ & _ & _ & Hpl). rewrite HG in Hpl.
  destruct Hpl as (Hfit & _ & _ & Hsize).
  com_step. com_step; [com_go|]. rewrite (proj2 (Z.eqb_neq _ _)) by done. cbn [negb].
  eapply (spec_bind _ (I (Datatypes.S n)) _ _ _ any).
  { com_step. rewrite Hptr. com_step. eapply spec_bind; [apply spec_WriteSignal; [done|done|lia|done|done]|].
    intros ch _. com_go. }
  com_intro. com_go.
Qed.

Lemma spec_ReceiveSignal n h out : (n <= 18)%nat -> 0 <= h -> receivable h out ->
  spec (I n) (Com_ReceiveSignal h out) any (I n).
Proof using All.
  intros Hn Hh Hs. unfold Com_ReceiveSignal. apply spec_if_init. com_step. apply spec_if_below. intros Hlt.
  destruct (signal_table _ _ Hvalid h) as [S HS]; [lia|]. destruct (Hs S HS) as [Hs0 Hs1].
  eapply spec_bind; [by apply spec_GET_Signal|]. com_intro. cbv zeta.
  destruct (Z.eqb_spec (ComIPduHandleId S) NO_PDU_REFERENCE) as [E|Hno].
  - destruct (Hs0 E) as [Hc _].
    destruct Hvalid as (_ & _ & _ & _ & _ & _ & _ & _ & _ & _ & Hts & _). pose proof HS as [_ HS']%aref_Some.
    eapply Forall_lookup_1 in Hts; [|exact HS']. unfold init_bytes in *.
    destruct Hts as [[_ [Hi _]]|[? _]]; [|done].
    unfold init_bytes in Hi.
    eapply spec_bind; [apply spec_deref_is, read_bytes_0; lia|]. com_intro.
    eapply spec_bind; [apply spec_deref_is, write_bytes_in; [lia|]|]; [rewrite length_take; lia|]. com_intro. com_go.
  - destruct (signal_of _ _ Hvalid h S HS Hno) as (P & r & Hp & HSig). destruct (Hs1 Hno) as [HG Hv].
    pose proof (s_ok _ _ _ _ _ _ HSig) as (_ & _ & _ & _ & _ & _ & Hpl). rewrite HG in Hpl.
    destruct Hpl as (Hfit & Hdfit & _).
    com_step. com_step.
    eapply (spec_bind _ (I n) _ _ _ (fun x => exists q, x.2 = Some q /\ fits z q S.(Sig_layout))).
    { destruct (deferred_rx P) eqn:Ed; [rewrite Hdef by done; apply spec_ret; cbn; eauto|].
      com_step. rewrite Hptr. apply spec_ret. cbn. eauto. }
    intros [x pb] (q & Hq & Hfq). cbn in Hq. subst pb.
    eapply spec_bind; [apply spec_ReadSignal; [done|done|lia|done|done]|]. com_intro. com_go.
Qed.

(** Dynamic signals; these services do not check the handle. *)
Definition connected (h : Z) : Prop :=
  exists S, aref c.(ComSignal) h = Some S /\ S.(ComIPduHandleId) <> NO_PDU_REFERENCE.

Lemma dyn_parts i P r S : Pdu i P r -> Signal i P r S -> S.(Sig_layout).(l_type) = COM_UINT8_DYN ->
  P.(ComIPduDynSignalRef) = Some S /\ dyn_ok P S.
Proof using Type.
  intros Hp HS Ht. pose proof (s_ok _ _ _ _ _ _ HS) as (_ & _ & _ & _ & _ & Hd & _).
  pose proof (p_ok _ _ _ _ _ Hp) as (_ & _ & _ & Hdo & _). rewrite (Hd Ht) in *. done.
Qed.

Lemma spec_ReceiveDynSignal n h out len : (n <= 18)%nat -> connected h -> len <= Z.of_nat (length out) ->
  spec (I n) (Com_ReceiveDynSignal h out len) any (I n).
Proof using All.
  intros Hn (S & HS & Hno) Hlen. unfold Com_ReceiveDynSignal. apply spec_if_init.
  eapply spec_bind; [by apply spec_GET_Signal|]. com_intro.
  destruct (signal_of _ _ Hvalid h S HS Hno) as (P & r & Hp & HSig). com_step. com_step. cbv zeta.
  case_bool_decide as Ht; cbn [negb]; [|com_go].
  destruct (dyn_parts _ _ _ _ Hp HSig Ht) as [Hd (Hd1 & Hd2 & Hd3)]. specialize (Hdyn S Hd).
  com_step. com_step; [|com_go].
  rewrite Z.geb_leb. destruct (Z.leb_spec (Com_Arc_DynSignalLength a) len); [|com_go].
  eapply (spec_bind _ (I (Datatypes.S n)) _ _ _ (fun x => exists q, x.2 = Some q /\ in_buffer z q P.(ComIPduSize))).
  { destruct (deferred_rx P) eqn:Ed; [rewrite Hdef by done; apply spec_ret; cbn; eexists; split; [done|by apply Hp]|].
    com_step. rewrite Hptr. apply spec_ret. cbn. eexists; split; [done|by apply Hp]. }
  intros [x pb] (q & Hq & (?&?&?)). cbn in Hq. subst pb.
  eapply spec_bind; [apply spec_buffer_read; unfold in_buffer; lia|]. intros v [Hv Hvb].
  eapply spec_bind; [apply spec_deref_is, write_bytes_in; lia|]. com_intro. com_go.
Qed.

Definition dyn_sendable (h : Z) (data : list Z) (len : Z) : Prop :=
  exists S, aref c.(ComSignal) h = Some S /\ S.(ComIPduHandleId) <> NO_PDU_REFERENCE /\
    sends c S.(ComIPduHandleId) /\ 0 <= len <= Z.of_nat (length data) /\ bytes data.

Lemma spec_set_dyn_length n i P r v : Pdu i P r ->
  (forall d, P.(ComIPduDynSignalRef) = Some d -> 0 <= v <= d.(Sig_layout).(l_size) / 8) ->
  spec (I n) (upd_ArcIPdu i (set_Com_Arc_DynSignalLength v)) any (I n).
Proof using Type.
  intros Hp Hv. apply spec_upd_ArcIPdu_to; [apply Hp|apply only_pdu_refl|].
  intros a Ha Q q HQ. destruct (Ha Q q HQ) as (H1 & H2 & H3). split_and!; [done..|]. intros _ d Hd.
  pose proof (p_arc _ _ _ _ _ Hp) as []. unfold pdu_at in HQ. rewrite Z2Nat.id in HQ by done.
  rewrite (p_cfg _ _ _ _ _ Hp), (p_reg _ _ _ _ _ Hp) in HQ. cbn in HQ. injection HQ as <- <-. by apply Hv.
Qed.

Lemma spec_SendDynSignal n h data len : (n <= 18)%nat -> dyn_sendable h data len ->
  spec (I n) (Com_SendDynSignal h data len) any (I n).
Proof using All.
  intros Hn (S & HS & Hno & Hsend & Hlen & Hb). unfold Com_SendDynSignal. apply spec_if_init.
  eapply spec_bind; [by apply spec_GET_Signal|]. com_intro.
  destruct (signal_of _ _ Hvalid h S HS Hno) as (P & r & Hp & HSig).
  pose proof (pdu_sends _ _ _ Hp Hsend) as Hdir. com_step. com_step. cbv zeta.
  case_bool_decide as Ht; cbn [negb]; [|com_go]. rewrite Hptr.
  destruct (dyn_parts _ _ _ _ Hp HSig Ht) as [Hd (Hd1 & Hd2 & Hd3)]. specialize (Hdyn S Hd).
  pose proof (p_data _ _ _ _ _ Hp) as (?&?&?).
  com_step. com_step; [com_go|]. destruct (Z.ltb_spec (l_size (Sig_layout S) / 8) len); [com_go|].
  com_step. eapply spec_bind; [apply spec_deref_is, read_bytes_0; lia|]. com_intro.
  com_step.
  { com_step; [com_go|]. eapply spec_bind; [apply spec_buffer_read; unfold in_buffer; lia|]. com_intro. com_go. }
  eapply spec_bind.
  { apply spec_buffer_write; [|by apply bytes_take]. unfold in_buffer. rewrite length_take. lia. }
  com_intro. eapply spec_bind.
  { eapply spec_set_dyn_length; [done|]. intros d Hd'. rewrite Hd in Hd'. injection Hd' as <-. lia. }
  com_intro. com_go.
Qed.

(** ** I-PDUs *)
Lemma spec_trigger_callout n i P r : Pdu i P r ->
  spec (I n) (tx_callout ComTriggerTransmitIPduCallouts P.(ComTriggerTransmitIPduCallout) i P (Some r.(r_data)))
    any (I n).
Proof using Com_EnvOk0.
  intros Hp. eapply spec_tx_callout; [done| |apply trigger_in_place]. apply (p_ok _ _ _ _ _ Hp).
Qed.
#[local] Hint Resolve spec_trigger_callout : com.

Definition fetchable (h : Z) (out : list Z) : Prop :=
  forall P, aref c.(ComIPdu) h = Some P -> P.(ComIPduSize) <= Z.of_nat (length out).
Lemma spec_TriggerTransmit n h out len : (n <= 18)%nat -> 0 <= h -> fetchable h out ->
  spec (I n) (Com_TriggerTransmit h out len) any (I n).
Proof using All.
  intros Hn Hh Hs. unfold Com_TriggerTransmit. apply spec_if_init. com_step. apply spec_if_below. intros Hlt.
  destruct (pdu_below _ _ Hvalid h) as (P & r & Hp); [lia|]. specialize (Hs P (p_cfg _ _ _ _ _ Hp)).
  pose proof (p_data _ _ _ _ _ Hp) as (?&?&?).
  com_step. com_step. rewrite Hptr. com_step. com_step.
  eapply spec_bind; [eapply spec_pdu_read; [done|lia]|]. intros data [Hl Hb].
  eapply spec_bind; [apply spec_deref_is, write_bytes_in; lia|]. com_intro. com_go.
Qed.
Lemma spec_API_TriggerIPDUSend n h : (n <= 18)%nat -> 0 <= h -> (h < c.(ComNofIPdus) -> sends c h) ->
  spec (I n) (Com_TriggerIPDUSend h) any (I n).
Proof using All.
  intros Hn Hh Hs. unfold Com_TriggerIPDUSend. apply spec_if_init. com_step. apply spec_if_below. intros Hlt.
  destruct (pdu_below _ _ Hvalid h) as (P & r & Hp); [lia|]. pose proof (pdu_sends _ _ _ Hp (Hs Hlt)). com_go.
Qed.

Lemma spec_rx_callout n i P r sdu : Pdu i P r -> spec (I n) (rx_callout P.(ComRxIPduCallout) i sdu) any (I n).
Proof using Type.
  intros Hp. pose proof (p_ok _ _ _ _ _ Hp) as (_ & _ & _ & _ & _ & Hk & _).
  unfold rx_callout. destruct (Z.eqb_spec (ComRxIPduCallout P) COM_NO_FUNCTION_CALLOUT); [by apply spec_ret|].
  destruct Hk as [?|Hk]; [done|]. destruct (aref_is_Some _ _ Hk) as [f Hf].
  eapply spec_bind; [by apply spec_deref_is|]. intros ? ->. com_go.
Qed.

Lemma spec_validateIPduCounter n P k sdu : counter_ok z P k -> P.(ComIPduSize) <= Z.of_nat (length sdu) ->
  spec (I n) (Com_Misc_validateIPduCounter k sdu) any (I n).
Proof using Type.
  intros (Hr & [Hb1 Hb2] & Hi & Hi2 & _) Hl. unfold Com_Misc_validateIPduCounter. cbv zeta.
  assert (Hnext : forall v, exists w, next_counter v (ComIPduCntrRange k) = Some w).
  { intros v. unfold next_counter. rewrite (proj2 (Z.eqb_neq _ _)) by lia. eauto. }
  eapply spec_bind; [by apply spec_rx_start|]. intros st _.
  destruct (load_in sdu (ComIPduCntrStartPos k / 8)) as [v Hv]; [lia|].
  eapply spec_bind. { apply spec_deref_is. unfold extractIPduCntr. by rewrite Hv. } com_intro.
  com_step.
  { com_step.
    - eapply spec_bind; [by apply spec_counter|]. com_intro. com_go.
    - eapply spec_bind; [by apply spec_put_rx_start|]. com_intro. com_go. }
  destruct (Hnext (Z.land (v ≫ (ComIPduCntrStartPos k mod 8)) (u8 (u16 (ComIPduCntrRange k - 1))))) as [w Hw].
  eapply spec_bind; [by apply spec_deref_is|]. com_intro.
  eapply spec_bind; [by apply spec_put_counter|]. com_intro. com_go.
Qed.

Lemma spec_counter_accepts n i P r sdu : Pdu i P r -> P.(ComIPduSize) <= Z.of_nat (length sdu) ->
  spec (I n) (counter_accepts P sdu) any (I n).
Proof using Type.
  intros Hp Hl. pose proof (p_ok _ _ _ _ _ Hp) as (_ & _ & _ & _ & Hk & _). unfold counter_accepts.
  destruct COM_IPDU_COUNTING_ENABLE; [|com_go]. destruct (ComIpduCounterRef P) as [k|]; [|com_go]. cbn in Hk.
  eapply spec_bind; [by eapply spec_validateIPduCounter|]. com_intro. com_step; [com_go|].
  destruct Hk as (_ & _ & _ & _ & Hf).
  destruct (Z.eqb_spec (ComIPduCntErrNotification k) COM_NO_FUNCTION_CALLOUT); [com_go|].
  destruct Hf as [?|[f Hf]]; [done|]. destruct (aref _ _) as [[g|]|]; [|done..]. com_go.
Qed.
#[local] Hint Resolve spec_rx_callout spec_counter_accepts : com.

Definition indicated (h : Z) (sdu : list Z) : Prop :=
  receives c h /\ bytes sdu /\ forall P, aref c.(ComIPdu) h = Some P -> P.(ComIPduSize) <= Z.of_nat (length sdu).
Lemma spec_RxIndication n h sdu : (n <= 18)%nat -> 0 <= h -> (h < c.(ComNofIPdus) -> indicated h sdu) ->
  spec (I n) (Com_RxIndication h sdu) any (I n).
Proof using All.
  intros Hn Hh Hs. unfold Com_RxIndication. apply spec_if_init. com_step. apply spec_if_below. intros Hlt.
  destruct (pdu_below _ _ Hvalid h) as (P & r & Hp); [lia|]. destruct (Hs Hlt) as (Hr & Hb & Hl).
  specialize (Hl P (p_cfg _ _ _ _ _ Hp)). pose proof (pdu_receives _ _ _ Hp Hr) as Hdir.
  pose proof (p_data _ _ _ _ _ Hp) as (?&?&?). com_step. com_step. com_step. com_step; [|com_go].
  com_step; [|com_go]. com_step. com_step; [|com_go]. com_step. com_step; [|com_go].
  eapply spec_bind; [apply spec_deref_is, read_bytes_0; lia|]. com_intro. rewrite Hptr.
  eapply spec_bind.
  { apply spec_buffer_write; [|by apply bytes_take]. unfold in_buffer. rewrite length_take. lia. }
  com_intro. com_go.
Qed.

Lemma spec_TpRxIndication n h res : (n <= 18)%nat -> 0 <= h -> (h < c.(ComNofIPdus) -> receives c h) ->
  spec (I n) (Com_TpRxIndication h res) any (I n).
Proof using All.
  intros Hn Hh Hs. unfold Com_TpRxIndication. apply spec_if_init. com_step. apply spec_if_below. intros Hlt.
  destruct (pdu_below _ _ Hvalid h) as (P & r & Hp); [lia|]. pose proof (pdu_receives _ _ _ Hp (Hs Hlt)).
  com_go.
Qed.
Lemma spec_TpTxConfirmation n h res : (n <= 18)%nat -> 0 <= h -> spec (I n) (Com_TpTxConfirmation h res) any (I n).
Proof using All.
  intros Hn Hh. unfold Com_TpTxConfirmation. apply spec_if_init. com_step. apply spec_if_below. intros Hlt.
  destruct (pdu_below _ _ Hvalid h) as (P & r & Hp); [lia|]. com_go.
Qed.

Lemma spec_SetTxConfirmationStatus n i P r v : Pdu i P r ->
  spec (I n) (Com_Misc_SetTxConfirmationStatus P v) any (I n).
Proof using Hvalid.
  intros Hp. unfold Com_Misc_SetTxConfirmationStatus. destruct (signals_of _ _ _ _ _ Hp) as (l & El & _).
  rewrite El. com_step. destruct l as [|S l]; [com_go|].
  assert (HS : Signal i P r S) by (eapply signal_in; [done..|]; unfold signals; rewrite El; left). com_go.
Qed.
Lemma spec_GetTxConfirmationStatus n i P r : Pdu i P r ->
  spec (I n) (Com_Misc_GetTxConfirmationStatus P) any (I n).
Proof using Hvalid.
  intros Hp. unfold Com_Misc_GetTxConfirmationStatus. destruct (signals_of _ _ _ _ _ Hp) as (l & El & _).
  rewrite El. com_step. destruct l as [|S l]; [com_go|].
  assert (HS : Signal i P r S) by (eapply signal_in; [done..|]; unfold signals; rewrite El; left). com_go.
Qed.
#[local] Hint Resolve spec_SetTxConfirmationStatus spec_GetTxConfirmationStatus : com.

Lemma spec_TxConfirmation n h : (n <= 18)%nat -> 0 <= h -> spec (I n) (Com_TxConfirmation h) any (I n).
Proof using All.
  intros Hn Hh. unfold Com_TxConfirmation. apply spec_if_init. com_step. apply spec_if_below. intros Hlt.
  destruct (pdu_below _ _ Hvalid h) as (P & r & Hp); [lia|]. com_step. com_step. rewrite Hptr. com_go.
  eapply spec_for_signals_unchecked; [done|]. intros. com_go.
Qed.

(** ** Signal groups: the services *)
Definition group_connected (h : Z) : Prop :=
  exists S, aref c.(ComSignal) h = Some S /\
    (S.(ComIPduHandleId) <> NO_PDU_REFERENCE -> S.(Com_Arc_IsSignalGroup) = true).
Definition group_sendable (h : Z) : Prop :=
  exists S, aref c.(ComSignal) h = Some S /\
    (S.(ComIPduHandleId) <> NO_PDU_REFERENCE ->
       S.(Com_Arc_IsSignalGroup) = true /\ sends c S.(ComIPduHandleId)).

Lemma spec_SendSignalGroup n h : (n <= 18)%nat -> group_sendable h -> spec (I n) (Com_SendSignalGroup h) any (I n).
Proof using All.
  intros Hn (S & HS & Hg). unfold Com_SendSignalGroup. apply spec_if_init.
  eapply spec_bind; [by apply spec_GET_Signal|]. com_intro.
  destruct (Z.eqb_spec (ComIPduHandleId S) NO_PDU_REFERENCE) as [|Hno]; [com_go|].
  destruct (signal_of _ _ Hvalid h S HS Hno) as (P & r & Hp & HSig). destruct (Hg Hno) as [HG Hsend].
  pose proof (pdu_sends _ _ _ Hp Hsend) as Hdir.
  com_step. com_step. rewrite Hptr. com_step. com_step; [com_go|]. com_step.
  eapply spec_bind; [eapply spec_CopyFromShadow; eauto|]. com_intro. com_go.
Qed.
Lemma spec_ReceiveSignalGroup n h : (n <= 18)%nat -> group_connected h ->
  spec (I n) (Com_ReceiveSignalGroup h) any (I n).
Proof using All.
  intros Hn (S & HS & Hg). unfold Com_ReceiveSignalGroup. apply spec_if_init.
  eapply spec_bind; [by apply spec_GET_Signal|]. com_intro.
  destruct (Z.eqb_spec (ComIPduHandleId S) NO_PDU_REFERENCE) as [|Hno]; [com_go|].
  destruct (signal_of _ _ Hvalid h S HS Hno) as (P & r & Hp & HSig).
  com_step. com_step. com_step; [com_go|]. com_step.
  eapply spec_bind; [eapply spec_CopyToShadow; eauto|]. com_intro. com_go.
Qed.

Lemma group_signal_table h : 0 <= h < c.(ComNofGroupSignals) ->
  exists g, aref c.(Cfg_ComGroupSignal) h = Some g /\ table_group_signal_ok c z g /\ below h z.(n_GroupSignals).
Proof using Hvalid.
  intros Hh. destruct Hvalid as (_ & _ & _ & _ & _ & E & En & _ & _ & _ & _ & Hg & _).
  destruct (aref_is_Some c.(Cfg_ComGroupSignal) h) as [g Hgg]; [lia|]. exists g. split_and!; [done| |].
  - apply aref_Some in Hgg as [_ Hgg]. by eapply Forall_lookup_1 in Hg.
  - unfold below. lia.
Qed.

(** A group signal is written to its shadow buffer, when that is assigned. *)
Lemma spec_Misc_UpdateShadowSignal R n k g q data : (n <= 20)%nat -> aref c.(Cfg_ComGroupSignal) k = Some g ->
  value_ok g.(Grp_layout) data -> fits z q g.(Grp_layout) ->
  spec (fun s => Inv c z o0 R n s /\
                 aref s.(Com_Arc_GroupSignal) k = Some {| Arc_Grp_ShadowBuffer := Some q |})
    (Com_Misc_UpdateShadowSignal k data) any (Inv (W := W) c z o0 R n).
Proof using Hirq Hroom.
  intros Hn Hg Hv Hf s [Hs E]. unfold Com_Misc_UpdateShadowSignal, GET_ArcGroupSignal. apply wp_bind, wp_bind.
  apply wp_get. rewrite E. eapply wp_deref; [done|]. cbn [Arc_Grp_ShadowBuffer]. revert s Hs E.
  intros s Hs _. revert s Hs. change (spec (Inv c z o0 R n) (let* GroupSignal := GET_GroupSignal k in
    let* _ := WriteSignalDataToPdu data (Some q) (Grp_layout GroupSignal) in ret tt) any (Inv (W := W) c z o0 R n)).
  eapply spec_bind; [by apply spec_GET_GroupSignal|]. intros ? ->.
  eapply spec_bind; [by apply spec_WriteSignal|]. intros. by apply spec_ret.
Qed.

Definition shadow_writable (h : Z) (data : list Z) : Prop :=
  forall g, aref c.(Cfg_ComGroupSignal) h = Some g -> value_ok g.(Grp_layout) data.
Lemma spec_UpdateShadowSignal n h data : (n <= 18)%nat -> 0 <= h -> shadow_writable h data ->
  spec (I n) (Com_UpdateShadowSignal h data) any (I n).
Proof using All.
  intros Hn Hh Hs. unfold Com_UpdateShadowSignal. apply spec_if_init. com_step. apply spec_if_below. intros Hlt.
  destruct (group_signal_table h) as (g & Hg & [_ Hok] & Hb); [lia|]. specialize (Hs g Hg).
  intros s HI. destruct (aref_is_Some s.(Com_Arc_GroupSignal) h) as [a E].
  { rewrite <- (i_sizes _ _ _ _ _ _ HI) in Hb. exact Hb. }
  pose proof E as [_ Ha%(i_grps _ _ _ _ _ _ HI)]%aref_Some.
  apply wp_bind. unfold GET_ArcGroupSignal. apply wp_bind, wp_get. eapply wp_deref; [done|].
  destruct a as [[q|]]; cbn; [|done]. destruct (Ha q eq_refl) as (g' & r & Hg' & Hr & ->).
  pose proof Hg as [_ Hg2]%aref_Some. rewrite Hg2 in Hg'. injection Hg' as <-. rewrite Hr in Hok.
  apply (spec_Misc_UpdateShadowSignal (complete c) n h g (r_shadow r) data); [lia|done|done| |by split].
  exact Hok.
Qed.

Definition shadow_readable (h : Z) (out : list Z) : Prop :=
  forall g, aref c.(Cfg_ComGroupSignal) h = Some g ->
    copy_ok g.(Grp_layout) out /\ (value_bytes g.(Grp_layout) <= length out)%nat.
Lemma spec_ReceiveShadowSignal n h out : (n <= 18)%nat -> 0 <= h -> shadow_readable h out ->
  spec (I n) (Com_ReceiveShadowSignal h out) any (I n).
Proof using All.
  intros Hn Hh Hs. unfold Com_ReceiveShadowSignal. apply spec_if_init. com_step. apply spec_if_below. intros Hlt.
  destruct (group_signal_table h) as (g & Hg & [[Hi _] Hok] & Hb); [lia|]. destruct (Hs g Hg) as [[Hc _] Hv].
  eapply spec_bind; [by apply spec_GET_GroupSignal|]. com_intro.
  eapply spec_bind; [by apply spec_GET_ArcGroupSignal|]. intros a Ha. cbv zeta. unfold init_bytes in *.
  destruct (Arc_Grp_ShadowBuffer a) as [q|] eqn:E.
  - destruct (Ha q E) as (g' & r & Hg' & Hr & ->).
    pose proof Hg as [_ Hg2]%aref_Some. rewrite Hg2 in Hg'. injection Hg' as <-. rewrite Hr in Hok.
    eapply spec_any, spec_ReadSignal; [done|done|lia|done|done].
  - eapply spec_bind; [apply spec_deref_is, read_bytes_0; lia|]. com_intro.
    eapply spec_any, spec_deref_is, write_bytes_in; [lia|]. rewrite length_take. lia.
Qed.

(** ** The main functions *)
#[local] Hint Extern 1 (spec _ (Com_TriggerIPDUSend _) _ _) =>
  (eapply spec_API_TriggerIPDUSend; [lia|lia|by intros]) : com.
Lemma spec_pdu_sends i P r : Pdu i P r -> P.(ComIPduDirection) = COM_SEND -> 0 <= i /\ sends c i.
Proof using Type.
  intros Hp Hd. destruct (p_arc _ _ _ _ _ Hp). split; [done|]. unfold sends. by rewrite (p_cfg _ _ _ _ _ Hp).
Qed.

Lemma spec_ProcessMixedOrPeriodic n i P r dm : (n <= 17)%nat -> Pdu i P r -> P.(ComIPduDirection) = COM_SEND ->
  spec (I n) (Com_ProcessMixedOrPeriodicTxMode i dm) any (I n).
Proof using All.
  intros Hn Hp Hs. destruct (spec_pdu_sends _ _ _ Hp Hs). unfold Com_ProcessMixedOrPeriodicTxMode. com_go.
Qed.
Lemma spec_ProcessDirect n i P r dm : (n <= 17)%nat -> Pdu i P r -> P.(ComIPduDirection) = COM_SEND ->
  spec (I n) (Com_ProcessDirectTxMode i dm) any (I n).
Proof using All.
  intros Hn Hp Hs. destruct (spec_pdu_sends _ _ _ Hp Hs). unfold Com_ProcessDirectTxMode. com_go.
Qed.
#[local] Hint Extern 1 (spec _ (Com_ProcessMixedOrPeriodicTxMode _ _) _ _) =>
  (eapply spec_ProcessMixedOrPeriodic; [lia|eassumption..]) : com.
#[local] Hint Extern 1 (spec _ (Com_ProcessDirectTxMode _ _) _ _) =>
  (eapply spec_ProcessDirect; [lia|eassumption..]) : com.

Lemma spec_tx_notifications n i P r S cs dm : Signal i P r S -> spec (I n) (tx_notifications cs dm S) any (I n).
Proof using Type. intros HS. unfold tx_notifications. com_go. Qed.

Lemma spec_for_IPdus n body : (forall i P r, Pdu i P r -> spec (I n) (body i P) any (I n)) ->
  spec (I n) (for_IPdus body) any (I n).
Proof using Hvalid.
  intros Hb. unfold for_IPdus. com_step. apply spec_for_each. intros j P HP. cbn.
  destruct (pdu_of _ _ Hvalid (Z.of_nat j) P) as [r Hr]; [by rewrite aref_lookup|]. by eapply Hb.
Qed.

Lemma spec_MainFunctionTx n : (n <= 15)%nat -> spec (I n) Com_MainFunctionTx any (I n).
Proof using All.
  intros Hn. unfold Com_MainFunctionTx. apply spec_if_init, spec_for_IPdus. intros i P r Hp. unfold main_tx_pdu.
  com_step. destruct (bool_decide (ComIPduDirection P = COM_SEND)) eqn:E; cbn [andb]; [|com_go].
  apply bool_decide_eq_true in E. com_go.
  eapply spec_for_signals; [done|]. intros. by eapply spec_tx_notifications.
Qed.

Lemma spec_rx_timeout n i P r a S : (n <= 18)%nat -> Pdu i P r -> Signal i P r S -> arc_of P r a ->
  spec (I n) (rx_timeout a S) any (I n).
Proof using Hirq Hroom.
  intros Hn Hp HS [Hptr _ _]. unfold rx_timeout. rewrite Hptr.
  com_step; [|com_go]. com_step; [|com_go]. destruct (Com_Arc_IsSignalGroup S) eqn:HG.
  - destruct (group_parts _ _ _ _ Hp HS HG) as (_ & _ & gs & -> & Hgs). com_step.
    eapply spec_bind.
    { apply spec_for_each. intros j g Hg. eapply Forall_lookup_1 in Hg; [|exact Hgs].
      destruct Hg as (_ & _ & _ & Hfit & Hv).
      eapply spec_bind; [apply spec_WriteSignal; [done|done|lia|done|done]|]. com_intro. com_go. }
    com_intro. com_go.
  - pose proof (s_ok _ _ _ _ _ _ HS) as (_ & _ & _ & _ & _ & _ & Hpl). rewrite HG in Hpl.
    destruct Hpl as (Hfit & _ & Hv & _). com_step.
    eapply spec_bind; [apply spec_WriteSignal; [done|done|lia|done|done]|]. com_intro. com_go.
Qed.
#[local] Hint Extern 1 (spec _ (rx_timeout _ _) _ _) => (eapply spec_rx_timeout; [lia|eassumption..]) : com.

Lemma spec_monitor_rx_signals n i P r a l u : (n <= 18)%nat -> Pdu i P r -> arc_of P r a ->
  (forall S, S ∈ l -> Signal i P r S) -> spec (I n) (monitor_rx_signals a l u) any (I n).
Proof using Hirq Hroom.
  intros Hn Hp Ha. revert u. induction l as [|S l IH]; intros u Hl; cbn [monitor_rx_signals]; [com_go|].
  assert (HS : Signal i P r S) by (apply Hl; left).
  eapply (spec_bind _ (I n) _ _ _ any). { unfold monitor_rx_signal. com_go. }
  com_intro. com_step. apply IH. intros S' HS'. apply Hl. by right.
Qed.

Lemma spec_deferred_processing n i P r a : Pdu i P r -> arc_of P r a -> deferred_rx P = true ->
  spec (I n) (deferred_processing i P a) any (I n).
Proof using Hvalid.
  intros Hp [Hptr Hdef _] Hd. unfold deferred_processing. rewrite Hptr, (Hdef Hd). com_step.
  pose proof (p_data _ _ _ _ _ Hp) as (?&?&?). pose proof (p_deferred _ _ _ _ _ Hp Hd) as (?&?&?).
  eapply spec_bind; [eapply spec_pdu_read; [done|lia]|]. intros data [Hl Hb].
  eapply spec_bind; [apply spec_buffer_write; [unfold in_buffer; lia|done]|]. com_intro.
  eapply spec_for_signals; [done|]. intros. com_go.
Qed.
#[local] Hint Resolve spec_deferred_processing : com.

Lemma spec_MainFunctionRx n : (n <= 15)%nat -> spec (I n) Com_MainFunctionRx any (I n).
Proof using All.
  intros Hn. unfold Com_MainFunctionRx. apply spec_if_init, spec_for_IPdus. intros i P r Hp. unfold main_rx_pdu.
  com_step. destruct (bool_decide (ComIPduDirection P = COM_RECEIVE)) eqn:E; cbn [andb]; [|com_go].
  apply bool_decide_eq_true in E. com_step; [|com_go]. com_step.
  eapply spec_bind; [eapply spec_monitor_rx_signals; [lia|done|done|]; intros; by eapply signal_in|]. com_intro.
  com_step.
  { com_step; [|com_go]. select (_ && _ = true) (fun H => apply andb_true_iff in H as [_ ?%bool_decide_eq_true]).
    eapply spec_deferred_processing; [done..|]. unfold deferred_rx. by rewrite !bool_decide_eq_true_2. }
  com_step; [|com_go]. com_step; [|com_go].
  apply spec_for_each. intros j h Hh. apply list_elem_of_lookup_2 in Hh.
  pose proof (gw_handles _ _ _ _ Hp Hh) as Hg. rewrite bool_decide_eq_false_2 in Hg by (by rewrite E).
  destruct Hg as [Hb _]. eapply spec_bind; [by apply spec_GET_ArcGwSrcSigDesc|]. com_intro.
  by apply spec_put_ArcGwSrcSigDesc.
Qed.

(** ** I-PDU groups and modes *)
Definition vector_ok (vec : list Z) : Prop :=
  Forall (fun P => Forall (fun h => below (h / 8) (length vec)) P.(ComIPduGroupRefs)) c.(ComIPdu).

Lemma in_groups_ok refs vec : Forall (fun h => below (h / 8) (length vec)) refs ->
  exists b, in_groups refs vec = Some b.
Proof using Type.
  induction 1 as [|h refs Hh _ IH]; cbn [in_groups]; [eauto|].
  destruct (load_in vec (h / 8)) as [v ->]; [done|]. cbn [mbind option_bind].
  destruct (_ =? 1); [eauto|done].
Qed.
Lemma vector_groups vec i P r : vector_ok vec -> Pdu i P r -> exists b, in_groups P.(ComIPduGroupRefs) vec = Some b.
Proof using Type.
  intros Hv Hp. apply in_groups_ok. pose proof (p_cfg _ _ _ _ _ Hp) as [_ E]%aref_Some.
  by eapply Forall_lookup_1 in E; [|exact Hv].
Qed.

Lemma spec_restart_rx_deadlines n i P r : Pdu i P r -> spec (I n) (restart_rx_deadlines P) any (I n).
Proof using Hvalid.
  intros Hp. unfold restart_rx_deadlines. eapply spec_for_signals_unchecked; [done|]. intros S HS. com_go.
Qed.
Lemma spec_control_tx n i P r st ini : Pdu i P r -> spec (I n) (control_tx i P st ini) any (I n).
Proof using Type. intros Hp. unfold control_tx. com_go. Qed.
#[local] Hint Resolve spec_restart_rx_deadlines spec_control_tx : com.

Lemma spec_IpduGroupControl n vec ini : (n <= 15)%nat -> vector_ok vec ->
  spec (I n) (Com_IpduGroupControl vec ini) any (I n).
Proof using All.
  intros Hn Hv. unfold Com_IpduGroupControl. apply spec_if_init, spec_for_IPdus. intros i P r Hp.
  unfold control_IPdu. destruct (vector_groups vec i P r Hv Hp) as [st ->].
  com_step. com_step. com_step; [|com_go]. com_step. com_step; [|com_go].
  pose proof (p_ok _ _ _ _ _ Hp) as (_ & _ & _ & _ & Hk & _).
  destruct (COM_IPDU_COUNTING_ENABLE && ini && st); [|com_go].
  destruct (ComIpduCounterRef P) as [k|]; [|com_go]. destruct Hk as (_ & _ & ? & ? & _).
  com_step; [by apply spec_put_counter | by apply spec_put_rx_start].
Qed.
Lemma spec_ReceptionDMControl n vec : (n <= 15)%nat -> vector_ok vec ->
  spec (I n) (Com_ReceptionDMControl vec) any (I n).
Proof using All.
  intros Hn Hv. unfold Com_ReceptionDMControl. apply spec_if_init, spec_for_IPdus. intros i P r Hp.
  unfold dm_control_IPdu. destruct (vector_groups vec i P r Hv Hp) as [st ->]. com_go.
Qed.
Lemma spec_ClearIpduGroupVector n vec : spec (I n) (Com_ClearIpduGroupVector vec) any (I n).
Proof using Type. apply spec_if_init. com_go. Qed.
Lemma spec_SetIpduGroup n vec h v : below (h / 8) (length vec) -> spec (I n) (Com_SetIpduGroup vec h v) any (I n).
Proof using Type.
  intros Hh. apply spec_if_init. cbv zeta. destruct (load_in vec (h / 8)) as [x Hx]; [done|].
  eapply spec_bind; [by apply spec_deref_is|]. com_intro. eapply spec_any, spec_deref_is, store_in. exact Hh.
Qed.
Lemma spec_SwitchIpduTxMode n h m : 0 <= h -> spec (I n) (Com_SwitchIpduTxMode h m) any (I n).
Proof using Hvalid.
  intros Hh. apply spec_if_init. com_step. apply spec_if_below. intros Hlt.
  destruct (pdu_below _ _ Hvalid h) as (P & r & Hp); [lia|]. com_go.
Qed.
Lemma spec_DeInit n : spec (I n) Com_DeInit any (I n).
Proof using Hvalid.
  apply spec_if_init. eapply spec_bind; [apply spec_for_IPdus; intros i P r Hp; com_go|]. com_intro.
  apply spec_modify. by intros s [].
Qed.

(** ** Transport protocol *)
Definition is_pdu_id (h : Z) : Prop := 0 <= h < c.(ComNofIPdus).
#[local] Hint Extern 1 (spec _ (put_buffer_state _ _) _ _) =>
  (eapply complete_put_buffer_state; [eassumption | cbn; lia]) : com.

Lemma spec_CopyTxData n h out len cnt : (n <= 15)%nat -> is_pdu_id h -> 0 <= len <= Z.of_nat (length out) ->
  spec (I n) (Com_CopyTxData h out len cnt) any (I n).
Proof using All.
  intros Hn Hh Hlen. apply spec_if_init. destruct (pdu_below _ _ Hvalid h Hh) as (P & r & Hp).
  pose proof (p_data _ _ _ _ _ Hp) as (?&?&?). pose proof (p_ok _ _ _ _ _ Hp) as ([_ Hsz] & _).
  com_step. cbv zeta. com_step. eapply spec_bind; [by eapply complete_buffer_state|]. intros st Hst; cbv beta in Hst.
  com_step. com_step; [|com_go].
  destruct (_ && _) eqn:E; [|com_go]. apply andb_true_iff in E as [_ E]. rewrite Z.geb_leb in E.
  apply Z.leb_le in E. com_step. rewrite Hptr.
  eapply spec_bind; [apply spec_buffer_read; unfold in_buffer; lia|]. intros data [Hl Hb].
  eapply spec_bind; [apply spec_deref_is, write_bytes_in; lia|]. com_intro.
  unfold u16 at 1. rewrite Z.mod_small by lia. com_go.
Qed.
Lemma spec_CopyRxData n h data len cnt : (n <= 15)%nat -> is_pdu_id h -> 0 <= len <= Z.of_nat (length data) ->
  bytes data -> spec (I n) (Com_CopyRxData h data len cnt) any (I n).
Proof using All.
  intros Hn Hh Hlen Hbd. apply spec_if_init. destruct (pdu_below _ _ Hvalid h Hh) as (P & r & Hp).
  pose proof (p_data _ _ _ _ _ Hp) as (?&?&?). pose proof (p_ok _ _ _ _ _ Hp) as ([_ Hsz] & _).
  com_step. com_step. eapply spec_bind; [by eapply complete_buffer_state|]. intros st Hst; cbv beta in Hst. cbv zeta.
  com_step; [|com_go].
  destruct (_ && _) eqn:E; [|com_go]. apply andb_true_iff in E as [_ E]. rewrite Z.geb_leb in E.
  apply Z.leb_le in E. unfold u16 in E. rewrite Z.mod_small in E by lia. com_step. rewrite Hptr.
  eapply spec_bind; [apply spec_deref_is, read_bytes_0; lia|]. com_intro.
  eapply spec_bind.
  { apply spec_buffer_write; [|by apply bytes_take]. unfold in_buffer. rewrite length_take. lia. }
  com_intro. unfold u16 at 1. rewrite Z.mod_small by lia. com_go.
Qed.

Lemma spec_StartOfReception n h len sz : (n <= 15)%nat -> is_pdu_id h -> 0 <= len ->
  spec (I n) (Com_StartOfReception h len sz) any (I n).
Proof using All.
  intros Hn Hh Hlen. apply spec_if_init. destruct (pdu_below _ _ Hvalid h Hh) as (P & r & Hp).
  pose proof (p_ok _ _ _ _ _ Hp) as ([_ Hsz] & _ & _ & Hd & _).
  com_step. com_step. com_step; [|com_go]. com_step; [|com_go]. com_step. com_step; [|com_go].
  eapply spec_bind; [by eapply complete_buffer_state|]. intros st Hst; cbv beta in Hst. com_step; [|com_go].
  rewrite Z.geb_leb. destruct (Z.leb_spec len (ComIPduSize P)); [|com_go]. com_step.
  eapply (spec_bind _ (I (Datatypes.S n)) _ _ _ any); [|com_intro; com_go].
  unfold Com_SetDynSignalLength. com_step. destruct (ComIPduDynSignalRef P) as [d|] eqn:Ed; [|com_go]. cbv zeta.
  eapply spec_set_dyn_length; [done|]. intros d' Hd'. rewrite Ed in Hd'. injection Hd' as <-.
  destruct Hd as (? & ? & ?). rewrite Z.gtb_ltb. destruct (Z.ltb_spec (l_pos (Sig_layout d) / 8) len); [|lia].
  unfold u16. rewrite Z.mod_small by lia. lia.
Qed.

(** ** The gateway *)
Lemma copy_bytes_in k dst src b : bytes b -> 0 <= dst -> dst + Z.of_nat k <= Z.of_nat (length b) ->
  0 <= src -> src + Z.of_nat k <= Z.of_nat (length b) ->
  exists b', copy_bytes k dst src b = Some b' /\ bytes b' /\ length b' = length b.
Proof using Type.
  revert dst src b. induction k as [|k IH]; intros dst src b Hb Hd1 Hd2 Hs1 Hs2; cbn [copy_bytes]; [eauto|].
  destruct (load_in b src) as [v Hv]; [lia|]. rewrite Hv. cbn [mbind option_bind].
  rewrite store_in by lia. cbn [mbind option_bind].
  destruct (IH (dst + 1) (src + 1) (<[Z.to_nat dst := v]> b)) as (b' & E & Hb' & Hl').
  { apply bytes_insert; [done|]. exact (load_byte _ _ _ Hb Hv). }
  all: rewrite ?length_insert in *; try lia. eauto.
Qed.

Lemma gw_group h i k : gw_group_ok c z h i k ->
  exists S P r, aref c.(ComSignal) h = Some S /\ S.(ComHandleId) = h /\ Pdu S.(ComIPduHandleId) P r /\
    Signal S.(ComIPduHandleId) P r S /\ S.(Com_Arc_IsSignalGroup) = true /\
    S.(ComIPduHandleId) <> NO_PDU_REFERENCE /\
    0 <= r.(r_shadow) + i /\ r.(r_shadow) + i + k <= Z.of_nat z.(n_Buffer).
Proof using Hvalid.
  unfold gw_group_ok. destruct (aref _ h) as [S|] eqn:HS; [|done]. intros (Hh & HG & Hno & Hr).
  destruct (signal_of _ _ Hvalid h S HS Hno) as (P & r & Hp & HSig).
  rewrite (p_reg _ _ _ _ _ Hp) in Hr. destruct Hr as [? ?]. exists S, P, r. split_and!; done.
Qed.

Lemma spec_route_group_to n S h d : (n <= 15)%nat -> aref c.(ComSignal) h = Some S ->
  gw_group_ok c z h (S.(Sig_layout).(l_pos) / 8) (gw_bytes S) -> gw_group_route_ok c z S d ->
  spec (I n) (route_group_to S h d) any (I n).
Proof using All.
  intros Hn HS Hsrc Hd. unfold gw_group_route_ok in Hd.
  destruct (aref c.(ComSignal) (ComGwDestinationSignalHandle d)) as [D|] eqn:HD; [|done]. destruct Hd as [Hdst Hsend].
  destruct (gw_group _ _ _ Hsrc) as (S' & P & r & HS' & Hh & Hp & HSig & HG & Hno & Hs1 & Hs2).
  rewrite HS in HS'. injection HS' as <-.
  destruct (gw_group _ _ _ Hdst) as (D' & Q & q & HD' & Hdh & Hq & HDig & HDG & HDno & Hd1 & Hd2).
  rewrite HD in HD'. injection HD' as <-.
  unfold route_group_to. eapply spec_bind; [by apply spec_GET_Signal|]. com_intro.
  eapply spec_bind; [rewrite <- Hdh at 1; by eapply spec_shadow|]. intros da ->.
  eapply spec_bind; [rewrite <- Hh at 1; exact (spec_shadow n _ P r S Hp HSig HG)|]. intros sa ->. cbv zeta.
  com_step. com_step. com_step. eapply spec_bind; [apply spec_get_buffer|]. intros b [Hb Hl].
  fold (gw_bytes S). assert (0 <= gw_bytes S) by (apply Z.mod_pos_bound; lia).
  destruct (copy_bytes_in (Z.to_nat (gw_bytes S)) (r_shadow q + l_pos (Sig_layout D) / 8)
    (r_shadow r + l_pos (Sig_layout S) / 8) b) as (b' & E & Hb' & Hl'); [done|lia..|].
  eapply spec_bind; [by apply spec_deref_is|]. com_intro.
  eapply spec_bind; [apply spec_put_buffer; split; [done|lia]|]. com_intro. com_step.
  eapply spec_bind; [apply spec_SendSignalGroup; [lia|]|com_intro; com_go].
  exists D. split; [done|]. intros _. done.
Qed.

(** Where a signal of layout [L] is written to by the gateway. *)
Record dest_ok (ref : ComGwSignalRef_type) (L : Layout) (d : GwDestination)
    (P : ComIPdu_type) (r : Region) (q : Z) : Prop := {
  d_pdu : Pdu d.(gd_iPduHandle) P r;
  d_send : P.(ComIPduDirection) = COM_SEND;
  d_data : d.(gd_data) = Some q;
  d_fits : fits z q {| l_type := L.(l_type); l_endian := d.(gd_endian); l_pos := d.(gd_bitpos);
                       l_size := L.(l_size) |};
  d_len : (value_bytes {| l_type := L.(l_type); l_endian := d.(gd_endian); l_pos := d.(gd_bitpos);
                          l_size := L.(l_size) |} <= 8)%nat;
  d_in : in_buffer z q P.(ComIPduSize);
  d_bit : d.(gd_updateBitUsed) = true -> bit_in P d.(gd_ubitPos);
  d_group : ref = COM_GROUP_SIGNAL_REFERENCE -> exists S, aref c.(ComSignal) d.(gd_sigHandle) = Some S /\
    Signal d.(gd_iPduHandle) P r S /\ S.(Com_Arc_IsSignalGroup) = true
}.

Lemma gw_place h sh L u b : gw_place_ok c z h sh L u b ->
  exists P r, Pdu h P r /\ P.(ComIPduDirection) = COM_SEND /\ (value_bytes L <= 8)%nat /\
    fits z (if sh then r.(r_shadow) else r.(r_data)) L /\
    in_buffer z (if sh then r.(r_shadow) else r.(r_data)) P.(ComIPduSize) /\ (u = true -> bit_in P b).
Proof using Hvalid.
  unfold gw_place_ok, sends, pdu_at. destruct (aref _ h) as [P|] eqn:HP; [|by intros [[] _]].
  destruct (pdu_of _ _ Hvalid h P HP) as [r Hr]. rewrite (p_reg _ _ _ _ _ Hr). cbn.
  intros (? & ? & ? & ? & ?). exists P, r. split_and!; try done. destruct sh; apply Hr; auto.
Qed.

Lemma spec_gw_destination n L d : gw_route_ok c z L d ->
  spec (I n) (gw_destination d)
    (fun o => forall x, o = Some x -> exists P r q, dest_ok d.(ComGwDestinationSignalRef) L x P r q) (I n).
Proof using Hvalid.
  unfold gw_route_ok, gw_destination. cbv zeta. destruct (ComGwDestinationSignalRef d) eqn:Er; intros Hd.
  - destruct (aref _ _) as [D|] eqn:HD in Hd; [|done].
    cbn in Hd. destruct (gw_place _ _ _ _ _ Hd) as (P & r & Hp & Hs & Hv & Hf & Hi & Hb).
    eapply spec_bind; [by apply spec_GET_Signal|]. com_intro. com_step. apply spec_ret. intros x [= <-].
    exists P, r, r.(r_data). by split.
  - destruct (aref _ _) as [g|] eqn:Hg in Hd; [|done]. destruct Hd as [Hgg Hd].
    destruct (gw_group _ _ _ Hgg) as (D & P & r & HD & Hh & Hp & HSig & HG & Hno & _).
    rewrite HD in Hd. cbn in Hd. destruct (gw_place _ _ _ _ _ Hd) as (P' & r' & Hp' & Hs & Hv & Hf & Hi & Hb).
    assert (P' = P) as -> by (pose proof (p_cfg _ _ _ _ _ Hp); pose proof (p_cfg _ _ _ _ _ Hp'); congruence).
    assert (r' = r) as -> by (pose proof (p_reg _ _ _ _ _ Hp); pose proof (p_reg _ _ _ _ _ Hp'); congruence).
    eapply spec_bind; [by apply spec_GET_GroupSignal|]. com_intro.
    eapply spec_bind; [by apply spec_GET_Signal|]. com_intro. com_step.
    eapply spec_bind; [rewrite <- Hh at 1; by eapply spec_shadow|]. intros sa Hsa. rewrite Hsa.
    apply spec_ret. intros x [= <-]. exists P, r, r.(r_shadow). split; try done. intros _. eauto.
  - by apply spec_ret.
  - destruct (aref _ _) as [D|] eqn:HD in Hd; [|done].
    cbn in Hd. destruct (gw_place _ _ _ _ _ Hd) as (P & r & Hp & Hs & Hv & Hf & Hi & Hb).
    eapply spec_bind; [by apply spec_GET_GwDestnSigDesc|]. com_intro. com_step. apply spec_ret. intros x [= <-].
    exists P, r, r.(r_data). by split.
Qed.

Lemma spec_route_to n ref L d data P r q : (n <= 15)%nat -> dest_ok ref L d P r q -> length data = 8%nat -> bytes data ->
  spec (I n) (route_to ref d data L.(l_type) L.(l_size)) any (I n).
Proof using All.
  intros Hn [Hp Hs Hq Hf Hv Hin Hbit Hgrp] Hl Hb. unfold route_to. rewrite Hq.
  assert (Hset : forall m p, in_buffer z p P.(ComIPduSize) ->
    spec (I m) (if gd_updateBitUsed d then SETBIT (Some p) (gd_ubitPos d) else ret tt) any (I m)).
  { intros m p Hpin. com_step; [|com_go]. apply spec_SETBIT. eapply bit_in_buffer; [done..|]. by apply Hbit. }
  eapply spec_bind; [apply spec_WriteSignal; [done|done|lia|done|split; [lia|done]]|]. com_intro.
  eapply spec_bind; [by apply Hset|]. com_intro. com_step.
  com_step; [|com_go].
  case_bool_decide as Er; [|com_go]. destruct (Hgrp Er) as (S & HS & HSig & HG).
  eapply spec_bind; [by eapply spec_CopyFromShadow|]. com_intro. com_step. rewrite Hptr.
  eapply spec_bind; [apply Hset, Hp|]. com_intro. com_go.
Qed.

Lemma spec_route_all n L data k ds : (n <= 15)%nat -> length data = 8%nat -> bytes data ->
  (k <= length ds)%nat -> Forall (gw_route_ok c z L) ds ->
  spec (I n) (route_all k ds data L.(l_type) L.(l_size)) any (I n).
Proof using All.
  intros Hn Hl Hb. revert ds. induction k as [|k IH]; intros ds Hk Hds; cbn [route_all]; [com_go|].
  destruct ds as [|d ds]; cbn in Hk; [lia|]. apply Forall_cons_1 in Hds as [Hd Hds]. cbn [head tail]. com_step.
  eapply spec_bind; [by apply spec_gw_destination|]. intros [x|] Hx; [|com_go].
  destruct (Hx x eq_refl) as (P & r & q & Hdest).
  eapply spec_bind; [by eapply spec_route_to|]. com_intro. apply IH; [lia|done].
Qed.

Lemma spec_ExtractGwSrcSigData n h L data : (n <= 15)%nat -> gw_extract_ok c z h L -> length data = 8%nat ->
  bytes data ->
  spec (I n) (Com_Misc_ExtractGwSrcSigData h data L) (fun x => length x = 8%nat /\ bytes x) (I n).
Proof using Hirq Hroom Hvalid.
  intros Hn (Hr & Hv & Hx) Hl Hb. unfold pdu_at, receives in *. destruct (aref _ h) as [P|] eqn:HP in Hr, Hx; [|done].
  cbn in Hr. destruct (pdu_of _ _ Hvalid h P HP) as [r Hp]. rewrite (p_reg _ _ _ _ _ Hp) in Hx. cbn in Hx.
  unfold Com_Misc_ExtractGwSrcSigData. com_step. com_step. cbv zeta.
  set (q := if bool_decide (ComIPduSignalProcessing P = COM_DEFERRED) then r_deferred r else r_data r) in *.
  assert ((if bool_decide (ComIPduSignalProcessing P = COM_DEFERRED) then ComIPduDeferredDataPtr a else ComIPduDataPtr a)
    = Some q) as ->.
  { unfold q. destruct (bool_decide _) eqn:E; [|done]. apply Hdef. unfold deferred_rx.
    rewrite E. by rewrite bool_decide_eq_true_2. }
  destruct (_ && _) eqn:Et.
  { eapply spec_post; [apply spec_ReadSignal; [done|done|lia|done|lia]|]. intros x [? Hbx]. split; [lia|auto]. }
  assert (Ho : opaque L = true).
  { destruct Hx as [HL _]. destruct (opaque L) eqn:Ho; [done|]. destruct (layout_word L HL Ho) as (_&_&_&_&Hd&Hnn).
    rewrite !bool_decide_eq_false_2 in Et by done. done. }
  destruct Hx as [HL Hacc]. unfold value_bytes in Hv. rewrite Ho in Hv.
  assert (Hq : in_buffer z (q + l_pos L / 8) (l_size L / 8)).
  { unfold layout_ok, accessible in *. rewrite Ho in *. unfold in_buffer.
    assert (0 <= l_pos L / 8) by (apply Z.div_pos; lia). assert (0 <= l_size L / 8) by (apply Z.div_pos; lia). lia. }
  com_step. eapply spec_bind; [by apply spec_buffer_read|]. intros v [Hvl Hvb].
  eapply spec_bind; [apply spec_deref_is, write_bytes_in; lia|]. com_intro. com_step. apply spec_ret.
  split; [rewrite length_patch; lia | by apply bytes_patch].
Qed.

Lemma spec_gw_source n (Q : Z -> Layout -> Prop) m : gw_source_ok c z Q m ->
  spec (I n) (gw_source m) (fun o => forall b h L, o = Some (b, h, L) -> Q h L) (I n).
Proof using Type.
  unfold gw_source_ok, gw_source. cbv zeta. destruct (ComGwSourceSignalRef m); intros Hm; [| |done|].
  - destruct (aref _ _) as [S|] eqn:HS in Hm; [|done]. destruct Hm as [Hb HQ].
    eapply spec_bind; [by apply spec_GET_Signal|]. com_intro.
    eapply spec_bind; [by apply spec_GET_ArcSignal|]. intros a _. apply spec_ret. by intros ? ? ? [= _ <- <-].
  - destruct (aref _ _) as [g|] eqn:Hg in Hm; [|done]. cbn in Hm.
    destruct (aref _ _) as [S|] eqn:HS in Hm; [|done]. destruct Hm as [Hb HQ].
    eapply spec_bind; [by apply spec_GET_GroupSignal|]. com_intro.
    eapply spec_bind; [by apply spec_GET_Signal|]. com_intro.
    eapply spec_bind; [by apply spec_GET_ArcSignal|]. intros a _. apply spec_ret. by intros ? ? ? [= _ <- <-].
  - destruct Hm as [Hb Hm]. destruct (aref _ _) as [g|] eqn:Hg in Hm; [|done]. cbn in Hm.
    eapply spec_bind; [by apply spec_GET_GwSrcSigDesc|]. com_intro.
    eapply spec_bind; [by apply spec_GET_ArcGwSrcSigDesc|]. intros a _. apply spec_ret. by intros ? ? ? [= _ <- <-].
Qed.

Lemma spec_route_mapping n m : (n <= 15)%nat -> bytes (automatic <$> seq 0 8) -> gw_mapping_ok c z m ->
  spec (I n) (route_mapping m) any (I n).
Proof using All.
  intros Hn Hau [Hk Hm]. unfold route_mapping. cbv zeta. case_bool_decide as Er.
  - unfold gw_group_mapping_ok in Hm. destruct (aref _ _) as [S|] eqn:HS in Hm; [|done]. destruct Hm as [Hsrc Hds].
    destruct (gw_group _ _ _ Hsrc) as (S' & P & r & HS' & Hh & Hp & HSig & HG & _).
    rewrite HS in HS'. injection HS' as <-.
    eapply spec_bind; [by apply spec_GET_Signal|]. com_intro.
    eapply spec_bind; [rewrite <- Hh; by eapply spec_signal_arc|]. intros a _. com_step; [|com_go]. com_step.
    eapply spec_bind; [by eapply spec_CopyToShadow|]. com_intro. com_step.
    apply spec_for_each. intros j x Hj. apply lookup_seq in Hj as [-> Hj].
    destruct (lookup_lt_is_Some_2 (ComGwDestinationRef m) (0 + j)) as [d Hd]; [lia|].
    eapply spec_bind; [by apply spec_deref_is|]. com_intro. eapply spec_route_group_to; [done..|].
    by eapply Forall_lookup_1 in Hd; [|exact Hds].
  - eapply spec_bind; [by apply spec_gw_source|]. intros [[[[] h] L]|] HL; [|com_go..].
    destruct (HL _ _ _ eq_refl) as [Hx Hds].
    eapply spec_bind; [apply spec_ExtractGwSrcSigData; [lia|done|by rewrite length_fmap, length_seq|done]|].
    intros data [Hl Hb]. by apply spec_route_all.
Qed.

Lemma spec_MainFunctionRouteSignals n : (n <= 15)%nat -> spec (I n) Com_MainFunctionRouteSignals any (I n).
Proof using All.
  intros Hn. apply spec_if_init. destruct COM_SIG_GATEWAY_ENABLE eqn:E; [|com_go]. com_step.
  destruct Hvalid as (_ & _ & _ & _ & _ & _ & _ & _ & _ & _ & _ & _ & Hg). destruct (Hg E) as [Hau Hms].
  apply spec_for_each. intros j m Hm. apply spec_route_mapping; [done..|].
  by eapply Forall_lookup_1 in Hm; [|exact Hms].
Qed.
End Operations.
