(* ===== verification/Com_Boot.v ===== *)
(** * Com: the initialisation

    [Com_Init] with a valid configuration does not fault, whatever the static data held
    before, and establishes the invariant: the steps of its loops extend what is
    ready ([Ready]). *)

From S2P Require Import Prelude.
From S2P Require Import StateMonad.
From S2P Require Import ComStack.
From S2P Require Import Os_Irq.
From S2P Require Import Com_Signal.
From S2P Require Import Com_Packing.
From S2P Require Import Com_Codec.
From S2P Require Import Com_Types.
From S2P Require Import Com.
From S2P Require Import Com_Valid.
From S2P Require Import Com_Inv.
From S2P Require Import Com_Safety.

#[local] Open Scope monad_scope.

Lemma placed_snoc l P idx : placed (l ++ [P]) idx = place_end P (placed l idx).
Proof. revert idx. induction l as [|Q l IH]; intros idx; cbn [app placed]; [done|]. apply IH. Qed.

Lemma spec_for_each_index {S A} (P : nat -> S -> Prop) i (l : list A) body :
  (forall j a, l !! j = Some a -> spec (P j) (body (i + j)%nat a) (fun _ => True) (P (Datatypes.S j))) ->
  spec (P 0%nat) (for_each i l body) (fun _ => True) (P (length l)).
Proof.
  revert P i. induction l as [|a l IH]; intros P i Hb; cbn [for_each length]; [by apply spec_ret|].
  eapply spec_bind; [specialize (Hb 0%nat a eq_refl); rewrite Nat.add_0_r in Hb; exact Hb|]. intros _ _.
  apply (IH (fun j => P (Datatypes.S j)) (Datatypes.S i)). intros j b Hj.
  replace (Datatypes.S i + j)%nat with (i + Datatypes.S j)%nat by lia. by apply Hb.
Qed.

Section Boot.
Context {W : Type} {Cfg : Com_Cfg} {Env : Com_Env W}.
Variables (c : Com_ConfigType) (z : Sizes) (o0 : Irq).
Hypothesis Hirq : irq_ok o0.
Hypothesis Hroom : o0.(Os_IntSuspendAllCnt) <= 100.
Hypothesis Hvalid : valid c z.
Abbreviation I := (Inv (W := W) c z o0).
Abbreviation any := (fun _ => True).
Abbreviation Pdu := (is_pdu c z).
Abbreviation Signal := (is_signal c z).
Implicit Types R : Ready.

(** ** What is ready *)
Record Ready_le R R' : Prop := {
  le_dyn : forall j, rd_dyn R j -> rd_dyn R' j;
  le_data : forall j, rd_data R j -> rd_data R' j;
  le_deferred : forall j, rd_deferred R j -> rd_deferred R' j;
  le_signal : forall j, rd_signal R j -> rd_signal R' j;
  le_buffer : forall j, rd_buffer R j -> rd_buffer R' j
}.
Lemma Inv_le R R' n s : Ready_le R R' -> I R' n s -> I R n s.
Proof using Type.
  intros [H1 H2 H3 H4 H5] [Ha Hb Hc Hd He Hf Hg Hh]. split; try done.
  - intros i a Hi P r HP. destruct (Hd i a Hi P r HP) as (? & ? & ?). split_and!; auto.
  - intros i a Hi HR. apply (He i a Hi). auto.
  - intros i a Hi HR. apply (Hg i a Hi). auto.
Qed.
Lemma spec_le {A} P R R' n (m : M (Com_State W) A) Phi : Ready_le R R' ->
  spec P m Phi (I R' n) -> spec P m Phi (I R n).
Proof using Type. intros Hle Hm. eapply spec_mono; [exact Hm|done|done|]. intros. by eapply Inv_le. Qed.

(** Before I-PDU [i]; in I-PDU [i] after [k] of its signals, with [d], [p] saying whether its
    length of the dynamic signal and its data pointer are assigned. *)
Definition signal_before (i : nat) (h : nat) : Prop :=
  exists j P S, (j < i)%nat /\ c.(ComIPdu) !! j = Some P /\ S ∈ signals P /\ h = Z.to_nat S.(ComHandleId).
Definition signal_in_pdu (i k : nat) (h : nat) : Prop :=
  exists P m S, c.(ComIPdu) !! i = Some P /\ (m < k)%nat /\ signals P !! m = Some S /\
    h = Z.to_nat S.(ComHandleId).
Definition stage (i : nat) (d p : bool) (k : nat) : Ready :=
  {| rd_dyn := fun j => (j < i)%nat \/ j = i /\ d = true;
     rd_data := fun j => (j < i)%nat \/ j = i /\ p = true;
     rd_deferred := fun j => (j < i)%nat;
     rd_signal := fun h => signal_before i h \/ signal_in_pdu i k h;
     rd_buffer := fun _ => False |}.

(** ** Steps of the initialisation of an I-PDU *)
Lemma arc_ok_at R (j : nat) a P r : Pdu (Z.of_nat j) P r ->
  ((rd_data R j -> a.(ComIPduDataPtr) = Some r.(r_data)) /\
   (rd_deferred R j -> deferred_rx P = true -> a.(ComIPduDeferredDataPtr) = Some r.(r_deferred)) /\
   (rd_dyn R j -> forall d, P.(ComIPduDynSignalRef) = Some d ->
      0 <= a.(Com_Arc_DynSignalLength) <= d.(Sig_layout).(l_size) / 8)) <-> arc_ok c R j a.
Proof using Type.
  intros Hp. pose proof (p_cfg _ _ _ _ _ Hp) as E1. pose proof (p_reg _ _ _ _ _ Hp) as E2.
  unfold arc_ok, pdu_at. rewrite E1. cbn. rewrite E2. cbn. split.
  - by intros HR P' r' [= <- <-].
  - intros HR. by apply HR.
Qed.

Lemma stage_only i d p k d' p' : only_pdu i (stage i d p k) (stage i d' p' k).
Proof using Type. split_and!; cbn; intros; try done; try (by left; intuition lia); intuition lia. Qed.

Lemma spec_stage_dyn n i P r : Pdu (Z.of_nat i) P r ->
  spec (I (stage i false false 0) n) (upd_ArcIPdu (Z.of_nat i) (set_Com_Arc_DynSignalLength 0)) any
    (I (stage i true false 0) n).
Proof using Type.
  intros Hp. apply spec_upd_ArcIPdu_to; [apply Hp|rewrite Nat2Z.id; apply stage_only|]. rewrite Nat2Z.id.
  intros a Ha. apply (arc_ok_at _ _ _ _ _ Hp) in Ha. apply (arc_ok_at _ _ _ _ _ Hp).
  destruct Ha as (H1 & H2 & H3). cbn in *.
  split_and!; [intuition lia|intuition lia|]. intros _ d Hd.
  pose proof (p_ok _ _ _ _ _ Hp) as (_ & _ & _ & Hdo & _). rewrite Hd in Hdo. destruct Hdo as (? & ? & ?). cbn. lia.
Qed.
Lemma spec_stage_data n i P r q : Pdu (Z.of_nat i) P r -> q = r.(r_data) ->
  spec (I (stage i true false 0) n) (upd_ArcIPdu (Z.of_nat i) (set_ComIPduDataPtr (Some q))) any
    (I (stage i true true 0) n).
Proof using Type.
  intros Hp ->. apply spec_upd_ArcIPdu_to; [apply Hp|rewrite Nat2Z.id; apply stage_only|]. rewrite Nat2Z.id.
  intros a Ha. apply (arc_ok_at _ _ _ _ _ Hp) in Ha. apply (arc_ok_at _ _ _ _ _ Hp).
  destruct Ha as (H1 & H2 & H3). cbn in *.
  split_and!; [done|intuition lia|]. intros _. apply H3. by right.
Qed.

(** A pointer of the I-PDU while its signals are initialised. *)
Lemma spec_stage_ptr n i k P r : Pdu (Z.of_nat i) P r ->
  spec (I (stage i true true k) n) (GET_ArcIPdu (Z.of_nat i)) (fun a => a.(ComIPduDataPtr) = Some r.(r_data))
    (I (stage i true true k) n).
Proof using Type.
  intros Hp. eapply spec_post; [apply spec_GET_ArcIPdu, Hp|]. rewrite Nat2Z.id. intros a Ha.
  apply (arc_ok_at _ _ _ _ _ Hp) in Ha. apply Ha. cbn. by right.
Qed.

(** The shadow buffer of a signal group. *)
Lemma spec_stage_shadow n i k P r S : Pdu (Z.of_nat i) P r -> Signal (Z.of_nat i) P r S ->
  signals P !! k = Some S ->
  spec (I (stage i true true k) n) (upd_ArcSignal S.(ComHandleId) (set_Com_Arc_ShadowBuffer (Some r.(r_shadow))))
    any (I (stage i true true (Datatypes.S k)) n).
Proof using Type.
  intros Hp HS Hk. unfold upd_ArcSignal. eapply spec_bind; [apply spec_GET_ArcSignal, HS|].
  intros a _. apply spec_modify. intros s [H1 H2 H3 H4 H5 H6 H7 H8]. split; cbn; try done.
  - rewrite <- H2. unfold sizes. cbn. by rewrite length_insert.
  - intros j b Hj [Hb|(P' & m & S' & HP' & Hm & HS' & ->)] S1 r1 HS1 HG1 Hr1.
    all: destruct (s_ok _ _ _ _ _ _ HS) as ([Hh ESig]%aref_Some & Hi & _).
    all: apply list_lookup_insert_Some in Hj as [(Ej & <- & _)|(Hne & Hj)]; cbn.
    1, 3: rewrite <- Ej, ESig in HS1; injection HS1 as <-; rewrite Hi, (p_reg _ _ _ _ _ Hp) in Hr1;
      by injection Hr1 as <-.
    + eapply (H5 j b Hj); [by left|done..].
    + eapply (H5 _ b Hj); [|done..]. right. exists P', m, S'. split_and!; try done.
      assert (m <> k); [|lia]. intros ->. pose proof (p_cfg _ _ _ _ _ Hp) as E. rewrite aref_lookup in E.
      rewrite E in HP'. injection HP' as <-. rewrite Hk in HS'. by injection HS' as <-.
Qed.
(** Other signals have no shadow buffer to assign. *)
Lemma stage_next_plain n i k P r S s : Pdu (Z.of_nat i) P r -> Signal (Z.of_nat i) P r S ->
  signals P !! k = Some S -> S.(Com_Arc_IsSignalGroup) = false ->
  I (stage i true true k) n s -> I (stage i true true (Datatypes.S k)) n s.
Proof using Type.
  intros Hp HS Hk HG [H1 H2 H3 H4 H5 H6 H7 H8]. split; cbn; try done.
  intros j b Hj [Hb|(P' & m & S' & HP' & Hm & HS' & ->)] S1 r1 HS1 HG1 Hr1.
  - eapply (H5 j b Hj); [by left|done..].
  - eapply (H5 _ b Hj); [|done..]. right. exists P', m, S'. split_and!; try done.
    assert (m <> k); [|lia]. intros ->. pose proof (p_cfg _ _ _ _ _ Hp) as E. rewrite aref_lookup in E.
    rewrite E in HP'. injection HP' as <-. rewrite Hk in HS'. injection HS' as <-.
    destruct (s_ok _ _ _ _ _ _ HS) as ([Hh ESig]%aref_Some & _). rewrite ESig in HS1. injection HS1 as <-.
    by rewrite HG in HG1.
Qed.

Lemma spec_put_group R n k v : below k z.(n_GroupSignals) -> grp_arc_ok c (Z.to_nat k) v ->
  spec (I R n) (put_ArcGroupSignal k v) any
    (fun s => I R n s /\ aref s.(Com_Arc_GroupSignal) k = Some v).
Proof using Type.
  intros Hk Hv s HI. pose proof (spec_put_ArcGroupSignal c z o0 R n k v Hk Hv s HI) as Hput.
  unfold put_ArcGroupSignal, GET_ArcGroupSignal, wp, bind, get, deref, modify in Hput |- *. cbn in Hput |- *.
  destruct (aref (Com_Arc_GroupSignal s) k) as [a|] eqn:E; cbn in Hput |- *; [|done].
  destruct Hput as [_ Hput]. split_and!; [done..|]. apply aref_Some in E as [Hk0 E]. apply aref_Some. split; [done|].
  cbn. rewrite list_lookup_insert_eq; [done|]. by eapply lookup_lt_Some.
Qed.

Lemma spec_init_group_signal R n i P r S g : (n <= 18)%nat -> Pdu (Z.of_nat i) P r -> Signal (Z.of_nat i) P r S ->
  group_signal_ok c z r S g ->
  spec (I R n) (init_group_signal r.(r_shadow) g) any (I R n).
Proof using Hirq Hroom Hvalid.
  intros Hn Hp HS (Hg & Hgs & Hf & _ & Hv). unfold init_group_signal.
  destruct (s_ok _ _ _ _ _ _ HS) as (ESig & Hi & _).
  eapply spec_bind.
  - apply spec_put_group.
    + destruct Hvalid as (_ & _ & _ & _ & _ & _ & En & _). apply aref_Some in Hg as [? Hg%lookup_lt_Some]. unfold below. lia.
    + intros p [= <-]. exists g, r. apply aref_Some in Hg as [_ Hg]. split_and!; [done| |done].
      unfold home. rewrite Hgs, ESig. cbn. rewrite Hi. apply Hp.
  - intros _ _. eapply spec_Misc_UpdateShadowSignal; [done|done|lia|done..].
Qed.

Lemma spec_init_copy n i k P r S : Pdu (Z.of_nat i) P r -> Signal (Z.of_nat i) P r S ->
  signals P !! k = Some S -> S.(Com_Arc_IsSignalGroup) = true ->
  spec (I (stage i true true (Datatypes.S k)) n)
    (Com_Misc_CopySignalGroupDataFromShadowBufferToPdu S.(ComHandleId) false) any
    (I (stage i true true (Datatypes.S k)) n).
Proof using Type.
  intros Hp HS Hk HG. destruct (s_ok _ _ _ _ _ _ HS) as (ESig & Hi & _).
  pose proof ESig as [Hh ESig']%aref_Some.
  unfold Com_Misc_CopySignalGroupDataFromShadowBufferToPdu.
  eapply spec_bind; [by apply spec_GET_Signal|]. intros ? ->. rewrite Hi.
  eapply spec_bind; [apply spec_GET_IPdu, Hp|]. intros ? ->.
  eapply (spec_bind _ _ _ _ _ (fun a => a.(Com_Arc_ShadowBuffer) = Some r.(r_shadow))).
  { eapply spec_post; [apply spec_GET_ArcSignal, HS|]. intros a Ha. apply Ha with S; [|done|done|rewrite Hi; apply Hp].
    right. exists P, k, S. split_and!; [|lia|done|done]. pose proof (p_cfg _ _ _ _ _ Hp) as E. by rewrite aref_lookup in E. }
  intros sa ->. eapply spec_bind; [eapply spec_stage_ptr; exact Hp|]. intros a ->.
  destruct (group_parts _ _ _ _ _ _ Hp HS HG) as (Hm & Hsh & _).
  eapply spec_bind; [by apply spec_deref_is|]. intros ? ->. eapply spec_bind; [by apply spec_deref_is|]. intros ? ->.
  apply spec_copy_masked; [done|apply Hp|done].
Qed.

Lemma spec_init_signal n i k P r S : (n <= 18)%nat -> Pdu (Z.of_nat i) P r -> Signal (Z.of_nat i) P r S ->
  signals P !! k = Some S ->
  spec (I (stage i true true k) n) (init_signal (Z.of_nat i) P r.(r_shadow) S) any
    (I (stage i true true (Datatypes.S k)) n).
Proof using Hirq Hroom Hvalid.
  intros Hn Hp HS Hk. unfold init_signal. pose proof (s_ok _ _ _ _ _ _ HS) as (ESig & Hi & Hu & _ & _ & _ & Hgp).
  eapply spec_bind; [eapply spec_stage_ptr; exact Hp|]. intros a ->. cbv zeta.
  eapply spec_bind; [apply spec_GET_ArcSignal, HS|]. intros _ _.
  eapply (spec_bind _ (I (stage i true true k) n) _ _ _ any).
  { apply spec_if; intros _; [|by apply spec_ret].
    apply spec_if; intros _; [apply spec_upd_ArcSignal; [apply HS|done] | apply spec_upd_ArcIPdu; [apply Hp|done]]. }
  intros _ _. eapply (spec_bind _ (I (stage i true true k) n) _ _ _ any).
  { apply spec_if; intros E; [|by apply spec_ret]. apply spec_CLEARBIT.
    eapply bit_in_buffer; [done|apply Hp|by apply Hu]. }
  intros _ _. destruct (Com_Arc_IsSignalGroup S) eqn:HG.
  - eapply spec_bind; [by eapply spec_stage_shadow|]. intros _ _.
    destruct (group_parts _ _ _ _ _ _ Hp HS HG) as (_ & _ & gs & -> & Hgs).
    eapply spec_bind; [by apply spec_deref_is|]. intros ? ->.
    eapply spec_bind.
    { apply spec_for_each. intros j g Hg. eapply Forall_lookup_1 in Hg; [|exact Hgs].
      by eapply spec_init_group_signal. }
    intros _ _. eapply spec_bind; [by eapply spec_init_copy|]. intros _ _. by apply spec_ret.
  - destruct Hgp as (Hf & _ & Hv & _).
    eapply spec_bind; [apply spec_WriteSignal; [done|done|lia|done|done]|]. intros _ _.
    intros s HI. split; [done|]. by eapply stage_next_plain.
Qed.

(** The end of an I-PDU. *)
Lemma stage_full i P : c.(ComIPdu) !! i = Some P ->
  forall h, signal_before (Datatypes.S i) h -> signal_before i h \/ signal_in_pdu i (length (signals P)) h.
Proof using Type.
  intros HP h (j & Q & S & Hj & HQ & HS & ->). destruct (decide (j = i)) as [->|].
  - right. rewrite HP in HQ. injection HQ as <-. apply list_elem_of_lookup_1 in HS as [m Hm].
    exists P, m, S. split_and!; try done. by eapply lookup_lt_Some.
  - left. exists j, Q, S. split_and!; try done. lia.
Qed.

Lemma stage_end_signals i P r : Pdu (Z.of_nat i) P r -> forall h,
  rd_signal (stage (Datatypes.S i) false false 0) h -> rd_signal (stage i true true (length (signals P))) h.
Proof using Type.
  intros Hp h [Hh|(? & m & ? & _ & Hm & _)]; [|lia]. apply stage_full; [|done].
  pose proof (p_cfg _ _ _ _ _ Hp) as EP. by rewrite aref_lookup in EP.
Qed.
Lemma stage_set_deferred n i P r : Pdu (Z.of_nat i) P r ->
  spec (I (stage i true true (length (signals P))) n)
    (upd_ArcIPdu (Z.of_nat i) (set_ComIPduDeferredDataPtr (Some r.(r_deferred)))) any
    (I (stage (Datatypes.S i) false false 0) n).
Proof using Type.
  intros Hp. apply spec_upd_ArcIPdu_to; [apply Hp| |].
  - rewrite Nat2Z.id. split_and!; [..|by eapply stage_end_signals|by cbn]; cbn; intros j Hj; intuition lia.
  - rewrite Nat2Z.id. intros a Ha. apply (arc_ok_at _ _ _ _ _ Hp) in Ha. apply (arc_ok_at _ _ _ _ _ Hp).
    destruct Ha as (H1 & H2 & H3). cbn in *. split_and!; [intros _; apply H1; by right|done|].
    intros _. apply H3. by right.
Qed.
Lemma stage_no_deferred n i P r s : Pdu (Z.of_nat i) P r -> deferred_rx P = false ->
  I (stage i true true (length (signals P))) n s -> I (stage (Datatypes.S i) false false 0) n s.
Proof using Type.
  intros Hp Hd [H1 H2 H3 H4 H5 H6 H7 H8]. split; try done.
  - intros j a Hj P' r' HP'. destruct (H4 j a Hj P' r' HP') as (G1 & G2 & G3). cbn in *. split_and!.
    + intros HR. apply G1. destruct HR as [HR|[_ ?]]; [|done]. destruct (decide (j = i)); [by right|left; lia].
    + intros HR Hd'. destruct (decide (j = i)) as [->|]; [|apply G2; [lia|done]].
      pose proof HP' as HP2. unfold pdu_at in HP2. rewrite (p_cfg _ _ _ _ _ Hp) in HP2. cbn in HP2.
      rewrite (p_reg _ _ _ _ _ Hp) in HP2. cbn in HP2. injection HP2 as <- <-. by rewrite Hd in Hd'.
    + intros HR. apply G3. destruct HR as [HR|[_ ?]]; [|done]. destruct (decide (j = i)); [by right|left; lia].
  - intros j a Hj HR. apply (H5 j a Hj). by eapply stage_end_signals.
Qed.

(** ** The loop over the I-PDUs *)
Lemma pdu_region i P r : Pdu (Z.of_nat i) P r ->
  r = place_one P (placed (take i c.(ComIPdu)) 0) /\
  0 <= placed (take i c.(ComIPdu)) 0 /\ place_end P (placed (take i c.(ComIPdu)) 0) <= Z.of_nat z.(n_Buffer).
Proof using Hvalid.
  intros Hp. pose proof (p_cfg _ _ _ _ _ Hp) as HP. pose proof (p_reg _ _ _ _ _ Hp) as Hr.
  rewrite aref_lookup in HP. rewrite aref_lookup in Hr.
  destruct (place_lookup c.(ComIPdu) 0 i P (valid_size _ _ Hvalid) HP) as (a & Ha & H0 & Hend & ->).
  unfold regions in Hr. rewrite Ha in Hr. injection Hr as <-. split; [done|]. split; [done|].
  destruct Hvalid as (_ & _ & _ & _ & _ & _ & _ & Ht & _). lia.
Qed.

Lemma offset_fits x : 0 <= x <= Z.of_nat z.(n_Buffer) -> u16 x = x.
Proof using Hvalid.
  intros Hx. destruct Hvalid as (_ & _ & _ & _ & _ & _ & _ & _ & Hb & _). apply Z.mod_small. lia.
Qed.

Lemma spec_init_IPdu n i P r : (n <= 18)%nat -> Pdu (Z.of_nat i) P r ->
  spec (I (stage i true false 0) n) (init_IPdu (Z.of_nat i) P (placed (take i c.(ComIPdu)) 0))
    (fun x => x = place_end P (placed (take i c.(ComIPdu)) 0)) (I (stage (Datatypes.S i) false false 0) n).
Proof using Hirq Hroom Hvalid.
  intros Hn Hp. destruct (pdu_region i P r Hp) as (Er & H0 & Hend). set (idx := placed _ 0) in *.
  pose proof (p_ok _ _ _ _ _ Hp) as ([Hs0 Hs1] & Hun & _). pose proof (p_data _ _ _ _ _ Hp) as Hdat.
  unfold place_end, after_deferred, after_shadow in Hend.
  assert (E1 : u16 (idx + ComIPduSize P) = r.(r_shadow)).
  { subst r. cbn. apply offset_fits. destruct (deferred_rx P), (has_group P); lia. }
  assert (E2 : (if existsb Com_Arc_IsSignalGroup (signals P) then u16 (r.(r_shadow) + ComIPduSize P) else r.(r_shadow))
               = r.(r_deferred)).
  { subst r. cbn. unfold after_shadow. fold (has_group P). destruct (has_group P); [|done].
    apply offset_fits. destruct (deferred_rx P); lia. }
  unfold init_IPdu. cbv zeta. rewrite E1. replace idx with r.(r_data) by (by subst r).
  assert (Hkeep : forall R f, keeps_pointers f -> spec (I R n) (upd_ArcIPdu (Z.of_nat i) f) any (I R n))
    by (intros; apply spec_upd_ArcIPdu; [apply Hp|done]).
  eapply spec_bind; [by eapply spec_stage_data|]. intros _ _.
  eapply spec_bind; [by apply Hkeep|]. intros _ _.
  eapply (spec_bind _ (I (stage i true true 0) n) _ _ _ any).
  { apply spec_if; intros _; [by apply Hkeep|by apply spec_ret]. } intros _ _.
  eapply (spec_bind _ (I (stage i true true 0) n) _ _ _ any).
  { apply spec_if; intros _; [|by apply spec_ret]. eapply spec_bind; [|intros; by apply Hkeep].
    apply spec_buffer_write; [|by apply Forall_replicate]. rewrite length_replicate, Z2Nat.id by lia.
    by rewrite Z.add_0_r. }
  intros _ _. eapply spec_bind.
  { apply (spec_for_each_index (fun k => I (stage i true true k) n)). intros k S HS. cbn.
    apply spec_init_signal; [lia|done| |done]. eapply signal_in; [done..|]. by eapply list_elem_of_lookup_2. }
  intros _ _. rewrite E2.
  eapply (spec_bind _ (I (stage (Datatypes.S i) false false 0) n) _ _ _ (fun x => x = place_end P r.(r_data))).
  { destruct (deferred_rx P) eqn:Ed.
    - eapply spec_bind; [by apply stage_set_deferred|]. intros _ _.
      pose proof (p_deferred _ _ _ _ _ Hp Ed) as Hdef.
      eapply spec_bind; [apply spec_buffer_read; rewrite Z.add_0_r; exact Hdat|]. intros data [Hl Hb].
      eapply spec_bind; [apply spec_buffer_write; [rewrite Z.add_0_r, Hl; exact Hdef|done]|]. intros _ _.
      apply spec_ret. subst r. cbn. unfold place_end, after_deferred, after_shadow. rewrite Ed.
      apply offset_fits. destruct (has_group P); lia.
    - intros s HI. split; [|by eapply stage_no_deferred]. subst r. cbn.
      unfold place_end, after_deferred. by rewrite Ed. }
  intros ? ->. eapply (spec_bind _ (I (stage (Datatypes.S i) false false 0) n) _ _ _ any);
    [|intros _ _; by apply spec_ret].
  apply spec_if; intros Eg; [|by apply spec_ret]. apply andb_true_iff in Eg as [_ Es].
  apply spec_for_each. intros j h Hh. apply list_elem_of_lookup_2 in Hh.
  pose proof (gw_handles _ _ _ _ _ _ Hp Hh) as Hg. rewrite Es in Hg. unfold gw_destination_desc_ok in Hg.
  destruct (aref _ h) as [d|] eqn:Ed; [|done]. destruct Hg as (Hf & Hv & _).
  eapply spec_bind; [by apply spec_GET_GwDestnSigDesc|]. intros ? ->.
  eapply spec_bind; [apply spec_WriteSignal; [done|done|lia|done|done]|]. intros _ _. by apply spec_ret.
Qed.

Lemma spec_init_IPdus n i l : (n <= 18)%nat -> l = drop i c.(ComIPdu) -> (i <= length c.(ComIPdu))%nat ->
  spec (I (stage i false false 0) n) (init_IPdus i l c.(ComNofIPdus) (placed (take i c.(ComIPdu)) 0))
    (fun x => x = false) (I (stage (length c.(ComIPdu)) false false 0) n).
Proof using Hirq Hroom Hvalid.
  intros Hn. revert i. induction l as [|P l IH]; intros i Hl Hi; cbn [init_IPdus].
  { assert (i = length c.(ComIPdu)) as ->; [|by apply spec_ret].
    apply (f_equal length) in Hl. rewrite length_drop in Hl. cbn in Hl. lia. }
  assert (HP : c.(ComIPdu) !! i = Some P) by (rewrite <- (Nat.add_0_r i), <- lookup_drop, <- Hl; done).
  pose proof (lookup_lt_Some _ _ _ HP) as Hlt.
  destruct (pdu_of _ _ Hvalid (Z.of_nat i) P) as [r Hp]; [by rewrite aref_lookup|].
  eapply spec_bind; [by eapply spec_stage_dyn|]. intros _ _.
  eapply spec_bind; [apply spec_upd_ArcIPdu; [apply Hp|done]|]. intros _ _.
  eapply spec_bind; [apply spec_upd_ArcIPdu; [apply Hp|done]|]. intros _ _.
  rewrite Z.geb_leb. destruct Hvalid as (EN & _). destruct (Z.leb_spec (ComNofIPdus c) (Z.of_nat i)); [lia|].
  eapply spec_bind; [by eapply spec_init_IPdu|]. intros ? ->.
  rewrite <- placed_snoc, <- take_S_r by done. apply IH; [|lia].
  rewrite (drop_S _ P) in Hl by done. by injection Hl.
Qed.

(** ** Com_Init *)
Definition unlocked (k : nat) : Ready :=
  let N := stage (length c.(ComIPdu)) false false 0 in
  {| rd_dyn := rd_dyn N; rd_data := rd_data N; rd_deferred := rd_deferred N; rd_signal := rd_signal N;
     rd_buffer := fun j => (j < k)%nat |}.

Lemma spec_unlock n k : (k < length c.(ComIPdu))%nat ->
  spec (I (unlocked k) n) (Com_Misc_UnlockTpBuffer (Z.of_nat k)) any (I (unlocked (Datatypes.S k)) n).
Proof using Hvalid.
  intros Hk. unfold Com_Misc_UnlockTpBuffer, put_buffer_state.
  eapply spec_bind.
  { apply spec_buffer_state. destruct Hvalid as (_ & _ & Hb & _). unfold below. lia. }
  intros _ _. apply spec_modify. intros s [H1 H2 H3 H4 H5 H6 H7 H8]. split; cbn; try done.
  - rewrite <- H2. unfold sizes. cbn. by rewrite length_insert.
  - rewrite Nat2Z.id. intros j st Hj HR P HP. cbn in HR.
    apply list_lookup_insert_Some in Hj as [(-> & <- & _)|(Hne & Hj)]; cbn.
    + pose proof (valid_size _ _ Hvalid) as Hs. eapply Forall_lookup_1 in Hs; [|exact HP]. lia.
    + eapply (H7 j st Hj); [|done]. cbn. lia.
Qed.

(** Everything is ready. *)
Lemma unlocked_complete n s : I (unlocked (length c.(ComIPdu))) n s -> I (complete c) n s.
Proof using Type.
  intros [H1 H2 H3 H4 H5 H6 H7 H8]. split; try done.
  - intros j a Hj P r HP. assert (j < length c.(ComIPdu))%nat.
    { unfold pdu_at in HP. destruct (aref c.(ComIPdu) (Z.of_nat j)) eqn:E; [|done]. rewrite aref_lookup in E.
      exact (lookup_lt_Some _ _ _ E). }
    destruct (H4 j a Hj P r HP) as (G1 & G2 & G3). split_and!; intros _; [apply G1|apply G2|apply G3]; cbn; auto.
  - intros h a Hh (i & P & S & HP & HS & ->). apply (H5 _ a Hh). left.
    apply aref_Some in HP as [Hi HP]. exists (Z.to_nat i), P, S. split_and!; try done. by eapply lookup_lt_Some.
  - intros j st Hj _ P HP. eapply (H7 j st Hj); [|done]. cbn. by eapply lookup_lt_Some.
Qed.

(** The static data before the initialisation: arrays of the generated sizes; a group signal has no
    shadow buffer yet or the one of this configuration. *)
Definition before_init (s : Com_State W) : Prop :=
  sizes s = z /\ bytes s.(Com_Arc_Buffer) /\ each (grp_arc_ok c) s.(Com_Arc_GroupSignal) /\ s.(os) = o0.

Lemma spec_Com_Init :
  spec before_init (Com_Init (Some c)) any
    (fun s => Inv c z o0 (complete c) 0 s /\ s.(initStatus) = COM_INIT).
Proof using Hirq Hroom Hvalid.
  unfold Com_Init. eapply (spec_bind _ (I (stage 0 false false 0) 0) _ _ _ any).
  { apply spec_modify. intros s (H1 & H2 & H3 & H4). split; try done.
    - intros j a Hj P r HP. cbn. intuition lia.
    - intros j a Hj [(?&?&?&?&_)|(?&?&?&_&?&_)]; lia. }
  intros _ _. eapply spec_bind; [apply spec_init_IPdus; [lia|done|lia]|]. intros ? ->.
  eapply (spec_bind _ (I (unlocked (length c.(ComIPdu))) 0) _ _ _ any).
  { assert (EN : Z.to_nat (ComNofIPdus c) = length c.(ComIPdu)).
    { destruct Hvalid as (EN & _). lia. }
    rewrite EN. eapply spec_mono; [apply (spec_for_each_index (fun k => I (unlocked k) 0))|..].
    - intros j k Hj. apply lookup_seq in Hj as [-> Hj]. by apply spec_unlock.
    - intros s Hs. eapply Inv_le; [|exact Hs]. split; cbn; try done. lia.
    - done.
    - intros s. by rewrite length_seq. }
  intros _ _. eapply (spec_bind _ (I (unlocked (length c.(ComIPdu))) 0) _ _ _ any).
  { apply spec_if; intros _; [|by apply spec_ret]. apply spec_modify. intros s [H1 H2 H3 H4 H5 H6 H7 H8].
    split; try done. rewrite <- H2. unfold sizes. cbn. by rewrite !length_replicate. }
  intros _ _. apply spec_modify. intros s HI. split; [|done]. apply unlocked_complete in HI. by destruct HI.
Qed.
End Boot.
