(* ===== verification/Com_Calls.v ===== *)
(** * Com: sequences of calls

    Every service, main function and call-back of the module as a value, what its caller
    has to respect, and the theorem that no sequence of such calls faults. *)

From S2P Require Import Prelude.
From S2P Require Import StateMonad.
From S2P Require Import ComStack.
From S2P Require Import Os_Irq.
From S2P Require Import Com_Signal.
From S2P Require Import Com_Packing.
From S2P Require Import Com_Codec.
From S2P Require Import Com_Types.
From S2P Require Import Com.
From S2P Require Import Com_Valid.
From S2P Require Import Com_Inv.
From S2P Require Import Com_Safety.
From S2P Require Import Com_Boot.

#[local] Open Scope monad_scope.

Inductive Com_Call :=
| Init | DeInit
| IpduGroupControl (vector : list Z) (initialize : bool)
| ReceptionDMControl (vector : list Z)
| ClearIpduGroupVector (vector : list Z)
| SetIpduGroup (vector : list Z) (id : Z) (value : bool)
| SwitchIpduTxMode (id : Z) (mode : bool)
| SendSignal (id : Z) (data : list Z)
| ReceiveSignal (id : Z) (out : list Z)
| SendDynSignal (id : Z) (data : list Z) (len : Z)
| ReceiveDynSignal (id : Z) (out : list Z) (len : Z)
| SendSignalGroup (id : Z)
| ReceiveSignalGroup (id : Z)
| UpdateShadowSignal (id : Z) (data : list Z)
| ReceiveShadowSignal (id : Z) (out : list Z)
| TriggerTransmit (id : Z) (out : list Z) (len : Z)
| TriggerIPDUSend (id : Z)
| RxIndication (id : Z) (sdu : list Z)
| TxConfirmation (id : Z)
| TpRxIndication (id result : Z)
| TpTxConfirmation (id result : Z)
| CopyTxData (id : Z) (out : list Z) (len cnt : Z)
| CopyRxData (id : Z) (data : list Z) (len cnt : Z)
| StartOfReception (id len size : Z)
| MainFunctionRx | MainFunctionTx | MainFunctionRouteSignals.

#[export] Instance Com_Call_eq : EqDecision Com_Call.
Proof. solve_decision. Defined.

Section Calls.
Context {W : Type} {Cfg : Com_Cfg} {Env : Com_Env W}.
Variable c : Com_ConfigType.
Abbreviation T := (M (Com_State W)).

Definition discard {A} (m : T A) : T unit := let* _ := m in ret tt.

Definition perform (k : Com_Call) : T unit :=
  match k with
  | Init => Com_Init (Some c)
  | DeInit => Com_DeInit
  | IpduGroupControl v i => Com_IpduGroupControl v i
  | ReceptionDMControl v => Com_ReceptionDMControl v
  | ClearIpduGroupVector v => discard (Com_ClearIpduGroupVector v)
  | SetIpduGroup v i x => discard (Com_SetIpduGroup v i x)
  | SwitchIpduTxMode i m => Com_SwitchIpduTxMode i m
  | SendSignal i d => discard (Com_SendSignal i d)
  | ReceiveSignal i o => discard (Com_ReceiveSignal i o)
  | SendDynSignal i d l => discard (Com_SendDynSignal i d l)
  | ReceiveDynSignal i o l => discard (Com_ReceiveDynSignal i o l)
  | SendSignalGroup i => discard (Com_SendSignalGroup i)
  | ReceiveSignalGroup i => discard (Com_ReceiveSignalGroup i)
  | UpdateShadowSignal i d => Com_UpdateShadowSignal i d
  | ReceiveShadowSignal i o => discard (Com_ReceiveShadowSignal i o)
  | TriggerTransmit i o l => discard (Com_TriggerTransmit i o l)
  | TriggerIPDUSend i => Com_TriggerIPDUSend i
  | RxIndication i d => Com_RxIndication i d
  | TxConfirmation i => Com_TxConfirmation i
  | TpRxIndication i r => Com_TpRxIndication i r
  | TpTxConfirmation i r => Com_TpTxConfirmation i r
  | CopyTxData i o l n => discard (Com_CopyTxData i o l n)
  | CopyRxData i d l n => discard (Com_CopyRxData i d l n)
  | StartOfReception i l n => discard (Com_StartOfReception i l n)
  | MainFunctionRx => Com_MainFunctionRx
  | MainFunctionTx => Com_MainFunctionTx
  | MainFunctionRouteSignals => Com_MainFunctionRouteSignals
  end.

(** What the caller respects: handles are unsigned, and known where the service does not check
    them; memory is as long as what is copied; sent signals are those of sent
    I-PDUs, received I-PDUs are received ones. *)
Definition call_ok (k : Com_Call) : Prop :=
  match k with
  | IpduGroupControl v _ | ReceptionDMControl v => vector_ok c v
  | SetIpduGroup v i _ => below (i / 8) (length v)
  | SwitchIpduTxMode i _ | TpTxConfirmation i _ | TxConfirmation i => 0 <= i
  | SendSignal i d => 0 <= i /\ sendable c i d
  | ReceiveSignal i o => 0 <= i /\ receivable c i o
  | SendDynSignal i d l => dyn_sendable c i d l
  | ReceiveDynSignal i o l => connected c i /\ l <= Z.of_nat (length o)
  | SendSignalGroup i => group_sendable c i
  | ReceiveSignalGroup i => group_connected c i
  | UpdateShadowSignal i d => 0 <= i /\ shadow_writable c i d
  | ReceiveShadowSignal i o => 0 <= i /\ shadow_readable c i o
  | TriggerTransmit i o _ => 0 <= i /\ fetchable c i o
  | TriggerIPDUSend i => 0 <= i /\ (i < c.(ComNofIPdus) -> sends c i)
  | RxIndication i d => 0 <= i /\ (i < c.(ComNofIPdus) -> indicated c i d)
  | TpRxIndication i _ => 0 <= i /\ (i < c.(ComNofIPdus) -> receives c i)
  | CopyTxData i o l _ => is_pdu_id c i /\ 0 <= l <= Z.of_nat (length o)
  | CopyRxData i d l _ => is_pdu_id c i /\ 0 <= l <= Z.of_nat (length d) /\ bytes d
  | StartOfReception i l _ => is_pdu_id c i /\ 0 <= l
  | Init | DeInit | ClearIpduGroupVector _ | MainFunctionRx | MainFunctionTx
  | MainFunctionRouteSignals => True
  end.

Fixpoint run (calls : list Com_Call) : T unit :=
  match calls with [] => ret tt | k :: calls => let* _ := perform k in run calls end.

(** ** Every call keeps the invariant *)
Section Safe.
Variables (z : Sizes) (o0 : Irq).
Hypothesis Hirq : irq_ok o0.
Hypothesis Hroom : o0.(Os_IntSuspendAllCnt) <= 100.
Hypothesis Hvalid : valid c z.
Context `{!Com_EnvOk W}.
Abbreviation I := (Inv (W := W) c z o0 (complete c) 0).

Lemma spec_discard {A} P (m : T A) Q : spec P m (fun _ => True) Q -> spec P (discard m) (fun _ => True) Q.
Proof using Type. intros Hm. eapply spec_bind; [exact Hm|]. intros. by apply spec_ret. Qed.

Lemma inv_before_init s : I s -> before_init c z o0 s.
Proof using Type. by intros []. Qed.

Lemma spec_perform k : call_ok k -> spec I (perform k) (fun _ => True) I.
Proof using All.
  destruct k; cbn [perform call_ok]; intros Hk; try apply spec_discard.
  - eapply spec_mono; [by apply spec_Com_Init|exact inv_before_init|done|]. by intros s [].
  - by apply spec_DeInit.
  - apply spec_IpduGroupControl; by try lia.
  - apply spec_ReceptionDMControl; by try lia.
  - apply spec_ClearIpduGroupVector.
  - by apply spec_SetIpduGroup.
  - by apply spec_SwitchIpduTxMode.
  - destruct Hk. apply spec_SendSignal; by try lia.
  - destruct Hk. apply spec_ReceiveSignal; by try lia.
  - apply spec_SendDynSignal; by try lia.
  - destruct Hk. apply spec_ReceiveDynSignal; by try lia.
  - apply spec_SendSignalGroup; by try lia.
  - apply spec_ReceiveSignalGroup; by try lia.
  - destruct Hk. apply spec_UpdateShadowSignal; by try lia.
  - destruct Hk. apply spec_ReceiveShadowSignal; by try lia.
  - destruct Hk. apply spec_TriggerTransmit; by try lia.
  - destruct Hk. apply spec_API_TriggerIPDUSend; by try lia.
  - destruct Hk. apply spec_RxIndication; by try lia.
  - apply spec_TxConfirmation; by try lia.
  - destruct Hk. apply spec_TpRxIndication; by try lia.
  - apply spec_TpTxConfirmation; by try lia.
  - destruct Hk. apply spec_CopyTxData; by try lia.
  - destruct Hk as (? & ? & ?). apply spec_CopyRxData; by try lia.
  - destruct Hk. apply spec_StartOfReception; by try lia.
  - apply spec_MainFunctionRx; by try lia.
  - apply spec_MainFunctionTx; by try lia.
  - apply spec_MainFunctionRouteSignals; by try lia.
Qed.

Lemma spec_run calls : Forall call_ok calls -> spec I (run calls) (fun _ => True) I.
Proof using All.
  induction 1 as [|k calls Hk _ IH]; cbn [run]; [by apply spec_ret|].
  eapply spec_bind; [by apply spec_perform|]. by intros.
Qed.
End Safe.
End Calls.
