(* ===== verification/Com_Delay.v ===== *)
(** * Com: the minimum delay between transmissions

    [ComTxIPduMinimumDelayFactor]: between two transmissions of an I-PDU the transmit main function
    runs at least that many times, whatever is called in between.  The environment is
    extended by a record of the transmissions and of the runs of the main function. *)

From S2P Require Import Prelude.
From S2P Require Import StateMonad.
From S2P Require Import ComStack.
From S2P Require Import Os_Irq.
From S2P Require Import Com_Signal.
From S2P Require Import Com_Codec.
From S2P Require Import Com_Types.
From S2P Require Import Com.
From S2P Require Import Com_Valid.
From S2P Require Import Com_Inv.
From S2P Require Import Com_Safety.
From S2P Require Import Com_Boot.
From S2P Require Import Com_Calls.

#[local] Open Scope monad_scope.

(** ** The record, latest event first *)
Inductive Event := Sent (id : Z) (sdu : list Z) | Tick.

Fixpoint since (id : Z) (log : list Event) : option Z :=
  match log with
  | [] => None
  | Tick :: log => Z.succ <$> since id log
  | Sent j _ :: log => if j =? id then Some 0 else since id log
  end.
Fixpoint spaced (d id : Z) (log : list Event) : Prop :=
  match log with
  | [] => True
  | Tick :: log => spaced d id log
  | Sent j _ :: log => (j = id -> forall t, since id log = Some t -> d <= t) /\ spaced d id log
  end.

(** A table of call-outs with every entry replaced. *)
Definition over {A B} (f : A -> B) (table : list (option A)) : list (option B) := map (option_map f) table.

Lemma over_lookup {A B} (f : A -> B) table n x : over f table !! n = Some x ->
  exists g, table !! n = Some g /\ x = option_map f g.
Proof.
  unfold over. change (map (option_map f) table) with (option_map f <$> table). rewrite list_lookup_fmap.
  destruct (table !! n) as [g|]; [|done]. intros [= <-]. eauto.
Qed.

(** Operations on the second part of a world that has two. *)
Section Beside.
Context {X W : Type}.
Definition beside (f : W -> W) (w : X * W) : X * W := (w.1, f w.2).
Definition beside_rx (f : Z -> list Z -> W -> bool * W) (id : Z) (data : list Z) (w : X * W) : bool * (X * W) :=
  let '(b, w') := f id data w.2 in (b, (w.1, w')).
Definition beside_tx (f : Z -> list Z -> W -> bool * list Z * W) (id : Z) (data : list Z) (w : X * W)
    : bool * list Z * (X * W) :=
  let '(x, w') := f id data w.2 in (x, (w.1, w')).
Lemma beside_in_place (table : list (option (Z -> list Z -> W -> bool * list Z * W))) :
  in_place table -> in_place (over beside_tx table).
Proof.
  intros Ht n f id data w ok data' w' Hf Hb E. apply over_lookup in Hf as ([g|] & Hg & Hx); [|done].
  injection Hx as ->. unfold beside_tx in E.
  destruct (g id data w.2) as [[ok1 d1] w1] eqn:Eg. injection E as <- <- <-. by eapply Ht.
Qed.
End Beside.

Section Recording.
Context {W : Type} `{!Com_Env W}.
Abbreviation L := (list Event * W)%type.

#[export] Instance recording : Com_Env L := {
  PduR_ComTransmit id sdu w := let '(r, w') := PduR_ComTransmit id sdu w.2 in (r, (Sent id sdu :: w.1, w'));
  Det_ReportError api err := beside (Det_ReportError api err);
  OsekNm_TimeoutNotification net node := beside (OsekNm_TimeoutNotification net node);
  ComNotificationCallouts := over beside ComNotificationCallouts;
  ComRxIPduCallouts := over beside_rx ComRxIPduCallouts;
  ComTxIPduCallouts := over beside_tx ComTxIPduCallouts;
  ComTriggerTransmitIPduCallouts := over beside_tx ComTriggerTransmitIPduCallouts
}.

#[export] Instance recording_ok : Com_EnvOk W -> Com_EnvOk L.
Proof. intros []. by split; apply beside_in_place. Qed.
End Recording.

(** ** What leaves the delays alone

    [quiet_go] steps through an operation, unfolding what the database does not know. *)
Create HintDb quiet.
Ltac head_of t := match t with ?f _ => head_of f | _ => t end.
Ltac quiet_step :=
  lazymatch goal with
  | |- preserves _ (bind _ _) => apply preserves_bind; [|intros]
  | |- preserves _ (ret _) => apply preserves_ret
  | |- preserves _ (get _) => apply preserves_get
  | |- preserves _ (deref _) => apply preserves_deref
  | |- preserves _ (for_each _ _ _) => apply preserves_for_each; intros
  | |- preserves _ (let _ := _ in _) => cbv zeta
  | |- preserves _ (match ?x with _ => _ end) => destruct x eqn:?
  | |- preserves _ ?m => first [solve [eauto with quiet] | let h := head_of m in unfold h]
  end.
Ltac quiet_go := intros; repeat quiet_step.

Section Delay.
Context {W : Type} {Cfg : Com_Cfg} {Env : Com_Env W}.
Variable c : Com_ConfigType.
Abbreviation L := (list Event * W)%type.
Abbreviation T := (M (Com_State L)).

Definition delay_timer (a : Com_Arc_IPdu_type) : Z := a.(Com_Arc_TxIPduTimers).(ComTxIPduMinimumDelayTimer).

(** Nothing was sent since [s0]; with [b], the configuration and the delay timers are the same, too. *)
Definition same (b : bool) (s0 s : Com_State L) : Prop :=
  s.(world).1 = s0.(world).1 /\
  (b = true -> s.(ComConfig) = s0.(ComConfig) /\
     delay_timer <$> s.(Com_Arc_IPdu) = delay_timer <$> s0.(Com_Arc_IPdu)).
Abbreviation quiet m := (forall s0, preserves (same true s0) m).

Lemma quiet_call {A} (f : L -> A * L) b s0 : (forall w a w', f w = (a, w') -> w'.1 = w.1) -> preserves (same b s0) (call f).
Proof using Type.
  intros Hf s a s' [H1 H2] E. unfold call in E. destruct (f (world s)) as [x w] eqn:Ef.
  injection E as <- <-. split; cbn; [|done]. by rewrite (Hf _ _ _ Ef).
Qed.
Lemma quiet_beside f b s0 : preserves (same b s0) (notify (beside f)).
Proof using Type. apply quiet_call. by intros w a w' [= _ <-]. Qed.
Lemma quiet_beside_rx f id data b s0 : preserves (same b s0) (call (beside_rx f id data)).
Proof using Type.
  apply quiet_call. intros w a w'. unfold beside_rx. destruct (f _ _ _). by intros [= _ <-].
Qed.
Lemma quiet_beside_tx f id data b s0 : preserves (same b s0) (call (beside_tx f id data)).
Proof using Type.
  apply quiet_call. intros w a w'. unfold beside_tx. destruct (f _ _ _) as [[]]. by intros [= _ <-].
Qed.
#[local] Hint Resolve quiet_beside quiet_beside_rx quiet_beside_tx : quiet.

(** An entry of a table of call-outs. *)
Lemma quiet_table {A B} (table : list (option A)) (f : A -> B) n b s0 {C} (k : option B -> T C) :
  (forall g, preserves (same b s0) (k (option_map f g))) ->
  preserves (same b s0) (let* x := deref (aref (over f table) n) in k x).
Proof using Type.
  intros Hk s a s' Hs E. unfold bind, deref in E.
  destruct (aref (over f table) n) as [x|] eqn:Ex; [|done]. cbn in E.
  apply aref_Some in Ex as [_ (g & _ & ->)%over_lookup]. by eapply Hk.
Qed.

Lemma quiet_DET api err b s0 : preserves (same b s0) (DET_REPORTERROR api err).
Proof using Type. unfold DET_REPORTERROR. destruct COM_DEV_ERROR_DETECT; [apply quiet_beside|quiet_go]. Qed.
Lemma quiet_OsekNm net node b s0 : preserves (same b s0) (notify (OsekNm_TimeoutNotification net node)).
Proof using Type. apply quiet_beside. Qed.
Lemma quiet_notification n b s0 : preserves (same b s0) (notification n).
Proof using Type.
  unfold notification. destruct (_ =? _); [quiet_go|]. apply quiet_table. intros [g|]; cbn; quiet_go.
Qed.
Lemma quiet_modify f b s0 : (forall s, (f s).(world) = s.(world) /\
    (b = true -> (f s).(ComConfig) = s.(ComConfig) /\ (f s).(Com_Arc_IPdu) = s.(Com_Arc_IPdu))) ->
  preserves (same b s0) (modify f).
Proof using Type.
  intros Hf. apply preserves_modify. intros s [H1 H2]. destruct (Hf s) as [E1 E2].
  unfold same. rewrite E1. split; [done|]. intros Hb. destruct (E2 Hb) as [-> ->]. by apply H2.
Qed.
Lemma quiet_upd_ArcIPdu i f b s0 : (b = true -> forall a, delay_timer (f a) = delay_timer a) ->
  preserves (same b s0) (upd_ArcIPdu i f).
Proof using Type.
  intros Hf s x s' [H1 H2] E. unfold upd_ArcIPdu, GET_ArcIPdu, bind, get, deref, modify in E. cbn in E.
  destruct (aref (Com_Arc_IPdu s) i) as [a|] eqn:Ea; [|done]. cbn in E. injection E as <- <-.
  split; cbn; [done|]. intros Hb. destruct (H2 Hb) as [Hc Hd]. split; [done|].
  rewrite list_fmap_insert, (Hf Hb), Hd. apply list_insert_id. rewrite <- Hd.
  apply aref_Some in Ea as [_ Ea]. by rewrite list_lookup_fmap, Ea.
Qed.
#[local] Hint Resolve quiet_DET quiet_OsekNm quiet_notification : quiet.
#[local] Hint Extern 1 (preserves _ (modify _)) => (apply quiet_modify; by split) : quiet.
#[local] Hint Extern 1 (preserves _ (upd_ArcIPdu _ _)) => (apply quiet_upd_ArcIPdu; by intros) : quiet.


(** *** Operations that do not send *)
Lemma quiet_monitor a l u b s0 : preserves (same b s0) (monitor_rx_signals a l u).
Proof using Type. revert u. induction l as [|S l IH]; intros u; cbn [monitor_rx_signals]; quiet_go. Qed.
Lemma quiet_tx_callout table n id P p b s0 : preserves (same b s0) (tx_callout (over beside_tx table) n id P p).
Proof using Type.
  unfold tx_callout. destruct (_ =? _); [quiet_go|]. apply quiet_table. intros [g|]; cbn [option_map]; quiet_go.
Qed.
Lemma quiet_rx_callout n id sdu b s0 : preserves (same b s0) (rx_callout n id sdu).
Proof using Type.
  unfold rx_callout. destruct (_ =? _); [quiet_go|]. apply quiet_table. intros [g|]; cbn [option_map]; quiet_go.
Qed.
Lemma quiet_counter_accepts P sdu b s0 : preserves (same b s0) (counter_accepts P sdu).
Proof using Type.
  unfold counter_accepts. destruct (if COM_IPDU_COUNTING_ENABLE then _ else _) as [k|]; [|quiet_go].
  apply preserves_bind; [quiet_go|]. intros ok. destruct ok; [quiet_go|].
  apply preserves_bind; [|quiet_go]. destruct (_ =? _); [quiet_go|]. apply quiet_table.
  intros [g|]; cbn [option_map]; apply preserves_bind_deref; intros f Hf; [|done]. injection Hf as <-. quiet_go.
Qed.
Lemma quiet_after_transmit i P p k b s0 : preserves (same b s0) (after_transmit i P p k).
Proof using Type. unfold after_transmit. quiet_go. Qed.
#[local] Hint Resolve quiet_monitor quiet_rx_callout quiet_counter_accepts quiet_after_transmit : quiet.
#[local] Hint Extern 1 (preserves _ (tx_callout _ _ _ _ _)) => (apply quiet_tx_callout) : quiet.

(** ** The invariant

    For the I-PDU [i] with [ComTxIPduMinimumDelayFactor] [d]: its transmissions are [d] runs of the main function
    apart, and its timer holds what is missing to [d] since the last one, and [cr i] more. *)
Definition J (cr : nat -> Z) (s : Com_State L) : Prop :=
  s.(ComConfig) = Some c /\
  forall i P a, c.(ComIPdu) !! i = Some P -> s.(Com_Arc_IPdu) !! i = Some a ->
    let d := P.(ComTxIPdu).(ComTxIPduMinimumDelayFactor) in
    spaced d P.(ArcIPduOutgoingId) s.(world).1 /\
    forall t, since P.(ArcIPduOutgoingId) s.(world).1 = Some t -> d - t + cr i <= delay_timer a.

Lemma J_same cr s0 s : J cr s0 -> same true s0 s -> J cr s.
Proof using Type.
  intros [Hc HJ] [H2 Hs]. destruct (Hs eq_refl) as [H1 H3]. split; [by rewrite H1|]. intros i P a HP Ha. rewrite H2.
  assert (exists a0, s0.(Com_Arc_IPdu) !! i = Some a0 /\ delay_timer a0 = delay_timer a) as (a0 & Ha0 & E).
  { apply (f_equal (.!! i)) in H3. rewrite !list_lookup_fmap, Ha in H3. cbn in H3.
    destruct (Com_Arc_IPdu s0 !! i) as [a0|]; [|done]. injection H3 as E. eauto. }
  rewrite <- E. by apply HJ.
Qed.
Lemma J_quiet {A} cr (m : T A) : quiet m -> preserves (J cr) m.
Proof using Type. intros Hm s a s' HJ E. eapply J_same; [done|]. by eapply (Hm s). Qed.


(** ** Sending *)
Hypothesis Hids : NoDup (ArcIPduOutgoingId <$> c.(ComIPdu)).

(** The delay of [i] has passed; the I-PDU [i] has just been sent. *)
Definition may_send (cr : nat -> Z) (i : nat) (s : Com_State L) : Prop :=
  J cr s /\ exists a, s.(Com_Arc_IPdu) !! i = Some a /\ delay_timer a = 0.
Definition just_sent (cr : nat -> Z) (i : nat) (P : ComIPdu_type) (s : Com_State L) : Prop :=
  s.(ComConfig) = Some c /\ since P.(ArcIPduOutgoingId) s.(world).1 = Some 0 /\
  spaced P.(ComTxIPdu).(ComTxIPduMinimumDelayFactor) P.(ArcIPduOutgoingId) s.(world).1 /\
  forall j Q a, j <> i -> c.(ComIPdu) !! j = Some Q -> s.(Com_Arc_IPdu) !! j = Some a ->
    let d := Q.(ComTxIPdu).(ComTxIPduMinimumDelayFactor) in
    spaced d Q.(ArcIPduOutgoingId) s.(world).1 /\
    forall t, since Q.(ArcIPduOutgoingId) s.(world).1 = Some t -> d - t + cr j <= delay_timer a.

Lemma same_arc s0 s i a : same true s0 s -> s.(Com_Arc_IPdu) !! i = Some a ->
  exists a0, s0.(Com_Arc_IPdu) !! i = Some a0 /\ delay_timer a0 = delay_timer a.
Proof using Type.
  intros [_ Hs] Ha. destruct (Hs eq_refl) as [_ H3]. apply (f_equal (.!! i)) in H3. rewrite !list_lookup_fmap, Ha in H3. cbn in H3.
  destruct (Com_Arc_IPdu s0 !! i) as [a0|]; [|done]. injection H3 as E. eauto.
Qed.
Lemma may_send_quiet {A} cr i (m : T A) : quiet m -> preserves (may_send cr i) m.
Proof using Type.
  intros Hm s a s' [HJ (b & Hb & Ht)] E. pose proof (Hm s s a s' ltac:(done) E) as Hs. split; [by eapply J_same|].
  destruct Hs as [_ Hs]. destruct (Hs eq_refl) as [_ H3]. apply (f_equal (.!! i)) in H3. rewrite !list_lookup_fmap, Hb in H3. cbn in H3.
  destruct (Com_Arc_IPdu s' !! i) as [a'|]; [|done]. injection H3 as E'. exists a'. by rewrite E'.
Qed.
Lemma just_sent_quiet {A} cr i P (m : T A) : quiet m -> preserves (just_sent cr i P) m.
Proof using Type.
  intros Hm s a s' (H1 & H2 & H3 & H4) E. pose proof (Hm s s a s' ltac:(done) E) as Hs.
  pose proof Hs as [E2 Hs']. destruct (Hs' eq_refl) as [E1 _]. unfold just_sent. rewrite E1, E2. split_and!; try done.
  intros j Q b Hj HQ Hb. destruct (same_arc _ _ _ _ Hs Hb) as (a0 & Ha0 & <-). by eapply H4.
Qed.

Lemma other_id i j P Q : c.(ComIPdu) !! i = Some P -> c.(ComIPdu) !! j = Some Q -> j <> i ->
  P.(ArcIPduOutgoingId) <> Q.(ArcIPduOutgoingId).
Proof using Hids.
  intros HP HQ Hne E. apply Hne. eapply (NoDup_lookup _ j i _ Hids); rewrite list_lookup_fmap.
  - rewrite HQ. cbn. by rewrite <- E.
  - by rewrite HP.
Qed.

Lemma leads_transmit cr i P sdu : c.(ComIPdu) !! i = Some P -> cr i = 0 ->
  leads (may_send cr i)
    (call (PduR_ComTransmit P.(ArcIPduOutgoingId) sdu)) (just_sent cr i P).
Proof using Hids.
  intros HP Hcr s x s' [[Hc HJ] (a & Ha & Ht)] E. unfold call in E. cbn in E.
  destruct (PduR_ComTransmit _ _ _) as [res w]. injection E as <- <-. unfold just_sent. cbn.
  destruct (HJ i P a HP Ha) as [Hsp Htm]. split_and!; [done|by rewrite Z.eqb_refl| |done|].
  { intros _ t Et. specialize (Htm t Et). rewrite Ht in Htm. lia. }
  intros j Q b Hj HQ Hb. pose proof (other_id i j P Q HP HQ Hj) as Hne. destruct (HJ j Q b HQ Hb) as [Hs2 Ht2].
  rewrite (proj2 (Z.eqb_neq _ _)) by done. split; [|done]. split; [by intros ?|done].
Qed.
Lemma leads_restart cr i P : c.(ComIPdu) !! i = Some P -> cr i = 0 ->
  leads (just_sent cr i P) (upd_ArcIPdu (Z.of_nat i) (set_timer (set_ComTxIPduMinimumDelayTimer
    P.(ComTxIPdu).(ComTxIPduMinimumDelayFactor)))) (J cr).
Proof using Type.
  intros HP Hcr s x s' (H1 & H2 & H3 & H4) E. unfold upd_ArcIPdu, GET_ArcIPdu, bind, get, deref, modify in E.
  cbn in E. rewrite aref_lookup in E. destruct (Com_Arc_IPdu s !! i) as [a|] eqn:Ea; [|done]. cbn in E.
  injection E as <- <-. rewrite Nat2Z.id. split; [done|]. intros j Q b HQ Hb. cbn in *.
  apply list_lookup_insert_Some in Hb as [(<- & <- & _)|(Hne & Hb)].
  - rewrite HP in HQ. injection HQ as <-. split; [done|]. intros t Et. rewrite H2 in Et. injection Et as <-.
    unfold delay_timer. cbn. lia.
  - by apply H4.
Qed.

Lemma leads_GET_IPdu {B} cr id (k : ComIPdu_type -> T B) Q :
  (forall P i, id = Z.of_nat i -> c.(ComIPdu) !! i = Some P -> leads (J cr) (k P) Q) ->
  leads (J cr) (let* P := GET_IPdu id in k P) Q.
Proof using Type.
  intros Hk s x s' HJ E. pose proof HJ as [Hc _]. unfold GET_IPdu, cfg, bind, get, deref in E. cbn in E.
  rewrite Hc in E. cbn in E. destruct (aref (ComIPdu c) id) as [P|] eqn:HP; [|done]. cbn in E.
  apply aref_Some in HP as [Hid HP]. eapply (Hk P (Z.to_nat id)); [lia|done..].
Qed.
Lemma leads_GET_ArcIPdu {B} cr i (k : Com_Arc_IPdu_type -> T B) Q :
  (forall a, leads (fun s => J cr s /\ s.(Com_Arc_IPdu) !! i = Some a) (k a) Q) ->
  leads (J cr) (let* a := GET_ArcIPdu (Z.of_nat i) in k a) Q.
Proof using Type.
  intros Hk s x s' HJ E. unfold GET_ArcIPdu, bind, get, deref in E. cbn in E. rewrite aref_lookup in E.
  destruct (Com_Arc_IPdu s !! i) as [a|] eqn:Ea; [|done]. cbn in E. by eapply (Hk a).
Qed.

Lemma J_TriggerIPDUSend cr id : (forall i, id = Z.of_nat i -> cr i = 0) ->
  preserves (J cr) (Com_Misc_TriggerIPDUSend id).
Proof using Hids.
  intros Hcr. unfold Com_Misc_TriggerIPDUSend. apply leads_GET_IPdu. intros P i -> HP.
  apply leads_GET_ArcIPdu. intros a. specialize (Hcr i eq_refl).
  eapply (leads_bind _ (fun s => J cr s /\ s.(Com_Arc_IPdu) !! i = Some a)).
  { intros s x s' [HJ Ha] [= _ <-]. split; [|done]. by apply (J_same cr s). }
  intros _. eapply (leads_bind _ (J cr)); [|intros st; apply J_quiet; quiet_go].
  destruct (Z.eqb_spec (ComTxIPduMinimumDelayTimer (Com_Arc_TxIPduTimers a)) 0) as [Ht|];
    [|apply leads_ret; by intros s []].
  apply (leads_pre (may_send cr i)). { intros s [HJ Ha]. split; [done|]. by exists a. }
  cbv zeta. eapply leads_bind; [apply may_send_quiet; quiet_go|]. intros status.
  destruct status; [|apply leads_ret; by intros s []].
  eapply (leads_bind _ (may_send cr i)); [apply may_send_quiet; quiet_go|]. intros cntr.
  eapply leads_bind; [apply may_send_quiet; quiet_go|]. intros sdu.
  eapply leads_bind; [by apply leads_transmit|]. intros res.
  eapply (leads_bind _ (just_sent cr i P)); [apply just_sent_quiet; quiet_go|]. intros st.
  eapply leads_bind; [by apply leads_restart|]. intros _. by apply leads_ret.
Qed.

(** ** The main function *)
Definition credit (k : nat) (j : nat) : Z := if (j <? k)%nat then 0 else 1.

Lemma J_le cr cr' s : (forall i, (i < length c.(ComIPdu))%nat -> cr' i <= cr i) -> J cr s -> J cr' s.
Proof using Type.
  intros Hle [Hc HJ]. split; [done|]. intros i P a HP Ha d. destruct (HJ i P a HP Ha) as [Hsp Ht]. split; [done|].
  intros t Et. specialize (Ht t Et). specialize (Hle i (lookup_lt_Some _ _ _ HP)). unfold d. lia.
Qed.

Definition record (e : Event) : T unit := modify (fun s => set_world (e :: s.(world).1, s.(world).2) s).
Lemma leads_tick : leads (J (fun _ => 0)) (record Tick) (J (credit 0)).
Proof using Type.
  intros s x s' [Hc HJ] [= _ <-]. split; [done|]. intros i P a HP Ha. cbn in *.
  destruct (HJ i P a HP Ha) as [Hsp Ht]. split; [done|]. intros t Et.
  destruct (since _ (world s).1) as [t0|]; [|done]. injection Et as <-. specialize (Ht t0 eq_refl).
  unfold credit. cbn. lia.
Qed.

Lemma leads_decrement i a :
  leads (fun s => J (credit i) s /\ s.(Com_Arc_IPdu) !! i = Some a)
    (upd_ArcIPdu (Z.of_nat i) (set_timer (set_ComTxIPduMinimumDelayTimer (timerDec (delay_timer a)))))
    (J (credit (S i))).
Proof using Type.
  intros s x s' [[Hc HJ] Ha] E. unfold upd_ArcIPdu, GET_ArcIPdu, bind, get, deref, modify in E. cbn in E.
  rewrite aref_lookup, Ha in E. cbn in E. injection E as <- <-. rewrite Nat2Z.id.
  split; [done|]. intros j P b HP Hb. cbn in *. unfold credit in *.
  apply list_lookup_insert_Some in Hb as [(<- & <- & _)|(Hne & Hb)].
  - destruct (HJ i P a HP Ha) as [Hsp Ht]. split; [done|]. intros t Et. specialize (Ht t Et).
    rewrite (proj2 (Nat.ltb_lt _ _)) by lia. rewrite (proj2 (Nat.ltb_ge _ _)) in Ht by lia.
    unfold delay_timer in *. cbn. unfold timerDec. destruct (_ >? 0); lia.
  - destruct (HJ j P b HP Hb) as [Hsp Ht]. split; [done|]. intros t Et. specialize (Ht t Et).
    destruct (Nat.ltb_spec j (S i)), (Nat.ltb_spec j i); lia.
Qed.

Lemma J_now_TriggerIPDUSend i : preserves (J (credit (S i))) (Com_Misc_TriggerIPDUSend (Z.of_nat i)).
Proof using Hids.
  apply J_TriggerIPDUSend. intros j E. assert (j = i) as -> by lia. unfold credit.
  by rewrite (proj2 (Nat.ltb_lt _ _)) by lia.
Qed.
Lemma J_any_TriggerIPDUSend id : preserves (J (fun _ => 0)) (Com_Misc_TriggerIPDUSend id).
Proof using Hids. by apply J_TriggerIPDUSend. Qed.
#[local] Hint Resolve J_now_TriggerIPDUSend J_any_TriggerIPDUSend J_quiet : quiet.

Lemma leads_main_tx_pdu i P : leads (J (credit i)) (main_tx_pdu (Z.of_nat i) P) (J (credit (S i))).
Proof using Hids.
  unfold main_tx_pdu. apply leads_GET_ArcIPdu. intros a.
  assert (Hskip : forall s, J (credit i) s -> J (credit (S i)) s).
  { intros s. apply J_le. intros j _. unfold credit. destruct (Nat.ltb_spec j (S i)), (Nat.ltb_spec j i); lia. }
  destruct (_ && _); [|apply leads_ret; intros s [HJ _]; auto]. cbv zeta.
  eapply (leads_bind _ (fun s => J (credit i) s /\ s.(Com_Arc_IPdu) !! i = Some a)).
  { intros s x s' [HJ Ha] [= _ <-]. split; [|done]. by apply (J_same (credit i) s). }
  intros _. eapply leads_bind; [apply leads_decrement|]. intros _. apply leads_preserves. quiet_go.
Qed.

Lemma leads_MainFunctionTx : leads (J (credit 0)) Com_MainFunctionTx (J (fun _ => 0)).
Proof using Hids.
  assert (Hend : forall s, J (credit (length c.(ComIPdu))) s -> J (fun _ => 0) s).
  { intros s. apply J_le. intros i Hi. unfold credit. by rewrite (proj2 (Nat.ltb_lt _ _)) by lia. }
  assert (Hzero : forall s, J (credit 0) s -> J (fun _ => 0) s) by (intros s; by apply J_le).
  unfold Com_MainFunctionTx, if_init. eapply (leads_bind _ (J (credit 0))); [apply J_quiet; quiet_go|]. intros st.
  destruct (negb _).
  - eapply (leads_post _ _ (J (credit 0))); [|done]. apply leads_preserves. quiet_go.
  - unfold for_IPdus. intros s x s' HJ E. pose proof HJ as [Hc _]. unfold cfg, bind, get, deref in E. cbn in E.
    rewrite Hc in E. cbn in E. apply Hend.
    eapply (leads_for_each (fun k => J (credit k))); [|exact HJ|exact E]. intros j P HP. apply leads_main_tx_pdu.
Qed.

(** ** Sequences of calls *)
Lemma J_route_all n ds data ty sz : preserves (J (fun _ => 0)) (route_all n ds data ty sz).
Proof using Hids. revert ds. induction n as [|n IH]; intros ds; cbn [route_all]; quiet_go. Qed.
#[local] Hint Resolve J_route_all : quiet.

Definition is_init (k : Com_Call) : bool := match k with Init => true | _ => false end.
Definition timed (k : Com_Call) : T unit :=
  match k with MainFunctionTx => let* _ := record Tick in Com_MainFunctionTx | _ => perform c k end.
Fixpoint timed_run (calls : list Com_Call) : T unit :=
  match calls with [] => ret tt | k :: calls => let* _ := timed k in timed_run calls end.

Lemma J_timed k : is_init k = false -> preserves (J (fun _ => 0)) (timed k).
Proof using Hids.
  destruct k; cbn [is_init timed perform]; intros; [done|..];
    first [ eapply leads_bind; [apply leads_tick | intros; apply leads_MainFunctionTx] | quiet_go ].
Qed.
Lemma J_timed_run calls : Forall (fun k => is_init k = false) calls -> preserves (J (fun _ => 0)) (timed_run calls).
Proof using Hids.
  induction 1 as [|k calls Hk _ IH]; cbn [timed_run]; [apply preserves_ret|].
  apply preserves_bind; [by apply J_timed | done].
Qed.

(** The initialisation does not send. *)
Lemma quiet_init_IPdus i l n idx s0 : preserves (same false s0) (init_IPdus i l n idx).
Proof using Type. revert i idx. induction l as [|P l IH]; intros i idx; cbn [init_IPdus]; quiet_go. Qed.
#[local] Hint Resolve quiet_init_IPdus : quiet.
Lemma quiet_Com_Init s0 : preserves (same false s0) (Com_Init (Some c)).
Proof using Type. unfold Com_Init. quiet_go. Qed.

(** Recording changes nothing else. *)
Lemma spec_record z o0 R n e : spec (Inv (W := L) c z o0 R n) (record e) (fun _ => True) (Inv c z o0 R n).
Proof using Type. apply spec_modify. intros s. apply inv_world. Qed.
Lemma spec_timed_run z o0 calls : irq_ok o0 -> o0.(Os_IntSuspendAllCnt) <= 100 -> valid (W := L) c z -> Com_EnvOk W ->
  Forall (call_ok c) calls ->
  spec (Inv (W := L) c z o0 (complete c) 0) (timed_run calls) (fun _ => True) (Inv c z o0 (complete c) 0).
Proof using Type.
  intros Hi Hr Hv He. induction 1 as [|k calls Hk _ IH]; cbn [timed_run]; [by apply spec_ret|].
  eapply spec_bind; [|by intros]. destruct (decide (k = MainFunctionTx)) as [->|].
  - cbn [timed]. eapply spec_bind; [apply spec_record|]. intros. by apply (spec_perform c z o0 Hi Hr Hv MainFunctionTx).
  - replace (timed k) with (perform (W := L) c k) by (destruct k; first [reflexivity | by destruct n]).
    by apply spec_perform; try apply recording_ok.
Qed.
End Delay.

#[export] Hint Resolve quiet_beside quiet_beside_rx quiet_beside_tx quiet_DET quiet_OsekNm quiet_notification
  quiet_monitor quiet_rx_callout quiet_counter_accepts quiet_after_transmit : quiet.
#[export] Hint Extern 1 (preserves _ (modify _)) => (apply quiet_modify; by split) : quiet.
#[export] Hint Extern 1 (preserves _ (upd_ArcIPdu _ _)) => (apply quiet_upd_ArcIPdu; by intros) : quiet.
#[export] Hint Extern 1 (preserves _ (tx_callout _ _ _ _ _)) => (apply quiet_tx_callout) : quiet.
