(* ===== verification/Com_Demo.v ===== *)
(** * Com: an example

    A concrete configuration, environment and sequence of calls, on which the theorems about Com are applied. *)

From S2P Require Import Prelude.
From S2P Require Import StateMonad.
From S2P Require Import ComStack.
From S2P Require Import Os_Irq.
From S2P Require Import Com_Signal.
From S2P Require Import Com_Codec.
From S2P Require Import Com_Types.
From S2P Require Import Com.
From S2P Require Import Com_Valid.
From S2P Require Import Com_Inv.
From S2P Require Import Com_Safety.
From S2P Require Import Com_Boot.
From S2P Require Import Com_Calls.
From S2P Require Import Com_Delay.

#[local] Open Scope monad_scope.

(** ** A configuration

    Two sent I-PDUs and two received ones, one of them deferred and with a signal group; a gateway from
    the first received signal to the second sent I-PDU. *)
Module Demo.
#[global] Instance config : Com_Cfg := {
  COM_DEV_ERROR_DETECT := true; COM_IPDU_COUNTING_ENABLE := true; COM_SIG_GATEWAY_ENABLE := true;
  COM_OSEKNM_SUPPORT := false; COM_E_TOO_MANY_IPDU := 0x10; COM_INVALID_PDU_ID := 0x11;
  COM_OSEKNM_INVALID_NET_ID := 0xFF; BIG_ENDIAN_CPU := false; automatic := fun _ => 0xA5
}.
(** The world counts notifications; the router accepts everything. *)
#[global] Instance environment : Com_Env nat := {
  PduR_ComTransmit _ _ w := (E_OK, w);
  Det_ReportError _ _ w := w;
  OsekNm_TimeoutNotification _ _ w := w;
  ComNotificationCallouts := [Some S];
  ComRxIPduCallouts := [];
  ComTxIPduCallouts := [Some (fun _ data w => (true, data, w))];
  ComTriggerTransmitIPduCallouts := []
}.
#[global] Instance environment_ok : Com_EnvOk nat.
Proof.
  split; intros [|[|n]] f id data w ok data' w' Hf Hb E; try done. injection Hf as <-. by injection E as <- <- <-.
Qed.

Definition mode : ComTxMode_type :=
  {| ComTxModeMode := COM_DIRECT; ComTxModeNumberOfRepetitions := 2; ComTxModeRepetitionPeriodFactor := 1;
     ComTxModeTimeOffsetFactor := 0; ComTxModeTimePeriodFactor := 0 |}.
Definition tx (delay : Z) : ComTxIPdu_type :=
  {| ComTxIPduMinimumDelayFactor := delay; ComTxIPduClearUpdateBit := TRANSMIT;
     ComTxIPduUnusedAreasDefault := 0xFF; ComTxModeTrue := mode; ComTxModeFalse := mode |}.

Definition signal (h pdu : Z) (L : Layout) (timeout : Z) (gs : option (list ComGroupSignal_type)) : ComSignal_type :=
  {| Sig_layout := L; ComEndBitPosition := 15; ComFirstTimeoutFactor := timeout; ComHandleId := h;
     ComNotification := 0; ComRxDataTimeoutAction := COM_TIMEOUT_DATA_ACTION_REPLACE;
     ComSignalInitValue := [0; 0; 0; 0; 0; 0; 0; 0]; ComTimeoutFactor := timeout; ComTimeoutNotification := 0;
     ComTransferProperty := COM_TRIGGERED; ComUpdateBitPosition := 32; ComSignalArcUseUpdateBit := true;
     Com_Arc_IsSignalGroup := match gs with Some _ => true | None => false end; ComGroupSignal := gs;
     Com_Arc_ShadowBuffer_Mask := [0xFF; 0xFF; 0; 0; 0; 0; 0; 0]; ComIPduHandleId := pdu;
     ComOsekNmNetId := 0xFF; ComOsekNmNodeId := 0; ComSigGwRoutingReq := true |}.

(** A signed signal of 12 bits. *)
Definition layout12 : Layout := {| l_type := COM_SINT16; l_endian := COM_LITTLE_ENDIAN; l_pos := 4; l_size := 12 |}.
Definition s0 := signal 0 0 layout12 0 None.
Definition s1 := signal 1 1 layout12 0 None.
Definition s2 := signal 2 2 layout12 3 None.
Definition g0 : ComGroupSignal_type :=
  {| Grp_layout := {| l_type := COM_UINT8; l_endian := COM_LITTLE_ENDIAN; l_pos := 2; l_size := 5 |};
     Grp_ComHandleId := 0; Grp_ComSignalInitValue := [7]; ComSigGrpHandleId := 3 |}.
Definition s3 := signal 3 3 layout12 0 (Some [g0]).

Definition pdu (dir : Com_IPduDirection) (p : Com_IPduSignalProcessingMode) (id delay callout : Z) (s : ComSignal_type)
    : ComIPdu_type :=
  {| ComRxIPduCallout := COM_NO_FUNCTION_CALLOUT; ComTxIPduCallout := callout;
     ComTriggerTransmitIPduCallout := COM_NO_FUNCTION_CALLOUT; ArcIPduOutgoingId := id;
     ComIPduSignalProcessing := p; ComIPduSize := 8; ComIPduDirection := dir; ComIPduGroupRefs := [0];
     ComTxIPdu := tx delay; ComIPduSignalRef := Some [s]; ComIPduDynSignalRef := None;
     ComIpduCounterRef := None; ComIPduGwRoutingReq := true; ComIPduGwMapSigDescHandle := None |}.

Definition cfg : Com_ConfigType :=
  {| ComNofIPdus := 4; ComNofSignals := 4; ComNofGroupSignals := 1;
     ComGwMappingRef := [{| ComGwSourceSignalRef := COM_SIGNAL_REFERENCE; ComGwSourceSignalHandle := 2;
       ComGwDestinationRef := [{| ComGwDestinationSignalRef := COM_SIGNAL_REFERENCE;
                                  ComGwDestinationSignalHandle := 1 |}];
       ComGwNoOfDesitnationRoutes := 1 |}];
     ComIPdu := [pdu COM_SEND COM_IMMEDIATE 10 3 COM_NO_FUNCTION_CALLOUT s0; pdu COM_SEND COM_IMMEDIATE 11 0 0 s1;
                 pdu COM_RECEIVE COM_IMMEDIATE 12 0 0 s2; pdu COM_RECEIVE COM_DEFERRED 13 0 0 s3];
     ComSignal := [s0; s1; s2; s3]; Cfg_ComGroupSignal := [g0]; ComGwSrcDesc := []; ComGwDestnDesc := [] |}.

Definition arc : Com_Arc_IPdu_type :=
  {| ComIPduDataPtr := None; ComIPduDeferredDataPtr := None;
     Com_Arc_TxIPduTimers := Build_Com_Arc_TxIPduTimer_type 0 0 0 0 0 0;
     Com_Arc_TxDeadlineCounter := 0; Com_Arc_DynSignalLength := 0; Com_Arc_IpduStarted := false;
     Com_Arc_IpduRxDMControl := false; Com_Arc_IpduTxMode := false |}.
Definition unlocked : Irq := {| Os_IntSuspendAllCnt := 0; irq_enabled := true |}.

(** The zeroed static data. *)
Definition boot {W} (w : W) : Com_State W :=
  Build_Com_State COM_UNINIT None (replicate 4 arc) (replicate 4 (Build_Com_Arc_Signal_type None 0 false false false))
    [Build_Com_Arc_GroupSignal_type None] [] (replicate 4 {| currentPosition := 0; locked := false |})
    (replicate 60 0) [] [] unlocked w.

Definition calls : list Com_Call :=
  [Init; IpduGroupControl [1] true; SendSignal 0 [0x34; 0x02]; SendSignal 0 [0x34; 0x02]; MainFunctionTx; MainFunctionTx;
   RxIndication 2 [0x40; 0x23; 0; 0; 1; 0; 0; 0]; MainFunctionRx; MainFunctionRouteSignals; MainFunctionTx; MainFunctionTx;
   ReceiveSignal 2 [0; 0]; RxIndication 3 [0x40; 0x23; 0; 0; 1; 0; 0; 0]; MainFunctionRx;
   ReceiveSignalGroup 3; ReceiveShadowSignal 0 [0]; StartOfReception 2 8 0; CopyRxData 2 [1; 2; 3] 3 0;
   TpRxIndication 2 0; TxConfirmation 0; TriggerTransmit 0 (replicate 8 0) 8; DeInit].
End Demo.

(** The calls of the example respect the interface. *)
Ltac demo_call := cbn [call_ok];
  repeat match goal with
  | |- _ /\ _ => split
  | |- vector_ok _ _ => apply (bool_decide_unpack _); vm_compute; exact I
  | |- forall S, aref _ _ = Some S -> _ => intros ? [= <-]
  | |- _ <> _ -> _ => intros _
  | |- _ -> _ => intros ?
  | |- exists S, aref _ _ = Some S /\ _ => eexists
  | |- bytes _ => byte_list
  | |- _ = _ => done
  | |- _ => progress unfold sendable, receivable, value_ok, copy_ok, fetchable, group_connected, group_sendable,
      shadow_readable, is_pdu_id, indicated, receives, sends, below
  | |- _ => vm_compute; first [done | intuition congruence]
  end.
