(* ===== verification/Com_Theorems.v ===== *)
(** * Com: theorems about the module

    Memory safety and the minimum delay over every sequence of calls. *)

From S2P Require Import Prelude.
From S2P Require Import StateMonad.
From S2P Require Import ComStack.
From S2P Require Import Os_Irq.
From S2P Require Import Com_Signal.
From S2P Require Import Com_Codec.
From S2P Require Import Com_Types.
From S2P Require Import Com.
From S2P Require Import Com_Valid.
From S2P Require Import Com_Inv.
From S2P Require Import Com_Safety.
From S2P Require Import Com_Boot.
From S2P Require Import Com_Calls.
From S2P Require Import Com_Delay.
From S2P Require Import Com_Demo.

#[local] Open Scope monad_scope.

(** The module before its initialisation: the static data have their sizes, whatever else they hold, and the interrupt lock
    leaves room for the areas of Com. *)
Definition bootable {W} {Cfg : Com_Cfg} {Env : Com_Env W} (c : Com_ConfigType) (z : Sizes) (s : Com_State W) : Prop :=
  irq_ok s.(os) /\ s.(os).(Os_IntSuspendAllCnt) <= 100 /\ before_init c z s.(os) s.

Section Theorems.
Context {W : Type} {Cfg : Com_Cfg} {Env : Com_Env W} `{!Com_EnvOk W}.

(** C9. Memory safety of Com: with a valid configuration and whatever the environment answers, initialisation followed
    by any sequence of calls (services, call-backs of the PDU router, main functions, re-initialisation) whose
    callers respect the interface never accesses memory outside an array or through a null pointer; every critical section
    is left again: the interrupt lock is afterwards what it was before. *)
Theorem com_memory_safe c z s calls :
  valid c z -> bootable c z s ->
  Forall (call_ok c) calls ->
  exists s', run c (Init :: calls) s = Some (tt, s') /\ s'.(os) = s.(os) /\ sizes s' = z.
Proof using All.
  intros Hv (Hi & Hr & Hb) Hc. cbn [run perform].
  destruct (wp_inv (let* _ := Com_Init (Some c) in run c calls) (fun _ s' => Inv c z s.(os) (complete c) 0 s') s)
    as ([] & s' & E & HI).
  { apply wp_bind. eapply wp_mono; [by eapply spec_Com_Init|]. intros _ s1 (_ & HI & _).
    eapply wp_mono; [by eapply spec_run|]. by intros _ s2 [_ ?]. }
  exists s'. split_and!; [done|by rewrite (i_os _ _ _ _ _ _ HI)|apply HI].
Qed.

(** C11. Minimum delay: after initialisation, as long as [Com_Init] is not called again (it clears the timers of the delay) and if the
    I-PDUs have different outgoing identifiers, an I-PDU is handed to the PDU router only when at least [ComTxIPduMinimumDelayFactor]
    runs of [Com_MainFunctionTx] have started since it was last handed over, whatever permitted calls are made in between (services
    that trigger it, repetitions, periodic and mixed transmission, gateway, de-initialisation). *)
Theorem com_minimum_delay c z s calls :
  valid (W := list Event * W) c z -> bootable c z s ->
  s.(world).1 = [] -> NoDup (ArcIPduOutgoingId <$> c.(ComIPdu)) ->
  Forall (call_ok c) calls -> Forall (fun k => is_init k = false) calls ->
  exists s', timed_run c (Init :: calls) s = Some (tt, s') /\
    forall P, P ∈ c.(ComIPdu) ->
      spaced P.(ComTxIPdu).(ComTxIPduMinimumDelayFactor) P.(ArcIPduOutgoingId) s'.(world).1.
Proof using All.
  intros Hv (Hi & Hr & Hb) Hlog Hids Hc Hno. cbn [timed_run timed perform].
  destruct (wp_inv (let* _ := Com_Init (Some c) in timed_run c calls)
    (fun _ s' => Inv c z s.(os) (complete c) 0 s' /\ J c (fun _ => 0) s') s) as ([] & s' & E & HI & _ & HJ).
  { apply wp_bind. eapply wp_mono.
    { apply (wp_preserves (same false s)); [by apply quiet_Com_Init|done|by eapply spec_Com_Init]. }
    intros _ s1 [(_ & HI & _) [Hl _]]. rewrite Hlog in Hl.
    apply wp_preserves; [by apply J_timed_run| |].
    - split; [apply HI|]. intros i P a HP Ha. rewrite Hl. by split.
    - eapply wp_mono; [by eapply spec_timed_run|]. by intros _ s2 [_ ?]. }
  exists s'. split; [done|]. intros P [i HP]%list_elem_of_lookup_1.
  destruct (aref_is_Some s'.(Com_Arc_IPdu) (Z.of_nat i)) as [a Ha].
  { destruct (pdu_of c z Hv (Z.of_nat i) P) as [r [_ _ _ Hb2 _ _ _ _]]; [by rewrite aref_lookup|].
    rewrite <- (i_sizes _ _ _ _ _ _ HI) in Hb2. exact Hb2. }
  rewrite aref_lookup in Ha. by apply (HJ i P a HP Ha).
Qed.
End Theorems.

Ltac demo_bootable := split_and!; [vm_compute; intuition congruence|vm_compute; intuition congruence|];
  split_and!; [done|byte_list| |done]; intros [|k] a Hk; [|done]; injection Hk as <-; done.

Lemma com_memory_safe_witness :
  exists s', run Demo.cfg Demo.calls (Demo.boot 0%nat) = Some (tt, s') /\ s'.(os) = Demo.unlocked.
Proof.
  destruct (com_memory_safe Demo.cfg (sizes (Demo.boot 0%nat)) (Demo.boot 0%nat) (tail Demo.calls)) as (s' & E & H1 & _).
  - apply (bool_decide_unpack _). vm_compute. exact I.
  - demo_bootable.
  - repeat apply Forall_cons_2; try apply Forall_nil_2; demo_call.
  - exists s'. by split.
Defined.

Lemma com_minimum_delay_witness :
  exists s', timed_run Demo.cfg (Init :: tail Demo.calls) (Demo.boot ([], 0%nat)) = Some (tt, s') /\
    spaced 3 10 s'.(world).1.
Proof.
  destruct (com_minimum_delay Demo.cfg (sizes (Demo.boot ([] : list Event, 0%nat))) (Demo.boot ([], 0%nat)) (tail Demo.calls))
    as (s' & E & Hs).
  - apply (bool_decide_unpack _). vm_compute. exact I.
  - demo_bootable.
  - done.
  - apply (bool_decide_unpack _). vm_compute. exact I.
  - repeat apply Forall_cons_2; try apply Forall_nil_2; demo_call.
  - by repeat apply Forall_cons_2; try apply Forall_nil_2.
  - exists s'. split; [done|]. apply (Hs (Demo.pdu COM_SEND COM_IMMEDIATE 10 3 COM_NO_FUNCTION_CALLOUT Demo.s0)). left.
Defined.
