(* ===== verification/Com_Transfer.v ===== *)
(** * Com: from the sender's signal to the receiver's

    A signal sent with [Com_SendSignal] on one node and received with [Com_RxIndication] and [Com_ReceiveSignal] on
    another one, whose configuration gives the signal the same layout. *)

From S2P Require Import Prelude.
From S2P Require Import StateMonad.
From S2P Require Import ComStack.
From S2P Require Import Os_Irq.
From S2P Require Import Com_Signal.
From S2P Require Import Com_Packing.
From S2P Require Import Com_Codec.
From S2P Require Import Com_Types.
From S2P Require Import Com.
From S2P Require Import Com_Valid.
From S2P Require Import Com_Inv.
From S2P Require Import Com_Safety.
From S2P Require Import Com_Boot.
From S2P Require Import Com_Calls.
From S2P Require Import Com_Delay.
From S2P Require Import Com_Demo.
From S2P Require Import Com_Theorems.

#[local] Open Scope monad_scope.

(** The bits of the signal lie in the I-PDU; the update bit is none of them. *)
Definition signal_bits (L : Layout) : list Z := Z.of_nat <$> seq 0 (Z.to_nat (bit_count L)).
Definition inside (size : Z) (L : Layout) : bool :=
  forallb (fun k => (0 <=? bit_position L k) && (bit_position L k <? 8 * size)) (signal_bits L).
Definition update_bit_apart (S : ComSignal_type) : bool :=
  negb S.(ComSignalArcUseUpdateBit) ||
  (0 <=? S.(ComUpdateBitPosition)) &&
  forallb (fun k => negb (S.(ComUpdateBitPosition) =? bit_position S.(Sig_layout) k)) (signal_bits S.(Sig_layout)).

Lemma signal_bits_in L k : 0 <= k < bit_count L -> In k (signal_bits L).
Proof.
  intros Hk. apply list_elem_of_In. unfold signal_bits. apply list_elem_of_fmap. exists (Z.to_nat k).
  split; [lia|]. apply elem_of_seq. lia.
Qed.
Lemma inside_spec size L k : inside size L = true -> 0 <= k < bit_count L -> 0 <= bit_position L k < 8 * size.
Proof. unfold inside. rewrite forallb_forall. intros H Hk. specialize (H k (signal_bits_in L k Hk)). lia. Qed.

(** Setting the update bit leaves the other bits. *)
Lemma bit_at_set_other b i v bit p : load b (i + bit / 8) = Some v -> p <> 8 * i + bit ->
  bit_at (<[Z.to_nat (i + bit / 8) := Z.lor v (bit_mask bit)]> b) p = bit_at b p.
Proof.
  intros Hv Hp. unfold bit_at. destruct (Z.eq_dec (p / 8) (i + bit / 8)) as [E|E].
  - pose proof (load_Some _ _ _ Hv). rewrite E, load_insert_eq, Hv by lia. rewrite Z.lor_spec.
    unfold bit_mask, u8. rewrite testbit_mod_pow2 by (Z.div_mod_to_equations; lia). rewrite Z.shiftl_spec by (Z.div_mod_to_equations; lia).
    assert (p mod 8 <> bit mod 8) by (Z.div_mod_to_equations; lia).
    assert (Z.testbit 1 (p mod 8 - bit mod 8) = false) as ->; [|btauto].
    destruct (Z.lt_ge_cases (p mod 8 - bit mod 8) 0); [by apply Z.testbit_neg_r|].
    apply (Z.bits_above_log2 1); cbn; lia.
  - destruct (Z.le_gt_cases 0 (p / 8)).
    + pose proof (load_Some _ _ _ Hv). by rewrite load_insert_ne by lia.
    + unfold load. by rewrite (proj2 (Z.leb_gt _ _)) by lia.
Qed.

(** ** The sender *)
Section Sender.
Context {W : Type} {Cfg : Com_Cfg} {Env : Com_Env W}.
Variable c : Com_ConfigType.
Abbreviation L := (list Event * W)%type.
Abbreviation T := (M (Com_State L)).

(** The parts of the state a transmission depends on. *)
Record at_ (b : list Z) (l : list Event) (A : list Com_Arc_IPdu_type) (B : list Com_BufferPduStateType)
    (s : Com_State L) : Prop := {
  at_config : s.(ComConfig) = Some c;
  at_init : s.(initStatus) = COM_INIT;
  at_buffer : s.(Com_Arc_Buffer) = b;
  at_log : s.(world).1 = l;
  at_arcs : s.(Com_Arc_IPdu) = A;
  at_states : s.(Com_BufferPduState) = B
}.

(** The I-PDU [i] sends its data when it is triggered: it is started, its delay has passed, the mode is direct or mixed; no
    call-out and no counter change the data. *)
Record sends_now (i : Z) (P : ComIPdu_type) (a : Com_Arc_IPdu_type) : Prop := {
  n_started : a.(Com_Arc_IpduStarted) = true;
  n_delay : delay_timer a = 0;
  n_mode : (txModePtr P a).(ComTxModeMode) = COM_DIRECT \/ (txModePtr P a).(ComTxModeMode) = COM_MIXED;
  n_callout : P.(ComTxIPduCallout) = COM_NO_FUNCTION_CALLOUT;
  n_counter : P.(ComIpduCounterRef) = None;
  n_dyn : P.(ComIPduDynSignalRef) = None;
  n_reps : 0 <= (txModePtr P a).(ComTxModeNumberOfRepetitions)
}.

Ltac read_at := apply yields_read; [intros s []; unfold GET_IPdu, GET_Signal, GET_ArcIPdu, isPduBufferLocked,
  buffer_state, buffer_read, cfg, Com_GetStatus, bind, get, deref; cbn|].

Lemma log_quiet {A} l (m : T A) : (forall s0, preserves (same false s0) m) -> leads (fun s => s.(world).1 = l) m (fun s => s.(world).1 = l).
Proof using Type.
  intros Hm s x s' Hl E. destruct (Hm s s x s') as [H1 _]; [done|done|]. by rewrite H1.
Qed.

Section Run.
Variables (b : list Z) (l : list Event) (A : list Com_Arc_IPdu_type) (B : list Com_BufferPduStateType).
Variables (i q : Z) (P : ComIPdu_type) (a : Com_Arc_IPdu_type).
Hypothesis HP : aref c.(ComIPdu) i = Some P.
Hypothesis Ha : aref A i = Some a.
Hypothesis Hnow : sends_now i P a.
Hypothesis Hq : a.(ComIPduDataPtr) = Some q.
Hypothesis Hin : 0 <= q /\ 0 <= P.(ComIPduSize) /\ q + P.(ComIPduSize) <= Z.of_nat (length b).

Definition sdu : list Z := segment b q P.(ComIPduSize).

Abbreviation sent := (fun s => s.(world).1 = Sent P.(ArcIPduOutgoingId) sdu :: l).

Lemma read_IPdu {X} (k : ComIPdu_type -> T X) Q : yields (at_ b l A B) (k P) Q ->
  yields (at_ b l A B) (let* x := GET_IPdu i in k x) Q.
Proof using HP.
  apply yields_read. intros s []. unfold GET_IPdu, cfg, bind, get, deref. cbn. rewrite at_config0. cbn. by rewrite HP.
Qed.
Lemma read_ArcIPdu {X} (k : Com_Arc_IPdu_type -> T X) Q : yields (at_ b l A B) (k a) Q ->
  yields (at_ b l A B) (let* x := GET_ArcIPdu i in k x) Q.
Proof using Ha.
  apply yields_read. intros s []. unfold GET_ArcIPdu, bind, get, deref. cbn. by rewrite at_arcs0, Ha.
Qed.

Lemma sent_TriggerIPDUSend : leads (at_ b l A B) (Com_Misc_TriggerIPDUSend i) sent.
Proof using HP Ha Hnow Hq Hin.
  destruct Hnow as [Hst Hd Hm Hc Hk Hy Hr]. change (yields (at_ b l A B) (Com_Misc_TriggerIPDUSend i) (fun _ => sent)).
  unfold Com_Misc_TriggerIPDUSend. apply read_IPdu, read_ArcIPdu.
  eapply (yields_keep _ (at_ b l A B)). { by intros s x s' [] [= _ <-]. } intros _.
  fold (delay_timer a). rewrite Hd, Hq. cbn [Z.eqb].
  eapply (yields_keep _ sent); [|intros r; apply log_quiet; quiet_go].
  cbv zeta. unfold tx_callout. rewrite Hc, Z.eqb_refl. apply (yields_read _ _ _ true); [done|]. cbv iota.
  rewrite Hk. apply (yields_read _ _ _ None); [by destruct COM_IPDU_COUNTING_ENABLE|].
  unfold sdu_length. rewrite Hy. apply (yields_read _ _ _ sdu).
  { intros s []. unfold buffer_read, bind, get, deref. cbn. rewrite at_buffer0, Z.add_0_r, read_bytes_in by lia. done. }
  eapply (yields_keep _ sent).
  { intros s x s' [] E. unfold call in E. cbn in E. destruct (PduR_ComTransmit _ _ _). injection E as <- <-.
    cbn. by rewrite at_log0. }
  intros res. apply log_quiet. quiet_go.
Qed.

Lemma sent_TriggerTxOnConditions ch tp : triggering false tp = true ->
  yields (at_ b l A B) (Com_Misc_TriggerTxOnConditions i ch tp)
    (fun r s => r = true /\ sent s).
Proof using HP Ha Hnow Hq Hin.
  intros Htp. destruct Hnow as [Hst Hd Hm Hc Hk Hy Hr]. unfold Com_Misc_TriggerTxOnConditions.
  apply read_IPdu, read_ArcIPdu.
  rewrite Hst. cbv zeta.
  assert (triggering ch tp = true) as -> by (by destruct tp).
  assert (bool_decide (ComTxModeMode (txModePtr P a) = COM_DIRECT) || bool_decide (ComTxModeMode (txModePtr P a) = COM_MIXED)
          = true) as -> by (destruct Hm as [-> | ->]; done).
  cbn [andb]. assert (Hreps : 0 < repetitions (txModePtr P a) tp).
  { unfold repetitions. destruct tp; try done; try lia; destruct (Z.eqb_spec (ComTxModeNumberOfRepetitions (txModePtr P a)) 0); lia. }
  eapply (yields_keep _ sent); [|intros _; by apply yields_ret].
  eapply (leads_bind _ sent).
  - unfold trigger_now. rewrite Z.gtb_ltb, (proj2 (Z.ltb_lt _ _)) by lia.
    eapply leads_bind; [apply sent_TriggerIPDUSend|].
    intros r. apply log_quiet. quiet_go.
  - intros [reps now]. apply log_quiet. quiet_go.
Qed.
End Run.

(** The buffer with the update bit of the signal set. *)
Definition with_update_bit (S : ComSignal_type) (q : Z) (b : list Z) : list Z :=
  if S.(ComSignalArcUseUpdateBit) then
    match load b (q + S.(ComUpdateBitPosition) / 8) with
    | Some v => <[Z.to_nat (q + S.(ComUpdateBitPosition) / 8) := Z.lor v (bit_mask S.(ComUpdateBitPosition))]> b
    | None => b
    end
  else b.
Lemma with_update_bit_other S q b p : (S.(ComSignalArcUseUpdateBit) = true -> p <> 8 * q + S.(ComUpdateBitPosition)) ->
  bit_at (with_update_bit S q b) p = bit_at b p.
Proof using Type.
  unfold with_update_bit. intros Hp. destruct (ComSignalArcUseUpdateBit S); [|done].
  destruct (load b _) eqn:E; [|done]. apply bit_at_set_other; auto.
Qed.
Lemma length_with_update_bit S q b : length (with_update_bit S q b) = length b.
Proof using Type.
  unfold with_update_bit. destruct (ComSignalArcUseUpdateBit S); [|done].
  destruct (load b _); [|done]. apply length_insert.
Qed.

Lemma sent_SendSignal b b' ch l A B h S data q P a st :
  aref c.(ComSignal) h = Some S -> h < c.(ComNofSignals) -> S.(ComIPduHandleId) <> NO_PDU_REFERENCE ->
  aref c.(ComIPdu) S.(ComIPduHandleId) = Some P -> aref A S.(ComIPduHandleId) = Some a ->
  aref B S.(ComIPduHandleId) = Some st -> st.(locked) = false ->
  sends_now S.(ComIPduHandleId) P a -> a.(ComIPduDataPtr) = Some q ->
  0 <= q /\ 0 <= P.(ComIPduSize) /\ q + P.(ComIPduSize) <= Z.of_nat (length b) ->
  S.(Sig_layout).(l_size) <> 0 -> triggering false S.(ComTransferProperty) = true ->
  write_signal BIG_ENDIAN_CPU data b q S.(Sig_layout) = Some (b', ch) -> length b' = length b ->
  yields (at_ b l A B) (Com_SendSignal h data) (fun r s => r = E_OK /\
    s.(world).1 = Sent P.(ArcIPduOutgoingId) (segment (with_update_bit S q b') q P.(ComIPduSize)) :: l).
Proof using Type.
  intros HS Hh Hno HP Ha Hst Hlk Hnow Hq Hin Hsize Htp Hw Hl'.
  unfold Com_SendSignal, if_init, if_below.
  apply (yields_read _ _ _ COM_INIT). { intros s []. unfold Com_GetStatus, get. by rewrite at_init0. }
  cbn [bool_decide negb]. rewrite bool_decide_eq_true_2 by done. cbn [negb].
  apply (yields_read _ _ _ c). { intros s []. unfold cfg, bind, get, deref. cbn. by rewrite at_config0. }
  rewrite Z.geb_leb, (proj2 (Z.leb_gt _ _)) by lia.
  apply (yields_read _ _ _ S).
  { intros s []. unfold GET_Signal, cfg, bind, get, deref. cbn. rewrite at_config0. cbn. by rewrite HS. }
  rewrite (proj2 (Z.eqb_neq _ _)) by done.
  apply (yields_read _ _ _ false).
  { intros s []. unfold isPduBufferLocked, buffer_state, bind, get, deref. cbn. rewrite at_states0, Hst. cbn. by rewrite Hlk. }
  rewrite (proj2 (Z.eqb_neq _ _)) by done. cbn [negb].
  eapply (yields_keep _ (at_ (with_update_bit S q b') l A B)).
  - change (yields (at_ b l A B) (let* Arc_IPdu := GET_ArcIPdu (ComIPduHandleId S) in
      let* _ := SchM_Enter_Com_EA_0 in
      let* dataChanged := WriteSignalDataToPdu data (ComIPduDataPtr Arc_IPdu) (Sig_layout S) in
      let* _ := if ComSignalArcUseUpdateBit S then SETBIT (ComIPduDataPtr Arc_IPdu) (ComUpdateBitPosition S) else ret tt in
      ret dataChanged) (fun _ => at_ (with_update_bit S q b') l A B)).
    eapply read_ArcIPdu; [exact Ha|]. rewrite Hq.
    eapply (yields_keep _ (at_ b l A B)). { by intros s x s' [] [= _ <-]. } intros _.
    eapply (yields_keep _ (at_ b' l A B)).
    { intros s x s' [] E. unfold WriteSignalDataToPdu, bind, get, deref, modify, put_buffer in E. cbn in E.
      rewrite at_buffer0, Hw in E. cbn in E. injection E as <- <-. by split. }
    intros ch'. eapply (yields_keep _ (at_ (with_update_bit S q b') l A B)); [|intros _; by apply yields_ret].
    intros s x s' [] E. unfold with_update_bit. destruct (ComSignalArcUseUpdateBit S); [|by injection E as <- <-].
    unfold SETBIT, bind, get, deref, put_buffer, modify in E. cbn in E. rewrite at_buffer0 in E.
    destruct (load b' _) as [v|] eqn:Ev; [|done]. cbn in E. rewrite store_in in E by (by eapply load_Some).
    injection E as <- <-. by split.
  - intros ch'. eapply (yields_bind _ _ _ _ _).
    { eapply sent_TriggerTxOnConditions; [exact HP|exact Ha|exact Hnow|exact Hq| |exact Htp].
      by rewrite length_with_update_bit, Hl'. }
    intros ok s x s' [-> Hl]. cbn. intros [= <- <-]. by split.
Qed.
End Sender.

(** ** The receiver *)
Section Receiver.
Context {W : Type} {Cfg : Com_Cfg} {Env : Com_Env W}.
Variable c : Com_ConfigType.
Abbreviation T := (M (Com_State W)).

(** The parts a reception depends on. *)
Record at_rx (b : list Z) (A : list Com_Arc_IPdu_type) (B : list Com_BufferPduStateType) (s : Com_State W) : Prop := {
  rx_config : s.(ComConfig) = Some c;
  rx_init : s.(initStatus) = COM_INIT;
  rx_buffer : s.(Com_Arc_Buffer) = b;
  rx_arcs : s.(Com_Arc_IPdu) = A;
  rx_states : s.(Com_BufferPduState) = B
}.

Lemma rx_call {X} (f : W -> X * W) b A B : preserves (at_rx b A B) (call f).
Proof using Type.
  intros s x s' [] E. unfold call in E. destruct (f (world s)). by injection E as <- <-.
Qed.

(** Processing the signals of a received I-PDU changes none of them. *)
Ltac rx_quiet :=
  repeat lazymatch goal with
  | |- preserves _ (bind _ _) => apply preserves_bind; [|intros]
  | |- preserves _ (ret _) => apply preserves_ret
  | |- preserves _ (get _) => apply preserves_get
  | |- preserves _ (deref _) => apply preserves_deref
  | |- preserves _ (modify _) => apply preserves_modify; by intros s []
  | |- preserves _ (call _) => apply rx_call
  | |- preserves _ (for_each _ _ _) => apply preserves_for_each; intros
  | |- preserves _ (let _ := _ in _) => cbv zeta
  | |- preserves _ (match ?x with _ => _ end) => destruct x eqn:?
  | |- preserves _ ?m => let h := head_of m in unfold h
  end.

Lemma rx_RxProcessSignals b A B P a : preserves (at_rx b A B) (Com_Misc_RxProcessSignals P a).
Proof using Type. rx_quiet. Qed.

(** The I-PDU takes over what is indicated: it is started; no call-out, no counter. *)
Record receives_now (P : ComIPdu_type) (a : Com_Arc_IPdu_type) : Prop := {
  v_started : a.(Com_Arc_IpduStarted) = true;
  v_immediate : P.(ComIPduSignalProcessing) = COM_IMMEDIATE;
  v_callout : P.(ComRxIPduCallout) = COM_NO_FUNCTION_CALLOUT;
  v_counter : P.(ComIpduCounterRef) = None
}.

Section Run.
Variables (A : list Com_Arc_IPdu_type) (B : list Com_BufferPduStateType).
Variables (i q : Z) (P : ComIPdu_type) (a : Com_Arc_IPdu_type) (st : Com_BufferPduStateType).
Hypothesis HP : aref c.(ComIPdu) i = Some P.
Hypothesis Hi : i < c.(ComNofIPdus).
Hypothesis Ha : aref A i = Some a.
Hypothesis Hst : aref B i = Some st.
Hypothesis Hlk : st.(locked) = false.
Hypothesis Hnow : receives_now P a.
Hypothesis Hq : a.(ComIPduDataPtr) = Some q.

Lemma rx_read_IPdu b {X} (k : ComIPdu_type -> T X) Q : yields (at_rx b A B) (k P) Q ->
  yields (at_rx b A B) (let* x := GET_IPdu i in k x) Q.
Proof using HP.
  apply yields_read. intros s []. unfold GET_IPdu, cfg, bind, get, deref. cbn. rewrite rx_config0. cbn. by rewrite HP.
Qed.
Lemma rx_read_ArcIPdu b {X} (k : Com_Arc_IPdu_type -> T X) Q : yields (at_rx b A B) (k a) Q ->
  yields (at_rx b A B) (let* x := GET_ArcIPdu i in k x) Q.
Proof using Ha.
  apply yields_read. intros s []. unfold GET_ArcIPdu, bind, get, deref. cbn. by rewrite rx_arcs0, Ha.
Qed.
Lemma rx_if_init b {X} api (err : X) (body : T X) Q : yields (at_rx b A B) (let* c := cfg in if_below api i c.(ComNofIPdus) err body) Q ->
  yields (at_rx b A B) (if_init api err (let* c := cfg in if_below api i c.(ComNofIPdus) err body)) Q.
Proof using Type.
  intros Hb. unfold if_init. apply (yields_read _ _ _ COM_INIT). { intros s []. unfold Com_GetStatus, get. by rewrite rx_init0. }
  rewrite bool_decide_eq_true_2 by done. exact Hb.
Qed.

Lemma taken_RxIndication b sdu : 0 <= P.(ComIPduSize) <= Z.of_nat (length sdu) -> 0 <= q ->
  q + P.(ComIPduSize) <= Z.of_nat (length b) ->
  leads (at_rx b A B) (Com_RxIndication i sdu)
    (at_rx (patch b (Z.to_nat q) (take (Z.to_nat P.(ComIPduSize)) sdu)) A B).
Proof using HP Hi Ha Hnow Hq.
  intros Hl Hq0 Hqb. destruct Hnow as [Hs Hm Hc Hk]. set (b' := patch _ _ _).
  change (yields (at_rx b A B) (Com_RxIndication i sdu) (fun _ => at_rx b' A B)).
  unfold Com_RxIndication. apply rx_if_init.
  apply (yields_read _ _ _ c). { intros s []. unfold cfg, bind, get, deref. cbn. by rewrite rx_config0. }
  unfold if_below. rewrite Z.geb_leb, (proj2 (Z.leb_gt _ _)) by lia.
  apply rx_read_IPdu, rx_read_ArcIPdu.
  eapply (yields_keep _ (at_rx b A B)). { by intros s x s' [] [= _ <-]. } intros _. rewrite Hs, Hq.
  eapply (yields_keep _ (at_rx b' A B)); [|intros _; by intros s x s' [] [= _ <-]].
  unfold rx_callout. rewrite Hc, Z.eqb_refl. apply (yields_read _ _ _ true); [done|]. cbv iota.
  unfold counter_accepts. rewrite Hk. apply (yields_read _ _ _ true); [by destruct COM_IPDU_COUNTING_ENABLE|]. cbv iota.
  apply (yields_read _ _ _ (take (Z.to_nat (ComIPduSize P)) sdu)).
  { intros s _. unfold deref. by rewrite read_bytes_0 by lia. }
  eapply (yields_keep _ (at_rx b' A B)); [|intros _; apply rx_RxProcessSignals].
  intros s x s' [] E. unfold buffer_write, bind, get, deref, put_buffer, modify in E. cbn in E.
  rewrite rx_buffer0, Z.add_0_r, write_bytes_in in E by (rewrite ?length_take; lia). cbn in E.
  injection E as <- <-. by split.
Qed.

Lemma read_ReceiveSignal b h S out v : aref c.(ComSignal) h = Some S -> h < c.(ComNofSignals) ->
  S.(ComIPduHandleId) = i -> i <> NO_PDU_REFERENCE ->
  read_signal BIG_ENDIAN_CPU b q S.(Sig_layout) out = Some v ->
  yields (at_rx b A B) (Com_ReceiveSignal h out) (fun r _ => r = (E_OK, v)).
Proof using HP Ha Hst Hlk Hnow Hq.
  intros HS Hh Ei Hno Hr. destruct Hnow as [Hs Hm Hc Hk]. unfold Com_ReceiveSignal, if_init, if_below.
  apply (yields_read _ _ _ COM_INIT). { intros s []. unfold Com_GetStatus, get. by rewrite rx_init0. }
  rewrite bool_decide_eq_true_2 by done. cbn [negb].
  apply (yields_read _ _ _ c). { intros s []. unfold cfg, bind, get, deref. cbn. by rewrite rx_config0. }
  rewrite Z.geb_leb, (proj2 (Z.leb_gt _ _)) by lia.
  apply (yields_read _ _ _ S).
  { intros s []. unfold GET_Signal, cfg, bind, get, deref. cbn. rewrite rx_config0. cbn. by rewrite HS. }
  cbv zeta. rewrite Ei, (proj2 (Z.eqb_neq _ _)) by done. apply rx_read_IPdu, rx_read_ArcIPdu.
  unfold deferred_rx. rewrite Hm. cbn [bool_decide andb].
  apply (yields_read _ _ _ (E_OK, Some q)).
  { intros s []. rewrite bool_decide_eq_false_2 by done. cbn [andb].
    unfold isPduBufferLocked, buffer_state, bind, get, deref, ret. cbn. rewrite rx_states0, Hst. cbn. by rewrite Hlk, Hq. }
  intros s x s' [] E. unfold ReadSignalDataFromPdu, bind, get, deref, modify, ret in E. cbn in E.
  rewrite rx_buffer0, Hr in E. cbn in E. rewrite Hs in E. cbn in E. by injection E as <- _.
Qed.
End Run.
End Receiver.

(** ** From one node to the other *)

(** The signal [h] of the node in state [s] is sent at once when it is written. *)
Record can_send {W} (c : Com_ConfigType) (s : Com_State (list Event * W)) (h : Z) (S : ComSignal_type)
    (P : ComIPdu_type) (a : Com_Arc_IPdu_type) (st : Com_BufferPduStateType) : Prop := {
  cs_init : s.(initStatus) = COM_INIT;
  cs_handle : 0 <= h < c.(ComNofSignals);
  cs_signal : aref c.(ComSignal) h = Some S;
  cs_connected : S.(ComIPduHandleId) <> NO_PDU_REFERENCE;
  cs_plain : S.(Com_Arc_IsSignalGroup) = false;
  cs_property : triggering false S.(ComTransferProperty) = true;
  cs_pdu : aref c.(ComIPdu) S.(ComIPduHandleId) = Some P;
  cs_dir : P.(ComIPduDirection) = COM_SEND;
  cs_arc : aref s.(Com_Arc_IPdu) S.(ComIPduHandleId) = Some a;
  cs_state : aref s.(Com_BufferPduState) S.(ComIPduHandleId) = Some st;
  cs_free : st.(locked) = false;
  cs_now : sends_now S.(ComIPduHandleId) P a;
  cs_inside : inside P.(ComIPduSize) S.(Sig_layout) = true;
  cs_update : update_bit_apart S = true
}.
Record can_receive {W} (c : Com_ConfigType) (s : Com_State W) (h : Z) (S : ComSignal_type)
    (P : ComIPdu_type) (a : Com_Arc_IPdu_type) (st : Com_BufferPduStateType) : Prop := {
  cr_init : s.(initStatus) = COM_INIT;
  cr_handle : 0 <= h < c.(ComNofSignals);
  cr_signal : aref c.(ComSignal) h = Some S;
  cr_connected : S.(ComIPduHandleId) <> NO_PDU_REFERENCE;
  cr_plain : S.(Com_Arc_IsSignalGroup) = false;
  cr_pdu : aref c.(ComIPdu) S.(ComIPduHandleId) = Some P;
  cr_dir : P.(ComIPduDirection) = COM_RECEIVE;
  cr_arc : aref s.(Com_Arc_IPdu) S.(ComIPduHandleId) = Some a;
  cr_state : aref s.(Com_BufferPduState) S.(ComIPduHandleId) = Some st;
  cr_free : st.(locked) = false;
  cr_now : receives_now P a
}.

Lemma inv_arc {W} {Cfg : Com_Cfg} {Env : Com_Env W} c z o0 n (s : Com_State W) i P r a : Inv c z o0 (complete c) n s ->
  is_pdu c z i P r -> aref s.(Com_Arc_IPdu) i = Some a -> arc_of P r a.
Proof.
  intros HI Hp Ha. pose proof (complete_GET_ArcIPdu c z o0 n i P r Hp s HI) as Hw.
  unfold GET_ArcIPdu, wp, bind, get, deref in Hw. cbn in Hw. rewrite Ha in Hw. by destruct Hw.
Qed.

Lemma extended_bit_ext L f g k : layout_ok L = true -> 0 <= k < 8 * Z.of_nat (value_bytes L) ->
  (forall j, 0 <= j < bit_count L -> f j = g j) -> extended_bit L f k = extended_bit L g k.
Proof.
  intros HL Hk Hfg. unfold extended_bit, bit_count, value_bytes in *. destruct (opaque L) eqn:Ho.
  - rewrite (proj2 (Z.ltb_lt _ _)) by (Z.div_mod_to_equations; lia). apply Hfg. lia.
  - destruct (layout_word L HL Ho) as (_ & Hs & _).
    destruct (Z.ltb_spec k (l_size L)); rewrite Hfg by lia; done.
Qed.

Section Sent_bits.
Context {W : Type} {Cfg : Com_Cfg} {Env : Com_Env W} `{!Com_EnvOk W}.
Variables (c : Com_ConfigType) (z : Sizes) (s : Com_State (list Event * W)).
Hypothesis Hv : valid (W := list Event * W) c z.
Hypothesis Hirq : irq_ok s.(os).
Hypothesis Hroom : s.(os).(Os_IntSuspendAllCnt) <= 100.
Hypothesis HI : Inv c z s.(os) (complete c) 0 s.

(** The I-PDU goes out with the signal in it. *)
Lemma send_signal_bits h S P a st data : can_send c s h S P a st -> value_ok S.(Sig_layout) data ->
  exists s' sdu, Com_SendSignal h data s = Some (E_OK, s') /\
    s'.(world).1 = Sent P.(ArcIPduOutgoingId) sdu :: s.(world).1 /\
    Z.of_nat (length sdu) = P.(ComIPduSize) /\ bytes sdu /\
    forall k, 0 <= k < bit_count S.(Sig_layout) ->
      bit_at sdu (bit_position S.(Sig_layout) k) = value_bit BIG_ENDIAN_CPU S.(Sig_layout) data k.
Proof using All.
  intros [Hin Hh HS Hno HG Htp HP Hdir Ha Hst Hlk Hnow Hins Hupd] Hval.
  destruct (signal_of _ _ Hv h S HS Hno) as (P' & r & Hp & HSig).
  rewrite (p_cfg _ _ _ _ _ Hp) in HP. injection HP as ->.
  pose proof (inv_arc _ _ _ _ _ _ _ _ _ HI Hp Ha) as [Hptr _ _].
  pose proof (s_ok _ _ _ _ _ _ HSig) as (_ & _ & Hub & _ & _ & _ & Hpl). rewrite HG in Hpl.
  destruct Hpl as ([HL Hacc] & _ & _ & Hsz). pose proof (p_data _ _ _ _ _ Hp) as Hdat. pose proof Hdat as (H1 & H2 & H3).
  set (b := s.(Com_Arc_Buffer)) in *.
  assert (Hlen : length b = n_Buffer z) by (by rewrite <- (i_sizes _ _ _ _ _ _ HI)).
  rewrite <- Hlen in *.
  destruct (write_signal_spec BIG_ENDIAN_CPU S.(Sig_layout) data b r.(r_data)) as (b' & Hw & Hl' & Hb' & Hset & _);
    [done|done|apply HI|apply Hval|apply Hval|].
  set (b2 := with_update_bit S r.(r_data) b').
  assert (Hb2 : bytes b2).
  { unfold b2, with_update_bit. destruct (ComSignalArcUseUpdateBit S); [|done]. destruct (load b' _) as [v|] eqn:Ev; [|done].
    apply bytes_insert; [done|]. apply in_width_lor; [lia|exact (load_byte _ _ _ Hb' Ev)|apply bit_mask_byte]. }
  destruct (wp_inv (Com_SendSignal h data) (fun x s' => (x = E_OK /\
      s'.(world).1 = Sent P.(ArcIPduOutgoingId) (segment b2 r.(r_data) P.(ComIPduSize)) :: s.(world).1) /\ True) s)
    as (x & s' & E & (-> & Hlog) & _).
  { eapply yields_wp.
    - eapply (sent_SendSignal c b b' _ (s.(world).1) (s.(Com_Arc_IPdu)) (s.(Com_BufferPduState))); try done; [lia|apply Hp].
    - split; try done. apply HI.
    - eapply wp_mono; [eapply (spec_SendSignal c z s.(os) Hirq Hroom Hv 0 h data); [lia|lia| |exact HI]|done].
      intros S' HS' _. rewrite HS in HS'. injection HS' as <-. split_and!; [|done|done].
      unfold sends. by rewrite (p_cfg _ _ _ _ _ Hp). }
  exists s', (segment b2 r.(r_data) P.(ComIPduSize)).
  assert (Hl2 : length b2 = length b) by (unfold b2; by rewrite length_with_update_bit).
  split_and!; [done|done|rewrite length_segment; lia|by apply bytes_segment|].
  intros k Hk. pose proof (inside_spec _ _ k Hins Hk) as Hpos. rewrite bit_at_segment by lia.
  rewrite <- (Hset k Hk). apply with_update_bit_other. intros Eu Epos.
  unfold update_bit_apart in Hupd. rewrite Eu in Hupd. cbn in Hupd. apply andb_true_iff in Hupd as [_ Hupd].
  rewrite forallb_forall in Hupd. specialize (Hupd k (signal_bits_in _ _ Hk)). lia.
Qed.
End Sent_bits.

Section Received_bits.
Context {W : Type} {Cfg : Com_Cfg} {Env : Com_Env W} `{!Com_EnvOk W}.
Variables (c : Com_ConfigType) (z : Sizes) (s : Com_State W).
Hypothesis Hv : valid c z.
Hypothesis Hirq : irq_ok s.(os).
Hypothesis Hroom : s.(os).(Os_IntSuspendAllCnt) <= 100.
Hypothesis HI : Inv c z s.(os) (complete c) 0 s.

(** What is read is what the indicated I-PDU has at the signal's bits. *)
Lemma receive_signal_bits h S P a st sdu out : can_receive c s h S P a st ->
  bytes sdu -> Z.of_nat (length sdu) = P.(ComIPduSize) -> inside P.(ComIPduSize) S.(Sig_layout) = true ->
  (value_bytes S.(Sig_layout) <= length out)%nat ->
  exists s' s'' vs, Com_RxIndication S.(ComIPduHandleId) sdu s = Some (tt, s') /\
    Com_ReceiveSignal h out s' = Some ((E_OK, patch out 0 vs), s'') /\
    length vs = value_bytes S.(Sig_layout) /\ bytes vs /\
    forall k, 0 <= k < 8 * Z.of_nat (value_bytes S.(Sig_layout)) ->
      value_bit BIG_ENDIAN_CPU S.(Sig_layout) vs k =
      extended_bit S.(Sig_layout) (fun j => bit_at sdu (bit_position S.(Sig_layout) j)) k.
Proof using All.
  intros [Hin Hh HS Hno HG HP Hdir Ha Hst Hlk Hnow] Hb Hl Hins Hout.
  destruct (signal_of _ _ Hv h S HS Hno) as (P' & r & Hp & HSig).
  rewrite (p_cfg _ _ _ _ _ Hp) in HP. injection HP as ->.
  pose proof (inv_arc _ _ _ _ _ _ _ _ _ HI Hp Ha) as [Hptr _ _].
  pose proof (s_ok _ _ _ _ _ _ HSig) as (_ & _ & _ & _ & _ & _ & Hpl). rewrite HG in Hpl.
  destruct Hpl as ([HL Hacc] & _). pose proof (p_data _ _ _ _ _ Hp) as (H1 & H2 & H3).
  set (i := S.(ComIPduHandleId)) in *. set (b := s.(Com_Arc_Buffer)) in *.
  assert (Hlen : length b = n_Buffer z) by (by rewrite <- (i_sizes _ _ _ _ _ _ HI)).
  set (b' := patch b (Z.to_nat r.(r_data)) sdu).
  assert (Hlb' : length b' = length b) by (apply length_patch; lia).
  assert (Hbb' : bytes b') by (apply bytes_patch; [apply HI|done]).
  assert (Hii : 0 <= i < c.(ComNofIPdus)).
  { destruct Hv as (-> & _). pose proof (p_cfg _ _ _ _ _ Hp) as [? E]%aref_Some. apply lookup_lt_Some in E. lia. }
  destruct (wp_inv (Com_RxIndication i sdu) (fun _ s' => at_rx c b' s.(Com_Arc_IPdu) s.(Com_BufferPduState) s' /\
      (True /\ Inv c z s.(os) (complete c) 0 s')) s) as ([] & s' & E & Hat & _ & HI').
  { eapply yields_wp.
    - assert (Htk : leads (at_rx c b s.(Com_Arc_IPdu) s.(Com_BufferPduState)) (Com_RxIndication i sdu)
        (at_rx c (patch b (Z.to_nat r.(r_data)) (take (Z.to_nat P.(ComIPduSize)) sdu)) s.(Com_Arc_IPdu) s.(Com_BufferPduState))).
      { eapply taken_RxIndication; [apply Hp|lia|exact Ha|done|done|lia..]. }
      rewrite take_ge in Htk by lia. exact Htk.
    - split; try done. apply HI.
    - apply (spec_RxIndication c z s.(os) Hirq Hroom Hv 0 i sdu); [lia|lia| |exact HI].
      intros _. split_and!; [|done|].
      + unfold receives. by rewrite (p_cfg _ _ _ _ _ Hp).
      + intros Q HQ. rewrite (p_cfg _ _ _ _ _ Hp) in HQ. injection HQ as <-. lia. }
  destruct (read_signal_spec BIG_ENDIAN_CPU S.(Sig_layout) b' r.(r_data) out) as (vs & Hr & Hvl & Hvb & Hvk);
    [done|by rewrite Hlb', Hlen|done|done|].
  destruct (wp_inv (Com_ReceiveSignal h out) (fun x _ => x = (E_OK, patch out 0 vs) /\ True) s')
    as (x & s'' & E2 & -> & _).
  { eapply yields_wp; [|exact Hat|].
    - eapply (read_ReceiveSignal c _ _ i r.(r_data) P a st (p_cfg _ _ _ _ _ Hp) Ha Hst Hlk Hnow Hptr); try done. lia.
    - eapply wp_mono; [eapply (spec_ReceiveSignal c z s.(os) Hirq Hroom Hv 0 h out); [lia|lia| |exact HI']|done].
      intros S' HS'. rewrite HS in HS'. injection HS' as <-. split; [done|]. by intros _. }
  exists s', s'', vs. split_and!; try done. intros k Hk. rewrite (Hvk k Hk). apply extended_bit_ext; [done|done|].
  intros j Hj. pose proof (inside_spec _ _ j Hins Hj). unfold buffer_bits, b'. rewrite bit_at_patch by lia.
  rewrite (proj2 (Z.leb_le _ _)), (proj2 (Z.ltb_lt _ _)) by lia. cbn [andb]. f_equal. lia.
Qed.
End Received_bits.

(** ** Reached states: the module is initialised and then used as its interface demands. *)
Definition reached {W} {Cfg : Com_Cfg} {Env : Com_Env W} (c : Com_ConfigType) (z : Sizes) (s : Com_State W) : Prop :=
  exists b calls, bootable c z b /\ Forall (call_ok c) calls /\ run c (Init :: calls) b = Some (tt, s).

Lemma reached_inv {W} {Cfg : Com_Cfg} {Env : Com_Env W} `{!Com_EnvOk W} c z (s : Com_State W) :
  valid c z -> reached c z s ->
  irq_ok s.(os) /\ s.(os).(Os_IntSuspendAllCnt) <= 100 /\ Inv c z s.(os) (complete c) 0 s.
Proof.
  intros Hv (b & calls & (Hi & Hr & Hb) & Hc & E).
  assert (Hw : wp (run c (Init :: calls)) (fun _ s' => Inv c z b.(os) (complete c) 0 s') b).
  { cbn [run perform]. apply wp_bind. eapply wp_mono; [by eapply spec_Com_Init|]. intros _ s1 (_ & HI & _).
    eapply wp_mono; [by eapply spec_run|]. by intros _ s2 [_ ?]. }
  unfold wp in Hw. rewrite E in Hw. by rewrite (i_os _ _ _ _ _ _ Hw).
Qed.

(** A signal arrives: [Com_SendSignal] on one node hands an I-PDU to the PDU router which, indicated to another node,
    makes [Com_ReceiveSignal] there return the value that was sent, for every signal type, position and byte order
    the two configurations agree on; the nodes may differ in everything else: handles, I-PDUs, place of the
    data, byte order of the processor, and each may have made any calls before. *)
Theorem com_signal_transfer {W1 W2} (Cfg1 Cfg2 : Com_Cfg) (Env1 : Com_Env W1) (Env2 : Com_Env W2)
    c1 z1 (s1 : Com_State (list Event * W1)) h1 S1 P1 a1 st1
    c2 z2 (s2 : Com_State W2) h2 S2 P2 a2 st2 data out :
  Com_EnvOk W1 -> Com_EnvOk W2 ->
  valid (Cfg := Cfg1) (W := list Event * W1) c1 z1 -> valid (Cfg := Cfg2) (W := W2) c2 z2 ->
  reached (Cfg := Cfg1) c1 z1 s1 -> reached (Cfg := Cfg2) c2 z2 s2 ->
  can_send c1 s1 h1 S1 P1 a1 st1 -> can_receive c2 s2 h2 S2 P2 a2 st2 ->
  S1.(Sig_layout) = S2.(Sig_layout) -> P1.(ComIPduSize) = P2.(ComIPduSize) ->
  value_ok S1.(Sig_layout) data -> representable (@BIG_ENDIAN_CPU Cfg1) S1.(Sig_layout) data = true ->
  (value_bytes S2.(Sig_layout) <= length out)%nat ->
  exists s1' sdu s2' s2'' v,
    Com_SendSignal (Cfg := Cfg1) h1 data s1 = Some (E_OK, s1') /\
    s1'.(world).1 = Sent P1.(ArcIPduOutgoingId) sdu :: s1.(world).1 /\
    Com_RxIndication (Cfg := Cfg2) S2.(ComIPduHandleId) sdu s2 = Some (tt, s2') /\
    Com_ReceiveSignal (Cfg := Cfg2) h2 out s2' = Some ((E_OK, patch out 0 v), s2'') /\
    length v = value_bytes S2.(Sig_layout) /\
    forall k, 0 <= k < 8 * Z.of_nat (value_bytes S2.(Sig_layout)) ->
      value_bit (@BIG_ENDIAN_CPU Cfg2) S2.(Sig_layout) v k = value_bit (@BIG_ENDIAN_CPU Cfg1) S1.(Sig_layout) data k.
Proof.
  intros He1 He2 Hv1 Hv2 Hr1 Hr2 Hs Hr HL HP Hval Hrep Hout.
  destruct (reached_inv c1 z1 s1 Hv1 Hr1) as (Hi1 & Hc1 & HI1). destruct (reached_inv c2 z2 s2 Hv2 Hr2) as (Hi2 & Hc2 & HI2).
  destruct (send_signal_bits (Cfg := Cfg1) c1 z1 s1 Hv1 Hi1 Hc1 HI1 h1 S1 P1 a1 st1 data Hs Hval) as (s1' & sdu & E1 & Hlog & Hl & Hb & Hk).
  pose proof (cs_inside _ _ _ _ _ _ _ Hs) as Hins. rewrite HP, HL in Hins.
  destruct (receive_signal_bits (Cfg := Cfg2) c2 z2 s2 Hv2 Hi2 Hc2 HI2 h2 S2 P2 a2 st2 sdu out Hr Hb)
    as (s2' & s2'' & v & E2 & E3 & Hvl & _ & Hvk); [lia|done|done|].
  exists s1', sdu, s2', s2'', v. split_and!; try done. intros k Hkk. rewrite Hvk by done.
  assert (HLok : layout_ok S1.(Sig_layout) = true).
  { destruct (signal_of _ _ Hv1 h1 S1 (cs_signal _ _ _ _ _ _ _ Hs) (cs_connected _ _ _ _ _ _ _ Hs)) as (P & r & Hp & HSig).
    pose proof (s_ok _ _ _ _ _ _ HSig) as (_ & _ & _ & _ & _ & _ & Hpl).
    rewrite (cs_plain _ _ _ _ _ _ _ Hs) in Hpl. by destruct Hpl as ([? _] & _). }
  rewrite <- HL in *. rewrite <- (representable_spec _ _ _ _ Hrep Hkk).
  apply extended_bit_ext; [done|done|]. intros j Hj. cbv beta. by apply Hk.
Qed.

(** A big-endian node sends the signal -460 of 12 bits, a little-endian one receives it. *)
Definition big_endian_node : Com_Cfg := {|
  COM_DEV_ERROR_DETECT := true; COM_IPDU_COUNTING_ENABLE := true; COM_SIG_GATEWAY_ENABLE := true;
  COM_OSEKNM_SUPPORT := false; COM_E_TOO_MANY_IPDU := 0x10; COM_INVALID_PDU_ID := 0x11;
  COM_OSEKNM_INVALID_NET_ID := 0xFF; BIG_ENDIAN_CPU := true; automatic := fun _ => 0xA5
|}.
Definition start_calls : list Com_Call := [IpduGroupControl [1] true].
Definition from_init {W} (Cfg : Com_Cfg) (Env : Com_Env W) (w : W) : Com_State W :=
  match run Demo.cfg (Init :: start_calls) (Demo.boot w) with Some (_, s) => s | None => Demo.boot w end.
Definition sender : Com_State (list Event * nat) := from_init big_endian_node _ ([], 0%nat).
Definition receiver : Com_State nat := from_init Demo.config _ 0%nat.

Ltac reached_demo w := exists (Demo.boot w), start_calls; split; [|split];
  [demo_bootable|repeat apply Forall_cons_2; try apply Forall_nil_2; demo_call
  |vm_compute; reflexivity].

Ltac evaluate H := match type of H with ?l = _ => let x := eval vm_compute in l in
  let E := fresh in assert (E : l = x) by (vm_compute; reflexivity); rewrite E in H; clear E end.

Lemma com_signal_transfer_witness : exists s1' sdu s2' s2'' v,
  Com_SendSignal (Cfg := big_endian_node) 0 [0xFE; 0x34] sender = Some (E_OK, s1') /\ s1'.(world).1 = [Sent 10 sdu] /\
  Com_RxIndication 2 sdu receiver = Some (tt, s2') /\ Com_ReceiveSignal 2 [0; 0] s2' = Some ((E_OK, v), s2'') /\
  v = [0x34; 0xFE].
Proof.
  destruct (com_signal_transfer big_endian_node Demo.config _ _ Demo.cfg (sizes sender) sender 0 Demo.s0
    (default (Demo.pdu COM_SEND COM_IMMEDIATE 0 0 0 Demo.s0) (aref Demo.cfg.(ComIPdu) 0)) (default Demo.arc (aref sender.(Com_Arc_IPdu) 0))
    {| currentPosition := 0; locked := false |}
    Demo.cfg (sizes receiver) receiver 2 Demo.s2
    (default (Demo.pdu COM_SEND COM_IMMEDIATE 0 0 0 Demo.s0) (aref Demo.cfg.(ComIPdu) 2)) (default Demo.arc (aref receiver.(Com_Arc_IPdu) 2))
    {| currentPosition := 0; locked := false |} [0xFE; 0x34] [0; 0]) as (s1' & sdu & s2' & s2'' & v & E1 & E2 & E3 & E4 & _).
  1, 2: exact _.
  1, 2: apply (bool_decide_unpack _); vm_compute; exact I.
  - reached_demo (@nil Event, 0%nat).
  - reached_demo 0%nat.
  - split; try (vm_compute; first [done | intuition congruence]). split; vm_compute; first [done | by left | intuition congruence].
  - split; try (vm_compute; first [done | intuition congruence]).
  - done.
  - done.
  - split; [vm_compute; lia|byte_list].
  - by vm_compute.
  - vm_compute. lia.
  - exists s1', sdu, s2', s2'', (patch [0; 0] 0 v). split_and!; [done|exact E2|exact E3|exact E4|].
    evaluate E1. injection E1 as <-. vm_compute in E2. injection E2 as <-. evaluate E3. injection E3 as <-.
    evaluate E4. by injection E4.
Defined.
