(* ===== verification/PduR_Types.v ===== *)
(** * Data of the PDU router

    The types of [communication/PduR/inc/PduR_Types.h], [PduR.h] and [PduR_If.h]: the routing tables, the buffers of
    transport protocol gateways and of triggered transmissions, the static data of the module as the record
    [PduR_State], and the modules around the router as the class [PduR_Env].

    Arrays that end with a null pointer are lists, pointers to configuration structures are those structures.
    The pointers in [TpRouteBuffers] all lead into [TpBuffers]: they are indices of it. *)

From S2P Require Import Prelude.
From S2P Require Import Os_Irq.
From S2P Require Import ComStack.

(** ** PduR.h *)
Definition PDUR_E_INVALID_REQUEST := 0x01.
Definition PDUR_E_PDU_ID_INVALID := 0x02.
Definition PDUR_E_ROUTING_PATH_GROUP_ID_INVALID := 0x08.
Definition PDUR_E_NULL_POINTER := 0x09.
Definition PDUR_E_PDU_INSTANCES_LOST := 0x0a.
Definition PDUR_E_BUFFER_ERROR := 0x0c.
Definition PDUR_SERVICEID_CANIFRXINDICATION := 0x00.
Definition PDUR_SERVICEID_ENABLEROUTING := 0xf3.
Definition PDUR_SERVICEID_GETCONFIGURATIONID := 0xf2.
Definition PDUR_SERVICEID_DISABLEROUTING := 0xf4.
Definition PDUR_INVALID_CONFIGID := 0xFF.
(** [PduR_Logic.c] *)
Definition PDU_MAX_ROUTING_PATH := 8192.
Definition PDUR_PDU_ID_MASK := 8191.

(** ** PduR_Types.h *)
Inductive ARC_PduR_ModuleType :=
  | ARC_PDUR_UP_MODULES
  | ARC_PDUR_COM | ARC_PDUR_DCM | ARC_PDUR_IPDUM | ARC_PDUR_SECOC | ARC_PDUR_CDDPDUR | ARC_PDUR_LDCOM
  | ARC_PDUR_LOIF_MODULES
  | ARC_PDUR_CANIF | ARC_PDUR_CANNM | ARC_PDUR_LINIF | ARC_PDUR_SOADIF | ARC_PDUR_DOIPIF | ARC_PDUR_UDPNM
  | ARC_PDUR_FRIF | ARC_PDUR_FRNM | ARC_PDUR_CDD_LINSLVIF
  | ARC_PDUR_LOTP_MODULES
  | ARC_PDUR_CANTP | ARC_PDUR_LINTP | ARC_PDUR_SOADTP | ARC_PDUR_DOIPTP | ARC_PDUR_SOAD | ARC_PDUR_DOIP
  | ARC_PDUR_J1939TP | ARC_PDUR_FRTP
  | ARC_PDUR_END_OF_MODULES.
#[export] Instance ARC_PduR_ModuleType_eq : EqDecision ARC_PduR_ModuleType.
Proof. solve_decision. Defined.

(** The number of the enumerator. *)
Definition module_number (m : ARC_PduR_ModuleType) : Z :=
  match m with
  | ARC_PDUR_UP_MODULES => 0 | ARC_PDUR_COM => 1 | ARC_PDUR_DCM => 2 | ARC_PDUR_IPDUM => 3 | ARC_PDUR_SECOC => 4
  | ARC_PDUR_CDDPDUR => 5 | ARC_PDUR_LDCOM => 6 | ARC_PDUR_LOIF_MODULES => 7 | ARC_PDUR_CANIF => 8
  | ARC_PDUR_CANNM => 9 | ARC_PDUR_LINIF => 10 | ARC_PDUR_SOADIF => 11 | ARC_PDUR_DOIPIF => 12
  | ARC_PDUR_UDPNM => 13 | ARC_PDUR_FRIF => 14 | ARC_PDUR_FRNM => 15 | ARC_PDUR_CDD_LINSLVIF => 16
  | ARC_PDUR_LOTP_MODULES => 17 | ARC_PDUR_CANTP => 18 | ARC_PDUR_LINTP => 19 | ARC_PDUR_SOADTP => 20
  | ARC_PDUR_DOIPTP => 21 | ARC_PDUR_SOAD => 22 | ARC_PDUR_DOIP => 23 | ARC_PDUR_J1939TP => 24
  | ARC_PDUR_FRTP => 25 | ARC_PDUR_END_OF_MODULES => 26
  end.
Definition between (a m b : ARC_PduR_ModuleType) : bool :=
  (module_number a <? module_number m) && (module_number m <? module_number b).
Definition PduR_IsUpModule (m : ARC_PduR_ModuleType) : bool := between ARC_PDUR_UP_MODULES m ARC_PDUR_LOIF_MODULES.
Definition PduR_IsIfModule (m : ARC_PduR_ModuleType) : bool := between ARC_PDUR_LOIF_MODULES m ARC_PDUR_LOTP_MODULES.
Definition PduR_IsTpModule (m : ARC_PduR_ModuleType) : bool := between ARC_PDUR_LOTP_MODULES m ARC_PDUR_END_OF_MODULES.
Definition PduR_IsLoModule (m : ARC_PduR_ModuleType) : bool := PduR_IsIfModule m || PduR_IsTpModule m.

Inductive PduR_StateType := PDUR_UNINIT | PDUR_ONLINE | PDUR_REDUCED.
#[export] Instance PduR_StateType_eq : EqDecision PduR_StateType.
Proof. solve_decision. Defined.

Inductive PduR_DataProvisionType := PDUR_NO_PROVISION | PDUR_TRIGGER_TRANSMIT | PDUR_DIRECT.
#[export] Instance PduR_DataProvisionType_eq : EqDecision PduR_DataProvisionType.
Proof. solve_decision. Defined.

(** The memory [DataPtr] points at, of [BufSize] bytes. *)
Record PduRTxBuffer_type := { BufSize : Z; DataPtr : list Z }.

Inductive PduRTpBufferStatus_type :=
  | PDUR_BUFFER_FREE | PDUR_BUFFER_RX_READY | PDUR_BUFFER_RX_BUSY | PDUR_BUFFER_TX_READY | PDUR_BUFFER_TX_BUSY
  | PDUR_BUFFER_NOT_ALLOCATED_FROM_UP_MODULE | PDUR_BUFFER_ALLOCATED_FROM_UP_MODULE.
#[export] Instance PduRTpBufferStatus_type_eq : EqDecision PduRTpBufferStatus_type.
Proof. solve_decision. Defined.

Definition PDUR_MAX_GW_DESTINATIONS : nat := 8.
Record PduRTpBufferInfo_type := {
  pduInfoPtr : PduInfoType;
  status : PduRTpBufferStatus_type;
  bufferSize : Z;
  rxByteCount : Z;
  txByteCount : list Z;
  nAcc : Z
}.
Definition set_pduInfoPtr v r :=
  Build_PduRTpBufferInfo_type v r.(status) r.(bufferSize) r.(rxByteCount) r.(txByteCount) r.(nAcc).
Definition set_status v r :=
  Build_PduRTpBufferInfo_type r.(pduInfoPtr) v r.(bufferSize) r.(rxByteCount) r.(txByteCount) r.(nAcc).
Definition set_rxByteCount v r :=
  Build_PduRTpBufferInfo_type r.(pduInfoPtr) r.(status) r.(bufferSize) v r.(txByteCount) r.(nAcc).
Definition set_txByteCount v r :=
  Build_PduRTpBufferInfo_type r.(pduInfoPtr) r.(status) r.(bufferSize) r.(rxByteCount) v r.(nAcc).
Definition set_nAcc v r :=
  Build_PduRTpBufferInfo_type r.(pduInfoPtr) r.(status) r.(bufferSize) r.(rxByteCount) r.(txByteCount) v.

Record PduRDestPdu_type := {
  DataProvision : PduR_DataProvisionType;
  DestPduId : Z;
  TxBufferId : Z;
  DestModule : ARC_PduR_ModuleType;
  NofGroupRefs : Z;
  RoutingPathGroupRefs : list Z
}.

Record PduRRoutingPath_type := {
  PduRTpThreshld : Z;
  SrcPduId : Z;
  SrcModule : ARC_PduR_ModuleType;
  PduRDestPdus : list PduRDestPdu_type;
  PduRDestinatnNum : Z;
  PduRDirectGateway : bool
}.

Record PduR_RoutingPathGroupType := {
  Destinations : list PduRDestPdu_type; NofDestinations : Z; EnabledAtInit : bool
}.

Record PduR_PBConfigType := {
  RoutingPaths : list PduRRoutingPath_type;
  NRoutingPaths : Z;
  PduRConfigurationId : Z;
  DefaultValues : option (list (list Z));
  DefaultValueLengths : option (list Z);
  NofRoutingPathGroups : Z;
  RoutingPathGroups : list PduR_RoutingPathGroupType
}.

(** ** PduR_If.h *)
Inductive PduRRouteStatusType := PDUR_E_REJECTED | PDUR_E_DISABLED | PDUR_E_OK.
#[export] Instance PduRRouteStatusType_eq : EqDecision PduRRouteStatusType.
Proof. solve_decision. Defined.

(** ** The modules around the router

    The functions the router calls, by their names. *)
Inductive Transmit_fn :=
  | CanIf_Transmit | CanNm_Transmit | UdpNm_Transmit | LinIf_Transmit | CanTp_Transmit | SoAd_IfTransmit
  | SoAd_TpTransmit | DoIP_IfTransmit | DoIP_TpTransmit | J1939Tp_Transmit | IpduM_Transmit | FrIf_Transmit
  | FrNm_Transmit | FrTp_Transmit | SecOC_Transmit.
Inductive RxIndication_fn :=
  | Com_RxIndication | LdCom_RxIndication | IpduM_RxIndication | CddPduR_RxIndication | SecOC_RxIndication.
Inductive TpRxIndication_fn :=
  | Com_TpRxIndication | LdCom_TpRxIndication | Dcm_TpRxIndication | CddPduR_TpRxIndication.
Inductive TpTxConfirmation_fn :=
  | Com_TpTxConfirmation | LdCom_TpTxConfirmation | Dcm_TpTxConfirmation | CddPduR_TpTxConfirmation
  | CddPduR_TxConfirmation.
Inductive TxConfirmation_fn :=
  | Com_TxConfirmation | LdCom_TxConfirmation | IpduM_TxConfirmation | SecOC_TxConfirmation.
Inductive TriggerTransmit_fn := Com_TriggerTransmit | LdCom_TriggerTransmit | IpduM_TriggerTransmit.
Inductive CopyRxData_fn := Dcm_CopyRxData | LdCom_CopyRxData | Com_CopyRxData | CddPduR_CopyRxData.
Inductive CopyTxData_fn := Dcm_CopyTxData | LdCom_CopyTxData | Com_CopyTxData | CddPduR_CopyTxData.
Inductive StartOfReception_fn :=
  | Dcm_StartOfReception | LdCom_StartOfReception | Com_StartOfReception | CddPduR_StartOfReception.

(** What [PduR_Cfg.h] and the build determine: which modules are there. *)
Class PduR_Cfg := {
  PDUR_DEV_ERROR_DETECT : bool;
  PDUR_CANIF_SUPPORT : bool; PDUR_CANNM_SUPPORT : bool; PDUR_UDPNM_SUPPORT : bool; PDUR_LINIF_SUPPORT : bool;
  PDUR_CANTP_SUPPORT : bool; PDUR_SOAD_SUPPORT : bool; PDUR_DOIP_SUPPORT : bool; PDUR_J1939TP_SUPPORT : bool;
  PDUR_IPDUM_SUPPORT : bool; PDUR_FRIF_SUPPORT : bool; PDUR_FRNM_SUPPORT : bool; PDUR_FRTP_SUPPORT : bool;
  PDUR_SECOC_SUPPORT : bool; PDUR_COM_SUPPORT : bool; PDUR_DCM_SUPPORT : bool; PDUR_LDCOM_SUPPORT : bool;
  PDUR_CDDPDUR_SUPPORT : bool;
  USE_COM : bool;
  PDUR_NO_BUFFER : Z;
  (** The number of elements of [PdurRoutingGroupEnabled]. *)
  PDUR_MAX_NOF_ROUTING_PATH_GROUPS : Z;
  (** A variable before it is assigned. *)
  uninitialised : Z
}.

(** Effect and answer of every call.  A call that may write through [bufferSizePtr] gives what it writes, if it does;
    one that fills a block gives the block.  The modules do not call the router back during a call. *)
Class PduR_Env (W : Type) := {
  transmit : Transmit_fn -> Z -> PduInfoType -> W -> Z * W;
  rx_indication : RxIndication_fn -> Z -> PduInfoType -> W -> W;
  tp_rx_indication : TpRxIndication_fn -> Z -> Z -> W -> W;
  tp_tx_confirmation : TpTxConfirmation_fn -> Z -> Z -> W -> W;
  tx_confirmation : TxConfirmation_fn -> Z -> W -> W;
  trigger_transmit : TriggerTransmit_fn -> Z -> PduInfoType -> W -> Z * PduInfoType * W;
  copy_rx_data : CopyRxData_fn -> Z -> PduInfoType -> W -> BufReq_ReturnType * option Z * W;
  copy_tx_data : CopyTxData_fn -> Z -> PduInfoType -> option RetryInfoType -> W -> BufReq_ReturnType * list Z * option Z * W;
  start_of_reception : StartOfReception_fn -> Z -> Z -> W -> BufReq_ReturnType * option Z * W;
  Det_ReportError : Z -> Z -> W -> W
}.

(** ** The static data

    [PduR_RamBufCfg] with the buffers it points to, [PduRState], [PduRConfig] and [PdurRoutingGroupEnabled]. *)
Record PduR_State (W : Type) := {
  PduRState : PduR_StateType;
  PduRConfig : option PduR_PBConfigType;
  TpBuffers : list PduRTpBufferInfo_type;
  TpRouteBuffers : list (option Z);
  TxBuffers : list PduRTxBuffer_type;
  NTpBuffers : Z;
  NTpRouteBuffers : Z;
  NTxBuffers : Z;
  PdurRoutingGroupEnabled : list bool;
  os : Irq;
  world : W
}.
Arguments PduRState {W} _.
Arguments PduRConfig {W} _.
Arguments TpBuffers {W} _.
Arguments TpRouteBuffers {W} _.
Arguments TxBuffers {W} _.
Arguments NTpBuffers {W} _.
Arguments NTpRouteBuffers {W} _.
Arguments NTxBuffers {W} _.
Arguments PdurRoutingGroupEnabled {W} _.
Arguments os {W} _.
Arguments world {W} _.
Arguments Build_PduR_State {W} _ _ _ _ _ _ _ _ _ _ _.

Definition set_PduRState {W : Type} v (r : PduR_State W) :=
  Build_PduR_State v r.(PduRConfig) r.(TpBuffers) r.(TpRouteBuffers) r.(TxBuffers) r.(NTpBuffers)
    r.(NTpRouteBuffers) r.(NTxBuffers) r.(PdurRoutingGroupEnabled) r.(os) r.(world).
Definition set_PduRConfig {W : Type} v (r : PduR_State W) :=
  Build_PduR_State r.(PduRState) v r.(TpBuffers) r.(TpRouteBuffers) r.(TxBuffers) r.(NTpBuffers) r.(NTpRouteBuffers)
    r.(NTxBuffers) r.(PdurRoutingGroupEnabled) r.(os) r.(world).
Definition set_TpBuffers {W : Type} v (r : PduR_State W) :=
  Build_PduR_State r.(PduRState) r.(PduRConfig) v r.(TpRouteBuffers) r.(TxBuffers) r.(NTpBuffers)
    r.(NTpRouteBuffers) r.(NTxBuffers) r.(PdurRoutingGroupEnabled) r.(os) r.(world).
Definition set_TpRouteBuffers {W : Type} v (r : PduR_State W) :=
  Build_PduR_State r.(PduRState) r.(PduRConfig) r.(TpBuffers) v r.(TxBuffers) r.(NTpBuffers) r.(NTpRouteBuffers)
    r.(NTxBuffers) r.(PdurRoutingGroupEnabled) r.(os) r.(world).
Definition set_TxBuffers {W : Type} v (r : PduR_State W) :=
  Build_PduR_State r.(PduRState) r.(PduRConfig) r.(TpBuffers) r.(TpRouteBuffers) v r.(NTpBuffers)
    r.(NTpRouteBuffers) r.(NTxBuffers) r.(PdurRoutingGroupEnabled) r.(os) r.(world).
Definition set_PdurRoutingGroupEnabled {W : Type} v (r : PduR_State W) :=
  Build_PduR_State r.(PduRState) r.(PduRConfig) r.(TpBuffers) r.(TpRouteBuffers) r.(TxBuffers) r.(NTpBuffers)
    r.(NTpRouteBuffers) r.(NTxBuffers) v r.(os) r.(world).
Definition set_os {W : Type} v (r : PduR_State W) :=
  Build_PduR_State r.(PduRState) r.(PduRConfig) r.(TpBuffers) r.(TpRouteBuffers) r.(TxBuffers) r.(NTpBuffers)
    r.(NTpRouteBuffers) r.(NTxBuffers) r.(PdurRoutingGroupEnabled) v r.(world).
Definition set_world {W : Type} (v : W) (r : PduR_State W) :=
  Build_PduR_State r.(PduRState) r.(PduRConfig) r.(TpBuffers) r.(TpRouteBuffers) r.(TxBuffers) r.(NTpBuffers)
    r.(NTpRouteBuffers) r.(NTxBuffers) r.(PdurRoutingGroupEnabled) r.(os) v.
