(* ===== verification/PduR.v ===== *)
(** * The PDU router

    [communication/PduR/src/PduR.c], [PduR_Logic.c], [PduR_Routing.c] and the interfaces of the modules
    ([PduR_Com.c], [PduR_CanIf.c], [PduR_CanTp.c], ...), built with [PDUR_ZERO_COST_OPERATION] off: routing of PDUs
    between upper modules and bus interfaces, routing groups, gateways between bus interfaces, and gateways between
    transport protocols, which copy a message into a buffer and fetch it from there, after the whole message has arrived
    (direct gateway) or on the fly.

    The static data are the record [PduR_State]; [SchM_Enter_PduR_EA_0] and [SchM_Exit_PduR_EA_0] suspend and resume
    the interrupts ([Os_Irq]).  Loop counters of 8 bits do not
    wrap: the arrays are shorter ([valid] in [PduR_Inv]). *)

From S2P Require Import Prelude.
From S2P Require Import StateMonad.
From S2P Require Import Os_Irq.
From S2P Require Import ComStack.
From S2P Require Import PduR_Types.

#[local] Open Scope monad_scope.

Section PduR.
Context {W : Type} {Cfg : PduR_Cfg} {Env : PduR_Env W}.
Abbreviation T := (M (PduR_State W)).

(** ** Accesses *)
Definition cfg : T PduR_PBConfigType := let* c := get PduRConfig in deref c.
(** [PduRConfig->RoutingPaths[id]] *)
Definition routing_path (id : Z) : T PduRRoutingPath_type := let* c := cfg in deref (aref c.(RoutingPaths) id).

Definition PduRTpBuffer (id : Z) : T PduRTpBufferInfo_type := let* l := get TpBuffers in deref (aref l id).
Definition upd_TpBuffer (id : Z) (f : PduRTpBufferInfo_type -> PduRTpBufferInfo_type) : T unit :=
  let* b := PduRTpBuffer id in
  modify (fun s => set_TpBuffers (<[Z.to_nat id := f b]> s.(TpBuffers)) s).

(** The pointer [PduRTpRouteBuffer(id)], what it points to, assignments through it and to it. *)
Definition PduRTpRouteBuffer (id : Z) : T (option Z) := let* l := get TpRouteBuffers in deref (aref l id).
Definition RouteBuffer (id : Z) : T PduRTpBufferInfo_type :=
  let* p := PduRTpRouteBuffer id in let* b := deref p in PduRTpBuffer b.
Definition upd_RouteBuffer (id : Z) (f : PduRTpBufferInfo_type -> PduRTpBufferInfo_type) : T unit :=
  let* p := PduRTpRouteBuffer id in let* b := deref p in upd_TpBuffer b f.
Definition put_TpRouteBuffer (id : Z) (p : option Z) : T unit :=
  let* _ := PduRTpRouteBuffer id in
  modify (fun s => set_TpRouteBuffers (<[Z.to_nat id := p]> s.(TpRouteBuffers)) s).

Definition TxBuffer (id : Z) : T PduRTxBuffer_type := let* l := get TxBuffers in deref (aref l id).
(** [memcpy(PduR_RamBufCfg.TxBuffers[id].DataPtr, data, n)] *)
Definition write_TxBuffer (id : Z) (data : list Z) : T unit :=
  let* b := TxBuffer id in
  let* d := deref (write_bytes b.(DataPtr) 0 data) in
  modify (fun s => set_TxBuffers (<[Z.to_nat id := {| BufSize := b.(BufSize); DataPtr := d |}]> s.(TxBuffers)) s).

Definition SchM_Enter_PduR_EA_0 : T unit := modify (fun s => set_os (SuspendOSInterrupts s.(os)) s).
Definition SchM_Exit_PduR_EA_0 : T unit := modify (fun s => set_os (ResumeOSInterrupts s.(os)) s).

Definition call {A} (f : W -> A * W) : T A :=
  fun s => let '(a, w) := f s.(world) in Some (a, set_world w s).
Definition notify (f : W -> W) : T unit := call (fun w => (tt, f w)).

Definition PDUR_DET_REPORTERROR (api err : Z) : T unit :=
  if PDUR_DEV_ERROR_DETECT then notify (Det_ReportError api err) else ret tt.
Definition REPORT_BUFFER_ERROR (api : Z) : T unit := PDUR_DET_REPORTERROR api PDUR_E_BUFFER_ERROR.

(** The checks that open the services; [err] is what the service returns when they fail. *)
Definition PDUR_VALIDATE_INITIALIZED {A} (api : Z) (err : A) (body : T A) : T A :=
  let* s := get PduRState in
  if bool_decide (s = PDUR_UNINIT) || bool_decide (s = PDUR_REDUCED) then
    let* _ := PDUR_DET_REPORTERROR api PDUR_E_INVALID_REQUEST in ret err
  else body.
Definition PDUR_VALIDATE_PDUPTR {A B} (api : Z) (p : option B) (err : A) (body : B -> T A) : T A :=
  match p with
  | None => let* _ := PDUR_DET_REPORTERROR api PDUR_E_NULL_POINTER in ret err
  | Some info => body info
  end.
Definition PDUR_VALIDATE_PDUID {A} (api id : Z) (err : A) (body : T A) : T A :=
  let* c := cfg in
  if id >=? c.(NRoutingPaths) then
    let* _ := PDUR_DET_REPORTERROR api PDUR_E_PDU_ID_INVALID in ret err
  else body.

(** ** Routing groups *)
Definition group_enabled (g : Z) : T bool := let* l := get PdurRoutingGroupEnabled in deref (aref l g).
Fixpoint groups_enabled (refs : list Z) (i : Z) (n : nat) : T bool :=
  match n with
  | O => ret true
  | S n =>
      let* g := deref (aref refs i) in
      let* enabled := group_enabled g in
      if enabled then groups_enabled refs (i + 1) n else ret false
  end.
Definition PduRRoutingPathEnabled (destination : PduRDestPdu_type) : T bool :=
  if PDUR_MAX_NOF_ROUTING_PATH_GROUPS >? 0 then
    groups_enabled destination.(RoutingPathGroupRefs) 0 (Z.to_nat destination.(NofGroupRefs))
  else ret true.
Definition PdurSetRoutingPathEnabled (id : Z) (enabled : bool) : T unit :=
  let* _ := group_enabled id in
  modify (fun s => set_PdurRoutingGroupEnabled (<[Z.to_nat id := enabled]> s.(PdurRoutingGroupEnabled)) s).

(** ** PduR_Routing.c *)
Definition supported {A} (b : bool) (f : A) : option A := if b then Some f else None.

Definition transmit_of (m : ARC_PduR_ModuleType) : option Transmit_fn :=
  match m with
  | ARC_PDUR_CANIF => supported PDUR_CANIF_SUPPORT CanIf_Transmit
  | ARC_PDUR_CANNM => supported PDUR_CANNM_SUPPORT CanNm_Transmit
  | ARC_PDUR_UDPNM => supported PDUR_UDPNM_SUPPORT UdpNm_Transmit
  | ARC_PDUR_LINIF => supported PDUR_LINIF_SUPPORT LinIf_Transmit
  | ARC_PDUR_CANTP => supported PDUR_CANTP_SUPPORT CanTp_Transmit
  | ARC_PDUR_SOADIF => supported PDUR_SOAD_SUPPORT SoAd_IfTransmit
  | ARC_PDUR_SOADTP => supported PDUR_SOAD_SUPPORT SoAd_TpTransmit
  | ARC_PDUR_DOIPIF => supported PDUR_DOIP_SUPPORT DoIP_IfTransmit
  | ARC_PDUR_DOIPTP => supported PDUR_DOIP_SUPPORT DoIP_TpTransmit
  | ARC_PDUR_J1939TP => supported PDUR_J1939TP_SUPPORT J1939Tp_Transmit
  | ARC_PDUR_IPDUM => supported PDUR_IPDUM_SUPPORT IpduM_Transmit
  | ARC_PDUR_FRIF => supported PDUR_FRIF_SUPPORT FrIf_Transmit
  | ARC_PDUR_FRNM => supported PDUR_FRNM_SUPPORT FrNm_Transmit
  | ARC_PDUR_FRTP => supported PDUR_FRTP_SUPPORT FrTp_Transmit
  | ARC_PDUR_SECOC => supported PDUR_SECOC_SUPPORT SecOC_Transmit
  | _ => None
  end.
Definition PduR_ARC_RouteTransmit (destination : PduRDestPdu_type) (pduInfo : PduInfoType) : T PduRRouteStatusType :=
  let* enabled := PduRRoutingPathEnabled destination in
  if enabled || bool_decide (destination.(DestModule) = ARC_PDUR_COM) then
    let* retVal := match transmit_of destination.(DestModule) with
                   | Some f => call (transmit f destination.(DestPduId) pduInfo)
                   | None => ret E_NOT_OK
                   end in
    ret (if retVal =? E_OK then PDUR_E_OK else PDUR_E_REJECTED)
  else ret PDUR_E_DISABLED.

(** Dcm is given the first byte of the data as the result. *)
Definition PduR_ARC_RouteRxIndication (destination : PduRDestPdu_type) (PduInfo : PduInfoType) : T unit :=
  let id := destination.(DestPduId) in
  let indicate (support : bool) f := if support then notify (rx_indication f id PduInfo) else ret tt in
  match destination.(DestModule) with
  | ARC_PDUR_COM => indicate PDUR_COM_SUPPORT Com_RxIndication
  | ARC_PDUR_DCM =>
      if PDUR_DCM_SUPPORT then
        let* result := deref (load PduInfo.(SduDataPtr) 0) in
        notify (tp_rx_indication Dcm_TpRxIndication id result)
      else ret tt
  | ARC_PDUR_LDCOM => indicate PDUR_LDCOM_SUPPORT LdCom_RxIndication
  | ARC_PDUR_IPDUM => indicate PDUR_IPDUM_SUPPORT IpduM_RxIndication
  | ARC_PDUR_CDDPDUR => indicate PDUR_CDDPDUR_SUPPORT CddPduR_RxIndication
  | ARC_PDUR_SECOC => indicate PDUR_SECOC_SUPPORT SecOC_RxIndication
  | _ => ret tt
  end.

Definition PduR_ARC_RouteTpRxIndication (destination : PduRDestPdu_type) (result : Z) : T unit :=
  let indicate (support : bool) f :=
    if support then notify (tp_rx_indication f destination.(DestPduId) result) else ret tt in
  match destination.(DestModule) with
  | ARC_PDUR_COM => indicate PDUR_COM_SUPPORT Com_TpRxIndication
  | ARC_PDUR_LDCOM => indicate PDUR_LDCOM_SUPPORT LdCom_TpRxIndication
  | ARC_PDUR_DCM => indicate PDUR_DCM_SUPPORT Dcm_TpRxIndication
  | ARC_PDUR_CDDPDUR => indicate PDUR_CDDPDUR_SUPPORT CddPduR_TpRxIndication
  | _ => ret tt
  end.

Definition PduR_ARC_RouteTpTxConfirmation (route : PduRRoutingPath_type) (result : Z) : T unit :=
  let confirm (support : bool) f :=
    if support then notify (tp_tx_confirmation f route.(SrcPduId) result) else ret tt in
  match route.(SrcModule) with
  | ARC_PDUR_COM => confirm PDUR_COM_SUPPORT Com_TpTxConfirmation
  | ARC_PDUR_LDCOM => confirm PDUR_LDCOM_SUPPORT LdCom_TpTxConfirmation
  | ARC_PDUR_DCM => confirm PDUR_DCM_SUPPORT Dcm_TpTxConfirmation
  | ARC_PDUR_CDDPDUR => confirm PDUR_CDDPDUR_SUPPORT CddPduR_TpTxConfirmation
  | _ => ret tt
  end.

Definition PduR_ARC_RouteTxConfirmation (route : PduRRoutingPath_type) (result : Z) : T unit :=
  let confirm (support : bool) f := if support then notify (tx_confirmation f route.(SrcPduId)) else ret tt in
  let confirm_tp (support : bool) f :=
    if support then notify (tp_tx_confirmation f route.(SrcPduId) result) else ret tt in
  match route.(SrcModule) with
  | ARC_PDUR_COM => confirm PDUR_COM_SUPPORT Com_TxConfirmation
  | ARC_PDUR_LDCOM => confirm PDUR_LDCOM_SUPPORT LdCom_TxConfirmation
  | ARC_PDUR_DCM => confirm_tp PDUR_DCM_SUPPORT Dcm_TpTxConfirmation
  | ARC_PDUR_IPDUM => confirm PDUR_IPDUM_SUPPORT IpduM_TxConfirmation
  | ARC_PDUR_CDDPDUR => confirm_tp PDUR_CDDPDUR_SUPPORT CddPduR_TxConfirmation
  | ARC_PDUR_SECOC => confirm PDUR_SECOC_SUPPORT SecOC_TxConfirmation
  | _ => ret tt
  end.

(** The module may change the data and the length. *)
Definition PduR_ARC_RouteTriggerTransmit (route : PduRRoutingPath_type) (pduInfo : PduInfoType) : T (Z * PduInfoType) :=
  let trigger (support : bool) f :=
    if support then call (trigger_transmit f route.(SrcPduId) pduInfo) else ret (E_NOT_OK, pduInfo) in
  match route.(SrcModule) with
  | ARC_PDUR_COM => trigger PDUR_COM_SUPPORT Com_TriggerTransmit
  | ARC_PDUR_LDCOM => trigger PDUR_LDCOM_SUPPORT LdCom_TriggerTransmit
  | ARC_PDUR_IPDUM => trigger PDUR_IPDUM_SUPPORT IpduM_TriggerTransmit
  | _ => ret (E_NOT_OK, pduInfo)
  end.

(** [bufferSize] is what the caller's variable holds; it is returned with the answer. *)
Definition PduR_ARC_RouteCopyRxData (destination : PduRDestPdu_type) (info : PduInfoType) (bufferSize : Z)
    : T (BufReq_ReturnType * Z) :=
  let copy (support : bool) f :=
    if support then
      let* (r, size) := call (copy_rx_data f destination.(DestPduId) info) in
      ret (r, default bufferSize size)
    else ret (BUFREQ_NOT_OK, bufferSize) in
  match destination.(DestModule) with
  | ARC_PDUR_DCM => copy PDUR_DCM_SUPPORT Dcm_CopyRxData
  | ARC_PDUR_LDCOM => copy PDUR_LDCOM_SUPPORT LdCom_CopyRxData
  | ARC_PDUR_COM => copy USE_COM Com_CopyRxData
  | ARC_PDUR_CDDPDUR => copy PDUR_CDDPDUR_SUPPORT CddPduR_CopyRxData
  | _ => ret (BUFREQ_NOT_OK, bufferSize)
  end.

(** [available] is [*availableDataPtr], [None] for a null pointer; the data of [info] are returned too. *)
Definition PduR_ARC_RouteCopyTxData (route : PduRRoutingPath_type) (info : PduInfoType) (retry : option RetryInfoType)
    (available : option Z) : T (BufReq_ReturnType * list Z * option Z) :=
  let copy (support : bool) f :=
    if support then
      let* (r, data, size) := call (copy_tx_data f route.(SrcPduId) info retry) in
      ret (r, data, (fun old => default old size) <$> available)
    else ret (BUFREQ_NOT_OK, info.(SduDataPtr), available) in
  match route.(SrcModule) with
  | ARC_PDUR_DCM => copy PDUR_DCM_SUPPORT Dcm_CopyTxData
  | ARC_PDUR_LDCOM => copy PDUR_LDCOM_SUPPORT LdCom_CopyTxData
  | ARC_PDUR_COM => copy USE_COM Com_CopyTxData
  | ARC_PDUR_CDDPDUR => copy PDUR_CDDPDUR_SUPPORT CddPduR_CopyTxData
  | _ => ret (BUFREQ_NOT_OK, info.(SduDataPtr), available)
  end.

Definition PduR_ARC_RouteStartOfReception (destination : PduRDestPdu_type) (TpSduLength bufferSize : Z)
    : T (BufReq_ReturnType * Z) :=
  let start (support : bool) f :=
    if support then
      let* (r, size) := call (start_of_reception f destination.(DestPduId) TpSduLength) in
      ret (r, default bufferSize size)
    else ret (BUFREQ_NOT_OK, bufferSize) in
  match destination.(DestModule) with
  | ARC_PDUR_DCM => start PDUR_DCM_SUPPORT Dcm_StartOfReception
  | ARC_PDUR_LDCOM => start PDUR_LDCOM_SUPPORT LdCom_StartOfReception
  | ARC_PDUR_COM => start USE_COM Com_StartOfReception
  | ARC_PDUR_CDDPDUR => start PDUR_CDDPDUR_SUPPORT CddPduR_StartOfReception
  | _ => ret (BUFREQ_NOT_OK, bufferSize)
  end.

(** ** Buffers of transport protocol gateways *)
Definition HAS_BUFFER_STATUS (pduId : Z) (st : PduRTpBufferStatus_type) : T bool :=
  let* n := get NTpRouteBuffers in
  if pduId <? n then
    let* p := PduRTpRouteBuffer pduId in
    match p with
    | None => ret false
    | Some i => let* b := PduRTpBuffer i in ret (bool_decide (b.(status) = st))
    end
  else ret false.

(** The loop of [PduR_ARC_AllocateBuffer]. *)
Fixpoint allocate (PduId TpSduLength : Z) (i : Z) (n : nat) (retVal : BufReq_ReturnType) : T BufReq_ReturnType :=
  match n with
  | O => ret retVal
  | S n =>
      let* b := PduRTpBuffer i in
      if bool_decide (b.(status) = PDUR_BUFFER_FREE) then
        if b.(bufferSize) <? TpSduLength then allocate PduId TpSduLength (i + 1) n BUFREQ_OVFL
        else
          let* _ := put_TpRouteBuffer PduId (Some i) in
          let* _ := upd_TpBuffer i (fun b => set_pduInfoPtr
                      {| SduDataPtr := b.(pduInfoPtr).(SduDataPtr); SduLength := TpSduLength |} b) in
          let* _ := upd_RouteBuffer PduId (set_status PDUR_BUFFER_RX_READY) in
          let* _ := upd_RouteBuffer PduId (set_txByteCount (replicate PDUR_MAX_GW_DESTINATIONS 0)) in
          let* _ := upd_RouteBuffer PduId (set_rxByteCount 0) in
          ret BUFREQ_OK
      else allocate PduId TpSduLength (i + 1) n retVal
  end.
Definition PduR_ARC_AllocateBuffer (PduId TpSduLength : Z) : T BufReq_ReturnType :=
  let* _ := SchM_Enter_PduR_EA_0 in
  let* n := get NTpBuffers in
  let* retVal := allocate PduId TpSduLength 0 (Z.to_nat n) BUFREQ_BUSY in
  let* _ := SchM_Exit_PduR_EA_0 in
  ret retVal.

Definition PduR_ARC_CheckBufferStatus (PduId length : Z) : T BufReq_ReturnType :=
  let* p := PduRTpRouteBuffer PduId in
  match p with
  | None => ret BUFREQ_NOT_OK
  | Some i =>
      let* b := PduRTpBuffer i in
      if length >? b.(pduInfoPtr).(SduLength) - b.(rxByteCount) then ret BUFREQ_NOT_OK
      else if bool_decide (b.(status) = PDUR_BUFFER_RX_READY) then
        let* _ := upd_RouteBuffer PduId (set_status PDUR_BUFFER_RX_BUSY) in
        let* _ := upd_RouteBuffer PduId (set_nAcc 0) in
        ret BUFREQ_OK
      else if bool_decide (b.(status) = PDUR_BUFFER_TX_BUSY) || bool_decide (b.(status) = PDUR_BUFFER_RX_BUSY)
      then ret BUFREQ_OK
      else ret BUFREQ_BUSY
  end.

Definition PduR_ARC_ReleaseRxBuffer (PduId : Z) : T BufReq_ReturnType :=
  let* n := get NTpRouteBuffers in
  if PduId >=? n then ret BUFREQ_NOT_OK
  else
    let* p := PduRTpRouteBuffer PduId in
    match p with
    | None => ret BUFREQ_OK
    | Some i =>
        let* b := PduRTpBuffer i in
        if bool_decide (b.(status) = PDUR_BUFFER_ALLOCATED_FROM_UP_MODULE) then
          let* _ := upd_RouteBuffer PduId (set_status PDUR_BUFFER_NOT_ALLOCATED_FROM_UP_MODULE) in ret BUFREQ_BUSY
        else if bool_decide (b.(status) = PDUR_BUFFER_RX_BUSY) then
          let* _ := upd_RouteBuffer PduId (set_status PDUR_BUFFER_TX_READY) in ret BUFREQ_BUSY
        else ret BUFREQ_OK
    end.

(** [PduRTpRouteBuffer(id)->status = FREE; ->nAcc = 0; PduRTpRouteBuffer(id) = NULL;] *)
Definition free_RouteBuffer (PduId : Z) : T unit :=
  let* _ := upd_RouteBuffer PduId (set_status PDUR_BUFFER_FREE) in
  let* _ := upd_RouteBuffer PduId (set_nAcc 0) in
  put_TpRouteBuffer PduId None.

Definition PduR_ARC_ReleaseTxBuffer (PduId : Z) : T BufReq_ReturnType :=
  let* p := PduRTpRouteBuffer PduId in
  match p with
  | None => ret BUFREQ_NOT_OK
  | Some i =>
      let* b := PduRTpBuffer i in
      if bool_decide (b.(status) = PDUR_BUFFER_TX_BUSY) then
        let* _ := free_RouteBuffer PduId in ret BUFREQ_OK
      else ret BUFREQ_NOT_OK
  end.

(** ** Transmission *)
Fixpoint route_transmits (destinations : list PduRDestPdu_type) (PduInfo : PduInfoType)
    (totalStatus : PduRRouteStatusType) : T PduRRouteStatusType :=
  match destinations with
  | [] => ret totalStatus
  | destination :: destinations =>
      let* st := PduR_ARC_RouteTransmit destination PduInfo in
      route_transmits destinations PduInfo
        (if bool_decide (totalStatus = PDUR_E_REJECTED) || bool_decide (st = PDUR_E_REJECTED) then PDUR_E_REJECTED
         else if bool_decide (st = PDUR_E_OK) then PDUR_E_OK else totalStatus)
  end.
Definition PduR_ARC_Transmit (PduId : Z) (PduInfo : option PduInfoType) (serviceId : Z) : T Z :=
  PDUR_VALIDATE_INITIALIZED serviceId E_NOT_OK (
  PDUR_VALIDATE_PDUPTR serviceId PduInfo E_NOT_OK (fun PduInfo =>
  PDUR_VALIDATE_PDUID serviceId PduId E_NOT_OK (
  let* route := routing_path PduId in
  let* totalStatus := route_transmits route.(PduRDestPdus) PduInfo PDUR_E_DISABLED in
  ret (if bool_decide (totalStatus = PDUR_E_REJECTED) || bool_decide (totalStatus = PDUR_E_DISABLED)
       then E_NOT_OK else E_OK)))).

(** ** Reception from bus interfaces *)
Definition PduR_ARC_RxIndicationTT (destination : PduRDestPdu_type) (PduInfo : PduInfoType) : T unit :=
  let* enabled := PduRRoutingPathEnabled destination in
  let* _ := if enabled then
              let* data := deref (read_bytes PduInfo.(SduDataPtr) 0 PduInfo.(SduLength)) in
              write_TxBuffer destination.(TxBufferId) data
            else ret tt in
  let* st := PduR_ARC_RouteTransmit destination PduInfo in
  if bool_decide (st = PDUR_E_OK) then ret tt
  else PDUR_DET_REPORTERROR PDUR_SERVICEID_CANIFRXINDICATION PDUR_E_PDU_INSTANCES_LOST.

Definition PduR_ARC_RxIndicationDirect (destination : PduRDestPdu_type) (PduInfo : PduInfoType) : T unit :=
  let* st := PduR_ARC_RouteTransmit destination PduInfo in
  if bool_decide (st = PDUR_E_OK) then ret tt
  else PDUR_DET_REPORTERROR PDUR_SERVICEID_CANIFRXINDICATION PDUR_E_PDU_INSTANCES_LOST.

Definition PduR_ARC_HasTpModuleDest (destPdus : list PduRDestPdu_type) : bool :=
  existsb (fun d => PduR_IsTpModule d.(DestModule)) destPdus.
Definition PduR_ARC_FindUPDest (destPdus : list PduRDestPdu_type) : option PduRDestPdu_type :=
  List.find (fun d => PduR_IsUpModule d.(DestModule)) destPdus.

Definition PduR_ARC_RxIndicationWithUpBuffer (PduId : Z) (PduInfo : PduInfoType) (serviceId : Z) : T unit :=
  let* route := routing_path PduId in
  let* p := PduRTpRouteBuffer PduId in
  match p with
  | None => REPORT_BUFFER_ERROR serviceId
  | Some up =>
      let* retVal := PduR_ARC_ReleaseRxBuffer PduId in
      if negb (bool_decide (retVal = BUFREQ_BUSY)) then REPORT_BUFFER_ERROR serviceId
      else
        let* upBuffer := PduRTpBuffer up in
        let* retVal := PduR_ARC_AllocateBuffer PduId upBuffer.(pduInfoPtr).(SduLength) in
        if negb (bool_decide (retVal = BUFREQ_OK)) then REPORT_BUFFER_ERROR serviceId
        else
          let* _ := upd_RouteBuffer PduId (set_status PDUR_BUFFER_RX_BUSY) in
          let* upBuffer := PduRTpBuffer up in
          let* b := RouteBuffer PduId in
          let* data := deref (read_bytes upBuffer.(pduInfoPtr).(SduDataPtr) 0 b.(pduInfoPtr).(SduLength)) in
          let* d := deref (write_bytes b.(pduInfoPtr).(SduDataPtr) 0 data) in
          let* _ := upd_RouteBuffer PduId (fun b => set_pduInfoPtr
                      {| SduDataPtr := d; SduLength := b.(pduInfoPtr).(SduLength) |} b) in
          let* destination := deref (PduR_ARC_FindUPDest route.(PduRDestPdus)) in
          let* _ := PduR_ARC_RouteRxIndication destination PduInfo in
          for_each 0 route.(PduRDestPdus) (fun _ d =>
            let* b := RouteBuffer PduId in
            let* _ := PduR_ARC_RouteTransmit d b.(pduInfoPtr) in ret tt)
  end.

Definition rx_indication_to (destination : PduRDestPdu_type) (PduInfo : PduInfoType) : T unit :=
  if PduR_IsUpModule destination.(DestModule) then PduR_ARC_RouteRxIndication destination PduInfo
  else if PduR_IsLoModule destination.(DestModule) then
    match destination.(DataProvision) with
    | PDUR_TRIGGER_TRANSMIT => PduR_ARC_RxIndicationTT destination PduInfo
    | PDUR_DIRECT => PduR_ARC_RxIndicationDirect destination PduInfo
    | PDUR_NO_PROVISION => ret tt
    end
  else ret tt.
Definition PduR_ARC_RxIndication (PduId : Z) (PduInfo : option PduInfoType) (serviceId : Z) : T unit :=
  PDUR_VALIDATE_INITIALIZED serviceId tt (
  PDUR_VALIDATE_PDUPTR serviceId PduInfo tt (fun PduInfo =>
  PDUR_VALIDATE_PDUID serviceId PduId tt (
  let* route := routing_path PduId in
  let* up := HAS_BUFFER_STATUS PduId PDUR_BUFFER_ALLOCATED_FROM_UP_MODULE in
  let* _ := if up then PduR_ARC_RxIndicationWithUpBuffer PduId PduInfo serviceId
            else for_each 0 route.(PduRDestPdus) (fun _ destination => rx_indication_to destination PduInfo) in
  let* _ := PduR_ARC_ReleaseRxBuffer PduId in
  ret tt))).

Definition PduR_ARC_TxConfirmation (PduId result serviceId : Z) : T unit :=
  PDUR_VALIDATE_INITIALIZED serviceId tt (
  PDUR_VALIDATE_PDUID serviceId PduId tt (
  let* route := routing_path PduId in
  if PduR_IsUpModule route.(SrcModule) then PduR_ARC_RouteTxConfirmation route result
  else
    let* busy := if PduR_IsLoModule route.(SrcModule) then HAS_BUFFER_STATUS PduId PDUR_BUFFER_TX_BUSY else ret false in
    if busy then
      let* st := PduR_ARC_ReleaseTxBuffer PduId in
      if bool_decide (st = BUFREQ_OK) then ret tt else REPORT_BUFFER_ERROR serviceId
    else ret tt)).

Definition PduR_ARC_TriggerTransmit (PduId : Z) (PduInfo : option PduInfoType) (serviceId : Z)
    : T (Z * option PduInfoType) :=
  PDUR_VALIDATE_INITIALIZED serviceId (E_NOT_OK, PduInfo) (
  PDUR_VALIDATE_PDUPTR serviceId PduInfo (E_NOT_OK, PduInfo) (fun info =>
  PDUR_VALIDATE_PDUID serviceId PduId (E_NOT_OK, PduInfo) (
  let* _ := SchM_Enter_PduR_EA_0 in
  let* route := routing_path PduId in
  let destination := head route.(PduRDestPdus) in
  let* r :=
    if PduR_IsUpModule route.(SrcModule) then PduR_ARC_RouteTriggerTransmit route info
    else if PduR_IsLoModule route.(SrcModule) then
      let* destination := deref destination in
      if bool_decide (destination.(DataProvision) = PDUR_TRIGGER_TRANSMIT) then
        let* enabled := PduRRoutingPathEnabled destination in
        if enabled then
          let* b := TxBuffer destination.(TxBufferId) in
          let* data := deref (read_bytes b.(DataPtr) 0 info.(SduLength)) in
          let* d := deref (write_bytes info.(SduDataPtr) 0 data) in
          ret (E_OK, {| SduDataPtr := d; SduLength := info.(SduLength) |})
        else ret (E_NOT_OK, info)
      else ret (E_NOT_OK, info)
    else ret (E_NOT_OK, info) in
  let* _ := SchM_Exit_PduR_EA_0 in
  ret (r.1, Some r.2)))).

(** ** Transport protocols *)
Definition PduR_ARC_TpRxIndication (PduId Result serviceId : Z) : T unit :=
  PDUR_VALIDATE_INITIALIZED serviceId tt (
  PDUR_VALIDATE_PDUID serviceId PduId tt (
  if negb (Result =? NTFRSLT_OK) then
    let* _ := PduR_ARC_ReleaseRxBuffer PduId in
    let* route := routing_path PduId in
    for_each 0 route.(PduRDestPdus) (fun _ destination =>
      if PduR_IsUpModule destination.(DestModule) then PduR_ARC_RouteTpRxIndication destination Result
      else
        let* p := PduRTpRouteBuffer PduId in
        match p with
        | None => REPORT_BUFFER_ERROR serviceId
        | Some _ => free_RouteBuffer PduId
        end)
  else
    let* route := routing_path PduId in
    for_each 0 route.(PduRDestPdus) (fun _ destination =>
      if PduR_IsLoModule destination.(DestModule) then
        if route.(PduRDirectGateway) then
          let* b := RouteBuffer PduId in
          let* st := PduR_ARC_RouteTransmit destination b.(pduInfoPtr) in
          if bool_decide (st = PDUR_E_OK) then upd_RouteBuffer PduId (set_status PDUR_BUFFER_TX_BUSY) else ret tt
        else ret tt
      else PduR_ARC_RouteTpRxIndication destination Result))).

(** The identifier of the path and the number of the destination in an identifier of a transmission. *)
Definition sourcePduId (pduId : Z) : Z :=
  if pduId >=? PDU_MAX_ROUTING_PATH then Z.land pduId PDUR_PDU_ID_MASK else pduId.
Definition destionId (pduId : Z) : Z :=
  if pduId >=? PDU_MAX_ROUTING_PATH then u8 (Z.shiftr pduId 13) else 0.

Definition lower_destinations (route : PduRRoutingPath_type) : Z :=
  u8 (Z.of_nat (length (List.filter (fun d => negb (PduR_IsUpModule d.(DestModule))) route.(PduRDestPdus)))).

Definition PduR_ARC_TpTxConfirmation (PduId result serviceId : Z) : T unit :=
  PDUR_VALIDATE_INITIALIZED serviceId tt (
  let src := sourcePduId PduId in
  PDUR_VALIDATE_PDUID serviceId src tt (
  let* route := routing_path src in
  if PduR_IsUpModule route.(SrcModule) then PduR_ARC_RouteTpTxConfirmation route result
  else
    let* busy := if PduR_IsLoModule route.(SrcModule) then HAS_BUFFER_STATUS src PDUR_BUFFER_TX_BUSY else ret false in
    if busy then
      let* _ := upd_RouteBuffer src (fun b => set_nAcc (u8 (b.(nAcc) + 1)) b) in
      let* b := RouteBuffer src in
      if b.(nAcc) >=? lower_destinations route then
        let* st := PduR_ARC_ReleaseTxBuffer src in
        if bool_decide (st = BUFREQ_OK) then ret tt else REPORT_BUFFER_ERROR serviceId
      else ret tt
    else ret tt)).

(** What [*minBufSize] is assigned. *)
Definition calculateMinBufferSize (minBufSize avblBufSize : Z) : Z :=
  if negb (minBufSize =? 0) then (if avblBufSize <? minBufSize then avblBufSize else minBufSize) else avblBufSize.

(** The loops over the upper destinations of [PduR_LoTpCopyRxData] and [PduR_LoTpStartOfReception]. *)
Fixpoint copy_to_upper (destinations : list PduRDestPdu_type) (many : bool) (info : PduInfoType)
    (retVal : BufReq_ReturnType) (minBufSize bufSize : Z) : T (BufReq_ReturnType * Z * Z) :=
  match destinations with
  | [] => ret (retVal, minBufSize, bufSize)
  | d :: destinations =>
      if PduR_IsUpModule d.(DestModule) then
        let* (r, size) := PduR_ARC_RouteCopyRxData d info bufSize in
        if bool_decide (r = BUFREQ_OK) then
          copy_to_upper destinations many info r (calculateMinBufferSize minBufSize size) size
        else if many then ret (BUFREQ_NOT_OK, minBufSize, size)
        else copy_to_upper destinations many info r minBufSize size
      else copy_to_upper destinations many info retVal minBufSize bufSize
  end.
Fixpoint start_upper (destinations : list PduRDestPdu_type) (many : bool) (TpSduLength : Z)
    (retVal : BufReq_ReturnType) (minBufSize bufSize : Z) (startOfRxOk : bool) : T (BufReq_ReturnType * Z * bool) :=
  match destinations with
  | [] => ret (retVal, minBufSize, startOfRxOk)
  | d :: destinations =>
      if PduR_IsUpModule d.(DestModule) then
        let* (r, size) := PduR_ARC_RouteStartOfReception d TpSduLength bufSize in
        if bool_decide (r = BUFREQ_OK) then
          start_upper destinations many TpSduLength r (calculateMinBufferSize minBufSize size) size true
        else if many then ret (BUFREQ_NOT_OK, minBufSize, startOfRxOk)
        else start_upper destinations many TpSduLength r minBufSize size startOfRxOk
      else start_upper destinations many TpSduLength retVal minBufSize bufSize startOfRxOk
  end.

(** Transmit on lower destinations, on the fly. *)
Fixpoint transmit_on_the_fly (pduId : Z) (destinations : list PduRDestPdu_type) (retVal : BufReq_ReturnType)
    : T BufReq_ReturnType :=
  match destinations with
  | [] => ret retVal
  | d :: destinations =>
      if PduR_IsLoModule d.(DestModule) then
        let* b := RouteBuffer pduId in
        let* st := PduR_ARC_RouteTransmit d b.(pduInfoPtr) in
        if bool_decide (st = PDUR_E_OK) then
          let* _ := upd_RouteBuffer pduId (set_status PDUR_BUFFER_TX_BUSY) in
          transmit_on_the_fly pduId destinations retVal
        else transmit_on_the_fly pduId destinations BUFREQ_NOT_OK
      else transmit_on_the_fly pduId destinations retVal
  end.

Definition copy_to_buffer (pduId : Z) (route : PduRRoutingPath_type) (info : PduInfoType) (minBufSize : Z)
    : T (BufReq_ReturnType * Z) :=
  let* b := RouteBuffer pduId in
  let* data := deref (read_bytes info.(SduDataPtr) 0 info.(SduLength)) in
  let* d := deref (write_bytes b.(pduInfoPtr).(SduDataPtr) b.(rxByteCount) data) in
  let* _ := upd_RouteBuffer pduId (fun b => set_pduInfoPtr
              {| SduDataPtr := d; SduLength := b.(pduInfoPtr).(SduLength) |} b) in
  let tmpRxByteCnt := u16 (b.(rxByteCount) + info.(SduLength)) in
  let* _ := upd_RouteBuffer pduId (set_rxByteCount tmpRxByteCnt) in
  let* b := RouteBuffer pduId in
  let bufSize := u16 (b.(pduInfoPtr).(SduLength) - tmpRxByteCnt) in
  let minBufSize := calculateMinBufferSize minBufSize bufSize in
  let* retVal :=
    if negb route.(PduRDirectGateway) then
      let* _ := if (route.(PduRTpThreshld) <=? tmpRxByteCnt) && bool_decide (b.(status) = PDUR_BUFFER_RX_BUSY)
                then upd_RouteBuffer pduId (set_status PDUR_BUFFER_TX_READY) else ret tt in
      let* b := RouteBuffer pduId in
      if bool_decide (b.(status) = PDUR_BUFFER_TX_READY) then
        transmit_on_the_fly pduId route.(PduRDestPdus) BUFREQ_OK
      else ret BUFREQ_OK
    else ret BUFREQ_OK in
  ret (retVal, minBufSize).

(** Returns the result and what is assigned to [*bufferSizePtr]. *)
Definition PduR_LoTpCopyRxData (pduId : Z) (info : option PduInfoType) (bufferSizePtr : option Z) (serviceId : Z)
    : T (BufReq_ReturnType * option Z) :=
  PDUR_VALIDATE_INITIALIZED serviceId (BUFREQ_NOT_OK, bufferSizePtr) (
  PDUR_VALIDATE_PDUID serviceId pduId (BUFREQ_NOT_OK, bufferSizePtr) (
  PDUR_VALIDATE_PDUPTR serviceId info (BUFREQ_NOT_OK, bufferSizePtr) (fun info =>
  let* _ := SchM_Enter_PduR_EA_0 in
  let* route := routing_path pduId in
  let* (retVal, minBufSize, _) :=
    copy_to_upper route.(PduRDestPdus) (route.(PduRDestinatnNum) >? 1) info BUFREQ_OK 0 0 in
  let* (retVal, minBufSize) :=
    if bool_decide (retVal = BUFREQ_OK) && PduR_ARC_HasTpModuleDest route.(PduRDestPdus) then
      let* retVal := PduR_ARC_CheckBufferStatus pduId info.(SduLength) in
      let* p := PduRTpRouteBuffer pduId in
      if bool_decide (retVal = BUFREQ_NOT_OK) && bool_decide (p <> None) then
        let* _ := free_RouteBuffer pduId in ret (retVal, minBufSize)
      else if bool_decide (retVal = BUFREQ_OK) then copy_to_buffer pduId route info minBufSize
      else ret (retVal, minBufSize)
    else ret (retVal, minBufSize) in
  let* _ := SchM_Exit_PduR_EA_0 in
  let* _ := if bool_decide (retVal = BUFREQ_OK) then ret tt else REPORT_BUFFER_ERROR serviceId in
  ret (retVal, (fun _ => minBufSize) <$> bufferSizePtr)))).

Definition PduR_LoTpStartOfReception (pduId TpSduLength : Z) (bufferSizePtr : option Z) (serviceId : Z)
    : T (BufReq_ReturnType * option Z) :=
  PDUR_VALIDATE_INITIALIZED serviceId (BUFREQ_NOT_OK, bufferSizePtr) (
  PDUR_VALIDATE_PDUID serviceId pduId (BUFREQ_NOT_OK, bufferSizePtr) (
  let* route := routing_path pduId in
  let many := route.(PduRDestinatnNum) >? 1 in
  let* (retVal, minBufSize, startOfRxOk) :=
    start_upper route.(PduRDestPdus) many TpSduLength BUFREQ_OK 0 uninitialised false in
  let* (retVal, minBufSize) :=
    if bool_decide (retVal = BUFREQ_OK) && PduR_ARC_HasTpModuleDest route.(PduRDestPdus) then
      let* p := PduRTpRouteBuffer pduId in
      match p with
      | Some _ => ret (BUFREQ_BUSY, minBufSize)
      | None =>
          let* retVal := PduR_ARC_AllocateBuffer pduId TpSduLength in
          if bool_decide (retVal = BUFREQ_OK) then
            let* b := RouteBuffer pduId in ret (retVal, calculateMinBufferSize minBufSize b.(bufferSize))
          else if many then ret (BUFREQ_NOT_OK, minBufSize)
          else ret (retVal, minBufSize)
      end
    else ret (retVal, minBufSize) in
  let* _ :=
    if startOfRxOk && negb (bool_decide (retVal = BUFREQ_OK)) then
      for_each 0 route.(PduRDestPdus) (fun _ d =>
        if PduR_IsUpModule d.(DestModule) then PduR_ARC_RouteTpRxIndication d NTFRSLT_E_NOT_OK else ret tt)
    else ret tt in
  let* _ := if bool_decide (retVal = BUFREQ_OK) then ret tt else REPORT_BUFFER_ERROR serviceId in
  ret (retVal, (fun _ => minBufSize) <$> bufferSizePtr))).

(** The part of [PduR_LoTpCopyTxData] that copies from the buffer of a gateway. *)
Definition copy_from_buffer (src dst : Z) (route : PduRRoutingPath_type) (info : PduInfoType) (retry : RetryInfoType)
    (available : option Z) : T (BufReq_ReturnType * list Z * option Z) :=
  let failed r := ret (r, info.(SduDataPtr), available) in
  let length := info.(SduLength) in
  let* b := RouteBuffer src in
  if (retry.(TxTpDataCnt) >? b.(pduInfoPtr).(SduLength)) || (length >? b.(bufferSize)) then failed BUFREQ_NOT_OK
  else
    let* count := deref (aref b.(txByteCount) dst) in
    if negb route.(PduRDirectGateway) && (count + length >? b.(rxByteCount)) then failed BUFREQ_BUSY
    else if route.(PduRDirectGateway) && (count + length >? b.(rxByteCount)) then failed BUFREQ_NOT_OK
    else
      let from := if bool_decide (retry.(TpDataState) = TP_DATARETRY) then retry.(TxTpDataCnt) else count in
      let count := u16 (from + length) in
      let* _ := upd_RouteBuffer src (fun b => set_txByteCount (<[Z.to_nat dst := count]> b.(txByteCount)) b) in
      let* data := deref (read_bytes b.(pduInfoPtr).(SduDataPtr) from length) in
      let* d := deref (write_bytes info.(SduDataPtr) 0 data) in
      ret (BUFREQ_OK, d, (fun _ => u16 (b.(pduInfoPtr).(SduLength) - count)) <$> available).

(** Returns the result, the data of [info] and [*availableDataPtr]. *)
Definition PduR_LoTpCopyTxData (pduId : Z) (info : option PduInfoType) (retry : option RetryInfoType)
    (available : option Z) (serviceId : Z) : T (BufReq_ReturnType * list Z * option Z) :=
  PDUR_VALIDATE_INITIALIZED serviceId (BUFREQ_NOT_OK, from_option SduDataPtr [] info, available) (
  PDUR_VALIDATE_PDUPTR serviceId info (BUFREQ_NOT_OK, [], available) (fun info =>
  let src := sourcePduId pduId in
  PDUR_VALIDATE_PDUID serviceId src (BUFREQ_NOT_OK, info.(SduDataPtr), available) (
  let* _ := SchM_Enter_PduR_EA_0 in
  let* route := routing_path src in
  let* r :=
    if PduR_IsUpModule route.(SrcModule) then PduR_ARC_RouteCopyTxData route info retry available
    else
      let* p := if PduR_IsLoModule route.(SrcModule) then PduRTpRouteBuffer src else ret None in
      match p with
      | None => ret (BUFREQ_NOT_OK, info.(SduDataPtr), available)
      | Some _ =>
          match retry with
          | Some retry =>
              if negb route.(PduRDirectGateway) && negb (bool_decide (retry.(TpDataState) = TP_DATACONF)) then
                let* _ := free_RouteBuffer src in ret (BUFREQ_NOT_OK, info.(SduDataPtr), available)
              else
                copy_from_buffer src (destionId pduId) route info
                  {| TpDataState := retry.(TpDataState);
                     TxTpDataCnt := if bool_decide (retry.(TpDataState) = TP_DATARETRY) then retry.(TxTpDataCnt) else 0 |}
                  available
          | None =>
              copy_from_buffer src (destionId pduId) route info {| TpDataState := TP_DATACONF; TxTpDataCnt := 0 |} available
          end
      end in
  let* _ := SchM_Exit_PduR_EA_0 in
  ret r))).

(** ** The interfaces of the other modules *)
Definition PduR_UpTransmit pduId info serviceId : T Z := PduR_ARC_Transmit pduId info serviceId.
Definition PduR_UpCancelTransmit (pduId serviceId : Z) : T Z := ret E_NOT_OK.
Definition PduR_UpChangeParameter (pduId parameter value serviceId : Z) : T unit := ret tt.
Definition PduR_UpCancelReceive (pduId serviceId : Z) : T Z := ret E_NOT_OK.
Definition PduR_LoIfRxIndication pduId info serviceId : T unit := PduR_ARC_RxIndication pduId info serviceId.
Definition PduR_LoIfTxConfirmation pduId serviceId : T unit := PduR_ARC_TxConfirmation pduId 0 serviceId.
Definition PduR_LoIfTriggerTransmit pduId info serviceId : T (Z * option PduInfoType) :=
  PduR_ARC_TriggerTransmit pduId info serviceId.
Definition PduR_LoTpRxIndication id result serviceId : T unit := PduR_ARC_TpRxIndication id result serviceId.
Definition PduR_LoTpTxConfirmation id result serviceId : T unit := PduR_ARC_TpTxConfirmation id result serviceId.

(** ** PduR.c *)
Definition set_default (defaults : list (list Z)) (lengths : list Z) (i : Z) : T unit :=
  let* n := deref (aref lengths i) in
  if n >? 0 then
    let* v := deref (aref defaults i) in
    let* data := deref (read_bytes v 0 n) in
    write_TxBuffer i data
  else ret tt.
Fixpoint for_index (i : Z) (n : nat) (body : Z -> T unit) : T unit :=
  match n with O => ret tt | S n => let* _ := body i in for_index (i + 1) n body end.

Definition PduR_Init (ConfigPtr : option PduR_PBConfigType) : T unit :=
  let* st := get PduRState in
  if negb (bool_decide (st = PDUR_UNINIT)) then PDUR_DET_REPORTERROR 0x00 PDUR_E_INVALID_REQUEST
  else
    match ConfigPtr with
    | None => PDUR_DET_REPORTERROR 0x00 PDUR_E_NULL_POINTER
    | Some c =>
        let* _ := modify (set_PduRConfig (Some c)) in
        let* _ := match c.(DefaultValues), c.(DefaultValueLengths) with
                  | Some defaults, Some lengths =>
                      let* n := get NTxBuffers in for_index 0 (Z.to_nat n) (set_default defaults lengths)
                  | _, _ => ret tt
                  end in
        let* n := get NTpBuffers in
        let* _ := for_index 0 (Z.to_nat n) (fun i => upd_TpBuffer i (set_status PDUR_BUFFER_FREE)) in
        let* _ := if PDUR_MAX_NOF_ROUTING_PATH_GROUPS >? 0 then
                    for_index 0 (Z.to_nat c.(NofRoutingPathGroups)) (fun i =>
                      let* g := deref (aref c.(RoutingPathGroups) i) in
                      PdurSetRoutingPathEnabled (u16 i) g.(EnabledAtInit))
                  else ret tt in
        modify (set_PduRState PDUR_ONLINE)
    end.

Definition PduR_GetConfigurationId : T Z :=
  let* st := get PduRState in
  if bool_decide (st = PDUR_UNINIT) then
    let* _ := PDUR_DET_REPORTERROR PDUR_SERVICEID_GETCONFIGURATIONID PDUR_E_INVALID_REQUEST in
    ret PDUR_INVALID_CONFIGID
  else let* c := cfg in ret c.(PduRConfigurationId).

Definition PduR_EnableRouting (id : Z) : T unit :=
  let* st := get PduRState in
  if bool_decide (st = PDUR_UNINIT) then PDUR_DET_REPORTERROR PDUR_SERVICEID_ENABLEROUTING PDUR_E_INVALID_REQUEST
  else
    let* c := cfg in
    if id <? c.(NofRoutingPathGroups) then
      if PDUR_MAX_NOF_ROUTING_PATH_GROUPS >? 0 then PdurSetRoutingPathEnabled id true else ret tt
    else PDUR_DET_REPORTERROR PDUR_SERVICEID_ENABLEROUTING PDUR_E_ROUTING_PATH_GROUP_ID_INVALID.

Definition clear_destination (destPtr : PduRDestPdu_type) : T unit :=
  if bool_decide (destPtr.(DataProvision) = PDUR_TRIGGER_TRANSMIT) && negb (destPtr.(TxBufferId) =? PDUR_NO_BUFFER) then
    let* b := TxBuffer destPtr.(TxBufferId) in
    write_TxBuffer destPtr.(TxBufferId) (replicate (Z.to_nat b.(BufSize)) 0)
  else ret tt.
Definition PduR_DisableRouting (id : Z) : T unit :=
  let* st := get PduRState in
  if bool_decide (st = PDUR_UNINIT) then PDUR_DET_REPORTERROR PDUR_SERVICEID_DISABLEROUTING PDUR_E_INVALID_REQUEST
  else
    let* c := cfg in
    if id <? c.(NofRoutingPathGroups) then
      if PDUR_MAX_NOF_ROUTING_PATH_GROUPS >? 0 then
        let* _ := PdurSetRoutingPathEnabled id false in
        let* g := deref (aref c.(RoutingPathGroups) id) in
        for_index 0 (Z.to_nat g.(NofDestinations)) (fun i =>
          let* destPtr := deref (aref g.(Destinations) i) in clear_destination destPtr)
      else ret tt
    else PDUR_DET_REPORTERROR PDUR_SERVICEID_DISABLEROUTING PDUR_E_ROUTING_PATH_GROUP_ID_INVALID.
End PduR.
