(* ===== verification/PduR_Interfaces.v ===== *)
(** * PDU router: the interfaces of the other modules

    [PduR_Com.c], [PduR_CanIf.c], [PduR_CanTp.c], ...: what each module calls the router through.  All of them hand the call on with
    an identifier of the service, which only reports of development errors depend on. *)

From S2P Require Import Prelude.
From S2P Require Import StateMonad.
From S2P Require Import ComStack.
From S2P Require Import PduR_Types.
From S2P Require Import PduR.

#[local] Open Scope monad_scope.

Section Interfaces.
Context {W : Type} {Cfg : PduR_Cfg} {Env : PduR_Env W}.
Abbreviation T := (M (PduR_State W)).

(** [PduR_Com.c] *)
Definition PduR_ComTransmit (pduId : Z) (pduInfoPtr : option PduInfoType) : T Z := PduR_UpTransmit pduId pduInfoPtr 0x89.
Definition PduR_ComCancelTransmit (pduId : Z) : T Z := PduR_UpCancelTransmit pduId 0x8a.
Definition PduR_ComChangeParameter (pduId parameter value : Z) : T unit := PduR_UpChangeParameter pduId parameter value 0x8b.
Definition PduR_ComCancelReceive (pduId : Z) : T Z := PduR_UpCancelReceive pduId 0x8c.

(** [PduR_Dcm.c] *)
Definition PduR_DcmTransmit (pduId : Z) (pduInfoPtr : option PduInfoType) : T Z := PduR_UpTransmit pduId pduInfoPtr 0x99.
Definition PduR_DcmCancelTransmit (pduId : Z) : T Z := PduR_UpCancelTransmit pduId 0x9a.
Definition PduR_DcmChangeParameter (pduId parameter value : Z) : T unit := PduR_UpChangeParameter pduId parameter value 0x9b.
Definition PduR_DcmCancelReceive (pduId : Z) : T Z := PduR_UpCancelReceive pduId 0x9c.

(** [PduR_IpduM.c] *)
Definition PduR_IpduMTransmit (pduId : Z) (pduInfoPtr : option PduInfoType) : T Z := PduR_UpTransmit pduId pduInfoPtr 0xa9.
Definition PduR_IpduMCancelTransmit (pduId : Z) : T Z := PduR_UpCancelTransmit pduId 0xaa.
Definition PduR_IpduMChangeParameter (pduId parameter value : Z) : T unit :=
  PduR_UpChangeParameter pduId parameter value 0xab.
Definition PduR_IpduMCancelReceive (pduId : Z) : T Z := PduR_UpCancelReceive pduId 0xac.
Definition PduR_IpduMRxIndication (pduId : Z) (pduInfoPtr : option PduInfoType) : T unit :=
  PduR_LoIfRxIndication pduId pduInfoPtr 0x21.
Definition PduR_IpduMTxConfirmation (pduId : Z) : T unit := PduR_LoIfTxConfirmation pduId 0x22.
Definition PduR_IpduMTriggerTransmit (pduId : Z) (pduInfoPtr : option PduInfoType) : T (Z * option PduInfoType) :=
  PduR_LoIfTriggerTransmit pduId pduInfoPtr 0x23.

(** [PduR_LdCom.c] *)
Definition PduR_LdComTransmit (pduId : Z) (pduInfoPtr : option PduInfoType) : T Z := PduR_UpTransmit pduId pduInfoPtr 0x89.

(** [PduR_SecOC.c] *)
Definition PduR_SecOCRxIndication (pduId : Z) (pduInfoPtr : option PduInfoType) : T unit :=
  PduR_LoIfRxIndication pduId pduInfoPtr 0x71.
Definition PduR_SecOCTxConfirmation (pduId : Z) : T unit := PduR_LoIfTxConfirmation pduId 0x72.
Definition PduR_SecOCTransmit (pduId : Z) (pduInfoPtr : option PduInfoType) : T Z := PduR_UpTransmit pduId pduInfoPtr 0xc9.
Definition PduR_SecOCCancelTransmit (pduId : Z) : T Z := PduR_UpCancelTransmit pduId 0xca.

(** [PduR_CddPduR.c] *)
Definition PduR_CddPduRTransmit (pduId : Z) (pduInfoPtr : option PduInfoType) : T Z := PduR_UpTransmit pduId pduInfoPtr 0x89.

(** [PduR_CanIf.c] *)
Definition PduR_CanIfRxIndication (pduId : Z) (pduInfoPtr : option PduInfoType) : T unit :=
  PduR_LoIfRxIndication pduId pduInfoPtr 0x01.
Definition PduR_CanIfTxConfirmation (pduId : Z) : T unit := PduR_LoIfTxConfirmation pduId 0x02.
Definition PduR_CanIfTriggerTransmit (pduId : Z) (pduInfoPtr : option PduInfoType) : T (Z * option PduInfoType) :=
  PduR_LoIfTriggerTransmit pduId pduInfoPtr 0x03.

(** [PduR_CanNm.c] *)
Definition PduR_CanNmRxIndication (pduId : Z) (pduInfoPtr : option PduInfoType) : T unit :=
  PduR_LoIfRxIndication pduId pduInfoPtr 0x11.
Definition PduR_CanNmTxConfirmation (pduId : Z) : T unit := PduR_LoIfTxConfirmation pduId 0x12.
Definition PduR_CanNmTriggerTransmit (pduId : Z) (pduInfoPtr : option PduInfoType) : T (Z * option PduInfoType) :=
  PduR_LoIfTriggerTransmit pduId pduInfoPtr 0x13.

(** [PduR_UdpNm.c] *)
Definition PduR_UdpNmRxIndication (pduId : Z) (pduInfoPtr : option PduInfoType) : T unit :=
  PduR_LoIfRxIndication pduId pduInfoPtr 0x11.
Definition PduR_UdpNmTxConfirmation (pduId : Z) : T unit := PduR_LoIfTxConfirmation pduId 0x12.
Definition PduR_UdpNmTriggerTransmit (pduId : Z) (pduInfoPtr : option PduInfoType) : T (Z * option PduInfoType) :=
  PduR_LoIfTriggerTransmit pduId pduInfoPtr 0x13.

(** [PduR_LinIf.c] *)
Definition PduR_LinIfRxIndication (pduId : Z) (pduInfoPtr : option PduInfoType) : T unit :=
  PduR_LoIfRxIndication pduId pduInfoPtr 0x51.
Definition PduR_LinIfTxConfirmation (pduId : Z) : T unit := PduR_LoIfTxConfirmation pduId 0x52.
Definition PduR_LinIfTriggerTransmit (pduId : Z) (pduInfoPtr : option PduInfoType) : T (Z * option PduInfoType) :=
  PduR_LoIfTriggerTransmit pduId pduInfoPtr 0x53.

(** [PduR_CDD_LinSlvIf.c] *)
Definition PduR_LinSlvIfRxIndication (pduId : Z) (pduInfoPtr : option PduInfoType) : T unit :=
  PduR_LoIfRxIndication pduId pduInfoPtr 0x71.
Definition PduR_LinSlvIfTxConfirmation (pduId : Z) : T unit := PduR_LoIfTxConfirmation pduId 0x72.
Definition PduR_LinSlvIfTriggerTransmit (pduId : Z) (pduInfoPtr : option PduInfoType) : T (Z * option PduInfoType) :=
  PduR_LoIfTriggerTransmit pduId pduInfoPtr 0x73.

(** [PduR_FrIf.c] *)
Definition PduR_FrIfRxIndication (pduId : Z) (pduInfoPtr : option PduInfoType) : T unit :=
  PduR_LoIfRxIndication pduId pduInfoPtr 0x31.
Definition PduR_FrIfTxConfirmation (pduId : Z) : T unit := PduR_LoIfTxConfirmation pduId 0x32.
Definition PduR_FrIfTriggerTransmit (pduId : Z) (pduInfoPtr : option PduInfoType) : T (Z * option PduInfoType) :=
  PduR_LoIfTriggerTransmit pduId pduInfoPtr 0x33.

(** [PduR_FrNm.c] *)
Definition PduR_FrNmRxIndication (pduId : Z) (pduInfoPtr : option PduInfoType) : T unit :=
  PduR_LoIfRxIndication pduId pduInfoPtr 0x41.
Definition PduR_FrNmTxConfirmation (pduId : Z) : T unit := PduR_LoIfTxConfirmation pduId 0x42.
Definition PduR_FrNmTriggerTransmit (pduId : Z) (pduInfoPtr : option PduInfoType) : T (Z * option PduInfoType) :=
  PduR_LoIfTriggerTransmit pduId pduInfoPtr 0x43.

(** [PduR_CanTp.c] *)
Definition PduR_CanTpCopyRxData (id : Z) (info : option PduInfoType) (bufferSizePtr : option Z) : T (BufReq_ReturnType * option Z) :=
  PduR_LoTpCopyRxData id info bufferSizePtr 0x04.
Definition PduR_CanTpRxIndication (id result : Z) : T unit := PduR_LoTpRxIndication id result 0x05.
Definition PduR_CanTpStartOfReception (id TpSduLength : Z) (bufferSizePtr : option Z) : T (BufReq_ReturnType * option Z) :=
  PduR_LoTpStartOfReception id TpSduLength bufferSizePtr 0x06.
Definition PduR_CanTpCopyTxData (id : Z) (info : option PduInfoType) (retry : option RetryInfoType) (availableDataPtr : option Z) : T (BufReq_ReturnType * list Z * option Z) :=
  PduR_LoTpCopyTxData id info retry availableDataPtr 0x07.
Definition PduR_CanTpTxConfirmation (id result : Z) : T unit := PduR_LoTpTxConfirmation id result 0x08.

(** [PduR_FrTp.c] *)
Definition PduR_FrTpCopyRxData (id : Z) (info : option PduInfoType) (bufferSizePtr : option Z) : T (BufReq_ReturnType * option Z) :=
  PduR_LoTpCopyRxData id info bufferSizePtr 0x34.
Definition PduR_FrTpRxIndication (id result : Z) : T unit := PduR_LoTpRxIndication id result 0x35.
Definition PduR_FrTpStartOfReception (id TpSduLength : Z) (bufferSizePtr : option Z) : T (BufReq_ReturnType * option Z) :=
  PduR_LoTpStartOfReception id TpSduLength bufferSizePtr 0x36.
Definition PduR_FrTpCopyTxData (id : Z) (info : option PduInfoType) (retry : option RetryInfoType) (availableDataPtr : option Z) : T (BufReq_ReturnType * list Z * option Z) :=
  PduR_LoTpCopyTxData id info retry availableDataPtr 0x37.
Definition PduR_FrTpTxConfirmation (id result : Z) : T unit := PduR_LoTpTxConfirmation id result 0x38.

(** [PduR_J1939Tp.c] *)
Definition PduR_J1939TpCopyRxData (id : Z) (info : option PduInfoType) (bufferSizePtr : option Z) : T (BufReq_ReturnType * option Z) :=
  PduR_LoTpCopyRxData id info bufferSizePtr 0x14.
Definition PduR_J1939TpRxIndication (id result : Z) : T unit := PduR_LoTpRxIndication id result 0x15.
Definition PduR_J1939TpStartOfReception (id : Z) (info : option PduInfoType) (TpSduLength : Z) (bufferSizePtr : option Z) : T (BufReq_ReturnType * option Z) :=
  let* _ := deref info in PduR_LoTpStartOfReception id TpSduLength bufferSizePtr 0x16.
Definition PduR_J1939TpCopyTxData (id : Z) (info : option PduInfoType) (retry : option RetryInfoType) (availableDataPtr : option Z) : T (BufReq_ReturnType * list Z * option Z) :=
  PduR_LoTpCopyTxData id info retry availableDataPtr 0x17.
Definition PduR_J1939TpTxConfirmation (id result : Z) : T unit := PduR_ARC_TpTxConfirmation id result 0x18.

(** [PduR_SoAd.c] *)
Definition PduR_SoAdIfRxIndication (pduId : Z) (pduInfoPtr : option PduInfoType) : T unit :=
  PduR_LoIfRxIndication pduId pduInfoPtr 0x61.
Definition PduR_SoAdIfTxConfirmation (pduId : Z) : T unit := PduR_LoIfTxConfirmation pduId 0x62.
Definition PduR_SoAdIfTriggerTransmit (pduId : Z) (pduInfoPtr : option PduInfoType) : T (Z * option PduInfoType) :=
  PduR_LoIfTriggerTransmit pduId pduInfoPtr 0x63.
Definition PduR_SoAdTpCopyRxData (id : Z) (info : option PduInfoType) (bufferSizePtr : option Z) : T (BufReq_ReturnType * option Z) :=
  PduR_LoTpCopyRxData id info bufferSizePtr 0x64.
Definition PduR_SoAdTpRxIndication (id result : Z) : T unit := PduR_LoTpRxIndication id result 0x65.
Definition PduR_SoAdTpStartOfReception (id : Z) (info : option PduInfoType) (TpSduLength : Z) (bufferSizePtr : option Z) : T (BufReq_ReturnType * option Z) :=
  let* _ := deref info in PduR_LoTpStartOfReception id TpSduLength bufferSizePtr 0x66.
Definition PduR_SoAdTpCopyTxData (id : Z) (info : option PduInfoType) (retry : option RetryInfoType) (availableDataPtr : option Z) : T (BufReq_ReturnType * list Z * option Z) :=
  PduR_LoTpCopyTxData id info retry availableDataPtr 0x67.
Definition PduR_SoAdTpTxConfirmation (id result : Z) : T unit := PduR_ARC_TpTxConfirmation id result 0x68.

(** [PduR_DoIP.c] *)
Definition PduR_DoIPIfRxIndication (pduId : Z) (pduInfoPtr : option PduInfoType) : T unit :=
  PduR_LoIfRxIndication pduId pduInfoPtr 0x42.
Definition PduR_DoIPIfTxConfirmation (pduId : Z) : T unit := PduR_LoIfTxConfirmation pduId 0x40.
Definition PduR_DoIPTpCopyRxData (id : Z) (info : option PduInfoType) (bufferSizePtr : option Z) : T (BufReq_ReturnType * option Z) :=
  PduR_LoTpCopyRxData id info bufferSizePtr 0x44.
Definition PduR_DoIPTpRxIndication (id result : Z) : T unit := PduR_LoTpRxIndication id result 0x45.
Definition PduR_DoIPTpStartOfReception (id : Z) (info : option PduInfoType) (TpSduLength : Z) (bufferSizePtr : option Z) : T (BufReq_ReturnType * option Z) :=
  PduR_LoTpStartOfReception id TpSduLength bufferSizePtr 0x46.
Definition PduR_DoIPTpCopyTxData (id : Z) (info : option PduInfoType) (retry : option RetryInfoType) (availableDataPtr : option Z) : T (BufReq_ReturnType * list Z * option Z) :=
  PduR_LoTpCopyTxData id info retry availableDataPtr 0x43.
Definition PduR_DoIPTpTxConfirmation (id result : Z) : T unit := PduR_ARC_TpTxConfirmation id result 0x48.
End Interfaces.
