(* ===== verification/PduR_Inv.v ===== *)
(** * PDU router: configurations, invariant, rules

    [valid]: what the generated tables and buffers satisfy.  [gateway s] is what the gateways of transport protocols are about,
    for each routing path the transfer in progress.  [Inv n g s]: the static data fit the configuration, the
    gateways are in state [g], inside [n] exclusive areas; every buffer in use belongs to exactly one routing path. *)

From S2P Require Import Prelude.
From S2P Require Import StateMonad.
From S2P Require Import Os_Irq.
From S2P Require Import ComStack.
From S2P Require Import PduR_Types.
From S2P Require Import PduR.

#[local] Open Scope monad_scope.

(** ** Configurations

    What does not change: sizes of the buffers and arrays. *)
Record Ram := {
  ram_tp : list Z; ram_tx : list Z; ram_routes : nat; ram_groups : nat; ram_NTp : Z; ram_NRoutes : Z; ram_NTx : Z
}.
Definition ram {W} (s : PduR_State W) : Ram := {|
  ram_tp := bufferSize <$> s.(TpBuffers); ram_tx := BufSize <$> s.(TxBuffers);
  ram_routes := length s.(TpRouteBuffers); ram_groups := length s.(PdurRoutingGroupEnabled);
  ram_NTp := s.(NTpBuffers); ram_NRoutes := s.(NTpRouteBuffers); ram_NTx := s.(NTxBuffers)
|}.

Section Valid.
Context {Cfg : PduR_Cfg}.
Variables (c : PduR_PBConfigType) (z : Ram).

Definition groups_ok (d : PduRDestPdu_type) : Prop :=
  d.(NofGroupRefs) <= Z.of_nat (length d.(RoutingPathGroupRefs)) /\
  Forall (fun g => below g z.(ram_groups)) d.(RoutingPathGroupRefs).
Definition dest_ok (d : PduRDestPdu_type) : Prop :=
  groups_ok d /\ (d.(DataProvision) = PDUR_TRIGGER_TRANSMIT -> PduR_IsLoModule d.(DestModule) = true ->
                  below d.(TxBufferId) (length z.(ram_tx))).
(** A transport protocol is routed to upper modules and transport protocols; counters of 8 bits can count the destinations. *)
Definition path_ok (i : nat) (p : PduRRoutingPath_type) : Prop :=
  (0 < length p.(PduRDestPdus) < 256)%nat /\ Forall dest_ok p.(PduRDestPdus) /\
  (PduR_IsLoModule p.(SrcModule) = true -> PduR_ARC_HasTpModuleDest p.(PduRDestPdus) = true ->
   Z.of_nat i < z.(ram_NRoutes)) /\
  (PduR_IsTpModule p.(SrcModule) = true ->
   Forall (fun d => PduR_IsUpModule d.(DestModule) = true \/ PduR_IsTpModule d.(DestModule) = true) p.(PduRDestPdus)).
Definition group_ok (g : PduR_RoutingPathGroupType) : Prop :=
  g.(NofDestinations) <= Z.of_nat (length g.(Destinations)) /\
  Forall (fun d => d.(DataProvision) = PDUR_TRIGGER_TRANSMIT -> d.(TxBufferId) <> PDUR_NO_BUFFER ->
                   below d.(TxBufferId) (length z.(ram_tx))) g.(Destinations).
Definition default_ok (defaults : list (list Z)) (lengths : list Z) (i : nat) (size : Z) : Prop :=
  from_option (fun n => n <= 0 \/
    from_option (fun v => n <= Z.of_nat (length v) /\ n <= size) False (defaults !! i)) False (lengths !! i).
Definition defaults_ok : Prop :=
  match c.(DefaultValues), c.(DefaultValueLengths) with
  | Some defaults, Some lengths => each (default_ok defaults lengths) (take (Z.to_nat z.(ram_NTx)) z.(ram_tx))
  | _, _ => True
  end.

Definition valid : Prop :=
  0 <= z.(ram_NTp) <= Z.min 255 (Z.of_nat (length z.(ram_tp))) /\ z.(ram_NRoutes) <= Z.of_nat z.(ram_routes) /\
  z.(ram_NTx) <= Z.of_nat (length z.(ram_tx)) /\ Forall (in_width 16) z.(ram_tp) /\ Forall (fun n => 0 <= n) z.(ram_tx) /\
  c.(NRoutingPaths) <= Z.of_nat (length c.(RoutingPaths)) /\ each path_ok c.(RoutingPaths) /\
  c.(NofRoutingPathGroups) <= Z.of_nat (length c.(RoutingPathGroups)) /\
  c.(NofRoutingPathGroups) <= Z.of_nat z.(ram_groups) /\ c.(NofRoutingPathGroups) < 2 ^ 16 /\
  Forall group_ok c.(RoutingPathGroups) /\ defaults_ok.

#[export] Instance groups_ok_dec d : Decision (groups_ok d).
Proof. unfold groups_ok. apply _. Defined.
#[export] Instance dest_ok_dec d : Decision (dest_ok d).
Proof. unfold dest_ok. apply _. Defined.
#[export] Instance path_ok_dec i p : Decision (path_ok i p).
Proof. unfold path_ok. apply _. Defined.
#[export] Instance group_ok_dec g : Decision (group_ok g).
Proof. unfold group_ok. apply _. Defined.
#[export] Instance default_ok_dec ds ls i n : Decision (default_ok ds ls i n).
Proof.
  unfold default_ok. destruct (ls !! i); cbn; [|apply _]. destruct (ds !! i); cbn; apply _.
Defined.
#[export] Instance defaults_ok_dec : Decision defaults_ok.
Proof. unfold defaults_ok. destruct (DefaultValues c), (DefaultValueLengths c); apply _. Defined.
#[export] Instance valid_dec : Decision valid.
Proof. unfold valid. apply _. Defined.
End Valid.

(** ** Gateways

    A transfer: the length of the message, the bytes received so far, for each destination how many were fetched. *)
Record Transfer := { total : Z; got : list Z; sent : list Z }.
Abbreviation Gateway := (list (option Transfer)).

Definition transfer_of (b : PduRTpBufferInfo_type) : Transfer := {|
  total := b.(pduInfoPtr).(SduLength); got := take (Z.to_nat b.(rxByteCount)) b.(pduInfoPtr).(SduDataPtr);
  sent := b.(txByteCount)
|}.
Definition gateway {W} (s : PduR_State W) : Gateway :=
  (fun p => i ← p; b ← aref s.(TpBuffers) i; Some (transfer_of b)) <$> s.(TpRouteBuffers).

(** ** The invariant *)
Definition buffer_ok (b : PduRTpBufferInfo_type) : Prop :=
  b.(bufferSize) = Z.of_nat (length b.(pduInfoPtr).(SduDataPtr)) /\ length b.(txByteCount) = PDUR_MAX_GW_DESTINATIONS.
Definition active (st : PduRTpBufferStatus_type) : bool :=
  match st with
  | PDUR_BUFFER_RX_READY | PDUR_BUFFER_RX_BUSY | PDUR_BUFFER_TX_READY | PDUR_BUFFER_TX_BUSY => true
  | _ => false
  end.
Definition in_use (b : PduRTpBufferInfo_type) : Prop :=
  active b.(status) = true /\ 0 <= b.(rxByteCount) <= b.(pduInfoPtr).(SduLength) /\
  b.(pduInfoPtr).(SduLength) <= b.(bufferSize) /\ Forall (fun t => 0 <= t <= b.(rxByteCount)) b.(txByteCount).

(** The path [id] is a gateway between transport protocols that waits for the whole message. *)
Definition direct (c : PduR_PBConfigType) (id : nat) : Prop :=
  exists p, c.(RoutingPaths) !! id = Some p /\ p.(PduRDirectGateway) = true /\
    PduR_ARC_HasTpModuleDest p.(PduRDestPdus) = true /\ PduR_IsTpModule p.(SrcModule) = true.
(** A buffer that is being filled. *)
Definition receiving (st : PduRTpBufferStatus_type) : bool :=
  match st with PDUR_BUFFER_RX_READY | PDUR_BUFFER_RX_BUSY => true | _ => false end.

Section Inv.
Context {W : Type} {Cfg : PduR_Cfg} {Env : PduR_Env W}.
Variables (c : PduR_PBConfigType) (z : Ram) (o0 : Irq).
Abbreviation T := (M (PduR_State W)).

(** [op]: the receptions in progress, as the transport protocol sees it. *)
Record Inv (op : nat -> bool) (n : nat) (g : Gateway) (s : PduR_State W) : Prop := {
  i_config : s.(PduRConfig) = Some c;
  i_online : s.(PduRState) = PDUR_ONLINE;
  i_ram : ram s = z;
  i_tp : Forall buffer_ok s.(TpBuffers);
  i_tx : Forall (fun b => b.(BufSize) = Z.of_nat (length b.(DataPtr))) s.(TxBuffers);
  i_use : forall r i, s.(TpRouteBuffers) !! r = Some (Some i) ->
    exists b, aref s.(TpBuffers) i = Some b /\ in_use b /\ i < z.(ram_NTp);
  i_inj : forall r r' i, s.(TpRouteBuffers) !! r = Some (Some i) -> s.(TpRouteBuffers) !! r' = Some (Some i) -> r = r';
  i_pool : forall i b, s.(TpBuffers) !! i = Some b -> Z.of_nat i < z.(ram_NTp) -> b.(status) <> PDUR_BUFFER_FREE ->
    exists r, s.(TpRouteBuffers) !! r = Some (Some (Z.of_nat i));
  i_open : forall r, op r = true -> direct c r ->
    exists i b, s.(TpRouteBuffers) !! r = Some (Some i) /\ aref s.(TpBuffers) i = Some b /\ receiving b.(status) = true;
  i_gateway : gateway s = g;
  i_os : s.(os) = areas o0 n
}.

Definition closes (op op' : nat -> bool) : Prop := forall r, op' r = true -> op r = true.
Lemma inv_close op op' n g s : closes op op' -> Inv op n g s -> Inv op' n g s.
Proof. intros Hc []. split; auto. Qed.

Lemma inv_gateway op n g s r : Inv op n g s -> g !! r =
  (fun p => i ← p; b ← aref s.(TpBuffers) i; Some (transfer_of b)) <$> s.(TpRouteBuffers) !! r.
Proof. intros HI. rewrite <- (i_gateway _ _ _ _ HI). apply list_lookup_fmap. Qed.
Lemma inv_held op n g s r i : Inv op n g s -> s.(TpRouteBuffers) !! r = Some (Some i) ->
  exists b, aref s.(TpBuffers) i = Some b /\ in_use b /\ buffer_ok b /\ g !! r = Some (Some (transfer_of b)).
Proof.
  intros HI Hr. destruct (i_use _ _ _ _ HI r i Hr) as (b & Hb & Hu & _). exists b. split_and!; [done..| |].
  - apply aref_Some in Hb as [_ Hb]. eapply Forall_lookup_1; [apply HI|done].
  - by rewrite (inv_gateway _ _ _ _ _ HI), Hr; cbn; rewrite Hb.
Qed.

(** *** Changing a buffer in use *)
Lemma gateway_set_buffer (s : PduR_State W) r i b' g : gateway s = g ->
  (forall r', s.(TpRouteBuffers) !! r' = Some (Some i) -> r' = r) ->
  s.(TpRouteBuffers) !! r = Some (Some i) -> is_Some (aref s.(TpBuffers) i) ->
  gateway (set_TpBuffers (<[Z.to_nat i := b']> s.(TpBuffers)) s) = <[r := Some (transfer_of b')]> g.
Proof.
  intros <- Hinj Hr [b Hb]. apply list_eq. intros k. unfold gateway. cbn.
  destruct (decide (k = r)) as [->|Hk].
  - rewrite list_lookup_fmap, Hr. cbn. rewrite list_lookup_insert_eq.
    + by rewrite (aref_insert _ _ _ _ _ Hb), decide_True.
    + rewrite length_fmap. by eapply lookup_lt_Some.
  - rewrite list_lookup_insert_ne, !list_lookup_fmap by done. destruct (TpRouteBuffers s !! k) as [[i'|]|] eqn:Ek; [|done..].
    cbn. rewrite (aref_insert _ _ _ _ _ Hb), decide_False; [done|]. intros ->. by apply Hk, Hinj.
Qed.

Lemma inv_set_buffer op n g s r i b b' : Inv op n g s -> s.(TpRouteBuffers) !! r = Some (Some i) ->
  aref s.(TpBuffers) i = Some b -> b'.(bufferSize) = b.(bufferSize) -> buffer_ok b' -> in_use b' ->
  (op r = true -> direct c r -> receiving b'.(status) = true) ->
  Inv op n (<[r := Some (transfer_of b')]> g) (set_TpBuffers (<[Z.to_nat i := b']> s.(TpBuffers)) s).
Proof.
  intros HI Hr Hb Hsize Hok Huse Hop. pose proof HI as [].
  pose proof Hb as [Hi Hb']%aref_Some. assert (Hlt : (Z.to_nat i < length s.(TpBuffers))%nat) by (by eapply lookup_lt_Some).
  pose proof (fun j => aref_insert _ i j _ b' Hb) as Haref.
  split; cbn; try done.
  - rewrite <- i_ram0. unfold ram. cbn. f_equal. rewrite list_fmap_insert, Hsize. apply list_insert_id.
    by rewrite list_lookup_fmap, Hb'.
  - by apply Forall_insert.
  - intros r' j Hj. rewrite Haref. destruct (decide (j = i)) as [->|]; [|by eapply i_use0].
    exists b'. split_and!; [done..|]. by destruct (i_use0 r' i Hj) as (_ & _ & _ & ?).
  - intros j b0 Hj Hn Hst. destruct (decide (j = Z.to_nat i)) as [->|Hne].
    + exists r. by rewrite Z2Nat.id.
    + rewrite list_lookup_insert_ne in Hj by done. eauto.
  - intros r' Ho Hd. destruct (i_open0 r' Ho Hd) as (j & b0 & Hj & Hb0 & Hst). exists j. rewrite Haref.
    destruct (decide (j = i)) as [->|]; [|by exists b0]. exists b'. split_and!; [done..|].
    rewrite (i_inj0 r' r i Hj Hr) in *. by apply Hop.
  - apply gateway_set_buffer; [done| |done|by rewrite Hb]. intros r' Hr'. by eapply i_inj0.
Qed.

(** *** Taking and giving back a buffer *)
Lemma inv_take op n g s r i b b' : Inv op n g s -> s.(TpRouteBuffers) !! r = Some None ->
  aref s.(TpBuffers) i = Some b -> i < z.(ram_NTp) -> b.(status) = PDUR_BUFFER_FREE ->
  b'.(bufferSize) = b.(bufferSize) -> buffer_ok b' -> in_use b' ->
  Inv op n (<[r := Some (transfer_of b')]> g)
    (set_TpBuffers (<[Z.to_nat i := b']> s.(TpBuffers)) (set_TpRouteBuffers (<[r := Some i]> s.(TpRouteBuffers)) s)).
Proof.
  intros HI Hr Hb Hn Hfree Hsize Hok Huse. pose proof HI as [].
  pose proof Hb as [Hi Hb']%aref_Some. assert (Hlt : (Z.to_nat i < length s.(TpBuffers))%nat) by (by eapply lookup_lt_Some).
  assert (Hrl : (r < length s.(TpRouteBuffers))%nat) by (by eapply lookup_lt_Some).
  assert (Hnot : forall r', s.(TpRouteBuffers) !! r' <> Some (Some i)).
  { intros r' Hr'. destruct (i_use0 r' i Hr') as (b0 & Hb0 & [Ha _] & _). rewrite Hb in Hb0. injection Hb0 as <-.
    by rewrite Hfree in Ha. }
  pose proof (fun j => aref_insert _ i j _ b' Hb) as Haref.
  assert (Hroute : forall r' j, <[r:=Some i]> s.(TpRouteBuffers) !! r' = Some (Some j) <->
    (r' = r /\ j = i) \/ (r' <> r /\ s.(TpRouteBuffers) !! r' = Some (Some j))).
  { intros r' j. destruct (decide (r' = r)) as [->|Hne].
    - rewrite list_lookup_insert_eq by done. naive_solver.
    - rewrite list_lookup_insert_ne by done. naive_solver. }
  split; cbn; try done.
  - rewrite <- i_ram0. unfold ram. cbn. rewrite length_insert. f_equal. rewrite list_fmap_insert, Hsize.
    apply list_insert_id. by rewrite list_lookup_fmap, Hb'.
  - by apply Forall_insert.
  - intros r' j [[-> ->]|[Hne Hj]]%Hroute; rewrite Haref.
    + rewrite decide_True by done. by exists b'.
    + rewrite decide_False by naive_solver. eauto.
  - intros r1 r2 j [[-> ->]|[Hne Hj]]%Hroute [[-> E]|[Hne2 Hj2]]%Hroute; naive_solver.
  - intros j b0 Hj Hjn Hs. destruct (decide (j = Z.to_nat i)) as [->|Hne].
    + exists r. apply Hroute. left. split; [done|lia].
    + rewrite list_lookup_insert_ne in Hj by done. destruct (i_pool0 j b0 Hj Hjn Hs) as [r' Hr'].
      exists r'. apply Hroute. right. split; [|done]. intros ->. rewrite Hr in Hr'. done.
  - intros r' Ho Hd. destruct (i_open0 r' Ho Hd) as (j & b0 & Hj & Hb0 & Hs). exists j, b0. split_and!; [|by rewrite Haref; rewrite decide_False by naive_solver|done].
    apply Hroute. right. split; [|done]. intros ->. rewrite Hr in Hj. done.
  - apply list_eq. intros k. unfold gateway. rewrite list_lookup_fmap. cbn [TpRouteBuffers TpBuffers set_TpBuffers set_TpRouteBuffers].
    assert (Hgl : length g = length s.(TpRouteBuffers)) by (rewrite <- i_gateway0; apply length_fmap).
    destruct (decide (k = r)) as [->|Hk].
    + rewrite !list_lookup_insert_eq by lia. cbn. by rewrite Haref, decide_True by done.
    + rewrite !list_lookup_insert_ne by done. rewrite (inv_gateway _ _ _ _ k HI).
      destruct (s.(TpRouteBuffers) !! k) as [[j|]|] eqn:Ek; [|done..]. cbn. rewrite Haref, decide_False by naive_solver. done.
Qed.

Lemma inv_give op n g s r i b b' : Inv op n g s -> s.(TpRouteBuffers) !! r = Some (Some i) ->
  aref s.(TpBuffers) i = Some b -> b'.(bufferSize) = b.(bufferSize) -> buffer_ok b' -> b'.(status) = PDUR_BUFFER_FREE ->
  (op r = true -> direct c r -> False) ->
  Inv op n (<[r := None]> g)
    (set_TpRouteBuffers (<[r := None]> s.(TpRouteBuffers)) (set_TpBuffers (<[Z.to_nat i := b']> s.(TpBuffers)) s)).
Proof.
  intros HI Hr Hb Hsize Hok Hfree Hop. pose proof HI as [].
  pose proof Hb as [Hi Hb']%aref_Some. assert (Hlt : (Z.to_nat i < length s.(TpBuffers))%nat) by (by eapply lookup_lt_Some).
  assert (Hrl : (r < length s.(TpRouteBuffers))%nat) by (by eapply lookup_lt_Some).
  assert (Haref : forall j, j <> i -> aref (<[Z.to_nat i:=b']> s.(TpBuffers)) j = aref s.(TpBuffers) j).
  { intros j Hj. by rewrite (aref_insert _ _ _ _ _ Hb), decide_False. }
  assert (Hroute : forall r' j, <[r:=None]> s.(TpRouteBuffers) !! r' = Some (Some j) ->
    r' <> r /\ s.(TpRouteBuffers) !! r' = Some (Some j) /\ j <> i).
  { intros r' j Hj. destruct (decide (r' = r)) as [->|Hne]; [by rewrite list_lookup_insert_eq in Hj|].
    rewrite list_lookup_insert_ne in Hj by done. split_and!; [done..|]. intros ->. by apply Hne, (i_inj0 r' r i). }
  split; cbn; try done.
  - rewrite <- i_ram0. unfold ram. cbn. rewrite length_insert. f_equal. rewrite list_fmap_insert, Hsize.
    apply list_insert_id. by rewrite list_lookup_fmap, Hb'.
  - by apply Forall_insert.
  - intros r' j (Hne & Hj & Hji)%Hroute. rewrite Haref by done. eauto.
  - intros r1 r2 j (_ & H1 & _)%Hroute (_ & H2 & _)%Hroute. eauto.
  - intros j b0 Hj Hjn Hs. destruct (decide (j = Z.to_nat i)) as [->|Hne].
    + rewrite list_lookup_insert_eq in Hj by done. by injection Hj as <-.
    + rewrite list_lookup_insert_ne in Hj by done. destruct (i_pool0 j b0 Hj Hjn Hs) as [r' Hr'].
      exists r'. rewrite list_lookup_insert_ne; [done|]. intros <-. rewrite Hr in Hr'. injection Hr' as ->. lia.
  - intros r' Ho Hd. destruct (i_open0 r' Ho Hd) as (j & b0 & Hj & Hb0 & Hs). exists j, b0.
    assert (r' <> r) by (intros ->; by apply Hop). split_and!; [by rewrite list_lookup_insert_ne| |done].
    rewrite Haref; [done|]. intros ->. by apply H, (i_inj0 r' r i).
  - apply list_eq. intros k. unfold gateway. rewrite list_lookup_fmap. cbn [TpRouteBuffers TpBuffers set_TpBuffers set_TpRouteBuffers].
    assert (Hgl : length g = length s.(TpRouteBuffers)) by (rewrite <- i_gateway0; apply length_fmap).
    destruct (decide (k = r)) as [->|Hk]; [by rewrite !list_lookup_insert_eq by lia|].
    rewrite !list_lookup_insert_ne by done. rewrite (inv_gateway _ _ _ _ k HI).
    destruct (s.(TpRouteBuffers) !! k) as [[j|]|] eqn:Ek; [|done..]. cbn. rewrite Haref; [done|].
    intros ->. by apply Hk, (i_inj0 k r i).
Qed.
End Inv.
