(* ===== verification/PduR_Safety.v ===== *)
(** * PDU router: what each operation does

    With a valid configuration no operation faults, each keeps the invariant, leaves the interrupt lock as it was, and
    changes the gateways in one way only. *)

From S2P Require Import Prelude.
From S2P Require Import StateMonad.
From S2P Require Import Os_Irq.
From S2P Require Import ComStack.
From S2P Require Import PduR_Types.
From S2P Require Import PduR.
From S2P Require Import PduR_Inv.

#[local] Open Scope monad_scope.

Section Rules.
Context {W : Type} {Cfg : PduR_Cfg} {Env : PduR_Env W}.
Variables (c : PduR_PBConfigType) (z : Ram) (o0 : Irq).
Hypothesis Hirq : irq_ok o0.
Hypothesis Hroom : o0.(Os_IntSuspendAllCnt) <= 100.
Hypothesis Hvalid : valid c z.
Abbreviation T := (M (PduR_State W)).
Abbreviation I := (Inv (W := W) c z o0).
Abbreviation any := (fun _ => True).

(** ** A path with a buffer

    [Hold op n g id i b]: the buffer [b], the [i]-th one, is in use by the path [id]; [g] says what the other paths do. *)
Record Hold op n g (id i : Z) (b : PduRTpBufferInfo_type) (s : PduR_State W) : Prop := {
  h_inv : I op n (<[Z.to_nat id := Some (transfer_of b)]> g) s;
  h_id : 0 <= id;
  h_route : s.(TpRouteBuffers) !! Z.to_nat id = Some (Some i);
  h_buffer : aref s.(TpBuffers) i = Some b
}.
Lemma hold op n g s id i : I op n g s -> 0 <= id -> s.(TpRouteBuffers) !! Z.to_nat id = Some (Some i) ->
  exists b, Hold op n g id i b s /\ g !! Z.to_nat id = Some (Some (transfer_of b)).
Proof using Type.
  intros HI Hid Hr. destruct (inv_held _ _ _ _ _ _ _ _ _ HI Hr) as (b & Hb & _ & _ & Hg). exists b. split; [|done].
  split; try done. by rewrite list_insert_id.
Qed.
Lemma hold_use op n g id i b s : Hold op n g id i b s -> in_use b /\ buffer_ok b.
Proof using Type.
  intros [HI _ Hr Hb]. destruct (inv_held _ _ _ _ _ _ _ _ _ HI Hr) as (b' & Hb' & Hu & Ho & _).
  rewrite Hb in Hb'. by injection Hb' as <-.
Qed.
Lemma hold_release op n g id i b s g' : Hold op n g id i b s -> g !! Z.to_nat id = Some (Some (transfer_of b)) -> g' = g ->
  I op n g' s.
Proof using Type. intros [HI _ _ _] Hg ->. by rewrite list_insert_id in HI. Qed.
(** Assertions that the environment does not touch. *)
Class Stable (P : PduR_State W -> Prop) : Prop := stable : forall s w, P s -> P (set_world w s).
#[local] Instance stable_inv op n g : Stable (I op n g).
Proof using Type. by intros s w []. Qed.
#[local] Instance stable_hold op n g id i b : Stable (Hold op n g id i b).
Proof using Type. intros s w []. split; [by apply stable_inv|done..]. Qed.

Lemma spec_pdur_call {A} P (f : W -> A * W) : Stable P -> spec P (call f) any P.
Proof using Type. intros HP s Hs. unfold wp, call. destruct (f (world s)) as [a w]. split; [done|by apply HP]. Qed.
Lemma spec_pdur_notify P f : Stable P -> spec P (notify f) any P.
Proof using Type. apply spec_pdur_call. Qed.
Lemma spec_pdur_DET P api err : Stable P -> spec P (PDUR_DET_REPORTERROR api err) any P.
Proof using Type. intros HP. unfold PDUR_DET_REPORTERROR. destruct PDUR_DEV_ERROR_DETECT; [by apply spec_pdur_notify|by apply spec_ret]. Qed.
Lemma spec_BUFFER_ERROR P api : Stable P -> spec P (REPORT_BUFFER_ERROR api) any P.
Proof using Type. apply spec_pdur_DET. Qed.

(** ** The exclusive area, the configuration *)
Lemma spec_pdur_Enter op n g : spec (I op n g) SchM_Enter_PduR_EA_0 any (I op (S n) g).
Proof using Type. apply spec_modify. intros s []. split; try done. cbn. by f_equal. Qed.
Lemma spec_pdur_Exit op n g : (n <= 20)%nat -> spec (I op (S n) g) SchM_Exit_PduR_EA_0 any (I op n g).
Proof using Hirq Hroom.
  intros Hn. apply spec_modify. intros s []. split; try done. cbn. rewrite i_os. by apply resume_suspend, areas_ok.
Qed.

Lemma spec_Enter_held op n g id i b : spec (Hold op n g id i b) SchM_Enter_PduR_EA_0 any (Hold op (S n) g id i b).
Proof using Type. intros s [HI H0 Hr Hb]. split; [done|]. split; try done. by apply (spec_pdur_Enter op n _ s HI). Qed.

(** Assertions with the invariant in them. *)
Class Based (P : PduR_State W -> Prop) : Prop :=
  based : forall s, P s -> s.(PduRConfig) = Some c /\ s.(PduRState) = PDUR_ONLINE /\ ram s = z.
#[local] Instance based_inv op n g : Based (I op n g).
Proof using Type. by intros s []. Qed.
#[local] Instance based_hold op n g id i b : Based (Hold op n g id i b).
Proof using Type. by intros s [[] _ _]. Qed.

Lemma spec_pdur_cfg P : Based P -> spec P cfg (fun x => x = c) P.
Proof using Type.
  intros HP. unfold cfg. eapply spec_bind; [apply (spec_get _ _ (fun x => x = Some c)); intros s Hs; by apply HP|].
  by intros ? ->; apply spec_deref_is.
Qed.
Lemma spec_routing_path P id p : Based P -> aref c.(RoutingPaths) id = Some p -> spec P (routing_path id) (fun x => x = p) P.
Proof using Type. intros HP Hp. unfold routing_path. eapply spec_bind; [by apply spec_pdur_cfg|]. intros ? ->. by apply spec_deref_is. Qed.

(** The checks that open the services do not stop an initialised module with a valid identifier. *)
Lemma spec_VALIDATE_INITIALIZED {A} P api (err : A) body Phi Q : Based P -> spec P body Phi Q ->
  spec P (PDUR_VALIDATE_INITIALIZED api err body) Phi Q.
Proof using Type.
  intros HP Hb. unfold PDUR_VALIDATE_INITIALIZED.
  eapply spec_bind; [apply (spec_get _ _ (fun x => x = PDUR_ONLINE)); intros s Hs; by apply HP|]. by intros ? ->.
Qed.
Lemma triple_VALIDATE_INITIALIZED {A} P api (err : A) body Q : Based P -> triple P body Q ->
  triple P (PDUR_VALIDATE_INITIALIZED api err body) Q.
Proof using Type.
  intros HP Hb. unfold PDUR_VALIDATE_INITIALIZED.
  eapply triple_spec_bind; [apply (spec_get _ _ (fun x => x = PDUR_ONLINE)); intros s Hs; by apply HP|]. by intros ? ->.
Qed.
Lemma triple_VALIDATE_PDUPTR {A B} P api (p : option B) (err : A) body Q : Based P -> Stable P ->
  (p = None -> forall s, P s -> Q err s) -> (forall info, p = Some info -> triple P (body info) Q) ->
  triple P (PDUR_VALIDATE_PDUPTR api p err body) Q.
Proof using Type.
  intros HP HS He Hb. destruct p as [info|]; cbn [PDUR_VALIDATE_PDUPTR]; [auto|].
  eapply triple_spec_bind; [by apply spec_pdur_DET|]. intros _ _. apply triple_ret. auto.
Qed.
Lemma triple_VALIDATE_PDUID {A} P api id (err : A) body Q : Based P -> Stable P -> 0 <= id ->
  (forall s, P s -> Q err s) ->
  (forall p, aref c.(RoutingPaths) id = Some p -> path_ok z (Z.to_nat id) p -> triple P body Q) ->
  triple P (PDUR_VALIDATE_PDUID api id err body) Q.
Proof using Hvalid.
  intros HP HS Hid He Hb. unfold PDUR_VALIDATE_PDUID. eapply triple_spec_bind; [by apply spec_pdur_cfg|]. intros ? ->.
  rewrite Z.geb_leb. destruct (Z.leb_spec (NRoutingPaths c) id) as [Hle|Hlt].
  - eapply triple_spec_bind; [by apply spec_pdur_DET|]. intros _ _. by apply triple_ret.
  - destruct Hvalid as (_ & _ & _ & _ & _ & Hn & Hpaths & _).
    destruct (aref_is_Some (RoutingPaths c) id) as [p Hp]; [lia|]. apply (Hb p Hp).
    apply aref_Some in Hp as [_ Hp]. by apply Hpaths.
Qed.

(** ** Routing groups *)
Lemma spec_group_enabled P g : Based P -> below g z.(ram_groups) -> spec P (group_enabled g) any P.
Proof using Type.
  intros HP Hg. unfold group_enabled.
  eapply spec_bind; [apply (spec_get _ _ (fun l => length l = ram_groups z)); intros s Hs; destruct (HP s Hs) as (_ & _ & E); by rewrite <- E|].
  intros l Hl. destruct (aref_is_Some l g) as [e He]; [by rewrite Hl|]. by eapply spec_any, spec_deref_is.
Qed.
Lemma spec_groups_enabled P refs i n : Based P -> Forall (fun g => below g z.(ram_groups)) refs -> 0 <= i ->
  i + Z.of_nat n <= Z.of_nat (length refs) -> spec P (groups_enabled refs i n) any P.
Proof using Type.
  intros HP Hrefs. revert i. induction n as [|n IH]; intros i Hi Hn; cbn [groups_enabled]; [by apply spec_ret|].
  destruct (aref_is_Some refs i) as [g Hg]; [lia|]. eapply spec_bind; [by apply spec_deref_is|]. intros ? ->.
  eapply spec_bind; [apply spec_group_enabled; [done|]|].
  { apply aref_Some in Hg as [_ Hg]. by eapply (Forall_lookup_1 _ _ _ _ Hrefs). }
  intros [] _; [apply IH; lia | by apply spec_ret].
Qed.
Lemma spec_RoutingPathEnabled P d : Based P -> groups_ok z d -> spec P (PduRRoutingPathEnabled d) any P.
Proof using Type.
  intros HP [Hn Hr]. unfold PduRRoutingPathEnabled. apply spec_if; intros _; [|by apply spec_ret].
  apply spec_groups_enabled; [done|done|lia|]. destruct (Z.le_gt_cases 0 (NofGroupRefs d)); lia.
Qed.
Lemma spec_SetRoutingPathEnabled op n g id e : below id z.(ram_groups) ->
  spec (I op n g) (PdurSetRoutingPathEnabled id e) any (I op n g).
Proof using Type.
  intros Hid. unfold PdurSetRoutingPathEnabled. eapply spec_bind; [apply spec_group_enabled; [apply _|done]|]. intros _ _.
  apply spec_modify. intros s []. split; try done. rewrite <- i_ram. unfold ram. cbn. by rewrite length_insert.
Qed.

(** ** PduR_Routing.c: the environment is called, nothing else happens *)
Lemma spec_RouteTransmit P d info : Based P -> Stable P -> groups_ok z d -> spec P (PduR_ARC_RouteTransmit d info) any P.
Proof using Type.
  intros HP HS Hd. unfold PduR_ARC_RouteTransmit. eapply spec_bind; [by apply spec_RoutingPathEnabled|]. intros e _.
  apply spec_if; intros _; [|by apply spec_ret].
  eapply spec_bind; [|intros; by apply spec_ret]. destruct (transmit_of _); [by apply spec_pdur_call|by apply (spec_ret _ _ any)].
Qed.
Definition indicable (d : PduRDestPdu_type) (info : PduInfoType) : Prop :=
  d.(DestModule) = ARC_PDUR_DCM -> info.(SduDataPtr) <> [].
Lemma spec_RouteRxIndication P d info : Stable P -> indicable d info -> spec P (PduR_ARC_RouteRxIndication d info) any P.
Proof using Type.
  intros HS Hd. unfold PduR_ARC_RouteRxIndication, indicable in *. cbv zeta.
  destruct (DestModule d) eqn:E; try (by apply spec_ret); try (apply spec_if; intros _; [by apply spec_pdur_notify|by apply spec_ret]).
  apply spec_if; intros _; [|by apply spec_ret]. destruct (SduDataPtr info) as [|x l] eqn:El; [by destruct Hd|].
  eapply spec_bind; [by apply (spec_deref_is _ _ x)|]. intros. by apply spec_pdur_notify.
Qed.
Lemma spec_RouteTpRxIndication P d r : Stable P -> spec P (PduR_ARC_RouteTpRxIndication d r) any P.
Proof using Type.
  intros HS. unfold PduR_ARC_RouteTpRxIndication. cbv zeta.
  destruct (DestModule d); try (by apply spec_ret); (apply spec_if; intros _; [by apply spec_pdur_notify|by apply spec_ret]).
Qed.
Lemma spec_RouteTpTxConfirmation P p r : Stable P -> spec P (PduR_ARC_RouteTpTxConfirmation p r) any P.
Proof using Type.
  intros HS. unfold PduR_ARC_RouteTpTxConfirmation. cbv zeta.
  destruct (SrcModule p); try (by apply spec_ret); (apply spec_if; intros _; [by apply spec_pdur_notify|by apply spec_ret]).
Qed.
Lemma spec_RouteTxConfirmation P p r : Stable P -> spec P (PduR_ARC_RouteTxConfirmation p r) any P.
Proof using Type.
  intros HS. unfold PduR_ARC_RouteTxConfirmation. cbv zeta.
  destruct (SrcModule p); try (by apply spec_ret); (apply spec_if; intros _; [by apply spec_pdur_notify|by apply spec_ret]).
Qed.
Lemma spec_RouteTriggerTransmit P p info : Stable P -> spec P (PduR_ARC_RouteTriggerTransmit p info) any P.
Proof using Type.
  intros HS. unfold PduR_ARC_RouteTriggerTransmit. cbv zeta.
  destruct (SrcModule p); try (by apply spec_ret); (apply spec_if; intros _; [by apply spec_pdur_call|by apply spec_ret]).
Qed.
Lemma spec_RouteCopyRxData P d info size : Stable P -> spec P (PduR_ARC_RouteCopyRxData d info size) any P.
Proof using Type.
  intros HS. unfold PduR_ARC_RouteCopyRxData. cbv zeta.
  destruct (DestModule d); try (by apply spec_ret);
    (apply spec_if; intros _; [eapply spec_bind; [by apply spec_pdur_call|]; intros [] _; by apply spec_ret|by apply spec_ret]).
Qed.
Lemma spec_RouteCopyTxData P p info retry available : Stable P ->
  spec P (PduR_ARC_RouteCopyTxData p info retry available) any P.
Proof using Type.
  intros HS. unfold PduR_ARC_RouteCopyTxData. cbv zeta.
  destruct (SrcModule p); try (by apply spec_ret);
    (apply spec_if; intros _; [eapply spec_bind; [by apply spec_pdur_call|]; intros [[]] _; by apply spec_ret|by apply spec_ret]).
Qed.
Lemma spec_RouteStartOfReception P d len size : Stable P -> spec P (PduR_ARC_RouteStartOfReception d len size) any P.
Proof using Type.
  intros HS. unfold PduR_ARC_RouteStartOfReception. cbv zeta.
  destruct (DestModule d); try (by apply spec_ret);
    (apply spec_if; intros _; [eapply spec_bind; [by apply spec_pdur_call|]; intros [] _; by apply spec_ret|by apply spec_ret]).
Qed.
Lemma spec_copy_to_upper P ds many info r m b : Stable P -> spec P (copy_to_upper ds many info r m b) any P.
Proof using Type.
  intros HS. revert r m b. induction ds as [|d ds IH]; intros r m b; cbn [copy_to_upper]; [by apply spec_ret|].
  apply spec_if; intros _; [|apply IH]. eapply spec_bind; [by apply spec_RouteCopyRxData|]. intros [r' size] _.
  apply spec_if; intros _; [apply IH|]. apply spec_if; intros _; [by apply spec_ret|apply IH].
Qed.
Lemma spec_start_upper P ds many len r m b ok : Stable P -> spec P (start_upper ds many len r m b ok) any P.
Proof using Type.
  intros HS. revert r m b ok. induction ds as [|d ds IH]; intros r m b ok; cbn [start_upper]; [by apply spec_ret|].
  apply spec_if; intros _; [|apply IH]. eapply spec_bind; [by apply spec_RouteStartOfReception|]. intros [r' size] _.
  apply spec_if; intros _; [apply IH|]. apply spec_if; intros _; [by apply spec_ret|apply IH].
Qed.

(** ** Buffers of triggered transmissions *)
(** Assertions that the contents of these buffers do not matter to. *)
Class OverTx (P : PduR_State W -> Prop) : Prop := {
  tx_shape : forall s, P s -> ram s = z /\ Forall (fun b => b.(BufSize) = Z.of_nat (length b.(DataPtr))) s.(TxBuffers);
  tx_set : forall s l, P s -> ram (set_TxBuffers l s) = z -> Forall (fun b => b.(BufSize) = Z.of_nat (length b.(DataPtr))) l ->
    P (set_TxBuffers l s)
}.
#[local] Instance overtx_inv op n g : OverTx (I op n g).
Proof using Type. split; [by intros s []|]. intros s l [] Hr Hl. by split. Qed.
Lemma spec_TxBuffer P id : OverTx P -> below id (length z.(ram_tx)) ->
  spec P (TxBuffer id) (fun b => b.(BufSize) = Z.of_nat (length b.(DataPtr)) /\ aref z.(ram_tx) id = Some b.(BufSize)) P.
Proof using Type.
  intros HP Hid. unfold TxBuffer.
  eapply spec_bind; [apply (spec_get _ _ (fun l => Forall (fun b => b.(BufSize) = Z.of_nat (length b.(DataPtr))) l /\
    BufSize <$> l = ram_tx z)); intros s [Hr Hs]%tx_shape; split; [done|by rewrite <- Hr]|].
  intros l [Hl E]. destruct (aref_is_Some l id) as [b Hb]; [rewrite <- E, length_fmap in Hid; exact Hid|].
  eapply spec_deref; [done|]. apply aref_Some in Hb as [Hb0 Hb]. split; [by eapply (Forall_lookup_1 _ _ _ _ Hl)|].
  apply aref_Some. split; [done|]. by rewrite <- E, list_lookup_fmap, Hb.
Qed.
Definition fits_tx (id : Z) (len : nat) : Prop := from_option (fun n => Z.of_nat len <= n) False (aref z.(ram_tx) id).
Lemma fits_tx_below id len : fits_tx id len -> below id (length z.(ram_tx)).
Proof using Type.
  unfold fits_tx. destruct (aref _ _) as [n|] eqn:E; [|done]. intros _. apply aref_Some in E as [? E%lookup_lt_Some].
  unfold below. lia.
Qed.
Lemma spec_write_TxBuffer P id data : OverTx P -> fits_tx id (length data) -> spec P (write_TxBuffer id data) any P.
Proof using Type.
  intros HP Hfit. unfold write_TxBuffer. eapply spec_bind; [by apply spec_TxBuffer, (fits_tx_below _ _ Hfit)|].
  intros b [Hb Hz]. unfold fits_tx in Hfit. rewrite Hz in Hfit. cbn in Hfit.
  eapply spec_bind; [apply spec_deref_is, write_bytes_in; lia|]. intros ? ->. apply spec_modify.
  intros s Hs. destruct (tx_shape _ Hs) as [Hr Hl]. apply tx_set; [done|..].
  - rewrite <- Hr. unfold ram. cbn. f_equal. rewrite list_fmap_insert. apply list_insert_id.
    rewrite <- Hr in Hz. apply aref_Some in Hz as [_ Hz]. exact Hz.
  - apply Forall_insert; [done|]. cbn. rewrite length_patch; [done|cbn; lia].
Qed.

(** ** The buffer of a path *)
Lemma triple_route {A} op n g id (k : option Z -> T A) Q : below id z.(ram_routes) ->
  triple (fun s => I op n g s /\ s.(TpRouteBuffers) !! Z.to_nat id = Some None) (k None) Q ->
  (forall i b, g !! Z.to_nat id = Some (Some (transfer_of b)) -> in_use b -> buffer_ok b ->
     triple (Hold op n g id i b) (k (Some i)) Q) ->
  triple (I op n g) (let* p := PduRTpRouteBuffer id in k p) Q.
Proof using Type.
  intros Hid Hnone Hsome s HI. unfold PduRTpRouteBuffer. apply wp_bind, wp_bind, wp_get.
  destruct (aref_is_Some (TpRouteBuffers s) id) as [p Hp].
  { pose proof (i_ram _ _ _ _ _ _ _ HI) as E. rewrite <- E in Hid. exact Hid. }
  eapply wp_deref; [exact Hp|]. apply aref_Some in Hp as [H0 Hp]. destruct p as [i|]; [|by apply Hnone].
  destruct (hold _ _ _ _ _ _ HI H0 Hp) as (b & Hh & Hg). destruct (hold_use _ _ _ _ _ _ _ Hh). by eapply Hsome.
Qed.

Section Held.
Variables (op : nat -> bool) (n : nat) (g : Gateway) (id i : Z).
Abbreviation H := (Hold op n g id i).

Lemma spec_TpRouteBuffer_held b : spec (H b) (PduRTpRouteBuffer id) (fun p => p = Some i) (H b).
Proof using Type.
  intros s Hs. unfold PduRTpRouteBuffer. apply wp_bind, wp_get. eapply wp_deref; [|by split].
  apply aref_Some. split; apply Hs.
Qed.
Lemma spec_TpBuffer_held b : spec (H b) (PduRTpBuffer i) (fun x => x = b) (H b).
Proof using Type.
  intros s Hs. unfold PduRTpBuffer. apply wp_bind, wp_get. eapply wp_deref; [|by split]. apply Hs.
Qed.
Lemma spec_RouteBuffer_held b : spec (H b) (RouteBuffer id) (fun x => x = b) (H b).
Proof using Type.
  unfold RouteBuffer. eapply spec_bind; [apply spec_TpRouteBuffer_held|]. intros ? ->.
  eapply spec_bind; [by apply spec_deref_is|]. intros ? ->. apply spec_TpBuffer_held.
Qed.

(** What may be assigned to a buffer in use. *)
Definition may_become (b b' : PduRTpBufferInfo_type) : Prop :=
  b'.(bufferSize) = b.(bufferSize) /\ buffer_ok b' /\ in_use b' /\
  (op (Z.to_nat id) = true -> direct c (Z.to_nat id) -> receiving b'.(status) = true).
Lemma spec_upd_RouteBuffer b f : may_become b (f b) -> spec (H b) (upd_RouteBuffer id f) any (H (f b)).
Proof using Type.
  intros (Hs & Ho & Hu & Hop). unfold upd_RouteBuffer, upd_TpBuffer.
  eapply spec_bind; [apply spec_TpRouteBuffer_held|]. intros ? ->.
  eapply spec_bind; [by apply spec_deref_is|]. intros ? ->.
  eapply spec_bind; [apply spec_TpBuffer_held|]. intros ? ->. apply spec_modify. intros s [HI H0 Hr Hb]. split; try done.
  - rewrite <- (list_insert_insert_eq g (Z.to_nat id) _ (Some (transfer_of b))). by eapply inv_set_buffer.
  - cbn. by rewrite (aref_insert _ _ _ _ _ Hb), decide_True.
Qed.
Lemma spec_free b : (op (Z.to_nat id) = true -> direct c (Z.to_nat id) -> False) ->
  spec (H b) (free_RouteBuffer id) any (I op n (<[Z.to_nat id := None]> g)).
Proof using Type.
  intros Hop s Hs. destruct (hold_use _ _ _ _ _ _ _ Hs) as [_ Ho]. destruct Hs as [HI H0 Hr Hb].
  assert (Hra : aref s.(TpRouteBuffers) id = Some (Some i)) by (by apply aref_Some).
  set (b' := set_nAcc 0 (set_status PDUR_BUFFER_FREE b)).
  pose proof (inv_give c z o0 op n _ s (Z.to_nat id) i b b' HI Hr Hb eq_refl Ho eq_refl Hop) as HI'.
  rewrite list_insert_insert_eq in HI'.
  unfold wp, free_RouteBuffer, upd_RouteBuffer, upd_TpBuffer, put_TpRouteBuffer, PduRTpRouteBuffer, PduRTpBuffer, bind, get, deref,
    modify. cbn. rewrite Hra. cbn. rewrite Hb. cbn. rewrite Hra. cbn. rewrite (aref_insert _ _ _ _ _ Hb), decide_True by done.
  cbn. rewrite Hra. cbn. split; [done|]. unfold set_TpRouteBuffers, set_TpBuffers in *. cbn in *.
  rewrite list_insert_insert_eq. exact HI'.
Qed.
Lemma may_become_status b st : in_use b -> buffer_ok b -> active st = true ->
  (op (Z.to_nat id) = true -> direct c (Z.to_nat id) -> receiving st = true) -> may_become b (set_status st b).
Proof using Type. intros (_ & Hu) Ho Ha Hop. split_and!; [done|done|by split|done]. Qed.
End Held.

(** ** Allocation *)
Lemma wp_upd_TpBuffer i b f (Q : unit -> PduR_State W -> Prop) s : aref s.(TpBuffers) i = Some b ->
  Q tt (set_TpBuffers (<[Z.to_nat i := f b]> s.(TpBuffers)) s) -> wp (upd_TpBuffer i f) Q s.
Proof using Type.
  intros Hb HQ. unfold upd_TpBuffer, PduRTpBuffer. apply wp_bind, wp_bind, wp_get. by eapply wp_deref.
Qed.
Lemma wp_upd_RouteBuffer id i b f (Q : unit -> PduR_State W -> Prop) s : aref s.(TpRouteBuffers) id = Some (Some i) ->
  aref s.(TpBuffers) i = Some b ->
  Q tt (set_TpBuffers (<[Z.to_nat i := f b]> s.(TpBuffers)) s) -> wp (upd_RouteBuffer id f) Q s.
Proof using Type.
  intros Hr Hb HQ. unfold upd_RouteBuffer, PduRTpRouteBuffer. apply wp_bind, wp_bind, wp_get. eapply wp_deref; [done|].
  apply wp_bind. eapply wp_deref; [done|]. by eapply wp_upd_TpBuffer.
Qed.

Definition fresh_transfer (len : Z) : Transfer :=
  {| total := len; got := []; sent := replicate PDUR_MAX_GW_DESTINATIONS 0 |}.
Definition idle op n g (id : Z) (s : PduR_State W) : Prop := I op n g s /\ s.(TpRouteBuffers) !! Z.to_nat id = Some None.

(** None of the first [i] buffers is free and large enough. *)
Definition full (len i : Z) (l : list PduRTpBufferInfo_type) : Prop := forall j b, 0 <= j < i -> aref l j = Some b ->
  b.(status) = PDUR_BUFFER_FREE -> b.(bufferSize) < len.
(** After a successful allocation the path has a buffer, otherwise nothing has changed: there was none to take. *)
Definition allocated op n g id len l (r : BufReq_ReturnType) (s : PduR_State W) : Prop :=
  (r = BUFREQ_OK /\ exists i b, Hold op n g id i b s /\ b.(status) = PDUR_BUFFER_RX_READY /\ transfer_of b = fresh_transfer len) \/
  (r <> BUFREQ_OK /\ idle op n g id s /\ full len z.(ram_NTp) l).

Lemma triple_allocate op n g id len l i k r : 0 <= id -> 0 <= len -> 0 <= i -> i + Z.of_nat k = z.(ram_NTp) -> r <> BUFREQ_OK ->
  triple (fun s => idle op n g id s /\ s.(TpBuffers) = l /\ full len i l) (allocate id len i k r) (allocated op n g id len l).
Proof using Hvalid.
  intros Hid Hlen. revert i r. induction k as [|k IH]; intros i r Hi Hk Hr; cbn [allocate].
  { apply triple_ret. intros s (Hs & El & Hf). right. replace z.(ram_NTp) with i by lia. by split_and!. }
  intros s ([HI Hroute] & El & Hf). unfold PduRTpBuffer. apply wp_bind, wp_bind, wp_get.
  destruct (aref_is_Some (TpBuffers s) i) as [b Hb].
  { destruct Hvalid as ([_ Hn] & _). pose proof (i_ram _ _ _ _ _ _ _ HI) as E. rewrite <- E in Hn, Hk. cbn in Hn, Hk.
    rewrite length_fmap in Hn. lia. }
  assert (Hnext : (status b = PDUR_BUFFER_FREE -> bufferSize b < len) -> full len (i + 1) l).
  { intros Hb' j b' Hj Hbj Hst. destruct (decide (j = i)) as [->|]; [|by eapply Hf; [|exact Hbj|]; [lia|]].
    rewrite <- El, Hb in Hbj. injection Hbj as <-. auto. }
  eapply wp_deref; [exact Hb|]. destruct (decide (status b = PDUR_BUFFER_FREE)) as [Hfree|Hfree].
  2: { rewrite bool_decide_eq_false_2 by done. apply IH; [lia|lia|done|]. split_and!; [done|done|by apply Hnext]. }
  rewrite bool_decide_eq_true_2 by done. destruct (Z.ltb_spec (bufferSize b) len).
  { apply IH; [lia|lia|done|]. split_and!; [done|done|by apply Hnext]. }
  assert (Hok : buffer_ok b). { eapply Forall_lookup_1; [apply HI|]. apply aref_Some in Hb as [_ Hb]. exact Hb. }
  set (b1 := set_pduInfoPtr {| SduDataPtr := b.(pduInfoPtr).(SduDataPtr); SduLength := len |} b).
  set (b2 := set_status PDUR_BUFFER_RX_READY b1). set (b3 := set_txByteCount (replicate PDUR_MAX_GW_DESTINATIONS 0) b2).
  set (b4 := set_rxByteCount 0 b3).
  assert (Hra : aref s.(TpRouteBuffers) id = Some None) by (by apply aref_Some).
  unfold put_TpRouteBuffer, PduRTpRouteBuffer. apply wp_bind, wp_bind, wp_bind, wp_get. eapply wp_deref; [exact Hra|].
  apply wp_modify, wp_bind. eapply wp_upd_TpBuffer; [exact Hb|].
  assert (Hrb : aref (<[Z.to_nat id := Some i]> s.(TpRouteBuffers)) id = Some (Some i))
    by (by rewrite (aref_insert _ _ _ _ _ Hra), decide_True).
  assert (Hins : forall x, aref (<[Z.to_nat i := x]> s.(TpBuffers)) i = Some x)
    by (intros x; by rewrite (aref_insert _ _ _ _ _ Hb), decide_True).
  apply wp_bind. eapply (wp_upd_RouteBuffer _ _ b1); [exact Hrb|apply Hins|]. cbn -[set_status]. rewrite list_insert_insert_eq.
  apply wp_bind. eapply (wp_upd_RouteBuffer _ _ b2); [exact Hrb|apply Hins|]. cbn -[set_txByteCount]. rewrite list_insert_insert_eq.
  apply wp_bind. eapply (wp_upd_RouteBuffer _ _ b3); [exact Hrb|apply Hins|]. cbn -[set_rxByteCount]. rewrite list_insert_insert_eq.
  apply wp_ret. left. split; [done|]. exists i, b4.
  assert (HI' : I op n (<[Z.to_nat id := Some (transfer_of b4)]> g)
    (set_TpBuffers (<[Z.to_nat i := b4]> s.(TpBuffers)) (set_TpRouteBuffers (<[Z.to_nat id := Some i]> s.(TpRouteBuffers)) s))).
  { eapply inv_take; try done; [lia| |].
    - split; [apply Hok|done].
    - split_and!; [done|cbn;lia|cbn;lia|cbn; lia|]. apply Forall_replicate. cbn. lia. }
  split_and!; [split; try done|done|].
  - apply aref_Some in Hrb as [_ Hrb]. exact Hrb.
  - cbn. apply Hins.
  - unfold transfer_of, fresh_transfer. cbn. by rewrite take_0.
Qed.
Lemma triple_AllocateBuffer op n g id len l : (n <= 20)%nat -> 0 <= id -> 0 <= len ->
  triple (fun s => idle op n g id s /\ s.(TpBuffers) = l) (PduR_ARC_AllocateBuffer id len) (allocated op n g id len l).
Proof using Hvalid Hirq Hroom.
  intros Hn Hid Hlen. unfold PduR_ARC_AllocateBuffer.
  eapply (triple_spec_bind _ (fun s => idle op (S n) g id s /\ s.(TpBuffers) = l) (fun _ => True)).
  { intros s [[HI Hr] El]. destruct (spec_pdur_Enter op n g s HI) as [_ HI']. by split. }
  intros _ _. eapply (triple_spec_bind _ (fun s => idle op (S n) g id s /\ s.(TpBuffers) = l)).
  { apply (spec_get _ _ (fun k => k = ram_NTp z)). intros s [[HI _] _]. by rewrite <- (i_ram _ _ _ _ _ _ _ HI). }
  intros ? ->. eapply triple_bind; [eapply triple_pre; [apply triple_allocate; [done|done|done| |done]|]|].
  2: { intros s [Hs El]. split_and!; [done|exact El|]. intros j b Hj. lia. }
  { destruct Hvalid as (? & _). lia. }
  intros r. eapply (triple_bind _ (fun _ => allocated op n g id len l r)); [|by intros _; apply triple_ret].
  intros s [(-> & i & b & [HI H0 Hr Hb] & Hst & Ht)|(Hr & [HI Hroute] & Hf)].
  - left. split; [done|]. exists i, b. split_and!; [|done..]. destruct (spec_pdur_Exit op n _ Hn s HI) as [_ HI']. by split.
  - right. split; [done|]. destruct (spec_pdur_Exit op n _ Hn s HI) as [_ HI']. split; [by split|exact Hf].
Qed.
End Rules.
