(* ===== verification/PduR_Gateway.v ===== *)
(** * PDU router: the gateways as an abstract machine

    What a client of the transport protocol gateways may rely on: for each routing path a transfer is started, bytes are
    appended to it and every destination fetches them in order.  [gw_step k a g g']: the call [k] with the answer [a] takes
    the gateways from [g] to [g'].  Which receptions succeed depends on the buffers and the environment and is left open;
    what the answers mean is not. *)

From S2P Require Import Prelude.
From S2P Require Import StateMonad.
From S2P Require Import Os_Irq.
From S2P Require Import ComStack.
From S2P Require Import PduR_Types.
From S2P Require Import PduR.
From S2P Require Import PduR_Inv.

(** The calls of the modules around the router; [service] is the identifier the interface of the calling module passes. *)
Inductive Call :=
  | Transmit (id : Z) (info : option PduInfoType) (service : Z)
  | RxIndication (id : Z) (info : option PduInfoType) (service : Z)
  | TxConfirmation (id service : Z)
  | TriggerTransmit (id : Z) (info : option PduInfoType) (service : Z)
  | StartOfReception (id len : Z) (size : option Z) (service : Z)
  | CopyRxData (id : Z) (info : option PduInfoType) (size : option Z) (service : Z)
  | TpRxIndication (id result service : Z)
  | CopyTxData (id : Z) (info : option PduInfoType) (retry : option RetryInfoType) (available : option Z) (service : Z)
  | TpTxConfirmation (id result service : Z)
  | EnableRouting (group : Z) | DisableRouting (group : Z) | GetConfigurationId
  | Init (c : option PduR_PBConfigType).

(** What the gateways depend on of an answer: the code of a buffer request and the data it gave. *)
Record Answer := { code : option BufReq_ReturnType; data : list Z }.
Definition quiet : Answer := {| code := None; data := [] |}.

Definition add_bytes (t : Transfer) (xs : list Z) : Transfer := {| total := t.(total); got := t.(got) ++ xs; sent := t.(sent) |}.
Definition fetched_by (t : Transfer) (d : nat) : Z := default 0 (t.(sent) !! d).
Definition fetch (t : Transfer) (d : nat) (n : Z) : Transfer :=
  {| total := t.(total); got := t.(got); sent := <[d := fetched_by t d + n]> t.(sent) |}.
(** The bytes [info] holds. *)
Definition chunk (info : PduInfoType) : list Z := take (Z.to_nat info.(SduLength)) info.(SduDataPtr).

Section Machine.
Variable c : PduR_PBConfigType.
(** The path is a gateway to a transport protocol; it comes from a lower module. *)
Definition to_tp (id : Z) : bool := from_option (fun p => PduR_ARC_HasTpModuleDest p.(PduRDestPdus)) false (aref c.(RoutingPaths) id).
Definition from_lower (id : Z) : bool := from_option (fun p => negb (PduR_IsUpModule p.(SrcModule))) false (aref c.(RoutingPaths) id).

(** Calls and answers that the gateways must have had a part in. *)
Definition concerns (k : Call) (a : Answer) : bool :=
  bool_decide (a.(code) = Some BUFREQ_OK) &&
  match k with
  | StartOfReception id _ _ _ => to_tp id
  | CopyRxData id _ _ _ => to_tp id
  | CopyTxData id _ _ _ _ => from_lower (sourcePduId id)
  | _ => false
  end.

Inductive gw_step : Call -> Answer -> Gateway -> Gateway -> Prop :=
  | gw_start id len size svc g : 0 <= id ->
      g !! Z.to_nat id = Some None ->
      gw_step (StartOfReception id len size svc) {| code := Some BUFREQ_OK; data := [] |} g
        (<[Z.to_nat id := Some {| total := len; got := []; sent := replicate PDUR_MAX_GW_DESTINATIONS 0 |}]> g)
  | gw_receive id info size svc r t g : 0 <= id ->
      g !! Z.to_nat id = Some (Some t) -> Z.of_nat (length t.(got)) + info.(SduLength) <= t.(total) ->
      r = BUFREQ_OK \/ r = BUFREQ_NOT_OK ->
      gw_step (CopyRxData id (Some info) size svc) {| code := Some r; data := [] |} g
        (<[Z.to_nat id := Some (add_bytes t (chunk info))]> g)
  | gw_refuse id info size svc g : 0 <= id ->
      gw_step (CopyRxData id info size svc) {| code := Some BUFREQ_NOT_OK; data := [] |} g (<[Z.to_nat id := None]> g)
  | gw_fetch id info retry available svc t g : 0 <= sourcePduId id ->
      let src := Z.to_nat (sourcePduId id) in let d := Z.to_nat (destionId id) in
      g !! src = Some (Some t) -> (d < length t.(sent))%nat -> 0 <= info.(SduLength) -> 0 <= fetched_by t d ->
      fetched_by t d + info.(SduLength) <= Z.of_nat (length t.(got)) ->
      gw_step (CopyTxData id (Some info) retry available svc)
        {| code := Some BUFREQ_OK; data := patch info.(SduDataPtr) 0 (segment t.(got) (fetched_by t d) info.(SduLength)) |} g
        (<[src := Some (fetch t d info.(SduLength))]> g)
  | gw_abort id info retry available svc r xs g : 0 <= sourcePduId id ->
      retry <> None -> r = BUFREQ_NOT_OK ->
      gw_step (CopyTxData id info retry available svc) {| code := Some r; data := xs |} g
        (<[Z.to_nat (sourcePduId id) := None]> g)
  | gw_error id result svc g : 0 <= id -> result <> NTFRSLT_OK ->
      gw_step (TpRxIndication id result svc) quiet g (<[Z.to_nat id := None]> g)
  | gw_confirm id result svc g : 0 <= sourcePduId id ->
      gw_step (TpTxConfirmation id result svc) quiet g (<[Z.to_nat (sourcePduId id) := None]> g)
  | gw_confirm_if id svc g : 0 <= id -> gw_step (TxConfirmation id svc) quiet g (<[Z.to_nat id := None]> g)
  | gw_other k a g : concerns k a = false -> gw_step k a g g.

(** What an accepted request means. *)
Ltac gw_cases :=
  match goal with Hs : gw_step _ _ _ _, Ha : code _ = _ |- _ => inversion Hs; subst; cbn in Ha; try congruence end;
  match goal with
  | Hc : concerns _ _ = false |- _ => exfalso; revert Hc; unfold concerns; rewrite bool_decide_eq_true_2 by done; cbn; congruence
  | _ => idtac
  end.
Lemma start_okay id len size svc a g g' : gw_step (StartOfReception id len size svc) a g g' -> a.(code) = Some BUFREQ_OK ->
  to_tp id = true -> a = {| code := Some BUFREQ_OK; data := [] |} /\ g !! Z.to_nat id = Some None /\
  g' = <[Z.to_nat id := Some {| total := len; got := []; sent := replicate PDUR_MAX_GW_DESTINATIONS 0 |}]> g.
Proof. intros Hs Ha Htp. by gw_cases. Qed.
Lemma receive_okay id info size svc a g g' t : gw_step (CopyRxData id (Some info) size svc) a g g' -> a.(code) = Some BUFREQ_OK ->
  to_tp id = true -> g !! Z.to_nat id = Some (Some t) -> g' = <[Z.to_nat id := Some (add_bytes t (chunk info))]> g.
Proof. intros Hs Ha Htp Hg. by gw_cases. Qed.
Lemma fetch_okay k info retry available svc a g g' t : gw_step (CopyTxData k (Some info) retry available svc) a g g' ->
  a.(code) = Some BUFREQ_OK -> from_lower (sourcePduId k) = true -> g !! Z.to_nat (sourcePduId k) = Some (Some t) ->
  (Z.to_nat (destionId k) < length t.(sent))%nat /\
  g' = <[Z.to_nat (sourcePduId k) := Some (fetch t (Z.to_nat (destionId k)) info.(SduLength))]> g.
Proof.
  intros Hs Ha Hl Hg. gw_cases.
  repeat match goal with x := _ : nat |- _ => subst x end.
  match goal with Hg' : g !! _ = Some (Some ?x), _ : 0 <= fetched_by ?x _ |- _ => assert (x = t) as -> by congruence end. by split.
Qed.
Lemma indication_okay id svc a g g' : gw_step (TpRxIndication id NTFRSLT_OK svc) a g g' -> g' = g.
Proof. intros Hs. by inversion Hs; subst. Qed.

(** Histories, the last call first, and the runs that have them. *)
Abbreviation History := (list (Call * Answer)).
Inductive gw_run (g0 : Gateway) : History -> Gateway -> Prop :=
  | gw_nil : gw_run g0 [] g0
  | gw_cons k a h g g' : gw_run g0 h g -> gw_step k a g g' -> gw_run g0 ((k, a) :: h) g'.

(** ** Streams

    What the source of the path [id] has handed over since the start of the transfer, [None] when a part of it was refused, and
    what the destination [d] has fetched. *)
Fixpoint received (id : Z) (h : History) : option (list Z) :=
  match h with
  | [] => None
  | (k, a) :: h =>
      match k with
      | StartOfReception id' _ _ _ =>
          if bool_decide (id' = id) && bool_decide (a.(code) = Some BUFREQ_OK) then Some [] else received id h
      | CopyRxData id' (Some info) _ _ =>
          if bool_decide (id' = id) then
            if bool_decide (a.(code) = Some BUFREQ_OK) then (fun xs => xs ++ chunk info) <$> received id h
            else if bool_decide (a.(code) = Some BUFREQ_NOT_OK) then None else received id h
          else received id h
      | CopyRxData id' None _ _ => if bool_decide (id' = id) then None else received id h
      | _ => received id h
      end
  end.
Fixpoint fetched (id : Z) (d : nat) (h : History) : list Z :=
  match h with
  | [] => []
  | (k, a) :: h =>
      match k with
      | StartOfReception id' _ _ _ =>
          if bool_decide (id' = id) && bool_decide (a.(code) = Some BUFREQ_OK) then [] else fetched id d h
      | CopyTxData id' (Some info) _ _ _ =>
          if bool_decide (sourcePduId id' = id) && bool_decide (Z.to_nat (destionId id') = d) &&
             bool_decide (a.(code) = Some BUFREQ_OK)
          then fetched id d h ++ take (Z.to_nat info.(SduLength)) a.(data) else fetched id d h
      | _ => fetched id d h
      end
  end.

(** The transfer of the path [id] agrees with the history. *)
Definition agrees (id : Z) (h : History) (g : Gateway) : Prop :=
  forall xs, received id h = Some xs ->
  match g !! Z.to_nat id with
  | Some (Some t) => t.(got) = xs /\ length t.(sent) = PDUR_MAX_GW_DESTINATIONS /\
      forall d, (d < PDUR_MAX_GW_DESTINATIONS)%nat -> 0 <= fetched_by t d <= Z.of_nat (length xs) /\
        fetched id d h = take (Z.to_nat (fetched_by t d)) xs
  | _ => forall d, (d < PDUR_MAX_GW_DESTINATIONS)%nat -> fetched id d h `prefix_of` xs
  end.

Lemma agrees_prefix id h g xs d : agrees id h g -> received id h = Some xs -> (d < PDUR_MAX_GW_DESTINATIONS)%nat ->
  fetched id d h `prefix_of` xs.
Proof.
  intros Ha Hx Hd. specialize (Ha xs Hx). destruct (g !! Z.to_nat id) as [[t|]|]; [|by apply Ha..].
  destruct Ha as (_ & _ & Ha). destruct (Ha d Hd) as [_ ->]. apply prefix_take.
Qed.
(** A path that another one's step leaves alone, and one whose transfer ends. *)
Lemma agrees_other id h h' g g' : agrees id h g -> received id h' = received id h ->
  (forall d, fetched id d h' = fetched id d h) -> g' !! Z.to_nat id = g !! Z.to_nat id -> agrees id h' g'.
Proof.
  intros Ha Hr Hf Hg xs Hx. rewrite Hr in Hx. specialize (Ha xs Hx). rewrite Hg.
  destruct (g !! Z.to_nat id) as [[t|]|]; [destruct Ha as (? & ? & Ha); split_and!; [done..|]|..]; intros d Hd; rewrite Hf; auto.
Qed.
Lemma agrees_end id h h' g i : agrees id h g -> received id h' = received id h ->
  (forall d, fetched id d h' = fetched id d h) -> agrees id h' (<[i := None]> g).
Proof.
  intros Ha Hr Hf. destruct (decide (i = Z.to_nat id)) as [->|Hne].
  2: { eapply agrees_other; try done. by apply list_lookup_insert_ne. }
  intros xs Hx. rewrite Hr in Hx. assert (Hp : forall d, (d < PDUR_MAX_GW_DESTINATIONS)%nat -> fetched id d h' `prefix_of` xs).
  { intros d Hd. rewrite Hf. by eapply agrees_prefix. }
  destruct (decide (Z.to_nat id < length g)%nat).
  - by rewrite list_lookup_insert_eq.
  - by rewrite list_insert_ge, lookup_ge_None_2 by lia.
Qed.

Lemma agrees_start id h g len size svc : 0 <= id -> g !! Z.to_nat id = Some None ->
  agrees id ((StartOfReception id len size svc, {| code := Some BUFREQ_OK; data := [] |}) :: h)
    (<[Z.to_nat id := Some {| total := len; got := []; sent := replicate PDUR_MAX_GW_DESTINATIONS 0 |}]> g).
Proof.
  intros Hid Hg xs. cbn [received fetched]. rewrite !bool_decide_eq_true_2 by done. intros [= <-].
  rewrite list_lookup_insert_eq by (by eapply lookup_lt_Some). split_and!; [done|apply length_replicate|].
  intros d Hd. unfold fetched_by. cbn [sent]. rewrite lookup_replicate_2 by done. cbn. by rewrite take_0.
Qed.
Lemma agrees_receive id h g info size svc t : 0 <= id -> g !! Z.to_nat id = Some (Some t) -> agrees id h g ->
  agrees id ((CopyRxData id (Some info) size svc, {| code := Some BUFREQ_OK; data := [] |}) :: h)
    (<[Z.to_nat id := Some (add_bytes t (chunk info))]> g).
Proof.
  intros Hid Hg Ha xs. cbn [received fetched]. rewrite !bool_decide_eq_true_2 by done.
  destruct (received id h) as [ys|] eqn:Ey; [|done]. cbn. intros [= <-]. specialize (Ha ys Ey). rewrite Hg in Ha.
  destruct Ha as (Hgot & Hs & Ha). rewrite list_lookup_insert_eq by (by eapply lookup_lt_Some).
  split_and!; [cbn; by rewrite Hgot|done|]. intros d Hd. destruct (Ha d Hd) as [Hr ->]. unfold fetched_by, add_bytes in *. cbn [sent].
  rewrite length_app, take_app_le by lia. split; [lia|done].
Qed.
Lemma agrees_fetch id h g k info retry available svc t : let d := Z.to_nat (destionId k) in
  sourcePduId k = id -> 0 <= id -> g !! Z.to_nat id = Some (Some t) -> (d < length t.(sent))%nat ->
  0 <= info.(SduLength) -> fetched_by t d + info.(SduLength) <= Z.of_nat (length t.(got)) -> agrees id h g ->
  agrees id ((CopyTxData k (Some info) retry available svc,
      {| code := Some BUFREQ_OK; data := patch info.(SduDataPtr) 0 (segment t.(got) (fetched_by t d) info.(SduLength)) |}) :: h)
    (<[Z.to_nat id := Some (fetch t d info.(SduLength))]> g).
Proof.
  intros d Hk Hid Hg Hd Hlen Hle Ha xs. cbn [received fetched]. intros Hx. specialize (Ha xs Hx). rewrite Hg in Ha.
  destruct Ha as (Hgot & Hs & Ha). rewrite list_lookup_insert_eq by (by eapply lookup_lt_Some).
  split_and!; [done|cbn; by rewrite length_insert|]. intros e He. destruct (Ha e He) as [Hr Hf].
  rewrite (bool_decide_eq_true_2 (sourcePduId k = id)), (bool_decide_eq_true_2 (Some BUFREQ_OK = Some BUFREQ_OK)), Hf by done.
  fold d. unfold fetch, fetched_by in *. cbn [sent data andb]. rewrite Hs in Hd. destruct (decide (d = e)) as [<-|Hne].
  - rewrite bool_decide_eq_true_2, list_lookup_insert_eq by (rewrite ?Hs; done). cbn -[segment patch].
    rewrite Hgot in *. split; [lia|]. unfold patch. rewrite take_0. cbn [app].
    rewrite take_app_le by (rewrite length_segment; lia). rewrite (take_ge (segment _ _ _)) by (rewrite length_segment; lia).
    unfold segment. rewrite take_take_drop. f_equal. lia.
  - rewrite bool_decide_eq_false_2, list_lookup_insert_ne by done. cbn. done.
Qed.

Lemma agrees_step id h g k a g' : 0 <= id -> to_tp id = true -> from_lower id = true ->
  agrees id h g -> gw_step k a g g' -> agrees id ((k, a) :: h) g'.
Proof.
  intros Hid Htp Hlow Ha Hs. destruct Hs as [k len size svc g Hk Hg|k info size svc r t g Hk Hg Hl Hr|k info size svc g Hk|
    k info retry available svc t g Hk src d Hg Hd Hl H0 Hle|k info retry available svc r xs g Hk Hretry ->|
    k result svc g Hk Hres|k result svc g Hk|k svc g Hk|k a g Hc].
  - destruct (decide (k = id)) as [->|Hne]; [by apply agrees_start|].
    eapply agrees_other; [exact Ha|..]; intros; cbn; rewrite ?bool_decide_eq_false_2 by done; try done.
    apply list_lookup_insert_ne. lia.
  - destruct (decide (k = id)) as [->|Hne]; [destruct Hr as [-> | ->]; [by apply agrees_receive|]|].
    + intros xs. cbn. by rewrite bool_decide_eq_true_2.
    + eapply agrees_other; [exact Ha|..]; intros; cbn; rewrite ?bool_decide_eq_false_2 by done; try done.
      apply list_lookup_insert_ne. lia.
  - destruct (decide (k = id)) as [->|Hne].
    + intros xs. cbn. destruct info; by rewrite !bool_decide_eq_true_2 by done.
    + apply agrees_end with h; [done|..]; intros; cbn; destruct info; rewrite ?bool_decide_eq_false_2 by done; done.
  - destruct (decide (sourcePduId k = id)) as [E|Hne].
    + subst id. by apply agrees_fetch.
    + eapply agrees_other; [exact Ha|..]; intros; cbn; rewrite ?bool_decide_eq_false_2 by done; try done.
      apply list_lookup_insert_ne. unfold src. lia.
  - apply agrees_end with h; [done|done|]. intros e. cbn. destruct info; [|done].
    by rewrite (bool_decide_eq_false_2 (Some BUFREQ_NOT_OK = _)), andb_false_r.
  - by apply agrees_end with h.
  - by apply agrees_end with h.
  - by apply agrees_end with h.
  - destruct (decide (received id ((k, a) :: h) = None)) as [En|En]; [intros xs; by rewrite En|].
    eapply agrees_other; [exact Ha|..|done]; unfold concerns in Hc; destruct k; try done; intros; cbn in En |- *.
    all: try destruct info; repeat case_bool_decide; subst; cbn in *; congruence.
Qed.

Lemma agrees_run id h g0 g : 0 <= id -> to_tp id = true -> from_lower id = true -> gw_run g0 h g -> agrees id h g.
Proof. intros Hid Htp Hlow. induction 1 as [|k a h g g' _ IH Hs]; [by intros xs [=]|by eapply agrees_step]. Qed.
End Machine.
