(* ===== verification/PduR_Calls.v ===== *)
(** * PDU router: every call

    What the callers have to respect, and that every call refines a step of the abstract machine of [PduR_Gateway] and
    keeps the invariant. *)

From S2P Require Import Prelude.
From S2P Require Import StateMonad.
From S2P Require Import Os_Irq.
From S2P Require Import ComStack.
From S2P Require Import PduR_Types.
From S2P Require Import PduR.
From S2P Require Import PduR_Inv.
From S2P Require Import PduR_Safety.
From S2P Require Import PduR_Gateway.

#[local] Open Scope monad_scope.

Section Perform.
Context {W : Type} {Cfg : PduR_Cfg} {Env : PduR_Env W}.
Definition perform (k : Call) : M (PduR_State W) Answer :=
  match k with
  | Transmit id info svc => let* _ := PduR_UpTransmit id info svc in ret quiet
  | RxIndication id info svc => let* _ := PduR_LoIfRxIndication id info svc in ret quiet
  | TxConfirmation id svc => let* _ := PduR_LoIfTxConfirmation id svc in ret quiet
  | TriggerTransmit id info svc => let* _ := PduR_LoIfTriggerTransmit id info svc in ret quiet
  | StartOfReception id len size svc =>
      let* r := PduR_LoTpStartOfReception id len size svc in ret {| code := Some r.1; data := [] |}
  | CopyRxData id info size svc =>
      let* r := PduR_LoTpCopyRxData id info size svc in ret {| code := Some r.1; data := [] |}
  | TpRxIndication id result svc => let* _ := PduR_LoTpRxIndication id result svc in ret quiet
  | CopyTxData id info retry available svc =>
      let* r := PduR_LoTpCopyTxData id info retry available svc in ret {| code := Some r.1.1; data := r.1.2 |}
  | TpTxConfirmation id result svc => let* _ := PduR_LoTpTxConfirmation id result svc in ret quiet
  | EnableRouting id => let* _ := PduR_EnableRouting id in ret quiet
  | DisableRouting id => let* _ := PduR_DisableRouting id in ret quiet
  | GetConfigurationId => let* _ := PduR_GetConfigurationId in ret quiet
  | Init c => let* _ := PduR_Init c in ret quiet
  end.
(** The calls in turn; the history of calls and answers grows. *)
Fixpoint run (calls : list Call) (h : list (Call * Answer)) : M (PduR_State W) (list (Call * Answer)) :=
  match calls with
  | [] => ret h
  | k :: calls => let* a := perform k in run calls ((k, a) :: h)
  end.
End Perform.

(** ** The callers *)
Section Callers.
Variables (c : PduR_PBConfigType) (z : Ram).
Definition on_path (id : Z) (P : PduRRoutingPath_type -> Prop) : Prop := from_option P True (aref c.(RoutingPaths) id).
(** The length of a PDU is that of its data or less. *)
Definition info_ok (info : PduInfoType) : Prop := 0 <= info.(SduLength) <= Z.of_nat (length info.(SduDataPtr)).

(** A received PDU fits the buffers of its triggered destinations, transport protocols use the calls for transport protocols on
    paths that are theirs, and do not ask for the retransmission of data. *)
Definition call_ok (k : Call) : Prop :=
  match k with
  | Transmit id _ _ | TxConfirmation id _ | TpTxConfirmation id _ _ => 0 <= id
  | RxIndication id info _ => 0 <= id /\
      from_option (fun info => on_path id (fun p => PduR_IsTpModule p.(SrcModule) = false /\ Forall (fun d => indicable d info /\
        (d.(DataProvision) = PDUR_TRIGGER_TRANSMIT -> PduR_IsLoModule d.(DestModule) = true ->
         info_ok info /\ fits_tx z d.(TxBufferId) (Z.to_nat info.(SduLength)))) p.(PduRDestPdus))) True info
  | TriggerTransmit id info _ => 0 <= id /\
      from_option (fun info => on_path id (fun p => PduR_IsLoModule p.(SrcModule) = true ->
        from_option (fun d => d.(DataProvision) = PDUR_TRIGGER_TRANSMIT ->
          info_ok info /\ fits_tx z d.(TxBufferId) (Z.to_nat info.(SduLength))) True (head p.(PduRDestPdus)))) True info
  | StartOfReception id len _ _ => 0 <= id /\ 0 <= len /\ on_path id (fun p => PduR_IsLoModule p.(SrcModule) = true)
  | CopyRxData id info _ _ => 0 <= id /\ on_path id (fun p => PduR_IsLoModule p.(SrcModule) = true) /\
      from_option info_ok True info
  | TpRxIndication id _ _ => 0 <= id /\ on_path id (fun p => PduR_IsTpModule p.(SrcModule) = true)
  | CopyTxData id info retry _ _ => 0 <= id < 2 ^ 16 /\
      on_path (sourcePduId id) (fun p => PduR_ARC_HasTpModuleDest p.(PduRDestPdus) = true) /\
      from_option info_ok True info /\ from_option (fun r => r.(TpDataState) <> TP_DATARETRY) True retry
  | EnableRouting group | DisableRouting group => 0 <= group
  | GetConfigurationId | Init _ => True
  end.

(** The receptions a transport protocol has in progress: started, no part refused, no result reported. *)
Definition after (k : Call) (a : Answer) (op : nat -> bool) (r : nat) : bool :=
  match k with
  | StartOfReception id _ _ _ => bool_decide (a.(code) = Some BUFREQ_OK) && bool_decide (r = Z.to_nat id) || op r
  | CopyRxData id _ _ _ => negb (bool_decide (a.(code) = Some BUFREQ_NOT_OK) && bool_decide (r = Z.to_nat id)) && op r
  | TpRxIndication id _ _ => negb (bool_decide (r = Z.to_nat id)) && op r
  | _ => op r
  end.
(** Success is reported of a reception in progress. *)
Definition polite (k : Call) (op : nat -> bool) : Prop :=
  match k with
  | TpRxIndication id result _ => result = NTFRSLT_OK ->
      on_path id (fun p => p.(PduRDirectGateway) = true -> PduR_ARC_HasTpModuleDest p.(PduRDestPdus) = true ->
        op (Z.to_nat id) = true)
  | _ => True
  end.
End Callers.

Section Operations.
Context {W : Type} {Cfg : PduR_Cfg} {Env : PduR_Env W}.
Variables (c : PduR_PBConfigType) (z : Ram) (o0 : Irq).
Hypothesis Hirq : irq_ok o0.
Hypothesis Hroom : o0.(Os_IntSuspendAllCnt) <= 100.
Hypothesis Hvalid : valid c z.
Abbreviation T := (M (PduR_State W)).
Abbreviation I := (Inv (W := W) c z o0).
Abbreviation H := (Hold (W := W) c z o0).
Abbreviation any := (fun _ => True).
Existing Instances stable_inv stable_hold based_inv based_hold overtx_inv.

(** What a call leads to. *)
Definition Post (op : nat -> bool) (g : Gateway) (k : Call) (a : Answer) (s : PduR_State W) : Prop :=
  exists g', gw_step c k a g g' /\ I (after k a op) 0 g' s.

Lemma post_same op g k a s : concerns c k a = false -> I (after k a op) 0 g s -> Post op g k a s.
Proof using Type. intros Hc HI. exists g. split; [by apply gw_other|done]. Qed.

(** By whether the path has a buffer. *)
Lemma triple_by_route {A} op n g id (m : T A) Q : below id z.(ram_routes) ->
  (g !! Z.to_nat id = Some None -> triple (idle c z o0 op n g id) m Q) ->
  (forall i b, g !! Z.to_nat id = Some (Some (transfer_of b)) -> in_use b -> buffer_ok b -> triple (H op n g id i b) m Q) ->
  triple (I op n g) m Q.
Proof using Type.
  intros Hid Hnone Hsome s HI. destruct (aref_is_Some (TpRouteBuffers s) id) as [p Hp].
  { pose proof (i_ram _ _ _ _ _ _ _ HI) as E. rewrite <- E in Hid. exact Hid. }
  apply aref_Some in Hp as [H0 Hp]. destruct p as [i|].
  - destruct (hold _ _ _ _ _ _ _ _ _ HI H0 Hp) as (b & Hh & Hg). destruct (hold_use _ _ _ _ _ _ _ _ _ _ Hh). by eapply Hsome.
  - apply Hnone; [|by split]. by rewrite (inv_gateway _ _ _ _ _ _ _ _ HI), Hp.
Qed.
Lemma routes_of id p : aref c.(RoutingPaths) id = Some p -> path_ok z (Z.to_nat id) p -> PduR_IsLoModule p.(SrcModule) = true ->
  PduR_ARC_HasTpModuleDest p.(PduRDestPdus) = true -> id < z.(ram_NRoutes) /\ below id z.(ram_routes).
Proof using Hvalid.
  intros [Hid _]%aref_Some (_ & _ & Hn & _) Hlo Htp. specialize (Hn Hlo Htp).
  destruct Hvalid as (_ & Hr & _). unfold below. lia.
Qed.

Lemma direct_path id p : aref c.(RoutingPaths) id = Some p -> direct c (Z.to_nat id) ->
  p.(PduRDirectGateway) = true /\ PduR_ARC_HasTpModuleDest p.(PduRDestPdus) = true /\ PduR_IsTpModule p.(SrcModule) = true.
Proof using Type. intros [_ Hp]%aref_Some (p' & Hp' & Hd). rewrite Hp in Hp'. by injection Hp' as <-. Qed.

(** ** Calls that leave the gateways alone *)
Lemma triple_quiet {A} op g k (m : T A) : (forall a, concerns c k {| code := None; data := a |} = false) ->
  (forall a, after k a op = op) -> triple (I op 0 g) m (fun _ => I op 0 g) ->
  triple (I op 0 g) (let* _ := m in ret quiet) (Post op g k).
Proof using Type.
  intros Hc Ha Hm. eapply triple_bind; [exact Hm|]. intros x. apply triple_ret. intros s HI. apply post_same; [apply Hc|].
  by rewrite Ha.
Qed.

Lemma spec_route_transmits P ds info st : Based c z P -> Stable P -> Forall (dest_ok z) ds ->
  spec P (route_transmits ds info st) any P.
Proof using Type.
  intros HP HS Hd. revert st. induction Hd as [|d ds [Hd _] _ IH]; intros st; cbn [route_transmits]; [by apply spec_ret|].
  eapply spec_bind; [by apply (spec_RouteTransmit c z)|]. intros. apply IH.
Qed.
Lemma triple_Transmit op g id info svc : 0 <= id ->
  triple (I op 0 g) (PduR_UpTransmit id info svc) (fun _ => I op 0 g).
Proof using Hvalid.
  intros Hid. unfold PduR_UpTransmit, PduR_ARC_Transmit.
  apply (triple_VALIDATE_INITIALIZED c z); [apply _|]. apply (triple_VALIDATE_PDUPTR c z); [apply _..|done|]. intros i _.
  apply (triple_VALIDATE_PDUID c z Hvalid); [apply _|apply _|done|done|]. intros p Hp (_ & Hd & _).
  eapply triple_spec_bind; [by apply (spec_routing_path c z); [apply _|]|]. intros ? ->.
  eapply triple_spec_bind; [by apply spec_route_transmits; [apply _|apply _|]|]. intros. by apply triple_ret.
Qed.

Lemma spec_HAS_BUFFER_STATUS_no op n g id st : 0 <= id -> active st = false ->
  spec (I op n g) (HAS_BUFFER_STATUS id st) (fun b => b = false) (I op n g).
Proof using Hvalid.
  intros Hid Hst. unfold HAS_BUFFER_STATUS.
  eapply spec_bind; [apply (spec_get _ _ (fun k => k = ram_NRoutes z)); intros s HI; by rewrite <- (i_ram _ _ _ _ _ _ _ HI)|].
  intros ? ->. destruct (Z.ltb_spec id (ram_NRoutes z)); [|by apply spec_ret].
  assert (Hb : below id (ram_routes z)) by (destruct Hvalid as (_ & ? & _); unfold below; lia).
  change (triple (I op n g) (let* p := PduRTpRouteBuffer id in match p with None => ret false | Some i =>
    let* b := PduRTpBuffer i in ret (bool_decide (status b = st)) end) (fun b s => b = false /\ I op n g s)).
  apply (triple_route c z o0); [done| |].
  - apply triple_ret. intros s [HI _]. by split.
  - intros i b Hg [Ha _] _. eapply triple_spec_bind; [apply spec_TpBuffer_held|]. intros ? ->. apply triple_ret.
    intros s Hs. split; [apply bool_decide_eq_false_2; intros E; by rewrite E, Hst in Ha|by eapply hold_release].
Qed.
Lemma spec_ReleaseRxBuffer op n g id : 0 <= id -> (op (Z.to_nat id) = true -> direct c (Z.to_nat id) -> False) ->
  spec (I op n g) (PduR_ARC_ReleaseRxBuffer id) any (I op n g).
Proof using Hvalid.
  intros Hid Hop. unfold PduR_ARC_ReleaseRxBuffer.
  eapply spec_bind; [apply (spec_get _ _ (fun k => k = ram_NRoutes z)); intros s HI; by rewrite <- (i_ram _ _ _ _ _ _ _ HI)|].
  intros ? ->. rewrite Z.geb_leb. destruct (Z.leb_spec (ram_NRoutes z) id); [by apply spec_ret|].
  assert (Hb : below id (ram_routes z)) by (destruct Hvalid as (_ & ? & _); unfold below; lia).
  intros s HI. eapply wp_mono; [eapply (triple_route c z o0 op n g id _ (fun _ => I op n g)); [done|..|exact HI]|by auto].
  - apply triple_ret. by intros s' [? _].
  - intros i b Hg Hu Ho. eapply triple_spec_bind; [apply spec_TpBuffer_held|]. intros ? ->.
    destruct (decide (status b = PDUR_BUFFER_ALLOCATED_FROM_UP_MODULE)) as [E|E]; [destruct Hu as [Ha _]; by rewrite E in Ha|].
    rewrite (bool_decide_eq_false_2 _ E). apply triple_if; intros Hst.
    + eapply triple_spec_bind; [apply spec_upd_RouteBuffer, may_become_status; [done..|]; intros H1 H2; by destruct (Hop H1 H2)|]. intros _ _. apply triple_ret.
      intros s' Hs'. by eapply hold_release.
    + apply triple_ret. intros s' Hs'. by eapply hold_release.
Qed.

Lemma spec_rx_indication_to op n g d info : dest_ok z d -> indicable d info ->
  (d.(DataProvision) = PDUR_TRIGGER_TRANSMIT -> PduR_IsLoModule d.(DestModule) = true ->
   info_ok info /\ fits_tx z d.(TxBufferId) (Z.to_nat info.(SduLength))) ->
  spec (I op n g) (rx_indication_to d info) any (I op n g).
Proof using Type.
  intros [Hgr Htt] Hind Hfit. unfold rx_indication_to. apply spec_if; intros Hup; [by apply spec_RouteRxIndication; [apply _|]|].
  apply spec_if; intros Hlo; [|by apply spec_ret].
  assert (Htx : spec (I op n g) (PduR_ARC_RouteTransmit d info) any (I op n g))
    by (by apply (spec_RouteTransmit c z); [apply _|apply _|]).
  assert (Htail : spec (I op n g) (let* st := PduR_ARC_RouteTransmit d info in if bool_decide (st = PDUR_E_OK) then ret tt
    else PDUR_DET_REPORTERROR PDUR_SERVICEID_CANIFRXINDICATION PDUR_E_PDU_INSTANCES_LOST) any (I op n g)).
  { eapply spec_bind; [exact Htx|]. intros st _. apply spec_if; intros _; [by apply spec_ret|apply spec_pdur_DET, _]. }
  destruct (DataProvision d) eqn:E; [by apply spec_ret| |exact Htail].
  unfold PduR_ARC_RxIndicationTT. eapply spec_bind; [by apply (spec_RoutingPathEnabled c z); [apply _|]|]. intros e _.
  eapply (spec_bind _ (I op n g) _ _ _ any); [|intros _ _; exact Htail].
  apply spec_if; intros _; [|by apply spec_ret]. destruct (Hfit eq_refl Hlo) as [Hi Hf].
  eapply spec_bind; [apply spec_deref_is, read_bytes_0; exact Hi|]. intros ? ->. apply (spec_write_TxBuffer z); [apply _|].
  rewrite length_take_le; [done|]. unfold info_ok in Hi. lia.
Qed.
Lemma triple_RxIndication op g id info svc : call_ok c z (RxIndication id info svc) ->
  triple (I op 0 g) (PduR_LoIfRxIndication id info svc) (fun _ => I op 0 g).
Proof using Hvalid.
  intros [Hid Hok]. unfold PduR_LoIfRxIndication, PduR_ARC_RxIndication.
  apply (triple_VALIDATE_INITIALIZED c z); [apply _|]. apply (triple_VALIDATE_PDUPTR c z); [apply _..|done|]. intros i ->.
  apply (triple_VALIDATE_PDUID c z Hvalid); [apply _|apply _|done|done|]. intros p Hp (_ & Hd & _).
  cbn in Hok. unfold on_path in Hok. rewrite Hp in Hok. cbn in Hok. destruct Hok as [Hif Hok].
  eapply triple_spec_bind; [by apply (spec_routing_path c z); [apply _|]|]. intros ? ->.
  eapply triple_spec_bind; [by apply spec_HAS_BUFFER_STATUS_no|]. intros ? ->.
  eapply triple_spec_bind.
  { apply (spec_for_each (I op 0 g)). intros j d Hj. destruct (Forall_lookup_1 _ _ _ _ Hok Hj) as [H1 H2].
    apply spec_rx_indication_to; [by eapply Forall_lookup_1|done|done]. }
  intros _ _. eapply triple_spec_bind; [apply spec_ReleaseRxBuffer; [done|]|intros _ _; by apply triple_ret].
  intros _ Hdir. destruct (direct_path _ _ Hp Hdir) as (_ & _ & ?). congruence.
Qed.

Lemma triple_TriggerTransmit op g id info svc : call_ok c z (TriggerTransmit id info svc) ->
  triple (I op 0 g) (PduR_LoIfTriggerTransmit id info svc) (fun _ => I op 0 g).
Proof using Hvalid Hirq Hroom.
  intros [Hid Hok]. unfold PduR_LoIfTriggerTransmit, PduR_ARC_TriggerTransmit.
  apply (triple_VALIDATE_INITIALIZED c z); [apply _|]. apply (triple_VALIDATE_PDUPTR c z); [apply _..|done|]. intros i ->.
  apply (triple_VALIDATE_PDUID c z Hvalid); [apply _|apply _|done|done|]. intros p Hp (Hne & Hd & _).
  cbn in Hok. unfold on_path in Hok. rewrite Hp in Hok. cbn in Hok.
  eapply triple_spec_bind; [apply spec_pdur_Enter|]. intros _ _.
  eapply triple_spec_bind; [by apply (spec_routing_path c z); [apply _|]|]. intros ? ->.
  eapply (triple_spec_bind _ (I op 1 g) any).
  2: { intros r _. eapply triple_spec_bind; [apply (spec_pdur_Exit c z o0 Hirq Hroom); lia|]. intros _ _. by apply triple_ret. }
  apply spec_if; intros _; [apply spec_RouteTriggerTransmit, _|]. apply spec_if; intros Hlo; [|by apply spec_ret].
  destruct (PduRDestPdus p) as [|d ds]; [cbn in Hne; lia|]. apply Forall_cons_1 in Hd as [[Hgr _] _]. specialize (Hok Hlo). cbn in Hok.
  eapply spec_bind; [by apply spec_deref_is|]. intros ? ->. apply spec_if; intros E; [|by apply spec_ret].
  apply bool_decide_eq_true in E. destruct (Hok E) as [Hi Hf]. pose proof (fits_tx_below _ _ _ Hf).
  eapply spec_bind; [by apply (spec_RoutingPathEnabled c z); [apply _|]|]. intros e _. apply spec_if; intros _; [|by apply spec_ret].
  eapply spec_bind; [by apply (spec_TxBuffer z); [apply _|]|]. intros b [Hb Hz]. unfold fits_tx, info_ok in *. rewrite Hz in Hf. cbn in Hf.
  eapply spec_bind; [apply spec_deref_is, read_bytes_0; lia|]. intros ? ->.
  eapply spec_bind; [apply spec_deref_is, write_bytes_in; [lia|rewrite length_take; lia]|]. intros. by apply spec_ret.
Qed.

Lemma spec_for_index P i k body : (forall j, i <= j < i + Z.of_nat k -> spec P (body j) any P) -> spec P (for_index (W := W) i k body) any P.
Proof using Type.
  revert i. induction k as [|k IH]; intros i Hb; cbn [for_index]; [by apply spec_ret|].
  eapply spec_bind; [apply Hb; lia|]. intros _ _. apply IH. intros j Hj. apply Hb. lia.
Qed.
Lemma triple_group op g (m : Z -> PduR_PBConfigType -> T unit) id api :
  (id < c.(NofRoutingPathGroups) -> spec (I op 0 g) (m id c) any (I op 0 g)) ->
  triple (I op 0 g) (let* st := get PduRState in
    if bool_decide (st = PDUR_UNINIT) then PDUR_DET_REPORTERROR api PDUR_E_INVALID_REQUEST
    else let* c := cfg in if id <? c.(NofRoutingPathGroups) then m id c
         else PDUR_DET_REPORTERROR api PDUR_E_ROUTING_PATH_GROUP_ID_INVALID) (fun _ => I op 0 g).
Proof using Type.
  intros Hm. eapply triple_spec_bind; [apply (spec_get _ _ (fun x => x = PDUR_ONLINE)); by intros s []|]. intros ? ->.
  rewrite bool_decide_eq_false_2 by done. eapply triple_spec_bind; [apply (spec_pdur_cfg c z), _|]. intros ? ->.
  eapply triple_spec; [|by intros _ s _ HI; exact HI]. destruct (Z.ltb_spec id (NofRoutingPathGroups c)); [auto|apply spec_pdur_DET, _].
Qed.
Lemma triple_EnableRouting op g id : 0 <= id -> triple (I op 0 g) (PduR_EnableRouting id) (fun _ => I op 0 g).
Proof using Hvalid.
  intros Hid. apply (triple_group op g (fun id c => if PDUR_MAX_NOF_ROUTING_PATH_GROUPS >? 0 then
    PdurSetRoutingPathEnabled id true else ret tt)). intros Hlt. apply spec_if; intros _; [|by apply spec_ret].
  apply spec_SetRoutingPathEnabled. destruct Hvalid as (_ & _ & _ & _ & _ & _ & _ & _ & Hg & _). unfold below. lia.
Qed.
Lemma triple_DisableRouting op g id : 0 <= id -> triple (I op 0 g) (PduR_DisableRouting id) (fun _ => I op 0 g).
Proof using Hvalid.
  intros Hid. apply (triple_group op g (fun id c => if PDUR_MAX_NOF_ROUTING_PATH_GROUPS >? 0 then
    let* _ := PdurSetRoutingPathEnabled id false in let* g := deref (aref c.(RoutingPathGroups) id) in
    for_index 0 (Z.to_nat g.(NofDestinations)) (fun i => let* destPtr := deref (aref g.(Destinations) i) in clear_destination destPtr)
    else ret tt)). intros Hlt. apply spec_if; intros _; [|by apply spec_ret].
  destruct Hvalid as (_ & _ & _ & _ & Htx & _ & _ & Hn & Hg & _ & Hgs & _).
  eapply spec_bind; [apply spec_SetRoutingPathEnabled; unfold below; lia|]. intros _ _.
  destruct (aref_is_Some (RoutingPathGroups c) id) as [gr Hgr]; [lia|]. eapply spec_bind; [by apply spec_deref_is|]. intros ? ->.
  apply aref_Some in Hgr as [_ Hgr]. destruct (Forall_lookup_1 _ _ _ _ Hgs Hgr) as [Hnd Hds].
  apply spec_for_index. intros j Hj. destruct (aref_is_Some (Destinations gr) j) as [d Hd]; [lia|].
  eapply spec_bind; [by apply spec_deref_is|]. intros ? ->. apply aref_Some in Hd as [_ Hd].
  specialize (Forall_lookup_1 _ _ _ _ Hds Hd) as Hb. cbv beta in Hb. unfold clear_destination.
  apply spec_if; intros E; [|by apply spec_ret]. apply andb_true_iff in E as [E1%bool_decide_eq_true E2%negb_true_iff%Z.eqb_neq].
  specialize (Hb E1 E2). eapply spec_bind; [by apply (spec_TxBuffer z); [apply _|]|]. intros b [Hsz Hz]. apply (spec_write_TxBuffer z); [apply _|].
  unfold fits_tx. rewrite Hz, length_replicate. cbn. lia.
Qed.
Lemma triple_GetConfigurationId op g : triple (I op 0 g) PduR_GetConfigurationId (fun _ => I op 0 g).
Proof using Type.
  unfold PduR_GetConfigurationId. eapply triple_spec_bind; [apply (spec_get _ _ (fun x => x = PDUR_ONLINE)); by intros s []|]. intros ? ->.
  rewrite bool_decide_eq_false_2 by done. eapply triple_spec_bind; [apply (spec_pdur_cfg c z), _|]. intros ? ->. by apply triple_ret.
Qed.
Lemma triple_Init_again op g c' : triple (I op 0 g) (PduR_Init c') (fun _ => I op 0 g).
Proof using Type.
  unfold PduR_Init. eapply triple_spec_bind; [apply (spec_get _ _ (fun x => x = PDUR_ONLINE)); by intros s []|]. intros ? ->.
  rewrite bool_decide_eq_false_2 by done. eapply triple_spec; [apply spec_pdur_DET, _|]. by intros _ s _ HI.
Qed.

(** ** The end of a transmission *)
Lemma hold_receiving op n g id i b s : H op n g id i b s -> op (Z.to_nat id) = true -> direct c (Z.to_nat id) ->
  receiving b.(status) = true.
Proof using Type.
  intros [HI _ Hr Hb] Hop Hd. destruct (i_open _ _ _ _ _ _ _ HI _ Hop Hd) as (j & b' & Hj & Hb' & Hne).
  rewrite Hr in Hj. injection Hj as <-. rewrite Hb in Hb'. by injection Hb' as <-.
Qed.
(** A transmission in progress, if there is one, is dealt with by [m]. *)
Lemma triple_busy op g id p (m : T unit) Q : 0 <= id -> (forall s, I op 0 g s -> Q tt s) ->
  (forall i b, in_use b -> buffer_ok b -> b.(status) = PDUR_BUFFER_TX_BUSY -> g !! Z.to_nat id = Some (Some (transfer_of b)) ->
     (op (Z.to_nat id) = true -> direct c (Z.to_nat id) -> False) -> triple (H op 0 g id i b) m Q) ->
  triple (I op 0 g) (let* busy := if PduR_IsLoModule p then HAS_BUFFER_STATUS id PDUR_BUFFER_TX_BUSY else ret false in
                     if busy then m else ret tt) Q.
Proof using Hvalid.
  intros Hid Hno Hm. destruct (PduR_IsLoModule p); [|intros s HI; by apply Hno]. unfold HAS_BUFFER_STATUS.
  intros s HI. apply wp_bind, wp_bind, wp_get. pose proof (i_ram _ _ _ _ _ _ _ HI) as E.
  destruct (Z.ltb_spec id (NTpRouteBuffers s)) as [Hlt|]; [|by apply Hno].
  assert (Hb : below id (ram_routes z)) by (destruct Hvalid as (_ & Hr & _); rewrite <- E in Hr |- *; cbn in *; unfold below; lia).
  clear E Hlt. revert s HI. change (triple (I op 0 g) (let* p := PduRTpRouteBuffer id in
    match p with None => ret false | Some i => let* b := PduRTpBuffer i in ret (bool_decide (status b = PDUR_BUFFER_TX_BUSY)) end)
    (fun busy s => wp (if busy then m else ret tt) Q s)).
  apply (triple_route c z o0); [done| |].
  - apply triple_ret. intros s [HI _]. by apply Hno.
  - intros i b Hg Hu Ho. eapply triple_spec_bind; [apply spec_TpBuffer_held|]. intros ? ->. apply triple_ret. intros s Hs.
    destruct (decide (status b = PDUR_BUFFER_TX_BUSY)) as [Hst|Hst].
    + rewrite bool_decide_eq_true_2 by done. eapply Hm; try done. intros Ho1 Hd. pose proof (hold_receiving _ _ _ _ _ _ _ Hs Ho1 Hd) as Hrc. by rewrite Hst in Hrc.
    + rewrite bool_decide_eq_false_2 by done. eapply Hno, hold_release; done.
Qed.
Lemma triple_ReleaseTx op g id i b svc (Q : unit -> PduR_State W -> Prop) : b.(status) = PDUR_BUFFER_TX_BUSY ->
  (op (Z.to_nat id) = true -> direct c (Z.to_nat id) -> False) -> (forall s, I op 0 (<[Z.to_nat id := None]> g) s -> Q tt s) ->
  triple (H op 0 g id i b) (let* st := PduR_ARC_ReleaseTxBuffer id in
    if bool_decide (st = BUFREQ_OK) then ret tt else REPORT_BUFFER_ERROR svc) Q.
Proof using Type.
  intros Hst Hop HQ. unfold PduR_ARC_ReleaseTxBuffer.
  eapply (triple_spec_bind _ (I op 0 (<[Z.to_nat id := None]> g)) (fun r => r = BUFREQ_OK)).
  - eapply spec_bind; [apply spec_TpRouteBuffer_held|]. intros ? ->. eapply spec_bind; [apply spec_TpBuffer_held|]. intros ? ->.
    rewrite bool_decide_eq_true_2 by done. eapply spec_bind; [by apply spec_free|]. intros _ _. by apply spec_ret.
  - intros ? ->. rewrite bool_decide_eq_true_2 by done. by apply triple_ret.
Qed.
Lemma triple_TxConfirmation op g id svc : 0 <= id ->
  triple (I op 0 g) (perform (TxConfirmation id svc)) (Post op g (TxConfirmation id svc)).
Proof using Hvalid.
  intros Hid. cbn [perform]. unfold PduR_LoIfTxConfirmation, PduR_ARC_TxConfirmation.
  eapply (triple_bind _ (fun _ => Post op g (TxConfirmation id svc) quiet)); [|intros _; by apply triple_ret].
  assert (Hq : forall s, I op 0 g s -> Post op g (TxConfirmation id svc) quiet s) by (intros; by apply post_same).
  apply (triple_VALIDATE_INITIALIZED c z); [apply _|].
  apply (triple_VALIDATE_PDUID c z Hvalid); [apply _|apply _|done|done|]. intros p Hp Hok.
  eapply triple_spec_bind; [by apply (spec_routing_path c z); [apply _|]|]. intros ? ->.
  apply triple_if; intros _; [eapply triple_spec; [apply spec_RouteTxConfirmation, _|auto]|].
  apply triple_busy; [done|done|]. intros i b Hu Ho Hst Hg Hop. apply triple_ReleaseTx; [done..|].
  intros s HI. exists (<[Z.to_nat id := None]> g). split; [by constructor|done].
Qed.

Lemma sourcePduId_nonneg id : 0 <= id -> 0 <= sourcePduId id.
Proof using Type. intros Hid. unfold sourcePduId. destruct (_ >=? _); [apply Z.land_nonneg; by left|done]. Qed.

Lemma triple_TpTxConfirmation op g id result svc : 0 <= id ->
  triple (I op 0 g) (perform (TpTxConfirmation id result svc)) (Post op g (TpTxConfirmation id result svc)).
Proof using Hvalid.
  intros Hid. cbn [perform]. unfold PduR_LoTpTxConfirmation, PduR_ARC_TpTxConfirmation. pose proof (sourcePduId_nonneg id Hid) as Hsrc.
  eapply (triple_bind _ (fun _ => Post op g (TpTxConfirmation id result svc) quiet)); [|intros _; by apply triple_ret].
  assert (Hq : forall s, I op 0 g s -> Post op g (TpTxConfirmation id result svc) quiet s) by (intros; by apply post_same).
  apply (triple_VALIDATE_INITIALIZED c z); [apply _|]. cbv zeta.
  apply (triple_VALIDATE_PDUID c z Hvalid); [apply _|apply _|done|done|]. intros p Hp Hok.
  eapply triple_spec_bind; [by apply (spec_routing_path c z); [apply _|]|]. intros ? ->.
  apply triple_if; intros _; [eapply triple_spec; [apply spec_RouteTpTxConfirmation, _|auto]|].
  apply triple_busy; [done|done|]. intros i b Hu Ho Hst Hg Hop.
  set (b' := set_nAcc (u8 (nAcc b + 1)) b).
  eapply (triple_spec_bind _ (H op 0 g (sourcePduId id) i b') any).
  { apply (spec_upd_RouteBuffer c z o0 op 0 g _ i b (fun b => set_nAcc (u8 (nAcc b + 1)) b)). split_and!; [done|done|done|].
    intros H1 H2. by destruct (Hop H1 H2). }
  intros _ _. eapply triple_spec_bind; [apply spec_RouteBuffer_held|]. intros ? ->. apply triple_if; intros _.
  - apply triple_ReleaseTx; [done..|]. intros s HI. exists (<[Z.to_nat (sourcePduId id) := None]> g). split; [by constructor|done].
  - apply triple_ret. intros s Hs. by eapply Hq, hold_release.
Qed.

(** ** Start of a reception *)
Lemma hold_open op n g id i b s op' : H op n g id i b s -> receiving b.(status) = true ->
  (forall r, op' r = true -> op r = true \/ r = Z.to_nat id) -> I op' n (<[Z.to_nat id := Some (transfer_of b)]> g) s.
Proof using Type.
  intros [HI _ Hr Hb] Hst Hop. destruct HI. split; try done. intros r H1 Hd. destruct (Hop r H1) as [Ho| ->]; [by apply i_open|].
  by exists i, b.
Qed.
Definition started op g id (tp : bool) (len : Z) (r : BufReq_ReturnType) (s : PduR_State W) : Prop :=
  (r = BUFREQ_OK /\ tp = true /\ g !! Z.to_nat id = Some None /\
   I (fun r => bool_decide (r = Z.to_nat id) || op r) 0 (<[Z.to_nat id := Some (fresh_transfer len)]> g) s) \/
  ((tp = true -> r <> BUFREQ_OK) /\ I op 0 g s).
#[local] Instance started_stable op g id tp len r : Stable (started op g id tp len r).
Proof using Type.
  intros s w [(-> & -> & Hg & HI)|[Hr HI]]; [left; split_and!; [done..|by apply stable_inv]|right; split; [done|by apply stable_inv]].
Qed.
Lemma triple_start_gateway op g id p len many r m : aref c.(RoutingPaths) id = Some p -> path_ok z (Z.to_nat id) p ->
  PduR_IsLoModule p.(SrcModule) = true -> 0 <= len ->
  triple (I op 0 g) (if bool_decide (r = BUFREQ_OK) && PduR_ARC_HasTpModuleDest p.(PduRDestPdus) then
      let* q := PduRTpRouteBuffer id in
      match q with
      | Some _ => ret (BUFREQ_BUSY, m)
      | None =>
          let* retVal := PduR_ARC_AllocateBuffer id len in
          if bool_decide (retVal = BUFREQ_OK) then
            let* b := RouteBuffer id in ret (retVal, calculateMinBufferSize m b.(bufferSize))
          else if many : bool then ret (BUFREQ_NOT_OK, m) else ret (retVal, m)
      end
    else ret (r, m)) (fun x => started op g id (PduR_ARC_HasTpModuleDest p.(PduRDestPdus)) len x.1).
Proof using Hvalid Hirq Hroom.
  intros Hp Hok Hlo Hlen. apply triple_if.
  2: { intros Hc. apply triple_ret. intros s HI. right. split; [|done]. cbn. intros Htp ->. by rewrite Htp in Hc. }
  intros [_ Htp]%andb_true_iff. destruct (routes_of _ _ Hp Hok Hlo Htp) as [_ Hb]. rewrite Htp.
  apply (triple_route c z o0); [done| |].
  - assert (Hid : 0 <= id) by (by apply aref_Some in Hp as [? _]).
    intros s Hs. assert (Hg : g !! Z.to_nat id = Some None).
    { destruct Hs as [HI Hr]. by rewrite (inv_gateway _ _ _ _ _ _ _ _ HI), Hr. }
    apply wp_bind. eapply wp_mono; [by apply (triple_AllocateBuffer c z o0 Hirq Hroom Hvalid op 0 g id len s.(TpBuffers)); [lia|..]|].
    intros r' s' [(-> & i & b & Hh & Hst & Ht)|(Hr & [HI _] & _)].
    + rewrite bool_decide_eq_true_2 by done. apply wp_bind. eapply wp_mono; [by eapply spec_RouteBuffer_held|].
      intros ? s2 [-> Hs2]. apply wp_ret. left. split_and!; [done..|]. rewrite <- Ht. eapply hold_open; [done|by rewrite Hst|].
      intros k [->%bool_decide_eq_true|?]%orb_true_iff; auto.
    + rewrite bool_decide_eq_false_2 by done. destruct many; apply wp_ret; right; split; done.
  - intros i b Hg _ _. apply triple_ret. intros s Hs. right. split; [done|by eapply hold_release].
Qed.
Lemma triple_StartOfReception op g id len size svc : call_ok c z (StartOfReception id len size svc) ->
  triple (I op 0 g) (perform (StartOfReception id len size svc)) (Post op g (StartOfReception id len size svc)).
Proof using Hvalid Hirq Hroom.
  intros (Hid & Hlen & Hsrc). cbn [perform]. unfold PduR_LoTpStartOfReception.
  eapply (triple_bind _ (fun r => Post op g (StartOfReception id len size svc) {| code := Some r.1; data := [] |})).
  2: { intros r. by apply triple_ret. }
  apply (triple_VALIDATE_INITIALIZED c z); [apply _|].
  apply (triple_VALIDATE_PDUID c z Hvalid); [apply _|apply _|done|intros s HI; by apply post_same|]. intros p Hp Hok.
  unfold on_path in Hsrc. rewrite Hp in Hsrc. cbn in Hsrc.
  eapply triple_spec_bind; [by apply (spec_routing_path c z); [apply _|]|]. intros ? ->. cbv zeta.
  eapply triple_spec_bind; [apply spec_start_upper, _|]. intros [[r m] ok] _. cbn beta iota.
  eapply triple_bind; [by apply triple_start_gateway|]. intros [r' m']. cbn [fst].
  eapply (triple_spec_bind _ _ any).
  { apply (spec_if (started op g id _ len r')); intros _; [|by apply spec_ret]. apply spec_for_each. intros j d _.
    apply spec_if; intros _; [apply spec_RouteTpRxIndication, _|by apply spec_ret]. }
  intros _ _. eapply (triple_spec_bind _ _ any).
  { apply (spec_if (started op g id _ len r')); intros _; [by apply spec_ret|apply spec_BUFFER_ERROR, _]. }
  intros _ _. apply triple_ret. cbn [fst]. intros s [(-> & Htp & Hg & HI)|[Hr HI]].
  - eexists. split; [by apply gw_start|]. eapply inv_close; [|exact HI]. intros k Hk. cbn [after code] in Hk.
    by rewrite (bool_decide_eq_true_2 (Some BUFREQ_OK = _)) in Hk.
  - apply post_same.
    + unfold concerns, to_tp. cbn [code]. rewrite Hp. cbn. destruct (PduR_ARC_HasTpModuleDest _); [|apply andb_false_r].
      rewrite bool_decide_eq_false_2; [done|]. intros [= ->]. by apply Hr.
    + destruct HI. split; try done. intros k Ho Hd. apply i_open; [|done]. cbn [after code] in Ho.
      apply orb_true_iff in Ho as [[[= ->]%bool_decide_eq_true ->%bool_decide_eq_true]%andb_true_iff|Ho]; [|done].
      destruct (direct_path _ _ Hp Hd) as (_ & Htp & _). by destruct (Hr Htp).
Qed.

(** ** Receiving *)
Lemma hold_close op op' n g id i b s : closes op op' -> H op n g id i b s -> H op' n g id i b s.
Proof using Type. intros Hc []. split; [by eapply inv_close|done..]. Qed.
Lemma hold_size op n g id i b s : H op n g id i b s -> in_width 16 b.(bufferSize).
Proof using Hvalid.
  intros [HI _ _ [_ Hb]%aref_Some]. destruct Hvalid as (_ & _ & _ & Hw & _). rewrite <- (i_ram _ _ _ _ _ _ _ HI) in Hw. cbn in Hw.
  rewrite Forall_fmap in Hw. exact (Forall_lookup_1 _ _ _ _ Hw Hb).
Qed.

Definition checked (b : PduRTpBufferInfo_type) (len : Z) : BufReq_ReturnType * PduRTpBufferInfo_type :=
  if len >? b.(pduInfoPtr).(SduLength) - b.(rxByteCount) then (BUFREQ_NOT_OK, b)
  else if bool_decide (b.(status) = PDUR_BUFFER_RX_READY) then (BUFREQ_OK, set_nAcc 0 (set_status PDUR_BUFFER_RX_BUSY b))
  else if bool_decide (b.(status) = PDUR_BUFFER_TX_BUSY) || bool_decide (b.(status) = PDUR_BUFFER_RX_BUSY) then (BUFREQ_OK, b)
  else (BUFREQ_BUSY, b).
Lemma spec_CheckBufferStatus op n g id i b len : in_use b -> buffer_ok b ->
  spec (H op n g id i b) (PduR_ARC_CheckBufferStatus id len) (fun r => r = (checked b len).1) (H op n g id i (checked b len).2).
Proof using Type.
  intros Hu Ho. unfold PduR_ARC_CheckBufferStatus, checked. eapply spec_bind; [apply spec_TpRouteBuffer_held|]. intros ? ->.
  eapply spec_bind; [apply spec_TpBuffer_held|]. intros ? ->. destruct (len >? _); [by apply spec_ret|].
  destruct (bool_decide (status b = PDUR_BUFFER_RX_READY)).
  - eapply spec_bind; [by apply spec_upd_RouteBuffer, may_become_status|]. intros _ _.
    eapply spec_bind; [|intros _ _; by apply spec_ret].
    apply (spec_upd_RouteBuffer c z o0 op n g id i _ (set_nAcc 0)). by apply (may_become_status c op id b PDUR_BUFFER_RX_BUSY).
  - destruct (_ || _); by apply spec_ret.
Qed.

(** The path has a buffer with the transfer [t]. *)
Definition holds op n g id i (t : Transfer) (s : PduR_State W) : Prop := exists b, H op n g id i b s /\ transfer_of b = t.
Lemma spec_transmit_on_the_fly op n g id i t ds r : Forall (dest_ok z) ds -> ~ direct c (Z.to_nat id) ->
  spec (holds op n g id i t) (transmit_on_the_fly id ds r) (fun x => x = r \/ x = BUFREQ_NOT_OK) (holds op n g id i t).
Proof using Type.
  intros Hd Hnd. revert r. induction Hd as [|d ds [Hd _] _ IH]; intros r; cbn [transmit_on_the_fly]; [apply spec_ret; by left|].
  apply spec_if; intros _; [|apply IH]. intros s (b & Hb & Ht). apply wp_bind.
  eapply wp_mono; [by eapply spec_RouteBuffer_held|]. intros ? s1 [-> Hs1]. apply wp_bind.
  eapply wp_mono; [by eapply (spec_RouteTransmit c z (H op n g id i b) d (pduInfoPtr b)); [apply _|apply _|done|]|].
  intros st s2 [_ Hs2]. destruct (hold_use _ _ _ _ _ _ _ _ _ _ Hs2) as [Hu Ho].
  destruct (bool_decide (st = PDUR_E_OK)).
  - apply wp_bind. eapply wp_mono; [by eapply spec_upd_RouteBuffer, Hs2; apply may_become_status|].
    intros _ s3 [_ Hs3]. apply IH. by exists (set_status PDUR_BUFFER_TX_BUSY b).
  - eapply wp_mono; [eapply IH; by exists b|]. intros x s3 [Hx HP]. split; [|done]. tauto.
Qed.

Lemma take_patch_grow l (i n : nat) xs : length xs = n -> (i + n <= length l)%nat -> take (i + n) (patch l i xs) = take i l ++ xs.
Proof using Type.
  intros Hn Hl. unfold patch. rewrite app_assoc. rewrite take_app_le by (rewrite length_app, length_take; lia).
  apply take_ge. rewrite length_app, length_take. lia.
Qed.
Lemma take_patch_before l (i : nat) xs : (i <= length l)%nat -> take i (patch l i xs) = take i l.
Proof using Type. intros Hl. unfold patch. rewrite take_app_le by (rewrite length_take; lia). apply take_ge. rewrite length_take. lia. Qed.

Lemma triple_copy_to_buffer op n g id i b p info m : aref c.(RoutingPaths) id = Some p -> Forall (dest_ok z) p.(PduRDestPdus) ->
  info_ok info -> info.(SduLength) <= b.(pduInfoPtr).(SduLength) - b.(rxByteCount) ->
  triple (H op n g id i b) (copy_to_buffer id p info m)
    (fun x s => (x.1 = BUFREQ_OK \/ x.1 = BUFREQ_NOT_OK /\ p.(PduRDirectGateway) = false) /\
       I op n (<[Z.to_nat id := Some (add_bytes (transfer_of b) (chunk info))]> g) s).
Proof using Hvalid.
  intros Hp Hd [Hl0 Hl] Hroom' s Hs. unfold copy_to_buffer.
  destruct (hold_use _ _ _ _ _ _ _ _ _ _ Hs) as [(Ha & Hrx & Hsdu & Htx) [Hsize Hcnt]].
  pose proof (hold_size _ _ _ _ _ _ _ Hs) as [_ H16].
  assert (Hop : op (Z.to_nat id) = true -> direct c (Z.to_nat id) -> receiving b.(status) = true)
    by (intros H1 H2; by eapply hold_receiving).
  assert (Hch : length (chunk info) = Z.to_nat (SduLength info)) by (unfold chunk; rewrite length_take; lia).
  set (d := patch b.(pduInfoPtr).(SduDataPtr) (Z.to_nat b.(rxByteCount)) (chunk info)).
  assert (Hdl : length d = length b.(pduInfoPtr).(SduDataPtr)) by (apply length_patch; lia).
  set (b2 := set_pduInfoPtr {| SduDataPtr := d; SduLength := b.(pduInfoPtr).(SduLength) |} b).
  set (b3 := set_rxByteCount (b.(rxByteCount) + info.(SduLength)) b2).
  assert (Hu16 : u16 (rxByteCount b + SduLength info) = rxByteCount b + SduLength info) by (apply Z.mod_small; lia).
  assert (Ht3 : transfer_of b3 = add_bytes (transfer_of b) (chunk info)).
  { unfold transfer_of, add_bytes. cbn. f_equal. rewrite Z2Nat.inj_add by lia. apply take_patch_grow; lia. }
  revert s Hs. change (triple (H op n g id i b) (copy_to_buffer id p info m)
    (fun x s => (x.1 = BUFREQ_OK \/ x.1 = BUFREQ_NOT_OK /\ p.(PduRDirectGateway) = false) /\ I op n (<[Z.to_nat id := Some (add_bytes (transfer_of b) (chunk info))]> g) s)).
  unfold copy_to_buffer.
  eapply triple_spec_bind; [apply spec_RouteBuffer_held|]. intros ? ->.
  eapply triple_spec_bind; [apply spec_deref_is, read_bytes_0; by split|]. intros ? ->. fold (chunk info).
  eapply triple_spec_bind; [apply spec_deref_is, write_bytes_in; lia|]. intros ? ->. fold d.
  eapply (triple_spec_bind _ (H op n g id i b2)).
  { apply (spec_upd_RouteBuffer c z o0 op n g id i b (fun b => set_pduInfoPtr {| SduDataPtr := d; SduLength := b.(pduInfoPtr).(SduLength) |} b)).
    split_and!; [done|by split; cbn; [rewrite Hdl|]|exact (conj Ha (conj Hrx (conj Hsdu Htx)))|done]. }
  intros _ _. cbv zeta. rewrite Hu16. eapply (triple_spec_bind _ (H op n g id i b3)).
  { apply (spec_upd_RouteBuffer c z o0 op n g id i b2 (set_rxByteCount (rxByteCount b + SduLength info))).
    split_and!; [done|by split; cbn; [rewrite Hdl|]| |done].
    split; [done|]. split; [cbn; lia|]. split; [cbn; lia|].
    refine (Forall_impl _ _ Htx). intros t Ht. cbn in *. lia. }
  intros _ _. eapply triple_spec_bind; [apply spec_RouteBuffer_held|]. intros ? ->.
  eapply (triple_spec_bind _ (holds op n g id i (transfer_of b3)) (fun r => r = BUFREQ_OK \/ r = BUFREQ_NOT_OK /\ p.(PduRDirectGateway) = false)).
  2: { intros r Hr. apply triple_ret. intros s (b4 & Hs & Ht). split; [exact Hr|]. rewrite <- Ht3, <- Ht. apply Hs. }
  destruct (PduRDirectGateway p) eqn:Edir; cbn [negb].
  { intros s Hs. split; [by left|]. by exists b3. }
  assert (Hnd : ~ direct c (Z.to_nat id)).
  { intros [Hdir _]%(direct_path _ _ Hp). congruence. }
  eapply (spec_bind _ (holds op n g id i (transfer_of b3)) _ _ _ any).
  - destruct (_ && _); [|intros s Hs; split; [done|by exists b3]]. intros s Hs.
    destruct (hold_use _ _ _ _ _ _ _ _ _ _ Hs) as [Hu3 Ho3].
    eapply wp_mono; [by eapply spec_upd_RouteBuffer, Hs; apply may_become_status|]. intros _ s' [_ Hs']. split; [done|].
    by exists (set_status PDUR_BUFFER_TX_READY b3).
  - intros _ _ s (b4 & Hs & Ht). apply wp_bind. eapply wp_mono; [by eapply spec_RouteBuffer_held|]. intros ? s1 [-> Hs1].
    destruct (bool_decide _); [|split; [by left|by exists b4]].
    eapply spec_post; [by apply spec_transmit_on_the_fly| |by exists b4]. intros x [Hx|Hx]; auto.
Qed.

Definition closed (id : Z) (op : nat -> bool) (r : nat) : bool := negb (bool_decide (r = Z.to_nat id)) && op r.
Lemma closes_closed id op : closes op (closed id op).
Proof using Type. intros r. unfold closed. by destruct (bool_decide _). Qed.
Lemma closed_at id op (P : Prop) : closed id op (Z.to_nat id) = true -> P.
Proof using Type. unfold closed. by rewrite bool_decide_eq_true_2. Qed.

Definition copied op g id info (tp : bool) (n : nat) (r : BufReq_ReturnType) (s : PduR_State W) : Prop :=
  (exists t, g !! Z.to_nat id = Some (Some t) /\ Z.of_nat (length t.(got)) + info.(SduLength) <= t.(total) /\
     (r = BUFREQ_OK \/ r = BUFREQ_NOT_OK) /\ I op n (<[Z.to_nat id := Some (add_bytes t (chunk info))]> g) s) \/
  (r = BUFREQ_NOT_OK /\ I (closed id op) n (<[Z.to_nat id := None]> g) s) \/
  ((tp = true -> r <> BUFREQ_OK) /\ I op n g s).
Lemma triple_copy_gateway op n g id p info r m : aref c.(RoutingPaths) id = Some p -> path_ok z (Z.to_nat id) p ->
  PduR_IsLoModule p.(SrcModule) = true -> info_ok info ->
  triple (I op n g) (if bool_decide (r = BUFREQ_OK) && PduR_ARC_HasTpModuleDest p.(PduRDestPdus) then
      let* retVal := PduR_ARC_CheckBufferStatus id info.(SduLength) in
      let* q := PduRTpRouteBuffer id in
      if bool_decide (retVal = BUFREQ_NOT_OK) && bool_decide (q <> None) then
        let* _ := free_RouteBuffer id in ret (retVal, m)
      else if bool_decide (retVal = BUFREQ_OK) then copy_to_buffer id p info m
      else ret (retVal, m)
    else ret (r, m)) (fun x => copied op g id info (PduR_ARC_HasTpModuleDest p.(PduRDestPdus)) n x.1).
Proof using Hvalid.
  intros Hp Hok Hlo Hinfo. apply triple_if.
  2: { intros Hc. apply triple_ret. intros s HI. right; right. split; [|done]. cbn. intros Htp ->. by rewrite Htp in Hc. }
  intros [_ Htp]%andb_true_iff. destruct (routes_of _ _ Hp Hok Hlo Htp) as [_ Hb]. rewrite Htp.
  apply (triple_by_route _ _ _ id); [done| |].
  - intros _ s [HI Hr]. assert (Hra : aref s.(TpRouteBuffers) id = Some None) by (apply aref_Some; split; [apply Hb|done]).
    unfold wp, bind, PduR_ARC_CheckBufferStatus, PduRTpRouteBuffer, get, deref, ret. cbn -[aref]. rewrite Hra. cbn -[aref].
    rewrite Hra. cbn -[aref].
    right; right. by split.
  - intros i b Hg Hu Ho. eapply triple_spec_bind; [by apply spec_CheckBufferStatus|]. intros ? ->.
    eapply triple_spec_bind; [apply spec_TpRouteBuffer_held|]. intros ? ->. unfold checked.
    rewrite Z.gtb_ltb. destruct (Z.ltb_spec (SduLength (pduInfoPtr b) - rxByteCount b) (SduLength info)) as [Hlt|Hge].
    + cbn [fst snd]. rewrite !bool_decide_eq_true_2 by done. cbn [andb]. intros s Hs%(hold_close op (closed id op)); [|apply closes_closed].
      apply wp_bind. eapply wp_mono; [eapply spec_free, Hs; exact (closed_at id op _)|]. intros _ s' [_ HI]. right; left. by split.
    + assert (Hcopy : forall b', transfer_of b' = transfer_of b -> rxByteCount b' = rxByteCount b -> pduInfoPtr b' = pduInfoPtr b ->
        triple (H op n g id i b') (copy_to_buffer id p info m) (fun x => copied op g id info true n x.1)).
      { intros b' Et Er Ei. eapply triple_mono; [apply triple_copy_to_buffer; [done|apply Hok|done|rewrite Er, Ei; lia]|].
        intros x s [Hx HI]. left. exists (transfer_of b'). rewrite Et in *. split_and!; [done| |tauto|done]. cbn.
        destruct Hu as (_ & ? & ? & _), Ho as [? _]. rewrite length_take. lia. }
      destruct (bool_decide (status b = PDUR_BUFFER_RX_READY)); [by apply Hcopy|].
      destruct (_ || _); [by apply Hcopy|]. apply triple_ret. intros s Hs. right; right. split; [done|by eapply hold_release].
Qed.
Lemma triple_CopyRxData op g id info size svc : call_ok c z (CopyRxData id info size svc) ->
  triple (I op 0 g) (perform (CopyRxData id info size svc)) (Post op g (CopyRxData id info size svc)).
Proof using Hvalid Hirq Hroom.
  intros (Hid & Hsrc & Hinfo). cbn [perform]. unfold PduR_LoTpCopyRxData.
  eapply (triple_bind _ (fun r => Post op g (CopyRxData id info size svc) {| code := Some r.1; data := [] |})).
  2: { intros r. by apply triple_ret. }
  assert (Hcl : forall a, closes op (after (CopyRxData id info size svc) a op)).
  { intros a k Hk. cbn in Hk. by apply andb_true_iff in Hk as [_ ?]. }
  assert (Hq : forall s, I op 0 g s -> Post op g (CopyRxData id info size svc) {| code := Some BUFREQ_NOT_OK; data := [] |} s).
  { intros s HI. apply post_same; [done|]. by eapply inv_close. }
  apply (triple_VALIDATE_INITIALIZED c z); [apply _|].
  apply (triple_VALIDATE_PDUID c z Hvalid); [apply _|apply _|done|done|]. intros p Hp Hok.
  apply (triple_VALIDATE_PDUPTR c z); [apply _..|done|]. intros i ->. cbn in Hinfo.
  unfold on_path in Hsrc. rewrite Hp in Hsrc. cbn in Hsrc.
  eapply triple_spec_bind; [apply spec_pdur_Enter|]. intros _ _.
  eapply triple_spec_bind; [by apply (spec_routing_path c z); [apply _|]|]. intros ? ->.
  eapply triple_spec_bind; [apply spec_copy_to_upper, _|]. intros [[r m] b] _. cbn beta iota.
  eapply triple_bind; [by apply triple_copy_gateway|]. intros [r' m']. cbn [fst].
  assert (Htail : forall op' g', gw_step c (CopyRxData id (Some i) size svc) {| code := Some r'; data := [] |} g g' ->
    closes op' (after (CopyRxData id (Some i) size svc) {| code := Some r'; data := [] |} op) ->
    triple (I op' 1 g') (let* _ := SchM_Exit_PduR_EA_0 in
      let* _ := if bool_decide (r' = BUFREQ_OK) then ret tt else REPORT_BUFFER_ERROR svc in ret (r', (fun _ => m') <$> size))
      (fun r => Post op g (CopyRxData id (Some i) size svc) {| code := Some r.1; data := [] |})).
  { intros op' g' Hst Hcl'. eapply triple_spec_bind; [apply (spec_pdur_Exit c z o0 Hirq Hroom); lia|]. intros _ _.
    eapply (triple_spec_bind _ (I op' 0 g') any).
    { apply spec_if; intros _; [by apply spec_ret|apply spec_BUFFER_ERROR, _]. }
    intros _ _. apply triple_ret. intros s HI. exists g'. split; [done|by eapply inv_close]. }
  intros s [(t & Hg & Hlen & Hr & HI)|[(-> & HI)|(Hr & HI)]].
  - eapply Htail, HI; [by apply gw_receive|apply Hcl].
  - eapply Htail, HI; [by apply gw_refuse|]. intros k Hk. cbn in Hk. unfold closed.
    rewrite (bool_decide_eq_true_2 (Some BUFREQ_NOT_OK = _)) in Hk by done. exact Hk.
  - eapply Htail, HI; [|apply Hcl]. apply gw_other. unfold concerns, to_tp. cbn [code]. rewrite Hp. cbn.
    destruct (PduR_ARC_HasTpModuleDest _); [|apply andb_false_r]. rewrite bool_decide_eq_false_2; [done|]. intros [= ->]. by apply Hr.
Qed.

(** ** The end of a reception *)
Lemma tp_is_lo m : PduR_IsTpModule m = true -> PduR_IsLoModule m = true.
Proof using Type. unfold PduR_IsLoModule. intros ->. apply orb_true_r. Qed.
Lemma lo_not_up m : PduR_IsLoModule m = true -> PduR_IsUpModule m = false.
Proof using Type. by destruct m. Qed.
Lemma has_tp ds d : d ∈ ds -> PduR_IsTpModule d.(DestModule) = true -> PduR_ARC_HasTpModuleDest ds = true.
Proof using Type. intros Hd Htp. apply existsb_exists. exists d. split; [by apply list_elem_of_In|done]. Qed.
#[local] Instance holds_stable op n g id i t : Stable (holds op n g id i t).
Proof using Type. intros s w (b & Hb & Ht). exists b. split; [by apply stable_hold|done]. Qed.

Definition perhaps_ended op g (id : Z) (s : PduR_State W) : Prop :=
  exists g', (g' = g \/ g' = <[Z.to_nat id := None]> g) /\ I op 0 g' s.
#[local] Instance perhaps_ended_stable op g id : Stable (perhaps_ended op g id).
Proof using Type. intros s w (g' & Hg & HI). exists g'. split; [done|by apply stable_inv]. Qed.

Lemma spec_error_to op g id p result svc d : aref c.(RoutingPaths) id = Some p -> path_ok z (Z.to_nat id) p ->
  PduR_IsTpModule p.(SrcModule) = true -> d ∈ p.(PduRDestPdus) -> (op (Z.to_nat id) = true -> direct c (Z.to_nat id) -> False) ->
  spec (perhaps_ended op g id)
    (if PduR_IsUpModule d.(DestModule) then PduR_ARC_RouteTpRxIndication d result
     else let* q := PduRTpRouteBuffer id in
          match q with None => REPORT_BUFFER_ERROR svc | Some _ => free_RouteBuffer id end) any (perhaps_ended op g id).
Proof using Hvalid.
  intros Hp Hok Hsrc Hd Hop. apply spec_if; intros Hup; [apply spec_RouteTpRxIndication, _|].
  assert (Htp : PduR_IsTpModule d.(DestModule) = true).
  { destruct Hok as (_ & _ & _ & Hall). specialize (Hall Hsrc). rewrite List.Forall_forall in Hall.
    destruct (Hall d) as [?|?]; [by apply list_elem_of_In|congruence|done]. }
  destruct (routes_of id p Hp Hok (tp_is_lo _ Hsrc) (has_tp _ _ Hd Htp)) as [_ Hb].
  intros s (g' & Hg' & HI). eapply wp_mono.
  { eapply (triple_route c z o0 op 0 g' id _ (fun _ => perhaps_ended op g id)); [done|..|exact HI].
    - eapply triple_pre; [|intros s' [HI' _]; exact HI']. eapply triple_spec; [apply spec_BUFFER_ERROR, _|].
      intros _ s' _ HI'. by exists g'.
    - intros i b _ _ _. eapply triple_spec; [by apply spec_free|]. intros _ s' _ HI'. exists (<[Z.to_nat id := None]> g').
      split; [|done]. right. destruct Hg' as [-> | ->]; [done|apply list_insert_insert_eq]. }
  by intros x s' Hs'.
Qed.
Lemma spec_success_to op g id i t p result d : Forall (dest_ok z) p.(PduRDestPdus) -> d ∈ p.(PduRDestPdus) ->
  (op (Z.to_nat id) = true -> direct c (Z.to_nat id) -> False) ->
  spec (holds op 0 g id i t)
    (if PduR_IsLoModule d.(DestModule) then
       if p.(PduRDirectGateway) then
         let* b := RouteBuffer id in
         let* st := PduR_ARC_RouteTransmit d b.(pduInfoPtr) in
         if bool_decide (st = PDUR_E_OK) then upd_RouteBuffer id (set_status PDUR_BUFFER_TX_BUSY) else ret tt
       else ret tt
     else PduR_ARC_RouteTpRxIndication d result) any (holds op 0 g id i t).
Proof using Type.
  intros Hds Hd Hop. apply spec_if; intros _; [|apply spec_RouteTpRxIndication, _]. apply spec_if; intros _; [|by apply spec_ret].
  rewrite List.Forall_forall in Hds. destruct (Hds d) as [Hgr _]; [by apply list_elem_of_In|].
  intros s (b & Hb & Ht). apply wp_bind. eapply wp_mono; [by eapply spec_RouteBuffer_held|]. intros ? s1 [-> Hs1]. apply wp_bind.
  eapply wp_mono; [by eapply (spec_RouteTransmit c z (H op 0 g id i b) d (pduInfoPtr b)); [apply _|apply _|done|]|].
  intros st s2 [_ Hs2]. destruct (hold_use _ _ _ _ _ _ _ _ _ _ Hs2) as [Hu Ho].
  destruct (bool_decide (st = PDUR_E_OK)); [|split; [done|by exists b]].
  eapply wp_mono; [eapply spec_upd_RouteBuffer, Hs2; apply may_become_status; try done; by intros H1 H2; destruct (Hop H1 H2)|].
  intros _ s3 [_ Hs3]. split; [done|]. by exists (set_status PDUR_BUFFER_TX_BUSY b).
Qed.
Lemma triple_TpRxIndication op g id result svc : call_ok c z (TpRxIndication id result svc) ->
  polite c (TpRxIndication id result svc) op ->
  triple (I op 0 g) (perform (TpRxIndication id result svc)) (Post op g (TpRxIndication id result svc)).
Proof using Hvalid.
  intros [Hid Hsrc] Hpol. cbn [perform]. unfold PduR_LoTpRxIndication, PduR_ARC_TpRxIndication.
  eapply (triple_bind _ (fun _ => Post op g (TpRxIndication id result svc) quiet)); [|intros _; by apply triple_ret].
  set (op' := closed id op). assert (Hcl : forall s, I op 0 g s -> I op' 0 g s) by (intros s; apply inv_close, closes_closed).
  assert (Hq : forall s, I op' 0 g s -> Post op g (TpRxIndication id result svc) quiet s) by (intros s HI; exists g; split; [by apply gw_other|exact HI]).
  assert (Hnot : op' (Z.to_nat id) = true -> direct c (Z.to_nat id) -> False) by exact (closed_at id op _).
  apply (triple_VALIDATE_INITIALIZED c z); [apply _|].
  apply (triple_VALIDATE_PDUID c z Hvalid); [apply _|apply _|done|by auto|]. intros p Hp Hok.
  unfold polite, on_path in *. rewrite Hp in Hsrc, Hpol. cbn in Hsrc, Hpol.
  destruct (Z.eqb_spec result NTFRSLT_OK) as [->|Hres]; cbn [negb].
  - specialize (Hpol eq_refl). eapply triple_spec_bind; [by apply (spec_routing_path c z); [apply _|]|]. intros ? ->.
    destruct (PduRDirectGateway p && PduR_ARC_HasTpModuleDest (PduRDestPdus p)) eqn:E.
    + apply andb_true_iff in E as [E1 E2]. intros s HI.
      assert (Hdir : direct c (Z.to_nat id)) by (exists p; apply aref_Some in Hp as [_ Hp]; done).
      destruct (i_open _ _ _ _ _ _ _ HI _ (Hpol E1 E2) Hdir) as (i & b0 & Hr & _).
      destruct (hold _ _ _ _ _ _ _ _ _ HI Hid Hr) as (b & Hh & Hg). apply (hold_close op op') in Hh; [|apply closes_closed].
      eapply wp_mono; [eapply (spec_for_each (holds op' 0 g id i (transfer_of b))); [|by exists b]|].
      * intros j d Hj. apply spec_success_to; [apply Hok|by eapply list_elem_of_lookup_2|done].
      * intros _ s' [_ (b' & Hb' & Ht)]. eapply Hq, hold_release; [exact Hb'|by rewrite Ht|done].
    + eapply triple_pre; [|exact Hcl]. eapply triple_spec; [apply (spec_for_each (I op' 0 g))|by intros _ s _; apply Hq].
      intros j d Hj%list_elem_of_lookup_2. apply spec_if; intros Hlo; [|apply spec_RouteTpRxIndication, _].
      apply spec_if; intros E1; [|by apply spec_ret]. rewrite E1 in E. cbn in E.
      destruct Hok as (_ & _ & _ & Hall). specialize (Hall Hsrc). rewrite List.Forall_forall in Hall.
      destruct (Hall d) as [Hup|Htp]; [by apply list_elem_of_In|by rewrite lo_not_up in Hup|]. by rewrite (has_tp _ d) in E.
  - eapply triple_pre; [|exact Hcl]. eapply triple_spec_bind; [by apply spec_ReleaseRxBuffer|]. intros _ _.
    eapply triple_spec_bind; [by apply (spec_routing_path c z); [apply _|]|]. intros ? ->.
    eapply triple_pre; [eapply triple_spec; [apply (spec_for_each (perhaps_ended op' g id))|]|].
    + intros j d Hj%list_elem_of_lookup_2. by eapply spec_error_to.
    + intros _ s _ (g' & [-> | ->] & HI); [by apply Hq|]. eexists. split; [by apply gw_error|exact HI].
    + intros s HI. exists g. split; [by left|done].
Qed.

(** ** Fetching *)
Lemma destionId_range id : 0 <= id < 2 ^ 16 -> 0 <= destionId id < Z.of_nat PDUR_MAX_GW_DESTINATIONS.
Proof using Type.
  intros Hid. change (Z.of_nat PDUR_MAX_GW_DESTINATIONS) with 8. unfold destionId. destruct (_ >=? _); [|lia]. rewrite Z.shiftr_div_pow2 by lia.
  assert (0 <= id / 2 ^ 13 < 8) by (split; [apply Z.div_pos|apply Z.div_lt_upper_bound]; lia). unfold u8. rewrite Z.mod_small; lia.
Qed.
Lemma segment_take l n i k : 0 <= i -> 0 <= k -> i + k <= n -> segment (take (Z.to_nat n) l) i k = segment l i k.
Proof using Type.
  intros Hi Hk Hn. unfold segment. rewrite skipn_firstn_comm, take_take. f_equal. lia.
Qed.

Definition fetched_from op g (src : Z) (d : nat) info (x : BufReq_ReturnType * list Z * option Z) (s : PduR_State W) : Prop :=
  (x.1.1 = BUFREQ_OK /\ exists t, g !! Z.to_nat src = Some (Some t) /\ (d < length t.(sent))%nat /\ 0 <= fetched_by t d /\
     fetched_by t d + info.(SduLength) <= Z.of_nat (length t.(got)) /\
     x.1.2 = patch info.(SduDataPtr) 0 (segment t.(got) (fetched_by t d) info.(SduLength)) /\
     I op 1 (<[Z.to_nat src := Some (fetch t d info.(SduLength))]> g) s) \/
  (x.1.1 <> BUFREQ_OK /\ I op 1 g s /\
     forall t, g !! Z.to_nat src = Some (Some t) -> Z.of_nat (length t.(got)) < fetched_by t d + info.(SduLength)).
Lemma triple_copy_from_buffer op g src dst i b p info retry available : info_ok info -> retry.(TpDataState) <> TP_DATARETRY -> retry.(TxTpDataCnt) = 0 ->
  0 <= dst < Z.of_nat PDUR_MAX_GW_DESTINATIONS -> g !! Z.to_nat src = Some (Some (transfer_of b)) ->
  triple (H op 1 g src i b) (copy_from_buffer src dst p info retry available) (fetched_from op g src (Z.to_nat dst) info).
Proof using Hvalid.
  intros [Hl0 Hl] Hretry Hcnt0 Hdst Hg s Hs. unfold copy_from_buffer. rewrite Hcnt0.
  destruct (hold_use _ _ _ _ _ _ _ _ _ _ Hs) as [(Ha & Hrx & Hsdu & Htx) [Hsize Hcnt]].
  pose proof (hold_size _ _ _ _ _ _ _ Hs) as [_ H16].
  assert (Hop : op (Z.to_nat src) = true -> direct c (Z.to_nat src) -> receiving b.(status) = true)
    by (intros H1 H2; by eapply hold_receiving).
  apply wp_bind. eapply wp_mono; [by eapply spec_RouteBuffer_held|]. intros ? s1 [-> Hs1].
  destruct (aref_is_Some (txByteCount b) dst) as [count Hc]; [by rewrite Hcnt|]. pose proof Hc as [_ Hc']%aref_Some.
  pose proof (Forall_lookup_1 _ _ _ _ Htx Hc') as Hct. cbv beta in Hct.
  assert (Hfail : forall r s, r <> BUFREQ_OK -> rxByteCount b < count + SduLength info -> H op 1 g src i b s ->
    wp (ret (r, SduDataPtr info, available)) (fetched_from op g src (Z.to_nat dst) info) s).
  { intros r s2 Hr Hlt Hs2. right. split_and!; [done|by eapply hold_release|]. intros t. rewrite Hg. intros [= <-].
    unfold fetched_by. cbn [sent got transfer_of]. rewrite Hc', length_take. cbn. lia. }
  rewrite !Z.gtb_ltb. destruct (Z.ltb_spec (SduLength (pduInfoPtr b)) 0); [lia|].
  destruct (Z.ltb_spec (bufferSize b) (SduLength info)); cbn [orb]; [apply Hfail; [done|lia|done]|].
  apply wp_bind. eapply wp_deref; [exact Hc|]. rewrite !Z.gtb_ltb.
  destruct (Z.ltb_spec (rxByteCount b) (count + SduLength info)) as [Hlt|Hge].
  { rewrite andb_true_r. destruct (negb (PduRDirectGateway p)) eqn:E; [by apply Hfail|].
    apply negb_false_iff in E. rewrite E. by apply Hfail. }
  rewrite !andb_false_r, bool_decide_eq_false_2 by done. cbv zeta.
  assert (Hu16 : u16 (count + SduLength info) = count + SduLength info) by (apply Z.mod_small; lia). rewrite Hu16.
  set (b' := set_txByteCount (<[Z.to_nat dst := count + SduLength info]> b.(txByteCount)) b).
  assert (Hf : transfer_of b' = fetch (transfer_of b) (Z.to_nat dst) (SduLength info)).
  { unfold transfer_of, fetch, fetched_by, b'. cbn. by rewrite Hc'. }
  apply wp_bind. eapply wp_mono.
  { eapply (spec_upd_RouteBuffer c z o0 op 1 g src i b (fun b => set_txByteCount (<[Z.to_nat dst := count + SduLength info]> b.(txByteCount)) b)), Hs1.
    split_and!; [done|by split; cbn; [|rewrite length_insert]| |done]. split; [done|]. split; [cbn; lia|]. split; [cbn; lia|].
    apply Forall_insert; [done|]. cbn. lia. }
  intros _ s2 [_ Hs2]. apply wp_bind. eapply wp_deref; [apply read_bytes_in; lia|]. apply wp_bind.
  eapply wp_deref; [apply write_bytes_in; [lia|rewrite length_segment by lia; lia]|]. apply wp_ret. left. split; [done|].
  exists (transfer_of b). cbn [fst snd]. unfold fetched_by. cbn [sent got transfer_of]. rewrite Hc', Hcnt. cbn [default from_option].
  split_and!; [done|lia|cbn; lia|cbn; rewrite length_take; lia|by rewrite segment_take by (cbn; lia)|].
  rewrite <- Hf. apply Hs2.
Qed.

Lemma triple_CopyTxData op g id info retry available svc : call_ok c z (CopyTxData id info retry available svc) ->
  triple (I op 0 g) (perform (CopyTxData id info retry available svc)) (Post op g (CopyTxData id info retry available svc)).
Proof using Hvalid Hirq Hroom.
  intros (Hid & Htp & Hinfo & Hretry). cbn [perform]. unfold PduR_LoTpCopyTxData.
  set (k := CopyTxData id info retry available svc). set (ans := fun r : BufReq_ReturnType * list Z * option Z => {| code := Some r.1.1; data := r.1.2 |}).
  assert (Hsrc0 : 0 <= sourcePduId id) by (apply sourcePduId_nonneg; lia).
  eapply (triple_bind _ (fun r => Post op g k (ans r))); [|intros r; by apply triple_ret].
  assert (Hq : forall r s, r.1.1 <> BUFREQ_OK -> I op 0 g s -> Post op g k (ans r) s).
  { intros r s Hr HI. apply post_same; [|exact HI]. unfold concerns. cbn. rewrite bool_decide_eq_false_2; [done|congruence]. }
  apply (triple_VALIDATE_INITIALIZED c z); [apply _|].
  apply (triple_VALIDATE_PDUPTR c z); [apply _|apply _|intros _ s; by apply Hq|]. intros i E. subst info. cbn in Hinfo. cbv zeta.
  apply (triple_VALIDATE_PDUID c z Hvalid); [apply _|apply _|done|intros s; by apply Hq|]. intros p Hp Hok.
  unfold on_path in Htp. rewrite Hp in Htp. cbn in Htp.
  eapply triple_spec_bind; [apply spec_pdur_Enter|]. intros _ _.
  eapply triple_spec_bind; [by apply (spec_routing_path c z); [apply _|]|]. intros ? ->.
  eapply (triple_bind _ (fun x s => exists g', gw_step c k (ans x) g g' /\ I op 1 g' s)).
  2: { intros x. apply triple_ex. intros g'. apply triple_pure. intros Hst. eapply triple_spec_bind; [apply (spec_pdur_Exit c z o0 Hirq Hroom); lia|].
       intros _ _. apply triple_ret. intros s HI. by exists g'. }
  assert (Hn : forall x s, concerns c k (ans x) = false -> I op 1 g s -> exists g', gw_step c k (ans x) g g' /\ I op 1 g' s).
  { intros x s Hc HI. exists g. split; [by apply gw_other|done]. }
  assert (Hfail : forall x s, x.1.1 <> BUFREQ_OK -> I op 1 g s -> exists g', gw_step c k (ans x) g g' /\ I op 1 g' s).
  { intros x s Hx. apply Hn. unfold concerns. cbn. rewrite bool_decide_eq_false_2; [done|congruence]. }
  apply triple_if; intros Hup.
  { eapply triple_spec; [apply spec_RouteCopyTxData, _|]. intros x s _. apply Hn. unfold concerns, from_lower. cbn. rewrite Hp. cbn.
    by rewrite Hup, andb_false_r. }
  destruct (PduR_IsLoModule (SrcModule p)) eqn:Hlo; [|apply triple_ret; intros s; by apply Hfail].
  destruct (routes_of _ p Hp Hok Hlo Htp) as [_ Hb].
  assert (Hfetch : forall j b r, r.(TpDataState) <> TP_DATARETRY -> r.(TxTpDataCnt) = 0 -> g !! Z.to_nat (sourcePduId id) = Some (Some (transfer_of b)) ->
    triple (H op 1 g (sourcePduId id) j b) (copy_from_buffer (sourcePduId id) (destionId id) p i r available)
      (fun x s => exists g', gw_step c k (ans x) g g' /\ I op 1 g' s)).
  { intros j b r Hr Hr0 Hg. eapply triple_mono; [by apply triple_copy_from_buffer; [..|apply destionId_range|]|].
    intros [[x1 x2] x3] s [(Hx & t & Ht & Hd & H1 & H2 & Hdata & HI)|(Hx & HI & _)]; [|by apply Hfail].
    cbn in Hx, Hdata. subst x1 x2. eexists. split; [apply gw_fetch; try done; apply Hinfo|exact HI]. }
  apply (triple_route c z o0); [done|apply triple_ret; intros s [HI _]; by apply Hfail|]. intros j b Hg Hu Ho.
  destruct retry as [r|]; [|by apply Hfetch]. cbn in Hretry. apply triple_if; intros E.
  - apply andb_true_iff in E as [E%negb_true_iff _]. eapply triple_spec_bind; [apply spec_free|].
    + intros _ [Hdir _]%(direct_path _ _ Hp). congruence.
    + intros _ _. apply triple_ret. intros s HI. eexists. split; [by apply gw_abort|exact HI].
  - rewrite (bool_decide_eq_false_2 _ Hretry). by apply Hfetch.
Qed.

(** ** Every call, and every sequence of calls *)
Theorem call_refines op g k : call_ok c z k -> polite c k op -> triple (I op 0 g) (perform k) (Post op g k).
Proof using All.
  destruct k; intros Hk Hp.
  - by apply triple_quiet; [..|apply triple_Transmit].
  - by apply triple_quiet; [..|apply triple_RxIndication].
  - by apply triple_TxConfirmation.
  - by apply triple_quiet; [..|apply triple_TriggerTransmit].
  - by apply triple_StartOfReception.
  - by apply triple_CopyRxData.
  - by apply triple_TpRxIndication.
  - by apply triple_CopyTxData.
  - by apply triple_TpTxConfirmation.
  - by apply triple_quiet; [..|apply triple_EnableRouting].
  - by apply triple_quiet; [..|apply triple_DisableRouting].
  - by apply triple_quiet; [..|apply triple_GetConfigurationId].
  - by apply triple_quiet; [..|apply triple_Init_again].
Qed.
End Operations.
