(* ===== verification/PduR_Boot.v ===== *)
(** * PDU router: initialisation and sequences of calls

    [PduR_Init] with a valid configuration establishes the invariant with no transfer in progress; from there every
    sequence of calls that the callers may make is a run of the abstract machine. *)

From S2P Require Import Prelude.
From S2P Require Import StateMonad.
From S2P Require Import Os_Irq.
From S2P Require Import ComStack.
From S2P Require Import PduR_Types.
From S2P Require Import PduR.
From S2P Require Import PduR_Inv.
From S2P Require Import PduR_Safety.
From S2P Require Import PduR_Gateway.
From S2P Require Import PduR_Calls.

#[local] Open Scope monad_scope.

Definition no_reception : nat -> bool := fun _ => false.

Section Boot.
Context {W : Type} {Cfg : PduR_Cfg} {Env : PduR_Env W}.
Variables (c : PduR_PBConfigType) (z : Ram) (o0 : Irq).
Hypothesis Hirq : irq_ok o0.
Hypothesis Hroom : o0.(Os_IntSuspendAllCnt) <= 100.
Hypothesis Hvalid : valid c z.
Abbreviation any := (fun _ => True).

(** The static data before the initialisation; the pointers of [TpRouteBuffers] are null. *)
Record PowerUp (s : PduR_State W) : Prop := {
  u_state : s.(PduRState) = PDUR_UNINIT;
  u_ram : ram s = z;
  u_tp : Forall buffer_ok s.(TpBuffers);
  u_tx : Forall (fun b => b.(BufSize) = Z.of_nat (length b.(DataPtr))) s.(TxBuffers);
  u_routes : s.(TpRouteBuffers) = replicate z.(ram_routes) None;
  u_os : s.(os) = o0
}.
(** During the initialisation: the first [k] buffers are free. *)
Record Starting (k : Z) (s : PduR_State W) : Prop := {
  st_power : PowerUp s;
  st_config : s.(PduRConfig) = Some c;
  st_free : forall i b, s.(TpBuffers) !! i = Some b -> Z.of_nat i < k -> b.(status) = PDUR_BUFFER_FREE
}.
#[local] Instance overtx_starting k : OverTx z (Starting k).
Proof using Type. split; [by intros s [[]]|]. intros s l [[] Hc Hf] Hr Hl. split; [by split|done|done]. Qed.

Lemma spec_set_defaults ds ls k : c.(DefaultValues) = Some ds -> c.(DefaultValueLengths) = Some ls ->
  spec (Starting k) (for_index 0 (Z.to_nat z.(ram_NTx)) (set_default ds ls)) any (Starting k).
Proof using Hvalid.
  intros Hd Hl. destruct Hvalid as (_ & _ & Hn & _ & _ & _ & _ & _ & _ & _ & _ & Hdef). unfold defaults_ok in Hdef.
  rewrite Hd, Hl in Hdef. apply spec_for_index. intros i Hi.
  destruct (aref_is_Some (ram_tx z) i) as [size Hsize]; [lia|]. apply aref_Some in Hsize as Hsize'. destruct Hsize' as [_ Hz].
  specialize (Hdef (Z.to_nat i) size). rewrite lookup_take_lt in Hdef by lia. specialize (Hdef Hz). unfold default_ok in Hdef.
  unfold set_default.
  destruct (ls !! Z.to_nat i) as [n|] eqn:En; [|done]. cbn in Hdef.
  eapply spec_bind; [apply (spec_deref_is _ _ n), aref_Some; split; [lia|done]|]. intros ? ->. rewrite Z.gtb_ltb.
  destruct (Z.ltb_spec 0 n); [|by apply spec_ret]. destruct Hdef as [|Hdef]; [lia|].
  destruct (ds !! Z.to_nat i) as [v|] eqn:Ev; [|done]. cbn in Hdef.
  eapply spec_bind; [apply (spec_deref_is _ _ v), aref_Some; split; [lia|done]|]. intros ? ->.
  eapply spec_bind; [apply spec_deref_is, read_bytes_0; lia|]. intros ? ->. apply (spec_write_TxBuffer z); [apply _|].
  unfold fits_tx. rewrite Hsize. cbn. rewrite length_take. lia.
Qed.

Lemma spec_free_all i n : 0 <= i -> i + Z.of_nat n <= Z.of_nat (length z.(ram_tp)) ->
  spec (Starting i) (for_index i n (fun i => upd_TpBuffer i (set_status PDUR_BUFFER_FREE))) any (Starting (i + Z.of_nat n)).
Proof using Type.
  revert i. induction n as [|n IH]; intros i Hi Hn; cbn [for_index].
  { rewrite Z.add_0_r. by apply spec_ret. }
  eapply (spec_bind _ (Starting (i + 1)) _ _ _ any).
  - intros s [[] Hc Hf]. assert (Hlen : length s.(TpBuffers) = length z.(ram_tp)) by (rewrite <- u_ram0; cbn; by rewrite length_fmap).
    destruct (aref_is_Some (TpBuffers s) i) as [b Hb]; [lia|]. eapply wp_upd_TpBuffer; [exact Hb|]. split; [done|].
    apply aref_Some in Hb as [_ Hb]. pose proof (lookup_lt_Some _ _ _ Hb) as Hlt.
    split; [split; try done| |]; cbn.
    + rewrite <- u_ram0. unfold ram. cbn. f_equal. rewrite list_fmap_insert. apply list_insert_id. by rewrite list_lookup_fmap, Hb.
    + apply Forall_insert; [done|]. by apply (Forall_lookup_1 _ _ _ _ u_tp0 Hb).
    + done.
    + intros j b' Hj Hlt'. destruct (decide (j = Z.to_nat i)) as [->|Hne].
      * rewrite list_lookup_insert_eq in Hj by done. by injection Hj as <-.
      * rewrite list_lookup_insert_ne in Hj by done. eapply Hf; [done|lia].
  - intros _ _. replace (i + Z.of_nat (S n)) with (i + 1 + Z.of_nat n) by lia. apply IH; lia.
Qed.

Lemma spec_set_groups k :
  spec (Starting k) (for_index 0 (Z.to_nat c.(NofRoutingPathGroups)) (fun i =>
    let* g := deref (aref c.(RoutingPathGroups) i) in PdurSetRoutingPathEnabled (u16 i) g.(EnabledAtInit))) any (Starting k).
Proof using Hvalid.
  destruct Hvalid as (_ & _ & _ & _ & _ & _ & _ & Hn & Hg & Hw & _). apply spec_for_index. intros i Hi.
  destruct (aref_is_Some (RoutingPathGroups c) i) as [g Hgr]; [lia|]. eapply spec_bind; [by apply spec_deref_is|]. intros ? ->.
  unfold u16. rewrite Z.mod_small by lia. intros s [[] Hc Hf]. unfold PdurSetRoutingPathEnabled, group_enabled.
  apply wp_bind, wp_bind, wp_get.
  destruct (aref_is_Some (PdurRoutingGroupEnabled s) i) as [e He]; [rewrite <- u_ram0 in Hg; cbn in Hg; lia|].
  eapply wp_deref; [exact He|]. apply wp_modify. split; [done|]. split; [split; try done|done|done].
  rewrite <- u_ram0. unfold ram. cbn. by rewrite length_insert.
Qed.

(** No path has a buffer and the buffers are free. *)
Lemma starting_inv s : Starting z.(ram_NTp) s ->
  Inv c z o0 no_reception 0 (replicate z.(ram_routes) None) (set_PduRState PDUR_ONLINE s).
Proof using Type.
  intros [[] Hc Hf].
  assert (Hnone : forall r i, s.(TpRouteBuffers) !! r <> Some (Some i)).
  { intros r i Hr. rewrite u_routes0 in Hr. by apply lookup_replicate in Hr as [? _]. }
  split; cbn; try done.
  - by intros r i Hr%Hnone.
  - by intros r r' i Hr%Hnone.
  - intros i b Hb Hi Hst. by rewrite (Hf i b Hb Hi) in Hst.
  - unfold gateway. cbn. by rewrite u_routes0, fmap_replicate.
Qed.
Lemma triple_Init : triple PowerUp (PduR_Init (Some c)) (fun _ => Inv c z o0 no_reception 0 (replicate z.(ram_routes) None)).
Proof using Hvalid.
  unfold PduR_Init. eapply triple_spec_bind; [apply (spec_get _ _ (fun x => x = PDUR_UNINIT)); by intros s []|]. intros ? ->.
  rewrite bool_decide_eq_true_2 by done. cbn [negb].
  eapply (triple_spec_bind _ (Starting 0) any).
  { apply spec_modify. intros s []. split; [by split|done|]. intros i b _ Hi. lia. }
  intros _ _. eapply (triple_spec_bind _ (Starting 0) any).
  { destruct (DefaultValues c) as [ds|] eqn:Ed; [|by apply spec_ret].
    destruct (DefaultValueLengths c) as [ls|] eqn:El; [|by apply spec_ret].
    eapply spec_bind; [apply (spec_get _ _ (fun k => k = ram_NTx z)); intros s [[] _ _]; by rewrite <- u_ram0|]. intros ? ->.
    by apply spec_set_defaults. }
  intros _ _. eapply triple_spec_bind.
  { apply (spec_get _ _ (fun k => k = ram_NTp z)). intros s [[] _ _]; by rewrite <- u_ram0. }
  intros ? ->. destruct Hvalid as (Hn & _).
  eapply triple_spec_bind; [apply spec_free_all; lia|]. intros _ _. rewrite Z.add_0_l, Z2Nat.id by lia.
  eapply (triple_spec_bind _ (Starting z.(ram_NTp)) any).
  { destruct (_ >? 0); [apply spec_set_groups|by apply spec_ret]. }
  intros _ _. eapply triple_spec; [|by intros _ s _ HI; exact HI]. apply spec_modify. apply starting_inv.
Qed.

(** ** Sequences of calls

    Every call is one its caller may make in the state it is made in. *)
Fixpoint calls_ok (calls : list Call) (op : nat -> bool) (s : PduR_State W) : Prop :=
  match calls with
  | [] => True
  | k :: calls => call_ok c z k /\ polite c k op /\
      match perform k s with Some (a, s') => calls_ok calls (after k a op) s' | None => True end
  end.
(** What is known after the history [h]. *)
Definition Reached (h : list (Call * Answer)) (s : PduR_State W) : Prop :=
  exists op g, gw_run c (replicate z.(ram_routes) None) h g /\ Inv c z o0 op 0 g s.

Lemma run_reaches calls op g h s : gw_run c (replicate z.(ram_routes) None) h g -> Inv c z o0 op 0 g s ->
  calls_ok calls op s -> wp (run calls h) Reached s.
Proof using Hirq Hroom Hvalid.
  revert op g h s. induction calls as [|k calls IH]; intros op g h s Hrun HI Hok; cbn [run]; [by exists op, g|].
  destruct Hok as (Hk & Hp & Hok). apply wp_bind.
  pose proof (call_refines c z o0 Hirq Hroom Hvalid op g k Hk Hp s HI) as Hw. unfold wp in Hw |- *.
  destruct (perform k s) as [[a s']|]; [|done]. destruct Hw as (g' & Hs & HI').
  eapply (IH _ g'); [by eapply gw_cons|exact HI'|done].
Qed.
(** From power-up: the initialisation and the calls. *)
Definition boot_and_run (calls : list Call) : M (PduR_State W) (list (Call * Answer)) :=
  let* _ := PduR_Init (Some c) in run calls [].
Definition session_ok (calls : list Call) (s : PduR_State W) : Prop :=
  match PduR_Init (Some c) s with Some (_, s') => calls_ok calls no_reception s' | None => True end.
Lemma session_reaches calls s : PowerUp s -> session_ok calls s -> wp (boot_and_run calls) Reached s.
Proof using Hirq Hroom Hvalid.
  intros Hs Hok. unfold boot_and_run, session_ok in *. apply wp_bind. pose proof (triple_Init s Hs) as Hw. unfold wp in Hw |- *.
  destruct (PduR_Init (Some c) s) as [[[] s']|]; [|done]. eapply run_reaches; [apply gw_nil|exact Hw|exact Hok].
Qed.
End Boot.
