(* ===== verification/PduR_Delivery.v ===== *)
(** * PDU router: messages get through

    A gateway between transport protocols that forwards whole messages: in every state, a reception is accepted when the
    path is idle and a buffer is free, its parts are accepted as long as they fit, and the destinations get what they ask for as
    long as it is there.  So the whole message is delivered. *)

From S2P Require Import Prelude.
From S2P Require Import StateMonad.
From S2P Require Import Os_Irq.
From S2P Require Import ComStack.
From S2P Require Import PduR_Types.
From S2P Require Import PduR.
From S2P Require Import PduR_Inv.
From S2P Require Import PduR_Safety.
From S2P Require Import PduR_Gateway.
From S2P Require Import PduR_Calls.

#[local] Open Scope monad_scope.

(** The path [id] of [c] connects a transport protocol to transport protocols, message by message. *)
Record Forwards (c : PduR_PBConfigType) (id : Z) (p : PduRRoutingPath_type) : Prop := {
  f_path : aref c.(RoutingPaths) id = Some p;
  f_known : id < c.(NRoutingPaths);
  f_source : PduR_IsTpModule p.(SrcModule) = true;
  f_direct : p.(PduRDirectGateway) = true;
  f_destinations : Forall (fun d => PduR_IsTpModule d.(DestModule) = true) p.(PduRDestPdus)
}.
Definition okay (a : Answer) : Prop := a.(code) = Some BUFREQ_OK.

Section Delivery.
Context {W : Type} {Cfg : PduR_Cfg} {Env : PduR_Env W}.
Variables (c : PduR_PBConfigType) (z : Ram) (o0 : Irq).
Hypothesis Hirq : irq_ok o0.
Hypothesis Hroom : o0.(Os_IntSuspendAllCnt) <= 100.
Hypothesis Hvalid : valid c z.
Abbreviation I := (Inv (W := W) c z o0).
Abbreviation H := (Hold (W := W) c z o0).
Abbreviation any := (fun _ => True).
Existing Instances stable_inv stable_hold based_inv based_hold.
Variables (id : Z) (p : PduRRoutingPath_type).
Hypothesis Hf : Forwards c id p.

Lemma forwards_id : 0 <= id.
Proof using Hf. by destruct (proj1 (aref_Some _ _ _) (f_path _ _ _ Hf)). Qed.
Lemma forwards_ok : path_ok z (Z.to_nat id) p.
Proof using Hf Hvalid.
  destruct Hvalid as (_ & _ & _ & _ & _ & _ & Hpaths & _). apply Hpaths. by destruct (proj1 (aref_Some _ _ _) (f_path _ _ _ Hf)).
Qed.
Lemma forwards_tp : PduR_ARC_HasTpModuleDest p.(PduRDestPdus) = true.
Proof using Hf Hvalid.
  destruct forwards_ok as (Hn & _). destruct Hf as [_ _ _ _ Hd]. destruct (PduRDestPdus p) as [|d ds]; [cbn in Hn; lia|].
  apply Forall_cons_1 in Hd as [Hd _]. cbn. by rewrite Hd.
Qed.
Lemma forwards_direct : direct c (Z.to_nat id).
Proof using Hf Hvalid.
  exists p. destruct (proj1 (aref_Some _ _ _) (f_path _ _ _ Hf)) as [_ Hp]. split_and!; [done|apply Hf|apply forwards_tp|apply Hf].
Qed.
Lemma forwards_below : below id z.(ram_routes).
Proof using Hf Hvalid.
  eapply (routes_of c z Hvalid id p); [apply Hf|apply forwards_ok|apply tp_is_lo, Hf|apply forwards_tp].
Qed.

Lemma triple_known {A} P api (err : A) body Q : Based c z P -> triple P body Q -> triple P (PDUR_VALIDATE_PDUID api id err body) Q.
Proof using Hf.
  intros HP Hb. unfold PDUR_VALIDATE_PDUID. eapply triple_spec_bind; [by apply (spec_pdur_cfg c z)|]. intros ? ->.
  rewrite Z.geb_leb. destruct (Z.leb_spec (NRoutingPaths c) id); [|done]. pose proof (f_known _ _ _ Hf). lia.
Qed.

(** ** Upper modules have no part in it *)
Lemma start_upper_tp ds many len r m b ok : Forall (fun d => PduR_IsTpModule d.(DestModule) = true) ds ->
  start_upper (W := W) ds many len r m b ok = ret (r, m, ok).
Proof using Type.
  induction 1 as [|d ds Hd _ IH]; [done|]. cbn [start_upper]. by rewrite (lo_not_up _ (tp_is_lo _ Hd)).
Qed.
Lemma copy_to_upper_tp ds many info r m b : Forall (fun d => PduR_IsTpModule d.(DestModule) = true) ds ->
  copy_to_upper (W := W) ds many info r m b = ret (r, m, b).
Proof using Type.
  induction 1 as [|d ds Hd _ IH]; [done|]. cbn [copy_to_upper]. by rewrite (lo_not_up _ (tp_is_lo _ Hd)).
Qed.

(** ** The answers *)
Definition ready op g l (s : PduR_State W) : Prop := idle c z o0 op 0 g id s /\ s.(TpBuffers) = l.
Lemma start_accepted op g len size svc l : 0 <= len -> ~ full len z.(ram_NTp) l ->
  triple (ready op g l) (perform (StartOfReception id len size svc)) (fun a _ => okay a).
Proof using All.
  intros Hlen Hfree. cbn [perform].
  assert (Hgo : triple (ready op g l)
    (PduR_LoTpStartOfReception id len size svc) (fun r _ => r.1 = BUFREQ_OK)).
  { unfold PduR_LoTpStartOfReception.
    assert (HB : Based c z (ready op g l)) by (by intros s [[[] _] _]).
    apply (triple_VALIDATE_INITIALIZED c z); [done|]. apply triple_known; [done|].
    eapply triple_spec_bind; [apply (spec_routing_path c z); [done|apply Hf]|]. intros ? ->. cbv zeta.
    rewrite start_upper_tp by apply Hf. eapply triple_spec_bind; [by apply (spec_ret _ _ (fun x => x = (BUFREQ_OK, 0, false)))|].
    intros ? ->. rewrite bool_decide_eq_true_2, forwards_tp by done. cbn [andb].
    eapply (triple_bind _ (fun x s => x.1 = BUFREQ_OK)).
    - intros s [[HI Hr] El]. unfold PduRTpRouteBuffer. apply wp_bind, wp_bind, wp_get.
      eapply wp_deref; [apply aref_Some; split; [apply forwards_id|exact Hr]|]. apply wp_bind.
      eapply wp_mono; [apply (triple_AllocateBuffer c z o0 Hirq Hroom Hvalid op 0 g id len l); [lia|apply forwards_id|done|by split]|].
      intros r s' [(-> & i & b & Hh & _)|(_ & _ & Hfull)]; [|done]. rewrite bool_decide_eq_true_2 by done. apply wp_bind.
      eapply wp_mono; [by eapply spec_RouteBuffer_held|]. intros. by apply wp_ret.
    - intros [r m]. cbn [fst]. intros s ->. rewrite bool_decide_eq_true_2 by done. done. }
  intros s Hs. apply wp_bind. eapply wp_mono; [by apply Hgo|]. intros [r m] s' Hm. apply wp_ret. unfold okay. cbn in *. by rewrite Hm.
Qed.

Lemma held_transfer op n g s t : I op n g s -> g !! Z.to_nat id = Some (Some t) -> exists i b, H op n g id i b s /\ transfer_of b = t.
Proof using Hf Hvalid.
  intros HI Hg. pose proof (inv_gateway _ _ _ _ _ _ _ (Z.to_nat id) HI) as E. rewrite Hg in E.
  destruct (TpRouteBuffers s !! Z.to_nat id) as [[i|]|] eqn:Er; [|done..].
  destruct (hold _ _ _ _ _ _ _ _ _ HI forwards_id Er) as (b & Hh & Hb). exists i, b. split; [done|]. rewrite Hg in Hb. by injection Hb.
Qed.
Lemma receive_accepted op g t info size svc : info_ok info -> op (Z.to_nat id) = true -> g !! Z.to_nat id = Some (Some t) ->
  Z.of_nat (length t.(got)) + info.(SduLength) <= t.(total) ->
  triple (I op 0 g) (perform (CopyRxData id (Some info) size svc)) (fun a _ => okay a).
Proof using All.
  intros Hinfo Hop Hg Hfits. cbn [perform].
  eapply (triple_bind _ (fun r _ => r.1 = BUFREQ_OK)); [|intros r; apply triple_ret; intros s Hr; unfold okay; cbn; by rewrite Hr].
  unfold PduR_LoTpCopyRxData. apply (triple_VALIDATE_INITIALIZED c z); [apply _|]. apply triple_known; [apply _|].
  cbn [PDUR_VALIDATE_PDUPTR]. eapply triple_spec_bind; [apply spec_pdur_Enter|]. intros _ _.
  eapply triple_spec_bind; [apply (spec_routing_path c z); [apply _|apply Hf]|]. intros ? ->.
  rewrite copy_to_upper_tp by apply Hf. eapply triple_spec_bind; [by apply (spec_ret _ _ (fun x => x = (BUFREQ_OK, 0, 0)))|].
  intros ? ->. rewrite bool_decide_eq_true_2, forwards_tp by done. cbn [andb].
  eapply (triple_bind _ (fun x s => x.1 = BUFREQ_OK /\ exists g', I op 1 g' s)).
  2: { intros [r m]. apply triple_pure. cbn [fst]. intros ->. apply triple_ex. intros g'.
       eapply triple_spec_bind; [apply (spec_pdur_Exit c z o0 Hirq Hroom); lia|]. intros _ _ s _. done. }
  intros s HI. destruct (held_transfer _ _ _ _ _ HI Hg) as (i & b & Hs & <-).
  destruct (hold_use _ _ _ _ _ _ _ _ _ _ Hs) as [Hu Ho]. pose proof (hold_receiving c z o0 _ _ _ _ _ _ _ Hs Hop forwards_direct) as Hst.
  revert s HI Hs. assert (Hgo : triple (H op 1 g id i b)
    (let* retVal := PduR_ARC_CheckBufferStatus id info.(SduLength) in
     let* q := PduRTpRouteBuffer id in
     if bool_decide (retVal = BUFREQ_NOT_OK) && bool_decide (q <> None) then let* _ := free_RouteBuffer id in ret (retVal, 0)
     else if bool_decide (retVal = BUFREQ_OK) then copy_to_buffer id p info 0 else ret (retVal, 0))
    (fun x s => x.1 = BUFREQ_OK /\ exists g', I op 1 g' s)); [|intros s _ Hs; by apply Hgo].
  assert (Hlen : info.(SduLength) <= b.(pduInfoPtr).(SduLength) - b.(rxByteCount)).
  { destruct Hu as (_ & Hrx & Hsdu & _), Ho as [Hsize _]. cbn in Hfits. rewrite length_take in Hfits. lia. }
  assert (Hck : exists b', checked b info.(SduLength) = (BUFREQ_OK, b') /\ rxByteCount b' = rxByteCount b /\ pduInfoPtr b' = pduInfoPtr b).
  { unfold checked. rewrite Z.gtb_ltb. destruct (Z.ltb_spec (SduLength (pduInfoPtr b) - rxByteCount b) (SduLength info)); [lia|].
    destruct (status b); try done; eexists; split_and!; reflexivity. }
  destruct Hck as (b' & Eck & Erx & Ei).
  eapply triple_spec_bind; [by apply spec_CheckBufferStatus|]. intros ? ->. rewrite Eck. cbn [fst snd].
  eapply triple_spec_bind; [apply spec_TpRouteBuffer_held|]. intros ? ->.
  rewrite (bool_decide_eq_false_2 (BUFREQ_OK = BUFREQ_NOT_OK)), (bool_decide_eq_true_2 (BUFREQ_OK = BUFREQ_OK)) by done. cbn [andb].
  eapply triple_mono; [apply triple_copy_to_buffer; [done|apply Hf|apply forwards_ok|done|by rewrite Erx, Ei]|].
  intros x s [[Hx|[_ Hx]] HI]; [|by rewrite (f_direct _ _ _ Hf) in Hx]. split; [done|by eexists].
Qed.

Lemma fetch_accepted op g t k info retry available svc : sourcePduId k = id -> 0 <= k < 2 ^ 16 -> info_ok info ->
  from_option (fun r => r.(TpDataState) <> TP_DATARETRY) True retry -> g !! Z.to_nat id = Some (Some t) ->
  fetched_by t (Z.to_nat (destionId k)) + info.(SduLength) <= Z.of_nat (length t.(got)) ->
  triple (I op 0 g) (perform (CopyTxData k (Some info) retry available svc)) (fun a _ => okay a).
Proof using All.
  intros Ek Hk Hinfo Hretry Hg Hfits. cbn [perform].
  eapply (triple_bind _ (fun r _ => r.1.1 = BUFREQ_OK)); [|intros r; apply triple_ret; intros s Hr; unfold okay; cbn; by rewrite Hr].
  unfold PduR_LoTpCopyTxData. apply (triple_VALIDATE_INITIALIZED c z); [apply _|].
  cbn [PDUR_VALIDATE_PDUPTR]. cbv zeta. rewrite Ek. apply triple_known; [apply _|].
  eapply triple_spec_bind; [apply spec_pdur_Enter|]. intros _ _.
  eapply triple_spec_bind; [apply (spec_routing_path c z); [apply _|apply Hf]|]. intros ? ->.
  eapply (triple_bind _ (fun x s => x.1.1 = BUFREQ_OK /\ exists g', I op 1 g' s)).
  2: { intros x. apply triple_pure. intros Hx. apply triple_ex. intros g'.
       eapply triple_spec_bind; [apply (spec_pdur_Exit c z o0 Hirq Hroom); lia|]. intros _ _. by apply triple_ret. }
  pose proof (tp_is_lo _ (f_source _ _ _ Hf)) as Hlo. rewrite (lo_not_up _ Hlo), Hlo, (f_direct _ _ _ Hf). cbn [negb andb].
  intros s HI. destruct (held_transfer _ _ _ _ _ HI Hg) as (i & b & Hs & <-).
  assert (Hgo : forall r, r.(TpDataState) <> TP_DATARETRY -> r.(TxTpDataCnt) = 0 -> forall s, H op 1 g id i b s ->
    wp (copy_from_buffer id (destionId k) p info r available) (fun x s => x.1.1 = BUFREQ_OK /\ exists g', I op 1 g' s) s).
  { intros r Hr Hr0 s' Hs'.
    eapply wp_mono; [by eapply (triple_copy_from_buffer c z o0 Hvalid op g id (destionId k) i b); [..|apply destionId_range| |]|].
    intros x s1 [(Hx & t' & _ & _ & _ & _ & _ & HI')|(_ & _ & Hlt)]; [by split; [|eexists]|]. specialize (Hlt _ Hg). lia. }
  apply wp_bind. eapply wp_mono; [by eapply spec_TpRouteBuffer_held|]. intros ? s1 [-> Hs1].
  destruct retry as [r|]; [|by apply Hgo]. cbn in Hretry. apply Hgo; [done| |done]. cbn. by rewrite bool_decide_eq_false_2.
Qed.

(** ** One message

    The calls of the transport protocol that receives it, part by part, and those of the ones that forward it. *)
Variables (svc : Z) (size : option Z).
Definition receptions (parts : list PduInfoType) : list Call := (fun i => CopyRxData id (Some i) size svc) <$> parts.
Definition requests (reqs : list (Z * PduInfoType)) : list Call :=
  (fun q => CopyTxData q.1 (Some q.2) None None svc) <$> reqs.
Definition message (parts : list PduInfoType) : list Z := concat (chunk <$> parts).
(** How much of it the destination [d] asks for. *)
Fixpoint asked (d : nat) (reqs : list (Z * PduInfoType)) : Z :=
  match reqs with
  | [] => 0
  | q :: reqs => (if bool_decide (Z.to_nat (destionId q.1) = d) then q.2.(SduLength) else 0) + asked d reqs
  end.
(** The requests carry identifiers of this path. *)
Definition request_ok (q : Z * PduInfoType) : Prop := sourcePduId q.1 = id /\ 0 <= q.1 < 2 ^ 16 /\ info_ok q.2.

(** No buffer request of the history [h'] after [h] was refused. *)
Definition answered (e : Call * Answer) : Prop := match e.1 with TpRxIndication _ _ _ => True | _ => okay e.2 end.
Definition accepted (h h' : list (Call * Answer)) : Prop := exists new, h' = new ++ h /\ Forall answered new.
Lemma accepted_refl h : accepted h h.
Proof using Type. by exists []. Qed.
Lemma accepted_cons h h' e : answered e -> accepted (e :: h) h' -> accepted h h'.
Proof using Type.
  intros He (new & -> & Hn). exists (new ++ [e]). split; [by rewrite <- app_assoc|]. apply Forall_app. by split; [|apply Forall_singleton].
Qed.
Lemma accepted_trans h h1 h2 : accepted h h1 -> accepted h1 h2 -> accepted h h2.
Proof using Type. intros (n1 & -> & H1) (n2 & -> & H2). exists (n2 ++ n1). split; [by rewrite <- app_assoc|]. by apply Forall_app. Qed.
Lemma run_app calls calls' h s : run (W := W) (calls ++ calls') h s = (let* h := run calls h in run calls' h) s.
Proof using Type.
  revert h s. induction calls as [|k calls IH]; intros h s; [done|]. cbn [run app]. unfold bind in *.
  destruct (perform k s) as [[a s']|]; [apply IH|done].
Qed.

(** The gateways are in the state [g] and the history [h] is right about the path. *)
Definition Knows op g h (t : Transfer) (s : PduR_State W) : Prop :=
  I op 0 g s /\ g !! Z.to_nat id = Some (Some t) /\ agrees id h g /\ received id h = Some t.(got).
Lemma forwards_route : to_tp c id = true /\ from_lower c id = true.
Proof using Hf Hvalid.
  unfold to_tp, from_lower. rewrite (f_path _ _ _ Hf). cbn. split; [apply forwards_tp|].
  by rewrite (lo_not_up _ (tp_is_lo _ (f_source _ _ _ Hf))).
Qed.
Lemma on_this P : P p -> on_path c id P.
Proof using Hf. unfold on_path. by rewrite (f_path _ _ _ Hf). Qed.

Lemma run_receptions parts op g h t s : Knows op g h t s -> op (Z.to_nat id) = true -> Forall info_ok parts ->
  Z.of_nat (length (t.(got) ++ message parts)) <= t.(total) ->
  wp (run (receptions parts) h) (fun h' s' => accepted h h' /\ exists op' g',
    op' (Z.to_nat id) = true /\ Knows op' g' h' (add_bytes t (message parts)) s') s.
Proof using All.
  revert op g h t s. induction parts as [|i parts IH]; intros op g h t s HK Hop Hparts Hlen.
  - split; [apply accepted_refl|]. exists op, g. unfold add_bytes, message. cbn. rewrite app_nil_r. by destruct t.
  - destruct HK as (HI & Hg & Ha & Hrec). apply Forall_cons_1 in Hparts as [Hi Hparts].
    unfold message in Hlen. cbn [fmap list_fmap concat] in Hlen. rewrite app_assoc, !length_app in Hlen.
    assert (Hch : Z.of_nat (length (chunk i)) = SduLength i) by (unfold chunk; rewrite length_take; unfold info_ok in Hi; lia).
    cbn [receptions fmap list_fmap run]. apply wp_bind.
    assert (Hok : call_ok c z (CopyRxData id (Some i) size svc)).
    { split_and!; [apply forwards_id|apply on_this, tp_is_lo, Hf|exact Hi]. }
    eapply wp_mono; [apply wp_and; [exact (receive_accepted op g t i size svc Hi Hop Hg ltac:(lia) s HI)|
      exact (call_refines c z o0 Hirq Hroom Hvalid op g _ Hok Logic.I s HI)]|].
    intros a s' [Hcode (g' & Hst & HI')]. destruct forwards_route as [Hto Hfrom].
    pose proof (agrees_step c id h g _ a g' forwards_id Hto Hfrom Ha Hst) as Ha'.
    pose proof (receive_okay _ _ _ _ _ _ _ _ _ Hst Hcode Hto Hg) as E.
    set (e := (CopyRxData id (Some i) size svc, a)).
    eapply wp_mono; [eapply (IH _ g' (e :: h) (add_bytes t (chunk i)))|].
    + split_and!; [exact HI'|rewrite E; apply list_lookup_insert_eq; by eapply lookup_lt_Some|exact Ha'|].
      cbn. by rewrite (bool_decide_eq_true_2 (id = id)), (bool_decide_eq_true_2 _ Hcode), Hrec by done.
    + cbn. unfold okay in Hcode. by rewrite Hcode, (bool_decide_eq_false_2 (Some BUFREQ_OK = Some BUFREQ_NOT_OK)), Hop by done.
    + done.
    + cbn. unfold message. rewrite !length_app. lia.
    + intros h' s2 [Hacc (op' & g2 & Hop' & HK)]. split; [eapply accepted_cons, Hacc; exact Hcode|]. exists op', g2. split; [done|].
      unfold add_bytes, message in *. cbn in *. by rewrite app_assoc.
Qed.

Lemma fetched_by_fetch t d e n : (d < length t.(sent))%nat ->
  fetched_by (fetch t d n) e = fetched_by t e + (if bool_decide (d = e) then n else 0).
Proof using Type.
  intros Hd. unfold fetched_by, fetch. cbn. case_bool_decide as E.
  - subst e. by rewrite list_lookup_insert_eq.
  - rewrite list_lookup_insert_ne by done. lia.
Qed.
Lemma asked_nonneg d reqs : Forall request_ok reqs -> 0 <= asked d reqs.
Proof using Type.
  induction 1 as [|q reqs (_ & _ & Hq & _) _ IH]; [done|]. cbn. case_bool_decide; lia.
Qed.
Lemma run_requests reqs op g h t s : Knows op g h t s -> Forall request_ok reqs ->
  (forall d, fetched_by t d + asked d reqs <= Z.of_nat (length t.(got))) ->
  wp (run (requests reqs) h) (fun h' s' => accepted h h' /\ exists op' g' t', Knows op' g' h' t' s' /\ t'.(got) = t.(got) /\
    forall d, fetched_by t' d = fetched_by t d + asked d reqs) s.
Proof using All.
  revert op g h t s. induction reqs as [|[k i] reqs IH]; intros op g h t s HK Hreqs Hlen.
  - split; [apply accepted_refl|]. exists op, g, t. split_and!; [done|done|]. intros d. cbn. lia.
  - destruct HK as (HI & Hg & Ha & Hrec). apply Forall_cons_1 in Hreqs as [(Ek & Hk & Hi) Hreqs]. cbn in Ek, Hk, Hi.
    set (d := Z.to_nat (destionId k)). pose proof (Hlen d) as Hd. cbn in Hd. fold d in Hd. rewrite bool_decide_eq_true_2 in Hd by done.
    pose proof (asked_nonneg d reqs Hreqs) as Hn. set (call := CopyTxData k (Some i) None None svc).
    cbn [requests fmap list_fmap run fst snd]. fold call. apply wp_bind.
    assert (Hok : call_ok c z call) by (split_and!; [lia|lia|rewrite Ek; apply on_this, forwards_tp|exact Hi|done]).
    eapply wp_mono; [apply wp_and; [exact (fetch_accepted op g t k i None None svc Ek Hk Hi Logic.I Hg ltac:(unfold d in *; lia) s HI)|
      exact (call_refines c z o0 Hirq Hroom Hvalid op g _ Hok Logic.I s HI)]|].
    intros a s' [Hcode (g' & Hst & HI')]. destruct forwards_route as [Hto Hfrom].
    pose proof (agrees_step c id h g _ a g' forwards_id Hto Hfrom Ha Hst) as Ha'.
    assert (Hsent : (d < length t.(sent))%nat /\ g' = <[Z.to_nat id := Some (fetch t d i.(SduLength))]> g).
    { rewrite <- Ek. by apply (fetch_okay c k i None None svc a g g' t); rewrite ?Ek. }
    destruct Hsent as [Hsent E]. set (e := (call, a)).
    eapply wp_mono; [eapply (IH _ g' (e :: h) (fetch t d i.(SduLength)))|].
    + split_and!; [exact HI'|rewrite E; apply list_lookup_insert_eq; by eapply lookup_lt_Some|exact Ha'|exact Hrec].
    + done.
    + intros d'. rewrite fetched_by_fetch by done. specialize (Hlen d'). cbn in Hlen |- *. unfold d. lia.
    + intros h' s2 [Hacc (op' & g2 & t' & HK & Hgot & Hby)]. split; [eapply accepted_cons, Hacc; exact Hcode|].
      exists op', g2, t'. split_and!; [done|done|]. intros d'. rewrite Hby, fetched_by_fetch by done. cbn. unfold d. lia.
Qed.

Lemma run_start len op g h s l : ready op g l s -> 0 <= len -> ~ full len z.(ram_NTp) l ->
  wp (run [StartOfReception id len size svc] h) (fun h' s' => accepted h h' /\ exists op' g',
    op' (Z.to_nat id) = true /\ Knows op' g' h' (fresh_transfer len) s') s.
Proof using All.
  intros Hs Hlen Hfree. pose proof Hs as [[HI Hr] _]. cbn [run]. apply wp_bind.
  assert (Hok : call_ok c z (StartOfReception id len size svc)).
  { split_and!; [apply forwards_id|done|apply on_this, tp_is_lo, Hf]. }
  eapply wp_mono; [apply wp_and; [exact (start_accepted op g len size svc l Hlen Hfree s Hs)|
    exact (call_refines c z o0 Hirq Hroom Hvalid op g _ Hok Logic.I s HI)]|].
  intros a s' [Hcode (g' & Hst & HI')]. destruct forwards_route as [Hto _].
  destruct (start_okay _ _ _ _ _ _ _ _ Hst Hcode Hto) as (-> & Hg & ->). split; [by eapply accepted_cons; [|apply accepted_refl]|].
  eexists _, _. split; [|split_and!; [exact HI'|apply list_lookup_insert_eq; by eapply lookup_lt_Some|
    apply agrees_start; [apply forwards_id|done]|]].
  - cbn. by rewrite !bool_decide_eq_true_2 by done.
  - cbn. by rewrite !bool_decide_eq_true_2 by done.
Qed.
Lemma run_indication op g h t s : Knows op g h t s -> op (Z.to_nat id) = true ->
  wp (run [TpRxIndication id NTFRSLT_OK svc] h) (fun h' s' => accepted h h' /\ exists op' g', Knows op' g' h' t s') s.
Proof using All.
  intros (HI & Hg & Ha & Hrec) Hop. cbn [run]. apply wp_bind.
  assert (Hok : call_ok c z (TpRxIndication id NTFRSLT_OK svc)) by (split; [apply forwards_id|apply on_this, Hf]).
  eapply wp_mono; [apply (call_refines c z o0 Hirq Hroom Hvalid op g _ Hok); [|exact HI]|].
  { intros _. by apply on_this. }
  intros a s' (g' & Hst & HI'). destruct forwards_route as [Hto Hfrom].
  pose proof (agrees_step c id h g _ a g' forwards_id Hto Hfrom Ha Hst) as Ha'.
  apply indication_okay in Hst as ->.
  split; [by eapply accepted_cons; [|apply accepted_refl]|]. eexists _, g. split_and!; [exact HI'|done|exact Ha'|exact Hrec].
Qed.

(** The whole of it. *)
Definition forwarding (len : Z) (parts : list PduInfoType) (reqs : list (Z * PduInfoType)) : list Call :=
  [StartOfReception id len size svc] ++ receptions parts ++ [TpRxIndication id NTFRSLT_OK svc] ++ requests reqs.
Lemma run_forwarding len parts reqs op g h s : ready op g s.(TpBuffers) s -> ~ full len z.(ram_NTp) s.(TpBuffers) ->
  Forall info_ok parts -> Z.of_nat (length (message parts)) <= len -> Forall request_ok reqs ->
  (forall d, asked d reqs <= Z.of_nat (length (message parts))) ->
  wp (run (forwarding len parts reqs) h) (fun h' _ => accepted h h' /\ received id h' = Some (message parts) /\
    forall d, (d < PDUR_MAX_GW_DESTINATIONS)%nat -> fetched id d h' = take (Z.to_nat (asked d reqs)) (message parts)) s.
Proof using All.
  intros Hs Hfree Hparts Hlen Hreqs Hasked. unfold forwarding, wp. rewrite run_app. apply wp_bind.
  eapply wp_mono; [eapply run_start; [exact Hs|lia|exact Hfree]|]. intros h1 s1 [Hacc1 (op1 & g1 & Hop1 & HK1)].
  unfold wp. rewrite run_app. apply wp_bind.
  eapply wp_mono; [by eapply run_receptions; [exact HK1|..]|]. intros h2 s2 [Hacc2 (op2 & g2 & Hop2 & HK2)].
  unfold wp. rewrite run_app. apply wp_bind.
  eapply wp_mono; [by eapply run_indication|]. intros h3 s3 [Hacc3 (op3 & g3 & HK3)].
  assert (Hzero : forall d, fetched_by (add_bytes (fresh_transfer len) (message parts)) d = 0).
  { intros d. unfold fetched_by. cbn [add_bytes sent fresh_transfer]. destruct (replicate _ _ !! d) eqn:E; [|done].
    by apply lookup_replicate in E as [-> _]. }
  eapply wp_mono; [eapply run_requests; [exact HK3|done|intros d; rewrite Hzero; apply Hasked]|].
  intros h4 s4 [Hacc4 (op4 & g4 & t & (_ & Hg & Ha & Hrec) & Hgot & Hby)].
  split; [by eapply accepted_trans, accepted_trans, accepted_trans|]. cbn in Hgot. rewrite Hgot in Hrec. split; [done|].
  intros d Hd. specialize (Ha _ Hrec). rewrite Hg in Ha. destruct Ha as (_ & _ & Ha). destruct (Ha d Hd) as [_ ->].
  by rewrite Hby, Hzero.
Qed.
End Delivery.
