(* ===== verification/PduR_Demo.v ===== *)
(** * PDU router: an example

    A configuration with a multicast, a reception, two gateways between transport protocols and a triggered transmission. *)

From S2P Require Import Prelude.
From S2P Require Import StateMonad.
From S2P Require Import Os_Irq.
From S2P Require Import ComStack.
From S2P Require Import PduR_Types.
From S2P Require Import PduR.
From S2P Require Import PduR_Inv.
From S2P Require Import PduR_Gateway.
From S2P Require Import PduR_Calls.
From S2P Require Import PduR_Boot.
From S2P Require Import PduR_Delivery.

Module Demo.
(** Every module is there; the world is the log of what was handed to lower modules, which accept it. *)
#[export] Instance demo_cfg : PduR_Cfg := {|
  PDUR_DEV_ERROR_DETECT := true;
  PDUR_CANIF_SUPPORT := true; PDUR_CANNM_SUPPORT := true; PDUR_UDPNM_SUPPORT := true; PDUR_LINIF_SUPPORT := true;
  PDUR_CANTP_SUPPORT := true; PDUR_SOAD_SUPPORT := true; PDUR_DOIP_SUPPORT := true; PDUR_J1939TP_SUPPORT := true;
  PDUR_IPDUM_SUPPORT := true; PDUR_FRIF_SUPPORT := true; PDUR_FRNM_SUPPORT := true; PDUR_FRTP_SUPPORT := true;
  PDUR_SECOC_SUPPORT := true; PDUR_COM_SUPPORT := true; PDUR_DCM_SUPPORT := true; PDUR_LDCOM_SUPPORT := true;
  PDUR_CDDPDUR_SUPPORT := true; USE_COM := true;
  PDUR_NO_BUFFER := 65535; PDUR_MAX_NOF_ROUTING_PATH_GROUPS := 2; uninitialised := 0
|}.
Definition World := list (Transmit_fn * Z * PduInfoType).
#[export] Instance demo_env : PduR_Env World := {|
  transmit f id info w := (E_OK, (f, id, info) :: w);
  rx_indication _ _ _ w := w; tp_rx_indication _ _ _ w := w; tp_tx_confirmation _ _ _ w := w; tx_confirmation _ _ w := w;
  trigger_transmit _ _ info w := (E_OK, info, w);
  copy_rx_data _ _ _ w := (BUFREQ_OK, Some 16, w);
  copy_tx_data _ _ info _ w := (BUFREQ_OK, info.(SduDataPtr), Some 0, w);
  start_of_reception _ _ len w := (BUFREQ_OK, Some len, w);
  Det_ReportError _ _ w := w
|}.

Definition dest m id groups : PduRDestPdu_type := {|
  DataProvision := PDUR_DIRECT; DestPduId := id; TxBufferId := 65535; DestModule := m;
  NofGroupRefs := Z.of_nat (length groups); RoutingPathGroupRefs := groups
|}.
Definition triggered m id buffer : PduRDestPdu_type := {|
  DataProvision := PDUR_TRIGGER_TRANSMIT; DestPduId := id; TxBufferId := buffer; DestModule := m;
  NofGroupRefs := 0; RoutingPathGroupRefs := []
|}.
Definition path m id direct dests : PduRRoutingPath_type := {|
  PduRTpThreshld := 4; SrcPduId := id; SrcModule := m; PduRDestPdus := dests;
  PduRDestinatnNum := Z.of_nat (length dests); PduRDirectGateway := direct
|}.
Definition c : PduR_PBConfigType := {|
  RoutingPaths := [
    path ARC_PDUR_COM 10 false [dest ARC_PDUR_CANIF 20 [0]; dest ARC_PDUR_LINIF 21 [1]; dest ARC_PDUR_FRIF 22 []];
    path ARC_PDUR_CANIF 11 false [dest ARC_PDUR_COM 30 []];
    path ARC_PDUR_CANTP 12 true [dest ARC_PDUR_CANTP 2 []; dest ARC_PDUR_FRTP (8192 + 2) []];
    path ARC_PDUR_CANTP 13 false [dest ARC_PDUR_CANTP 3 []];
    path ARC_PDUR_CANIF 14 false [triggered ARC_PDUR_LINIF 40 0]];
  NRoutingPaths := 5; PduRConfigurationId := 1;
  DefaultValues := Some [[1; 2; 3; 4]]; DefaultValueLengths := Some [4];
  NofRoutingPathGroups := 2;
  RoutingPathGroups := [
    {| Destinations := [dest ARC_PDUR_CANIF 20 [0]]; NofDestinations := 1; EnabledAtInit := true |};
    {| Destinations := [dest ARC_PDUR_LINIF 21 [1]]; NofDestinations := 1; EnabledAtInit := false |}]
|}.
Definition unlocked : Irq := {| Os_IntSuspendAllCnt := 0; irq_enabled := true |}.
Definition buffer (n : nat) : PduRTpBufferInfo_type := {|
  pduInfoPtr := {| SduDataPtr := replicate n 0; SduLength := 0 |}; status := PDUR_BUFFER_FREE; bufferSize := Z.of_nat n;
  rxByteCount := 0; txByteCount := replicate PDUR_MAX_GW_DESTINATIONS 0; nAcc := 0
|}.
Definition boot : PduR_State World := {|
  PduRState := PDUR_UNINIT; PduRConfig := None; TpBuffers := [buffer 4; buffer 16]; TpRouteBuffers := replicate 5 None;
  TxBuffers := [{| BufSize := 4; DataPtr := replicate 4 0 |}]; NTpBuffers := 2; NTpRouteBuffers := 5; NTxBuffers := 1;
  PdurRoutingGroupEnabled := [false; false]; os := unlocked; world := []
|}.
Definition z : Ram := ram boot.

Definition bytes (l : list Z) : PduInfoType := {| SduDataPtr := l; SduLength := Z.of_nat (length l) |}.
(** A message of six bytes through the first gateway, parts of it fetched by both destinations, and other traffic. *)
Definition calls : list Call := [
  Transmit 0 (Some (bytes [1; 2])) 0x89;
  StartOfReception 2 6 (Some 0) 0x06;
  CopyRxData 2 (Some (bytes [1; 2; 3])) (Some 0) 0x04;
  RxIndication 4 (Some (bytes [9; 8; 7; 6])) 0x01;
  CopyRxData 2 (Some (bytes [4; 5; 6])) (Some 0) 0x04;
  TpRxIndication 2 NTFRSLT_OK 0x05;
  CopyTxData 2 (Some (bytes [0; 0; 0; 0])) None None 0x07;
  CopyTxData (8192 + 2) (Some (bytes [0; 0])) None None 0x07;
  TriggerTransmit 4 (Some (bytes [0; 0; 0; 0])) 0x03;
  CopyTxData 2 (Some (bytes [0; 0])) None None 0x07;
  EnableRouting 1; DisableRouting 0; GetConfigurationId;
  StartOfReception 3 4 (Some 0) 0x06;
  CopyRxData 3 (Some (bytes [7; 7; 7; 7])) (Some 0) 0x04].
End Demo.
