(* ===== verification/PduR_Theorems.v ===== *)
(** * PDU router: theorems

    The properties of the router from power-up on: memory safety, the refinement of the abstract gateways and what it means
    for the data, delivery, multicast, and the bounds of a repeated request. *)

From S2P Require Import Prelude.
From S2P Require Import StateMonad.
From S2P Require Import Os_Irq.
From S2P Require Import ComStack.
From S2P Require Import PduR_Types.
From S2P Require Import PduR.
From S2P Require Import PduR_Inv.
From S2P Require Import PduR_Safety.
From S2P Require Import PduR_Gateway.
From S2P Require Import PduR_Calls.
From S2P Require Import PduR_Boot.
From S2P Require Import PduR_Delivery.
From S2P Require Import PduR_Demo.

#[local] Open Scope monad_scope.

Section Theorems.
Context {W : Type} {Cfg : PduR_Cfg} {Env : PduR_Env W}.

(** A valid configuration, static data as after start-up, interrupts that can be locked, callers that keep to the rules. *)
Record Session (c : PduR_PBConfigType) (z : Ram) (o0 : Irq) (calls : list Call) (s0 : PduR_State W) : Prop := {
  ses_irq : irq_ok o0;
  ses_room : o0.(Os_IntSuspendAllCnt) <= 100;
  ses_valid : valid c z;
  ses_power : PowerUp z o0 s0;
  ses_calls : session_ok c z calls s0
}.
(** Every buffer that is not free is that of exactly one routing path. *)
Definition pool_ok (s : PduR_State W) : Prop :=
  forall i b, s.(TpBuffers) !! i = Some b -> Z.of_nat i < s.(NTpBuffers) ->
  (b.(status) <> PDUR_BUFFER_FREE <-> exists r, s.(TpRouteBuffers) !! r = Some (Some (Z.of_nat i))) /\
  forall r r', s.(TpRouteBuffers) !! r = Some (Some (Z.of_nat i)) -> s.(TpRouteBuffers) !! r' = Some (Some (Z.of_nat i)) -> r = r'.
Lemma inv_pool c z o0 op n g s : Inv (W := W) c z o0 op n g s -> pool_ok s.
Proof using Type.
  intros HI i b Hb Hi. pose proof (i_ram _ _ _ _ _ _ _ HI) as E. rewrite <- E in HI. cbn in HI. split; [split|].
  - intros Hst. by eapply (i_pool _ _ _ _ _ _ _ HI).
  - intros [r Hr]. destruct (i_use _ _ _ _ _ _ _ HI _ _ Hr) as (b' & Hb' & [Ha _] & _). apply aref_Some in Hb' as [_ Hb'].
    rewrite Nat2Z.id, Hb in Hb'. injection Hb' as <-. intros Hst. by rewrite Hst in Ha.
  - intros r r'. by apply (i_inj _ _ _ _ _ _ _ HI).
Qed.
Lemma session_run c z o0 calls s0 h s : Session c z o0 calls s0 -> boot_and_run c calls s0 = Some (h, s) -> Reached c z o0 h s.
Proof using Type.
  intros [] E. pose proof (session_reaches c z o0 ses_irq0 ses_room0 ses_valid0 calls s0 ses_power0 ses_calls0) as Hw.
  unfold wp in Hw. by rewrite E in Hw.
Qed.

(** C13. Memory safety of the PDU router: with a valid configuration and whatever the modules around it answer, initialisation followed
    by any sequence of calls of its services returns: no array is left and no null or dangling pointer followed, provided that the callers keep to the interface (with at
    most 100 interrupt locks held, and not from within a call the router makes): they do not ask for retransmission (TP_DATARETRY), transport protocols use the calls for transport
    protocols on paths that are theirs and report success only of a reception in progress, a PDU has at least the length it claims and
    fits the transmit buffer of a triggered destination, and one for the diagnostic module is not empty (the code does not check this:
    see [pdur_retry_bounds]). The interrupt lock is left as it was found, and of the buffers for transport protocols each one that is
    not free belongs to exactly one routing path: none is lost, none is used twice. *)
Theorem pdur_memory_safe c z o0 calls s0 : Session c z o0 calls s0 ->
  exists h s, boot_and_run c calls s0 = Some (h, s) /\ s.(os) = o0 /\ pool_ok s.
Proof using Type.
  intros []. destruct (wp_inv _ _ _ (session_reaches c z o0 ses_irq0 ses_room0 ses_valid0 calls s0 ses_power0 ses_calls0))
    as (h & s & E & op & g & _ & HI). exists h, s. split_and!; [done|apply HI|by eapply inv_pool].
Qed.

(** C14. The gateways between transport protocols refine an abstract machine, provided that the callers keep to the interface (with at
    most 100 interrupt locks held, and not from within a call the router makes): they do
    not ask for retransmission (TP_DATARETRY), transport protocols use the calls for transport protocols on paths that are theirs and
    report success only of a reception in progress, a PDU has at least the length it claims and fits the transmit buffer of a
    triggered destination, and one for the diagnostic module is not empty: the history of calls and answers is one of the machine that
    keeps, for each routing path, the bytes received and how many of them each destination has fetched; an accepted request means
    there what it says, and the buffers of the code hold the state of the machine. *)
Theorem pdur_gateway_refines c z o0 calls s0 h s : Session c z o0 calls s0 -> boot_and_run c calls s0 = Some (h, s) ->
  gw_run c (replicate z.(ram_routes) None) h (gateway s).
Proof using Type.
  intros Hses E. destruct (session_run _ _ _ _ _ _ _ Hses E) as (op & g & Hrun & HI). by rewrite (i_gateway _ _ _ _ _ _ _ HI).
Qed.

(** C15. Gateways between transport protocols do not alter data, provided that the callers keep to the interface (with at
    most 100 interrupt locks held, and not from within a call the router makes): they do not ask for
    retransmission (TP_DATARETRY), transport protocols use the calls for transport protocols on paths that are theirs and report
    success only of a reception in progress, a PDU has at least the length it claims and fits the transmit buffer of a triggered
    destination, and one for the diagnostic module is not empty: whatever the order of receptions, requests and errors on all paths,
    what a destination of a path between transport protocols has fetched since the start of a reception is a prefix of the bytes
    received since. *)
Theorem pdur_gateway_streams c z o0 calls s0 h s id d xs : Session c z o0 calls s0 -> boot_and_run c calls s0 = Some (h, s) ->
  0 <= id -> to_tp c id = true -> from_lower c id = true -> (d < PDUR_MAX_GW_DESTINATIONS)%nat -> received id h = Some xs ->
  fetched id d h `prefix_of` xs.
Proof using Type.
  intros Hses E Hid Htp Hlow Hd Hx. destruct (session_run _ _ _ _ _ _ _ Hses E) as (op & g & Hrun & _).
  eapply agrees_prefix; [by eapply agrees_run|done|done].
Qed.

(** A buffer of the pool is free and can take [len] bytes. *)
Definition buffer_free (len : Z) (s : PduR_State W) : Prop :=
  exists i b, 0 <= i < s.(NTpBuffers) /\ aref s.(TpBuffers) i = Some b /\ b.(status) = PDUR_BUFFER_FREE /\ len <= b.(bufferSize).
(** C12. Messages get through: after any session in which the callers kept to the interface (the conditions of
    [pdur_memory_safe]; no retransmission is asked for), when a routing path that forwards whole messages is idle and a buffer is free, a message
    of any length up to the announced one, received in parts of any sizes, is accepted, and each destination is given all it asks for
    of it, in requests of any sizes and in any order among the destinations. *)
Theorem pdur_gateway_delivers c z o0 calls s0 h s id p svc size len parts reqs :
  Session c z o0 calls s0 -> boot_and_run c calls s0 = Some (h, s) -> Forwards c id p ->
  s.(TpRouteBuffers) !! Z.to_nat id = Some None -> buffer_free len s ->
  Forall info_ok parts -> Z.of_nat (length (message parts)) <= len -> Forall (request_ok id) reqs ->
  (forall d, asked d reqs <= Z.of_nat (length (message parts))) ->
  exists h' s', run (forwarding id svc size len parts reqs) h s = Some (h', s') /\ accepted h h' /\
    forall d, (d < PDUR_MAX_GW_DESTINATIONS)%nat -> fetched id d h' = take (Z.to_nat (asked d reqs)) (message parts).
Proof using Type.
  intros Hses E Hf Hidle (i & b & Hi & Hb & Hst & Hsize) Hparts Hlen Hreqs Hasked.
  destruct (session_run _ _ _ _ _ _ _ Hses E) as (op & g & _ & HI). destruct Hses.
  assert (Hn : NTpBuffers s = ram_NTp z) by (by rewrite <- (i_ram _ _ _ _ _ _ _ HI)).
  destruct (wp_inv _ _ _ (run_forwarding c z o0 ses_irq0 ses_room0 ses_valid0 id p Hf svc size len parts reqs op g h s
    ltac:(by split; [split|]) ltac:(intros Hfull; rewrite Hn in Hi; specialize (Hfull i b Hi Hb Hst); lia) Hparts Hlen Hreqs Hasked))
    as (h' & s' & Er & Hacc & _ & Hd). by exists h', s'.
Qed.

(** ** Multicast

    Which destinations take part, what handing the PDU to one of them means, and to all of a list, one after the other. *)
Definition takes_part (s : PduR_State W) (d : PduRDestPdu_type) : bool :=
  negb (PDUR_MAX_NOF_ROUTING_PATH_GROUPS >? 0) ||
  forallb (fun g => default false (aref s.(PdurRoutingGroupEnabled) g)) (take (Z.to_nat d.(NofGroupRefs)) d.(RoutingPathGroupRefs)) ||
  bool_decide (d.(DestModule) = ARC_PDUR_COM).
Definition hand_over (info : PduInfoType) (d : PduRDestPdu_type) (w : W) : Z * W :=
  match transmit_of d.(DestModule) with Some f => transmit f d.(DestPduId) info w | None => (E_NOT_OK, w) end.
Fixpoint hand_over_all (info : PduInfoType) (ds : list PduRDestPdu_type) (w : W) : list Z * W :=
  match ds with
  | [] => ([], w)
  | d :: ds => let '(r, w) := hand_over info d w in let '(rs, w) := hand_over_all info ds w in (r :: rs, w)
  end.

Lemma groups_enabled_forallb refs i n (s : PduR_State W) :
  Forall (fun g => below g (length s.(PdurRoutingGroupEnabled))) refs -> 0 <= i -> i + Z.of_nat n <= Z.of_nat (length refs) ->
  groups_enabled refs i n s =
  Some (forallb (fun g => default false (aref s.(PdurRoutingGroupEnabled) g)) (take n (drop (Z.to_nat i) refs)), s).
Proof using Type.
  intros Hrefs. revert i. induction n as [|n IH]; intros i Hi Hn; cbn [groups_enabled]; [by rewrite take_0|].
  destruct (aref_is_Some refs i) as [g Hg]; [lia|]. pose proof Hg as [_ Hg']%aref_Some.
  destruct (aref_is_Some (PdurRoutingGroupEnabled s) g) as [e He]; [by apply (Forall_lookup_1 _ _ _ _ Hrefs Hg')|].
  unfold bind, deref, group_enabled, get. rewrite Hg. cbn -[aref]. unfold bind, get, deref. rewrite He. cbn -[aref].
  rewrite (drop_S _ _ _ Hg'). cbn -[aref]. rewrite He. cbn -[aref]. destruct e; [|done]. cbn [andb].
  rewrite IH by lia. by rewrite Z2Nat.inj_add, Nat.add_1_r by lia.
Qed.
Lemma enabled_takes_part d (s : PduR_State W) : groups_ok (ram s) d ->
  exists e, PduRRoutingPathEnabled d s = Some (e, s) /\ e || bool_decide (d.(DestModule) = ARC_PDUR_COM) = takes_part s d.
Proof using Type.
  intros [Hn Hr]. unfold PduRRoutingPathEnabled, takes_part. destruct (_ >? 0); [|by exists true].
  eexists. split; [apply groups_enabled_forallb; [exact Hr|lia|]|by rewrite drop_0].
  destruct (Z.le_gt_cases 0 (NofGroupRefs d)); lia.
Qed.

Definition status_of (answers : list Z) (st : PduRRouteStatusType) : PduRRouteStatusType :=
  fold_left (fun st r => if bool_decide (st = PDUR_E_REJECTED) || negb (r =? E_OK) then PDUR_E_REJECTED else PDUR_E_OK) answers st.
Lemma route_transmits_all ds info st (s : PduR_State W) : Forall (groups_ok (ram s)) ds ->
  route_transmits ds info st s =
  let '(rs, w) := hand_over_all info (List.filter (takes_part s) ds) s.(world) in Some (status_of rs st, set_world w s).
Proof using Type.
  intros Hds. revert st s Hds. induction ds as [|d ds IH]; intros st s Hds; cbn [route_transmits List.filter].
  { cbn. by destruct s. }
  apply Forall_cons_1 in Hds as [Hd Hds]. destruct (enabled_takes_part d s Hd) as (e & Ee & Et).
  unfold bind, PduR_ARC_RouteTransmit. unfold bind at 1. rewrite Ee. cbn -[route_transmits hand_over_all]. rewrite Et. destruct (takes_part s d).
  - cbn [hand_over_all]. unfold bind, hand_over. destruct (transmit_of (DestModule d)) as [f|].
    + unfold call. destruct (transmit f (DestPduId d) info (world s)) as [r w]. cbn -[route_transmits]. unfold ret.
      rewrite (IH _ (set_world w s) Hds). change (takes_part (set_world w s)) with (takes_part s). cbn.
      destruct (hand_over_all info (List.filter (takes_part s) ds) w) as [rs w']. unfold status_of. cbn [fold_left]. by destruct st, (r =? E_OK).
    + cbn -[route_transmits]. unfold ret. rewrite (IH _ s Hds). destruct (hand_over_all _ _ _) as [rs w']. unfold status_of. cbn [fold_left]. by destruct st.
  - cbn -[route_transmits hand_over_all]. rewrite (IH _ s Hds). by destruct st.
Qed.
Lemma status_rejected rs : status_of rs PDUR_E_REJECTED = PDUR_E_REJECTED.
Proof using Type. by induction rs. Qed.
Lemma status_ok rs : status_of rs PDUR_E_OK = if forallb (fun r => r =? E_OK) rs then PDUR_E_OK else PDUR_E_REJECTED.
Proof using Type. induction rs as [|r rs IH]; [done|]. cbn. destruct (r =? E_OK); [exact IH|apply status_rejected]. Qed.
Lemma status_disabled rs : status_of rs PDUR_E_DISABLED =
  match rs with [] => PDUR_E_DISABLED | _ => if forallb (fun r => r =? E_OK) rs then PDUR_E_OK else PDUR_E_REJECTED end.
Proof using Type. destruct rs as [|r rs]; [done|]. cbn. destruct (r =? E_OK); [apply status_ok|apply status_rejected]. Qed.

Lemma transmit_routes c z (s : PduR_State W) id p info svc : valid c z ->
  s.(PduRState) = PDUR_ONLINE -> s.(PduRConfig) = Some c -> ram s = z -> aref c.(RoutingPaths) id = Some p -> id < c.(NRoutingPaths) ->
  PduR_UpTransmit id (Some info) svc s =
  let '(rs, w) := hand_over_all info (List.filter (takes_part s) p.(PduRDestPdus)) s.(world) in
  Some (match status_of rs PDUR_E_DISABLED with PDUR_E_OK => E_OK | _ => E_NOT_OK end, set_world w s).
Proof using Type.
  intros Hvalid Hst Hc Hz Hp Hid. subst z. destruct Hvalid as (_ & _ & _ & _ & _ & _ & Hpaths & _).
  pose proof Hp as [_ Hp']%aref_Some. destruct (Hpaths _ _ Hp') as (_ & Hd & _).
  assert (Hd' : Forall (groups_ok (ram s)) p.(PduRDestPdus)) by (refine (Forall_impl _ _ Hd); intros d [Hg _]; exact Hg).
  unfold PduR_UpTransmit, PduR_ARC_Transmit, PDUR_VALIDATE_INITIALIZED, PDUR_VALIDATE_PDUPTR, PDUR_VALIDATE_PDUID, routing_path, cfg.
  unfold bind, get, deref. rewrite Hst. cbn -[aref route_transmits]. rewrite !bool_decide_eq_false_2 by done. cbn -[aref route_transmits].
  rewrite Hc. cbn -[aref route_transmits]. rewrite Z.geb_leb. destruct (Z.leb_spec (NRoutingPaths c) id); [lia|].
  rewrite Hc. cbn -[aref route_transmits]. rewrite Hp. cbn -[aref route_transmits]. rewrite (route_transmits_all _ _ _ _ Hd').
  destruct (hand_over_all _ _ _) as [rs w]. unfold ret. by destruct (status_of rs PDUR_E_DISABLED).
Qed.

(** C35. Multicast: a PDU of an upper module is handed, unchanged and once, to the destinations of its path that are enabled, in the order
    of the configuration, a refusal of one notwithstanding; nothing else happens.  The service reports success exactly when there was a
    destination to serve and every one accepted. *)
Theorem pdur_transmit_multicast c z (s : PduR_State W) id p info svc : valid c z ->
  s.(PduRState) = PDUR_ONLINE -> s.(PduRConfig) = Some c -> ram s = z -> aref c.(RoutingPaths) id = Some p -> id < c.(NRoutingPaths) ->
  let '(answers, w) := hand_over_all info (List.filter (takes_part s) p.(PduRDestPdus)) s.(world) in
  PduR_UpTransmit id (Some info) svc s =
  Some (if negb (bool_decide (answers = [])) && forallb (fun r => r =? E_OK) answers then E_OK else E_NOT_OK, set_world w s).
Proof using Type.
  intros Hvalid Hst Hc Hz Hp Hid. rewrite (transmit_routes c z s id p info svc) by done.
  destruct (hand_over_all _ _ _) as [answers w]. rewrite status_disabled.
  destruct answers as [|r rs]; [done|]. by destruct (forallb _ (r :: rs)).
Qed.

(** ** Requests for data sent before *)
Definition again (n : Z) : RetryInfoType := {| TpDataState := TP_DATARETRY; TxTpDataCnt := n |}.
Lemma copy_again src dst p info n available i b count (s : PduR_State W) :
  aref s.(TpRouteBuffers) src = Some (Some i) -> aref s.(TpBuffers) i = Some b -> info_ok info ->
  0 <= n <= b.(pduInfoPtr).(SduLength) -> info.(SduLength) <= b.(bufferSize) -> aref b.(txByteCount) dst = Some count ->
  count + info.(SduLength) <= b.(rxByteCount) -> buffer_ok b ->
  copy_from_buffer src dst p info (again n) available s = None <-> b.(bufferSize) < n + info.(SduLength).
Proof using Type.
  intros Hr Hb [Hl0 Hl] Hn Hlen Hc Hcount [Hsize _]. unfold copy_from_buffer, RouteBuffer, upd_RouteBuffer, upd_TpBuffer, PduRTpRouteBuffer, PduRTpBuffer.
  unfold bind, get, deref, modify. cbn -[aref read_bytes write_bytes]. rewrite Hr. cbn -[aref read_bytes write_bytes].
  rewrite Hb. cbn -[aref read_bytes write_bytes]. rewrite !Z.gtb_ltb.
  destruct (Z.ltb_spec (SduLength (pduInfoPtr b)) n); [lia|]. destruct (Z.ltb_spec (bufferSize b) (SduLength info)); [lia|].
  cbn -[aref read_bytes write_bytes]. rewrite Hc. cbn -[aref read_bytes write_bytes]. rewrite !Z.gtb_ltb.
  destruct (Z.ltb_spec (rxByteCount b) (count + SduLength info)); [lia|]. rewrite !andb_false_r. cbn -[aref read_bytes write_bytes].
  rewrite Hr. cbn -[aref read_bytes write_bytes]. rewrite Hb. cbn -[aref read_bytes write_bytes].
  rewrite !bool_decide_eq_true_2 by done. destruct (Z.le_gt_cases (n + SduLength info) (bufferSize b)).
  - rewrite read_bytes_in by lia. cbn -[aref write_bytes]. rewrite write_bytes_in by (rewrite ?length_segment; lia). cbn. split; [done|lia].
  - assert (read_bytes (SduDataPtr (pduInfoPtr b)) n (SduLength info) = None) as ->; [|split; [lia|done]].
    unfold read_bytes. destruct (Z.leb_spec (n + SduLength info) (Z.of_nat (length (SduDataPtr (pduInfoPtr b))))); [lia|]. by rewrite andb_false_r.
Qed.

(** C36. Bounds of a repeated request: a destination of a message in a buffer asks again, in the way of TP_DATARETRY, for bytes from [n] on;
    [n] is within the message and the bytes would fit behind what the destination has fetched.  The code checks no more, and
    reads beyond the end of the buffer exactly when [n] and the length of the request exceed its size. *)
Theorem pdur_retry_bounds c z o0 calls s0 h s id p i b k info n count available svc :
  Session c z o0 calls s0 -> boot_and_run c calls s0 = Some (h, s) -> Forwards c id p ->
  s.(TpRouteBuffers) !! Z.to_nat id = Some (Some i) -> aref s.(TpBuffers) i = Some b -> sourcePduId k = id -> info_ok info ->
  0 <= n <= b.(pduInfoPtr).(SduLength) -> aref b.(txByteCount) (destionId k) = Some count ->
  count + info.(SduLength) <= b.(rxByteCount) ->
  PduR_LoTpCopyTxData k (Some info) (Some (again n)) available svc s = None <-> b.(bufferSize) < n + info.(SduLength).
Proof using Type.
  intros Hses E Hf Hr Hb Hk Hinfo Hn Hc Hcount. destruct (session_run _ _ _ _ _ _ _ Hses E) as (op & g & _ & HI). destruct Hses.
  assert (Hid : 0 <= id) by (by apply (forwards_id c id p)). pose proof (tp_is_lo _ (f_source _ _ _ Hf)) as Hlo.
  destruct (hold c z o0 _ _ _ _ _ _ HI Hid Hr) as (b' & Hs & _). pose proof (h_buffer _ _ _ _ _ _ _ _ _ _ Hs) as Hb'.
  rewrite Hb in Hb'. injection Hb' as <-. destruct (hold_use c z o0 _ _ _ _ _ _ _ Hs) as [(_ & Hrx & Hsdu & Htx) Hok].
  pose proof (Forall_lookup_1 _ _ _ _ Htx (proj2 (proj1 (aref_Some _ _ _) Hc))) as Hct. cbv beta in Hct. clear HI Hr Hb E.
  unfold PduR_LoTpCopyTxData, PDUR_VALIDATE_INITIALIZED, PDUR_VALIDATE_PDUPTR, PDUR_VALIDATE_PDUID. rewrite Hk.
  eapply spec_bind_fault; [|exact Hs|]; [apply (spec_get _ _ (fun x => x = PDUR_ONLINE)); by intros s' [[] _ _]|].
  clear s Hs. intros ? s -> Hs. rewrite !bool_decide_eq_false_2 by done. cbn [orb]. cbv zeta.
  eapply spec_bind_fault; [|exact Hs|]; [apply (spec_pdur_cfg c z), based_hold|]. clear s Hs. intros ? s -> Hs.
  rewrite Z.geb_leb. destruct (Z.leb_spec (NRoutingPaths c) id); [pose proof (f_known _ _ _ Hf); lia|].
  eapply spec_bind_fault; [|exact Hs|]; [apply spec_Enter_held|]. clear s Hs. intros _ s _ Hs.
  eapply spec_bind_fault; [|exact Hs|]; [apply (spec_routing_path c z); [apply based_hold|apply Hf]|]. clear s Hs. intros ? s -> Hs.
  rewrite (lo_not_up _ Hlo), Hlo, (f_direct _ _ _ Hf). cbn [negb andb TpDataState again].
  rewrite (bool_decide_eq_true_2 (TP_DATARETRY = TP_DATARETRY)) by done. cbn [TxTpDataCnt]. fold (again n).
  rewrite bind_fault by (intros a s'; by eexists).
  eapply spec_bind_fault; [|exact Hs|]; [apply spec_TpRouteBuffer_held|]. clear s Hs. intros ? s -> [_ _ Hr Hb].
  eapply copy_again; try done; [by apply aref_Some|lia].
Qed.
End Theorems.

(** ** The example *)
Section Witnesses.
Existing Instances Demo.demo_cfg Demo.demo_env.

Ltac demo_calls := vm_compute; repeat split; repeat apply Forall_cons_2; try apply Forall_nil_2; vm_compute; intuition congruence.
Lemma demo_session calls : session_ok Demo.c Demo.z calls Demo.boot -> Session Demo.c Demo.z Demo.unlocked calls Demo.boot.
Proof using Type.
  intros Hc. split; [by apply (bool_decide_unpack _); vm_compute|by vm_compute|by apply (bool_decide_unpack _); vm_compute| |done].
  split; try done; repeat apply Forall_cons_2; try apply Forall_nil_2; done.
Qed.
Lemma demo_session_ok : session_ok Demo.c Demo.z Demo.calls Demo.boot.
Proof using Type. demo_calls. Qed.
Lemma demo_forwards : exists p, Forwards Demo.c 2 p.
Proof using Type. eexists. split; [reflexivity|done|done|done|repeat apply Forall_cons_2; try apply Forall_nil_2; done]. Qed.

Lemma pdur_memory_safe_witness : exists h s, boot_and_run Demo.c Demo.calls Demo.boot = Some (h, s) /\ pool_ok s.
Proof using Type.
  destruct (pdur_memory_safe Demo.c Demo.z Demo.unlocked Demo.calls Demo.boot) as (h & s & E & _ & Hp).
  - apply demo_session, demo_session_ok.
  - exists h, s. by split.
Defined.
Lemma pdur_gateway_refines_witness : exists h (s : PduR_State Demo.World), length h = 15%nat /\ gw_run Demo.c (replicate 5 None) h (gateway s).
Proof using Type.
  destruct (boot_and_run Demo.c Demo.calls Demo.boot) as [[h s]|] eqn:E; [|exfalso; vm_compute in E; congruence].
  exists h, s. split; [vm_compute in E; injection E as <- _; reflexivity|].
  apply (pdur_gateway_refines Demo.c Demo.z Demo.unlocked Demo.calls Demo.boot h s); [apply demo_session, demo_session_ok|exact E].
Defined.
Lemma pdur_gateway_streams_witness : exists h s, boot_and_run Demo.c Demo.calls Demo.boot = Some (h, s) /\
  fetched 2 1 h `prefix_of` [1; 2; 3; 4; 5; 6].
Proof using Type.
  destruct (boot_and_run Demo.c Demo.calls Demo.boot) as [[h s]|] eqn:E; [|exfalso; vm_compute in E; congruence].
  exists h, s. split; [reflexivity|].
  apply (pdur_gateway_streams Demo.c Demo.z Demo.unlocked Demo.calls Demo.boot h s 2 1); [apply demo_session, demo_session_ok|exact E|..];
    [lia|reflexivity|reflexivity|vm_compute; lia|]. vm_compute in E. injection E as <- _. reflexivity.
Defined.
(** After a session that leaves the first gateway idle, a message of five bytes. *)
Definition demo_parts : list PduInfoType := [Demo.bytes [10; 11]; Demo.bytes [12; 13; 14]].
Definition demo_reqs : list (Z * PduInfoType) :=
  [(2, Demo.bytes [0; 0; 0]); (8192 + 2, Demo.bytes [0; 0; 0; 0; 0]); (2, Demo.bytes [0; 0])].
Definition demo_before : list Call := [Transmit 0 (Some (Demo.bytes [1; 2])) 0x89].
Lemma demo_before_ok : session_ok Demo.c Demo.z demo_before Demo.boot.
Proof using Type. demo_calls. Qed.
Lemma pdur_gateway_delivers_witness : exists h s h' s', boot_and_run Demo.c demo_before Demo.boot = Some (h, s) /\
  run (forwarding 2 0x07 (Some 0) 6 demo_parts demo_reqs) h s = Some (h', s') /\ fetched 2 1 h' = [10; 11; 12; 13; 14].
Proof using Type.
  destruct (boot_and_run Demo.c demo_before Demo.boot) as [[h s]|] eqn:E; [|exfalso; vm_compute in E; congruence].
  destruct demo_forwards as [p Hf].
  destruct (pdur_gateway_delivers Demo.c Demo.z Demo.unlocked demo_before Demo.boot h s 2 p 0x07 (Some 0) 6 demo_parts demo_reqs)
    as (h' & s' & Er & _ & Hd); [apply demo_session, demo_before_ok|exact E|exact Hf|..].
  - vm_compute in E. injection E as _ <-. reflexivity.
  - vm_compute in E. injection E as _ <-. exists 1. eexists. split_and!; [lia|reflexivity|reflexivity|reflexivity|cbn; lia].
  - repeat apply Forall_cons_2; try apply Forall_nil_2; vm_compute; intuition congruence.
  - vm_compute. congruence.
  - repeat apply Forall_cons_2; try apply Forall_nil_2; vm_compute; intuition congruence.
  - intros d. cbn [asked demo_reqs fst snd]. change (destionId 2) with 0. change (destionId (8192 + 2)) with 1.
    destruct (decide (0%nat = d)) as [<-|H0]; [vm_compute; congruence|]. destruct (decide (1%nat = d)) as [<-|H1]; [vm_compute; congruence|].
    rewrite !bool_decide_eq_false_2 by done. vm_compute. congruence.
  - exists h, s, h', s'. split_and!; [reflexivity|exact Er|]. rewrite Hd by (vm_compute; lia). reflexivity.
Defined.
Definition demo_online : PduR_State Demo.World := from_option snd Demo.boot (PduR_Init (Some Demo.c) Demo.boot).
Lemma pdur_transmit_multicast_witness : PduR_UpTransmit 0 (Some (Demo.bytes [1; 2])) 0x89 demo_online =
  Some (E_OK, set_world [(FrIf_Transmit, 22, Demo.bytes [1; 2]); (CanIf_Transmit, 20, Demo.bytes [1; 2])] demo_online).
Proof using Type.
  refine (pdur_transmit_multicast Demo.c Demo.z demo_online 0 (nth 0 Demo.c.(RoutingPaths) (Demo.path ARC_PDUR_COM 0 false [])) (Demo.bytes [1; 2]) 0x89 _ _ _ _ _ _).
  - apply (bool_decide_unpack _). vm_compute. exact I.
  - reflexivity.
  - reflexivity.
  - reflexivity.
  - reflexivity.
  - reflexivity.
Defined.
(** The message of six bytes fills the buffer of sixteen; another one, of four, that of four. *)
Definition demo_short : list Call := [
  StartOfReception 2 4 (Some 0) 0x06; CopyRxData 2 (Some (Demo.bytes [1; 2; 3; 4])) (Some 0) 0x04; TpRxIndication 2 NTFRSLT_OK 0x05].
Lemma demo_short_ok : session_ok Demo.c Demo.z demo_short Demo.boot.
Proof using Type. demo_calls. Qed.
Lemma pdur_retry_bounds_witness : exists h s, boot_and_run Demo.c demo_short Demo.boot = Some (h, s) /\
  PduR_LoTpCopyTxData 2 (Some (Demo.bytes [0; 0; 0])) (Some (again 3)) None 0x07 s = None.
Proof using Type.
  destruct (boot_and_run Demo.c demo_short Demo.boot) as [[h s]|] eqn:E; [|exfalso; vm_compute in E; congruence].
  destruct demo_forwards as [p Hf]. exists h, s. split; [reflexivity|]. pose proof E as Es. vm_compute in Es. injection Es as _ Es.
  apply (pdur_retry_bounds Demo.c Demo.z Demo.unlocked demo_short Demo.boot h s 2 p 0
    (default (Demo.buffer 0) (head s.(TpBuffers))) 2 (Demo.bytes [0; 0; 0]) 3 0 None 0x07);
    [apply demo_session, demo_short_ok|exact E|exact Hf|..]; subst s; try reflexivity; vm_compute; intuition congruence.
Defined.
End Witnesses.
