(* ===== verification/Stack.v ===== *)
(** * Com, PDU router and the modules below as one stack

    The modules of the communication stack joined through the classes of operations they are written against.  Going down, the
    router serves Com ([over_router], an instance of [Com_Env]); going up, Com serves the router ([below_com], an instance of
    [PduR_Env]).  A signal sent on one node is handed to the CAN interface there and, when the frame is indicated to the
    router of another node, received by the application of that one. *)

From S2P Require Import Prelude.
From S2P Require Import StateMonad.
From S2P Require Import Os_Irq.
From S2P Require Import ComStack.
From S2P Require Import PduR_Types.
From S2P Require Import PduR.
From S2P Require Import PduR_Interfaces.
From S2P Require Import PduR_Inv.
From S2P Require Import PduR_Demo.
From S2P Require Import PduR_Theorems.
From S2P Require Import Com_Signal.
From S2P Require Import Com_Packing.
From S2P Require Import Com_Codec.
From S2P Require Import Com_Types.
From S2P Require Import Com.
From S2P Require Import Com_Valid.
From S2P Require Import Com_Inv.
From S2P Require Import Com_Delay.
From S2P Require Import Com_Demo.
From S2P Require Import Com_Theorems.
From S2P Require Import Com_Transfer.

#[local] Open Scope monad_scope.

(** An I-PDU as the router takes it. *)
Definition pdu (sdu : list Z) : PduInfoType := {| SduDataPtr := sdu; SduLength := Z.of_nat (length sdu) |}.

(** ** Down: the router serves Com

    [F]: the world of the router, [V]: whatever else Com calls. *)
Section Down.
Context {F V : Type} {RCfg : PduR_Cfg} {REnv : PduR_Env F} {VEnv : Com_Env V} {Cfg : Com_Cfg}.

Definition router_transmit (id : Z) (sdu : list Z) (r : PduR_State F) : Z * PduR_State F :=
  default (E_NOT_OK, r) (PduR_Interfaces.PduR_ComTransmit id (Some (pdu sdu)) r).
#[local] Arguments router_transmit : simpl never.

#[export] Instance over_router : Com_Env (PduR_State F * V) := {|
  Com_Types.PduR_ComTransmit := fun id sdu w => let '(x, r) := router_transmit id sdu w.1 in (x, (r, w.2));
  Com_Types.Det_ReportError := fun api err => beside (Com_Types.Det_ReportError api err);
  OsekNm_TimeoutNotification := fun net node => beside (OsekNm_TimeoutNotification net node);
  ComNotificationCallouts := over beside ComNotificationCallouts;
  ComRxIPduCallouts := over beside_rx ComRxIPduCallouts;
  ComTxIPduCallouts := over beside_tx ComTxIPduCallouts;
  ComTriggerTransmitIPduCallouts := over beside_tx ComTriggerTransmitIPduCallouts
|}.
#[export] Instance over_router_ok : Com_EnvOk V -> Com_EnvOk (PduR_State F * V).
Proof. intros []. by split; apply beside_in_place. Qed.

(** What the router is after the transmissions of a log. *)
Abbreviation L := (list Event * (PduR_State F * V))%type.
Fixpoint replay (log : list Event) (r : PduR_State F) : PduR_State F :=
  match log with
  | [] => r
  | Tick :: log => replay log r
  | Sent id sdu :: log => (router_transmit id sdu (replay log r)).2
  end.
(** Since [l0] and [r0], the router has got what the log says. *)
Definition in_step (l0 : list Event) (r0 : PduR_State F) (s : Com_State L) : Prop :=
  exists new, s.(Com_Types.world).1 = new ++ l0 /\ s.(Com_Types.world).2.1 = replay new r0.

Section Keep.
Variables (l0 : list Event) (r0 : PduR_State F).
Abbreviation J := (in_step l0 r0).
Lemma keep_call {A} (f : L -> A * L) :
  (forall w, (f w).2.1 = w.1 /\ (f w).2.2.1 = w.2.1) -> preserves J (Com.call f).
Proof.
  intros Hf s x s' (new & H1 & H2) E. unfold Com.call in E. destruct (Hf s.(Com_Types.world)) as [E1 E2].
  destruct (f (Com_Types.world s)) as [a w]. injection E as <- <-. exists new. cbn in *. by rewrite E1, E2.
Qed.
Lemma keep_transmit id sdu : preserves J (Com.call (Com_Types.PduR_ComTransmit (W := L) id sdu)).
Proof.
  intros s x s' (new & H1 & H2) E. unfold Com.call in E. cbn in E. rewrite H2 in E.
  destruct (router_transmit id sdu (replay new r0)) as [y r] eqn:Er. cbn in E. injection E as <- <-.
  exists (Sent id sdu :: new). cbn. by rewrite H1, Er.
Qed.
(** Steps through an operation; [leaf] deals with some of its parts. *)
Ltac keep_go leaf :=
  repeat lazymatch goal with
  | |- preserves _ (bind _ _) => apply preserves_bind; [|intros]
  | |- preserves _ (ret _) => apply preserves_ret
  | |- preserves _ (get _) => apply preserves_get
  | |- preserves _ (deref _) => apply preserves_deref
  | |- preserves _ (modify _) => apply preserves_modify; by intros s (new & H1 & H2); exists new
  | |- preserves _ (Com.call (Com_Types.PduR_ComTransmit _ _)) => apply keep_transmit
  | |- preserves _ (Com.call _) => apply keep_call; by intros [? []]
  | |- preserves _ (for_each _ _ _) => apply preserves_for_each; intros
  | |- preserves _ (let _ := _ in _) => cbv zeta
  | |- preserves _ (match ?x with _ => _ end) => destruct x eqn:?
  | |- preserves _ ?m => first [leaf | let h := head_of m in unfold h]
  end.
Lemma keep_tx_callout n id P p : preserves J (tx_callout (ComTxIPduCallouts (W := L)) n id P p).
Proof.
  unfold tx_callout. destruct (n =? _); [apply preserves_ret|]. apply preserves_bind_deref. intros [f|] Hf; [|apply preserves_ret].
  apply aref_Some in Hf as [_ Hf]. apply over_lookup in Hf as ([g1|] & Hf & Hx); [|done]. injection Hx as ->.
  apply over_lookup in Hf as ([g|] & _ & Hx); [|done]. injection Hx as ->.
  assert (Hcall : forall d, preserves J (Com.call (beside_tx (beside_tx g) id d : L -> _))).
  { intros d. apply keep_call. intros [l [r v]]. unfold beside_tx. cbn. by destruct (g id d v) as [[] ?]. }
  apply preserves_bind; [|intros d; apply preserves_bind; [apply Hcall|]]; [|intros [ok d']]; keep_go fail.
Qed.
Lemma keep_SendSignal h data : preserves J (Com_SendSignal (W := L) h data).
Proof. keep_go ltac:(apply keep_tx_callout). Qed.
End Keep.

(** Sending one I-PDU, Com calls the router once. *)
Lemma router_after (s s' : Com_State L) h data r id sdu : Com_SendSignal (W := L) h data s = Some (r, s') ->
  s'.(Com_Types.world).1 = Sent id sdu :: s.(Com_Types.world).1 ->
  s'.(Com_Types.world).2.1 = (router_transmit id sdu s.(Com_Types.world).2.1).2.
Proof.
  intros E Hl. destruct (keep_SendSignal s.(Com_Types.world).1 s.(Com_Types.world).2.1 h data s r s') as (new & H1 & H2); [|exact E|].
  - by exists [].
  - rewrite Hl in H1. change (Sent id sdu :: (Com_Types.world s).1) with ([Sent id sdu] ++ (Com_Types.world s).1) in H1.
    apply app_inv_tail in H1 as <-. exact H2.
Qed.
End Down.

(** ** Up: Com serves the router

    [G]: what else the router calls; I-PDUs that Com exchanges with transport protocols are left to it. *)
Section Up.
Context {G W : Type} {RCfg : PduR_Cfg} {GEnv : PduR_Env G} {Cfg : Com_Cfg} {Env : Com_Env W}.
Abbreviation U := (Com_State W * G)%type.

Definition in_com {A} (m : M (Com_State W) A) (failed : A) (w : U) : A * U :=
  match m w.1 with Some (a, s) => (a, (s, w.2)) | None => (failed, w) end.
Definition aside {A} (f : G -> A * G) (w : U) : A * U := let '(a, g) := f w.2 in (a, (w.1, g)).

#[export] Instance below_com : PduR_Env U := {|
  transmit := fun f id info => aside (transmit f id info);
  rx_indication := fun f id info => match f with
    | PduR_Types.Com_RxIndication => fun w => (in_com (Com.Com_RxIndication id info.(SduDataPtr)) tt w).2
    | _ => beside (rx_indication f id info) end;
  tp_rx_indication := fun f id r => match f with
    | PduR_Types.Com_TpRxIndication => fun w => (in_com (Com.Com_TpRxIndication id r) tt w).2
    | _ => beside (tp_rx_indication f id r) end;
  tp_tx_confirmation := fun f id r => match f with
    | PduR_Types.Com_TpTxConfirmation => fun w => (in_com (Com.Com_TpTxConfirmation id r) tt w).2
    | _ => beside (tp_tx_confirmation f id r) end;
  tx_confirmation := fun f id => match f with
    | PduR_Types.Com_TxConfirmation => fun w => (in_com (Com.Com_TxConfirmation id) tt w).2
    | _ => beside (tx_confirmation f id) end;
  trigger_transmit := fun f id info => match f with
    | PduR_Types.Com_TriggerTransmit => fun w =>
        let '((r, d, n), w) := in_com (Com.Com_TriggerTransmit id info.(SduDataPtr) info.(SduLength))
                                 (E_NOT_OK, info.(SduDataPtr), info.(SduLength)) w in
        (r, {| SduDataPtr := d; SduLength := n |}, w)
    | _ => aside (trigger_transmit f id info) end;
  copy_rx_data := fun f id info => aside (copy_rx_data f id info);
  copy_tx_data := fun f id info retry => aside (copy_tx_data f id info retry);
  start_of_reception := fun f id len => aside (start_of_reception f id len);
  PduR_Types.Det_ReportError := fun api err => beside (PduR_Types.Det_ReportError api err)
|}.
End Up.

(** ** Indication to Com *)
Section Indication.
Context {W : Type} {RCfg : PduR_Cfg} {Env : PduR_Env W}.
(** The path leads to Com alone and has no buffer. *)
Record to_com (c : PduR_PBConfigType) (r : PduR_State W) (id : Z) (d : PduRDestPdu_type) : Prop := {
  tc_state : r.(PduRState) = PDUR_ONLINE;
  tc_config : r.(PduRConfig) = Some c;
  tc_path : exists p, aref c.(RoutingPaths) id = Some p /\ p.(PduRDestPdus) = [d];
  tc_known : id < c.(NRoutingPaths);
  tc_module : d.(DestModule) = ARC_PDUR_COM;
  tc_support : PDUR_COM_SUPPORT = true;
  tc_buffer : id < r.(NTpRouteBuffers) -> aref r.(TpRouteBuffers) id = Some None
}.
Lemma indicate_to_com c r id d info svc : to_com c r id d ->
  PduR_LoIfRxIndication id (Some info) svc r =
  Some (tt, PduR_Types.set_world (rx_indication PduR_Types.Com_RxIndication d.(DestPduId) info r.(PduR_Types.world)) r).
Proof.
  intros [Hst Hc (p & Hp & Hd) Hid Hm Hsup Hb].
  unfold PduR_LoIfRxIndication, PduR_ARC_RxIndication, PDUR_VALIDATE_INITIALIZED, PDUR_VALIDATE_PDUPTR, PDUR_VALIDATE_PDUID,
    routing_path, PduR.cfg, HAS_BUFFER_STATUS, PduR_ARC_ReleaseRxBuffer, PduRTpRouteBuffer.
  unfold bind, get, deref. cbn -[aref]. rewrite Hst. rewrite !bool_decide_eq_false_2 by done. cbn -[aref].
  rewrite Hc. cbn -[aref]. rewrite Z.geb_leb. destruct (Z.leb_spec (NRoutingPaths c) id); [lia|].
  rewrite Hc. cbn -[aref]. rewrite Hp. cbn -[aref]. rewrite Hd. cbn -[aref].
  assert (Hto : rx_indication_to d info = PduR.notify (rx_indication PduR_Types.Com_RxIndication d.(DestPduId) info)).
  { unfold rx_indication_to, PduR_ARC_RouteRxIndication. by rewrite Hm, Hsup. }
  destruct (Z.ltb_spec id (NTpRouteBuffers r)) as [Hlt|Hge].
  - rewrite (Hb Hlt). cbn -[aref]. rewrite Hto. unfold bind. cbn -[aref]. rewrite Z.geb_leb.
    destruct (Z.leb_spec (NTpRouteBuffers r) id); [lia|]. cbn -[aref]. by rewrite (Hb Hlt).
  - unfold ret. cbn -[aref]. rewrite Hto. unfold bind. cbn -[aref]. rewrite Z.geb_leb. destruct (Z.leb_spec (NTpRouteBuffers r) id); [|lia]. done.
Qed.
End Indication.

(** ** From application to application *)
Section Transfer.
Context {G W : Type} (RCfg2 : PduR_Cfg) (GEnv : PduR_Env G) (Cfg2 : Com_Cfg) (Env2 : Com_Env W).
Context {F V : Type} (RCfg1 : PduR_Cfg) (REnv1 : PduR_Env F) (VEnv : Com_Env V) (Cfg1 : Com_Cfg).

(** The enabled destination of the path is the frame [DestPduId d] of the CAN interface. *)
Record to_canif (c : PduR_PBConfigType) (r : PduR_State F) (id : Z) (d : PduRDestPdu_type) : Prop := {
  ti_valid : PduR_Inv.valid c (ram r);
  ti_state : r.(PduRState) = PDUR_ONLINE;
  ti_config : r.(PduRConfig) = Some c;
  ti_path : exists p, aref c.(RoutingPaths) id = Some p /\ List.filter (takes_part r) p.(PduRDestPdus) = [d];
  ti_known : id < c.(NRoutingPaths);
  ti_module : transmit_of d.(DestModule) = Some CanIf_Transmit
}.
Lemma transmit_to_canif c r id d sdu : to_canif c r id d ->
  (router_transmit id sdu r).2 = PduR_Types.set_world (transmit CanIf_Transmit d.(DestPduId) (pdu sdu) r.(PduR_Types.world)).2 r.
Proof using Type.
  intros [Hv Hst Hc (p & Hp & Hd) Hid Hm]. unfold router_transmit, PduR_Interfaces.PduR_ComTransmit.
  rewrite (transmit_routes c (ram r) r id p) by done. rewrite Hd. cbn. unfold hand_over. rewrite Hm.
  by destruct (transmit CanIf_Transmit _ _ _) as [x w].
Qed.

(** C10. A signal crosses the whole stack. Sender: Com is initialised, the signal belongs to a started I-PDU for sending, triggers it
    (its transfer property), the mode is direct or mixed, the minimum delay since the last transmission has passed, the I-PDU is not
    locked and has no call-out, counter or dynamic signal, and the router has one enabled destination for it, a frame of the CAN
    interface. Receiver: the router's path for the identifier leads to Com, and the signal there belongs to a started, unlocked I-PDU
    for reception, processed immediately, without call-out and counter. The two signals have the same layout, which lies inside the
    I-PDU and apart from the update bit, and the I-PDUs the same size; the value is one the signal can carry. Then [Com_SendSignal]
    makes the sender's router hand an I-PDU to the CAN interface under the frame the routing table gives, and when that I-PDU is
    indicated to the receiver's router, [Com_ReceiveSignal] there returns the value that was sent. Both nodes run Com and the router
    as the code joins them, may have made any permitted calls of Com before that led to such states, and differ in configurations,
    handles, byte order of the processor and everything around. *)
Theorem stack_signal_transfer
    c1 z1 (s1 : Com_State (list Event * (PduR_State F * V))) h1 S1 P1 a1 st1 r1 d1
    c2 z2 r2 id2 d2 (n2 : PduR_State (Com_State W * G)) h2 S2 P2 a2 st2 data out :
  Com_EnvOk V -> Com_EnvOk W ->
  valid (Cfg := Cfg1) (W := list Event * (PduR_State F * V)) c1 z1 -> valid (Cfg := Cfg2) (W := W) c2 z2 ->
  reached (Cfg := Cfg1) c1 z1 s1 -> reached (Cfg := Cfg2) c2 z2 n2.(PduR_Types.world).1 ->
  can_send c1 s1 h1 S1 P1 a1 st1 -> can_receive c2 n2.(PduR_Types.world).1 h2 S2 P2 a2 st2 ->
  to_canif r1 s1.(Com_Types.world).2.1 P1.(ArcIPduOutgoingId) d1 -> to_com (RCfg := RCfg2) r2 n2 id2 d2 -> d2.(DestPduId) = S2.(ComIPduHandleId) ->
  S1.(Sig_layout) = S2.(Sig_layout) -> P1.(ComIPduSize) = P2.(ComIPduSize) ->
  value_ok S1.(Sig_layout) data -> representable (@BIG_ENDIAN_CPU Cfg1) S1.(Sig_layout) data = true ->
  (value_bytes S2.(Sig_layout) <= length out)%nat ->
  exists s1' sdu n2' s2' v,
    Com_SendSignal (Cfg := Cfg1) h1 data s1 = Some (E_OK, s1') /\
    s1'.(Com_Types.world).2.1.(PduR_Types.world) =
      (transmit CanIf_Transmit d1.(DestPduId) (pdu sdu) s1.(Com_Types.world).2.1.(PduR_Types.world)).2 /\
    PduR_CanIfRxIndication (Cfg := RCfg2) (Env := below_com (Cfg := Cfg2)) id2 (Some (pdu sdu)) n2 = Some (tt, n2') /\
    Com_ReceiveSignal (Cfg := Cfg2) h2 out n2'.(PduR_Types.world).1 = Some ((E_OK, patch out 0 v), s2') /\
    length v = value_bytes S2.(Sig_layout) /\
    forall k, 0 <= k < 8 * Z.of_nat (value_bytes S2.(Sig_layout)) ->
      value_bit (@BIG_ENDIAN_CPU Cfg2) S2.(Sig_layout) v k = value_bit (@BIG_ENDIAN_CPU Cfg1) S1.(Sig_layout) data k.
Proof using Type.
  intros He1 He2 Hv1 Hv2 Hr1 Hr2 Hs Hr Hif Hcom Hd2 HL HP Hval Hrep Hout.
  destruct (com_signal_transfer Cfg1 Cfg2 _ Env2 c1 z1 s1 h1 S1 P1 a1 st1 c2 z2 n2.(PduR_Types.world).1 h2 S2 P2 a2 st2 data out)
    as (s1' & sdu & s2' & s2'' & v & E1 & Elog & E2 & E3 & Hlen & Hk); try done; [by apply over_router_ok|].
  exists s1', sdu. eexists _, s2'', v. split_and!; [done| | | |done|done].
  - rewrite (router_after s1 s1' h1 data E_OK _ _ E1 Elog), (transmit_to_canif r1 _ _ d1) by done. done.
  - unfold PduR_CanIfRxIndication. by apply (indicate_to_com r2 n2 id2 d2).
  - cbn -[Com.Com_RxIndication in_com]. rewrite Hd2. unfold in_com. cbn -[Com.Com_RxIndication]. by rewrite E2.
Qed.
End Transfer.

(** ** The example of [Com_Transfer], with the routers: I-PDU 10 of the sender is the frame 0x123 *)
Existing Instances PduR_Demo.Demo.demo_cfg PduR_Demo.Demo.demo_env.
Definition routes : PduR_PBConfigType := {|
  RoutingPaths := replicate 10 (PduR_Demo.Demo.path ARC_PDUR_CANIF 0 false [PduR_Demo.Demo.dest ARC_PDUR_COM 2 []]) ++
                  [PduR_Demo.Demo.path ARC_PDUR_COM 0 false [PduR_Demo.Demo.dest ARC_PDUR_CANIF 0x123 []]];
  NRoutingPaths := 11; PduRConfigurationId := 1; DefaultValues := None; DefaultValueLengths := None;
  NofRoutingPathGroups := 0; RoutingPathGroups := []
|}.
Definition router {X} (w : X) : PduR_State X := {|
  PduRState := PDUR_ONLINE; PduRConfig := Some routes; TpBuffers := []; TpRouteBuffers := []; TxBuffers := [];
  NTpBuffers := 0; NTpRouteBuffers := 0; NTxBuffers := 0; PdurRoutingGroupEnabled := [];
  PduR_Types.os := PduR_Demo.Demo.unlocked; PduR_Types.world := w
|}.
Definition stack_sender : Com_State (list Event * (PduR_State PduR_Demo.Demo.World * nat)) :=
  from_init big_endian_node _ ([], (router [], 0%nat)).
Definition stack_receiver : PduR_State (Com_State nat * PduR_Demo.Demo.World) := router (receiver, []).

Lemma stack_signal_transfer_witness : exists s1' sdu n2' s2' v,
  Com_SendSignal (Cfg := big_endian_node) 0 [0xFE; 0x34] stack_sender = Some (E_OK, s1') /\
  s1'.(Com_Types.world).2.1.(PduR_Types.world) = [(CanIf_Transmit, 0x123, pdu sdu)] /\
  PduR_CanIfRxIndication 4 (Some (pdu sdu)) stack_receiver = Some (tt, n2') /\
  Com_ReceiveSignal 2 [0; 0] n2'.(PduR_Types.world).1 = Some ((E_OK, v), s2').
Proof.
  destruct (stack_signal_transfer _ _ Com_Demo.Demo.config _ _ _ _ big_endian_node
    Com_Demo.Demo.cfg (sizes stack_sender) stack_sender 0 Com_Demo.Demo.s0
    (default (Com_Demo.Demo.pdu COM_SEND COM_IMMEDIATE 0 0 0 Com_Demo.Demo.s0) (aref Com_Demo.Demo.cfg.(ComIPdu) 0))
    (default Com_Demo.Demo.arc (aref stack_sender.(Com_Arc_IPdu) 0)) {| currentPosition := 0; locked := false |}
    routes (PduR_Demo.Demo.dest ARC_PDUR_CANIF 0x123 [])
    Com_Demo.Demo.cfg (sizes receiver) routes 4 (PduR_Demo.Demo.dest ARC_PDUR_COM 2 []) stack_receiver 2 Com_Demo.Demo.s2
    (default (Com_Demo.Demo.pdu COM_SEND COM_IMMEDIATE 0 0 0 Com_Demo.Demo.s0) (aref Com_Demo.Demo.cfg.(ComIPdu) 2))
    (default Com_Demo.Demo.arc (aref receiver.(Com_Arc_IPdu) 2)) {| currentPosition := 0; locked := false |}
    [0xFE; 0x34] [0; 0]) as (s1' & sdu & n2' & s2' & v & E1 & E2 & E3 & E4 & _).
  1, 2: exact _.
  1, 2: apply (bool_decide_unpack _); vm_compute; exact I.
  - reached_demo (@nil Event, (router (@nil (Transmit_fn * Z * PduInfoType)), 0%nat)).
  - reached_demo 0%nat.
  - split; try (vm_compute; first [done | intuition congruence]). split; vm_compute; first [done | by left | intuition congruence].
  - split; try (vm_compute; first [done | intuition congruence]).
  - split; [apply (bool_decide_unpack _); vm_compute; exact I|reflexivity|reflexivity|eexists; split; reflexivity|reflexivity|reflexivity].
  - split; [reflexivity|reflexivity|eexists; split; reflexivity|reflexivity|reflexivity|reflexivity|vm_compute; intuition congruence].
  - done.
  - done.
  - done.
  - split; [vm_compute; lia|byte_list].
  - by vm_compute.
  - vm_compute. lia.
  - exists s1', sdu, n2', s2', (patch [0; 0] 0 v). split_and!; [exact E1|exact E2|exact E3|exact E4].
Defined.
