(* ===== verification/Coroutine.v ===== *)
(** * Computations that give the processor away

    The services of the operating system can switch to another task in the middle of a function: [Os_ArchSwapContext] saves
    the context of the calling task and returns only when that task is dispatched again.  A computation ends with a value,
    stops at a switch with what remains to be done as a continuation, or faults. *)

From S2P Require Import Prelude.
From S2P Require Import StateMonad.

(** [Swap old]: the context of the task [old] is saved and another one loaded ([Os_ArchSwapContext]); [SwapTo]: one is loaded
    and the present one dropped ([Os_ArchSwapContextTo] with a null pointer); [Start]: the stack of the new task is set up again
    and the task is entered at its beginning ([Os_ArchSetSpAndCall]). *)
Inductive Switch := Swap (old : nat) | SwapTo | Start.

Inductive Out (S A : Type) :=
| Done (a : A) (s : S)
| Switched (w : Switch) (s : S) (k : S -> Out S A)
| Fault.
Arguments Done {S A}.
Arguments Switched {S A}.
Arguments Fault {S A}.

Definition K (S A : Type) : Type := S -> Out S A.

Section Monad.
Context {S : Type}.

Fixpoint and_then {A B} (o : Out S A) (f : A -> K S B) : Out S B :=
  match o with
  | Done a s => f a s
  | Switched w s k => Switched w s (fun s => and_then (k s) f)
  | Fault => Fault
  end.
Definition kret {A} (a : A) : K S A := fun s => Done a s.
Definition kbind {A B} (m : K S A) (f : A -> K S B) : K S B := fun s => and_then (m s) f.
(** A computation that keeps the processor. *)
Definition atomic {A} (m : M S A) : K S A := fun s => match m s with Some (a, s) => Done a s | None => Fault end.
Definition switch (w : Switch) : K S unit := fun s => Switched w s (fun s => Done tt s).
(** [ASSERT(0)] *)
Definition unreachable {A} : K S A := fun _ => Fault.

(** [for (i = 0; i < cnt; i++) body(list[i]);] and [SLIST_FOREACH] *)
Fixpoint kfor_each {A} (l : list A) (body : A -> K S unit) : K S unit :=
  match l with
  | [] => kret tt
  | a :: l => kbind (body a) (fun _ => kfor_each l body)
  end.
End Monad.

Declare Scope coroutine_scope.
Delimit Scope coroutine_scope with coroutine.
Notation "'let+' x := m 'in' k" := (kbind m (fun x => k))
  (at level 10, x pattern, m at level 200, k at level 200) : coroutine_scope.
Notation "'let&' x := m 'in' k" := (kbind (atomic m) (fun x => k))
  (at level 10, x pattern, m at level 200, k at level 200) : coroutine_scope.

(** ** Reasoning

    [G x w s]: what a computation guarantees when it gives the processor away in [s]; [R x s]: what it relies on when it gets
    it back, if [L w s]: there are switches a computation does not come back from.  The ghost [x] is what the rest of the system looks
    like from here; it can be another one after a switch. *)
Section WP.
Context {S X : Type}.
Variables (G : X -> Switch -> S -> Prop) (L : Switch -> S -> Prop) (R : X -> S -> Prop).

Fixpoint outcome {A} (x : X) (o : Out S A) (Q : X -> A -> S -> Prop) : Prop :=
  match o with
  | Done a s => Q x a s
  | Switched w s k => G x w s /\ (L w s -> forall x s, R x s -> outcome x (k s) Q)
  | Fault => False
  end.
Definition kwp {A} (x : X) (m : K S A) (Q : X -> A -> S -> Prop) (s : S) : Prop := outcome x (m s) Q.

Lemma outcome_mono {A} x (o : Out S A) (P Q : X -> A -> S -> Prop) :
  outcome x o P -> (forall x a s, P x a s -> Q x a s) -> outcome x o Q.
Proof.
  intros Ho HPQ. revert x Ho. induction o as [a s|w s k IH|]; intros x; cbn; [auto| |done].
  intros [HG Hk]. split; [done|]. intros Hw x' s' HR. by apply IH, Hk.
Qed.
Lemma outcome_bind {A B} x (o : Out S A) (f : A -> K S B) Q :
  outcome x o (fun x a s => kwp x (f a) Q s) -> outcome x (and_then o f) Q.
Proof.
  revert x. induction o as [a s|w s k IH|]; intros x; cbn; [auto| |done].
  intros [HG Hk]. split; [done|]. intros Hw x' s' HR. by apply IH, Hk.
Qed.

Lemma kwp_bind {A B} x (m : K S A) (f : A -> K S B) Q s :
  kwp x m (fun x a s => kwp x (f a) Q s) s -> kwp x (kbind m f) Q s.
Proof. apply outcome_bind. Qed.
Lemma kwp_mono {A} x (m : K S A) (P Q : X -> A -> S -> Prop) s :
  kwp x m P s -> (forall x a s, P x a s -> Q x a s) -> kwp x m Q s.
Proof. apply outcome_mono. Qed.
Lemma kwp_ret {A} x (a : A) (Q : X -> A -> S -> Prop) s : Q x a s -> kwp x (kret a) Q s.
Proof. done. Qed.
Lemma kwp_atomic {A} x (m : M S A) (Q : X -> A -> S -> Prop) s : wp m (Q x) s -> kwp x (atomic m) Q s.
Proof. unfold wp, kwp, atomic. by destruct (m s) as [[a s']|]. Qed.
(** A step with a known result. *)
Lemma kwp_run {A B} x (m : M S A) (f : A -> K S B) a s s' Q :
  m s = Some (a, s') -> kwp x (f a) Q s' -> kwp x (kbind (atomic m) f) Q s.
Proof. intros E H. unfold kwp, kbind, atomic. by rewrite E. Qed.
Lemma kwp_step {A B} x (m : M S A) (f : A -> K S B) Q s :
  wp m (fun a s => kwp x (f a) Q s) s -> kwp x (kbind (atomic m) f) Q s.
Proof. intros H. by apply kwp_bind, kwp_atomic. Qed.
Lemma kwp_if {A} x (b : bool) (m n : K S A) Q s :
  (b = true -> kwp x m Q s) -> (b = false -> kwp x n Q s) -> kwp x (if b then m else n) Q s.
Proof. destruct b; auto. Qed.
Lemma kwp_for_each {A} (I : X -> S -> Prop) (l : list A) body x s :
  I x s -> (forall a x s, a ∈ l -> I x s -> kwp x (body a) (fun x _ => I x) s) ->
  kwp x (kfor_each l body) (fun x _ => I x) s.
Proof.
  revert x s. induction l as [|a l IH]; intros x s HI Hb; [done|]. cbn [kfor_each].
  apply kwp_bind. eapply kwp_mono; [apply Hb; [by left|done]|]. cbn. intros x' _ s' HI'. apply IH; [done|].
  intros b x1 s1 Hin. apply Hb. by right.
Qed.
End WP.

(** What keeps the processor to its end. *)
Section Direct.
Context {S : Type}.
Lemma kbind_done {A B} (m : K S A) (f : A -> K S B) a s s' : m s = Done a s' -> kbind m f s = f a s'.
Proof. unfold kbind. by intros ->. Qed.
Lemma atomic_done {A B} (m : M S A) (f : A -> K S B) a s s' : m s = Some (a, s') -> kbind (atomic m) f s = f a s'.
Proof. unfold kbind, atomic. by intros ->. Qed.
End Direct.

(** ** What a computation does between switches

    [kresp m]: every piece of [m] up to a switch, or from one to the next, relates the state it starts with, if that satisfies [P], to the one it
    ends with by [Rl].  Whatever happens to the state while other tasks run is not part of it, and neither is whether there are faults. *)
Class Stable {S} (P : S -> Prop) (Rl : S -> S -> Prop) := {
  stable_order :: PreOrder Rl;
  stable_keeps s s' : P s -> Rl s s' -> P s'
}.
Section Pieces.
Context {S : Type} (P : S -> Prop) (Rl : S -> S -> Prop) {HS : Stable P Rl}.

Fixpoint respects {A} (s : S) (o : Out S A) : Prop :=
  match o with
  | Done _ s' => Rl s s'
  | Switched _ s' k => Rl s s' /\ forall s1, P s1 -> respects s1 (k s1)
  | Fault => True
  end.
Definition kresp {A} (m : K S A) : Prop := forall s, P s -> respects s (m s).
Definition mresp {A} (m : M S A) : Prop := forall s a s', P s -> m s = Some (a, s') -> Rl s s'.

Lemma respects_from {A} s s' (o : Out S A) : Rl s s' -> respects s' o -> respects s o.
Proof using HS. intros H. destruct o as [a s2|w s2 k|]; cbn; [by etrans| |done]. intros [H1 H2]. split; [by etrans|done]. Qed.
Lemma respects_bind {A B} s (o : Out S A) (f : A -> K S B) : P s -> respects s o -> (forall a, kresp (f a)) -> respects s (and_then o f).
Proof using HS.
  intros HP Ho Hf. revert s HP Ho. induction o as [a s'|w s' k IH|]; intros s HP; cbn; [| |done].
  - intros HR. eapply respects_from; [exact HR|]. apply Hf. by eapply stable_keeps.
  - intros [HR Hk]. split; [done|]. intros s1 H1. by apply IH, Hk.
Qed.
Lemma kresp_bind {A B} (m : K S A) (f : A -> K S B) : kresp m -> (forall a, kresp (f a)) -> kresp (kbind m f).
Proof using HS. intros Hm Hf s HP. apply respects_bind; [done|by apply Hm|done]. Qed.
Lemma kresp_atomic {A} (m : M S A) : mresp m -> kresp (atomic m).
Proof using Type. intros Hm s HP. unfold atomic. destruct (m s) as [[a s']|] eqn:E; [|done]. cbn. by eapply Hm. Qed.
(** The rest may depend on the value found. *)
Lemma kresp_step {A B} (m : M S A) (f : A -> K S B) :
  mresp m -> (forall s a s', P s -> m s = Some (a, s') -> kresp (f a)) -> kresp (kbind (atomic m) f).
Proof using HS.
  intros Hm Hf s HP. unfold kbind, atomic. destruct (m s) as [[a s']|] eqn:E; [|done]. cbn. pose proof (Hm _ _ _ HP E) as HR.
  eapply respects_from; [exact HR|]. eapply Hf; [exact HP|exact E|]. by eapply stable_keeps.
Qed.
Lemma kresp_ret {A} (a : A) : kresp (kret a).
Proof using HS. intros s _. cbn. reflexivity. Qed.
Lemma kresp_unreachable {A} : kresp (unreachable : K S A).
Proof using Type. done. Qed.
Lemma kresp_switch w : kresp (switch w).
Proof using HS. intros s _. cbn. split; [reflexivity|]. intros s1 _. reflexivity. Qed.
Lemma kresp_for_each {A} (l : list A) (body : A -> K S unit) : (forall a, a ∈ l -> kresp (body a)) -> kresp (kfor_each l body).
Proof using HS.
  induction l as [|a l IH]; intros Hb; cbn; [apply kresp_ret|]. apply kresp_bind; [apply Hb; by left|]. intros _. apply IH. intros b Hin. apply Hb. by right.
Qed.
Lemma mresp_bind {A B} (m : M S A) (f : A -> M S B) : mresp m -> (forall a, mresp (f a)) -> mresp (bind m f).
Proof using HS.
  intros Hm Hf s b s' HP. unfold bind. destruct (m s) as [[a s1]|] eqn:E; [|done]. cbn. intros E2. pose proof (Hm _ _ _ HP E) as HR.
  etrans; [exact HR|]. eapply Hf; [by eapply stable_keeps|exact E2].
Qed.
Lemma mresp_step {A B} (m : M S A) (f : A -> M S B) :
  mresp m -> (forall s a s', P s -> m s = Some (a, s') -> mresp (f a)) -> mresp (bind m f).
Proof using HS.
  intros Hm Hf s b s' HP. unfold bind. destruct (m s) as [[a s1]|] eqn:E; [|done]. cbn. intros E2. pose proof (Hm _ _ _ HP E) as HR.
  etrans; [exact HR|]. eapply Hf; [exact HP|exact E|by eapply stable_keeps|exact E2].
Qed.
Lemma mresp_ret {A} (a : A) : mresp (ret a).
Proof using HS. intros s b s' _ [= _ <-]. reflexivity. Qed.
Lemma mresp_get {A} (f : S -> A) : mresp (get f).
Proof using HS. intros s b s' _ [= _ <-]. reflexivity. Qed.
Lemma mresp_deref {A} (o : option A) : mresp (deref o).
Proof using HS. intros s b s' _. unfold deref. destruct o; [|done]. intros [= _ <-]. reflexivity. Qed.
Lemma mresp_modify f : (forall s, P s -> Rl s (f s)) -> mresp (modify f).
Proof using Type. intros Hf s b s' HP [= _ <-]. by apply Hf. Qed.
Lemma mresp_for_each {A} i (l : list A) (body : nat -> A -> M S unit) : (forall i a, mresp (body i a)) -> mresp (for_each i l body).
Proof using HS. intros Hb. revert i. induction l as [|a l IH]; intros i; cbn; [apply mresp_ret|]. by apply mresp_bind. Qed.
End Pieces.

(** What a computation that ends without a switch leaves. *)
Definition kpost {S A} (m : K S A) (Q : S -> Prop) (s : S) : Prop := match m s with Done _ s' => Q s' | _ => True end.
Section Post.
Context {S : Type}.
Implicit Types (Q : S -> Prop).
Lemma kpost_bind {A B} (m : K S A) (f : A -> K S B) Q s : kpost m (fun s => forall a, kpost (f a) Q s) s -> kpost (kbind m f) Q s.
Proof. unfold kpost, kbind. destruct (m s) as [a s'|w s' k|]; cbn; [intros H; apply H|done|done]. Qed.
Lemma kpost_run {A B} (m : M S A) (f : A -> K S B) Q a s s' : m s = Some (a, s') -> kpost (f a) Q s' -> kpost (kbind (atomic m) f) Q s.
Proof. unfold kpost, kbind, atomic. by intros ->. Qed.
Lemma kpost_mono {A} (m : K S A) (Q1 Q2 : S -> Prop) s : kpost m Q1 s -> (forall s, Q1 s -> Q2 s) -> kpost m Q2 s.
Proof. unfold kpost. destruct (m s); auto. Qed.
Lemma kpost_resp {A} (P : S -> Prop) Rl (m : K S A) s : kresp P Rl m -> P s -> kpost m (Rl s) s.
Proof. intros Hm HP. pose proof (Hm s HP) as H. unfold kpost. by destruct (m s). Qed.
End Post.

(** A computation that does not switch here. *)
Definition kstay {S A} (m : K S A) (Q : S -> Prop) (s : S) : Prop := match m s with Done _ s' => Q s' | Switched _ _ _ => False | Fault => True end.
Section Stay.
Context {S : Type}.
Implicit Types (Q : S -> Prop).
Lemma kstay_bind {A B} (m : K S A) (f : A -> K S B) Q s : kstay m (fun s => forall a, kstay (f a) Q s) s -> kstay (kbind m f) Q s.
Proof. unfold kstay, kbind. destruct (m s) as [a s'|w s' k|]; cbn; [intros H; apply H|done|done]. Qed.
Lemma kstay_run {A B} (m : M S A) (f : A -> K S B) Q a s s' : m s = Some (a, s') -> kstay (f a) Q s' -> kstay (kbind (atomic m) f) Q s.
Proof. unfold kstay, kbind, atomic. by intros ->. Qed.
Lemma kstay_atomic {A} (m : M S A) Q s : (forall a s', m s = Some (a, s') -> Q s') -> kstay (atomic m) Q s.
Proof. unfold kstay, atomic. destruct (m s) as [[a s']|]; [|done]. intros H. by eapply H. Qed.
Lemma kstay_step {A B} (m : M S A) (f : A -> K S B) Q s : (forall a s', m s = Some (a, s') -> kstay (f a) Q s') -> kstay (kbind (atomic m) f) Q s.
Proof. unfold kstay, kbind, atomic. destruct (m s) as [[a s']|]; [|done]. intros H. by eapply H. Qed.
Lemma kstay_mono {A} (m : K S A) (Q1 Q2 : S -> Prop) s : kstay m Q1 s -> (forall s, Q1 s -> Q2 s) -> kstay m Q2 s.
Proof. unfold kstay. destruct (m s); auto. Qed.
Lemma kstay_post {A} (m : K S A) Q s : kstay m Q s -> kpost m Q s.
Proof. unfold kstay, kpost. by destruct (m s). Qed.
Lemma kstay_resp {A} (P : S -> Prop) Rl (m : K S A) : (forall s, P s -> kstay m (Rl s) s) -> kresp P Rl m.
Proof. intros H s HP. pose proof (H s HP) as Hs. unfold kstay in Hs. by destruct (m s). Qed.
End Stay.
