(* ===== verification/Os_Types.v ===== *)
(** * Data of the operating system

    The types of [system/Os/rtos]: [os_task_i.h], [os_resource_i.h], [os_counter_i.h], [os_alarm_i.h], [os_sched_table_i.h],
    [os_sys.h] and the parts of [Os.h] the kernel uses, in the build for one core, scalability class 1 and extended status, without
    the extensions [CFG_KERNEL_EXTRA] and [CFG_T1_ENABLE] and without stack monitoring.

    A pointer to a task, a resource, a counter, an alarm or a schedule table always leads into the array of these objects: it is an
    index.  [resScheduler] follows the elements of [resource_list], at the index [RES_SCHEDULER].  The constant part of a task
    ([Os_TaskConstList]) is configuration, the variable part is state. *)

From S2P Require Import Prelude.
From S2P Require Import Os_Irq.

(** ** Os.h *)
Definition E_OK := 0.
Definition E_OS_ACCESS := 1.
Definition E_OS_CALLEVEL := 2.
Definition E_OS_ID := 3.
Definition E_OS_LIMIT := 4.
Definition E_OS_NOFUNC := 5.
Definition E_OS_RESOURCE := 6.
Definition E_OS_STATE := 7.
Definition E_OS_VALUE := 8.
Definition E_OS_MISSINGEND := 12.
Definition E_OS_DISABLEDINT := 13.
Definition E_OS_PARAM_POINTER := 24.
Definition E_OS_ISR_RESOURCE := 38.
Definition INVALID_TASK := 0xdead.
Definition OS_RES_SCHEDULER_PRIO := 0xFFFFFFFF.

Inductive OsServiceIdType :=
  | OSServiceId_ActivateTask | OSServiceId_TerminateTask | OSServiceId_ChainTask | OSServiceId_Schedule | OSServiceId_GetTaskID
  | OSServiceId_GetResource | OSServiceId_ReleaseResource | OSServiceId_SetEvent | OSServiceId_ClearEvent | OSServiceId_GetEvent
  | OSServiceId_WaitEvent | OSServiceId_GetAlarmBase | OSServiceId_GetAlarm | OSServiceId_SetRelAlarm | OSServiceId_SetAbsAlarm
  | OSServiceId_CancelAlarm | OSServiceId_GetTaskState | OSServiceId_StartScheduleTableRel | OSServiceId_StartScheduleTableAbs
  | OSServiceId_StopScheduleTable | OSServiceId_NextScheduleTable | OSServiceId_GetScheduleTableStatus
  | OSServiceId_IncrementCounter | OSServiceId_GetCounterValue | OSServiceId_GetElapsedValue.

(** What the error hook can ask for; a service sets as many parameters as it has. *)
Record OsErrorType := { serviceId : OsServiceIdType; param1 : Z; param2 : Z; param3 : Z }.

Inductive TaskStateType := TASK_STATE_WAITING | TASK_STATE_READY | TASK_STATE_SUSPENDED | TASK_STATE_RUNNING.

(** ** os_task_i.h *)
(** [ST_NOT_STARTED] is also what the zeroed memory holds before [InitOS]: none of the other bits. *)
Inductive state_t := ST_READY | ST_WAIT_EVENT | ST_SUSPENDED | ST_RUNNING | ST_NOT_STARTED.
#[export] Instance state_t_eq : EqDecision state_t.
Proof. solve_decision. Defined.
Inductive OsTaskSchedule := FULL | NON.
#[export] Instance OsTaskSchedule_eq : EqDecision OsTaskSchedule.
Proof. solve_decision. Defined.
Inductive proc_type_t := PROC_BASIC | PROC_EXTENDED.
#[export] Instance proc_type_t_eq : EqDecision proc_type_t.
Proof. solve_decision. Defined.
(** [state & (ST_READY | ST_RUNNING)] *)
Definition ready_or_running (st : state_t) : bool := match st with ST_READY | ST_RUNNING => true | _ => false end.

Definition SYS_FLAG_HOOK_STATE_EXPECTING_PRE := 0.
Definition SYS_FLAG_HOOK_STATE_EXPECTING_POST := 1.
Definition REACTIVATE_NORMAL := 0.
Definition REACTIVATE_FROM_CHAINTASK := 1.

(** What the stack of a task that does not run holds: the context [Os_ArchSetupContext] wrote, which enters the task at its
    beginning; the context of the last switch away from it; or one that has been used. *)
Inductive context_t := ENTRY | SAVED | USED.
#[export] Instance context_t_eq : EqDecision context_t.
Proof. solve_decision. Defined.

Record OsTaskVarType := {
  stack : context_t;
  state : state_t;
  ev_wait : Z;
  ev_set : Z;
  flags : Z;
  activePriority : Z;
  activations : Z;
  reactivation : Z;
  resourceHead : list nat
}.
Definition set_stack v (r : OsTaskVarType) : OsTaskVarType :=
  {| stack := v; state := r.(state); ev_wait := r.(ev_wait); ev_set := r.(ev_set); flags := r.(flags); activePriority := r.(activePriority); activations := r.(activations); reactivation := r.(reactivation); resourceHead := r.(resourceHead) |}.
Definition set_state v (r : OsTaskVarType) : OsTaskVarType :=
  {| stack := r.(stack); state := v; ev_wait := r.(ev_wait); ev_set := r.(ev_set); flags := r.(flags); activePriority := r.(activePriority); activations := r.(activations); reactivation := r.(reactivation); resourceHead := r.(resourceHead) |}.
Definition set_ev_wait v (r : OsTaskVarType) : OsTaskVarType :=
  {| stack := r.(stack); state := r.(state); ev_wait := v; ev_set := r.(ev_set); flags := r.(flags); activePriority := r.(activePriority); activations := r.(activations); reactivation := r.(reactivation); resourceHead := r.(resourceHead) |}.
Definition set_ev_set v (r : OsTaskVarType) : OsTaskVarType :=
  {| stack := r.(stack); state := r.(state); ev_wait := r.(ev_wait); ev_set := v; flags := r.(flags); activePriority := r.(activePriority); activations := r.(activations); reactivation := r.(reactivation); resourceHead := r.(resourceHead) |}.
Definition set_flags v (r : OsTaskVarType) : OsTaskVarType :=
  {| stack := r.(stack); state := r.(state); ev_wait := r.(ev_wait); ev_set := r.(ev_set); flags := v; activePriority := r.(activePriority); activations := r.(activations); reactivation := r.(reactivation); resourceHead := r.(resourceHead) |}.
Definition set_activePriority v (r : OsTaskVarType) : OsTaskVarType :=
  {| stack := r.(stack); state := r.(state); ev_wait := r.(ev_wait); ev_set := r.(ev_set); flags := r.(flags); activePriority := v; activations := r.(activations); reactivation := r.(reactivation); resourceHead := r.(resourceHead) |}.
Definition set_activations v (r : OsTaskVarType) : OsTaskVarType :=
  {| stack := r.(stack); state := r.(state); ev_wait := r.(ev_wait); ev_set := r.(ev_set); flags := r.(flags); activePriority := r.(activePriority); activations := v; reactivation := r.(reactivation); resourceHead := r.(resourceHead) |}.
Definition set_reactivation v (r : OsTaskVarType) : OsTaskVarType :=
  {| stack := r.(stack); state := r.(state); ev_wait := r.(ev_wait); ev_set := r.(ev_set); flags := r.(flags); activePriority := r.(activePriority); activations := r.(activations); reactivation := v; resourceHead := r.(resourceHead) |}.
Definition set_resourceHead v (r : OsTaskVarType) : OsTaskVarType :=
  {| stack := r.(stack); state := r.(state); ev_wait := r.(ev_wait); ev_set := r.(ev_set); flags := r.(flags); activePriority := r.(activePriority); activations := r.(activations); reactivation := r.(reactivation); resourceHead := v |}.

Record OsTaskConstType := {
  prio : Z;
  proc_type : proc_type_t;
  autostart : bool;
  scheduling : OsTaskSchedule;
  resourceAccess : Z;
  resourceIntPtr : option nat;
  activationLimit : Z
}.

(** ** os_resource_i.h *)
Inductive OsResourcePropertyType := RESOURCE_TYPE_STANDARD | RESOURCE_TYPE_LINKED | RESOURCE_TYPE_INTERNAL.
#[export] Instance OsResourcePropertyType_eq : EqDecision OsResourcePropertyType.
Proof. solve_decision. Defined.
(** [owner]: [None] is [NO_TASK_OWNER]. *)
Record OsResourceType := {
  ceiling_priority : Z;
  old_task_prio : Z;
  owner : option nat;
  type : OsResourcePropertyType
}.
Definition set_ceiling_priority v (r : OsResourceType) : OsResourceType :=
  {| ceiling_priority := v; old_task_prio := r.(old_task_prio); owner := r.(owner); type := r.(type) |}.
Definition set_old_task_prio v (r : OsResourceType) : OsResourceType :=
  {| ceiling_priority := r.(ceiling_priority); old_task_prio := v; owner := r.(owner); type := r.(type) |}.
Definition set_owner v (r : OsResourceType) : OsResourceType :=
  {| ceiling_priority := r.(ceiling_priority); old_task_prio := r.(old_task_prio); owner := v; type := r.(type) |}.
Definition set_type v (r : OsResourceType) : OsResourceType :=
  {| ceiling_priority := r.(ceiling_priority); old_task_prio := r.(old_task_prio); owner := r.(owner); type := v |}.

(** ** os_counter_i.h, os_alarm_i.h *)
Inductive OsCounterKind := COUNTER_TYPE_HARD | COUNTER_TYPE_SOFT.
#[export] Instance OsCounterKind_eq : EqDecision OsCounterKind.
Proof. solve_decision. Defined.
Record AlarmBaseType := { maxallowedvalue : Z; tickperbase : Z; mincycle : Z }.
Record OsCounterType := {
  counter_type : OsCounterKind;
  val : Z;
  alarm_base : AlarmBaseType;
  alarm_head : list nat;
  sched_head : list nat
}.
Definition set_counter_type v (r : OsCounterType) : OsCounterType :=
  {| counter_type := v; val := r.(val); alarm_base := r.(alarm_base); alarm_head := r.(alarm_head); sched_head := r.(sched_head) |}.
Definition set_val v (r : OsCounterType) : OsCounterType :=
  {| counter_type := r.(counter_type); val := v; alarm_base := r.(alarm_base); alarm_head := r.(alarm_head); sched_head := r.(sched_head) |}.
Definition set_alarm_base v (r : OsCounterType) : OsCounterType :=
  {| counter_type := r.(counter_type); val := r.(val); alarm_base := v; alarm_head := r.(alarm_head); sched_head := r.(sched_head) |}.
Definition set_alarm_head v (r : OsCounterType) : OsCounterType :=
  {| counter_type := r.(counter_type); val := r.(val); alarm_base := r.(alarm_base); alarm_head := v; sched_head := r.(sched_head) |}.
Definition set_sched_head v (r : OsCounterType) : OsCounterType :=
  {| counter_type := r.(counter_type); val := r.(val); alarm_base := r.(alarm_base); alarm_head := r.(alarm_head); sched_head := v |}.

Inductive OsAlarmActionType :=
  | ALARM_ACTION_ACTIVATETASK (task_id : nat)
  | ALARM_ACTION_SETEVENT (task_id : nat) (event_id : Z)
  | ALARM_ACTION_ALARMCALLBACK
  | ALARM_ACTION_INCREMENTCOUNTER (counter_id : nat).
Inductive OsAlarmAutostartTypeType := ALARM_AUTOSTART_ABSOLUTE | ALARM_AUTOSTART_RELATIVE.
Record OsAlarmAutostartType := {
  alarmTime : Z;
  autostartType : OsAlarmAutostartTypeType;
  cycleTime : Z;
  appModeRef : Z
}.
Record OsAlarmType := {
  counter : nat;
  cycletime : Z;
  expire_val : Z;
  active : bool;
  action : OsAlarmActionType;
  autostartPtr : option OsAlarmAutostartType
}.
Definition set_counter v (r : OsAlarmType) : OsAlarmType :=
  {| counter := v; cycletime := r.(cycletime); expire_val := r.(expire_val); active := r.(active); action := r.(action); autostartPtr := r.(autostartPtr) |}.
Definition set_cycletime v (r : OsAlarmType) : OsAlarmType :=
  {| counter := r.(counter); cycletime := v; expire_val := r.(expire_val); active := r.(active); action := r.(action); autostartPtr := r.(autostartPtr) |}.
Definition set_expire_val v (r : OsAlarmType) : OsAlarmType :=
  {| counter := r.(counter); cycletime := r.(cycletime); expire_val := v; active := r.(active); action := r.(action); autostartPtr := r.(autostartPtr) |}.
Definition set_active v (r : OsAlarmType) : OsAlarmType :=
  {| counter := r.(counter); cycletime := r.(cycletime); expire_val := r.(expire_val); active := v; action := r.(action); autostartPtr := r.(autostartPtr) |}.
Definition set_action v (r : OsAlarmType) : OsAlarmType :=
  {| counter := r.(counter); cycletime := r.(cycletime); expire_val := r.(expire_val); active := r.(active); action := v; autostartPtr := r.(autostartPtr) |}.
Definition set_autostartPtr v (r : OsAlarmType) : OsAlarmType :=
  {| counter := r.(counter); cycletime := r.(cycletime); expire_val := r.(expire_val); active := r.(active); action := r.(action); autostartPtr := v |}.

(** ** os_sched_table_i.h *)
Inductive ScheduleTableStatusType :=
  | SCHEDULETABLE_STOPPED | SCHEDULETABLE_NEXT | SCHEDULETABLE_WAITING | SCHEDULETABLE_RUNNING
  | SCHEDULETABLE_RUNNING_AND_SYNCHRONOUS.
#[export] Instance ScheduleTableStatusType_eq : EqDecision ScheduleTableStatusType.
Proof. solve_decision. Defined.
Inductive OsScheduleTableAutostartType := SCHTBL_AUTOSTART_ABSOLUTE | SCHTBL_AUTOSTART_RELATIVE | SCHTBL_AUTOSTART_SYNCHRONE.
Record OsSchTblAutostart := { sa_type : OsScheduleTableAutostartType; sa_offset : Z; sa_appMode : Z }.
Record OsScheduleTableExpiryPointType := { offset : Z; taskList : list nat; eventList : list (Z * nat) }.
Record OsSchTblType := {
  duration : Z;
  repeating : bool;
  st_counter : nat;
  st_autostartPtr : option OsSchTblAutostart;
  expire_curr_index : Z;
  st_expire_val : Z;
  st_state : ScheduleTableStatusType;
  next : option nat;
  expirePointList : list OsScheduleTableExpiryPointType
}.
Definition set_duration v (r : OsSchTblType) : OsSchTblType :=
  {| duration := v; repeating := r.(repeating); st_counter := r.(st_counter); st_autostartPtr := r.(st_autostartPtr); expire_curr_index := r.(expire_curr_index); st_expire_val := r.(st_expire_val); st_state := r.(st_state); next := r.(next); expirePointList := r.(expirePointList) |}.
Definition set_repeating v (r : OsSchTblType) : OsSchTblType :=
  {| duration := r.(duration); repeating := v; st_counter := r.(st_counter); st_autostartPtr := r.(st_autostartPtr); expire_curr_index := r.(expire_curr_index); st_expire_val := r.(st_expire_val); st_state := r.(st_state); next := r.(next); expirePointList := r.(expirePointList) |}.
Definition set_st_counter v (r : OsSchTblType) : OsSchTblType :=
  {| duration := r.(duration); repeating := r.(repeating); st_counter := v; st_autostartPtr := r.(st_autostartPtr); expire_curr_index := r.(expire_curr_index); st_expire_val := r.(st_expire_val); st_state := r.(st_state); next := r.(next); expirePointList := r.(expirePointList) |}.
Definition set_st_autostartPtr v (r : OsSchTblType) : OsSchTblType :=
  {| duration := r.(duration); repeating := r.(repeating); st_counter := r.(st_counter); st_autostartPtr := v; expire_curr_index := r.(expire_curr_index); st_expire_val := r.(st_expire_val); st_state := r.(st_state); next := r.(next); expirePointList := r.(expirePointList) |}.
Definition set_expire_curr_index v (r : OsSchTblType) : OsSchTblType :=
  {| duration := r.(duration); repeating := r.(repeating); st_counter := r.(st_counter); st_autostartPtr := r.(st_autostartPtr); expire_curr_index := v; st_expire_val := r.(st_expire_val); st_state := r.(st_state); next := r.(next); expirePointList := r.(expirePointList) |}.
Definition set_st_expire_val v (r : OsSchTblType) : OsSchTblType :=
  {| duration := r.(duration); repeating := r.(repeating); st_counter := r.(st_counter); st_autostartPtr := r.(st_autostartPtr); expire_curr_index := r.(expire_curr_index); st_expire_val := v; st_state := r.(st_state); next := r.(next); expirePointList := r.(expirePointList) |}.
Definition set_st_state v (r : OsSchTblType) : OsSchTblType :=
  {| duration := r.(duration); repeating := r.(repeating); st_counter := r.(st_counter); st_autostartPtr := r.(st_autostartPtr); expire_curr_index := r.(expire_curr_index); st_expire_val := r.(st_expire_val); st_state := v; next := r.(next); expirePointList := r.(expirePointList) |}.
Definition set_next v (r : OsSchTblType) : OsSchTblType :=
  {| duration := r.(duration); repeating := r.(repeating); st_counter := r.(st_counter); st_autostartPtr := r.(st_autostartPtr); expire_curr_index := r.(expire_curr_index); st_expire_val := r.(st_expire_val); st_state := r.(st_state); next := v; expirePointList := r.(expirePointList) |}.
Definition set_expirePointList v (r : OsSchTblType) : OsSchTblType :=
  {| duration := r.(duration); repeating := r.(repeating); st_counter := r.(st_counter); st_autostartPtr := r.(st_autostartPtr); expire_curr_index := r.(expire_curr_index); st_expire_val := r.(st_expire_val); st_state := r.(st_state); next := r.(next); expirePointList := v |}.

(** ** os_isr.c *)
Inductive IsrKind := ISR_TYPE_1 | ISR_TYPE_2.
#[export] Instance IsrKind_eq : EqDecision IsrKind.
Proof. solve_decision. Defined.

(** ** os_sys.h *)
Inductive OpType :=
  | OP_SET_EVENT | OP_WAIT_EVENT | OP_ACTIVATE_TASK | OP_TERMINATE_TASK | OP_SCHEDULE | OP_CHAIN_TASK | OP_RELEASE_RESOURCE.
#[export] Instance OpType_eq : EqDecision OpType.
Proof. solve_decision. Defined.

Record Os_SysType := {
  currTaskPtr : nat;
  currIsrPtr : option nat;
  chainedPcbPtr : option nat;
  intNestCnt : Z;
  tick : Z;
  appMode : Z;
  ready_head : list nat
}.
Definition set_currTaskPtr v (r : Os_SysType) : Os_SysType :=
  {| currTaskPtr := v; currIsrPtr := r.(currIsrPtr); chainedPcbPtr := r.(chainedPcbPtr); intNestCnt := r.(intNestCnt); tick := r.(tick); appMode := r.(appMode); ready_head := r.(ready_head) |}.
Definition set_currIsrPtr v (r : Os_SysType) : Os_SysType :=
  {| currTaskPtr := r.(currTaskPtr); currIsrPtr := v; chainedPcbPtr := r.(chainedPcbPtr); intNestCnt := r.(intNestCnt); tick := r.(tick); appMode := r.(appMode); ready_head := r.(ready_head) |}.
Definition set_chainedPcbPtr v (r : Os_SysType) : Os_SysType :=
  {| currTaskPtr := r.(currTaskPtr); currIsrPtr := r.(currIsrPtr); chainedPcbPtr := v; intNestCnt := r.(intNestCnt); tick := r.(tick); appMode := r.(appMode); ready_head := r.(ready_head) |}.
Definition set_intNestCnt v (r : Os_SysType) : Os_SysType :=
  {| currTaskPtr := r.(currTaskPtr); currIsrPtr := r.(currIsrPtr); chainedPcbPtr := r.(chainedPcbPtr); intNestCnt := v; tick := r.(tick); appMode := r.(appMode); ready_head := r.(ready_head) |}.
Definition set_tick v (r : Os_SysType) : Os_SysType :=
  {| currTaskPtr := r.(currTaskPtr); currIsrPtr := r.(currIsrPtr); chainedPcbPtr := r.(chainedPcbPtr); intNestCnt := r.(intNestCnt); tick := v; appMode := r.(appMode); ready_head := r.(ready_head) |}.
Definition set_appMode v (r : Os_SysType) : Os_SysType :=
  {| currTaskPtr := r.(currTaskPtr); currIsrPtr := r.(currIsrPtr); chainedPcbPtr := r.(chainedPcbPtr); intNestCnt := r.(intNestCnt); tick := r.(tick); appMode := v; ready_head := r.(ready_head) |}.
Definition set_ready_head v (r : Os_SysType) : Os_SysType :=
  {| currTaskPtr := r.(currTaskPtr); currIsrPtr := r.(currIsrPtr); chainedPcbPtr := r.(chainedPcbPtr); intNestCnt := r.(intNestCnt); tick := r.(tick); appMode := r.(appMode); ready_head := v |}.

(** The objects driven by counters. *)
Record Timers := { counter_list : list OsCounterType; alarm_list : list OsAlarmType; sched_list : list OsSchTblType }.
Definition set_counter_list v (r : Timers) : Timers :=
  {| counter_list := v; alarm_list := r.(alarm_list); sched_list := r.(sched_list) |}.
Definition set_alarm_list v (r : Timers) : Timers :=
  {| counter_list := r.(counter_list); alarm_list := v; sched_list := r.(sched_list) |}.
Definition set_sched_list v (r : Timers) : Timers :=
  {| counter_list := r.(counter_list); alarm_list := r.(alarm_list); sched_list := v |}.

(** The static data of the kernel, the interrupt mask of the processor and, as [world], whatever the hooks of the application
    keep. *)
Record Os_State (W : Type) := {
  Os_TaskVarList : list OsTaskVarType;
  resource_list : list OsResourceType;
  timers : Timers;
  sys : Os_SysType;
  irq : Irq;
  Os_IntDisableAllCnt : Z;
  os_error : OsErrorType;
  world : W
}.
Arguments Build_Os_State {W}.
Arguments Os_TaskVarList {W}.
Arguments resource_list {W}.
Arguments timers {W}.
Arguments sys {W}.
Arguments irq {W}.
Arguments Os_IntDisableAllCnt {W}.
Arguments os_error {W}.
Arguments world {W}.
Definition set_Os_TaskVarList {W : Type} v (r : Os_State W) : Os_State W :=
  {| Os_TaskVarList := v; resource_list := r.(resource_list); timers := r.(timers); sys := r.(sys); irq := r.(irq); Os_IntDisableAllCnt := r.(Os_IntDisableAllCnt); os_error := r.(os_error); world := r.(world) |}.
Definition set_resource_list {W : Type} v (r : Os_State W) : Os_State W :=
  {| Os_TaskVarList := r.(Os_TaskVarList); resource_list := v; timers := r.(timers); sys := r.(sys); irq := r.(irq); Os_IntDisableAllCnt := r.(Os_IntDisableAllCnt); os_error := r.(os_error); world := r.(world) |}.
Definition set_timers {W : Type} v (r : Os_State W) : Os_State W :=
  {| Os_TaskVarList := r.(Os_TaskVarList); resource_list := r.(resource_list); timers := v; sys := r.(sys); irq := r.(irq); Os_IntDisableAllCnt := r.(Os_IntDisableAllCnt); os_error := r.(os_error); world := r.(world) |}.
Definition set_sys {W : Type} v (r : Os_State W) : Os_State W :=
  {| Os_TaskVarList := r.(Os_TaskVarList); resource_list := r.(resource_list); timers := r.(timers); sys := v; irq := r.(irq); Os_IntDisableAllCnt := r.(Os_IntDisableAllCnt); os_error := r.(os_error); world := r.(world) |}.
Definition set_irq {W : Type} v (r : Os_State W) : Os_State W :=
  {| Os_TaskVarList := r.(Os_TaskVarList); resource_list := r.(resource_list); timers := r.(timers); sys := r.(sys); irq := v; Os_IntDisableAllCnt := r.(Os_IntDisableAllCnt); os_error := r.(os_error); world := r.(world) |}.
Definition set_Os_IntDisableAllCnt {W : Type} v (r : Os_State W) : Os_State W :=
  {| Os_TaskVarList := r.(Os_TaskVarList); resource_list := r.(resource_list); timers := r.(timers); sys := r.(sys); irq := r.(irq); Os_IntDisableAllCnt := v; os_error := r.(os_error); world := r.(world) |}.
Definition set_os_error {W : Type} v (r : Os_State W) : Os_State W :=
  {| Os_TaskVarList := r.(Os_TaskVarList); resource_list := r.(resource_list); timers := r.(timers); sys := r.(sys); irq := r.(irq); Os_IntDisableAllCnt := r.(Os_IntDisableAllCnt); os_error := v; world := r.(world) |}.
Definition set_world {W : Type} v (r : Os_State W) : Os_State W :=
  {| Os_TaskVarList := r.(Os_TaskVarList); resource_list := r.(resource_list); timers := r.(timers); sys := r.(sys); irq := r.(irq); Os_IntDisableAllCnt := r.(Os_IntDisableAllCnt); os_error := r.(os_error); world := v |}.

(** The generated configuration: tasks, interrupt service routines, the counter of [OsTick], hooks, and the architecture whose
    dispatcher differs. *)
Class Os_Cfg := {
  Os_TaskConstList : list OsTaskConstType;
  Os_IsrConstList : list IsrKind;
  Os_Arc_OsTickCounter : nat;
  OS_PRE_TASK_HOOK : bool;
  OS_POST_TASK_HOOK : bool;
  OS_ERROR_HOOK : bool;
  CFG_TC2XX : bool
}.

(** The hooks of the application; [PreTaskHook] and [PostTaskHook] know the current task from [GetTaskID]. *)
Class Os_Env (W : Type) := {
  ErrorHook : Z -> W -> W;
  PreTaskHook : nat -> W -> W;
  PostTaskHook : nat -> W -> W;
  StartupHook : W -> W
}.
