(* ===== verification/Os.v ===== *)
(** * Tasks, events and resources of the operating system

    [os_task.c], [os_task_i.h], [os_event.c] and [os_resource.c].  What cannot lead to a switch is an operation of the state
    monad, where a failed [ASSERT], a null pointer followed or a broken list is a fault; [Os_Dispatch] and the services that call it are
    coroutines.  Elements of the tail queues are their indices; to insert an element twice, or to remove one that is not in the queue,
    destroys the links and is a fault. *)

From S2P Require Import Prelude.
From S2P Require Import StateMonad.
From S2P Require Import Coroutine.
From S2P Require Import Os_Irq.
From S2P Require Import Os_Types.

#[local] Open Scope monad_scope.
#[local] Open Scope coroutine_scope.

(** ** sys/queue.h *)
Definition TAILQ_INSERT_TAIL (l : list nat) (x : nat) : option (list nat) :=
  if bool_decide (x ∈ l) then None else Some (l ++ [x]).
Definition TAILQ_REMOVE (l : list nat) (x : nat) : option (list nat) :=
  if bool_decide (x ∈ l) then Some (filter (fun y => y <> x) l) else None.

Section Os.
Context {W : Type} {Cfg : Os_Cfg} {Env : Os_Env W}.
Abbreviation S := (Os_State W).

Definition OS_TASK_CNT : nat := length Os_TaskConstList.
Definition TASK_CHECK_ID (x : nat) : bool := (x <? OS_TASK_CNT)%nat.

(** ** Access to the data *)
Definition ASSERT (b : bool) : M S unit := if b then ret tt else deref None.
Definition Os_TaskGet (pid : nat) : M S OsTaskVarType := let* l := get Os_TaskVarList in deref (l !! pid).
Definition constPtr (pid : nat) : M S OsTaskConstType := deref (Os_TaskConstList !! pid).
Definition task_set (pid : nat) (f : OsTaskVarType -> OsTaskVarType) : M S unit :=
  let* _ := Os_TaskGet pid in modify (fun s => set_Os_TaskVarList (alter f pid s.(Os_TaskVarList)) s).
Definition Os_ResourceGet (r : nat) : M S OsResourceType := let* l := get resource_list in deref (l !! r).
Definition res_set (r : nat) (f : OsResourceType -> OsResourceType) : M S unit :=
  let* _ := Os_ResourceGet r in modify (fun s => set_resource_list (alter f r s.(resource_list)) s).
Definition sys_set (f : Os_SysType -> Os_SysType) : M S unit := modify (fun s => set_sys (f s.(sys)) s).
Definition OS_SYS {A} (f : Os_SysType -> A) : M S A := get (fun s => f s.(sys)).
Definition Os_SysTaskGetCurr : M S nat := OS_SYS currTaskPtr.
Definition Os_SysTaskSetCurr (pcb : nat) : M S unit := sys_set (set_currTaskPtr pcb).

(** ** Interrupts: [Irq_Save], [Irq_Restore], [Irq_Disable], [os_sys.h] *)
Definition irq_set (b : bool) (i : Irq) : Irq := {| Os_IntSuspendAllCnt := i.(Os_IntSuspendAllCnt); irq_enabled := b |}.
Definition Irq_Save : M S bool :=
  let* f := get (fun s => s.(irq).(irq_enabled)) in
  let* _ := modify (fun s => set_irq (irq_set false s.(irq)) s) in
  ret f.
Definition Irq_Restore (f : bool) : M S unit := modify (fun s => set_irq (irq_set f s.(irq)) s).
Definition Irq_Disable : M S unit := Irq_Restore false.
Definition Os_SysIntAnyDisabled : M S bool :=
  get (fun s => negb (Z.lor s.(Os_IntDisableAllCnt) s.(irq).(Os_IntSuspendAllCnt) =? 0)).
Definition Os_SysIntClearAll : M S unit :=
  let* _ := modify (fun s => set_Os_IntDisableAllCnt 0 s) in
  modify (fun s => set_irq {| Os_IntSuspendAllCnt := 0; irq_enabled := s.(irq).(irq_enabled) |} s).

(** ** Hooks and errors: [os_i.h], [os_internal.h] *)
Definition Os_CallErrorHook (error : Z) : M S unit :=
  if OS_ERROR_HOOK then modify (fun s => set_world (ErrorHook error s.(world)) s) else ret tt.
Definition Os_CallPreTaskHook : M S unit :=
  if OS_PRE_TASK_HOOK then
    let* curr := Os_SysTaskGetCurr in
    let* pcb := Os_TaskGet curr in
    let* _ := ASSERT (bool_decide (pcb.(state) = ST_RUNNING)) in
    let* _ := ASSERT (pcb.(flags) =? SYS_FLAG_HOOK_STATE_EXPECTING_PRE) in
    let* _ := task_set curr (set_flags SYS_FLAG_HOOK_STATE_EXPECTING_POST) in
    modify (fun s => set_world (PreTaskHook curr s.(world)) s)
  else ret tt.
Definition Os_CallPostTaskHook : M S unit :=
  if OS_POST_TASK_HOOK then
    let* curr := Os_SysTaskGetCurr in
    let* pcb := Os_TaskGet curr in
    let* _ := ASSERT (bool_decide (pcb.(state) = ST_RUNNING)) in
    let* _ := ASSERT (pcb.(flags) =? SYS_FLAG_HOOK_STATE_EXPECTING_POST) in
    let* _ := task_set curr (set_flags SYS_FLAG_HOOK_STATE_EXPECTING_PRE) in
    modify (fun s => set_world (PostTaskHook curr s.(world)) s)
  else ret tt.

Definition set_error (svc : OsServiceIdType) (ps : list Z) (e : OsErrorType) : OsErrorType := {|
  serviceId := svc;
  param1 := default e.(param1) (u32 <$> ps !! 0%nat);
  param2 := default e.(param2) (u32 <$> ps !! 1%nat);
  param3 := default e.(param3) (u32 <$> ps !! 2%nat)
|}.
(** [OS_STD_ERR], [OS_STD_ERR_1], ...: with the parameters of the service. *)
Definition OS_STD_ERR (rv : Z) (svc : OsServiceIdType) (ps : list Z) : M S Z :=
  let* _ := modify (fun s => set_os_error (set_error svc ps s.(os_error)) s) in
  let* _ := Os_CallErrorHook rv in
  ret rv.
(** [OS_VALIDATE_STD], ...: [k] is the rest of the function. *)
Definition OS_VALIDATE_STD (b : bool) (err : Z) (svc : OsServiceIdType) (ps : list Z) (k : M S Z) : M S Z :=
  if b then k else OS_STD_ERR err svc ps.
Definition OS_VALIDATE_STD_K (b : bool) (err : Z) (svc : OsServiceIdType) (ps : list Z) (k : K S Z) : K S Z :=
  if b then k else atomic (OS_STD_ERR err svc ps).

(** ** Ready queue: [os_task.c] *)
Definition Os_ReadyQRemove (tPtr : nat) : M S unit :=
  let* l := OS_SYS ready_head in
  let* l := deref (TAILQ_REMOVE l tPtr) in
  sys_set (set_ready_head l).
Definition Os_ReadyQEnqueue (pcb : nat) : M S unit :=
  let* l := OS_SYS ready_head in
  let* l := deref (TAILQ_INSERT_TAIL l pcb) in
  sys_set (set_ready_head l).

Definition Os_TaskRunningToReady (currPcbPtr : nat) : M S unit :=
  let* pcb := Os_TaskGet currPcbPtr in
  let* _ := ASSERT (bool_decide (pcb.(state) = ST_RUNNING)) in
  task_set currPcbPtr (set_state ST_READY).
Definition Os_TaskMakeSuspended (pcb : nat) : M S unit :=
  let* p := Os_TaskGet pcb in
  let* _ := ASSERT (ready_or_running p.(state)) in
  let* _ := task_set pcb (set_state ST_SUSPENDED) in
  Os_ReadyQRemove pcb.
Definition Os_TaskMakeReady (pcb : nat) : M S unit :=
  let* p := Os_TaskGet pcb in
  if negb (ready_or_running p.(state)) then
    let* _ := task_set pcb (set_state ST_READY) in
    Os_ReadyQEnqueue pcb
  else ret tt.
Definition Os_TaskMakeWaiting (pcb : nat) : M S unit :=
  let* p := Os_TaskGet pcb in
  let* _ := ASSERT (ready_or_running p.(state)) in
  let* _ := task_set pcb (set_state ST_WAIT_EVENT) in
  Os_ReadyQRemove pcb.
Definition Os_TaskMakeRunning (pcb : nat) : M S unit := task_set pcb (set_state ST_RUNNING).

(** [Os_StackSetup] and [Os_ArchSetupContext]: what they leave on the stack. *)
Definition Os_ArchSetupContext (pcb : nat) : M S unit := task_set pcb (set_stack ENTRY).
Definition Os_Arc_SetCleanContext (pcb : nat) : M S unit :=
  let* c := constPtr pcb in
  let* _ := if bool_decide (c.(proc_type) = PROC_EXTENDED)
            then let* _ := task_set pcb (set_ev_set 0) in task_set pcb (set_ev_wait 0)
            else ret tt in
  Os_ArchSetupContext pcb.
Definition Os_TaskContextInit (pcb : nat) : M S unit :=
  let* c := constPtr pcb in
  let* _ := if c.(autostart)
            then let* _ := task_set pcb (fun p => set_activations (u8 (p.(activations) + 1)) p) in Os_TaskMakeReady pcb
            else task_set pcb (set_state ST_SUSPENDED) in
  Os_ArchSetupContext pcb.

(** The loop of [Os_TaskGetTop]: [found] is the top task so far with its priority. *)
Fixpoint find_top (l : list nat) (found : option (nat * Z)) : M S (option (nat * Z)) :=
  match l with
  | [] => ret found
  | i_pcb :: l =>
    let* p := Os_TaskGet i_pcb in
    let* _ := ASSERT (ready_or_running p.(state)) in
    match found with
    | Some (_, top_prio) =>
      find_top l (if top_prio <? p.(activePriority) then Some (i_pcb, p.(activePriority)) else found)
    | None => find_top l (Some (i_pcb, p.(activePriority)))
    end
  end.
Definition Os_TaskGetTop : M S nat :=
  let* l := OS_SYS ready_head in
  let* found := find_top l None in
  let* top := deref found in
  ret top.1.

(** ** Resources held by a task: [os_task_i.h] *)
Definition Os_TaskResourceAdd (rPtr pcbPtr : nat) : M S unit :=
  let* p := Os_TaskGet pcbPtr in
  let* _ := res_set rPtr (fun r => set_old_task_prio p.(activePriority) (set_owner (Some pcbPtr) r)) in
  let* r := Os_ResourceGet rPtr in
  let* _ := task_set pcbPtr (set_activePriority r.(ceiling_priority)) in
  if bool_decide (r.(type) <> RESOURCE_TYPE_INTERNAL) then
    let* p := Os_TaskGet pcbPtr in
    let* l := deref (TAILQ_INSERT_TAIL p.(resourceHead) rPtr) in
    task_set pcbPtr (set_resourceHead l)
  else ret tt.
Definition Os_TaskResourceRemove (rPtr pcbPtr : nat) : M S unit :=
  let* r := Os_ResourceGet rPtr in
  let* _ := ASSERT (bool_decide (r.(owner) = Some pcbPtr)) in
  let* _ := res_set rPtr (set_owner None) in
  let* _ := task_set pcbPtr (set_activePriority r.(old_task_prio)) in
  if bool_decide (r.(type) <> RESOURCE_TYPE_INTERNAL) then
    let* p := Os_TaskGet pcbPtr in
    let* _ := ASSERT (bool_decide (p.(resourceHead) <> [])) in
    let* _ := ASSERT (bool_decide (list.last p.(resourceHead) = Some rPtr)) in
    let* l := deref (TAILQ_REMOVE p.(resourceHead) rPtr) in
    task_set pcbPtr (set_resourceHead l)
  else ret tt.
Definition Os_TaskResourceFreeAll (pcbPtr : nat) : M S unit :=
  let* p := Os_TaskGet pcbPtr in
  for_each 0 p.(resourceHead) (fun _ rPtr => Os_TaskResourceRemove rPtr pcbPtr).
Definition Os_TaskOccupiesResources (pcb : nat) : M S bool :=
  let* p := Os_TaskGet pcb in ret (bool_decide (p.(resourceHead) <> [])).

(** ** os_resource.c *)
(** [OS_RESOURCE_CNT]; [resScheduler] is behind the configured resources. *)
Definition RES_SCHEDULER : M S nat := get (fun s => pred (length s.(resource_list))).
Definition Os_SchedulerResourceIsFree : M S bool :=
  let* sch := RES_SCHEDULER in
  let* r := Os_ResourceGet sch in
  ret (bool_decide (r.(owner) = None)).
Definition Os_ResourceGetInternal : M S unit :=
  let* pcbPtr := Os_SysTaskGetCurr in
  let* c := constPtr pcbPtr in
  match c.(resourceIntPtr) with Some rPtr => Os_TaskResourceAdd rPtr pcbPtr | None => ret tt end.
Definition Os_ResourceReleaseInternal : M S unit :=
  let* pcbPtr := Os_SysTaskGetCurr in
  let* c := constPtr pcbPtr in
  match c.(resourceIntPtr) with Some rPtr => Os_TaskResourceRemove rPtr pcbPtr | None => ret tt end.

(** The highest priority of a task whose mask names the resource [i]. *)
Fixpoint topPrio (i : nat) (l : list OsTaskConstType) (top : Z) : Z :=
  match l with
  | [] => top
  | c :: l => topPrio i l (if Z.testbit c.(resourceAccess) (Z.of_nat i) then Z.max top c.(prio) else top)
  end.
Definition Os_ResourceInit : M S unit :=
  let* sch := RES_SCHEDULER in
  let* _ := res_set sch (fun r => set_owner None (set_ceiling_priority OS_RES_SCHEDULER_PRIO r)) in
  for_each 0 (seq 0 sch) (fun _ i => res_set i (set_ceiling_priority (topPrio i Os_TaskConstList 0))).

(** ** Dispatcher: [os_task.c] *)
Definition Os_TaskSwapContext (old_pcb new_pcb : nat) : K S unit :=
  let& _ := Os_SysTaskSetCurr new_pcb in
  let& _ := Os_ResourceGetInternal in
  let& _ := Os_TaskMakeRunning new_pcb in
  let& _ := Os_CallPreTaskHook in
  switch (Swap old_pcb).
(** With a null pointer for the old task. *)
Definition Os_TaskSwapContextTo (new_pcb : nat) : K S unit :=
  let& _ := Os_SysTaskSetCurr new_pcb in
  let& _ := Os_ResourceGetInternal in
  let& _ := Os_TaskMakeRunning new_pcb in
  let& _ := Os_CallPreTaskHook in
  let+ _ := switch SwapTo in
  unreachable.
Definition Os_TaskStartFromBeginning (pcbPtr : nat) : K S unit :=
  let& _ := Os_TaskMakeRunning pcbPtr in
  let& _ := Os_SysTaskSetCurr pcbPtr in
  let& _ := Os_CallPreTaskHook in
  let+ _ := switch Start in
  unreachable.

(** The [switch] of [Os_Dispatch]: the new state of the task that runs. *)
Definition leave_running (op : OpType) (curr : nat) : M S unit :=
  match op with
  | OP_SET_EVENT | OP_SCHEDULE | OP_RELEASE_RESOURCE => Os_TaskRunningToReady curr
  | OP_WAIT_EVENT => Os_TaskMakeWaiting curr
  | OP_ACTIVATE_TASK => Os_TaskMakeReady curr
  | OP_CHAIN_TASK =>
    let* chained := OS_SYS chainedPcbPtr in
    let* chained := deref chained in
    if bool_decide (curr <> chained) then
      let* p := Os_TaskGet curr in
      let* _ := ASSERT (0 <? p.(activations)) in
      let* _ := task_set curr (set_activations (u8 (p.(activations) - 1))) in
      let* p := Os_TaskGet curr in
      if p.(activations) =? 0 then Os_TaskMakeSuspended curr
      else
        let* _ := Os_TaskRunningToReady curr in
        task_set curr (set_reactivation REACTIVATE_FROM_CHAINTASK)
    else ret tt
  | OP_TERMINATE_TASK =>
    let* p := Os_TaskGet curr in
    let* _ := ASSERT (0 <? p.(activations)) in
    let* _ := task_set curr (set_activations (u8 (p.(activations) - 1))) in
    let* p := Os_TaskGet curr in
    if p.(activations) =? 0 then Os_TaskMakeSuspended curr else ret tt
  end.
Definition terminates (op : OpType) : bool := match op with OP_TERMINATE_TASK | OP_CHAIN_TASK => true | _ => false end.

Definition Os_Dispatch (op : OpType) : K S unit :=
  let& currPcbPtr := Os_SysTaskGetCurr in
  let& nest := OS_SYS intNestCnt in
  let& _ := ASSERT (nest =? 0) in
  let& free := Os_SchedulerResourceIsFree in
  let& _ := ASSERT free in
  let& p := Os_TaskGet currPcbPtr in
  let& _ := ASSERT (bool_decide (p.(state) = ST_RUNNING)) in
  let& _ := Os_CallPostTaskHook in
  let& _ := leave_running op currPcbPtr in
  let& pcbPtr := Os_TaskGetTop in
  if bool_decide (pcbPtr <> currPcbPtr) then
    let& _ := Os_ResourceReleaseInternal in
    let& p := Os_TaskGet pcbPtr in
    if CFG_TC2XX then
      if terminates op then
        if p.(reactivation) =? REACTIVATE_FROM_CHAINTASK then
          let& _ := task_set pcbPtr (set_reactivation REACTIVATE_NORMAL) in
          Os_TaskStartFromBeginning pcbPtr
        else Os_TaskSwapContextTo pcbPtr
      else Os_TaskSwapContext currPcbPtr pcbPtr
    else
      if p.(reactivation) =? REACTIVATE_FROM_CHAINTASK then
        let& _ := task_set pcbPtr (set_reactivation REACTIVATE_NORMAL) in
        Os_TaskStartFromBeginning pcbPtr
      else Os_TaskSwapContext currPcbPtr pcbPtr
  else Os_TaskStartFromBeginning pcbPtr.

(** ** Task services: [os_task.c]

    A pointer to where a result goes is its address, 0 for a null pointer; the result is what is stored there. *)
Definition GetTaskState (TaskId : nat) (State : Z) : M S (Z * option TaskStateType) :=
  let failed rv := let* rv := OS_STD_ERR rv OSServiceId_GetTaskState [Z.of_nat TaskId; State] in ret (rv, None) in
  if State =? 0 then failed E_OS_PARAM_POINTER else
  if negb (TASK_CHECK_ID TaskId) then failed E_OS_ID else
  let* pcb := Os_TaskGet TaskId in
  match pcb.(state) with
  | ST_RUNNING => ret (E_OK, Some TASK_STATE_RUNNING)
  | ST_WAIT_EVENT => ret (E_OK, Some TASK_STATE_WAITING)
  | ST_SUSPENDED => ret (E_OK, Some TASK_STATE_SUSPENDED)
  | ST_READY => ret (E_OK, Some TASK_STATE_READY)
  | ST_NOT_STARTED => let* _ := ASSERT false in ret (E_OK, None)
  end.

Definition GetTaskID (TaskID : Z) : M S (Z * option Z) :=
  if TaskID =? 0 then let* rv := OS_STD_ERR E_OS_PARAM_POINTER OSServiceId_GetTaskID [TaskID] in ret (rv, None) else
  let* nest := OS_SYS intNestCnt in
  let* curr := Os_SysTaskGetCurr in
  ret (E_OK, Some (if nest =? 0 then Z.of_nat curr else INVALID_TASK)).

(** [ActivateTask] on a task that has all the activations it may have: the end of the function, with interrupts as the caller had them. *)
Definition activation_refused (TaskID : nat) : K S Z :=
  let& _ := task_set TaskID (fun p => set_activations (u8 (p.(activations) - 1)) p) in
  atomic (OS_STD_ERR E_OS_LIMIT OSServiceId_ActivateTask [Z.of_nat TaskID]).
Definition ActivateTask (TaskID : nat) : K S Z :=
  let& currPcbPtr := Os_SysTaskGetCurr in
  OS_VALIDATE_STD_K (TASK_CHECK_ID TaskID) E_OS_ID OSServiceId_ActivateTask [Z.of_nat TaskID] (
  let& disabled := Os_SysIntAnyDisabled in
  OS_VALIDATE_STD_K (negb disabled) E_OS_DISABLEDINT OSServiceId_ActivateTask [Z.of_nat TaskID] (
  let& flags := Irq_Save in
  let& _ := task_set TaskID (fun p => set_activations (u8 (p.(activations) + 1)) p) in
  let& dest := Os_TaskGet TaskID in
  let& c := constPtr TaskID in
  if bool_decide (dest.(state) <> ST_SUSPENDED) && (c.(activationLimit) <? dest.(activations)) then
    let& _ := Irq_Restore flags in
    activation_refused TaskID
  else
    let& _ := if bool_decide (dest.(state) <> ST_SUSPENDED) then ret tt
              else
                let* _ := ASSERT (dest.(activations) =? 1) in
                let* _ := Os_Arc_SetCleanContext TaskID in
                Os_TaskMakeReady TaskID in
    let& nest := OS_SYS intNestCnt in
    let& cc := constPtr currPcbPtr in
    let& dest := Os_TaskGet TaskID in
    let& curr := Os_SysTaskGetCurr in
    let& cp := Os_TaskGet curr in
    let+ _ := if (nest =? 0) && bool_decide (cc.(scheduling) = FULL) && (cp.(activePriority) <? dest.(activePriority))
              then Os_Dispatch OP_ACTIVATE_TASK
              else kret tt in
    let& _ := Irq_Restore flags in
    kret E_OK)).

Definition TerminateTask : K S Z :=
  let& currPcbPtr := Os_SysTaskGetCurr in
  let& disabled := Os_SysIntAnyDisabled in
  OS_VALIDATE_STD_K (negb disabled) E_OS_DISABLEDINT OSServiceId_TerminateTask [] (
  let& nest := OS_SYS intNestCnt in
  OS_VALIDATE_STD_K (nest =? 0) E_OS_CALLEVEL OSServiceId_TerminateTask [] (
  let& occupies := Os_TaskOccupiesResources currPcbPtr in
  OS_VALIDATE_STD_K (negb occupies) E_OS_RESOURCE OSServiceId_TerminateTask [] (
  let& _ := Irq_Disable in
  let+ _ := Os_Dispatch OP_TERMINATE_TASK in
  unreachable))).

Definition ChainTask (TaskId : nat) : K S Z :=
  let ps := [Z.of_nat TaskId] in
  let& currPcbPtr := Os_SysTaskGetCurr in
  let& disabled := Os_SysIntAnyDisabled in
  OS_VALIDATE_STD_K (negb disabled) E_OS_DISABLEDINT OSServiceId_ChainTask ps (
  OS_VALIDATE_STD_K (TASK_CHECK_ID TaskId) E_OS_ID OSServiceId_ChainTask ps (
  let& nest := OS_SYS intNestCnt in
  OS_VALIDATE_STD_K (nest =? 0) E_OS_CALLEVEL OSServiceId_ChainTask ps (
  let& occupies := Os_TaskOccupiesResources currPcbPtr in
  OS_VALIDATE_STD_K (negb occupies) E_OS_RESOURCE OSServiceId_ChainTask ps (
  let& flags := Irq_Save in
  let& dest := Os_TaskGet TaskId in
  let& c := constPtr TaskId in
  if bool_decide (currPcbPtr <> TaskId) && (c.(activationLimit) <? dest.(activations) + 1) then
    let& _ := Irq_Restore flags in
    atomic (OS_STD_ERR E_OS_LIMIT OSServiceId_ChainTask ps)
  else
    let& _ := if bool_decide (currPcbPtr <> TaskId) then
                let* _ := if bool_decide (dest.(state) = ST_SUSPENDED) then
                            let* _ := ASSERT (dest.(activations) =? 0) in
                            let* _ := Os_Arc_SetCleanContext TaskId in
                            Os_TaskMakeReady TaskId
                          else ret tt in
                task_set TaskId (fun p => set_activations (u8 (p.(activations) + 1)) p)
              else ret tt in
    let& _ := sys_set (set_chainedPcbPtr (Some TaskId)) in
    let+ _ := Os_Dispatch OP_CHAIN_TASK in
    unreachable)))).

Definition Schedule : K S Z :=
  let& currPcbPtr := Os_SysTaskGetCurr in
  let& disabled := Os_SysIntAnyDisabled in
  OS_VALIDATE_STD_K (negb disabled) E_OS_DISABLEDINT OSServiceId_Schedule [] (
  let& nest := OS_SYS intNestCnt in
  OS_VALIDATE_STD_K (nest =? 0) E_OS_CALLEVEL OSServiceId_Schedule [] (
  let& occupies := Os_TaskOccupiesResources currPcbPtr in
  OS_VALIDATE_STD_K (negb occupies) E_OS_RESOURCE OSServiceId_Schedule [] (
  let& p := Os_TaskGet currPcbPtr in
  let& _ := ASSERT (bool_decide (p.(state) = ST_RUNNING)) in
  let& c := constPtr currPcbPtr in
  if bool_decide (c.(scheduling) = NON) then
    let& flags := Irq_Save in
    let& top := Os_TaskGetTop in
    let& top_pcb := Os_TaskGet top in
    let+ _ := if p.(activePriority) <? top_pcb.(activePriority) then Os_Dispatch OP_SCHEDULE else kret tt in
    let& _ := Irq_Restore flags in
    kret E_OK
  else kret E_OK))).

(** [Os_TaskPost]: a task function has returned. *)
Definition Os_TaskPost : K S Z :=
  let& currPcbPtr := Os_SysTaskGetCurr in
  let& _ := Irq_Disable in
  let& disabled := Os_SysIntAnyDisabled in
  let& _ := if disabled then Os_SysIntClearAll else ret tt in
  let& occupies := Os_TaskOccupiesResources currPcbPtr in
  let& _ := if occupies then Os_TaskResourceFreeAll currPcbPtr else ret tt in
  let& _ := Os_CallErrorHook E_OS_MISSINGEND in
  TerminateTask.

(** ** Events: [os_event.c] *)
Definition WaitEvent (Mask : Z) : K S Z :=
  let& curr_pcb := Os_SysTaskGetCurr in
  let& disabled := Os_SysIntAnyDisabled in
  OS_VALIDATE_STD_K (negb disabled) E_OS_DISABLEDINT OSServiceId_WaitEvent [Mask] (
  let& nest := OS_SYS intNestCnt in
  OS_VALIDATE_STD_K (nest =? 0) E_OS_CALLEVEL OSServiceId_WaitEvent [Mask] (
  let& c := constPtr curr_pcb in
  OS_VALIDATE_STD_K (bool_decide (c.(proc_type) = PROC_EXTENDED)) E_OS_ACCESS OSServiceId_WaitEvent [Mask] (
  let& occupies := Os_TaskOccupiesResources curr_pcb in
  OS_VALIDATE_STD_K (negb occupies) E_OS_RESOURCE OSServiceId_WaitEvent [Mask] (
  let& flags := Irq_Save in
  let& p := Os_TaskGet curr_pcb in
  let+ _ := if Z.land p.(ev_set) Mask =? 0 then
              let& _ := task_set curr_pcb (set_ev_wait Mask) in
              let+ _ := Os_Dispatch OP_WAIT_EVENT in
              let& p := Os_TaskGet curr_pcb in
              atomic (ASSERT (bool_decide (p.(state) = ST_RUNNING)))
            else kret tt in
  let& _ := Irq_Restore flags in
  kret E_OK)))).

(** [SetEvent] from [Irq_Save] on: the state of the task has been tested before. *)
Definition set_event_masked (TaskID : nat) (Mask : Z) : K S Z :=
  let& flags := Irq_Save in
  let& _ := task_set TaskID (fun p => set_ev_set (Z.lor p.(ev_set) Mask) p) in
  let& dest := Os_TaskGet TaskID in
  let+ _ := if negb (Z.land Mask dest.(ev_wait) =? 0) then
              if bool_decide (dest.(state) = ST_WAIT_EVENT) then
                let& _ := Os_TaskMakeReady TaskID in
                let& currPcbPtr := Os_SysTaskGetCurr in
                let& nest := OS_SYS intNestCnt in
                let& cc := constPtr currPcbPtr in
                let& dest := Os_TaskGet TaskID in
                let& cp := Os_TaskGet currPcbPtr in
                let& disabled := Os_SysIntAnyDisabled in
                if (nest =? 0) && bool_decide (cc.(scheduling) = FULL) && (cp.(activePriority) <? dest.(activePriority)) && negb disabled
                then Os_Dispatch OP_SET_EVENT
                else kret tt
              else if ready_or_running dest.(state) then kret tt
              else atomic (ASSERT false)
            else kret tt in
  let& _ := Irq_Restore flags in
  kret E_OK.
Definition SetEvent (TaskID : nat) (Mask : Z) : K S Z :=
  let ps := [Z.of_nat TaskID; Mask] in
  OS_VALIDATE_STD_K (TASK_CHECK_ID TaskID) E_OS_ID OSServiceId_SetEvent ps (
  let& c := constPtr TaskID in
  OS_VALIDATE_STD_K (bool_decide (c.(proc_type) = PROC_EXTENDED)) E_OS_ACCESS OSServiceId_SetEvent ps (
  let& dest := Os_TaskGet TaskID in
  OS_VALIDATE_STD_K (bool_decide (dest.(state) <> ST_SUSPENDED)) E_OS_STATE OSServiceId_SetEvent ps (
  set_event_masked TaskID Mask))).

Definition GetEvent (TaskId : nat) (Mask : Z) : M S (Z * option Z) :=
  let failed rv := let* rv := OS_STD_ERR rv OSServiceId_GetEvent [Z.of_nat TaskId; Mask] in ret (rv, None) in
  if Mask =? 0 then failed E_OS_PARAM_POINTER else
  let* disabled := Os_SysIntAnyDisabled in
  if disabled then failed E_OS_DISABLEDINT else
  if negb (TASK_CHECK_ID TaskId) then failed E_OS_ID else
  let* c := constPtr TaskId in
  if bool_decide (c.(proc_type) <> PROC_EXTENDED) then failed E_OS_ACCESS else
  let* dest := Os_TaskGet TaskId in
  if bool_decide (dest.(state) = ST_SUSPENDED) then failed E_OS_STATE else
  let* flags := Irq_Save in
  let* _ := Irq_Restore flags in
  ret (E_OK, Some dest.(ev_set)).

Definition ClearEvent (Mask : Z) : M S Z :=
  let* pcb := Os_SysTaskGetCurr in
  let* disabled := Os_SysIntAnyDisabled in
  OS_VALIDATE_STD (negb disabled) E_OS_DISABLEDINT OSServiceId_ClearEvent [Mask] (
  let* nest := OS_SYS intNestCnt in
  OS_VALIDATE_STD (nest =? 0) E_OS_CALLEVEL OSServiceId_ClearEvent [Mask] (
  let* c := constPtr pcb in
  OS_VALIDATE_STD (bool_decide (c.(proc_type) = PROC_EXTENDED)) E_OS_ACCESS OSServiceId_ClearEvent [Mask] (
  let* flags := Irq_Save in
  let* _ := task_set pcb (fun p => set_ev_set (Z.land p.(ev_set) (Z.lnot Mask)) p) in
  let* _ := Irq_Restore flags in
  ret E_OK))).

(** ** Resource services: [os_resource.c] *)
(** [1UL << ResID] is bit [ResID]: the access masks of tasks are 32 bits wide, so a configuration has at most 32 resources. *)
Definition GetResource (ResID : nat) : M S Z :=
  let ps := [Z.of_nat ResID] in
  let* disabled := Os_SysIntAnyDisabled in
  OS_VALIDATE_STD (negb disabled) E_OS_DISABLEDINT OSServiceId_GetResource ps (
  let* sch := RES_SCHEDULER in
  OS_VALIDATE_STD (ResID <=? sch)%nat E_OS_ID OSServiceId_GetResource ps (
  let* flags := Irq_Save in
  let* nest := OS_SYS intNestCnt in
  if negb (nest =? 0) then
    let* _ := Irq_Restore flags in
    OS_STD_ERR E_OS_ISR_RESOURCE OSServiceId_GetResource ps
  else
    let* taskPtr := Os_SysTaskGetCurr in
    let* p := Os_TaskGet taskPtr in
    let* c := constPtr taskPtr in
    let* r := Os_ResourceGet ResID in
    if bool_decide (ResID <> sch) &&
       (negb (Z.testbit c.(resourceAccess) (Z.of_nat ResID)) || bool_decide (r.(owner) <> None) ||
        (r.(ceiling_priority) <? p.(activePriority)))
    then
      let* _ := Irq_Restore flags in
      OS_STD_ERR E_OS_ACCESS OSServiceId_GetResource ps
    else
      let* _ := Os_TaskResourceAdd ResID taskPtr in
      let* _ := Irq_Restore flags in
      ret E_OK)).

Definition ReleaseResource (ResID : nat) : K S Z :=
  let ps := [Z.of_nat ResID] in
  let& pcbPtr := Os_SysTaskGetCurr in
  let& disabled := Os_SysIntAnyDisabled in
  OS_VALIDATE_STD_K (negb disabled) E_OS_DISABLEDINT OSServiceId_ReleaseResource ps (
  let& sch := RES_SCHEDULER in
  OS_VALIDATE_STD_K (ResID <=? sch)%nat E_OS_ID OSServiceId_ReleaseResource ps (
  let& flags := Irq_Save in
  let& nest := OS_SYS intNestCnt in
  if negb (nest =? 0) then
    let& _ := Irq_Restore flags in
    atomic (OS_STD_ERR E_OS_ISR_RESOURCE OSServiceId_ReleaseResource ps)
  else
    let& c := constPtr pcbPtr in
    if bool_decide (ResID <> sch) && negb (Z.testbit c.(resourceAccess) (Z.of_nat ResID)) then
      atomic (OS_STD_ERR E_OS_ID OSServiceId_ReleaseResource ps)
    else
      let& r := Os_ResourceGet ResID in
      if bool_decide (r.(owner) = None) then
        let& _ := Irq_Restore flags in
        atomic (OS_STD_ERR E_OS_NOFUNC OSServiceId_ReleaseResource ps)
      else
        let& p := Os_TaskGet pcbPtr in
        let& _ := ASSERT (r.(ceiling_priority) <=? p.(activePriority)) in
        let& _ := Os_TaskResourceRemove ResID pcbPtr in
        let+ _ := if bool_decide (c.(scheduling) = FULL) then
                    let& top := Os_TaskGetTop in
                    let& top_pcb := Os_TaskGet top in
                    let& p := Os_TaskGet pcbPtr in
                    if p.(activePriority) <? top_pcb.(activePriority) then Os_Dispatch OP_RELEASE_RESOURCE else kret tt
                  else kret tt in
        let& _ := Irq_Restore flags in
        kret E_OK)).
End Os.
