(* ===== verification/Os_Timers.v ===== *)
(** * Counters, alarms and schedule tables

    [os_counter.c], [os_alarm.c] and [os_sched_table.c].  An alarm can increment another counter, whose alarms can do the same:
    [IncrementCounter] takes the depth of this recursion as fuel and faults when there is none left. *)

From S2P Require Import Prelude.
From S2P Require Import StateMonad.
From S2P Require Import Coroutine.
From S2P Require Import Os_Irq.
From S2P Require Import Os_Types.
From S2P Require Import Os.

#[local] Open Scope monad_scope.
#[local] Open Scope coroutine_scope.

(** ** os_counter_i.h *)
Definition Os_CounterGetMaxValue (cPtr : OsCounterType) : Z := cPtr.(alarm_base).(maxallowedvalue).
Definition Os_CounterGetMinCycle (cPtr : OsCounterType) : Z := cPtr.(alarm_base).(mincycle).
Definition Os_CounterDiff (curr old max : Z) : Z :=
  if old <=? curr then u32 (curr - old) else u32 (curr + u32 (max - old) + 1).
Definition Os_CounterAdd (curr max add : Z) : Z :=
  let diff := u32 (max - curr) in
  if add <=? diff then u32 (curr + add) else u32 (add - u32 (max - curr) - 1).

(** ** os_sched_table_i.h *)
Definition Os_SchTblGetInitialOffset (sPtr : OsSchTblType) : option Z := offset <$> sPtr.(expirePointList) !! 0%nat.
Definition Os_SchTblGetFinalOffset (sPtr : OsSchTblType) : option Z :=
  p ← sPtr.(expirePointList) !! pred (length sPtr.(expirePointList)); Some (u32 (sPtr.(duration) - p.(offset))).

Section Timers.
Context {W : Type} {Cfg : Os_Cfg} {Env : Os_Env W}.
Abbreviation S := (Os_State W).

(** ** Access to the data *)
Definition Os_CounterGet (id : nat) : M S OsCounterType := let* t := get timers in deref (t.(counter_list) !! id).
Definition Os_AlarmGet (id : nat) : M S OsAlarmType := let* t := get timers in deref (t.(alarm_list) !! id).
Definition Os_SchTblGet (id : nat) : M S OsSchTblType := let* t := get timers in deref (t.(sched_list) !! id).
Definition timers_set (f : Timers -> Timers) : M S unit := modify (fun s => set_timers (f s.(timers)) s).
Definition counter_set (id : nat) (f : OsCounterType -> OsCounterType) : M S unit :=
  timers_set (fun t => set_counter_list (alter f id t.(counter_list)) t).
Definition alarm_set (id : nat) (f : OsAlarmType -> OsAlarmType) : M S unit :=
  timers_set (fun t => set_alarm_list (alter f id t.(alarm_list)) t).
Definition sched_set (id : nat) (f : OsSchTblType -> OsSchTblType) : M S unit :=
  timers_set (fun t => set_sched_list (alter f id t.(sched_list)) t).
Definition OS_COUNTER_CNT : M S nat := get (fun s => length s.(timers).(counter_list)).
Definition OS_ALARM_CNT : M S nat := get (fun s => length s.(timers).(alarm_list)).
Definition OS_SCHTBL_CNT : M S nat := get (fun s => length s.(timers).(sched_list)).

(** ** os_alarm.c *)
Definition Os_AlarmCheckCycle (cycle : Z) (c : OsCounterType) : bool :=
  negb (negb (cycle =? 0) && ((cycle <? Os_CounterGetMinCycle c) || (Os_CounterGetMaxValue c <? cycle))).

Definition AlarmProcess (aPtr : nat) : M S unit :=
  let* a := Os_AlarmGet aPtr in
  if a.(cycletime) =? 0 then alarm_set aPtr (set_active false)
  else
    let* c := Os_CounterGet a.(counter) in
    alarm_set aPtr (set_expire_val (Os_CounterAdd c.(val) (Os_CounterGetMaxValue c) a.(cycletime))).

(** [isStartup]: the interrupt check is left out. *)
Definition Os_internalSetRelAlarm (AlarmId : nat) (Increment Cycle : Z) (isStartup : bool) : M S Z :=
  let ps := [Z.of_nat AlarmId; Increment; Cycle] in
  let svc := OSServiceId_SetRelAlarm in
  let* disabled := Os_SysIntAnyDisabled in
  OS_VALIDATE_STD (isStartup || negb disabled) E_OS_DISABLEDINT svc ps (
  let* cnt := OS_ALARM_CNT in
  OS_VALIDATE_STD (AlarmId <? cnt)%nat E_OS_ID svc ps (
  let* a := Os_AlarmGet AlarmId in
  let* c := Os_CounterGet a.(counter) in
  OS_VALIDATE_STD (negb ((Increment =? 0) || (Os_CounterGetMaxValue c <? Increment))) E_OS_VALUE svc ps (
  OS_VALIDATE_STD (Os_AlarmCheckCycle Cycle c) E_OS_VALUE svc ps (
  let* flags := Irq_Save in
  if a.(active) then
    let* _ := Irq_Restore flags in
    OS_STD_ERR E_OS_STATE svc ps
  else
    let* _ := alarm_set AlarmId (fun a => set_cycletime Cycle
      (set_expire_val (Os_CounterAdd c.(val) (Os_CounterGetMaxValue c) Increment) (set_active true a))) in
    let* _ := Irq_Restore flags in
    ret E_OK)))).

Definition Os_internalSetAbsAlarm (AlarmId : nat) (Start Cycle : Z) (isStartup : bool) : M S Z :=
  let ps := [Z.of_nat AlarmId; Start; Cycle] in
  let svc := OSServiceId_SetAbsAlarm in
  let* disabled := Os_SysIntAnyDisabled in
  OS_VALIDATE_STD (isStartup || negb disabled) E_OS_DISABLEDINT svc ps (
  let* cnt := OS_ALARM_CNT in
  OS_VALIDATE_STD (AlarmId <? cnt)%nat E_OS_ID svc ps (
  let* a := Os_AlarmGet AlarmId in
  let* c := Os_CounterGet a.(counter) in
  OS_VALIDATE_STD (negb (Os_CounterGetMaxValue c <? Start)) E_OS_VALUE svc ps (
  OS_VALIDATE_STD (Os_AlarmCheckCycle Cycle c) E_OS_VALUE svc ps (
  let* flags := Irq_Save in
  if a.(active) then
    let* _ := Irq_Restore flags in
    OS_STD_ERR E_OS_STATE svc ps
  else
    let* _ := alarm_set AlarmId (fun a => set_cycletime Cycle (set_expire_val Start (set_active true a))) in
    let* _ := Irq_Restore flags in
    ret E_OK)))).

Definition SetRelAlarm (AlarmId : nat) (Increment Cycle : Z) : M S Z := Os_internalSetRelAlarm AlarmId Increment Cycle false.
Definition SetAbsAlarm (AlarmId : nat) (Start Cycle : Z) : M S Z := Os_internalSetAbsAlarm AlarmId Start Cycle false.

Definition GetAlarmBase (AlarmId : nat) (Info : Z) : M S (Z * option AlarmBaseType) :=
  let failed rv := let* rv := OS_STD_ERR rv OSServiceId_GetAlarmBase [Z.of_nat AlarmId; Info] in ret (rv, None) in
  if Info =? 0 then failed E_OS_PARAM_POINTER else
  let* disabled := Os_SysIntAnyDisabled in
  if disabled then failed E_OS_DISABLEDINT else
  let* cnt := OS_ALARM_CNT in
  if negb (AlarmId <? cnt)%nat then failed E_OS_ID else
  let* a := Os_AlarmGet AlarmId in
  let* c := Os_CounterGet a.(counter) in
  ret (E_OK, Some c.(alarm_base)).

Definition GetAlarm (AlarmId : nat) (Tick : Z) : M S (Z * option Z) :=
  let failed rv := let* rv := OS_STD_ERR rv OSServiceId_GetAlarm [Z.of_nat AlarmId; Tick] in ret (rv, None) in
  if Tick =? 0 then failed E_OS_PARAM_POINTER else
  let* disabled := Os_SysIntAnyDisabled in
  if disabled then failed E_OS_DISABLEDINT else
  let* cnt := OS_ALARM_CNT in
  if negb (AlarmId <? cnt)%nat then failed E_OS_ID else
  let* a := Os_AlarmGet AlarmId in
  let* flags := Irq_Save in
  if negb a.(active) then
    let* _ := Irq_Restore flags in
    failed E_OS_NOFUNC
  else
    let* c := Os_CounterGet a.(counter) in
    let* _ := Irq_Restore flags in
    ret (E_OK, Some (Os_CounterDiff a.(expire_val) c.(val) (Os_CounterGetMaxValue c))).

Definition CancelAlarm (AlarmId : nat) : M S Z :=
  let ps := [Z.of_nat AlarmId] in
  let* disabled := Os_SysIntAnyDisabled in
  OS_VALIDATE_STD (negb disabled) E_OS_DISABLEDINT OSServiceId_CancelAlarm ps (
  let* cnt := OS_ALARM_CNT in
  OS_VALIDATE_STD (AlarmId <? cnt)%nat E_OS_ID OSServiceId_CancelAlarm ps (
  let* a := Os_AlarmGet AlarmId in
  let* flags := Irq_Save in
  if negb a.(active) then
    let* _ := Irq_Restore flags in
    OS_STD_ERR E_OS_NOFUNC OSServiceId_CancelAlarm ps
  else
    let* _ := alarm_set AlarmId (set_active false) in
    let* _ := Irq_Restore flags in
    ret E_OK)).

(** One round of the loop of [Os_AlarmCheck]; [increment] is [IncrementCounter]. *)
Definition alarm_check (increment : nat -> K S Z) (c_p aPtr : nat) : K S unit :=
  let& a := Os_AlarmGet aPtr in
  let& c := Os_CounterGet c_p in
  if a.(active) && (c.(val) =? a.(expire_val)) then
    match a.(action) with
    | ALARM_ACTION_ACTIVATETASK task_id =>
      let+ _ := ActivateTask task_id in
      atomic (AlarmProcess aPtr)
    | ALARM_ACTION_SETEVENT task_id event_id =>
      let+ rv := SetEvent task_id event_id in
      let& _ := if rv =? E_OK then ret tt else Os_CallErrorHook rv in
      atomic (AlarmProcess aPtr)
    | ALARM_ACTION_ALARMCALLBACK => kret tt
    | ALARM_ACTION_INCREMENTCOUNTER counter_id =>
      let+ _ := increment counter_id in
      atomic (AlarmProcess aPtr)
    end
  else kret tt.
Definition Os_AlarmCheck (increment : nat -> K S Z) (c_p : nat) : K S unit :=
  let& c := Os_CounterGet c_p in
  kfor_each c.(alarm_head) (alarm_check increment c_p).

Definition Os_AlarmAutostart : M S unit :=
  let* cnt := OS_ALARM_CNT in
  for_each 0 (seq 0 cnt) (fun _ j =>
    let* a := Os_AlarmGet j in
    match a.(autostartPtr) with
    | None => ret tt
    | Some autoPtr =>
      let* mode := OS_SYS appMode in
      if negb (Z.land mode autoPtr.(appModeRef) =? 0) then
        let* _ := match autoPtr.(autostartType) with
                  | ALARM_AUTOSTART_ABSOLUTE => Os_internalSetAbsAlarm j autoPtr.(alarmTime) autoPtr.(cycleTime) true
                  | ALARM_AUTOSTART_RELATIVE => Os_internalSetRelAlarm j autoPtr.(alarmTime) autoPtr.(cycleTime) true
                  end in
        ret tt
      else ret tt
    end).

(** ** os_sched_table.c *)
Definition SCHED_CHECK_ID (x : nat) : M S bool := let* cnt := OS_SCHTBL_CNT in ret (negb (cnt =? 0)%nat && (x <? cnt)%nat).

(** [stbl->expire_val = Os_CounterAdd(Os_CounterGetValue(stbl->counter), Os_CounterGetMaxValue(stbl->counter), delta)] *)
Definition expire_after (stbl : nat) (delta : Z) : M S unit :=
  let* t := Os_SchTblGet stbl in
  let* c := Os_CounterGet t.(st_counter) in
  sched_set stbl (set_st_expire_val (Os_CounterAdd c.(val) (Os_CounterGetMaxValue c) delta)).

(** What [Os_SchTblUpdateState] does at the final offset. *)
Definition final_expiry (stbl : nat) : M S unit :=
  let* t := Os_SchTblGet stbl in
  let* _ :=
    if t.(repeating) || bool_decide (t.(next) <> None) then
      match t.(next) with
      | Some nextStblPtr =>
        let* n := Os_SchTblGet nextStblPtr in
        let* _ := ASSERT (bool_decide (n.(st_state) = SCHEDULETABLE_NEXT)) in
        let* initalOffset := deref (Os_SchTblGetInitialOffset n) in
        let* _ := sched_set stbl (set_st_state SCHEDULETABLE_STOPPED) in
        let* _ := sched_set nextStblPtr (set_st_state SCHEDULETABLE_RUNNING) in
        expire_after nextStblPtr initalOffset
      | None =>
        let* initalOffset := deref (Os_SchTblGetInitialOffset t) in
        expire_after stbl initalOffset
      end
    else sched_set stbl (set_st_state SCHEDULETABLE_STOPPED) in
  sched_set stbl (set_expire_curr_index 0).

Definition Os_SchTblUpdateState (stbl : nat) : M S unit :=
  let* t := Os_SchTblGet stbl in
  let cnt := Z.of_nat (length t.(expirePointList)) in
  if t.(expire_curr_index) =? cnt - 1 then
    let* finalOffset := deref (Os_SchTblGetFinalOffset t) in
    if negb (finalOffset =? 0) then
      let* _ := expire_after stbl finalOffset in
      sched_set stbl (fun t => set_expire_curr_index (t.(expire_curr_index) + 1) t)
    else
      let* _ := ASSERT (negb t.(repeating)) in
      final_expiry stbl
  else if t.(expire_curr_index) =? cnt then final_expiry stbl
  else
    let* p1 := deref (aref t.(expirePointList) (t.(expire_curr_index) + 1)) in
    let* p0 := deref (aref t.(expirePointList) t.(expire_curr_index)) in
    let* _ := expire_after stbl (u32 (p1.(offset) - p0.(offset))) in
    sched_set stbl (fun t => set_expire_curr_index (t.(expire_curr_index) + 1) t).

(** The loop of [ScheduleTableConsistenyCheck]: as in the code, [delta] of one round enters the next. *)
Fixpoint check_offsets (minCycle maxValue : Z) (first : bool) (delta : Z) (l : list OsScheduleTableExpiryPointType) : bool :=
  match l with
  | [] => true
  | p :: l =>
    let delta := u32 (p.(offset) - delta) in
    (first || (minCycle <=? delta)) && (delta <=? maxValue) && check_offsets minCycle maxValue false delta l
  end.
Definition ScheduleTableConsistenyCheck (sTblPtr : nat) : M S unit :=
  let* t := Os_SchTblGet sTblPtr in
  let* c := Os_CounterGet t.(st_counter) in
  let* _ := ASSERT (negb (length t.(expirePointList) =? 0)%nat) in
  let* _ := ASSERT (check_offsets (Os_CounterGetMinCycle c) (Os_CounterGetMaxValue c) true 0 t.(expirePointList)) in
  let* delta := deref (Os_SchTblGetFinalOffset t) in
  let* _ := ASSERT (Os_CounterGetMinCycle c <=? delta) in
  ASSERT (delta <=? Os_CounterGetMaxValue c).

(** [StartScheduleTableRel] and [Os_StartScheduleTableRelStartup]: the second one without the interrupt check. *)
Definition StartScheduleTableRel_ (startup : bool) (sid : nat) (ofs : Z) : M S Z :=
  let ps := [Z.of_nat sid; ofs] in
  let svc := OSServiceId_StartScheduleTableRel in
  let* disabled := Os_SysIntAnyDisabled in
  OS_VALIDATE_STD (startup || negb disabled) E_OS_DISABLEDINT svc ps (
  let* ok := SCHED_CHECK_ID sid in
  OS_VALIDATE_STD ok E_OS_ID svc ps (
  let* t := Os_SchTblGet sid in
  let* c := Os_CounterGet t.(st_counter) in
  let* initial := deref (Os_SchTblGetInitialOffset t) in
  let max_offset := Os_CounterGetMaxValue c in
  OS_VALIDATE_STD (negb ((ofs =? 0) || (max_offset <? u32 (ofs + initial)))) E_OS_VALUE svc ps (
  OS_VALIDATE_STD (bool_decide (t.(st_state) = SCHEDULETABLE_STOPPED)) E_OS_STATE svc ps (
  let* flags := Irq_Save in
  let* _ := sched_set sid (fun t => set_st_state SCHEDULETABLE_RUNNING
              (set_st_expire_val (Os_CounterAdd c.(val) max_offset (u32 (ofs + initial))) t)) in
  let* _ := Irq_Restore flags in
  ret E_OK)))).
Definition StartScheduleTableRel := StartScheduleTableRel_ false.
Definition Os_StartScheduleTableRelStartup := StartScheduleTableRel_ true.

Definition StartScheduleTableAbs_ (startup : bool) (sid : nat) (start : Z) : M S Z :=
  let ps := [Z.of_nat sid; start] in
  let svc := OSServiceId_StartScheduleTableAbs in
  let* disabled := Os_SysIntAnyDisabled in
  OS_VALIDATE_STD (startup || negb disabled) E_OS_DISABLEDINT svc ps (
  let* ok := SCHED_CHECK_ID sid in
  OS_VALIDATE_STD ok E_OS_ID svc ps (
  let* t := Os_SchTblGet sid in
  let* c := Os_CounterGet t.(st_counter) in
  OS_VALIDATE_STD (start <=? Os_CounterGetMaxValue c) E_OS_VALUE svc ps (
  OS_VALIDATE_STD (bool_decide (t.(st_state) = SCHEDULETABLE_STOPPED)) E_OS_STATE svc ps (
  let* flags := Irq_Save in
  let* initial := deref (Os_SchTblGetInitialOffset t) in
  let* _ := sched_set sid (fun t => set_st_state SCHEDULETABLE_RUNNING (set_st_expire_val (u32 (start + initial)) t)) in
  let* _ := Irq_Restore flags in
  ret E_OK)))).
Definition StartScheduleTableAbs := StartScheduleTableAbs_ false.
Definition Os_StartScheduleTableAbsStartup := StartScheduleTableAbs_ true.

Definition StopScheduleTable (sid : nat) : M S Z :=
  let ps := [Z.of_nat sid] in
  let* disabled := Os_SysIntAnyDisabled in
  OS_VALIDATE_STD (negb disabled) E_OS_DISABLEDINT OSServiceId_StopScheduleTable ps (
  let* ok := SCHED_CHECK_ID sid in
  OS_VALIDATE_STD ok E_OS_ID OSServiceId_StopScheduleTable ps (
  let* t := Os_SchTblGet sid in
  OS_VALIDATE_STD (bool_decide (t.(st_state) <> SCHEDULETABLE_STOPPED)) E_OS_NOFUNC OSServiceId_StopScheduleTable ps (
  let* _ := sched_set sid (set_st_state SCHEDULETABLE_STOPPED) in
  ret E_OK))).

(** The code tests the state of the first table once more when interrupts are masked; it has not changed. *)
Definition NextScheduleTable (sid_curr sid_next : nat) : M S Z :=
  let ps := [Z.of_nat sid_curr; Z.of_nat sid_next] in
  let svc := OSServiceId_NextScheduleTable in
  let* disabled := Os_SysIntAnyDisabled in
  OS_VALIDATE_STD (negb disabled) E_OS_DISABLEDINT svc ps (
  let* ok := SCHED_CHECK_ID sid_curr in
  OS_VALIDATE_STD ok E_OS_ID svc ps (
  let* ok := SCHED_CHECK_ID sid_next in
  OS_VALIDATE_STD ok E_OS_ID svc ps (
  let* from := Os_SchTblGet sid_curr in
  let* to := Os_SchTblGet sid_next in
  OS_VALIDATE_STD (from.(st_counter) =? to.(st_counter))%nat E_OS_ID svc ps (
  if bool_decide (from.(st_state) = SCHEDULETABLE_STOPPED) || bool_decide (from.(st_state) = SCHEDULETABLE_NEXT)
  then OS_STD_ERR E_OS_NOFUNC svc ps
  else
  OS_VALIDATE_STD (bool_decide (to.(st_state) = SCHEDULETABLE_STOPPED)) E_OS_STATE svc ps (
  let* flags := Irq_Save in
  let* _ := match from.(next) with
            | Some n => sched_set n (set_st_state SCHEDULETABLE_STOPPED)
            | None => ret tt
            end in
  let* _ := sched_set sid_curr (set_next (Some sid_next)) in
  let* _ := sched_set sid_next (fun t => set_expire_curr_index 0 (set_st_state SCHEDULETABLE_NEXT t)) in
  let* _ := Irq_Restore flags in
  ret E_OK))))).

(** A null pointer for [status] is not tested. *)
Definition GetScheduleTableStatus (sid : nat) (status : Z) : M S (Z * option ScheduleTableStatusType) :=
  let failed rv := let* rv := OS_STD_ERR rv OSServiceId_GetScheduleTableStatus [Z.of_nat sid; status] in ret (rv, None) in
  let* disabled := Os_SysIntAnyDisabled in
  if disabled then failed E_OS_DISABLEDINT else
  let* ok := SCHED_CHECK_ID sid in
  if negb ok then failed E_OS_ID else
  let* t := Os_SchTblGet sid in
  let* flags := Irq_Save in
  let* _ := ASSERT (negb (status =? 0)) in
  let* _ := Irq_Restore flags in
  ret (E_OK, Some t.(st_state)).

Definition sched_check (c_p sched_obj : nat) : K S unit :=
  let& t := Os_SchTblGet sched_obj in
  let& c := Os_CounterGet c_p in
  if bool_decide (t.(st_state) = SCHEDULETABLE_STOPPED) then kret tt
  else if (bool_decide (t.(st_state) = SCHEDULETABLE_RUNNING) || bool_decide (t.(st_state) = SCHEDULETABLE_RUNNING_AND_SYNCHRONOUS))
       && (c.(val) =? t.(st_expire_val)) then
    let+ _ :=
      if t.(expire_curr_index) <? Z.of_nat (length t.(expirePointList)) then
        let& action := deref (aref t.(expirePointList) t.(expire_curr_index)) in
        let+ _ := kfor_each action.(taskList) (fun i => let+ _ := ActivateTask i in kret tt) in
        kfor_each action.(eventList) (fun '(event, task) => let+ _ := SetEvent task event in kret tt)
      else kret tt in
    atomic (Os_SchTblUpdateState sched_obj)
  else kret tt.
Definition Os_SchTblCheck (c_p : nat) : K S unit :=
  let& c := Os_CounterGet c_p in
  kfor_each c.(sched_head) (sched_check c_p).

Definition Os_SchTblInit : M S unit :=
  let* cnt := OS_SCHTBL_CNT in
  for_each 0 (seq 0 cnt) (fun _ i => ScheduleTableConsistenyCheck i).
Definition Os_SchTblAutostart : M S unit :=
  let* cnt := OS_SCHTBL_CNT in
  for_each 0 (seq 0 cnt) (fun _ j =>
    let* t := Os_SchTblGet j in
    match t.(st_autostartPtr) with
    | None => ret tt
    | Some autoPtr =>
      let* mode := OS_SYS appMode in
      if negb (Z.land mode autoPtr.(sa_appMode) =? 0) then
        let* _ := match autoPtr.(sa_type) with
                  | SCHTBL_AUTOSTART_ABSOLUTE => Os_StartScheduleTableAbsStartup j autoPtr.(sa_offset)
                  | SCHTBL_AUTOSTART_RELATIVE => Os_StartScheduleTableRelStartup j autoPtr.(sa_offset)
                  | SCHTBL_AUTOSTART_SYNCHRONE => ret E_OK
                  end in
        ret tt
      else ret tt
    end).

(** ** os_counter.c *)
Definition IsCounterValid (counterId : nat) : M S bool := let* cnt := OS_COUNTER_CNT in ret (counterId <? cnt)%nat.
(** [cPtr->val = Os_CounterAdd(cPtr->val, Os_CounterGetMaxValue(cPtr), 1)] *)
Definition count_up (counter_id : nat) : M S unit :=
  counter_set counter_id (fun c => set_val (Os_CounterAdd c.(val) (Os_CounterGetMaxValue c) 1) c).

Fixpoint IncrementCounter (fuel : nat) (counter_id : nat) : K S Z :=
  match fuel with
  | O => unreachable
  | Datatypes.S fuel =>
    let ps := [Z.of_nat counter_id] in
    let& disabled := Os_SysIntAnyDisabled in
    OS_VALIDATE_STD_K (negb disabled) E_OS_DISABLEDINT OSServiceId_IncrementCounter ps (
    let& ok := IsCounterValid counter_id in
    OS_VALIDATE_STD_K ok E_OS_ID OSServiceId_IncrementCounter ps (
    let& c := Os_CounterGet counter_id in
    OS_VALIDATE_STD_K (bool_decide (c.(counter_type) = COUNTER_TYPE_SOFT)) E_OS_ID OSServiceId_IncrementCounter ps (
    let& flags := Irq_Save in
    let& _ := count_up counter_id in
    let+ _ := Os_AlarmCheck (IncrementCounter fuel) counter_id in
    let+ _ := Os_SchTblCheck counter_id in
    let& _ := Irq_Restore flags in
    kret E_OK)))
  end.

Definition GetCounterValue (counter_id : nat) (tick_ref : Z) : M S (Z * option Z) :=
  let failed rv := let* rv := OS_STD_ERR rv OSServiceId_GetCounterValue [Z.of_nat counter_id; tick_ref] in ret (rv, None) in
  if tick_ref =? 0 then failed E_OS_PARAM_POINTER else
  let* disabled := Os_SysIntAnyDisabled in
  if disabled then failed E_OS_DISABLEDINT else
  let* ok := IsCounterValid counter_id in
  if negb ok then failed E_OS_ID else
  let* c := Os_CounterGet counter_id in
  let* tk := OS_SYS tick in
  ret (E_OK, Some (if bool_decide (c.(counter_type) = COUNTER_TYPE_HARD) then tk else c.(val))).

(** [v] is what the pointer [val_] leads to; the values returned are those of [*val] and [*elapsed_val].  The address of the local variable
    [currTick] is not null and not recorded, since [GetCounterValue] cannot fail here. *)
Definition currTick_address : Z := 1.
Definition GetElapsedValue (counter_id : nat) (val_ v elapsed_val : Z) : M S (Z * option (Z * Z)) :=
  let failed rv := let* rv := OS_STD_ERR rv OSServiceId_GetElapsedValue [Z.of_nat counter_id; val_; elapsed_val] in ret (rv, None) in
  if val_ =? 0 then failed E_OS_PARAM_POINTER else
  if elapsed_val =? 0 then failed E_OS_PARAM_POINTER else
  let* disabled := Os_SysIntAnyDisabled in
  if disabled then failed E_OS_DISABLEDINT else
  let* ok := IsCounterValid counter_id in
  if negb ok then failed E_OS_ID else
  let* c := Os_CounterGet counter_id in
  let max := Os_CounterGetMaxValue c in
  if negb (v <=? max) then failed E_OS_VALUE else
  let* r := GetCounterValue counter_id currTick_address in
  let currTick := default 0 r.2 in
  ret (E_OK, Some (currTick, Os_CounterDiff currTick v max)).

(** The interrupt service routine of the system tick. *)
Definition OsTick (fuel : nat) : K S unit :=
  let cPtr := Os_Arc_OsTickCounter in
  let& _ := Os_CounterGet cPtr in
  let& _ := sys_set (fun y => set_tick (u32 (y.(tick) + 1)) y) in
  let& _ := count_up cPtr in
  let+ _ := Os_AlarmCheck (IncrementCounter fuel) cPtr in
  Os_SchTblCheck cPtr.

(** The list heads of a counter. *)
Definition Os_CounterInit : M S unit :=
  let* acnt := OS_ALARM_CNT in
  let* _ := if (acnt =? 0)%nat then ret tt else
    let* a := Os_AlarmGet 0 in
    let* _ := counter_set a.(counter) (set_alarm_head []) in
    for_each 0 (seq 0 acnt) (fun _ i =>
      let* a := Os_AlarmGet i in
      counter_set a.(counter) (fun c => set_alarm_head (i :: c.(alarm_head)) c)) in
  let* scnt := OS_SCHTBL_CNT in
  if (scnt =? 0)%nat then ret tt else
    let* t := Os_SchTblGet 0 in
    let* _ := counter_set t.(st_counter) (set_alarm_head []) in
    for_each 0 (seq 0 scnt) (fun _ i =>
      let* t := Os_SchTblGet i in
      counter_set t.(st_counter) (fun c => set_sched_head (i :: c.(sched_head)) c)).
End Timers.
