(* ===== verification/Os_System.v ===== *)
(** * Interrupts, start-up, and the processor

    [os_isr.c], [os_init.c] and the interrupt functions of [Os.h]; then the machine that runs them: the data of the kernel, the saved
    contexts of the tasks, the interrupt service routines in progress, and what the processor is doing.  The code of tasks and interrupt
    service routines is not fixed: it may call any service at any time.

    A call of a service is one step up to the next switch, and an interrupt comes between the steps; but two services leave the data they use
    unprotected in their middle, and there an interrupt can come in the model too ([window]): [SetEvent] between the test of the state of
    the task and [Irq_Save], and [ActivateTask] between [Irq_Restore] and the correction of the number of activations. *)

From S2P Require Import Prelude.
From S2P Require Import StateMonad.
From S2P Require Import Coroutine.
From S2P Require Import Os_Irq.
From S2P Require Import Os_Types.
From S2P Require Import Os.
From S2P Require Import Os_Timers.

#[local] Open Scope monad_scope.
#[local] Open Scope coroutine_scope.

Section System.
Context {W : Type} {Cfg : Os_Cfg} {Env : Os_Env W}.
Abbreviation S := (Os_State W).

(** ** Os.h: interrupt locks of the application *)
Definition Irq_Enable : M S unit := Irq_Restore true.
Definition DisableAllInterrupts : M S unit :=
  let* _ := Irq_Disable in
  let* _ := modify (fun s => set_Os_IntDisableAllCnt (s.(Os_IntDisableAllCnt) + 1) s) in
  let* cnt := get Os_IntDisableAllCnt in
  ASSERT (cnt =? 1).
Definition EnableAllInterrupts : M S unit :=
  let* cnt := get Os_IntDisableAllCnt in
  if cnt =? 0 then ret tt
  else
    let* _ := modify (set_Os_IntDisableAllCnt (cnt - 1)) in
    Irq_Enable.
Definition SuspendAllInterrupts : M S unit := modify (fun s => set_irq (Os_Irq.SuspendOSInterrupts s.(irq)) s).
Definition ResumeAllInterrupts : M S unit := modify (fun s => set_irq (Os_Irq.ResumeOSInterrupts s.(irq)) s).

(** ** os_isr.c: [Os_Isr] before and after the function of the interrupt service routine

    The first half gives the value of the local variable [oldIsrPtr]. *)
Definition Os_Isr_enter (isr : nat) : M S (option nat) :=
  let* kind := deref (Os_IsrConstList !! isr) in
  match kind with
  | ISR_TYPE_1 =>
    let* oldIsrPtr := OS_SYS currIsrPtr in
    let* _ := sys_set (fun y => set_intNestCnt (y.(intNestCnt) + 1) (set_currIsrPtr (Some isr) y)) in
    let* _ := Irq_Enable in
    ret oldIsrPtr
  | ISR_TYPE_2 =>
    let* nest := OS_SYS intNestCnt in
    let* oldIsrPtr :=
      if nest =? 0 then
        let* _ := Os_CallPostTaskHook in
        let* taskPtr := Os_SysTaskGetCurr in
        let* _ := task_set taskPtr (set_stack SAVED) in
        let* _ := task_set taskPtr (set_state ST_READY) in
        ret None
      else OS_SYS currIsrPtr in
    let* _ := sys_set (fun y => set_currIsrPtr (Some isr) (set_intNestCnt (y.(intNestCnt) + 1) y)) in
    let* _ := Irq_Enable in
    ret oldIsrPtr
  end.

(** At the end the processor returns from the interrupt: the context on the stack of the task is used.  This is the code of all
    ports but ARMv7-M ([CFG_ARMV7_M]), where the function returns after [--intNestCnt] and the port's assembler does the rest. *)
Definition Os_Isr_leave (isr : nat) (oldIsrPtr : option nat) : K S unit :=
  let& kind := deref (Os_IsrConstList !! isr) in
  let& _ := Irq_Disable in
  match kind with
  | ISR_TYPE_1 => atomic (sys_set (fun y => set_currIsrPtr oldIsrPtr (set_intNestCnt (y.(intNestCnt) - 1) y)))
  | ISR_TYPE_2 =>
    let& disabled := Os_SysIntAnyDisabled in
    let& _ := if disabled then let* _ := Os_SysIntClearAll in Os_CallErrorHook E_OS_DISABLEDINT else ret tt in
    let& _ := sys_set (fun y => set_intNestCnt (y.(intNestCnt) - 1) (set_currIsrPtr (Some isr) y)) in
    let& nest := OS_SYS intNestCnt in
    if nest =? 0 then
      let& new_pcb := Os_TaskGetTop in
      let& curr := Os_SysTaskGetCurr in
      let& c := constPtr curr in
      if bool_decide (new_pcb = curr) || bool_decide (c.(scheduling) = NON) then
        let& _ := Os_TaskMakeRunning curr in
        let& _ := Os_CallPreTaskHook in
        atomic (task_set curr (set_stack USED))
      else Os_TaskSwapContextTo new_pcb
    else
      let& _ := deref oldIsrPtr in
      atomic (sys_set (set_currIsrPtr oldIsrPtr))
  end.

(** ** os_init.c *)
Definition INITIAL_DISABLE_COUNT := 100.
Definition copyPcbParts (pcb : nat) : M S unit :=
  let* c := constPtr pcb in
  task_set pcb (set_activePriority c.(prio)).
Definition InitOS : M S unit :=
  let* _ := sys_set (fun _ => {| currTaskPtr := 0; currIsrPtr := None; chainedPcbPtr := None; intNestCnt := 0; tick := 0;
                                 appMode := 0; ready_head := [] |}) in
  let* _ := modify (fun s => set_irq {| Os_IntSuspendAllCnt := INITIAL_DISABLE_COUNT; irq_enabled := s.(irq).(irq_enabled) |} s) in
  let* _ := modify (set_Os_IntDisableAllCnt INITIAL_DISABLE_COUNT) in
  let* _ := Os_CounterInit in
  let* _ := Os_SchTblInit in
  let* _ := for_each 0 (seq 0 OS_TASK_CNT) (fun _ i =>
    let* _ := copyPcbParts i in
    let* _ := Os_TaskContextInit i in
    task_set i (set_resourceHead [])) in
  Os_ResourceInit.

(** The autostart task of the highest priority, and its priority; [i] is the next one to look at. *)
Fixpoint highest_autostart (l : list nat) (tmpPcbPtr : nat) (topPrio : Z) : M S nat :=
  match l with
  | [] => ret tmpPcbPtr
  | i :: l =>
    let* c := constPtr i in
    let* p := Os_TaskGet i in
    if c.(autostart) && (topPrio <? p.(activePriority)) then highest_autostart l i p.(activePriority)
    else highest_autostart l tmpPcbPtr topPrio
  end.
Definition os_start : K S unit :=
  let& _ := Irq_Disable in
  let& _ := modify (fun s => set_world (StartupHook s.(world)) s) in
  let& _ := Os_AlarmAutostart in
  let& _ := Os_SchTblAutostart in
  let& p := Os_TaskGet 0 in
  let& tmpPcbPtr := highest_autostart (seq 1 (OS_TASK_CNT - 1)) 0 p.(activePriority) in
  let& _ := Os_SysTaskSetCurr tmpPcbPtr in
  let& _ := Os_SysIntClearAll in
  let& p := Os_TaskGet tmpPcbPtr in
  let& c := constPtr tmpPcbPtr in
  let& _ := ASSERT (p.(activations) <=? c.(activationLimit)) in
  let+ _ := Os_TaskSwapContextTo tmpPcbPtr in
  unreachable.
Definition StartOS (Mode : Z) : K S unit :=
  let& _ := sys_set (set_appMode Mode) in
  let+ _ := os_start in
  unreachable.

(** ** Calls of the application *)
Inductive Call :=
  | CActivateTask (t : nat) | CTerminateTask | CChainTask (t : nat) | CSchedule | CEndOfTask
  | CGetTaskState (t : nat) (State : Z) | CGetTaskID (TaskID : Z)
  | CWaitEvent (mask : Z) | CSetEvent (t : nat) (mask : Z) | CGetEvent (t : nat) (Mask : Z) | CClearEvent (mask : Z)
  | CGetResource (r : nat) | CReleaseResource (r : nat)
  | COsTick | CIncrementCounter (c : nat) | CGetCounterValue (c : nat) (tick_ref : Z) | CGetElapsedValue (c : nat) (val v elapsed_val : Z)
  | CSetRelAlarm (a : nat) (increment cycle : Z) | CSetAbsAlarm (a : nat) (start cycle : Z) | CCancelAlarm (a : nat)
  | CGetAlarm (a : nat) (Tick : Z) | CGetAlarmBase (a : nat) (Info : Z)
  | CStartScheduleTableRel (t : nat) (ofs : Z) | CStartScheduleTableAbs (t : nat) (start : Z) | CStopScheduleTable (t : nat)
  | CNextScheduleTable (from to : nat) | CGetScheduleTableStatus (t : nat) (status : Z)
  | CDisableAllInterrupts | CEnableAllInterrupts | CSuspendAllInterrupts | CResumeAllInterrupts.

(** Enough for the chains of counters of a valid configuration. *)
Definition counters : M S nat := get (fun s => Datatypes.S (length s.(timers).(counter_list))).
Definition status {A} (m : M S (Z * A)) : K S Z := let& r := m in kret r.1.
Definition quiet (m : M S unit) : K S Z := let& _ := m in kret E_OK.
Definition service (c : Call) : K S Z :=
  match c with
  | CActivateTask t => ActivateTask t
  | CTerminateTask => TerminateTask
  | CChainTask t => ChainTask t
  | CSchedule => Schedule
  | CEndOfTask => Os_TaskPost
  | CGetTaskState t p => status (GetTaskState t p)
  | CGetTaskID p => status (GetTaskID p)
  | CWaitEvent mask => WaitEvent mask
  | CSetEvent t mask => SetEvent t mask
  | CGetEvent t p => status (GetEvent t p)
  | CClearEvent mask => atomic (ClearEvent mask)
  | CGetResource r => atomic (GetResource r)
  | CReleaseResource r => ReleaseResource r
  | COsTick => let& n := counters in let+ _ := OsTick n in kret E_OK
  | CIncrementCounter c => let& n := counters in IncrementCounter n c
  | CGetCounterValue c p => status (GetCounterValue c p)
  | CGetElapsedValue c p v q => status (GetElapsedValue c p v q)
  | CSetRelAlarm a i c => atomic (SetRelAlarm a i c)
  | CSetAbsAlarm a b c => atomic (SetAbsAlarm a b c)
  | CCancelAlarm a => atomic (CancelAlarm a)
  | CGetAlarm a p => status (GetAlarm a p)
  | CGetAlarmBase a p => status (GetAlarmBase a p)
  | CStartScheduleTableRel t o => atomic (StartScheduleTableRel t o)
  | CStartScheduleTableAbs t o => atomic (StartScheduleTableAbs t o)
  | CStopScheduleTable t => atomic (StopScheduleTable t)
  | CNextScheduleTable t1 t2 => atomic (NextScheduleTable t1 t2)
  | CGetScheduleTableStatus t p => status (GetScheduleTableStatus t p)
  | CDisableAllInterrupts => quiet DisableAllInterrupts
  | CEnableAllInterrupts => quiet EnableAllInterrupts
  | CSuspendAllInterrupts => quiet SuspendAllInterrupts
  | CResumeAllInterrupts => quiet ResumeAllInterrupts
  end.

(** Where a call leaves its data unprotected, if it comes so far: the state there, and the rest of the call. *)
Definition window (c : Call) (s : S) : option (S * K S Z) :=
  match c with
  | CActivateTask t =>
    p ← s.(Os_TaskVarList) !! t; const ← Os_TaskConstList !! t;
    let n := u8 (p.(activations) + 1) in
    let disabled := negb (Z.lor s.(Os_IntDisableAllCnt) s.(irq).(Os_IntSuspendAllCnt) =? 0) in
    if negb disabled && bool_decide (p.(state) <> ST_SUSPENDED) && (const.(activationLimit) <? n)
    then Some (set_Os_TaskVarList (alter (set_activations n) t s.(Os_TaskVarList)) s, activation_refused t)
    else None
  | CSetEvent t mask =>
    p ← s.(Os_TaskVarList) !! t; const ← Os_TaskConstList !! t;
    if bool_decide (const.(proc_type) = PROC_EXTENDED) && bool_decide (p.(state) <> ST_SUSPENDED) then Some (s, set_event_masked t mask) else None
  | _ => None
  end.

(** ** The processor *)
(** A saved context: interrupted in the code of the task or in the window of a call, or within a service that has switched to another task. *)
Inductive Context := Interrupted (w : option (K S Z)) | Within (k : K S Z).
(** An interrupt service routine in progress; [f_within]: what remains of the call that was interrupted. *)
Record Frame := { f_isr : nat; f_oldIsrPtr : option nat; f_within : option (K S Z) }.
Inductive Cpu := Application | Kernel (k : K S Z).
Definition resumed (w : option (K S Z)) : Cpu := match w with Some k => Kernel k | None => Application end.
Record Machine := {
  os : S;
  contexts : list Context;
  frames : list Frame;
  cpu : Cpu;
  result : option Z
}.

(** The task [currTaskPtr] gets the processor: with the context on its stack, or at its beginning. *)
Definition load (start : bool) (m : Machine) (cs : list Context) (s : S) : option Machine :=
  let n := s.(sys).(currTaskPtr) in
  p ← s.(Os_TaskVarList) !! n;
  let used := set_Os_TaskVarList (alter (set_stack USED) n s.(Os_TaskVarList)) s in
  let running w := {| os := set_irq (irq_set true used.(irq)) used; contexts := cs; frames := m.(frames); cpu := resumed w; result := None |} in
  match (if start then ENTRY else p.(stack)) with
  | ENTRY => Some (running None)
  | SAVED =>
    c ← cs !! n;
    match c with
    | Interrupted w => Some (running w)
    | Within k => Some {| os := used; contexts := cs; frames := m.(frames); cpu := Kernel k; result := None |}
    end
  | USED => None
  end.

(** What comes of a piece of kernel code; [c]: what comes after it. *)
Definition exec_to (c : Cpu) (o : Out S Z) (m : Machine) : option Machine :=
  match o with
  | Done r s => Some {| os := s; contexts := m.(contexts); frames := m.(frames); cpu := c; result := Some r |}
  | Switched (Swap old) s k =>
    load false m (<[old := Within k]> m.(contexts)) (set_Os_TaskVarList (alter (set_stack SAVED) old s.(Os_TaskVarList)) s)
  | Switched SwapTo s _ => load false m m.(contexts) s
  | Switched Start s _ => load true m m.(contexts) s
  | Fault => None
  end.
Definition exec := exec_to Application.

(** [EIrqWithin c isr]: the call [c] is made, and interrupted in its window. *)
Inductive Event := ECall (c : Call) | EContinue | EIrq (isr : nat) | EIret | EIrqWithin (c : Call) (isr : nat).
Definition in_application (m : Machine) : bool := match m.(cpu) with Application => true | _ => false end.
(** What can happen: [None] for a fault. *)
Definition enabled (m : Machine) (e : Event) : bool :=
  match e with
  | ECall _ => in_application m
  | EContinue => negb (in_application m)
  | EIrq isr => in_application m && m.(os).(irq).(irq_enabled) && (isr <? length Os_IsrConstList)%nat
  | EIret => in_application m && negb (bool_decide (m.(frames) = []))
  | EIrqWithin c isr =>
    in_application m && m.(os).(irq).(irq_enabled) && (isr <? length Os_IsrConstList)%nat && bool_decide (is_Some (window c m.(os)))
  end.
(** An interrupt, with the kernel's data [s]; [w]: what remains of the call it comes in. *)
Definition interrupt (isr : nat) (w : option (K S Z)) (s : S) (m : Machine) : option Machine :=
  '(old, s') ← Os_Isr_enter isr s;
  Some {| os := s'; contexts := if s.(sys).(intNestCnt) =? 0 then <[s.(sys).(currTaskPtr) := Interrupted w]> m.(contexts) else m.(contexts);
          frames := {| f_isr := isr; f_oldIsrPtr := old; f_within := w |} :: m.(frames); cpu := Application; result := None |}.
Definition step (e : Event) (m : Machine) : option Machine :=
  match e with
  | ECall c => exec (service c m.(os)) m
  | EContinue => match m.(cpu) with Kernel k => exec (k m.(os)) m | Application => Some m end
  | EIrq isr => interrupt isr None m.(os) m
  | EIret =>
    match m.(frames) with
    | [] => Some m
    | f :: fs =>
      let m := {| os := m.(os); contexts := m.(contexts); frames := fs; cpu := Application; result := None |} in
      exec_to (resumed f.(f_within)) ((let+ _ := Os_Isr_leave f.(f_isr) f.(f_oldIsrPtr) in let& _ := Irq_Enable in kret E_OK) m.(os)) m
    end
  | EIrqWithin c isr => '(s, k) ← window c m.(os); interrupt isr (Some k) s m
  end.

(** A run of the machine; [None]: a fault. *)
Fixpoint run (es : list Event) (m : Machine) : option Machine :=
  match es with
  | [] => Some m
  | e :: es => m ← step e m; run es m
  end.

(** ** Start *)
(** The memory before [InitOS]: zeroed task variables; counters, alarms, tables and resources as generated. *)
Definition zero_task : OsTaskVarType := {|
  stack := USED; state := ST_NOT_STARTED; ev_wait := 0; ev_set := 0; flags := SYS_FLAG_HOOK_STATE_EXPECTING_PRE; activePriority := 0;
  activations := 0; reactivation := REACTIVATE_NORMAL; resourceHead := []
|}.
Definition zero_sys : Os_SysType := {|
  currTaskPtr := 0; currIsrPtr := None; chainedPcbPtr := None; intNestCnt := 0; tick := 0; appMode := 0; ready_head := []
|}.
Definition reset (res : list OsResourceType) (t : Timers) (w : W) : S := {|
  Os_TaskVarList := replicate OS_TASK_CNT zero_task;
  resource_list := res ++ [{| ceiling_priority := 0; old_task_prio := 0; owner := None; type := RESOURCE_TYPE_STANDARD |}];
  timers := t;
  sys := zero_sys;
  irq := {| Os_IntSuspendAllCnt := 0; irq_enabled := false |};
  Os_IntDisableAllCnt := 0;
  os_error := {| serviceId := OSServiceId_ActivateTask; param1 := 0; param2 := 0; param3 := 0 |};
  world := w
|}.
(** [InitOS], then [StartOS]. *)
Definition boot (res : list OsResourceType) (t : Timers) (mode : Z) (w : W) : option Machine :=
  '(_, s) ← InitOS (reset res t w);
  let m := {| os := s; contexts := replicate OS_TASK_CNT (Within unreachable); frames := []; cpu := Application; result := None |} in
  exec ((let+ _ := StartOS mode in kret E_OK) s) m.
End System.
