(* ===== verification/Os_Inv.v ===== *)
(** * The invariant of the kernel

    What a valid configuration is, and what holds whenever the kernel is not in the middle of a service: the ready queue holds exactly the
    tasks that are ready or running; activations and events agree with the states; the priority of a task is that of the last resource it
    took; and the order of priorities that makes the priority ceiling protocol work. *)

From stdpp Require Import sets.
From S2P Require Import Prelude.
From S2P Require Import StateMonad.
From S2P Require Import Coroutine.
From S2P Require Import Os_Irq.
From S2P Require Import Os_Types.
From S2P Require Import Os.
From S2P Require Import Os_Timers.
From S2P Require Import Os_System.

(** ** Order in a queue *)
Definition before (l : list nat) (u t : nat) : Prop := sublist [u; t] l.

Lemma before_in l u t : before l u t -> u ∈ l /\ t ∈ l.
Proof.
  unfold before. rewrite sublist_cons_l. intros (k1 & k2 & -> & H%singleton_sublist_l). set_solver.
Qed.
Lemma before_snoc l d u t : before (l ++ [d]) u t -> before l u t \/ t = d.
Proof.
  unfold before. rewrite sublist_app_cons_r, app_nil_r. intros [H|(l1 & l2 & E & H1 & H2)]; [by left|right].
  apply sublist_nil_r in H2 as ->. destruct l1 as [|a [|b l1]]; simplify_eq/=; [done|]. by destruct l1.
Qed.
Lemma before_ne l u t : NoDup l -> before l u t -> u <> t.
Proof.
  unfold before. rewrite sublist_cons_l. intros Hnd (k1 & k2 & -> & H%singleton_sublist_l) ->.
  apply list.NoDup_app in Hnd as (_ & _ & Hnd). by apply list.NoDup_cons in Hnd as [? _].
Qed.
Lemma before_filter x l u t : before (filter (fun y => y <> x) l) u t -> before l u t.
Proof. unfold before. intros H. etrans; [exact H|]. apply sublist_filter. Qed.
Lemma before_total l u t : u ∈ l -> t ∈ l -> u <> t -> before l u t \/ before l t u.
Proof.
  intros Hu Ht Hne. unfold before. apply list_elem_of_split in Hu as (k1 & k2 & ->).
  rewrite elem_of_app, elem_of_cons in Ht. destruct Ht as [Ht|[Ht|Ht]]; [right|done|left].
  - apply (sublist_app [t] k1 [u]); [by apply singleton_sublist_l|]. apply sublist_skip, sublist_nil_l.
  - apply sublist_inserts_l, sublist_skip. by apply singleton_sublist_l.
Qed.

(** ** The stack of priorities of a task

    [l]: the resources it holds in the order it took them, [p]: its own priority, [a]: its active one. *)
Fixpoint chain (res : nat -> OsResourceType) (p : Z) (l : list nat) (a : Z) : Prop :=
  match l with
  | [] => a = p
  | r :: l => (res r).(old_task_prio) = p /\ p <= (res r).(ceiling_priority) /\ chain res (res r).(ceiling_priority) l a
  end.

Lemma chain_le res p l a : chain res p l a -> p <= a.
Proof. revert p. induction l as [|r l IH]; cbn; intros p; [lia|]. intros (_ & ? & ?%IH). lia. Qed.
Lemma chain_ceiling res p l a r : chain res p l a -> r ∈ l -> (res r).(ceiling_priority) <= a.
Proof.
  revert p. induction l as [|r' l IH]; cbn; intros p; [set_solver|]. intros (_ & _ & Hc) [->|Hin]%elem_of_cons; [by eapply chain_le|by eapply IH].
Qed.
Lemma chain_snoc res p l r a :
  chain res p (l ++ [r]) a <->
  chain res p l (res r).(old_task_prio) /\ (res r).(old_task_prio) <= (res r).(ceiling_priority) /\ a = (res r).(ceiling_priority).
Proof. revert p. induction l as [|r' l IH]; intros p; cbn; [naive_solver lia|]. rewrite IH. tauto. Qed.
Lemma chain_ext res res' p l a :
  (forall r, r ∈ l -> (res' r).(old_task_prio) = (res r).(old_task_prio) /\ (res' r).(ceiling_priority) = (res r).(ceiling_priority)) ->
  chain res p l a -> chain res' p l a.
Proof.
  revert p. induction l as [|r l IH]; cbn; intros p He; [done|].
  destruct (He r) as [-> ->]; [by left|]. intros (? & ? & ?). split_and!; [done|done|]. apply IH; [|done]. intros r' Hr'. apply He. by right.
Qed.

Section Inv.
Context {W : Type} {Cfg : Os_Cfg} {Env : Os_Env W}.
Abbreviation S := (Os_State W).

(** ** Views of the state *)
Definition zero_const : OsTaskConstType := {|
  prio := 0; proc_type := PROC_BASIC; autostart := false; scheduling := FULL; resourceAccess := 0; resourceIntPtr := None; activationLimit := 1
|}.
Definition zero_res : OsResourceType := {| ceiling_priority := 0; old_task_prio := 0; owner := None; type := RESOURCE_TYPE_STANDARD |}.
Definition C (t : nat) : OsTaskConstType := default zero_const (Os_TaskConstList !! t).
Definition base (t : nat) : Z := (C t).(prio).
Definition T (s : S) (t : nat) : OsTaskVarType := default zero_task (s.(Os_TaskVarList) !! t).
Definition Rs (s : S) (r : nat) : OsResourceType := default zero_res (s.(resource_list) !! r).
Definition held (s : S) (t : nat) : list nat := (T s t).(resourceHead).
Definition act (s : S) (t : nat) : Z := (T s t).(activePriority).
Definition ready (s : S) : list nat := s.(sys).(ready_head).
Definition curr (s : S) : nat := s.(sys).(currTaskPtr).
Definition nest (s : S) : Z := s.(sys).(intNestCnt).
Definition isr (s : S) : option nat := s.(sys).(currIsrPtr).
Definition dis (s : S) : bool := negb (Z.lor s.(Os_IntDisableAllCnt) s.(irq).(Os_IntSuspendAllCnt) =? 0).
Definition lvl (s : S) : option nat * bool := (isr s, dis s).
Definition sch (s : S) : nat := pred (length s.(resource_list)).
Definition alive (s : S) (t : nat) : Prop := ready_or_running (T s t).(state) = true \/ (T s t).(state) = ST_WAIT_EVENT.

(** ** Valid configurations

    The tasks: the idle task 0 starts by itself; no task has an internal resource; only a preemptable basic task can have more than one
    activation.  The hooks before and after a task are both there or both missing. *)
Record valid_task (c : OsTaskConstType) : Prop := {
  vt_prio : 0 <= c.(prio) < OS_RES_SCHEDULER_PRIO;
  vt_internal : c.(resourceIntPtr) = None;
  vt_limit : 1 <= c.(activationLimit) < 255;
  vt_multiple : c.(activationLimit) = 1 \/ c.(proc_type) = PROC_BASIC /\ c.(scheduling) = FULL
}.
Record valid_cfg : Prop := {
  v_tasks : Forall valid_task Os_TaskConstList;
  v_idle : exists c, Os_TaskConstList !! 0%nat = Some c /\ c.(autostart) = true;
  v_hooks : OS_POST_TASK_HOOK = OS_PRE_TASK_HOOK
}.

(** ** Timers

    What of counters, alarms and schedule tables does not change: their numbers, the counters of the alarms, and how many counters an
    increment can go through. *)
Record Shape := {
  sh_rank : nat -> nat;
  sh_alarms : list nat;
  sh_tables : nat;
  sh_counters : nat
}.
Record alarm_ok (sh : Shape) (a : OsAlarmType) : Prop := {
  a_counter : (a.(counter) < sh.(sh_counters))%nat;
  a_rank : forall c, a.(action) = ALARM_ACTION_INCREMENTCOUNTER c -> (sh.(sh_rank) c < sh.(sh_rank) a.(counter))%nat
}.
Record table_ok (sh : Shape) (t : OsSchTblType) : Prop := {
  st_counter_ok : (t.(st_counter) < sh.(sh_counters))%nat;
  st_points : t.(expirePointList) <> [];
  st_index : 0 <= t.(expire_curr_index) <= Z.of_nat (length t.(expirePointList));
  st_next : t.(next) = None;
  st_final : t.(repeating) = true -> Os_SchTblGetFinalOffset t <> Some 0
}.
Record counter_ok (sh : Shape) (i : nat) (c : OsCounterType) : Prop := {
  c_alarms : Forall (fun a => sh.(sh_alarms) !! a = Some i) c.(alarm_head);
  c_tables : Forall (fun t => t < sh.(sh_tables))%nat c.(sched_head)
}.
Record timers_ok (sh : Shape) (tm : Timers) : Prop := {
  tm_alarms : Forall (alarm_ok sh) tm.(alarm_list);
  tm_tables : Forall (table_ok sh) tm.(sched_list);
  tm_rank : forall c, (sh.(sh_rank) c <= sh.(sh_counters))%nat;
  tm_counters : forall i c, tm.(counter_list) !! i = Some c -> counter_ok sh i c;
  tm_alarm_counters : counter <$> tm.(alarm_list) = sh.(sh_alarms);
  tm_n_tables : length tm.(sched_list) = sh.(sh_tables);
  tm_n_counters : length tm.(counter_list) = sh.(sh_counters)
}.

(** ** The parts of the invariant *)
Record queue_inv (s : S) : Prop := {
  q_len : length s.(Os_TaskVarList) = OS_TASK_CNT;
  q_nodup : NoDup (ready s);
  q_ready t : t ∈ ready s <-> ready_or_running (T s t).(state) = true;
  q_state t : (t < OS_TASK_CNT)%nat -> (T s t).(state) <> ST_NOT_STARTED;
  q_idle : 0%nat ∈ ready s
}.
Record task_inv (s : S) : Prop := {
  t_suspended t : (t < OS_TASK_CNT)%nat -> (T s t).(state) = ST_SUSPENDED -> (T s t).(activations) = 0;
  t_active t : (t < OS_TASK_CNT)%nat -> (T s t).(state) <> ST_SUSPENDED -> 1 <= (T s t).(activations) <= (C t).(activationLimit);
  t_reactivation t : (T s t).(reactivation) = REACTIVATE_NORMAL;
  t_wait t : (T s t).(state) = ST_WAIT_EVENT -> Z.land (T s t).(ev_set) (T s t).(ev_wait) = 0 /\ (C t).(proc_type) = PROC_EXTENDED
}.
Record res_inv (s : S) : Prop := {
  r_type r : (Rs s r).(type) <> RESOURCE_TYPE_INTERNAL;
  r_some : (0 < length s.(resource_list))%nat;
  r_ceiling r t : (r < sch s)%nat -> Z.testbit (C t).(resourceAccess) (Z.of_nat r) = true -> base t <= (Rs s r).(ceiling_priority);
  r_max r : (Rs s r).(ceiling_priority) <= OS_RES_SCHEDULER_PRIO;
  r_scheduler : (Rs s (sch s)).(ceiling_priority) = OS_RES_SCHEDULER_PRIO;
  r_owner r t : (Rs s r).(owner) = Some t <-> r ∈ held s t;
  r_nodup t : NoDup (held s t);
  r_chain t : chain (Rs s) (base t) (held s t) (act s t);
  r_alive t : held s t <> [] -> t ∈ ready s
}.
(** A task that was preempted while it held resources is below the task that runs, whatever that one does; two such tasks are ordered;
    and whoever is in front of a task that has run is below it. *)
Record prio_inv (s : S) : Prop := {
  p_run t : t <> curr s -> held s t <> [] -> act s t < base (curr s);
  p_pair t u : t <> u -> held s t <> [] -> held s u <> [] -> act s t < base u \/ act s u < base t;
  p_fifo t u : t = curr s \/ held s t <> [] -> before (ready s) u t -> base u < base t
}.
Definition expecting (b : bool) : Z := if b then SYS_FLAG_HOOK_STATE_EXPECTING_POST else SYS_FLAG_HOOK_STATE_EXPECTING_PRE.
Definition flags_inv (running : option nat) (s : S) : Prop :=
  OS_PRE_TASK_HOOK = true -> forall t, (T s t).(flags) = expecting (bool_decide (running = Some t)).
(** [x]: the tasks whose saved context can be used. *)
Record stack_inv (x : nat -> Prop) (s : S) : Prop := {
  s_other t : t <> curr s -> alive s t -> (T s t).(stack) <> USED;
  s_wait t : t <> curr s -> (T s t).(state) = ST_WAIT_EVENT -> (T s t).(stack) = SAVED;
  s_saved t : alive s t -> (T s t).(stack) = SAVED -> x t
}.

(** ** The invariant

    [st]: the state of the current task, running or interrupted. *)
Definition runs (st : state_t) (t : nat) : option nat := if bool_decide (st = ST_RUNNING) then Some t else None.
Record Core (sh : Shape) (x : nat -> Prop) (st : state_t) (s : S) : Prop := {
  i_queue : queue_inv s;
  i_task : task_inv s;
  i_res : res_inv s;
  i_prio : prio_inv s;
  i_flags : flags_inv (runs st (curr s)) s;
  i_stack : stack_inv x s;
  i_curr : (T s (curr s)).(state) = st;
  i_run : st = ST_RUNNING \/ st = ST_READY;
  i_curr_stack : (T s (curr s)).(stack) = if bool_decide (st = ST_RUNNING) then USED else SAVED;
  i_nest : 0 <= nest s;
  i_level : nest s = 0 -> st = ST_RUNNING;
  i_isr : nest s <> 0 -> isr s <> None;
  i_timers : timers_ok sh s.(timers)
}.
(** No ready task has a higher priority than a preemptable one that runs. *)
Definition Top (s : S) : Prop := (T s (curr s)).(state) = ST_RUNNING -> (C (curr s)).(scheduling) = FULL -> forall u, u ∈ ready s -> act s u <= act s (curr s).
Definition Inv sh x st s : Prop := Core sh x st s /\ Top s.
End Inv.
