(* ===== verification/Os_Update.v ===== *)
(** * What the changes of the kernel's data do to the invariant

    The services change one task at a time: its state, its events, its activations, its place in the ready queue, or the resources it
    holds.  One lemma for each of these changes, on the data alone; then the change of the running task. *)

From stdpp Require Import sets.
From S2P Require Import Prelude.
From S2P Require Import StateMonad.
From S2P Require Import Coroutine.
From S2P Require Import Os_Irq.
From S2P Require Import Os_Types.
From S2P Require Import Os.
From S2P Require Import Os_Timers.
From S2P Require Import Os_System.
From S2P Require Import Os_Inv.

Section Update.
Context {W : Type} {Cfg : Os_Cfg} {Env : Os_Env W}.
Abbreviation S := (Os_State W).
Implicit Types (s : S) (x : nat -> Prop).

(** ** Updates *)
Definition upd (d : nat) (f : OsTaskVarType -> OsTaskVarType) (s : S) : S := set_Os_TaskVarList (alter f d s.(Os_TaskVarList)) s.
Definition upr (r : nat) (f : OsResourceType -> OsResourceType) (s : S) : S := set_resource_list (alter f r s.(resource_list)) s.

Lemma T_upd d f s t : (d < length s.(Os_TaskVarList))%nat -> T (upd d f s) t = if decide (t = d) then f (T s t) else T s t.
Proof.
  intros Hd. unfold T, upd. cbn. destruct (decide (t = d)) as [->|Hne]; [|by rewrite list_lookup_alter_ne].
  rewrite list_lookup_alter_eq. destruct (lookup_lt_is_Some_2 _ _ Hd) as [p ->]. done.
Qed.
Lemma Rs_upr r f s q : (r < length s.(resource_list))%nat -> Rs (upr r f s) q = if decide (q = r) then f (Rs s q) else Rs s q.
Proof.
  intros Hd. unfold Rs, upr. cbn. destruct (decide (q = r)) as [->|Hne]; [|by rewrite list_lookup_alter_ne].
  rewrite list_lookup_alter_eq. destruct (lookup_lt_is_Some_2 _ _ Hd) as [p ->]. done.
Qed.

(** ** One task changes

    In [s'], the task [d] is [p], and the ready queue is [q]. *)
Record changed (d : nat) (p : OsTaskVarType) (q : list nat) (s s' : S) : Prop := {
  ch_T t : T s' t = if decide (t = d) then p else T s t;
  ch_len : length s'.(Os_TaskVarList) = length s.(Os_TaskVarList);
  ch_ready : ready s' = q;
  ch_curr : curr s' = curr s;
  ch_nest : nest s' = nest s;
  ch_lvl : lvl s' = lvl s;
  ch_res : s'.(resource_list) = s.(resource_list);
  ch_timers : s'.(timers) = s.(timers)
}.

Lemma isr_lvl s s' : lvl s' = lvl s -> isr s' = isr s.
Proof. unfold lvl. congruence. Qed.
Lemma dis_lvl s s' : lvl s' = lvl s -> dis s' = dis s.
Proof. unfold lvl. congruence. Qed.
Lemma T_range s t : T s t <> zero_task -> (t < length s.(Os_TaskVarList))%nat.
Proof. unfold T. intros H. destruct (s.(Os_TaskVarList) !! t) eqn:E; [by eapply lookup_lt_Some|done]. Qed.
Lemma alive_range s t : queue_inv s -> alive s t -> (t < OS_TASK_CNT)%nat.
Proof. intros Hq Ha. rewrite <- (q_len s Hq). apply T_range. intros E. unfold alive in Ha. rewrite E in Ha. by destruct Ha. Qed.
Lemma ready_alive s t : queue_inv s -> t ∈ ready s -> alive s t.
Proof. intros Hq Ht. left. by apply (q_ready s Hq). Qed.
Lemma ready_range s t : queue_inv s -> t ∈ ready s -> (t < OS_TASK_CNT)%nat.
Proof. intros Hq Ht. by eapply alive_range, ready_alive. Qed.
Lemma curr_ready sh x st s : Core sh x st s -> curr s ∈ ready s.
Proof. intros Hc. apply (q_ready s); [apply Hc|]. rewrite (i_curr _ _ _ _ Hc). by destruct (i_run _ _ _ _ Hc) as [->| ->]. Qed.
Lemma held_act_base s t : res_inv s -> held s t = [] -> act s t = base t.
Proof. intros Hr E. pose proof (r_chain s Hr t) as H. by rewrite E in H. Qed.
Lemma base_act s t : res_inv s -> base t <= act s t.
Proof. intros Hr. eapply chain_le, (r_chain s Hr). Qed.
Lemma act_max s t : valid_cfg -> (t < OS_TASK_CNT)%nat -> res_inv s -> act s t <= OS_RES_SCHEDULER_PRIO.
Proof.
  intros Hv Ht Hr. pose proof (r_chain s Hr t) as Hc.
  destruct (held s t) as [|r l _] eqn:E using rev_ind.
  - cbn in Hc. rewrite Hc. unfold base, C. destruct (lookup_lt_is_Some_2 _ _ Ht) as [c Ec]. rewrite Ec. cbn.
    pose proof (proj1 (Forall_lookup _ _) (v_tasks Hv) _ _ Ec) as [? _ _ _]. lia.
  - apply chain_snoc in Hc as (_ & _ & ->). apply (r_max s Hr).
Qed.

(** The change keeps priority, resources, hook flag and reactivation. *)
Record keeps (p p' : OsTaskVarType) : Prop := {
  kp_prio : p'.(activePriority) = p.(activePriority);
  kp_held : p'.(resourceHead) = p.(resourceHead);
  kp_flags : p'.(flags) = p.(flags);
  kp_react : p'.(reactivation) = p.(reactivation)
}.

Section Changed.
Context (d : nat) (p : OsTaskVarType) (q : list nat) (s s' : S).
Hypothesis Hch : changed d p q s s'.
Hypothesis Hk : keeps (T s d) p.

Lemma changed_other t : t <> d -> T s' t = T s t.
Proof using Hch. intros Ht. rewrite (ch_T _ _ _ _ _ Hch). by rewrite decide_False. Qed.
Lemma changed_self : T s' d = p.
Proof using Hch. rewrite (ch_T _ _ _ _ _ Hch). by rewrite decide_True. Qed.
Lemma changed_held t : held s' t = held s t.
Proof using Hch Hk.
  unfold held. destruct (decide (t = d)) as [->|Ht]; [|by rewrite changed_other]. rewrite changed_self. apply Hk.
Qed.
Lemma changed_act t : act s' t = act s t.
Proof using Hch Hk.
  unfold act. destruct (decide (t = d)) as [->|Ht]; [|by rewrite changed_other]. rewrite changed_self. apply Hk.
Qed.
Lemma changed_flags t : (T s' t).(flags) = (T s t).(flags).
Proof using Hch Hk. destruct (decide (t = d)) as [->|Ht]; [|by rewrite changed_other]. rewrite changed_self. apply Hk. Qed.
Lemma changed_Rs r : Rs s' r = Rs s r.
Proof using Hch. unfold Rs. by rewrite (ch_res _ _ _ _ _ Hch). Qed.

Lemma changed_res_inv : res_inv s -> (forall t, held s t <> [] -> t ∈ q) -> res_inv s'.
Proof using Hch Hk.
  intros [] Hal. split.
  - intros r. by rewrite changed_Rs.
  - by rewrite (ch_res _ _ _ _ _ Hch).
  - intros r t. unfold sch. rewrite (ch_res _ _ _ _ _ Hch), changed_Rs. auto.
  - intros r. by rewrite changed_Rs.
  - unfold sch. by rewrite (ch_res _ _ _ _ _ Hch), changed_Rs.
  - intros r t. rewrite changed_Rs, changed_held. auto.
  - intros t. by rewrite changed_held.
  - intros t. rewrite changed_held, changed_act. eapply chain_ext; [|done]. intros r _. by rewrite changed_Rs.
  - intros t. rewrite changed_held, (ch_ready _ _ _ _ _ Hch). auto.
Qed.
Lemma changed_prio_inv : prio_inv s ->
  (forall t u, t = curr s \/ held s t <> [] -> before q u t -> before (ready s) u t) -> prio_inv s'.
Proof using Hch Hk.
  intros [] Hq. split; rewrite ?(ch_curr _ _ _ _ _ Hch), ?(ch_ready _ _ _ _ _ Hch).
  - intros t. rewrite changed_held, changed_act. auto.
  - intros t u. rewrite !changed_held, !changed_act. auto.
  - intros t u. rewrite changed_held. eauto.
Qed.
Lemma changed_flags_inv r : flags_inv r s -> flags_inv r s'.
Proof using Hch Hk. intros Hf Hp t. rewrite changed_flags. auto. Qed.
End Changed.

(** ** Events and activations: the state and the queue stay as they are *)
Lemma Core_same sh x st d p s s' :
  Core sh x st s -> changed d p (ready s) s s' -> keeps (T s d) p -> p.(state) = (T s d).(state) -> p.(stack) = (T s d).(stack) ->
  (p.(state) <> ST_SUSPENDED -> 1 <= p.(activations) <= (C d).(activationLimit)) ->
  (p.(state) = ST_SUSPENDED -> p.(activations) = 0) ->
  (p.(state) = ST_WAIT_EVENT -> Z.land p.(ev_set) p.(ev_wait) = 0) ->
  Core sh x st s'.
Proof.
  intros [Hq Ht Hr Hp Hf Hs Hc Hrun Hcs Hn Hl Hi Htm] Hch Hk Est Esk Ha Hsu Hw.
  assert (Hst : forall t, (T s' t).(state) = (T s t).(state)).
  { intros t. rewrite (ch_T _ _ _ _ _ Hch). by destruct (decide (t = d)) as [->|]. }
  assert (Hsk : forall t, (T s' t).(stack) = (T s t).(stack)).
  { intros t. rewrite (ch_T _ _ _ _ _ Hch). by destruct (decide (t = d)) as [->|]. }
  assert (Hal : forall t, alive s' t <-> alive s t) by (intros t; unfold alive; by rewrite Hst).
  split; rewrite ?(ch_curr _ _ _ _ _ Hch), ?(ch_nest _ _ _ _ _ Hch), ?(ch_timers _ _ _ _ _ Hch), ?(isr_lvl _ _ (ch_lvl _ _ _ _ _ Hch)), ?Hst, ?Hsk; try done.
  - destruct Hq. split; rewrite ?(ch_len _ _ _ _ _ Hch), ?(ch_ready _ _ _ _ _ Hch); try done; intros t; rewrite Hst; auto.
  - destruct Ht. split; intros t; rewrite (ch_T _ _ _ _ _ Hch); destruct (decide (t = d)) as [->|]; auto.
    + rewrite (kp_react _ _ Hk). auto.
    + intros E. split; [auto|]. apply t_wait. congruence.
  - eapply changed_res_inv; eauto. apply (r_alive s Hr).
  - by eapply changed_prio_inv.
  - by eapply changed_flags_inv.
  - destruct Hs. split; rewrite ?(ch_curr _ _ _ _ _ Hch); intros t; rewrite ?Hal, ?Hst, ?Hsk; auto.
Qed.

(** ** A task gets ready: at the end of the queue *)
Lemma Core_enqueue sh x st d p s s' :
  Core sh x st s -> changed d p (ready s ++ [d]) s s' -> keeps (T s d) p -> (d < OS_TASK_CNT)%nat -> d ∉ ready s -> p.(state) = ST_READY ->
  1 <= p.(activations) <= (C d).(activationLimit) ->
  p.(stack) = ENTRY \/ (T s d).(state) = ST_WAIT_EVENT /\ p.(stack) = (T s d).(stack) ->
  Core sh x st s'.
Proof.
  intros HC. pose proof (curr_ready _ _ _ _ HC) as Hcr. destruct HC as [Hq Ht Hr Hp Hf Hs Hc Hrun Hcs Hn Hl Hi Htm].
  intros Hch Hk Hd Hdr Est Ha Hsk.
  assert (Hdc : curr s <> d) by (intros <-; done).
  assert (Hdh : held s d = []) by (destruct (decide (held s d = [])) as [|H]; [done|]; by apply (r_alive s Hr) in H).
  split; rewrite ?(ch_curr _ _ _ _ _ Hch), ?(ch_nest _ _ _ _ _ Hch), ?(ch_timers _ _ _ _ _ Hch), ?(isr_lvl _ _ (ch_lvl _ _ _ _ _ Hch)), ?(changed_other _ _ _ _ _ Hch _ Hdc); try done.
  - destruct Hq. split; rewrite ?(ch_len _ _ _ _ _ Hch), ?(ch_ready _ _ _ _ _ Hch); try done.
    + apply list.NoDup_app. split_and!; [done| |apply NoDup_singleton]. set_solver.
    + intros t. rewrite (ch_T _ _ _ _ _ Hch), elem_of_app, list_elem_of_singleton, q_ready.
      destruct (decide (t = d)) as [->|]; [rewrite Est; naive_solver|naive_solver].
    + intros t. rewrite (ch_T _ _ _ _ _ Hch). destruct (decide (t = d)) as [->|]; [by rewrite Est|auto].
    + set_solver.
  - destruct Ht. split; intros t; rewrite (ch_T _ _ _ _ _ Hch); destruct (decide (t = d)) as [->|]; auto; try congruence.
    rewrite (kp_react _ _ Hk). auto.
  - eapply changed_res_inv; eauto. intros t Hh. pose proof (r_alive s Hr t Hh). set_solver.
  - eapply changed_prio_inv; eauto. intros t u Htu Hb. apply before_snoc in Hb as [Hb| ->]; [done|]. by destruct Htu.
  - by eapply changed_flags_inv.
  - destruct Hs. split; rewrite ?(ch_curr _ _ _ _ _ Hch); intros t; unfold alive; rewrite (ch_T _ _ _ _ _ Hch); destruct (decide (t = d)) as [->|]; auto.
    + intros _ _. destruct Hsk as [->|[E ->]]; [done|]. apply s_other; [done|by right].
    + by rewrite Est.
    + intros _ E. destruct Hsk as [Hsk|[E' Hsk]]; [by rewrite Hsk in E|]. rewrite Hsk in E. apply s_saved; [by right|done].
Qed.

(** ** Resources: the current task takes or releases one *)
Record traded (d : nat) (p : OsTaskVarType) (r : nat) (r' : OsResourceType) (s s' : S) : Prop := {
  td_T t : T s' t = if decide (t = d) then p else T s t;
  td_Rs q : Rs s' q = if decide (q = r) then r' else Rs s q;
  td_len : length s'.(Os_TaskVarList) = length s.(Os_TaskVarList);
  td_res : length s'.(resource_list) = length s.(resource_list);
  td_ready : ready s' = ready s;
  td_curr : curr s' = curr s;
  td_nest : nest s' = nest s;
  td_lvl : lvl s' = lvl s;
  td_timers : s'.(timers) = s.(timers)
}.
(** What is not about resources does not change. *)
Record keeps_rest (p p' : OsTaskVarType) : Prop := {
  kr_state : p'.(state) = p.(state);
  kr_stack : p'.(stack) = p.(stack);
  kr_wait : p'.(ev_wait) = p.(ev_wait);
  kr_set : p'.(ev_set) = p.(ev_set);
  kr_flags : p'.(flags) = p.(flags);
  kr_act : p'.(activations) = p.(activations);
  kr_react : p'.(reactivation) = p.(reactivation)
}.

Lemma Core_traded sh x st p r r' s s' :
  Core sh x st s -> traded (curr s) p r r' s s' -> keeps_rest (T s (curr s)) p ->
  r'.(ceiling_priority) = (Rs s r).(ceiling_priority) -> r'.(type) = (Rs s r).(type) ->
  (forall q t, (Rs s' q).(owner) = Some t <-> q ∈ held s' t) -> (forall t, NoDup (held s' t)) ->
  (forall t, chain (Rs s') (base t) (held s' t) (act s' t)) ->
  Core sh x st s'.
Proof.
  intros HC. pose proof (curr_ready _ _ _ _ HC) as Hcr. destruct HC as [Hq Ht Hr Hp Hf Hs Hc Hrun Hcs Hn Hl Hi Htm].
  intros Htd Hk Ece Ety Hown Hnd Hch.
  assert (Hoth : forall t, t <> curr s -> T s' t = T s t) by (intros t Hne; rewrite (td_T _ _ _ _ _ _ Htd); by rewrite decide_False).
  assert (Hst : forall t, (T s' t).(state) = (T s t).(state)).
  { intros t. rewrite (td_T _ _ _ _ _ _ Htd). destruct (decide (t = curr s)) as [->|]; [apply Hk|done]. }
  assert (Hsk : forall t, (T s' t).(stack) = (T s t).(stack)).
  { intros t. rewrite (td_T _ _ _ _ _ _ Htd). destruct (decide (t = curr s)) as [->|]; [apply Hk|done]. }
  assert (Hal : forall t, alive s' t <-> alive s t) by (intros t; unfold alive; by rewrite Hst).
  assert (Hce : forall q, (Rs s' q).(ceiling_priority) = (Rs s q).(ceiling_priority)).
  { intros q. rewrite (td_Rs _ _ _ _ _ _ Htd). by destruct (decide (q = r)) as [->|]. }
  assert (Hho : forall t, t <> curr s -> held s' t = held s t) by (intros t Hne; unfold held; by rewrite Hoth).
  assert (Hao : forall t, t <> curr s -> act s' t = act s t) by (intros t Hne; unfold act; by rewrite Hoth).
  split; rewrite ?(td_curr _ _ _ _ _ _ Htd), ?(td_nest _ _ _ _ _ _ Htd), ?(td_timers _ _ _ _ _ _ Htd), ?(isr_lvl _ _ (td_lvl _ _ _ _ _ _ Htd)), ?Hst, ?Hsk; try done.
  - destruct Hq. split; rewrite ?(td_len _ _ _ _ _ _ Htd), ?(td_ready _ _ _ _ _ _ Htd); try done; intros t; rewrite Hst; auto.
  - destruct Ht. split; intros t; rewrite ?Hst; rewrite (td_T _ _ _ _ _ _ Htd); destruct (decide (t = curr s)) as [->|]; auto;
      destruct Hk; rewrite ?kr_act0, ?kr_react0, ?kr_set0, ?kr_wait0; rewrite ?kr_act, ?kr_react, ?kr_set, ?kr_wait; auto.
  - destruct Hr. assert (Esch : sch s' = sch s) by (unfold sch; by rewrite (td_res _ _ _ _ _ _ Htd)). split; try done.
    + intros q. rewrite (td_Rs _ _ _ _ _ _ Htd). destruct (decide (q = r)); [by rewrite Ety|done].
    + by rewrite (td_res _ _ _ _ _ _ Htd).
    + intros q t. rewrite Esch, Hce. auto.
    + intros q. by rewrite Hce.
    + by rewrite Esch, Hce.
    + intros t Hh. rewrite (td_ready _ _ _ _ _ _ Htd). destruct (decide (t = curr s)) as [->|Hne]; [done|]. rewrite Hho in Hh by done. auto.
  - destruct Hp. split; rewrite ?(td_curr _ _ _ _ _ _ Htd), ?(td_ready _ _ _ _ _ _ Htd).
    + intros t Hne. rewrite Hho, Hao by done. auto.
    + intros t u Hne Hh1 Hh2. destruct (decide (t = curr s)) as [->|Ht1], (decide (u = curr s)) as [->|Hu1]; [done|right|left|].
      * rewrite Hao by done. apply p_run; [done|]. by rewrite <- Hho.
      * rewrite Hao by done. apply p_run; [done|]. by rewrite <- Hho.
      * rewrite !Hao by done. rewrite Hho in Hh1, Hh2 by done. auto.
    + intros t u Htu. apply p_fifo. destruct Htu as [->|Hh]; [by left|].
      destruct (decide (t = curr s)) as [->|Hne]; [by left|]. rewrite Hho in Hh by done. by right.
  - intros Hpre t. rewrite (td_T _ _ _ _ _ _ Htd). destruct (decide (t = curr s)) as [->|]; [rewrite (kr_flags _ _ Hk)|]; by apply Hf.
  - destruct Hs. split; rewrite ?(td_curr _ _ _ _ _ _ Htd); intros t; rewrite ?Hal, ?Hst, ?Hsk; auto.
Qed.

Lemma Core_acquire sh x st p r r' s s' :
  Core sh x st s -> traded (curr s) p r r' s s' -> keeps_rest (T s (curr s)) p ->
  r'.(ceiling_priority) = (Rs s r).(ceiling_priority) -> r'.(type) = (Rs s r).(type) ->
  (Rs s r).(owner) = None -> act s (curr s) <= (Rs s r).(ceiling_priority) ->
  r'.(owner) = Some (curr s) -> r'.(old_task_prio) = act s (curr s) ->
  p.(resourceHead) = held s (curr s) ++ [r] -> p.(activePriority) = (Rs s r).(ceiling_priority) ->
  Core sh x st s'.
Proof.
  intros HC Htd Hk Ece Ety Hfree Hle Eo Ep Eh Ea. pose proof (i_res _ _ _ _ HC) as Hr.
  assert (Hnot : forall t, r ∉ held s t) by (intros t Hin; apply (r_owner s Hr) in Hin; congruence).
  eapply Core_traded; try done.
  - intros q t. unfold held. rewrite (td_T _ _ _ _ _ _ Htd), (td_Rs _ _ _ _ _ _ Htd).
    destruct (decide (q = r)) as [->|Hqr], (decide (t = curr s)) as [->|Htc].
    + rewrite Eo, Eh. set_solver.
    + rewrite Eo. split; [congruence|]. intros Hin. by apply Hnot in Hin.
    + rewrite Eh, (r_owner s Hr). set_solver.
    + apply (r_owner s Hr).
  - intros t. unfold held. rewrite (td_T _ _ _ _ _ _ Htd). destruct (decide (t = curr s)) as [->|]; [|apply (r_nodup s Hr)].
    rewrite Eh. apply list.NoDup_app. split_and!; [apply (r_nodup s Hr)| |apply NoDup_singleton]. intros q Hq ->%list_elem_of_singleton. by apply Hnot in Hq.
  - intros t. unfold held, act. rewrite (td_T _ _ _ _ _ _ Htd).
    assert (He : forall u a, chain (Rs s) (base u) (held s u) a -> chain (Rs s') (base u) (held s u) a).
    { intros u a. apply chain_ext. intros q Hq. rewrite (td_Rs _ _ _ _ _ _ Htd). destruct (decide (q = r)) as [->|]; [by apply Hnot in Hq|done]. }
    destruct (decide (t = curr s)) as [->|]; [|apply He, (r_chain s Hr)].
    rewrite Eh. apply chain_snoc. rewrite (td_Rs _ _ _ _ _ _ Htd), decide_True by done. rewrite Ep, Ece.
    split_and!; [apply He, (r_chain s Hr)|done|done].
Qed.
Lemma Core_release sh x st p r r' l s s' :
  Core sh x st s -> traded (curr s) p r r' s s' -> keeps_rest (T s (curr s)) p ->
  r'.(ceiling_priority) = (Rs s r).(ceiling_priority) -> r'.(type) = (Rs s r).(type) ->
  held s (curr s) = l ++ [r] -> r'.(owner) = None -> p.(resourceHead) = l -> p.(activePriority) = (Rs s r).(old_task_prio) ->
  Core sh x st s'.
Proof.
  intros HC Htd Hk Ece Ety El Eo Eh Ea. pose proof (i_res _ _ _ _ HC) as Hr.
  pose proof (r_nodup s Hr (curr s)) as Hnd. rewrite El in Hnd. apply list.NoDup_app in Hnd as (Hnd & Hrl & _).
  assert (Hown : (Rs s r).(owner) = Some (curr s)) by (apply (r_owner s Hr); rewrite El; set_solver).
  assert (Hrl' : r ∉ l) by (intros Hin; apply (Hrl r Hin); set_solver).
  assert (Hnot : forall t, t <> curr s -> r ∉ held s t) by (intros t Hne Hin; apply (r_owner s Hr) in Hin; congruence).
  eapply Core_traded; try done.
  - intros q t. unfold held. rewrite (td_T _ _ _ _ _ _ Htd), (td_Rs _ _ _ _ _ _ Htd).
    destruct (decide (q = r)) as [->|Hqr], (decide (t = curr s)) as [->|Htc].
    + rewrite Eo, Eh. naive_solver.
    + rewrite Eo. split; [done|]. intros Hin. by apply Hnot in Hin.
    + rewrite Eh, (r_owner s Hr), El. set_solver.
    + apply (r_owner s Hr).
  - intros t. unfold held. rewrite (td_T _ _ _ _ _ _ Htd). destruct (decide (t = curr s)) as [->|]; [by rewrite Eh|apply (r_nodup s Hr)].
  - intros t. unfold held, act. rewrite (td_T _ _ _ _ _ _ Htd).
    assert (He : forall u k a, r ∉ k -> chain (Rs s) (base u) k a -> chain (Rs s') (base u) k a).
    { intros u k a Hk'. apply chain_ext. intros q Hq. rewrite (td_Rs _ _ _ _ _ _ Htd). destruct (decide (q = r)) as [->|]; done. }
    destruct (decide (t = curr s)) as [->|]; [|apply He; [by apply Hnot|apply (r_chain s Hr)]].
    rewrite Eh, Ea. apply He; [done|]. pose proof (r_chain s Hr (curr s)) as Hc. rewrite El in Hc. by apply chain_snoc in Hc as [? _].
Qed.

(** ** Another task gets the processor

    [Mid]: the current task has left the running state, and may have left the ready queue; the next one is not chosen yet. *)
Record Mid (sh : Shape) x s : Prop := {
  m_queue : queue_inv s;
  m_task : task_inv s;
  m_res : res_inv s;
  m_prio : prio_inv s;
  m_flags : flags_inv None s;
  m_stack : stack_inv x s;
  m_nest : nest s = 0;
  m_timers : timers_ok sh s.(timers)
}.
(** The first one of those with the highest priority. *)
Record is_top (s : S) (n : nat) : Prop := {
  top_in : n ∈ ready s;
  top_max u : u ∈ ready s -> act s u <= act s n;
  top_first u : before (ready s) u n -> act s u < act s n
}.

Section Switch.
Context (sh : Shape) (x x' : nat -> Prop) (n : nat) (p p0 : OsTaskVarType) (s s' : S).
Hypothesis Hmid : Mid sh x s.
Hypothesis Htop : is_top s n.
Hypothesis HT : forall u, T s' u = if decide (u = n) then p else if decide (u = curr s) then p0 else T s u.
Hypothesis Hlen : length s'.(Os_TaskVarList) = length s.(Os_TaskVarList).
Hypothesis Hready : ready s' = ready s.
Hypothesis Hcurr : curr s' = n.
Hypothesis Hnest : nest s' = nest s.
Hypothesis Hres : s'.(resource_list) = s.(resource_list).
Hypothesis Htm : s'.(timers) = s.(timers).
(** The new task. *)
Hypothesis Ep : keeps_rest (set_flags p.(flags) (set_stack USED (set_state ST_RUNNING (T s n)))) p.
Hypothesis Epf : OS_PRE_TASK_HOOK = true -> p.(flags) = SYS_FLAG_HOOK_STATE_EXPECTING_POST.
Hypothesis Epa : p.(activePriority) = act s n.
Hypothesis Eph : p.(resourceHead) = held s n.
(** The old one, if it is another: only its context may change. *)
Hypothesis Ep0 : p0 = set_stack p0.(stack) (T s (curr s)).
Hypothesis Hold : n <> curr s -> alive s (curr s) -> p0.(stack) = SAVED /\ x' (curr s).
Hypothesis Hx : forall u, u <> curr s -> x u -> x' u.

Lemma switch_act u : act s' u = act s u.
Proof using HT Epa Ep0.
  unfold act. rewrite HT. destruct (decide (u = n)) as [->|]; [done|]. destruct (decide (u = curr s)) as [->|]; [by rewrite Ep0|done].
Qed.
Lemma switch_held u : held s' u = held s u.
Proof using HT Eph Ep0.
  unfold held. rewrite HT. destruct (decide (u = n)) as [->|]; [done|]. destruct (decide (u = curr s)) as [->|]; [by rewrite Ep0|done].
Qed.
Lemma switch_ready u : ready_or_running (T s' u).(state) = ready_or_running (T s u).(state).
Proof using HT Ep Ep0 Htop Hmid.
  rewrite HT. destruct (decide (u = n)) as [->|].
  - rewrite (kr_state _ _ Ep). cbn. symmetry. apply (q_ready s (m_queue _ _ _ Hmid)), Htop.
  - destruct (decide (u = curr s)) as [->|]; [by rewrite Ep0|done].
Qed.
Lemma switch_waiting u : (T s' u).(state) = ST_WAIT_EVENT -> u <> n /\ (T s u).(state) = ST_WAIT_EVENT.
Proof using HT Ep Ep0.
  rewrite HT. destruct (decide (u = n)) as [->|]; [by rewrite (kr_state _ _ Ep)|].
  destruct (decide (u = curr s)) as [->|]; [by rewrite Ep0|done].
Qed.
Lemma switch_alive u : alive s' u -> alive s u.
Proof using HT Ep Ep0 Htop Hmid.
  intros [H|H]; [left; by rewrite <- switch_ready|right; by apply switch_waiting].
Qed.

(** Whoever was preempted with resources is below the new task. *)
Lemma switch_below t : t <> n -> held s t <> [] -> act s t < base n.
Proof using Hmid Htop.
  clear - Hmid Htop. destruct Hmid as [Hq Ht Hr Hp _ _ _ _]. intros Htn Hh.
  pose proof (r_alive s Hr t Hh) as Htr. pose proof (top_max s n Htop t Htr) as Hmax.
  destruct (decide (held s n = [])) as [En|En].
  - rewrite (held_act_base s n Hr En) in Hmax.
    destruct (before_total (ready s) t n Htr (top_in s n Htop) Htn) as [Hb|Hb].
    + pose proof (top_first s n Htop t Hb) as H. by rewrite (held_act_base s n Hr En) in H.
    + pose proof (p_fifo s Hp t n (or_intror Hh) Hb). pose proof (base_act s t Hr). lia.
  - destruct (p_pair s Hp t n Htn Hh En) as [H|H]; [done|]. pose proof (base_act s t Hr). lia.
Qed.

Lemma Inv_switch : Inv sh x' ST_RUNNING s'.
Proof using All.
  pose proof Hmid as [Hq Ht Hr Hp Hf Hs Hn Htmo].
  assert (En : T s' n = p) by (rewrite HT; by rewrite decide_True).
  split; [split|]; rewrite ?Hcurr; try done.
  - destruct Hq. split; rewrite ?Hlen, ?Hready; try done; intros t; rewrite ?switch_ready; auto.
    intros Hlt. rewrite HT. destruct (decide (t = n)) as [->|]; [by rewrite (kr_state _ _ Ep)|].
    destruct (decide (t = curr s)) as [->|]; [rewrite Ep0; cbn|]; auto.
  - assert (Hact : forall t, t <> n -> (T s' t).(activations) = (T s t).(activations) /\ (T s' t).(state) = (T s t).(state) /\
      (T s' t).(reactivation) = (T s t).(reactivation) /\ (T s' t).(ev_set) = (T s t).(ev_set) /\ (T s' t).(ev_wait) = (T s t).(ev_wait)).
    { intros t Hne'. rewrite HT. rewrite decide_False by done. destruct (decide (t = curr s)) as [->|]; [rewrite Ep0|]; done. }
    assert (Hns : (T s n).(state) <> ST_SUSPENDED).
    { intros E. pose proof (top_in s n Htop) as H. apply (q_ready s Hq) in H. by rewrite E in H. }
    destruct Ht. split; intros t; (destruct (decide (t = n)) as [->|Htn];
      [rewrite En, ?(kr_state _ _ Ep), ?(kr_act _ _ Ep), ?(kr_react _ _ Ep); cbn|destruct (Hact t Htn) as (E1 & E2 & E3 & E4 & E5); rewrite ?E1, ?E2, ?E3, ?E4, ?E5]); auto; done.
  - assert (HRs : forall r, Rs s' r = Rs s r) by (intros r; unfold Rs; by rewrite Hres).
    assert (Esch : sch s' = sch s) by (unfold sch; by rewrite Hres).
    destruct Hr. split; rewrite ?Esch, ?Hres; try (intros; rewrite ?HRs, ?switch_held; auto; done).
    + intros t. rewrite switch_held, switch_act. eapply chain_ext; [|done]. intros q _. by rewrite HRs.
    + intros t. rewrite switch_held, Hready. auto.
  - split; rewrite ?Hcurr.
    + intros t Htn Hh. rewrite switch_held in Hh. rewrite switch_act. by apply switch_below.
    + intros t u. rewrite !switch_held, !switch_act. apply (p_pair s Hp).
    + intros t u. rewrite switch_held, Hready. intros [->|Hh] Hb; [|apply (p_fifo s Hp); [by right|done]].
      destruct (decide (held s n = [])) as [E|E]; [|apply (p_fifo s Hp); [by right|done]].
      pose proof (top_first s n Htop u Hb) as H. rewrite (held_act_base s n Hr E) in H. pose proof (base_act s u Hr). lia.
  - intros Hpre t. specialize (Hf Hpre). change (runs ST_RUNNING n) with (Some n). rewrite HT.
    destruct (decide (t = n)) as [->|]; [by rewrite (Epf Hpre), bool_decide_eq_true_2|].
    rewrite bool_decide_eq_false_2 by congruence. destruct (decide (t = curr s)) as [->|]; [rewrite Ep0; cbn|]; rewrite Hf; done.
  - destruct Hs. split; rewrite ?Hcurr.
    + intros t Htn Ha%switch_alive. rewrite HT, decide_False by done. destruct (decide (t = curr s)) as [->|]; [|auto].
      destruct Hold as [-> _]; done.
    + intros t Htn [_ Hw]%switch_waiting. rewrite HT, decide_False by done. destruct (decide (t = curr s)) as [->|]; [|auto].
      destruct Hold as [-> _]; [done|by right|done].
    + intros t Ha%switch_alive. rewrite HT. destruct (decide (t = n)) as [->|]; [by rewrite (kr_stack _ _ Ep)|].
      destruct (decide (t = curr s)) as [->|]; [intros _; by destruct Hold|]. intros Hsv. apply Hx; auto.
  - by rewrite En, (kr_state _ _ Ep).
  - by left.
  - by rewrite En, (kr_stack _ _ Ep).
  - rewrite Hnest. lia.
  - rewrite Hnest, Hn. done.
  - by rewrite Htm.
  - intros _ _ u. rewrite Hcurr, Hready, !switch_act. apply (top_max s n Htop).
Qed.
End Switch.
End Update.
