(* ===== verification/Os_Dispatch.v ===== *)
(** * The dispatcher

    The basic operations with their results, [Os_TaskGetTop], and [Os_Dispatch] as a switch between tasks: what a task guarantees when it
    gives the processor away, and what it relies on when it gets it back. *)

From stdpp Require Import sets.
From S2P Require Import Prelude.
From S2P Require Import StateMonad.
From S2P Require Import Coroutine.
From S2P Require Import Os_Irq.
From S2P Require Import Os_Types.
From S2P Require Import Os.
From S2P Require Import Os_Timers.
From S2P Require Import Os_System.
From S2P Require Import Os_Inv.
From S2P Require Import Os_Update.

Section Dispatch.
Context {W : Type} {Cfg : Os_Cfg} {Env : Os_Env W}.
Abbreviation S := (Os_State W).
Implicit Types (s : S) (x : nat -> Prop).

#[local] Arguments Os_TaskGet : simpl never.
#[local] Arguments Os_ResourceGet : simpl never.
#[local] Arguments task_set : simpl never.
#[local] Arguments res_set : simpl never.
#[local] Arguments constPtr : simpl never.

(** ** Results of the basic operations *)
Lemma run_TaskGet d s : (d < length s.(Os_TaskVarList))%nat -> Os_TaskGet d s = Some (T s d, s).
Proof. intros Hd. unfold Os_TaskGet, bind, get, deref, T. cbn. destruct (lookup_lt_is_Some_2 _ _ Hd) as [p ->]. done. Qed.
Lemma run_task_set d f s : (d < length s.(Os_TaskVarList))%nat -> task_set d f s = Some (tt, upd d f s).
Proof. intros Hd. unfold task_set, bind. by rewrite run_TaskGet. Qed.
Lemma run_constPtr t s : (t < OS_TASK_CNT)%nat -> constPtr t s = Some (C t, s).
Proof. intros Ht. unfold constPtr, deref, C. destruct (lookup_lt_is_Some_2 _ _ Ht) as [c ->]. done. Qed.
Lemma run_ResourceGet r s : (r < length s.(resource_list))%nat -> Os_ResourceGet r s = Some (Rs s r, s).
Proof. intros Hr. unfold Os_ResourceGet, bind, get, deref, Rs. cbn. destruct (lookup_lt_is_Some_2 _ _ Hr) as [p ->]. done. Qed.
Lemma run_res_set r f s : (r < length s.(resource_list))%nat -> res_set r f s = Some (tt, upr r f s).
Proof. intros Hd. unfold res_set, bind. by rewrite run_ResourceGet. Qed.
Lemma run_ASSERT b s : b = true -> ASSERT b s = Some (tt, s).
Proof. by intros ->. Qed.
Lemma len_upd d f s : length (upd d f s).(Os_TaskVarList) = length s.(Os_TaskVarList).
Proof. apply length_alter. Qed.
Lemma len_upr r f s : length (upr r f s).(resource_list) = length s.(resource_list).
Proof. apply length_alter. Qed.
Lemma valid_const t : valid_cfg -> (t < OS_TASK_CNT)%nat -> valid_task (C t).
Proof.
  intros Hv Ht. unfold C. destruct (lookup_lt_is_Some_2 _ _ Ht) as [c E]. rewrite E. by apply (proj1 (Forall_lookup _ _) (v_tasks Hv) t).
Qed.
Lemma sch_free s : res_inv s -> Os_SchedulerResourceIsFree s = Some (bool_decide ((Rs s (sch s)).(owner) = None), s).
Proof.
  intros Hr. unfold Os_SchedulerResourceIsFree, RES_SCHEDULER, bind, get. cbn. rewrite run_ResourceGet; [done|].
  pose proof (r_some s Hr). unfold sch. lia.
Qed.

(** ** Os_TaskGetTop *)
Lemma find_top_spec s l pre found :
  (forall u, u ∈ l -> (u < length s.(Os_TaskVarList))%nat /\ ready_or_running (T s u).(state) = true) ->
  match found with
  | Some (n, a) => a = act s n /\ n ∈ pre /\ (forall u, u ∈ pre -> act s u <= a) /\ (forall u, before pre u n -> act s u < a)
  | None => pre = []
  end ->
  NoDup (pre ++ l) -> pre ++ l <> [] ->
  exists n, find_top l found s = Some (Some (n, act s n), s) /\
    n ∈ pre ++ l /\ (forall u, u ∈ pre ++ l -> act s u <= act s n) /\ (forall u, before (pre ++ l) u n -> act s u < act s n).
Proof.
  revert pre found. induction l as [|i l IH]; intros pre found Hl Hf Hnd Hne.
  - rewrite app_nil_r in *. destruct found as [[n a]|]; [|by subst]. destruct Hf as (-> & ?). by exists n.
  - destruct (Hl i) as [Hi Hs]; [by left|]. cbn [find_top]. unfold bind. rewrite run_TaskGet by done. cbn -[find_top ASSERT].
    rewrite (run_ASSERT _ _ Hs). cbn -[find_top].
    assert (Hni : i ∉ pre) by (apply list.NoDup_app in Hnd as (_ & H & _); intros Hin; apply (H i Hin); by left).
    assert (E : pre ++ i :: l = (pre ++ [i]) ++ l) by by rewrite <- app_assoc.
    rewrite E in *. assert (Hnd' : NoDup (pre ++ [i])) by (by apply list.NoDup_app in Hnd as [? _]).
    assert (Hl' : forall u, u ∈ l -> (u < length s.(Os_TaskVarList))%nat /\ ready_or_running (T s u).(state) = true)
      by (intros u Hu; apply Hl; by right).
    destruct found as [[n a]|]; [|subst pre].
    + destruct Hf as (-> & Hn & Hmax & Hfirst). apply IH; try done.
      fold (act s i). destruct (Z.ltb_spec (act s n) (act s i)) as [Hlt|Hge].
      * split_and!; [done|set_solver| |].
        -- intros u [Hu| ->%list_elem_of_singleton]%elem_of_app; [pose proof (Hmax u Hu); lia|lia].
        -- intros u Hb. pose proof (before_ne _ _ _ Hnd' Hb) as Hui. apply before_in in Hb as [[Hu|Hu]%elem_of_app _]; [|set_solver].
           pose proof (Hmax u Hu). lia.
      * split_and!; [done|set_solver| |].
        -- intros u [Hu| ->%list_elem_of_singleton]%elem_of_app; [by apply Hmax|lia].
        -- intros u [Hb| ->]%before_snoc; [by apply Hfirst|done].
    + apply IH; try done. cbn. split_and!; [done|by left| |].
      * intros u ->%list_elem_of_singleton. done.
      * intros u Hb. pose proof (before_ne _ _ _ Hnd' Hb). apply before_in in Hb as [Hb _]. set_solver.
Qed.
Lemma run_top s : queue_inv s -> exists n, Os_TaskGetTop s = Some (n, s) /\ is_top s n.
Proof.
  intros Hq. destruct (find_top_spec s (ready s) [] None) as (n & E & Hn & Hmax & Hfirst); cbn in *; try done.
  - intros u Hu. split; [|by apply (q_ready s Hq)]. rewrite (q_len s Hq). by eapply ready_range.
  - apply Hq.
  - intros E. pose proof (q_idle s Hq) as H. rewrite E in H. set_solver.
  - exists n. split; [|by split]. unfold Os_TaskGetTop, OS_SYS, bind, get. cbn. fold (ready s). by rewrite E.
Qed.

(** ** Hooks *)
Definition post_task (p : OsTaskVarType) : OsTaskVarType :=
  if OS_POST_TASK_HOOK then set_flags SYS_FLAG_HOOK_STATE_EXPECTING_PRE p else p.
Definition pre_task (p : OsTaskVarType) : OsTaskVarType :=
  if OS_PRE_TASK_HOOK then set_flags SYS_FLAG_HOOK_STATE_EXPECTING_POST p else p.
Definition posted (t : nat) (s : S) : S :=
  if OS_POST_TASK_HOOK then let s := upd t (set_flags SYS_FLAG_HOOK_STATE_EXPECTING_PRE) s in set_world (PostTaskHook t s.(world)) s else s.
Definition preset (t : nat) (s : S) : S :=
  if OS_PRE_TASK_HOOK then let s := upd t (set_flags SYS_FLAG_HOOK_STATE_EXPECTING_POST) s in set_world (PreTaskHook t s.(world)) s else s.

Lemma changed_upd d f s : (d < length s.(Os_TaskVarList))%nat -> changed d (f (T s d)) (ready s) s (upd d f s).
Proof. intros Hd. split; try done; [|apply len_upd]. intros t. rewrite T_upd by done. by destruct (decide (t = d)) as [->|]. Qed.
Lemma changed_trans d p p' q q' s s1 s2 : changed d p q s s1 -> changed d p' q' s1 s2 -> changed d p' q' s s2.
Proof.
  intros [HT1 Hl1 _ Hc1 Hn1 Hv1 Hr1 Ht1] [HT2 Hl2 Hq2 Hc2 Hn2 Hv2 Hr2 Ht2]. split; try congruence. intros t. rewrite HT2, HT1. by destruct (decide (t = d)).
Qed.
(** Changes outside of what the invariant speaks of. *)
Record same_kernel (s s' : S) : Prop := {
  sk_tasks : s'.(Os_TaskVarList) = s.(Os_TaskVarList);
  sk_res : s'.(resource_list) = s.(resource_list);
  sk_timers : s'.(timers) = s.(timers);
  sk_curr : curr s' = curr s;
  sk_ready : ready s' = ready s;
  sk_nest : nest s' = nest s;
  sk_lvl : lvl s' = lvl s
}.
Lemma changed_same d p q s s1 s2 : changed d p q s s1 -> same_kernel s1 s2 -> changed d p q s s2.
Proof.
  intros [HT1 Hl1 Hq1 Hc1 Hn1 Hv1 Hr1 Ht1] [E1 E2 E3 E4 E5 E6 E7]. split; try congruence. intros t. unfold T. rewrite E1. apply HT1.
Qed.
Lemma changed_posted t s : (t < length s.(Os_TaskVarList))%nat -> changed t (post_task (T s t)) (ready s) s (posted t s).
Proof.
  intros Ht. unfold posted, post_task. destruct OS_POST_TASK_HOOK.
  - eapply changed_same; [by apply changed_upd|]. done.
  - split; try done. intros u. by destruct (decide (u = t)) as [->|].
Qed.
Lemma run_posted t s :
  valid_cfg -> curr s = t -> (t < length s.(Os_TaskVarList))%nat -> (T s t).(state) = ST_RUNNING ->
  (OS_PRE_TASK_HOOK = true -> (T s t).(flags) = SYS_FLAG_HOOK_STATE_EXPECTING_POST) ->
  Os_CallPostTaskHook s = Some (tt, posted t s).
Proof.
  intros Hv Hc Ht Hst Hfl. unfold Os_CallPostTaskHook, posted. rewrite <- (v_hooks Hv) in Hfl. destruct OS_POST_TASK_HOOK; [|done].
  unfold Os_SysTaskGetCurr, OS_SYS, bind, get. cbn. fold (curr s). rewrite Hc, run_TaskGet by done. cbn.
  rewrite Hst, Hfl by done. rewrite run_ASSERT by done. cbn. by rewrite run_task_set.
Qed.
Lemma changed_preset t s : (t < length s.(Os_TaskVarList))%nat -> changed t (pre_task (T s t)) (ready s) s (preset t s).
Proof.
  intros Ht. unfold preset, pre_task. destruct OS_PRE_TASK_HOOK.
  - eapply changed_same; [by apply changed_upd|]. done.
  - split; try done. intros u. by destruct (decide (u = t)) as [->|].
Qed.
Lemma run_preset t s :
  curr s = t -> (t < length s.(Os_TaskVarList))%nat -> (T s t).(state) = ST_RUNNING ->
  (OS_PRE_TASK_HOOK = true -> (T s t).(flags) = SYS_FLAG_HOOK_STATE_EXPECTING_PRE) ->
  Os_CallPreTaskHook s = Some (tt, preset t s).
Proof.
  intros Hc Ht Hst Hfl. unfold Os_CallPreTaskHook, preset. destruct OS_PRE_TASK_HOOK; [|done].
  unfold Os_SysTaskGetCurr, OS_SYS, bind, get. cbn. fold (curr s). rewrite Hc, run_TaskGet by done. cbn.
  rewrite Hst, Hfl by done. rewrite run_ASSERT by done. cbn. by rewrite run_task_set.
Qed.

(** ** The new task *)
Definition entered (n : nat) (s : S) : S :=
  preset n (upd n (set_state ST_RUNNING) (set_sys (set_currTaskPtr n s.(sys)) s)).
Record entering (n : nat) (s s' : S) : Prop := {
  en_T u : T s' u = if decide (u = n) then pre_task (set_state ST_RUNNING (T s n)) else T s u;
  en_len : length s'.(Os_TaskVarList) = length s.(Os_TaskVarList);
  en_ready : ready s' = ready s;
  en_curr : curr s' = n;
  en_nest : nest s' = nest s;
  en_lvl : lvl s' = lvl s;
  en_res : s'.(resource_list) = s.(resource_list);
  en_timers : s'.(timers) = s.(timers)
}.
Lemma entering_entered n s : (n < length s.(Os_TaskVarList))%nat -> entering n s (entered n s).
Proof.
  intros Hn. unfold entered. set (s0 := set_sys _ s).
  assert (H : changed n (pre_task (set_state ST_RUNNING (T s n))) (ready s) s0 (preset n (upd n (set_state ST_RUNNING) s0))).
  { eapply changed_trans; [by apply changed_upd|]. pose proof (changed_preset n (upd n (set_state ST_RUNNING) s0)) as H.
    rewrite T_upd, decide_True in H by done. apply H. by rewrite len_upd. }
  destruct H. by split.
Qed.
(** What [Os_TaskSwapContext], [Os_TaskSwapContextTo] and [Os_TaskStartFromBeginning] do before the switch. *)
Lemma kwp_enter {X A} G L R (x : X) n s (k : K S A) Q :
  valid_cfg -> length s.(Os_TaskVarList) = OS_TASK_CNT -> (n < OS_TASK_CNT)%nat ->
  (OS_PRE_TASK_HOOK = true -> (T s n).(flags) = SYS_FLAG_HOOK_STATE_EXPECTING_PRE) ->
  kwp G L R x k Q (entered n s) ->
  kwp G L R x (kbind (atomic (Os_SysTaskSetCurr n)) (fun _ => kbind (atomic Os_ResourceGetInternal) (fun _ =>
    kbind (atomic (Os_TaskMakeRunning n)) (fun _ => kbind (atomic Os_CallPreTaskHook) (fun _ => k))))) Q s.
Proof.
  intros Hv Hlen Hn Hfl Hk. eapply kwp_run; [done|]. eapply kwp_run.
  { unfold Os_ResourceGetInternal, Os_SysTaskGetCurr, OS_SYS, bind, get. cbn. rewrite run_constPtr by done. cbn.
    by rewrite (vt_internal _ (valid_const n Hv Hn)). }
  eapply kwp_run; [apply run_task_set; cbn; lia|]. eapply kwp_run; [|exact Hk].
  apply run_preset; [done|rewrite len_upd; cbn; lia| |]; rewrite T_upd, decide_True by (done || cbn; lia); done.
Qed.
Lemma kwp_restart {X A} G L R (x : X) n s (k : K S A) Q :
  length s.(Os_TaskVarList) = OS_TASK_CNT -> (n < OS_TASK_CNT)%nat ->
  (OS_PRE_TASK_HOOK = true -> (T s n).(flags) = SYS_FLAG_HOOK_STATE_EXPECTING_PRE) ->
  kwp G L R x k Q (entered n s) ->
  kwp G L R x (kbind (atomic (Os_TaskMakeRunning n)) (fun _ => kbind (atomic (Os_SysTaskSetCurr n)) (fun _ =>
    kbind (atomic Os_CallPreTaskHook) (fun _ => k)))) Q s.
Proof.
  intros Hlen Hn Hfl Hk. eapply kwp_run; [apply run_task_set; lia|]. eapply kwp_run; [done|]. eapply kwp_run; [|exact Hk].
  assert (E : T (upd n (set_state ST_RUNNING) s) n = set_state ST_RUNNING (T s n)) by (by rewrite T_upd, decide_True by (done || lia)).
  apply run_preset; [done|cbn; rewrite length_alter; lia| |].
  - change ((T (upd n (set_state ST_RUNNING) s) n).(state) = ST_RUNNING). by rewrite E.
  - intros Hp. change ((T (upd n (set_state ST_RUNNING) s) n).(flags) = SYS_FLAG_HOOK_STATE_EXPECTING_PRE). rewrite E. by apply Hfl.
Qed.

(** ** Giving the processor away *)
Section Switching.
Context (sh : Shape) (t : nat) (nst : Z).
Hypothesis Hv : valid_cfg.

(** The data after the switch: the old context is on its stack, the new one is in use. *)
Definition saved (w : Switch) (s : S) : S := match w with Swap old => upd old (set_stack SAVED) s | _ => s end.
Definition loaded (w : Switch) (s : S) : S := upd (curr s) (set_stack USED) (saved w s).
(** Whose saved context can be used then. *)
Definition after (w : Switch) (x : nat -> Prop) (s : S) (u : nat) : Prop :=
  match w with Swap old => if decide (u = old) then alive s old else x u | _ => x u end.
(** The task [t] gets the processor back.  [nst]: the nesting of interrupts in which the service was called: only one called by a task
    gives the processor away. *)
Definition R (x : nat -> Prop) (s : S) : Prop := Inv sh x ST_RUNNING s /\ curr s = t /\ nest s = 0 /\ dis s = false.
Definition L (w : Switch) (s : S) : Prop := match w with Swap old => alive s old | _ => False end.
Record G (x : nat -> Prop) (w : Switch) (s : S) : Prop := {
  g_old old : w = Swap old -> old = t /\ curr s <> t;
  g_stack : w = Start \/ (T s (curr s)).(stack) = ENTRY \/ (T s (curr s)).(stack) = SAVED /\ x (curr s);
  g_nest : nest s = 0;
  g_level : nst = 0;
  g_dis : dis s = false;
  g_inv : Inv sh (after w x s) ST_RUNNING (loaded w s)
}.

(** Leaving the running state: still ready, waiting, or suspended. *)
Lemma Mid_leave x p q s s' :
  Core sh x ST_RUNNING s -> curr s = t -> nest s = 0 -> changed t p q s s' ->
  p.(activePriority) = act s t -> p.(resourceHead) = held s t -> p.(reactivation) = REACTIVATE_NORMAL -> p.(stack) = USED ->
  (OS_PRE_TASK_HOOK = true -> p.(flags) = SYS_FLAG_HOOK_STATE_EXPECTING_PRE) ->
  q = ready s /\ ready_or_running p.(state) = true /\ 1 <= p.(activations) <= (C t).(activationLimit) \/
  q = filter (fun y => y <> t) (ready s) /\ t <> 0%nat /\ held s t = [] /\
    (p.(state) = ST_WAIT_EVENT /\ 1 <= p.(activations) <= (C t).(activationLimit) /\ Z.land p.(ev_set) p.(ev_wait) = 0 /\ (C t).(proc_type) = PROC_EXTENDED \/
     p.(state) = ST_SUSPENDED /\ p.(activations) = 0) ->
  Mid sh x s'.
Proof using Type.
  intros HC Hc Hn Hch Ea Eh Er Es Ef Hcase.
  pose proof (curr_ready _ _ _ _ HC) as Hcr. rewrite Hc in Hcr. destruct HC as [Hq Ht Hr Hp Hf Hs Hcu _ _ _ _ _ Htm].
  rewrite Hc in *. pose proof (changed_other _ _ _ _ _ Hch) as Hoth. pose proof (changed_self _ _ _ _ _ Hch) as Hself.
  assert (Hk : keeps (set_flags p.(flags) (T s t)) p) by (split; cbn; try done; by rewrite Er, (t_reactivation s Ht)).
  assert (Hheld : forall u, held s' u = held s u).
  { intros u. unfold held. destruct (decide (u = t)) as [->|]; [by rewrite Hself|by rewrite Hoth]. }
  assert (Hact : forall u, act s' u = act s u).
  { intros u. unfold act. destruct (decide (u = t)) as [->|]; [by rewrite Hself|by rewrite Hoth]. }
  assert (HRs : forall r, Rs s' r = Rs s r) by (intros r; by eapply changed_Rs).
  assert (Hqs : forall u v, before q u v -> before (ready s) u v).
  { destruct Hcase as [(-> & _)|(-> & _)]; [done|]. intros u v. apply before_filter. }
  split; rewrite ?(ch_nest _ _ _ _ _ Hch), ?(ch_timers _ _ _ _ _ Hch); try done.
  - destruct Hq. split; rewrite ?(ch_len _ _ _ _ _ Hch), ?(ch_ready _ _ _ _ _ Hch); try done.
    + destruct Hcase as [(-> & _)|(-> & _)]; [done|]. by apply list.NoDup_filter.
    + intros u. destruct (decide (u = t)) as [->|Hu].
      * rewrite Hself. destruct Hcase as [(-> & H & _)|(-> & _ & _ & [[H _]|[H _]])]; [by rewrite H| |];
          rewrite H, list_elem_of_filter; naive_solver.
      * rewrite Hoth by done. rewrite <- q_ready. destruct Hcase as [(-> & _)|(-> & _)]; [done|]. rewrite list_elem_of_filter. naive_solver.
    + intros u Hlt. destruct (decide (u = t)) as [->|Hu]; [|rewrite Hoth by done; auto]. rewrite Hself.
      destruct Hcase as [(_ & H & _)|(_ & _ & _ & [[H _]|[H _]])]; by destruct p.(state).
    + destruct Hcase as [(-> & _)|(-> & H & _)]; [done|]. apply list_elem_of_filter. done.
  - destruct Ht. split; intros u; (destruct (decide (u = t)) as [->|Hu]; [rewrite Hself|rewrite Hoth by done; auto; done]).
    + destruct Hcase as [(_ & H & _)|(_ & _ & _ & [[H _]|[H ?]])]; [by destruct p.(state)|by rewrite H|done].
    + destruct Hcase as [(_ & H & ?)|(_ & _ & _ & [(H & ? & _)|[H ?]])]; done.
    + done.
    + destruct Hcase as [(_ & H & ?)|(_ & _ & _ & [(H & ? & ? & ?)|[H ?]])]; [by destruct p.(state)|done|by rewrite H].
  - destruct Hr. assert (Esch : sch s' = sch s) by (unfold sch; by rewrite (ch_res _ _ _ _ _ Hch)).
    split; rewrite ?Esch, ?(ch_res _ _ _ _ _ Hch); try (intros; rewrite ?HRs, ?Hheld; auto; done).
    + intros u. rewrite Hheld, Hact. eapply chain_ext; [|done]. intros r _. by rewrite HRs.
    + intros u. rewrite Hheld, (ch_ready _ _ _ _ _ Hch). intros Hh. destruct Hcase as [(-> & _)|(-> & _ & H & _)]; [auto|].
      apply list_elem_of_filter. split; [congruence|auto].
  - destruct Hp as [H1 H2 H3]. rewrite Hc in *.
    split; rewrite ?(ch_curr _ _ _ _ _ Hch), ?Hc, ?(ch_ready _ _ _ _ _ Hch); intros *; rewrite ?Hheld, ?Hact; eauto.
  - intros Hpre u. specialize (Hf Hpre u). change (runs ST_RUNNING t) with (Some t) in Hf.
    destruct (decide (u = t)) as [->|Hu]; [by rewrite Hself, (Ef Hpre)|]. rewrite Hoth by done. rewrite Hf.
    by rewrite !bool_decide_eq_false_2 by congruence.
  - destruct Hs. rewrite Hc in *. split; rewrite ?(ch_curr _ _ _ _ _ Hch), ?Hc; intros u.
    + intros Hu. unfold alive. rewrite Hoth by done. by apply s_other.
    + intros Hu. rewrite Hoth by done. by apply s_wait.
    + destruct (decide (u = t)) as [->|Hu]; [rewrite Hself; congruence|]. unfold alive. rewrite Hoth by done. apply s_saved.
Qed.

(** The task [n] is entered: with its own context or at its beginning. *)
Lemma G_enter x n w s :
  nst = 0 -> Mid sh x s -> curr s = t -> dis s = false -> (t < OS_TASK_CNT)%nat -> is_top s n ->
  match w with Swap old => old = t /\ n <> t | SwapTo => n <> t /\ (alive s t -> (T s t).(stack) = SAVED /\ x t) | Start => n = t end ->
  G x w (entered n s).
Proof using Type.
  intros Hl0 HM Hc Hdi Hlt Htop Hw. pose proof (m_queue _ _ _ HM) as Hq. pose proof (ready_range _ _ Hq (top_in _ _ Htop)) as Hn.
  assert (Hlen : (n < length s.(Os_TaskVarList))%nat) by (rewrite (q_len s Hq); done).
  pose proof (entering_entered n s Hlen) as [HT Hl Hr Hcu Hne Hle Hre Htm].
  assert (Hlt' : (t < length (entered n s).(Os_TaskVarList))%nat) by (rewrite Hl, (q_len s Hq); done).
  assert (Hsn : (T (entered n s) n).(stack) = (T s n).(stack)).
  { rewrite HT, decide_True by done. unfold pre_task. by destruct OS_PRE_TASK_HOOK. }
  split.
  - intros old ->. destruct Hw as [-> Hw]. by rewrite Hcu.
  - rewrite Hcu, Hsn. destruct (decide (n = t)) as [->|Hnt]; [left; destruct w; naive_solver|right].
    pose proof (ready_alive _ _ Hq (top_in _ _ Htop)) as Ha. destruct (m_stack _ _ _ HM) as [H1 _ H3]. rewrite Hc in *.
    specialize (H1 n Hnt Ha). destruct (T s n).(stack) eqn:E; [by left|right; split; [done|auto]|done].
  - rewrite Hne. apply HM.
  - done.
  - by rewrite (dis_lvl _ _ Hle).
  - eapply (Inv_switch sh x _ n (set_stack USED (pre_task (set_state ST_RUNNING (T s n))))
      (match w with Swap _ => set_stack SAVED (T s t) | _ => T s t end) s); try done.
    + intros u. unfold loaded. rewrite Hcu, Hc.
      assert (HTs : T (saved w (entered n s)) u = if decide (u = t) then (match w with Swap _ => set_stack SAVED | _ => id end) (T (entered n s) u) else T (entered n s) u).
      { destruct w; cbn; [|by destruct (decide (u = t))..]. destruct Hw as [-> _]. rewrite T_upd by lia. by destruct (decide (u = t)). }
      rewrite T_upd by (destruct w; cbn; rewrite ?length_alter; lia). rewrite HTs, HT.
      destruct (decide (u = n)) as [->|Hun].
      * destruct (decide (n = t)) as [->|]; [|done]. by destruct w, Hw.
      * destruct (decide (u = t)) as [->|]; by destruct w.
    + destruct w; cbn; rewrite ?length_alter; done.
    + by destruct w.
    + by destruct w.
    + by destruct w.
    + by destruct w.
    + by destruct w.
    + unfold pre_task. by destruct OS_PRE_TASK_HOOK.
    + unfold pre_task. by intros ->.
    + unfold pre_task. by destruct OS_PRE_TASK_HOOK.
    + unfold pre_task. by destruct OS_PRE_TASK_HOOK.
    + rewrite Hc. destruct w; try done; by destruct (T s t).
    + rewrite Hc. intros Hnt Ha. destruct w; [|naive_solver..]. destruct Hw as [-> _]. split; [done|]. cbn. rewrite decide_True by done.
      unfold alive. rewrite HT. by rewrite decide_False.
    + rewrite Hc. intros u Hu Hxu. destruct w; cbn; [|done..]. destruct Hw as [-> _]. by rewrite decide_False.
Qed.

(** [Os_Dispatch], whose first part leaves the running state with [s2]. *)
Lemma dispatch_ok x op s s2 (Q : (nat -> Prop) -> unit -> S -> Prop) :
  nst = 0 -> Core sh x ST_RUNNING s -> curr s = t -> nest s = 0 -> (Rs s (sch s)).(owner) = None ->
  leave_running op t (posted t s) = Some (tt, s2) -> Mid sh x s2 -> curr s2 = t -> dis s2 = false ->
  (terminates op = true -> forall n, is_top s2 n -> n <> t -> ~ alive s2 t) ->
  (forall n, is_top s2 n -> n <> t -> alive s2 t -> forall x s, R x s -> Q x tt s) ->
  kwp G L R x (Os_Dispatch op) Q s.
Proof using Hv.
  intros Hl0 HC Hc Hn Hsch Hleave HM Hc2 Hd2 Hterm HQ. pose proof (m_queue _ _ _ HM) as Hq2.
  assert (Ht : (t < OS_TASK_CNT)%nat) by (rewrite <- Hc; eapply ready_range; [apply HC|by eapply curr_ready]).
  assert (Htl : (t < length s.(Os_TaskVarList))%nat) by (by rewrite (q_len s (i_queue _ _ _ _ HC))).
  assert (Hst : (T s t).(state) = ST_RUNNING) by (rewrite <- Hc; apply HC).
  unfold Os_Dispatch. eapply kwp_run; [done|]. fold (curr s). rewrite Hc.
  eapply kwp_run; [done|]. fold (nest s). rewrite Hn. eapply kwp_run; [by apply run_ASSERT|].
  eapply kwp_run; [apply sch_free, HC|]. eapply kwp_run; [by apply run_ASSERT, bool_decide_eq_true_2|].
  eapply kwp_run; [by apply run_TaskGet|]. eapply kwp_run; [by apply run_ASSERT, bool_decide_eq_true_2|].
  eapply kwp_run.
  { apply run_posted; [done..|]. intros Hp. rewrite (i_flags _ _ _ _ HC Hp t), Hc. cbn. by rewrite bool_decide_eq_true_2. }
  eapply kwp_run; [exact Hleave|]. destruct (run_top s2 Hq2) as (n & En & Htop). eapply kwp_run; [exact En|].
  pose proof (ready_range _ _ Hq2 (top_in _ _ Htop)) as Hnt. pose proof (q_len s2 Hq2) as Hl2.
  assert (Hfl : OS_PRE_TASK_HOOK = true -> (T s2 n).(flags) = SYS_FLAG_HOOK_STATE_EXPECTING_PRE) by (intros Hp; apply (m_flags _ _ _ HM Hp)).
  destruct (decide (n = t)) as [->|Hne]; [rewrite bool_decide_eq_false_2 by (intros H; by apply H)|rewrite bool_decide_eq_true_2 by done].
  { apply kwp_restart; [done..|]. split; [|done]. by apply G_enter. }
  eapply kwp_run.
  { unfold Os_ResourceReleaseInternal, Os_SysTaskGetCurr, OS_SYS, bind, get. cbn. fold (curr s2). rewrite Hc2, run_constPtr by done. cbn.
    by rewrite (vt_internal _ (valid_const t Hv Ht)). }
  eapply kwp_run; [apply run_TaskGet; lia|]. rewrite (t_reactivation s2 (m_task _ _ _ HM)).
  assert (Hswap : kwp G L R x (Os_TaskSwapContext t n) Q s2).
  { apply kwp_enter; [done..|]. split; [by apply G_enter|]. intros Ha. apply (HQ n); [done..|]. cbn in Ha. unfold alive in *.
    rewrite (en_T _ _ _ (entering_entered n s2 ltac:(lia))) in Ha. by rewrite decide_False in Ha. }
  change (REACTIVATE_NORMAL =? REACTIVATE_FROM_CHAINTASK) with false. destruct CFG_TC2XX; [|done].
  destruct (terminates op) eqn:Eop; [|done].
  apply kwp_enter; [done..|]. split; [|done]. apply G_enter; [done..|]. split; [done|]. intros Ha. by destruct (Hterm eq_refl n).
Qed.
End Switching.
End Dispatch.
