(* ===== verification/Os_Kernel.v ===== *)
(** * The services keep the invariant

    Tasks, events and resources: each service, called by a task or an interrupt service routine, ends without a fault and with the invariant,
    or gives the processor to another task as the dispatcher does. *)

From stdpp Require Import sets.
From S2P Require Import Prelude.
From S2P Require Import StateMonad.
From S2P Require Import Coroutine.
From S2P Require Import Os_Irq.
From S2P Require Import Os_Types.
From S2P Require Import Os.
From S2P Require Import Os_Timers.
From S2P Require Import Os_System.
From S2P Require Import Os_Inv.
From S2P Require Import Os_Update.
From S2P Require Import Os_Dispatch.

Section Kernel.
Context {W : Type} {Cfg : Os_Cfg} {Env : Os_Env W}.
Abbreviation S := (Os_State W).
Implicit Types (s : S) (x : nat -> Prop).

#[local] Arguments Os_TaskGet : simpl never.
#[local] Arguments Os_ResourceGet : simpl never.
#[local] Arguments task_set : simpl never.
#[local] Arguments res_set : simpl never.
#[local] Arguments constPtr : simpl never.

(** ** Facts on the invariant *)
Lemma same_T s s' u : same_kernel s s' -> T s' u = T s u.
Proof. intros H. unfold T. by rewrite (sk_tasks _ _ H). Qed.
Lemma same_Rs s s' r : same_kernel s s' -> Rs s' r = Rs s r.
Proof. intros H. unfold Rs. by rewrite (sk_res _ _ H). Qed.
Lemma same_refl s : same_kernel s s.
Proof. done. Qed.
Lemma same_trans s1 s2 s3 : same_kernel s1 s2 -> same_kernel s2 s3 -> same_kernel s1 s3.
Proof. intros [] []. split; congruence. Qed.
Lemma changed_refl d s s' : same_kernel s s' -> changed d (T s d) (ready s) s s'.
Proof. intros [E1 E2 E3 E4 E5 E6 E7]. split; try congruence. intros u. unfold T. rewrite E1. by destruct (decide (u = d)) as [->|]. Qed.
Lemma changed_before d p q s s' s1 : same_kernel s1 s -> changed d p q s s' -> changed d p q s1 s'.
Proof.
  intros [E1 E2 E3 E4 E5 E6 E7] [HT1 Hl1 Hq1 Hc1 Hn1 Hv1 Hr1 Ht1]. split; try congruence. intros u. rewrite HT1. unfold T. by rewrite E1.
Qed.

Section Services.
Context (sh : Shape) (t : nat) (nst : Z) (b : bool).
Hypothesis Hv : valid_cfg.
(** A task calls with interrupts enabled, or an interrupt service routine. *)
Definition level : state_t := if decide (nst = 0) then ST_RUNNING else ST_READY.
Record At (x : nat -> Prop) (s : S) : Prop := {
  at_inv : Inv sh x level s;
  at_curr : curr s = t;
  at_nest : nest s = nst;
  at_dis : dis s = b
}.
Abbreviation ok := (kwp (G sh t nst) L (R sh t)).

Lemma at_core x s : At x s -> Core sh x level s.
Proof using Type. intros H. apply (at_inv _ _ H). Qed.
Lemma at_queue x s : At x s -> queue_inv s.
Proof using Type. intros H. apply (at_core _ _ H). Qed.
Lemma at_range x s : At x s -> (t < OS_TASK_CNT)%nat.
Proof using Type. intros H. rewrite <- (at_curr _ _ H). eapply ready_range; [by eapply at_queue|by eapply curr_ready, at_core]. Qed.
Lemma at_len x s : At x s -> length s.(Os_TaskVarList) = OS_TASK_CNT.
Proof using Type. intros H. by eapply q_len, at_queue. Qed.
Lemma at_task x s : nst = 0 -> At x s -> Core sh x ST_RUNNING s.
Proof using Type. intros E H. pose proof (at_core _ _ H) as HC. unfold level in HC. by rewrite decide_True in HC. Qed.
Lemma at_R x s : nst = 0 -> b = false -> R sh t x s -> At x s.
Proof using Type. intros E1 E2 (H1 & H2 & H3 & H4). split; try congruence. unfold level. by rewrite decide_True. Qed.

Lemma Core_kernel x st s s' : same_kernel s s' -> Core sh x st s -> Core sh x st s'.
Proof using Type.
  intros Hs HC. pose proof (curr_ready _ _ _ _ HC) as Hcr. pose proof (ready_range _ _ (i_queue _ _ _ _ HC) Hcr) as Hlt.
  eapply (Core_same _ _ _ (curr s) (T s (curr s))); try done; [by apply changed_refl|..].
  - intros H. by apply (t_active s (i_task _ _ _ _ HC)).
  - intros H. by apply (t_suspended s (i_task _ _ _ _ HC)).
  - intros H. by apply (t_wait s (i_task _ _ _ _ HC)).
Qed.
Lemma Top_kernel s s' : same_kernel s s' -> Top s -> Top s'.
Proof using Type.
  intros Hs HT. unfold Top, act in *. setoid_rewrite (fun u => same_T _ _ u Hs). by rewrite (sk_curr _ _ Hs), (sk_ready _ _ Hs).
Qed.
Lemma At_same x s s' : same_kernel s s' -> At x s -> At x s'.
Proof using Type.
  intros Hs [[HC HT] Hc Hn Hd]. split; [split; [by eapply Core_kernel|by eapply Top_kernel]|..].
  - by rewrite (sk_curr _ _ Hs).
  - by rewrite (sk_nest _ _ Hs).
  - by rewrite (dis_lvl _ _ (sk_lvl _ _ Hs)).
Qed.

(** ** Masking interrupts and returning errors *)
Lemma same_irq s f : same_kernel s (set_irq (irq_set f s.(irq)) s).
Proof using Type. done. Qed.
Lemma run_err rv svc ps s : exists s', OS_STD_ERR rv svc ps s = Some (rv, s') /\ same_kernel s s'.
Proof using Type. unfold OS_STD_ERR, Os_CallErrorHook, bind, modify. cbn. destruct OS_ERROR_HOOK; cbn; eexists; done. Qed.

Lemma ok_err x rv svc ps s : At x s -> ok x (atomic (OS_STD_ERR rv svc ps)) (fun x _ => At x) s.
Proof using Type.
  intros H. apply kwp_atomic. destruct (run_err rv svc ps s) as (s' & E & Hs). eapply wp_run; [exact E|]. by eapply At_same.
Qed.
Lemma ok_validate x c rv svc ps (k : K S Z) s :
  At x s -> (c = true -> ok x k (fun x _ => At x) s) -> ok x (OS_VALIDATE_STD_K c rv svc ps k) (fun x _ => At x) s.
Proof using Type. intros H Hk. unfold OS_VALIDATE_STD_K. destruct c; [by apply Hk|by apply ok_err]. Qed.
Lemma ok_save {A} x (k : bool -> K S A) Q s :
  (forall f s', same_kernel s s' -> ok x (k f) Q s') -> ok x (kbind (atomic Irq_Save) k) Q s.
Proof using Type. intros H. eapply kwp_run; [done|]. by apply H. Qed.
Lemma ok_restore {A} x f (k : unit -> K S A) Q s :
  (forall s', same_kernel s s' -> ok x (k tt) Q s') -> ok x (kbind (atomic (Irq_Restore f)) k) Q s.
Proof using Type. intros H. eapply kwp_run; [done|]. by apply H. Qed.
(** Reading. *)
Lemma ok_curr {A} x (k : nat -> K S A) Q s : curr s = t -> ok x (k t) Q s -> ok x (kbind (atomic Os_SysTaskGetCurr) k) Q s.
Proof using Type. intros E H. eapply kwp_run; [done|]. fold (curr s). by rewrite E. Qed.
Lemma ok_nest {A} x (k : Z -> K S A) Q s : nest s = nst -> ok x (k nst) Q s -> ok x (kbind (atomic (OS_SYS intNestCnt)) k) Q s.
Proof using Type. intros E H. eapply kwp_run; [done|]. fold (nest s). by rewrite E. Qed.
Lemma ok_disabled {A} x (k : bool -> K S A) Q s : dis s = b -> ok x (k b) Q s -> ok x (kbind (atomic Os_SysIntAnyDisabled) k) Q s.
Proof using Type. intros E H. eapply kwp_run; [done|]. fold (dis s). by rewrite E. Qed.
Lemma ok_get {A} x d (k : OsTaskVarType -> K S A) Q s :
  (d < length s.(Os_TaskVarList))%nat -> ok x (k (T s d)) Q s -> ok x (kbind (atomic (Os_TaskGet d)) k) Q s.
Proof using Type. intros Hd H. eapply kwp_run; [by apply run_TaskGet|]. done. Qed.
Lemma ok_const {A} x d (k : OsTaskConstType -> K S A) Q s :
  (d < OS_TASK_CNT)%nat -> ok x (k (C d)) Q s -> ok x (kbind (atomic (constPtr d)) k) Q s.
Proof using Type. intros Hd H. eapply kwp_run; [by apply run_constPtr|]. done. Qed.
Lemma ok_set {A} x d f (k : unit -> K S A) Q s :
  (d < length s.(Os_TaskVarList))%nat -> ok x (k tt) Q (upd d f s) -> ok x (kbind (atomic (task_set d f)) k) Q s.
Proof using Type. intros Hd H. eapply kwp_run; [by apply run_task_set|]. done. Qed.
Lemma ok_assert {A} x c (k : unit -> K S A) Q s : c = true -> ok x (k tt) Q s -> ok x (kbind (atomic (ASSERT c)) k) Q s.
Proof using Type. intros -> H. done. Qed.
(** The last steps of a service. *)
Lemma ok_end x f s : At x s -> ok x (kbind (atomic (Irq_Restore f)) (fun _ => kret E_OK)) (fun x _ => At x) s.
Proof using Type. intros H. apply ok_restore. intros s' Hs. apply kwp_ret. by eapply At_same. Qed.
Lemma ok_then x (m : K S unit) f s :
  ok x m (fun x _ => At x) s -> ok x (kbind m (fun _ => kbind (atomic (Irq_Restore f)) (fun _ => kret E_OK))) (fun x _ => At x) s.
Proof using Type. intros H. apply kwp_bind. eapply kwp_mono; [exact H|]. intros x' [] s' HA. by apply ok_end. Qed.
Lemma ok_end_err x f rv svc ps s :
  At x s -> ok x (kbind (atomic (Irq_Restore f)) (fun _ => atomic (OS_STD_ERR rv svc ps))) (fun x _ => At x) s.
Proof using Type. intros H. apply ok_restore. intros s' Hs. apply ok_err. by eapply At_same. Qed.

(** ** When the scheduler resource is free *)
Lemma scheduler_owner x st s o :
  Core sh x st s -> (Rs s (sch s)).(owner) = Some o -> o = curr s /\ OS_RES_SCHEDULER_PRIO <= act s (curr s).
Proof using Hv.
  intros HC Ho. destruct (i_res _ _ _ _ HC). apply r_owner in Ho.
  assert (Ha : OS_RES_SCHEDULER_PRIO <= act s o) by (rewrite <- r_scheduler; by eapply chain_ceiling).
  destruct (decide (o = curr s)) as [->|Hne]; [done|]. exfalso.
  assert (Hh : held s o <> []) by (intros E; rewrite E in Ho; set_solver).
  pose proof (p_run s (i_prio _ _ _ _ HC) o Hne Hh) as Hlt.
  assert (Hc : (curr s < OS_TASK_CNT)%nat) by (eapply ready_range; [apply HC|by eapply curr_ready]).
  pose proof (vt_prio _ (valid_const (curr s) Hv Hc)) as Hp. unfold base in Hlt. lia.
Qed.
Lemma free_lower x st s u : Core sh x st s -> (u < OS_TASK_CNT)%nat -> act s (curr s) < act s u -> (Rs s (sch s)).(owner) = None.
Proof using Hv.
  intros HC Hu Hlt. destruct (Rs s (sch s)).(owner) as [o|] eqn:E; [|done]. destruct (scheduler_owner _ _ _ _ HC E) as [_ H].
  pose proof (act_max s u Hv Hu (i_res _ _ _ _ HC)). lia.
Qed.
Lemma free_held x st s : Core sh x st s -> held s (curr s) = [] -> (Rs s (sch s)).(owner) = None.
Proof using Hv.
  intros HC Hh. destruct (Rs s (sch s)).(owner) as [o|] eqn:E; [|done]. destruct (scheduler_owner _ _ _ _ HC E) as [-> _].
  apply (r_owner s (i_res _ _ _ _ HC)) in E. rewrite Hh in E. set_solver.
Qed.

(** ** The running task gives the processor away and stays ready *)
Lemma posted_self s : (t < length s.(Os_TaskVarList))%nat -> T (posted t s) t = post_task (T s t).
Proof using Type. intros H. by eapply changed_self, changed_posted. Qed.
Lemma posted_len s : length (posted t s).(Os_TaskVarList) = length s.(Os_TaskVarList).
Proof using Type. unfold posted. destruct OS_POST_TASK_HOOK; [apply length_alter|done]. Qed.
Lemma post_task_flags s : (OS_PRE_TASK_HOOK = true -> (post_task (T s t)).(flags) = SYS_FLAG_HOOK_STATE_EXPECTING_PRE).
Proof using Hv. unfold post_task. rewrite (v_hooks Hv). by intros ->. Qed.
Lemma post_task_state p : (post_task p).(state) = p.(state).
Proof using Type. unfold post_task. by destruct OS_POST_TASK_HOOK. Qed.

Definition stays (op : OpType) : bool := match op with OP_ACTIVATE_TASK | OP_SET_EVENT | OP_SCHEDULE | OP_RELEASE_RESOURCE => true | _ => false end.
Lemma leave_stays op s :
  stays op = true -> (t < length s.(Os_TaskVarList))%nat -> (T s t).(state) = ST_RUNNING ->
  exists st, ready_or_running st = true /\ exists s2, leave_running op t s = Some (tt, s2) /\ changed t (set_state st (T s t)) (ready s) s s2.
Proof using Type.
  intros Hop Ht Hs.
  assert (Hr : exists s2, Os_TaskRunningToReady t s = Some (tt, s2) /\ changed t (set_state ST_READY (T s t)) (ready s) s s2).
  { unfold Os_TaskRunningToReady, bind. rewrite run_TaskGet by done. cbn. rewrite Hs. rewrite run_ASSERT by done. cbn.
    rewrite run_task_set by done. eexists. split; [done|]. by apply changed_upd. }
  destruct (decide (op = OP_ACTIVATE_TASK)) as [->|Hop']; [exists ST_RUNNING|exists ST_READY; split; [done|]; by destruct op].
  split; [done|]. exists s. cbn. unfold Os_TaskMakeReady, bind. rewrite run_TaskGet by done. cbn. rewrite Hs. cbn. split; [done|].
  replace (set_state ST_RUNNING (T s t)) with (T s t); [by apply changed_refl|]. rewrite <- Hs. by destruct (T s t).
Qed.

Lemma ok_preempt x op s (Q : (nat -> Prop) -> unit -> S -> Prop) :
  nst = 0 -> b = false -> stays op = true ->
  Core sh x ST_RUNNING s -> curr s = t -> nest s = 0 -> dis s = false -> (Rs s (sch s)).(owner) = None ->
  (forall x s, At x s -> Q x tt s) -> ok x (Os_Dispatch op) Q s.
Proof using Hv.
  intros En Eb Hop HC Hc Hn Hd Hfree HQ.
  assert (Ht : (t < OS_TASK_CNT)%nat) by (rewrite <- Hc; eapply ready_range; [apply HC|by eapply curr_ready]).
  assert (Htl : (t < length s.(Os_TaskVarList))%nat) by (by rewrite (q_len s (i_queue _ _ _ _ HC))).
  assert (Hst : (T s t).(state) = ST_RUNNING) by (rewrite <- Hc; apply HC).
  destruct (leave_stays op (posted t s) Hop) as (st & Hst' & s2 & E & Hch); [by rewrite posted_len|by rewrite posted_self, post_task_state|].
  rewrite posted_self in Hch by done.
  assert (Hch' : changed t (set_state st (post_task (T s t))) (ready s) s s2).
  { eapply changed_trans; [by apply changed_posted|]. by rewrite (ch_ready _ _ _ _ _ (changed_posted t s Htl)) in Hch. }
  assert (Ecs : (T s t).(stack) = USED) by (rewrite <- Hc; apply (i_curr_stack _ _ _ _ HC)).
  eapply (dispatch_ok sh t nst Hv x op s s2); try done.
  - eapply (Mid_leave sh t x _ _ s s2 HC Hc Hn Hch'); cbn.
    + unfold post_task. by destruct OS_POST_TASK_HOOK.
    + unfold post_task. by destruct OS_POST_TASK_HOOK.
    + pose proof (t_reactivation s (i_task _ _ _ _ HC) t). unfold post_task. by destruct OS_POST_TASK_HOOK.
    + unfold post_task. by destruct OS_POST_TASK_HOOK.
    + apply post_task_flags.
    + left. split_and!; [done|done|..].
      all: pose proof (t_active s (i_task _ _ _ _ HC) t Ht ltac:(by rewrite Hst)); unfold post_task; destruct OS_POST_TASK_HOOK; cbn; lia.
  - by rewrite (ch_curr _ _ _ _ _ Hch').
  - by rewrite (dis_lvl _ _ (ch_lvl _ _ _ _ _ Hch')).
  - by destruct op.
  - intros n _ _ _ x' s' HR. apply HQ. by eapply at_R.
Qed.

(** ** One task changes, and the dispatcher is called if it has become more important *)
Lemma at_top x s u : nst = 0 -> At x s -> (C t).(scheduling) = FULL -> u ∈ ready s -> act s u <= act s t.
Proof using Type.
  intros E HA Hs Hu. pose proof (at_inv _ _ HA) as [HC HT]. rewrite <- (at_curr _ _ HA) in *. apply HT; [|done..].
  apply (at_task _ _ E HA).
Qed.
Definition important (d : nat) s : bool := (nest s =? 0) && bool_decide ((C t).(scheduling) = FULL) && (act s t <? act s d).
Lemma ok_important x op d s :
  Core sh x level s -> curr s = t -> nest s = nst -> dis s = b -> b = false \/ nst <> 0 -> (d < OS_TASK_CNT)%nat -> stays op = true ->
  (nst = 0 -> (C t).(scheduling) = FULL -> forall u, u ∈ ready s -> u <> d -> act s u <= act s t) ->
  ok x (if important d s then Os_Dispatch op else kret tt) (fun x _ => At x) s.
Proof using Hv.
  intros HC Hc Hn Hd Hb Hdt Hop Htop. unfold important. rewrite Hn. apply kwp_if.
  - intros [[En%Z.eqb_eq Hs%bool_decide_eq_true]%andb_prop Hlt%Z.ltb_lt]%andb_prop. destruct Hb as [Hb|]; [|done].
    eapply ok_preempt; try done; try congruence; [by unfold level in HC; rewrite decide_True in HC|]. rewrite <- Hc in Hlt. by eapply free_lower.
  - intros Hf. apply kwp_ret. split; try done. split; [done|]. rewrite <- Hn in *. intros Hst Hs u Hu. rewrite Hc in *.
    assert (E : nest s = 0).
    { pose proof (i_curr _ _ _ _ HC) as E. rewrite Hc, Hst in E. unfold level in E. rewrite Hn in *. by destruct (decide (nst = 0)). }
    destruct (decide (u = d)) as [->|Hne]; [|by apply Htop].
    rewrite E in Hf. rewrite bool_decide_eq_true_2 in Hf by done. cbn in Hf. apply Z.ltb_ge in Hf. lia.
Qed.
Lemma important_others d p q x s s' :
  At x s -> changed d p q s s' -> keeps (T s d) p -> (forall u, u ∈ q -> u <> d -> u ∈ ready s) ->
  nst = 0 -> (C t).(scheduling) = FULL -> forall u, u ∈ ready s' -> u <> d -> act s' u <= act s' t.
Proof using Type.
  intros HA Hch Hk Hq E Hs u Hu Hne. rewrite !(changed_act _ _ _ _ _ Hch Hk). rewrite (ch_ready _ _ _ _ _ Hch) in Hu. eapply at_top; eauto.
Qed.
(** A task whose state and place stay as they are. *)
Lemma At_task x d p s s' :
  At x s -> changed d p (ready s) s s' -> keeps (T s d) p -> p.(state) = (T s d).(state) -> p.(stack) = (T s d).(stack) ->
  (p.(state) <> ST_SUSPENDED -> 1 <= p.(activations) <= (C d).(activationLimit)) ->
  (p.(state) = ST_SUSPENDED -> p.(activations) = 0) ->
  (p.(state) = ST_WAIT_EVENT -> Z.land p.(ev_set) p.(ev_wait) = 0) ->
  At x s'.
Proof using Type.
  intros HA Hch Hk Est Esk Ha Hsu Hw. pose proof HA as [[HC HT] Hc Hn Hd]. split; [split; [by eapply Core_same|]|..].
  - intros Hst Hs u Hu. rewrite (ch_ready _ _ _ _ _ Hch) in Hu. rewrite (ch_curr _ _ _ _ _ Hch) in *. rewrite !(changed_act _ _ _ _ _ Hch Hk).
    apply HT; [|done..]. rewrite (ch_T _ _ _ _ _ Hch) in Hst. destruct (decide (curr s = d)) as [->|]; congruence.
  - by rewrite (ch_curr _ _ _ _ _ Hch).
  - by rewrite (ch_nest _ _ _ _ _ Hch).
  - by rewrite (dis_lvl _ _ (ch_lvl _ _ _ _ _ Hch)).
Qed.

(** ** ActivateTask *)
Lemma run_make_ready d s :
  (d < length s.(Os_TaskVarList))%nat -> ready_or_running (T s d).(state) = false -> d ∉ ready s ->
  exists s', Os_TaskMakeReady d s = Some (tt, s') /\ changed d (set_state ST_READY (T s d)) (ready s ++ [d]) s s'.
Proof using Type.
  intros Hd Hst Hq. unfold Os_TaskMakeReady, bind. rewrite run_TaskGet by done. cbn. rewrite Hst. cbn. rewrite run_task_set by done. cbn.
  unfold Os_ReadyQEnqueue, TAILQ_INSERT_TAIL, OS_SYS, sys_set, bind, get, deref, modify. cbn.
  rewrite bool_decide_eq_false_2 by done. cbn. eexists. split; [done|].
  destruct (changed_upd d (set_state ST_READY) s Hd). split; done.
Qed.
Lemma run_clean d s :
  (d < OS_TASK_CNT)%nat -> length s.(Os_TaskVarList) = OS_TASK_CNT ->
  exists p s', Os_Arc_SetCleanContext d s = Some (tt, s') /\ changed d p (ready s) s s' /\ keeps (T s d) p /\
    p.(state) = (T s d).(state) /\ p.(activations) = (T s d).(activations) /\ p.(stack) = ENTRY.
Proof using Type.
  intros Hd Hl. unfold Os_Arc_SetCleanContext, bind. rewrite run_constPtr by done. cbn.
  assert (Hset : forall s p, (d < length s.(Os_TaskVarList))%nat -> T s d = p ->
    exists s', Os_ArchSetupContext d s = Some (tt, s') /\ changed d (set_stack ENTRY p) (ready s) s s').
  { intros s1 p Hd1 <-. unfold Os_ArchSetupContext. rewrite run_task_set by done. eexists. split; [done|]. by apply changed_upd. }
  destruct (bool_decide _).
  - rewrite run_task_set by lia. cbn. rewrite run_task_set by (rewrite len_upd; lia). cbn.
    destruct (Hset (upd d (set_ev_wait 0) (upd d (set_ev_set 0) s)) (set_ev_wait 0 (set_ev_set 0 (T s d)))) as (s' & E & Hch).
    { rewrite !len_upd. lia. }
    { rewrite !T_upd by (rewrite ?len_upd; lia). by rewrite !decide_True. }
    exists (set_stack ENTRY (set_ev_wait 0 (set_ev_set 0 (T s d)))), s'. split; [exact E|]. split; [|done]. eapply changed_trans; [|exact Hch].
    eapply changed_trans; [by apply (changed_upd d (set_ev_set 0)); lia|]. apply (changed_upd d (set_ev_wait 0)). rewrite len_upd. lia.
  - cbn. destruct (Hset s (T s d)) as (s' & E & Hch); [lia|done|]. eexists _, s'. split; [exact E|]. split; [exact Hch|]. done.
Qed.
(** A suspended task is activated. *)
Lemma run_clean_ready d s :
  (d < OS_TASK_CNT)%nat -> length s.(Os_TaskVarList) = OS_TASK_CNT -> (T s d).(state) = ST_SUSPENDED -> d ∉ ready s ->
  exists s1 s2 p, Os_Arc_SetCleanContext d s = Some (tt, s1) /\ Os_TaskMakeReady d s1 = Some (tt, s2) /\
    changed d p (ready s ++ [d]) s s2 /\ keeps (T s d) p /\
    p.(state) = ST_READY /\ p.(activations) = (T s d).(activations) /\ p.(stack) = ENTRY.
Proof using Type.
  intros Hd Hl Hst Hq. destruct (run_clean d s Hd Hl) as (p & s1 & E1 & Hch1 & Hk1 & Es & Ea & Ek).
  pose proof (changed_self _ _ _ _ _ Hch1) as Ep. pose proof (ch_ready _ _ _ _ _ Hch1) as Er.
  destruct (run_make_ready d s1) as (s2 & E2 & Hch2).
  { rewrite (ch_len _ _ _ _ _ Hch1). lia. }
  { by rewrite Ep, Es, Hst. }
  { by rewrite Er. }
  rewrite Ep, Er in Hch2. exists s1, s2, (set_state ST_READY p). split_and!; try done; [by eapply changed_trans|].
  destruct Hk1. by split.
Qed.

(** The end of the service: [d] has changed. *)
Lemma ok_activated x d p q f s s1 :
  b = false -> (d < OS_TASK_CNT)%nat -> At x s1 -> Core sh x level s -> changed d p q s1 s -> keeps (T s1 d) p ->
  (forall u, u ∈ q -> u <> d -> u ∈ ready s1) ->
  ok x (kbind (atomic (OS_SYS intNestCnt)) (fun nest => kbind (atomic (constPtr t)) (fun cc => kbind (atomic (Os_TaskGet d)) (fun dest =>
    kbind (atomic Os_SysTaskGetCurr) (fun curr => kbind (atomic (Os_TaskGet curr)) (fun cp =>
    kbind (if (nest =? 0) && bool_decide (cc.(scheduling) = FULL) && (cp.(activePriority) <? dest.(activePriority))
           then Os_Dispatch OP_ACTIVATE_TASK else kret tt) (fun _ => kbind (atomic (Irq_Restore f)) (fun _ => kret E_OK)))))))) (fun x _ => At x) s.
Proof using Hv.
  intros Hb Hd HA HC Hch Hk Hq. pose proof (at_range _ _ HA) as Ht. pose proof (ch_curr _ _ _ _ _ Hch) as Ec. pose proof (ch_nest _ _ _ _ _ Hch) as En.
  pose proof (dis_lvl _ _ (ch_lvl _ _ _ _ _ Hch)) as Edi. rewrite (at_curr _ _ HA) in Ec. rewrite (at_nest _ _ HA) in En. rewrite (at_dis _ _ HA) in Edi.
  pose proof (q_len s (i_queue _ _ _ _ HC)) as Hl.
  apply ok_nest; [done|]. apply ok_const; [done|]. apply ok_get; [lia|]. apply ok_curr; [done|]. apply ok_get; [lia|].
  apply ok_then. replace (_ && _) with (important d s) by (unfold important, act; by rewrite En). apply (ok_important _ _ d); try done; [by left|]. by eapply important_others.
Qed.
Lemma ActivateTask_ok x d s : At x s -> ok x (ActivateTask d) (fun x _ => At x) s.
Proof using Hv.
  intros HA. unfold ActivateTask. apply ok_curr; [apply HA|]. apply ok_validate; [done|]. intros Hd%Nat.ltb_lt.
  apply ok_disabled; [apply HA|]. apply ok_validate; [done|]. intros Hb%negb_true_iff. apply ok_save. intros f s1 Hs1.
  apply (At_same _ _ _ Hs1) in HA. clear Hs1 s. pose proof (at_range _ _ HA) as Ht. pose proof (at_len _ _ HA) as Hl.
  set (up := fun p => set_activations _ p). assert (Hch : changed d (up (T s1 d)) (ready s1) s1 (upd d up s1)) by (apply changed_upd; lia).
  assert (Hl2 : length (upd d up s1).(Os_TaskVarList) = OS_TASK_CNT) by (by rewrite len_upd). pose proof (changed_self _ _ _ _ _ Hch) as Ed.
  apply ok_set; [lia|]. set (s2 := upd d up s1) in *. apply ok_get; [lia|]. apply ok_const; [done|]. rewrite Ed.
  assert (Hu : (T s1 d).(state) <> ST_SUSPENDED -> u8 ((T s1 d).(activations) + 1) = (T s1 d).(activations) + 1 /\ 1 <= (T s1 d).(activations) <= (C d).(activationLimit)).
  { intros Hn. pose proof (t_active s1 (i_task _ _ _ _ (at_core _ _ HA)) d Hd Hn) as H. pose proof (vt_limit _ (valid_const d Hv Hd)).
    split; [|done]. apply Z.mod_small. lia. }
  apply kwp_if.
  - intros [Hns%bool_decide_eq_true Hlim%Z.ltb_lt]%andb_prop. cbn in Hns, Hlim. destruct (Hu Hns) as [Eu Ha]. apply ok_restore. intros s3 Hs3.
    assert (Hl3 : length s3.(Os_TaskVarList) = OS_TASK_CNT) by (by rewrite (sk_tasks _ _ Hs3)).
    apply ok_set; [lia|]. apply ok_err. set (down := fun p => set_activations (u8 (p.(activations) - 1)) p).
    assert (Hch3 : changed d (down (up (T s1 d))) (ready s1) s1 (upd d down s3)).
    { eapply changed_trans; [by eapply changed_same|]. pose proof (changed_upd d down s3) as H. rewrite (same_T _ _ _ Hs3), Ed in H.
      rewrite (sk_ready _ _ Hs3), (ch_ready _ _ _ _ _ Hch) in H. apply H. lia. }
    assert (Ea : (down (up (T s1 d))).(activations) = (T s1 d).(activations)).
    { cbn. rewrite Eu. replace (_ + 1 - 1) with (T s1 d).(activations) by lia. apply Z.mod_small. pose proof (vt_limit _ (valid_const d Hv Hd)). lia. }
    eapply At_task; [done|exact Hch3|done..| | |]; rewrite ?Ea; [done|done|]. apply (t_wait s1 (i_task _ _ _ _ (at_core _ _ HA))).
  - intros Hlim. destruct (decide ((T s1 d).(state) = ST_SUSPENDED)) as [Hsu|Hns].
    + rewrite bool_decide_eq_false_2 by (intros H; by apply H).
      assert (Ea : u8 ((T s1 d).(activations) + 1) = 1) by (by rewrite (t_suspended s1 (i_task _ _ _ _ (at_core _ _ HA)) d Hd Hsu)).
      assert (Hdr : d ∉ ready s1) by (rewrite (q_ready s1 (at_queue _ _ HA)), Hsu; done).
      destruct (run_clean_ready d s2 Hd Hl2) as (s3 & s4 & p & E3 & E4 & Hch4 & Hk4 & Es & Eact & Ek);
        [by rewrite Ed|by rewrite (ch_ready _ _ _ _ _ Hch)|].
      eapply kwp_run; [unfold bind; rewrite run_ASSERT by (cbn; by rewrite Ea); cbn; rewrite E3; exact E4|].
      rewrite (ch_ready _ _ _ _ _ Hch) in Hch4. rewrite Ed in Hk4, Eact. pose proof (changed_trans _ _ _ _ _ _ _ _ Hch Hch4) as Hch5.
      assert (Hk : keeps (T s1 d) p) by (destruct Hk4; by split).
      eapply ok_activated; [done..| |exact Hch5|done|intros u; rewrite elem_of_app; set_solver].
      pose proof (vt_limit _ (valid_const d Hv Hd)).
      eapply Core_enqueue; [by apply at_core|exact Hch5|done..| |by left]. rewrite Eact. cbn. rewrite Ea. lia.
    + rewrite bool_decide_eq_true_2 in Hlim |- * by done. cbn in Hlim. apply Z.ltb_ge in Hlim. destruct (Hu Hns) as [Eu Ha]. rewrite Eu in Hlim.
      eapply kwp_run; [done|]. eapply ok_activated; [done..| |exact Hch|done|by intros].
      eapply Core_same; [by apply at_core|exact Hch|done..| | |]; cbn; [rewrite Eu; intros; lia|done|].
      apply (t_wait s1 (i_task _ _ _ _ (at_core _ _ HA))).
Qed.

(** ** SetEvent *)
Lemma ok_set_event x d p q s s1 :
  b = false \/ nst <> 0 -> (d < OS_TASK_CNT)%nat -> At x s1 -> Core sh x level s -> changed d p q s1 s -> keeps (T s1 d) p ->
  (forall u, u ∈ q -> u <> d -> u ∈ ready s1) ->
  ok x (kbind (atomic Os_SysTaskGetCurr) (fun currPcbPtr => kbind (atomic (OS_SYS intNestCnt)) (fun nest =>
    kbind (atomic (constPtr currPcbPtr)) (fun cc => kbind (atomic (Os_TaskGet d)) (fun dest => kbind (atomic (Os_TaskGet currPcbPtr)) (fun cp =>
    kbind (atomic Os_SysIntAnyDisabled) (fun disabled =>
    if (nest =? 0) && bool_decide (cc.(scheduling) = FULL) && (cp.(activePriority) <? dest.(activePriority)) && negb disabled
    then Os_Dispatch OP_SET_EVENT else kret tt)))))))
  (fun x _ => At x) s.
Proof using Hv.
  intros Hb Hd HA HC Hch Hk Hq. pose proof (at_range _ _ HA) as Ht. pose proof (ch_curr _ _ _ _ _ Hch) as Ec. pose proof (ch_nest _ _ _ _ _ Hch) as En.
  pose proof (dis_lvl _ _ (ch_lvl _ _ _ _ _ Hch)) as Edi. rewrite (at_curr _ _ HA) in Ec. rewrite (at_nest _ _ HA) in En. rewrite (at_dis _ _ HA) in Edi.
  pose proof (q_len s (i_queue _ _ _ _ HC)) as Hl.
  apply ok_curr; [done|]. apply ok_nest; [done|]. apply ok_const; [done|]. apply ok_get; [lia|]. apply ok_get; [lia|]. apply ok_disabled; [done|].
  assert (E : (nst =? 0) && bool_decide ((C t).(scheduling) = FULL) && ((T s t).(activePriority) <? (T s d).(activePriority)) && negb b = important d s).
  { unfold important, act. rewrite En. destruct Hb as [-> | Hb]; [by rewrite andb_true_r|]. by rewrite (proj2 (Z.eqb_neq nst 0) Hb). }
  rewrite E. apply (ok_important _ _ d); try done. by eapply important_others.
Qed.
Lemma SetEvent_ok x d mask s : b = false \/ nst <> 0 -> At x s -> ok x (SetEvent d mask) (fun x _ => At x) s.
Proof using Hv.
  intros Hb HA. unfold SetEvent. apply ok_validate; [done|]. intros Hd%Nat.ltb_lt. apply ok_const; [done|].
  apply ok_validate; [done|]. intros Hext%bool_decide_eq_true. apply ok_get; [rewrite (at_len _ _ HA); lia|].
  apply ok_validate; [done|]. intros Hns%bool_decide_eq_true. apply ok_save. intros f s1 Hs1.
  rewrite <- (same_T _ _ _ Hs1) in Hns. apply (At_same _ _ _ Hs1) in HA. clear Hs1 s. pose proof (at_len _ _ HA) as Hl.
  set (put := fun p => set_ev_set _ p). assert (Hch : changed d (put (T s1 d)) (ready s1) s1 (upd d put s1)) by (apply changed_upd; lia).
  assert (Hl2 : length (upd d put s1).(Os_TaskVarList) = OS_TASK_CNT) by (by rewrite len_upd). pose proof (changed_self _ _ _ _ _ Hch) as Ed.
  apply ok_set; [lia|]. set (s2 := upd d put s1) in *. apply ok_get; [lia|]. rewrite Ed. apply ok_then.
  pose proof (t_active s1 (i_task _ _ _ _ (at_core _ _ HA)) d Hd Hns) as Hact.
  assert (Hsame : ((T s1 d).(state) = ST_WAIT_EVENT -> Z.land mask (T s1 d).(ev_wait) = 0) -> At x s2).
  { intros Hw. eapply At_task; [done|exact Hch|done..|]. cbn -[Z.lor]. intros E. destruct (t_wait s1 (i_task _ _ _ _ (at_core _ _ HA)) d E) as [H _].
    by rewrite Z.land_lor_distr_l, H, Hw. }
  destruct (Z.land mask (put (T s1 d)).(ev_wait) =? 0) eqn:Em; cbn [negb]; [apply kwp_ret, Hsame; intros _; by apply Z.eqb_eq|].
  destruct (decide ((T s1 d).(state) = ST_WAIT_EVENT)) as [Ew|Ew].
  - rewrite bool_decide_eq_true_2 by done. assert (Hdr : d ∉ ready s1) by (rewrite (q_ready s1 (at_queue _ _ HA)), Ew; done).
    destruct (run_make_ready d s2) as (s3 & E3 & Hch3); [lia|by rewrite Ed; cbn; rewrite Ew|by rewrite (ch_ready _ _ _ _ _ Hch)|].
    eapply kwp_run; [exact E3|]. rewrite Ed, (ch_ready _ _ _ _ _ Hch) in Hch3. pose proof (changed_trans _ _ _ _ _ _ _ _ Hch Hch3) as Hch4.
    eapply ok_set_event; [done..| |exact Hch4|done|intros u; rewrite elem_of_app; set_solver].
    eapply Core_enqueue; [by apply at_core|exact Hch4|done..|]. right. done.
  - rewrite bool_decide_eq_false_2 by done. pose proof (q_state s1 (at_queue _ _ HA) d Hd).
    change (put (T s1 d)).(state) with (T s1 d).(state). destruct (ready_or_running (T s1 d).(state)) eqn:Er; [|by destruct (T s1 d).(state)]. apply kwp_ret, Hsame. done.
Qed.
End Services.
End Kernel.
