(* ===== verification/Os_Tasks.v ===== *)
(** * The services that end, chain or suspend the calling task

    [TerminateTask], [ChainTask], [Schedule] and [WaitEvent]. *)

From stdpp Require Import sets.
From S2P Require Import Prelude.
From S2P Require Import StateMonad.
From S2P Require Import Coroutine.
From S2P Require Import Os_Irq.
From S2P Require Import Os_Types.
From S2P Require Import Os.
From S2P Require Import Os_Timers.
From S2P Require Import Os_System.
From S2P Require Import Os_Inv.
From S2P Require Import Os_Update.
From S2P Require Import Os_Dispatch.
From S2P Require Import Os_Kernel.

Section Tasks.
Context {W : Type} {Cfg : Os_Cfg} {Env : Os_Env W}.
Abbreviation S := (Os_State W).
Implicit Types (s : S) (x : nat -> Prop).

#[local] Arguments Os_TaskGet : simpl never.
#[local] Arguments Os_ResourceGet : simpl never.
#[local] Arguments task_set : simpl never.
#[local] Arguments res_set : simpl never.
#[local] Arguments constPtr : simpl never.

(** ** Leaving the ready queue *)
Lemma run_leave_queue t st s :
  (t < length s.(Os_TaskVarList))%nat -> ready_or_running (T s t).(state) = true -> t ∈ ready s -> st = ST_SUSPENDED \/ st = ST_WAIT_EVENT ->
  exists s', (if bool_decide (st = ST_SUSPENDED) then Os_TaskMakeSuspended t else Os_TaskMakeWaiting t) s = Some (tt, s') /\
    changed t (set_state st (T s t)) (filter (fun y => y <> t) (ready s)) s s'.
Proof.
  intros Ht Hst Hq Hcase.
  assert (H : exists s', Os_ReadyQRemove t (upd t (set_state st) s) = Some (tt, s') /\
    changed t (set_state st (T s t)) (filter (fun y => y <> t) (ready s)) s s').
  { unfold Os_ReadyQRemove, TAILQ_REMOVE, OS_SYS, sys_set, bind, get, deref, modify. cbn. rewrite bool_decide_eq_true_2 by done. cbn.
    eexists. split; [done|]. destruct (changed_upd t (set_state st) s Ht). split; done. }
  destruct H as (s' & E & Hch). exists s'. split; [|done].
  destruct Hcase as [-> | ->]; [rewrite bool_decide_eq_true_2 by done|rewrite bool_decide_eq_false_2 by done]; unfold Os_TaskMakeSuspended, Os_TaskMakeWaiting, bind; rewrite run_TaskGet by done; cbn;
    rewrite (run_ASSERT _ _ Hst); cbn; rewrite run_task_set by done; done.
Qed.

(** The running task is chosen again if no task is more important. *)
Lemma top_self s t n :
  res_inv s -> prio_inv s -> curr s = t -> held s t = [] -> t ∈ ready s -> (forall u, u ∈ ready s -> act s u <= act s t) -> is_top s n -> n = t.
Proof.
  intros Hr Hp Hc Hh Ht Hmax Htop. destruct (decide (n = t)) as [|Hne]; [done|exfalso].
  pose proof (Hmax n (top_in _ _ Htop)) as H1.
  destruct (before_total (ready s) n t (top_in _ _ Htop) Ht Hne) as [Hb|Hb].
  - pose proof (p_fifo s Hp t n (or_introl (eq_sym Hc)) Hb) as Hlt. pose proof (top_max _ _ Htop t Ht) as H2.
    rewrite (held_act_base s t Hr Hh) in H1, H2. destruct (decide (held s n = [])) as [E|E].
    + rewrite (held_act_base s n Hr E) in H2. lia.
    + pose proof (p_run s Hp n ltac:(by rewrite Hc) E) as H3. rewrite Hc in H3. lia.
  - pose proof (top_first _ _ Htop t Hb). lia.
Qed.

Section Services.
Context (sh : Shape) (t : nat) (nst : Z) (b : bool).
Hypothesis Hv : valid_cfg.
Abbreviation At := (At sh t nst b).
Abbreviation ok := (kwp (G sh t nst) L (R sh t)).

(** ** The end of the running task

    [used]: how many activations are used up. *)
Section Ending.
Context (x : nat -> Prop) (s : S).
Hypothesis En : nst = 0.
Hypothesis HC : Core sh x ST_RUNNING s.
Hypothesis Hc : curr s = t.
Hypothesis Hn : nest s = 0.
Hypothesis Hd : dis s = false.
Hypothesis Hh : held s t = [].

Lemma end_range : (t < OS_TASK_CNT)%nat.
Proof using HC Hc. rewrite <- Hc. eapply ready_range; [apply HC|by eapply curr_ready]. Qed.
Lemma end_len : (t < length s.(Os_TaskVarList))%nat.
Proof using HC Hc. rewrite (q_len s (i_queue _ _ _ _ HC)). apply end_range. Qed.
Lemma end_state : (T s t).(state) = ST_RUNNING.
Proof using HC Hc. rewrite <- Hc. apply HC. Qed.
Lemma end_stack : (T s t).(stack) = USED.
Proof using HC Hc. rewrite <- Hc. apply (i_curr_stack _ _ _ _ HC). Qed.
Lemma end_ready : t ∈ ready s.
Proof using HC Hc. rewrite <- Hc. by eapply curr_ready. Qed.
Lemma end_active : 1 <= (T s t).(activations) <= (C t).(activationLimit).
Proof using HC Hc. apply (t_active s (i_task _ _ _ _ HC) t end_range). by rewrite end_state. Qed.

(** What the first part of the dispatcher leads to: [p] differs from the running task in its state, its activations and its hook flag. *)
Lemma ok_leave op s2 st a (Q : (nat -> Prop) -> unit -> S -> Prop) :
  let p := set_state st (set_activations a (post_task (T s t))) in
  leave_running op t (posted t s) = Some (tt, s2) ->
  (ready_or_running st = true /\ changed t p (ready s) s s2 /\ 1 <= a <= (C t).(activationLimit) \/
   changed t p (filter (fun y => y <> t) (ready s)) s s2 /\ t <> 0%nat /\
     (st = ST_SUSPENDED /\ a = 0 \/
      st = ST_WAIT_EVENT /\ 1 <= a <= (C t).(activationLimit) /\ Z.land (T s t).(ev_set) (T s t).(ev_wait) = 0 /\ (C t).(proc_type) = PROC_EXTENDED)) ->
  (ready_or_running st = true -> forall u, u ∈ ready s -> act s u <= act s t) ->
  (st = ST_WAIT_EVENT -> terminates op = false /\ forall x s, R sh t x s -> Q x tt s) ->
  ok x (Os_Dispatch op) Q s.
Proof using All.
  intros p E Hcase Hmax Hback.
  assert (Hp : exists q, changed t p q s s2) by (destruct Hcase as [(_ & ? & _)|(? & _)]; eauto). destruct Hp as [q Hch].
  assert (Hk : keeps (T s t) (set_flags (T s t).(flags) p)) by (subst p; unfold post_task; by destruct OS_POST_TASK_HOOK).
  assert (HM : Mid sh x s2).
  { eapply (Mid_leave sh t x p q s s2 HC Hc Hn Hch); try apply Hk.
    - rewrite <- (t_reactivation s (i_task _ _ _ _ HC) t). apply Hk.
    - rewrite <- end_stack. subst p. unfold post_task. by destruct OS_POST_TASK_HOOK.
    - intros Hpre. cbn. rewrite <- (post_task_flags t Hv s Hpre). done.
    - assert (Eq : q = ready s2) by (by rewrite (ch_ready _ _ _ _ _ Hch)).
      destruct Hcase as [(Hr & Hch' & Ha)|(Hch' & Ht0 & H)]; rewrite (ch_ready _ _ _ _ _ Hch') in Eq; [left|right]; [done|].
      split_and!; [done..|]. destruct H as [[-> ->]|(-> & Ha & Hw & Hx)]; [by right|left]. split_and!; [done|apply Ha..| |done].
      subst p. unfold post_task. by destruct OS_POST_TASK_HOOK. }
  assert (Hself : ready_or_running st = true -> forall n, is_top s2 n -> n = t).
  { intros Hr n Htop. destruct Hcase as [(_ & Hch' & _)|(_ & _ & [[-> _]|[-> _]])]; [|done..].
    assert (Hact : forall u, act s2 u = act s u).
    { intros u. unfold act. rewrite (ch_T _ _ _ _ _ Hch'). destruct (decide (u = t)) as [->|]; [apply Hk|done]. }
    eapply (top_self s2 t n); [apply HM|apply HM|by rewrite (ch_curr _ _ _ _ _ Hch')| | | |done].
    - unfold held. rewrite (changed_self _ _ _ _ _ Hch'). rewrite <- Hh. apply Hk.
    - rewrite (ch_ready _ _ _ _ _ Hch'). apply end_ready.
    - intros u. rewrite (ch_ready _ _ _ _ _ Hch'), !Hact. by apply Hmax. }
  assert (Hal : alive s2 t -> ready_or_running st = true \/ st = ST_WAIT_EVENT).
  { unfold alive. by rewrite (changed_self _ _ _ _ _ Hch). }
  eapply (dispatch_ok sh t nst Hv x op s s2); try done.
  - eapply free_held; [done..|]. by rewrite Hc.
  - by rewrite (ch_curr _ _ _ _ _ Hch).
  - by rewrite (dis_lvl _ _ (ch_lvl _ _ _ _ _ Hch)).
  - intros Hterm n Htop Hne [Hr| ->]%Hal; [by apply Hne, Hself|]. by destruct (Hback eq_refl) as [H _]; rewrite H in Hterm.
  - intros n Htop Hne [Hr| ->]%Hal; [by destruct Hne; apply Hself|]. by apply Hback.
Qed.

(** One activation is used up: was it the last one? *)
Definition used : S := upd t (set_activations (u8 ((T (posted t s) t).(activations) - 1))) (posted t s).
Lemma post_task_activations p : (post_task p).(activations) = p.(activations).
Proof using Type. unfold post_task. by destruct OS_POST_TASK_HOOK. Qed.
Lemma used_changed : changed t (set_activations ((T s t).(activations) - 1) (post_task (T s t))) (ready s) s used.
Proof using Hv HC Hc.
  pose proof (changed_posted t s end_len) as Hp. unfold used. rewrite (changed_self _ _ _ _ _ Hp), post_task_activations.
  replace (u8 _) with ((T s t).(activations) - 1).
  - eapply changed_trans; [exact Hp|]. pose proof (changed_upd t (set_activations ((T s t).(activations) - 1)) (posted t s)) as H.
    rewrite (changed_self _ _ _ _ _ Hp), (ch_ready _ _ _ _ _ Hp) in H. apply H. rewrite posted_len. apply end_len.
  - pose proof end_active. pose proof (vt_limit _ (valid_const t Hv end_range)). symmetry. apply Z.mod_small. lia.
Qed.
Lemma used_suspended : (T s t).(activations) = 1 -> t <> 0%nat ->
  exists s2, Os_TaskMakeSuspended t used = Some (tt, s2) /\
    changed t (set_state ST_SUSPENDED (set_activations 0 (post_task (T s t)))) (filter (fun y => y <> t) (ready s)) s s2.
Proof using Hv HC Hc.
  intros Ea Ht0. pose proof used_changed as Hu. rewrite Ea in Hu. pose proof (ch_ready _ _ _ _ _ Hu) as Er. pose proof (changed_self _ _ _ _ _ Hu) as Es.
  destruct (run_leave_queue t ST_SUSPENDED used) as (s2 & E & Hch).
  - rewrite (ch_len _ _ _ _ _ Hu). apply end_len.
  - rewrite Es. cbn. by rewrite post_task_state, end_state.
  - rewrite Er. apply end_ready.
  - by left.
  - exists s2. split; [done|]. rewrite Er, Es in Hch. by eapply changed_trans.
Qed.
Lemma run_used {A} (m : OsTaskVarType -> M S A) :
  bind (Os_TaskGet t) (fun p => bind (ASSERT (0 <? p.(activations))) (fun _ => bind (task_set t (set_activations (u8 (p.(activations) - 1)))) (fun _ =>
    bind (Os_TaskGet t) m))) (posted t s) = m (T used t) used.
Proof using Hv HC Hc.
  pose proof end_len as Hlen. pose proof end_active as Ha. unfold bind. rewrite run_TaskGet by (by rewrite posted_len). cbn.
  rewrite posted_self by done. rewrite post_task_activations. rewrite run_ASSERT by (apply Z.ltb_lt; lia). cbn.
  rewrite run_task_set by (by rewrite posted_len). cbn.
  replace (upd t _ (posted t s)) with used by (unfold used; by rewrite posted_self, post_task_activations).
  rewrite run_TaskGet; [done|]. rewrite (ch_len _ _ _ _ _ used_changed). done.
Qed.

Lemma ok_terminate (Q : (nat -> Prop) -> unit -> S -> Prop) :
  t <> 0%nat -> (1 < (T s t).(activations) -> forall u, u ∈ ready s -> act s u <= act s t) -> ok x (Os_Dispatch OP_TERMINATE_TASK) Q s.
Proof using All.
  intros Ht0 Hmax. pose proof end_active as Ha. pose proof used_changed as Hu. pose proof (changed_self _ _ _ _ _ Hu) as Es.
  destruct (decide ((T s t).(activations) = 1)) as [E|E].
  - destruct (used_suspended E Ht0) as (s2 & E2 & Hch).
    eapply (ok_leave OP_TERMINATE_TASK s2 ST_SUSPENDED 0); [|by right; auto|done|done].
    cbn [leave_running]. rewrite run_used, Es. cbn [activations set_activations]. rewrite E. exact E2.
  - eapply (ok_leave OP_TERMINATE_TASK used ST_RUNNING ((T s t).(activations) - 1)); [| |intros _; apply Hmax; lia|done].
    + cbn [leave_running]. rewrite run_used, Es. cbn [activations set_activations]. by rewrite (proj2 (Z.eqb_neq _ 0)) by lia.
    + left. split_and!; [done| |lia|lia]. replace (set_state ST_RUNNING _) with (set_activations ((T s t).(activations) - 1) (post_task (T s t))); [done|].
      unfold post_task. pose proof end_state as H. destruct OS_POST_TASK_HOOK; destruct (T s t); cbn in *; by rewrite H.
Qed.
Lemma ok_chain d (Q : (nat -> Prop) -> unit -> S -> Prop) :
  s.(sys).(chainedPcbPtr) = Some d -> t <> 0%nat \/ d = t -> (d <> t -> (T s t).(activations) = 1) ->
  (d = t -> forall u, u ∈ ready s -> act s u <= act s t) -> ok x (Os_Dispatch OP_CHAIN_TASK) Q s.
Proof using All.
  intros Echain Ht0 Hone Hmax. pose proof end_active as Ha. pose proof used_changed as Hu. pose proof (changed_self _ _ _ _ _ Hu) as Es.
  assert (Eposted : (posted t s).(sys).(chainedPcbPtr) = Some d) by (unfold posted; by destruct OS_POST_TASK_HOOK).
  assert (Hrun : forall (m : nat -> M S unit),
    bind (OS_SYS chainedPcbPtr) (fun chained => bind (deref chained) m) (posted t s) = m d (posted t s)).
  { intros m. unfold OS_SYS, bind, get, deref. cbn. by rewrite Eposted. }
  destruct (decide (d = t)) as [->|Hne].
  - eapply (ok_leave OP_CHAIN_TASK (posted t s) ST_RUNNING (T s t).(activations)); [| |auto|done].
    + cbn [leave_running]. rewrite Hrun. by rewrite bool_decide_eq_false_2 by (intros H; by apply H).
    + left. split_and!; [done| |lia|lia]. replace (set_state ST_RUNNING _) with (post_task (T s t)); [apply changed_posted, end_len|].
      unfold post_task. pose proof end_state as H. destruct OS_POST_TASK_HOOK; destruct (T s t); cbn in *; by rewrite H.
  - destruct (used_suspended (Hone Hne)) as (s2 & E2 & Hch); [by destruct Ht0|].
    eapply (ok_leave OP_CHAIN_TASK s2 ST_SUSPENDED 0); [|right; split_and!; [done|by destruct Ht0|by left]|done|done].
    cbn [leave_running]. rewrite Hrun, bool_decide_eq_true_2 by done. rewrite run_used, Es. cbn [activations set_activations]. rewrite (Hone Hne). exact E2.
Qed.
Lemma ok_wait (Q : (nat -> Prop) -> unit -> S -> Prop) :
  t <> 0%nat -> Z.land (T s t).(ev_set) (T s t).(ev_wait) = 0 -> (C t).(proc_type) = PROC_EXTENDED ->
  (forall x s, R sh t x s -> Q x tt s) -> ok x (Os_Dispatch OP_WAIT_EVENT) Q s.
Proof using All.
  intros Ht0 Hw Hext HQ. pose proof (changed_posted t s end_len) as Hp. pose proof (changed_self _ _ _ _ _ Hp) as Es. pose proof (ch_ready _ _ _ _ _ Hp) as Er.
  destruct (run_leave_queue t ST_WAIT_EVENT (posted t s)) as (s2 & E & Hch).
  - rewrite posted_len. apply end_len.
  - by rewrite Es, post_task_state, end_state.
  - rewrite Er. apply end_ready.
  - by right.
  - rewrite Es, Er in Hch. pose proof end_active as Ha. eapply (ok_leave OP_WAIT_EVENT s2 ST_WAIT_EVENT (T s t).(activations)); [exact E| |done|done].
    right. split_and!; [|done|right; split_and!; [done|lia|lia|done|done]]. eapply changed_trans; [exact Hp|].
    replace (set_activations _ _) with (post_task (T s t)); [done|]. unfold post_task. by destruct OS_POST_TASK_HOOK, (T s t).
Qed.
End Ending.

(** ** TerminateTask *)
Lemma ok_occupies {A} x (k : bool -> K S A) Q s :
  (t < length s.(Os_TaskVarList))%nat -> ok x (k (bool_decide (held s t <> []))) Q s -> ok x (kbind (atomic (Os_TaskOccupiesResources t)) k) Q s.
Proof using Type.
  intros Ht H. eapply kwp_run; [|exact H]. unfold Os_TaskOccupiesResources, bind. by rewrite run_TaskGet.
Qed.
Lemma TerminateTask_run x s (Q : (nat -> Prop) -> Z -> S -> Prop) :
  nst = 0 -> Core sh x ST_RUNNING s -> curr s = t -> nest s = 0 -> dis s = false -> held s t = [] -> t <> 0%nat ->
  (1 < (T s t).(activations) -> forall u, u ∈ ready s -> act s u <= act s t) -> ok x TerminateTask Q s.
Proof using All.
  intros En HC Hc Hn Hd Hh Ht0 Hmax. unfold TerminateTask. apply ok_curr; [done|]. apply (ok_disabled _ _ _ false); [done|].
  apply (ok_nest _ _ nst); [congruence|]. rewrite (proj2 (Z.eqb_eq nst 0) En). apply ok_occupies; [by eapply end_len|]. rewrite Hh.
  rewrite bool_decide_eq_false_2 by (intros H; by apply H). cbn [OS_VALIDATE_STD_K negb Z.eqb].
  apply ok_restore. intros s1 Hs1. apply kwp_bind. eapply ok_terminate; [done|by eapply Core_kernel|..].
  - by rewrite (sk_curr _ _ Hs1).
  - by rewrite (sk_nest _ _ Hs1).
  - by rewrite (dis_lvl _ _ (sk_lvl _ _ Hs1)).
  - unfold held. by rewrite (same_T _ _ _ Hs1).
  - done.
  - unfold act. rewrite (sk_ready _ _ Hs1), (same_T _ _ _ Hs1). setoid_rewrite (fun u => same_T _ _ u Hs1). done.
Qed.
(** A task with more than one activation is preemptable. *)
Lemma multiple_top x s : nst = 0 -> At x s -> 1 < (T s t).(activations) -> forall u, u ∈ ready s -> act s u <= act s t.
Proof using Hv.
  intros E HA Ha u Hu. pose proof (at_range _ _ _ _ _ _ HA) as Ht. pose proof (at_task _ _ _ _ _ _ E HA) as HC.
  pose proof (end_active _ _ HC (at_curr _ _ _ _ _ _ HA)) as Hact.
  eapply at_top; [done..| |done]. destruct (vt_multiple _ (valid_const t Hv Ht)) as [H|[_ H]]; [lia|done].
Qed.
Lemma TerminateTask_ok x s : (nst = 0 -> t <> 0%nat) -> At x s -> ok x TerminateTask (fun x _ => At x) s.
Proof using All.
  intros Ht0 HA. pose proof (at_range _ _ _ _ _ _ HA) as Ht. pose proof (at_len _ _ _ _ _ _ HA) as Hl.
  destruct (decide (nst = 0 /\ b = false /\ held s t = [])) as [(En & Eb & Eh)|Hno].
  - apply TerminateTask_run; try apply HA; try done; [by eapply at_task|rewrite (at_nest _ _ _ _ _ _ HA); done|rewrite (at_dis _ _ _ _ _ _ HA); done|by apply Ht0|].
    by eapply multiple_top.
  - unfold TerminateTask. apply ok_curr; [apply HA|]. apply (ok_disabled _ _ _ b); [apply HA|].
    apply ok_validate; [done|]. intros Hb%negb_true_iff. apply (ok_nest _ _ nst); [apply HA|].
    apply ok_validate; [done|]. intros Hn%Z.eqb_eq. apply ok_occupies; [lia|]. apply ok_validate; [done|].
    intros Hh%negb_true_iff%bool_decide_eq_false. destruct Hno. split_and!; [done..|]. by apply dec_stable.
Qed.

(** ** Schedule *)
Lemma Schedule_ok x s : At x s -> ok x Schedule (fun x _ => At x) s.
Proof using Hv.
  intros HA. pose proof (at_range _ _ _ _ _ _ HA) as Ht. pose proof (at_len _ _ _ _ _ _ HA) as Hl.
  unfold Schedule. apply ok_curr; [apply HA|]. apply (ok_disabled _ _ _ b); [apply HA|].
  apply ok_validate; [done|]. intros Hb%negb_true_iff. apply (ok_nest _ _ nst); [apply HA|].
  apply ok_validate; [done|]. intros Hn%Z.eqb_eq. apply ok_occupies; [lia|]. apply ok_validate; [done|].
  intros Hh%negb_true_iff%bool_decide_eq_false%dec_stable. apply ok_get; [lia|].
  pose proof (at_task _ _ _ _ _ _ Hn HA) as HC. pose proof (end_state _ _ HC (at_curr _ _ _ _ _ _ HA)) as Hst.
  apply ok_assert; [by apply bool_decide_eq_true_2|]. apply ok_const; [done|]. apply kwp_if; [|intros _; by apply kwp_ret]. intros _.
  apply ok_save. intros f s1 Hs1. rewrite <- (same_T _ _ _ Hs1) in Hst. rewrite <- (same_T _ _ t Hs1).
  assert (Hh1 : held s1 t = []) by (unfold held; by rewrite (same_T _ _ _ Hs1)).
  apply (At_same _ _ _ _ _ _ _ Hs1) in HA. clear HC Hs1 Hh Hl s. pose proof (at_task _ _ _ _ _ _ Hn HA) as HC.
  destruct (run_top s1 (at_queue _ _ _ _ _ _ HA)) as (n & E & Htop). eapply kwp_run; [exact E|].
  pose proof (ready_range _ _ (at_queue _ _ _ _ _ _ HA) (top_in _ _ Htop)) as Hnt.
  apply ok_get; [rewrite (at_len _ _ _ _ _ _ HA); lia|]. apply ok_then. apply kwp_if; [|intros _; by apply kwp_ret]. intros _.
  eapply ok_preempt; try done; try apply HA.
  - by rewrite (at_nest _ _ _ _ _ _ HA).
  - by rewrite (at_dis _ _ _ _ _ _ HA).
  - eapply free_held; [done..|]. by rewrite (at_curr _ _ _ _ _ _ HA).
Qed.

(** ** WaitEvent *)
Lemma WaitEvent_ok x mask s : (nst = 0 -> t <> 0%nat) -> At x s -> ok x (WaitEvent mask) (fun x _ => At x) s.
Proof using Hv.
  intros Ht0 HA. pose proof (at_range _ _ _ _ _ _ HA) as Ht. pose proof (at_len _ _ _ _ _ _ HA) as Hl.
  unfold WaitEvent. apply ok_curr; [apply HA|]. apply (ok_disabled _ _ _ b); [apply HA|].
  apply ok_validate; [done|]. intros Hb%negb_true_iff. apply (ok_nest _ _ nst); [apply HA|].
  apply ok_validate; [done|]. intros Hn%Z.eqb_eq. apply ok_const; [done|]. apply ok_validate; [done|]. intros Hext%bool_decide_eq_true.
  apply ok_occupies; [lia|]. apply ok_validate; [done|]. intros Hh%negb_true_iff%bool_decide_eq_false%dec_stable.
  apply ok_save. intros f s1 Hs1. assert (Hh1 : held s1 t = []) by (unfold held; by rewrite (same_T _ _ _ Hs1)).
  apply (At_same _ _ _ _ _ _ _ Hs1) in HA. clear Hs1 Hh Hl s. pose proof (at_len _ _ _ _ _ _ HA) as Hl. apply ok_get; [lia|].
  apply ok_then. apply kwp_if; [|intros _; by apply kwp_ret]. intros Hm%Z.eqb_eq.
  apply ok_set; [lia|]. assert (Hch : changed t (set_ev_wait mask (T s1 t)) (ready s1) s1 (upd t (set_ev_wait mask) s1)) by (apply changed_upd; lia).
  set (s2 := upd t (set_ev_wait mask) s1) in *. pose proof (changed_self _ _ _ _ _ Hch) as Es.
  pose proof (at_task _ _ _ _ _ _ Hn HA) as HC. pose proof (end_state _ _ HC (at_curr _ _ _ _ _ _ HA)) as Hst.
  assert (HA2 : At x s2).
  { eapply At_task; [done|exact Hch|done..| | |]; cbn; rewrite Hst; try done. intros _. apply (end_active _ _ HC), HA. }
  apply kwp_bind. pose proof (at_task _ _ _ _ _ _ Hn HA2) as HC2. eapply ok_wait; [exact Hn|exact HC2|apply HA2|..].
  - by rewrite (at_nest _ _ _ _ _ _ HA2).
  - by rewrite (at_dis _ _ _ _ _ _ HA2).
  - unfold held. by rewrite Es.
  - by apply Ht0.
  - by rewrite Es.
  - done.
  - intros x' s' HR. pose proof (at_R sh t nst b _ _ Hn Hb HR) as HA'. apply ok_get; [rewrite (at_len _ _ _ _ _ _ HA'); lia|].
    apply kwp_atomic. eapply wp_run; [|exact HA']. apply run_ASSERT, bool_decide_eq_true_2.
    apply (end_state _ _ (at_task _ _ _ _ _ _ Hn HA')), HA'.
Qed.

(** ** ChainTask *)
(** Another task is activated before the caller ends. *)
Lemma chained_ready x d s :
  nst = 0 -> d <> t -> (d < OS_TASK_CNT)%nat -> At x s -> (T s d).(activations) + 1 <= (C d).(activationLimit) ->
  exists s', (bind (if bool_decide ((T s d).(state) = ST_SUSPENDED) then
                      bind (ASSERT ((T s d).(activations) =? 0)) (fun _ => bind (Os_Arc_SetCleanContext d) (fun _ => Os_TaskMakeReady d))
                    else ret tt) (fun _ => task_set d (fun p => set_activations (u8 (p.(activations) + 1)) p))) s = Some (tt, s') /\
    Core sh x ST_RUNNING s' /\ exists p q, changed d p q s s' /\ keeps (T s d) p.
Proof using Hv.
  intros Hn Hne Hd HA Hlim. pose proof (at_task _ _ _ _ _ _ Hn HA) as HC. pose proof (i_task _ _ _ _ HC) as Ht. pose proof (at_len _ _ _ _ _ _ HA) as Hl.
  pose proof (vt_limit _ (valid_const d Hv Hd)) as Hmax. unfold bind. set (up := fun p => set_activations _ p).
  destruct (decide ((T s d).(state) = ST_SUSPENDED)) as [E|E].
  - rewrite bool_decide_eq_true_2 by done. pose proof (t_suspended s Ht d Hd E) as Ea. rewrite run_ASSERT by (by rewrite Ea). cbn [mbind option_bind].
    assert (Hdr : d ∉ ready s) by (rewrite (q_ready s (i_queue _ _ _ _ HC)), E; done).
    destruct (run_clean_ready d s Hd Hl E Hdr) as (s1 & s2 & p & E1 & E2 & Hch & Hk & Es & Eact & Ek).
    rewrite E1. cbn [mbind option_bind]. rewrite E2. cbn [mbind option_bind]. rewrite run_task_set by (rewrite (ch_len _ _ _ _ _ Hch); lia).
    assert (Hch2 : changed d (up p) (ready s ++ [d]) s (upd d up s2)).
    { eapply changed_trans; [exact Hch|]. pose proof (changed_upd d up s2) as H. rewrite (changed_self _ _ _ _ _ Hch), (ch_ready _ _ _ _ _ Hch) in H.
      apply H. rewrite (ch_len _ _ _ _ _ Hch). lia. }
    assert (Hk2 : keeps (T s d) (up p)) by (destruct Hk; by split).
    eexists. split; [done|]. split; [|by eauto].
    eapply Core_enqueue; [exact HC|exact Hch2|done..| |by left]. cbn. rewrite Eact, Ea. change (u8 (0 + 1)) with 1. lia.
  - rewrite bool_decide_eq_false_2 by done. cbn [mbind option_bind ret]. unfold ret. cbn [mbind option_bind]. rewrite run_task_set by lia.
    pose proof (t_active s Ht d Hd E) as Ha.
    assert (Eu : u8 ((T s d).(activations) + 1) = (T s d).(activations) + 1) by (apply Z.mod_small; lia).
    assert (Hch : changed d (up (T s d)) (ready s) s (upd d up s)) by (apply changed_upd; lia).
    assert (Hk : keeps (T s d) (up (T s d))) by done.
    eexists. split; [done|]. split; [|by eauto]. eapply Core_same; [exact HC|exact Hch|done..| | |]; cbn; rewrite ?Eu; [lia|done|].
    intros Hw. apply (t_wait s Ht d Hw).
Qed.
Lemma ChainTask_ok x d s :
  (nst = 0 -> d <> t -> t <> 0%nat /\ (T s t).(activations) = 1) -> (nst = 0 -> d = t -> (C t).(scheduling) = FULL) ->
  At x s -> ok x (ChainTask d) (fun x _ => At x) s.
Proof using Hv.
  intros Hother Hself HA. pose proof (at_range _ _ _ _ _ _ HA) as Ht. pose proof (at_len _ _ _ _ _ _ HA) as Hl.
  unfold ChainTask. apply ok_curr; [apply HA|]. apply (ok_disabled _ _ _ b); [apply HA|].
  apply ok_validate; [done|]. intros Hb%negb_true_iff. apply ok_validate; [done|]. intros Hd%Nat.ltb_lt. apply (ok_nest _ _ nst); [apply HA|].
  apply ok_validate; [done|]. intros Hn%Z.eqb_eq. apply ok_occupies; [lia|]. apply ok_validate; [done|].
  intros Hh%negb_true_iff%bool_decide_eq_false%dec_stable. apply ok_save. intros f s1 Hs1.
  specialize (Hother Hn). specialize (Hself Hn). rewrite <- (same_T _ _ _ Hs1) in Hother.
  assert (Hh1 : held s1 t = []) by (unfold held; by rewrite (same_T _ _ _ Hs1)).
  apply (At_same _ _ _ _ _ _ _ Hs1) in HA. clear Hs1 Hh Hl s. pose proof (at_len _ _ _ _ _ _ HA) as Hl.
  apply ok_get; [lia|]. apply ok_const; [done|]. apply kwp_if; [intros _; by apply ok_end_err|]. intros Hlim.
  destruct (decide (t = d)) as [<-|Hne].
  - rewrite bool_decide_eq_false_2 by (intros H; by apply H). eapply kwp_run; [done|].
    eapply kwp_run; [done|]. set (s2 := set_sys _ s1). assert (HA2 : At x s2) by (by eapply (At_same _ _ _ _ _ s1)).
    apply kwp_bind. pose proof (at_task _ _ _ _ _ _ Hn HA2) as HC2.
    eapply (ok_chain _ _ Hn HC2); [apply HA2|by rewrite (at_nest _ _ _ _ _ _ HA2)|by rewrite (at_dis _ _ _ _ _ _ HA2)|done|done|by right|done|].
    intros _ u Hu. eapply at_top; [exact Hn|exact HA2|by apply Hself|done].
  - rewrite bool_decide_eq_true_2 in Hlim |- * by done. cbn in Hlim. apply Z.ltb_ge in Hlim.
    destruct (chained_ready x d s1 Hn (not_eq_sym Hne) Hd HA Hlim) as (s2 & E & HC2 & p & q & Hch & Hk). eapply kwp_run; [exact E|].
    eapply kwp_run; [done|]. set (s3 := set_sys _ s2). assert (Hs3 : same_kernel s2 s3) by done.
    apply kwp_bind.
    assert (Et : T s3 t = T s1 t) by (rewrite (same_T _ _ _ Hs3); by apply (changed_other _ _ _ _ _ Hch)).
    destruct Hother as [Ht0 Ha]; [done|].
    eapply (ok_chain _ _ Hn (Core_kernel _ _ _ _ _ Hs3 HC2)).
    + rewrite (sk_curr _ _ Hs3), (ch_curr _ _ _ _ _ Hch). apply HA.
    + rewrite (sk_nest _ _ Hs3), (ch_nest _ _ _ _ _ Hch), (at_nest _ _ _ _ _ _ HA). done.
    + rewrite (dis_lvl _ _ (sk_lvl _ _ Hs3)), (dis_lvl _ _ (ch_lvl _ _ _ _ _ Hch)), (at_dis _ _ _ _ _ _ HA). done.
    + unfold held. by rewrite Et.
    + done.
    + by left.
    + by rewrite Et.
    + intros ->. done.
Qed.
End Services.
End Tasks.
