(* ===== verification/Os_Resources.v ===== *)
(** * Resources, and the services that keep the processor

    [GetResource], [ReleaseResource], the return of a task function, and the services that only read. *)

From stdpp Require Import sets.
From S2P Require Import Prelude.
From S2P Require Import StateMonad.
From S2P Require Import Coroutine.
From S2P Require Import Os_Irq.
From S2P Require Import Os_Types.
From S2P Require Import Os.
From S2P Require Import Os_Timers.
From S2P Require Import Os_System.
From S2P Require Import Os_Inv.
From S2P Require Import Os_Update.
From S2P Require Import Os_Dispatch.
From S2P Require Import Os_Kernel.
From S2P Require Import Os_Tasks.

Section Resources.
Context {W : Type} {Cfg : Os_Cfg} {Env : Os_Env W}.
Abbreviation S := (Os_State W).
Implicit Types (s : S) (x : nat -> Prop).

#[local] Arguments Os_TaskGet : simpl never.
#[local] Arguments Os_ResourceGet : simpl never.
#[local] Arguments task_set : simpl never.
#[local] Arguments res_set : simpl never.
#[local] Arguments constPtr : simpl never.

(** ** Taking and releasing *)
Lemma run_add r t s :
  (r < length s.(resource_list))%nat -> (t < length s.(Os_TaskVarList))%nat -> r ∉ held s t -> (Rs s r).(type) <> RESOURCE_TYPE_INTERNAL ->
  exists s', Os_TaskResourceAdd r t s = Some (tt, s') /\
    traded t (set_resourceHead (held s t ++ [r]) (set_activePriority (Rs s r).(ceiling_priority) (T s t))) r
      (set_old_task_prio (act s t) (set_owner (Some t) (Rs s r))) s s'.
Proof.
  intros Hr Ht Hnot Hty. unfold Os_TaskResourceAdd, bind. rewrite run_TaskGet by done. cbn [mbind option_bind].
  rewrite run_res_set by done. cbn [mbind option_bind]. set (f := fun q => set_old_task_prio _ _).
  rewrite run_ResourceGet by (by rewrite len_upr). cbn [mbind option_bind]. rewrite Rs_upr, decide_True by done.
  change (f (Rs s r)).(ceiling_priority) with (Rs s r).(ceiling_priority). change (f (Rs s r)).(type) with (Rs s r).(type).
  set (s1 := upr r f s). set (g := set_activePriority _). rewrite run_task_set by done. cbn [mbind option_bind].
  rewrite bool_decide_eq_true_2 by done. rewrite run_TaskGet by (by rewrite len_upd). cbn [mbind option_bind].
  rewrite T_upd, decide_True by done. change (T s1 t) with (T s t). change (g (T s t)).(resourceHead) with (held s t).
  unfold TAILQ_INSERT_TAIL. rewrite bool_decide_eq_false_2 by done. cbn [deref mbind option_bind]. unfold deref. cbn [mbind option_bind].
  rewrite run_task_set by (by rewrite len_upd). eexists. split; [done|]. split; try done.
  - intros u. rewrite !T_upd by (rewrite ?len_upd; done). change (T s1 u) with (T s u). by destruct (decide (u = t)) as [->|].
  - intros q. change (Rs (upr r f s) q = if decide (q = r) then f (Rs s r) else Rs s q). rewrite Rs_upr by done. by destruct (decide (q = r)) as [->|].
  - rewrite !len_upd. done.
  - apply length_alter.
Qed.
Lemma filter_snoc r (l : list nat) : r ∉ l -> filter (fun y => y <> r) (l ++ [r]) = l.
Proof.
  intros H. rewrite list.filter_app. rewrite filter_cons_False, filter_nil, app_nil_r by (intros E; by apply E).
  induction l as [|q l IH]; [done|]. rewrite filter_cons_True by set_solver. f_equal. apply IH. set_solver.
Qed.
Lemma run_remove r t l s :
  (r < length s.(resource_list))%nat -> (t < length s.(Os_TaskVarList))%nat -> held s t = l ++ [r] -> r ∉ l ->
  (Rs s r).(owner) = Some t -> (Rs s r).(type) <> RESOURCE_TYPE_INTERNAL ->
  exists s', Os_TaskResourceRemove r t s = Some (tt, s') /\
    traded t (set_resourceHead l (set_activePriority (Rs s r).(old_task_prio) (T s t))) r (set_owner None (Rs s r)) s s'.
Proof.
  intros Hr Ht Hl Hnot Ho Hty. unfold Os_TaskResourceRemove, bind. rewrite run_ResourceGet by done. cbn [mbind option_bind].
  rewrite run_ASSERT by (by apply bool_decide_eq_true_2). cbn [mbind option_bind].
  rewrite run_res_set by done. cbn [mbind option_bind]. set (s1 := upr r _ s). set (g := set_activePriority _).
  rewrite run_task_set by done. cbn [mbind option_bind]. rewrite bool_decide_eq_true_2 by done.
  rewrite run_TaskGet by (by rewrite len_upd). cbn [mbind option_bind].
  rewrite T_upd, decide_True by done. change (T s1 t) with (T s t). change (g (T s t)).(resourceHead) with (held s t). rewrite Hl.
  rewrite run_ASSERT by (apply bool_decide_eq_true_2; by destruct l). cbn [mbind option_bind].
  rewrite run_ASSERT by (apply bool_decide_eq_true_2, last_snoc). cbn [mbind option_bind].
  unfold TAILQ_REMOVE. rewrite bool_decide_eq_true_2 by set_solver. unfold deref. cbn [mbind option_bind]. rewrite filter_snoc by done.
  rewrite run_task_set by (by rewrite len_upd). eexists. split; [done|]. split; try done.
  - intros u. rewrite !T_upd by (rewrite ?len_upd; done). change (T s1 u) with (T s u). by destruct (decide (u = t)) as [->|].
  - intros q. change (Rs (upr r (set_owner None) s) q = if decide (q = r) then set_owner None (Rs s r) else Rs s q).
    rewrite Rs_upr by done. by destruct (decide (q = r)) as [->|].
  - rewrite !len_upd. done.
  - apply length_alter.
Qed.

(** ** Services that keep the processor

    An assertion that does not depend on the error data, the world and the interrupt mask. *)
Class Keeps (J : S -> Prop) := { keeps_same s s' : same_kernel s s' -> J s -> J s' }.
Section Keeping.
Context {J : S -> Prop} {HJ : Keeps J}.
Lemma wok_err rv svc ps s : J s -> wp (OS_STD_ERR rv svc ps) (fun _ => J) s.
Proof using HJ. intros H. destruct (run_err rv svc ps s) as (s' & E & Hs). eapply wp_run; [exact E|]. by eapply keeps_same. Qed.
Lemma wok_validate c rv svc ps (k : M S Z) s :
  J s -> (c = true -> wp k (fun _ => J) s) -> wp (OS_VALIDATE_STD c rv svc ps k) (fun _ => J) s.
Proof using HJ. intros H Hk. unfold OS_VALIDATE_STD. destruct c; [by apply Hk|by apply wok_err]. Qed.
Lemma wok_failed {A} rv svc ps (r : Z -> A) s : J s -> wp (bind (OS_STD_ERR rv svc ps) (fun rv => ret (r rv))) (fun _ => J) s.
Proof using HJ. intros H. apply wp_bind. eapply (wp_mono _ (fun _ => J)); [by apply wok_err|done]. Qed.
Lemma wok_save {A} (k : bool -> M S A) s :
  J s -> (forall f s', same_kernel s s' -> J s' -> wp (k f) (fun _ => J) s') -> wp (bind Irq_Save k) (fun _ => J) s.
Proof using HJ. intros HA H. apply (H _ (set_irq (irq_set false s.(irq)) s)); [done|]. by eapply (keeps_same s). Qed.
Lemma wok_restore {A} f (k : unit -> M S A) s :
  J s -> (forall s', same_kernel s s' -> J s' -> wp (k tt) (fun _ => J) s') -> wp (bind (Irq_Restore f) k) (fun _ => J) s.
Proof using HJ. intros HA H. apply (H (set_irq (irq_set f s.(irq)) s)); [done|]. by eapply (keeps_same s). Qed.
Lemma wp_step {A B} (m : M S A) (k : A -> M S B) Q s a s' : m s = Some (a, s') -> wp (k a) Q s' -> wp (bind m k) Q s.
Proof using Type. intros E H. unfold wp, bind. by rewrite E. Qed.
Lemma wok_end {A} f (r : A) s : J s -> wp (bind (Irq_Restore f) (fun _ => ret r)) (fun _ => J) s.
Proof using HJ. intros HA. by apply wok_restore. Qed.
Lemma wok_end_err f rv svc ps s : J s -> wp (bind (Irq_Restore f) (fun _ => OS_STD_ERR rv svc ps)) (fun _ => J) s.
Proof using HJ. intros HA. apply wok_restore; [done|]. intros s' _. apply wok_err. Qed.
End Keeping.

Section Services.
Context (sh : Shape) (t : nat) (nst : Z) (b : bool).
Hypothesis Hv : valid_cfg.
Abbreviation At := (At sh t nst b).
Abbreviation ok := (kwp (G sh t nst) L (R sh t)).

#[export] Instance At_keeps x : Keeps (At x).
Proof using Type. split. intros s s'. apply At_same. Qed.

Lemma GetTaskState_ok x d p s : At x s -> wp (GetTaskState d p) (fun _ => At x) s.
Proof using Hv.
  intros HA. unfold GetTaskState. apply wp_if; [intros _; by apply wok_failed|intros _]. apply wp_if; [intros _; by apply wok_failed|].
  intros Hd%negb_false_iff%Nat.ltb_lt. eapply wp_step; [apply run_TaskGet; rewrite (at_len _ _ _ _ _ _ HA); lia|].
  pose proof (q_state s (at_queue _ _ _ _ _ _ HA) d Hd). by destruct (T s d).(state).
Qed.
Lemma GetTaskID_ok x p s : At x s -> wp (GetTaskID p) (fun _ => At x) s.
Proof using Hv. intros HA. unfold GetTaskID. apply wp_if; [intros _; by apply wok_failed|]. done. Qed.
Lemma GetEvent_ok x d p s : At x s -> wp (GetEvent d p) (fun _ => At x) s.
Proof using Hv.
  intros HA. unfold GetEvent. apply wp_if; [intros _; by apply wok_failed|intros _]. eapply wp_step; [done|].
  apply wp_if; [intros _; by apply wok_failed|intros _]. apply wp_if; [intros _; by apply wok_failed|].
  intros Hd%negb_false_iff%Nat.ltb_lt. eapply wp_step; [by apply run_constPtr|]. apply wp_if; [intros _; by apply wok_failed|intros _].
  eapply wp_step; [apply run_TaskGet; rewrite (at_len _ _ _ _ _ _ HA); lia|]. apply wp_if; [intros _; by apply wok_failed|intros _].
  apply wok_save; [done|]. intros f s' Hs HA'. by apply wok_end.
Qed.
Lemma ClearEvent_ok x mask s : At x s -> wp (ClearEvent mask) (fun _ => At x) s.
Proof using Hv.
  intros HA. pose proof (at_range _ _ _ _ _ _ HA) as Ht. unfold ClearEvent. eapply wp_step; [done|]. fold (curr s). rewrite (at_curr _ _ _ _ _ _ HA).
  eapply wp_step; [done|]. apply wok_validate; [done|]. intros _. eapply wp_step; [done|]. apply wok_validate; [done|]. fold (nest s). intros Hn%Z.eqb_eq.
  eapply wp_step; [by apply run_constPtr|]. apply wok_validate; [done|]. intros _.
  apply wok_save; [done|]. intros f s1 Hs1 HA1. pose proof (at_len _ _ _ _ _ _ HA1) as Hl. eapply wp_step; [apply run_task_set; lia|]. apply wok_end.
  rewrite (at_nest _ _ _ _ _ _ HA) in Hn. pose proof (at_task _ _ _ _ _ _ Hn HA1) as HC.
  pose proof (end_state _ _ _ _ HC (at_curr _ _ _ _ _ _ HA1)) as Hst. eapply At_task; [exact HA1|apply changed_upd; lia|done..| | |]; cbn; rewrite Hst; try done.
  intros _. apply (end_active _ _ _ _ HC), HA1.
Qed.

(** ** GetResource *)
Lemma At_acquire x p r r' s s' :
  nst = 0 -> At x s -> traded t p r r' s s' -> keeps_rest (T s t) p ->
  r'.(ceiling_priority) = (Rs s r).(ceiling_priority) -> r'.(type) = (Rs s r).(type) ->
  (Rs s r).(owner) = None -> act s t <= (Rs s r).(ceiling_priority) ->
  r'.(owner) = Some t -> r'.(old_task_prio) = act s t ->
  p.(resourceHead) = held s t ++ [r] -> p.(activePriority) = (Rs s r).(ceiling_priority) -> At x s'.
Proof using Type.
  intros Hn HA Htd Hk. pose proof (at_curr _ _ _ _ _ _ HA) as Hc. intros Ece Ety Ho Hle Eo Ep Eh Ea.
  split; [split|..].
  - rewrite <- Hc in *. eapply Core_acquire; try done. apply HA.
  - intros Hst Hs u Hu. rewrite (td_curr _ _ _ _ _ _ Htd), Hc in *. rewrite (td_ready _ _ _ _ _ _ Htd) in Hu.
    unfold act. rewrite !(td_T _ _ _ _ _ _ Htd). rewrite (decide_True (P := t = t)) by done. destruct (decide (u = t)) as [->|]; [done|].
    pose proof (at_top _ _ _ _ _ _ _ Hn HA Hs Hu). rewrite Ea. unfold act in *. lia.
  - by rewrite (td_curr _ _ _ _ _ _ Htd).
  - rewrite (td_nest _ _ _ _ _ _ Htd). apply HA.
  - rewrite (dis_lvl _ _ (td_lvl _ _ _ _ _ _ Htd)). apply HA.
Qed.
Lemma GetResource_ok x r s : (sch s ∉ held s t) \/ r <> sch s -> At x s -> wp (GetResource r) (fun _ => At x) s.
Proof using Hv.
  intros Hsch HA. pose proof (at_range _ _ _ _ _ _ HA) as Ht. unfold GetResource. eapply wp_step; [done|]. apply wok_validate; [done|]. intros _.
  eapply wp_step; [done|]. fold (sch s). apply wok_validate; [done|]. intros Hr%Nat.leb_le. apply wok_save; [done|]. intros f s1 Hs1 HA1.
  assert (Esch : sch s1 = sch s) by (unfold sch; by rewrite (sk_res _ _ Hs1)).
  assert (Hsch1 : (sch s1 ∉ held s1 t) \/ r <> sch s1) by (rewrite Esch; unfold held; by rewrite (same_T _ _ _ Hs1)).
  rewrite <- Esch in *. clear Hs1 HA Esch Hsch s. pose proof (at_len _ _ _ _ _ _ HA1) as Hl.
  pose proof (i_res _ _ _ _ (at_core _ _ _ _ _ _ HA1)) as Hri.
  assert (Hrl : (r < length s1.(resource_list))%nat) by (pose proof (r_some s1 Hri); unfold sch in Hr; lia).
  eapply wp_step; [done|]. fold (nest s1). rewrite (at_nest _ _ _ _ _ _ HA1). apply wp_if; [intros _; by apply wok_end_err|]. intros Hn%negb_false_iff%Z.eqb_eq.
  eapply wp_step; [done|]. fold (curr s1). rewrite (at_curr _ _ _ _ _ _ HA1).
  eapply wp_step; [apply run_TaskGet; lia|]. eapply wp_step; [by apply run_constPtr|]. eapply wp_step; [by apply run_ResourceGet|].
  apply wp_if; [intros _; by apply wok_end_err|]. intros Hcond.
  assert (H : (Rs s1 r).(owner) = None /\ act s1 t <= (Rs s1 r).(ceiling_priority)).
  { destruct (decide (r = sch s1)) as [->|Hne].
    - split; [|rewrite (r_scheduler s1 Hri); by apply act_max].
      destruct (Rs s1 (sch s1)).(owner) as [o|] eqn:Eo; [|done]. exfalso.
      destruct (scheduler_owner sh Hv _ _ _ _ (at_core _ _ _ _ _ _ HA1) Eo) as [E _]. rewrite (at_curr _ _ _ _ _ _ HA1) in E. subst o.
      apply (r_owner s1 Hri) in Eo. by destruct Hsch1.
    - rewrite bool_decide_eq_true_2 in Hcond by done. apply orb_false_elim in Hcond as [[_ Ho%bool_decide_eq_false%dec_stable]%orb_false_elim Hlt%Z.ltb_ge]. done. }
  destruct H as [Ho Hle].
  destruct (run_add r t s1) as (s2 & E & Htd); [done|lia| |apply Hri|].
  { intros Hin. apply (r_owner s1 Hri) in Hin. congruence. }
  eapply wp_step; [exact E|]. apply wok_end. by eapply At_acquire.
Qed.

(** ** ReleaseResource *)
Lemma Core_released x p r r' l s s' :
  nst = 0 -> At x s -> traded t p r r' s s' -> keeps_rest (T s t) p ->
  r'.(ceiling_priority) = (Rs s r).(ceiling_priority) -> r'.(type) = (Rs s r).(type) ->
  held s t = l ++ [r] -> r'.(owner) = None -> p.(resourceHead) = l -> p.(activePriority) = (Rs s r).(old_task_prio) ->
  Core sh x ST_RUNNING s' /\ curr s' = t /\ nest s' = 0 /\ dis s' = b.
Proof using Type.
  intros Hn HA Htd Hk. pose proof (at_curr _ _ _ _ _ _ HA) as Hc. pose proof (at_task _ _ _ _ _ _ Hn HA) as HC. intros Ece Ety Eh Eo Ep Ea.
  split_and!.
  - rewrite <- Hc in *. by eapply Core_release.
  - by rewrite (td_curr _ _ _ _ _ _ Htd).
  - rewrite (td_nest _ _ _ _ _ _ Htd), (at_nest _ _ _ _ _ _ HA). done.
  - rewrite (dis_lvl _ _ (td_lvl _ _ _ _ _ _ Htd)). apply HA.
Qed.
(** A resource that the running task may access belongs to no other task: the priority ceiling. *)
Lemma owner_self x st s r o :
  Core sh x st s -> (r < sch s)%nat /\ Z.testbit (C (curr s)).(resourceAccess) (Z.of_nat r) = true \/ r = sch s ->
  (Rs s r).(owner) = Some o -> o = curr s.
Proof using Hv.
  intros HC [[Hr Hacc]| ->] Ho; [|by eapply scheduler_owner]. destruct (decide (o = curr s)) as [|Hne]; [done|exfalso].
  pose proof (i_res _ _ _ _ HC) as Hri. apply (r_owner s Hri) in Ho. pose proof (r_ceiling s Hri r (curr s) Hr Hacc) as H1.
  assert (Hh : held s o <> []) by (intros E; rewrite E in Ho; set_solver).
  pose proof (p_run s (i_prio _ _ _ _ HC) o Hne Hh) as H2. pose proof (chain_ceiling _ _ _ _ _ (r_chain s Hri o) Ho) as H3. lia.
Qed.

Lemma ReleaseResource_ok x r s :
  ((Rs s r).(owner) = Some t -> list.last (held s t) = Some r) -> At x s -> ok x (ReleaseResource r) (fun x _ => At x) s.
Proof using Hv.
  intros Hlast HA. pose proof (at_range _ _ _ _ _ _ HA) as Ht. unfold ReleaseResource. apply ok_curr; [apply HA|]. apply (ok_disabled _ _ _ b); [apply HA|].
  apply ok_validate; [done|]. intros Hb%negb_true_iff. eapply kwp_run; [done|]. fold (sch s). apply ok_validate; [done|]. intros Hr%Nat.leb_le.
  apply ok_save. intros f s1 Hs1. assert (Esch : sch s1 = sch s) by (unfold sch; by rewrite (sk_res _ _ Hs1)).
  rewrite <- (same_Rs _ _ _ Hs1) in Hlast. assert (Hlast1 : (Rs s1 r).(owner) = Some t -> list.last (held s1 t) = Some r) by (unfold held; by rewrite (same_T _ _ _ Hs1)).
  apply (At_same _ _ _ _ _ _ _ Hs1) in HA. rewrite <- Esch in *. clear Hs1 Esch Hlast s. pose proof (at_len _ _ _ _ _ _ HA) as Hl.
  pose proof (at_core _ _ _ _ _ _ HA) as HC. pose proof (i_res _ _ _ _ HC) as Hri.
  assert (Hrl : (r < length s1.(resource_list))%nat) by (pose proof (r_some s1 Hri); unfold sch in Hr; lia).
  apply (ok_nest _ _ nst); [apply HA|]. apply kwp_if; [intros _; by apply ok_end_err|]. intros Hn%negb_false_iff%Z.eqb_eq.
  apply ok_const; [done|]. apply kwp_if; [intros _; by apply ok_err|]. intros Hacc.
  eapply kwp_run; [by apply run_ResourceGet|]. apply kwp_if; [intros _; by apply ok_end_err|]. intros Ho%bool_decide_eq_false.
  destruct (Rs s1 r).(owner) as [o|] eqn:Eo; [|done]. assert (o = t) as ->.
  { rewrite <- (at_curr _ _ _ _ _ _ HA) in *. eapply owner_self; [done| |done].
    destruct (decide (r = sch s1)) as [->|Hne]; [by right|left]. rewrite bool_decide_eq_true_2 in Hacc by done. apply negb_false_iff in Hacc.
    split; [lia|done]. }
  specialize (Hlast1 eq_refl). apply last_Some in Hlast1 as [l Eh]. assert (Hin : r ∈ held s1 t) by (rewrite Eh; set_solver).
  pose proof (r_nodup s1 Hri t) as Hnd. rewrite Eh in Hnd. apply list.NoDup_app in Hnd as (_ & Hnd & _).
  apply ok_get; [lia|]. apply ok_assert; [apply Z.leb_le; by apply (chain_ceiling _ _ _ _ _ (r_chain s1 Hri t))|].
  destruct (run_remove r t l s1) as (s2 & E & Htd); [done|lia|done| |done|apply Hri|].
  { intros H. apply (Hnd r H). set_solver. }
  eapply kwp_run; [exact E|]. apply ok_then.
  destruct (Core_released _ _ _ _ l _ _ Hn HA Htd) as (HC2 & Hc2 & Hn2 & Hd2); [done..|]. clear Htd E HC HA Hl. pose proof (q_len s2 (i_queue _ _ _ _ HC2)) as Hl.
  assert (HAt : ((C t).(scheduling) = FULL -> forall u, u ∈ ready s2 -> act s2 u <= act s2 t) -> At x s2).
  { intros Htop. split; [|done|by rewrite Hn|done]. unfold level. rewrite decide_True by done. split; [done|]. intros _. by rewrite Hc2. }
  apply kwp_if; intros Hs; [apply bool_decide_eq_true in Hs|apply bool_decide_eq_false in Hs; by apply kwp_ret, HAt].
  destruct (run_top s2 (i_queue _ _ _ _ HC2)) as (n & E & Htop). eapply kwp_run; [exact E|].
  pose proof (ready_range _ _ (i_queue _ _ _ _ HC2) (top_in _ _ Htop)) as Hnt.
  apply ok_get; [lia|]. apply ok_get; [lia|]. apply kwp_if.
  - intros Hlt%Z.ltb_lt. eapply (ok_preempt sh t nst b Hv); try done; [by rewrite Hd2|]. eapply free_lower; [done..|]. by rewrite Hc2.
  - intros Hge%Z.ltb_ge. apply kwp_ret, HAt. intros _ u Hu. pose proof (top_max _ _ Htop u Hu). unfold act in *. lia.
Qed.

(** ** The return of a task function *)
(** The locks of the application are no part of the invariant. *)
Lemma Core_irq x st i n s : Core sh x st s -> Core sh x st (set_irq i (set_Os_IntDisableAllCnt n s)).
Proof using Type. intros [[] [] [] [] ? [] ? ? ? ? ? ? ?]. split; [by split|by split|by split|by split|done|by split|done..]. Qed.
Lemma Inv_irq x st i n s : Inv sh x st s -> Inv sh x st (set_irq i (set_Os_IntDisableAllCnt n s)).
Proof using Type. intros [HC HT]. split; [by apply Core_irq|done]. Qed.
Lemma run_clear s : exists s', (if dis s then Os_SysIntClearAll else ret tt) s = Some (tt, s') /\ dis s' = false /\
  exists i n, s' = set_irq i (set_Os_IntDisableAllCnt n s).
Proof using Type.
  destruct (dis s) eqn:E; eexists; (split; [done|]); (split; [done|]); [by eexists _, _|]. exists s.(irq), s.(Os_IntDisableAllCnt). by destruct s.
Qed.
Lemma run_error_hook e s : exists s', Os_CallErrorHook e s = Some (tt, s') /\ same_kernel s s'.
Proof using Type. unfold Os_CallErrorHook. destruct OS_ERROR_HOOK; by eexists. Qed.
Lemma run_free_all x s :
  nst = 0 -> At x s -> (length (held s t) <= 1)%nat -> (T s t).(activations) = 1 \/ held s t = [] ->
  exists s', (if bool_decide (held s t <> []) then Os_TaskResourceFreeAll t else ret tt) s = Some (tt, s') /\
    Core sh x ST_RUNNING s' /\ curr s' = t /\ nest s' = 0 /\ dis s' = b /\ held s' t = [] /\
    (1 < (T s' t).(activations) -> forall u, u ∈ ready s' -> act s' u <= act s' t).
Proof using Hv.
  intros Hn HA Hlen Hone. pose proof (at_task _ _ _ _ _ _ Hn HA) as HC. pose proof (i_res _ _ _ _ HC) as Hri.
  pose proof (at_range _ _ _ _ _ _ HA) as Ht. pose proof (at_len _ _ _ _ _ _ HA) as Hl.
  destruct (held s t) as [|r [|r2 l]] eqn:Eh; [| |cbn in Hlen; lia].
  - rewrite bool_decide_eq_false_2 by (intros H; by apply H). exists s. split_and!; try done; try apply HA.
    + by rewrite (at_nest _ _ _ _ _ _ HA).
    + by eapply multiple_top.
  - rewrite bool_decide_eq_true_2 by done. assert (Ho : (Rs s r).(owner) = Some t) by (apply (r_owner s Hri); rewrite Eh; set_solver).
    assert (Hrl : (r < length s.(resource_list))%nat).
    { apply not_le. intros Hge. unfold Rs in Ho. rewrite lookup_ge_None_2 in Ho by lia. done. }
    destruct (run_remove r t [] s) as (s2 & E & Htd); [done|lia|by rewrite Eh|set_solver|done|apply Hri|].
    destruct (Core_released _ _ _ _ [] _ _ Hn HA Htd) as (HC2 & Hc2 & Hn2 & Hd2); [done..|].
    pose proof (td_T _ _ _ _ _ _ Htd t) as Et. rewrite decide_True in Et by done.
    exists s2. split_and!; try done.
    + unfold Os_TaskResourceFreeAll, bind. rewrite run_TaskGet by lia. cbn [mbind option_bind]. fold (held s t). rewrite Eh. cbn. unfold bind. by rewrite E.
    + unfold held. by rewrite Et.
    + rewrite Et. cbn. intros H. destruct Hone as [Hone|]; [lia|done].
Qed.
End Services.
Section End_of_task.
Context (sh : Shape) (t : nat) (b : bool).
Hypothesis Hv : valid_cfg.
Lemma TaskPost_ok x s :
  t <> 0%nat -> (length (held s t) <= 1)%nat -> (T s t).(activations) = 1 \/ held s t = [] -> At sh t 0 b x s ->
  kwp (G sh t 0) L (R sh t) x Os_TaskPost (fun x _ => At sh t 0 b x) s.
Proof using Hv.
  intros Ht0 Hlen Hone HA. unfold Os_TaskPost. apply ok_curr; [apply HA|]. apply ok_restore. intros s1 Hs1.
  assert (Hlen1 : (length (held s1 t) <= 1)%nat) by (unfold held; by rewrite (same_T _ _ _ Hs1)).
  assert (Hone1 : (T s1 t).(activations) = 1 \/ held s1 t = []) by (unfold held; by rewrite (same_T _ _ _ Hs1)).
  apply (At_same _ _ _ _ _ _ _ Hs1) in HA. clear Hlen Hone Hs1 s. eapply kwp_run; [done|]. fold (dis s1).
  destruct (run_clear s1) as (s2 & E2 & Hd2 & i & n & Es2). eapply kwp_run; [exact E2|].
  assert (HA2 : At sh t 0 false x s2).
  { subst s2. destruct HA as [HI Hc Hn Hd]. split; [by apply Inv_irq|done..]. }
  assert (Eh : held s2 t = held s1 t) by (by rewrite Es2). assert (Et : T s2 t = T s1 t) by (by rewrite Es2).
  rewrite <- Eh, <- Et in *. clear Es2 E2 HA Eh Et s1. apply ok_occupies; [rewrite (at_len _ _ _ _ _ _ HA2); by eapply at_range|].
  destruct (run_free_all sh t 0 false Hv x s2 eq_refl HA2 Hlen1 Hone1) as (s3 & E3 & HC3 & Hc3 & Hn3 & Hd3 & Hh3 & Htop3).
  eapply kwp_run; [exact E3|]. destruct (run_error_hook E_OS_MISSINGEND s3) as (s4 & E4 & Hs4). eapply kwp_run; [exact E4|].
  apply (TerminateTask_run sh t 0 false Hv); try done.
  - by eapply Core_kernel.
  - by rewrite (sk_curr _ _ Hs4).
  - by rewrite (sk_nest _ _ Hs4).
  - by rewrite (dis_lvl _ _ (sk_lvl _ _ Hs4)).
  - unfold held. by rewrite (same_T _ _ _ Hs4).
  - unfold act. rewrite (sk_ready _ _ Hs4), (same_T _ _ _ Hs4). setoid_rewrite (fun u => same_T _ _ u Hs4). done.
Qed.
End End_of_task.
End Resources.
