(* ===== verification/Os_Timing.v ===== *)
(** * Counters, alarms and schedule tables keep the invariant

    The alarms and schedule tables of a counter are walked while the tasks they activate may run in between: what is fixed of the timers
    carries over every switch.  The nesting of counters is bounded, so that the fuel of [IncrementCounter] is enough. *)

From stdpp Require Import sets.
From S2P Require Import Prelude.
From S2P Require Import StateMonad.
From S2P Require Import Coroutine.
From S2P Require Import Os_Irq.
From S2P Require Import Os_Types.
From S2P Require Import Os.
From S2P Require Import Os_Timers.
From S2P Require Import Os_System.
From S2P Require Import Os_Inv.
From S2P Require Import Os_Update.
From S2P Require Import Os_Dispatch.
From S2P Require Import Os_Kernel.
From S2P Require Import Os_Tasks.
From S2P Require Import Os_Resources.

Section Data.
Context (sh : Shape).

Lemma Forall_alter {A} (P : A -> Prop) f i (l : list A) : Forall P l -> (forall a, l !! i = Some a -> P a -> P (f a)) -> Forall P (alter f i l).
Proof.
  intros HP Hf. apply Forall_lookup. intros j a E. destruct (decide (j = i)) as [->|Hne].
  - rewrite list_lookup_alter_eq in E. destruct (l !! i) as [a'|] eqn:E'; [|done]. injection E as <-. apply Hf; [done|]. by eapply Forall_lookup in HP.
  - rewrite list_lookup_alter_ne in E by done. by eapply Forall_lookup in HP.
Qed.
Lemma timers_alarm f i tm :
  (forall a, (f a).(counter) = a.(counter) /\ (f a).(action) = a.(action)) ->
  timers_ok sh tm -> timers_ok sh (set_alarm_list (alter f i tm.(alarm_list)) tm).
Proof.
  intros Hf []. split; try done; cbn.
  - apply Forall_alter; [done|]. intros a _ []. destruct (Hf a) as [E1 E2]. split; rewrite E1; [done|]. by rewrite E2.
  - rewrite <- tm_alarm_counters. apply list_eq. intros j. rewrite !list_lookup_fmap.
    destruct (decide (j = i)) as [->|Hne]; [|by rewrite list_lookup_alter_ne].
    rewrite list_lookup_alter_eq. destruct (tm.(alarm_list) !! i) as [a|]; [|done]. cbn. f_equal. apply Hf.
Qed.
Lemma timers_sched f i tm :
  (forall t, tm.(sched_list) !! i = Some t -> table_ok sh t -> table_ok sh (f t)) ->
  timers_ok sh tm -> timers_ok sh (set_sched_list (alter f i tm.(sched_list)) tm).
Proof. intros Hf []. split; try done; cbn; [by apply Forall_alter|]. by rewrite length_alter. Qed.
Lemma timers_counter f i tm :
  (forall c, (f c).(alarm_head) = c.(alarm_head) /\ (f c).(sched_head) = c.(sched_head)) ->
  timers_ok sh tm -> timers_ok sh (set_counter_list (alter f i tm.(counter_list)) tm).
Proof.
  intros Hf []. split; try done; cbn; [|by rewrite length_alter]. intros j c E. destruct (decide (j = i)) as [->|Hne].
  - rewrite list_lookup_alter_eq in E. destruct (tm.(counter_list) !! i) as [c'|] eqn:E'; [|done]. injection E as <-.
    destruct (tm_counters _ _ E') as [H1 H2], (Hf c') as [E1 E2]. split; by rewrite ?E1, ?E2.
  - rewrite list_lookup_alter_ne in E by done. by apply tm_counters.
Qed.
Lemma timers_alarm_lookup i c tm : timers_ok sh tm -> sh.(sh_alarms) !! i = Some c -> exists a, tm.(alarm_list) !! i = Some a /\ a.(counter) = c /\ alarm_ok sh a.
Proof.
  intros [] E. rewrite <- tm_alarm_counters, list_lookup_fmap in E. destruct (tm.(alarm_list) !! i) as [a|] eqn:Ea; [|done]. injection E as <-.
  exists a. split_and!; try done. by eapply Forall_lookup in tm_alarms.
Qed.
Lemma timers_alarm_lt i tm : timers_ok sh tm -> (i < length tm.(alarm_list))%nat -> exists a, tm.(alarm_list) !! i = Some a /\ alarm_ok sh a.
Proof. intros [] [a E]%lookup_lt_is_Some_2. exists a. split; [done|]. by eapply Forall_lookup in tm_alarms. Qed.
Lemma timers_table_lt i tm : timers_ok sh tm -> (i < length tm.(sched_list))%nat -> exists t, tm.(sched_list) !! i = Some t /\ table_ok sh t.
Proof. intros [] [t E]%lookup_lt_is_Some_2. exists t. split; [done|]. by eapply Forall_lookup in tm_tables. Qed.
Lemma timers_counter_lt i tm : timers_ok sh tm -> (i < sh.(sh_counters))%nat -> exists c, tm.(counter_list) !! i = Some c /\ counter_ok sh i c.
Proof. intros []. rewrite <- tm_n_counters. intros [c E]%lookup_lt_is_Some_2. exists c. split; [done|]. by apply tm_counters. Qed.
Lemma table_initial t : table_ok sh t -> exists o, Os_SchTblGetInitialOffset t = Some o.
Proof. intros []. unfold Os_SchTblGetInitialOffset. destruct t.(expirePointList); [done|]. by eexists. Qed.
Lemma table_final t : table_ok sh t -> exists o, Os_SchTblGetFinalOffset t = Some o.
Proof.
  intros []. unfold Os_SchTblGetFinalOffset. destruct (lookup_lt_is_Some_2 t.(expirePointList) (pred (length t.(expirePointList)))) as [p ->]; [|by eexists].
  destruct t.(expirePointList); [done|cbn; lia].
Qed.
End Data.

Section Timing.
Context {W : Type} {Cfg : Os_Cfg} {Env : Os_Env W}.
Abbreviation S := (Os_State W).
Implicit Types (s : S) (x : nat -> Prop).

(** An assertion that does not depend on what of the timers can change. *)
Class KeepsTimers (sh : Shape) (J : S -> Prop) := {
  keeps_kernel :: Keeps J;
  keeps_ok s : J s -> timers_ok sh s.(timers);
  keeps_timers tm s : J s -> timers_ok sh tm -> J (set_timers tm s)
}.
Section Keeping.
Context {sh : Shape} {J : S -> Prop} {HJ : KeepsTimers sh J}.

(** ** Access *)
Lemma run_AlarmGet i a s : s.(timers).(alarm_list) !! i = Some a -> Os_AlarmGet i s = Some (a, s).
Proof using Type. intros E. unfold Os_AlarmGet, bind, get, deref. cbn. by rewrite E. Qed.
Lemma run_CounterGet i c s : s.(timers).(counter_list) !! i = Some c -> Os_CounterGet i s = Some (c, s).
Proof using Type. intros E. unfold Os_CounterGet, bind, get, deref. cbn. by rewrite E. Qed.
Lemma run_SchTblGet i a s : s.(timers).(sched_list) !! i = Some a -> Os_SchTblGet i s = Some (a, s).
Proof using Type. intros E. unfold Os_SchTblGet, bind, get, deref. cbn. by rewrite E. Qed.
Lemma wok_alarm {A} i f (k : unit -> M S A) s :
  J s -> (forall a, (f a).(counter) = a.(counter) /\ (f a).(action) = a.(action)) ->
  (forall s', J s' -> wp (k tt) (fun _ => J) s') -> wp (bind (alarm_set i f) k) (fun _ => J) s.
Proof using HJ. intros HA Hf Hk. eapply wp_step; [done|]. apply Hk, keeps_timers; [done|]. apply timers_alarm; [done|by apply keeps_ok]. Qed.
Lemma wok_sched {A} i f (k : unit -> M S A) s :
  J s -> (forall a, s.(timers).(sched_list) !! i = Some a -> table_ok sh a -> table_ok sh (f a)) ->
  (forall s', s' = set_timers (set_sched_list (alter f i s.(timers).(sched_list)) s.(timers)) s -> J s' -> wp (k tt) (fun _ => J) s') ->
  wp (bind (sched_set i f) k) (fun _ => J) s.
Proof using HJ. intros HA Hf Hk. eapply wp_step; [done|]. eapply Hk; [done|]. apply keeps_timers; [done|]. apply timers_sched; [done|by apply keeps_ok]. Qed.

(** ** Alarms *)
Lemma wok_alarm_get {A} i (k : OsAlarmType -> M S A) (Q : A -> S -> Prop) s :
  J s -> (i < length s.(timers).(alarm_list))%nat ->
  (forall a, s.(timers).(alarm_list) !! i = Some a -> alarm_ok sh a -> wp (k a) Q s) -> wp (bind (Os_AlarmGet i) k) Q s.
Proof using HJ.
  intros HA Hi Hk. destruct (timers_alarm_lt sh i _ (keeps_ok _ HA) Hi) as (a & Ea & Ha). eapply wp_step; [by apply run_AlarmGet|]. by apply Hk.
Qed.
Lemma wok_counter_get {A} i (k : OsCounterType -> M S A) (Q : A -> S -> Prop) s :
  J s -> (i < sh.(sh_counters))%nat -> (forall c, wp (k c) Q s) -> wp (bind (Os_CounterGet i) k) Q s.
Proof using HJ.
  intros HA Hi Hk. destruct (timers_counter_lt sh i _ (keeps_ok _ HA) Hi) as (c & Ec & _). eapply wp_step; [by apply run_CounterGet|]. by apply Hk.
Qed.
Lemma wok_table_get {A} i (k : OsSchTblType -> M S A) (Q : A -> S -> Prop) s :
  J s -> (i < length s.(timers).(sched_list))%nat ->
  (forall a, s.(timers).(sched_list) !! i = Some a -> table_ok sh a -> wp (k a) Q s) -> wp (bind (Os_SchTblGet i) k) Q s.
Proof using HJ.
  intros HA Hi Hk. destruct (timers_table_lt sh i _ (keeps_ok _ HA) Hi) as (a & Ea & Ha). eapply wp_step; [by apply run_SchTblGet|]. by apply Hk.
Qed.
Lemma setRelAlarm_ok i inc cycle start s : J s -> wp (Os_internalSetRelAlarm i inc cycle start) (fun _ => J) s.
Proof using HJ.
  intros HA. unfold Os_internalSetRelAlarm. eapply wp_step; [done|]. apply wok_validate; [done|]. intros _. eapply wp_step; [done|].
  apply wok_validate; [done|]. intros Hi%Nat.ltb_lt. apply wok_alarm_get; [done..|]. intros a _ Ha. apply wok_counter_get; [done|apply Ha|]. intros c.
  apply wok_validate; [done|]. intros _. apply wok_validate; [done|]. intros _. apply wok_save; [done|]. intros f s' _ HA'.
  apply wp_if; intros _; [by apply wok_end_err|]. apply wok_alarm; [done..|]. intros s2 HA2. by apply wok_end.
Qed.
Lemma setAbsAlarm_ok i start cycle up s : J s -> wp (Os_internalSetAbsAlarm i start cycle up) (fun _ => J) s.
Proof using HJ.
  intros HA. unfold Os_internalSetAbsAlarm. eapply wp_step; [done|]. apply wok_validate; [done|]. intros _. eapply wp_step; [done|].
  apply wok_validate; [done|]. intros Hi%Nat.ltb_lt. apply wok_alarm_get; [done..|]. intros a _ Ha. apply wok_counter_get; [done|apply Ha|]. intros c.
  apply wok_validate; [done|]. intros _. apply wok_validate; [done|]. intros _. apply wok_save; [done|]. intros f s' _ HA'.
  apply wp_if; intros _; [by apply wok_end_err|]. apply wok_alarm; [done..|]. intros s2 HA2. by apply wok_end.
Qed.
Lemma GetAlarmBase_ok i p s : J s -> wp (GetAlarmBase i p) (fun _ => J) s.
Proof using HJ.
  intros HA. unfold GetAlarmBase. apply wp_if; [intros _; by apply wok_failed|intros _]. eapply wp_step; [done|].
  apply wp_if; [intros _; by apply wok_failed|intros _]. eapply wp_step; [done|]. apply wp_if; [intros _; by apply wok_failed|].
  intros Hi%negb_false_iff%Nat.ltb_lt. apply wok_alarm_get; [done..|]. intros a _ Ha. apply wok_counter_get; [done|apply Ha|]. done.
Qed.
Lemma GetAlarm_ok i p s : J s -> wp (GetAlarm i p) (fun _ => J) s.
Proof using HJ.
  intros HA. unfold GetAlarm. apply wp_if; [intros _; by apply wok_failed|intros _]. eapply wp_step; [done|].
  apply wp_if; [intros _; by apply wok_failed|intros _]. eapply wp_step; [done|]. apply wp_if; [intros _; by apply wok_failed|].
  intros Hi%negb_false_iff%Nat.ltb_lt. apply wok_alarm_get; [done..|]. intros a _ Ha. apply wok_save; [done|]. intros f s' _ HA'.
  apply wp_if; intros _; [apply wok_restore; [done|]; intros s2 _ HA2; by apply wok_failed|].
  apply wok_counter_get; [done|apply Ha|]. intros c. by apply wok_end.
Qed.
Lemma CancelAlarm_ok i s : J s -> wp (CancelAlarm i) (fun _ => J) s.
Proof using HJ.
  intros HA. unfold CancelAlarm. eapply wp_step; [done|]. apply wok_validate; [done|]. intros _. eapply wp_step; [done|].
  apply wok_validate; [done|]. intros Hi%Nat.ltb_lt. apply wok_alarm_get; [done..|]. intros a _ Ha. apply wok_save; [done|]. intros f s' _ HA'.
  apply wp_if; intros _; [by apply wok_end_err|]. apply wok_alarm; [done..|]. intros s2 HA2. by apply wok_end.
Qed.
Lemma AlarmProcess_ok i s : J s -> (i < length s.(timers).(alarm_list))%nat -> wp (AlarmProcess i) (fun _ => J) s.
Proof using HJ.
  intros HA Hi. unfold AlarmProcess. apply wok_alarm_get; [done..|]. intros a _ Ha. apply wp_if; intros _.
  - apply wp_modify, keeps_timers; [done|]. apply timers_alarm; [done|by apply keeps_ok].
  - apply wok_counter_get; [done|apply Ha|]. intros c. apply wp_modify, keeps_timers; [done|]. apply timers_alarm; [done|by apply keeps_ok].
Qed.

(** ** Counters *)
Lemma GetCounterValue_ok i p s : J s -> wp (GetCounterValue i p) (fun _ => J) s.
Proof using HJ.
  intros HA. unfold GetCounterValue. apply wp_if; [intros _; by apply wok_failed|intros _]. eapply wp_step; [done|].
  apply wp_if; [intros _; by apply wok_failed|intros _]. eapply wp_step; [done|]. apply wp_if; [intros _; by apply wok_failed|].
  intros Hi%negb_false_iff%Nat.ltb_lt. apply wok_counter_get; [done| |done]. by rewrite <- (tm_n_counters _ _ (keeps_ok _ HA)).
Qed.
Lemma GetElapsedValue_ok i q v p s : J s -> wp (GetElapsedValue i q v p) (fun _ => J) s.
Proof using HJ.
  intros HA. unfold GetElapsedValue. do 2 (apply wp_if; [intros _; by apply wok_failed|intros _]). eapply wp_step; [done|]. 
  apply wp_if; [intros _; by apply wok_failed|intros _]. eapply wp_step; [done|]. apply wp_if; [intros _; by apply wok_failed|].
  intros Hi%negb_false_iff%Nat.ltb_lt. apply wok_counter_get; [done|by rewrite <- (tm_n_counters _ _ (keeps_ok _ HA))|]. intros c.
  apply wp_if; [intros _; by apply wok_failed|intros _]. apply wp_bind. eapply (wp_mono _ (fun _ => J)); [by apply GetCounterValue_ok|]. done.
Qed.

(** ** Schedule tables *)
Lemma wok_check_id {A} i (k : bool -> M S A) s :
  (forall c, (c = true -> (i < length s.(timers).(sched_list))%nat) -> wp (k c) (fun _ => J) s) -> wp (bind (SCHED_CHECK_ID i) k) (fun _ => J) s.
Proof using HJ. intros Hk. eapply wp_step; [done|]. apply Hk. intros [_ H%Nat.ltb_lt]%andb_prop. done. Qed.
Lemma StartScheduleTableRel_ok up i o s : J s -> wp (StartScheduleTableRel_ up i o) (fun _ => J) s.
Proof using HJ.
  intros HA. unfold StartScheduleTableRel_. eapply wp_step; [done|]. apply wok_validate; [done|]. intros _.
  apply wok_check_id. intros c Hi. apply wok_validate; [done|]. intros Hc. apply wok_table_get; [auto..|]. intros a _ Ha.
  apply wok_counter_get; [done|apply Ha|]. intros cn. destruct (table_initial _ _ Ha) as [o' ->]. eapply wp_step; [done|].
  apply wok_validate; [done|]. intros _. apply wok_validate; [done|]. intros _. apply wok_save; [done|]. intros f s' _ HA'.
  apply wok_sched; [done| |intros s2 _ HA2; by apply wok_end]. intros a' _ []. by split.
Qed.
Lemma StartScheduleTableAbs_ok up i o s : J s -> wp (StartScheduleTableAbs_ up i o) (fun _ => J) s.
Proof using HJ.
  intros HA. unfold StartScheduleTableAbs_. eapply wp_step; [done|]. apply wok_validate; [done|]. intros _.
  apply wok_check_id. intros c Hi. apply wok_validate; [done|]. intros Hc. apply wok_table_get; [auto..|]. intros a _ Ha.
  apply wok_counter_get; [done|apply Ha|]. intros cn. apply wok_validate; [done|]. intros _. apply wok_validate; [done|]. intros _.
  apply wok_save; [done|]. intros f s' _ HA'. destruct (table_initial _ _ Ha) as [o' ->]. eapply wp_step; [done|].
  apply wok_sched; [done| |intros s2 _ HA2; by apply wok_end]. intros a' _ []. by split.
Qed.
Lemma StopScheduleTable_ok i s : J s -> wp (StopScheduleTable i) (fun _ => J) s.
Proof using HJ.
  intros HA. unfold StopScheduleTable. eapply wp_step; [done|]. apply wok_validate; [done|]. intros _.
  apply wok_check_id. intros c Hi. apply wok_validate; [done|]. intros Hc. apply wok_table_get; [auto..|]. intros a _ Ha.
  apply wok_validate; [done|]. intros _. apply wok_sched; [done| |done]. intros a' _ []. by split.
Qed.
Lemma GetScheduleTableStatus_ok i p s : J s -> p <> 0 -> wp (GetScheduleTableStatus i p) (fun _ => J) s.
Proof using HJ.
  intros HA Hp%Z.eqb_neq. unfold GetScheduleTableStatus. rewrite Hp. eapply wp_step; [done|]. apply wp_if; [intros _; by apply wok_failed|intros _].
  apply wok_check_id. intros c Hi. apply wp_if; [intros _; by apply wok_failed|]. intros Hc%negb_false_iff. apply wok_table_get; [auto..|]. intros a _ Ha.
  apply wok_save; [done|]. intros f s' _ HA'. eapply wp_step; [done|]. by apply wok_end.
Qed.

(** The next expiry. *)
Lemma wok_expire {A} i delta (k : unit -> M S A) s :
  J s -> (i < length s.(timers).(sched_list))%nat ->
  (forall s', J s' -> (forall a, s.(timers).(sched_list) !! i = Some a -> exists v, s'.(timers).(sched_list) !! i = Some (set_st_expire_val v a)) ->
    wp (k tt) (fun _ => J) s') ->
  wp (bind (expire_after i delta) k) (fun _ => J) s.
Proof using HJ.
  intros HA Hi Hk. unfold expire_after. apply wp_bind, wok_table_get; [done..|]. intros a Ea Ha. apply wok_counter_get; [done|apply Ha|]. intros c.
  apply wp_modify, Hk.
  - apply keeps_timers; [done|]. apply timers_sched; [|by apply keeps_ok]. intros t' _ []. by split.
  - intros a' Ea'. eexists. cbn. rewrite list_lookup_alter_eq, Ea'. done.
Qed.
Lemma keeps_n_tables s : J s -> length s.(timers).(sched_list) = sh.(sh_tables).
Proof using HJ. intros HA. apply (keeps_ok _ HA). Qed.
Lemma final_expiry_ok i s : J s -> (i < length s.(timers).(sched_list))%nat -> wp (final_expiry i) (fun _ => J) s.
Proof using HJ.
  intros HA Hi. unfold final_expiry. apply wok_table_get; [done..|]. intros a Ea Ha.
  assert (Hend : forall s', J s' -> wp (sched_set i (set_expire_curr_index 0)) (fun _ => J) s').
  { intros s' HA'. apply wp_modify, keeps_timers; [done|]. apply timers_sched; [|by apply keeps_ok]. intros a' _ []. split; try done. cbn. lia. }
  rewrite (st_next _ _ Ha). rewrite bool_decide_eq_false_2 by (intros H; by apply H). rewrite orb_false_r. apply wp_bind. apply wp_if; intros _.
  - destruct (table_initial _ _ Ha) as [o ->]. eapply wp_step; [done|].
    assert (H : wp (bind (expire_after i o) (fun _ => ret tt)) (fun _ => J) s) by (apply wok_expire; [done..|]; intros s' HA' _; done).
    unfold wp, bind in H |- *. destruct (expire_after i o s) as [[[] s']|]; [|done]. by apply Hend.
  - apply wp_modify, Hend, keeps_timers; [done|]. apply timers_sched; [|by apply keeps_ok]. intros a' _ []. by split.
Qed.
Lemma UpdateState_ok i s : J s -> (i < length s.(timers).(sched_list))%nat -> wp (Os_SchTblUpdateState i) (fun _ => J) s.
Proof using HJ.
  intros HA Hi. unfold Os_SchTblUpdateState. apply wok_table_get; [done..|]. intros a Ea Ha.
  assert (Hup : forall v s' , J s' -> s'.(timers).(sched_list) !! i = Some (set_st_expire_val v a) -> a.(expire_curr_index) < Z.of_nat (length a.(expirePointList)) ->
    wp (sched_set i (fun t => set_expire_curr_index (t.(expire_curr_index) + 1) t)) (fun _ => J) s').
  { intros v s' HA' Ea' Hlt. apply wp_modify, keeps_timers; [done|]. apply timers_sched; [|by apply keeps_ok]. intros a' E' []. rewrite Ea' in E'.
    injection E' as <-. split; try done. cbn in *. lia. }
  pose proof (st_index _ _ Ha) as Hix. apply wp_if; [intros Hl%Z.eqb_eq|intros Hl%Z.eqb_neq; apply wp_if; [intros _; by apply final_expiry_ok|intros Hl2%Z.eqb_neq]].
  - destruct (table_final _ _ Ha) as [o Eo]. rewrite Eo. eapply wp_step; [done|]. apply wp_if; intros Hz.
    + apply wok_expire; [done..|]. intros s' HA' Hs'. destruct (Hs' a Ea) as [v Ev]. eapply Hup; [done..|lia].
    + eapply wp_step; [apply run_ASSERT|by apply final_expiry_ok]. apply negb_false_iff, Z.eqb_eq in Hz. subst o.
      destruct a.(repeating) eqn:Er; [|done]. by destruct (st_final _ _ Ha Er).
  - assert (Href : forall j, 0 <= j < Z.of_nat (length a.(expirePointList)) -> exists p, aref a.(expirePointList) j = Some p).
    { intros j Hj. unfold aref. rewrite (proj2 (Z.leb_le _ _)) by lia. apply lookup_lt_is_Some_2. lia. }
    destruct (Href (a.(expire_curr_index) + 1)) as [p1 ->]; [lia|]. destruct (Href a.(expire_curr_index)) as [p0 ->]; [lia|].
    eapply wp_step; [done|]. eapply wp_step; [done|]. apply wok_expire; [done..|]. intros s' HA' Hs'. destruct (Hs' a Ea) as [v Ev]. eapply Hup; [done..|lia].
Qed.
End Keeping.

Section Services.
Context (sh : Shape) (t : nat) (nst : Z) (b : bool).
Hypothesis Hv : valid_cfg.
Abbreviation At := (At sh t nst b).
Abbreviation ok := (kwp (G sh t nst) L (R sh t)).

Lemma at_timers x s : At x s -> timers_ok sh s.(timers).
Proof using Type. intros HA. apply (at_core _ _ _ _ _ _ HA). Qed.
Lemma At_timers x tm s : At x s -> timers_ok sh tm -> At x (set_timers tm s).
Proof using Type.
  intros [[[[] [] [] [] ? [] ? ? ? ? ? ? ?] HT] ? ? ?] Htm. split; [|done..]. split; [|done].
  split; [by split|by split|by split|by split|done|by split|done..].
Qed.
#[export] Instance At_keeps_timers x : KeepsTimers sh (At x).
Proof using Type. split; [apply _|apply at_timers|intros tm s; apply At_timers]. Qed.

(** ** The increment of a counter *)
Lemma ok_get_timers {A B} x (m : M S A) (k : A -> K S B) Q s a : m s = Some (a, s) -> ok x (k a) Q s -> ok x (kbind (atomic m) k) Q s.
Proof using Type. intros E H. by eapply kwp_run. Qed.
Lemma at_alarm x s i c : At x s -> sh.(sh_alarms) !! i = Some c ->
  exists a, s.(timers).(alarm_list) !! i = Some a /\ a.(counter) = c /\ alarm_ok sh a.
Proof using Type. intros HA. apply timers_alarm_lookup. by eapply at_timers. Qed.
Lemma ok_process x i c s : At x s -> sh.(sh_alarms) !! i = Some c -> ok x (atomic (AlarmProcess i)) (fun x _ => At x) s.
Proof using Type.
  intros HA Hi. destruct (at_alarm _ _ _ _ HA Hi) as (a & Ea & _). apply kwp_atomic, AlarmProcess_ok; [done|]. by eapply lookup_lt_Some.
Qed.
Lemma ok_seq {A B} x (m : K S A) (k : A -> K S B) s :
  ok x m (fun x _ => At x) s -> (forall x a s, At x s -> ok x (k a) (fun x _ => At x) s) -> ok x (kbind m k) (fun x _ => At x) s.
Proof using Type. intros Hm Hk. apply kwp_bind. eapply kwp_mono; [exact Hm|]. auto. Qed.

Section Check.
Context (increment : nat -> K S Z) (c : nat).
Hypothesis Hb : b = false \/ nst <> 0.
Hypothesis Hc : (c < sh.(sh_counters))%nat.
Hypothesis Hinc : forall c' x s, (sh.(sh_rank) c' < sh.(sh_rank) c)%nat -> At x s -> ok x (increment c') (fun x _ => At x) s.

Lemma alarm_check_ok x i s : sh.(sh_alarms) !! i = Some c -> At x s -> ok x (alarm_check increment c i) (fun x _ => At x) s.
Proof using All.
  intros Hi HA. destruct (at_alarm _ _ _ _ HA Hi) as (a & Ea & Eac & Hok). destruct (timers_counter_lt sh c _ (at_timers _ _ HA) Hc) as (cn & Ec & _).
  unfold alarm_check. eapply ok_get_timers; [by apply run_AlarmGet|]. eapply ok_get_timers; [by apply run_CounterGet|].
  apply kwp_if; intros _; [|by apply kwp_ret]. destruct a.(action) as [d|d e| |c'] eqn:Eact.
  - apply ok_seq; [by apply ActivateTask_ok|]. intros x' _ s' HA'. by eapply ok_process.
  - apply ok_seq; [by apply SetEvent_ok|]. intros x' rv s' HA'. assert (Hrun : exists s2, (if rv =? E_OK then ret tt else Os_CallErrorHook rv) s' = Some (tt, s2) /\ same_kernel s' s2).
    { destruct (rv =? E_OK); [by eexists|]. apply run_error_hook. }
    destruct Hrun as (s2 & E2 & Hs2). eapply kwp_run; [exact E2|]. eapply ok_process; [by eapply At_same|done].
  - by apply kwp_ret.
  - apply ok_seq; [|intros x' rv s' HA'; by eapply ok_process]. apply Hinc; [|done]. rewrite <- Eac. by apply (a_rank _ _ Hok).
Qed.
Lemma AlarmCheck_ok x s : At x s -> ok x (Os_AlarmCheck increment c) (fun x _ => At x) s.
Proof using All.
  intros HA. destruct (timers_counter_lt sh c _ (at_timers _ _ HA) Hc) as (cn & Ec & Hcn). unfold Os_AlarmCheck.
  eapply ok_get_timers; [by apply run_CounterGet|]. apply kwp_for_each; [done|]. intros i x' s' Hi HA'. apply alarm_check_ok; [|done].
  by apply (proj1 (list.Forall_forall _ _) (c_alarms _ _ _ Hcn)).
Qed.

Lemma ok_tasks x l s : At x s -> ok x (kfor_each l (fun i => kbind (ActivateTask i) (fun _ => kret tt))) (fun x _ => At x) s.
Proof using Hv. intros HA. apply kwp_for_each; [done|]. intros i x' s' _ HA'. apply ok_seq; [by apply ActivateTask_ok|]. intros. by apply kwp_ret. Qed.
Lemma ok_events x l s :
  At x s -> ok x (kfor_each l (fun '(event, task) => kbind (SetEvent task event) (fun _ => kret tt))) (fun x _ => At x) s.
Proof using Hv Hb.
  intros HA. apply kwp_for_each; [done|]. intros [e d] x' s' _ HA'. apply ok_seq; [by apply SetEvent_ok|]. intros. by apply kwp_ret.
Qed.
Lemma sched_check_ok x i s : (i < sh.(sh_tables))%nat -> At x s -> ok x (sched_check c i) (fun x _ => At x) s.
Proof using Hv Hb Hc.
  intros Hi HA. rewrite <- (keeps_n_tables _ HA) in Hi. destruct (timers_table_lt sh i _ (at_timers _ _ HA) Hi) as (a & Ea & Ha).
  destruct (timers_counter_lt sh c _ (at_timers _ _ HA) Hc) as (cn & Ec & _). rewrite (keeps_n_tables _ HA) in Hi.
  unfold sched_check. eapply ok_get_timers; [by apply run_SchTblGet|]. eapply ok_get_timers; [by apply run_CounterGet|].
  apply kwp_if; intros _; [by apply kwp_ret|]. apply kwp_if; intros _; [|by apply kwp_ret].
  apply ok_seq; [|intros x' _ s' HA'; apply kwp_atomic, UpdateState_ok; [done|by rewrite (keeps_n_tables _ HA')]].
  apply kwp_if; [|intros _; by apply kwp_ret]. intros Hlt%Z.ltb_lt. pose proof (st_index _ _ Ha) as Hix.
  destruct (lookup_lt_is_Some_2 a.(expirePointList) (Z.to_nat a.(expire_curr_index))) as [p Ep]; [lia|].
  assert (Er : aref a.(expirePointList) a.(expire_curr_index) = Some p) by (unfold aref; by rewrite (proj2 (Z.leb_le _ _)) by lia). rewrite Er.
  eapply ok_get_timers; [done|]. apply ok_seq; [by apply ok_tasks|]. intros x' _ s' HA'. by apply ok_events.
Qed.
Lemma SchTblCheck_ok x s : At x s -> ok x (Os_SchTblCheck c) (fun x _ => At x) s.
Proof using Hv Hb Hc.
  intros HA. destruct (timers_counter_lt sh c _ (at_timers _ _ HA) Hc) as (cn & Ec & Hcn). unfold Os_SchTblCheck.
  eapply ok_get_timers; [by apply run_CounterGet|]. apply kwp_for_each; [done|]. intros i x' s' Hi HA'. apply sched_check_ok; [|done].
  by apply (proj1 (list.Forall_forall _ _) (c_tables _ _ _ Hcn)).
Qed.
Lemma ok_count_up {A} x (k : unit -> K S A) s :
  At x s -> (forall s, At x s -> ok x (k tt) (fun x _ => At x) s) -> ok x (kbind (atomic (count_up c)) k) (fun x _ => At x) s.
Proof using Type. intros HA Hk. eapply kwp_run; [done|]. apply Hk, At_timers; [done|]. apply timers_counter; [done|]. by eapply at_timers. Qed.
End Check.

Lemma IncrementCounter_ok fuel c x s :
  (sh.(sh_rank) c < fuel)%nat -> At x s -> ok x (IncrementCounter fuel c) (fun x _ => At x) s.
Proof using Hv.
  revert c x s. induction fuel as [|fuel IH]; intros c x s Hf HA; [lia|]. cbn [IncrementCounter]. apply (ok_disabled _ _ _ b); [apply HA|].
  apply ok_validate; [done|]. intros Hb%negb_true_iff. eapply kwp_run; [done|]. apply ok_validate; [done|].
  intros Hc%Nat.ltb_lt. rewrite (tm_n_counters _ _ (at_timers _ _ HA)) in Hc.
  destruct (timers_counter_lt sh c _ (at_timers _ _ HA) Hc) as (cn & Ec & _). eapply ok_get_timers; [by apply run_CounterGet|].
  apply ok_validate; [done|]. intros _. apply ok_save. intros f s1 Hs1. apply (At_same _ _ _ _ _ _ _ Hs1) in HA. clear Ec Hs1 s.
  apply ok_count_up; [done|]. intros s2 HA2. apply ok_seq; [apply AlarmCheck_ok; [by left|done| |done]|].
  { intros c' x' s' Hlt HA'. apply IH; [lia|done]. }
  intros x3 _ s3 HA3. apply ok_then, SchTblCheck_ok; [by left|done..].
Qed.
Lemma OsTick_ok fuel x s :
  nst <> 0 -> (Os_Arc_OsTickCounter < sh.(sh_counters))%nat -> (forall c, sh.(sh_rank) c < fuel)%nat ->
  At x s -> ok x (OsTick fuel) (fun x _ => At x) s.
Proof using Hv.
  intros Hn Hc Hf HA. unfold OsTick. destruct (timers_counter_lt sh _ _ (at_timers _ _ HA) Hc) as (cn & Ec & _).
  eapply ok_get_timers; [by apply run_CounterGet|]. eapply kwp_run; [done|]. set (s1 := set_sys _ s). assert (HA1 : At x s1) by (by eapply (At_same _ _ _ _ _ s)).
  clear HA. clearbody s1. apply ok_count_up; [done|]. intros s2 HA2. apply ok_seq; [apply AlarmCheck_ok; [by right|done| |done]|].
  { intros c' x' s' Hlt HA'. by apply IncrementCounter_ok. }
  intros x3 _ s3 HA3. apply SchTblCheck_ok; [by right|done..].
Qed.
End Services.
End Timing.
