(* ===== verification/Os_Interrupts.v ===== *)
(** * Interrupts

    What [Os_Isr] does to the data of the kernel before and after the function of the interrupt service routine. *)

From stdpp Require Import sets.
From S2P Require Import Prelude.
From S2P Require Import StateMonad.
From S2P Require Import Coroutine.
From S2P Require Import Os_Irq.
From S2P Require Import Os_Types.
From S2P Require Import Os.
From S2P Require Import Os_Timers.
From S2P Require Import Os_System.
From S2P Require Import Os_Inv.
From S2P Require Import Os_Update.
From S2P Require Import Os_Dispatch.
From S2P Require Import Os_Kernel.
From S2P Require Import Os_Tasks.
From S2P Require Import Os_Resources.

Section Interrupts.
Context {W : Type} {Cfg : Os_Cfg} {Env : Os_Env W}.
Abbreviation S := (Os_State W).
Implicit Types (s : S) (x : nat -> Prop).

(** ** Nesting *)
Definition nested (a : option nat) (n : Z) (i : Irq) (s : S) : S := set_irq i (set_sys (set_currIsrPtr a (set_intNestCnt n s.(sys))) s).
Lemma Core_nested sh x st a n i s :
  Core sh x st s -> 0 <= n -> (n = 0 -> st = ST_RUNNING) -> (n <> 0 -> a <> None) -> Core sh x st (nested a n i s).
Proof. intros [[] [] [] [] ? [] ? ? ? ? ? ? ?] ? ? ?. split; [by split|by split|by split|by split|done|by split|done..]. Qed.
Lemma Mid_nested sh x a i s : Core sh x ST_READY s -> Mid sh x (nested a 0 i s).
Proof. intros [[] [] [] [] ? [] ? ? ? ? ? ? ?]. split; [by split|by split|by split|by split|done|by split|done..]. Qed.

(** ** The current task is interrupted, or goes on *)
Section Turn.
Context (sh : Shape) (x x' : nat -> Prop) (st st' : state_t) (p : OsTaskVarType) (s s' : S).
Hypothesis HC : Core sh x st s.
Hypothesis Hch : changed (curr s) p (ready s) s s'.
Hypothesis Hk : keeps_rest (set_flags p.(flags) (set_stack p.(stack) (set_state st' (T s (curr s))))) p.
Hypothesis Hka : p.(activePriority) = act s (curr s).
Hypothesis Hkh : p.(resourceHead) = held s (curr s).
Hypothesis Hst : st' = ST_RUNNING \/ st' = ST_READY.
Hypothesis Hlev : nest s = 0 -> st' = ST_RUNNING.
Hypothesis Hstack : p.(stack) = if bool_decide (st' = ST_RUNNING) then USED else SAVED.
Hypothesis Hflags : OS_PRE_TASK_HOOK = true -> p.(flags) = expecting (bool_decide (st' = ST_RUNNING)).
Hypothesis Hx : forall u, x u -> x' u.
Hypothesis Hxc : st' = ST_READY -> x' (curr s).

Lemma turn_act u : act s' u = act s u.
Proof using Hch Hka. unfold act. rewrite (ch_T _ _ _ _ _ Hch). by destruct (decide (u = curr s)) as [->|]. Qed.
Lemma turn_held u : held s' u = held s u.
Proof using Hch Hkh. unfold held. rewrite (ch_T _ _ _ _ _ Hch). by destruct (decide (u = curr s)) as [->|]. Qed.
Lemma turn_ready u : ready_or_running (T s' u).(state) = ready_or_running (T s u).(state).
Proof using All.
  rewrite (ch_T _ _ _ _ _ Hch). destruct (decide (u = curr s)) as [->|]; [|done]. rewrite (kr_state _ _ Hk), (i_curr _ _ _ _ HC). cbn.
  by destruct Hst as [-> | ->], (i_run _ _ _ _ HC) as [-> | ->].
Qed.
Lemma turn_other u : u <> curr s -> T s' u = T s u.
Proof using Hch. apply (changed_other _ _ _ _ _ Hch). Qed.
Lemma turn_waiting u : (T s' u).(state) = ST_WAIT_EVENT -> u <> curr s.
Proof using All.
  intros E ->. rewrite (changed_self _ _ _ _ _ Hch), (kr_state _ _ Hk) in E. cbn in E. by destruct Hst as [H|H]; rewrite H in E.
Qed.
Lemma turn_alive u : alive s' u -> alive s u.
Proof using All.
  intros [H|H]; [left; by rewrite <- turn_ready|right]. rewrite turn_other in H; [done|]. by apply turn_waiting.
Qed.

Lemma Core_turn : Core sh x' st' s'.
Proof using All.
  pose proof (changed_self _ _ _ _ _ Hch) as Es. pose proof (curr_ready _ _ _ _ HC) as Hcr. destruct HC as [Hq Ht Hr Hp Hf Hs Hc Hrun Hcs Hn Hl Hi Htm].
  pose proof (ready_range _ _ Hq Hcr) as Hlt.
  split; rewrite ?(ch_curr _ _ _ _ _ Hch), ?(ch_nest _ _ _ _ _ Hch), ?(ch_timers _ _ _ _ _ Hch), ?(isr_lvl _ _ (ch_lvl _ _ _ _ _ Hch)), ?Es; try done.
  - destruct Hq. split; rewrite ?(ch_len _ _ _ _ _ Hch), ?(ch_ready _ _ _ _ _ Hch); try done; intros u; rewrite ?turn_ready; auto.
    intros Hu. destruct (decide (u = curr s)) as [->|]; [|rewrite turn_other by done; auto]. rewrite Es, (kr_state _ _ Hk). cbn. by destruct Hst as [-> | ->].
  - assert (Hns : (T s (curr s)).(state) <> ST_SUSPENDED) by (rewrite Hc; by destruct Hrun as [-> | ->]). pose proof (t_active s Ht _ Hlt Hns) as Ha.
    destruct Ht. split; intros u; (destruct (decide (u = curr s)) as [->|Hu]; [rewrite Es|rewrite turn_other by done; auto]).
    + rewrite (kr_state _ _ Hk). cbn. by destruct Hst as [-> | ->].
    + intros _ _. rewrite (kr_act _ _ Hk). exact Ha.
    + rewrite (kr_react _ _ Hk). apply t_reactivation.
    + rewrite (kr_state _ _ Hk). cbn. by destruct Hst as [-> | ->].
  - assert (HRs : forall r, Rs s' r = Rs s r) by (intros r; unfold Rs; by rewrite (ch_res _ _ _ _ _ Hch)).
    assert (Esch : sch s' = sch s) by (unfold sch; by rewrite (ch_res _ _ _ _ _ Hch)).
    destruct Hr. split; rewrite ?Esch, ?(ch_res _ _ _ _ _ Hch); try (intros; rewrite ?HRs, ?turn_held; auto; done).
    + intros u. rewrite turn_held, turn_act. eapply chain_ext; [|done]. intros q _. by rewrite HRs.
    + intros u. rewrite turn_held, (ch_ready _ _ _ _ _ Hch). auto.
  - destruct Hp. split; rewrite ?(ch_curr _ _ _ _ _ Hch), ?(ch_ready _ _ _ _ _ Hch); intros *; rewrite ?turn_held, ?turn_act; auto.
  - intros Hpre u. specialize (Hf Hpre u). destruct (decide (u = curr s)) as [->|Hu].
    + rewrite Es, (Hflags Hpre). f_equal. unfold runs. destruct Hst as [-> | ->]; by rewrite ?bool_decide_eq_true_2 by done.
    + rewrite turn_other by done. rewrite Hf. f_equal. unfold runs. do 2 destruct (bool_decide (_ = ST_RUNNING)); rewrite !bool_decide_eq_false_2 by congruence; done.
  - destruct Hs. split; rewrite ?(ch_curr _ _ _ _ _ Hch); intros u.
    + intros Hu Ha%turn_alive. rewrite turn_other by done. auto.
    + intros Hu. rewrite turn_other by done. auto.
    + intros Ha%turn_alive. destruct (decide (u = curr s)) as [->|Hu]; [|rewrite turn_other by done; auto].
      rewrite Es, Hstack. destruct Hst as [E|E]; [by rewrite bool_decide_eq_true_2|auto].
  - rewrite (kr_state _ _ Hk). done.
Qed.
End Turn.
End Interrupts.
