(* ===== verification/Os_Machine.v ===== *)
(** * The machine keeps the invariant

    Tasks and interrupt service routines call any services in any order, under the rules [call_ok]; interrupts arrive at any time when they are
    enabled.  No step faults, and after each of them the invariant of the kernel holds. *)

From stdpp Require Import sets.
From S2P Require Import Prelude.
From S2P Require Import StateMonad.
From S2P Require Import Coroutine.
From S2P Require Import Os_Irq.
From S2P Require Import Os_Types.
From S2P Require Import Os.
From S2P Require Import Os_Timers.
From S2P Require Import Os_System.
From S2P Require Import Os_Inv.
From S2P Require Import Os_Update.
From S2P Require Import Os_Dispatch.
From S2P Require Import Os_Kernel.
From S2P Require Import Os_Tasks.
From S2P Require Import Os_Resources.
From S2P Require Import Os_Timing.
From S2P Require Import Os_Interrupts.

Section Machine.
Context {W : Type} {Cfg : Os_Cfg} {Env : Os_Env W}.
Abbreviation S := (Os_State W).
Abbreviation Machine := (@Os_System.Machine W).
Abbreviation Frame := (@Os_System.Frame W).
Abbreviation Context := (@Os_System.Context W).
Implicit Types (s : S) (x : nat -> Prop) (m : Machine).

#[local] Arguments Os_TaskGet : simpl never.
#[local] Arguments task_set : simpl never.
#[local] Arguments constPtr : simpl never.

(** ** What the application does not do

    The idle task does not end and does not wait.  A task chains itself only if it is preemptable, and another task only with its last activation.
    A task function returns with at most one resource, and only with its last activation if it has one.  Events are not set with interrupts
    disabled.  The scheduler resource is not taken twice; what is released is the resource taken last.  The system tick is an interrupt.
    [NextScheduleTable] is not used.  [GetScheduleTableStatus] is not given a null pointer.  [DisableAllInterrupts] is not nested. *)
Definition call_ok (s : S) (c : Call) : bool :=
  let t := curr s in
  let isr := negb (nest s =? 0) in
  match c with
  | CTerminateTask | CWaitEvent _ => isr || negb (t =? 0)%nat
  | CChainTask d =>
    isr || (if (d =? t)%nat then bool_decide ((C t).(scheduling) = FULL) else negb (t =? 0)%nat && ((T s t).(activations) =? 1))
  | CEndOfTask =>
    negb isr && negb (t =? 0)%nat && (length (held s t) <=? 1)%nat && (((T s t).(activations) =? 1) || bool_decide (held s t = []))
  | CSetEvent _ _ => isr || negb (dis s)
  | CGetResource r => negb (r =? sch s)%nat || negb (bool_decide (r ∈ held s t))
  | CReleaseResource r => negb (bool_decide ((Rs s r).(owner) = Some t)) || bool_decide (list.last (held s t) = Some r)
  | COsTick => isr
  | CNextScheduleTable _ _ => false
  | CGetScheduleTableStatus _ p => negb (p =? 0)
  | CDisableAllInterrupts => s.(Os_IntDisableAllCnt) =? 0
  | _ => true
  end.

(** ** One service *)
Section Service.
Context (sh : Shape) (t : nat) (nst : Z) (b : bool).
Hypothesis Hv : valid_cfg.
Hypothesis Htick : (Os_Arc_OsTickCounter < sh.(sh_counters))%nat.
Abbreviation ok := (kwp (G sh t nst) L (R sh t)).
Definition AtAny (x : nat -> Prop) (s : S) : Prop := exists b, At sh t nst b x s.

Lemma any {A} x (m : K S A) s : ok x m (fun x _ => At sh t nst b x) s -> ok x m (fun x _ => AtAny x) s.
Proof using Type. intros H. eapply kwp_mono; [exact H|]. intros x' a s' HA. by exists b. Qed.
Lemma ok_atomic x (m : M S Z) s : wp m (fun _ => At sh t nst b x) s -> ok x (atomic m) (fun x _ => AtAny x) s.
Proof using Type. intros H. apply any, kwp_atomic. exact H. Qed.
Lemma ok_status {A} x (m : M S (Z * A)) s : wp m (fun _ => At sh t nst b x) s -> ok x (status m) (fun x _ => AtAny x) s.
Proof using Type.
  intros H. unfold status. apply any, kwp_bind, kwp_atomic. eapply wp_mono; [exact H|]. intros a s' HA. by apply kwp_ret.
Qed.
Lemma ok_quiet x i n s (m : M S unit) :
  At sh t nst b x s -> m s = Some (tt, set_irq i (set_Os_IntDisableAllCnt n s)) -> ok x (quiet m) (fun x _ => AtAny x) s.
Proof using Type.
  intros [HI Hc Hn Hd] E. unfold quiet. eapply kwp_run; [exact E|]. apply kwp_ret. eexists. split; [by apply Inv_irq|done..].
Qed.
Lemma set_irq_same i s : set_irq i s = set_irq i (set_Os_IntDisableAllCnt s.(Os_IntDisableAllCnt) s).
Proof using Type. by destruct s. Qed.

Lemma service_ok x c s : At sh t nst b x s -> call_ok s c = true -> ok x (service c) (fun x _ => AtAny x) s.
Proof using Hv Htick.
  intros HA Hok. pose proof (at_curr _ _ _ _ _ _ HA) as Hc. pose proof (at_nest _ _ _ _ _ _ HA) as Hn. pose proof (at_dis _ _ _ _ _ _ HA) as Hd.
  assert (Htask : negb (nst =? 0) || negb (t =? 0)%nat = true -> nst = 0 -> t <> 0%nat).
  { intros H ->. cbn in H. by apply negb_true_iff, Nat.eqb_neq in H. }
  unfold call_ok in Hok. destruct c; cbn [service]; rewrite ?Hc, ?Hn, ?Hd in Hok.
  - by apply any, ActivateTask_ok.
  - apply any, TerminateTask_ok; auto.
  - apply any, ChainTask_ok; [done| | |done].
    + intros E Hne. rewrite E in Hok. cbn in Hok. rewrite (proj2 (Nat.eqb_neq _ _) Hne) in Hok.
      apply andb_prop in Hok as [H1%negb_true_iff%Nat.eqb_neq H2%Z.eqb_eq]. done.
    + intros E ->. rewrite E, Nat.eqb_refl in Hok. by apply bool_decide_eq_true in Hok.
  - by apply any, Schedule_ok.
  - apply andb_prop in Hok as [[[H1 H2]%andb_prop H3]%andb_prop H4]. rewrite negb_involutive in H1. apply Z.eqb_eq in H1.
    apply any. rewrite H1 in HA |- *. apply TaskPost_ok; [done|by apply negb_true_iff, Nat.eqb_neq in H2|by apply Nat.leb_le in H3| |done].
    apply orb_prop in H4 as [H4%Z.eqb_eq|H4%bool_decide_eq_true]; auto.
  - by apply ok_status, GetTaskState_ok.
  - by apply ok_status, GetTaskID_ok.
  - apply any, WaitEvent_ok; auto.
  - apply any, SetEvent_ok; [done| |done]. apply orb_prop in Hok as [H%negb_true_iff%Z.eqb_neq|H%negb_true_iff]; auto.
  - by apply ok_status, GetEvent_ok.
  - by apply ok_atomic, ClearEvent_ok.
  - apply ok_atomic, GetResource_ok; [done| |done]. apply orb_prop in Hok as [H%negb_true_iff%Nat.eqb_neq|H%negb_true_iff%bool_decide_eq_false]; [by right|].
    destruct (decide (r = sch s)) as [<-|]; auto.
  - apply any, ReleaseResource_ok; [done| |done]. intros Ho. rewrite bool_decide_eq_true_2 in Hok by done. by apply bool_decide_eq_true in Hok.
  - eapply kwp_run; [done|]. apply any, ok_seq; [|intros; by apply kwp_ret].
    apply OsTick_ok; [done|by apply negb_true_iff, Z.eqb_neq in Hok|done| |done].
    intros c. pose proof (tm_rank _ _ (at_timers _ _ _ _ _ _ HA) c). rewrite (tm_n_counters _ _ (at_timers _ _ _ _ _ _ HA)). lia.
  - eapply kwp_run; [done|]. apply any, IncrementCounter_ok; [done| |done].
    pose proof (tm_rank _ _ (at_timers _ _ _ _ _ _ HA) c). rewrite (tm_n_counters _ _ (at_timers _ _ _ _ _ _ HA)). lia.
  - by apply ok_status, GetCounterValue_ok.
  - by apply ok_status, GetElapsedValue_ok.
  - by apply ok_atomic, setRelAlarm_ok.
  - by apply ok_atomic, setAbsAlarm_ok.
  - by apply ok_atomic, CancelAlarm_ok.
  - by apply ok_status, GetAlarm_ok.
  - by apply ok_status, GetAlarmBase_ok.
  - by apply ok_atomic, StartScheduleTableRel_ok.
  - by apply ok_atomic, StartScheduleTableAbs_ok.
  - by apply ok_atomic, StopScheduleTable_ok.
  - done.
  - apply ok_status, GetScheduleTableStatus_ok; [done..|]. by apply negb_true_iff, Z.eqb_neq in Hok.
  - apply Z.eqb_eq in Hok. eapply (ok_quiet _ _ 1); [done|]. unfold DisableAllInterrupts, bind. cbn. by rewrite Hok.
  - unfold EnableAllInterrupts. destruct (s.(Os_IntDisableAllCnt) =? 0) eqn:E.
    + eapply (ok_quiet _ s.(irq) s.(Os_IntDisableAllCnt)); [done|]. unfold bind, get. cbn. rewrite E. by destruct s.
    + eapply (ok_quiet _ _ (s.(Os_IntDisableAllCnt) - 1)); [done|]. unfold bind, get. cbn. by rewrite E.
  - eapply ok_quiet; [done|]. unfold SuspendAllInterrupts, modify. by rewrite set_irq_same.
  - eapply ok_quiet; [done|]. unfold ResumeAllInterrupts, modify. by rewrite set_irq_same.
Qed.
End Service.

(** ** The invariant of the machine *)
Definition isr2 (f : Frame) : bool := bool_decide (Os_IsrConstList !! f.(f_isr) = Some ISR_TYPE_2).
(** The current task has been made ready by the first interrupt of category 2. *)
Definition framed (fs : list Frame) : state_t := if existsb isr2 fs then ST_READY else ST_RUNNING.
(** Those of category 1 are not interrupted by others of category 2. *)
Fixpoint frames_ok (fs : list Frame) : Prop :=
  match fs with
  | [] => True
  | f :: fs =>
    (f.(f_isr) < length Os_IsrConstList)%nat /\ (isr2 f = true -> forallb isr2 fs = true) /\ (fs <> [] -> f.(f_oldIsrPtr) <> None) /\
    f.(f_within) = None /\ frames_ok fs
  end.

(** What happens: services are called by tasks and by interrupt service routines of category 2; an interrupt of category 2 does not come in
    one of category 1, and none comes in the window of a call. *)
Definition event_ok (m : Machine) (e : Event) : bool :=
  enabled m e &&
  match e with
  | ECall c => match m.(frames) with f :: _ => isr2 f | [] => true end && call_ok m.(os) c
  | EIrq isr => negb (bool_decide (Os_IsrConstList !! isr = Some ISR_TYPE_2)) || forallb isr2 m.(frames)
  | EIrqWithin _ _ => false
  | _ => true
  end.
Fixpoint run_ok (es : list Event) (m : Machine) : bool :=
  match es with
  | [] => true
  | e :: es => event_ok m e && match step e m with Some m => run_ok es m | None => true end
  end.

Section MInv.
Context (sh : Shape).
Hypothesis Hv : valid_cfg.
Hypothesis Htick : (Os_Arc_OsTickCounter < sh.(sh_counters))%nat.

(** A service is over. *)
Definition Back (fs : list Frame) (t : nat) (x : nat -> Prop) (s : S) : Prop :=
  Inv sh x (framed fs) s /\ curr s = t /\ nest s = Z.of_nat (length fs).
Definition ctx_ok (u : nat) (c : Context) : Prop :=
  match c with
  | Interrupted w => w = None
  | Within k => forall x s, R sh u x s -> outcome (G sh u 0) L (R sh u) x (k s) (fun x _ => Back [] u x)
  end.
Definition ctxs_ok (cs : list Context) (x : nat -> Prop) : Prop :=
  length cs = OS_TASK_CNT /\ forall u, x u -> exists c, cs !! u = Some c /\ ctx_ok u c.
Record MInv (m : Machine) : Prop := {
  m_inv : exists x, Back m.(frames) (curr m.(os)) x m.(os) /\ ctxs_ok m.(contexts) x /\
    match m.(cpu) with
    | Application => True
    | Kernel k => m.(frames) = [] /\ R sh (curr m.(os)) x m.(os) /\ ctx_ok (curr m.(os)) (Within k)
    end;
  m_frames : frames_ok m.(frames)
}.

(** ** What comes of a piece of kernel code *)
Lemma load_ok w x cs start s m :
  frames m = [] -> ctxs_ok cs (after w x s) -> curr s = curr (saved w s) -> nest s = 0 -> dis s = false -> (curr s < OS_TASK_CNT)%nat ->
  Inv sh (after w x s) ST_RUNNING (loaded w s) ->
  (start = true \/ (T (saved w s) (curr s)).(stack) = ENTRY \/ (T (saved w s) (curr s)).(stack) = SAVED /\ after w x s (curr s)) ->
  exists m', load start m cs (saved w s) = Some m' /\ MInv m'.
Proof using Type.
  clear Htick. intros Hf Hcs Hcu Hn Hd Hlt HI Hst. pose proof (q_len _ (i_queue _ _ _ _ (proj1 HI))) as Hl.
  assert (Hl' : length (saved w s).(Os_TaskVarList) = OS_TASK_CNT) by (rewrite <- Hl; unfold loaded; by rewrite len_upd).
  destruct (lookup_lt_is_Some_2 (saved w s).(Os_TaskVarList) (curr s)) as [p Ep]; [lia|].
  unfold load. fold (curr (saved w s)). rewrite <- Hcu, Ep. cbn -[stack]. assert (Et : T (saved w s) (curr s) = p) by (unfold T; by rewrite Ep). rewrite Et in Hst.
  assert (Hload : curr (loaded w s) = curr s /\ nest (loaded w s) = 0 /\ dis (loaded w s) = false) by (destruct w; done).
  destruct Hload as (E1 & E2 & E3). unfold loaded, upd in *. set (used := set_Os_TaskVarList _ (saved w s)) in *.
  assert (Hrun : MInv {| os := set_irq (irq_set true used.(irq)) used; contexts := cs; frames := frames m; cpu := Application; result := None |}).
  { split; cbn; [|by rewrite Hf]. exists (after w x s). split; [|done]. rewrite Hf. split_and!; [|done|done]. cbn. rewrite set_irq_same. by apply Inv_irq. }
  destruct start; [by eexists|]. destruct Hst as [|[->|[-> Hx]]]; [done|by eexists|].
  destruct (proj2 Hcs _ Hx) as (c & -> & Hc). cbn. destruct c as [w'|k]; [cbn in Hc; subst w'; by eexists|]. eexists. split; [done|]. split; cbn; [|by rewrite Hf].
  exists (after w x s). rewrite Hf, E1. split_and!; done.
Qed.

Lemma exec_ok t x o m :
  (t < OS_TASK_CNT)%nat -> frames_ok m.(frames) -> ctxs_ok m.(contexts) x ->
  outcome (G sh t (Z.of_nat (length m.(frames)))) L (R sh t) x o (fun x _ => Back m.(frames) t x) ->
  exists m', exec o m = Some m' /\ MInv m'.
Proof using Type.
  clear Htick. intros Ht Hf Hcs Ho. destruct o as [a s|w s k|]; [|destruct Ho as [HG Hk]|done].
  - eexists. split; [done|]. split; cbn; [|done]. exists x. pose proof Ho as (HI & Hc & Hn). rewrite Hc. done.
  - destruct HG as [Hold Hstack Hn Hlv Hd HI]. assert (Ef : frames m = []) by (destruct (frames m); [done|cbn in Hlv; lia]).
    assert (Hc : (curr s < OS_TASK_CNT)%nat).
    { replace (curr s) with (curr (loaded w s)) by (by destruct w). eapply ready_range; [apply HI|]. eapply curr_ready, HI. }
    rewrite Ef in Hk. unfold exec. destruct w as [old| |]; cbn [exec_to].
    + destruct (Hold old eq_refl) as [-> Hne].
      assert (Est : T (saved (Swap t) s) (curr s) = T s (curr s)).
      { unfold T. cbn. by rewrite list_lookup_alter_ne. }
      eapply (load_ok (Swap t) x _ false s); try done.
      * destruct Hcs as [Hl Hcs]. split; [by rewrite length_insert|]. intros u. cbn. destruct (decide (u = t)) as [->|Hu].
        -- intros Ha. exists (Within k). split; [apply list_lookup_insert_eq; by rewrite Hl|]. cbn. intros x' s' HR. specialize (Hk Ha x' s' HR). done.
        -- intros Hx. destruct (Hcs u Hx) as (c & Ec & Hc'). exists c. split; [|done]. by rewrite list_lookup_insert_ne.
      * right. rewrite Est. destruct Hstack as [|[|[E Hx]]]; [done|by left|right]. split; [done|]. cbn. by rewrite decide_False.
    + eapply (load_ok SwapTo x _ false s); try done. right. by destruct Hstack.
    + eapply (load_ok Start x _ true s); try done. by left.
Qed.
(** Kernel code that a task or an interrupt service routine has called. *)
Lemma Back_At fs t x s : Back fs t x s -> level (Z.of_nat (length fs)) = framed fs -> exists b, At sh t (Z.of_nat (length fs)) b x s.
Proof using Type. intros (HI & Hc & Hn) E. exists (dis s). split; try done. by rewrite E. Qed.
Lemma At_Back fs t b x s : At sh t (Z.of_nat (length fs)) b x s -> level (Z.of_nat (length fs)) = framed fs -> Back fs t x s.
Proof using Type. intros [HI Hc Hn Hd] E. rewrite E in HI. by split. Qed.

(** ** Calls *)
Lemma call_step x c m :
  frames_ok m.(frames) -> ctxs_ok m.(contexts) x -> Back m.(frames) (curr m.(os)) x m.(os) -> level (Z.of_nat (length m.(frames))) = framed m.(frames) ->
  call_ok m.(os) c = true -> exists m', exec (service c m.(os)) m = Some m' /\ MInv m'.
Proof using Hv Htick.
  intros Hf Hcs HB Hlev Hc. destruct (Back_At _ _ _ _ HB Hlev) as [b HA].
  eapply (exec_ok (curr m.(os)) x); [by eapply at_range|done..|]. eapply outcome_mono; [by eapply service_ok|].
  intros x' r s' [b' HA']. by eapply At_Back.
Qed.
Lemma continue_step x k m :
  m.(frames) = [] -> ctxs_ok m.(contexts) x -> R sh (curr m.(os)) x m.(os) -> ctx_ok (curr m.(os)) (Within k) ->
  exists m', exec (k m.(os)) m = Some m' /\ MInv m'.
Proof using Hv.
  clear Htick. intros Hf Hcs HR Hk. eapply (exec_ok (curr m.(os)) x); [|by rewrite Hf|done|rewrite Hf; by apply Hk].
  destruct HR as [[HC _] _]. eapply ready_range; [apply HC|]. by eapply curr_ready.
Qed.

(** ** An interrupt *)
Lemma framed_all fs : forallb isr2 fs = true -> fs <> [] -> framed fs = ST_READY.
Proof using Type. unfold framed. destruct fs as [|f fs]; [done|]. cbn. by intros [-> _]%andb_prop _. Qed.
Lemma Back_nested fs f t x n i s :
  Back fs t x s -> framed (f :: fs) = framed fs -> n = nest s + 1 -> Back (f :: fs) t x (nested (Some f.(f_isr)) n i s).
Proof using Type.
  clear Htick. intros ([HC HT] & Hc & Hn) Ef ->. split_and!; [|done|cbn; unfold nest in *; lia]. rewrite Ef. split; [|done].
  apply Core_nested; [done|unfold nest in *; lia|unfold nest in *; lia|done].
Qed.
(** The interrupted context is on the stack of the task. *)
Lemma Back_interrupted f x n i s s3 :
  Back [] (curr s) x s -> isr2 f = true -> n = nest s + 1 ->
  changed (curr s) (set_state ST_READY (set_stack SAVED (post_task (T s (curr s))))) (ready s) s s3 ->
  Back [f] (curr s) (fun u => x u \/ u = curr s) (nested (Some f.(f_isr)) n i s3).
Proof using Hv Env.
  clear Htick. intros ([HC HT] & Hc & Hn) Ef -> Hch. pose proof (ch_nest _ _ _ _ _ Hch) as En. pose proof (ch_curr _ _ _ _ _ Hch) as Ec.
  assert (HC0 : Core sh x ST_RUNNING (nested (Some f.(f_isr)) (nest s + 1) s.(irq) s)) by (apply Core_nested; [done|cbn in Hn; lia|done|done]).
  split_and!; [|done|cbn in *; lia]. unfold framed. cbn [existsb]. rewrite Ef. cbn. split.
  - apply (Core_irq sh _ _ i s3.(Os_IntDisableAllCnt) (nested (Some f.(f_isr)) (nest s + 1) s3.(irq) s3)).
    eapply (Core_turn sh x _ ST_RUNNING ST_READY (set_state ST_READY (set_stack SAVED (post_task (T s (curr s))))) _ _ HC0); try done; cbn.
    + destruct Hch as [HT1 Hl1 Hq1 Hc1 Hn1 Hv1 Hr1 Ht1]. split; try done; cbn.
      change ((Some f.(f_isr), dis s3) = (Some f.(f_isr), dis s)). by rewrite (dis_lvl _ _ Hv1).
    + unfold post_task. by destruct OS_POST_TASK_HOOK.
    + unfold post_task. by destruct OS_POST_TASK_HOOK.
    + unfold post_task. by destruct OS_POST_TASK_HOOK.
    + by right.
    + cbn in Hn. fold (nest s). lia.
    + intros Hp. unfold post_task. rewrite (v_hooks Hv), Hp. done.
    + by left.
    + by right.
  - intros Hst. exfalso. change (curr (nested _ _ _ s3)) with (curr s3) in Hst. rewrite Ec in Hst.
    change (T (nested _ _ _ s3)) with (T s3) in Hst. rewrite (changed_self _ _ _ _ _ Hch) in Hst. done.
Qed.

Lemma enter_ok isr fs x s :
  (isr < length Os_IsrConstList)%nat -> (Os_IsrConstList !! isr = Some ISR_TYPE_2 -> forallb isr2 fs = true) -> Back fs (curr s) x s ->
  exists old s' x', Os_Isr_enter isr s = Some (old, s') /\ Back ({| f_isr := isr; f_oldIsrPtr := old; f_within := None |} :: fs) (curr s) x' s' /\
    (fs <> [] -> old <> None) /\ forall u, x' u -> x u \/ u = curr s /\ nest s = 0.
Proof using Hv Env.
  clear Htick. intros Hi H2 HB. destruct (lookup_lt_is_Some_2 _ _ Hi) as [kind Ek]. unfold Os_Isr_enter, bind, deref. rewrite Ek. cbn [mbind option_bind].
  pose proof HB as ([HC HT] & _ & Hn). assert (Hold : fs <> [] -> s.(sys).(currIsrPtr) <> None).
  { intros Hne. apply (i_isr _ _ _ _ HC). rewrite Hn. destruct fs; [done|cbn; lia]. }
  assert (Hnest : (kind = ISR_TYPE_1 \/ nest s <> 0) ->
    Back ({| f_isr := isr; f_oldIsrPtr := s.(sys).(currIsrPtr); f_within := None |} :: fs) (curr s) x (nested (Some isr) (nest s + 1) (irq_set true s.(irq)) s)).
  { intros Hk. apply (Back_nested fs {| f_isr := isr; f_oldIsrPtr := s.(sys).(currIsrPtr); f_within := None |}); [done| |done]. destruct Hk as [-> |Hk].
    - unfold framed. cbn. unfold isr2 at 1. cbn. by rewrite Ek, bool_decide_eq_false_2.
    - assert (Hne : fs <> []) by (intros ->; by destruct Hk). destruct kind; [unfold framed; cbn; unfold isr2 at 1; cbn; by rewrite Ek, bool_decide_eq_false_2|].
      rewrite !framed_all; [done|by auto|done| |done]. cbn. unfold isr2 at 1. cbn. rewrite Ek, bool_decide_eq_true_2 by done. by auto. }
  destruct kind; [eexists _, _, x; split; [done|]; split; [by apply Hnest; left|]; split; [exact Hold|by left]|].
  cbn. fold (nest s). destruct (nest s =? 0) eqn:En; [apply Z.eqb_eq in En|apply Z.eqb_neq in En].
  - assert (fs = []) as -> by (destruct fs; [done|cbn in Hn; lia]).
    assert (Ht : (curr s < length s.(Os_TaskVarList))%nat) by (rewrite (q_len s (i_queue _ _ _ _ HC)); eapply ready_range; [apply HC|by eapply curr_ready]).
    rewrite (run_posted (curr s) s Hv eq_refl Ht); [|apply HC|].
    2:{ intros Hp. rewrite (i_flags _ _ _ _ HC Hp). cbn. by rewrite bool_decide_eq_true_2. }
    cbn. pose proof (changed_posted (curr s) s Ht) as Hp. fold (curr (posted (curr s) s)). rewrite (ch_curr _ _ _ _ _ Hp).
    rewrite run_task_set by (by rewrite posted_len). cbn. rewrite run_task_set by (by rewrite len_upd, posted_len). cbn.
    eexists _, _, (fun u => x u \/ u = curr s). split; [done|]. split; [|split; [done|]; intros u [?| ->]; auto].
    set (s3 := upd (curr s) (set_state ST_READY) _).
    assert (Hch : changed (curr s) (set_state ST_READY (set_stack SAVED (post_task (T s (curr s))))) (ready s) s s3).
    { pose proof (changed_upd (curr s) (set_stack SAVED) (posted (curr s) s) ltac:(by rewrite posted_len)) as H1. rewrite (changed_self _ _ _ _ _ Hp) in H1.
      pose proof (changed_trans _ _ _ _ _ _ _ _ Hp H1) as H1'. pose proof (changed_upd (curr s) (set_state ST_READY) (upd (curr s) (set_stack SAVED) (posted (curr s) s))) as H3.
      rewrite (changed_self _ _ _ _ _ H1) in H3. rewrite (ch_ready _ _ _ _ _ H1) in H3. rewrite (ch_ready _ _ _ _ _ Hp) in H3.
      eapply changed_trans; [exact H1'|]. apply H3. by rewrite len_upd, posted_len. }
    pose proof (ch_nest _ _ _ _ _ Hch) as Hn3. fold (nest s3). apply (Back_interrupted {| f_isr := isr; f_oldIsrPtr := None; f_within := None |} x (nest s3 + 1) _ s s3); [done| |lia|done].
    unfold isr2. cbn. by rewrite Ek, bool_decide_eq_true_2.
  - eexists _, _, x. split; [done|]. split; [apply Hnest; by right|]. split; [exact Hold|by left].
Qed.
Lemma irq_step x isr m :
  frames_ok m.(frames) -> ctxs_ok m.(contexts) x -> Back m.(frames) (curr m.(os)) x m.(os) ->
  (isr < length Os_IsrConstList)%nat -> (Os_IsrConstList !! isr = Some ISR_TYPE_2 -> forallb isr2 m.(frames) = true) ->
  exists m', step (EIrq isr) m = Some m' /\ MInv m'.
Proof using Hv Env.
  clear Htick. intros Hf [Hl Hcs] HB Hi H2. destruct (enter_ok isr m.(frames) x m.(os) Hi H2 HB) as (old & s' & x' & E & HB' & Hold & Hx').
  cbn [step]. unfold interrupt. rewrite E. cbn. eexists. split; [done|].
  assert (Ht : (curr m.(os) < OS_TASK_CNT)%nat) by (destruct HB as ([HC _] & _); eapply ready_range; [apply HC|by eapply curr_ready]).
  split; cbn.
  - exists x'. assert (Ec : curr s' = curr m.(os)) by apply HB'. rewrite Ec. split_and!; [done| |done]. fold (nest m.(os)) (curr m.(os)). split.
    + destruct (nest m.(os) =? 0); [by rewrite length_insert|done].
    + intros u Hu. apply Hx' in Hu. destruct (decide (u = curr m.(os) /\ nest m.(os) = 0)) as [[-> En]|Hno].
      * rewrite En. exists (Interrupted None). split; [apply list_lookup_insert_eq; by rewrite Hl|done].
      * destruct Hu as [Hu|]; [|done]. destruct (nest m.(os) =? 0) eqn:En; [|by apply Hcs]. apply Z.eqb_eq in En.
        rewrite list_lookup_insert_ne by (intros <-; by apply Hno). by apply Hcs.
  - split_and!; [done| |done..]. unfold isr2. cbn. intros H%bool_decide_eq_true. by apply H2.
Qed.

(** ** The end of an interrupt *)
Lemma Back_irq fs t x i s : Back fs t x s -> Back fs t x (set_irq i s).
Proof using Type. intros (HI & Hc & Hn). split_and!; [|done..]. rewrite set_irq_same. by apply Inv_irq. Qed.
Lemma Back_unnested f fs t x a n i s :
  Back (f :: fs) t x s -> framed fs = framed (f :: fs) -> n = nest s - 1 -> (fs <> [] -> a <> None) -> Back fs t x (nested a n i s).
Proof using Type.
  clear Htick. intros ([HC HT] & Hc & Hn) Ef -> Ha. cbn in Hn. assert (En : nest s - 1 = Z.of_nat (length fs)) by lia.
  split_and!; [|done|cbn; unfold nest in *; lia]. rewrite Ef. split; [|done]. apply Core_nested; [done|lia| |].
  - rewrite En. intros H. destruct fs; [by rewrite <- Ef|cbn in H; lia].
  - rewrite En. intros H. apply Ha. intros ->. by cbn in H.
Qed.
(** The interrupted task goes on. *)
Lemma Back_resumed f t x s s2 s3 :
  Back [f] t x s -> isr2 f = true -> s2 = nested s2.(sys).(currIsrPtr) 0 s2.(irq) s ->
  changed t (set_stack USED (pre_task (set_state ST_RUNNING (T s2 t)))) (ready s2) s2 s3 ->
  ((C t).(scheduling) = FULL -> forall u, u ∈ ready s2 -> act s2 u <= act s2 t) -> Back [] t x s3.
Proof using Env Hv.
  clear Htick. intros ([HC HT] & Hc & Hn) Ef E2 Hch Htop. unfold framed in HC. cbn in HC. rewrite Ef in HC. cbn in HC, Hn.
  assert (E : T s2 = T s /\ ready s2 = ready s /\ curr s2 = curr s /\ nest s2 = 0 /\ s2.(resource_list) = s.(resource_list) /\
    s2.(timers) = s.(timers) /\ s2.(Os_IntDisableAllCnt) = s.(Os_IntDisableAllCnt) /\ length s2.(Os_TaskVarList) = length s.(Os_TaskVarList))
    by (rewrite E2; done).
  destruct E as (ET & Er & Ec & En & Ers & Etm & Ecnt & El). rewrite ET, Er in Hch. rewrite Er in Htop. set (p := set_stack USED _) in Hch.
  assert (Ea : p.(activePriority) = act s t) by (subst p; unfold pre_task; by destruct OS_PRE_TASK_HOOK).
  assert (Hacts : forall u, act s3 u = act s u).
  { intros u. unfold act. rewrite (ch_T _ _ _ _ _ Hch). destruct (decide (u = t)) as [->|]; [done|by rewrite ET]. }
  assert (Hnest3 : nest s3 = 0) by (by rewrite (ch_nest _ _ _ _ _ Hch)). assert (Hcurr3 : curr s3 = t) by (by rewrite (ch_curr _ _ _ _ _ Hch), Ec).
  set (mid := nested (isr s) (nest s) s.(irq) (set_Os_IntDisableAllCnt s.(Os_IntDisableAllCnt) s3)).
  assert (Hmid : Core sh x ST_RUNNING mid).
  { apply (Core_turn sh x x ST_READY ST_RUNNING p s mid); try done.
    - rewrite Hc. destruct Hch as [HT1 Hl1 Hq1 Hc1 Hn1 Hv1 Hr1 Ht1]. split; try done; try (cbn; congruence).
      + intros u. change (T mid u) with (T s3 u). rewrite HT1. by rewrite ET.
      + change (curr s3 = curr s). congruence.
    - rewrite Hc. subst p. unfold pre_task. by destruct OS_PRE_TASK_HOOK.
    - by rewrite Hc.
    - rewrite Hc. subst p. unfold pre_task. by destruct OS_PRE_TASK_HOOK.
    - by left.
    - subst p. unfold pre_task. by intros ->. }
  assert (Hfin : s3 = set_irq s3.(irq) (set_Os_IntDisableAllCnt s3.(Os_IntDisableAllCnt) (nested s3.(sys).(currIsrPtr) 0 s.(irq) mid))).
  { destruct s3 as [? ? ? [] ? ? ? ?]. cbn in *. unfold nest in Hnest3. cbn in Hnest3. by rewrite Hnest3. }
  split_and!; [|done|done]. split.
  - rewrite Hfin. apply Core_irq, Core_nested; [done|lia|done|done].
  - intros _ Hs u. rewrite Hcurr3, !Hacts, (ch_ready _ _ _ _ _ Hch). rewrite Hcurr3 in Hs. unfold act in *. rewrite <- ET. by apply Htop.
Qed.

Abbreviation leave_isr f := (kbind (Os_Isr_leave f.(f_isr) f.(f_oldIsrPtr)) (fun _ => kbind (atomic Irq_Enable) (fun _ => kret E_OK))).
Lemma ok_enable fs nst t x s :
  Back fs t x s -> kwp (G sh t nst) L (R sh t) x (kbind (atomic Irq_Enable) (fun _ => kret E_OK)) (fun x _ => Back fs t x) s.
Proof using Type. intros HB. eapply kwp_run; [done|]. apply kwp_ret. by apply Back_irq. Qed.
(** The last interrupt of category 2: the task goes on, or the most important one gets the processor. *)
Lemma leave_last f t x s s1 s2 :
  Back [f] t x s1 -> isr2 f = true -> dis s1 = false -> s2 = nested (Some f.(f_isr)) 0 s1.(irq) s1 -> s = s2 ->
  kwp (G sh t 0) L (R sh t) x (kbind (atomic Os_TaskGetTop) (fun new_pcb => kbind (atomic Os_SysTaskGetCurr) (fun curr =>
    kbind (atomic (constPtr curr)) (fun c => if bool_decide (new_pcb = curr) || bool_decide (c.(scheduling) = NON) then
      kbind (atomic (Os_TaskMakeRunning curr)) (fun _ => kbind (atomic Os_CallPreTaskHook) (fun _ => atomic (task_set curr (set_stack USED))))
    else Os_TaskSwapContextTo new_pcb))))
  (fun x _ s => kwp (G sh t 0) L (R sh t) x (kbind (atomic Irq_Enable) (fun _ => kret E_OK)) (fun x _ => Back [] t x) s) s.
Proof using Env Hv.
  clear Htick. intros HB Ef Hd E2 ->. pose proof HB as ([HC HT] & Hc & Hn). unfold framed in HC. cbn in HC. rewrite Ef in HC. cbn in HC.
  assert (HM : Mid sh x s2) by (rewrite E2; by apply Mid_nested). pose proof (m_queue _ _ _ HM) as Hq.
  assert (Ec : curr s2 = t) by (by rewrite E2). assert (Hd2 : dis s2 = false) by (by rewrite E2).
  assert (Ht : (t < OS_TASK_CNT)%nat) by (rewrite <- Hc; eapply ready_range; [apply HC|by eapply curr_ready]).
  destruct (run_top s2 Hq) as (n & En & Htop). eapply kwp_run; [exact En|]. eapply kwp_run; [done|]. fold (curr s2). rewrite Ec.
  apply ok_const; [done|]. pose proof (q_len s2 Hq) as Hl. pose proof (m_flags _ _ _ HM) as Hfl.
  assert (Hnt : (n < OS_TASK_CNT)%nat) by (by apply (ready_range s2 n Hq), top_in).
  apply kwp_if.
  - intros Hgo. eapply kwp_run; [apply run_task_set; lia|]. set (s3 := upd t (set_state ST_RUNNING) s2).
    assert (H3 : changed t (set_state ST_RUNNING (T s2 t)) (ready s2) s2 s3) by (apply changed_upd; lia). pose proof (changed_self _ _ _ _ _ H3) as E3.
    assert (Hl3 : (t < length s3.(Os_TaskVarList))%nat) by (rewrite (ch_len _ _ _ _ _ H3); lia).
    eapply kwp_run; [apply (run_preset t s3); [done|done|by rewrite E3|intros Hp; rewrite E3; by apply Hfl]|].
    pose proof (changed_preset t s3 Hl3) as H4. rewrite E3, (ch_ready _ _ _ _ _ H3) in H4. pose proof (changed_trans _ _ _ _ _ _ _ _ H3 H4) as H5.
    apply kwp_atomic. eapply wp_run; [apply run_task_set; by rewrite (ch_len _ _ _ _ _ H4)|]. apply ok_enable.
    eapply (Back_resumed f t x s1 s2 _ HB Ef); [by rewrite E2| |].
    + eapply changed_trans; [exact H5|]. pose proof (changed_upd t (set_stack USED) (preset t s3)) as H6.
      rewrite (changed_self _ _ _ _ _ H4), (ch_ready _ _ _ _ _ H4) in H6. apply H6. by rewrite (ch_len _ _ _ _ _ H4).
    + intros Hs u Hu. apply orb_prop in Hgo as [->%bool_decide_eq_true|H%bool_decide_eq_true]; [by apply (top_max s2 t)|congruence].
  - intros [Hne%bool_decide_eq_false _]%orb_false_elim. apply kwp_enter; [done..|intros Hp; by apply Hfl|]. split; [|done].
    apply G_enter; try done. split; [done|]. intros _. rewrite E2. change (T (nested _ _ _ s1) t) with (T s1 t).
    pose proof (i_curr_stack _ _ _ _ HC) as Hsk. rewrite Hc in Hsk. cbn in Hsk. split; [done|]. eapply (s_saved x s1 (i_stack _ _ _ _ HC)); [|done].
    apply ready_alive; [apply HC|]. rewrite <- Hc. by eapply curr_ready.
Qed.
Lemma leave_ok f fs t x s :
  frames_ok (f :: fs) -> Back (f :: fs) t x s -> kwp (G sh t (Z.of_nat (length fs))) L (R sh t) x (leave_isr f) (fun x _ => Back fs t x) s.
Proof using Env Hv.
  clear Htick. intros (Hi & H2 & Hold & _ & _) HB. destruct (lookup_lt_is_Some_2 _ _ Hi) as [kind Ek]. pose proof HB as (_ & _ & Hn). cbn in Hn.
  unfold Os_Isr_leave. rewrite Ek. destruct kind.
  - apply kwp_bind. eapply kwp_run; [done|]. eapply kwp_run; [done|]. apply kwp_atomic. eapply wp_run; [done|]. apply ok_enable.
    apply (Back_unnested f fs t x f.(f_oldIsrPtr) (nest s - 1) (irq_set false s.(irq)) s HB); [|done|done].
    unfold framed. cbn. unfold isr2 at 2. by rewrite Ek, bool_decide_eq_false_2.
  - assert (Ef : isr2 f = true) by (unfold isr2; by rewrite Ek, bool_decide_eq_true_2).
    apply kwp_bind. eapply kwp_run; [done|]. eapply kwp_run; [done|]. set (s0 := set_irq (irq_set false s.(irq)) s).
    assert (HB0 : Back (f :: fs) t x s0) by (by apply Back_irq). clearbody s0. clear HB Hn s. pose proof HB0 as (_ & _ & Hn). cbn in Hn.
    eapply kwp_run; [done|]. fold (dis s0).
    assert (Hclear : exists s1, (if dis s0 then bind Os_SysIntClearAll (fun _ => Os_CallErrorHook E_OS_DISABLEDINT) else ret tt) s0 = Some (tt, s1) /\
      dis s1 = false /\ Back (f :: fs) t x s1).
    { destruct (run_clear s0) as (s1 & E1 & Hd1 & i & n & Es1). assert (HB1 : Back (f :: fs) t x s1).
      { subst s1. destruct HB0 as (HI & Hc & Hn0). split_and!; [by apply Inv_irq|done|done]. }
      destruct (dis s0); [|by exists s1]. destruct (run_error_hook E_OS_DISABLEDINT s1) as (s2 & E2 & Hs2). exists s2. unfold bind. rewrite E1. cbn.
      split; [done|]. split; [by rewrite (dis_lvl _ _ (sk_lvl _ _ Hs2))|]. destruct HB1 as ([HC HT] & Hc & Hn1).
      split_and!; [split; [by eapply Core_kernel|by eapply Top_kernel]|by rewrite (sk_curr _ _ Hs2)|by rewrite (sk_nest _ _ Hs2)]. }
    destruct Hclear as (s1 & E1 & Hd1 & HB1). eapply kwp_run; [exact E1|]. clear E1 HB0 Hn s0. pose proof HB1 as (_ & _ & Hn). cbn in Hn.
    eapply kwp_run; [done|]. eapply kwp_run; [done|]. cbn [intNestCnt sys set_sys set_intNestCnt set_currIsrPtr]. fold (nest s1).
    destruct fs as [|g fs].
    + assert (E0 : nest s1 - 1 = 0) by (cbn in Hn; lia). rewrite E0. cbn [Z.eqb length Z.of_nat]. eapply (leave_last f t x _ s1); [done..|]. unfold nested. by rewrite <- E0.
    + assert (E0 : nest s1 - 1 <> 0) by (rewrite Hn; cbn [length]; lia). rewrite (proj2 (Z.eqb_neq _ 0) E0). destruct f.(f_oldIsrPtr) as [old|] eqn:Eold; [|by destruct Hold].
      eapply kwp_run; [done|]. apply kwp_atomic. eapply wp_run; [done|]. apply ok_enable.
      apply (Back_unnested f (g :: fs) t x (Some old) (nest s1 - 1) s1.(irq) s1 HB1); [|done|done].
      rewrite !framed_all; [done|cbn in *; by rewrite Ef, H2|done|by apply H2|done].
Qed.

(** ** Steps and runs *)
Lemma step_ok e m : MInv m -> event_ok m e = true -> exists m', step e m = Some m' /\ MInv m'.
Proof using Env Hv Htick.
  intros [(x & HB & Hcs & Hcpu) Hf] [He Hok]%andb_prop. destruct e as [c| |isr| |c isr]; cbn in He; [| | | |done].
  - apply andb_prop in Hok as [Hfr Hc]. eapply (call_step x); try done. clear Htick. destruct (frames m) as [|f fs]; [done|].
    unfold level, framed. cbn [existsb]. rewrite Hfr. cbn. by rewrite decide_False by lia.
  - unfold in_application in He. cbn [step]. destruct m.(cpu) as [|k] eqn:Ecpu; [done|]. destruct Hcpu as (Hf0 & HR & Hk).
    by eapply continue_step.
  - apply andb_prop in He as [_ Hi%Nat.ltb_lt]. eapply irq_step; try done. intros E. by rewrite bool_decide_eq_true_2 in Hok by done.
  - apply andb_prop in He as [_ Hne]. cbn [step]. destruct m.(frames) as [|f fs] eqn:Ef; [by rewrite bool_decide_eq_true_2 in Hne|].
    pose proof HB as ([HC _] & _). assert (Ht : (curr m.(os) < OS_TASK_CNT)%nat) by (eapply ready_range; [apply HC|by eapply curr_ready]).
    rewrite (proj1 (proj2 (proj2 (proj2 Hf)))). eapply (exec_ok (curr m.(os)) x); [done|cbn; apply Hf|done|]. cbn [os frames]. by apply leave_ok.
Qed.
Lemma run_safe es m : MInv m -> run_ok es m = true -> exists m', run es m = Some m' /\ MInv m'.
Proof using Env Hv Htick.
  revert m. induction es as [|e es IH]; intros m HM; [by exists m|]. cbn [run_ok run]. intros [He Hes]%andb_prop.
  destruct (step_ok e m HM He) as (m' & E & HM'). rewrite E in *. cbn. by apply IH.
Qed.
End MInv.
End Machine.
