(* ===== verification/Os_Boot.v ===== *)
(** * Start-up

    [InitOS] and [StartOS] lead from the memory as it is generated to a machine that satisfies the invariant: the autostart task with the
    highest priority runs. *)

From stdpp Require Import sets.
From S2P Require Import Prelude.
From S2P Require Import StateMonad.
From S2P Require Import Coroutine.
From S2P Require Import Os_Irq.
From S2P Require Import Os_Types.
From S2P Require Import Os.
From S2P Require Import Os_Timers.
From S2P Require Import Os_System.
From S2P Require Import Os_Inv.
From S2P Require Import Os_Update.
From S2P Require Import Os_Dispatch.
From S2P Require Import Os_Kernel.
From S2P Require Import Os_Tasks.
From S2P Require Import Os_Resources.
From S2P Require Import Os_Timing.
From S2P Require Import Os_Interrupts.
From S2P Require Import Os_Machine.

(** ** Valid timers *)
Definition shape_of (rank : nat -> nat) (tm : Timers) : Shape := {|
  sh_rank := rank;
  sh_alarms := counter <$> tm.(alarm_list);
  sh_tables := length tm.(sched_list);
  sh_counters := length tm.(counter_list)
|}.
(** What [ScheduleTableConsistenyCheck] asserts. *)
Definition consistent (c : OsCounterType) (t : OsSchTblType) : Prop :=
  check_offsets (Os_CounterGetMinCycle c) (Os_CounterGetMaxValue c) true 0 t.(expirePointList) = true /\
  exists d, Os_SchTblGetFinalOffset t = Some d /\ Os_CounterGetMinCycle c <= d <= Os_CounterGetMaxValue c.
Record valid_table (tm : Timers) (t : OsSchTblType) : Prop := {
  vs_points : t.(expirePointList) <> [];
  vs_index : t.(expire_curr_index) = 0;
  vs_next : t.(next) = None;
  vs_counter : exists c, tm.(counter_list) !! t.(st_counter) = Some c /\ consistent c t
}.
Record valid_counter (c : OsCounterType) : Prop := {
  vc_alarms : c.(alarm_head) = [];
  vc_tables : c.(sched_head) = [];
  vc_cycle : 1 <= Os_CounterGetMinCycle c
}.
Record valid_timers (rank : nat -> nat) (tm : Timers) : Prop := {
  vm_alarms : Forall (alarm_ok (shape_of rank tm)) tm.(alarm_list);
  vm_tables : Forall (valid_table tm) tm.(sched_list);
  vm_counters : Forall valid_counter tm.(counter_list);
  vm_rank : forall c, (rank c <= length tm.(counter_list))%nat
}.
(** Standard resources that belong to no task. *)
Record valid_res (r : OsResourceType) : Prop := {
  vr_owner : r.(owner) = None;
  vr_type : r.(type) <> RESOURCE_TYPE_INTERNAL
}.

Section Timers.
Context (rank : nat -> nat) (tm : Timers).
Hypothesis Htm : valid_timers rank tm.
Abbreviation sh := (shape_of rank tm).

Lemma valid_table_ok t : valid_table tm t -> table_ok sh t.
Proof using Htm.
  intros [Hp Hi Hn (c & Ec & _ & d & Ed & Hd)]. pose proof (lookup_lt_Some _ _ _ Ec). split; try done.
  - rewrite Hi. lia.
  - intros _. rewrite Ed. destruct (proj1 (Forall_lookup _ _) (vm_counters _ _ Htm) _ _ Ec) as [_ _ H1]. intros [= ->]. lia.
Qed.
Lemma valid_timers_ok : timers_ok sh tm.
Proof using Htm.
  destruct Htm as [Ha Ht Hc Hr]. split; try done.
  - eapply list.Forall_impl; [exact Ht|]. apply valid_table_ok.
  - intros i c Ec. destruct (proj1 (Forall_lookup _ _) Hc _ _ Ec) as [E1 E2 _]. split; rewrite ?E1, ?E2; constructor.
Qed.
End Timers.

(** A loop over the indices from [k] on. *)
Lemma wp_for_seq {St} (P : nat -> St -> Prop) j k n (body : nat -> M St unit) s :
  P k s -> (forall i s, (k <= i < k + n)%nat -> P i s -> wp (body i) (fun _ => P (S i)) s) ->
  wp (for_each j (seq k n) (fun _ i => body i)) (fun _ => P (k + n)%nat) s.
Proof.
  revert j k s. induction n as [|n IH]; intros j k s HP Hb; cbn [seq for_each].
  - by rewrite Nat.add_0_r.
  - apply wp_bind. eapply wp_mono; [apply Hb; [lia|done]|]. intros [] s' HP'. replace (k + S n)%nat with (S k + n)%nat by lia.
    apply IH; [done|]. intros i s1 Hi. apply Hb. lia.
Qed.

Section Boot.
Context {W : Type} {Cfg : Os_Cfg} {Env : Os_Env W}.
Abbreviation S := (Os_State W).
Implicit Types (s : S) (x : nat -> Prop).

#[local] Arguments Os_TaskGet : simpl never.
#[local] Arguments Os_ResourceGet : simpl never.
#[local] Arguments task_set : simpl never.
#[local] Arguments res_set : simpl never.
#[local] Arguments constPtr : simpl never.

(** ** The list heads of the counters *)
Section Counters.
Context (sh : Shape).
(** Everything but the alarms, and the values and lists of the counters, is as in [s0]. *)
Record Timed (s0 s : S) : Prop := {
  td_ok : timers_ok sh s.(timers);
  td_eq : s = set_timers s.(timers) s0;
  td_sched : s.(timers).(sched_list) = s0.(timers).(sched_list);
  td_base : alarm_base <$> s.(timers).(counter_list) = alarm_base <$> s0.(timers).(counter_list)
}.
Lemma Timed_counter s0 s c f :
  Timed s0 s -> (forall i k, i = c -> counter_ok sh i k -> counter_ok sh i (f k)) -> (forall k, (f k).(alarm_base) = k.(alarm_base)) ->
  wp (counter_set c f) (fun _ => Timed s0) s.
Proof using Type.
  intros [[] E Es Eb] Hf Hb. apply wp_modify. split; [|by rewrite E|done|].
  2:{ cbn. rewrite <- Eb. apply list_eq. intros i. rewrite !list_lookup_fmap. destruct (decide (i = c)) as [->|Hne]; [|by rewrite list_lookup_alter_ne].
      rewrite list_lookup_alter_eq. destruct (s.(timers).(counter_list) !! c); [cbn; by rewrite Hb|done]. }
  split; try done; cbn; [|by rewrite length_alter].
  intros i k. destruct (decide (i = c)) as [->|Hne]; [|rewrite list_lookup_alter_ne by done; apply tm_counters].
  rewrite list_lookup_alter_eq. destruct (s.(timers).(counter_list) !! c) as [k'|] eqn:Ek; [|done]. intros [= <-]. apply Hf; [done|]. by apply tm_counters.
Qed.
Lemma CounterInit_ok s0 s : Timed s0 s -> wp Os_CounterInit (fun _ => Timed s0) s.
Proof using Type.
  intros H. unfold Os_CounterInit. apply wp_bind, wp_get, wp_bind.
  assert (Halarm : forall i s, Timed s0 s -> (i < length s.(timers).(alarm_list))%nat ->
    exists a, s.(timers).(alarm_list) !! i = Some a /\ sh.(sh_alarms) !! i = Some a.(counter)).
  { intros i s' [Hok _ _ _] [a Ea]%lookup_lt_is_Some_2. exists a. split; [done|]. rewrite <- (tm_alarm_counters _ _ Hok), list_lookup_fmap. by rewrite Ea. }
  assert (Hlen : forall s, Timed s0 s -> length s.(timers).(alarm_list) = length sh.(sh_alarms) /\ length s.(timers).(sched_list) = sh.(sh_tables)).
  { intros s' [Hok _ _ _]. rewrite <- (tm_alarm_counters _ _ Hok), length_fmap. split; [done|]. apply Hok. }
  eapply (wp_mono _ (fun _ => Timed s0)); [|intros [] s1 H1; apply wp_bind, wp_get].
  - apply wp_if; [intros _; exact H|]. intros Hne%Nat.eqb_neq. destruct (Halarm 0%nat s H) as (a & Ea & _); [lia|].
    eapply wp_step; [by apply run_AlarmGet|]. apply wp_bind. eapply wp_mono; [apply (Timed_counter s0); [exact H| |done]; intros i k -> []; by split|].
    intros [] s1 H1. rewrite (proj1 (Hlen s H)). eapply wp_mono; [apply (wp_for_seq (fun _ => Timed s0)); [done|]|done].
    intros i s2 Hi H2. destruct (Halarm i s2 H2) as (a2 & Ea2 & Es2); [rewrite (proj1 (Hlen _ H2)); lia|].
    eapply wp_step; [by apply run_AlarmGet|]. apply Timed_counter; [done| |done]. intros i' k -> []. split; [by constructor|done].
  - apply wp_if; [intros _; exact H1|]. intros Hne%Nat.eqb_neq.
    assert (Htable : forall i s, Timed s0 s -> (i < sh.(sh_tables))%nat -> exists t, s.(timers).(sched_list) !! i = Some t).
    { intros i s' H' Hi. apply lookup_lt_is_Some_2. by rewrite (proj2 (Hlen s' H')). }
    rewrite (proj2 (Hlen _ H1)) in Hne |- *. destruct (Htable 0%nat s1 H1) as [t Et]; [lia|].
    eapply wp_step; [by apply run_SchTblGet|]. apply wp_bind. eapply wp_mono; [apply (Timed_counter s0); [exact H1| |done]; intros i k -> []; by split|].
    intros [] s2 H2. eapply wp_mono; [apply (wp_for_seq (fun _ => Timed s0)); [done|]|done].
    intros i s3 Hi H3. destruct (Htable i s3 H3) as [t3 Et3]; [lia|]. eapply wp_step; [by apply run_SchTblGet|].
    apply Timed_counter; [done| |done]. intros i' k -> []. split; [done|]. constructor; [lia|done].
Qed.
End Counters.

Lemma SchTblInit_ok (tm : Timers) s :
  Forall (valid_table tm) s.(timers).(sched_list) -> alarm_base <$> s.(timers).(counter_list) = alarm_base <$> tm.(counter_list) ->
  wp Os_SchTblInit (fun _ s' => s' = s) s.
Proof.
  intros Ht Hb. unfold Os_SchTblInit. apply wp_bind, wp_get. eapply wp_mono; [apply (wp_for_seq (fun _ s' => s' = s)); [done|]|done].
  intros i s' Hi ->. destruct (lookup_lt_is_Some_2 s.(timers).(sched_list) i) as [t Et]; [lia|].
  destruct (proj1 (Forall_lookup _ _) Ht _ _ Et) as [Hp _ _ (c & Ec & Hch & d & Ed & Hd)].
  assert (Ec' : (alarm_base <$> s.(timers).(counter_list)) !! t.(st_counter) = Some c.(alarm_base)) by (by rewrite Hb, list_lookup_fmap, Ec).
  rewrite list_lookup_fmap in Ec'. destruct (s.(timers).(counter_list) !! t.(st_counter)) as [c'|] eqn:Ec2; [|done]. injection Ec' as Eb.
  unfold ScheduleTableConsistenyCheck. eapply wp_step; [by apply run_SchTblGet|]. eapply wp_step; [by apply run_CounterGet|].
  unfold Os_CounterGetMinCycle, Os_CounterGetMaxValue in *. rewrite Eb.
  eapply wp_step; [apply run_ASSERT; by destruct t.(expirePointList)|]. eapply wp_step; [by apply run_ASSERT|]. rewrite Ed. eapply wp_step; [done|].
  eapply wp_step; [apply run_ASSERT, Z.leb_le; lia|]. eapply wp_run; [apply run_ASSERT, Z.leb_le; lia|done].
Qed.

(** ** The tasks *)
Definition fresh_task (c : OsTaskConstType) : OsTaskVarType := {|
  stack := ENTRY; state := if c.(autostart) then ST_READY else ST_SUSPENDED; ev_wait := 0; ev_set := 0;
  flags := SYS_FLAG_HOOK_STATE_EXPECTING_PRE; activePriority := c.(prio); activations := if c.(autostart) then 1 else 0;
  reactivation := REACTIVATE_NORMAL; resourceHead := []
|}.
Definition autostarted (k : nat) : list nat := filter (fun i => (C i).(autostart) = true) (seq 0 k).
(** The first [k] tasks are initialised. *)
Record Started (s0 : S) (k : nat) (s : S) : Prop := {
  sd_len : length s.(Os_TaskVarList) = OS_TASK_CNT;
  sd_done t : (t < k)%nat -> T s t = fresh_task (C t);
  sd_todo t : (k <= t)%nat -> T s t = zero_task;
  sd_ready : ready s = autostarted k;
  sd_curr : curr s = curr s0;
  sd_nest : nest s = nest s0;
  sd_res : s.(resource_list) = s0.(resource_list);
  sd_timers : s.(timers) = s0.(timers)
}.
Lemma autostarted_in k i : i ∈ autostarted k <-> (C i).(autostart) = true /\ (i < k)%nat.
Proof. unfold autostarted. rewrite list_elem_of_filter, elem_of_seq. intuition lia. Qed.
Lemma autostarted_S k : autostarted (Datatypes.S k) = if (C k).(autostart) then autostarted k ++ [k] else autostarted k.
Proof.
  unfold autostarted. rewrite seq_S, list.filter_app, Nat.add_0_l. destruct (C k).(autostart) eqn:E.
  - by rewrite filter_cons_True, filter_nil.
  - rewrite filter_cons_False, filter_nil by congruence. by rewrite app_nil_r.
Qed.
Lemma task_init_ok s0 i s :
  (i < OS_TASK_CNT)%nat -> Started s0 i s ->
  wp (bind (copyPcbParts i) (fun _ => bind (Os_TaskContextInit i) (fun _ => task_set i (set_resourceHead [])))) (fun _ => Started s0 (Datatypes.S i)) s.
Proof.
  intros Hi [Hl Hdone Htodo Hr Hc Hn Hre Htm]. pose proof (Htodo i (le_n i)) as Ei.
  assert (H : exists s' , bind (copyPcbParts i) (fun _ => bind (Os_TaskContextInit i) (fun _ => task_set i (set_resourceHead []))) s = Some (tt, s') /\
    changed i (fresh_task (C i)) (autostarted (Datatypes.S i)) s s').
  { unfold copyPcbParts, Os_TaskContextInit, bind. rewrite run_constPtr by done. cbn [mbind option_bind]. rewrite run_task_set by lia. cbn [mbind option_bind].
    set (s1 := upd i (set_activePriority (C i).(prio)) s). assert (H1 : changed i (set_activePriority (C i).(prio) zero_task) (ready s) s s1).
    { rewrite <- Ei. apply changed_upd. lia. }
    rewrite run_constPtr by done. cbn [mbind option_bind]. rewrite autostarted_S.
    assert (Hlast : forall p q s2, changed i p q s s2 -> set_resourceHead [] (set_stack ENTRY p) = fresh_task (C i) ->
      exists s', ('(_, s) ← Os_ArchSetupContext i s2; task_set i (set_resourceHead []) s) = Some (tt, s') /\ changed i (fresh_task (C i)) q s s').
    { intros p q s2 H2 E. pose proof (ch_len _ _ _ _ _ H2) as Hl2. unfold Os_ArchSetupContext. rewrite run_task_set by lia. cbn [mbind option_bind].
      rewrite run_task_set by (rewrite len_upd; lia). eexists. split; [done|]. rewrite <- E. eapply changed_trans; [exact H2|].
      pose proof (changed_upd i (set_stack ENTRY) s2 ltac:(lia)) as H3. rewrite (changed_self _ _ _ _ _ H2), (ch_ready _ _ _ _ _ H2) in H3.
      eapply changed_trans; [exact H3|]. pose proof (changed_upd i (set_resourceHead []) (upd i (set_stack ENTRY) s2) ltac:(rewrite len_upd; lia)) as H4.
      by rewrite (changed_self _ _ _ _ _ H3), (ch_ready _ _ _ _ _ H3) in H4. }
    pose proof (ch_len _ _ _ _ _ H1) as Hl1. pose proof (changed_self _ _ _ _ _ H1) as E1.
    destruct (C i).(autostart) eqn:Ea.
    - rewrite run_task_set by lia. cbn [mbind option_bind]. set (up := fun p => set_activations _ p).
      pose proof (changed_upd i up s1 ltac:(lia)) as H2. rewrite E1, (ch_ready _ _ _ _ _ H1) in H2. pose proof (changed_trans _ _ _ _ _ _ _ _ H1 H2) as H3.
      destruct (run_make_ready i (upd i up s1)) as (s3 & E3 & H4).
      { rewrite (ch_len _ _ _ _ _ H3). lia. }
      { by rewrite (changed_self _ _ _ _ _ H2). }
      { rewrite (ch_ready _ _ _ _ _ H2), Hr, autostarted_in. lia. }
      rewrite (changed_self _ _ _ _ _ H2), (ch_ready _ _ _ _ _ H2) in H4. rewrite E3. cbn [mbind option_bind].
      rewrite <- Hr. eapply Hlast; [by eapply changed_trans|]. unfold fresh_task. by rewrite Ea.
    - rewrite run_task_set by lia. cbn [mbind option_bind]. pose proof (changed_upd i (set_state ST_SUSPENDED) s1 ltac:(lia)) as H2.
      rewrite E1, (ch_ready _ _ _ _ _ H1) in H2. rewrite <- Hr. eapply Hlast; [by eapply changed_trans|]. unfold fresh_task. by rewrite Ea. }
  destruct H as (s' & E & Hch). eapply wp_run; [exact E|]. split.
  - rewrite (ch_len _ _ _ _ _ Hch). done.
  - intros t Ht. rewrite (ch_T _ _ _ _ _ Hch). destruct (decide (t = i)) as [->|]; [done|]. apply Hdone. lia.
  - intros t Ht. rewrite (ch_T _ _ _ _ _ Hch), decide_False by lia. apply Htodo. lia.
  - apply (ch_ready _ _ _ _ _ Hch).
  - by rewrite (ch_curr _ _ _ _ _ Hch).
  - by rewrite (ch_nest _ _ _ _ _ Hch).
  - by rewrite (ch_res _ _ _ _ _ Hch).
  - by rewrite (ch_timers _ _ _ _ _ Hch).
Qed.

(** ** The resources *)
Lemma topPrio_top i l top : top <= topPrio i l top.
Proof. revert top. induction l as [|c l IH]; intros top; cbn; [lia|]. pose proof (IH (if Z.testbit c.(resourceAccess) (Z.of_nat i) then Z.max top c.(prio) else top)). destruct (Z.testbit _ _); lia. Qed.
Lemma topPrio_ge i l top c : c ∈ l -> Z.testbit c.(resourceAccess) (Z.of_nat i) = true -> c.(prio) <= topPrio i l top.
Proof.
  revert top. induction l as [|c' l IH]; intros top Hin Hb; [set_solver|]. cbn. apply elem_of_cons in Hin as [<-|Hin]; [|by apply IH].
  rewrite Hb. pose proof (topPrio_top i l (Z.max top c.(prio))). lia.
Qed.
Lemma topPrio_le i l top b : Forall (fun c => c.(prio) <= b) l -> top <= b -> topPrio i l top <= b.
Proof. intros H. revert top. induction H as [|c l Hc _ IH]; intros top Ht; cbn; [done|]. apply IH. destruct (Z.testbit _ _); lia. Qed.

(** The ceilings of the first [k] resources are set. *)
Record Ceilings (s0 : S) (k : nat) (s : S) : Prop := {
  cl_eq : s = set_resource_list s.(resource_list) s0;
  cl_len : length s.(resource_list) = length s0.(resource_list);
  cl_done r : (r < k)%nat -> (Rs s r).(ceiling_priority) = topPrio r Os_TaskConstList 0;
  cl_sch : (Rs s (sch s)).(ceiling_priority) = OS_RES_SCHEDULER_PRIO;
  cl_owner r : (Rs s r).(owner) = None;
  cl_type r : (Rs s r).(type) <> RESOURCE_TYPE_INTERNAL
}.
Lemma ResourceInit_ok s :
  (0 < length s.(resource_list))%nat -> (forall r, valid_res (Rs s r)) -> wp Os_ResourceInit (fun _ => Ceilings s (sch s)) s.
Proof.
  intros Hl Hr. unfold Os_ResourceInit. apply wp_bind, wp_get. fold (sch s). assert (Hs : (sch s < length s.(resource_list))%nat) by (unfold sch; lia).
  eapply wp_step; [by apply run_res_set|]. set (f := fun r => set_owner None _). apply (wp_for_seq (Ceilings s)).
  - assert (E : sch (upr (sch s) f s) = sch s) by (unfold sch; by rewrite len_upr).
    split; [done|by rewrite len_upr|lia|..].
    + by rewrite E, Rs_upr, decide_True.
    + intros r. rewrite Rs_upr by done. destruct (decide (r = sch s)); [done|apply Hr].
    + intros r. rewrite Rs_upr by done. destruct (decide (r = sch s)); apply Hr.
  - intros i s1 Hi [E1 El Hd Hsch Ho Hty]. assert (Esch : sch s1 = sch s) by (unfold sch; by rewrite El).
    eapply wp_run; [apply run_res_set; lia|]. assert (E2 : forall g, sch (upr i g s1) = sch s1) by (intros g; unfold sch; by rewrite len_upr).
    split; rewrite ?len_upr, ?E2; try done.
    + rewrite E1. done.
    + intros r Hlt. rewrite Rs_upr by lia. destruct (decide (r = i)) as [->|]; [done|]. apply Hd. lia.
    + rewrite Rs_upr by lia. rewrite decide_False by lia. done.
    + intros r. rewrite Rs_upr by lia. destruct (decide (r = i)); apply Ho.
    + intros r. rewrite Rs_upr by lia. destruct (decide (r = i)); apply Hty.
Qed.

(** ** InitOS *)
Record Fresh (sh : Shape) (s : S) : Prop := {
  fr_len : length s.(Os_TaskVarList) = OS_TASK_CNT;
  fr_task t : (t < OS_TASK_CNT)%nat -> T s t = fresh_task (C t);
  fr_ready : ready s = autostarted OS_TASK_CNT;
  fr_nest : nest s = 0;
  fr_some : (0 < length s.(resource_list))%nat;
  fr_ceiling r : (r < sch s)%nat -> (Rs s r).(ceiling_priority) = topPrio r Os_TaskConstList 0;
  fr_sch : (Rs s (sch s)).(ceiling_priority) = OS_RES_SCHEDULER_PRIO;
  fr_owner r : (Rs s r).(owner) = None;
  fr_type r : (Rs s r).(type) <> RESOURCE_TYPE_INTERNAL;
  fr_timers : timers_ok sh s.(timers)
}.
Lemma InitOS_ok rank res tm w :
  valid_timers rank tm -> Forall valid_res res -> wp InitOS (fun _ => Fresh (shape_of rank tm)) (reset res tm w).
Proof.
  intros Htm Hres. unfold InitOS. eapply wp_step; [done|]. eapply wp_step; [done|]. eapply wp_step; [done|]. set (s0 := set_Os_IntDisableAllCnt _ _).
  assert (H0 : Timed (shape_of rank tm) s0 s0) by (split; try done; by apply valid_timers_ok).
  assert (Hv : forall r, valid_res (Rs s0 r)).
  { intros r. unfold Rs. destruct (s0.(resource_list) !! r) as [q|] eqn:E; [|done]. cbn in E. cbn. apply lookup_app_Some in E as [E|[_ E]].
    - by eapply Forall_lookup in Hres.
    - apply list_lookup_singleton_Some in E as [_ <-]. done. }
  apply wp_bind. eapply wp_mono; [by apply CounterInit_ok|]. intros [] s1 [Hok E1 Es Eb].
  apply wp_bind. eapply wp_mono; [apply (SchTblInit_ok tm); [rewrite Es; apply Htm|exact Eb]|]. intros [] s2 ->.
  apply wp_bind. eapply wp_mono; [apply (wp_for_seq (Started s1))|].
  - rewrite E1. split; try done; cbn; [by rewrite length_replicate|lia|].
    intros t _. unfold T. cbn. destruct (replicate OS_TASK_CNT zero_task !! t) as [p|] eqn:E; [|done]. apply lookup_replicate in E as [-> _]. done.
  - intros i s2 Hi H2. apply task_init_ok; [lia|done].
  - cbn [Nat.add]. intros [] s2 [Hl Hd _ Hr Hc Hn Hre Ht].
    assert (Elen : (0 < length s2.(resource_list))%nat) by (rewrite Hre, E1; cbn; rewrite length_app; cbn; lia).
    eapply wp_mono; [apply ResourceInit_ok; [done|]|].
    + intros r. unfold Rs. rewrite Hre, E1. apply Hv.
    + intros [] s3 [E3 El3 Hce Hsch Ho Hty]. assert (Esch : sch s3 = sch s2) by (unfold sch; by rewrite El3).
      split; rewrite ?Esch; try done; try (rewrite E3; done).
      * rewrite E3. change (nest s2 = 0). by rewrite Hn, E1.
      * by rewrite El3.
      * rewrite <- Esch. done.
      * rewrite E3. cbn. by rewrite Ht.
Qed.

(** ** StartOS *)
Section Start.
Context (sh : Shape).
Hypothesis Hv : valid_cfg.

#[local] Instance Fresh_keeps : Keeps (Fresh sh).
Proof using Type.
  split. intros s s' Hs [H1 H2 H3 H4 H5 H6 H7 H8 H9 H10].
  assert (Esch : sch s' = sch s) by (unfold sch; by rewrite (sk_res _ _ Hs)).
  split; rewrite ?Esch, ?(sk_tasks _ _ Hs), ?(sk_ready _ _ Hs), ?(sk_nest _ _ Hs), ?(sk_res _ _ Hs), ?(sk_timers _ _ Hs), ?(same_Rs _ _ _ Hs); try done;
    intros u; rewrite ?(same_T _ _ _ Hs), ?(same_Rs _ _ _ Hs); auto.
Qed.
#[local] Instance Fresh_keeps_timers : KeepsTimers sh (Fresh sh).
Proof using Type. split; [apply _|by intros s []|]. intros tm s [] Hok. by split. Qed.

Lemma AlarmAutostart_ok s : Fresh sh s -> wp Os_AlarmAutostart (fun _ => Fresh sh) s.
Proof using Type.
  intros HF. unfold Os_AlarmAutostart. apply wp_bind, wp_get. eapply wp_mono; [apply (wp_for_seq (fun _ s => Fresh sh s)); [done|]|done].
  assert (Elen : forall s, Fresh sh s -> length s.(timers).(alarm_list) = length sh.(sh_alarms)).
  { intros s' H'. rewrite <- (tm_alarm_counters _ _ (fr_timers _ _ H')), length_fmap. done. }
  rewrite (Elen _ HF). intros j s1 Hj H1. apply wok_alarm_get; [done|rewrite (Elen _ H1); lia|]. intros a _ _.
  destruct a.(autostartPtr) as [au|]; [|done]. apply wp_bind, wp_get, wp_if; intros _; [|done]. apply wp_bind.
  destruct au.(autostartType); (eapply (wp_mono _ (fun _ => Fresh sh)); [|done]); [by apply setAbsAlarm_ok|by apply setRelAlarm_ok].
Qed.
Lemma SchTblAutostart_ok s : Fresh sh s -> wp Os_SchTblAutostart (fun _ => Fresh sh) s.
Proof using Type.
  intros HF. unfold Os_SchTblAutostart. apply wp_bind, wp_get. eapply wp_mono; [apply (wp_for_seq (fun _ s => Fresh sh s)); [done|]|done].
  assert (Elen : forall s, Fresh sh s -> length s.(timers).(sched_list) = sh.(sh_tables)) by (intros s' H'; apply (fr_timers _ _ H')).
  rewrite (Elen _ HF). intros j s1 Hj H1. apply wok_table_get; [done|rewrite (Elen _ H1); lia|]. intros a _ _.
  destruct a.(st_autostartPtr) as [au|]; [|done]. apply wp_bind, wp_get, wp_if; intros _; [|done]. apply wp_bind.
  destruct au.(sa_type); (eapply (wp_mono _ (fun _ => Fresh sh)); [|done]);
    [by apply StartScheduleTableAbs_ok|by apply StartScheduleTableRel_ok|done].
Qed.

(** The first autostart task of the highest priority. *)
Lemma highest_ok k n cur s :
  length s.(Os_TaskVarList) = OS_TASK_CNT -> (k + n = OS_TASK_CNT)%nat ->
  cur ∈ autostarted k -> (forall u, u ∈ autostarted k -> act s u <= act s cur) -> (forall u, before (autostarted k) u cur -> act s u < act s cur) ->
  exists top, highest_autostart (seq k n) cur (act s cur) s = Some (top, s) /\ top ∈ autostarted OS_TASK_CNT /\
    (forall u, u ∈ autostarted OS_TASK_CNT -> act s u <= act s top) /\ (forall u, before (autostarted OS_TASK_CNT) u top -> act s u < act s top).
Proof using Type.
  clear Hv. revert k cur. induction n as [|n IH]; intros k cur Hl Hk Hin Hmax Hfirst.
  - rewrite Nat.add_0_r in Hk. subst k. by exists cur.
  - assert (Hlt : (k < OS_TASK_CNT)%nat) by lia. cbn [seq highest_autostart]. unfold bind. rewrite run_constPtr by done. cbn [mbind option_bind].
    rewrite run_TaskGet by lia. cbn [mbind option_bind]. fold (act s k). pose proof (autostarted_S k) as ES.
    destruct (C k).(autostart) eqn:Ea; cbn [andb].
    + assert (Hnd : NoDup (autostarted k ++ [k])) by (rewrite <- ES; apply list.NoDup_filter, NoDup_seq).
      destruct (Z.ltb_spec (act s cur) (act s k)) as [Hlt'|Hge].
      * apply IH; [done|lia| | |]; rewrite ES; [set_solver| |].
        -- intros u [Hu| ->%list_elem_of_singleton]%elem_of_app; [pose proof (Hmax u Hu); lia|lia].
        -- intros u Hb. pose proof (before_ne _ _ _ Hnd Hb) as Hne. apply before_in in Hb as [[Hu|Hu]%elem_of_app _]; [|set_solver]. pose proof (Hmax u Hu). lia.
      * apply IH; [done|lia| | |]; rewrite ES; [set_solver| |].
        -- intros u [Hu| ->%list_elem_of_singleton]%elem_of_app; [by apply Hmax|lia].
        -- intros u [Hb| ->]%before_snoc; [by apply Hfirst|]. apply autostarted_in in Hin as [_ Hin]. lia.
    + apply IH; [done|lia| | |]; by rewrite ES.
Qed.

(** The task [n] is entered for the first time. *)
Lemma fresh_mid n s : Fresh sh s -> curr s = n -> is_top s n -> Mid sh (fun _ => False) s.
Proof using Hv.
  intros HF Hc Htop. destruct HF as [Hl Ht Hr Hn Hso Hce Hsch Ho Hty Htm].
  assert (Hz : forall t, (OS_TASK_CNT <= t)%nat -> T s t = zero_task).
  { intros t Hge. unfold T. by rewrite lookup_ge_None_2 by lia. }
  assert (Hheld : forall t, held s t = []).
  { intros t. unfold held. destruct (decide (t < OS_TASK_CNT)%nat); [by rewrite Ht|rewrite Hz by lia; done]. }
  assert (Hact : forall t, act s t = base t).
  { intros t. unfold act, base. destruct (decide (t < OS_TASK_CNT)%nat) as [|Hge]; [by rewrite Ht|]. rewrite Hz by lia. unfold C.
    by rewrite lookup_ge_None_2 by (unfold OS_TASK_CNT in *; lia). }
  assert (Hin : forall t, t ∈ ready s <-> ready_or_running (T s t).(state) = true).
  { intros t. rewrite Hr, autostarted_in. destruct (decide (t < OS_TASK_CNT)%nat) as [Hlt|Hge]; [|rewrite Hz by lia; cbn; split; [lia|done]].
    rewrite (Ht t Hlt). cbn. destruct (C t).(autostart); cbn; intuition. }
  split; try done.
  - split; try done.
    + rewrite Hr. apply list.NoDup_filter, NoDup_seq.
    + intros t Hlt. rewrite (Ht t Hlt). cbn. by destruct (C t).(autostart).
    + rewrite Hr, autostarted_in. destruct (v_idle Hv) as (c & Ec & Ea). split; [unfold C; by rewrite Ec|]. unfold OS_TASK_CNT. by eapply lookup_lt_Some.
  - split.
    + intros t Hlt. rewrite (Ht t Hlt). cbn. by destruct (C t).(autostart).
    + intros t Hlt. rewrite (Ht t Hlt). cbn. pose proof (vt_limit _ (valid_const t Hv Hlt)). destruct (C t).(autostart); [lia|done].
    + intros t. destruct (decide (t < OS_TASK_CNT)%nat); [by rewrite Ht|by rewrite Hz by lia].
    + intros t. destruct (decide (t < OS_TASK_CNT)%nat) as [Hlt|]; [|by rewrite Hz by lia]. rewrite (Ht t Hlt). cbn. by destruct (C t).(autostart).
  - assert (Hprio : Forall (fun c => c.(prio) <= OS_RES_SCHEDULER_PRIO) Os_TaskConstList).
    { eapply list.Forall_impl; [apply (v_tasks Hv)|]. intros c [H _ _ _]. lia. }
    assert (Hmax : forall r, (Rs s r).(ceiling_priority) <= OS_RES_SCHEDULER_PRIO).
    { intros r. destruct (decide (r < sch s)%nat) as [Hlt|Hge]; [rewrite (Hce r Hlt); by apply topPrio_le|].
      destruct (decide (r = sch s)) as [->|Hne]; [by rewrite Hsch|]. unfold Rs, sch in *. by rewrite lookup_ge_None_2 by lia. }
    split; try done.
    + intros r t Hlt Hb. rewrite (Hce r Hlt). unfold base, C in *. destruct (Os_TaskConstList !! t) as [c|] eqn:E; [|by rewrite Z.bits_0 in Hb].
      apply topPrio_ge; [by eapply list_elem_of_lookup_2|done].
    + intros r t. rewrite Ho, Hheld. split; [done|set_solver].
    + intros t. rewrite Hheld. constructor.
    + intros t. rewrite Hheld. apply Hact.
    + intros t H. by rewrite Hheld in H.
  - split.
    + intros t _ H. by rewrite Hheld in H.
    + intros t u _ H. by rewrite Hheld in H.
    + intros t u [->|H]; [|by rewrite Hheld in H]. rewrite Hc. intros Hb. pose proof (top_first s n Htop u Hb). by rewrite !Hact in H.
  - intros Hpre t. destruct (decide (t < OS_TASK_CNT)%nat); [by rewrite Ht|by rewrite Hz by lia].
  - assert (Hst : forall t, alive s t -> (T s t).(stack) = ENTRY).
    { intros t Ha. assert (Hlt : (t < OS_TASK_CNT)%nat); [|by rewrite Ht]. apply not_le. intros Hge. unfold alive in Ha. rewrite Hz in Ha by lia. by destruct Ha. }
    split; intros t; [intros _ Ha; by rewrite Hst|intros _ Hw|intros Ha; by rewrite Hst].
    destruct (decide (t < OS_TASK_CNT)%nat) as [Hlt|]; [|by rewrite Hz in Hw by lia]. rewrite (Ht t Hlt) in Hw. cbn in Hw. by destruct (C t).(autostart).
Qed.

(** The first switch. *)
Record First (x : nat -> Prop) (w : Switch) (s : S) : Prop := {
  fs_to : w = SwapTo;
  fs_curr : (curr s < OS_TASK_CNT)%nat;
  fs_nest : nest s = 0;
  fs_dis : dis s = false;
  fs_stack : (T s (curr s)).(stack) = ENTRY;
  fs_inv : Inv sh x ST_RUNNING (loaded SwapTo s)
}.
Lemma first_enter n s :
  Fresh sh s -> curr s = n -> dis s = false -> is_top s n -> First (fun _ => False) SwapTo (entered n s).
Proof using Hv.
  intros HF Hc Hd Htop. pose proof (fresh_mid n s HF Hc Htop) as HM. pose proof (ready_range s n (m_queue _ _ _ HM) (top_in _ _ Htop)) as Hn.
  pose proof (fr_len _ _ HF) as Hl. pose proof (entering_entered n s ltac:(lia)) as [HT Hle Hr Hcu Hne Hlv Hre Htm].
  split; rewrite ?Hcu; try done.
  - by rewrite Hne, (fr_nest _ _ HF).
  - by rewrite (dis_lvl _ _ Hlv).
  - rewrite HT, decide_True, (fr_task _ _ HF) by done. unfold pre_task. by destruct OS_PRE_TASK_HOOK.
  - eapply (Inv_switch sh (fun _ => False) _ n (set_stack USED (pre_task (set_state ST_RUNNING (T s n)))) (T s n) s); try done; rewrite ?Hc; try done.
    + intros u. unfold loaded. cbn [saved]. rewrite Hcu, T_upd by lia. rewrite HT. destruct (decide (u = n)); done.
    + unfold loaded. by rewrite len_upd.
    + unfold pre_task. by destruct OS_PRE_TASK_HOOK.
    + unfold pre_task. by intros ->.
    + unfold pre_task. by destruct OS_PRE_TASK_HOOK.
    + unfold pre_task. by destruct OS_PRE_TASK_HOOK.
    + by destruct (T s n).
Qed.
Lemma os_start_ok s : Fresh sh s -> kwp First (fun _ _ => False) (fun _ _ => False) (fun _ => False) os_start (fun _ _ _ => False) s.
Proof using Hv Env.
  intros HF. unfold os_start. eapply kwp_run; [done|]. eapply kwp_run; [done|]. set (s1 := set_world _ _).
  assert (H1 : Fresh sh s1) by (by eapply (keeps_same s)). clearbody s1. clear HF s.
  destruct (wp_inv _ _ _ (AlarmAutostart_ok s1 H1)) as ([] & s2 & E2 & H2). eapply kwp_run; [exact E2|].
  destruct (wp_inv _ _ _ (SchTblAutostart_ok s2 H2)) as ([] & s3 & E3 & H3). eapply kwp_run; [exact E3|]. clear E2 E3 H1 H2 s1 s2.
  pose proof (fr_len _ _ H3) as Hl. destruct (v_idle Hv) as (c0 & Ec0 & Ea0). pose proof (lookup_lt_Some _ _ _ Ec0) as Hpos. fold OS_TASK_CNT in Hpos.
  eapply kwp_run; [apply run_TaskGet; lia|]. fold (act s3 0).
  assert (H0 : autostarted 1 = [0%nat]) by (rewrite autostarted_S; unfold C; rewrite Ec0; cbn; by rewrite Ea0).
  destruct (highest_ok 1 (OS_TASK_CNT - 1) 0 s3 Hl) as (n & En & Hin & Hmax & Hfirst); [lia|rewrite H0; set_solver| |..].
  { intros u. rewrite H0, list_elem_of_singleton. by intros ->. }
  { intros u Hb. apply before_ne in Hb as Hne; [|rewrite H0; apply NoDup_singleton]. apply before_in in Hb as [Hu _]. rewrite H0 in Hu. set_solver. }
  eapply kwp_run; [exact En|]. eapply kwp_run; [done|]. eapply kwp_run; [done|].
  set (s4 := set_irq _ _). assert (H4 : Fresh sh s4) by (by destruct H3). pose proof (fr_len _ _ H4) as Hl4.
  apply autostarted_in in Hin as Hin'. destruct Hin' as [_ Hn].
  eapply kwp_run; [apply run_TaskGet; lia|]. eapply kwp_run; [by apply run_constPtr|].
  eapply kwp_run; [apply run_ASSERT, Z.leb_le; rewrite (fr_task _ _ H4 n Hn); cbn; pose proof (vt_limit _ (valid_const n Hv Hn)); destruct (C n).(autostart); lia|].
  apply kwp_bind. eapply (kwp_mono _ _ _ _ _ (fun _ _ _ => False)); [|by intros ???]. apply kwp_enter; [done..| |].
  - intros _. by rewrite (fr_task _ _ H4 n Hn).
  - split; [|done]. apply first_enter; try done. pose proof (fr_ready _ _ H4) as Hr. split; rewrite Hr; done.
Qed.
Lemma StartOS_ok mode s :
  Fresh sh s -> kwp First (fun _ _ => False) (fun _ _ => False) (fun _ => False) (kbind (StartOS mode) (fun _ => kret E_OK)) (fun _ _ _ => False) s.
Proof using Hv Env.
  intros HF. apply kwp_bind. eapply (kwp_mono _ _ _ _ _ (fun _ _ _ => False)); [|by intros ???]. unfold StartOS. eapply kwp_run; [done|]. apply kwp_bind.
  eapply (kwp_mono _ _ _ _ _ (fun _ _ _ => False)); [|by intros ???]. apply os_start_ok. by eapply (keeps_same s).
Qed.
Lemma boot_exec mode s :
  Fresh sh s -> exists m, exec (kbind (StartOS mode) (fun _ => kret E_OK) s)
    {| os := s; contexts := replicate OS_TASK_CNT (Within unreachable); frames := []; cpu := Application; result := None |} = Some m /\ MInv sh m.
Proof using Hv Env.
  intros HF. pose proof (StartOS_ok mode s HF) as H. unfold kwp in H. destruct (kbind _ _ s) as [a s'|w s' k|]; [done| |done].
  destruct H as [[-> Hc Hn Hd Hs HI] _]. cbn [exec]. eapply (load_ok sh SwapTo (fun _ => False) _ false s'); try done.
  - split; [apply length_replicate|]. by intros u [].
  - right. by left.
Qed.
End Start.

Lemma boot_ok rank res tm mode w :
  valid_cfg -> valid_timers rank tm -> Forall valid_res res -> exists m, boot res tm mode w = Some m /\ MInv (shape_of rank tm) m.
Proof.
  intros Hv Htm Hres. destruct (wp_inv _ _ _ (InitOS_ok rank res tm w Htm Hres)) as ([] & s & E & HF). unfold boot. rewrite E. cbn [mbind option_bind].
  by apply boot_exec.
Qed.
End Boot.
