(* ===== verification/Os_Alarms.v ===== *)
(** * Alarms keep time

    An alarm of the counter that the system tick drives is a count-down: each tick takes one off, at zero the alarm expires and starts over with its cycle
    time.  Nothing else that tasks and interrupts do touches it, except setting and cancelling this alarm: that is shown for every piece of kernel code
    between two switches of tasks, so that it carries over from one step of the machine to the next. *)

From stdpp Require Import sets.
From S2P Require Import Prelude.
From S2P Require Import StateMonad.
From S2P Require Import Coroutine.
From S2P Require Import Os_Irq.
From S2P Require Import Os_Types.
From S2P Require Import Os.
From S2P Require Import Os_Timers.
From S2P Require Import Os_System.

Create HintDb resp.
Ltac head_of t := match t with ?f _ => head_of f | _ => t end.
(** One step through a piece of code; what changes the state is left to [t]. *)
Ltac resp_with t :=
  repeat first
    [ match goal with |- Stable _ _ => typeclasses eauto end
    | solve [eauto with resp nocore]
    | apply mresp_ret | apply mresp_get | apply mresp_deref | apply kresp_ret | apply kresp_unreachable | apply kresp_switch
    | apply mresp_modify; intros ? ?; t
    | apply kresp_bind; [..|intros ?] | apply kresp_atomic | apply kresp_for_each; [..|intros ? ?]
    | apply mresp_bind; [..|intros ?] | apply mresp_for_each; [..|intros ? ?]
    | case_match
    | progress cbn zeta
    | match goal with |- mresp _ _ ?m => let h := head_of m in unfold h | |- kresp _ _ ?m => let h := head_of m in unfold h end ].

(** ** Code that leaves the timers alone *)
Section Kernel.
Context {W : Type} {Cfg : Os_Cfg} {Env : Os_Env W}.
Abbreviation S := (Os_State W).
Context (P : S -> Prop) (Rl : S -> S -> Prop) {HS : Stable P Rl}.
Hypothesis Hoff : forall s s', s'.(timers) = s.(timers) -> Rl s s'.
Ltac resp := resp_with ltac:(apply Hoff; reflexivity).

Lemma resp_err rv svc ps : mresp P Rl (OS_STD_ERR rv svc ps).
Proof using All. resp. Qed.
Lemma resp_set d f : mresp P Rl (task_set d f).
Proof using All. resp. Qed.
Lemma resp_rset d f : mresp P Rl (res_set d f).
Proof using All. resp. Qed.
Hint Resolve resp_err resp_set resp_rset : resp.
Lemma resp_find l found : mresp P Rl (find_top l found).
Proof using All. revert found. induction l as [|i l IH]; intros found; cbn; resp; apply IH. Qed.
Hint Resolve resp_find : resp.
Lemma resp_remove r d : mresp P Rl (Os_TaskResourceRemove r d).
Proof using All. resp. Qed.
Lemma resp_add r d : mresp P Rl (Os_TaskResourceAdd r d).
Proof using All. resp. Qed.
Hint Resolve resp_remove resp_add : resp.
Lemma resp_dispatch op : kresp P Rl (Os_Dispatch op).
Proof using All. resp. Qed.
Hint Resolve resp_dispatch : resp.
Lemma resp_ActivateTask d : kresp P Rl (ActivateTask d).
Proof using All. resp. Qed.
Lemma resp_SetEvent d e : kresp P Rl (SetEvent d e).
Proof using All. resp. Qed.
Lemma resp_TerminateTask : kresp P Rl TerminateTask.
Proof using All. resp. Qed.
Lemma resp_ChainTask d : kresp P Rl (ChainTask d).
Proof using All. resp. Qed.
Lemma resp_Schedule : kresp P Rl Schedule.
Proof using All. resp. Qed.
Hint Resolve resp_TerminateTask : resp.
Lemma resp_TaskPost : kresp P Rl Os_TaskPost.
Proof using All. resp. Qed.
Lemma resp_WaitEvent e : kresp P Rl (WaitEvent e).
Proof using All. resp. Qed.
Lemma resp_ReleaseResource r : kresp P Rl (ReleaseResource r).
Proof using All. resp. Qed.
Lemma resp_GetResource r : mresp P Rl (GetResource r).
Proof using All. resp. Qed.
Lemma resp_isr_enter i : mresp P Rl (Os_Isr_enter i).
Proof using All. resp. Qed.
Lemma resp_isr_leave i old : kresp P Rl (Os_Isr_leave i old).
Proof using All. resp. Qed.
End Kernel.

(** ** Code that leaves one alarm of the system counter alone *)
Section Watch.
Context {W : Type} {Cfg : Os_Cfg} {Env : Os_Env W}.
Abbreviation S := (Os_State W).
Abbreviation sys_counter := Os_Arc_OsTickCounter.
Context (a : nat).

(** The system counter, the alarm, and the lists of alarms of all counters. *)
Definition View : Type := ((option OsCounterType * option OsAlarmType) * list (list nat))%type.
Definition watch (s : S) : View :=
  (s.(timers).(counter_list) !! sys_counter, s.(timers).(alarm_list) !! a, (alarm_head <$> s.(timers).(counter_list))).
(** The alarm is in the list of the system counter, once, and in no other. *)
Record own (v : View) : Prop := {
  own_counter : exists c, v.1.1 = Some c /\ c.(counter_type) = COUNTER_TYPE_HARD;
  own_alarm : exists al, v.1.2 = Some al /\ al.(counter) = sys_counter;
  own_list : exists l1 l2, (v.2 !! sys_counter) = Some (l1 ++ a :: l2) /\ (a ∉ l1) /\ (a ∉ l2);
  own_other : forall c h, c <> sys_counter -> v.2 !! c = Some h -> a ∉ h
}.
Definition Own (s : S) : Prop := own (watch s).
Definition same_watch (s s' : S) : Prop := watch s' = watch s.
#[local] Instance watch_stable : Stable Own same_watch.
Proof. split; [split; [done|intros s1 s2 s3; unfold same_watch; congruence]|]. unfold Own, same_watch. congruence. Qed.

Lemma watch_off s s' : s'.(timers) = s.(timers) -> same_watch s s'.
Proof. unfold same_watch, watch. by intros ->. Qed.
Lemma watch_alarm i f s : i <> a -> same_watch s (set_timers (set_alarm_list (alter f i s.(timers).(alarm_list)) s.(timers)) s).
Proof. intros Hi. unfold same_watch, watch. cbn. by rewrite list_lookup_alter_ne. Qed.
Lemma watch_sched l s : same_watch s (set_timers (set_sched_list l s.(timers)) s).
Proof. done. Qed.
Lemma watch_counter c f s : c <> sys_counter -> (forall x, (f x).(alarm_head) = x.(alarm_head)) ->
  same_watch s (set_timers (set_counter_list (alter f c s.(timers).(counter_list)) s.(timers)) s).
Proof.
  intros Hc Hf. unfold same_watch, watch. cbn. rewrite list_lookup_alter_ne by done. f_equal. apply list_eq. intros j. rewrite !list_lookup_fmap.
  destruct (decide (j = c)) as [->|Hj]; [|by rewrite list_lookup_alter_ne]. rewrite list_lookup_alter_eq. destruct (s.(timers).(counter_list) !! c); [cbn; by rewrite Hf|done].
Qed.

Ltac resp := resp_with ltac:(first [apply watch_off; reflexivity | apply watch_sched | apply watch_alarm; done | apply watch_counter; done]).
#[local] Hint Extern 1 (mresp _ _ (OS_STD_ERR _ _ _)) => apply resp_err; [typeclasses eauto|apply watch_off] : resp.
#[local] Hint Extern 1 (kresp _ _ (ActivateTask _)) => apply resp_ActivateTask; [typeclasses eauto|apply watch_off] : resp.
#[local] Hint Extern 1 (kresp _ _ (SetEvent _ _)) => apply resp_SetEvent; [typeclasses eauto|apply watch_off] : resp.

Lemma watch_AlarmProcess i : i <> a -> mresp Own same_watch (AlarmProcess i).
Proof. intros Hi. resp. Qed.
Lemma watch_UpdateState i : mresp Own same_watch (Os_SchTblUpdateState i).
Proof. resp. Qed.
#[local] Hint Resolve watch_UpdateState : resp.
Lemma watch_alarm_check increment c i :
  i <> a -> (forall c, kresp Own same_watch (increment c)) -> kresp Own same_watch (alarm_check increment c i).
Proof. intros Hi Hinc. pose proof (watch_AlarmProcess i Hi). resp. Qed.
Lemma watch_SchTblCheck c : kresp Own same_watch (Os_SchTblCheck c).
Proof. resp. Qed.
#[local] Hint Resolve watch_SchTblCheck : resp.

Lemma CounterGet_inv i (s : S) c s' : Os_CounterGet i s = Some (c, s') -> s.(timers).(counter_list) !! i = Some c /\ s' = s.
Proof. unfold Os_CounterGet, bind, get, deref. cbn. destruct (_ !! i); [|done]. by intros [= -> ->]. Qed.
Lemma resp_CounterGet i : mresp Own same_watch (Os_CounterGet i).
Proof. resp. Qed.
Lemma watch_AlarmCheck increment c :
  c <> sys_counter -> (forall c, kresp Own same_watch (increment c)) -> kresp Own same_watch (Os_AlarmCheck increment c).
Proof.
  intros Hc Hinc. unfold Os_AlarmCheck. apply kresp_step; [typeclasses eauto|apply resp_CounterGet|]. intros s cn s' HO [E _]%CounterGet_inv.
  apply kresp_for_each; [typeclasses eauto|]. intros i Hi. apply watch_alarm_check; [|done]. intros ->. eapply (own_other _ HO); [exact Hc| |exact Hi].
  cbn. by rewrite list_lookup_fmap, E.
Qed.
Lemma watch_IncrementCounter fuel c : kresp Own same_watch (IncrementCounter fuel c).
Proof.
  revert c. induction fuel as [|fuel IH]; intros c; cbn [IncrementCounter]; [done|]. destruct (decide (c = sys_counter)) as [->|Hc].
  - apply kresp_bind; [typeclasses eauto|resp|]. intros disabled. unfold OS_VALIDATE_STD_K at 1. destruct (negb disabled); [|resp].
    apply kresp_bind; [typeclasses eauto|resp|]. intros ok. unfold OS_VALIDATE_STD_K at 1. destruct ok; [|resp].
    apply kresp_step; [typeclasses eauto|apply resp_CounterGet|]. intros s cn s' HO [E _]%CounterGet_inv.
    destruct (own_counter _ HO) as (cn' & E' & Eh). cbn in E'. rewrite E in E'. injection E' as <-. rewrite Eh. cbn. resp.
  - pose proof (watch_AlarmCheck (IncrementCounter fuel) c Hc IH). resp.
Qed.

(** Every service but the tick, and those that set or cancel this alarm. *)
Definition own_call (c : Call) : bool :=
  match c with CSetRelAlarm i _ _ | CSetAbsAlarm i _ _ | CCancelAlarm i => (i =? a)%nat | _ => false end.
Ltac quiet_kernel := match goal with
  | |- kresp _ _ TerminateTask => apply resp_TerminateTask
  | |- kresp _ _ (ChainTask _) => apply resp_ChainTask
  | |- kresp _ _ Schedule => apply resp_Schedule
  | |- kresp _ _ Os_TaskPost => apply resp_TaskPost
  | |- kresp _ _ (WaitEvent _) => apply resp_WaitEvent
  | |- kresp _ _ (ReleaseResource _) => apply resp_ReleaseResource
  | |- kresp _ _ (ActivateTask _) => apply resp_ActivateTask
  | |- kresp _ _ (SetEvent _ _) => apply resp_SetEvent
  | |- kresp _ _ (atomic (GetResource _)) => apply kresp_atomic, resp_GetResource
  end; [typeclasses eauto|apply watch_off].
Lemma watch_service c : own_call c = false -> c <> COsTick -> kresp Own same_watch (service c).
Proof.
  intros Hc Ht. destruct c; cbn [service]; try done; first [quiet_kernel|try (apply Nat.eqb_neq in Hc); resp]. apply watch_IncrementCounter.
Qed.

(** ** The tick *)
Definition tick_counter (c : OsCounterType) : OsCounterType := set_val (Os_CounterAdd c.(val) (Os_CounterGetMaxValue c) 1) c.
(** What [AlarmProcess] does. *)
Definition rearm (c : OsCounterType) (al : OsAlarmType) : OsAlarmType :=
  if al.(cycletime) =? 0 then set_active false al else set_expire_val (Os_CounterAdd c.(val) (Os_CounterGetMaxValue c) al.(cycletime)) al.
Definition tick_alarm (c : OsCounterType) (al : OsAlarmType) : OsAlarmType :=
  if al.(active) && (c.(val) =? al.(expire_val)) then match al.(action) with ALARM_ACTION_ALARMCALLBACK => al | _ => rearm c al end else al.

Lemma kpost_app {A} (l1 l2 : list A) (body : A -> K S unit) Q s :
  kpost (kfor_each l1 body) (kpost (kfor_each l2 body) Q) s -> kpost (kfor_each (l1 ++ l2) body) Q s.
Proof.
  revert s. induction l1 as [|x l1 IH]; intros s; [done|]. unfold kpost, kbind. cbn. unfold kbind. destruct (body x s) as [[] s'|w s' k|]; cbn; [|done|done]. apply IH.
Qed.
Lemma kpost_same {A} (m : K S A) s : kresp Own same_watch m -> Own s -> kpost m (fun s' => watch s' = watch s) s.
Proof. intros Hm HO. exact (kpost_resp Own same_watch m s Hm HO). Qed.
Lemma post_process c al h s : watch s = (Some c, Some al, h) -> al.(counter) = sys_counter ->
  kpost (atomic (AlarmProcess a)) (fun s' => watch s' = (Some c, Some (rearm c al), h)) s.
Proof.
  intros Ew Ec. injection Ew as E1 E2 E3. unfold kpost, atomic, AlarmProcess, Os_AlarmGet, Os_CounterGet, bind, get, deref. cbn. rewrite E2. cbn. unfold rearm.
  destruct (al.(cycletime) =? 0); cbn; [|rewrite Ec, E1; cbn]; unfold watch; cbn; rewrite E1, E3, list_lookup_alter_eq, E2; done.
Qed.
Lemma post_alarm_check increment c al h s :
  (forall c, kresp Own same_watch (increment c)) -> watch s = (Some c, Some al, h) -> Own s -> al.(counter) = sys_counter ->
  kpost (alarm_check increment sys_counter a) (fun s' => watch s' = (Some c, Some (tick_alarm c al), h)) s.
Proof.
  intros Hinc Ew HO Ec. pose proof Ew as Ew'. injection Ew' as E1 E2 E3. unfold alarm_check, tick_alarm.
  eapply kpost_run; [unfold Os_AlarmGet, bind, get, deref; cbn; rewrite E2; done|]. eapply kpost_run; [unfold Os_CounterGet, bind, get, deref; cbn; rewrite E1; done|].
  destruct (al.(active) && _); [|done].
  assert (Hthen : forall {A} (m : K S A), kresp Own same_watch m ->
    kpost (kbind m (fun _ => atomic (AlarmProcess a))) (fun s' => watch s' = (Some c, Some (rearm c al), h)) s).
  { intros A m Hm. apply kpost_bind. eapply kpost_mono; [by apply kpost_same|]. cbn. intros s' Es' _. apply post_process; [by rewrite Es'|done]. }
  destruct al.(action) as [d|d e| |c'].
  - apply Hthen. resp.
  - apply kpost_bind. eapply kpost_mono; [apply (kpost_same (SetEvent d e)); [resp|done]|]. cbn. intros s' Es' rv. apply kpost_bind.
    eapply kpost_mono; [apply kpost_same; [|unfold Own; by rewrite Es']|]; [resp|]. cbn. intros s2 E2' _. apply post_process; [by rewrite E2', Es'|done].
  - done.
  - apply Hthen, Hinc.
Qed.
(** The counter goes on; [f] is what changes besides. *)
Lemma watch_count_up c al h s (f : S -> S) : watch s = (Some c, Some al, h) -> (f s).(timers) = s.(timers) ->
  watch (set_timers (set_counter_list (alter (fun c => set_val (Os_CounterAdd c.(val) (Os_CounterGetMaxValue c) 1) c) sys_counter (f s).(timers).(counter_list)) (f s).(timers)) (f s))
  = (Some (tick_counter c), Some al, h).
Proof.
  intros [= E1 E2 E3] Ef. unfold watch. cbn. rewrite Ef, list_lookup_alter_eq, E1, E2. cbn. f_equal. rewrite <- E3. apply list_eq. intros j. rewrite !list_lookup_fmap.
  destruct (decide (j = sys_counter)) as [->|Hj]; [|by rewrite list_lookup_alter_ne]. by rewrite list_lookup_alter_eq, E1.
Qed.
Lemma OsTick_view fuel c al h s : watch s = (Some c, Some al, h) -> Own s ->
  kpost (OsTick fuel) (fun s' => watch s' = (Some (tick_counter c), Some (tick_alarm (tick_counter c) al), h)) s.
Proof.
  intros Ew HO. pose proof Ew as Ew'. injection Ew' as E1 E2 E3. unfold OsTick.
  eapply kpost_run; [unfold Os_CounterGet, bind, get, deref; cbn; rewrite E1; done|]. eapply kpost_run; [done|]. eapply kpost_run; [done|].
  set (s1 := set_timers _ _). assert (W1 : watch s1 = (Some (tick_counter c), Some al, h)) by (by apply (watch_count_up c al h s (fun s => set_sys (set_tick (u32 (s.(sys).(tick) + 1)) s.(sys)) s))).
  clearbody s1. assert (HO1 : Own s1).
  { unfold Own in *. rewrite W1, Ew in *. destruct HO as [(c1 & [= <-] & Eh) H2 H3 H4]. split; try done. by exists (tick_counter c). }
  clear E1 E2 E3 Ew HO s. pose proof W1 as W1'. injection W1' as E1 E2 E3. pose proof (watch_IncrementCounter fuel) as Hinc.
  destruct (own_alarm _ HO1) as (al' & Eal & Ec). rewrite W1 in Eal. injection Eal as <-. destruct (own_list _ HO1) as (l1 & l2 & El & H1 & H2).
  assert (Hh : alarm_head (tick_counter c) = l1 ++ a :: l2) by (unfold watch in El; cbn in El; rewrite list_lookup_fmap, E1 in El; by injection El).
  apply kpost_bind. unfold Os_AlarmCheck. eapply kpost_run; [unfold Os_CounterGet, bind, get, deref; cbn; rewrite E1; done|]. rewrite Hh.
  apply kpost_app. eapply kpost_mono; [apply kpost_same; [|done]|].
  { apply kresp_for_each; [typeclasses eauto|]. intros i Hi. apply watch_alarm_check; [|done]. by intros ->. }
  cbn. intros s2 W2. rewrite W1 in W2. apply kpost_bind. eapply kpost_mono; [apply (post_alarm_check _ _ _ _ _ Hinc W2); [|done]|].
  { unfold Own. by rewrite W2, <- W1. }
  cbn. intros s3 W3 _. assert (HO3 : Own s3).
  { unfold Own in *. rewrite W1, W3 in *. destruct HO1 as [Q1 _ Q3 Q4]. split; try done. eexists. split; [done|]. unfold tick_alarm, rearm.
    destruct (_ && _); [|done]. destruct al.(action); try done; by destruct (_ =? 0). }
  eapply kpost_mono; [apply kpost_same; [|done]|].
  { apply kresp_for_each; [typeclasses eauto|]. intros i Hi. apply watch_alarm_check; [|done]. by intros ->. }
  cbn. intros s4 W4 _. eapply kpost_mono; [apply kpost_same; [apply watch_SchTblCheck|unfold Own; by rewrite W4]|]. cbn. intros s5 ->. by rewrite W4.
Qed.
End Watch.
