(* ===== verification/Os_Clock.v ===== *)
(** * The clock of an alarm

    Counters are numbers modulo the largest value and one; an alarm is seen as the number of ticks it has left and its period. *)

From S2P Require Import Prelude.
From S2P Require Import Os_Types.
From S2P Require Import Os_Timers.
From S2P Require Import Os_Alarms.

(** ** os_counter_i.h: addition and difference *)
Section Counter.
Context (max : Z).
Hypothesis Hmax : 0 <= max < 2 ^ 32.
Abbreviation value x := (0 <= x <= max).

Lemma u32_small x : 0 <= x < 2 ^ 32 -> u32 x = x.
Proof. intros H. unfold u32. by apply Z.mod_small. Qed.
Lemma CounterAdd_mod curr add : value curr -> value add -> Os_CounterAdd curr max add = (curr + add) mod (max + 1).
Proof using Hmax.
  intros Hc Ha. unfold Os_CounterAdd. rewrite (u32_small (max - curr)) by lia. destruct (Z.leb_spec add (max - curr)).
  - rewrite u32_small by lia. symmetry. apply Z.mod_small. lia.
  - rewrite u32_small by lia. apply (Z.mod_unique_pos _ _ 1); lia.
Qed.
Lemma CounterDiff_mod curr old : value curr -> value old -> Os_CounterDiff curr old max = (curr - old) mod (max + 1).
Proof using Hmax.
  intros Hc Ho. unfold Os_CounterDiff. destruct (Z.leb_spec old curr).
  - rewrite u32_small by lia. symmetry. apply Z.mod_small. lia.
  - rewrite (u32_small (max - old)) by lia. rewrite u32_small by lia. apply (Z.mod_unique_pos _ _ (-1)); lia.
Qed.
End Counter.

(** ** The count-down *)
Definition left (c : OsCounterType) (al : OsAlarmType) : Z := (al.(expire_val) - c.(val) - 1) mod (Os_CounterGetMaxValue c + 1) + 1.
Definition clock (c : OsCounterType) (al : OsAlarmType) : option Z := if al.(active) then Some (left c al) else None.
(** The next expiry after one; 0: there is none. *)
Definition period (c : OsCounterType) (al : OsAlarmType) : Z :=
  match al.(action) with ALARM_ACTION_ALARMCALLBACK => Os_CounterGetMaxValue c + 1 | _ => al.(cycletime) end.
Definition tick_clock (p : Z) (o : option Z) : option Z := n ← o; if 1 <? n then Some (n - 1) else if p =? 0 then None else Some p.
(** What is left after [k] ticks. *)
Definition due (p : Z) (k : nat) (n : Z) : option Z :=
  if Z.of_nat k <? n then Some (n - Z.of_nat k) else if p =? 0 then None else Some (p - (Z.of_nat k - n) mod p).

Lemma due_iter p k n : 1 <= n -> 0 <= p -> Nat.iter k (tick_clock p) (Some n) = due p k n.
Proof.
  intros Hn Hp. induction k as [|k IH]; [unfold due; cbn -[Z.of_nat]; rewrite (proj2 (Z.ltb_lt _ _)) by lia; f_equal; lia|].
  change (Nat.iter (S k) ?f ?x) with (f (Nat.iter k f x)). rewrite IH. unfold due, tick_clock. rewrite Nat2Z.inj_succ. set (z := Z.of_nat k).
  assert (Hz : 0 <= z) by lia. destruct (Z.ltb_spec z n) as [H|H]; cbn -[Z.of_nat Z.ltb Z.eqb].
  - destruct (Z.ltb_spec 1 (n - z)) as [H1|H1].
    + rewrite (proj2 (Z.ltb_lt _ _)) by lia. f_equal. lia.
    + rewrite (proj2 (Z.ltb_ge _ _)) by lia. destruct (Z.eqb_spec p 0); [done|]. f_equal. replace (Z.succ z - n) with 0 by lia. rewrite Z.mod_0_l by lia. lia.
  - rewrite (proj2 (Z.ltb_ge _ _)) by lia. destruct (Z.eqb_spec p 0); [done|]. cbn -[Z.of_nat Z.ltb Z.eqb Z.modulo].
    pose proof (Z.mod_pos_bound (z - n) p ltac:(lia)) as Hb. pose proof (Z.div_mod (z - n) p ltac:(lia)) as Hd.
    destruct (Z.ltb_spec 1 (p - (z - n) mod p)) as [H1|H1]; f_equal.
    + enough ((Z.succ z - n) mod p = (z - n) mod p + 1) by lia. symmetry. apply (Z.mod_unique_pos _ _ ((z - n) / p)); lia.
    + enough ((Z.succ z - n) mod p = 0) by lia. symmetry. apply (Z.mod_unique_pos _ _ ((z - n) / p + 1)); lia.
Qed.

Lemma stopped_iter p k : Nat.iter k (tick_clock p) None = None.
Proof. induction k as [|k IH]; [done|]. change (Nat.iter (S k) ?f ?x) with (f (Nat.iter k f x)). by rewrite IH. Qed.

(** ** Counters and alarms in their ranges *)
Record ranged (c : OsCounterType) (al : OsAlarmType) : Prop := {
  rg_max : Os_CounterGetMaxValue c < 2 ^ 32;
  rg_val : 0 <= c.(val) <= Os_CounterGetMaxValue c;
  rg_cycle : 0 <= al.(cycletime) <= Os_CounterGetMaxValue c;
  rg_expire : 0 <= al.(expire_val) <= Os_CounterGetMaxValue c;
  rg_auto p : al.(autostartPtr) = Some p -> 0 <= p.(alarmTime) /\ 0 <= p.(cycleTime)
}.
Section Tick.
Context (c : OsCounterType) (al : OsAlarmType).
Hypothesis Hr : ranged c al.
Abbreviation max := (Os_CounterGetMaxValue c).
Abbreviation c' := (tick_counter c).
Abbreviation al' := (tick_alarm c' al).

Lemma left_range : 1 <= left c al <= max + 1.
Proof using Hr. destruct Hr. unfold left. pose proof (Z.mod_pos_bound (al.(expire_val) - c.(val) - 1) (max + 1) ltac:(lia)). lia. Qed.
Lemma tick_max : Os_CounterGetMaxValue c' = max.
Proof. done. Qed.
Lemma tick_val : c'.(val) = (c.(val) + 1) mod (max + 1).
Proof using Hr.
  destruct Hr. cbn. destruct (decide (max = 0)) as [E|E]; [|apply CounterAdd_mod; lia]. unfold Os_CounterAdd. rewrite E. assert (c.(val) = 0) as -> by lia. done.
Qed.
Lemma tick_val_range : 0 <= c'.(val) <= max.
Proof using Hr. rewrite tick_val. destruct Hr. pose proof (Z.mod_pos_bound (c.(val) + 1) (max + 1) ltac:(lia)). lia. Qed.
Lemma rearm_range : ranged c' (rearm c' al).
Proof using Hr.
  pose proof tick_val_range as Hv. destruct Hr. unfold rearm. destruct (Z.eqb_spec al.(cycletime) 0); [by split|]. split; try done.
  cbn [expire_val set_expire_val]. rewrite tick_max, CounterAdd_mod by lia. pose proof (Z.mod_pos_bound (c'.(val) + al.(cycletime)) (max + 1) ltac:(lia)). lia.
Qed.
Lemma tick_ranged : ranged c' al'.
Proof using Hr.
  pose proof tick_val_range as Hv. pose proof rearm_range as Hre. assert (ranged c' al) by (destruct Hr; by split). unfold tick_alarm.
  destruct (_ && _); [|done]. by destruct al.(action).
Qed.
Lemma tick_period : period c' al' = period c al.
Proof. unfold period, tick_alarm, rearm. destruct (_ && _); [|done]. destruct al.(action) eqn:E; destruct (al.(cycletime) =? 0); cbn; by rewrite E. Qed.
Lemma mod_pred x y : 0 < y -> x mod y <> 0 -> (x - 1) mod y = x mod y - 1.
Proof. clear. intros Hy Hx. pose proof (Z.mod_pos_bound x y Hy). pose proof (Z.div_mod x y ltac:(lia)). symmetry. apply (Z.mod_unique_pos _ _ (x / y)); lia. Qed.
Lemma mod_sub_l x y m : (x mod m - y - 1) mod m = (x - y - 1) mod m.
Proof. clear. replace (x mod m - y - 1) with (x mod m - (y + 1)) by lia. rewrite Zminus_mod_idemp_l. f_equal. lia. Qed.
Lemma mod_sub_r x y m : (x - y mod m - 1) mod m = (x - y - 1) mod m.
Proof. clear. replace (x - y mod m - 1) with (x - 1 - y mod m) by lia. rewrite Zminus_mod_idemp_r. f_equal. lia. Qed.
(** An expiry comes when one tick is left. *)
Lemma expires_now : c'.(val) = al.(expire_val) <-> left c al = 1.
Proof using Hr.
  rewrite tick_val. destruct Hr. unfold left. set (m := max + 1) in *. assert (Hm : 0 < m) by lia. split.
  - intros <-. rewrite mod_sub_l. replace (c.(val) + 1 - c.(val) - 1) with 0 by lia. rewrite Z.mod_0_l by lia. lia.
  - intros E. assert (E0 : (al.(expire_val) - c.(val) - 1) mod m = 0) by lia. apply Z.mod_divide in E0 as [q E0]; [|lia].
    symmetry. apply (Z.mod_unique_pos _ _ (- q)); lia.
Qed.
Lemma clock_tick : clock c' al' = tick_clock (period c al) (clock c al).
Proof using Hr.
  unfold clock, tick_clock, tick_alarm. destruct al.(active) eqn:Ea; cbn [andb mbind option_bind]; [|by rewrite Ea].
  pose proof left_range as Hl. pose proof tick_val as Ev. pose proof tick_val_range as Hv. destruct (Z.eqb_spec c'.(val) al.(expire_val)) as [E|E].
  - rewrite (proj1 expires_now E). cbn [Z.ltb Z.compare Pos.compare Pos.compare_cont]. destruct Hr.
    assert (Hcb : Some (left c' al) = Some (max + 1)).
    { f_equal. unfold left. rewrite tick_max, E. replace (al.(expire_val) - al.(expire_val) - 1) with (-1) by lia.
      enough ((-1) mod (max + 1) = max) by lia. symmetry. apply (Z.mod_unique_pos _ _ (-1)); lia. }
    assert (Hre : (if (rearm c' al).(active) then Some (left c' (rearm c' al)) else None) = if al.(cycletime) =? 0 then None else Some al.(cycletime)).
    { unfold rearm. destruct (Z.eqb_spec al.(cycletime) 0) as [|Hne]; [done|]. cbn [active set_expire_val]. rewrite Ea. f_equal. unfold left.
      cbn [expire_val set_expire_val]. rewrite tick_max, CounterAdd_mod by lia. rewrite mod_sub_l. replace (c'.(val) + al.(cycletime) - c'.(val) - 1) with (al.(cycletime) - 1) by lia.
      rewrite Z.mod_small by lia. lia. }
    unfold period. destruct al.(action); try exact Hre. rewrite Ea, Hcb. by rewrite (proj2 (Z.eqb_neq (max + 1) 0)) by lia.
  - rewrite Ea. assert (H1 : left c al <> 1) by (intros H; by apply E, expires_now). rewrite (proj2 (Z.ltb_lt _ _)) by lia. f_equal. destruct Hr.
    unfold left in *. rewrite tick_max, Ev. set (m := max + 1) in *. rewrite mod_sub_r.
    replace (al.(expire_val) - (c.(val) + 1) - 1) with (al.(expire_val) - c.(val) - 1 - 1) by lia. rewrite mod_pred; lia.
Qed.
End Tick.
