(* ===== verification/Os_Alarm_Runs.v ===== *)
(** * Alarms over runs of the machine

    The clock of an alarm of the system counter from start-up on: what sets it, and what each step of the machine does to it. *)

From stdpp Require Import sets.
From S2P Require Import Prelude.
From S2P Require Import StateMonad.
From S2P Require Import Coroutine.
From S2P Require Import Os_Irq.
From S2P Require Import Os_Types.
From S2P Require Import Os.
From S2P Require Import Os_Timers.
From S2P Require Import Os_System.
From S2P Require Import Os_Inv.
From S2P Require Import Os_Update.
From S2P Require Import Os_Dispatch.
From S2P Require Import Os_Kernel.
From S2P Require Import Os_Machine.
From S2P Require Import Os_Alarms.
From S2P Require Import Os_Clock.

Section Runs.
Context {W : Type} {Cfg : Os_Cfg} {Env : Os_Env W}.
Abbreviation S := (Os_State W).
Abbreviation Machine := (@Os_System.Machine W).
Abbreviation sys_counter := Os_Arc_OsTickCounter.
Implicit Types (s : S) (m : Machine).

(** ** Results of the services *)
Lemma bind_inv {A B} (m : M S A) (f : A -> M S B) b s s' : bind m f s = Some (b, s') -> exists a s1, m s = Some (a, s1) /\ f a s1 = Some (b, s').
Proof. unfold bind. destruct (m s) as [[a s1]|]; [|done]. cbn. intros E. by exists a, s1. Qed.
Lemma err_inv rv svc ps r s s' : OS_STD_ERR rv svc ps s = Some (r, s') -> r = rv /\ s'.(timers) = s.(timers).
Proof. intros E. destruct (run_err rv svc ps s) as (s1 & E1 & Hs). rewrite E1 in E. injection E as <- <-. split; [done|apply Hs]. Qed.
Lemma validate_inv b err svc ps (k : M S Z) r s s' :
  OS_VALIDATE_STD b err svc ps k s = Some (r, s') -> err <> E_OK ->
  b = true /\ k s = Some (r, s') \/ r <> E_OK /\ s'.(timers) = s.(timers).
Proof. unfold OS_VALIDATE_STD. destruct b; [by left|]. intros [-> ?]%err_inv. by right. Qed.
Lemma AlarmGet_inv i s (al : OsAlarmType) s' : Os_AlarmGet i s = Some (al, s') -> s.(timers).(alarm_list) !! i = Some al /\ s' = s.
Proof. unfold Os_AlarmGet, bind, get, deref. cbn. destruct (_ !! i); [|done]. by intros [= -> ->]. Qed.

(** A refused request changes nothing; one that is accepted starts the inactive alarm. *)
Definition alarm_with (f : OsAlarmType -> OsAlarmType) (i : nat) (s s' : S) : Prop :=
  s'.(timers) = set_alarm_list (alter f i s.(timers).(alarm_list)) s.(timers).
Definition started (i : nat) (cycle : Z) (expire : OsCounterType -> Z) (s s' : S) : Prop :=
  exists al c, s.(timers).(alarm_list) !! i = Some al /\ s.(timers).(counter_list) !! al.(counter) = Some c /\ al.(active) = false /\
    (cycle = 0 \/ cycle <= Os_CounterGetMaxValue c) /\
    alarm_with (fun a => set_cycletime cycle (set_expire_val (expire c) (set_active true a))) i s s'.

Ltac inv_step H :=
  apply bind_inv in H as (? & ? & [= <- <-] & H).
Ltac inv_check H := apply validate_inv in H as [[? H]|H]; [|right; exact H|done].

Lemma check_cycle cycle c : Os_AlarmCheckCycle cycle c = true -> cycle = 0 \/ cycle <= Os_CounterGetMaxValue c.
Proof.
  unfold Os_AlarmCheckCycle. destruct (Z.eqb_spec cycle 0); [by left|]. cbn. intros [_ H%Z.ltb_ge]%negb_true_iff%orb_false_elim. by right.
Qed.
Lemma SetRel_inv i inc cycle up r s s' :
  Os_internalSetRelAlarm i inc cycle up s = Some (r, s') ->
  (r = E_OK /\ started i cycle (fun c => Os_CounterAdd c.(val) (Os_CounterGetMaxValue c) inc) s s' /\ inc <> 0 /\
    forall c, s.(timers).(counter_list) !! default 0%nat (counter <$> s.(timers).(alarm_list) !! i) = Some c -> inc <= Os_CounterGetMaxValue c) \/
  r <> E_OK /\ s'.(timers) = s.(timers).
Proof.
  unfold Os_internalSetRelAlarm. intros H. inv_step H. inv_check H. inv_step H. inv_check H.
  apply bind_inv in H as (al & ? & [Ea ->]%AlarmGet_inv & H). apply bind_inv in H as (c & ? & [Ec ->]%CounterGet_inv & H).
  inv_check H. inv_check H. inv_step H. destruct al.(active) eqn:Eact; inv_step H; [apply err_inv in H as [-> H]; by right|inv_step H]. injection H as <- <-. left.
  apply negb_true_iff, orb_false_elim in H2 as [Hz%Z.eqb_neq Hm%Z.ltb_ge]. split_and!; [done| |done|].
  - exists al, c. split_and!; try done. by apply check_cycle.
  - rewrite Ea. cbn. rewrite Ec. by intros ? [= <-].
Qed.
Lemma SetAbs_inv i start cycle up r s s' :
  Os_internalSetAbsAlarm i start cycle up s = Some (r, s') ->
  (r = E_OK /\ started i cycle (fun _ => start) s s' /\
    forall c, s.(timers).(counter_list) !! default 0%nat (counter <$> s.(timers).(alarm_list) !! i) = Some c -> start <= Os_CounterGetMaxValue c) \/
  r <> E_OK /\ s'.(timers) = s.(timers).
Proof.
  unfold Os_internalSetAbsAlarm. intros H. inv_step H. inv_check H. inv_step H. inv_check H.
  apply bind_inv in H as (al & ? & [Ea ->]%AlarmGet_inv & H). apply bind_inv in H as (c & ? & [Ec ->]%CounterGet_inv & H).
  inv_check H. inv_check H. inv_step H. destruct al.(active) eqn:Eact; inv_step H; [apply err_inv in H as [-> H]; by right|inv_step H]. injection H as <- <-. left.
  apply negb_true_iff, Z.ltb_ge in H2. split_and!; [done| |].
  - exists al, c. split_and!; try done. by apply check_cycle.
  - rewrite Ea. cbn. rewrite Ec. by intros ? [= <-].
Qed.
Lemma Cancel_inv i r s s' : CancelAlarm i s = Some (r, s') -> s'.(timers) = s.(timers) \/ alarm_with (set_active false) i s s'.
Proof.
  unfold CancelAlarm. intros H. inv_step H. apply validate_inv in H as [[_ H]|H]; [|left; apply H|done]. inv_step H.
  apply validate_inv in H as [[_ H]|H]; [|left; apply H|done]. apply bind_inv in H as (al & ? & [Ea ->]%AlarmGet_inv & H). inv_step H.
  destruct (negb al.(active)); inv_step H; [apply err_inv in H as [-> H]; by left|inv_step H]. injection H as <- <-. by right.
Qed.

(** ** The alarm and its counter *)
Section Alarm.
Context (a : nat).
Definition Ticking (s : S) : Prop := Own a s /\ exists c al h, watch a s = (Some c, Some al, h) /\ ranged c al.
Definition alarm_clock (s : S) : option Z :=
  c ← s.(timers).(counter_list) !! sys_counter; al ← s.(timers).(alarm_list) !! a; clock c al.
Definition alarm_period (s : S) : Z :=
  default 0 (c ← s.(timers).(counter_list) !! sys_counter; al ← s.(timers).(alarm_list) !! a; Some (period c al)).

Lemma clock_watch s c al h : watch a s = (Some c, Some al, h) -> alarm_clock s = clock c al /\ alarm_period s = period c al.
Proof. intros [= E1 E2 _]. unfold alarm_clock, alarm_period. by rewrite E1, E2. Qed.
Lemma same_clock s s' : same_watch a s s' -> Ticking s -> Ticking s' /\ alarm_clock s' = alarm_clock s /\ alarm_period s' = alarm_period s.
Proof.
  intros E [HO (c & al & h & Ew & Hr)]. unfold same_watch in E. assert (Ew' : watch a s' = (Some c, Some al, h)) by congruence.
  destruct (clock_watch _ _ _ _ Ew) as [-> ->], (clock_watch _ _ _ _ Ew') as [-> ->]. split; [|done]. split; [unfold Own; by rewrite E|by exists c, al, h].
Qed.
(** The alarm changes, its counter and its action do not. *)
Lemma watch_with f s s' c al h :
  alarm_with f a s s' -> watch a s = (Some c, Some al, h) -> watch a s' = (Some c, Some (f al), h).
Proof. intros E [= E1 E2 E3]. unfold watch. rewrite E. cbn. by rewrite E1, E3, list_lookup_alter_eq, E2. Qed.
Lemma ticking_with f s s' :
  alarm_with f a s s' -> (forall al, (f al).(counter) = al.(counter)) -> (forall c al, watch a s = (Some c, Some al, (watch a s).2) -> ranged c al -> ranged c (f al)) ->
  Ticking s -> Ticking s'.
Proof.
  intros E Hf Hrf [HO (c & al & h & Ew & Hr)]. pose proof (watch_with _ _ _ _ _ _ E Ew) as Ew'. split.
  - unfold Own in *. rewrite Ew', Ew in *. destruct HO as [Q1 (al1 & [= <-] & Ec) Q3 Q4]. split; try done. exists (f al). by rewrite Hf.
  - exists c, (f al), h. split; [done|]. apply Hrf; [by rewrite Ew|done].
Qed.
(** The arguments are of the type [TickType]. *)
Definition tick_type (x : Z) : bool := (0 <=? x) && (x <? 2 ^ 32).
Definition typed_call (c : Call) : bool :=
  match c with CSetRelAlarm _ x y | CSetAbsAlarm _ x y => tick_type x && tick_type y | _ => true end.

Lemma sys_alarm s : Ticking s -> exists c al, s.(timers).(alarm_list) !! a = Some al /\ al.(counter) = sys_counter /\ s.(timers).(counter_list) !! sys_counter = Some c /\
  watch a s = (Some c, Some al, (watch a s).2) /\ ranged c al.
Proof.
  intros [HO (c & al & h & Ew & Hr)]. exists c, al. destruct (own_alarm _ _ HO) as (al' & E & Ec). rewrite Ew in E. injection E as <-.
  pose proof Ew as Ew'. injection Ew' as E1 E2 E3. split_and!; try done. by rewrite Ew.
Qed.
Lemma set_ticking cycle f s s' : Ticking s -> started a cycle f s s' -> 0 <= cycle ->
  (forall c, s.(timers).(counter_list) !! sys_counter = Some c -> 0 <= c.(val) <= Os_CounterGetMaxValue c -> Os_CounterGetMaxValue c < 2 ^ 32 -> 0 <= f c <= Os_CounterGetMaxValue c) -> Ticking s'.
Proof.
  intros HT (al & c & Ea & Ec & _ & Hcy & Hw) H0 Hf. destruct (sys_alarm s HT) as (c1 & al1 & Ea1 & Eq & Ec1 & _ & Hr1). simplify_eq. rewrite Eq in Ec. simplify_eq.
  eapply ticking_with; [exact Hw|done| |done]. intros c1 al2 Ew [Q1 Q2 Q3 Q4 Q5]. injection Ew as E1 E2. simplify_eq. split; try done; cbn; [lia|]. apply Hf; [done|lia|lia].
Qed.
Lemma add_range v max inc : 0 <= v <= max -> max < 2 ^ 32 -> 0 <= inc <= max -> 0 <= Os_CounterAdd v max inc <= max.
Proof. intros Hv Hm Hi. rewrite CounterAdd_mod by lia. pose proof (Z.mod_pos_bound (v + inc) (max + 1) ltac:(lia)). lia. Qed.
Lemma own_call_ticking c m m' : own_call a c = true -> typed_call c = true -> Ticking m.(os) -> step (ECall c) m = Some m' -> Ticking m'.(os).
Proof.
  intros Hc Hty HT E. cbn [step] in E. destruct (sys_alarm _ HT) as (cn & al & Ea & Eq & Ec & _ & _).
  assert (Hsame : forall s', s'.(timers) = m.(os).(timers) -> Ticking s') by (intros s' Es; by apply (same_clock _ _ (watch_off a _ _ Es))).
  assert (Hd : default 0%nat (counter <$> (m.(os).(timers).(alarm_list) !! a)) = sys_counter) by (by rewrite Ea).
  destruct c; try done; cbn in Hc, Hty; apply Nat.eqb_eq in Hc as ->; cbn [service] in E; unfold atomic in E; unfold tick_type in Hty;
    [destruct (SetRelAlarm a increment cycle m.(os)) as [[r s']|] eqn:Es|destruct (SetAbsAlarm a start cycle m.(os)) as [[r s']|] eqn:Es
    |destruct (CancelAlarm a m.(os)) as [[r s']|] eqn:Es]; try done; cbn in E; injection E as <-; cbn [os].
  - apply SetRel_inv in Es as [(_ & Hs & Hz & Hm)|[_ Es]]; [|by apply Hsame]. eapply set_ticking; [done|exact Hs|lia|]. intros c Ecn Hv Hv2.
    rewrite Hd in Hm. specialize (Hm c Ecn). apply add_range; lia.
  - apply SetAbs_inv in Es as [(_ & Hs & Hm)|[_ Es]]; [|by apply Hsame]. eapply set_ticking; [done|exact Hs|lia|]. intros c Ecn Hv Hv2.
    rewrite Hd in Hm. specialize (Hm c Ecn). lia.
  - apply Cancel_inv in Es as [Es|Es]; [by apply Hsame|]. eapply ticking_with; [exact Es|done| |done]. by intros c al' _ [].
Qed.
(** An alarm set with [SetRelAlarm] has as many ticks left. *)
Lemma set_clock inc cycle s s' : Ticking s -> 0 <= inc -> SetRelAlarm a inc cycle s = Some (E_OK, s') ->
  alarm_clock s' = Some inc /\ (forall al, s.(timers).(alarm_list) !! a = Some al -> al.(action) <> ALARM_ACTION_ALARMCALLBACK -> alarm_period s' = cycle).
Proof.
  intros HT H0 Es. destruct (sys_alarm _ HT) as (cn & al & Ea & Eq & Ec & Ew & Hr). apply SetRel_inv in Es as [(_ & (al1 & c1 & Ea1 & Ec1 & _ & _ & Hw) & Hz & Hm)|[Hne _]]; [|done].
  rewrite Ea in Hm, Ea1. injection Ea1 as <-. cbn in Hm. rewrite Eq in Hm, Ec1. specialize (Hm _ Ec). rewrite Ec in Ec1. injection Ec1 as <-.
  destruct (clock_watch _ _ _ _ (watch_with _ _ _ _ _ _ Hw Ew)) as [-> ->].
  split; [|intros al2 E2 Hcb; rewrite Ea in E2; injection E2 as <-; unfold period; cbn; by destruct al.(action)].
  unfold clock. cbn [active set_cycletime set_expire_val set_active]. f_equal. unfold left. cbn.
  destruct Hr. rewrite CounterAdd_mod by lia. rewrite mod_sub_l. replace (cn.(val) + inc - cn.(val) - 1) with (inc - 1) by lia. rewrite Z.mod_small by lia. lia.
Qed.

(** ** Steps of the machine

    The contexts that tasks will go on with leave the alarm alone too. *)
#[local] Existing Instance watch_stable.
Abbreviation leaves_alone := (kresp (S := S) (Own a) (same_watch a)).
Definition ctx_alone (c : @Context W) : Prop := match c with Within k => leaves_alone k | Interrupted w => w = None end.
Definition ctxs_alone (cs : list (@Context W)) : Prop := forall u c, cs !! u = Some c -> ctx_alone c.
Definition frames_alone (fs : list (@Frame W)) : Prop := Forall (fun f => f.(f_within) = None) fs.
Definition code_ok (m : Machine) : Prop :=
  ctxs_alone m.(contexts) /\ frames_alone m.(frames) /\ match m.(cpu) with Kernel k => leaves_alone k | Application => True end.

Lemma load_watch start m cs s m' : load start m cs s = Some m' -> ctxs_alone cs -> frames_alone m.(frames) -> same_watch a s m'.(os) /\ code_ok m'.
Proof.
  intros E Hcs Hfs. unfold load in E. destruct (s.(Os_TaskVarList) !! _) as [p|]; [|done]. cbn in E.
  destruct (if start then ENTRY else p.(stack)); [by injection E as <-| |done].
  destruct (cs !! _) as [[w|k]|] eqn:Ek; [| |done]; apply Hcs in Ek; cbn in E, Ek; injection E as <-; [by subst w|]. done.
Qed.
Lemma exec_watch {s} o m m' : respects (Own a) (same_watch a) s o -> ctxs_alone m.(contexts) -> frames_alone m.(frames) -> exec o m = Some m' -> same_watch a s m'.(os) /\ code_ok m'.
Proof.
  intros Ho Hcs Hfs E. destruct o as [r s'|w s' k|]; [injection E as <-; by split| |done]. destruct Ho as [Hs Hk].
  unfold exec in E. destruct w as [old| |]; cbn [exec_to] in E; apply load_watch in E as [Hw Hc]; try done; try (split; [|done]; transitivity s'; [exact Hs|exact Hw]).
  intros u k' Ek'. destruct (decide (u = old)) as [->|Hne]; [|rewrite list_lookup_insert_ne in Ek' by done; by eapply Hcs].
  destruct (decide (old < length m.(contexts))%nat) as [Hl|Hl].
  - rewrite list_lookup_insert_eq in Ek' by done. injection Ek' as <-. exact Hk.
  - rewrite list_insert_ge in Ek' by lia. by eapply Hcs.
Qed.
Definition is_tick (e : Event) : bool := match e with ECall COsTick => true | _ => false end.
Definition own_event (e : Event) : bool := match e with ECall c => own_call a c | _ => false end.
Definition ticks (es : list Event) : nat := length (filter (fun e => is_tick e = true) es).

Lemma step_watch e m m' :
  code_ok m -> Own a m.(os) -> event_ok m e = true -> is_tick e = false -> own_event e = false -> step e m = Some m' -> same_watch a m.(os) m'.(os) /\ code_ok m'.
Proof.
  intros (Hcs & Hfs & Hcpu) HO Hok Ht He E. destruct e as [c| |i| |c i]; cbn [step] in E; [| | | |by apply andb_prop in Hok as [_ ?]].
  - eapply exec_watch; [|done|done|exact E]. apply (watch_service a c He); [|done]. by intros ->.
  - destruct m.(cpu) as [|k] eqn:Ek; [injection E as <-; split; [done|]; split_and!; [done|done|by rewrite Ek]|]. eapply exec_watch; [|done|done|exact E]. by apply Hcpu.
  - unfold interrupt in E. destruct (Os_Isr_enter i m.(os)) as [[old s']|] eqn:Ei; [|done]. cbn in E. injection E as <-. cbn [os]. split.
    + exact (resp_isr_enter (Own a) (same_watch a) (watch_off a) i _ _ _ HO Ei).
    + split; [|split; [by constructor|done]]. cbn. intros u k. destruct (_ =? 0); [|exact (Hcs u k)]. intros Ek. destruct (decide (u = m.(os).(sys).(currTaskPtr))) as [->|Hne].
      * apply list_lookup_insert_Some in Ek as [(_ & <- & _)|[? _]]; done.
      * rewrite list_lookup_insert_ne in Ek by done. by eapply Hcs.
  - destruct m.(frames) as [|f fs] eqn:Ef; [injection E as <-; by rewrite <- Ef in Hfs|]. inversion Hfs as [|? ? Hw Hfs' ]; subst. rewrite Hw in E.
    refine (exec_watch _ {| os := m.(os); contexts := m.(contexts); frames := fs; cpu := Application; result := None |} _ _ Hcs Hfs' E). cbn [os].
    apply respects_bind; [typeclasses eauto|done|apply (resp_isr_leave (Own a) (same_watch a) (watch_off a)); done|]. intros _.
    apply kresp_bind; [typeclasses eauto|apply kresp_atomic, mresp_modify; intros s _; by apply watch_off|]. intros _. apply kresp_ret. typeclasses eauto.
Qed.
Lemma own_code e m m' : code_ok m -> own_event e = true -> step e m = Some m' -> code_ok m'.
Proof.
  intros (Hcs & Hfs & Hcpu) He E. destruct e as [c| | | |]; try done. cbn [step] in E. destruct c; try done; cbn [service] in E; unfold atomic in E; case_match; try done;
    case_match; cbn in E; by injection E as <-.
Qed.

Section Reached.
Context (sh : Shape).
Hypothesis Hv : valid_cfg.
Hypothesis Htick : (sys_counter < sh.(sh_counters))%nat.

(** A tick is not interrupted: it is an interrupt, and there tasks are not switched. *)
Lemma tick_done m : MInv sh m -> event_ok m (ECall COsTick) = true -> exists r s', service COsTick m.(os) = Done r s'.
Proof using Hv Htick.
  clear a. intros [(x & HB & Hcs & _) Hf] [He [Hfr Hc]%andb_prop]%andb_prop.
  assert (Hne : m.(frames) <> []) by (intros E0; destruct HB as (_ & _ & Hn); rewrite E0 in Hn; cbn in Hn, Hc; by rewrite Hn in Hc).
  assert (Hlev : level (Z.of_nat (length m.(frames))) = framed m.(frames)).
  { clear Htick. destruct (frames m) as [|f fs]; [done|]. unfold level, framed. cbn [existsb]. rewrite Hfr. cbn. by rewrite decide_False by lia. }
  destruct (Back_At sh _ _ _ _ HB Hlev) as [b HA]. pose proof (service_ok sh _ _ b Hv Htick x COsTick m.(os) HA Hc) as H. unfold kwp in H.
  destruct (service COsTick m.(os)) as [r s'|w s' k|]; [by eexists _, _| |done]. destruct H as [[_ _ _ H _ _] _]. destruct (frames m); [done|cbn in H; lia].
Qed.
Lemma tick_step m m' :
  MInv sh m -> event_ok m (ECall COsTick) = true -> code_ok m -> Ticking m.(os) -> step (ECall COsTick) m = Some m' ->
  code_ok m' /\ Ticking m'.(os) /\ alarm_clock m'.(os) = tick_clock (alarm_period m.(os)) (alarm_clock m.(os)) /\ alarm_period m'.(os) = alarm_period m.(os).
Proof using Hv Htick.
  intros HM He (Hcs & Hfs & Hcpu) [HO (c & al & h & Ew & Hr)] E. cbn [step] in E. destruct (tick_done m HM He) as (r & s' & Es).
  rewrite Es in E. cbn in E. injection E as <-. cbn [os]. split; [done|].
  assert (Ew' : watch a s' = (Some (tick_counter c), Some (tick_alarm (tick_counter c) al), h)).
  { pose proof (OsTick_view a (Datatypes.S (length m.(os).(timers).(counter_list))) c al h m.(os) Ew HO) as H. cbn [service] in Es. unfold kbind at 1, atomic, counters, get in Es.
    cbn [and_then] in Es. unfold kpost in H. unfold kbind in Es. destruct (OsTick _ m.(os)) as [[] s1|? ? ?|]; cbn in Es; [|done|done]. by injection Es as _ <-. }
  destruct (clock_watch _ _ _ _ Ew) as [-> ->], (clock_watch _ _ _ _ Ew') as [-> ->].
  split_and!; [|by apply clock_tick|by apply tick_period]. split; [|eexists _, _, _; split; [exact Ew'|by apply tick_ranged]].
  unfold Own in *. rewrite Ew', Ew in *. destruct HO as [(c1 & [= <-] & Eh) (al1 & [= <-] & Ec) Q3 Q4]. split; try done; [by eexists|].
  eexists. split; [done|]. unfold tick_alarm, rearm. destruct (_ && _); [|done]. destruct al.(action); try done; by destruct (_ =? 0).
Qed.

(** Every run keeps the alarm in its range; one that neither sets nor cancels it lets its clock run with the ticks. *)
Definition typed_event (e : Event) : bool := match e with ECall c => typed_call c | _ => true end.
Lemma run_ticking es m m' :
  MInv sh m -> run_ok es m = true -> forallb typed_event es = true -> code_ok m -> Ticking m.(os) -> run es m = Some m' -> code_ok m' /\ Ticking m'.(os).
Proof using Hv Htick.
  revert m. induction es as [|e es IH]; intros m HM Hok Hty Hc HT E; [by injection E as <-|]. cbn [run_ok run forallb] in *.
  apply andb_prop in Hok as [He Hes]. apply andb_prop in Hty as [Hte Hty]. destruct (step_ok sh Hv Htick e m HM He) as (m1 & E1 & HM1). rewrite E1 in *. cbn in E.
  enough (code_ok m1 /\ Ticking m1.(os)) as [] by (by eapply IH). destruct (is_tick e) eqn:Et; [|destruct (own_event e) eqn:Eo].
  - destruct e as [[]| | | |]; try done. by destruct (tick_step m m1 HM He Hc HT E1) as (? & ? & _).
  - split; [by eapply own_code|]. destruct e as [c| | | |]; try done. by eapply own_call_ticking.
  - destruct (step_watch e m m1 Hc (proj1 HT) He Et Eo E1) as [Hs Hc1]. split; [done|]. by apply (same_clock _ _ Hs).
Qed.
Lemma run_clock es m m' :
  MInv sh m -> run_ok es m = true -> forallb (fun e => negb (own_event e)) es = true -> code_ok m -> Ticking m.(os) -> run es m = Some m' ->
  alarm_clock m'.(os) = Nat.iter (ticks es) (tick_clock (alarm_period m.(os))) (alarm_clock m.(os)).
Proof using Hv Htick.
  revert m. induction es as [|e es IH]; intros m HM Hok Hno Hc HT E; [by injection E as <-|]. cbn [run_ok run forallb] in *.
  apply andb_prop in Hok as [He Hes]. apply andb_prop in Hno as [Hne%negb_true_iff Hno]. destruct (step_ok sh Hv Htick e m HM He) as (m1 & E1 & HM1). rewrite E1 in *. cbn in E.
  unfold ticks. destruct (is_tick e) eqn:Et.
  - rewrite filter_cons_True by done. cbn [length]. destruct e as [[]| | | |]; try done. destruct (tick_step m m1 HM He Hc HT E1) as (Hc1 & HT1 & Ek & Ep).
    rewrite Nat.iter_succ_r, <- Ek, <- Ep. by apply IH.
  - rewrite filter_cons_False by congruence. destruct (step_watch e m m1 Hc (proj1 HT) He Et Hne E1) as [Hs Hc1].
    destruct (same_clock _ _ Hs HT) as (HT1 & <- & <-). by apply IH.
Qed.
End Reached.
End Alarm.
End Runs.
