(* ===== verification/Os_Alarm_Boot.v ===== *)
(** * Alarms at start-up

    [Os_CounterInit] enters an alarm of the system counter once into the list of this counter; nothing else of the initialisation touches it, and an
    autostart sets it in its range. *)

From stdpp Require Import sets.
From S2P Require Import Prelude.
From S2P Require Import StateMonad.
From S2P Require Import Coroutine.
From S2P Require Import Os_Irq.
From S2P Require Import Os_Types.
From S2P Require Import Os.
From S2P Require Import Os_Timers.
From S2P Require Import Os_System.
From S2P Require Import Os_Inv.
From S2P Require Import Os_Dispatch.
From S2P Require Import Os_Resources.
From S2P Require Import Os_Timing.
From S2P Require Import Os_Machine.
From S2P Require Import Os_Boot.
From S2P Require Import Os_Alarms.
From S2P Require Import Os_Clock.
From S2P Require Import Os_Alarm_Runs.

Section Boot.
Context {W : Type} {Cfg : Os_Cfg} {Env : Os_Env W}.
Abbreviation S := (Os_State W).
Abbreviation sys_counter := Os_Arc_OsTickCounter.
Implicit Types (s : S).

(** An alarm of the system counter, which is driven by the tick alone.  The first schedule table belongs to another counter: [Os_CounterInit] empties the list
    of alarms of its counter. *)
Record system_alarm (tm : Timers) (a : nat) : Prop := {
  sa_alarm : exists c al, tm.(counter_list) !! sys_counter = Some c /\ tm.(alarm_list) !! a = Some al /\ al.(counter) = sys_counter /\
    c.(counter_type) = COUNTER_TYPE_HARD /\ ranged c al;
  sa_table t : tm.(sched_list) !! 0%nat = Some t -> t.(st_counter) <> sys_counter
}.

Section Alarm.
Context (tm : Timers) (a : nat).
Hypothesis Hsys : system_alarm tm a.
Hypothesis Hheads : Forall (fun c => c.(alarm_head) = []) tm.(counter_list).

(** ** Os_CounterInit *)
Definition heads (s : S) : list (list nat) := alarm_head <$> s.(timers).(counter_list).
Definition same_counter (c c' : OsCounterType) : Prop :=
  c'.(counter_type) = c.(counter_type) /\ c'.(val) = c.(val) /\ c'.(alarm_base) = c.(alarm_base).
(** The first [n] alarms have been entered. *)
Record Entered (n : nat) (s : S) : Prop := {
  en_alarms : s.(timers).(alarm_list) = tm.(alarm_list);
  en_tables : s.(timers).(sched_list) = tm.(sched_list);
  en_counter : exists c c', tm.(counter_list) !! sys_counter = Some c /\ s.(timers).(counter_list) !! sys_counter = Some c' /\ same_counter c c';
  en_other c h : heads s !! c = Some h -> (c <> sys_counter \/ n <= a)%nat -> a ∉ h;
  en_list : (a < n)%nat -> exists l1 l2, heads s !! sys_counter = Some (l1 ++ a :: l2) /\ (a ∉ l1) /\ (a ∉ l2)
}.
Lemma heads_set i f s :
  heads (set_timers (set_counter_list (alter f i s.(timers).(counter_list)) s.(timers)) s) !! i = alarm_head ∘ f <$> s.(timers).(counter_list) !! i.
Proof using Type. unfold heads. cbn. rewrite list_lookup_fmap, list_lookup_alter_eq. by destruct (_ !! i). Qed.
Lemma heads_set_ne i j f s :
  j <> i -> heads (set_timers (set_counter_list (alter f i s.(timers).(counter_list)) s.(timers)) s) !! j = heads s !! j.
Proof using Type. intros Hj. unfold heads. cbn. by rewrite !list_lookup_fmap, list_lookup_alter_ne. Qed.
Lemma counter_kept i f s c c' :
  s.(timers).(counter_list) !! sys_counter = Some c' -> same_counter c c' -> (forall x, same_counter x (f x)) ->
  exists c2, (alter f i s.(timers).(counter_list)) !! sys_counter = Some c2 /\ same_counter c c2.
Proof using Type.
  intros E (H1 & H2 & H3) Hf. destruct (decide (i = sys_counter)) as [->|Hi].
  - rewrite list_lookup_alter_eq, E. exists (f c'). split; [done|]. destruct (Hf c') as (E1 & E2 & E3). unfold same_counter. by rewrite E1, E2, E3.
  - rewrite list_lookup_alter_ne by done. by exists c'.
Qed.
(** A counter gets another list. *)
Lemma entered_set n n' i f s :
  Entered n s -> (forall x, same_counter x (f x)) ->
  (forall c h, s.(timers).(counter_list) !! i = Some c -> h = (f c).(alarm_head) ->
    ((i <> sys_counter \/ n' <= a)%nat -> a ∉ h) /\ (i = sys_counter -> (a < n')%nat -> exists l1 l2, h = l1 ++ a :: l2 /\ (a ∉ l1) /\ (a ∉ l2))) ->
  (n <= n')%nat -> ((a < n')%nat -> (a < n)%nat \/ i = sys_counter) ->
  Entered n' (set_timers (set_counter_list (alter f i s.(timers).(counter_list)) s.(timers)) s).
Proof using Type.
  intros [Q1 Q2 (c & c' & Ec & Ec' & Hsame) Q4 Q5] Hf Hh Hle Hin. split; try done.
  - destruct (counter_kept i f s c c' Ec' Hsame Hf) as (c2 & E2 & H2). by exists c, c2.
  - intros j h Ej Hj. destruct (decide (j = i)) as [->|Hne].
    + rewrite heads_set in Ej. destruct (s.(timers).(counter_list) !! i) as [ci|] eqn:Ei; [|done]. injection Ej as <-. by apply (Hh ci).
    + rewrite heads_set_ne in Ej by done. eapply Q4; [exact Ej|]. lia.
  - intros Ha. destruct (decide (sys_counter = i)) as [<-|Hne].
    + rewrite heads_set, Ec'. destruct (Hh c' _ Ec' eq_refl) as [_ H]. destruct (H eq_refl Ha) as (l1 & l2 & El & H1 & H2). exists l1, l2. cbn. by rewrite El.
    + rewrite heads_set_ne by done. apply Q5. destruct (Hin Ha); [done|congruence].
Qed.
Lemma entered_0 s : s.(timers) = tm -> Entered 0 s.
Proof using Hsys Hheads.
  intros E. destruct (sa_alarm _ _ Hsys) as (c & al & Ec & _). split; try (by rewrite E); [|intros i h Ei _|lia].
  - exists c, c. rewrite E. by split_and!.
  - unfold heads in Ei. rewrite E, list_lookup_fmap in Ei. destruct (tm.(counter_list) !! i) as [ci|] eqn:Eci; [|done]. injection Ei as <-.
    eapply Forall_lookup in Hheads; [|exact Eci]. cbn in Hheads. rewrite Hheads. apply not_elem_of_nil.
Qed.
Lemma CounterInit_entered s : s.(timers) = tm -> wp Os_CounterInit (fun _ s' => exists n, (a < n)%nat /\ Entered n s') s.
Proof using Hsys Hheads.
  intros E. pose proof (entered_0 s E) as H0. destruct (sa_alarm _ _ Hsys) as (c & al & Ec & Eal & Eq & _). pose proof (lookup_lt_Some _ _ _ Eal) as Hlen.
  unfold Os_CounterInit. eapply wp_step; [done|]. rewrite E. apply wp_bind.
  apply (wp_mono _ (fun _ s' => Entered (length tm.(alarm_list)) s')).
  { rewrite (proj2 (Nat.eqb_neq _ 0)) by lia. destruct (lookup_lt_is_Some_2 tm.(alarm_list) 0) as [a0 Ea0]; [lia|]. eapply wp_step; [apply run_AlarmGet; by rewrite E|].
    eapply wp_step; [done|]. apply (wp_for_seq (fun n s => Entered n s)).
    - apply (entered_set 0 0); try done; [|lia]. intros ci h _ ->. split; [intros _; apply not_elem_of_nil|lia].
    - intros i s' Hi HE. destruct (lookup_lt_is_Some_2 tm.(alarm_list) i) as [ai Eai]; [lia|]. eapply wp_step; [apply run_AlarmGet; by rewrite (en_alarms _ _ HE)|].
      apply wp_modify, (entered_set i); try done; [|lia|].
      + intros ci h Eci ->. cbn. assert (Eh : heads s' !! ai.(counter) = Some ci.(alarm_head)) by (unfold heads; by rewrite list_lookup_fmap, Eci). split.
        * intros Hor. apply not_elem_of_cons. split; [intros ->; rewrite Eal in Eai; injection Eai as <-; lia|]. eapply (en_other _ _ HE); [exact Eh|]. lia.
        * intros Es Ha. destruct (decide (i = a)) as [->|Hne].
          -- exists [], ci.(alarm_head). split_and!; [done|apply not_elem_of_nil|]. eapply (en_other _ _ HE); [exact Eh|]. by right.
          -- destruct (en_list _ _ HE) as (l1 & l2 & El & H1 & H2); [lia|]. rewrite <- Es, Eh in El. injection El as ->. exists (i :: l1), l2.
             split_and!; [done| |done]. apply not_elem_of_cons. split; [congruence|done].
      + intros Ha. destruct (decide (i = a)) as [->|]; [right|left; lia]. rewrite Eal in Eai. by injection Eai as <-. }
  intros [] s1 HE1. eapply wp_step; [done|]. rewrite (en_tables _ _ HE1). apply wp_if; intros Hz; [by exists (length tm.(alarm_list))|]. apply Nat.eqb_neq in Hz.
  destruct (lookup_lt_is_Some_2 tm.(sched_list) 0) as [t0 Et0]; [lia|]. eapply wp_step; [apply run_SchTblGet; by rewrite (en_tables _ _ HE1)|].
  eapply wp_step; [done|]. eapply (wp_mono _ (fun _ s' => Entered (length tm.(alarm_list)) s')); [|intros [] s' HE'; by exists (length tm.(alarm_list))].
  apply (wp_for_seq (fun _ s => Entered (length tm.(alarm_list)) s)).
  - pose proof (sa_table _ _ Hsys t0 Et0) as Hne. apply (entered_set (length tm.(alarm_list))); try done; [|lia]. intros ci h _ ->. split; [intros _; apply not_elem_of_nil|done].
  - intros i s' Hi HE. destruct (lookup_lt_is_Some_2 tm.(sched_list) i) as [ti Eti]; [lia|]. eapply wp_step; [apply run_SchTblGet; by rewrite (en_tables _ _ HE)|].
    apply wp_modify, (entered_set (length tm.(alarm_list))); try done; [|lia]. intros ci h Eci ->. cbn.
    assert (Eh : heads s' !! ti.(st_counter) = Some ci.(alarm_head)) by (unfold heads; by rewrite list_lookup_fmap, Eci). split.
    + intros Hor. eapply (en_other _ _ HE); [exact Eh|lia].
    + intros Es Ha. destruct (en_list _ _ HE) as (l1 & l2 & El & H1 & H2); [lia|]. rewrite <- Es, Eh in El. injection El as ->. by exists l1, l2.
Qed.
Lemma entered_ticking n s : (a < n)%nat -> Entered n s -> Ticking a s.
Proof using Hsys.
  intros Ha [Q1 Q2 (c & c' & Ec & Ec' & (H1 & H2 & H3)) Q4 Q5]. destruct (sa_alarm _ _ Hsys) as (c0 & al & Ec0 & Eal & Eq & Eh & Hr). rewrite Ec in Ec0. injection Ec0 as <-.
  split.
  - unfold Own. split; cbn; [exists c'; by rewrite Ec', H1|exists al; by rewrite Q1|by apply Q5|]. intros i h Hi Ei. eapply Q4; [exact Ei|by left].
  - exists c', al, (watch a s).2. split; [unfold watch; cbn; by rewrite Ec', Q1, Eal|]. destruct Hr. unfold Os_CounterGetMaxValue in *. split; unfold Os_CounterGetMaxValue; by rewrite ?H2, ?H3.
Qed.

(** ** InitOS and StartOS *)
#[local] Existing Instance watch_stable.
Lemma InitOS_ticking res w s : InitOS (reset res tm w) = Some (tt, s) -> Ticking a s.
Proof using Hsys Hheads.
  unfold InitOS. intros H. do 3 apply bind_inv in H as (? & ? & [= <- <-] & H). apply bind_inv in H as ([] & s1 & E1 & H).
  assert (H1 : Ticking a s1).
  { match type of E1 with Os_CounterInit ?s0 = _ => pose proof (CounterInit_entered s0 eq_refl) as HE end. unfold wp in HE. rewrite E1 in HE.
    destruct HE as (n & Ha & HE). by eapply entered_ticking. }
  apply (same_clock a s1 s); [|done]. refine ((_ : mresp (Own a) (same_watch a) _) s1 tt s (proj1 H1) H).
  resp_with ltac:(apply watch_off; reflexivity).
Qed.

Definition keeps_ticking (s s' : S) : Prop := Ticking a s -> Ticking a s'.
#[local] Instance ticking_stable : Stable (Ticking a) keeps_ticking.
Proof using Type. split; [split; unfold keeps_ticking|]; unfold Reflexive, Transitive, keeps_ticking; tauto. Qed.
Lemma ticking_off s s' : s'.(timers) = s.(timers) -> keeps_ticking s s'.
Proof using Type. intros E HT. by apply (same_clock a _ _ (watch_off a _ _ E)). Qed.
(** What leaves the alarm alone keeps it ticking. *)
Lemma alone_ticking {A} (m : M S A) : mresp (Own a) (same_watch a) m -> mresp (Ticking a) keeps_ticking m.
Proof using Type. intros Hm s r s' HT E _. apply (same_clock a s s'); [|done]. eapply Hm; [apply HT|exact E]. Qed.
Lemma SetRel_ticking j inc cycle up : (j = a -> 0 <= inc /\ 0 <= cycle) -> mresp (Ticking a) keeps_ticking (Os_internalSetRelAlarm j inc cycle up).
Proof using Type.
  intros Hty. destruct (decide (j = a)) as [->|Hne].
  - intros s r s' _ Es HT. destruct Hty as [Hi Hc]; [done|]. destruct (sys_alarm a s HT) as (cn & al & Ea & Eq & Ec & _ & _).
    apply SetRel_inv in Es as [(_ & Hs & Hz & Hm)|[_ Es]]; [|by apply (ticking_off _ _ Es)].
    eapply set_ticking; [done|exact Hs|done|]. intros c Ecn Hv1 Hv2. rewrite Ea in Hm. cbn in Hm. rewrite Eq in Hm. specialize (Hm c Ecn). apply add_range; lia.
  - apply alone_ticking. resp_with ltac:(first [apply watch_off; reflexivity|apply watch_alarm; done]).
Qed.
Lemma SetAbs_ticking j start cycle up : (j = a -> 0 <= start /\ 0 <= cycle) -> mresp (Ticking a) keeps_ticking (Os_internalSetAbsAlarm j start cycle up).
Proof using Type.
  intros Hty. destruct (decide (j = a)) as [->|Hne].
  - intros s r s' _ Es HT. destruct Hty as [Hi Hc]; [done|]. destruct (sys_alarm a s HT) as (cn & al & Ea & Eq & Ec & _ & _).
    apply SetAbs_inv in Es as [(_ & Hs & Hm)|[_ Es]]; [|by apply (ticking_off _ _ Es)].
    eapply set_ticking; [done|exact Hs|done|]. intros c Ecn Hv1 Hv2. rewrite Ea in Hm. cbn in Hm. rewrite Eq in Hm. specialize (Hm c Ecn). lia.
  - apply alone_ticking. resp_with ltac:(first [apply watch_off; reflexivity|apply watch_alarm; done]).
Qed.
Lemma AlarmAutostart_ticking : mresp (Ticking a) keeps_ticking Os_AlarmAutostart.
Proof using Type.
  unfold Os_AlarmAutostart. apply mresp_bind; [typeclasses eauto|apply mresp_get; typeclasses eauto|]. intros cnt. apply mresp_for_each; [typeclasses eauto|]. intros _ j.
  apply mresp_step; [typeclasses eauto|resp_with ltac:(apply ticking_off; reflexivity)|]. intros s al s' HT [Ej _]%AlarmGet_inv.
  destruct al.(autostartPtr) as [p|] eqn:Ep; [|apply mresp_ret; typeclasses eauto].
  assert (Hty : j = a -> 0 <= p.(alarmTime) /\ 0 <= p.(cycleTime)).
  { intros ->. destruct (sys_alarm a s HT) as (cn & al' & Ea & _ & _ & _ & Hr). rewrite Ea in Ej. injection Ej as ->. by apply (rg_auto _ _ Hr). }
  pose proof (SetRel_ticking j p.(alarmTime) p.(cycleTime) true Hty). pose proof (SetAbs_ticking j p.(alarmTime) p.(cycleTime) true Hty).
  resp_with ltac:(apply ticking_off; reflexivity).
Qed.
Lemma SchTblAutostart_ticking : mresp (Ticking a) keeps_ticking Os_SchTblAutostart.
Proof using Type. apply alone_ticking. resp_with ltac:(first [apply watch_off; reflexivity|apply watch_sched]). Qed.
Lemma highest_ticking l n p : mresp (Ticking a) keeps_ticking (highest_autostart l n p).
Proof using Type. revert n p. induction l as [|i l IH]; intros n p; cbn; resp_with ltac:(apply ticking_off; reflexivity). Qed.
Lemma StartOS_ticking mode : kresp (Ticking a) keeps_ticking (StartOS mode).
Proof using Type.
  pose proof AlarmAutostart_ticking. pose proof SchTblAutostart_ticking. pose proof highest_ticking. resp_with ltac:(apply ticking_off; reflexivity).
Qed.
End Alarm.

Lemma boot_alarm rank res tm mode w a m :
  valid_cfg -> valid_timers rank tm -> Forall valid_res res -> system_alarm tm a -> boot res tm mode w = Some m -> Ticking a m.(os) /\ code_ok a m.
Proof.
  intros Hv Htm Hres Hsys E. destruct (wp_inv _ _ _ (InitOS_ok rank res tm w Htm Hres)) as ([] & s & Es & HF). unfold boot in E. rewrite Es in E. cbn [mbind option_bind] in E.
  assert (HT : Ticking a s) by (eapply InitOS_ticking; [done|eapply list.Forall_impl; [apply (vm_counters _ _ Htm)|by intros c []]|exact Es]).
  pose proof (StartOS_ok (shape_of rank tm) Hv mode s HF) as H. unfold kwp in H.
  assert (Hr : respects (Ticking a) (keeps_ticking a) s (kbind (StartOS mode) (fun _ => kret E_OK) s)).
  { apply respects_bind; [apply ticking_stable|done|by apply StartOS_ticking|]. intros _. apply kresp_ret, ticking_stable. }
  destruct (kbind _ _ s) as [r s'|w' s' k|]; [done| |done]. destruct H as [[-> _ _ _ _ _] _]. destruct Hr as [Hr _]. unfold exec in E. cbn [exec_to] in E.
  apply (load_watch a) in E as [Hw Hc]; [split; [|done]; apply (same_clock a s' m.(os) Hw), Hr, HT| |by constructor].
  intros u k' [-> _]%lookup_replicate. apply kresp_unreachable.
Qed.
End Boot.
