(* ===== verification/Os_Expiry.v ===== *)
(** * What the expiry of an alarm does

    In an interrupt service routine activations and events only accumulate: no task is switched, and what an alarm has activated or set is still so at the end of
    the tick. *)

From stdpp Require Import sets.
From S2P Require Import Prelude.
From S2P Require Import StateMonad.
From S2P Require Import Coroutine.
From S2P Require Import Os_Irq.
From S2P Require Import Os_Types.
From S2P Require Import Os.
From S2P Require Import Os_Timers.
From S2P Require Import Os_System.
From S2P Require Import Os_Inv.
From S2P Require Import Os_Update.
From S2P Require Import Os_Dispatch.
From S2P Require Import Os_Kernel.
From S2P Require Import Os_Timing.
From S2P Require Import Os_Machine.
From S2P Require Import Os_Alarms.
From S2P Require Import Os_Clock.
From S2P Require Import Os_Alarm_Runs.

Section Expiry.
Context {W : Type} {Cfg : Os_Cfg} {Env : Os_Env W}.
Abbreviation S := (Os_State W).
Abbreviation sys_counter := Os_Arc_OsTickCounter.
Implicit Types (s : S).
Hypothesis Hv : valid_cfg.

#[local] Arguments Os_TaskGet : simpl never.
#[local] Arguments task_set : simpl never.
#[local] Arguments constPtr : simpl never.

(** ** What accumulates *)
Definition bounds s : Prop :=
  length s.(Os_TaskVarList) = OS_TASK_CNT /\
  forall t, (t < OS_TASK_CNT)%nat -> ((T s t).(state) = ST_SUSPENDED -> (T s t).(activations) = 0) /\
    ((T s t).(state) <> ST_SUSPENDED -> 1 <= (T s t).(activations) <= (C t).(activationLimit)).
Definition more (p p' : OsTaskVarType) : Prop :=
  p.(activations) <= p'.(activations) /\
  (p.(state) <> ST_SUSPENDED -> p'.(state) <> ST_SUSPENDED /\ (p'.(state) = p.(state) \/ p'.(state) = ST_READY) /\ p'.(ev_wait) = p.(ev_wait) /\
    forall i, Z.testbit p.(ev_set) i = true -> Z.testbit p'.(ev_set) i = true).
Definition InIsr s : Prop := nest s <> 0 /\ bounds s.
Record gains s s' : Prop := {
  gn_nest : nest s' = nest s;
  gn_dis : dis s' = dis s;
  gn_bounds : bounds s';
  gn_more t : (t < OS_TASK_CNT)%nat -> more (T s t) (T s' t)
}.
Definition Gains s s' : Prop := bounds s -> gains s s'.
Lemma more_refl p : more p p.
Proof. split; [lia|]. intros H. auto. Qed.
Lemma more_trans p1 p2 p3 : more p1 p2 -> more p2 p3 -> more p1 p3.
Proof.
  intros [A1 S1] [A2 S2]. split; [lia|]. intros H. destruct (S1 H) as (H1 & Q1 & W1 & B1), (S2 H1) as (H2 & Q2 & W2 & B2). split_and!; [done| |congruence|auto].
  destruct Q2 as [->|]; [|by right]. destruct Q1 as [->|]; [by left|by right].
Qed.
#[local] Instance gains_stable : Stable InIsr Gains.
Proof.
  split; [split|].
  - intros s Hb. split; try done. intros t _. apply more_refl.
  - intros s1 s2 s3 H12 H23 Hb. destruct (H12 Hb) as [N1 D1 B1 M1], (H23 B1) as [N2 D2 B2 M2]. split; try congruence. intros t Ht. eapply more_trans; auto.
  - intros s s' [Hn Hb] HG. destruct (HG Hb) as [N D B M]. split; [congruence|done].
Qed.
(** What is not about tasks. *)
Lemma gains_off s s' : s'.(Os_TaskVarList) = s.(Os_TaskVarList) -> nest s' = nest s -> dis s' = dis s -> Gains s s'.
Proof.
  intros E En Ed Hb. assert (ET : forall t, T s' t = T s t) by (intros t; unfold T; by rewrite E). split; try done.
  - unfold bounds. rewrite E. setoid_rewrite ET. exact Hb.
  - intros t _. rewrite ET. apply more_refl.
Qed.
Lemma gains_changed d p q s s' : changed d p q s s' -> more (T s d) p ->
  (p.(state) = ST_SUSPENDED -> p.(activations) = 0) -> (p.(state) <> ST_SUSPENDED -> 1 <= p.(activations) <= (C d).(activationLimit)) -> Gains s s'.
Proof.
  intros Hch Hm H0 H1 [Hl Hb]. split; [by rewrite (ch_nest _ _ _ _ _ Hch)|by rewrite (dis_lvl _ _ (ch_lvl _ _ _ _ _ Hch))| |].
  - split; [by rewrite (ch_len _ _ _ _ _ Hch)|]. intros t Ht. rewrite (ch_T _ _ _ _ _ Hch). destruct (decide (t = d)) as [->|]; [done|by apply Hb].
  - intros t Ht. rewrite (ch_T _ _ _ _ _ Hch). destruct (decide (t = d)) as [->|]; [done|apply more_refl].
Qed.

(** ** ActivateTask and SetEvent in an interrupt *)
Lemma stay_err rv svc ps (Q : S -> Prop) s : (forall s', same_kernel s s' -> Q s') -> kstay (atomic (OS_STD_ERR rv svc ps)) Q s.
Proof. intros HQ. unfold kstay, atomic. destruct (run_err rv svc ps s) as (s' & -> & Hs). by apply HQ. Qed.
Lemma gains_same s s' : same_kernel s s' -> Gains s s'.
Proof. intros Hs. apply gains_off; [apply Hs|apply Hs|by apply dis_lvl, Hs]. Qed.
Lemma make_ready_inv d s s' :
  (d < length s.(Os_TaskVarList))%nat -> ready_or_running (T s d).(state) = false -> Os_TaskMakeReady d s = Some (tt, s') ->
  exists q, changed d (set_state ST_READY (T s d)) q s s'.
Proof.
  intros Hd Hst. unfold Os_TaskMakeReady, bind. rewrite run_TaskGet by done. cbn. rewrite Hst. cbn. rewrite run_task_set by done. cbn.
  unfold Os_ReadyQEnqueue, TAILQ_INSERT_TAIL, OS_SYS, sys_set, bind, get, deref, modify. cbn. destruct (bool_decide _); [done|]. cbn. intros [= <-].
  eexists. destruct (changed_upd d (set_state ST_READY) s Hd). split; done.
Qed.
Lemma TaskGet_same d s p s' : Os_TaskGet d s = Some (p, s') -> s' = s.
Proof. unfold Os_TaskGet, bind, get, deref. cbn. destruct (_ !! d); [|done]. by intros [= _ ->]. Qed.
Lemma constPtr_same d s c s' : constPtr d s = Some (c, s') -> s' = s.
Proof. unfold constPtr, deref. destruct (_ !! d); [|done]. by intros [= _ ->]. Qed.
Ltac stay_read := apply kstay_step; first [intros ? ? ->%TaskGet_same|intros ? ? ->%constPtr_same|intros ? ? [= <- <-]].

(** The activation counts, or there are as many as allowed. *)
Definition activated d s s' : Prop := Z.min ((T s d).(activations) + 1) (C d).(activationLimit) <= (T s' d).(activations).
(** The end of the service: nothing is dispatched. *)
Lemma activate_end c d f s (Q : S -> Prop) :
  nest s <> 0 -> (forall s', same_kernel s s' -> Q s') ->
  kstay (kbind (atomic (OS_SYS intNestCnt)) (fun nest => kbind (atomic (constPtr c)) (fun cc => kbind (atomic (Os_TaskGet d)) (fun dest =>
    kbind (atomic Os_SysTaskGetCurr) (fun curr => kbind (atomic (Os_TaskGet curr)) (fun cp =>
    kbind (if (nest =? 0) && bool_decide (cc.(scheduling) = FULL) && (cp.(activePriority) <? dest.(activePriority))
           then Os_Dispatch OP_ACTIVATE_TASK else kret tt) (fun _ => kbind (atomic (Irq_Restore f)) (fun _ => kret E_OK)))))))) Q s.
Proof. intros Hn HQ. stay_read. fold (nest s). rewrite (proj2 (Z.eqb_neq _ 0) Hn). do 4 stay_read. cbn. by apply HQ. Qed.
Lemma activate_isr d s :
  InIsr s -> kstay (ActivateTask d) (fun s' => Gains s s' /\ ((d < OS_TASK_CNT)%nat -> dis s = false -> activated d s s')) s.
Proof using Hv.
  intros [Hn Hb]. unfold ActivateTask. eapply kstay_run; [done|]. unfold OS_VALIDATE_STD_K at 1. destruct (TASK_CHECK_ID d) eqn:Ed.
  2:{ apply stay_err. intros s' Hs. split; [by apply gains_same|]. intros Hd. apply Nat.ltb_ge in Ed. lia. }
  apply Nat.ltb_lt in Ed. eapply kstay_run; [done|]. fold (dis s). unfold OS_VALIDATE_STD_K. destruct (dis s) eqn:Edis; cbn [negb].
  { apply stay_err. intros s' Hs. split; [by apply gains_same|done]. }
  eapply kstay_run; [done|]. set (s1 := set_irq _ s). assert (H1 : same_kernel s s1) by done. clearbody s1. destruct Hb as [Hl Hb].
  assert (Hd1 : (d < length s1.(Os_TaskVarList))%nat) by (rewrite (sk_tasks _ _ H1); lia). set (up := fun p => set_activations _ p).
  assert (Hch : changed d (up (T s d)) (ready s) s (upd d up s1)).
  { eapply changed_before; [exact H1|]. rewrite <- (same_T _ _ d H1), <- (sk_ready _ _ H1). by apply changed_upd. }
  eapply kstay_run; [by apply run_task_set|]. set (s2 := upd d up s1) in *. clearbody s2. pose proof (changed_self _ _ _ _ _ Hch) as Ed2.
  assert (Hd2 : (d < length s2.(Os_TaskVarList))%nat) by (rewrite (ch_len _ _ _ _ _ Hch); lia).
  eapply kstay_run; [by apply run_TaskGet|]. eapply kstay_run; [by apply run_constPtr|]. rewrite Ed2. change (up (T s d)).(state) with (T s d).(state).
  destruct (Hb d Ed) as [Hsus Hact]. pose proof (vt_limit _ (valid_const d Hv Ed)) as Hlim.
  assert (Hdone : forall p q s3, changed d p q s s3 -> more (T s d) p -> p.(state) <> ST_SUSPENDED -> p.(activations) = (T s d).(activations) + 1 ->
    (T s d).(activations) + 1 <= (C d).(activationLimit) ->
    nest s3 <> 0 /\ forall s', same_kernel s3 s' -> Gains s s' /\ ((d < OS_TASK_CNT)%nat -> false = false -> activated d s s')).
  { intros p q s3 Hc Hm Hs Ha Hle. split; [by rewrite (ch_nest _ _ _ _ _ Hc)|]. intros s' Hs'. pose proof (changed_same _ _ _ _ _ _ Hc Hs') as Hc'. split.
    - eapply gains_changed; [exact Hc'|done|done|]. intros _. destruct Hm as [Hm _]. destruct (decide ((T s d).(state) = ST_SUSPENDED)) as [E|E]; [rewrite (Hsus E) in *; lia|].
      pose proof (Hact E). lia.
    - intros _ _. unfold activated. rewrite (changed_self _ _ _ _ _ Hc'), Ha. lia. }
  destruct (decide ((T s d).(state) = ST_SUSPENDED)) as [E|E].
  - rewrite bool_decide_eq_false_2 by (intros H; by apply H). cbn [andb]. specialize (Hsus E).
    assert (Hu : u8 ((T s d).(activations) + 1) = 1) by (by rewrite Hsus).
    destruct (run_clean d s2 Ed) as (p & s3 & E3 & Hch3 & _ & Es3 & Ea3 & _); [rewrite (ch_len _ _ _ _ _ Hch); done|]. rewrite Ed2 in Es3, Ea3.
    apply kstay_step. intros [] s4 E4. unfold bind in E4. rewrite run_ASSERT in E4 by (cbn; by rewrite Hu). cbn in E4. rewrite E3 in E4. cbn in E4.
    pose proof (changed_trans _ _ _ _ _ _ _ _ Hch Hch3) as Hch4.
    apply make_ready_inv in E4 as [q Hch5]; [|by rewrite (ch_len _ _ _ _ _ Hch3)|by rewrite (changed_self _ _ _ _ _ Hch3), Es3; cbn; rewrite E].
    pose proof (changed_trans _ _ _ _ _ _ _ _ Hch4 Hch5) as Hch6. rewrite (changed_self _ _ _ _ _ Hch3) in Hch6.
    destruct (Hdone _ _ _ Hch6) as [Hn4 Hq4]; [|done|cbn; by rewrite Ea3; cbn; rewrite Hu, Hsus|rewrite Hsus; lia|by apply activate_end].
    split; [cbn; rewrite Ea3; cbn; rewrite Hu, Hsus; lia|done].
  - specialize (Hact E). assert (Hu : u8 ((T s d).(activations) + 1) = (T s d).(activations) + 1) by (apply Z.mod_small; lia).
    rewrite bool_decide_eq_true_2 by done. cbn [andb activations set_activations up]. rewrite Hu. destruct (Z.ltb_spec (C d).(activationLimit) ((T s d).(activations) + 1)) as [Hgt|Hle].
    + stay_read. set (s3 := set_irq _ s2). assert (H3 : same_kernel s2 s3) by done. clearbody s3. unfold activation_refused. set (down := fun p => set_activations _ p).
      eapply kstay_run; [apply run_task_set; by rewrite (sk_tasks _ _ H3)|].
      assert (Hch3 : changed d (down (up (T s d))) (ready s) s (upd d down s3)).
      { eapply changed_trans; [by eapply changed_same|]. pose proof (changed_upd d down s3) as H. rewrite (same_T _ _ _ H3), Ed2 in H.
        rewrite (sk_ready _ _ H3), (ch_ready _ _ _ _ _ Hch) in H. apply H. by rewrite (sk_tasks _ _ H3). }
      assert (Ea : (down (up (T s d))).(activations) = (T s d).(activations)).
      { cbn. rewrite Hu. replace (_ + 1 - 1) with (T s d).(activations) by lia. apply Z.mod_small. lia. }
      apply stay_err. intros s' Hs'. pose proof (changed_same _ _ _ _ _ _ Hch3 Hs') as Hc'. split.
      * eapply gains_changed; [exact Hc'| |done|by rewrite Ea]. split; [rewrite Ea; lia|]. intros _. split_and!; [done|by left|done|done].
      * intros _ _. unfold activated. rewrite (changed_self _ _ _ _ _ Hc'), Ea. lia.
    + stay_read. destruct (Hdone _ _ _ Hch) as [Hn4 Hq4]; [|done|done|done|by apply activate_end]. split; [cbn; lia|]. intros _. split_and!; [done|by left|done|done].
Qed.
(** The events are set, and a task that waits for one of them is ready. *)
Definition signalled d e s s' : Prop :=
  (forall i, Z.testbit e i = true -> Z.testbit (T s' d).(ev_set) i = true) /\
  ((T s d).(state) = ST_WAIT_EVENT -> Z.land e (T s d).(ev_wait) <> 0 -> (T s' d).(state) = ST_READY).
Lemma event_isr d e s :
  InIsr s -> kstay (SetEvent d e)
    (fun s' => Gains s s' /\ ((d < OS_TASK_CNT)%nat -> (C d).(proc_type) = PROC_EXTENDED -> (T s d).(state) <> ST_SUSPENDED -> signalled d e s s')) s.
Proof using Hv.
  intros [Hn Hb]. unfold SetEvent. unfold OS_VALIDATE_STD_K at 1. destruct (TASK_CHECK_ID d) eqn:Ed.
  2:{ apply stay_err. intros s' Hs. split; [by apply gains_same|]. intros Hd. apply Nat.ltb_ge in Ed. lia. }
  apply Nat.ltb_lt in Ed. eapply kstay_run; [by apply run_constPtr|]. unfold OS_VALIDATE_STD_K at 1. case_bool_decide as Eext.
  2:{ apply stay_err. intros s' Hs. split; [by apply gains_same|done]. }
  pose proof Hb as [Hl Hbd]. eapply kstay_run; [apply run_TaskGet; lia|]. unfold OS_VALIDATE_STD_K. case_bool_decide as Ens.
  2:{ apply stay_err. intros s' Hs. split; [by apply gains_same|done]. }
  unfold set_event_masked. eapply kstay_run; [done|]. set (s1 := set_irq _ s). assert (H1 : same_kernel s s1) by done. clearbody s1.
  assert (Hd1 : (d < length s1.(Os_TaskVarList))%nat) by (rewrite (sk_tasks _ _ H1); lia). set (put := fun p => set_ev_set _ p).
  assert (Hch : changed d (put (T s d)) (ready s) s (upd d put s1)).
  { eapply changed_before; [exact H1|]. rewrite <- (same_T _ _ d H1), <- (sk_ready _ _ H1). by apply changed_upd. }
  eapply kstay_run; [by apply run_task_set|]. set (s2 := upd d put s1) in *. clearbody s2. pose proof (changed_self _ _ _ _ _ Hch) as Ed2.
  assert (Hd2 : (d < length s2.(Os_TaskVarList))%nat) by (rewrite (ch_len _ _ _ _ _ Hch); lia). eapply kstay_run; [by apply run_TaskGet|]. rewrite Ed2.
  destruct (Hbd d Ed) as [_ Hact]. specialize (Hact Ens).
  assert (Hbits : forall st i, Z.testbit (T s d).(ev_set) i = true \/ Z.testbit e i = true -> Z.testbit (set_state st (put (T s d))).(ev_set) i = true).
  { intros st i H. cbn -[Z.lor]. rewrite Z.lor_spec. by apply orb_true_iff. }
  assert (Hdone : forall st q s3, changed d (set_state st (put (T s d))) q s s3 -> st = (T s d).(state) \/ st = ST_READY ->
    ((T s d).(state) = ST_WAIT_EVENT -> Z.land e (T s d).(ev_wait) <> 0 -> st = ST_READY) ->
    nest s3 <> 0 /\ forall s', same_kernel s3 s' -> Gains s s' /\ ((d < OS_TASK_CNT)%nat -> PROC_EXTENDED = PROC_EXTENDED -> (T s d).(state) <> ST_SUSPENDED -> signalled d e s s')).
  { intros st q s3 Hc Hst Hw. split; [by rewrite (ch_nest _ _ _ _ _ Hc)|]. intros s' Hs'. pose proof (changed_same _ _ _ _ _ _ Hc Hs') as Hc'.
    assert (Hst' : st <> ST_SUSPENDED) by (destruct Hst as [-> | ->]; done). split.
    - eapply gains_changed; [exact Hc'| |done|done]. split; [cbn; lia|]. intros _. split_and!; [done|done|done|auto].
    - intros _ _ _. unfold signalled. rewrite (changed_self _ _ _ _ _ Hc'). split; [auto|exact Hw]. }
  assert (Hsame : put (T s d) = set_state (T s d).(state) (put (T s d))) by (by destruct (T s d)).
  assert (Hquiet : ((T s d).(state) = ST_WAIT_EVENT -> Z.land e (T s d).(ev_wait) <> 0 -> (T s d).(state) = ST_READY) ->
    kstay (kbind (kret tt) (fun _ => kbind (atomic (Irq_Restore s.(irq).(irq_enabled))) (fun _ => kret E_OK)))
      (fun s' => Gains s s' /\ ((d < OS_TASK_CNT)%nat -> (C d).(proc_type) = PROC_EXTENDED -> (T s d).(state) <> ST_SUSPENDED -> signalled d e s s')) s2).
  { intros Hw. rewrite Hsame in Hch. destruct (Hdone _ _ _ Hch (or_introl eq_refl) Hw) as [_ Hq]. rewrite Eext. by apply Hq. }
  change (put (T s d)).(ev_wait) with (T s d).(ev_wait). change (put (T s d)).(state) with (T s d).(state).
  destruct (Z.eqb_spec (Z.land e (T s d).(ev_wait)) 0) as [Ez|Ez]; cbn [negb]; [by apply Hquiet|]. case_bool_decide as Ew.
  - apply kstay_bind. apply kstay_step. intros [] s3 E3. apply make_ready_inv in E3 as [q Hch3]; [|done|by rewrite Ed2; cbn; rewrite Ew].
    rewrite Ed2 in Hch3. pose proof (changed_trans _ _ _ _ _ _ _ _ Hch Hch3) as Hch4. destruct (Hdone _ _ _ Hch4 (or_intror eq_refl) ltac:(done)) as [Hn4 Hq].
    do 2 stay_read. fold (nest s3). rewrite (proj2 (Z.eqb_neq _ 0) Hn4). do 4 stay_read. intros []. rewrite Eext. by apply Hq.
  - destruct (ready_or_running (T s d).(state)) eqn:Er; [by apply Hquiet|]. by apply kstay_bind, kstay_atomic.
Qed.

(** ** Everything a tick does *)
Lemma gains_ActivateTask d : kresp InIsr Gains (ActivateTask d).
Proof using Hv. apply kstay_resp. intros s Hs. eapply kstay_mono; [by apply activate_isr|]. by intros s' [H _]. Qed.
Lemma gains_SetEvent d e : kresp InIsr Gains (SetEvent d e).
Proof using Hv. apply kstay_resp. intros s Hs. eapply kstay_mono; [by apply event_isr|]. by intros s' [H _]. Qed.
Ltac resp := resp_with ltac:(apply gains_off; reflexivity).
Lemma gains_err rv svc ps : mresp InIsr Gains (OS_STD_ERR rv svc ps).
Proof. resp. Qed.
Lemma gains_AlarmProcess i : mresp InIsr Gains (AlarmProcess i).
Proof. resp. Qed.
Lemma gains_UpdateState i : mresp InIsr Gains (Os_SchTblUpdateState i).
Proof. resp. Qed.
#[local] Hint Resolve gains_ActivateTask gains_SetEvent gains_err gains_AlarmProcess gains_UpdateState : resp.
Lemma gains_alarm_check increment c i : (forall c, kresp InIsr Gains (increment c)) -> kresp InIsr Gains (alarm_check increment c i).
Proof using Hv. intros Hinc. resp. Qed.
Lemma gains_SchTblCheck c : kresp InIsr Gains (Os_SchTblCheck c).
Proof using Hv. resp. Qed.
#[local] Hint Resolve gains_alarm_check gains_SchTblCheck : resp.
Lemma gains_IncrementCounter fuel c : kresp InIsr Gains (IncrementCounter fuel c).
Proof using Hv. revert c. induction fuel as [|fuel IH]; intros c; cbn [IncrementCounter]; [done|]. resp. Qed.

(** ** The tick at which an alarm expires *)
Definition effect (act : OsAlarmActionType) s s' : Prop :=
  match act with
  | ALARM_ACTION_ACTIVATETASK d => (d < OS_TASK_CNT)%nat -> dis s = false -> activated d s s'
  | ALARM_ACTION_SETEVENT d e => (d < OS_TASK_CNT)%nat -> (C d).(proc_type) = PROC_EXTENDED -> (T s d).(state) <> ST_SUSPENDED -> signalled d e s s'
  | _ => True
  end.
Lemma effect_wide act s s1 s2 s' : gains s s1 -> effect act s1 s2 -> gains s1 s2 -> gains s2 s' -> effect act s s'.
Proof.
  intros G1 He G2 G3. destruct act as [d|d e| |]; try done; cbn in *.
  - intros Hd Hdis. specialize (He Hd). rewrite (gn_dis _ _ G1) in He. specialize (He Hdis). unfold activated in *.
    destruct (gn_more _ _ G1 d Hd) as [A1 _], (gn_more _ _ G3 d Hd) as [A3 _]. lia.
  - intros Hd Hx Hns. destruct (gn_more _ _ G1 d Hd) as [_ M1]. destruct (M1 Hns) as (N1 & Q1 & W1 & _). destruct (He Hd Hx N1) as [Hbits Hwake].
    destruct (gn_more _ _ G2 d Hd) as [_ M2]. destruct (M2 N1) as (N2 & Q2 & _ & _). destruct (gn_more _ _ G3 d Hd) as [_ M3]. destruct (M3 N2) as (_ & Q3 & _ & B3).
    split; [auto|]. intros Hw Hz. rewrite W1 in Hwake. assert (E2 : (T s2 d).(state) = ST_READY).
    { destruct Q1 as [Q1|Q1]; [apply Hwake; congruence|]. destruct Q2; congruence. }
    destruct Q3; congruence.
Qed.
Lemma kpost_and {A} (m : K S A) (Q1 Q2 : S -> Prop) s : kpost m Q1 s -> kpost m Q2 s -> kpost m (fun s => Q1 s /\ Q2 s) s.
Proof. unfold kpost. by destruct (m s). Qed.
Lemma kpost_gains {A} (m : K S A) s : kresp InIsr Gains m -> InIsr s -> kpost m (fun s' => gains s s' /\ InIsr s') s.
Proof.
  intros Hm Hs. eapply kpost_mono; [by apply (kpost_resp InIsr Gains)|]. intros s' HG. split; [exact (HG (proj2 Hs))|exact (stable_keeps s s' Hs HG)].
Qed.

Section Alarm.
Context (a : nat).
#[local] Existing Instance watch_stable.
Lemma check_effect increment c al h s :
  (forall c, kresp InIsr Gains (increment c)) -> watch a s = (Some c, Some al, h) -> InIsr s -> al.(active) = true -> c.(val) = al.(expire_val) ->
  kpost (alarm_check increment sys_counter a) (fun s' => gains s s' /\ InIsr s' /\ effect al.(action) s s') s.
Proof using Hv.
  intros Hinc Ew HI Eact Eexp. injection Ew as E1 E2 E3. unfold alarm_check.
  eapply kpost_run; [unfold Os_AlarmGet, bind, get, deref; cbn; rewrite E2; done|]. eapply kpost_run; [unfold Os_CounterGet, bind, get, deref; cbn; rewrite E1; done|].
  rewrite Eact, (proj2 (Z.eqb_eq _ _) Eexp). cbn [andb].
  assert (Hthen : forall {A} (m : K S A) (k : A -> K S unit), (forall r, kresp InIsr Gains (k r)) -> kpost m (fun s' => Gains s s' /\ effect al.(action) s s') s ->
    kpost (kbind m k) (fun s' => gains s s' /\ InIsr s' /\ effect al.(action) s s') s).
  { intros A m k Hk Hm. apply kpost_bind. eapply kpost_mono; [exact Hm|]. intros s1 [HG He] r. pose proof (stable_keeps s s1 HI HG : InIsr s1) as HI1. specialize (HG (proj2 HI)).
    eapply kpost_mono; [by apply (kpost_gains (k r))|]. intros s2 [G2 HI2]. 
    assert (G : gains s s2) by exact (transitivity (R := Gains) (x := s) (y := s1) (z := s2) (fun _ => HG) (fun _ => G2) (proj2 HI)).
    split_and!; [done|done|]. eapply (effect_wide _ s s s1 s2); [|done|done|done]. exact (reflexivity (R := Gains) s (proj2 HI)). }
  destruct al.(action) as [d|d e| |c'].
  - apply Hthen; [intros _; resp|]. eapply kpost_mono; [by apply kstay_post, activate_isr|]. auto.
  - apply Hthen; [intros r; resp|]. eapply kpost_mono; [by apply kstay_post, event_isr|]. auto.
  - cbn. split_and!; [|done|done]. exact (reflexivity (R := Gains) s (proj2 HI)).
  - apply Hthen; [intros _; resp|]. eapply kpost_mono; [by apply (kpost_resp InIsr Gains), HI|]. by intros s' HG.
Qed.
(** The alarms before and after this one in the list leave it alone. *)
Lemma others_watch fuel (l : list nat) s : a ∉ l -> Own a s -> InIsr s ->
  kpost (kfor_each l (alarm_check (IncrementCounter fuel) sys_counter)) (fun s' => (gains s s' /\ InIsr s') /\ watch a s' = watch a s) s.
Proof using Hv.
  intros Ha HO HI. apply kpost_and.
  - apply kpost_gains; [|done]. apply kresp_for_each; [typeclasses eauto|]. intros i _. apply gains_alarm_check, gains_IncrementCounter.
  - apply (kpost_same a); [|done]. apply kresp_for_each; [typeclasses eauto|]. intros i Hi. apply watch_alarm_check; [by intros ->|apply watch_IncrementCounter].
Qed.
Lemma tick_effect fuel c al h s :
  watch a s = (Some c, Some al, h) -> Own a s -> InIsr s -> al.(active) = true -> (tick_counter c).(val) = al.(expire_val) ->
  kpost (OsTick fuel) (effect al.(action) s) s.
Proof using Hv.
  intros Ew HO HI Eact Eexp. pose proof Ew as Ew'. injection Ew' as E1 E2 E3. unfold OsTick.
  eapply kpost_run; [unfold Os_CounterGet, bind, get, deref; cbn; rewrite E1; done|]. eapply kpost_run; [done|]. eapply kpost_run; [done|].
  set (s1 := set_timers _ _). assert (G1 : gains s s1) by (by apply gains_off, HI). assert (HI1 : InIsr s1) by exact (stable_keeps s s1 HI (fun _ => G1)).
  assert (W1 : watch a s1 = (Some (tick_counter c), Some al, h)) by (by apply (watch_count_up a c al h s (fun s => set_sys (set_tick (u32 (s.(sys).(tick) + 1)) s.(sys)) s))).
  clearbody s1. assert (HO1 : Own a s1).
  { unfold Own in *. rewrite W1, Ew in *. destruct HO as [(c1 & [= <-] & Eh) H2 H3 H4]. split; try done. by exists (tick_counter c). }
  clear E1 E2 E3 Ew HO. pose proof W1 as W1'. injection W1' as E1 E2 E3. destruct (own_list _ _ HO1) as (l1 & l2 & El & H1 & H2).
  assert (Hh : alarm_head (tick_counter c) = l1 ++ a :: l2) by (unfold watch in El; cbn in El; rewrite list_lookup_fmap, E1 in El; by injection El).
  apply kpost_bind. unfold Os_AlarmCheck. eapply kpost_run; [unfold Os_CounterGet, bind, get, deref; cbn; rewrite E1; done|]. rewrite Hh.
  apply kpost_app. eapply kpost_mono; [by apply others_watch|]. intros s2 [[G2 HI2] W2]. rewrite W1 in W2. apply kpost_bind.
  eapply kpost_mono; [apply (check_effect _ _ _ _ s2 (gains_IncrementCounter fuel) W2); done|]. intros s3 (G3 & HI3 & He) _.
  assert (G12 : gains s s2) by exact (transitivity (R := Gains) (x := s) (y := s1) (z := s2) (fun _ => G1) (fun _ => G2) (proj2 HI)).
  eapply kpost_mono; [apply (kpost_gains _ s3); [|done]|].
  { apply kresp_for_each; [typeclasses eauto|]. intros i _. apply gains_alarm_check, gains_IncrementCounter. }
  intros s4 [G4 HI4] _. eapply kpost_mono; [apply (kpost_gains _ s4); [apply gains_SchTblCheck|done]|]. intros s5 [G5 _].
  eapply (effect_wide _ s s2 s3 s5); [done..|]. exact (transitivity (R := Gains) (x := s3) (y := s4) (z := s5) (fun _ => G4) (fun _ => G5) (proj2 HI3)).
Qed.
End Alarm.
End Expiry.
