(* ===== verification/Os_Demo.v ===== *)
(** * A small system

    An idle task, a preemptable task that takes a resource, a task that waits for events, a non-preemptable one; a counter driven by the system tick
    with two alarms and a schedule table; interrupts of both categories.  The world records the tasks that were entered and the errors. *)

From stdpp Require Import sets.
From S2P Require Import Prelude.
From S2P Require Import StateMonad.
From S2P Require Import Coroutine.
From S2P Require Import Os_Irq.
From S2P Require Import Os_Types.
From S2P Require Import Os.
From S2P Require Import Os_Timers.
From S2P Require Import Os_System.
From S2P Require Import Os_Inv.
From S2P Require Import Os_Machine.
From S2P Require Import Os_Boot.

Module OsDemo.
Definition task (p : Z) (k : proc_type_t) (auto : bool) (sc : OsTaskSchedule) (access limit : Z) : OsTaskConstType := {|
  prio := p; proc_type := k; autostart := auto; scheduling := sc; resourceAccess := access; resourceIntPtr := None; activationLimit := limit
|}.
#[export] Instance cfg : Os_Cfg := {|
  Os_TaskConstList := [
    task 0 PROC_BASIC true FULL 0 1;
    task 3 PROC_BASIC false FULL 1 2;
    task 5 PROC_EXTENDED true FULL 1 1;
    task 2 PROC_BASIC false NON 0 1];
  Os_IsrConstList := [ISR_TYPE_2; ISR_TYPE_1];
  Os_Arc_OsTickCounter := 0;
  OS_PRE_TASK_HOOK := true;
  OS_POST_TASK_HOOK := true;
  OS_ERROR_HOOK := true;
  CFG_TC2XX := false
|}.
#[export] Instance env : Os_Env (list Z) := {|
  ErrorHook e w := w ++ [1000 + e];
  PreTaskHook t w := w ++ [Z.of_nat t];
  PostTaskHook _ w := w;
  StartupHook w := w
|}.
Definition resources : list OsResourceType :=
  [{| ceiling_priority := 0; old_task_prio := 0; owner := None; type := RESOURCE_TYPE_STANDARD |}].
Definition alarm (a : OsAlarmActionType) : OsAlarmType := {|
  counter := 0; cycletime := 0; expire_val := 0; active := false; action := a; autostartPtr := None
|}.
Definition timers : Timers := {|
  counter_list := [
    {| counter_type := COUNTER_TYPE_HARD; val := 0; alarm_base := {| maxallowedvalue := 99; tickperbase := 1; mincycle := 1 |};
       alarm_head := []; sched_head := [] |};
    {| counter_type := COUNTER_TYPE_SOFT; val := 0; alarm_base := {| maxallowedvalue := 9; tickperbase := 1; mincycle := 1 |};
       alarm_head := []; sched_head := [] |}];
  alarm_list := [alarm (ALARM_ACTION_ACTIVATETASK 1); alarm (ALARM_ACTION_INCREMENTCOUNTER 1)];
  sched_list := [{|
    duration := 5; repeating := true; st_counter := 1; st_autostartPtr := None; expire_curr_index := 0; st_expire_val := 0;
    st_state := SCHEDULETABLE_STOPPED; next := None;
    expirePointList := [{| offset := 2; taskList := [1%nat]; eventList := [] |}; {| offset := 4; taskList := []; eventList := [(1, 2%nat)] |}] |}]
|}.
Definition rank (c : nat) : nat := match c with 0%nat => 1%nat | _ => 0%nat end.
Definition booted : option Machine := boot resources timers 1 [].

(** Task 2 starts and waits; the idle task goes on.  A tick activates task 1, which takes the resource, is interrupted while task 2 is made ready, and
    lets task 2 run when it releases the resource. *)
Definition events : list Event := [
  ECall (CWaitEvent 1); ECall (CSetRelAlarm 0 1 0); EIrq 0; ECall COsTick; EIrq 1; EIret; EIret;
  ECall (CGetResource 0); EIrq 0; ECall (CSetEvent 2 1); EIret; ECall (CReleaseResource 0); EContinue].
Definition after (es : list Event) : option Machine := m ← booted; run es m.
End OsDemo.
