(* ===== verification/Os_Theorems.v ===== *)
(** * What the operating system guarantees

    For every valid configuration and every run of tasks and interrupt service routines from start-up on: no assertion of the kernel fails, the
    most important task runs, resources are exclusive, and events are not lost. *)

From stdpp Require Import sets.
From S2P Require Import Prelude.
From S2P Require Import StateMonad.
From S2P Require Import Coroutine.
From S2P Require Import Os_Irq.
From S2P Require Import Os_Types.
From S2P Require Import Os.
From S2P Require Import Os_Timers.
From S2P Require Import Os_System.
From S2P Require Import Os_Inv.
From S2P Require Import Os_Update.
From S2P Require Import Os_Dispatch.
From S2P Require Import Os_Kernel.
From S2P Require Import Os_Resources.
From S2P Require Import Os_Timing.
From S2P Require Import Os_Machine.
From S2P Require Import Os_Boot.
From S2P Require Import Os_Alarms.
From S2P Require Import Os_Clock.
From S2P Require Import Os_Alarm_Runs.
From S2P Require Import Os_Alarm_Boot.
From S2P Require Import Os_Expiry.
From S2P Require Import Os_Demo.

Section Theorems.
Context {W : Type} {Cfg : Os_Cfg} {Env : Os_Env W}.
Abbreviation S := (Os_State W).

(** ** Valid systems and their runs *)
Record valid_system (rank : nat -> nat) (res : list OsResourceType) (tm : Timers) : Prop := {
  vy_cfg : valid_cfg;
  vy_timers : valid_timers rank tm;
  vy_res : Forall valid_res res;
  vy_tick : (Os_Arc_OsTickCounter < length tm.(counter_list))%nat
}.
(** [m] is reached by the events [es] after start-up. *)
Definition reached (res : list OsResourceType) (tm : Timers) (mode : Z) (w : W) (es : list Event) (m : Machine) : Prop :=
  exists m0, boot res tm mode w = Some m0 /\ run_ok es m0 = true /\ run es m0 = Some m.

Section Reached.
Context (rank : nat -> nat) (res : list OsResourceType) (tm : Timers) (mode : Z) (w : W).
Hypothesis Hsys : valid_system rank res tm.

Lemma os_reached_inv es m : reached res tm mode w es m -> MInv (shape_of rank tm) m.
Proof using Hsys.
  intros (m0 & E0 & Hok & E). destruct Hsys as [Hv Htm Hres Htick]. destruct (boot_ok rank res tm mode w Hv Htm Hres) as (m1 & E1 & HM).
  rewrite E0 in E1. injection E1 as <-. destruct (run_safe (shape_of rank tm) Hv Htick es m0 HM Hok) as (m' & E' & HM'). rewrite E in E'. by injection E' as <-.
Qed.
Lemma os_reached_core es m : reached res tm mode w es m -> exists x st, Inv (shape_of rank tm) x st m.(os).
Proof using Hsys. intros [(x & HB & _) _]%os_reached_inv. destruct HB as [HI _]. by eexists _, _. Qed.
(** A task runs. *)
Lemma os_reached_task es m :
  reached res tm mode w es m -> m.(frames) = [] -> exists x, Inv (shape_of rank tm) x ST_RUNNING m.(os) /\ nest m.(os) = 0.
Proof using Hsys. intros [(x & HB & _) _]%os_reached_inv Hf. destruct HB as (HI & _ & Hn). rewrite Hf in *. by exists x. Qed.
End Reached.

(** C1. No fault: a system with a valid configuration (no internal resources, activation limits below 255 and
    above 1 only for preemptable basic tasks, priorities below that of the scheduler, an idle task that is started, both hooks before
    and after tasks or none, schedule tables that ScheduleTableConsistenyCheck accepts, no cycle of counters that alarms increment)
    starts. Then tasks and interrupt service routines of category 2 call services in
    any order, and interrupts come in their code, at any time when they are enabled, also nested, but those of category 2 not in those
    of category 1, and none within a call: in the middle of SetEvent and of a refused ActivateTask an interrupt can make assertions
    fail ([os_set_event_race], [os_activate_race]). If the application keeps to the rules [call_ok] - the idle task does not end or
    wait, ChainTask names another task only with the last activation and the own one only if it is preemptable, a task function
    returns with at most one resource and then with its last activation, tasks do not set events with interrupts disabled, resources
    are released in reverse order and the scheduler is not taken twice, OsTick is called in interrupts, NextScheduleTable is not used,
    GetScheduleTableStatus has a pointer, DisableAllInterrupts is not nested - then no assertion of the kernel fails, no list is
    broken, no null pointer followed, no context restored that was not saved, and the increment of a counter ends. *)
Theorem os_never_faults rank res tm mode w :
  valid_system rank res tm ->
  exists m0, boot res tm mode w = Some m0 /\ forall es, run_ok es m0 = true -> exists m, run es m0 = Some m.
Proof.
  intros [Hv Htm Hres Htick]. destruct (boot_ok rank res tm mode w Hv Htm Hres) as (m0 & E & HM). exists m0. split; [done|]. intros es Hok.
  destruct (run_safe (shape_of rank tm) Hv Htick es m0 HM Hok) as (m & Em & _). by exists m.
Qed.

(** C2. The most important task runs. In a system with a valid configuration, while tasks and interrupt service routines keep to the
    rules [call_ok] and interrupts come in their code, between the calls of services and not within them (so events are not set with
    interrupts disabled, after which the code does not dispatch; and there are no internal resources): whenever the code of a
    preemptable task is executed, outside interrupts, every other ready task has a lower priority, or the same one and is behind it in
    the ready queue (ceilings of resources included in the priorities). *)
Theorem os_highest_priority_runs rank res tm mode w es m :
  valid_system rank res tm -> reached res tm mode w es m -> m.(frames) = [] -> (C (curr m.(os))).(scheduling) = FULL ->
  let s := m.(os) in
  (T s (curr s)).(state) = ST_RUNNING /\ curr s ∈ ready s /\
  forall u, u ∈ ready s -> u <> curr s -> act s u < act s (curr s) \/ act s u = act s (curr s) /\ before (ready s) (curr s) u.
Proof.
  intros Hsys Hr Hf Hfull s. destruct (os_reached_task rank res tm mode w Hsys es m Hr Hf) as (x & [HC HT] & Hn). fold s in HC, HT, Hn, Hfull.
  pose proof (i_curr _ _ _ _ HC) as Hst. pose proof (curr_ready _ _ _ _ HC) as Hcr. split_and!; [done|done|]. intros u Hu Hne.
  pose proof (HT Hst Hfull u Hu) as Hle. destruct (before_total _ _ _ Hu Hcr Hne) as [Hb|Hb]; [left|destruct (decide (act s u = act s (curr s))); [by right|left; lia]].
  pose proof (p_fifo s (i_prio _ _ _ _ HC) (curr s) u (or_introl eq_refl) Hb) as Hlt. pose proof (base_act s (curr s) (i_res _ _ _ _ HC)).
  destruct (decide (held s u = [])) as [E|E]; [rewrite (held_act_base s u (i_res _ _ _ _ HC) E); lia|].
  pose proof (p_run s (i_prio _ _ _ _ HC) u Hne E). lia.
Qed.

(** C3. Priority ceiling. In a system with a valid configuration, while tasks and interrupt service routines keep to the rules
    [call_ok] and interrupts come in their code, between the calls of services and not within them: a resource that the running task
    may access, the scheduler included, belongs to no other task. So GetResource, with interrupts not disabled, takes one that the
    task does not hold at once, whatever the other tasks hold (unless the task holds one with a higher ceiling), and from then on no
    other task that may access it is more important. *)
Theorem os_priority_ceiling rank res tm mode w es m r :
  valid_system rank res tm -> reached res tm mode w es m -> m.(frames) = [] ->
  let s := m.(os) in
  (r < sch s)%nat /\ Z.testbit (C (curr s)).(resourceAccess) (Z.of_nat r) = true \/ r = sch s ->
  (forall o, (Rs s r).(owner) = Some o -> o = curr s) /\
  (r ∉ held s (curr s) -> act s (curr s) <= (Rs s r).(ceiling_priority) -> dis s = false ->
   exists s', GetResource r s = Some (E_OK, s') /\ (Rs s' r).(owner) = Some (curr s) /\
     forall u, Z.testbit (C u).(resourceAccess) (Z.of_nat r) = true -> (r < sch s)%nat -> base u <= act s' (curr s)).
Proof.
  intros Hsys Hr Hf s Hacc. destruct (os_reached_task rank res tm mode w Hsys es m Hr Hf) as (x & [HC HT] & Hn). fold s in HC, HT, Hn.
  pose proof (vy_cfg _ _ _ Hsys) as Hv. pose proof (i_res _ _ _ _ HC) as Hri. split; [intros o Ho; by eapply owner_self|].
  intros Hnot Hle Hd. assert (Hfree : (Rs s r).(owner) = None).
  { destruct (Rs s r).(owner) as [o|] eqn:Eo; [|done]. assert (o = curr s) as -> by (by eapply owner_self). by apply (r_owner s Hri) in Eo. }
  assert (Hrl : (r <= sch s)%nat) by (destruct Hacc as [[? _]| ->]; lia). assert (Hlen : (r < length s.(resource_list))%nat) by (pose proof (r_some s Hri); unfold sch in *; lia).
  assert (Ht : (curr s < OS_TASK_CNT)%nat) by (eapply ready_range; [apply HC|by eapply curr_ready]). pose proof (q_len s (i_queue _ _ _ _ HC)) as Hl.
  set (s1 := set_irq (irq_set false s.(irq)) s).
  destruct (run_add r (curr s) s1) as (s2 & E2 & Htd); [done|cbn; lia|done|apply Hri|].
  exists (set_irq (irq_set s.(irq).(irq_enabled) s2.(irq)) s2). split.
  - unfold GetResource. unfold bind at 1, Os_SysIntAnyDisabled, get. cbn [mbind option_bind]. fold (dis s). rewrite Hd. cbn [OS_VALIDATE_STD negb].
    unfold bind at 1, RES_SCHEDULER, get. cbn [mbind option_bind]. fold (sch s). rewrite (proj2 (Nat.leb_le _ _) Hrl). cbn [OS_VALIDATE_STD].
    unfold Irq_Save, bind, get, modify. cbn [mbind option_bind ret]. unfold ret. cbn [mbind option_bind]. fold s1.
    unfold OS_SYS, Os_SysTaskGetCurr, get. cbn [mbind option_bind]. change s1.(sys).(intNestCnt) with (nest s). rewrite Hn. cbn [Z.eqb negb].
    change (OS_SYS currTaskPtr s1) with (Some (curr s, s1)). cbn [mbind option_bind].
    rewrite run_TaskGet by (cbn; lia). cbn [mbind option_bind]. rewrite run_constPtr by done. cbn [mbind option_bind].
    rewrite run_ResourceGet by done. cbn [mbind option_bind]. change (Rs s1 r) with (Rs s r). change (T s1 (curr s)) with (T s (curr s)).
    assert (E : bool_decide (r <> sch s) && (negb (Z.testbit (C (curr s)).(resourceAccess) (Z.of_nat r)) || bool_decide ((Rs s r).(owner) <> None) ||
      ((Rs s r).(ceiling_priority) <? (T s (curr s)).(activePriority))) = false).
    { destruct Hacc as [[_ ->]| ->]; [|by rewrite bool_decide_eq_false_2 by (intros H; by apply H)]. rewrite Hfree, (proj2 (Z.ltb_ge _ (T s (curr s)).(activePriority)) Hle).
      rewrite (bool_decide_eq_false_2 (None <> None)) by (intros H; by apply H). by rewrite andb_false_r. }
    rewrite E. rewrite E2. done.
  - split; [change ((Rs s2 r).(owner) = Some (curr s)); rewrite (td_Rs _ _ _ _ _ _ Htd), decide_True by done; done|].
    intros u Hb Hlt. change (base u <= act s2 (curr s)). unfold act. rewrite (td_T _ _ _ _ _ _ Htd), decide_True by done. cbn. by apply (r_ceiling s Hri).
Qed.

(** C4. States of tasks. In a system with a valid configuration, while tasks and interrupt service routines keep to the rules
    [call_ok] and interrupts come in their code, between the calls of services and not within them (in the middle of a refused
    ActivateTask the second and third of these statements can fail, see [os_activate_race]): after every call, in tasks and in
    interrupts, the ready queue holds exactly the tasks that are ready or running, each once; a task is suspended exactly when it has
    no activation left; it never has more than its limit; a waiting task is an extended one, it is not the current one, and none of
    the events it waits for is set: no wake-up is lost. *)
Theorem os_task_states rank res tm mode w es m t :
  valid_system rank res tm -> reached res tm mode w es m -> (t < OS_TASK_CNT)%nat ->
  let s := m.(os) in
  NoDup (ready s) /\ (t ∈ ready s <-> ready_or_running (T s t).(state) = true) /\
  ((T s t).(state) = ST_SUSPENDED <-> (T s t).(activations) = 0) /\ 0 <= (T s t).(activations) <= (C t).(activationLimit) /\
  ((T s t).(state) = ST_WAIT_EVENT -> (C t).(proc_type) = PROC_EXTENDED /\ t <> curr s /\ Z.land (T s t).(ev_set) (T s t).(ev_wait) = 0).
Proof.
  intros Hsys Hr Hlt s. destruct (os_reached_core rank res tm mode w Hsys es m Hr) as (x & st & HC & _). fold s in HC.
  pose proof (i_queue _ _ _ _ HC) as Hq. pose proof (i_task _ _ _ _ HC) as Ht. pose proof (vt_limit _ (valid_const t (vy_cfg _ _ _ Hsys) Hlt)) as Hlim.
  split_and!; [apply Hq|apply Hq| | | |].
  - split; [by apply (t_suspended s Ht)|]. intros E. destruct (decide ((T s t).(state) = ST_SUSPENDED)) as [|H]; [done|]. pose proof (t_active s Ht t Hlt H). lia.
  - destruct (decide ((T s t).(state) = ST_SUSPENDED)) as [E|E]; [rewrite (t_suspended s Ht t Hlt E); lia|]. pose proof (t_active s Ht t Hlt E). lia.
  - destruct (decide ((T s t).(state) = ST_SUSPENDED)) as [E|E]; [rewrite (t_suspended s Ht t Hlt E); lia|]. pose proof (t_active s Ht t Hlt E). lia.
  - intros Hw. destruct (t_wait s Ht t Hw) as [H1 H2]. split_and!; [done| |done]. intros ->. pose proof (i_curr _ _ _ _ HC) as Hc. rewrite Hw in Hc.
    destruct (i_run _ _ _ _ HC) as [->| ->]; done.
Qed.
(** What holds of an alarm of the system counter in every reachable state. *)
Lemma os_reached_alarm rank res tm mode w a es m :
  valid_system rank res tm -> system_alarm tm a -> reached res tm mode w es m -> forallb typed_event es = true ->
  MInv (shape_of rank tm) m /\ code_ok a m /\ Ticking a m.(os).
Proof.
  intros Hsys Ha Hr Hty. pose proof (os_reached_inv rank res tm mode w Hsys es m Hr) as HM. split; [done|]. destruct Hr as (m0 & E0 & Hok & E), Hsys as [Hv Htm Hres Htick].
  destruct (boot_alarm rank res tm mode w a m0 Hv Htm Hres Ha E0) as [HT Hc]. destruct (boot_ok rank res tm mode w Hv Htm Hres) as (m1 & E1 & HM0).
  rewrite E0 in E1. injection E1 as <-. by eapply (run_ticking a (shape_of rank tm) Hv Htick es m0 m).
Qed.

(** C5. Alarms keep time. Consider an alarm of the counter that the system tick drives, a hardware counter with values below 2^32, with start values and periods within the range of the counter,
    in
    a system whose first schedule table, if there is one, belongs to another counter (Os_CounterInit empties the list of alarms of
    that one), in a state reached while tasks and
    interrupt service routines keep to the rules [call_ok], alarm services being called with values of their type, and interrupts come
    between the calls of services and not within them; and how
    many ticks it has left. Whatever tasks and interrupts do from there on under the same rules, as long as none of them sets or
    cancels this alarm: after [k] ticks it has [k] less, it expires when none is left, and then starts over with its period, or stops
    if that is 0. An alarm accepted by [SetRelAlarm] has as many ticks left as were asked for, and the period that was asked for
    unless its action is a call-back; the code ignores the period of those, and then it is a whole round of the counter. *)
Theorem os_alarms_on_time rank res tm mode w a es m es' m' :
  valid_system rank res tm -> system_alarm tm a -> reached res tm mode w es m -> forallb typed_event es = true ->
  run_ok es' m = true -> run es' m = Some m' -> forallb (fun e => negb (own_event a e)) es' = true ->
  (alarm_clock a m'.(os) = n ← alarm_clock a m.(os); due (alarm_period a m.(os)) (ticks es') n) /\
  forall inc cycle m1, 0 <= inc -> step (ECall (CSetRelAlarm a inc cycle)) m = Some m1 -> m1.(result) = Some E_OK ->
    alarm_clock a m1.(os) = Some inc /\
    forall al, m.(os).(timers).(alarm_list) !! a = Some al -> al.(action) <> ALARM_ACTION_ALARMCALLBACK -> alarm_period a m1.(os) = cycle.
Proof.
  intros Hsys Ha Hr Hty Hok E Hno. destruct (os_reached_alarm rank res tm mode w a es m Hsys Ha Hr Hty) as (HM & Hc & HT). split.
  - rewrite (run_clock a (shape_of rank tm) (vy_cfg _ _ _ Hsys) (vy_tick _ _ _ Hsys) es' m m' HM Hok Hno Hc HT E). destruct (sys_alarm a _ HT) as (c & al & _ & _ & _ & Ew & Hrg).
    destruct (clock_watch a _ _ _ _ Ew) as [-> ->]. unfold clock. pose proof (left_range c al Hrg) as Hl. destruct al.(active); cbn [mbind option_bind].
    + apply due_iter; [lia|]. unfold period. destruct Hrg. destruct al.(action); lia.
    + apply stopped_iter.
  - intros inc cycle m1 H0 E1 Hres. cbn [step service] in E1. unfold atomic in E1. destruct (SetRelAlarm a inc cycle m.(os)) as [[r s']|] eqn:Es; [|done].
    cbn in E1. injection E1 as <-. cbn in Hres. injection Hres as ->. by eapply set_clock.
Qed.

(** C6. An alarm that activates a task or sets events does so when it expires. Consider an alarm of the counter that the system tick
    drives, a hardware counter with values below 2^32, with start values and periods within the range of the counter,
    in a system whose first schedule table, if there is one, belongs to another
    counter (Os_CounterInit empties the list of alarms of that one), in a state reached while
    tasks and interrupt service routines keep to the rules [call_ok], alarm services being called with values of their type, and
    interrupts come between the calls of services and not within them. At the
    tick that is its last one, the task it activates, if interrupts are not disabled by the application, has one activation more, or
    as many as it may have; the events it sets in an extended task that is not suspended are set, and if the task waits for one of
    them it is ready. Other alarms and the schedule tables that act in the same tick do not undo it. (Nothing is said of alarms that
    increment a counter or have a call-back.) *)
Theorem os_alarm_expires rank res tm mode w a es m m' al :
  valid_system rank res tm -> system_alarm tm a -> reached res tm mode w es m -> forallb typed_event es = true ->
  event_ok m (ECall COsTick) = true -> step (ECall COsTick) m = Some m' -> alarm_clock a m.(os) = Some 1 -> m.(os).(timers).(alarm_list) !! a = Some al ->
  effect al.(action) m.(os) m'.(os).
Proof.
  intros Hsys Ha Hr Hty He E Hck Hal. destruct (os_reached_alarm rank res tm mode w a es m Hsys Ha Hr Hty) as (HM & Hc & HT). pose proof (vy_cfg _ _ _ Hsys) as Hv.
  destruct (tick_done (shape_of rank tm) Hv (vy_tick _ _ _ Hsys) m HM He) as (r & s' & Es). cbn [step] in E. rewrite Es in E. cbn in E. injection E as <-. cbn [os].
  destruct (sys_alarm a _ HT) as (c & al1 & Ea & _ & _ & Ew & Hrg). rewrite Hal in Ea. injection Ea as <-.
  rewrite (proj1 (clock_watch a _ _ _ _ Ew)) in Hck. unfold clock in Hck. destruct al.(active) eqn:Eact; [|done]. injection Hck as Hck.
  destruct HM as [(x & ([HC _] & _ & Hn) & _) _]. assert (HI : InIsr m.(os)).
  { split; [|split; [apply HC|]]; [by apply andb_prop in He as [_ [_ H%negb_true_iff%Z.eqb_neq]%andb_prop]|]. intros t Ht.
    split; [by apply (t_suspended _ (i_task _ _ _ _ HC))|by apply (t_active _ (i_task _ _ _ _ HC))]. }
  pose proof (tick_effect Hv a (Datatypes.S (length m.(os).(timers).(counter_list))) c al _ m.(os) Ew (proj1 HT) HI Eact (proj2 (expires_now c al Hrg) Hck)) as H.
  cbn [service] in Es. unfold kbind at 1, atomic, counters, get in Es. cbn [and_then] in Es. unfold kpost in H. unfold kbind in Es.
  destruct (OsTick _ m.(os)) as [[] s1|? ? ?|]; cbn in Es; [|done|done]. by injection Es as _ <-.
Qed.
End Theorems.

(** ** The small system *)
Section Witnesses.
Import OsDemo.

Ltac demo_list := repeat first [apply Forall_nil_2 | apply Forall_cons_2].
Lemma demo_valid : valid_system rank resources timers.
Proof.
  split.
  - split; [|by eexists|done]. unfold Os_TaskConstList, cfg. demo_list; split; cbn; unfold OS_RES_SCHEDULER_PRIO; auto; lia.
  - split.
    + cbn. demo_list; split; cbn; try lia; intros c Hc; first [discriminate Hc|injection Hc as <-; cbn; lia].
    + cbn. demo_list. split; cbn; try done. eexists. split; [done|]. split; [done|]. exists 1. split; [done|]. cbn. lia.
    + cbn. demo_list; split; cbn; try done; lia.
    + intros [|[|c]]; cbn; lia.
  - cbn. demo_list. by split.
  - cbn. lia.
Qed.
(** A property of the machine after some events, by evaluation. *)
Lemma demo_reached (es : list Event) (P : Machine -> bool) :
  match booted with Some m => run_ok es m && match run es m with Some m => P m | None => false end | None => false end = true ->
  exists m, after es = Some m /\ reached resources timers 1 [] es m /\ P m = true.
Proof.
  unfold after, reached, booted. destruct (boot resources timers 1 []) as [m0|]; [|done]. cbn [mbind option_bind]. intros [Hok H]%andb_prop. destruct (run _ m0) as [m|] eqn:E; [|done].
  exists m. split_and!; [done| |done]. by exists m0.
Qed.
Lemma demo_alarm : system_alarm timers 0.
Proof.
  split; [|intros t [= <-]; cbn; lia]. eexists _, _. split; [reflexivity|]. split; [reflexivity|]. split_and!; try reflexivity. split; cbn; try lia. intros p Hp. discriminate Hp.
Qed.

Lemma os_never_faults_witness : exists m, after events = Some m.
Proof.
  destruct (os_never_faults rank resources timers 1 [] demo_valid) as (m0 & E & Hrun). unfold after, booted. rewrite E. cbn [mbind option_bind]. apply Hrun.
  assert (H : match booted with Some m => run_ok events m | None => false end = true) by (vm_compute; reflexivity). unfold booted in H. by rewrite E in H.
Defined.
(** Task 1 has the resource, and so a priority as high as that of task 2, which has become ready behind it. *)
Lemma os_highest_priority_runs_witness : exists m, after (take 11 events) = Some m /\ curr m.(os) = 1%nat /\
  (act m.(os) 2 < act m.(os) 1 \/ act m.(os) 2 = act m.(os) 1 /\ before (ready m.(os)) 1 2).
Proof.
  destruct (demo_reached (take 11 events) (fun m => bool_decide (m.(frames) = [] /\ curr m.(os) = 1%nat /\ 2%nat ∈ ready m.(os)))) as (m & E & Hr & H); [vm_compute; reflexivity|].
  apply bool_decide_eq_true in H as (Hf & Hc & H2). exists m. split_and!; [exact E|exact Hc|].
  destruct (os_highest_priority_runs rank resources timers 1 [] (take 11 events) m demo_valid Hr Hf) as (_ & _ & Hu); [rewrite Hc; reflexivity|].
  rewrite Hc in Hu. apply Hu; [exact H2|lia].
Defined.
(** Before that, when task 1 has just been activated. *)
Lemma os_priority_ceiling_witness : exists m s', after (take 7 events) = Some m /\ curr m.(os) = 1%nat /\ GetResource 0 m.(os) = Some (E_OK, s') /\
  base 2 <= act s' 1.
Proof.
  destruct (demo_reached (take 7 events) (fun m => bool_decide (m.(frames) = [] /\ curr m.(os) = 1%nat /\ sch m.(os) = 1%nat /\ held m.(os) 1 = [] /\
    act m.(os) 1 <= (Rs m.(os) 0).(ceiling_priority) /\ dis m.(os) = false))) as (m & E & Hr & H); [vm_compute; reflexivity|].
  apply bool_decide_eq_true in H as (Hf & Hc & Hs & Hh & Hle & Hd). exists m.
  destruct (os_priority_ceiling rank resources timers 1 [] (take 7 events) m 0 demo_valid Hr Hf) as [_ Hget]; [left; rewrite Hs, Hc; split; [lia|reflexivity]|].
  rewrite Hc in Hget. destruct Hget as (s' & E' & _ & Hu); [rewrite Hh; apply not_elem_of_nil|exact Hle|exact Hd|].
  exists s'. split_and!; [exact E|exact Hc|exact E'|]. apply Hu; [reflexivity|rewrite Hs; lia].
Defined.
(** Task 2 waits. *)
Lemma os_task_states_witness : exists m, after (take 1 events) = Some m /\ (T m.(os) 2).(state) = ST_WAIT_EVENT /\ 2%nat <> curr m.(os).
Proof.
  destruct (demo_reached (take 1 events) (fun m => bool_decide ((T m.(os) 2).(state) = ST_WAIT_EVENT))) as (m & E & Hr & H); [vm_compute; reflexivity|].
  apply bool_decide_eq_true in H. exists m. split_and!; [exact E|exact H|].
  destruct (os_task_states rank resources timers 1 [] (take 1 events) m 2 demo_valid Hr) as (_ & _ & _ & _ & Hw); [cbn; lia|]. by apply Hw.
Defined.
(** Alarm 0 is set for 3 ticks and then every 5; it expires at the third of four ticks, which activates task 1. *)
Definition cyclic : list Event := [ECall (CWaitEvent 1); ECall (CSetRelAlarm 0 3 5)].
Definition one_tick : list Event := [EIrq 0; ECall COsTick; EIret].
Lemma os_alarms_on_time_witness : exists m m', after cyclic = Some m /\ run (one_tick ++ one_tick ++ one_tick ++ one_tick) m = Some m' /\
  alarm_clock 0 m'.(os) = Some 4.
Proof.
  destruct (demo_reached cyclic (fun m => bool_decide (alarm_clock 0 m.(os) = Some 3 /\ alarm_period 0 m.(os) = 5) &&
    run_ok (one_tick ++ one_tick ++ one_tick ++ one_tick) m && match run (one_tick ++ one_tick ++ one_tick ++ one_tick) m with Some _ => true | None => false end))
    as (m & E & Hr & H); [vm_compute; reflexivity|]. apply andb_prop in H as [[[Hc Hp]%bool_decide_eq_true Hok]%andb_prop Hrun].
  destruct (run _ m) as [m'|] eqn:Em; [|discriminate Hrun]. exists m, m'. split_and!; [exact E|exact Em|].
  destruct (os_alarms_on_time rank resources timers 1 [] 0 cyclic m _ m' demo_valid demo_alarm Hr eq_refl Hok Em eq_refl) as [Hck _]. rewrite Hc, Hp in Hck. exact Hck.
Defined.
Lemma os_alarm_expires_witness : exists m m', after (cyclic ++ one_tick ++ one_tick ++ [EIrq 0]) = Some m /\ step (ECall COsTick) m = Some m' /\
  (T m.(os) 1).(activations) = 0 /\ 1 <= (T m'.(os) 1).(activations).
Proof.
  destruct (demo_reached (cyclic ++ one_tick ++ one_tick ++ [EIrq 0]) (fun m => bool_decide (alarm_clock 0 m.(os) = Some 1 /\ dis m.(os) = false /\ (T m.(os) 1).(activations) = 0) &&
    match m.(os).(Os_Types.timers).(alarm_list) !! 0%nat with Some {| action := ALARM_ACTION_ACTIVATETASK 1 |} => true | _ => false end &&
    event_ok m (ECall COsTick) && match step (ECall COsTick) m with Some _ => true | None => false end))
    as (m & E & Hr & H); [vm_compute; reflexivity|]. apply andb_prop in H as [[[(Hc & Hd & H0)%bool_decide_eq_true Ha]%andb_prop He]%andb_prop Hstep].
  destruct (step _ m) as [m'|] eqn:Em; [|discriminate Hstep]. destruct (_ !! 0%nat) as [al|] eqn:Eal; [|discriminate Ha]. exists m, m'. split_and!; [exact E|exact Em|exact H0|].
  pose proof (os_alarm_expires rank resources timers 1 [] 0 (cyclic ++ one_tick ++ one_tick ++ [EIrq 0]) m m' al demo_valid demo_alarm Hr eq_refl He Em Hc Eal) as H.
  destruct al as [? ? ? ? [[|[|d]]|? ?| |?] ?]; try discriminate Ha. cbn in H. unfold activated in H. rewrite H0 in H. apply H; [lia|exact Hd].
Defined.
End Witnesses.
