(* ===== verification/Os_Windows.v ===== *)
(** * Interrupts in the middle of a service

    Two services use data of a task while interrupts are not masked.  [SetEvent] tests the state of the task before it masks them, and
    [ActivateTask] unmasks them before it takes back the activation it refuses.  Here: a call that is not interrupted there is the call as one step
    ([window_service]), and runs of the small system in which an interrupt comes there and an assertion of the kernel fails in the end, although
    tasks and interrupt service routines keep to all rules.  They are the reason why [event_ok] excludes such interrupts. *)

From stdpp Require Import sets.
From S2P Require Import Prelude.
From S2P Require Import StateMonad.
From S2P Require Import Coroutine.
From S2P Require Import Os_Irq.
From S2P Require Import Os_Types.
From S2P Require Import Os.
From S2P Require Import Os_Timers.
From S2P Require Import Os_System.
From S2P Require Import Os_Inv.
From S2P Require Import Os_Update.
From S2P Require Import Os_Dispatch.
From S2P Require Import Os_Machine.
From S2P Require Import Os_Boot.
From S2P Require Import Os_Demo.
From S2P Require Import Os_Theorems.

Section Windows.
Context {W : Type} {Cfg : Os_Cfg} {Env : Os_Env W}.
Abbreviation S := (Os_State W).
Implicit Types (s : S).

(** ** The window splits the call *)
Lemma window_service c s s' k : window c s = Some (s', k) -> service c s = k s'.
Proof.
  destruct c; try done; cbn [window service]; destruct (s.(Os_TaskVarList) !! t) as [p|] eqn:Ep; try done; cbn [mbind option_bind];
    destruct (Os_TaskConstList !! t) as [c|] eqn:Ec; try done; cbn [mbind option_bind];
    assert (Ht : TASK_CHECK_ID t = true) by (apply Nat.ltb_lt; by eapply lookup_lt_Some).
  - destruct (_ && _ && _) eqn:E; [|done]. intros [= <- <-]. apply andb_prop in E as [[E1 E2]%andb_prop E3].
    unfold ActivateTask, OS_VALIDATE_STD_K. rewrite Ht. erewrite atomic_done by done. erewrite atomic_done by done. rewrite E1.
    erewrite atomic_done by done. unfold task_set, Os_TaskGet, constPtr. set (s1 := set_irq _ s).
    assert (Ep1 : s1.(Os_TaskVarList) !! t = Some p) by exact Ep.
    erewrite atomic_done; [|unfold bind, get, modify, deref; cbn [mbind option_bind]; rewrite Ep1; done].
    set (s2 := set_Os_TaskVarList _ s1).
    assert (Ep2 : s2.(Os_TaskVarList) !! t = Some (set_activations (u8 (p.(activations) + 1)) p)) by (cbn; by rewrite list_lookup_alter_eq, Ep).
    erewrite atomic_done; [|unfold bind, get, deref; cbn [mbind option_bind]; rewrite Ep2; done].
    erewrite atomic_done; [|unfold deref; rewrite Ec; done]. cbn [state activations set_activations]. rewrite E2, E3. cbn [andb].
    assert (El : alter (fun p => set_activations (u8 (p.(activations) + 1)) p) t s.(Os_TaskVarList) = alter (set_activations (u8 (p.(activations) + 1))) t s.(Os_TaskVarList)).
    { apply list_eq. intros i. destruct (decide (i = t)) as [->|Hne]; [by rewrite !list_lookup_alter_eq, Ep|by rewrite !list_lookup_alter_ne]. }
    erewrite atomic_done by done. f_equal. subst s1 s2. unfold set_irq, set_Os_TaskVarList, irq_set. cbn. rewrite El. by destruct s as [? ? ? ? [] ? ? ?].
  - destruct (_ && _) eqn:E; [|done]. intros [= <- <-]. apply andb_prop in E as [E1 E2].
    unfold SetEvent, OS_VALIDATE_STD_K. rewrite Ht. unfold Os_TaskGet, constPtr. erewrite atomic_done; [|unfold deref; rewrite Ec; done]. rewrite E1.
    erewrite atomic_done; [|unfold bind, get, deref; cbn [mbind option_bind]; rewrite Ep; done]. by rewrite E2.
Qed.
(** What remains of [SetEvent] does not expect a task that has terminated: its events waited for are still there. *)
Lemma set_event_suspended t mask s :
  (t < length s.(Os_TaskVarList))%nat -> (T s t).(state) = ST_SUSPENDED -> Z.land mask (T s t).(ev_wait) <> 0 -> set_event_masked t mask s = Fault.
Proof.
  intros Ht Hs Hw. unfold set_event_masked. erewrite atomic_done by done. set (s1 := set_irq _ s).
  erewrite atomic_done by (by apply run_task_set). set (s2 := upd t _ s1). assert (Ht2 : (t < length s2.(Os_TaskVarList))%nat) by (unfold s2; by rewrite len_upd).
  erewrite atomic_done by (by apply run_TaskGet). pose proof (changed_self _ _ _ _ _ (changed_upd t (fun p => set_ev_set (Z.lor p.(ev_set) mask) p) s1 Ht)) as E.
  fold s2 in E. rewrite E. change (T s1 t) with (T s t). cbn [ev_wait state set_ev_set]. rewrite Hs, (proj2 (Z.eqb_neq _ _) Hw). done.
Qed.

(** ** Runs with such interrupts

    Everything keeps to the rules of [event_ok], and an interrupt can come in the window of a call. *)
Definition event_kept (m : Machine) (e : Event) : bool :=
  match e with
  | EIrqWithin c isr => enabled m e && event_ok m (ECall c) && event_ok m (EIrq isr)
  | _ => event_ok m e
  end.
Fixpoint run_kept (es : list Event) (m : Machine) : bool :=
  match es with
  | [] => true
  | e :: es => event_kept m e && match step e m with Some m => run_kept es m | None => true end
  end.
End Windows.

Section Races.
Import OsDemo.
Abbreviation Machine := (@Os_System.Machine (list Z)).
(** The events happen in the small system, and [P] holds afterwards; [None]: a fault. *)
Definition comes_to (es : list Event) (P : option Machine -> bool) : bool :=
  match booted with Some m => run_kept es m && P (run es m) | None => false end.
Definition of_task (t : nat) (f : OsTaskVarType -> bool) (m : option Machine) : bool := match m with Some m => f (T m.(os) t) | None => false end.
Definition fault (m : option Machine) : bool := match m with Some _ => false | None => true end.

(** Task 2 waits for event 1.  The idle task sets it and is interrupted between the test and [Irq_Save]; the interrupt sets the event too, and
    task 2 ends. *)
Definition set_event_race : list Event := [
  ECall (CWaitEvent 1); EIrqWithin (CSetEvent 2 1) 0; ECall (CSetEvent 2 1); EIret; EContinue; ECall CTerminateTask].

(** Task 2 waits; it may be activated once.  The idle task activates it in vain and is interrupted before it takes the activation back; the interrupt
    lets task 2 run, which ends and, since it seems to be activated once more, begins again and waits. *)
Definition activate_race : list Event := [
  ECall (CWaitEvent 1); EIrqWithin (CActivateTask 2) 0; ECall (CSetEvent 2 1); EIret; EContinue; ECall CTerminateTask;
  ECall (CClearEvent 1); ECall (CWaitEvent 1); EContinue].
End Races.
